(* ===== verification/_CoqProject ===== *)
-Q . S2P
Prelude.v
Text.v
Schema.v
Access.v
Sample.v
Sessions.v
Tokens.v
StepUp.v
Mfa.v
Outbox.v
AppAccess.v
Directory.v
Crypto.v
Requests.v
OAuth.v
ScimInbound.v
Reconcile.v
ReconcileJobs.v
Alerts.v
Net.v
Dispatch.v
Registry.v
Factors.v
Query.v
Web.v
Login.v
Admin.v
Console.v
Account.v
ScimApi.v
Explain.v
OAuthApi.v
Routes.v
