(* ===== verification/Prelude.v ===== *)
(** KyIdentity-server: a model of the identity provider under [src/internal/].

    * The program

    A single-binary identity provider over SQLite: a directory of people and
    groups, browser sessions, an OAuth/OIDC provider, second factors, inbound
    and outbound SCIM provisioning, an audit trail and alerts.  Every mutation
    is a database transaction that writes its audit row and its downstream
    work together.  The packages call downwards: HTTP handlers ([api]) over
    the engines ([oauth], [mfa], [sync], [auth], [netguard], [crypto]) over
    the tables ([store]).

    * How it is modelled

    The database is one record of finite maps ([Schema.DB]); a store method is
    a state-and-error function [Tx] that keeps the database it started from
    when it fails, as a rolled-back transaction does.  A call that commits
    several transactions is a [Run] ([Prelude]): what an earlier one committed
    stays when a later one fails; an HTTP handler is a [Run] whose error is
    the early reply ([Web]).  Times are nanoseconds in [Z], INTEGER columns
    are unix seconds, and each operation takes the one instant [now] it reads.
    Random identifiers and draws are arguments, so a statement about all of
    them covers every outcome of the generator.  Machine arithmetic is wrapped
    where it can overflow ([Sessions], [Crypto], [Mfa]).  Constraint
    violations, triggers and cascades of the SQL schema are written out at the
    statements they guard.

    * Files, in dependency order

    - [Prelude]: strings, instants, tables as finite maps with filtering,
      updating and counting, transactions, runs, automation.
    - [Text]: UTF-8 decoding and Unicode case folding, as [unicode/utf8] and
      [strings.EqualFold] do them.
    - [Schema]: the rows ([store/models.go] and the struct beside each table),
      the database, the errors, the audit insert.
    - [Access]: the views that decide who may reach an application, the
      administrator guard, MFA enrollment ([store/app_access.go],
      [store/expiry.go], [store/enrollment_policy.go]).
    - [Sample]: the small database the witnesses run on.
    - [Sessions]: browser sessions, limits, revocation, back-channel logout
      ([store/sessions.go], [session_limits.go], [logout_deliveries.go]).
    - [Tokens]: codes, access tokens, refresh families
      ([store/refresh_tokens.go], [store/app_authentication.go]).
    - [StepUp]: re-authentication proofs ([store/stepup.go]).
    - [Mfa]: lockout and stored factors ([store/store.go]).
    - [Outbox]: desired state, delivery events, fences and remote mappings
      ([store/provisioning.go], [sync_delivery.go], [scim.go]).
    - [AppAccess]: assignments, app roles and access requests.
    - [Directory]: accounts, groups, links, delegations, due ends and the
      enrollment policy ([store/store.go], [groups.go], [onboarding.go]).
    - [Crypto]: SHA-256, HMAC, base64 and secrets sealed at rest
      ([crypto/crypto.go]).
    - [Requests], [OAuth]: authorization requests and the provider's flows
      ([oauth/*.go]).
    - [ScimInbound]: upstream directories ([store/scim_inbound*.go]).
    - [Reconcile], [ReconcileJobs]: drift, its repair, the job queue, the
      listing of a target, and restore ([store/reconcile.go],
      [store/restore.go], [sync/reconcile.go]).
    - [Alerts]: the alert rules, their mail and its delivery.
    - [Net]: textual addresses, the outbound policy, request attribution
      ([netguard/netguard.go], [api/middleware.go]).
    - [Dispatch]: delivering the outbox to SCIM targets and webhooks
      ([sync/sync.go], [scim.go], [scim_groups.go], [delivery.go]).
    - [Registry]: clients, launcher cards, icons and connectors, the record
      that joins them, pairing a connector, settings and branding
      ([store/app_registry.go], [store/branding.go], [store/store.go]).
    - [Factors]: password hashes and the second-factor engine
      ([auth/password.go], [mfa/mfa.go]).
    - [Query]: query strings as [net/url] reads and writes them.
    - [Web]: requests, replies, CSRF, authentication and delegated
      administration in front of every handler ([api/middleware.go],
      [api/permissions.go], [api/stepup.go]).
    - [Login]: password sign-in, second factors, step-up and passkeys
      ([api/auth_handlers.go], [stepup_handlers.go], [webauthn_handlers.go]).
    - [Admin], [Console]: the administrator's handlers, one definition per
      handler with its decoding, refusals and audit events
      ([api/admin_handlers.go], [icon_handlers.go] and the handler files of
      groups, registry, access, roles, policies, settings, branding,
      connectors, provisioning, requests and sessions).
    - [Account]: mail settings and the conversation with a relay, account
      links, forgotten and changed passwords, one's own factors
      ([mail/mail.go], [api/onboarding_handlers.go], [device_handlers.go]).
    - [ScimApi]: the inbound SCIM endpoints
      ([api/scim_inbound_handlers.go], [scim_inbound_groups_handlers.go]).
    - [Explain]: why an account may or may not use an application
      ([store/explain.go], [api/explain_handlers.go]).
    - [OAuthApi]: the endpoints of the provider and the logout a relying party
      asks for ([api/oauth_handlers.go], [authorization_interactions.go],
      [logout_handlers.go]).
    - [Routes]: the table of administrator's routes, its gate, and the changes,
      links and trials behind it ([api/server.go], [api/permissions.go]).

    * What the theorems show

    - Ending access: an offboarded account or a revoked user keeps no session,
      code, token, pending login, step-up proof, pairing token or link; the
      password, the devices and the enrolled factors stay, which only the
      account's status or its own changes end.  The commit of an offboarding
      records the connectors' new desired state, and one administrator without
      an end date always remains.
    - Single use: codes, refresh tokens, links, step-up grants, recovery codes
      and pending logins are spent once over every later history; reuse of a
      refresh token ends its family for good.
    - Provisioning: after a pass the recorded desired state equals the access
      the database grants (a refinement); no operation races an unresolved
      remote write; a complete repair converges; a hold is lifted only on
      proof; a create that was not turned down is never sent twice, and a fence
      stands exactly while a write's outcome is open.
    - Authentication: exactly which requests are authenticated, and which an
      administrative handler is run for, in terms of roles and delegation rows;
      a password alone opens no account that has a factor, and a pending login
      opens one session that records the factor it was shown; a refused login
      is the same reply whatever the account.
    - Administration: every modelled change the console answers with success
      passed its route's gate and is in the audit trail, a link also when its
      message failed; on every row that is no GET a delegate reaches only what
      is theirs; a logo served is pixels encoded afresh.
    - Accounts: the stored mail password is said only to the relay it was
      entered for, no factor changes without a step-up grant, and a changed
      password leaves one session.
    - Restore: no session, token, code or link of a restored database is left;
      accounts, passwords, factors, recovery codes, devices and inbound SCIM
      tokens come back as they were.
    - Inbound SCIM: a request changes only what its connector owns and leaves
      its audit row, and a conditional write never loses another's.
    - Explanations and alerts: an explanation's verdict is the decision
      itself; every queued event is evaluated in the order of recording, and
      the alert its rule calls for stands open.
    - Registry: the records are a directory of every source, joining and
      splitting them moves no access, and a client switched off holds nothing.
    - OAuth: each flow's token needs every proof the flow asks for, and tokens
      of one kind never pass for another; a code goes only to the registered
      address of its client and only for the browser's own session; a request
      that waited for a sign-in resumes as it was; a relying party ends only
      the login its hint names, or the one its user confirmed.
    - Bounds and termination: guess budgets, queue and history bounds, the
      overflow of session limits, the 210 pages of a listing, the loops over
      alerts and draws.

    * Interfaces

    What the code calls outside its own source is an operation of a class or a
    section variable, with the behaviour relied on as a named hypothesis:
    [Crypto.AEAD] (AES-GCM), [Outbox.Codec] (the JSON of SCIM objects), [OAuth.Wire] (JSON and RSA signatures),
    [Factors.Primitives] (Argon2id, P-256, X.509, TOTP, attestation),
    [Login.Ceremonies] (the WebAuthn library), [Dispatch.Far] (the far side of
    a delivery), the target of a listing, [url.Parse], [Admin.Formats] (XML
    tokens, RFC 3339), [Console.Unicode] and [Console.Images] (rune categories,
    PNG and JPEG codecs), [Account.Mailing] (the relay's side of SMTP),
    [ScimApi.ScimText] (the JSON of SCIM resources).  Each file that states such a law ends
    with a concrete instance and the witnesses that use it.

    * Fuel

    Every bound comes from the code or from the input's length: a listing
    walks at most its page budget, an evaluation takes at most ten batches of
    500, an IPv6 parse runs at most eight rounds, the decoy loop at most 201,
    string scanners run on the length of the string.  Loops whose budget is
    the code's own need no more; for the others the lemmas beside the
    definitions show the fuel is enough.

    * Not modelled

    Driver errors of SQLite, concurrent interleavings inside one transaction
    (SQLite serialises writers), DDL and migrations, read-only console
    listings, the wire format of third-party services, logging and metrics.
    Of the packages: the handlers of audit search, backup, recovery evidence,
    launcher preferences and the suite's other programs, configuration and
    start-up ([config], [cmd]), backup files ([backup]), the attestation
    verifiers ([attest], [appattest]), push transports and the installer's
    setup.  [strings.EqualFold] folds as Go does ([Text]); SQL's NOCASE folds
    ASCII letters, as SQLite does, and Go's [ToLower] and [ToUpper] are taken
    on ASCII letters only. *)
From stdpp Require Export prelude gmap strings list fin_maps.
From Stdlib Require Export ZArith Lia.

Open Scope Z_scope.

Declare Scope ky_scope.
Delimit Scope ky_scope with ky.
Open Scope ky_scope.

(** ** Strings and instants

    [time.Time] values are instants, modelled as nanoseconds since the Unix
    epoch; [time.Duration] is a number of nanoseconds.  SQLite's
    [unixepoch()] is the current instant in whole seconds. *)

Notation "a =?s b" := (String.eqb a b) (at level 70, no associativity) : ky_scope.
Notation "a <>?s b" := (negb (String.eqb a b)) (at level 70, no associativity) : ky_scope.

Definition second : Z := 1000000000.
Definition minute : Z := 60 * second.
Definition hour : Z := 60 * minute.
Definition unix (t : Z) : Z := t / second.
Definition of_unix (s : Z) : Z := s * second.

(** [int64] arithmetic wraps around. *)
Definition wrap64 (z : Z) : Z := (z + 2 ^ 63) mod 2 ^ 64 - 2 ^ 63.

(** Membership of a string in a literal list, as in [x IN ('a','b')]. *)
Definition one_of (s : string) (l : list string) : bool := existsb (String.eqb s) l.

(** A nullable column against a predicate; NULL makes a comparison false. *)
Definition opt_test {A} (p : A -> bool) (o : option A) : bool :=
  match o with Some a => p a | None => false end.

Definition is_null {A} (o : option A) : bool :=
  match o with Some _ => false | None => true end.

(** [x IS NULL OR x > n], the shape of every expiry test on an INTEGER column. *)
Definition unexpired (o : option Z) (n : Z) : bool :=
  match o with Some e => n <? e | None => true end.

Lemma streqb_refl s : (s =?s s) = true.
Proof. apply String.eqb_refl. Qed.

Lemma streqb_true a b : (a =?s b) = true <-> a = b.
Proof. apply String.eqb_eq. Qed.

Lemma streqb_false a b : (a =?s b) = false <-> a <> b.
Proof. apply String.eqb_neq. Qed.

Lemma one_of_true s l : one_of s l = true <-> In s l.
Proof.
  unfold one_of. rewrite existsb_exists. split.
  - intros [x [Hin He]]. apply streqb_true in He. by subst.
  - intros Hin. exists s. by rewrite streqb_refl.
Qed.

Lemma unexpired_mono o n m : n <= m -> unexpired o m = true -> unexpired o n = true.
Proof. destruct o; simpl; lia. Qed.

Lemma unix_of_unix s : unix (of_unix s) = s.
Proof. unfold unix, of_unix, second. apply Z.div_mul. lia. Qed.

Lemma unix_mono a b : a <= b -> unix a <= unix b.
Proof. intros. unfold unix, second. apply Z.div_le_mono; lia. Qed.

Lemma unix_lt_of_unix t s : (unix t <? s) = (t <? of_unix s).
Proof.
  unfold unix, of_unix, second.
  destruct (Z.ltb_spec (t / 1000000000) s), (Z.ltb_spec t (s * 1000000000));
    try reflexivity; exfalso.
  - pose proof (Z.div_le_lower_bound t 1000000000 s). lia.
  - pose proof (Z.div_lt_upper_bound t 1000000000 s). lia.
Qed.

(** The byte order of SQLite's BINARY collation is a strict total order. *)
Lemma string_ltb_cons c a d b :
  String.ltb (String c a) (String d b) =
    match Ascii.compare c d with Lt => true | Gt => false | Eq => String.ltb a b end.
Proof. unfold String.ltb. simpl. by destruct (Ascii.compare c d). Qed.

Lemma string_ltb_trans a b c : String.ltb a b = true -> String.ltb b c = true -> String.ltb a c = true.
Proof.
  revert b c. induction a as [|x a IH]; intros [|y b] [|z c]; try done.
  rewrite !string_ltb_cons. unfold Ascii.compare.
  destruct (N.compare_spec (Ascii.N_of_ascii x) (Ascii.N_of_ascii y)) as [E1|E1|E1]; [|intros _|done];
  destruct (N.compare_spec (Ascii.N_of_ascii y) (Ascii.N_of_ascii z)) as [E2|E2|E2]; try done;
    destruct (N.compare_spec (Ascii.N_of_ascii x) (Ascii.N_of_ascii z)) as [E3|E3|E3]; try done; try lia.
  apply IH.
Qed.

Lemma string_ltb_total a b : a <> b -> String.ltb a b = true \/ String.ltb b a = true.
Proof.
  intros Hne. unfold String.ltb. rewrite (String.compare_antisym b a).
  destruct (String.compare a b) eqn:E; simpl; auto. by apply String.compare_eq_iff in E.
Qed.

(** ** Boolean goals *)

Create HintDb ky discriminated.
Create Rewrite HintDb ky.
#[export] Hint Resolve streqb_refl : ky.

(** Turn the boolean connectives and comparisons of hypotheses into
    propositions, one layer at a time. *)
Ltac bool_hyps :=
  repeat match goal with
  | H : andb _ _ = true |- _ => apply andb_true_iff in H; destruct H
  | H : orb _ _ = false |- _ => apply orb_false_iff in H; destruct H
  | H : negb _ = true |- _ => apply negb_true_iff in H
  | H : negb _ = false |- _ => apply negb_false_iff in H
  | H : String.eqb _ _ = true |- _ => apply streqb_true in H
  | H : String.eqb _ _ = false |- _ => apply streqb_false in H
  | H : Z.ltb _ _ = true |- _ => apply Z.ltb_lt in H
  | H : Z.ltb _ _ = false |- _ => apply Z.ltb_ge in H
  | H : Z.leb _ _ = true |- _ => apply Z.leb_le in H
  | H : Z.leb _ _ = false |- _ => apply Z.leb_gt in H
  | H : Z.eqb _ _ = true |- _ => apply Z.eqb_eq in H
  | H : Z.eqb _ _ = false |- _ => apply Z.eqb_neq in H
  end.

(** Close a goal about one row's columns: split the booleans of the
    hypotheses and of the goal and evaluate the rest. *)
Ltac row_hyps :=
  intros; bool_hyps; subst; simpl in *; rewrite ?streqb_refl, ?andb_false_r, ?Z.ltb_irrefl in *; simpl in *;
  repeat (apply andb_true_iff; split);
  first [done | apply Z.ltb_lt; lia | apply Z.leb_le; lia | apply Z.eqb_eq; lia | by apply streqb_true | lia | idtac].

(** ** Tables

    A SQL table is a finite map from its primary key to its rows.  The
    combinators below are the statements the store issues against one. *)

Section tables.
Context `{Countable K} {A : Type}.
Implicit Types (t : gmap K A) (p q : A -> bool) (g : A -> A).

Definition where_ p t : gmap K A := filter (fun kv : K * A => p kv.2 = true) t.

(** [SELECT EXISTS(SELECT 1 FROM t WHERE p)] *)
Definition exists_where p t : bool := existsb (fun kv => p kv.2) (map_to_list t).

(** [SELECT COUNT( * ) FROM t WHERE p] and the rows an UPDATE reports as affected *)
Definition count_where p t : Z := Z.of_nat (size (where_ p t)).

(** [UPDATE t SET g WHERE p] *)
Definition update_where p g t : gmap K A := (fun r => if p r then g r else r) <$> t.

(** [DELETE FROM t WHERE p] *)
Definition delete_where p t : gmap K A := filter (fun kv : K * A => p kv.2 = false) t.

(** [SELECT ... FROM t WHERE p] for a predicate that selects at most one row *)
Definition find_where p t : option (K * A) := find (fun kv => p kv.2) (map_to_list t).

(** Every row under its key; the executable form of a table constraint. *)
Definition all_rows (f : K -> A -> bool) t : bool := forallb (fun kv => f kv.1 kv.2) (map_to_list t).

Lemma all_rows_true (f : K -> A -> bool) t :
  all_rows f t = true <-> forall k r, t !! k = Some r -> f k r = true.
Proof.
  unfold all_rows. rewrite forallb_forall. split.
  - intros Ha k r Hk. apply (Ha (k, r)). by apply list_elem_of_In, elem_of_map_to_list.
  - intros Ha [k r] Hin. apply Ha. by apply list_elem_of_In, elem_of_map_to_list in Hin.
Qed.

Lemma lookup_where p t k r : where_ p t !! k = Some r <-> t !! k = Some r /\ p r = true.
Proof. unfold where_. rewrite map_lookup_filter_Some. done. Qed.

Lemma exists_where_true p t :
  exists_where p t = true <-> exists k r, t !! k = Some r /\ p r = true.
Proof.
  unfold exists_where. rewrite existsb_exists. split.
  - intros [[k r] [Hin Hp]]. apply list_elem_of_In, elem_of_map_to_list in Hin. eauto.
  - intros (k & r & Hk & Hp). exists (k, r). split; [|done].
    by apply list_elem_of_In, elem_of_map_to_list.
Qed.

Lemma exists_where_false p t :
  exists_where p t = false <-> forall k r, t !! k = Some r -> p r = false.
Proof.
  rewrite <- not_true_iff_false, exists_where_true. split.
  - intros Hn k r Hk. destruct (p r) eqn:E; [|done]. exfalso. eauto.
  - intros Hall (k & r & Hk & Hp). by rewrite (Hall k r Hk) in Hp.
Qed.

Lemma lookup_update_where p g t k :
  update_where p g t !! k = (fun r => if p r then g r else r) <$> t !! k.
Proof. apply lookup_fmap. Qed.

Lemma lookup_update_where_Some p g t k r :
  update_where p g t !! k = Some r <->
  exists r0, t !! k = Some r0 /\ r = if p r0 then g r0 else r0.
Proof.
  rewrite lookup_update_where. destruct (t !! k) as [r0|]; simpl; split.
  - intros [= <-]. eauto.
  - by intros (r1 & [= ->] & ->).
  - done.
  - by intros (r1 & ? & _).
Qed.

Lemma lookup_delete_where_Some p t k r :
  delete_where p t !! k = Some r <-> t !! k = Some r /\ p r = false.
Proof. unfold delete_where. rewrite map_lookup_filter_Some. done. Qed.

Lemma lookup_delete_where_None p t k :
  t !! k = None -> delete_where p t !! k = None.
Proof. intros Hn. unfold delete_where. apply map_lookup_filter_None. eauto. Qed.

Lemma find_where_Some p t k r :
  find_where p t = Some (k, r) -> t !! k = Some r /\ p r = true.
Proof.
  unfold find_where. intros Hf. apply find_some in Hf as [Hin Hp].
  by apply list_elem_of_In, elem_of_map_to_list in Hin.
Qed.

Lemma find_where_None p t :
  find_where p t = None <-> forall k r, t !! k = Some r -> p r = false.
Proof.
  unfold find_where. split.
  - intros Hf k r Hk. apply (find_none _ _ Hf (k, r)).
    by apply list_elem_of_In, elem_of_map_to_list.
  - intros Hall. destruct (find _ _) as [[k r]|] eqn:E; [|done].
    apply find_some in E as [Hin Hp]. apply list_elem_of_In, elem_of_map_to_list in Hin.
    simpl in Hp. by rewrite (Hall k r Hin) in Hp.
Qed.

(** After an UPDATE or DELETE that covers [p], no row satisfies [p]. *)
Lemma exists_where_deleted p q t :
  (forall r, p r = true -> q r = true) -> exists_where p (delete_where q t) = false.
Proof.
  intros Hi. apply exists_where_false. intros k r Hk.
  apply lookup_delete_where_Some in Hk as [_ Hq]. destruct (p r) eqn:E; [|done].
  by rewrite (Hi _ E) in Hq.
Qed.

Lemma exists_where_updated p q g t :
  (forall r, p r = true -> q r = true) -> (forall r, q r = true -> p (g r) = false) ->
  exists_where p (update_where q g t) = false.
Proof.
  intros Hi Hg. apply exists_where_false. intros k r Hk.
  apply lookup_update_where_Some in Hk as (r0 & _ & ->). destruct (q r0) eqn:E; [by apply Hg|].
  destruct (p r0) eqn:Ep; [by rewrite (Hi _ Ep) in E|done].
Qed.

Lemma exists_where_delete_keeps p q t :
  exists_where p t = false -> exists_where p (delete_where q t) = false.
Proof.
  rewrite !exists_where_false. intros Ha k r Hk. apply lookup_delete_where_Some in Hk as [Hk _]. eauto.
Qed.

(** A row an UPDATE or DELETE does not select stays as it is. *)
Lemma lookup_update_where_ne p g t k r :
  t !! k = Some r -> p r = false -> update_where p g t !! k = Some r.
Proof. intros Hk Hp. rewrite lookup_update_where, Hk. simpl. by rewrite Hp. Qed.

Lemma lookup_delete_where_ne p t k r :
  t !! k = Some r -> p r = false -> delete_where p t !! k = Some r.
Proof. intros. by apply lookup_delete_where_Some. Qed.

(** A predicate a unique index makes single-valued selects exactly its row. *)
Lemma find_where_unique p t k r :
  t !! k = Some r -> p r = true ->
  (forall k' r', t !! k' = Some r' -> p r' = true -> k' = k) ->
  find_where p t = Some (k, r).
Proof.
  intros Hk Hp Hu. destruct (find_where p t) as [[k' r']|] eqn:E.
  - apply find_where_Some in E as [Hk' Hp']. pose proof (Hu _ _ Hk' Hp') as ->.
    rewrite Hk in Hk'. by simplify_eq.
  - rewrite find_where_None in E. by rewrite (E _ _ Hk) in Hp.
Qed.

Lemma count_where_nonneg p t : 0 <= count_where p t.
Proof. unfold count_where. lia. Qed.

Lemma count_where_0 p t : count_where p t = 0 <-> exists_where p t = false.
Proof.
  unfold count_where. rewrite exists_where_false. split.
  - intros Hs k r Hk. destruct (p r) eqn:E; [|done].
    assert (where_ p t = ∅) as He by (apply map_size_empty_inv; lia).
    assert (where_ p t !! k = Some r) as Hw by by apply lookup_where.
    rewrite He in Hw. by rewrite lookup_empty in Hw.
  - intros Hall. replace (where_ p t) with (∅ : gmap K A); [by rewrite map_size_empty|].
    symmetry. apply map_eq. intros k. rewrite lookup_empty.
    destruct (where_ p t !! k) eqn:E; [|done].
    apply lookup_where in E as [Hk Hp]. by rewrite (Hall _ _ Hk) in Hp.
Qed.

Lemma count_where_insert_new p t k r :
  t !! k = None -> count_where p (<[k := r]> t) = count_where p t + if p r then 1 else 0.
Proof.
  intros Hn. unfold count_where, where_. destruct (p r) eqn:E.
  - rewrite map_filter_insert_True by done. rewrite map_size_insert_None; [lia|].
    apply map_lookup_filter_None. eauto.
  - rewrite map_filter_insert_False by (simpl; congruence).
    rewrite delete_id by done. lia.
Qed.

Lemma count_where_subset p t t' :
  (forall k r, t !! k = Some r -> p r = true -> exists r', t' !! k = Some r' /\ p r' = true) ->
  count_where p t <= count_where p t'.
Proof.
  intros Hsub. unfold count_where.
  enough (size (dom (where_ p t)) <= size (dom (where_ p t')))%nat as Hs
    by (rewrite !size_dom in Hs; lia).
  apply subseteq_size. intros k. rewrite !elem_of_dom. intros [r Hr].
  apply lookup_where in Hr as [Hk Hp]. destruct (Hsub _ _ Hk Hp) as (r' & Hk' & Hp').
  exists r'. by apply lookup_where.
Qed.

Lemma count_where_delete_where p q t :
  count_where p (delete_where q t) <= count_where p t.
Proof.
  apply count_where_subset. intros k r Hk Hp.
  apply lookup_delete_where_Some in Hk as [Hk _]. eauto.
Qed.

Lemma count_where_impl p q t :
  (forall k r, t !! k = Some r -> p r = true -> q r = true) -> count_where p t <= count_where q t.
Proof.
  intros Hi. unfold count_where.
  enough (size (dom (where_ p t)) <= size (dom (where_ q t)))%nat as Hs
    by (rewrite !size_dom in Hs; lia).
  apply subseteq_size. intros k. rewrite !elem_of_dom. intros [r Hr].
  apply lookup_where in Hr as [Hk Hp]. exists r. apply lookup_where. eauto.
Qed.

(** A key-determined predicate counts at most one row. *)
Lemma count_where_le_1 p t k0 :
  (forall k r, t !! k = Some r -> p r = true -> k = k0) -> count_where p t <= 1.
Proof.
  intros Hu. unfold count_where.
  enough (size (dom (where_ p t)) <= size ({[k0]} : gset K))%nat as Hs
    by (rewrite size_dom, size_singleton in Hs; lia).
  apply subseteq_size. intros k. rewrite elem_of_dom. intros [r Hr].
  apply lookup_where in Hr as [Hk Hp]. apply elem_of_singleton. eauto.
Qed.

(** Replacing a row. *)
Lemma count_where_write p t k r0 r : t !! k = Some r0 ->
  count_where p (<[k := r]> t) + (if p r0 then 1 else 0) = count_where p t + if p r then 1 else 0.
Proof.
  intros Hk. rewrite <- (insert_delete_id t k r0 Hk) at 2. rewrite <- insert_delete_eq.
  rewrite !count_where_insert_new by apply lookup_delete_eq. lia.
Qed.

(** Writing one row adds at most that row to a count. *)
Lemma count_where_write_false p t k r :
  p r = false -> count_where p (<[k := r]> t) <= count_where p t.
Proof.
  intros Hp. apply count_where_subset. intros k' r' Hl Hr.
  apply lookup_insert_Some in Hl as [[<- <-]|[_ Hl]]; [congruence|eauto].
Qed.

Lemma count_where_write_first p t k r :
  exists_where p t = false -> count_where p (<[k := r]> t) <= 1.
Proof.
  rewrite exists_where_false. intros Hn. apply (count_where_le_1 _ _ k). intros k' r' Hl Hr.
  apply lookup_insert_Some in Hl as [[<- <-]|[_ Hl]]; [done|]. by rewrite (Hn _ _ Hl) in Hr.
Qed.

Lemma count_where_update p q g t :
  (forall r, q r = true -> p (g r) = p r) ->
  count_where p (update_where q g t) = count_where p t.
Proof.
  intros Hg. apply Z.le_antisymm; apply count_where_subset; intros k r Hk Hp.
  - apply lookup_update_where_Some in Hk as (r0 & Hk & ->).
    exists r0. split; [done|]. destruct (q r0) eqn:E; [by rewrite <- Hg|done].
  - exists (if q r then g r else r). split.
    + apply lookup_update_where_Some. eauto.
    + destruct (q r) eqn:E; [by rewrite Hg|done].
Qed.
(** The rows of a non-empty table have a last one in any strict total order. *)
Lemma table_last (lt : A -> A -> bool) t :
  (forall k1 r1 k2 r2, t !! k1 = Some r1 -> t !! k2 = Some r2 -> k1 <> k2 ->
    lt r1 r2 = true \/ lt r2 r1 = true) ->
  (forall a b c, lt a b = true -> lt b c = true -> lt a c = true) ->
  t <> ∅ -> exists k r, t !! k = Some r /\
    forall k' r', t !! k' = Some r' -> k' <> k -> lt r' r = true.
Proof.
  intros Htot Htr. induction t as [|k a t Hk IH] using map_ind; [done|]. intros _.
  destruct (decide (t = ∅)) as [->|Hne].
  - exists k, a. split; [by rewrite lookup_insert_eq|]. intros k' r' Hl Hk'.
    by rewrite lookup_insert_ne, lookup_empty in Hl by congruence.
  - destruct IH as (k0 & r0 & Hk0 & Hmax); [|done|].
    { intros k1 r1 k2 r2 H1 H2 ?. apply (Htot k1 r1 k2 r2); [..|done];
        rewrite lookup_insert_ne; congruence. }
    assert (k <> k0) as Hkk by congruence.
    destruct (Htot k a k0 r0) as [Hlt|Hlt];
      [by rewrite lookup_insert_eq|by rewrite lookup_insert_ne|done|..].
    + exists k0, r0. split; [by rewrite lookup_insert_ne|]. intros k' r' Hl Hk'.
      destruct (decide (k' = k)) as [->|]; [rewrite lookup_insert_eq in Hl; by simplify_eq|].
      rewrite lookup_insert_ne in Hl by done. eauto.
    + exists k, a. split; [by rewrite lookup_insert_eq|]. intros k' r' Hl Hk'.
      rewrite lookup_insert_ne in Hl by done.
      destruct (decide (k' = k0)) as [->|]; [by simplify_eq|]. eauto.
Qed.

Lemma count_where_all_but_one p q t k :
  (forall k' r', t !! k' = Some r' -> p r' = true -> k' = k \/ q r' = true) ->
  count_where p t <= count_where q t + 1.
Proof.
  intros Hi. unfold count_where.
  enough (size (dom (where_ p t)) <= size ({[k]} ∪ (dom (where_ q t) ∖ {[k]})))%nat as Hs.
  { rewrite size_union, size_singleton, size_dom in Hs by set_solver.
    pose proof (subseteq_size (dom (where_ q t) ∖ {[k]}) (dom (where_ q t)) ltac:(set_solver)) as Hd.
    rewrite (size_dom (where_ q t)) in Hd. lia. }
  apply subseteq_size. intros k' Hk'. apply elem_of_dom in Hk' as [r' Hk'].
  destruct (decide (k' = k)) as [->|Hne]; [set_solver|].
  apply lookup_where in Hk' as [Hk' Hp]. destruct (Hi _ _ Hk' Hp) as [|Hq]; [done|].
  apply elem_of_union_r, elem_of_difference. split; [|set_solver].
  apply elem_of_dom. exists r'. by apply lookup_where.
Qed.

(** Keeping the rows that fewer than [n] others precede keeps at most [n]:
    what [ROW_NUMBER() ... WHERE position<=n] does. *)
Lemma count_where_ranked (p : A -> bool) (lt : A -> A -> bool) n t :
  (forall k1 r1 k2 r2, t !! k1 = Some r1 -> t !! k2 = Some r2 -> p r1 = true -> p r2 = true ->
    k1 <> k2 -> lt r1 r2 = true \/ lt r2 r1 = true) ->
  (forall a b c, lt a b = true -> lt b c = true -> lt a c = true) -> 0 <= n ->
  count_where (fun r => p r && (count_where (fun x => p x && lt x r) t <? n)) t <= n.
Proof.
  intros Htot Htr Hn. set (q := fun r => p r && (count_where (fun x => p x && lt x r) t <? n)).
  destruct (decide (where_ q t = ∅)) as [He|Hne].
  { unfold count_where. rewrite He, map_size_empty. lia. }
  destruct (table_last lt (where_ q t)) as (k & r & Hk & Hmax); [|done|done|].
  { intros k1 r1 k2 r2 H1 H2 ?. apply lookup_where in H1 as [H1 Hq1], H2 as [H2 Hq2].
    subst q. simpl in *. bool_hyps. eauto. }
  apply lookup_where in Hk as [Hk Hq]. subst q. simpl in Hq. bool_hyps.
  etrans; [apply (count_where_all_but_one _ (fun x => p x && lt x r) t k)|lia].
  intros k' r' Hk' Hq'. destruct (decide (k' = k)) as [->|Hne']; [by left|right].
  assert (lt r' r = true) as ->; [|by apply andb_true_iff in Hq' as [-> _]].
  apply (Hmax k'); [|done]. by apply lookup_where.
Qed.
End tables.

#[global] Hint Rewrite @lookup_update_where : ky.

(** ** Transactions

    Every store method runs its statements in one SQLite transaction: either
    all of them commit or, on any error, none does.  [Tx] threads the database
    through the statements; [commit] is the transaction's outcome as the
    caller sees it. *)

Section tx.
Context {S E : Type}.

Definition Tx (A : Type) : Type := S -> E + (A * S).

Definition tx_ret {A} (a : A) : Tx A := fun s => inr (a, s).
Definition tx_fail {A} (e : E) : Tx A := fun _ => inl e.
Definition tx_bind {A B} (m : Tx A) (k : A -> Tx B) : Tx B := fun s =>
  match m s with inl e => inl e | inr (a, s') => k a s' end.
Definition tx_get : Tx S := fun s => inr (s, s).
Definition tx_set (f : S -> S) : Tx unit := fun s => inr (tt, f s).
Definition tx_guard (b : bool) (e : E) : Tx unit := fun s =>
  if b then inr (tt, s) else inl e.

Fixpoint tx_iter {A} (f : A -> Tx unit) (l : list A) : Tx unit :=
  match l with
  | [] => tx_ret tt
  | a :: l' => tx_bind (f a) (fun _ => tx_iter f l')
  end.

(** [tx.Commit()] on success, [tx.Rollback()] on every error path. *)
Definition commit {A} (m : Tx A) (s : S) : (E + A) * S :=
  match m s with
  | inl e => (inl e, s)
  | inr (a, s') => (inr a, s')
  end.

Lemma tx_bind_inr {A B} (m : Tx A) (k : A -> Tx B) s b s' :
  tx_bind m k s = inr (b, s') <-> exists a s1, m s = inr (a, s1) /\ k a s1 = inr (b, s').
Proof.
  unfold tx_bind. destruct (m s) as [e|[a s1]]; split.
  - done.
  - by intros (? & ? & ? & _).
  - eauto.
  - by intros (? & ? & [= <- <-] & ?).
Qed.

Lemma tx_guard_inr b e s u s' : tx_guard b e s = inr (u, s') <-> b = true /\ s' = s.
Proof.
  unfold tx_guard. destruct b, u; split; try naive_solver congruence.
Qed.

Lemma commit_inr {A} (m : Tx A) s a s' : commit m s = (inr a, s') <-> m s = inr (a, s').
Proof. unfold commit. destruct (m s) as [e|[a0 s0]]; split; congruence. Qed.

(** A refused transaction leaves the database as it was. *)
Lemma commit_inl {A} (m : Tx A) s e s' : commit m s = (inl e, s') -> s' = s /\ m s = inl e.
Proof. unfold commit. destruct (m s) as [e0|[a0 s0]]; intros [= <- <-]; done. Qed.

(** ** Several transactions

    Code above the store runs one transaction after another: an error ends the
    call and keeps what earlier transactions committed. *)

Definition Run (A : Type) : Type := S -> (E + A) * S.

Definition run_ret {A} (a : A) : Run A := fun s => (inr a, s).
Definition run_fail {A} (e : E) : Run A := fun s => (inl e, s).
Definition run_bind {A B} (m : Run A) (k : A -> Run B) : Run B := fun s =>
  match m s with (inl e, s') => (inl e, s') | (inr a, s') => k a s' end.
Definition run_get : Run S := fun s => (inr s, s).
Definition run_guard (b : bool) (e : E) : Run unit := fun s => (if b then inr tt else inl e, s).

Lemma run_bind_inr {A B} (m : Run A) (k : A -> Run B) s b s' :
  run_bind m k s = (inr b, s') <-> exists a s1, m s = (inr a, s1) /\ k a s1 = (inr b, s').
Proof.
  unfold run_bind. destruct (m s) as [[e|a] s1]; simpl; naive_solver.
Qed.

Lemma run_bind_inl {A B} (m : Run A) (k : A -> Run B) s e s' :
  run_bind m k s = (inl e, s') <-> m s = (inl e, s') \/ exists a s1, m s = (inr a, s1) /\ k a s1 = (inl e, s').
Proof.
  unfold run_bind. destruct (m s) as [[e0|a] s1]; simpl; naive_solver.
Qed.

Lemma run_guard_inr b e s u s' : run_guard b e s = (inr u, s') <-> b = true /\ s' = s.
Proof. unfold run_guard. destruct b, u; split; try naive_solver congruence. Qed.

Lemma run_guard_inl b e s e' s' : run_guard b e s = (inl e', s') <-> b = false /\ e' = e /\ s' = s.
Proof. unfold run_guard. destruct b; split; naive_solver congruence. Qed.

(** [Q] holds of a run's outcome, whether it succeeds or fails: a run is walked
    step by step, with what each step returned. *)
Definition run_sat {A} (Q : E + A -> S -> Prop) (m : Run A) (s : S) : Prop := Q (m s).1 (m s).2.

Lemma run_sat_bind {A B} (Q : E + B -> S -> Prop) (m : Run A) (k : A -> Run B) s :
  (forall e s', m s = (inl e, s') -> Q (inl e) s') -> (forall a s', m s = (inr a, s') -> run_sat Q (k a) s') ->
  run_sat Q (run_bind m k) s.
Proof. unfold run_sat, run_bind. destruct (m s) as [[e|a] s']; simpl; eauto. Qed.

Lemma run_sat_get {B} (Q : E + B -> S -> Prop) (k : S -> Run B) s : run_sat Q (k s) s -> run_sat Q (run_bind run_get k) s.
Proof. done. Qed.

Lemma run_sat_guard {B} (Q : E + B -> S -> Prop) b e (k : unit -> Run B) s :
  (b = false -> Q (inl e) s) -> (b = true -> run_sat Q (k tt) s) -> run_sat Q (run_bind (run_guard b e) k) s.
Proof. intros H1 H2. unfold run_sat, run_bind, run_guard in *. destruct b; simpl; [by apply H2|by apply H1]. Qed.

(** A property every element's step preserves holds after the loop. *)
Lemma tx_iter_preserves {A} (P : S -> Prop) (f : A -> Tx unit) l :
  (forall a s u s', In a l -> P s -> f a s = inr (u, s') -> P s') ->
  forall s u s', P s -> tx_iter f l s = inr (u, s') -> P s'.
Proof.
  induction l as [|a l IH]; intros Hf s u s' Hs; simpl.
  - by intros [= <- <-].
  - rewrite tx_bind_inr. intros (u1 & s1 & H1 & H2).
    eapply IH; [|eapply Hf; [by left|exact Hs|exact H1]|exact H2].
    intros. eapply Hf; [by right|done|done].
Qed.
End tx.

Arguments Tx : clear implicits.
Arguments tx_get {S E} /.
Arguments tx_set {S E} f /.
Arguments tx_ret {S E A} a /.
Arguments tx_fail {S E A} e /.
Arguments Run : clear implicits.
Arguments run_get {S E} /.
Arguments run_ret {S E A} a /.
Arguments run_fail {S E A} e /.

Notation "x <- m ;; k" := (tx_bind m (fun x => k))
  (at level 100, m at next level, right associativity) : ky_scope.
Notation "m ;;; k" := (tx_bind m (fun _ => k)) (at level 100, right associativity) : ky_scope.

Notation "x <~ m ;; k" := (run_bind m (fun x => k))
  (at level 100, m at next level, right associativity) : ky_scope.
Notation "m ~;; k" := (run_bind m (fun _ => k)) (at level 100, right associativity) : ky_scope.

(** Split a successful run into its successful steps. *)
Ltac tx_inv :=
  repeat match goal with
  | H : commit _ _ = (inr _, _) |- _ => apply commit_inr in H
  | H : tx_bind _ _ _ = inr _ |- _ => apply tx_bind_inr in H as (? & ? & ? & H)
  | H : tx_guard _ _ _ = inr _ |- _ => apply tx_guard_inr in H as [? ->]
  | H : tx_get _ = inr _ |- _ => first [injection H as <- <- | injection H as <- | discriminate H]
  | H : tx_set _ _ = inr _ |- _ => first [injection H as <- <- | injection H as <- | discriminate H]
  | H : tx_ret _ _ = inr _ |- _ => first [injection H as <- <- | injection H as <- | discriminate H]
  | H : tx_fail _ _ = inr _ |- _ => discriminate H
  | H : inr _ = inr _ |- _ => first [injection H as <- <- | injection H as <- | discriminate H]
  | H : inl _ = inr _ |- _ => discriminate H
  end.

(** ** ASCII case, as [COLLATE NOCASE] folds it *)
Definition lower_ascii (c : Ascii.ascii) : Ascii.ascii :=
  let n := Ascii.N_of_ascii c in
  if ((65 <=? n) && (n <=? 90))%N then Ascii.ascii_of_N (n + 32) else c.

Fixpoint lower (s : string) : string :=
  match s with
  | EmptyString => EmptyString
  | String c s' => String (lower_ascii c) (lower s')
  end.

Definition eq_nocase (a b : string) : bool := lower a =?s lower b.
