(* ===== verification/Text.v ===== *)
(** Text as Go reads it: UTF-8 decoding ([utf8.DecodeRuneInString], ranging
    over a string) and [strings.EqualFold], the comparison under Unicode simple
    case folding.  SQL's [COLLATE NOCASE] folds ASCII letters only and is
    [eq_nocase] of the prelude. *)
From S2P Require Import Prelude.

(** ** Runes

    A string is a sequence of UTF-8 encodings; a byte that starts none counts
    as one code point and is read as U+FFFD. *)

Definition byte_in (lo hi : N) (a : Ascii.ascii) : bool := (lo <=? Ascii.N_of_ascii a)%N && (Ascii.N_of_ascii a <=? hi)%N.
Definition continuation : Ascii.ascii -> bool := byte_in 128 191.

(** The bytes the code point at the front takes; 0 where they encode none. *)
Definition rune_len (s : string) : nat :=
  match s with
  | EmptyString => 0
  | String a s1 =>
    if byte_in 0 127 a then 1 else
    match s1 with
    | EmptyString => 0
    | String b s2 =>
      if byte_in 194 223 a then if continuation b then 2 else 0 else
      match s2 with
      | EmptyString => 0
      | String c s3 =>
        if byte_in 224 239 a then
          if byte_in (if byte_in 224 224 a then 160 else 128) (if byte_in 237 237 a then 159 else 191) b && continuation c then 3 else 0
        else
        match s3 with
        | EmptyString => 0
        | String e _ =>
          if byte_in 240 244 a &&
             byte_in (if byte_in 240 240 a then 144 else 128) (if byte_in 244 244 a then 143 else 191) b &&
             continuation c && continuation e then 4 else 0
        end
      end
    end
  end.

Fixpoint take_bytes (n : nat) (s : string) : string :=
  match n, s with S n', String a s' => String a (take_bytes n' s') | _, _ => EmptyString end.

Fixpoint drop_bytes (n : nat) (s : string) : string :=
  match n, s with S n', String _ s' => drop_bytes n' s' | _, _ => s end.

Definition RuneError : string := String (Ascii.ascii_of_N 239) (String (Ascii.ascii_of_N 191) (String (Ascii.ascii_of_N 189) EmptyString)).

(** [[]rune(s)], each rune as its encoding; the fuel is the number of bytes. *)
Fixpoint runes_upto (fuel : nat) (s : string) : list string :=
  match fuel with
  | O => []
  | S fuel' =>
    match s with
    | EmptyString => []
    | String _ s' =>
      match rune_len s with
      | O => RuneError :: runes_upto fuel' s'
      | n => take_bytes n s :: runes_upto fuel' (drop_bytes n s)
      end
    end
  end.

Definition runes (s : string) : list string := runes_upto (String.length s) s.
Definition RuneCountInString (s : string) : Z := Z.of_nat (length (runes s)).

(** The code point of an encoding. *)
Definition low_bits (n : N) (a : Ascii.ascii) : Z := Z.of_N (Ascii.N_of_ascii a mod 2 ^ n).

Definition rune_code (r : string) : Z :=
  match r with
  | String a EmptyString => low_bits 8 a
  | String a (String b EmptyString) => low_bits 5 a * 64 + low_bits 6 b
  | String a (String b (String c EmptyString)) => (low_bits 4 a * 64 + low_bits 6 b) * 64 + low_bits 6 c
  | String a (String b (String c (String e EmptyString))) => ((low_bits 3 a * 64 + low_bits 6 b) * 64 + low_bits 6 c) * 64 + low_bits 6 e
  | _ => 65533
  end.

(** ** Case folding

    The simple case foldings of Unicode 15.0 (statuses C and S): from, to, step
    and the difference to the folded code point.  Two runes are in one orbit
    of [unicode.SimpleFold] when they fold to the same code point. *)
Definition case_folding : list (Z * Z * Z * Z) := [
  (65, 90, 1, 32); (181, 181, 1, 775); (192, 214, 1, 32); (216, 222, 1, 32); (256, 302, 2, 1); (306, 310, 2, 1);
   (313, 327, 2, 1); (330, 374, 2, 1); (376, 376, 1, -121); (377, 381, 2, 1); (383, 383, 1, -268);
   (385, 385, 1, 210); (386, 388, 2, 1); (390, 390, 1, 206); (391, 391, 1, 1); (393, 394, 1, 205); (395, 395, 1, 1);
   (398, 398, 1, 79); (399, 399, 1, 202); (400, 400, 1, 203); (401, 401, 1, 1); (403, 403, 1, 205);
   (404, 404, 1, 207); (406, 406, 1, 211); (407, 407, 1, 209); (408, 408, 1, 1); (412, 412, 1, 211);
   (413, 413, 1, 213); (415, 415, 1, 214); (416, 420, 2, 1); (422, 422, 1, 218); (423, 423, 1, 1);
   (425, 425, 1, 218); (428, 428, 1, 1); (430, 430, 1, 218); (431, 431, 1, 1); (433, 434, 1, 217); (435, 437, 2, 1);
   (439, 439, 1, 219); (440, 440, 1, 1); (444, 444, 1, 1); (452, 452, 1, 2); (453, 453, 1, 1); (455, 455, 1, 2);
   (456, 456, 1, 1); (458, 458, 1, 2); (459, 475, 2, 1); (478, 494, 2, 1); (497, 497, 1, 2); (498, 500, 2, 1);
   (502, 502, 1, -97); (503, 503, 1, -56); (504, 542, 2, 1); (544, 544, 1, -130); (546, 562, 2, 1);
   (570, 570, 1, 10795); (571, 571, 1, 1); (573, 573, 1, -163); (574, 574, 1, 10792); (577, 577, 1, 1);
   (579, 579, 1, -195); (580, 580, 1, 69); (581, 581, 1, 71); (582, 590, 2, 1); (837, 837, 1, 116); (880, 882, 2, 1);
   (886, 886, 1, 1); (895, 895, 1, 116); (902, 902, 1, 38); (904, 906, 1, 37); (908, 908, 1, 64); (910, 911, 1, 63);
   (913, 929, 1, 32); (931, 939, 1, 32); (962, 962, 1, 1); (975, 975, 1, 8); (976, 976, 1, -30); (977, 977, 1, -25);
   (981, 981, 1, -15); (982, 982, 1, -22); (984, 1006, 2, 1); (1008, 1008, 1, -54); (1009, 1009, 1, -48);
   (1012, 1012, 1, -60); (1013, 1013, 1, -64); (1015, 1015, 1, 1); (1017, 1017, 1, -7); (1018, 1018, 1, 1);
   (1021, 1023, 1, -130); (1024, 1039, 1, 80); (1040, 1071, 1, 32); (1120, 1152, 2, 1); (1162, 1214, 2, 1);
   (1216, 1216, 1, 15); (1217, 1229, 2, 1); (1232, 1326, 2, 1); (1329, 1366, 1, 48); (4256, 4293, 1, 7264);
   (4295, 4295, 1, 7264); (4301, 4301, 1, 7264); (5112, 5117, 1, -8); (7296, 7296, 1, -6222); (7297, 7297, 1, -6221);
   (7298, 7298, 1, -6212); (7299, 7300, 1, -6210); (7301, 7301, 1, -6211); (7302, 7302, 1, -6204);
   (7303, 7303, 1, -6180); (7304, 7304, 1, 35267); (7312, 7354, 1, -3008); (7357, 7359, 1, -3008);
   (7680, 7828, 2, 1); (7835, 7835, 1, -58); (7838, 7838, 1, -7615); (7840, 7934, 2, 1); (7944, 7951, 1, -8);
   (7960, 7965, 1, -8); (7976, 7983, 1, -8); (7992, 7999, 1, -8); (8008, 8013, 1, -8); (8025, 8031, 2, -8);
   (8040, 8047, 1, -8); (8072, 8079, 1, -8); (8088, 8095, 1, -8); (8104, 8111, 1, -8); (8120, 8121, 1, -8);
   (8122, 8123, 1, -74); (8124, 8124, 1, -9); (8126, 8126, 1, -7173); (8136, 8139, 1, -86); (8140, 8140, 1, -9);
   (8152, 8153, 1, -8); (8154, 8155, 1, -100); (8168, 8169, 1, -8); (8170, 8171, 1, -112); (8172, 8172, 1, -7);
   (8184, 8185, 1, -128); (8186, 8187, 1, -126); (8188, 8188, 1, -9); (8486, 8486, 1, -7517); (8490, 8490, 1, -8383);
   (8491, 8491, 1, -8262); (8498, 8498, 1, 28); (8544, 8559, 1, 16); (8579, 8579, 1, 1); (9398, 9423, 1, 26);
   (11264, 11311, 1, 48); (11360, 11360, 1, 1); (11362, 11362, 1, -10743); (11363, 11363, 1, -3814);
   (11364, 11364, 1, -10727); (11367, 11371, 2, 1); (11373, 11373, 1, -10780); (11374, 11374, 1, -10749);
   (11375, 11375, 1, -10783); (11376, 11376, 1, -10782); (11378, 11378, 1, 1); (11381, 11381, 1, 1);
   (11390, 11391, 1, -10815); (11392, 11490, 2, 1); (11499, 11501, 2, 1); (11506, 11506, 1, 1); (42560, 42604, 2, 1);
   (42624, 42650, 2, 1); (42786, 42798, 2, 1); (42802, 42862, 2, 1); (42873, 42875, 2, 1); (42877, 42877, 1, -35332);
   (42878, 42886, 2, 1); (42891, 42891, 1, 1); (42893, 42893, 1, -42280); (42896, 42898, 2, 1); (42902, 42920, 2, 1);
   (42922, 42922, 1, -42308); (42923, 42923, 1, -42319); (42924, 42924, 1, -42315); (42925, 42925, 1, -42305);
   (42926, 42926, 1, -42308); (42928, 42928, 1, -42258); (42929, 42929, 1, -42282); (42930, 42930, 1, -42261);
   (42931, 42931, 1, 928); (42932, 42946, 2, 1); (42948, 42948, 1, -48); (42949, 42949, 1, -42307);
   (42950, 42950, 1, -35384); (42951, 42953, 2, 1); (42960, 42960, 1, 1); (42966, 42968, 2, 1); (42997, 42997, 1, 1);
   (43888, 43967, 1, -38864); (65313, 65338, 1, 32); (66560, 66599, 1, 40); (66736, 66771, 1, 40);
   (66928, 66938, 1, 39); (66940, 66954, 1, 39); (66956, 66962, 1, 39); (66964, 66965, 1, 39); (68736, 68786, 1, 64);
   (71840, 71871, 1, 32); (93760, 93791, 1, 32); (125184, 125217, 1, 34)].

Definition folds (c : Z) (row : Z * Z * Z * Z) : bool :=
  let '(lo, hi, step, _) := row in (lo <=? c) && (c <=? hi) && ((c - lo) mod step =? 0).

Definition SimpleFold (c : Z) : Z :=
  match List.find (folds c) case_folding with Some (_, _, _, delta) => c + delta | None => c end.

Definition folded (s : string) : list Z := map (fun r => SimpleFold (rune_code r)) (runes s).

Definition EqualFold (a b : string) : bool := bool_decide (folded a = folded b).

(** ** Facts *)

Lemma EqualFold_true a b : EqualFold a b = true <-> folded a = folded b.
Proof. apply bool_decide_eq_true. Qed.

Lemma EqualFold_refl a : EqualFold a a = true.
Proof. by apply EqualFold_true. Qed.

Lemma EqualFold_sym a b : EqualFold a b = true -> EqualFold b a = true.
Proof. rewrite !EqualFold_true. congruence. Qed.

Lemma EqualFold_trans a b c : EqualFold a b = true -> EqualFold b c = true -> EqualFold a c = true.
Proof. rewrite !EqualFold_true. congruence. Qed.

(** A folded code point folds to itself, so folding is a choice of one rune per orbit. *)
Lemma SimpleFold_idempotent : forallb (fun row : Z * Z * Z * Z => let '(lo, hi, step, delta) := row in
  forallb (fun i => SimpleFold (lo + Z.of_nat i * step + delta) =? lo + Z.of_nat i * step + delta)
    (seq 0 (S (Z.to_nat ((hi - lo) / step))))) case_folding = true.
Proof. by vm_compute. Qed.

(** Sharp s, the long s and the Kelvin sign, and a dotted I that folds to nothing else. *)
Definition utf8 (l : list N) : string := fold_right (fun n s => String (Ascii.ascii_of_N n) s) EmptyString l.

Example equal_fold_is_unicode :
  map (fun p : string * string => EqualFold p.1 p.2)
    [("STRASSE", "strasse"); (utf8 [195; 159]%N, utf8 [225; 186; 158]%N); (utf8 [197; 191]%N, "S"); (utf8 [226; 132; 170]%N, "k");
     (utf8 [196; 176]%N, "i"); (utf8 [195; 132]%N, utf8 [195; 164]%N); (utf8 [255]%N, utf8 [254]%N)]%string
  = [true; true; true; true; false; true; true].
Proof. by vm_compute. Qed.
