(* ===== verification/Schema.v ===== *)
(** The data of the store: the rows of [internal/store] (models.go and the
    struct beside each table), the database as a record of tables, the errors
    its methods return, and the audit insert every mutation ends with.

    [set_x_F] replaces field [F] of a record whose prefix is [x]; [on_T]
    applies a function to table [T]. *)
From S2P Require Import Prelude.

(** ** JSON values

    Payloads and audit details are kept as the value [encoding/json] renders,
    not as its text. *)
Inductive Json :=
| JNull
| JBool (b : bool)
| JNum (n : Z)
| JStr (s : string)
| JArr (l : list Json)
| JObj (l : list (string * Json)).

Fixpoint obj_get (k : string) (l : list (string * Json)) : option Json :=
  match l with
  | [] => None
  | (k', v) :: l' => if k =?s k' then Some v else obj_get k l'
  end.

(** [json_extract(payload,'$.k')], and the field an [Unmarshal] into a struct reads. *)
Definition json_get (k : string) (j : Json) : option Json :=
  match j with JObj l => obj_get k l | _ => None end.

(** [profile[k] = v] on a decoded object. *)
Fixpoint obj_set (k : string) (v : Json) (l : list (string * Json)) : list (string * Json) :=
  match l with
  | [] => [(k, v)]
  | (k', v') :: l' => if k =?s k' then (k, v) :: l' else (k', v') :: obj_set k v l'
  end.

Lemma obj_get_set k v l : obj_get k (obj_set k v l) = Some v.
Proof.
  induction l as [|[k' v'] l IH]; simpl; [by rewrite streqb_refl|].
  destruct (k =?s k') eqn:E; simpl; [by rewrite streqb_refl|by rewrite E].
Qed.

Lemma obj_get_set_ne k k' v l : k <> k' -> obj_get k' (obj_set k v l) = obj_get k' l.
Proof.
  intros Hne. induction l as [|[k2 v2] l IH]; simpl.
  - destruct (k' =?s k) eqn:E; [|done]. apply streqb_true in E. congruence.
  - destruct (k =?s k2) eqn:E; simpl.
    + apply streqb_true in E as <-. destruct (k' =?s k) eqn:E'; [|done].
      apply streqb_true in E'. congruence.
    + destruct (k' =?s k2); [done|apply IH].
Qed.

(** ** Errors *)
Inductive StoreError :=
| ErrNotFound | ErrNoRows | ErrRefreshInvalid | ErrRefreshReuse | ErrAppAccessDenied
| ErrAppLinkConflict | ErrAppRecordMissing | ErrAuthorizationInteraction | ErrAppAuthentication
| ErrRefreshNeedsConfidential | ErrLastActiveAdmin | ErrExpiryInPast | ErrUserMissing
| ErrUserConflict | ErrEnrollmentPolicy | ErrEmergencyAdministrator | ErrLastCompliantFactor
| ErrAppNotRequestable | ErrAlreadyHasAccess | ErrDuplicateRequest | ErrTooManyRequests
| ErrRequestNotPending | ErrSelfApproval | ErrCannotDecide | ErrGuardAdministrator
| ErrAlreadyDisabled | ErrDeviceNotApprover | ErrNoRecoveryCode | ErrInvalidLauncherPrefs
| ErrPrivilegedIdentity | ErrGroupMemberForeign | ErrGroupExternalExists | ErrGroupVersionStale
| ErrGroupNameExists | ErrGroupSourceOwned | ErrGroupTargetMissing | ErrReconcileBusy
| ErrAlertMissing | ErrAlertNotOpen | ErrAlertRecipient | ErrAlertSettings
| ErrConstraint (** a UNIQUE, CHECK or foreign-key violation returned as it is *)
| ErrInput (s : string) (** [InputError]: a refusal whose text the caller may see *)
| ErrText (s : string) (** an [errors.New] literal *)
| ErrScim (status : Z) (scimType detail : string) (** a [scimProblem] of the inbound SCIM endpoints *).

(** ** Rows *)

(** A directory account ([users]); [u_EndsAt] is an INTEGER column of unix seconds. *)
Record User := MkUser { u_ID : string; u_Username : string; u_DisplayName : string;
  u_Email : string; u_PasswordHash : string; u_Role : string; u_Status : string;
  u_Pending : bool; u_PasswordChangeRequired : bool; u_EmailVerifiedAt : option Z;
  u_SourceConnectorID : string; u_ExternalID : string; u_SourceActive : bool;
  u_LocallyDisabled : bool; u_EndsAt : option Z; u_CreatedAt : Z; u_UpdatedAt : Z }.

Definition set_u_Status (v : string) (r : User) : User := MkUser (u_ID r) (u_Username r)
  (u_DisplayName r) (u_Email r) (u_PasswordHash r) (u_Role r) v (u_Pending r)
  (u_PasswordChangeRequired r) (u_EmailVerifiedAt r) (u_SourceConnectorID r) (u_ExternalID r)
  (u_SourceActive r) (u_LocallyDisabled r) (u_EndsAt r) (u_CreatedAt r) (u_UpdatedAt r).
Definition set_u_Pending (v : bool) (r : User) : User := MkUser (u_ID r) (u_Username r)
  (u_DisplayName r) (u_Email r) (u_PasswordHash r) (u_Role r) (u_Status r) v
  (u_PasswordChangeRequired r) (u_EmailVerifiedAt r) (u_SourceConnectorID r) (u_ExternalID r)
  (u_SourceActive r) (u_LocallyDisabled r) (u_EndsAt r) (u_CreatedAt r) (u_UpdatedAt r).
Definition set_u_PasswordHash (v : string) (r : User) : User := MkUser (u_ID r) (u_Username r)
  (u_DisplayName r) (u_Email r) v (u_Role r) (u_Status r) (u_Pending r)
  (u_PasswordChangeRequired r) (u_EmailVerifiedAt r) (u_SourceConnectorID r) (u_ExternalID r)
  (u_SourceActive r) (u_LocallyDisabled r) (u_EndsAt r) (u_CreatedAt r) (u_UpdatedAt r).
Definition set_u_PasswordChangeRequired (v : bool) (r : User) : User := MkUser (u_ID r)
  (u_Username r) (u_DisplayName r) (u_Email r) (u_PasswordHash r) (u_Role r) (u_Status r)
  (u_Pending r) v (u_EmailVerifiedAt r) (u_SourceConnectorID r) (u_ExternalID r)
  (u_SourceActive r) (u_LocallyDisabled r) (u_EndsAt r) (u_CreatedAt r) (u_UpdatedAt r).
Definition set_u_EmailVerifiedAt (v : option Z) (r : User) : User := MkUser (u_ID r)
  (u_Username r) (u_DisplayName r) (u_Email r) (u_PasswordHash r) (u_Role r) (u_Status r)
  (u_Pending r) (u_PasswordChangeRequired r) v (u_SourceConnectorID r) (u_ExternalID r)
  (u_SourceActive r) (u_LocallyDisabled r) (u_EndsAt r) (u_CreatedAt r) (u_UpdatedAt r).
Definition set_u_EndsAt (v : option Z) (r : User) : User := MkUser (u_ID r) (u_Username r)
  (u_DisplayName r) (u_Email r) (u_PasswordHash r) (u_Role r) (u_Status r) (u_Pending r)
  (u_PasswordChangeRequired r) (u_EmailVerifiedAt r) (u_SourceConnectorID r) (u_ExternalID r)
  (u_SourceActive r) (u_LocallyDisabled r) v (u_CreatedAt r) (u_UpdatedAt r).
Definition set_u_UpdatedAt (v : Z) (r : User) : User := MkUser (u_ID r) (u_Username r)
  (u_DisplayName r) (u_Email r) (u_PasswordHash r) (u_Role r) (u_Status r) (u_Pending r)
  (u_PasswordChangeRequired r) (u_EmailVerifiedAt r) (u_SourceConnectorID r) (u_ExternalID r)
  (u_SourceActive r) (u_LocallyDisabled r) (u_EndsAt r) (u_CreatedAt r) v.
Definition set_u_Role (v : string) (r : User) : User := MkUser (u_ID r) (u_Username r)
  (u_DisplayName r) (u_Email r) (u_PasswordHash r) v (u_Status r) (u_Pending r)
  (u_PasswordChangeRequired r) (u_EmailVerifiedAt r) (u_SourceConnectorID r) (u_ExternalID r)
  (u_SourceActive r) (u_LocallyDisabled r) (u_EndsAt r) (u_CreatedAt r) (u_UpdatedAt r).
Definition set_u_LocallyDisabled (v : bool) (r : User) : User := MkUser (u_ID r) (u_Username r)
  (u_DisplayName r) (u_Email r) (u_PasswordHash r) (u_Role r) (u_Status r) (u_Pending r)
  (u_PasswordChangeRequired r) (u_EmailVerifiedAt r) (u_SourceConnectorID r) (u_ExternalID r)
  (u_SourceActive r) v (u_EndsAt r) (u_CreatedAt r) (u_UpdatedAt r).
Definition set_u_Email (v : string) (r : User) : User := MkUser (u_ID r) (u_Username r)
  (u_DisplayName r) v (u_PasswordHash r) (u_Role r) (u_Status r) (u_Pending r)
  (u_PasswordChangeRequired r) (u_EmailVerifiedAt r) (u_SourceConnectorID r) (u_ExternalID r)
  (u_SourceActive r) (u_LocallyDisabled r) (u_EndsAt r) (u_CreatedAt r) (u_UpdatedAt r).
Definition set_u_ID (v : string) (r : User) : User := MkUser v (u_Username r) (u_DisplayName r)
  (u_Email r) (u_PasswordHash r) (u_Role r) (u_Status r) (u_Pending r)
  (u_PasswordChangeRequired r) (u_EmailVerifiedAt r) (u_SourceConnectorID r) (u_ExternalID r)
  (u_SourceActive r) (u_LocallyDisabled r) (u_EndsAt r) (u_CreatedAt r) (u_UpdatedAt r).
Definition set_u_CreatedAt (v : Z) (r : User) : User := MkUser (u_ID r) (u_Username r)
  (u_DisplayName r) (u_Email r) (u_PasswordHash r) (u_Role r) (u_Status r) (u_Pending r)
  (u_PasswordChangeRequired r) (u_EmailVerifiedAt r) (u_SourceConnectorID r) (u_ExternalID r)
  (u_SourceActive r) (u_LocallyDisabled r) (u_EndsAt r) v (u_UpdatedAt r).

(** What a login proved; [None] is unknown, never the time of issue. *)
Record AuthenticationEvidence := MkAuthenticationEvidence {
  ev_PrimaryAuthenticatedAt : option Z; ev_FactorAuthenticatedAt : option Z;
  ev_FactorMethod : string }.

(** A browser session ([sessions]) with its [enrollment_only] column. *)
Record Session := MkSession { s_Evidence : AuthenticationEvidence; s_ID : string;
  s_UserID : string; s_SessionTokenHash : string; s_IPAddress : string; s_UserAgent : string;
  s_ExpiresAt : Z; s_CreatedAt : Z; s_LastActiveAt : Z; s_EnrollmentOnly : bool;
  s_ProvenPasswordHash : string }.

Definition set_s_LastActiveAt (v : Z) (r : Session) : Session := MkSession (s_Evidence r)
  (s_ID r) (s_UserID r) (s_SessionTokenHash r) (s_IPAddress r) (s_UserAgent r) (s_ExpiresAt r)
  (s_CreatedAt r) v (s_EnrollmentOnly r) (s_ProvenPasswordHash r).
Definition set_s_EnrollmentOnly (v : bool) (r : Session) : Session := MkSession (s_Evidence r)
  (s_ID r) (s_UserID r) (s_SessionTokenHash r) (s_IPAddress r) (s_UserAgent r) (s_ExpiresAt r)
  (s_CreatedAt r) (s_LastActiveAt r) v (s_ProvenPasswordHash r).

(** A directory group ([directory_groups]). *)
Record Group := MkGroup { g_ID : string; g_Name : string; g_Description : string;
  g_SourceConnectorID : string; g_ExternalID : string; g_CreatedAt : Z; g_UpdatedAt : Z }.

(** The authentication policy of an app; ages and lifetimes in seconds. *)
Record AppAuthenticationPolicy := MkAppAuthenticationPolicy { p_Mode : string;
  p_PrimaryMaxAge : Z; p_Factor : string; p_FactorMaxAge : Z; p_RefreshIdle : Z;
  p_RefreshLifetime : Z }.

(** The app_registry revisions a decision was made against. *)
Record AppPolicyBinding := MkAppPolicyBinding { b_AppID : string; b_AuthRevision : Z;
  b_RoleRevision : Z }.

(** An application record ([app_registry]) without the joined names. *)
Record AppRecord := MkAppRecord { a_Authentication : AppAuthenticationPolicy;
  a_AuthenticationRevision : Z; a_RoleRevision : Z; a_LegacyRoleClaim : bool;
  a_GroupsClaim : bool; a_AccessMode : string; a_Enabled : bool; a_Requestable : bool;
  a_ID : string; a_Revision : Z; a_ClientID : option string; a_LauncherID : option string;
  a_SystemID : option string }.

Definition set_a_Revision (v : Z) (r : AppRecord) : AppRecord := MkAppRecord
  (a_Authentication r) (a_AuthenticationRevision r) (a_RoleRevision r) (a_LegacyRoleClaim r)
  (a_GroupsClaim r) (a_AccessMode r) (a_Enabled r) (a_Requestable r) (a_ID r) v (a_ClientID r)
  (a_LauncherID r) (a_SystemID r).
Definition set_a_Authentication (v : AppAuthenticationPolicy) (r : AppRecord) : AppRecord := MkAppRecord
  v (a_AuthenticationRevision r) (a_RoleRevision r) (a_LegacyRoleClaim r) (a_GroupsClaim r)
  (a_AccessMode r) (a_Enabled r) (a_Requestable r) (a_ID r) (a_Revision r) (a_ClientID r)
  (a_LauncherID r) (a_SystemID r).
Definition set_a_AuthenticationRevision (v : Z) (r : AppRecord) : AppRecord := MkAppRecord
  (a_Authentication r) v (a_RoleRevision r) (a_LegacyRoleClaim r) (a_GroupsClaim r)
  (a_AccessMode r) (a_Enabled r) (a_Requestable r) (a_ID r) (a_Revision r) (a_ClientID r)
  (a_LauncherID r) (a_SystemID r).
Definition set_a_RoleRevision (v : Z) (r : AppRecord) : AppRecord := MkAppRecord
  (a_Authentication r) (a_AuthenticationRevision r) v (a_LegacyRoleClaim r) (a_GroupsClaim r)
  (a_AccessMode r) (a_Enabled r) (a_Requestable r) (a_ID r) (a_Revision r) (a_ClientID r)
  (a_LauncherID r) (a_SystemID r).
Definition set_a_AccessMode (v : string) (r : AppRecord) : AppRecord := MkAppRecord
  (a_Authentication r) (a_AuthenticationRevision r) (a_RoleRevision r) (a_LegacyRoleClaim r)
  (a_GroupsClaim r) v (a_Enabled r) (a_Requestable r) (a_ID r) (a_Revision r) (a_ClientID r)
  (a_LauncherID r) (a_SystemID r).
Definition set_a_Enabled (v : bool) (r : AppRecord) : AppRecord := MkAppRecord
  (a_Authentication r) (a_AuthenticationRevision r) (a_RoleRevision r) (a_LegacyRoleClaim r)
  (a_GroupsClaim r) (a_AccessMode r) v (a_Requestable r) (a_ID r) (a_Revision r) (a_ClientID r)
  (a_LauncherID r) (a_SystemID r).
Definition set_a_Requestable (v : bool) (r : AppRecord) : AppRecord := MkAppRecord
  (a_Authentication r) (a_AuthenticationRevision r) (a_RoleRevision r) (a_LegacyRoleClaim r)
  (a_GroupsClaim r) (a_AccessMode r) (a_Enabled r) v (a_ID r) (a_Revision r) (a_ClientID r)
  (a_LauncherID r) (a_SystemID r).
Definition set_a_ClientID (v : option string) (r : AppRecord) : AppRecord := MkAppRecord
  (a_Authentication r) (a_AuthenticationRevision r) (a_RoleRevision r) (a_LegacyRoleClaim r)
  (a_GroupsClaim r) (a_AccessMode r) (a_Enabled r) (a_Requestable r) (a_ID r) (a_Revision r) v
  (a_LauncherID r) (a_SystemID r).
Definition set_a_LauncherID (v : option string) (r : AppRecord) : AppRecord := MkAppRecord
  (a_Authentication r) (a_AuthenticationRevision r) (a_RoleRevision r) (a_LegacyRoleClaim r)
  (a_GroupsClaim r) (a_AccessMode r) (a_Enabled r) (a_Requestable r) (a_ID r) (a_Revision r)
  (a_ClientID r) v (a_SystemID r).
Definition set_a_SystemID (v : option string) (r : AppRecord) : AppRecord := MkAppRecord
  (a_Authentication r) (a_AuthenticationRevision r) (a_RoleRevision r) (a_LegacyRoleClaim r)
  (a_GroupsClaim r) (a_AccessMode r) (a_Enabled r) (a_Requestable r) (a_ID r) (a_Revision r)
  (a_ClientID r) (a_LauncherID r) v.

(** A registered OAuth client; the two JSON columns hold the decoded string lists ([None] when malformed). *)
Record OAuthClient := MkOAuthClient { oc_ID : string; oc_ClientName : string;
  oc_ClientType : string; oc_ClientSecretHash : string; oc_RedirectURIs : option (list string);
  oc_AllowedScopes : option (list string); oc_PostLogoutRedirectURIs : option (list string);
  oc_BackchannelLogoutURI : string; oc_LaunchURL : string; oc_Description : string; oc_IconName : string;
  oc_LauncherName : string; oc_LauncherAudience : string; oc_Enabled : bool; oc_CreatedAt : Z }.

(** An authorization code ([authorization_codes]). *)
Record AuthorizationCode := MkAuthorizationCode { c_AuthenticationAppID : string;
  c_AuthenticationPolicyRevision : Z; c_RoleRevision : Z; c_InteractionHash : string;
  c_AuthenticationExpiresAt : option Z; c_Evidence : AuthenticationEvidence;
  c_SessionID : string; c_ID : string; c_CodeHash : string; c_ClientID : string;
  c_UserID : string; c_RedirectURI : string; c_Scope : string; c_CodeChallenge : string;
  c_CodeChallengeMethod : string; c_Nonce : string; c_ExpiresAt : Z; c_UsedAt : option Z;
  c_CreatedAt : Z }.

Definition set_c_UsedAt (v : option Z) (r : AuthorizationCode) : AuthorizationCode := MkAuthorizationCode
  (c_AuthenticationAppID r) (c_AuthenticationPolicyRevision r) (c_RoleRevision r)
  (c_InteractionHash r) (c_AuthenticationExpiresAt r) (c_Evidence r) (c_SessionID r) (c_ID r)
  (c_CodeHash r) (c_ClientID r) (c_UserID r) (c_RedirectURI r) (c_Scope r) (c_CodeChallenge r)
  (c_CodeChallengeMethod r) (c_Nonce r) (c_ExpiresAt r) v (c_CreatedAt r).
Definition set_c_AuthenticationAppID (v : string) (r : AuthorizationCode) : AuthorizationCode := MkAuthorizationCode
  v (c_AuthenticationPolicyRevision r) (c_RoleRevision r) (c_InteractionHash r)
  (c_AuthenticationExpiresAt r) (c_Evidence r) (c_SessionID r) (c_ID r) (c_CodeHash r)
  (c_ClientID r) (c_UserID r) (c_RedirectURI r) (c_Scope r) (c_CodeChallenge r)
  (c_CodeChallengeMethod r) (c_Nonce r) (c_ExpiresAt r) (c_UsedAt r) (c_CreatedAt r).
Definition set_c_AuthenticationPolicyRevision (v : Z) (r : AuthorizationCode) : AuthorizationCode := MkAuthorizationCode
  (c_AuthenticationAppID r) v (c_RoleRevision r) (c_InteractionHash r)
  (c_AuthenticationExpiresAt r) (c_Evidence r) (c_SessionID r) (c_ID r) (c_CodeHash r)
  (c_ClientID r) (c_UserID r) (c_RedirectURI r) (c_Scope r) (c_CodeChallenge r)
  (c_CodeChallengeMethod r) (c_Nonce r) (c_ExpiresAt r) (c_UsedAt r) (c_CreatedAt r).
Definition set_c_RoleRevision (v : Z) (r : AuthorizationCode) : AuthorizationCode := MkAuthorizationCode
  (c_AuthenticationAppID r) (c_AuthenticationPolicyRevision r) v (c_InteractionHash r)
  (c_AuthenticationExpiresAt r) (c_Evidence r) (c_SessionID r) (c_ID r) (c_CodeHash r)
  (c_ClientID r) (c_UserID r) (c_RedirectURI r) (c_Scope r) (c_CodeChallenge r)
  (c_CodeChallengeMethod r) (c_Nonce r) (c_ExpiresAt r) (c_UsedAt r) (c_CreatedAt r).
Definition set_c_AuthenticationExpiresAt (v : option Z) (r : AuthorizationCode) : AuthorizationCode := MkAuthorizationCode
  (c_AuthenticationAppID r) (c_AuthenticationPolicyRevision r) (c_RoleRevision r)
  (c_InteractionHash r) v (c_Evidence r) (c_SessionID r) (c_ID r) (c_CodeHash r) (c_ClientID r)
  (c_UserID r) (c_RedirectURI r) (c_Scope r) (c_CodeChallenge r) (c_CodeChallengeMethod r)
  (c_Nonce r) (c_ExpiresAt r) (c_UsedAt r) (c_CreatedAt r).
Definition set_c_CreatedAt (v : Z) (r : AuthorizationCode) : AuthorizationCode := MkAuthorizationCode
  (c_AuthenticationAppID r) (c_AuthenticationPolicyRevision r) (c_RoleRevision r)
  (c_InteractionHash r) (c_AuthenticationExpiresAt r) (c_Evidence r) (c_SessionID r) (c_ID r)
  (c_CodeHash r) (c_ClientID r) (c_UserID r) (c_RedirectURI r) (c_Scope r) (c_CodeChallenge r)
  (c_CodeChallengeMethod r) (c_Nonce r) (c_ExpiresAt r) (c_UsedAt r) v.

(** The device a sign-on token was verified against. *)
Record DeviceBinding := MkDeviceBinding { db_ID : string; db_UserID : string;
  db_PublicKey : string; db_AttestedLevel : string }.

(** A registered access token; the code, policy and device are checked at registration and not stored. *)
Record IssuedToken := MkIssuedToken { it_AuthorizationCodeID : string;
  it_Policy : AppPolicyBinding; it_Device : DeviceBinding; it_FamilyJTI : option string;
  it_SessionID : option string; it_JTI : string; it_UserID : string; it_ClientID : string;
  it_ExpiresAt : Z; it_RevokedAt : option Z; it_CreatedAt : Z }.

Definition set_it_RevokedAt (v : option Z) (r : IssuedToken) : IssuedToken := MkIssuedToken
  (it_AuthorizationCodeID r) (it_Policy r) (it_Device r) (it_FamilyJTI r) (it_SessionID r)
  (it_JTI r) (it_UserID r) (it_ClientID r) (it_ExpiresAt r) v (it_CreatedAt r).
Definition set_it_CreatedAt (v : Z) (r : IssuedToken) : IssuedToken := MkIssuedToken
  (it_AuthorizationCodeID r) (it_Policy r) (it_Device r) (it_FamilyJTI r) (it_SessionID r)
  (it_JTI r) (it_UserID r) (it_ClientID r) (it_ExpiresAt r) (it_RevokedAt r) v.

(** A refresh family; its row in [issued_tokens] carries the user, client, session and end. *)
Record RefreshFamily := MkRefreshFamily { rf_JTI : string; rf_UserID : string;
  rf_ClientID : string; rf_SessionID : string; rf_Scope : string;
  rf_Evidence : AuthenticationEvidence; rf_Policy : AppPolicyBinding; rf_Idle : Z;
  rf_ExpiresAt : Z }.

(** A [refresh_families] row. *)
Record RefreshFamilyRow := MkRefreshFamilyRow { ff_Scope : string;
  ff_Evidence : AuthenticationEvidence; ff_Policy : AppPolicyBinding; ff_IdleSeconds : Z }.

(** A [refresh_tokens] row, keyed by the token's hash. *)
Record RefreshTokenRow := MkRefreshTokenRow { rt_FamilyJTI : string; rt_ExpiresAt : Z;
  rt_UsedAt : option Z; rt_CreatedAt : Z }.

Definition set_rt_UsedAt (v : option Z) (r : RefreshTokenRow) : RefreshTokenRow := MkRefreshTokenRow
  (rt_FamilyJTI r) (rt_ExpiresAt r) v (rt_CreatedAt r).

(** A validated authorization request waiting for its login. *)
Record AuthorizationInteraction := MkAuthorizationInteraction { i_Hash : string;
  i_BrowserHash : string; i_UserID : string; i_OriginalSessionID : string;
  i_SessionID : string; i_Request : string; i_ClientID : string; i_CreatedAt : Z;
  i_ExpiresAt : Z }.

Definition set_i_SessionID (v : string) (r : AuthorizationInteraction) : AuthorizationInteraction := MkAuthorizationInteraction
  (i_Hash r) (i_BrowserHash r) (i_UserID r) (i_OriginalSessionID r) v (i_Request r)
  (i_ClientID r) (i_CreatedAt r) (i_ExpiresAt r).
Definition set_i_UserID (v : string) (r : AuthorizationInteraction) : AuthorizationInteraction := MkAuthorizationInteraction
  (i_Hash r) (i_BrowserHash r) v (i_OriginalSessionID r) (i_SessionID r) (i_Request r)
  (i_ClientID r) (i_CreatedAt r) (i_ExpiresAt r).
Definition set_i_ExpiresAt (v : Z) (r : AuthorizationInteraction) : AuthorizationInteraction := MkAuthorizationInteraction
  (i_Hash r) (i_BrowserHash r) (i_UserID r) (i_OriginalSessionID r) (i_SessionID r)
  (i_Request r) (i_ClientID r) (i_CreatedAt r) v.

(** The opaque sid one client sees for one session. *)
Record ClientSession := MkClientSession { cs_SID : string; cs_ClientID : string;
  cs_SessionID : string; cs_UserID : string }.

(** One back-channel logout owed to one client for one login. *)
Record LogoutDelivery := MkLogoutDelivery { ld_ClientID : string; ld_UserID : string;
  ld_SID : string; ld_Status : string; ld_Attempts : Z; ld_LastError : string;
  ld_ClaimToken : string; ld_LeaseUntil : option Z; ld_NextAttemptAt : Z; ld_CreatedAt : Z;
  ld_UpdatedAt : Z }.

(** A single-use step-up grant. *)
Record StepUpToken := MkStepUpToken { st_Operation : string; st_FactorMethod : string;
  st_ID : string; st_UserID : string; st_SessionID : string; st_TokenHash : string;
  st_ExpiresAt : Z; st_UsedAt : option Z; st_CreatedAt : Z }.

Definition set_st_UsedAt (v : option Z) (r : StepUpToken) : StepUpToken := MkStepUpToken
  (st_Operation r) (st_FactorMethod r) (st_ID r) (st_UserID r) (st_SessionID r)
  (st_TokenHash r) (st_ExpiresAt r) v (st_CreatedAt r).
Definition set_st_CreatedAt (v : Z) (r : StepUpToken) : StepUpToken := MkStepUpToken
  (st_Operation r) (st_FactorMethod r) (st_ID r) (st_UserID r) (st_SessionID r)
  (st_TokenHash r) (st_ExpiresAt r) (st_UsedAt r) v.

(** A pending step-up proof, keyed by its token hash. *)
Record StepUpChallenge := MkStepUpChallenge { sc_TokenHash : string; sc_UserID : string;
  sc_SessionID : string; sc_Operation : string; sc_Method : string; sc_Proof : string;
  sc_PrimaryAuthenticatedAt : Z; sc_ExpiresAt : Z; sc_Attempts : Z; sc_UsedAt : option Z }.

Definition set_sc_Attempts (v : Z) (r : StepUpChallenge) : StepUpChallenge := MkStepUpChallenge
  (sc_TokenHash r) (sc_UserID r) (sc_SessionID r) (sc_Operation r) (sc_Method r) (sc_Proof r)
  (sc_PrimaryAuthenticatedAt r) (sc_ExpiresAt r) v (sc_UsedAt r).
Definition set_sc_UsedAt (v : option Z) (r : StepUpChallenge) : StepUpChallenge := MkStepUpChallenge
  (sc_TokenHash r) (sc_UserID r) (sc_SessionID r) (sc_Operation r) (sc_Method r) (sc_Proof r)
  (sc_PrimaryAuthenticatedAt r) (sc_ExpiresAt r) (sc_Attempts r) v.

(** A paired authenticator. *)
Record NativeDevice := MkNativeDevice { nd_ID : string; nd_UserID : string;
  nd_DeviceName : string; nd_DeviceIdentifier : string; nd_Platform : string;
  nd_PublicKey : string; nd_PushToken : string; nd_PushTokenUpdatedAtMS : Z;
  nd_PushTransport : string; nd_PushP256dh : string; nd_PushAuth : string;
  nd_IsMFAApprover : bool; nd_CanSignOn : bool; nd_AttestedLevel : string;
  nd_AttestedAt : option Z; nd_BootState : string; nd_AttestationSerials : list string;
  nd_LastSeenAt : option Z; nd_CreatedAt : Z }.

Definition set_nd_IsMFAApprover (v : bool) (r : NativeDevice) : NativeDevice := MkNativeDevice
  (nd_ID r) (nd_UserID r) (nd_DeviceName r) (nd_DeviceIdentifier r) (nd_Platform r)
  (nd_PublicKey r) (nd_PushToken r) (nd_PushTokenUpdatedAtMS r) (nd_PushTransport r)
  (nd_PushP256dh r) (nd_PushAuth r) v (nd_CanSignOn r) (nd_AttestedLevel r) (nd_AttestedAt r)
  (nd_BootState r) (nd_AttestationSerials r) (nd_LastSeenAt r) (nd_CreatedAt r).
Definition set_nd_LastSeenAt (v : option Z) (r : NativeDevice) : NativeDevice := MkNativeDevice
  (nd_ID r) (nd_UserID r) (nd_DeviceName r) (nd_DeviceIdentifier r) (nd_Platform r) (nd_PublicKey r)
  (nd_PushToken r) (nd_PushTokenUpdatedAtMS r) (nd_PushTransport r) (nd_PushP256dh r) (nd_PushAuth r)
  (nd_IsMFAApprover r) (nd_CanSignOn r) (nd_AttestedLevel r) (nd_AttestedAt r) (nd_BootState r)
  (nd_AttestationSerials r) v (nd_CreatedAt r).
Definition set_nd_CanSignOn (v : bool) (r : NativeDevice) : NativeDevice := MkNativeDevice
  (nd_ID r) (nd_UserID r) (nd_DeviceName r) (nd_DeviceIdentifier r) (nd_Platform r)
  (nd_PublicKey r) (nd_PushToken r) (nd_PushTokenUpdatedAtMS r) (nd_PushTransport r)
  (nd_PushP256dh r) (nd_PushAuth r) (nd_IsMFAApprover r) v (nd_AttestedLevel r)
  (nd_AttestedAt r) (nd_BootState r) (nd_AttestationSerials r) (nd_LastSeenAt r)
  (nd_CreatedAt r).

(** A 90 second pairing token with its wrong-PIN counter. *)
Record DevicePairingToken := MkDevicePairingToken { dp_ID : string; dp_UserID : string;
  dp_TokenHash : string; dp_PINHash : string; dp_SignOn : bool; dp_PinFailures : Z;
  dp_ExpiresAt : Z; dp_UsedAt : option Z; dp_CreatedAt : Z }.

Definition set_dp_PinFailures (v : Z) (r : DevicePairingToken) : DevicePairingToken := MkDevicePairingToken
  (dp_ID r) (dp_UserID r) (dp_TokenHash r) (dp_PINHash r) (dp_SignOn r) v (dp_ExpiresAt r)
  (dp_UsedAt r) (dp_CreatedAt r).
Definition set_dp_ExpiresAt (v : Z) (r : DevicePairingToken) : DevicePairingToken := MkDevicePairingToken
  (dp_ID r) (dp_UserID r) (dp_TokenHash r) (dp_PINHash r) (dp_SignOn r) (dp_PinFailures r) v
  (dp_UsedAt r) (dp_CreatedAt r).
Definition set_dp_UsedAt (v : option Z) (r : DevicePairingToken) : DevicePairingToken := MkDevicePairingToken
  (dp_ID r) (dp_UserID r) (dp_TokenHash r) (dp_PINHash r) (dp_SignOn r) (dp_PinFailures r)
  (dp_ExpiresAt r) v (dp_CreatedAt r).
Definition set_dp_CreatedAt (v : Z) (r : DevicePairingToken) : DevicePairingToken := MkDevicePairingToken
  (dp_ID r) (dp_UserID r) (dp_TokenHash r) (dp_PINHash r) (dp_SignOn r) (dp_PinFailures r)
  (dp_ExpiresAt r) (dp_UsedAt r) v.

(** An enrolled method ([mfa_methods]) with the last TOTP step accepted. *)
Record MFAMethod := MkMFAMethod { mm_ID : string; mm_UserID : string; mm_MethodType : string;
  mm_EncryptedSecret : string; mm_IsPrimary : bool; mm_LastTOTPCounter : Z; mm_CreatedAt : Z }.

Definition set_mm_LastTOTPCounter (v : Z) (r : MFAMethod) : MFAMethod := MkMFAMethod (mm_ID r)
  (mm_UserID r) (mm_MethodType r) (mm_EncryptedSecret r) (mm_IsPrimary r) v (mm_CreatedAt r).
Definition set_mm_EncryptedSecret (v : string) (r : MFAMethod) : MFAMethod := MkMFAMethod
  (mm_ID r) (mm_UserID r) (mm_MethodType r) v (mm_IsPrimary r) (mm_LastTOTPCounter r)
  (mm_CreatedAt r).
Definition set_mm_IsPrimary (v : bool) (r : MFAMethod) : MFAMethod := MkMFAMethod (mm_ID r)
  (mm_UserID r) (mm_MethodType r) (mm_EncryptedSecret r) v (mm_LastTOTPCounter r)
  (mm_CreatedAt r).
Definition set_mm_CreatedAt (v : Z) (r : MFAMethod) : MFAMethod := MkMFAMethod (mm_ID r)
  (mm_UserID r) (mm_MethodType r) (mm_EncryptedSecret r) (mm_IsPrimary r)
  (mm_LastTOTPCounter r) v.

(** A push challenge. *)
Record MFAChallenge := MkMFAChallenge { mc_VerifiedAt : option Z; mc_ID : string;
  mc_UserID : string; mc_MethodType : string; mc_MatchDigits : string;
  mc_DecoyDigits : list string; mc_Status : string; mc_Purpose : string; mc_ExpiresAt : Z;
  mc_CreatedAt : Z }.

Definition set_mc_VerifiedAt (v : option Z) (r : MFAChallenge) : MFAChallenge := MkMFAChallenge
  v (mc_ID r) (mc_UserID r) (mc_MethodType r) (mc_MatchDigits r) (mc_DecoyDigits r)
  (mc_Status r) (mc_Purpose r) (mc_ExpiresAt r) (mc_CreatedAt r).
Definition set_mc_Status (v : string) (r : MFAChallenge) : MFAChallenge := MkMFAChallenge
  (mc_VerifiedAt r) (mc_ID r) (mc_UserID r) (mc_MethodType r) (mc_MatchDigits r)
  (mc_DecoyDigits r) v (mc_Purpose r) (mc_ExpiresAt r) (mc_CreatedAt r).
Definition set_mc_CreatedAt (v : Z) (r : MFAChallenge) : MFAChallenge := MkMFAChallenge
  (mc_VerifiedAt r) (mc_ID r) (mc_UserID r) (mc_MethodType r) (mc_MatchDigits r)
  (mc_DecoyDigits r) (mc_Status r) (mc_Purpose r) (mc_ExpiresAt r) v.
Definition set_mc_Purpose (v : string) (r : MFAChallenge) : MFAChallenge := MkMFAChallenge
  (mc_VerifiedAt r) (mc_ID r) (mc_UserID r) (mc_MethodType r) (mc_MatchDigits r)
  (mc_DecoyDigits r) (mc_Status r) v (mc_ExpiresAt r) (mc_CreatedAt r).

(** The bearer token of a sign-in that still owes its second factor. *)
Record MFAToken := MkMFAToken { mt_ProvenPasswordHash : string; mt_InteractionHash : string;
  mt_PrimaryAuthenticatedAt : option Z; mt_ID : string; mt_UserID : string;
  mt_TokenHash : string; mt_ChallengeID : option string; mt_Attempts : Z; mt_ExpiresAt : Z;
  mt_UsedAt : option Z; mt_CreatedAt : Z }.

Definition set_mt_Attempts (v : Z) (r : MFAToken) : MFAToken := MkMFAToken
  (mt_ProvenPasswordHash r) (mt_InteractionHash r) (mt_PrimaryAuthenticatedAt r) (mt_ID r)
  (mt_UserID r) (mt_TokenHash r) (mt_ChallengeID r) v (mt_ExpiresAt r) (mt_UsedAt r)
  (mt_CreatedAt r).
Definition set_mt_UsedAt (v : option Z) (r : MFAToken) : MFAToken := MkMFAToken
  (mt_ProvenPasswordHash r) (mt_InteractionHash r) (mt_PrimaryAuthenticatedAt r) (mt_ID r)
  (mt_UserID r) (mt_TokenHash r) (mt_ChallengeID r) (mt_Attempts r) (mt_ExpiresAt r) v
  (mt_CreatedAt r).
Definition set_mt_CreatedAt (v : Z) (r : MFAToken) : MFAToken := MkMFAToken
  (mt_ProvenPasswordHash r) (mt_InteractionHash r) (mt_PrimaryAuthenticatedAt r) (mt_ID r)
  (mt_UserID r) (mt_TokenHash r) (mt_ChallengeID r) (mt_Attempts r) (mt_ExpiresAt r)
  (mt_UsedAt r) v.

(** A one-time recovery code. *)
Record RecoveryCode := MkRecoveryCode { rc_ID : string; rc_UserID : string;
  rc_CodeHash : string; rc_UsedAt : option Z; rc_CreatedAt : Z }.

Definition set_rc_UsedAt (v : option Z) (r : RecoveryCode) : RecoveryCode := MkRecoveryCode
  (rc_ID r) (rc_UserID r) (rc_CodeHash r) v (rc_CreatedAt r).
Definition set_rc_CreatedAt (v : Z) (r : RecoveryCode) : RecoveryCode := MkRecoveryCode
  (rc_ID r) (rc_UserID r) (rc_CodeHash r) (rc_UsedAt r) v.

(** An enrolled passkey. *)
Record WebAuthnCredential := MkWebAuthnCredential { wc_ID : string; wc_UserID : string;
  wc_CredentialID : string; wc_PublicKeySPKI : string; wc_SignCount : Z; wc_Name : string;
  wc_BackupEligible : bool; wc_BackupState : bool; wc_LastUsedAt : option Z; wc_CreatedAt : Z }.

(** A single-use nonce bound to one user and one ceremony. *)
Record WebAuthnChallenge := MkWebAuthnChallenge { wh_ID : string; wh_UserID : string;
  wh_Challenge : string; wh_Purpose : string; wh_ExpiresAt : Z; wh_UsedAt : option Z;
  wh_CreatedAt : Z }.

Definition set_wh_UsedAt (v : option Z) (r : WebAuthnChallenge) : WebAuthnChallenge := MkWebAuthnChallenge
  (wh_ID r) (wh_UserID r) (wh_Challenge r) (wh_Purpose r) (wh_ExpiresAt r) v (wh_CreatedAt r).
Definition set_wh_CreatedAt (v : Z) (r : WebAuthnChallenge) : WebAuthnChallenge := MkWebAuthnChallenge
  (wh_ID r) (wh_UserID r) (wh_Challenge r) (wh_Purpose r) (wh_ExpiresAt r) (wh_UsedAt r) v.

(** A failure counter of one account and one source. *)
Record LoginFailure := MkLoginFailure { lf_Failures : Z; lf_LastFailureAt : Z }.

(** An activation or reset link. *)
Record AccountToken := MkAccountToken { at_UserID : string; at_Kind : string;
  at_TokenHash : string; at_Delivery : string; at_ExpiresAt : Z; at_UsedAt : option Z;
  at_CreatedAt : Z }.

Definition set_at_ExpiresAt (v : Z) (r : AccountToken) : AccountToken := MkAccountToken
  (at_UserID r) (at_Kind r) (at_TokenHash r) (at_Delivery r) v (at_UsedAt r) (at_CreatedAt r).
Definition set_at_UsedAt (v : option Z) (r : AccountToken) : AccountToken := MkAccountToken
  (at_UserID r) (at_Kind r) (at_TokenHash r) (at_Delivery r) (at_ExpiresAt r) v
  (at_CreatedAt r).

(** An MFA enrollment policy, keyed by its scope. *)
Record EnrollmentPolicyRow := MkEnrollmentPolicyRow { ep_GroupID : option string;
  ep_Required : bool; ep_AllowedMask : Z; ep_GraceSeconds : Z; ep_Revision : Z }.

(** A request for an app. *)
Record AccessRequest := MkAccessRequest { ar_AppID : string; ar_UserID : string;
  ar_Reason : string; ar_DurationSeconds : Z; ar_Status : string; ar_CreatedAt : Z;
  ar_ExpiresAt : Z; ar_DecidedAt : option Z; ar_DecidedBy : string; ar_DecisionNote : string }.

(** A downstream connector. *)
Record PairedSystem := MkPairedSystem { ps_ID : string; ps_Name : string;
  ps_SystemType : string; ps_Description : string; ps_IconURL : string; ps_CallbackURL : string;
  ps_HMACSecretEncrypted : string; ps_Status : string; ps_LastSyncedAt : option Z; ps_CreatedAt : Z;
  ps_GroupsEnabled : bool; ps_ReconcileHours : Z; ps_ProvisioningHold : bool }.

Definition set_ps_Status (v : string) (r : PairedSystem) : PairedSystem := MkPairedSystem (ps_ID r) (ps_Name r)
  (ps_SystemType r) (ps_Description r) (ps_IconURL r) (ps_CallbackURL r) (ps_HMACSecretEncrypted r) v (ps_LastSyncedAt
  r) (ps_CreatedAt r) (ps_GroupsEnabled r) (ps_ReconcileHours r) (ps_ProvisioningHold r).
Definition set_ps_LastSyncedAt (v : option Z) (r : PairedSystem) : PairedSystem := MkPairedSystem (ps_ID r) (ps_Name
  r) (ps_SystemType r) (ps_Description r) (ps_IconURL r) (ps_CallbackURL r) (ps_HMACSecretEncrypted r) (ps_Status r) v
  (ps_CreatedAt r) (ps_GroupsEnabled r) (ps_ReconcileHours r) (ps_ProvisioningHold r).

(** An outbox event; the table is kept in rowid order. *)
Record AccountSyncEvent := MkAccountSyncEvent { e_ClaimToken : string; e_ID : string;
  e_UserID : string; e_SystemID : string; e_EventType : string; e_Payload : Json;
  e_Revision : Z; e_DeliveryRevision : Z; e_Attempts : Z; e_Status : string;
  e_LastError : string; e_NextAttempt : option Z; e_LeaseUntil : option Z; e_CreatedAt : Z;
  e_UpdatedAt : Z }.

Definition set_e_ClaimToken (v : string) (r : AccountSyncEvent) : AccountSyncEvent := MkAccountSyncEvent
  v (e_ID r) (e_UserID r) (e_SystemID r) (e_EventType r) (e_Payload r) (e_Revision r)
  (e_DeliveryRevision r) (e_Attempts r) (e_Status r) (e_LastError r) (e_NextAttempt r)
  (e_LeaseUntil r) (e_CreatedAt r) (e_UpdatedAt r).
Definition set_e_Payload (v : Json) (r : AccountSyncEvent) : AccountSyncEvent := MkAccountSyncEvent
  (e_ClaimToken r) (e_ID r) (e_UserID r) (e_SystemID r) (e_EventType r) v (e_Revision r)
  (e_DeliveryRevision r) (e_Attempts r) (e_Status r) (e_LastError r) (e_NextAttempt r)
  (e_LeaseUntil r) (e_CreatedAt r) (e_UpdatedAt r).
Definition set_e_DeliveryRevision (v : Z) (r : AccountSyncEvent) : AccountSyncEvent := MkAccountSyncEvent
  (e_ClaimToken r) (e_ID r) (e_UserID r) (e_SystemID r) (e_EventType r) (e_Payload r)
  (e_Revision r) v (e_Attempts r) (e_Status r) (e_LastError r) (e_NextAttempt r)
  (e_LeaseUntil r) (e_CreatedAt r) (e_UpdatedAt r).
Definition set_e_Status (v : string) (r : AccountSyncEvent) : AccountSyncEvent := MkAccountSyncEvent
  (e_ClaimToken r) (e_ID r) (e_UserID r) (e_SystemID r) (e_EventType r) (e_Payload r)
  (e_Revision r) (e_DeliveryRevision r) (e_Attempts r) v (e_LastError r) (e_NextAttempt r)
  (e_LeaseUntil r) (e_CreatedAt r) (e_UpdatedAt r).
Definition set_e_LastError (v : string) (r : AccountSyncEvent) : AccountSyncEvent := MkAccountSyncEvent
  (e_ClaimToken r) (e_ID r) (e_UserID r) (e_SystemID r) (e_EventType r) (e_Payload r)
  (e_Revision r) (e_DeliveryRevision r) (e_Attempts r) (e_Status r) v (e_NextAttempt r)
  (e_LeaseUntil r) (e_CreatedAt r) (e_UpdatedAt r).
Definition set_e_Attempts (v : Z) (r : AccountSyncEvent) : AccountSyncEvent := MkAccountSyncEvent
  (e_ClaimToken r) (e_ID r) (e_UserID r) (e_SystemID r) (e_EventType r) (e_Payload r)
  (e_Revision r) (e_DeliveryRevision r) v (e_Status r) (e_LastError r) (e_NextAttempt r)
  (e_LeaseUntil r) (e_CreatedAt r) (e_UpdatedAt r).
Definition set_e_NextAttempt (v : option Z) (r : AccountSyncEvent) : AccountSyncEvent := MkAccountSyncEvent
  (e_ClaimToken r) (e_ID r) (e_UserID r) (e_SystemID r) (e_EventType r) (e_Payload r)
  (e_Revision r) (e_DeliveryRevision r) (e_Attempts r) (e_Status r) (e_LastError r) v
  (e_LeaseUntil r) (e_CreatedAt r) (e_UpdatedAt r).
Definition set_e_LeaseUntil (v : option Z) (r : AccountSyncEvent) : AccountSyncEvent := MkAccountSyncEvent
  (e_ClaimToken r) (e_ID r) (e_UserID r) (e_SystemID r) (e_EventType r) (e_Payload r)
  (e_Revision r) (e_DeliveryRevision r) (e_Attempts r) (e_Status r) (e_LastError r)
  (e_NextAttempt r) v (e_CreatedAt r) (e_UpdatedAt r).
Definition set_e_UpdatedAt (v : Z) (r : AccountSyncEvent) : AccountSyncEvent := MkAccountSyncEvent
  (e_ClaimToken r) (e_ID r) (e_UserID r) (e_SystemID r) (e_EventType r) (e_Payload r)
  (e_Revision r) (e_DeliveryRevision r) (e_Attempts r) (e_Status r) (e_LastError r)
  (e_NextAttempt r) (e_LeaseUntil r) (e_CreatedAt r) v.
Definition set_e_Revision (v : Z) (r : AccountSyncEvent) : AccountSyncEvent := MkAccountSyncEvent
  (e_ClaimToken r) (e_ID r) (e_UserID r) (e_SystemID r) (e_EventType r) (e_Payload r) v
  (e_DeliveryRevision r) (e_Attempts r) (e_Status r) (e_LastError r) (e_NextAttempt r)
  (e_LeaseUntil r) (e_CreatedAt r) (e_UpdatedAt r).

(** The desired downstream state of one resource at one connector. *)
Record SyncResourceState := MkSyncResourceState { rs_Kind : string; rs_Active : bool;
  rs_Provisioned : bool; rs_Revision : Z; rs_DeliveryRevision : Z; rs_Members : string;
  rs_OffboardedAt : option Z; rs_Observed : string; rs_ObservedAt : option Z }.

Definition set_rs_Provisioned (v : bool) (r : SyncResourceState) : SyncResourceState := MkSyncResourceState
  (rs_Kind r) (rs_Active r) v (rs_Revision r) (rs_DeliveryRevision r) (rs_Members r)
  (rs_OffboardedAt r) (rs_Observed r) (rs_ObservedAt r).
Definition set_rs_DeliveryRevision (v : Z) (r : SyncResourceState) : SyncResourceState := MkSyncResourceState
  (rs_Kind r) (rs_Active r) (rs_Provisioned r) (rs_Revision r) v (rs_Members r)
  (rs_OffboardedAt r) (rs_Observed r) (rs_ObservedAt r).
Definition set_rs_OffboardedAt (v : option Z) (r : SyncResourceState) : SyncResourceState := MkSyncResourceState
  (rs_Kind r) (rs_Active r) (rs_Provisioned r) (rs_Revision r) (rs_DeliveryRevision r)
  (rs_Members r) v (rs_Observed r) (rs_ObservedAt r).
Definition set_rs_Observed (v : string) (at_ : option Z) (r : SyncResourceState) : SyncResourceState := MkSyncResourceState
  (rs_Kind r) (rs_Active r) (rs_Provisioned r) (rs_Revision r) (rs_DeliveryRevision r)
  (rs_Members r) (rs_OffboardedAt r) v at_.

(** A durable fence: a remote write whose outcome is not known yet. *)
Record SyncDeliveryAttempt := MkSyncDeliveryAttempt { da_Token : string; da_EventID : string;
  da_EventType : string; da_StartedAt : Z; da_RecoverAfter : Z }.

(** A remote mapping; a blank remote ID is a create with an uncertain outcome. *)
Record SCIMLink := MkSCIMLink { sl_Kind : string; sl_RemoteID : string }.

(** A role of an app. *)
Record AppRole := MkAppRole { ro_AppID : string; ro_Name : string }.

(** A connector an upstream directory writes through, and its bearer tokens. *)
Record SCIMConnector := MkSCIMConnector { sn_ID : string; sn_Name : string; sn_Status : string; sn_CreatedAt : Z; sn_UpdatedAt : Z }.

Record SCIMConnectorToken := MkSCIMConnectorToken { ct_ID : string; ct_ConnectorID : string; ct_TokenHash : string; ct_Scope : string;
  ct_CreatedAt : Z; ct_LastUsedAt : option Z; ct_RevokedAt : option Z }.

Definition set_ct_LastUsedAt (v : option Z) (r : SCIMConnectorToken) : SCIMConnectorToken := MkSCIMConnectorToken
  (ct_ID r) (ct_ConnectorID r) (ct_TokenHash r) (ct_Scope r) (ct_CreatedAt r) v (ct_RevokedAt r).
Definition set_ct_RevokedAt (v : option Z) (r : SCIMConnectorToken) : SCIMConnectorToken := MkSCIMConnectorToken
  (ct_ID r) (ct_ConnectorID r) (ct_TokenHash r) (ct_Scope r) (ct_CreatedAt r) (ct_LastUsedAt r) v.

(** A reconciliation job; the report is the value its JSON renders. *)
Record ReconcileJob := MkReconcileJob { j_ID : string; j_SystemID : string; j_Kind : string; j_Status : string; j_RequestedBy : string;
  j_ClaimToken : string; j_Attempts : Z; j_CreatedAt : Z; j_LeaseUntil : option Z; j_StartedAt : option Z; j_FinishedAt : option Z;
  j_Result : option Json; j_Error : string }.

(** An alert, and one message to one recipient about it; deliveries are keyed by
    the ROWID SQLite assigns. *)
Record Alert := MkAlert { al_ID : string; al_Rule : string; al_Key : string; al_Severity : string; al_Title : string; al_Summary : string;
  al_Status : string; al_Count : Z; al_FirstSeen : Z; al_LastSeen : Z; al_AcknowledgedAt : option Z; al_AcknowledgedBy : option string;
  al_ResolvedAt : option Z }.

Record AlertDeliveryRow := MkAlertDeliveryRow { ad_AlertID : string; ad_UserID : string; ad_Kind : string; ad_Status : string; ad_Attempts : Z;
  ad_NextAttemptAt : Z; ad_LastError : string; ad_DeliveredAt : option Z; ad_CreatedAt : Z; ad_UpdatedAt : Z }.

(** An audit row; the details are the JSON value rather than its text. *)
Record AuditEvent := MkAuditEvent { ae_ID : string; ae_ActorID : string;
  ae_ActorUsername : string; ae_Action : string; ae_TargetID : string; ae_TargetType : string;
  ae_IPAddress : string; ae_Outcome : string; ae_Details : Json; ae_CreatedAt : Z }.

Definition set_ae_ActorID (v : string) (r : AuditEvent) : AuditEvent := MkAuditEvent (ae_ID r)
  v (ae_ActorUsername r) (ae_Action r) (ae_TargetID r) (ae_TargetType r) (ae_IPAddress r) (ae_Outcome r)
  (ae_Details r) (ae_CreatedAt r).
Definition set_ae_ActorUsername (v : string) (r : AuditEvent) : AuditEvent := MkAuditEvent
  (ae_ID r) (ae_ActorID r) v (ae_Action r) (ae_TargetID r) (ae_TargetType r) (ae_IPAddress r) (ae_Outcome r)
  (ae_Details r) (ae_CreatedAt r).
Definition set_ae_TargetID (v : string) (r : AuditEvent) : AuditEvent := MkAuditEvent (ae_ID r)
  (ae_ActorID r) (ae_ActorUsername r) (ae_Action r) v (ae_TargetType r) (ae_IPAddress r) (ae_Outcome r)
  (ae_Details r) (ae_CreatedAt r).
Definition set_ae_Details (v : Json) (r : AuditEvent) : AuditEvent := MkAuditEvent (ae_ID r)
  (ae_ActorID r) (ae_ActorUsername r) (ae_Action r) (ae_TargetID r) (ae_TargetType r)
  (ae_IPAddress r) (ae_Outcome r) v (ae_CreatedAt r).
Definition set_ae_CreatedAt (v : Z) (r : AuditEvent) : AuditEvent := MkAuditEvent (ae_ID r)
  (ae_ActorID r) (ae_ActorUsername r) (ae_Action r) (ae_TargetID r) (ae_TargetType r)
  (ae_IPAddress r) (ae_Outcome r) (ae_Details r) v.

(** A launcher card ([applications]). *)
Record Application := MkApplication { ap_ID : string; ap_Name : string; ap_URL : string; ap_IconName : string;
  ap_Description : string; ap_SortOrder : Z; ap_Enabled : bool; ap_CreatedAt : Z }.

(** An uploaded card image ([launcher_icons]). *)
Record LauncherIcon := MkLauncherIcon { ic_ID : string; ic_ContentType : string; ic_Data : list Z; ic_CreatedAt : Z }.

(** ** The database *)

#[projections(primitive)] Record DB := MkDB {
  users : gmap string User;
  directory_groups : gmap string Group;
  group_memberships : gmap (string * string) (option Z);
  app_registry : gmap string AppRecord;
  app_user_assignments : gmap (string * string) (option Z);
  app_group_assignments : gset (string * string);
  oauth_clients : gmap string OAuthClient;
  admin_delegations : gset (string * string * string);
  enrollment_policies : gmap string EnrollmentPolicyRow;
  enrollment_deadlines : gmap (string * string) Z;
  sessions : gmap string Session;
  oidc_client_sessions : gmap string ClientSession;
  logout_deliveries : gmap string LogoutDelivery;
  authorization_interactions : gmap string AuthorizationInteraction;
  authorization_codes : gmap string AuthorizationCode;
  issued_tokens : gmap string IssuedToken;
  refresh_families : gmap string RefreshFamilyRow;
  refresh_tokens : gmap string RefreshTokenRow;
  step_up_tokens : gmap string StepUpToken;
  step_up_challenges : gmap string StepUpChallenge;
  account_tokens : gmap string AccountToken;
  login_failures : gmap (string * string) LoginFailure;
  native_devices : gmap string NativeDevice;
  device_pairing_tokens : gmap string DevicePairingToken;
  mfa_methods : gmap string MFAMethod;
  mfa_challenges : gmap string MFAChallenge;
  mfa_tokens : gmap string MFAToken;
  recovery_codes : gmap string RecoveryCode;
  webauthn_credentials : gmap string WebAuthnCredential;
  webauthn_challenges : gmap string WebAuthnChallenge;
  access_requests : gmap string AccessRequest;
  paired_systems : gmap string PairedSystem;
  account_sync_events : list AccountSyncEvent;
  sync_resource_state : gmap (string * string) SyncResourceState;
  sync_delivery_attempts : gmap (string * string) SyncDeliveryAttempt;
  scim_user_links : gmap (string * string) SCIMLink;
  app_roles : gmap string AppRole;
  app_role_user_assignments : gset (string * string);
  app_role_group_assignments : gset (string * string);
  device_signon_jtis : gmap string Z;
  system_settings : gmap string Json;
  audit_events : gmap string AuditEvent;
  scim_connectors : gmap string SCIMConnector;
  scim_connector_tokens : gmap string SCIMConnectorToken;
  sync_reconcile_jobs : gmap string ReconcileJob;
  alerts : gmap string Alert;
  alert_queue : gmap string Z;
  alert_deliveries : gmap Z AlertDeliveryRow;
  applications : gmap string Application;
  launcher_icons : gmap string LauncherIcon }.

Definition on_users (f : gmap string User -> gmap string User) (d : DB) : DB := MkDB
  (f (users d)) (directory_groups d) (group_memberships d) (app_registry d)
  (app_user_assignments d) (app_group_assignments d) (oauth_clients d) (admin_delegations
  d) (enrollment_policies d) (enrollment_deadlines d) (sessions d) (oidc_client_sessions
  d) (logout_deliveries d) (authorization_interactions d) (authorization_codes d)
  (issued_tokens d) (refresh_families d) (refresh_tokens d) (step_up_tokens d)
  (step_up_challenges d) (account_tokens d) (login_failures d) (native_devices d)
  (device_pairing_tokens d) (mfa_methods d) (mfa_challenges d) (mfa_tokens d)
  (recovery_codes d) (webauthn_credentials d) (webauthn_challenges d) (access_requests d)
  (paired_systems d) (account_sync_events d) (sync_resource_state d)
  (sync_delivery_attempts d) (scim_user_links d) (app_roles d) (app_role_user_assignments
  d) (app_role_group_assignments d) (device_signon_jtis d) (system_settings d)
  (audit_events d) (scim_connectors d) (scim_connector_tokens d) (sync_reconcile_jobs d)
  (alerts d) (alert_queue d) (alert_deliveries d) (applications d)
  (launcher_icons d).
Definition on_directory_groups (f : gmap string Group -> gmap string Group) (d : DB) : DB := MkDB
  (users d) (f (directory_groups d)) (group_memberships d) (app_registry d)
  (app_user_assignments d) (app_group_assignments d) (oauth_clients d) (admin_delegations
  d) (enrollment_policies d) (enrollment_deadlines d) (sessions d) (oidc_client_sessions
  d) (logout_deliveries d) (authorization_interactions d) (authorization_codes d)
  (issued_tokens d) (refresh_families d) (refresh_tokens d) (step_up_tokens d)
  (step_up_challenges d) (account_tokens d) (login_failures d) (native_devices d)
  (device_pairing_tokens d) (mfa_methods d) (mfa_challenges d) (mfa_tokens d)
  (recovery_codes d) (webauthn_credentials d) (webauthn_challenges d) (access_requests d)
  (paired_systems d) (account_sync_events d) (sync_resource_state d)
  (sync_delivery_attempts d) (scim_user_links d) (app_roles d) (app_role_user_assignments
  d) (app_role_group_assignments d) (device_signon_jtis d) (system_settings d)
  (audit_events d) (scim_connectors d) (scim_connector_tokens d) (sync_reconcile_jobs d)
  (alerts d) (alert_queue d) (alert_deliveries d) (applications d)
  (launcher_icons d).
Definition on_group_memberships (f : gmap (string * string) (option Z) -> gmap (string * string) (option Z)) (d : DB) : DB := MkDB
  (users d) (directory_groups d) (f (group_memberships d)) (app_registry d)
  (app_user_assignments d) (app_group_assignments d) (oauth_clients d) (admin_delegations
  d) (enrollment_policies d) (enrollment_deadlines d) (sessions d) (oidc_client_sessions
  d) (logout_deliveries d) (authorization_interactions d) (authorization_codes d)
  (issued_tokens d) (refresh_families d) (refresh_tokens d) (step_up_tokens d)
  (step_up_challenges d) (account_tokens d) (login_failures d) (native_devices d)
  (device_pairing_tokens d) (mfa_methods d) (mfa_challenges d) (mfa_tokens d)
  (recovery_codes d) (webauthn_credentials d) (webauthn_challenges d) (access_requests d)
  (paired_systems d) (account_sync_events d) (sync_resource_state d)
  (sync_delivery_attempts d) (scim_user_links d) (app_roles d) (app_role_user_assignments
  d) (app_role_group_assignments d) (device_signon_jtis d) (system_settings d)
  (audit_events d) (scim_connectors d) (scim_connector_tokens d) (sync_reconcile_jobs d)
  (alerts d) (alert_queue d) (alert_deliveries d) (applications d)
  (launcher_icons d).
Definition on_app_registry (f : gmap string AppRecord -> gmap string AppRecord) (d : DB) : DB := MkDB
  (users d) (directory_groups d) (group_memberships d) (f (app_registry d))
  (app_user_assignments d) (app_group_assignments d) (oauth_clients d) (admin_delegations
  d) (enrollment_policies d) (enrollment_deadlines d) (sessions d) (oidc_client_sessions
  d) (logout_deliveries d) (authorization_interactions d) (authorization_codes d)
  (issued_tokens d) (refresh_families d) (refresh_tokens d) (step_up_tokens d)
  (step_up_challenges d) (account_tokens d) (login_failures d) (native_devices d)
  (device_pairing_tokens d) (mfa_methods d) (mfa_challenges d) (mfa_tokens d)
  (recovery_codes d) (webauthn_credentials d) (webauthn_challenges d) (access_requests d)
  (paired_systems d) (account_sync_events d) (sync_resource_state d)
  (sync_delivery_attempts d) (scim_user_links d) (app_roles d) (app_role_user_assignments
  d) (app_role_group_assignments d) (device_signon_jtis d) (system_settings d)
  (audit_events d) (scim_connectors d) (scim_connector_tokens d) (sync_reconcile_jobs d)
  (alerts d) (alert_queue d) (alert_deliveries d) (applications d)
  (launcher_icons d).
Definition on_app_user_assignments (f : gmap (string * string) (option Z) -> gmap (string * string) (option Z)) (d : DB) : DB := MkDB
  (users d) (directory_groups d) (group_memberships d) (app_registry d) (f
  (app_user_assignments d)) (app_group_assignments d) (oauth_clients d) (admin_delegations
  d) (enrollment_policies d) (enrollment_deadlines d) (sessions d) (oidc_client_sessions
  d) (logout_deliveries d) (authorization_interactions d) (authorization_codes d)
  (issued_tokens d) (refresh_families d) (refresh_tokens d) (step_up_tokens d)
  (step_up_challenges d) (account_tokens d) (login_failures d) (native_devices d)
  (device_pairing_tokens d) (mfa_methods d) (mfa_challenges d) (mfa_tokens d)
  (recovery_codes d) (webauthn_credentials d) (webauthn_challenges d) (access_requests d)
  (paired_systems d) (account_sync_events d) (sync_resource_state d)
  (sync_delivery_attempts d) (scim_user_links d) (app_roles d) (app_role_user_assignments
  d) (app_role_group_assignments d) (device_signon_jtis d) (system_settings d)
  (audit_events d) (scim_connectors d) (scim_connector_tokens d) (sync_reconcile_jobs d)
  (alerts d) (alert_queue d) (alert_deliveries d) (applications d)
  (launcher_icons d).
Definition on_app_group_assignments (f : gset (string * string) -> gset (string * string)) (d : DB) : DB := MkDB
  (users d) (directory_groups d) (group_memberships d) (app_registry d)
  (app_user_assignments d) (f (app_group_assignments d)) (oauth_clients d)
  (admin_delegations d) (enrollment_policies d) (enrollment_deadlines d) (sessions d)
  (oidc_client_sessions d) (logout_deliveries d) (authorization_interactions d)
  (authorization_codes d) (issued_tokens d) (refresh_families d) (refresh_tokens d)
  (step_up_tokens d) (step_up_challenges d) (account_tokens d) (login_failures d)
  (native_devices d) (device_pairing_tokens d) (mfa_methods d) (mfa_challenges d)
  (mfa_tokens d) (recovery_codes d) (webauthn_credentials d) (webauthn_challenges d)
  (access_requests d) (paired_systems d) (account_sync_events d) (sync_resource_state d)
  (sync_delivery_attempts d) (scim_user_links d) (app_roles d) (app_role_user_assignments
  d) (app_role_group_assignments d) (device_signon_jtis d) (system_settings d)
  (audit_events d) (scim_connectors d) (scim_connector_tokens d) (sync_reconcile_jobs d)
  (alerts d) (alert_queue d) (alert_deliveries d) (applications d)
  (launcher_icons d).
Definition on_oauth_clients (f : gmap string OAuthClient -> gmap string OAuthClient) (d : DB) : DB := MkDB
  (users d) (directory_groups d) (group_memberships d) (app_registry d)
  (app_user_assignments d) (app_group_assignments d) (f (oauth_clients d))
  (admin_delegations d) (enrollment_policies d) (enrollment_deadlines d) (sessions d)
  (oidc_client_sessions d) (logout_deliveries d) (authorization_interactions d)
  (authorization_codes d) (issued_tokens d) (refresh_families d) (refresh_tokens d)
  (step_up_tokens d) (step_up_challenges d) (account_tokens d) (login_failures d)
  (native_devices d) (device_pairing_tokens d) (mfa_methods d) (mfa_challenges d)
  (mfa_tokens d) (recovery_codes d) (webauthn_credentials d) (webauthn_challenges d)
  (access_requests d) (paired_systems d) (account_sync_events d) (sync_resource_state d)
  (sync_delivery_attempts d) (scim_user_links d) (app_roles d) (app_role_user_assignments
  d) (app_role_group_assignments d) (device_signon_jtis d) (system_settings d)
  (audit_events d) (scim_connectors d) (scim_connector_tokens d) (sync_reconcile_jobs d)
  (alerts d) (alert_queue d) (alert_deliveries d) (applications d)
  (launcher_icons d).
Definition on_admin_delegations (f : gset (string * string * string) -> gset (string * string * string)) (d : DB) : DB := MkDB
  (users d) (directory_groups d) (group_memberships d) (app_registry d)
  (app_user_assignments d) (app_group_assignments d) (oauth_clients d) (f
  (admin_delegations d)) (enrollment_policies d) (enrollment_deadlines d) (sessions d)
  (oidc_client_sessions d) (logout_deliveries d) (authorization_interactions d)
  (authorization_codes d) (issued_tokens d) (refresh_families d) (refresh_tokens d)
  (step_up_tokens d) (step_up_challenges d) (account_tokens d) (login_failures d)
  (native_devices d) (device_pairing_tokens d) (mfa_methods d) (mfa_challenges d)
  (mfa_tokens d) (recovery_codes d) (webauthn_credentials d) (webauthn_challenges d)
  (access_requests d) (paired_systems d) (account_sync_events d) (sync_resource_state d)
  (sync_delivery_attempts d) (scim_user_links d) (app_roles d) (app_role_user_assignments
  d) (app_role_group_assignments d) (device_signon_jtis d) (system_settings d)
  (audit_events d) (scim_connectors d) (scim_connector_tokens d) (sync_reconcile_jobs d)
  (alerts d) (alert_queue d) (alert_deliveries d) (applications d)
  (launcher_icons d).
Definition on_enrollment_policies (f : gmap string EnrollmentPolicyRow -> gmap string EnrollmentPolicyRow) (d : DB) : DB := MkDB
  (users d) (directory_groups d) (group_memberships d) (app_registry d)
  (app_user_assignments d) (app_group_assignments d) (oauth_clients d) (admin_delegations
  d) (f (enrollment_policies d)) (enrollment_deadlines d) (sessions d)
  (oidc_client_sessions d) (logout_deliveries d) (authorization_interactions d)
  (authorization_codes d) (issued_tokens d) (refresh_families d) (refresh_tokens d)
  (step_up_tokens d) (step_up_challenges d) (account_tokens d) (login_failures d)
  (native_devices d) (device_pairing_tokens d) (mfa_methods d) (mfa_challenges d)
  (mfa_tokens d) (recovery_codes d) (webauthn_credentials d) (webauthn_challenges d)
  (access_requests d) (paired_systems d) (account_sync_events d) (sync_resource_state d)
  (sync_delivery_attempts d) (scim_user_links d) (app_roles d) (app_role_user_assignments
  d) (app_role_group_assignments d) (device_signon_jtis d) (system_settings d)
  (audit_events d) (scim_connectors d) (scim_connector_tokens d) (sync_reconcile_jobs d)
  (alerts d) (alert_queue d) (alert_deliveries d) (applications d)
  (launcher_icons d).
Definition on_enrollment_deadlines (f : gmap (string * string) Z -> gmap (string * string) Z) (d : DB) : DB := MkDB
  (users d) (directory_groups d) (group_memberships d) (app_registry d)
  (app_user_assignments d) (app_group_assignments d) (oauth_clients d) (admin_delegations
  d) (enrollment_policies d) (f (enrollment_deadlines d)) (sessions d)
  (oidc_client_sessions d) (logout_deliveries d) (authorization_interactions d)
  (authorization_codes d) (issued_tokens d) (refresh_families d) (refresh_tokens d)
  (step_up_tokens d) (step_up_challenges d) (account_tokens d) (login_failures d)
  (native_devices d) (device_pairing_tokens d) (mfa_methods d) (mfa_challenges d)
  (mfa_tokens d) (recovery_codes d) (webauthn_credentials d) (webauthn_challenges d)
  (access_requests d) (paired_systems d) (account_sync_events d) (sync_resource_state d)
  (sync_delivery_attempts d) (scim_user_links d) (app_roles d) (app_role_user_assignments
  d) (app_role_group_assignments d) (device_signon_jtis d) (system_settings d)
  (audit_events d) (scim_connectors d) (scim_connector_tokens d) (sync_reconcile_jobs d)
  (alerts d) (alert_queue d) (alert_deliveries d) (applications d)
  (launcher_icons d).
Definition on_sessions (f : gmap string Session -> gmap string Session) (d : DB) : DB := MkDB
  (users d) (directory_groups d) (group_memberships d) (app_registry d)
  (app_user_assignments d) (app_group_assignments d) (oauth_clients d) (admin_delegations
  d) (enrollment_policies d) (enrollment_deadlines d) (f (sessions d))
  (oidc_client_sessions d) (logout_deliveries d) (authorization_interactions d)
  (authorization_codes d) (issued_tokens d) (refresh_families d) (refresh_tokens d)
  (step_up_tokens d) (step_up_challenges d) (account_tokens d) (login_failures d)
  (native_devices d) (device_pairing_tokens d) (mfa_methods d) (mfa_challenges d)
  (mfa_tokens d) (recovery_codes d) (webauthn_credentials d) (webauthn_challenges d)
  (access_requests d) (paired_systems d) (account_sync_events d) (sync_resource_state d)
  (sync_delivery_attempts d) (scim_user_links d) (app_roles d) (app_role_user_assignments
  d) (app_role_group_assignments d) (device_signon_jtis d) (system_settings d)
  (audit_events d) (scim_connectors d) (scim_connector_tokens d) (sync_reconcile_jobs d)
  (alerts d) (alert_queue d) (alert_deliveries d) (applications d)
  (launcher_icons d).
Definition on_oidc_client_sessions (f : gmap string ClientSession -> gmap string ClientSession) (d : DB) : DB := MkDB
  (users d) (directory_groups d) (group_memberships d) (app_registry d)
  (app_user_assignments d) (app_group_assignments d) (oauth_clients d) (admin_delegations
  d) (enrollment_policies d) (enrollment_deadlines d) (sessions d) (f
  (oidc_client_sessions d)) (logout_deliveries d) (authorization_interactions d)
  (authorization_codes d) (issued_tokens d) (refresh_families d) (refresh_tokens d)
  (step_up_tokens d) (step_up_challenges d) (account_tokens d) (login_failures d)
  (native_devices d) (device_pairing_tokens d) (mfa_methods d) (mfa_challenges d)
  (mfa_tokens d) (recovery_codes d) (webauthn_credentials d) (webauthn_challenges d)
  (access_requests d) (paired_systems d) (account_sync_events d) (sync_resource_state d)
  (sync_delivery_attempts d) (scim_user_links d) (app_roles d) (app_role_user_assignments
  d) (app_role_group_assignments d) (device_signon_jtis d) (system_settings d)
  (audit_events d) (scim_connectors d) (scim_connector_tokens d) (sync_reconcile_jobs d)
  (alerts d) (alert_queue d) (alert_deliveries d) (applications d)
  (launcher_icons d).
Definition on_logout_deliveries (f : gmap string LogoutDelivery -> gmap string LogoutDelivery) (d : DB) : DB := MkDB
  (users d) (directory_groups d) (group_memberships d) (app_registry d)
  (app_user_assignments d) (app_group_assignments d) (oauth_clients d) (admin_delegations
  d) (enrollment_policies d) (enrollment_deadlines d) (sessions d) (oidc_client_sessions
  d) (f (logout_deliveries d)) (authorization_interactions d) (authorization_codes d)
  (issued_tokens d) (refresh_families d) (refresh_tokens d) (step_up_tokens d)
  (step_up_challenges d) (account_tokens d) (login_failures d) (native_devices d)
  (device_pairing_tokens d) (mfa_methods d) (mfa_challenges d) (mfa_tokens d)
  (recovery_codes d) (webauthn_credentials d) (webauthn_challenges d) (access_requests d)
  (paired_systems d) (account_sync_events d) (sync_resource_state d)
  (sync_delivery_attempts d) (scim_user_links d) (app_roles d) (app_role_user_assignments
  d) (app_role_group_assignments d) (device_signon_jtis d) (system_settings d)
  (audit_events d) (scim_connectors d) (scim_connector_tokens d) (sync_reconcile_jobs d)
  (alerts d) (alert_queue d) (alert_deliveries d) (applications d)
  (launcher_icons d).
Definition on_authorization_interactions (f : gmap string AuthorizationInteraction -> gmap string AuthorizationInteraction) (d : DB) : DB := MkDB
  (users d) (directory_groups d) (group_memberships d) (app_registry d)
  (app_user_assignments d) (app_group_assignments d) (oauth_clients d) (admin_delegations
  d) (enrollment_policies d) (enrollment_deadlines d) (sessions d) (oidc_client_sessions
  d) (logout_deliveries d) (f (authorization_interactions d)) (authorization_codes d)
  (issued_tokens d) (refresh_families d) (refresh_tokens d) (step_up_tokens d)
  (step_up_challenges d) (account_tokens d) (login_failures d) (native_devices d)
  (device_pairing_tokens d) (mfa_methods d) (mfa_challenges d) (mfa_tokens d)
  (recovery_codes d) (webauthn_credentials d) (webauthn_challenges d) (access_requests d)
  (paired_systems d) (account_sync_events d) (sync_resource_state d)
  (sync_delivery_attempts d) (scim_user_links d) (app_roles d) (app_role_user_assignments
  d) (app_role_group_assignments d) (device_signon_jtis d) (system_settings d)
  (audit_events d) (scim_connectors d) (scim_connector_tokens d) (sync_reconcile_jobs d)
  (alerts d) (alert_queue d) (alert_deliveries d) (applications d)
  (launcher_icons d).
Definition on_authorization_codes (f : gmap string AuthorizationCode -> gmap string AuthorizationCode) (d : DB) : DB := MkDB
  (users d) (directory_groups d) (group_memberships d) (app_registry d)
  (app_user_assignments d) (app_group_assignments d) (oauth_clients d) (admin_delegations
  d) (enrollment_policies d) (enrollment_deadlines d) (sessions d) (oidc_client_sessions
  d) (logout_deliveries d) (authorization_interactions d) (f (authorization_codes d))
  (issued_tokens d) (refresh_families d) (refresh_tokens d) (step_up_tokens d)
  (step_up_challenges d) (account_tokens d) (login_failures d) (native_devices d)
  (device_pairing_tokens d) (mfa_methods d) (mfa_challenges d) (mfa_tokens d)
  (recovery_codes d) (webauthn_credentials d) (webauthn_challenges d) (access_requests d)
  (paired_systems d) (account_sync_events d) (sync_resource_state d)
  (sync_delivery_attempts d) (scim_user_links d) (app_roles d) (app_role_user_assignments
  d) (app_role_group_assignments d) (device_signon_jtis d) (system_settings d)
  (audit_events d) (scim_connectors d) (scim_connector_tokens d) (sync_reconcile_jobs d)
  (alerts d) (alert_queue d) (alert_deliveries d) (applications d)
  (launcher_icons d).
Definition on_issued_tokens (f : gmap string IssuedToken -> gmap string IssuedToken) (d : DB) : DB := MkDB
  (users d) (directory_groups d) (group_memberships d) (app_registry d)
  (app_user_assignments d) (app_group_assignments d) (oauth_clients d) (admin_delegations
  d) (enrollment_policies d) (enrollment_deadlines d) (sessions d) (oidc_client_sessions
  d) (logout_deliveries d) (authorization_interactions d) (authorization_codes d) (f
  (issued_tokens d)) (refresh_families d) (refresh_tokens d) (step_up_tokens d)
  (step_up_challenges d) (account_tokens d) (login_failures d) (native_devices d)
  (device_pairing_tokens d) (mfa_methods d) (mfa_challenges d) (mfa_tokens d)
  (recovery_codes d) (webauthn_credentials d) (webauthn_challenges d) (access_requests d)
  (paired_systems d) (account_sync_events d) (sync_resource_state d)
  (sync_delivery_attempts d) (scim_user_links d) (app_roles d) (app_role_user_assignments
  d) (app_role_group_assignments d) (device_signon_jtis d) (system_settings d)
  (audit_events d) (scim_connectors d) (scim_connector_tokens d) (sync_reconcile_jobs d)
  (alerts d) (alert_queue d) (alert_deliveries d) (applications d)
  (launcher_icons d).
Definition on_refresh_families (f : gmap string RefreshFamilyRow -> gmap string RefreshFamilyRow) (d : DB) : DB := MkDB
  (users d) (directory_groups d) (group_memberships d) (app_registry d)
  (app_user_assignments d) (app_group_assignments d) (oauth_clients d) (admin_delegations
  d) (enrollment_policies d) (enrollment_deadlines d) (sessions d) (oidc_client_sessions
  d) (logout_deliveries d) (authorization_interactions d) (authorization_codes d)
  (issued_tokens d) (f (refresh_families d)) (refresh_tokens d) (step_up_tokens d)
  (step_up_challenges d) (account_tokens d) (login_failures d) (native_devices d)
  (device_pairing_tokens d) (mfa_methods d) (mfa_challenges d) (mfa_tokens d)
  (recovery_codes d) (webauthn_credentials d) (webauthn_challenges d) (access_requests d)
  (paired_systems d) (account_sync_events d) (sync_resource_state d)
  (sync_delivery_attempts d) (scim_user_links d) (app_roles d) (app_role_user_assignments
  d) (app_role_group_assignments d) (device_signon_jtis d) (system_settings d)
  (audit_events d) (scim_connectors d) (scim_connector_tokens d) (sync_reconcile_jobs d)
  (alerts d) (alert_queue d) (alert_deliveries d) (applications d)
  (launcher_icons d).
Definition on_refresh_tokens (f : gmap string RefreshTokenRow -> gmap string RefreshTokenRow) (d : DB) : DB := MkDB
  (users d) (directory_groups d) (group_memberships d) (app_registry d)
  (app_user_assignments d) (app_group_assignments d) (oauth_clients d) (admin_delegations
  d) (enrollment_policies d) (enrollment_deadlines d) (sessions d) (oidc_client_sessions
  d) (logout_deliveries d) (authorization_interactions d) (authorization_codes d)
  (issued_tokens d) (refresh_families d) (f (refresh_tokens d)) (step_up_tokens d)
  (step_up_challenges d) (account_tokens d) (login_failures d) (native_devices d)
  (device_pairing_tokens d) (mfa_methods d) (mfa_challenges d) (mfa_tokens d)
  (recovery_codes d) (webauthn_credentials d) (webauthn_challenges d) (access_requests d)
  (paired_systems d) (account_sync_events d) (sync_resource_state d)
  (sync_delivery_attempts d) (scim_user_links d) (app_roles d) (app_role_user_assignments
  d) (app_role_group_assignments d) (device_signon_jtis d) (system_settings d)
  (audit_events d) (scim_connectors d) (scim_connector_tokens d) (sync_reconcile_jobs d)
  (alerts d) (alert_queue d) (alert_deliveries d) (applications d)
  (launcher_icons d).
Definition on_step_up_tokens (f : gmap string StepUpToken -> gmap string StepUpToken) (d : DB) : DB := MkDB
  (users d) (directory_groups d) (group_memberships d) (app_registry d)
  (app_user_assignments d) (app_group_assignments d) (oauth_clients d) (admin_delegations
  d) (enrollment_policies d) (enrollment_deadlines d) (sessions d) (oidc_client_sessions
  d) (logout_deliveries d) (authorization_interactions d) (authorization_codes d)
  (issued_tokens d) (refresh_families d) (refresh_tokens d) (f (step_up_tokens d))
  (step_up_challenges d) (account_tokens d) (login_failures d) (native_devices d)
  (device_pairing_tokens d) (mfa_methods d) (mfa_challenges d) (mfa_tokens d)
  (recovery_codes d) (webauthn_credentials d) (webauthn_challenges d) (access_requests d)
  (paired_systems d) (account_sync_events d) (sync_resource_state d)
  (sync_delivery_attempts d) (scim_user_links d) (app_roles d) (app_role_user_assignments
  d) (app_role_group_assignments d) (device_signon_jtis d) (system_settings d)
  (audit_events d) (scim_connectors d) (scim_connector_tokens d) (sync_reconcile_jobs d)
  (alerts d) (alert_queue d) (alert_deliveries d) (applications d)
  (launcher_icons d).
Definition on_step_up_challenges (f : gmap string StepUpChallenge -> gmap string StepUpChallenge) (d : DB) : DB := MkDB
  (users d) (directory_groups d) (group_memberships d) (app_registry d)
  (app_user_assignments d) (app_group_assignments d) (oauth_clients d) (admin_delegations
  d) (enrollment_policies d) (enrollment_deadlines d) (sessions d) (oidc_client_sessions
  d) (logout_deliveries d) (authorization_interactions d) (authorization_codes d)
  (issued_tokens d) (refresh_families d) (refresh_tokens d) (step_up_tokens d) (f
  (step_up_challenges d)) (account_tokens d) (login_failures d) (native_devices d)
  (device_pairing_tokens d) (mfa_methods d) (mfa_challenges d) (mfa_tokens d)
  (recovery_codes d) (webauthn_credentials d) (webauthn_challenges d) (access_requests d)
  (paired_systems d) (account_sync_events d) (sync_resource_state d)
  (sync_delivery_attempts d) (scim_user_links d) (app_roles d) (app_role_user_assignments
  d) (app_role_group_assignments d) (device_signon_jtis d) (system_settings d)
  (audit_events d) (scim_connectors d) (scim_connector_tokens d) (sync_reconcile_jobs d)
  (alerts d) (alert_queue d) (alert_deliveries d) (applications d)
  (launcher_icons d).
Definition on_account_tokens (f : gmap string AccountToken -> gmap string AccountToken) (d : DB) : DB := MkDB
  (users d) (directory_groups d) (group_memberships d) (app_registry d)
  (app_user_assignments d) (app_group_assignments d) (oauth_clients d) (admin_delegations
  d) (enrollment_policies d) (enrollment_deadlines d) (sessions d) (oidc_client_sessions
  d) (logout_deliveries d) (authorization_interactions d) (authorization_codes d)
  (issued_tokens d) (refresh_families d) (refresh_tokens d) (step_up_tokens d)
  (step_up_challenges d) (f (account_tokens d)) (login_failures d) (native_devices d)
  (device_pairing_tokens d) (mfa_methods d) (mfa_challenges d) (mfa_tokens d)
  (recovery_codes d) (webauthn_credentials d) (webauthn_challenges d) (access_requests d)
  (paired_systems d) (account_sync_events d) (sync_resource_state d)
  (sync_delivery_attempts d) (scim_user_links d) (app_roles d) (app_role_user_assignments
  d) (app_role_group_assignments d) (device_signon_jtis d) (system_settings d)
  (audit_events d) (scim_connectors d) (scim_connector_tokens d) (sync_reconcile_jobs d)
  (alerts d) (alert_queue d) (alert_deliveries d) (applications d)
  (launcher_icons d).
Definition on_login_failures (f : gmap (string * string) LoginFailure -> gmap (string * string) LoginFailure) (d : DB) : DB := MkDB
  (users d) (directory_groups d) (group_memberships d) (app_registry d)
  (app_user_assignments d) (app_group_assignments d) (oauth_clients d) (admin_delegations
  d) (enrollment_policies d) (enrollment_deadlines d) (sessions d) (oidc_client_sessions
  d) (logout_deliveries d) (authorization_interactions d) (authorization_codes d)
  (issued_tokens d) (refresh_families d) (refresh_tokens d) (step_up_tokens d)
  (step_up_challenges d) (account_tokens d) (f (login_failures d)) (native_devices d)
  (device_pairing_tokens d) (mfa_methods d) (mfa_challenges d) (mfa_tokens d)
  (recovery_codes d) (webauthn_credentials d) (webauthn_challenges d) (access_requests d)
  (paired_systems d) (account_sync_events d) (sync_resource_state d)
  (sync_delivery_attempts d) (scim_user_links d) (app_roles d) (app_role_user_assignments
  d) (app_role_group_assignments d) (device_signon_jtis d) (system_settings d)
  (audit_events d) (scim_connectors d) (scim_connector_tokens d) (sync_reconcile_jobs d)
  (alerts d) (alert_queue d) (alert_deliveries d) (applications d)
  (launcher_icons d).
Definition on_native_devices (f : gmap string NativeDevice -> gmap string NativeDevice) (d : DB) : DB := MkDB
  (users d) (directory_groups d) (group_memberships d) (app_registry d)
  (app_user_assignments d) (app_group_assignments d) (oauth_clients d) (admin_delegations
  d) (enrollment_policies d) (enrollment_deadlines d) (sessions d) (oidc_client_sessions
  d) (logout_deliveries d) (authorization_interactions d) (authorization_codes d)
  (issued_tokens d) (refresh_families d) (refresh_tokens d) (step_up_tokens d)
  (step_up_challenges d) (account_tokens d) (login_failures d) (f (native_devices d))
  (device_pairing_tokens d) (mfa_methods d) (mfa_challenges d) (mfa_tokens d)
  (recovery_codes d) (webauthn_credentials d) (webauthn_challenges d) (access_requests d)
  (paired_systems d) (account_sync_events d) (sync_resource_state d)
  (sync_delivery_attempts d) (scim_user_links d) (app_roles d) (app_role_user_assignments
  d) (app_role_group_assignments d) (device_signon_jtis d) (system_settings d)
  (audit_events d) (scim_connectors d) (scim_connector_tokens d) (sync_reconcile_jobs d)
  (alerts d) (alert_queue d) (alert_deliveries d) (applications d)
  (launcher_icons d).
Definition on_device_pairing_tokens (f : gmap string DevicePairingToken -> gmap string DevicePairingToken) (d : DB) : DB := MkDB
  (users d) (directory_groups d) (group_memberships d) (app_registry d)
  (app_user_assignments d) (app_group_assignments d) (oauth_clients d) (admin_delegations
  d) (enrollment_policies d) (enrollment_deadlines d) (sessions d) (oidc_client_sessions
  d) (logout_deliveries d) (authorization_interactions d) (authorization_codes d)
  (issued_tokens d) (refresh_families d) (refresh_tokens d) (step_up_tokens d)
  (step_up_challenges d) (account_tokens d) (login_failures d) (native_devices d) (f
  (device_pairing_tokens d)) (mfa_methods d) (mfa_challenges d) (mfa_tokens d)
  (recovery_codes d) (webauthn_credentials d) (webauthn_challenges d) (access_requests d)
  (paired_systems d) (account_sync_events d) (sync_resource_state d)
  (sync_delivery_attempts d) (scim_user_links d) (app_roles d) (app_role_user_assignments
  d) (app_role_group_assignments d) (device_signon_jtis d) (system_settings d)
  (audit_events d) (scim_connectors d) (scim_connector_tokens d) (sync_reconcile_jobs d)
  (alerts d) (alert_queue d) (alert_deliveries d) (applications d)
  (launcher_icons d).
Definition on_mfa_methods (f : gmap string MFAMethod -> gmap string MFAMethod) (d : DB) : DB := MkDB
  (users d) (directory_groups d) (group_memberships d) (app_registry d)
  (app_user_assignments d) (app_group_assignments d) (oauth_clients d) (admin_delegations
  d) (enrollment_policies d) (enrollment_deadlines d) (sessions d) (oidc_client_sessions
  d) (logout_deliveries d) (authorization_interactions d) (authorization_codes d)
  (issued_tokens d) (refresh_families d) (refresh_tokens d) (step_up_tokens d)
  (step_up_challenges d) (account_tokens d) (login_failures d) (native_devices d)
  (device_pairing_tokens d) (f (mfa_methods d)) (mfa_challenges d) (mfa_tokens d)
  (recovery_codes d) (webauthn_credentials d) (webauthn_challenges d) (access_requests d)
  (paired_systems d) (account_sync_events d) (sync_resource_state d)
  (sync_delivery_attempts d) (scim_user_links d) (app_roles d) (app_role_user_assignments
  d) (app_role_group_assignments d) (device_signon_jtis d) (system_settings d)
  (audit_events d) (scim_connectors d) (scim_connector_tokens d) (sync_reconcile_jobs d)
  (alerts d) (alert_queue d) (alert_deliveries d) (applications d)
  (launcher_icons d).
Definition on_mfa_challenges (f : gmap string MFAChallenge -> gmap string MFAChallenge) (d : DB) : DB := MkDB
  (users d) (directory_groups d) (group_memberships d) (app_registry d)
  (app_user_assignments d) (app_group_assignments d) (oauth_clients d) (admin_delegations
  d) (enrollment_policies d) (enrollment_deadlines d) (sessions d) (oidc_client_sessions
  d) (logout_deliveries d) (authorization_interactions d) (authorization_codes d)
  (issued_tokens d) (refresh_families d) (refresh_tokens d) (step_up_tokens d)
  (step_up_challenges d) (account_tokens d) (login_failures d) (native_devices d)
  (device_pairing_tokens d) (mfa_methods d) (f (mfa_challenges d)) (mfa_tokens d)
  (recovery_codes d) (webauthn_credentials d) (webauthn_challenges d) (access_requests d)
  (paired_systems d) (account_sync_events d) (sync_resource_state d)
  (sync_delivery_attempts d) (scim_user_links d) (app_roles d) (app_role_user_assignments
  d) (app_role_group_assignments d) (device_signon_jtis d) (system_settings d)
  (audit_events d) (scim_connectors d) (scim_connector_tokens d) (sync_reconcile_jobs d)
  (alerts d) (alert_queue d) (alert_deliveries d) (applications d)
  (launcher_icons d).
Definition on_mfa_tokens (f : gmap string MFAToken -> gmap string MFAToken) (d : DB) : DB := MkDB
  (users d) (directory_groups d) (group_memberships d) (app_registry d)
  (app_user_assignments d) (app_group_assignments d) (oauth_clients d) (admin_delegations
  d) (enrollment_policies d) (enrollment_deadlines d) (sessions d) (oidc_client_sessions
  d) (logout_deliveries d) (authorization_interactions d) (authorization_codes d)
  (issued_tokens d) (refresh_families d) (refresh_tokens d) (step_up_tokens d)
  (step_up_challenges d) (account_tokens d) (login_failures d) (native_devices d)
  (device_pairing_tokens d) (mfa_methods d) (mfa_challenges d) (f (mfa_tokens d))
  (recovery_codes d) (webauthn_credentials d) (webauthn_challenges d) (access_requests d)
  (paired_systems d) (account_sync_events d) (sync_resource_state d)
  (sync_delivery_attempts d) (scim_user_links d) (app_roles d) (app_role_user_assignments
  d) (app_role_group_assignments d) (device_signon_jtis d) (system_settings d)
  (audit_events d) (scim_connectors d) (scim_connector_tokens d) (sync_reconcile_jobs d)
  (alerts d) (alert_queue d) (alert_deliveries d) (applications d)
  (launcher_icons d).
Definition on_recovery_codes (f : gmap string RecoveryCode -> gmap string RecoveryCode) (d : DB) : DB := MkDB
  (users d) (directory_groups d) (group_memberships d) (app_registry d)
  (app_user_assignments d) (app_group_assignments d) (oauth_clients d) (admin_delegations
  d) (enrollment_policies d) (enrollment_deadlines d) (sessions d) (oidc_client_sessions
  d) (logout_deliveries d) (authorization_interactions d) (authorization_codes d)
  (issued_tokens d) (refresh_families d) (refresh_tokens d) (step_up_tokens d)
  (step_up_challenges d) (account_tokens d) (login_failures d) (native_devices d)
  (device_pairing_tokens d) (mfa_methods d) (mfa_challenges d) (mfa_tokens d) (f
  (recovery_codes d)) (webauthn_credentials d) (webauthn_challenges d) (access_requests d)
  (paired_systems d) (account_sync_events d) (sync_resource_state d)
  (sync_delivery_attempts d) (scim_user_links d) (app_roles d) (app_role_user_assignments
  d) (app_role_group_assignments d) (device_signon_jtis d) (system_settings d)
  (audit_events d) (scim_connectors d) (scim_connector_tokens d) (sync_reconcile_jobs d)
  (alerts d) (alert_queue d) (alert_deliveries d) (applications d)
  (launcher_icons d).
Definition on_webauthn_credentials (f : gmap string WebAuthnCredential -> gmap string WebAuthnCredential) (d : DB) : DB := MkDB
  (users d) (directory_groups d) (group_memberships d) (app_registry d)
  (app_user_assignments d) (app_group_assignments d) (oauth_clients d) (admin_delegations
  d) (enrollment_policies d) (enrollment_deadlines d) (sessions d) (oidc_client_sessions
  d) (logout_deliveries d) (authorization_interactions d) (authorization_codes d)
  (issued_tokens d) (refresh_families d) (refresh_tokens d) (step_up_tokens d)
  (step_up_challenges d) (account_tokens d) (login_failures d) (native_devices d)
  (device_pairing_tokens d) (mfa_methods d) (mfa_challenges d) (mfa_tokens d)
  (recovery_codes d) (f (webauthn_credentials d)) (webauthn_challenges d) (access_requests
  d) (paired_systems d) (account_sync_events d) (sync_resource_state d)
  (sync_delivery_attempts d) (scim_user_links d) (app_roles d) (app_role_user_assignments
  d) (app_role_group_assignments d) (device_signon_jtis d) (system_settings d)
  (audit_events d) (scim_connectors d) (scim_connector_tokens d) (sync_reconcile_jobs d)
  (alerts d) (alert_queue d) (alert_deliveries d) (applications d)
  (launcher_icons d).
Definition on_webauthn_challenges (f : gmap string WebAuthnChallenge -> gmap string WebAuthnChallenge) (d : DB) : DB := MkDB
  (users d) (directory_groups d) (group_memberships d) (app_registry d)
  (app_user_assignments d) (app_group_assignments d) (oauth_clients d) (admin_delegations
  d) (enrollment_policies d) (enrollment_deadlines d) (sessions d) (oidc_client_sessions
  d) (logout_deliveries d) (authorization_interactions d) (authorization_codes d)
  (issued_tokens d) (refresh_families d) (refresh_tokens d) (step_up_tokens d)
  (step_up_challenges d) (account_tokens d) (login_failures d) (native_devices d)
  (device_pairing_tokens d) (mfa_methods d) (mfa_challenges d) (mfa_tokens d)
  (recovery_codes d) (webauthn_credentials d) (f (webauthn_challenges d)) (access_requests
  d) (paired_systems d) (account_sync_events d) (sync_resource_state d)
  (sync_delivery_attempts d) (scim_user_links d) (app_roles d) (app_role_user_assignments
  d) (app_role_group_assignments d) (device_signon_jtis d) (system_settings d)
  (audit_events d) (scim_connectors d) (scim_connector_tokens d) (sync_reconcile_jobs d)
  (alerts d) (alert_queue d) (alert_deliveries d) (applications d)
  (launcher_icons d).
Definition on_access_requests (f : gmap string AccessRequest -> gmap string AccessRequest) (d : DB) : DB := MkDB
  (users d) (directory_groups d) (group_memberships d) (app_registry d)
  (app_user_assignments d) (app_group_assignments d) (oauth_clients d) (admin_delegations
  d) (enrollment_policies d) (enrollment_deadlines d) (sessions d) (oidc_client_sessions
  d) (logout_deliveries d) (authorization_interactions d) (authorization_codes d)
  (issued_tokens d) (refresh_families d) (refresh_tokens d) (step_up_tokens d)
  (step_up_challenges d) (account_tokens d) (login_failures d) (native_devices d)
  (device_pairing_tokens d) (mfa_methods d) (mfa_challenges d) (mfa_tokens d)
  (recovery_codes d) (webauthn_credentials d) (webauthn_challenges d) (f (access_requests
  d)) (paired_systems d) (account_sync_events d) (sync_resource_state d)
  (sync_delivery_attempts d) (scim_user_links d) (app_roles d) (app_role_user_assignments
  d) (app_role_group_assignments d) (device_signon_jtis d) (system_settings d)
  (audit_events d) (scim_connectors d) (scim_connector_tokens d) (sync_reconcile_jobs d)
  (alerts d) (alert_queue d) (alert_deliveries d) (applications d)
  (launcher_icons d).
Definition on_paired_systems (f : gmap string PairedSystem -> gmap string PairedSystem) (d : DB) : DB := MkDB
  (users d) (directory_groups d) (group_memberships d) (app_registry d)
  (app_user_assignments d) (app_group_assignments d) (oauth_clients d) (admin_delegations
  d) (enrollment_policies d) (enrollment_deadlines d) (sessions d) (oidc_client_sessions
  d) (logout_deliveries d) (authorization_interactions d) (authorization_codes d)
  (issued_tokens d) (refresh_families d) (refresh_tokens d) (step_up_tokens d)
  (step_up_challenges d) (account_tokens d) (login_failures d) (native_devices d)
  (device_pairing_tokens d) (mfa_methods d) (mfa_challenges d) (mfa_tokens d)
  (recovery_codes d) (webauthn_credentials d) (webauthn_challenges d) (access_requests d)
  (f (paired_systems d)) (account_sync_events d) (sync_resource_state d)
  (sync_delivery_attempts d) (scim_user_links d) (app_roles d) (app_role_user_assignments
  d) (app_role_group_assignments d) (device_signon_jtis d) (system_settings d)
  (audit_events d) (scim_connectors d) (scim_connector_tokens d) (sync_reconcile_jobs d)
  (alerts d) (alert_queue d) (alert_deliveries d) (applications d)
  (launcher_icons d).
Definition on_account_sync_events (f : list AccountSyncEvent -> list AccountSyncEvent) (d : DB) : DB := MkDB
  (users d) (directory_groups d) (group_memberships d) (app_registry d)
  (app_user_assignments d) (app_group_assignments d) (oauth_clients d) (admin_delegations
  d) (enrollment_policies d) (enrollment_deadlines d) (sessions d) (oidc_client_sessions
  d) (logout_deliveries d) (authorization_interactions d) (authorization_codes d)
  (issued_tokens d) (refresh_families d) (refresh_tokens d) (step_up_tokens d)
  (step_up_challenges d) (account_tokens d) (login_failures d) (native_devices d)
  (device_pairing_tokens d) (mfa_methods d) (mfa_challenges d) (mfa_tokens d)
  (recovery_codes d) (webauthn_credentials d) (webauthn_challenges d) (access_requests d)
  (paired_systems d) (f (account_sync_events d)) (sync_resource_state d)
  (sync_delivery_attempts d) (scim_user_links d) (app_roles d) (app_role_user_assignments
  d) (app_role_group_assignments d) (device_signon_jtis d) (system_settings d)
  (audit_events d) (scim_connectors d) (scim_connector_tokens d) (sync_reconcile_jobs d)
  (alerts d) (alert_queue d) (alert_deliveries d) (applications d)
  (launcher_icons d).
Definition on_sync_resource_state (f : gmap (string * string) SyncResourceState -> gmap (string * string) SyncResourceState) (d : DB) : DB := MkDB
  (users d) (directory_groups d) (group_memberships d) (app_registry d)
  (app_user_assignments d) (app_group_assignments d) (oauth_clients d) (admin_delegations
  d) (enrollment_policies d) (enrollment_deadlines d) (sessions d) (oidc_client_sessions
  d) (logout_deliveries d) (authorization_interactions d) (authorization_codes d)
  (issued_tokens d) (refresh_families d) (refresh_tokens d) (step_up_tokens d)
  (step_up_challenges d) (account_tokens d) (login_failures d) (native_devices d)
  (device_pairing_tokens d) (mfa_methods d) (mfa_challenges d) (mfa_tokens d)
  (recovery_codes d) (webauthn_credentials d) (webauthn_challenges d) (access_requests d)
  (paired_systems d) (account_sync_events d) (f (sync_resource_state d))
  (sync_delivery_attempts d) (scim_user_links d) (app_roles d) (app_role_user_assignments
  d) (app_role_group_assignments d) (device_signon_jtis d) (system_settings d)
  (audit_events d) (scim_connectors d) (scim_connector_tokens d) (sync_reconcile_jobs d)
  (alerts d) (alert_queue d) (alert_deliveries d) (applications d)
  (launcher_icons d).
Definition on_sync_delivery_attempts (f : gmap (string * string) SyncDeliveryAttempt -> gmap (string * string) SyncDeliveryAttempt) (d : DB) : DB := MkDB
  (users d) (directory_groups d) (group_memberships d) (app_registry d)
  (app_user_assignments d) (app_group_assignments d) (oauth_clients d) (admin_delegations
  d) (enrollment_policies d) (enrollment_deadlines d) (sessions d) (oidc_client_sessions
  d) (logout_deliveries d) (authorization_interactions d) (authorization_codes d)
  (issued_tokens d) (refresh_families d) (refresh_tokens d) (step_up_tokens d)
  (step_up_challenges d) (account_tokens d) (login_failures d) (native_devices d)
  (device_pairing_tokens d) (mfa_methods d) (mfa_challenges d) (mfa_tokens d)
  (recovery_codes d) (webauthn_credentials d) (webauthn_challenges d) (access_requests d)
  (paired_systems d) (account_sync_events d) (sync_resource_state d) (f
  (sync_delivery_attempts d)) (scim_user_links d) (app_roles d) (app_role_user_assignments
  d) (app_role_group_assignments d) (device_signon_jtis d) (system_settings d)
  (audit_events d) (scim_connectors d) (scim_connector_tokens d) (sync_reconcile_jobs d)
  (alerts d) (alert_queue d) (alert_deliveries d) (applications d)
  (launcher_icons d).
Definition on_scim_user_links (f : gmap (string * string) SCIMLink -> gmap (string * string) SCIMLink) (d : DB) : DB := MkDB
  (users d) (directory_groups d) (group_memberships d) (app_registry d)
  (app_user_assignments d) (app_group_assignments d) (oauth_clients d) (admin_delegations
  d) (enrollment_policies d) (enrollment_deadlines d) (sessions d) (oidc_client_sessions
  d) (logout_deliveries d) (authorization_interactions d) (authorization_codes d)
  (issued_tokens d) (refresh_families d) (refresh_tokens d) (step_up_tokens d)
  (step_up_challenges d) (account_tokens d) (login_failures d) (native_devices d)
  (device_pairing_tokens d) (mfa_methods d) (mfa_challenges d) (mfa_tokens d)
  (recovery_codes d) (webauthn_credentials d) (webauthn_challenges d) (access_requests d)
  (paired_systems d) (account_sync_events d) (sync_resource_state d)
  (sync_delivery_attempts d) (f (scim_user_links d)) (app_roles d)
  (app_role_user_assignments d) (app_role_group_assignments d) (device_signon_jtis d)
  (system_settings d) (audit_events d) (scim_connectors d) (scim_connector_tokens d)
  (sync_reconcile_jobs d) (alerts d) (alert_queue d) (alert_deliveries d) (applications d)
  (launcher_icons d).
Definition on_app_roles (f : gmap string AppRole -> gmap string AppRole) (d : DB) : DB := MkDB
  (users d) (directory_groups d) (group_memberships d) (app_registry d)
  (app_user_assignments d) (app_group_assignments d) (oauth_clients d) (admin_delegations
  d) (enrollment_policies d) (enrollment_deadlines d) (sessions d) (oidc_client_sessions
  d) (logout_deliveries d) (authorization_interactions d) (authorization_codes d)
  (issued_tokens d) (refresh_families d) (refresh_tokens d) (step_up_tokens d)
  (step_up_challenges d) (account_tokens d) (login_failures d) (native_devices d)
  (device_pairing_tokens d) (mfa_methods d) (mfa_challenges d) (mfa_tokens d)
  (recovery_codes d) (webauthn_credentials d) (webauthn_challenges d) (access_requests d)
  (paired_systems d) (account_sync_events d) (sync_resource_state d)
  (sync_delivery_attempts d) (scim_user_links d) (f (app_roles d))
  (app_role_user_assignments d) (app_role_group_assignments d) (device_signon_jtis d)
  (system_settings d) (audit_events d) (scim_connectors d) (scim_connector_tokens d)
  (sync_reconcile_jobs d) (alerts d) (alert_queue d) (alert_deliveries d) (applications d)
  (launcher_icons d).
Definition on_app_role_user_assignments (f : gset (string * string) -> gset (string * string)) (d : DB) : DB := MkDB
  (users d) (directory_groups d) (group_memberships d) (app_registry d)
  (app_user_assignments d) (app_group_assignments d) (oauth_clients d) (admin_delegations
  d) (enrollment_policies d) (enrollment_deadlines d) (sessions d) (oidc_client_sessions
  d) (logout_deliveries d) (authorization_interactions d) (authorization_codes d)
  (issued_tokens d) (refresh_families d) (refresh_tokens d) (step_up_tokens d)
  (step_up_challenges d) (account_tokens d) (login_failures d) (native_devices d)
  (device_pairing_tokens d) (mfa_methods d) (mfa_challenges d) (mfa_tokens d)
  (recovery_codes d) (webauthn_credentials d) (webauthn_challenges d) (access_requests d)
  (paired_systems d) (account_sync_events d) (sync_resource_state d)
  (sync_delivery_attempts d) (scim_user_links d) (app_roles d) (f
  (app_role_user_assignments d)) (app_role_group_assignments d) (device_signon_jtis d)
  (system_settings d) (audit_events d) (scim_connectors d) (scim_connector_tokens d)
  (sync_reconcile_jobs d) (alerts d) (alert_queue d) (alert_deliveries d) (applications d)
  (launcher_icons d).
Definition on_app_role_group_assignments (f : gset (string * string) -> gset (string * string)) (d : DB) : DB := MkDB
  (users d) (directory_groups d) (group_memberships d) (app_registry d)
  (app_user_assignments d) (app_group_assignments d) (oauth_clients d) (admin_delegations
  d) (enrollment_policies d) (enrollment_deadlines d) (sessions d) (oidc_client_sessions
  d) (logout_deliveries d) (authorization_interactions d) (authorization_codes d)
  (issued_tokens d) (refresh_families d) (refresh_tokens d) (step_up_tokens d)
  (step_up_challenges d) (account_tokens d) (login_failures d) (native_devices d)
  (device_pairing_tokens d) (mfa_methods d) (mfa_challenges d) (mfa_tokens d)
  (recovery_codes d) (webauthn_credentials d) (webauthn_challenges d) (access_requests d)
  (paired_systems d) (account_sync_events d) (sync_resource_state d)
  (sync_delivery_attempts d) (scim_user_links d) (app_roles d) (app_role_user_assignments
  d) (f (app_role_group_assignments d)) (device_signon_jtis d) (system_settings d)
  (audit_events d) (scim_connectors d) (scim_connector_tokens d) (sync_reconcile_jobs d)
  (alerts d) (alert_queue d) (alert_deliveries d) (applications d)
  (launcher_icons d).
Definition on_device_signon_jtis (f : gmap string Z -> gmap string Z) (d : DB) : DB := MkDB
  (users d) (directory_groups d) (group_memberships d) (app_registry d)
  (app_user_assignments d) (app_group_assignments d) (oauth_clients d) (admin_delegations
  d) (enrollment_policies d) (enrollment_deadlines d) (sessions d) (oidc_client_sessions
  d) (logout_deliveries d) (authorization_interactions d) (authorization_codes d)
  (issued_tokens d) (refresh_families d) (refresh_tokens d) (step_up_tokens d)
  (step_up_challenges d) (account_tokens d) (login_failures d) (native_devices d)
  (device_pairing_tokens d) (mfa_methods d) (mfa_challenges d) (mfa_tokens d)
  (recovery_codes d) (webauthn_credentials d) (webauthn_challenges d) (access_requests d)
  (paired_systems d) (account_sync_events d) (sync_resource_state d)
  (sync_delivery_attempts d) (scim_user_links d) (app_roles d) (app_role_user_assignments
  d) (app_role_group_assignments d) (f (device_signon_jtis d)) (system_settings d)
  (audit_events d) (scim_connectors d) (scim_connector_tokens d) (sync_reconcile_jobs d)
  (alerts d) (alert_queue d) (alert_deliveries d) (applications d)
  (launcher_icons d).
Definition on_system_settings (f : gmap string Json -> gmap string Json) (d : DB) : DB := MkDB
  (users d) (directory_groups d) (group_memberships d) (app_registry d)
  (app_user_assignments d) (app_group_assignments d) (oauth_clients d) (admin_delegations
  d) (enrollment_policies d) (enrollment_deadlines d) (sessions d) (oidc_client_sessions
  d) (logout_deliveries d) (authorization_interactions d) (authorization_codes d)
  (issued_tokens d) (refresh_families d) (refresh_tokens d) (step_up_tokens d)
  (step_up_challenges d) (account_tokens d) (login_failures d) (native_devices d)
  (device_pairing_tokens d) (mfa_methods d) (mfa_challenges d) (mfa_tokens d)
  (recovery_codes d) (webauthn_credentials d) (webauthn_challenges d) (access_requests d)
  (paired_systems d) (account_sync_events d) (sync_resource_state d)
  (sync_delivery_attempts d) (scim_user_links d) (app_roles d) (app_role_user_assignments
  d) (app_role_group_assignments d) (device_signon_jtis d) (f (system_settings d))
  (audit_events d) (scim_connectors d) (scim_connector_tokens d) (sync_reconcile_jobs d)
  (alerts d) (alert_queue d) (alert_deliveries d) (applications d)
  (launcher_icons d).
Definition on_audit_events (f : gmap string AuditEvent -> gmap string AuditEvent) (d : DB) : DB := MkDB
  (users d) (directory_groups d) (group_memberships d) (app_registry d)
  (app_user_assignments d) (app_group_assignments d) (oauth_clients d) (admin_delegations
  d) (enrollment_policies d) (enrollment_deadlines d) (sessions d) (oidc_client_sessions
  d) (logout_deliveries d) (authorization_interactions d) (authorization_codes d)
  (issued_tokens d) (refresh_families d) (refresh_tokens d) (step_up_tokens d)
  (step_up_challenges d) (account_tokens d) (login_failures d) (native_devices d)
  (device_pairing_tokens d) (mfa_methods d) (mfa_challenges d) (mfa_tokens d)
  (recovery_codes d) (webauthn_credentials d) (webauthn_challenges d) (access_requests d)
  (paired_systems d) (account_sync_events d) (sync_resource_state d)
  (sync_delivery_attempts d) (scim_user_links d) (app_roles d) (app_role_user_assignments
  d) (app_role_group_assignments d) (device_signon_jtis d) (system_settings d) (f
  (audit_events d)) (scim_connectors d) (scim_connector_tokens d) (sync_reconcile_jobs d)
  (alerts d) (alert_queue d) (alert_deliveries d) (applications d)
  (launcher_icons d).
Definition on_scim_connectors (f : gmap string SCIMConnector -> gmap string SCIMConnector) (d : DB) : DB := MkDB
  (users d) (directory_groups d) (group_memberships d) (app_registry d)
  (app_user_assignments d) (app_group_assignments d) (oauth_clients d) (admin_delegations
  d) (enrollment_policies d) (enrollment_deadlines d) (sessions d) (oidc_client_sessions
  d) (logout_deliveries d) (authorization_interactions d) (authorization_codes d)
  (issued_tokens d) (refresh_families d) (refresh_tokens d) (step_up_tokens d)
  (step_up_challenges d) (account_tokens d) (login_failures d) (native_devices d)
  (device_pairing_tokens d) (mfa_methods d) (mfa_challenges d) (mfa_tokens d)
  (recovery_codes d) (webauthn_credentials d) (webauthn_challenges d) (access_requests d)
  (paired_systems d) (account_sync_events d) (sync_resource_state d)
  (sync_delivery_attempts d) (scim_user_links d) (app_roles d) (app_role_user_assignments
  d) (app_role_group_assignments d) (device_signon_jtis d) (system_settings d)
  (audit_events d) (f (scim_connectors d)) (scim_connector_tokens d) (sync_reconcile_jobs
  d) (alerts d) (alert_queue d) (alert_deliveries d) (applications d)
  (launcher_icons d).
Definition on_scim_connector_tokens (f : gmap string SCIMConnectorToken -> gmap string SCIMConnectorToken) (d : DB) : DB := MkDB
  (users d) (directory_groups d) (group_memberships d) (app_registry d)
  (app_user_assignments d) (app_group_assignments d) (oauth_clients d) (admin_delegations
  d) (enrollment_policies d) (enrollment_deadlines d) (sessions d) (oidc_client_sessions
  d) (logout_deliveries d) (authorization_interactions d) (authorization_codes d)
  (issued_tokens d) (refresh_families d) (refresh_tokens d) (step_up_tokens d)
  (step_up_challenges d) (account_tokens d) (login_failures d) (native_devices d)
  (device_pairing_tokens d) (mfa_methods d) (mfa_challenges d) (mfa_tokens d)
  (recovery_codes d) (webauthn_credentials d) (webauthn_challenges d) (access_requests d)
  (paired_systems d) (account_sync_events d) (sync_resource_state d)
  (sync_delivery_attempts d) (scim_user_links d) (app_roles d) (app_role_user_assignments
  d) (app_role_group_assignments d) (device_signon_jtis d) (system_settings d)
  (audit_events d) (scim_connectors d) (f (scim_connector_tokens d)) (sync_reconcile_jobs
  d) (alerts d) (alert_queue d) (alert_deliveries d) (applications d)
  (launcher_icons d).
Definition on_sync_reconcile_jobs (f : gmap string ReconcileJob -> gmap string ReconcileJob) (d : DB) : DB := MkDB
  (users d) (directory_groups d) (group_memberships d) (app_registry d)
  (app_user_assignments d) (app_group_assignments d) (oauth_clients d) (admin_delegations
  d) (enrollment_policies d) (enrollment_deadlines d) (sessions d) (oidc_client_sessions
  d) (logout_deliveries d) (authorization_interactions d) (authorization_codes d)
  (issued_tokens d) (refresh_families d) (refresh_tokens d) (step_up_tokens d)
  (step_up_challenges d) (account_tokens d) (login_failures d) (native_devices d)
  (device_pairing_tokens d) (mfa_methods d) (mfa_challenges d) (mfa_tokens d)
  (recovery_codes d) (webauthn_credentials d) (webauthn_challenges d) (access_requests d)
  (paired_systems d) (account_sync_events d) (sync_resource_state d)
  (sync_delivery_attempts d) (scim_user_links d) (app_roles d) (app_role_user_assignments
  d) (app_role_group_assignments d) (device_signon_jtis d) (system_settings d)
  (audit_events d) (scim_connectors d) (scim_connector_tokens d) (f (sync_reconcile_jobs
  d)) (alerts d) (alert_queue d) (alert_deliveries d) (applications d)
  (launcher_icons d).
Definition on_alerts (f : gmap string Alert -> gmap string Alert) (d : DB) : DB := MkDB
  (users d) (directory_groups d) (group_memberships d) (app_registry d)
  (app_user_assignments d) (app_group_assignments d) (oauth_clients d) (admin_delegations
  d) (enrollment_policies d) (enrollment_deadlines d) (sessions d) (oidc_client_sessions
  d) (logout_deliveries d) (authorization_interactions d) (authorization_codes d)
  (issued_tokens d) (refresh_families d) (refresh_tokens d) (step_up_tokens d)
  (step_up_challenges d) (account_tokens d) (login_failures d) (native_devices d)
  (device_pairing_tokens d) (mfa_methods d) (mfa_challenges d) (mfa_tokens d)
  (recovery_codes d) (webauthn_credentials d) (webauthn_challenges d) (access_requests d)
  (paired_systems d) (account_sync_events d) (sync_resource_state d)
  (sync_delivery_attempts d) (scim_user_links d) (app_roles d) (app_role_user_assignments
  d) (app_role_group_assignments d) (device_signon_jtis d) (system_settings d)
  (audit_events d) (scim_connectors d) (scim_connector_tokens d) (sync_reconcile_jobs d)
  (f (alerts d)) (alert_queue d) (alert_deliveries d) (applications d)
  (launcher_icons d).
Definition on_alert_queue (f : gmap string Z -> gmap string Z) (d : DB) : DB := MkDB
  (users d) (directory_groups d) (group_memberships d) (app_registry d)
  (app_user_assignments d) (app_group_assignments d) (oauth_clients d) (admin_delegations
  d) (enrollment_policies d) (enrollment_deadlines d) (sessions d) (oidc_client_sessions
  d) (logout_deliveries d) (authorization_interactions d) (authorization_codes d)
  (issued_tokens d) (refresh_families d) (refresh_tokens d) (step_up_tokens d)
  (step_up_challenges d) (account_tokens d) (login_failures d) (native_devices d)
  (device_pairing_tokens d) (mfa_methods d) (mfa_challenges d) (mfa_tokens d)
  (recovery_codes d) (webauthn_credentials d) (webauthn_challenges d) (access_requests d)
  (paired_systems d) (account_sync_events d) (sync_resource_state d)
  (sync_delivery_attempts d) (scim_user_links d) (app_roles d) (app_role_user_assignments
  d) (app_role_group_assignments d) (device_signon_jtis d) (system_settings d)
  (audit_events d) (scim_connectors d) (scim_connector_tokens d) (sync_reconcile_jobs d)
  (alerts d) (f (alert_queue d)) (alert_deliveries d) (applications d)
  (launcher_icons d).
Definition on_alert_deliveries (f : gmap Z AlertDeliveryRow -> gmap Z AlertDeliveryRow) (d : DB) : DB := MkDB
  (users d) (directory_groups d) (group_memberships d) (app_registry d)
  (app_user_assignments d) (app_group_assignments d) (oauth_clients d) (admin_delegations
  d) (enrollment_policies d) (enrollment_deadlines d) (sessions d) (oidc_client_sessions
  d) (logout_deliveries d) (authorization_interactions d) (authorization_codes d)
  (issued_tokens d) (refresh_families d) (refresh_tokens d) (step_up_tokens d)
  (step_up_challenges d) (account_tokens d) (login_failures d) (native_devices d)
  (device_pairing_tokens d) (mfa_methods d) (mfa_challenges d) (mfa_tokens d)
  (recovery_codes d) (webauthn_credentials d) (webauthn_challenges d) (access_requests d)
  (paired_systems d) (account_sync_events d) (sync_resource_state d)
  (sync_delivery_attempts d) (scim_user_links d) (app_roles d) (app_role_user_assignments
  d) (app_role_group_assignments d) (device_signon_jtis d) (system_settings d)
  (audit_events d) (scim_connectors d) (scim_connector_tokens d) (sync_reconcile_jobs d)
  (alerts d) (alert_queue d) (f (alert_deliveries d)) (applications d)
  (launcher_icons d).

Abbreviation STx := (Tx DB StoreError).

Definition on_applications (f : gmap string Application -> gmap string Application) (d : DB) : DB := MkDB
  (users d) (directory_groups d) (group_memberships d) (app_registry d)
  (app_user_assignments d) (app_group_assignments d) (oauth_clients d) (admin_delegations
  d) (enrollment_policies d) (enrollment_deadlines d) (sessions d) (oidc_client_sessions
  d) (logout_deliveries d) (authorization_interactions d) (authorization_codes d)
  (issued_tokens d) (refresh_families d) (refresh_tokens d) (step_up_tokens d)
  (step_up_challenges d) (account_tokens d) (login_failures d) (native_devices d)
  (device_pairing_tokens d) (mfa_methods d) (mfa_challenges d) (mfa_tokens d)
  (recovery_codes d) (webauthn_credentials d) (webauthn_challenges d) (access_requests d)
  (paired_systems d) (account_sync_events d) (sync_resource_state d)
  (sync_delivery_attempts d) (scim_user_links d) (app_roles d) (app_role_user_assignments
  d) (app_role_group_assignments d) (device_signon_jtis d) (system_settings d)
  (audit_events d) (scim_connectors d) (scim_connector_tokens d) (sync_reconcile_jobs d)
  (alerts d) (alert_queue d) (alert_deliveries d) (f (applications d))
  (launcher_icons d).
Definition on_launcher_icons (f : gmap string LauncherIcon -> gmap string LauncherIcon) (d : DB) : DB := MkDB
  (users d) (directory_groups d) (group_memberships d) (app_registry d)
  (app_user_assignments d) (app_group_assignments d) (oauth_clients d) (admin_delegations
  d) (enrollment_policies d) (enrollment_deadlines d) (sessions d) (oidc_client_sessions
  d) (logout_deliveries d) (authorization_interactions d) (authorization_codes d)
  (issued_tokens d) (refresh_families d) (refresh_tokens d) (step_up_tokens d)
  (step_up_challenges d) (account_tokens d) (login_failures d) (native_devices d)
  (device_pairing_tokens d) (mfa_methods d) (mfa_challenges d) (mfa_tokens d)
  (recovery_codes d) (webauthn_credentials d) (webauthn_challenges d) (access_requests d)
  (paired_systems d) (account_sync_events d) (sync_resource_state d)
  (sync_delivery_attempts d) (scim_user_links d) (app_roles d) (app_role_user_assignments
  d) (app_role_group_assignments d) (device_signon_jtis d) (system_settings d)
  (audit_events d) (scim_connectors d) (scim_connector_tokens d) (sync_reconcile_jobs d)
  (alerts d) (alert_queue d) (alert_deliveries d) (applications d)
  (f (launcher_icons d)).
Definition empty_db : DB := MkDB ∅ ∅ ∅ ∅ ∅ ∅ ∅ ∅ ∅ ∅ ∅ ∅ ∅ ∅ ∅ ∅ ∅ ∅ ∅ ∅ ∅ ∅ ∅ ∅ ∅ ∅ ∅ ∅ ∅ ∅ ∅ ∅ [] ∅ ∅ ∅ ∅ ∅ ∅ ∅ ∅ ∅ ∅ ∅ ∅ ∅ ∅ ∅ ∅ ∅.

(** ** Inserting rows *)

(** [INSERT INTO t VALUES(...)]: a taken primary key is a constraint violation. *)
Definition insert_row {K A} `{Countable K} (get : DB -> gmap K A)
    (on : (gmap K A -> gmap K A) -> DB -> DB) (k : K) (r : A) : STx unit :=
  d <- tx_get ;;
  tx_guard (is_null (get d !! k)) ErrConstraint ;;;
  tx_set (on <[k := r]>).

(** A nil event means the caller has no audit obligation for this path.  The
    insert trigger queues the row for the alert rules; [alert_queue] cascades
    with [audit_events], so the identifier is free there. *)
Definition recordAuditTx (audit : option AuditEvent) (now : Z) : STx unit :=
  match audit with
  | None => tx_ret tt
  | Some e =>
    let e := if ae_CreatedAt e =? 0 then set_ae_CreatedAt now e else e in
    insert_row audit_events on_audit_events (ae_ID e) e ;;;
    tx_set (on_alert_queue <[ae_ID e := ae_CreatedAt e]>)
  end.

(** [appRegistryAudit] fills in the details of the caller's event. *)
Definition appRegistryAudit (audit : option AuditEvent) (details : Json) : option AuditEvent :=
  set_ae_Details details <$> audit.

(** [auditedTx] runs [fn] and its audit row in one transaction. *)
Definition auditedTx {A} (audit : option AuditEvent) (now : Z) (fn : STx A) : DB -> (StoreError + A) * DB :=
  commit (a <- fn ;; recordAuditTx audit now ;;; tx_ret a).

(** What an audit insert writes: its own table and the alert queue. *)
Definition audited (m : gmap string AuditEvent) (q : gmap string Z) (d : DB) : DB := on_alert_queue (fun _ => q) (on_audit_events (fun _ => m) d).

Lemma recordAuditTx_inv audit now d u d' :
  recordAuditTx audit now d = inr (u, d') -> exists m q, d' = audited m q d.
Proof.
  destruct audit as [e|]; simpl; intros Hr; unfold insert_row in *; tx_inv.
  - by eexists _, _.
  - by exists (audit_events d), (alert_queue d).
Qed.

Lemma insert_row_inv {K A} `{Countable K} get on (k : K) (r : A) d u d' :
  insert_row get on k r d = inr (u, d') -> get d !! k = None /\ d' = on <[k := r]> d.
Proof.
  unfold insert_row. intros Hr. tx_inv. split; [|done]. by destruct (get d !! k).
Qed.

Lemma insert_row_fresh {K A} `{Countable K} get on (k : K) (r : A) d :
  get d !! k = None -> insert_row get on k r d = inr (tt, on <[k := r]> d).
Proof. intros Hn. unfold insert_row, tx_bind, tx_get, tx_guard. by rewrite Hn. Qed.

(** Peel the audit insert off the end of a successful run. *)
Ltac audit_inv :=
  repeat match goal with
  | H : recordAuditTx _ _ _ = inr (_, ?d') |- _ =>
      let m := fresh "m" in let q := fresh "q" in apply recordAuditTx_inv in H as (m & q & H); subst d'
  end.
