(* ===== verification/Access.v ===== *)
(** Who may reach what: the access views of [store/app_access.go], the
    administrator predicate and access end of [store/expiry.go], the user scan
    of [store/provisioning.go], and the MFA enrollment views of
    [store/group_enrollment.go] and [store/enrollment_policy.go].

    Every view reads [unixepoch()], so each takes the current instant [now]. *)
From S2P Require Import Prelude Schema.

(** ** Users *)

(** The one definition of an administrator who can still act. *)
Definition activeAdminSQL (now : Z) (u : User) : bool :=
  (u_Role u =?s "admin") && (u_Status u =?s "active") && unexpired (u_EndsAt u) (unix now).

(** An account past its end date reads as disabled. *)
Definition scanUser (now : Z) (u : User) : User :=
  match u_EndsAt u with
  | Some e => if of_unix e <=? now then set_u_Status "disabled" u else u
  | None => u
  end.

Definition get_user (now : Z) (d : DB) (id : string) : option User :=
  scanUser now <$> users d !! id.

(** Removing, disabling, demoting or end-dating an administrator needs another
    active one with no end date. *)
Definition permanent_admin (u : User) : bool :=
  (u_Role u =?s "admin") && (u_Status u =?s "active") && is_null (u_EndsAt u).

Definition requirePermanentAdminTx (where_clause : User -> bool) : STx unit :=
  d <- tx_get ;;
  tx_guard (exists_where (fun u => permanent_admin u && where_clause u) (users d)) ErrLastActiveAdmin.

Definition checkExpiry (expiresAt : option Z) (now : Z) : bool :=
  match expiresAt with Some t => now <? t | None => true end.

(** [updateUser] and [checkExpiry] hold [time.Time] values; columns hold seconds. *)
Definition unixOrNil (t : option Z) : option Z := unix <$> t.
Definition timeFromUnix (v : option Z) : option Z := of_unix <$> v.

(** ** Application access *)

Definition live_group_memberships (now : Z) (d : DB) (group user : string) : bool :=
  match group_memberships d !! (group, user) with
  | Some e => unexpired e (unix now)
  | None => false
  end.

Record Facts := MkFacts { f_active : bool; f_access_mode : string; f_enabled : bool;
  f_client_enabled : bool; f_direct : bool; f_group_assigned : bool }.

Definition direct_grant (now : Z) (d : DB) (app user : string) : bool :=
  match app_user_assignments d !! (app, user) with
  | Some e => unexpired e (unix now)
  | None => false
  end.

Definition group_grant (now : Z) (d : DB) (app user : string) : bool :=
  existsb (fun ag : string * string => (ag.1 =?s app) && live_group_memberships now d ag.2 user)
    (elements (app_group_assignments d)).

(** The view [app_access_facts] at one app and user. *)
Definition app_access_facts (now : Z) (d : DB) (a : AppRecord) (u : User) : Facts := {|
  f_active := (u_Status u =?s "active") && unexpired (u_EndsAt u) (unix now);
  f_access_mode := a_AccessMode a;
  f_enabled := a_Enabled a;
  f_client_enabled := match a_ClientID a with
    | None => true
    | Some c => match oauth_clients d !! c with Some cl => oc_Enabled cl | None => false end
    end;
  f_direct := direct_grant now d (a_ID a) (u_ID u);
  f_group_assigned := group_grant now d (a_ID a) (u_ID u) |}.

(** The predicate live access and admin previews share. *)
Definition appAllowedSQL (mode : string) (enabled : bool) (f : Facts) : bool :=
  f_active f && f_client_enabled f && enabled &&
  ((mode =?s "all_active_users") || f_direct f || f_group_assigned f).

Definition app_allows (now : Z) (d : DB) (a : AppRecord) (u : User) : bool :=
  let f := app_access_facts now d a u in appAllowedSQL (f_access_mode f) (f_enabled f) f.

(** The view [effective_app_access]. *)
Definition effective_app_access (now : Z) (d : DB) (app user : string) : bool :=
  match app_registry d !! app, users d !! user with
  | Some a, Some u => app_allows now d a u
  | _, _ => false
  end.

Definition app_of_client (client : string) (a : AppRecord) : bool :=
  opt_test (String.eqb client) (a_ClientID a).

(** [EXISTS(effective_app_access e JOIN app_registry a WHERE a.client_id=?)]. *)
Definition client_reachable (now : Z) (d : DB) (user client : string) : bool :=
  exists_where (fun a => app_of_client client a && effective_app_access now d (a_ID a) user)
    (app_registry d).

Definition ClientAccessAllowed (now : Z) (d : DB) (user client : string) : bool :=
  client_reachable now d user client &&
  match oauth_clients d !! client with Some c => oc_Enabled c | None => false end.

(** [SELECT ... app_registry a ... WHERE a.system_id=?]: access through the connector's app. *)
Definition app_of_system (sys : string) (a : AppRecord) : bool :=
  opt_test (String.eqb sys) (a_SystemID a).

Definition system_access (now : Z) (d : DB) (sys user : string) : bool :=
  exists_where (fun a => app_of_system sys a && effective_app_access now d (a_ID a) user)
    (app_registry d).

(** The expiries of the grants live at [now]: the direct one, then one per
    assigned group the user is a member of. *)
Definition live_grants (now : Z) (d : DB) (app user : string) : list (option Z) :=
  match app_user_assignments d !! (app, user) with
  | Some e => if unexpired e (unix now) then [e] else []
  | None => []
  end ++
  concat (map (fun ag : string * string =>
    if ag.1 =?s app then
      match group_memberships d !! (ag.2, user) with
      | Some e => if unexpired e (unix now) then [e] else []
      | None => []
      end
    else []) (elements (app_group_assignments d))).

(** The row loop of [AccessEndsAt]: [None] when a grant is unbounded, else the latest. *)
Fixpoint latest_grant (rows : list (option Z)) (latest : option Z) : option (option Z) :=
  match rows with
  | [] => Some latest
  | None :: _ => None
  | Some t :: rows' =>
    latest_grant rows' (match latest with
      | None => Some t
      | Some l => if l <? t then Some t else Some l
      end)
  end.

(** [if end == nil || (latest != nil && latest.Before( *end)) { return latest }; return end] *)
Definition earlier_end (end_ latest : option Z) : option Z :=
  match end_, latest with
  | None, _ => latest
  | Some e, Some l => if l <? e then Some l else Some e
  | Some e, None => Some e
  end.

(** The instant the user's access to the client's app ends; [None] when nothing bounds it. *)
Definition AccessEndsAt (now : Z) (d : DB) (user client : string) : option Z :=
  match find_where (app_of_client client) (app_registry d), users d !! user with
  | Some (app, a), Some u =>
    let end_ := timeFromUnix (u_EndsAt u) in
    if a_AccessMode a =?s "all_active_users" then end_
    else match latest_grant (live_grants now d app user) None with
      | None => end_
      | Some l => earlier_end end_ (timeFromUnix l)
      end
  | _, _ => None
  end.

(** ** MFA enrollment *)

Definition factorBit (method : string) : Z :=
  if method =?s "totp" then 1 else if method =?s "push" then 2
  else if method =?s "webauthn" then 4 else 0.

Definition factorNames (mask : Z) : list string :=
  List.filter (fun m => negb (Z.land mask (factorBit m) =? 0)) ["totp"; "push"; "webauthn"].

(** [EnrollmentPolicy.mask]: 0 for an unknown or repeated method. *)
Fixpoint policy_mask (methods : list string) (mask : Z) : Z :=
  match methods with
  | [] => mask
  | m :: ms =>
    let b := factorBit m in
    if (b =? 0) || negb (Z.land mask b =? 0) then 0 else policy_mask ms (Z.lor mask b)
  end.

(** The bits of the view [enrolled_factors]. *)
Definition enrolled_factors (d : DB) (user : string) (bit : Z) : bool :=
  if bit =? 1 then
    exists_where (fun m => (mm_UserID m =?s user) && (mm_MethodType m =?s "totp")) (mfa_methods d)
  else if bit =? 2 then
    exists_where (fun n => (nd_UserID n =?s user) && nd_IsMFAApprover n && (nd_PublicKey n <>?s EmptyString))
      (native_devices d)
  else if bit =? 4 then
    exists_where (fun c => wc_UserID c =?s user) (webauthn_credentials d)
  else false.

(** [EXISTS(enrolled_factors f WHERE f.user_id=? AND (f.bit & mask)<>0)] *)
Definition enrolled_in (d : DB) (user : string) (mask : Z) : bool :=
  existsb (fun bit => enrolled_factors d user bit && negb (Z.land bit mask =? 0)) [1; 2; 4].

Definition has_delegation (d : DB) (user : string) : bool :=
  existsb (fun k : string * string * string => k.1.1 =?s user) (elements (admin_delegations d)).

(** The scopes that apply to a user: the sub-select of [enrollment_requirements]. *)
Definition user_scopes (d : DB) (u : User) : list string :=
  ["organization"] ++
  (if (u_Role u =?s "admin") || has_delegation d (u_ID u) then ["administrators"] else []) ++
  map (fun kv : (string * string) * option Z => String.append "group:" kv.1.1)
    (List.filter (fun kv => kv.1.2 =?s u_ID u) (map_to_list (group_memberships d))).

Definition required_policies (d : DB) (u : User) : list (string * EnrollmentPolicyRow) :=
  List.filter (fun kv => ep_Required kv.2 && one_of kv.1 (user_scopes d u))
    (map_to_list (enrollment_policies d)).

Definition min_list (l : list Z) : option Z :=
  match l with [] => None | x :: l' => Some (fold_left Z.min l' x) end.

Record Requirements := MkRequirements { r_required : bool; r_allowed_mask : Z; r_due_at : Z }.

Definition enrollment_requirements (d : DB) (u : User) : Requirements :=
  let ps := required_policies d u in
  let bits b := map (fun kv : string * EnrollmentPolicyRow => Z.land (ep_AllowedMask kv.2) b) ps in
  {| r_required := negb (Nat.eqb (length ps) 0);
     r_allowed_mask := match min_list (bits 1), min_list (bits 2), min_list (bits 4) with
       | Some x, Some y, Some z => x + y + z
       | _, _, _ => 7
       end;
     r_due_at := default 0 (min_list (map (fun kv : string * EnrollmentPolicyRow =>
       default 0 (enrollment_deadlines d !! (u_ID u, kv.1))) ps)) |}.

(** The view [mfa_session_access]: may this session act as a full login? *)
Definition mfa_session_access (now : Z) (d : DB) (s : Session) : bool :=
  match users d !! s_UserID s with
  | None => false
  | Some u =>
    let r := enrollment_requirements d u in
    let ev := s_Evidence s in
    let bit := factorBit (ev_FactorMethod ev) in
    negb (s_EnrollmentOnly s) &&
    (negb (r_required r) ||
     ((ev_FactorMethod ev <>?s "recovery") && (unix now <? r_due_at r) &&
      negb (enrolled_in d (s_UserID s) (r_allowed_mask r))) ||
     (negb (is_null (ev_PrimaryAuthenticatedAt ev)) && negb (is_null (ev_FactorAuthenticatedAt ev)) &&
      negb (Z.land bit (r_allowed_mask r) =? 0) && enrolled_factors d (s_UserID s) bit))
  end.

(** [EXISTS(SELECT 1 FROM mfa_session_access m WHERE m.id=? AND m.allowed)] *)
Definition session_allowed (now : Z) (d : DB) (session : string) : bool :=
  match sessions d !! session with Some s => mfa_session_access now d s | None => false end.

Definition compliantEnrollmentTx (d : DB) (user : string) : bool :=
  match users d !! user with
  | None => false
  | Some u =>
    let r := enrollment_requirements d u in
    r_required r && enrolled_in d user (r_allowed_mask r)
  end.

Definition preserveCompliantEnrollmentTx (user : string) (wasCompliant : bool) : STx unit :=
  d <- tx_get ;;
  tx_guard (negb wasCompliant || compliantEnrollmentTx d user) ErrLastCompliantFactor.

(** [t] lies before an end that may be absent. *)
Definition before_end (t : Z) (e : option Z) : bool := match e with Some e => t <? e | None => true end.

(** ** Schema constraints

    What the primary keys and unique indexes of the schema guarantee of a
    stored database: a row is found under its own ID, and a client or a
    connector belongs to at most one application record. *)
Definition schema_ok (d : DB) : bool :=
  all_rows (fun k u => u_ID u =?s k) (users d) &&
  all_rows (fun k a => a_ID a =?s k) (app_registry d) &&
  all_rows (fun k s => s_ID s =?s k) (sessions d) &&
  all_rows (fun k a => all_rows (fun k' a' =>
    (k =?s k') || match a_ClientID a, a_ClientID a' with
      | Some c, Some c' => c <>?s c' | _, _ => true end) (app_registry d)) (app_registry d) &&
  all_rows (fun k a => all_rows (fun k' a' =>
    (k =?s k') || match a_SystemID a, a_SystemID a' with
      | Some c, Some c' => c <>?s c' | _, _ => true end) (app_registry d)) (app_registry d).

(** ** Facts *)

Lemma schema_user d k u : schema_ok d = true -> users d !! k = Some u -> u_ID u = k.
Proof.
  unfold schema_ok. intros Hok Hk. bool_hyps.
  match goal with H : all_rows _ (users d) = true |- _ =>
    rewrite all_rows_true in H; by apply streqb_true, (H k) end.
Qed.

Lemma schema_app d k a : schema_ok d = true -> app_registry d !! k = Some a -> a_ID a = k.
Proof.
  unfold schema_ok. intros Hok Hk. bool_hyps.
  match goal with H : all_rows _ (app_registry d) = true |- _ =>
    rewrite all_rows_true in H; by apply streqb_true, (H k) end.
Qed.

Lemma schema_session d k s : schema_ok d = true -> sessions d !! k = Some s -> s_ID s = k.
Proof.
  unfold schema_ok. intros Hok Hk. bool_hyps.
  match goal with H : all_rows _ (sessions d) = true |- _ =>
    rewrite all_rows_true in H; by apply streqb_true, (H k) end.
Qed.

Lemma schema_client d k a k' a' c : schema_ok d = true ->
  app_registry d !! k = Some a -> app_registry d !! k' = Some a' ->
  a_ClientID a = Some c -> a_ClientID a' = Some c -> k' = k.
Proof.
  unfold schema_ok. intros Hok Hk Hk' Hc Hc'. bool_hyps.
  match goal with H : all_rows (fun _ _ => all_rows _ _) _ = true,
                  H' : all_rows (fun _ _ => all_rows _ _) _ = true |- _ =>
    rewrite all_rows_true in H, H'; specialize (H k a Hk); specialize (H' k a Hk);
    rewrite all_rows_true in H, H'; specialize (H k' a' Hk'); specialize (H' k' a' Hk') end.
  rewrite Hc, Hc', streqb_refl in *.
  repeat match goal with H : _ || _ = true |- _ => apply orb_true_iff in H as [?|?] end;
    bool_hyps; congruence.
Qed.


Lemma scanUser_active now u : u_Status (scanUser now u) = "active"%string ->
  u_Status u = "active"%string /\ unexpired (u_EndsAt u) (unix now) = true /\ scanUser now u = u.
Proof.
  unfold scanUser. destruct (u_EndsAt u) as [e|]; simpl; [|done].
  destruct (Z.leb_spec (of_unix e) now); [done|]. intros Hs. split; [done|]. split; [|done].
  rewrite unix_lt_of_unix. by apply Z.ltb_lt.
Qed.

Lemma scanUser_unexpired now u : unexpired (u_EndsAt u) (unix now) = true -> scanUser now u = u.
Proof.
  unfold scanUser. destruct (u_EndsAt u) as [e|]; simpl; [|done].
  rewrite unix_lt_of_unix. intros He. apply Z.ltb_lt in He.
  destruct (Z.leb_spec (of_unix e) now); [lia|done].
Qed.

Lemma scanUser_fields now u :
  u_ID (scanUser now u) = u_ID u /\ u_Role (scanUser now u) = u_Role u /\
  u_EndsAt (scanUser now u) = u_EndsAt u /\ u_Email (scanUser now u) = u_Email u.
Proof. unfold scanUser. destruct (u_EndsAt u) as [e|] eqn:E; [destruct (_ <=? _)|]; done. Qed.

Lemma permanent_is_active now u : permanent_admin u = true -> activeAdminSQL now u = true.
Proof.
  unfold permanent_admin, activeAdminSQL. destruct (u_EndsAt u); simpl; [|done].
  rewrite andb_false_r. done.
Qed.

(** The grants live at [now] bound access at every later instant. *)
Lemma group_grant_live now d app user t : now <= t ->
  group_grant t d app user = true <->
  exists e, In e (concat (map (fun ag : string * string =>
    if ag.1 =?s app then
      match group_memberships d !! (ag.2, user) with
      | Some e => if unexpired e (unix now) then [e] else []
      | None => []
      end
    else []) (elements (app_group_assignments d)))) /\ unexpired e (unix t) = true.
Proof.
  intros Hle. unfold group_grant, live_group_memberships. rewrite existsb_exists. split.
  - intros (ag & Hin & Hb). bool_hyps.
    destruct (group_memberships d !! (ag.2, user)) as [e|] eqn:Em; [|done].
    exists e. split; [|done]. apply in_concat. eexists. split.
    + apply in_map_iff. exists ag. split; [reflexivity|done].
    + subst app. rewrite streqb_refl, Em.
      rewrite (unexpired_mono _ _ _ (unix_mono _ _ Hle)) by done. by left.
  - intros (e & Hin & Ht). apply in_concat in Hin as (l & Hl & He).
    apply in_map_iff in Hl as (ag & <- & Hag). exists ag. split; [done|].
    destruct (ag.1 =?s app); [|done].
    destruct (group_memberships d !! (ag.2, user)) as [e'|]; [|done].
    destruct (unexpired e' (unix now)); [|done]. destruct He as [->|[]]. done.
Qed.

Lemma grants_live now d app user t : now <= t ->
  direct_grant t d app user || group_grant t d app user = true <->
  exists e, In e (live_grants now d app user) /\ unexpired e (unix t) = true.
Proof.
  intros Hle. rewrite orb_true_iff, (group_grant_live now) by done. unfold live_grants, direct_grant.
  setoid_rewrite in_app_iff. split.
  - intros [Hd|(e & Hin & He)]; [|eauto].
    destruct (app_user_assignments d !! (app, user)) as [e|]; [|done].
    exists e. split; [|done]. left.
    rewrite (unexpired_mono _ _ _ (unix_mono _ _ Hle)) by done. by left.
  - intros (e & [Hd|Hg] & He); [|eauto]. left.
    destruct (app_user_assignments d !! (app, user)) as [e'|]; [|done].
    destruct (unexpired e' (unix now)); [|done]. by destruct Hd as [->|[]].
Qed.

(** The loop returns the maximum of the bounded grants, or [None] when one is unbounded. *)
Lemma latest_grant_spec rows acc n :
  match latest_grant rows acc with
  | None => In None rows
  | Some m => ~ In None rows /\
      opt_test (Z.ltb n) m = opt_test (Z.ltb n) acc || existsb (fun e => unexpired e n) rows
  end.
Proof.
  revert acc. induction rows as [|[t|] rows IH]; intros acc; simpl.
  - split; [by intros []|]. by rewrite orb_false_r.
  - set (acc' := match acc with None => Some t | Some l => if l <? t then Some t else Some l end).
    assert (opt_test (Z.ltb n) acc' = opt_test (Z.ltb n) acc || (n <? t)) as Hacc.
    { subst acc'. destruct acc as [l|]; [|reflexivity].
      destruct (Z.ltb_spec l t); simpl;
        destruct (Z.ltb_spec n l), (Z.ltb_spec n t); try reflexivity; exfalso; lia. }
    specialize (IH acc'). destruct (latest_grant rows acc') as [m|].
    + destruct IH as [Hn IH]. split; [by intros [?|?]|]. rewrite IH, Hacc. by rewrite orb_assoc.
    + by right.
  - by left.
Qed.

Lemma latest_grant_empty rows : latest_grant rows None = Some None -> rows = [].
Proof.
  assert (forall rows x, latest_grant rows (Some x) <> Some None) as Hs.
  { clear. induction rows as [|[t|] rows IH]; intros x; simpl; [done| |done].
    destruct (x <? t); apply IH. }
  destruct rows as [|[t|] rows]; simpl; [done| |done]. intros H. by apply Hs in H.
Qed.

Lemma before_end_timeFromUnix t e : before_end t (timeFromUnix e) = unexpired e (unix t).
Proof. destruct e; simpl; [|done]. by rewrite unix_lt_of_unix. Qed.

(** A grant expired at [now] stays expired: access never starts again by itself. *)
Lemma live_grants_none now d app user :
  live_grants now d app user = [] -> direct_grant now d app user || group_grant now d app user = false.
Proof.
  intros Hn. apply not_true_iff_false. rewrite (grants_live now) by lia.
  rewrite Hn. by intros (e & [] & _).
Qed.

(** The minimum of the two ends is before exactly when both are. *)
Lemma before_end_min t end_ latest :
  before_end t (earlier_end end_ latest) = before_end t end_ && before_end t latest.
Proof.
  destruct end_ as [e|], latest as [l|]; simpl; try done; [|by rewrite andb_true_r].
  destruct (Z.ltb_spec l e); simpl; destruct (Z.ltb_spec t l), (Z.ltb_spec t e); try reflexivity; exfalso; lia.
Qed.

(** ** The end of access is exact *)

(** C20. The instant AccessEndsAt reports is exactly when access through the
    client's application ends: at every later instant, with the stored rows
    unchanged, access holds if and only if that instant lies before the
    reported end. *)
Theorem AccessEndsAt_exact now d user client app a t :
  schema_ok d = true ->
  app_registry d !! app = Some a -> a_ClientID a = Some client ->
  effective_app_access now d app user = true -> now <= t ->
  effective_app_access t d app user = before_end t (AccessEndsAt now d user client).
Proof.
  intros Hok Ha Hc Hnow Ht. unfold effective_app_access, AccessEndsAt in *. rewrite Ha in *.
  rewrite (find_where_unique _ _ app a Ha).
  2:{ unfold app_of_client. rewrite Hc. apply streqb_refl. }
  2:{ intros k' a' Hk' Hp. unfold app_of_client in Hp.
      destruct (a_ClientID a') as [c|] eqn:Hc'; [|done]. apply streqb_true in Hp as <-.
      by eapply schema_client. }
  destruct (users d !! user) as [u|] eqn:Hu; [|done].
  pose proof (schema_user _ _ _ Hok Hu) as Hid. pose proof (schema_app _ _ _ Hok Ha) as Hida.
  unfold app_allows, appAllowedSQL, app_access_facts in *. cbn -[live_grants] in *.
  rewrite Hid, Hida in *. apply andb_true_iff in Hnow as [Hnow Hg].
  apply andb_true_iff in Hnow as [Hnow ->]. apply andb_true_iff in Hnow as [Hnow ->].
  apply andb_true_iff in Hnow as [-> Hends]. rewrite !andb_true_r. cbn [andb].
  destruct (a_AccessMode a =?s "all_active_users") eqn:Hmode.
  { cbn [orb]. by rewrite andb_true_r, before_end_timeFromUnix. }
  cbn [orb] in Hg |- *. set (rows := live_grants now d app user).
  assert (existsb (fun e => unexpired e (unix t)) rows
          = direct_grant t d app user || group_grant t d app user) as Hrows.
  { apply eq_true_iff_eq. rewrite existsb_exists, (grants_live now) by done. reflexivity. }
  pose proof (latest_grant_spec rows None (unix t)) as Hspec.
  destruct (latest_grant rows None) as [l|] eqn:El; rewrite <- Hrows.
  - destruct Hspec as [_ Hspec]. cbn [opt_test orb] in Hspec. rewrite <- Hspec.
    rewrite before_end_min, !before_end_timeFromUnix. destruct l as [l|]; [done|].
    apply latest_grant_empty in El. subst rows. by rewrite live_grants_none in Hg.
  - assert (existsb (fun e => unexpired e (unix t)) rows = true) as ->.
    { apply existsb_exists. exists None. by split. }
    by rewrite andb_true_r, before_end_timeFromUnix.
Qed.
