(* ===== verification/Sample.v ===== *)
(** A small concrete database: two people, one application, one browser
    session each and the credentials they minted.  The witnesses of the other
    files evaluate the operations on it. *)
From S2P Require Import Prelude Schema Access.

(** 2026-01-01T00:00:00Z, in nanoseconds. *)
Definition t0 : Z := 1767225600 * second.

Definition sample_user (id role : string) : User :=
  MkUser id id id (String.append id "@example.org") "pw" role "active" false false None
    EmptyString EmptyString false false None t0 t0.

Definition sample_evidence : AuthenticationEvidence :=
  MkAuthenticationEvidence (Some (t0 - minute)) None EmptyString.

Definition sample_session (id user hash : string) : Session :=
  MkSession sample_evidence id user hash "192.0.2.1" "agent" (t0 + 24 * hour) t0 t0 false EmptyString.

Definition sample_policy : AppAuthenticationPolicy :=
  MkAppAuthenticationPolicy "reuse" 0 "password" 0 3600 86400.

Definition sample_app : AppRecord :=
  MkAppRecord sample_policy 1 1 false false "assigned_only" true true "crm" 1 (Some "c1"%string) None
    (Some "sys"%string).

Definition sample_client : OAuthClient :=
  MkOAuthClient "c1" "CRM" "confidential" "secret" (Some ["https://crm.example.org/cb"%string])
    (Some ["openid"; "offline_access"]%string) None "https://crm.example.org/logout"
    EmptyString EmptyString EmptyString EmptyString EmptyString true t0.

Definition sample_code : AuthorizationCode :=
  MkAuthorizationCode "crm" 1 1 EmptyString None sample_evidence "s-bob" "code1" "codehash" "c1" "bob"
    "https://crm.example.org/cb" "openid" "challenge" "S256" "nonce" (t0 + minute) None t0.

Definition sample_binding : AppPolicyBinding := MkAppPolicyBinding "crm" 1 1.
Definition no_binding : AppPolicyBinding := MkAppPolicyBinding EmptyString 0 0.
Definition no_device : DeviceBinding := MkDeviceBinding EmptyString EmptyString EmptyString EmptyString.

Definition sample_token (jti user session : string) : IssuedToken :=
  MkIssuedToken EmptyString no_binding no_device None (Some session) jti user "c1" (t0 + hour) None t0.

Definition sample_interaction : AuthorizationInteraction :=
  MkAuthorizationInteraction "ihash" "browser" "bob" EmptyString EmptyString "request" "c1"
    (t0 - 2 * minute) (t0 + 10 * minute).

Definition sample_step_up : StepUpToken :=
  MkStepUpToken "change_mfa" "totp" "st1" "bob" "s-bob" "sthash" (t0 + 5 * minute) None t0.

Definition sample_db : DB :=
  on_users (fun _ => {[ "alice" := sample_user "alice" "admin"; "bob" := sample_user "bob" "user" ]}) (
  on_app_registry (fun _ => {[ "crm" := sample_app ]}) (
  on_app_user_assignments (fun _ => {[ ("crm", "bob") := Some (1767225600 + 7200); ("crm", "alice") := None ]}%string) (
  on_oauth_clients (fun _ => {[ "c1" := sample_client ]}) (
  on_sessions (fun _ => {[ "s-alice" := sample_session "s-alice" "alice" "h-alice";
                           "s-bob" := sample_session "s-bob" "bob" "h-bob" ]}) (
  on_oidc_client_sessions (fun _ => {[ "sid1" := MkClientSession "sid1" "c1" "s-bob" "bob" ]}) (
  on_authorization_codes (fun _ => {[ "code1" := sample_code ]}) (
  on_issued_tokens (fun _ => {[ "jti-bob" := sample_token "jti-bob" "bob" "s-bob";
                                "jti-alice" := sample_token "jti-alice" "alice" "s-alice" ]}) (
  on_authorization_interactions (fun _ => {[ "ihash" := sample_interaction ]}) (
  on_step_up_tokens (fun _ => {[ "st1" := sample_step_up ]})
  empty_db))))))))).

Lemma sample_db_ok : schema_ok sample_db = true.
Proof. vm_compute. reflexivity. Qed.

(** Bob's direct grant ends at 02:00: access holds until then and not after. *)
Lemma AccessEndsAt_exact_witness :
  AccessEndsAt t0 sample_db "bob" "c1" = Some (t0 + 2 * hour) /\
  effective_app_access (t0 + hour) sample_db "crm" "bob" = before_end (t0 + hour) (AccessEndsAt t0 sample_db "bob" "c1").
Proof.
  split; [vm_compute; reflexivity|].
  apply (AccessEndsAt_exact t0 sample_db "bob" "c1" "crm" sample_app (t0 + hour)).
  - exact sample_db_ok.
  - vm_compute. reflexivity.
  - reflexivity.
  - vm_compute. reflexivity.
  - vm_compute. discriminate.
Defined.
