(* ===== verification/Sessions.v ===== *)
(** Browser sessions: [store/sessions.go], [store/session_limits.go],
    [store/client_sessions.go], [store/logout_deliveries.go],
    [store/authorization_interactions.go], the session part of
    [store/store.go] and the middleware's [authenticate].

    [newid] stands for the random identifiers a statement draws; a DATETIME
    column holds nanoseconds. *)
From S2P Require Import Prelude Schema Access Sample.

(** ** Back-channel logout deliveries *)

Definition logoutDeliveryAttempts : Z := 5.

Definition backchannel_client (d : DB) (client : string) : bool :=
  match oauth_clients d !! client with
  | Some c => oc_Enabled c && (oc_BackchannelLogoutURI c <>?s EmptyString)
  | None => false
  end.

Definition new_delivery (now : Z) (cs : ClientSession) : LogoutDelivery := {|
  ld_ClientID := cs_ClientID cs; ld_UserID := cs_UserID cs; ld_SID := cs_SID cs;
  ld_Status := "queued"; ld_Attempts := 0; ld_LastError := EmptyString; ld_ClaimToken := EmptyString;
  ld_LeaseUntil := None; ld_NextAttemptAt := now; ld_CreatedAt := now; ld_UpdatedAt := now |}.

(** One delivery per client that saw a matching login and has a receiver. *)
Definition enqueueLogoutTx (newid : string -> string) (now : Z) (where_clause : ClientSession -> bool) : STx unit :=
  d <- tx_get ;;
  tx_iter (fun kv : string * ClientSession =>
      insert_row logout_deliveries on_logout_deliveries (newid kv.1) (new_delivery now kv.2))
    (map_to_list (where_ (fun cs => backchannel_client d (cs_ClientID cs) && where_clause cs)
      (oidc_client_sessions d))).

Definition logoutRetryDelay (attempts : Z) : Z :=
  let delay := wrap64 (wrap64 (Z.shiftl 1 attempts) * (30 * second)) in
  if 30 * minute <? delay then 30 * minute else delay.

Definition leased (now : Z) (ld : LogoutDelivery) : bool := opt_test (Z.ltb now) (ld_LeaseUntil ld).

Definition lease_lapsed (now : Z) (ld : LogoutDelivery) : bool :=
  opt_test (fun l => l <=? now) (ld_LeaseUntil ld).

(** Due, unleased, with attempts left, and no delivery of its client in flight. *)
Definition claimable (now : Z) (t : gmap string LogoutDelivery) (ld : LogoutDelivery) : bool :=
  (ld_Status ld =?s "queued") && (ld_NextAttemptAt ld <=? now) &&
  (is_null (ld_LeaseUntil ld) || lease_lapsed now ld) && (ld_Attempts ld <? logoutDeliveryAttempts) &&
  negb (exists_where (fun x => (ld_Status x =?s "queued") && leased now x &&
    (ld_ClientID x =?s ld_ClientID ld)) t).

Definition set_ld (status err claim : string) (attempts : Z) (lease : option Z) (next updated : Z)
    (r : LogoutDelivery) : LogoutDelivery :=
  MkLogoutDelivery (ld_ClientID r) (ld_UserID r) (ld_SID r) status attempts err claim lease next
    (ld_CreatedAt r) updated.

(** The oldest claimable row; ties fall to the first the scan meets. *)
Definition oldest (t : gmap string LogoutDelivery) : option (string * LogoutDelivery) :=
  fold_right (fun kv best => match best with
    | Some b => if ld_CreatedAt kv.2 <=? ld_CreatedAt b.2 then Some kv else Some b
    | None => Some kv
    end) None (map_to_list t).

(** Deliveries whose lease lapsed with no attempts left fail; then one is leased. *)
Definition ClaimLogoutDelivery (token : string) (lease now : Z) : STx (option (string * LogoutDelivery)) :=
  tx_set (on_logout_deliveries (update_where
    (fun ld => (ld_Status ld =?s "queued") && lease_lapsed now ld &&
      (logoutDeliveryAttempts <=? ld_Attempts ld))
    (fun ld => set_ld "failed" "interrupted repeatedly" EmptyString (ld_Attempts ld) None
      (ld_NextAttemptAt ld) now ld))) ;;;
  d <- tx_get ;;
  match oldest (where_ (claimable now (logout_deliveries d)) (logout_deliveries d)) with
  | None => tx_ret None
  | Some (id, ld) =>
    let ld' := set_ld (ld_Status ld) (ld_LastError ld) token (ld_Attempts ld + 1) (Some (now + lease))
      (ld_NextAttemptAt ld) now ld in
    tx_set (on_logout_deliveries <[id := ld']>) ;;; tx_ret (Some (id, ld'))
  end.

(** As committed: with nothing to lease the transaction rolls back. *)
Definition ClaimLogoutDelivery_run (token : string) (lease now : Z) (d : DB) :
    (StoreError + option (string * LogoutDelivery)) * DB :=
  match commit (ClaimLogoutDelivery token lease now) d with
  | (inr None, _) => (inr None, d)
  | r => r
  end.

Definition FinishLogoutDelivery (id : string) (claimed : LogoutDelivery) (attemptErr : option string) (now : Z) : STx unit :=
  let '(status, message, next) := match attemptErr with
    | None => ("delivered"%string, EmptyString, now)
    | Some e => (if logoutDeliveryAttempts <=? ld_Attempts claimed then "failed"%string else "queued"%string,
                 String.substring 0 200 e, now + logoutRetryDelay (ld_Attempts claimed))
    end in
  d <- tx_get ;;
  match logout_deliveries d !! id with
  | Some ld =>
    tx_guard ((ld_ClaimToken ld =?s ld_ClaimToken claimed) && (ld_ClaimToken ld <>?s EmptyString)) ErrNotFound ;;;
    tx_set (on_logout_deliveries <[id := set_ld status message EmptyString (ld_Attempts ld) None next now ld]>)
  | None => tx_fail ErrNotFound
  end.

Definition RetryLogoutDeliveryNow (user id : string) (audit : option AuditEvent) (now : Z) : STx bool :=
  d <- tx_get ;;
  match logout_deliveries d !! id with
  | Some ld =>
    if (ld_UserID ld =?s user) && (ld_Status ld <>?s "delivered") then
      tx_set (on_logout_deliveries <[id := set_ld "queued" (ld_LastError ld) EmptyString 0 None now now ld]>) ;;;
      recordAuditTx audit now ;;; tx_ret true
    else tx_ret false
  | None => tx_ret false
  end.

Definition DeleteLogoutDeliveriesOlderThan (cutoff : Z) : DB -> DB :=
  on_logout_deliveries (delete_where (fun ld => (ld_Status ld =?s "delivered") && (ld_UpdatedAt ld <? cutoff))).

(** ** Revoking sessions *)

(** [x IN (SELECT id FROM sessions WHERE p)] *)
Definition in_sessions (d : DB) (p : Session -> bool) (id : string) : bool :=
  match sessions d !! id with Some s => p s | None => false end.

(** The predicate sees a row's session ([None] when NULL) and its user. *)
Definition revokeSessionGrantsTx (where_clause : option string -> string -> bool) (now : Z) : STx unit :=
  tx_set (on_issued_tokens (update_where
    (fun t => is_null (it_RevokedAt t) && where_clause (it_SessionID t) (it_UserID t))
    (set_it_RevokedAt (Some now)))) ;;;
  tx_set (on_authorization_codes (delete_where (fun c => where_clause (Some (c_SessionID c)) (c_UserID c)))) ;;;
  tx_set (on_step_up_tokens (update_where
    (fun t => is_null (st_UsedAt t) && where_clause (Some (st_SessionID t)) (st_UserID t))
    (set_st_UsedAt (Some now)))) ;;;
  tx_set (on_step_up_challenges (update_where
    (fun c => is_null (sc_UsedAt c) && where_clause (Some (sc_SessionID c)) (sc_UserID c))
    (set_sc_UsedAt (Some now)))) ;;;
  tx_set (on_authorization_interactions (delete_where (fun i => where_clause (Some (i_SessionID i)) (i_UserID i)))).

(** [DELETE FROM sessions WHERE p] with its two cascades. *)
Definition delete_sessions (p : Session -> bool) (d : DB) : DB :=
  on_sessions (delete_where p)
    (on_oidc_client_sessions (delete_where (fun cs => in_sessions d p (cs_SessionID cs)))
      (on_step_up_challenges (delete_where (fun c => in_sessions d p (sc_SessionID c))) d)).

(** Queue the logouts, invalidate what the sessions minted, delete the rows. *)
Definition revokeSessionsTx (newid : string -> string) (now : Z) (p : Session -> bool) : STx Z :=
  d0 <- tx_get ;;
  enqueueLogoutTx newid now (fun cs => in_sessions d0 p (cs_SessionID cs)) ;;;
  revokeSessionGrantsTx (fun s _ => opt_test (in_sessions d0 p) s) now ;;;
  d <- tx_get ;;
  tx_set (delete_sessions p) ;;;
  tx_ret (count_where p (sessions d)).

Definition RevokeSession (newid : string -> string) (user session : string) (audit : option AuditEvent) (now : Z) :
    DB -> (StoreError + unit) * DB :=
  auditedTx audit now (
    n <- revokeSessionsTx newid now (fun s => (s_ID s =?s session) && (s_UserID s =?s user)) ;;
    tx_guard (negb (n =? 0)) ErrNotFound).

Definition RevokeOtherSessions (newid : string -> string) (user keep : string) (audit : option AuditEvent) (now : Z) :
    DB -> (StoreError + unit) * DB :=
  auditedTx audit now (
    revokeSessionsTx newid now (fun s => (s_UserID s =?s user) && (s_ID s <>?s keep)) ;;; tx_ret tt).

Definition RevokeUserClientAccess (newid : string -> string) (user client : string) (audit : option AuditEvent) (now : Z) :
    DB -> (StoreError + unit) * DB :=
  auditedTx audit now (
    enqueueLogoutTx newid now (fun cs => (cs_UserID cs =?s user) && (cs_ClientID cs =?s client)) ;;;
    tx_set (on_issued_tokens (update_where
      (fun t => (it_UserID t =?s user) && (it_ClientID t =?s client) && is_null (it_RevokedAt t))
      (set_it_RevokedAt (Some now)))) ;;;
    tx_set (on_authorization_codes (delete_where
      (fun c => (c_UserID c =?s user) && (c_ClientID c =?s client))))).

(** ** Revoking everything a user holds *)

Definition expireAccountTokensTx (now : Z) (where_clause : AccountToken -> bool) : STx unit :=
  tx_set (on_account_tokens (update_where
    (fun t => is_null (at_UsedAt t) && (now <? at_ExpiresAt t) && where_clause t) (set_at_ExpiresAt now))).

Definition spendMFATokensTx (now : Z) (user : string) : STx unit :=
  tx_set (on_mfa_tokens (update_where
    (fun t => (mt_UserID t =?s user) && is_null (mt_UsedAt t)) (set_mt_UsedAt (Some now)))).

Definition revokeUserAccessTx (newid : string -> string) (user : string) (now : Z) : STx unit :=
  revokeSessionsTx newid now (fun s => s_UserID s =?s user) ;;;
  tx_set (on_device_pairing_tokens (update_where
    (fun t => (dp_UserID t =?s user) && is_null (dp_UsedAt t)) (set_dp_ExpiresAt now))) ;;;
  revokeSessionGrantsTx (fun _ u => u =?s user) now ;;;
  spendMFATokensTx now user ;;;
  expireAccountTokensTx now (fun t => at_UserID t =?s user).

Definition RevokeUserAccess (newid : string -> string) (user : string) (audit : option AuditEvent) (now : Z) :
    DB -> (StoreError + unit) * DB :=
  auditedTx audit now (revokeUserAccessTx newid user now).

(** ** Session limits *)

Record SessionLimits := MkSessionLimits { sl_Absolute : Z; sl_Idle : Z }.

Definition DefaultSessionTTL : Z := 24 * hour.
Definition DefaultSessionIdleTTL : Z := 8 * hour.
Definition MinSessionTTL : Z := hour.
Definition MaxSessionTTL : Z := 7 * 24 * hour.
Definition MinSessionIdleTTL : Z := 5 * minute.
Definition MaxSessionIdleTTL : Z := 24 * hour.

Definition AbsoluteTTL (l : SessionLimits) : Z := wrap64 (sl_Absolute l * second).
Definition IdleTTL (l : SessionLimits) : Z := wrap64 (sl_Idle l * second).

Definition ValidSessionLimits (absolute idle : Z) : bool :=
  (MinSessionTTL <=? absolute) && (absolute <=? MaxSessionTTL) &&
  (MinSessionIdleTTL <=? idle) && (idle <=? MaxSessionIdleTTL) && (idle <=? absolute).

Definition limits_Valid (l : SessionLimits) : bool := ValidSessionLimits (AbsoluteTTL l) (IdleTTL l).

Definition sessionLimitsKey : string := "session_limits".

Definition limits_json (l : SessionLimits) : Json :=
  JObj [("absolute"%string, JNum (sl_Absolute l)); ("idle"%string, JNum (sl_Idle l))].

(** [json.Unmarshal] into an [int64] field: absent or null keeps the seed. *)
Definition unmarshal_int (k : string) (seed : Z) (j : Json) : option Z :=
  match j with
  | JObj _ => match json_get k j with
    | None | Some JNull => Some seed
    | Some (JNum n) => if (- 2 ^ 63 <=? n) && (n <? 2 ^ 63) then Some n else None
    | Some _ => None
    end
  | JNull => Some seed
  | _ => None
  end.

(** The limits to cache: the stored ones, or the seed when none are. *)
Definition LoadSessionLimits (seed : SessionLimits) (d : DB) : StoreError + SessionLimits :=
  let loaded := match system_settings d !! sessionLimitsKey with
    | None => Some seed
    | Some j => match unmarshal_int "absolute" (sl_Absolute seed) j, unmarshal_int "idle" (sl_Idle seed) j with
      | Some a, Some i => Some (MkSessionLimits a i)
      | _, _ => None
      end
    end in
  match loaded with
  | None => inl (ErrText "json")
  | Some l => if limits_Valid l then inr l else inl (ErrText "stored session limits are out of bounds")
  end.

(** The cached limits, or the defaults before any load. *)
Definition current_limits (cache : option SessionLimits) : SessionLimits :=
  default (MkSessionLimits (DefaultSessionTTL / second) (DefaultSessionIdleTTL / second)) cache.

Definition stricter (old l : SessionLimits) : SessionLimits :=
  MkSessionLimits (Z.min (sl_Absolute old) (sl_Absolute l)) (Z.min (sl_Idle old) (sl_Idle l)).

Definition beyond (now : Z) (l : SessionLimits) (s : Session) : bool :=
  (s_LastActiveAt s <=? now - IdleTTL l) || (s_CreatedAt s <=? now - AbsoluteTTL l).

(** Store the limits and end every session beyond the stricter of old and new. *)
Definition SetSessionLimits (newid : string -> string) (cache : option SessionLimits) (l : SessionLimits)
    (audit : option AuditEvent) (now : Z) (d : DB) : (StoreError + Z) * (DB * option SessionLimits) :=
  if negb (limits_Valid l) then (inl (ErrText "session limits are out of bounds"), (d, cache)) else
  let old := current_limits cache in
  let run :=
    tx_set (on_system_settings <[sessionLimitsKey := limits_json l]>) ;;;
    ended <- revokeSessionsTx newid now (beyond now (stricter old l)) ;;
    recordAuditTx (appRegistryAudit audit (JObj [("old"%string, limits_json old);
      ("new"%string, limits_json l); ("sessionsEnded"%string, JNum ended)])) now ;;;
    tx_ret ended in
  match commit run d with
  | (inr ended, d') => (inr ended, (d', Some l))
  | (inl e, d') => (inl e, (d', cache))
  end.

(** ** Session lookups *)

Definition within_limits (now idle absolute : Z) (s : Session) : bool :=
  (now <? s_ExpiresAt s) && (now - idle <? s_LastActiveAt s) && (now - absolute <? s_CreatedAt s).

Definition GetSessionByTokenHash (hash : string) (idle : Z) (cache : option SessionLimits) (now : Z) (d : DB) : option Session :=
  snd <$> find_where (fun s => (s_SessionTokenHash s =?s hash) &&
    within_limits now idle (AbsoluteTTL (current_limits cache)) s) (sessions d).

Definition TouchSession (id : string) (now : Z) : DB -> DB :=
  on_sessions (update_where (fun s => s_ID s =?s id) (set_s_LastActiveAt now)).

Definition DeleteSession (id : string) : DB -> DB := delete_sessions (fun s => s_ID s =?s id).

Definition HasAnySession (user : string) (d : DB) : bool :=
  0 <? count_where (fun s => (user =?s EmptyString) || (s_UserID s =?s user)) (sessions d).

Definition CleanupExpiredSessions (now : Z) : DB -> DB := delete_sessions (fun s => s_ExpiresAt s <? now).

(** [authenticate]: the one definition of "logged in"; [hash] is the cookie's digest. *)
Definition authenticate (cookie_hash : option string) (cache : option SessionLimits) (now : Z) (d : DB) :
    option (User * Session) * DB :=
  match cookie_hash with
  | None => (None, d)
  | Some h =>
    match GetSessionByTokenHash h (IdleTTL (current_limits cache)) cache now d with
    | None => (None, d)
    | Some sess =>
      match get_user now d (s_UserID sess) with
      | Some u => if u_Status u =?s "active" then (Some (u, sess), TouchSession (s_ID sess) now d) else (None, d)
      | None => (None, d)
      end
    end
  end.

(** ** The opaque sid of a client *)

(** Mint the sid on first use, for a session that still exists. *)
Definition EnsureClientSession (sid client session user : string) : STx string :=
  d <- tx_get ;;
  let taken := negb (is_null (oidc_client_sessions d !! sid)) ||
    exists_where (fun cs => (cs_ClientID cs =?s client) && (cs_SessionID cs =?s session)) (oidc_client_sessions d) in
  (if negb taken && in_sessions d (fun s => s_UserID s =?s user) session
   then tx_set (on_oidc_client_sessions <[sid := MkClientSession sid client session user]>)
   else tx_ret tt) ;;;
  d <- tx_get ;;
  match find_where (fun cs => (cs_ClientID cs =?s client) && (cs_SessionID cs =?s session)) (oidc_client_sessions d) with
  | Some (_, cs) => tx_ret (cs_SID cs)
  | None => tx_fail ErrNotFound
  end.

Definition GetClientSession (sid : string) (d : DB) : option ClientSession := oidc_client_sessions d !! sid.

(** ** Authorization interactions *)

Definition owned (i : AuthorizationInteraction) : bool := i_UserID i <>?s EmptyString.
Definition proven (i : AuthorizationInteraction) : bool := i_SessionID i <>?s EmptyString.

(** [ORDER BY (session_id<>'') DESC, created_at DESC, hash] *)
Definition keep_before (x y : AuthorizationInteraction) : bool :=
  (proven x && negb (proven y)) || (eqb (proven x) (proven y) &&
    ((i_CreatedAt y <? i_CreatedAt x) ||
     ((i_CreatedAt x =? i_CreatedAt y) && String.ltb (i_Hash x) (i_Hash y)))).

(** [repairAuthorizationAccountsSQL] *)
Definition adopt_sessions (d : DB) : DB :=
  on_authorization_interactions (update_where
    (fun i => negb (owned i) && proven i && in_sessions d (fun _ => true) (i_SessionID i))
    (fun i => set_i_UserID (match sessions d !! i_SessionID i with Some s => s_UserID s | None => i_UserID i end) i)) d.

Definition drop_sessionless (d : DB) : DB :=
  on_authorization_interactions (delete_where
    (fun i => proven i && negb (in_sessions d (fun _ => true) (i_SessionID i)))) d.

Definition trim_accounts (t : gmap string AuthorizationInteraction) : gmap string AuthorizationInteraction :=
  delete_where (fun i => owned i &&
    (10 <=? count_where (fun x => (i_UserID x =?s i_UserID i) && keep_before x i) t)) t.

Definition repairAuthorizationAccountsSQL (d : DB) : DB :=
  on_authorization_interactions trim_accounts (drop_sessionless (adopt_sessions d)).

(** [ORDER BY created_at,hash] *)
Definition older (x y : AuthorizationInteraction) : bool :=
  (i_CreatedAt x <? i_CreatedAt y) || ((i_CreatedAt x =? i_CreatedAt y) && String.ltb (i_Hash x) (i_Hash y)).

Definition unowned (i : AuthorizationInteraction) : bool := negb (proven i) && negb (owned i).

(** Reclaim the oldest unowned requests above 9999 rows. *)
Definition reclaim_anonymous (t : gmap string AuthorizationInteraction) : gmap string AuthorizationInteraction :=
  let excess := Z.max 0 (count_where (fun _ => true) t - 9999) in
  delete_where (fun i => unowned i && (count_where (fun x => unowned x && older x i) t <? excess)) t.

Definition delete_expired_interactions (now : Z) : DB -> DB :=
  on_authorization_interactions (delete_where (fun i => i_ExpiresAt i <=? now)).

Definition CreateAuthorizationInteraction (i : AuthorizationInteraction) (now : Z) : STx unit :=
  tx_set (delete_expired_interactions now) ;;;
  d <- tx_get ;;
  (if 10000 <=? count_where (fun _ => true) (authorization_interactions d)
   then tx_set repairAuthorizationAccountsSQL else tx_ret tt) ;;;
  tx_set (on_authorization_interactions reclaim_anonymous) ;;;
  d <- tx_get ;;
  let t := authorization_interactions d in
  tx_guard ((count_where (fun x => i_BrowserHash x =?s i_BrowserHash i) t <? 10) &&
    ((i_UserID i =?s EmptyString) || (count_where (fun x => i_UserID x =?s i_UserID i) t <? 10)) &&
    (count_where (fun _ => true) t <? 10000)) ErrAuthorizationInteraction ;;;
  insert_row authorization_interactions on_authorization_interactions (i_Hash i) (set_i_SessionID EmptyString i).

(** [expires_at>?] on the session an interaction started from. *)
Definition session_unexpired (now : Z) (d : DB) (id : string) : bool := in_sessions d (fun s => now <? s_ExpiresAt s) id.

Definition GetAuthorizationInteraction (hash browser : string) (now : Z) (d : DB) : StoreError + AuthorizationInteraction :=
  match authorization_interactions d !! hash with
  | Some i =>
    if (i_BrowserHash i =?s browser) && (now <? i_ExpiresAt i) &&
       ((i_OriginalSessionID i =?s EmptyString) || session_unexpired now d (i_OriginalSessionID i))
    then inr i else inl ErrAuthorizationInteraction
  | None => inl ErrAuthorizationInteraction
  end.

Definition CancelAuthorizationInteraction (hash browser : string) : DB -> DB :=
  on_authorization_interactions (delete_where (fun i => (i_Hash i =?s hash) && (i_BrowserHash i =?s browser))).

(** ** Starting a session *)

Definition raw_active (d : DB) (user : string) : bool :=
  match users d !! user with Some u => u_Status u =?s "active" | None => false end.

(** The interaction can be completed by this login. *)
Definition interaction_open (now : Z) (d : DB) (sess : Session) (browser : string) (i : AuthorizationInteraction) : bool :=
  (i_BrowserHash i =?s browser) && negb (proven i) && (now <? i_ExpiresAt i) &&
  ((i_UserID i =?s EmptyString) || (i_UserID i =?s s_UserID sess)) &&
  (count_where (fun x => (i_UserID x =?s s_UserID sess) && (i_Hash x <>?s i_Hash i)) (authorization_interactions d) <? 10) &&
  opt_test (fun at_ => i_CreatedAt i <=? at_) (ev_PrimaryAuthenticatedAt (s_Evidence sess)) &&
  raw_active d (s_UserID sess) &&
  ((i_OriginalSessionID i =?s EmptyString) || session_unexpired now d (i_OriginalSessionID i)).

Definition eligible (d : DB) (sess : Session) : bool :=
  match users d !! s_UserID sess with
  | Some u => (u_Status u =?s "active") &&
      ((s_ProvenPasswordHash sess =?s EmptyString) || (u_PasswordHash u =?s s_ProvenPasswordHash sess))
  | None => false
  end.

(** The row as stored: the caller's evidence, the identifier and instants decided here. *)
Definition session_row (sess : Session) (id : string) (now : Z) : Session := {|
  s_Evidence := s_Evidence sess; s_ID := id; s_UserID := s_UserID sess;
  s_SessionTokenHash := s_SessionTokenHash sess; s_IPAddress := s_IPAddress sess;
  s_UserAgent := s_UserAgent sess; s_ExpiresAt := s_ExpiresAt sess; s_CreatedAt := now;
  s_LastActiveAt := now; s_EnrollmentOnly := false; s_ProvenPasswordHash := EmptyString |}.

(** The session a re-authentication renews: the browser's own, still live. *)
Definition renewed_session (sess : Session) (interaction browser : string) (now : Z) (d : DB) : option string :=
  match authorization_interactions d !! interaction with
  | Some i =>
    if (i_BrowserHash i =?s browser) && (i_OriginalSessionID i <>?s EmptyString) &&
       in_sessions d (fun s => (s_UserID s =?s s_UserID sess) && (now <? s_ExpiresAt s)) (i_OriginalSessionID i)
    then Some (i_OriginalSessionID i) else None
  | None => None
  end.

Definition bind_interaction (sess : Session) (id interaction browser : string) (renew : bool) (now : Z) : STx unit :=
  d <- tx_get ;;
  match authorization_interactions d !! interaction with
  | Some i =>
    tx_guard (interaction_open now d sess browser i) ErrAuthorizationInteraction ;;;
    tx_set (on_authorization_interactions <[interaction := set_i_SessionID id (set_i_UserID (s_UserID sess) i)]>) ;;;
    if renew then tx_set (on_authorization_interactions (update_where
      (fun x => (i_SessionID x =?s id) && (i_Hash x <>?s interaction)) (set_i_ExpiresAt now)))
    else tx_ret tt
  | None => tx_fail ErrAuthorizationInteraction
  end.

(** Start a session, or renew the one the browser holds, for a login that may
    complete an authorization interaction; the result is the row as stored. *)
Definition CreateSessionForInteraction (sess : Session) (interaction browser : string) (now : Z) : STx Session :=
  d <- tx_get ;;
  let original := if interaction =?s EmptyString then None else renewed_session sess interaction browser now d in
  let id := default (s_ID sess) original in
  (if interaction =?s EmptyString then tx_ret tt
   else bind_interaction sess id interaction browser (negb (is_null original)) now) ;;;
  d <- tx_get ;;
  tx_guard (eligible d sess) ErrAppAccessDenied ;;;
  tx_guard (negb (exists_where (fun s => (s_SessionTokenHash s =?s s_SessionTokenHash sess) && (s_ID s <>?s id))
    (sessions d))) ErrConstraint ;;;
  (match original with
   | Some _ => tx_set (on_sessions <[id := session_row sess id now]>)
   | None => insert_row sessions on_sessions id (session_row sess id now)
   end) ;;;
  d <- tx_get ;;
  tx_set (on_sessions (update_where (fun s => s_ID s =?s id)
    (set_s_EnrollmentOnly (negb (session_allowed now d id))))) ;;;
  tx_ret (session_row sess id now).

Definition CreateSession (sess : Session) (now : Z) : STx Session :=
  CreateSessionForInteraction sess EmptyString EmptyString now.

(** ** Facts *)

(** The state after [revokeSessionGrantsTx]: it cannot fail. *)
Definition revoke_grants (w : option string -> string -> bool) (now : Z) (d : DB) : DB :=
  on_authorization_interactions (delete_where (fun i => w (Some (i_SessionID i)) (i_UserID i)))
  (on_step_up_challenges (update_where
    (fun c => is_null (sc_UsedAt c) && w (Some (sc_SessionID c)) (sc_UserID c)) (set_sc_UsedAt (Some now)))
  (on_step_up_tokens (update_where
    (fun t => is_null (st_UsedAt t) && w (Some (st_SessionID t)) (st_UserID t)) (set_st_UsedAt (Some now)))
  (on_authorization_codes (delete_where (fun c => w (Some (c_SessionID c)) (c_UserID c)))
  (on_issued_tokens (update_where
    (fun t => is_null (it_RevokedAt t) && w (it_SessionID t) (it_UserID t)) (set_it_RevokedAt (Some now))) d)))).

Lemma revokeSessionGrantsTx_eq w now d : revokeSessionGrantsTx w now d = inr (tt, revoke_grants w now d).
Proof. reflexivity. Qed.

(** Queueing logouts only adds rows to [logout_deliveries], one per row of the list. *)
Lemma enqueue_rows_inv newid now (l : list (string * ClientSession)) d u d' :
  tx_iter (fun kv : string * ClientSession =>
    insert_row logout_deliveries on_logout_deliveries (newid kv.1) (new_delivery now kv.2)) l d = inr (u, d') ->
  exists m, d' = on_logout_deliveries (fun _ => m) d /\ logout_deliveries d ⊆ m /\
    forall kv, In kv l -> m !! newid kv.1 = Some (new_delivery now kv.2).
Proof.
  revert d. induction l as [|kv l IH]; intros d Hr; cbn [tx_iter] in Hr.
  - tx_inv. exists (logout_deliveries d). by split.
  - apply tx_bind_inr in Hr as (u1 & d1 & Hi & Hr). apply insert_row_inv in Hi as [Hn ->].
    apply IH in Hr as (m & -> & Hm & Hl). cbn in Hm. exists m. split; [done|]. split.
    + etrans; [|exact Hm]. by apply insert_subseteq.
    + intros kv' [<-|Hin]; [|by apply Hl]. eapply lookup_weaken, Hm. apply lookup_insert_eq.
Qed.

Lemma enqueue_rows_total newid now (l : list (string * ClientSession)) d :
  NoDup (map (fun kv => newid kv.1) l) ->
  (forall kv, In kv l -> logout_deliveries d !! newid kv.1 = None) ->
  exists d', tx_iter (fun kv : string * ClientSession =>
    insert_row logout_deliveries on_logout_deliveries (newid kv.1) (new_delivery now kv.2)) l d = inr (tt, d').
Proof.
  revert d. induction l as [|kv l IH]; intros d Hnd Hf; cbn [tx_iter map] in *; [by exists d|].
  apply NoDup_cons in Hnd as [Hnin Hnd].
  unfold tx_bind at 1. rewrite insert_row_fresh by (apply Hf; by left). apply IH; [done|]. intros kv' Hin. cbn.
  rewrite lookup_insert_ne; [apply Hf; by right|]. intros He. apply Hnin. rewrite He.
  apply list_elem_of_In, (in_map (fun kv => newid kv.1)), Hin.
Qed.

Lemma enqueueLogoutTx_inv newid now w d u d' :
  enqueueLogoutTx newid now w d = inr (u, d') ->
  exists m, d' = on_logout_deliveries (fun _ => m) d /\ logout_deliveries d ⊆ m /\
    forall sid cs, oidc_client_sessions d !! sid = Some cs -> backchannel_client d (cs_ClientID cs) = true ->
      w cs = true -> m !! newid sid = Some (new_delivery now cs).
Proof.
  unfold enqueueLogoutTx. intros Hr. tx_inv. apply enqueue_rows_inv in Hr as (m & -> & Hm & Hl).
  exists m. split; [done|]. split; [done|]. intros sid cs Hs Hb Hw. apply (Hl (sid, cs)).
  apply list_elem_of_In, elem_of_map_to_list, lookup_where. by rewrite Hb, Hw.
Qed.

(** Distinct new identifiers that no delivery uses. *)
Definition fresh_ids (newid : string -> string) (d : DB) : Prop :=
  (forall a b, newid a = newid b -> a = b) /\ forall sid, logout_deliveries d !! newid sid = None.

Lemma enqueueLogoutTx_total newid now w d :
  fresh_ids newid d -> exists d', enqueueLogoutTx newid now w d = inr (tt, d').
Proof.
  intros [Hinj Hf]. unfold enqueueLogoutTx, tx_bind, tx_get. apply enqueue_rows_total; [|by intros].
  rewrite <- (map_map fst newid). apply NoDup_fmap_2_strong; [intros; by apply Hinj|].
  apply NoDup_fst_map_to_list.
Qed.

(** The deliveries a revocation of the sessions [p] owes. *)
Definition queued_for (newid : string -> string) (now : Z) (d : DB) (p : Session -> bool)
    (m : gmap string LogoutDelivery) : Prop :=
  logout_deliveries d ⊆ m /\ forall sid cs, oidc_client_sessions d !! sid = Some cs ->
    backchannel_client d (cs_ClientID cs) = true -> in_sessions d p (cs_SessionID cs) = true ->
    m !! newid sid = Some (new_delivery now cs).

Lemma revokeSessionsTx_inv newid now p d n d' :
  revokeSessionsTx newid now p d = inr (n, d') ->
  n = count_where p (sessions d) /\ exists m, queued_for newid now d p m /\
  d' = delete_sessions p (revoke_grants (fun s _ => opt_test (in_sessions d p) s) now
         (on_logout_deliveries (fun _ => m) d)).
Proof.
  unfold revokeSessionsTx. intros Hr. tx_inv.
  match goal with H : enqueueLogoutTx _ _ _ _ = _ |- _ => apply enqueueLogoutTx_inv in H as (m & -> & Hm) end.
  match goal with H : revokeSessionGrantsTx _ _ _ = _ |- _ => rewrite revokeSessionGrantsTx_eq in H; injection H as <- <- end.
  split; [reflexivity|]. by exists m.
Qed.

Lemma revokeSessionsTx_total newid now p d :
  fresh_ids newid d -> exists n d', revokeSessionsTx newid now p d = inr (n, d').
Proof.
  intros Hf. destruct (enqueueLogoutTx_total newid now (fun cs => in_sessions d p (cs_SessionID cs)) d Hf) as [d1 H1].
  unfold revokeSessionsTx. unfold tx_bind at 1, tx_get at 1. unfold tx_bind at 1. rewrite H1. by do 2 eexists.
Qed.

(** ** Revocation leaves nothing to sign in with *)

(** What an earlier sign-in of [user] left that could still be presented at
    [now]: sessions, authorization codes, sign-ins waiting for consent,
    tokens, step-up proofs and challenges, pairing tokens, pending logins and
    account links. The password and the enrolled factors are not among them. *)
Definition holds_access (now : Z) (user : string) (d : DB) : bool :=
  exists_where (fun s => s_UserID s =?s user) (sessions d) ||
  exists_where (fun c => c_UserID c =?s user) (authorization_codes d) ||
  exists_where (fun i => i_UserID i =?s user) (authorization_interactions d) ||
  exists_where (fun t => (it_UserID t =?s user) && is_null (it_RevokedAt t)) (issued_tokens d) ||
  exists_where (fun t => (st_UserID t =?s user) && is_null (st_UsedAt t)) (step_up_tokens d) ||
  exists_where (fun c => (sc_UserID c =?s user) && is_null (sc_UsedAt c)) (step_up_challenges d) ||
  exists_where (fun t => (dp_UserID t =?s user) && is_null (dp_UsedAt t) && (now <? dp_ExpiresAt t))
    (device_pairing_tokens d) ||
  exists_where (fun t => (mt_UserID t =?s user) && is_null (mt_UsedAt t)) (mfa_tokens d) ||
  exists_where (fun t => (at_UserID t =?s user) && is_null (at_UsedAt t) && (now <? at_ExpiresAt t))
    (account_tokens d).

(** The devices and enrolled factors stand as they stood. *)
Definition same_factors (d d' : DB) : Prop :=
  native_devices d' = native_devices d /\ mfa_methods d' = mfa_methods d /\
  recovery_codes d' = recovery_codes d /\ webauthn_credentials d' = webauthn_credentials d.

(** What belongs to the session or the user being revoked. *)
Definition touches (d : DB) (user : string) (session : option string) (owner : string) : bool :=
  (owner =?s user) || opt_test (in_sessions d (fun s => s_UserID s =?s user)) session.

Lemma revokeUserAccessTx_inv newid user now d u d' :
  revokeUserAccessTx newid user now d = inr (u, d') ->
  exists m, let p s := s_UserID s =?s user in queued_for newid now d p m /\
  d' = on_account_tokens (update_where
      (fun t => is_null (at_UsedAt t) && (now <? at_ExpiresAt t) && (at_UserID t =?s user)) (set_at_ExpiresAt now))
    (on_mfa_tokens (update_where (fun t => (mt_UserID t =?s user) && is_null (mt_UsedAt t)) (set_mt_UsedAt (Some now)))
    (revoke_grants (fun _ u => u =?s user) now
    (on_device_pairing_tokens (update_where
      (fun t => (dp_UserID t =?s user) && is_null (dp_UsedAt t)) (set_dp_ExpiresAt now))
    (delete_sessions p (revoke_grants (fun s _ => opt_test (in_sessions d p) s) now
      (on_logout_deliveries (fun _ => m) d)))))).
Proof.
  unfold revokeUserAccessTx. intros Hr.
  apply tx_bind_inr in Hr as (n & d1 & H1 & Hr).
  apply revokeSessionsTx_inv in H1 as (_ & m & Hm & ->). exists m. split; [done|].
  cbv zeta. unfold spendMFATokensTx, expireAccountTokensTx in Hr. tx_inv.
  match goal with H : revokeSessionGrantsTx _ _ _ = _ |- _ =>
    rewrite revokeSessionGrantsTx_eq in H; injection H as <- <- end.
  reflexivity.
Qed.

Lemma revokeUserAccessTx_locks_out newid user now d u d' :
  revokeUserAccessTx newid user now d = inr (u, d') -> holds_access now user d' = false.
Proof.
  intros Hr. apply revokeUserAccessTx_inv in Hr as (m & _ & ->). unfold holds_access.
  repeat (apply orb_false_iff; split); cbn -[exists_where delete_where update_where];
    first [apply exists_where_deleted | apply exists_where_updated]; row_hyps.
Qed.

Lemma revokeUserAccessTx_total newid user now d :
  fresh_ids newid d -> exists d', revokeUserAccessTx newid user now d = inr (tt, d').
Proof.
  intros Hf. destruct (revokeSessionsTx_total newid now (fun s => s_UserID s =?s user) d Hf) as (n & d1 & H1).
  unfold revokeUserAccessTx. unfold tx_bind at 1. rewrite H1. by eexists.
Qed.

(** An audit event whose identifier is not taken can be recorded. *)
Definition audit_fresh (audit : option AuditEvent) (d : DB) : Prop :=
  match audit with Some e => audit_events d !! ae_ID e = None | None => True end.

Lemma recordAuditTx_total audit now d : audit_fresh audit d -> exists d', recordAuditTx audit now d = inr (tt, d').
Proof.
  destruct audit as [e|]; [|by exists d]. intros Hf. unfold recordAuditTx.
  unfold tx_bind at 1. rewrite insert_row_fresh; [by eexists|]. by destruct (ae_CreatedAt e =? 0).
Qed.

(** A transaction followed by its audit row commits when both can run. *)
Lemma auditedTx_inr {A} audit now (fn : STx A) d a d' :
  auditedTx audit now fn d = (inr a, d') ->
  exists d1 m q, fn d = inr (a, d1) /\ d' = audited m q d1.
Proof.
  unfold auditedTx. intros Hr. apply commit_inr in Hr. tx_inv.
  match goal with H : recordAuditTx _ _ _ = _ |- _ => apply recordAuditTx_inv in H as (m & q & ->) end. eauto.
Qed.

Lemma auditedTx_total {A} audit now (fn : STx A) d a d1 :
  fn d = inr (a, d1) -> audit_fresh audit d1 -> exists d', auditedTx audit now fn d = (inr a, d').
Proof.
  intros Hr Hf. destruct (recordAuditTx_total audit now d1 Hf) as [d' Ha].
  exists d'. unfold auditedTx. apply commit_inr. unfold tx_bind at 1. rewrite Hr. unfold tx_bind at 1. by rewrite Ha.
Qed.

(** ** Limits *)

(** Limits inside the documented bounds, where no product overflows. *)
Definition in_bounds (l : SessionLimits) : bool :=
  (3600 <=? sl_Absolute l) && (sl_Absolute l <=? 604800) && (300 <=? sl_Idle l) && (sl_Idle l <=? 86400) &&
  (sl_Idle l <=? sl_Absolute l).

Lemma wrap64_id z : - 2 ^ 63 <= z < 2 ^ 63 -> wrap64 z = z.
Proof. intros. unfold wrap64. rewrite Z.mod_small by lia. lia. Qed.

Lemma in_bounds_ttl l : in_bounds l = true ->
  AbsoluteTTL l = sl_Absolute l * second /\ IdleTTL l = sl_Idle l * second /\ limits_Valid l = true.
Proof.
  unfold in_bounds, AbsoluteTTL, IdleTTL. intros Hb. bool_hyps.
  assert (wrap64 (sl_Absolute l * second) = sl_Absolute l * second) as Ha by (apply wrap64_id; unfold second; lia).
  assert (wrap64 (sl_Idle l * second) = sl_Idle l * second) as Hi by (apply wrap64_id; unfold second; lia).
  split; [done|]. split; [done|]. unfold limits_Valid, AbsoluteTTL, IdleTTL, ValidSessionLimits.
  rewrite Ha, Hi. unfold MinSessionTTL, MaxSessionTTL, MinSessionIdleTTL, MaxSessionIdleTTL, hour, minute, second.
  row_hyps.
Qed.

Lemma stricter_in_bounds old l : in_bounds old = true -> in_bounds l = true -> in_bounds (stricter old l) = true.
Proof. unfold in_bounds. simpl. intros. bool_hyps. row_hyps. Qed.

(** What the stricter limits keep, each of the two keeps. *)
Lemma beyond_stricter now old l s : in_bounds old = true -> in_bounds l = true ->
  beyond now (stricter old l) s = beyond now old s || beyond now l s.
Proof.
  intros Ho Hl. pose proof (stricter_in_bounds _ _ Ho Hl) as Hs.
  unfold beyond. destruct (in_bounds_ttl _ Ho) as (-> & -> & _), (in_bounds_ttl _ Hl) as (-> & -> & _),
    (in_bounds_ttl _ Hs) as (-> & -> & _). simpl. unfold second.
  apply eq_true_iff_eq. rewrite !orb_true_iff, !Z.leb_le. lia.
Qed.

Lemma within_not_beyond now l s : within_limits now (IdleTTL l) (AbsoluteTTL l) s = true -> beyond now l s = false.
Proof. unfold within_limits, beyond. intros. bool_hyps. apply orb_false_iff. split; apply Z.leb_gt; lia. Qed.

Lemma limits_json_roundtrip seed l d : in_bounds l = true ->
  LoadSessionLimits seed (on_system_settings <[sessionLimitsKey := limits_json l]> d) = inr l.
Proof.
  intros Hb. unfold LoadSessionLimits. cbn [system_settings on_system_settings]. rewrite lookup_insert_eq.
  pose proof (in_bounds_ttl _ Hb) as (_ & _ & Hv). unfold in_bounds in Hb. bool_hyps.
  unfold unmarshal_int, limits_json. cbn [json_get obj_get].
  rewrite streqb_refl. replace ("idle" =?s "absolute") with false by reflexivity. rewrite streqb_refl.
  replace ((- 2 ^ 63 <=? sl_Absolute l) && (sl_Absolute l <? 2 ^ 63)) with true by (symmetry; row_hyps).
  replace ((- 2 ^ 63 <=? sl_Idle l) && (sl_Idle l <? 2 ^ 63)) with true by (symmetry; row_hyps).
  destruct l. cbn in *. by rewrite Hv.
Qed.

(** ** The bounds on pending authorization requests *)

Definition browser_count (b : string) (t : gmap string AuthorizationInteraction) : Z :=
  count_where (fun x => i_BrowserHash x =?s b) t.
Definition user_count (u : string) (t : gmap string AuthorizationInteraction) : Z :=
  count_where (fun x => i_UserID x =?s u) t.

(** Ten per browser, ten per account, ten thousand in all, each under its hash. *)
Record interactions_bounded (t : gmap string AuthorizationInteraction) : Prop := {
  bounded_keys : forall k i, t !! k = Some i -> i_Hash i = k;
  bounded_browser : forall b, browser_count b t <= 10;
  bounded_user : forall u, u <> EmptyString -> user_count u t <= 10;
  bounded_total : count_where (fun _ => true) t <= 10000 }.

Lemma interactions_bounded_empty : interactions_bounded ∅.
Proof.
  split; intros; unfold browser_count, user_count, count_where, where_;
    rewrite ?map_filter_empty, ?map_size_empty; try lia. by rewrite lookup_empty in *.
Qed.

Lemma delete_where_bounded p t : interactions_bounded t -> interactions_bounded (delete_where p t).
Proof.
  intros [Hk Hb Hu Ht]. split.
  - intros k i Hi. apply lookup_delete_where_Some in Hi as [Hi _]. eauto.
  - intros b. etrans; [apply count_where_delete_where|apply Hb].
  - intros u Hne. etrans; [apply count_where_delete_where|by apply Hu].
  - etrans; [apply count_where_delete_where|done].
Qed.

Lemma keep_before_trans a b c : keep_before a b = true -> keep_before b c = true -> keep_before a c = true.
Proof.
  unfold keep_before. destruct (proven a), (proven b), (proven c); simpl; try done;
    rewrite !orb_true_iff, !andb_true_iff, !Z.ltb_lt, !Z.eqb_eq; intros [?|[? Hab]] [?|[? Hbc]];
    try (left; lia); right; (split; [lia|exact (string_ltb_trans _ _ _ Hab Hbc)]).
Qed.

Lemma keep_before_total a b : i_Hash a <> i_Hash b -> keep_before a b = true \/ keep_before b a = true.
Proof.
  intros Hne. apply string_ltb_total in Hne. unfold keep_before.
  destruct (proven a), (proven b); simpl; auto;
    rewrite !orb_true_iff, !andb_true_iff, !Z.ltb_lt, !Z.eqb_eq;
    (destruct (Z.lt_trichotomy (i_CreatedAt a) (i_CreatedAt b)) as [|[->|]]; [right; left|destruct Hne as [Hn|Hn]; [left|right]; right|left; left]); auto.
Qed.

(** The repair leaves every account with at most ten, whatever it starts from. *)
Lemma trim_accounts_user u t : (forall k i, t !! k = Some i -> i_Hash i = k) -> u <> EmptyString ->
  user_count u (trim_accounts t) <= 10.
Proof.
  intros Hk Hu. etrans; [|apply (count_where_ranked (fun x => i_UserID x =?s u) keep_before 10 t)].
  - unfold user_count. etrans; [apply (count_where_impl _ (fun r => (i_UserID r =?s u) &&
      (count_where (fun x => (i_UserID x =?s u) && keep_before x r) t <? 10)))|apply count_where_delete_where].
    intros k i Hi Hp. apply lookup_delete_where_Some in Hi as [Hi Hq].
    apply streqb_true in Hp. subst u. unfold owned in Hq.
    apply streqb_false in Hu. rewrite Hu in Hq. cbn [negb andb] in Hq.
    rewrite streqb_refl. cbn [andb]. apply Z.ltb_lt. by apply Z.leb_gt in Hq.
  - intros k1 r1 k2 r2 H1 H2 _ _ Hne. apply keep_before_total. by rewrite (Hk _ _ H1), (Hk _ _ H2).
  - apply keep_before_trans.
  - lia.
Qed.

Lemma repair_bounded d : interactions_bounded (authorization_interactions d) ->
  interactions_bounded (authorization_interactions (repairAuthorizationAccountsSQL d)).
Proof.
  intros [Hk Hb Hu Ht]. unfold repairAuthorizationAccountsSQL, drop_sessionless, adopt_sessions.
  cbn [authorization_interactions on_authorization_interactions]. set (t := update_where _ _ (authorization_interactions d)).
  assert (forall k i, t !! k = Some i -> i_Hash i = k) as Hk'.
  { subst t. intros k i Hi. apply lookup_update_where_Some in Hi as (i0 & Hi & ->).
    rewrite <- (Hk _ _ Hi). by destruct (_ && _). }
  set (t' := delete_where _ t).
  assert (forall k i, t' !! k = Some i -> i_Hash i = k) as Hk''.
  { intros k i Hi. apply lookup_delete_where_Some in Hi as [Hi _]. eauto. }
  assert (forall p, (forall u i, p (set_i_UserID u i) = p i) ->
    count_where p (trim_accounts t') <= count_where p (authorization_interactions d)) as Hle.
  { intros p Hp. etrans; [apply count_where_delete_where|]. etrans; [apply count_where_delete_where|].
    subst t. rewrite count_where_update; [done|]. intros. apply Hp. }
  split.
  - intros k i Hi. apply lookup_delete_where_Some in Hi as [Hi _]. eauto.
  - intros b. etrans; [by apply Hle|apply Hb].
  - intros u Hne. by apply trim_accounts_user.
  - etrans; [by apply Hle|done].
Qed.

(** One operation on the pending requests, at any instant. *)
Inductive interaction_step : DB -> DB -> Prop :=
| step_create i now d d' : CreateAuthorizationInteraction i now d = inr (tt, d') -> interaction_step d d'
| step_login sess hash browser now d s d' :
    CreateSessionForInteraction sess hash browser now d = inr (s, d') -> interaction_step d d'
| step_cancel hash browser d : interaction_step d (CancelAuthorizationInteraction hash browser d)
| step_revoke newid user audit now d d' :
    RevokeUserAccess newid user audit now d = (inr tt, d') -> interaction_step d d'.

Lemma create_interaction_bounded i now d d' : CreateAuthorizationInteraction i now d = inr (tt, d') ->
  interactions_bounded (authorization_interactions d) -> interactions_bounded (authorization_interactions d').
Proof.
  unfold CreateAuthorizationInteraction. intros Hr Hd. tx_inv.
  match goal with H : (if ?b then _ else _) _ = inr (_, ?x) |- _ =>
    assert (interactions_bounded (authorization_interactions x)) as Hx;
      [destruct b; tx_inv; [apply repair_bounded|]; by apply delete_where_bounded|] end.
  apply insert_row_inv in Hr as [Hn ->]. bool_hyps. cbn [authorization_interactions on_authorization_interactions] in *.
  apply (delete_where_bounded _ _ : interactions_bounded _ -> interactions_bounded (reclaim_anonymous _)) in Hx as [Hk Hb Hu Ht].
  split.
  - intros k x. rewrite lookup_insert_Some. intros [[<- <-]|[_ Hx]]; [done|eauto].
  - intros b. unfold browser_count. rewrite count_where_insert_new by done. cbn [i_BrowserHash set_i_SessionID].
    specialize (Hb b). unfold browser_count in Hb. destruct (i_BrowserHash i =?s b) eqn:E; [|lia].
    apply streqb_true in E as <-. lia.
  - intros u Hne. unfold user_count. rewrite count_where_insert_new by done. cbn [i_UserID set_i_SessionID].
    specialize (Hu u Hne). unfold user_count in Hu. destruct (i_UserID i =?s u) eqn:E; [|lia].
    apply streqb_true in E as <-. apply streqb_false in Hne. rewrite Hne in *. cbn [orb] in *. bool_hyps. by apply Z.le_succ_l.
  - rewrite count_where_insert_new by done. lia.
Qed.

(** Expiring other requests changes no count. *)
Lemma update_expiry_bounded p v t : interactions_bounded t ->
  interactions_bounded (update_where p (set_i_ExpiresAt v) t).
Proof.
  intros [Hk Hb Hu Ht]. split.
  - intros k i Hi. apply lookup_update_where_Some in Hi as (i0 & Hi & ->).
    rewrite <- (Hk _ _ Hi). by destruct (p i0).
  - intros b. unfold browser_count. rewrite count_where_update by done. apply Hb.
  - intros u Hne. unfold user_count. rewrite count_where_update by done. by apply Hu.
  - by rewrite count_where_update.
Qed.

(** Binding a request to its login moves at most one row to the account. *)
Lemma bind_row_bounded k i id user t : interactions_bounded t -> t !! k = Some i ->
  count_where (fun x => (i_UserID x =?s user) && (i_Hash x <>?s i_Hash i)) t < 10 ->
  interactions_bounded (<[k := set_i_SessionID id (set_i_UserID user i)]> t).
Proof.
  intros [Hk Hb Hu Ht] Hi Hc. pose proof (Hk _ _ Hi) as Hik.
  set (i' := set_i_SessionID id (set_i_UserID user i)).
  assert (forall p : AuthorizationInteraction -> bool, (p i' = true -> p i = true) ->
    count_where p (<[k := i']> t) <= count_where p t) as Hle.
  { intros p Hp. apply count_where_subset. intros k' r Hl Hpr.
    apply lookup_insert_Some in Hl as [[<- <-]|[_ Hl]]; eauto. }
  split.
  - intros k' x. rewrite lookup_insert_Some. intros [[<- <-]|[_ Hx]]; [done|eauto].
  - intros b. etrans; [by apply Hle|apply Hb].
  - intros u Hne. destruct (decide (user = u)) as [<-|Hneq].
    + etrans; [apply (count_where_all_but_one _ (fun x => (i_UserID x =?s user) && (i_Hash x <>?s i_Hash i)) _ k)|].
      { intros k' r Hl Hp. destruct (decide (k' = k)) as [->|Hn]; [by left|right].
        rewrite lookup_insert_ne in Hl by done. rewrite Hp. cbn [andb].
        apply negb_true_iff, streqb_false. rewrite (Hk _ _ Hl). congruence. }
      enough (count_where (fun x => (i_UserID x =?s user) && (i_Hash x <>?s i_Hash i)) (<[k := i']> t)
        <= count_where (fun x => (i_UserID x =?s user) && (i_Hash x <>?s i_Hash i)) t) by lia.
      apply Hle. cbn. by rewrite !streqb_refl.
    + etrans; [apply Hle|by apply Hu]. cbn. by rewrite (proj2 (streqb_false _ _) Hneq).
  - etrans; [by apply Hle|done].
Qed.

Lemma bind_interaction_bounded sess id hash browser renew now d u d' :
  bind_interaction sess id hash browser renew now d = inr (u, d') ->
  interactions_bounded (authorization_interactions d) -> interactions_bounded (authorization_interactions d').
Proof.
  unfold bind_interaction. intros Hr Hd. tx_inv.
  destruct (authorization_interactions _ !! hash) as [i|] eqn:Hi; tx_inv.
  match goal with H : interaction_open _ _ _ _ _ = true |- _ => unfold interaction_open in H; bool_hyps end.
  destruct renew; tx_inv; [apply update_expiry_bounded|]; by apply bind_row_bounded.
Qed.

Lemma bind_interaction_inv sess id hash browser renew now d u d' :
  bind_interaction sess id hash browser renew now d = inr (u, d') ->
  exists m i i', d' = on_authorization_interactions (fun _ => m) d /\
    authorization_interactions d !! hash = Some i /\ interaction_open now d sess browser i = true /\
    m !! hash = Some i' /\ i_SessionID i' = id /\ i_UserID i' = s_UserID sess.
Proof.
  unfold bind_interaction. intros Hr. tx_inv.
  destruct (authorization_interactions _ !! hash) as [i|] eqn:Hi; tx_inv.
  set (m1 := <[hash := set_i_SessionID id (set_i_UserID (s_UserID sess) i)]> : gmap string AuthorizationInteraction -> _).
  destruct renew; tx_inv; do 3 eexists; (split; [reflexivity|]); (split; [reflexivity|]); (split; [done|]).
  - split; [rewrite lookup_update_where; cbn [authorization_interactions on_authorization_interactions];
      unfold m1; rewrite lookup_insert_eq; reflexivity|].
    by destruct (_ && _).
  - split; [unfold m1; apply lookup_insert_eq|done].
Qed.

Lemma eligible_inv d sess : eligible d sess = true ->
  exists u, users d !! s_UserID sess = Some u /\ u_Status u = "active"%string /\
    (s_ProvenPasswordHash sess <> EmptyString -> u_PasswordHash u = s_ProvenPasswordHash sess).
Proof.
  unfold eligible. destruct (users d !! s_UserID sess) as [u|]; [|done]. intros He. exists u. split; [done|].
  apply andb_true_iff in He as [Ha Hp]. split; [by apply streqb_true|]. intros Hne.
  apply streqb_false in Hne. rewrite Hne in Hp. by apply streqb_true.
Qed.

(** The identifier a login ends up with: the caller's, or the renewed session's. *)
Lemma renewed_session_inv sess hash browser now d id :
  renewed_session sess hash browser now d = Some id ->
  in_sessions d (fun o => (s_UserID o =?s s_UserID sess) && (now <? s_ExpiresAt o)) id = true /\
  exists i, authorization_interactions d !! hash = Some i /\ id = i_OriginalSessionID i.
Proof.
  unfold renewed_session. destruct (authorization_interactions d !! hash) as [i|]; [|done].
  destruct (_ && in_sessions _ _ _) eqn:E; [|done]. intros [= <-]. bool_hyps. eauto.
Qed.

Lemma CreateSession_bounded sess hash browser now d s d' :
  CreateSessionForInteraction sess hash browser now d = inr (s, d') ->
  interactions_bounded (authorization_interactions d) -> interactions_bounded (authorization_interactions d').
Proof.
  unfold CreateSessionForInteraction. intros Hr Hd.
  apply tx_bind_inr in Hr as (? & ? & [= <- <-] & Hr). cbv zeta in Hr.
  apply tx_bind_inr in Hr as (u & d1 & H1 & Hr).
  assert (interactions_bounded (authorization_interactions d1)) as Hd1.
  { destruct (hash =?s EmptyString); [by tx_inv|by eapply bind_interaction_bounded]. }
  tx_inv. destruct (if hash =?s EmptyString then None else _); tx_inv; [done|].
  match goal with H : insert_row _ _ _ _ _ = _ |- _ => apply insert_row_inv in H as [_ ->] end. done.
Qed.

(** ** The logout queue *)

Definition in_flight (now : Z) (client : string) (ld : LogoutDelivery) : bool :=
  (ld_Status ld =?s "queued") && leased now ld && (ld_ClientID ld =?s client).

(** At most one leased delivery per client; never more than five attempts. *)
Record logout_queue_ok (now : Z) (t : gmap string LogoutDelivery) : Prop := {
  one_in_flight : forall c, count_where (in_flight now c) t <= 1;
  attempts_bounded : forall k ld, t !! k = Some ld -> 0 <= ld_Attempts ld <= logoutDeliveryAttempts }.

(** The queue's operations, each at the current instant, and the passing of time. *)
Inductive logout_step : Z * DB -> Z * DB -> Prop :=
| logout_wait now now' d : now <= now' -> logout_step (now, d) (now', d)
| logout_claim token lease now d r d' :
    ClaimLogoutDelivery_run token lease now d = (inr r, d') -> logout_step (now, d) (now, d')
| logout_finish id claimed err now d d' :
    FinishLogoutDelivery id claimed err now d = inr (tt, d') -> logout_step (now, d) (now, d')
| logout_retry user id audit now d b d' :
    RetryLogoutDeliveryNow user id audit now d = inr (b, d') -> logout_step (now, d) (now, d')
| logout_prune cutoff now d : logout_step (now, d) (now, DeleteLogoutDeliveriesOlderThan cutoff d)
| logout_enqueue newid w now d d' :
    enqueueLogoutTx newid now w d = inr (tt, d') -> logout_step (now, d) (now, d').

Lemma oldest_Some t k ld : oldest t = Some (k, ld) -> t !! k = Some ld.
Proof.
  unfold oldest. intros Ho. apply elem_of_map_to_list. revert Ho.
  induction (map_to_list t) as [|kv l IH]; simpl; [done|].
  destruct (fold_right _ _ l) as [b|].
  - destruct (_ <=? _); intros [= ->]; [by left|right; by apply IH].
  - intros [= ->]. by left.
Qed.

Lemma logout_row_done now t k ld :
  logout_queue_ok now t -> (forall c, in_flight now c ld = false) ->
  0 <= ld_Attempts ld <= logoutDeliveryAttempts -> logout_queue_ok now (<[k := ld]> t).
Proof.
  intros [Hf Ha] Hn Hl. split.
  - intros c. etrans; [by apply count_where_write_false|apply Hf].
  - intros k' ld' Hk. apply lookup_insert_Some in Hk as [[<- <-]|[_ Hk]]; eauto.
Qed.

Lemma in_flight_unleased now c ld : ld_LeaseUntil ld = None -> in_flight now c ld = false.
Proof. unfold in_flight, leased. intros ->. simpl. by rewrite andb_false_r. Qed.

Lemma claim_queue_ok token lease now d r d' :
  ClaimLogoutDelivery_run token lease now d = (inr r, d') ->
  logout_queue_ok now (logout_deliveries d) -> logout_queue_ok now (logout_deliveries d').
Proof.
  unfold ClaimLogoutDelivery_run. intros Hr Hd.
  destruct (commit _ _) as [[e|[x|]] d0] eqn:E; [congruence| |by injection Hr as <- <-].
  injection Hr as <- <-.
  unfold ClaimLogoutDelivery in E. tx_inv. cbn [logout_deliveries on_logout_deliveries] in *.
  set (t := update_where _ _ (logout_deliveries d)) in *.
  assert (logout_queue_ok now t) as Ht.
  { destruct Hd as [Hf Ha]. split.
    - intros c. etrans; [|apply (Hf c)]. apply count_where_subset. intros k ld Hk Hp.
      apply lookup_update_where_Some in Hk as (ld0 & Hk & ->). exists ld0. split; [done|].
      by destruct (_ && _).
    - intros k ld Hk. apply lookup_update_where_Some in Hk as (ld0 & Hk & ->).
      apply Ha in Hk. by destruct (_ && _). }
  destruct (oldest _) as [[id ld]|] eqn:Eo; tx_inv.
  apply oldest_Some, lookup_where in Eo as [Hk Hc]. unfold claimable in Hc. bool_hyps.
  destruct Ht as [Hf Ha]. cbn [logout_deliveries on_logout_deliveries]. split.
  - intros c. destruct (decide (ld_ClientID ld = c)) as [<-|Hne].
    + by apply count_where_write_first.
    + etrans; [apply count_where_write_false|apply Hf]. unfold in_flight. cbn.
      apply streqb_false in Hne. by rewrite Hne, andb_false_r.
  - intros k' ld' Hl. apply lookup_insert_Some in Hl as [[<- <-]|[_ Hl]]; [|eauto].
    apply Ha in Hk. cbn. lia.
Qed.

Lemma enqueue_queue_ok newid w now d d' :
  enqueueLogoutTx newid now w d = inr (tt, d') ->
  logout_queue_ok now (logout_deliveries d) -> logout_queue_ok now (logout_deliveries d').
Proof.
  unfold enqueueLogoutTx. intros Hr Hd. tx_inv.
  apply (tx_iter_preserves (fun x => logout_queue_ok now (logout_deliveries x))) in Hr; [done| |done].
  intros kv s u s' _ Hs Hi. apply insert_row_inv in Hi as [_ ->].
  by apply logout_row_done; [|intros; apply in_flight_unleased|].
Qed.

(** ** Properties *)

(** C3. Revoking a user's access always commits and leaves that user no session,
    authorization code, waiting sign-in, unrevoked token, unused step-up
    proof or challenge, pending login, or live pairing token or account
    link; it queues one back-channel logout per participating client session
    it ended. Sessions of other users, and codes and tokens that are neither
    the user's nor tied to the user's sessions, stay as they were, as do
    every account with its password, and the devices, authenticators,
    recovery codes and passkeys. *)
Theorem RevokeUserAccess_complete newid user audit now d :
  fresh_ids newid d -> audit_fresh audit d ->
  exists d', RevokeUserAccess newid user audit now d = (inr tt, d') /\
    holds_access now user d' = false /\
    queued_for newid now d (fun s => s_UserID s =?s user) (logout_deliveries d') /\
    (forall k s, sessions d !! k = Some s -> s_UserID s <> user -> sessions d' !! k = Some s) /\
    (forall k c, authorization_codes d !! k = Some c ->
      touches d user (Some (c_SessionID c)) (c_UserID c) = false -> authorization_codes d' !! k = Some c) /\
    (forall k t, issued_tokens d !! k = Some t ->
      touches d user (it_SessionID t) (it_UserID t) = false -> issued_tokens d' !! k = Some t) /\
    users d' = users d /\ same_factors d d'.
Proof.
  intros Hf Ha. destruct (revokeUserAccessTx_total newid user now d Hf) as [d1 H1].
  pose proof (revokeUserAccessTx_inv _ _ _ _ _ _ H1) as (m & Hm & Hd1).
  destruct (auditedTx_total audit now (revokeUserAccessTx newid user now) d tt d1 H1) as [d' Hd'].
  { rewrite Hd1. by destruct audit. }
  exists d'. split; [exact Hd'|]. apply auditedTx_inr in Hd' as (d1' & m' & q0 & H1' & ->).
  rewrite H1 in H1'. injection H1' as <-. apply revokeUserAccessTx_locks_out in H1.
  split; [exact H1|]. rewrite Hd1. split; [exact Hm|].
  cbn -[delete_where update_where touches]. unfold touches. split; [|split; [|split]].
  - intros k s Hk Hne. apply lookup_delete_where_ne; [done|]. by apply streqb_false.
  - intros k c Hk Ht. apply orb_false_iff in Ht as [Hu Hs].
    do 2 (apply lookup_delete_where_ne; [|done]). done.
  - intros k t Hk Ht. apply orb_false_iff in Ht as [Hu Hs].
    do 2 (apply lookup_update_where_ne; [|by rewrite ?Hu, ?Hs, andb_false_r]). done.
  - by repeat split.
Qed.

Lemma RevokeUserAccess_complete_witness :
  holds_access t0 "bob" sample_db = true /\
  exists d', RevokeUserAccess (String.append "ld-") "bob" None t0 sample_db = (inr tt, d') /\
    holds_access t0 "bob" d' = false.
Proof.
  split; [vm_compute; reflexivity|].
  destruct (RevokeUserAccess_complete (String.append "ld-") "bob" None t0 sample_db) as (d' & H1 & H2 & _).
  - split; [by intros ?? [= ?]|reflexivity].
  - exact I.
  - exact (ex_intro _ d' (conj H1 H2)).
Defined.

(** With limits in bounds, changing the session limits deletes exactly the
    sessions beyond the old or the new limits, reports their number, revokes
    their tokens, and persists the new limits. *)
Theorem SetSessionLimits_never_revives newid cache l audit now d n d' cache' :
  in_bounds (current_limits cache) = true -> in_bounds l = true ->
  SetSessionLimits newid cache l audit now d = (inr n, (d', cache')) ->
  cache' = Some l /\ (forall seed, LoadSessionLimits seed d' = inr l) /\
  n = count_where (fun s => beyond now (current_limits cache) s || beyond now l s) (sessions d) /\
  (forall k s, sessions d' !! k = Some s <->
    sessions d !! k = Some s /\ beyond now (current_limits cache) s = false /\ beyond now l s = false) /\
  (forall k t sid s, issued_tokens d !! k = Some t -> it_SessionID t = Some sid -> sessions d !! sid = Some s ->
    beyond now (current_limits cache) s || beyond now l s = true ->
    exists t', issued_tokens d' !! k = Some t' /\ it_RevokedAt t' <> None).
Proof.
  intros Ho Hl. unfold SetSessionLimits. destruct (in_bounds_ttl _ Hl) as (_ & _ & ->). cbn [negb].
  destruct (commit _ d) as [[e|n0] d0] eqn:Hr; intros [= -> -> <-]. tx_inv.
  match goal with H : revokeSessionsTx _ _ _ _ = _ |- _ => apply revokeSessionsTx_inv in H as (-> & m & _ & ->) end.
  audit_inv. cbn -[delete_where update_where LoadSessionLimits beyond count_where].
  assert (forall s, beyond now (stricter (current_limits cache) l) s
    = beyond now (current_limits cache) s || beyond now l s) as Hb by (intros; by apply beyond_stricter).
  split; [done|]. split; [intros seed; exact (limits_json_roundtrip seed l d Hl)|].
  split; [|split].
  - apply Z.le_antisymm; apply count_where_impl; intros ? ? _; by rewrite Hb.
  - intros k s. rewrite lookup_delete_where_Some, Hb, orb_false_iff. done.
  - intros k t sid s Hk Hs Hsid Hbe. rewrite lookup_update_where, Hk. cbn. eexists. split; [reflexivity|].
    rewrite Hs. unfold in_sessions. cbn. rewrite Hsid, Hb, Hbe, andb_true_r.
    destruct (it_RevokedAt t) eqn:E; cbn; [by rewrite E|done].
Qed.

Lemma SetSessionLimits_never_revives_witness :
  let l := MkSessionLimits 3600 300 in
  let r := SetSessionLimits (String.append "ld-") None l None (t0 + hour) sample_db in
  r.1 = inr 2 /\ r.2.2 = Some l /\ forall seed, LoadSessionLimits seed r.2.1 = inr l.
Proof.
  cbv zeta.
  assert ((SetSessionLimits (String.append "ld-") None (MkSessionLimits 3600 300) None (t0 + hour) sample_db).1
    = inr 2) as Hr by (vm_compute; reflexivity).
  destruct (SetSessionLimits _ _ _ _ _ _) as [r [d' c']] eqn:E. cbn [fst snd] in *. subst r.
  destruct (SetSessionLimits_never_revives (String.append "ld-") None (MkSessionLimits 3600 300) None (t0 + hour)
    sample_db 2 d' c' eq_refl eq_refl E) as (H1 & H2 & _).
  exact (conj eq_refl (conj H1 H2)).
Defined.

(** Over every sequence of creations, logins, cancellations and revocations
    the stored authorization interactions stay within their per-browser,
    per-user and total bounds. *)
Theorem interactions_stay_bounded d d' :
  rtc interaction_step d d' -> interactions_bounded (authorization_interactions d) ->
  interactions_bounded (authorization_interactions d').
Proof.
  induction 1 as [|d d1 d' Hstep _ IH]; [done|]. intros Hd. apply IH.
  destruct Hstep as [i now d d1 Hr|sess hash browser now d s d1 Hr|hash browser d|newid user audit now d d1 Hr].
  - by eapply create_interaction_bounded.
  - by eapply CreateSession_bounded.
  - by apply delete_where_bounded.
  - apply auditedTx_inr in Hr as (d2 & m & q0 & Hr & ->). apply revokeUserAccessTx_inv in Hr as (m' & _ & ->).
    by do 2 apply delete_where_bounded.
Qed.

Lemma interactions_stay_bounded_witness :
  let d := on_authorization_interactions (fun _ => ∅) sample_db in
  exists d', CreateAuthorizationInteraction sample_interaction t0 d = inr (tt, d') /\
    interactions_bounded (authorization_interactions d').
Proof.
  cbv zeta. destruct (CreateAuthorizationInteraction _ _ _) as [e|[[] d']] eqn:E;
    [vm_compute in E; discriminate|].
  exists d'. split; [reflexivity|].
  apply (interactions_stay_bounded (on_authorization_interactions (fun _ => ∅) sample_db) d');
    [apply rtc_once; eapply step_create, E|apply interactions_bounded_empty].
Defined.

(** Over every interleaving of claims, completions, retries, clean-ups and
    queueings, at most one logout delivery per client is in flight and
    attempt counts stay within the budget. *)
Theorem logout_queue_stays_ok now d now' d' :
  rtc logout_step (now, d) (now', d') -> logout_queue_ok now (logout_deliveries d) ->
  logout_queue_ok now' (logout_deliveries d').
Proof.
  intros Hs. change (logout_queue_ok (now, d).1 (logout_deliveries (now, d).2) ->
    logout_queue_ok (now', d').1 (logout_deliveries (now', d').2)).
  induction Hs as [|x y z Hstep _ IH]; [done|]. intros Hd. apply IH. clear IH. clear now' d' z.
  destruct Hstep as [n n' e Hle|token lease n e r e' Hr|id cl err n e e' Hr|user id audit n e b e' Hr|cutoff n e
    |newid w n e e' Hr]; cbn [fst snd] in *.
  - destruct Hd as [Hf Ha]. split; [|done]. intros c. etrans; [|apply (Hf c)].
    apply count_where_impl. unfold in_flight, leased. intros k ld _ Hl. bool_hyps.
    destruct (ld_LeaseUntil ld); simpl in *; row_hyps.
  - by eapply claim_queue_ok.
  - unfold FinishLogoutDelivery in Hr. destruct (match err with None => _ | Some _ => _ end) as [[st msg] nx].
    tx_inv. destruct (logout_deliveries _ !! id) as [ld|] eqn:Hk; tx_inv.
    apply logout_row_done; [done|intros; by apply in_flight_unleased|].
    destruct Hd as [_ Ha]. by apply (Ha _ _ Hk).
  - unfold RetryLogoutDeliveryNow in Hr. tx_inv. destruct (logout_deliveries _ !! id) as [ld|] eqn:Hk; tx_inv; [|done].
    destruct (_ && _); tx_inv; [|done]. audit_inv.
    by apply logout_row_done; [|intros; apply in_flight_unleased|].
  - destruct Hd as [Hf Ha]. split.
    + intros c. etrans; [apply count_where_delete_where|apply Hf].
    + intros k ld Hk. apply lookup_delete_where_Some in Hk as [Hk _]. eauto.
  - by eapply enqueue_queue_ok.
Qed.

(** After bob's sign-out the CRM is owed one logout; a worker leases it. *)
Lemma logout_queue_stays_ok_witness :
  exists d1 d2 r, enqueueLogoutTx (String.append "ld-") t0 (fun _ => true) sample_db = inr (tt, d1) /\
    ClaimLogoutDelivery_run "worker" minute t0 d1 = (inr (Some r), d2) /\
    logout_queue_ok (t0 + hour) (logout_deliveries d2).
Proof.
  destruct (enqueueLogoutTx _ _ _ _) as [e|[[] d1]] eqn:E1; [vm_compute in E1; discriminate|].
  assert (is_Some (match (ClaimLogoutDelivery_run "worker" minute t0
    (match enqueueLogoutTx (String.append "ld-") t0 (fun _ => true) sample_db with
     | inr (_, d) => d | inl _ => empty_db end)).1 with inr o => o | inl _ => None end)) as Hc by (vm_compute; eauto).
  rewrite E1 in Hc. destruct (ClaimLogoutDelivery_run _ _ _ d1) as [[e|[r|]] d2] eqn:E2; [by destruct Hc| |by destruct Hc].
  exists d1, d2, r. split; [reflexivity|]. split; [exact E2|].
  apply (logout_queue_stays_ok t0 sample_db (t0 + hour) d2).
  - eapply rtc_l; [eapply logout_enqueue, E1|]. eapply rtc_l; [eapply logout_claim, E2|].
    apply rtc_once, logout_wait. vm_compute. discriminate.
  - split; [intros c; vm_compute; discriminate|]. intros k ld Hk.
    change (logout_deliveries sample_db) with (∅ : gmap string LogoutDelivery) in Hk. by rewrite lookup_empty in Hk.
Defined.

(** [session_token_hash TEXT NOT NULL UNIQUE] *)
Definition token_unique (d : DB) : Prop := forall k k' s s',
  sessions d !! k = Some s -> sessions d !! k' = Some s' -> s_SessionTokenHash s = s_SessionTokenHash s' -> k' = k.

(** C22. A request is authenticated exactly when its token hash names a stored
    session within both limits whose account is active and before its end,
    and authentication writes only that session's last-active time. *)
Theorem authenticate_exact h cache now d u s d' :
  token_unique d ->
  let l := current_limits cache in
  authenticate (Some h) cache now d = (Some (u, s), d') <->
  (exists sid, sessions d !! sid = Some s /\ s_SessionTokenHash s = h /\
     within_limits now (IdleTTL l) (AbsoluteTTL l) s = true) /\
  users d !! s_UserID s = Some u /\ u_Status u = "active"%string /\ unexpired (u_EndsAt u) (unix now) = true /\
  d' = TouchSession (s_ID s) now d.
Proof.
  intros Hu l. unfold authenticate, GetSessionByTokenHash. fold l.
  set (p := fun s => (s_SessionTokenHash s =?s h) && within_limits now (IdleTTL l) (AbsoluteTTL l) s). split.
  - destruct (find_where p (sessions d)) as [[sid s0]|] eqn:Ef; cbn [fmap option_fmap option_map snd]; [|done].
    apply find_where_Some in Ef as [Hs Hp]. unfold p in Hp. bool_hyps.
    unfold get_user. destruct (users d !! s_UserID s0) as [u0|] eqn:Eu; cbn [fmap option_fmap option_map]; [|done].
    destruct (u_Status (scanUser now u0) =?s "active") eqn:Ea; [|done]. intros [= <- <- <-].
    apply streqb_true, scanUser_active in Ea as (Ha & He & ->). rewrite Eu.
    split; [by exists sid|]. done.
  - intros ((sid & Hs & Hh & Hw) & Huser & Ha & He & ->).
    rewrite (find_where_unique p _ sid s Hs).
    + cbn [fmap option_fmap option_map snd]. unfold get_user. rewrite Huser. cbn [fmap option_fmap option_map].
      by rewrite scanUser_unexpired, Ha.
    + unfold p. by rewrite Hh, streqb_refl, Hw.
    + unfold p. intros k' s' Hk' Hp. bool_hyps. apply (Hu _ _ _ _ Hs Hk'). congruence.
Qed.

Lemma authenticate_exact_witness :
  exists u s d', authenticate (Some "h-bob"%string) None (t0 + minute) sample_db = (Some (u, s), d') /\
    u_Status u = "active"%string /\ d' = TouchSession (s_ID s) (t0 + minute) sample_db.
Proof.
  assert (is_Some (authenticate (Some "h-bob"%string) None (t0 + minute) sample_db).1) as [[u s] Hr] by (vm_compute; eauto).
  destruct (authenticate _ _ _ _) as [r d'] eqn:E. cbn [fst] in Hr. subst r. exists u, s, d'. split; [reflexivity|].
  apply authenticate_exact in E as (_ & _ & Ha & _ & Hd); [exact (conj Ha Hd)|].
  clear. intros k k' s s' Hk Hk'.
  change (sessions sample_db) with ({[ "s-alice" := sample_session "s-alice" "alice" "h-alice";
    "s-bob" := sample_session "s-bob" "bob" "h-bob" ]}%string : gmap string Session) in Hk, Hk'.
  repeat match goal with H : <[_ := _]> _ !! _ = Some _ |- _ => apply lookup_insert_Some in H as [[<- <-]|[_ H]]
    | H : {[_ := _]} !! _ = Some _ |- _ => apply lookup_singleton_Some in H as [<- <-] end; done.
Defined.

(** The bounds are checked after the multiplication by [time.Second], which
    wraps: [k] times 2^55 seconds more pass for the same duration while they
    are stored, and compared, as the larger number. *)
Definition wrapped_limits (l : SessionLimits) (k : Z) : SessionLimits :=
  MkSessionLimits (sl_Absolute l + k * 2 ^ 55) (sl_Idle l).

(** The row of [t] at [id] holds the only cookie with its digest. *)
Definition only_cookie (t : gmap string Session) (id : string) (s : Session) : Prop :=
  t !! id = Some s /\ forall k s', t !! k = Some s' -> s_SessionTokenHash s' = s_SessionTokenHash s -> k = id.

Lemma wrapped_ttl l k : in_bounds l = true ->
  AbsoluteTTL (wrapped_limits l k) = AbsoluteTTL l /\ IdleTTL (wrapped_limits l k) = IdleTTL l.
Proof.
  intros _. split; [|done]. unfold AbsoluteTTL, wrapped_limits, wrap64. cbn [sl_Absolute]. unfold second.
  replace ((sl_Absolute l + k * 2 ^ 55) * 1000000000 + 2 ^ 63)
    with (sl_Absolute l * 1000000000 + 2 ^ 63 + (k * 1953125) * 2 ^ 64) by lia.
  by rewrite Z_mod_plus_full.
Qed.

Lemma wrapped_valid l k : in_bounds l = true -> limits_Valid (wrapped_limits l k) = true.
Proof.
  intros Hl. unfold limits_Valid. destruct (wrapped_ttl l k Hl) as [-> ->]. by destruct (in_bounds_ttl l Hl) as (_ & _ & ?).
Qed.

(** An edit of the limits keeps exactly the sessions within the stricter pair. *)
Lemma SetSessionLimits_sessions newid cache l audit now d n d' cache' :
  SetSessionLimits newid cache l audit now d = (inr n, (d', cache')) ->
  cache' = Some l /\ sessions d' = delete_where (beyond now (stricter (current_limits cache) l)) (sessions d).
Proof.
  unfold SetSessionLimits. destruct (negb _); [done|].
  destruct (commit _ d) as [[e|n0] d0] eqn:Hr; intros [= -> -> <-]. tx_inv.
  match goal with H : revokeSessionsTx _ _ _ _ = _ |- _ => apply revokeSessionsTx_inv in H as (-> & m & _ & ->) end.
  by audit_inv.
Qed.

Lemma only_cookie_kept p t id s : only_cookie t id s -> p s = false -> only_cookie (delete_where p t) id s.
Proof.
  intros [Hs Hu] Hp. split; [by apply lookup_delete_where_ne|].
  intros k s' Hk. apply lookup_delete_where_Some in Hk as [Hk _]. by apply Hu.
Qed.

(** What a lookup by the only cookie of a session answers. *)
Lemma Get_only_cookie cache l now d id s : only_cookie (sessions d) id s -> current_limits cache = l ->
  GetSessionByTokenHash (s_SessionTokenHash s) (IdleTTL l) cache now d =
  if within_limits now (IdleTTL l) (AbsoluteTTL l) s then Some s else None.
Proof.
  intros [Hs Hu] Hl. unfold GetSessionByTokenHash. rewrite Hl. set (p := fun s' : Session => _).
  destruct (within_limits _ _ _ s) eqn:Hw.
  - rewrite (find_where_unique p _ id s Hs); [done|unfold p; by rewrite streqb_refl, Hw|].
    unfold p. intros k' s' Hk' Hp. bool_hyps. by apply (Hu _ _ Hk').
  - rewrite (proj2 (find_where_None p (sessions d))); [done|]. intros k s' Hk. unfold p.
    destruct (s_SessionTokenHash s' =?s s_SessionTokenHash s) eqn:E; [|done]. apply streqb_true in E.
    assert (s' = s) as -> by (pose proof (Hu _ _ Hk E) as ->; congruence). done.
Qed.

(** The rule that an edit ends what its limits shut out fails for limits
    whose nanosecond product wraps: for every acceptable pair and every
    multiple of 2^55 seconds added to its absolute limit the edit passes the
    bounds check and is stored; a session within the former limits, past the
    new duration but used within the idle time, is then refused and yet kept,
    and once any ordinary limits are set under which it has not run out the
    same cookie works again. *)
Theorem SetSessionLimits_overflow_revives newid newid' cache l k l' audit audit' now now' d n d1 c1 n' d2 c2 id s :
  in_bounds (current_limits cache) = true -> in_bounds l = true -> in_bounds l' = true -> 0 < k <= 255 ->
  SetSessionLimits newid cache (wrapped_limits l k) audit now d = (inr n, (d1, c1)) ->
  SetSessionLimits newid' c1 l' audit' now' d1 = (inr n', (d2, c2)) ->
  only_cookie (sessions d) id s -> now < s_ExpiresAt s -> now' < s_ExpiresAt s ->
  now - s_CreatedAt s < sl_Absolute (current_limits cache) * second -> sl_Absolute l * second <= now - s_CreatedAt s ->
  now - s_LastActiveAt s < Z.min (sl_Idle (current_limits cache)) (sl_Idle l) * second ->
  now' - s_CreatedAt s < sl_Absolute l' * second ->
  now' - s_LastActiveAt s < Z.min (sl_Idle l) (sl_Idle l') * second ->
  - 2 ^ 63 <= sl_Absolute (wrapped_limits l k) < 2 ^ 63 /\ limits_Valid (wrapped_limits l k) = true /\
  GetSessionByTokenHash (s_SessionTokenHash s) (IdleTTL (current_limits cache)) cache now d = Some s /\
  GetSessionByTokenHash (s_SessionTokenHash s) (IdleTTL (current_limits c1)) c1 now d1 = None /\
  sessions d1 !! id = Some s /\
  GetSessionByTokenHash (s_SessionTokenHash s) (IdleTTL (current_limits c2)) c2 now' d2 = Some s.
Proof.
  intros Ho Hl Hl' Hk H1 H2 Hs He He' Hc Ha Hi Hc' Hi'.
  pose proof (wrapped_valid l k Hl) as Hv. destruct (wrapped_ttl l k Hl) as [Wa Wi].
  apply SetSessionLimits_sessions in H1 as [-> H1]. apply SetSessionLimits_sessions in H2 as [-> H2].
  destruct (in_bounds_ttl _ Ho) as (Oa & Oi & _), (in_bounds_ttl _ Hl) as (La & Li & _), (in_bounds_ttl _ Hl') as (Ra & Ri & _).
  assert (in_bounds (stricter (current_limits cache) (wrapped_limits l k)) = true
    /\ in_bounds (stricter (wrapped_limits l k) l') = true) as [B1 B2].
  { unfold in_bounds in *. cbn. bool_hyps. split; row_hyps. }
  destruct (in_bounds_ttl _ B1) as (A1 & I1 & _), (in_bounds_ttl _ B2) as (A2 & I2 & _).
  unfold in_bounds in Ho, Hl, Hl'. bool_hyps.
  assert (only_cookie (sessions d1) id s) as Hs1.
  { rewrite H1. apply only_cookie_kept; [done|]. unfold beyond. rewrite A1, I1. unfold stricter, wrapped_limits, second in *. cbn in *.
    apply orb_false_iff. split; apply Z.leb_gt; lia. }
  assert (only_cookie (sessions d2) id s) as Hs2.
  { rewrite H2. apply only_cookie_kept; [done|]. unfold beyond. change (current_limits (Some ?x)) with x. rewrite A2, I2. unfold stricter, wrapped_limits, second in *. cbn in *.
    apply orb_false_iff. split; apply Z.leb_gt; lia. }
  rewrite (Get_only_cookie _ _ _ _ _ _ Hs eq_refl), (Get_only_cookie _ _ _ _ _ _ Hs1 eq_refl), (Get_only_cookie _ _ _ _ _ _ Hs2 eq_refl).
  unfold within_limits. repeat change (current_limits (Some ?x)) with x. rewrite Wa, Wi, Oa, Oi, La, Li, Ra, Ri. unfold second in *.
  split; [cbn; lia|]. split; [done|]. split; [|split; [|split; [apply Hs1|]]].
  - destruct (_ && _) eqn:E; [done|]. revert E. rewrite !andb_false_iff, !Z.ltb_ge. lia.
  - destruct (_ && _) eqn:E; [|done]. bool_hyps. lia.
  - destruct (_ && _) eqn:E; [done|]. revert E. rewrite !andb_false_iff, !Z.ltb_ge. lia.
Qed.

(** Two hours after sign-in, active a minute ago. *)
Definition used_db : DB := TouchSession "s-bob" (t0 + 2 * hour - minute) sample_db.

(** One hour plus 2^55 seconds, then a day and eight hours. *)
Definition wrapped_edit := SetSessionLimits (String.append "ld-") None (wrapped_limits (MkSessionLimits 3600 3600) 1) None (t0 + 2 * hour) used_db.
Definition ordinary_edit := SetSessionLimits (String.append "ld2-") wrapped_edit.2.2 (MkSessionLimits 86400 28800) None (t0 + 2 * hour) wrapped_edit.2.1.

Lemma SetSessionLimits_overflow_revives_witness :
  let now := t0 + 2 * hour in
  let '(d1, c1) := wrapped_edit.2 in let '(d2, c2) := ordinary_edit.2 in
  GetSessionByTokenHash "h-bob" (IdleTTL (current_limits c1)) c1 now d1 = None /\
  is_Some (GetSessionByTokenHash "h-bob" (IdleTTL (current_limits c2)) c2 now d2).
Proof.
  intros now.
  assert (match wrapped_edit.1, ordinary_edit.1 with inr _, inr _ => true | _, _ => false end = true) as Hn by (vm_compute; reflexivity).
  destruct wrapped_edit as [[?|n] [d1 c1]] eqn:E1; [discriminate Hn|].
  destruct ordinary_edit as [[?|n'] [d2 c2]] eqn:E2; [discriminate Hn|]. clear Hn.
  unfold ordinary_edit in E2. rewrite E1 in E2. unfold wrapped_edit in E1. cbn [fst snd] in *.
  destruct (sessions used_db !! "s-bob"%string) as [s|] eqn:Es; [|vm_compute in Es; discriminate].
  assert (all_rows (fun k s => (k =?s "s-bob") || (s_SessionTokenHash s <>?s "h-bob")) (sessions used_db) = true) as Hu
    by (vm_compute; reflexivity).
  rewrite all_rows_true in Hu.
  assert (s_SessionTokenHash s = "h-bob"%string /\ s_CreatedAt s = t0 /\ s_LastActiveAt s = now - minute /\ now < s_ExpiresAt s)
    as (Hh & Hc & Ha & He) by (vm_compute in Es; injection Es as <-; vm_compute; auto).
  destruct (SetSessionLimits_overflow_revives _ _ None (MkSessionLimits 3600 3600) 1 (MkSessionLimits 86400 28800) _ _ now now
    used_db n d1 c1 n' d2 c2 "s-bob" s eq_refl eq_refl eq_refl ltac:(lia) E1 E2) as (_ & _ & _ & H1 & _ & H2);
    [|exact He|exact He|rewrite Hc; vm_compute; reflexivity|rewrite Hc; vm_compute; discriminate
    |rewrite Ha; vm_compute; reflexivity|rewrite Hc; vm_compute; reflexivity|rewrite Ha; vm_compute; reflexivity|].
  - split; [exact Es|]. intros k s' Hk. rewrite Hh. intros Hk'. apply Hu in Hk. rewrite Hk', streqb_refl in Hk.
    apply orb_true_iff in Hk as [Hk|Hk]; [by apply streqb_true|discriminate].
  - rewrite Hh in H1, H2. split; [exact H1|]. rewrite H2. by eexists.
Defined.

(** A session is created or renewed only for an active account whose
    password is the one just proven; an interaction must be open, unproven
    and of the same browser, an existing session is reused only for the same
    user while live, and no other session changes. *)
Theorem CreateSession_current_proof sess hash browser now d s d' :
  schema_ok d = true -> CreateSessionForInteraction sess hash browser now d = inr (s, d') ->
  (exists u, users d !! s_UserID sess = Some u /\ u_Status u = "active"%string /\
     (s_ProvenPasswordHash sess <> EmptyString -> u_PasswordHash u = s_ProvenPasswordHash sess)) /\
  s = session_row sess (s_ID s) now /\
  (exists only, sessions d' !! s_ID s = Some (set_s_EnrollmentOnly only s)) /\
  (forall k, k <> s_ID s -> sessions d' !! k = sessions d !! k) /\
  (hash = EmptyString -> s_ID s = s_ID sess /\ sessions d !! s_ID s = None) /\
  (hash <> EmptyString -> exists i i', authorization_interactions d !! hash = Some i /\ proven i = false /\
     now < i_ExpiresAt i /\ i_BrowserHash i = browser /\ authorization_interactions d' !! hash = Some i' /\
     i_SessionID i' = s_ID s /\ i_UserID i' = s_UserID sess /\
     ((s_ID s = s_ID sess /\ sessions d !! s_ID s = None) \/
      (s_ID s = i_OriginalSessionID i /\
       in_sessions d (fun o => (s_UserID o =?s s_UserID sess) && (now <? s_ExpiresAt o)) (s_ID s) = true))).
Proof.
  intros Hok. unfold CreateSessionForInteraction. intros Hr.
  apply tx_bind_inr in Hr as (? & ? & [= <- <-] & Hr). cbv zeta in Hr.
  set (original := if hash =?s EmptyString then None else renewed_session sess hash browser now d) in Hr.
  apply tx_bind_inr in Hr as (u & d1 & H1 & Hr).
  assert (exists m, d1 = on_authorization_interactions (fun _ => m) d /\ (hash <> EmptyString ->
    exists i i', authorization_interactions d !! hash = Some i /\
      interaction_open now d sess browser i = true /\ m !! hash = Some i' /\
      i_SessionID i' = default (s_ID sess) original /\ i_UserID i' = s_UserID sess)) as (m & -> & Hm).
  { destruct (hash =?s EmptyString) eqn:E.
    - tx_inv. exists (authorization_interactions d). split; [done|]. intros Hne. by apply streqb_true in E.
    - apply bind_interaction_inv in H1 as (m & i & i' & -> & ?). exists m. split; [done|]. intros _. by exists i, i'. }
  clear H1. tx_inv. cbn [s_ID session_row].
  match goal with H : eligible _ _ = true |- _ => apply eligible_inv in H as Hel end.
  split; [exact Hel|]. split; [reflexivity|].
  set (id := default (s_ID sess) original) in *.
  match goal with H : (match original with Some _ => _ | None => _ end) _ = inr (_, ?x) |- _ =>
    assert (x = on_sessions <[id := session_row sess id now]> (on_authorization_interactions (fun _ => m) d) /\
      (original = None -> sessions d !! id = None)) as [-> Hnew];
      [destruct original; [tx_inv; split; [reflexivity|discriminate]|apply insert_row_inv in H as [Hn ->]; by split]|] end.
  split; [|split; [|split]].
  - cbn [sessions on_sessions]. rewrite lookup_update_where, lookup_insert_eq. cbn -[session_row set_s_EnrollmentOnly].
    cbn [s_ID session_row]. rewrite streqb_refl. by eexists.
  - intros k Hk. cbn [sessions on_sessions]. rewrite lookup_update_where, lookup_insert_ne by done.
    cbn [sessions on_authorization_interactions]. destruct (sessions d !! k) as [s0|] eqn:Es; [|done].
    cbn. rewrite (schema_session _ _ _ Hok Es). by rewrite (proj2 (streqb_false _ _) Hk).
  - intros ->. subst original id. split; [done|by apply Hnew].
  - intros Hne. destruct (Hm Hne) as (i & i' & Hi & Ho & Hi' & Hs & Hui). exists i, i'.
    unfold interaction_open in Ho. bool_hyps. cbn [authorization_interactions on_sessions on_authorization_interactions].
    do 7 (split; [done|]).
    assert (original = renewed_session sess hash browser now d) as Hor
      by (subst original; by rewrite (proj2 (streqb_false _ _) Hne)).
    clearbody original. subst original id.
    destruct (renewed_session sess hash browser now d) as [oid|] eqn:En.
    + right. apply renewed_session_inv in En as (Hin & i0 & Hi0 & ->). rewrite Hi in Hi0. injection Hi0 as <-. split; [reflexivity|exact Hin].
    + left. split; [done|by apply Hnew].
Qed.

(** Bob completes the CRM's request with the password it was proven with. *)
Lemma CreateSession_current_proof_witness :
  let sess := MkSession sample_evidence "s-new" "bob" "h-new" "192.0.2.1" "agent" (t0 + 24 * hour) 0 0 false "pw" in
  exists s d', CreateSessionForInteraction sess "ihash" "browser" t0 sample_db = inr (s, d') /\
    s = session_row sess (s_ID s) t0.
Proof.
  cbv zeta. destruct (CreateSessionForInteraction _ _ _ _ _) as [e|[s d']] eqn:E; [vm_compute in E; discriminate|].
  exists s, d'. split; [reflexivity|].
  exact (proj1 (proj2 (CreateSession_current_proof _ _ _ _ _ _ _ sample_db_ok E))).
Defined.
