(* ===== verification/Tokens.v ===== *)
(** Authorization codes, access tokens and refresh families:
    [store/app_authentication.go], [store/refresh_tokens.go] and the code and
    token parts of [store/store.go]. *)
From S2P Require Import Prelude Schema Access Sample Sessions.

(** ** Application authentication policies *)

Definition MinRefreshIdle : Z := 5 * 60.
Definition MaxRefreshIdle : Z := 24 * 60 * 60.
Definition MinRefreshLifetime : Z := 15 * 60.
Definition MaxRefreshLifetime : Z := 7 * 24 * 60 * 60.

Definition RefreshEnabled (p : AppAuthenticationPolicy) : bool := 0 <? p_RefreshLifetime p.

Definition policy_Valid (p : AppAuthenticationPolicy) : bool :=
  one_of (p_Mode p) ["reuse"; "fresh"; "max_age"]%string &&
  one_of (p_Factor p) ["password"; "mfa"; "passkey"]%string &&
  (0 <=? p_PrimaryMaxAge p) && (p_PrimaryMaxAge p <=? 2147483647) &&
  (0 <=? p_FactorMaxAge p) && (p_FactorMaxAge p <=? 2147483647) &&
  (((p_Mode p =?s "max_age") && (0 <? p_PrimaryMaxAge p)) ||
   ((p_Mode p <>?s "max_age") && (p_PrimaryMaxAge p =? 0))) &&
  ((p_Factor p <>?s "password") || (p_FactorMaxAge p =? 0)) &&
  (((p_RefreshIdle p =? 0) && (p_RefreshLifetime p =? 0)) ||
   ((MinRefreshIdle <=? p_RefreshIdle p) && (p_RefreshIdle p <=? MaxRefreshIdle) &&
    (MinRefreshLifetime <=? p_RefreshLifetime p) && (p_RefreshLifetime p <=? MaxRefreshLifetime) &&
    (p_RefreshIdle p <=? p_RefreshLifetime p))).

(** [at.Add(time.Duration(age)*time.Second)], the product in [int64]. *)
Definition add_seconds (at_ age : Z) : Z := at_ + wrap64 (age * second).

(** Whether a proof is missing or lies in the future. *)
Definition unproven (at_ : option Z) (now : Z) : bool :=
  match at_ with None => true | Some t => now <? t end.

(** Why the evidence does not meet the policy; the empty string when it does. *)
Definition EvidenceReason (p : AppAuthenticationPolicy) (e : AuthenticationEvidence) (now : Z) : string :=
  if ((p_Mode p <>?s "reuse") || (p_Factor p <>?s "password")) && unproven (ev_PrimaryAuthenticatedAt e) now
  then "password_required"
  else if (p_Mode p =?s "max_age") &&
    opt_test (fun t => add_seconds t (p_PrimaryMaxAge p) <? now) (ev_PrimaryAuthenticatedAt e)
  then "password_expired"
  else if p_Factor p =?s "password" then EmptyString
  else if unproven (ev_FactorAuthenticatedAt e) now then "factor_required"
  else if (p_Factor p =?s "passkey") && (ev_FactorMethod e <>?s "webauthn") then "passkey_required"
  else if negb (one_of (ev_FactorMethod e) ["totp"; "push"; "webauthn"]%string) then "factor_required"
  else if (0 <? p_FactorMaxAge p) &&
    opt_test (fun t => add_seconds t (p_FactorMaxAge p) <? now) (ev_FactorAuthenticatedAt e)
  then "factor_expired" else EmptyString.

(** The last instant the evidence still meets the policy's ages. *)
Definition Deadline (p : AppAuthenticationPolicy) (e : AuthenticationEvidence) : option Z :=
  let deadline := if p_Mode p =?s "max_age"
    then (fun t => add_seconds t (p_PrimaryMaxAge p)) <$> ev_PrimaryAuthenticatedAt e else None in
  if 0 <? p_FactorMaxAge p then
    match ev_FactorAuthenticatedAt e with
    | Some t => let at_ := add_seconds t (p_FactorMaxAge p) in
      match deadline with Some d => if at_ <? d then Some at_ else Some d | None => Some at_ end
    | None => deadline
    end
  else deadline.

Definition client_app (d : DB) (client : string) : option AppRecord :=
  snd <$> find_where (app_of_client client) (app_registry d).

Definition ClientAuthenticationPolicyBinding (d : DB) (client : string) :
    StoreError + (AppAuthenticationPolicy * AppPolicyBinding) :=
  match client_app d client with
  | Some a => inr (a_Authentication a, MkAppPolicyBinding (a_ID a) (a_AuthenticationRevision a) (a_RoleRevision a))
  | None => inl ErrNoRows
  end.

Definition policy_eqb (p q : AppAuthenticationPolicy) : bool :=
  (p_Mode p =?s p_Mode q) && (p_PrimaryMaxAge p =? p_PrimaryMaxAge q) && (p_Factor p =?s p_Factor q) &&
  (p_FactorMaxAge p =? p_FactorMaxAge q) && (p_RefreshIdle p =? p_RefreshIdle q) &&
  (p_RefreshLifetime p =? p_RefreshLifetime q).

(** The record, refused when the caller's revision is stale. *)
Definition lockAppRecord (id : string) (revision : Z) : STx AppRecord :=
  d <- tx_get ;;
  match app_registry d !! id with
  | Some a => tx_guard (a_Revision a =? revision) ErrAppLinkConflict ;;; tx_ret a
  | None => tx_fail ErrAppRecordMissing
  end.

(** [UPDATE issued_tokens SET revoked_at=? WHERE client_id=? AND revoked_at IS NULL] *)
Definition revokeClientTokensTx (client : string) (now : Z) : STx unit :=
  tx_set (on_issued_tokens (update_where
    (fun t => (it_ClientID t =?s client) && is_null (it_RevokedAt t)) (set_it_RevokedAt (Some now)))).

Definition SetAppAuthenticationPolicy (id : string) (p : AppAuthenticationPolicy) (revision : Z)
    (audit : option AuditEvent) (details : AppRecord -> Json) (now : Z) : STx unit :=
  tx_guard (policy_Valid p) ErrAppAuthentication ;;;
  a <- lockAppRecord id revision ;;
  match a_ClientID a with
  | None => tx_fail ErrAppAuthentication
  | Some client =>
    d <- tx_get ;;
    (if RefreshEnabled p then
       match oauth_clients d !! client with
       | None => tx_fail ErrNoRows
       | Some c => tx_guard (oc_ClientType c =?s "confidential") ErrRefreshNeedsConfidential
       end
     else tx_ret tt) ;;;
    (if policy_eqb (a_Authentication a) p then tx_ret tt else
       tx_set (on_app_registry <[id := set_a_Revision (a_Revision a + 1)
         (set_a_AuthenticationRevision (a_AuthenticationRevision a + 1) (set_a_Authentication p a))]>) ;;;
       tx_set (on_authorization_interactions (delete_where (fun i => i_ClientID i =?s client))) ;;;
       tx_set (on_authorization_codes (delete_where (fun c => c_ClientID c =?s client))) ;;;
       revokeClientTokensTx client now) ;;;
    recordAuditTx (appRegistryAudit audit (details a)) now
  end.

(** ** Authorization codes *)

(** Re-decide the policy under the writer lock; the code as it will be stored. *)
Definition checkCodeAppAuthenticationTx (code : AuthorizationCode) (now : Z) : STx AuthorizationCode :=
  d <- tx_get ;;
  match client_app d (c_ClientID code) with
  | None => tx_fail ErrNoRows
  | Some a =>
    let p := a_Authentication a in
    let code := set_c_RoleRevision (a_RoleRevision a) (set_c_AuthenticationPolicyRevision
      (a_AuthenticationRevision a) (set_c_AuthenticationAppID (a_ID a) code)) in
    tx_guard (policy_Valid p && (EvidenceReason p (c_Evidence code) now =?s EmptyString)) ErrAppAuthentication ;;;
    (if p_Mode p =?s "fresh" then
       match authorization_interactions d !! c_InteractionHash code with
       | Some i => tx_guard ((i_SessionID i =?s c_SessionID code) && (now <? i_ExpiresAt i) &&
           opt_test (fun t => i_CreatedAt i <=? t) (ev_PrimaryAuthenticatedAt (c_Evidence code))) ErrAppAuthentication
       | None => tx_fail ErrAppAuthentication
       end
     else tx_ret tt) ;;;
    tx_ret (match Deadline p (c_Evidence code) with
      | Some at_ =>
        if match c_AuthenticationExpiresAt code with None => true | Some e => at_ <? e end
        then set_c_AuthenticationExpiresAt (Some at_) code else code
      | None => code
      end)
  end.

Definition must_change_password (d : DB) (user : string) : bool :=
  match users d !! user with Some u => u_PasswordChangeRequired u | None => false end.

(** A live, fully signed-in session of the user. *)
Definition live_session (now : Z) (d : DB) (session user : string) : bool :=
  in_sessions d (fun s => (s_UserID s =?s user) && (now <? s_ExpiresAt s)) session &&
  session_allowed now d session && negb (must_change_password d user).

Definition CreateAuthorizationCode (code : AuthorizationCode) (now : Z) : STx AuthorizationCode :=
  code <- checkCodeAppAuthenticationTx code now ;;
  (if c_InteractionHash code =?s EmptyString then tx_ret tt else
     d <- tx_get ;;
     match authorization_interactions d !! c_InteractionHash code with
     | Some i =>
       tx_guard ((i_SessionID i =?s c_SessionID code) && (now <? i_ExpiresAt i)) ErrAuthorizationInteraction ;;;
       tx_set (on_authorization_interactions (delete (c_InteractionHash code)))
     | None => tx_fail ErrAuthorizationInteraction
     end) ;;;
  d <- tx_get ;;
  tx_guard (ClientAccessAllowed now d (c_UserID code) (c_ClientID code) &&
    live_session now d (c_SessionID code) (c_UserID code)) ErrAppAccessDenied ;;;
  tx_guard (negb (exists_where (fun c => c_CodeHash c =?s c_CodeHash code) (authorization_codes d))) ErrConstraint ;;;
  let code := set_c_CreatedAt now (set_c_UsedAt None code) in
  insert_row authorization_codes on_authorization_codes (c_ID code) code ;;;
  tx_ret code.

Definition code_live (now : Z) (c : AuthorizationCode) : bool := is_null (c_UsedAt c) && (now <? c_ExpiresAt c).

Definition GetValidAuthorizationCode (hash : string) (now : Z) (d : DB) : option AuthorizationCode :=
  snd <$> find_where (fun c => (c_CodeHash c =?s hash) && code_live now c) (authorization_codes d).

(** One request spends the code; any other sees [false]. *)
Definition ConsumeAuthorizationCode (id : string) (now : Z) (d : DB) : bool * DB :=
  match authorization_codes d !! id with
  | Some c => if code_live now c
    then (true, on_authorization_codes <[id := set_c_UsedAt (Some now) c]> d) else (false, d)
  | None => (false, d)
  end.

Definition DeleteExpiredAuthorizationCodes (now : Z) : DB -> DB :=
  on_authorization_codes (delete_where (fun c => c_ExpiresAt c <? now)).

(** ** Issued tokens *)

Definition spent_code_ok (now : Z) (d : DB) (t : IssuedToken) : bool :=
  match authorization_codes d !! it_AuthorizationCodeID t with
  | Some c =>
    opt_test (String.eqb (c_SessionID c)) (it_SessionID t) && (c_ClientID c =?s it_ClientID t) &&
    (c_UserID c =?s it_UserID t) && negb (is_null (c_UsedAt c)) && (now <? c_ExpiresAt c) &&
    match c_AuthenticationExpiresAt c with None => true | Some e => now <=? e end &&
    exists_where (fun a => app_of_client (c_ClientID c) a && (a_ID a =?s c_AuthenticationAppID c) &&
      (a_AuthenticationRevision a =? c_AuthenticationPolicyRevision c) && (a_RoleRevision a =? c_RoleRevision c))
      (app_registry d)
  | None => false
  end.

Definition binding_current (d : DB) (client : string) (b : AppPolicyBinding) : bool :=
  match app_registry d !! b_AppID b with
  | Some a => app_of_client client a && (a_AuthenticationRevision a =? b_AuthRevision b) &&
      (a_RoleRevision a =? b_RoleRevision b)
  | None => false
  end.

Definition device_current (d : DB) (b : DeviceBinding) : bool :=
  match native_devices d !! db_ID b with
  | Some n => (nd_UserID n =?s db_UserID b) && (nd_PublicKey n =?s db_PublicKey b) && nd_CanSignOn n &&
      nd_IsMFAApprover n && (nd_AttestedLevel n =?s db_AttestedLevel b)
  | None => false
  end.

Definition user_can_act (now : Z) (d : DB) (user : string) : bool :=
  match users d !! user with
  | Some u => (u_Status u =?s "active") && negb (u_PasswordChangeRequired u) && unexpired (u_EndsAt u) (unix now)
  | None => false
  end.

(** The guard every token goes through. *)
Definition issuance_allowed (now : Z) (d : DB) (t : IssuedToken) : bool :=
  opt_test (fun sid => in_sessions d (fun s => (s_UserID s =?s it_UserID t) && (now <? s_ExpiresAt s)) sid &&
    session_allowed now d sid) (it_SessionID t) &&
  user_can_act now d (it_UserID t) &&
  ClientAccessAllowed now d (it_UserID t) (it_ClientID t) &&
  ((it_AuthorizationCodeID t =?s EmptyString) || spent_code_ok now d t) &&
  ((b_AppID (it_Policy t) =?s EmptyString) || binding_current d (it_ClientID t) (it_Policy t)) &&
  ((db_ID (it_Device t) =?s EmptyString) || device_current d (it_Device t)).

(** The columns of [issued_tokens]; the bindings are checked, not stored. *)
Definition token_row (t : IssuedToken) (now : Z) : IssuedToken :=
  MkIssuedToken EmptyString (MkAppPolicyBinding EmptyString 0 0)
    (MkDeviceBinding EmptyString EmptyString EmptyString EmptyString)
    (match it_FamilyJTI t with Some EmptyString => None | f => f end) (it_SessionID t) (it_JTI t)
    (it_UserID t) (it_ClientID t) (it_ExpiresAt t) None now.

Definition recordIssuedTokenTx (t : IssuedToken) (now : Z) : STx unit :=
  d <- tx_get ;;
  tx_guard (issuance_allowed now d t) ErrAppAccessDenied ;;;
  insert_row issued_tokens on_issued_tokens (it_JTI t) (token_row t now).

Definition RecordIssuedToken (t : IssuedToken) (now : Z) : DB -> (StoreError + unit) * DB :=
  commit (recordIssuedTokenTx t now).

(** Unknown, expired, or held by an account or session that may not act. *)
Definition IsTokenRevoked (jti : string) (now : Z) (d : DB) : bool :=
  match issued_tokens d !! jti with
  | Some t =>
    if (now <? it_ExpiresAt t) && match it_SessionID t with None => true | Some s => session_allowed now d s end &&
       negb (must_change_password d (it_UserID t))
    then negb (is_null (it_RevokedAt t)) else true
  | None => true
  end.

Definition RevokeToken (jti : string) (now : Z) : DB -> DB :=
  on_issued_tokens (update_where (fun t => (it_JTI t =?s jti) && is_null (it_RevokedAt t)) (set_it_RevokedAt (Some now))).

Definition RevokeUserTokens (user : string) (now : Z) : DB -> DB :=
  on_issued_tokens (update_where (fun t => (it_UserID t =?s user) && is_null (it_RevokedAt t)) (set_it_RevokedAt (Some now))).

(** The families go with their token, their refresh tokens with them. *)
Definition delete_issued_tokens (p : IssuedToken -> bool) (d : DB) : DB :=
  let gone jti := opt_test p (issued_tokens d !! jti) in
  on_issued_tokens (delete_where p)
    (on_refresh_tokens (delete_where (fun r => gone (rt_FamilyJTI r)))
      (on_refresh_families (filter (fun kv : string * RefreshFamilyRow => gone kv.1 = false)) d)).

Definition DeleteExpiredIssuedTokens (now : Z) : DB -> DB := delete_issued_tokens (fun t => it_ExpiresAt t <? now).

(** ** Refresh families *)

(** The earlier of the idle limit and the family's end. *)
Definition refresh_expiry (f : RefreshFamily) (now : Z) : Z :=
  let expires := now + rf_Idle f in if rf_ExpiresAt f <? expires then rf_ExpiresAt f else expires.

Definition insertRefreshTokenTx (f : RefreshFamily) (hash : string) (now : Z) : STx unit :=
  d <- tx_get ;;
  tx_guard (negb (is_null (refresh_families d !! rf_JTI f))) ErrConstraint ;;;
  insert_row refresh_tokens on_refresh_tokens hash (MkRefreshTokenRow (rf_JTI f) (refresh_expiry f now) None now).

Definition family_token (f : RefreshFamily) (code : string) : IssuedToken :=
  MkIssuedToken code (MkAppPolicyBinding EmptyString 0 0) (MkDeviceBinding EmptyString EmptyString EmptyString EmptyString)
    None (Some (rf_SessionID f)) (rf_JTI f) (rf_UserID f) (rf_ClientID f) (rf_ExpiresAt f) None 0.

Definition CreateRefreshFamily (f : RefreshFamily) (code hash : string) (now : Z) : STx unit :=
  recordIssuedTokenTx (family_token f code) now ;;;
  tx_guard (0 <? rf_Idle f / second) ErrConstraint ;;;
  insert_row refresh_families on_refresh_families (rf_JTI f)
    (MkRefreshFamilyRow (rf_Scope f) (rf_Evidence f) (rf_Policy f) (rf_Idle f / second)) ;;;
  insertRefreshTokenTx f hash now.

(** The join of a refresh token, its family and the family's token. *)
Definition scanRefreshFamily (d : DB) (hash : string) : option (RefreshFamily * RefreshTokenRow * IssuedToken) :=
  match refresh_tokens d !! hash with
  | None => None
  | Some r =>
    match refresh_families d !! rt_FamilyJTI r, issued_tokens d !! rt_FamilyJTI r with
    | Some f, Some t =>
      Some (MkRefreshFamily (rt_FamilyJTI r) (it_UserID t) (it_ClientID t) (default EmptyString (it_SessionID t))
        (ff_Scope f) (ff_Evidence f) (ff_Policy f) (ff_IdleSeconds f * second) (it_ExpiresAt t), r, t)
    | _, _ => None
    end
  end.

Definition LookupRefreshFamily (d : DB) (hash : string) : StoreError + RefreshFamily :=
  match scanRefreshFamily d hash with Some (f, _, _) => inr f | None => inl ErrRefreshInvalid end.

Definition in_family (jti : string) (t : IssuedToken) : bool :=
  (it_JTI t =?s jti) || opt_test (String.eqb jti) (it_FamilyJTI t).

Definition revokeRefreshFamilyTx (jti : string) (now : Z) : STx unit :=
  tx_set (on_issued_tokens (update_where (fun t => in_family jti t && is_null (it_RevokedAt t)) (set_it_RevokedAt (Some now)))).

(** [Reused] is the family returned with [ErrRefreshReuse]: its revocation commits. *)
Inductive RotateResult := Rotated (f : RefreshFamily) | Reused (f : RefreshFamily).

(** The new access token belongs to the family and never outlives it. *)
Definition family_access (f : RefreshFamily) (access : IssuedToken) : IssuedToken :=
  MkIssuedToken (it_AuthorizationCodeID access) (rf_Policy f) (it_Device access) (Some (rf_JTI f))
    (Some (rf_SessionID f)) (it_JTI access) (rf_UserID f) (rf_ClientID f)
    (if rf_ExpiresAt f <? it_ExpiresAt access then rf_ExpiresAt f else it_ExpiresAt access) None 0.

(** [ErrAppAccessDenied] from the issuance guard reads as an invalid token. *)
Definition denied_is_invalid {A} (m : STx A) : STx A := fun s =>
  match m s with inl ErrAppAccessDenied => inl ErrRefreshInvalid | r => r end.

Definition RotateRefreshToken (cache : option SessionLimits) (oldHash client newHash : string)
    (access : IssuedToken) (now : Z) : STx RotateResult :=
  d <- tx_get ;;
  match scanRefreshFamily d oldHash with
  | None => tx_fail ErrRefreshInvalid
  | Some (f, r, t) =>
    if negb (is_null (rt_UsedAt r)) || (rf_ClientID f <>?s client) then
      revokeRefreshFamilyTx (rf_JTI f) now ;;; tx_ret (Reused f)
    else
      tx_guard (is_null (it_RevokedAt t) && (now <? rt_ExpiresAt r) && (now <? rf_ExpiresAt f)) ErrRefreshInvalid ;;;
      let limits := current_limits cache in
      tx_guard (in_sessions d (fun s => (now - IdleTTL limits <? s_LastActiveAt s) &&
        (now - AbsoluteTTL limits <? s_CreatedAt s)) (rf_SessionID f)) ErrRefreshInvalid ;;;
      tx_set (TouchSession (rf_SessionID f) now) ;;;
      tx_set (on_refresh_tokens (alter (fun r => if is_null (rt_UsedAt r) then set_rt_UsedAt (Some now) r else r) oldHash)) ;;;
      denied_is_invalid (recordIssuedTokenTx (family_access f access) now) ;;;
      insertRefreshTokenTx f newHash now ;;;
      tx_ret (Rotated f)
  end.

Definition RevokeRefreshFamily (hash client : string) (now : Z) : STx unit :=
  d <- tx_get ;;
  match refresh_tokens d !! hash with
  | Some r => match issued_tokens d !! rt_FamilyJTI r with
    | Some t => if it_ClientID t =?s client then revokeRefreshFamilyTx (it_JTI t) now else tx_ret tt
    | None => tx_ret tt
    end
  | None => tx_ret tt
  end.

(** ** Policies *)

Lemma add_seconds_eq at_ age : 0 <= age <= 2147483647 -> add_seconds at_ age = at_ + age * second.
Proof. intros. unfold add_seconds. rewrite wrap64_id; [done|]. unfold second. lia. Qed.

Lemma policy_Valid_ages p : policy_Valid p = true ->
  0 <= p_PrimaryMaxAge p <= 2147483647 /\ 0 <= p_FactorMaxAge p <= 2147483647 /\
  (p_Factor p = "password"%string -> p_FactorMaxAge p = 0).
Proof.
  unfold policy_Valid. intros Hv. bool_hyps. split; [lia|]. split; [lia|]. intros Hf.
  rewrite Hf in *. match goal with H : _ || (p_FactorMaxAge p =? 0) = true |- _ => by apply Z.eqb_eq in H end.
Qed.

Lemma unproven_later e now t : now <= t -> unproven e now = false -> unproven e t = false.
Proof. destruct e; simpl; [|done]. rewrite !Z.ltb_ge. lia. Qed.

(** The deadline an application policy computes is exact: from an instant
    where the evidence satisfies the policy, it keeps satisfying it until
    the deadline and at no instant after. *)
Theorem Deadline_exact p e now t :
  policy_Valid p = true -> EvidenceReason p e now = EmptyString -> now <= t ->
  EvidenceReason p e t = EmptyString <->
  match Deadline p e with Some dl => t <= dl | None => True end.
Proof.
  intros Hv Hnow Ht. destruct (policy_Valid_ages _ Hv) as (Hp & Hf & Hpw).
  unfold EvidenceReason, Deadline in *.
  destruct ((_ || _) && unproven (ev_PrimaryAuthenticatedAt e) now) eqn:E1; [done|].
  assert (((p_Mode p <>?s "reuse") || (p_Factor p <>?s "password")) && unproven (ev_PrimaryAuthenticatedAt e) t = false) as ->.
  { apply andb_false_iff in E1 as [->|E1]; [done|]. apply andb_false_iff. right. by eapply unproven_later. }
  assert (p_Mode p =?s "max_age" = true -> exists a, ev_PrimaryAuthenticatedAt e = Some a) as Hprim.
  { intros Hm. apply streqb_true in Hm. rewrite Hm in E1. cbn [negb orb andb] in E1.
    replace ("max_age" =?s "reuse") with false in E1 by reflexivity. cbn [negb orb andb] in E1.
    destruct (ev_PrimaryAuthenticatedAt e); [by eexists|done]. }
  destruct (p_Factor p =?s "password") eqn:Efac.
  - assert (p_FactorMaxAge p = 0) as -> by by apply Hpw, streqb_true. cbn [Z.ltb Z.compare].
    destruct (p_Mode p =?s "max_age") eqn:Em; cbn [andb]; [|done].
    destruct (Hprim eq_refl) as [a Ha]. rewrite Ha. cbn [opt_test fmap option_fmap option_map].
    destruct (Z.ltb_spec (add_seconds a (p_PrimaryMaxAge p)) t); split; (done || lia).
  - destruct (_ && opt_test _ (ev_PrimaryAuthenticatedAt e)); [done|].
    destruct (unproven (ev_FactorAuthenticatedAt e) now) eqn:Eun; [done|].
    rewrite (unproven_later _ now t) by done.
    destruct ((p_Factor p =?s "passkey") && (ev_FactorMethod e <>?s "webauthn")); [done|].
    destruct (negb (one_of _ _)); [done|].
    destruct (ev_FactorAuthenticatedAt e) as [b|]; [|done]. cbn [opt_test] in *.
    destruct (p_Mode p =?s "max_age") eqn:Em; cbn [andb].
    + destruct (Hprim eq_refl) as [a Ha]. rewrite Ha. cbn [opt_test fmap option_fmap option_map].
      destruct (Z.ltb_spec (add_seconds a (p_PrimaryMaxAge p)) t), (0 <? p_FactorMaxAge p); cbn [andb];
        destruct (Z.ltb_spec (add_seconds b (p_FactorMaxAge p)) (add_seconds a (p_PrimaryMaxAge p)));
        destruct (Z.ltb_spec (add_seconds b (p_FactorMaxAge p)) t); split; (done || lia).
    + destruct (0 <? p_FactorMaxAge p); cbn [andb]; [|done].
      destruct (Z.ltb_spec (add_seconds b (p_FactorMaxAge p)) t); split; (done || lia).
Qed.

Lemma Deadline_exact_witness :
  let p := MkAppAuthenticationPolicy "max_age" 600 "mfa" 300 0 0 in
  let e := MkAuthenticationEvidence (Some t0) (Some (t0 + minute)) "totp" in
  EvidenceReason p e (t0 + 6 * minute) = EmptyString /\ EvidenceReason p e (t0 + 6 * minute + 1) = "factor_expired"%string.
Proof.
  cbv zeta. split; [|vm_compute; reflexivity].
  apply (proj2 (Deadline_exact (MkAppAuthenticationPolicy "max_age" 600 "mfa" 300 0 0)
    (MkAuthenticationEvidence (Some t0) (Some (t0 + minute)) "totp") (t0 + minute) (t0 + 6 * minute)
    ltac:(vm_compute; reflexivity) ltac:(vm_compute; reflexivity) ltac:(vm_compute; discriminate))).
  vm_compute. discriminate.
Defined.

(** ** What each operation writes *)

Lemma record_inv t now d u d' : recordIssuedTokenTx t now d = inr (u, d') ->
  issuance_allowed now d t = true /\ issued_tokens d !! it_JTI t = None /\
  d' = on_issued_tokens <[it_JTI t := token_row t now]> d.
Proof.
  unfold recordIssuedTokenTx. intros Hr. tx_inv. apply insert_row_inv in Hr as [Hn ->]. done.
Qed.

Lemma check_code_inv code now d c d' : checkCodeAppAuthenticationTx code now d = inr (c, d') ->
  d' = d /\ c_ID c = c_ID code /\ c_ClientID c = c_ClientID code /\ c_UserID c = c_UserID code /\
  c_SessionID c = c_SessionID code.
Proof.
  unfold checkCodeAppAuthenticationTx. intros Hr. apply tx_bind_inr in Hr as (? & ? & [= <- <-] & Hr).
  destruct (client_app d _) as [a|]; [|discriminate]. cbv zeta in Hr.
  apply tx_bind_inr in Hr as (? & d1 & Hg & Hr). apply tx_guard_inr in Hg as [_ ->].
  apply tx_bind_inr in Hr as (? & d2 & Hf & Hr).
  assert (d2 = d) as ->.
  { destruct (_ =?s "fresh"); [destruct (authorization_interactions d !! _)|]; by tx_inv. }
  apply (f_equal (fun r => match r with inr p => Some p | inl _ => None end)) in Hr. cbn [tx_ret] in Hr.
  injection Hr as Hr <-. destruct (Deadline _ _); [destruct (match _ with None => _ | Some _ => _ end)|]; by subst c.
Qed.

Lemma create_code_inv code now d c d' : CreateAuthorizationCode code now d = inr (c, d') ->
  c_ID c = c_ID code /\ c_UsedAt c = None /\ authorization_codes d !! c_ID code = None /\
  ClientAccessAllowed now d' (c_UserID code) (c_ClientID code) = true /\
  live_session now d' (c_SessionID code) (c_UserID code) = true /\
  exists m, d' = on_authorization_codes <[c_ID code := c]> (on_authorization_interactions (fun _ => m) d).
Proof.
  unfold CreateAuthorizationCode. intros Hr. apply tx_bind_inr in Hr as (c1 & d1 & H1 & Hr).
  apply check_code_inv in H1 as (-> & Hid & Hcl & Hu & Hs).
  apply tx_bind_inr in Hr as (? & d2 & H2 & Hr).
  assert (exists m, d2 = on_authorization_interactions (fun _ => m) d) as [m ->].
  { destruct (_ =?s EmptyString); tx_inv; [by exists (authorization_interactions d)|].
    destruct (authorization_interactions _ !! _); tx_inv. by eexists. }
  cbv zeta in Hr. tx_inv. match goal with H : insert_row _ _ _ _ _ = _ |- _ => apply insert_row_inv in H as [Hn ->] end.
  bool_hyps. cbn [c_ID set_c_CreatedAt set_c_UsedAt] in *. rewrite Hid, Hcl, Hu, Hs in *.
  split; [done|]. split; [done|]. split; [exact Hn|]. split; [assumption|]. split; [assumption|]. by exists m.
Qed.

Lemma insert_refresh_inv f hash now d u d' : insertRefreshTokenTx f hash now d = inr (u, d') ->
  is_Some (refresh_families d !! rf_JTI f) /\ refresh_tokens d !! hash = None /\
  d' = on_refresh_tokens <[hash := MkRefreshTokenRow (rf_JTI f) (refresh_expiry f now) None now]> d.
Proof.
  unfold insertRefreshTokenTx. intros Hr. tx_inv. apply insert_row_inv in Hr as [Hn ->].
  split; [|done]. by destruct (refresh_families _ !! _).
Qed.

Lemma create_family_inv f code hash now d u d' : CreateRefreshFamily f code hash now d = inr (u, d') ->
  exists row, issuance_allowed now d (family_token f code) = true /\ issued_tokens d !! rf_JTI f = None /\
  refresh_families d !! rf_JTI f = None /\ refresh_tokens d !! hash = None /\
  d' = on_refresh_tokens <[hash := MkRefreshTokenRow (rf_JTI f) (refresh_expiry f now) None now]>
    (on_refresh_families <[rf_JTI f := row]>
    (on_issued_tokens <[rf_JTI f := token_row (family_token f code) now]> d)).
Proof.
  unfold CreateRefreshFamily. intros Hr. tx_inv.
  match goal with H : recordIssuedTokenTx _ _ _ = _ |- _ => apply record_inv in H as (Ha & Hn & ->) end.
  match goal with H : insert_row _ _ _ _ _ = _ |- _ => apply insert_row_inv in H as [Hf ->] end.
  apply insert_refresh_inv in Hr as (_ & Hr & ->). by eexists.
Qed.

Lemma scan_inv d hash f row t : scanRefreshFamily d hash = Some (f, row, t) ->
  refresh_tokens d !! hash = Some row /\ rf_JTI f = rt_FamilyJTI row /\ issued_tokens d !! rf_JTI f = Some t /\
  is_Some (refresh_families d !! rf_JTI f) /\ rf_UserID f = it_UserID t /\ rf_ClientID f = it_ClientID t /\
  rf_ExpiresAt f = it_ExpiresAt t /\ rf_SessionID f = default EmptyString (it_SessionID t).
Proof.
  unfold scanRefreshFamily. destruct (refresh_tokens d !! hash) as [r0|]; [|done].
  destruct (refresh_families d !! rt_FamilyJTI r0) as [fr|] eqn:Ef; [|done].
  destruct (issued_tokens d !! rt_FamilyJTI r0) as [t0'|] eqn:Et; [|done].
  intros [= <- <- <-]. cbn. rewrite Ef, Et. by eauto 10.
Qed.

(** The two ways a refresh token can be presented without being refused. *)
Lemma rotate_inv cache old client new access now d r d' :
  RotateRefreshToken cache old client new access now d = inr (r, d') ->
  exists f row t, scanRefreshFamily d old = Some (f, row, t) /\
  ((r = Reused f /\ (rt_UsedAt row <> None \/ rf_ClientID f <> client) /\
    d' = on_issued_tokens (update_where (fun t => in_family (rf_JTI f) t && is_null (it_RevokedAt t))
           (set_it_RevokedAt (Some now))) d) \/
   (r = Rotated f /\ rt_UsedAt row = None /\ rf_ClientID f = client /\ it_RevokedAt t = None /\
    now < rt_ExpiresAt row /\ now < rf_ExpiresAt f /\
    in_sessions d (fun s => (now - IdleTTL (current_limits cache) <? s_LastActiveAt s) &&
      (now - AbsoluteTTL (current_limits cache) <? s_CreatedAt s)) (rf_SessionID f) = true /\
    issued_tokens d !! it_JTI access = None /\ refresh_tokens d !! new = None /\
    exists d1, d1 = on_refresh_tokens <[old := set_rt_UsedAt (Some now) row]> (TouchSession (rf_SessionID f) now d) /\
    issuance_allowed now d1 (family_access f access) = true /\
    d' = on_refresh_tokens <[new := MkRefreshTokenRow (rf_JTI f) (refresh_expiry f now) None now]>
      (on_issued_tokens <[it_JTI access := token_row (family_access f access) now]> d1))).
Proof.
  unfold RotateRefreshToken. intros Hr. apply tx_bind_inr in Hr as (? & ? & [= <- <-] & Hr).
  destruct (scanRefreshFamily d old) as [[[f row] t]|] eqn:Es; [|discriminate]. exists f, row, t. split; [done|].
  destruct (negb _ || negb _) eqn:Eb.
  - left. unfold revokeRefreshFamilyTx in Hr. tx_inv. split; [done|]. split; [|done].
    apply orb_true_iff in Eb as [Eb|Eb]; bool_hyps; [left; by destruct (rt_UsedAt row)|by right].
  - right. bool_hyps. cbv zeta in Hr. tx_inv. bool_hyps.
    match goal with H : denied_is_invalid (recordIssuedTokenTx ?t now) ?x = inr (?u, ?d2) |- _ =>
      assert (recordIssuedTokenTx t now x = inr (u, d2)) as Hrec by
        (unfold denied_is_invalid in H; destruct (recordIssuedTokenTx t now x) as [[]|]; congruence) end.
    apply record_inv in Hrec as (Ha & Hn & ->).
    match goal with H : insertRefreshTokenTx _ _ _ _ = _ |- _ => apply insert_refresh_inv in H as (_ & Hnew & ->) end.
    assert (rt_UsedAt row = None) as Hu by by destruct (rt_UsedAt row).
    assert (refresh_tokens d !! old = Some row) as Hrow.
    { by apply scan_inv in Es as [? _]. }
    assert (alter (fun r => if is_null (rt_UsedAt r) then set_rt_UsedAt (Some now) r else r) old (refresh_tokens d)
      = <[old := set_rt_UsedAt (Some now) row]> (refresh_tokens d)) as Halt.
    { apply map_eq. intros k. destruct (decide (k = old)) as [->|Hne].
      - rewrite lookup_alter_eq, lookup_insert_eq, Hrow. cbn. by rewrite Hu.
      - by rewrite lookup_alter_ne, lookup_insert_ne. }
    do 2 (split; [done|]). split; [done|]. split; [by destruct (it_RevokedAt t)|]. do 3 (split; [done|]).
    split; [exact Hn|]. split.
    { cbn in Hnew. rewrite Halt in Hnew. apply lookup_insert_None in Hnew as [Hnew _]. exact Hnew. }
    assert (on_refresh_tokens (alter (fun r => if is_null (rt_UsedAt r) then set_rt_UsedAt (Some now) r else r) old)
      (TouchSession (rf_SessionID f) now d)
      = on_refresh_tokens <[old := set_rt_UsedAt (Some now) row]> (TouchSession (rf_SessionID f) now d)) as Heq
      by (unfold on_refresh_tokens, TouchSession, on_sessions; cbn; by rewrite Halt).
    rewrite Heq in *. eexists. split; [reflexivity|]. split; [exact Ha|reflexivity].
Qed.

(** ** Histories of codes and tokens *)

(** One operation on codes, tokens and families, at any instant.  [J] holds
    the identifiers no operation mints again: identifiers are random. *)
Inductive token_step (J : string -> Prop) : DB -> DB -> Prop :=
| token_create_code code now d c d' : ~ J (c_ID code) ->
    CreateAuthorizationCode code now d = inr (c, d') -> token_step J d d'
| token_consume_code id now d : token_step J d (ConsumeAuthorizationCode id now d).2
| token_record t now d d' : ~ J (it_JTI t) -> it_FamilyJTI t = None ->
    recordIssuedTokenTx t now d = inr (tt, d') -> token_step J d d'
| token_create_family f code hash now d d' : ~ J (rf_JTI f) ->
    CreateRefreshFamily f code hash now d = inr (tt, d') -> token_step J d d'
| token_rotate cache old client new access now d r d' : ~ J (it_JTI access) ->
    RotateRefreshToken cache old client new access now d = inr (r, d') -> token_step J d d'
| token_revoke_family hash client now d d' :
    RevokeRefreshFamily hash client now d = inr (tt, d') -> token_step J d d'
| token_revoke jti now d : token_step J d (RevokeToken jti now d)
| token_revoke_user newid user audit now d d' :
    RevokeUserAccess newid user audit now d = (inr tt, d') -> token_step J d d'
| token_policy id p rev audit details now d d' :
    SetAppAuthenticationPolicy id p rev audit details now d = inr (tt, d') -> token_step J d d'
| token_login sess hash browser now d s d' :
    CreateSessionForInteraction sess hash browser now d = inr (s, d') -> token_step J d d'
| token_expire_codes now d : token_step J d (DeleteExpiredAuthorizationCodes now d)
| token_expire now d : token_step J d (DeleteExpiredIssuedTokens now d).

(** Rows only disappear, or keep their identity with used and revoked marks kept. *)
Definition tokens_evolve (t t' : gmap string IssuedToken) : Prop :=
  forall k x', t' !! k = Some x' -> exists x, t !! k = Some x /\ it_JTI x' = it_JTI x /\
    it_FamilyJTI x' = it_FamilyJTI x /\ (it_RevokedAt x <> None -> it_RevokedAt x' <> None).

Definition codes_evolve (t t' : gmap string AuthorizationCode) : Prop :=
  forall k x', t' !! k = Some x' -> exists x, t !! k = Some x /\ (c_UsedAt x <> None -> c_UsedAt x' <> None).

(** An operation that mints nothing and leaves the refresh tables alone. *)
Definition quiet (d d' : DB) : Prop :=
  tokens_evolve (issued_tokens d) (issued_tokens d') /\
  codes_evolve (authorization_codes d) (authorization_codes d') /\
  refresh_tokens d' = refresh_tokens d /\ refresh_families d' = refresh_families d.

Lemma tokens_evolve_refl t : tokens_evolve t t.
Proof. intros k x Hk. by exists x. Qed.

Lemma codes_evolve_refl t : codes_evolve t t.
Proof. intros k x Hk. by exists x. Qed.

Lemma tokens_evolve_trans t1 t2 t3 : tokens_evolve t1 t2 -> tokens_evolve t2 t3 -> tokens_evolve t1 t3.
Proof.
  intros H1 H2 k x Hk. apply H2 in Hk as (y & Hk & Hj & Hf & Hr). apply H1 in Hk as (z & Hk & Hj' & Hf' & Hr').
  exists z. split; [done|]. split; [congruence|]. split; [congruence|]. auto.
Qed.

Lemma codes_evolve_trans t1 t2 t3 : codes_evolve t1 t2 -> codes_evolve t2 t3 -> codes_evolve t1 t3.
Proof.
  intros H1 H2 k x Hk. apply H2 in Hk as (y & Hk & Hr). apply H1 in Hk as (z & Hk & Hr'). exists z. auto.
Qed.

Lemma tokens_evolve_revoke p now t : tokens_evolve t (update_where p (set_it_RevokedAt (Some now)) t).
Proof. intros k x Hk. apply lookup_update_where_Some in Hk as (x0 & Hk & ->). exists x0. by destruct (p x0). Qed.

Lemma codes_evolve_delete p t : codes_evolve t (delete_where p t).
Proof. intros k x Hk. apply lookup_delete_where_Some in Hk as [Hk _]. by exists x. Qed.

Lemma tokens_evolve_delete p t : tokens_evolve t (delete_where p t).
Proof. intros k x Hk. apply lookup_delete_where_Some in Hk as [Hk _]. by exists x. Qed.

#[export] Hint Resolve tokens_evolve_refl codes_evolve_refl tokens_evolve_revoke codes_evolve_delete
  tokens_evolve_delete : ky.
#[export] Hint Extern 2 (tokens_evolve _ (update_where _ _ _)) =>
  eapply tokens_evolve_trans; [|apply tokens_evolve_revoke] : ky.
#[export] Hint Extern 2 (codes_evolve _ (delete_where _ _)) =>
  eapply codes_evolve_trans; [|apply codes_evolve_delete] : ky.

Lemma quiet_refl d : quiet d d.
Proof. unfold quiet; auto with ky. Qed.

Lemma revoke_user_quiet newid user audit now d d' :
  RevokeUserAccess newid user audit now d = (inr tt, d') -> quiet d d'.
Proof.
  intros Hr. apply auditedTx_inr in Hr as (d1 & m & q0 & Hr & ->). apply revokeUserAccessTx_inv in Hr as (m' & _ & ->).
  unfold quiet; cbn -[update_where delete_where tokens_evolve codes_evolve]. repeat split; auto with ky.
Qed.

Lemma consume_quiet id now d : quiet d (ConsumeAuthorizationCode id now d).2.
Proof.
  unfold ConsumeAuthorizationCode. destruct (authorization_codes d !! id) as [c|] eqn:Ec; [|apply quiet_refl].
  destruct (code_live now c); [|apply quiet_refl]. unfold quiet; cbn. split; [auto with ky|]. split; [|done].
  intros k x Hk. apply lookup_insert_Some in Hk as [[<- <-]|[_ Hk]]; eauto.
Qed.

Lemma policy_quiet id p rev audit details now d d' :
  SetAppAuthenticationPolicy id p rev audit details now d = inr (tt, d') -> quiet d d'.
Proof.
  unfold SetAppAuthenticationPolicy, lockAppRecord. intros Hr. tx_inv.
  destruct (app_registry _ !! id) as [a|]; [|discriminate]. tx_inv.
  destruct (a_ClientID _) as [client|]; [|discriminate]. tx_inv. audit_inv.
  match goal with H : (if RefreshEnabled p then _ else _) _ = inr (_, ?x) |- quiet ?d _ =>
    assert (x = d) as -> by (destruct (RefreshEnabled p); [destruct (oauth_clients _ !! _)|]; by tx_inv) end.
  unfold revokeClientTokensTx in *. destruct (policy_eqb _ _); tx_inv; [unfold quiet; cbn; auto with ky|].
  unfold quiet; cbn -[update_where delete_where tokens_evolve codes_evolve]. auto with ky.
Qed.

Lemma login_quiet sess hash browser now d s d' :
  CreateSessionForInteraction sess hash browser now d = inr (s, d') -> quiet d d'.
Proof.
  unfold CreateSessionForInteraction. intros Hr. apply tx_bind_inr in Hr as (? & ? & [= <- <-] & Hr). cbv zeta in Hr.
  apply tx_bind_inr in Hr as (u & d1 & H1 & Hr).
  assert (exists m, d1 = on_authorization_interactions (fun _ => m) d) as [m ->].
  { destruct (hash =?s EmptyString); [tx_inv; by exists (authorization_interactions d)|].
    apply bind_interaction_inv in H1 as (m & ? & ? & -> & _). by exists m. }
  tx_inv. match goal with H : match ?o with Some _ => _ | None => _ end _ = inr (_, ?x) |- _ =>
    assert (exists m', x = on_sessions (fun _ => m') (on_authorization_interactions (fun _ => m) d)) as [m' ->];
      [destruct o; [tx_inv; by eexists|apply insert_row_inv in H as [_ ->]; by eexists]|] end.
  unfold quiet; cbn. auto with ky.
Qed.

Lemma revoke_family_quiet hash client now d d' :
  RevokeRefreshFamily hash client now d = inr (tt, d') -> quiet d d'.
Proof.
  unfold RevokeRefreshFamily, revokeRefreshFamilyTx. intros Hr. tx_inv.
  destruct (refresh_tokens _ !! hash) as [r|]; tx_inv; [|apply quiet_refl].
  destruct (issued_tokens _ !! _) as [t|]; tx_inv; [|apply quiet_refl].
  destruct (_ =?s client); tx_inv; [|apply quiet_refl].
  unfold quiet; cbn -[update_where tokens_evolve codes_evolve]. auto with ky.
Qed.

(** ** The invariants *)

Definition code_spent (id : string) (d : DB) : Prop :=
  forall c, authorization_codes d !! id = Some c -> c_UsedAt c <> None.

Lemma codes_evolve_spent id d d' : codes_evolve (authorization_codes d) (authorization_codes d') ->
  code_spent id d -> code_spent id d'.
Proof. intros He Hs c Hk. apply He in Hk as (c0 & Hk & Hu). by apply Hu, Hs. Qed.

(** Every kind of step but minting a code keeps the table of codes evolving. *)
Lemma token_step_codes J d d' : token_step J d d' ->
  codes_evolve (authorization_codes d) (authorization_codes d') \/
  exists c, ~ J (c_ID c) /\ authorization_codes d' = <[c_ID c := c]> (authorization_codes d).
Proof.
  intros [code now e c e' HJ Hr|id now e|t now e e' HJ Hf Hr|f code hash now e e' HJ Hr|cache old client new access now e r e' HJ Hr
    |hash client now e e' Hr|jti now e|newid user audit now e e' Hr|id p rev audit details now e e' Hr
    |sess hash browser now e s e' Hr|now e|now e].
  - apply create_code_inv in Hr as (Hid & _ & _ & _ & _ & m & ->). right. exists c. rewrite Hid. split; [done|]. by cbn.
  - left. apply consume_quiet.
  - left. apply record_inv in Hr as (_ & _ & ->). cbn. auto with ky.
  - left. apply create_family_inv in Hr as (row & _ & _ & _ & _ & ->). cbn. auto with ky.
  - left. apply rotate_inv in Hr as (f & row & t & _ & [(_ & _ & ->)|(_ & _ & _ & _ & _ & _ & _ & _ & _ & d1 & -> & _ & ->)]);
      cbn; auto with ky.
  - left. by apply revoke_family_quiet in Hr as (_ & ? & _).
  - left. cbn. auto with ky.
  - left. by apply revoke_user_quiet in Hr as (_ & ? & _).
  - left. by apply policy_quiet in Hr as (_ & ? & _).
  - left. by apply login_quiet in Hr as (_ & ? & _).
  - left. cbn -[delete_where]. auto with ky.
  - left. cbn. auto with ky.
Qed.

Definition tokens_keyed (d : DB) : Prop := forall k t, issued_tokens d !! k = Some t -> it_JTI t = k.

(** Every token of the family, its own row included, is revoked. *)
Definition family_dead (jti : string) (d : DB) : Prop :=
  tokens_keyed d /\ forall k t, issued_tokens d !! k = Some t -> in_family jti t = true -> it_RevokedAt t <> None.

Lemma tokens_evolve_dead jti d d' : tokens_evolve (issued_tokens d) (issued_tokens d') ->
  family_dead jti d -> family_dead jti d'.
Proof.
  intros He [Hk Hd]. split.
  - intros k t Ht. apply He in Ht as (t' & Ht & -> & _). by apply Hk.
  - intros k t Ht Hin. apply He in Ht as (t' & Ht & Hj & Hf & Hr). apply Hr, (Hd k); [done|].
    unfold in_family in *. by rewrite <- Hj, <- Hf.
Qed.

Lemma mint_dead jti d d' t : issued_tokens d' = <[it_JTI t := t]> (issued_tokens d) ->
  in_family jti t = false -> family_dead jti d -> family_dead jti d'.
Proof.
  intros He Hn [Hk Hd]. split; intros k x; rewrite He; intros Hx;
    apply lookup_insert_Some in Hx as [[<- <-]|[_ Hx]]; try done; [by apply Hk|congruence|by apply (Hd k)].
Qed.

(** A dead family rotates no more. *)
Lemma dead_no_rotation jti d cache old client new access now f d' :
  family_dead jti d -> RotateRefreshToken cache old client new access now d = inr (Rotated f, d') -> rf_JTI f <> jti.
Proof.
  intros [Hk Hd] Hr. apply rotate_inv in Hr as (f' & row & t & Hs & [(? & _)|([= <-] & _ & _ & Hn & _)]); [done|].
  intros Hj. apply scan_inv in Hs as (_ & _ & Ht & _). eapply Hd; [exact Ht| |exact Hn].
  unfold in_family. rewrite (Hk _ _ Ht), Hj. by rewrite streqb_refl.
Qed.

Lemma token_step_dead (J : string -> Prop) jti d d' : J jti -> token_step J d d' -> family_dead jti d -> family_dead jti d'.
Proof.
  intros HJ Hstep Hd. destruct Hstep as [code now e c e' _ Hr|id now e|t now e e' Hn Hf Hr|f code hash now e e' Hn Hr
    |cache old client new access now e r e' Hn Hr|hash client now e e' Hr|jti' now e|newid user audit now e e' Hr
    |id p rev audit details now e e' Hr|sess hash browser now e s e' Hr|now e|now e].
  - apply create_code_inv in Hr as (_ & _ & _ & _ & _ & m & ->). exact Hd.
  - eapply tokens_evolve_dead, Hd. apply consume_quiet.
  - apply record_inv in Hr as (_ & _ & ->). eapply (mint_dead _ _ _ (token_row t now)), Hd; [reflexivity|].
    unfold in_family, token_row. cbn. rewrite Hf. cbn. apply orb_false_iff. split; [|done].
    apply streqb_false. congruence.
  - apply create_family_inv in Hr as (row & _ & _ & _ & _ & ->).
    eapply (mint_dead _ _ _ (token_row (family_token f code) now)), Hd; [reflexivity|].
    unfold in_family, token_row. cbn. apply orb_false_iff. split; [|done]. apply streqb_false. congruence.
  - pose proof (rotate_inv _ _ _ _ _ _ _ _ _ Hr) as
      (f & row & t & _ & [(_ & _ & ->)|(-> & _ & _ & _ & _ & _ & _ & _ & _ & d1 & -> & _ & He)]).
    + eapply tokens_evolve_dead, Hd. cbn -[update_where]. auto with ky.
    + pose proof (dead_no_rotation _ _ _ _ _ _ _ _ _ _ Hd Hr) as Hne. subst e'.
      eapply (mint_dead _ _ _ (token_row (family_access f access) now)), Hd; [reflexivity|].
      unfold in_family, token_row. cbn. apply orb_false_iff. split; [apply streqb_false; congruence|].
      destruct (rf_JTI f) eqn:Ej; [done|]. cbn [opt_test]. rewrite <- Ej. apply streqb_false. congruence.
  - eapply tokens_evolve_dead, Hd. by eapply revoke_family_quiet.
  - eapply tokens_evolve_dead, Hd. cbn -[update_where]. auto with ky.
  - eapply tokens_evolve_dead, Hd. by eapply revoke_user_quiet.
  - eapply tokens_evolve_dead, Hd. by eapply policy_quiet.
  - eapply tokens_evolve_dead, Hd. by eapply login_quiet.
  - exact Hd.
  - eapply tokens_evolve_dead, Hd. cbn -[delete_where]. auto with ky.
Qed.

(** ** One live refresh token per family *)

Definition unspent (jti : string) (r : RefreshTokenRow) : bool := (rt_FamilyJTI r =?s jti) && is_null (rt_UsedAt r).

(** Foreign keys, and at most one token of a family not yet spent. *)
Record refresh_ok (d : DB) : Prop := {
  token_has_family : forall h r, refresh_tokens d !! h = Some r -> is_Some (refresh_families d !! rt_FamilyJTI r);
  one_unspent : forall jti, count_where (unspent jti) (refresh_tokens d) <= 1 }.

Lemma refresh_ok_same d d' : refresh_tokens d' = refresh_tokens d -> refresh_families d' = refresh_families d ->
  refresh_ok d -> refresh_ok d'.
Proof. intros Ht Hf [H1 H2]. split; rewrite ?Ht, ?Hf; done. Qed.

Lemma refresh_ok_delete p d : refresh_ok d -> refresh_ok (delete_issued_tokens p d).
Proof.
  intros [H1 H2]. unfold delete_issued_tokens. split; cbn -[delete_where].
  - intros h r Hr. apply lookup_delete_where_Some in Hr as [Hr Hg]. destruct (H1 _ _ Hr) as [f Hf].
    exists f. by apply map_lookup_filter_Some.
  - intros jti. etrans; [apply count_where_delete_where|apply H2].
Qed.

(** A new family starts with its one token. *)
Lemma refresh_ok_create f code hash now d u d' : CreateRefreshFamily f code hash now d = inr (u, d') ->
  refresh_ok d -> refresh_ok d'.
Proof.
  intros Hr [H1 H2]. apply create_family_inv in Hr as (row & _ & _ & Hf & Hh & ->). split; cbn.
  - intros h r Hr. apply lookup_insert_Some in Hr as [[<- <-]|[_ Hr]]; [rewrite lookup_insert_eq; by eexists|].
    destruct (decide (rt_FamilyJTI r = rf_JTI f)) as [->|Hne]; [rewrite lookup_insert_eq; by eexists|].
    rewrite lookup_insert_ne by done. by eapply H1.
  - intros jti. rewrite count_where_insert_new by done. unfold unspent at 2. cbn. rewrite andb_true_r.
    specialize (H2 jti). destruct (rf_JTI f =?s jti) eqn:E; [|lia]. apply streqb_true in E as <-.
    enough (count_where (unspent (rf_JTI f)) (refresh_tokens d) = 0) by lia.
    apply count_where_0, exists_where_false. intros h r Hr. unfold unspent.
    destruct (rt_FamilyJTI r =?s rf_JTI f) eqn:E; [|done]. apply streqb_true in E.
    destruct (H1 _ _ Hr) as [x Hx]. congruence.
Qed.

(** Rotation spends the old token before it stores the new one. *)
Lemma refresh_ok_rotate cache old client new access now d r d' :
  RotateRefreshToken cache old client new access now d = inr (r, d') -> refresh_ok d -> refresh_ok d'.
Proof.
  intros Hr Hok. apply rotate_inv in Hr as (f & row & t & Hs & [(_ & _ & ->)|(_ & Hu & _ & _ & _ & _ & _ & _ & Hn & d1 & -> & _ & ->)]);
    [by apply (refresh_ok_same d)|].
  apply scan_inv in Hs as (Ho & Hj & _ & Hfam & _). destruct Hok as [H1 H2]. split; cbn.
  - intros h r' Hr'. apply lookup_insert_Some in Hr' as [[<- <-]|[_ Hr']]; [done|].
    apply lookup_insert_Some in Hr' as [[<- <-]|[_ Hr']]; [exact (H1 _ _ Ho)|by eapply H1].
  - intros jti. assert (new <> old) as Hno by congruence.
    rewrite count_where_insert_new by by rewrite lookup_insert_ne.
    pose proof (count_where_write (unspent jti) _ _ _ (set_rt_UsedAt (Some now) row) Ho) as Hw.
    unfold unspent in Hw at 2 4. unfold unspent at 2. cbn in Hw |- *. rewrite Hu, <- Hj in Hw. cbn in Hw.
    rewrite !andb_true_r, !andb_false_r in *. specialize (H2 jti). destruct (rf_JTI f =?s jti); lia.
Qed.

Lemma token_step_refresh J d d' : token_step J d d' -> refresh_ok d -> refresh_ok d'.
Proof.
  intros [code now e c e' _ Hr|id now e|t now e e' _ _ Hr|f code hash now e e' _ Hr
    |cache old client new access now e r e' _ Hr|hash client now e e' Hr|jti now e|newid user audit now e e' Hr
    |id p rev audit details now e e' Hr|sess hash browser now e s e' Hr|now e|now e].
  - apply create_code_inv in Hr as (_ & _ & _ & _ & _ & m & ->). by apply refresh_ok_same.
  - destruct (consume_quiet id now e) as (_ & _ & ? & ?). by apply refresh_ok_same.
  - apply record_inv in Hr as (_ & _ & ->). by apply refresh_ok_same.
  - by eapply refresh_ok_create.
  - by eapply refresh_ok_rotate.
  - apply revoke_family_quiet in Hr as (_ & _ & ? & ?). by apply refresh_ok_same.
  - by apply refresh_ok_same.
  - apply revoke_user_quiet in Hr as (_ & _ & ? & ?). by apply refresh_ok_same.
  - apply policy_quiet in Hr as (_ & _ & ? & ?). by apply refresh_ok_same.
  - apply login_quiet in Hr as (_ & _ & ? & ?). by apply refresh_ok_same.
  - by apply refresh_ok_same.
  - by apply refresh_ok_delete.
Qed.

(** What a stored row of a stored family scans as. *)
Lemma scan_rows d hash row fr t :
  refresh_tokens d !! hash = Some row -> refresh_families d !! rt_FamilyJTI row = Some fr ->
  issued_tokens d !! rt_FamilyJTI row = Some t ->
  exists f, scanRefreshFamily d hash = Some (f, row, t) /\ rf_JTI f = rt_FamilyJTI row /\ rf_ClientID f = it_ClientID t.
Proof. unfold scanRefreshFamily. intros -> -> ->. by eexists. Qed.

(** A spent token, or another client's, is always reported as reused. *)
Lemma rotate_reused cache old client new access now d f row t :
  scanRefreshFamily d old = Some (f, row, t) -> rt_UsedAt row <> None \/ rf_ClientID f <> client ->
  exists d1, RotateRefreshToken cache old client new access now d = inr (Reused f, d1).
Proof.
  unfold RotateRefreshToken, tx_bind, tx_get. intros -> Hu.
  assert (negb (is_null (rt_UsedAt row)) || (rf_ClientID f <>?s client) = true) as ->.
  { destruct Hu as [Hu|Hu]; [by destruct (rt_UsedAt row)|]. apply orb_true_iff. right.
    apply negb_true_iff. by apply streqb_false. }
  unfold revokeRefreshFamilyTx. by eexists.
Qed.

(** Reuse leaves the family dead. *)
Lemma reused_dead cache old client new access now d f d1 :
  tokens_keyed d -> RotateRefreshToken cache old client new access now d = inr (Reused f, d1) ->
  family_dead (rf_JTI f) d1.
Proof.
  intros Hk Hr. apply rotate_inv in Hr as (f' & row & t & _ & [([= <-] & _ & ->)|(? & _)]); [|done]. split.
  - intros k x Hx. apply lookup_update_where_Some in Hx as (x0 & Hx & ->). apply Hk in Hx. by destruct (_ && _).
  - intros k x Hx Hin. apply lookup_update_where_Some in Hx as (x0 & Hx & ->).
    destruct (in_family (rf_JTI f) x0) eqn:Ef; cbn [andb] in *.
    + destruct (it_RevokedAt x0) eqn:En; cbn; [by rewrite En|done].
    + by rewrite Ef in Hin.
Qed.

(** A dead family stays dead. *)
Lemma rtc_token_dead fam d1 d2 : rtc (token_step (eq fam)) d1 d2 -> family_dead fam d1 -> family_dead fam d2.
Proof.
  induction 1 as [|x y z Hstep _ IH]; [done|]. intros H1. apply IH.
  exact (token_step_dead (eq fam) _ _ _ eq_refl Hstep H1).
Qed.

(** ** Properties *)

(** An authorization code that was consumed once is never consumed again,
    whatever token operations run in between. *)
Theorem authorization_code_single_use id now now' d d1 d2 :
  ConsumeAuthorizationCode id now d = (true, d1) -> rtc (token_step (eq id)) d1 d2 ->
  (ConsumeAuthorizationCode id now' d2).1 = false.
Proof.
  intros Hc Hs. assert (code_spent id d1) as Hd.
  { unfold ConsumeAuthorizationCode in Hc. destruct (authorization_codes d !! id) as [c|]; [|done].
    destruct (code_live now c); [|done]. injection Hc as <-. intros c' Hk. cbn in Hk.
    rewrite lookup_insert_eq in Hk. by injection Hk as <-. }
  assert (code_spent id d2) as H2.
  { clear Hc. induction Hs as [|x y z Hstep _ IH]; [done|]. apply IH.
    apply token_step_codes in Hstep as [He|(c & HJ & He)]; [by eapply codes_evolve_spent|].
    intros c' Hk. rewrite He in Hk. apply lookup_insert_Some in Hk as [[? _]|[_ Hk]]; [congruence|by apply Hd]. }
  unfold ConsumeAuthorizationCode. destruct (authorization_codes d2 !! id) as [c|] eqn:Ek; [|done].
  unfold code_live. apply H2 in Ek. by destruct (c_UsedAt c).
Qed.

Lemma authorization_code_single_use_witness :
  let r := ConsumeAuthorizationCode "code1" t0 sample_db in
  r.1 = true /\ (ConsumeAuthorizationCode "code1" (t0 + 1) (RevokeToken "jti-bob" t0 r.2)).1 = false.
Proof.
  cbv zeta. assert ((ConsumeAuthorizationCode "code1" t0 sample_db).1 = true) as Hr by (vm_compute; reflexivity).
  destruct (ConsumeAuthorizationCode "code1" t0 sample_db) as [b d1] eqn:E. cbn [fst snd] in *. subst b.
  split; [reflexivity|].
  apply (authorization_code_single_use "code1" t0 (t0 + 1) sample_db d1 _ E).
  apply rtc_once, token_revoke.
Defined.

(** C4. Presenting a refresh token whose row is already spent, or presenting it
    as a client other than its family's, is answered as reuse and revokes
    every token of the family for good: over any later token operations the
    family's tokens stay revoked and no token of the family rotates again. *)
Theorem refresh_reuse_ends_family cache old client new access now d row fr t :
  tokens_keyed d -> refresh_tokens d !! old = Some row ->
  refresh_families d !! rt_FamilyJTI row = Some fr -> issued_tokens d !! rt_FamilyJTI row = Some t ->
  rt_UsedAt row <> None \/ it_ClientID t <> client ->
  let fam := rt_FamilyJTI row in
  exists f d1, RotateRefreshToken cache old client new access now d = inr (Reused f, d1) /\ rf_JTI f = fam /\
  forall d2, rtc (token_step (eq fam)) d1 d2 ->
  (forall k t, issued_tokens d2 !! k = Some t -> in_family fam t = true -> it_RevokedAt t <> None) /\
  (forall now', IsTokenRevoked fam now' d2 = true) /\
  (forall cache' old' client' new' access' now' f' d',
     RotateRefreshToken cache' old' client' new' access' now' d2 = inr (Rotated f', d') -> rf_JTI f' <> fam).
Proof.
  intros Hk Ho Hf Ht Hu fam. destruct (scan_rows d old row fr t Ho Hf Ht) as (f & Hs & Hj & Hc).
  rewrite <- Hc in Hu. destruct (rotate_reused cache old client new access now d _ _ _ Hs Hu) as [d1 Hr].
  exists f, d1. split; [exact Hr|]. split; [done|]. intros d2 Hstep.
  assert (family_dead fam d2) as H2.
  { apply (rtc_token_dead fam d1); [exact Hstep|]. unfold fam. rewrite <- Hj. by eapply reused_dead. }
  split; [apply H2|]. split.
  - intros now'. unfold IsTokenRevoked. destruct (issued_tokens d2 !! fam) as [t'|] eqn:Et; [|done].
    destruct (_ && negb _); [|done]. destruct H2 as [Hk2 Hd2]. apply negb_true_iff.
    assert (it_RevokedAt t' <> None) as Hn; [|by destruct (it_RevokedAt t')].
    apply (Hd2 _ _ Et). unfold in_family. by rewrite (Hk2 _ _ Et), streqb_refl.
  - intros. by eapply dead_no_rotation.
Qed.

(** C21. Over every sequence of token operations at most one unspent refresh
    token exists per family and every refresh token belongs to a stored
    family. *)
Theorem one_live_refresh_token d d' :
  rtc (token_step (fun _ => False)) d d' -> refresh_ok d -> refresh_ok d'.
Proof. induction 1 as [|x y z Hstep _ IH]; [done|]. intros Hd. apply IH. by eapply token_step_refresh. Qed.

(** A rotation succeeds only for the family's own client, an account that
    may act, live application access, a live session within its limits and a
    current policy binding; it spends the old token, stores the new one for
    no longer than the idle period and the family's end, and caps the access
    token at that end. *)
Theorem rotation_is_bounded cache old client new access now d f d' :
  RotateRefreshToken cache old client new access now d = inr (Rotated f, d') ->
  let l := current_limits cache in
  rf_ClientID f = client /\ user_can_act now d (rf_UserID f) = true /\
  ClientAccessAllowed now d (rf_UserID f) client = true /\
  (exists s, sessions d !! rf_SessionID f = Some s /\ s_UserID s = rf_UserID f /\
     within_limits now (IdleTTL l) (AbsoluteTTL l) s = true) /\
  (b_AppID (rf_Policy f) = EmptyString \/ binding_current d client (rf_Policy f) = true) /\
  (exists o, refresh_tokens d' !! old = Some o /\ rt_UsedAt o = Some now) /\
  (exists n, refresh_tokens d' !! new = Some n /\ rt_UsedAt n = None /\ rt_FamilyJTI n = rf_JTI f /\
     rt_ExpiresAt n = Z.min (now + rf_Idle f) (rf_ExpiresAt f)) /\
  (exists a, issued_tokens d' !! it_JTI access = Some a /\ it_UserID a = rf_UserID f /\ it_ClientID a = client /\
     it_ExpiresAt a = Z.min (it_ExpiresAt access) (rf_ExpiresAt f)) /\
  issued_tokens d' !! rf_JTI f = issued_tokens d !! rf_JTI f.
Proof.
  intros Hr l. apply rotate_inv in Hr as (f' & row & t & Hs & [(? & _)|([= <-] & Hu & Hc & _ & _ & _ & Hl & Hn & Hnew & d1 & -> & Ha & ->)]);
    [done|].
  apply scan_inv in Hs as (Ho & _ & Hj & _).
  unfold issuance_allowed in Ha. cbn [it_SessionID family_access opt_test it_UserID it_ClientID it_Policy] in Ha.
  rewrite Hc in Ha.
  repeat match goal with H : _ && _ = true |- _ => apply andb_true_iff in H as [? ?] end.
  split; [done|]. split; [assumption|]. split; [assumption|]. split.
  { unfold in_sessions in *. cbn [sessions on_refresh_tokens TouchSession on_sessions] in *.
    match goal with H : context [update_where ?p ?g (sessions d)] |- _ => rewrite (lookup_update_where p g) in H end.
    destruct (sessions d !! rf_SessionID f) as [s|] eqn:Es; [|done]. exists s. split; [done|].
    match goal with H : match (_ <$> _) with Some _ => _ | None => _ end = true |- _ =>
      cbn [fmap option_fmap option_map] in H;
      assert ((s_UserID s =?s rf_UserID f) && (now <? s_ExpiresAt s) = true) as Hse by (by destruct (s_ID s =?s rf_SessionID f)) end.
    subst l. unfold within_limits. bool_hyps. split; [done|]. row_hyps. }
  split.
  { match goal with H : (b_AppID _ =?s _) || _ = true |- _ => apply orb_true_iff in H as [H|H] end;
      [left; by apply streqb_true|right].
    match goal with H : binding_current _ _ _ = true |- _ => exact H end. }
  cbn. split.
  { rewrite lookup_insert_ne by congruence. rewrite lookup_insert_eq. by eexists. }
  split.
  { rewrite lookup_insert_eq. eexists. split; [reflexivity|]. cbn. split; [done|]. split; [done|].
    unfold refresh_expiry. destruct (Z.ltb_spec (rf_ExpiresAt f) (now + rf_Idle f)); lia. }
  split.
  { rewrite lookup_insert_eq. eexists. split; [reflexivity|]. cbn. split; [done|]. split; [done|].
    destruct (Z.ltb_spec (rf_ExpiresAt f) (it_ExpiresAt access)); lia. }
  apply lookup_insert_ne. congruence.
Qed.

(** Editing an application's authentication policy stores it, raises both
    revisions, removes every code and interaction of its client, revokes
    every token of it, and a token bound to an earlier revision can no
    longer be recorded. *)
Theorem policy_edit_invalidates id p rev audit details now d d' a client :
  SetAppAuthenticationPolicy id p rev audit details now d = inr (tt, d') -> id <> EmptyString ->
  app_registry d !! id = Some a -> a_ClientID a = Some client -> policy_eqb (a_Authentication a) p = false ->
  (exists a', app_registry d' !! id = Some a' /\ a_Authentication a' = p /\
     a_AuthenticationRevision a' = a_AuthenticationRevision a + 1 /\ a_Revision a' = rev + 1) /\
  (forall k c, authorization_codes d' !! k = Some c -> c_ClientID c <> client) /\
  (forall k i, authorization_interactions d' !! k = Some i -> i_ClientID i <> client) /\
  (forall k t, issued_tokens d' !! k = Some t -> it_ClientID t = client -> it_RevokedAt t <> None) /\
  (forall t now', b_AppID (it_Policy t) = id -> b_AuthRevision (it_Policy t) <= a_AuthenticationRevision a ->
     recordIssuedTokenTx t now' d' = inl ErrAppAccessDenied).
Proof.
  intros Hr Hid Ha Hc Hp. unfold SetAppAuthenticationPolicy, lockAppRecord, revokeClientTokensTx in Hr. tx_inv.
  rewrite Ha in *. tx_inv. rewrite Hc, Hp in *. tx_inv. audit_inv.
  match goal with H : (if RefreshEnabled p then _ else _) _ = inr (_, ?x) |- _ =>
    assert (x = d) as -> by (destruct (RefreshEnabled p); [destruct (oauth_clients _ !! _)|]; by tx_inv) end.
  bool_hyps. cbn -[update_where delete_where recordIssuedTokenTx]. split; [|split; [|split; [|split]]].
  - rewrite lookup_insert_eq. eexists. split; [reflexivity|]. cbn. by subst rev.
  - intros k c Hk. apply lookup_delete_where_Some in Hk as [_ Hk]. by apply streqb_false.
  - intros k i Hk. apply lookup_delete_where_Some in Hk as [_ Hk]. by apply streqb_false.
  - intros k t Hk. apply lookup_update_where_Some in Hk as (t1 & _ & ->). intros Ht.
    destruct (it_ClientID t1 =?s client) eqn:E; cbn [andb] in *.
    + destruct (it_RevokedAt t1) eqn:Er; cbn; [by rewrite Er|done].
    + apply streqb_false in E. congruence.
  - intros t now' Hb Hrev. unfold recordIssuedTokenTx, tx_bind, tx_get, tx_guard.
    match goal with |- context [issuance_allowed now' ?x t] => assert (issuance_allowed now' x t = false) as -> end; [|done].
    unfold issuance_allowed. apply andb_false_iff; left. apply andb_false_iff; right.
    apply orb_false_iff. split; [apply streqb_false; congruence|]. unfold binding_current. rewrite Hb. cbn.
    rewrite lookup_insert_eq. cbn. apply andb_false_iff. left. apply andb_false_iff. right. apply Z.eqb_neq. lia.
Qed.

(** ** Concrete histories *)

(** The state after a transaction, unchanged when it is refused. *)
Definition after {A} (m : STx A) (d : DB) : DB := match m d with inr (_, d') => d' | inl _ => d end.

Definition sample_family : RefreshFamily :=
  MkRefreshFamily "fam" "bob" "c1" "s-bob" "openid" sample_evidence sample_binding hour (t0 + 24 * hour).

Definition sample_access (jti : string) : IssuedToken :=
  MkIssuedToken EmptyString no_binding no_device None None jti EmptyString EmptyString (t0 + 2 * hour) None 0.

(** The code is spent and starts a family, whose first token is rotated once. *)
Definition family_db : DB :=
  after (CreateRefreshFamily sample_family "code1" "rt1" (t0 + 1)) (ConsumeAuthorizationCode "code1" t0 sample_db).2.
Definition rotated_db : DB := after (RotateRefreshToken None "rt1" "c1" "rt2" (sample_access "a1") (t0 + 2)) family_db.

Lemma after_inr {A} (m : STx A) d : (exists r, m d = inr r) -> exists a, m d = inr (a, after m d).
Proof. intros [[a d'] Hr]. unfold after. rewrite Hr. by exists a. Qed.

Lemma refresh_reuse_ends_family_witness :
  exists f d1, RotateRefreshToken None "rt1" "c1" "rt3" (sample_access "a2") (t0 + 3) rotated_db = inr (Reused f, d1) /\
    IsTokenRevoked "fam" (t0 + 4) d1 = true.
Proof.
  assert (all_rows (fun k t => it_JTI t =?s k) (issued_tokens rotated_db) = true) as Ha by (vm_compute; reflexivity).
  rewrite all_rows_true in Ha.
  destruct (refresh_tokens rotated_db !! "rt1"%string) as [row|] eqn:Er; [|vm_compute in Er; discriminate].
  assert (rt_FamilyJTI row = "fam"%string /\ rt_UsedAt row <> None) as [Hf Hu] by
    (vm_compute in Er; injection Er as <-; split; [reflexivity|discriminate]).
  destruct (refresh_families rotated_db !! "fam"%string) as [fr|] eqn:Ef; [|vm_compute in Ef; discriminate].
  destruct (issued_tokens rotated_db !! "fam"%string) as [t|] eqn:Et; [|vm_compute in Et; discriminate].
  rewrite <- Hf in Ef, Et.
  destruct (refresh_reuse_ends_family None "rt1" "c1" "rt3" (sample_access "a2") (t0 + 3) rotated_db row fr t
    (fun k t Hk => proj1 (streqb_true _ _) (Ha k t Hk)) Er Ef Et (or_introl Hu)) as (f & d1 & H1 & _ & H2).
  exists f, d1. rewrite Hf in H2. exact (conj H1 (proj1 (proj2 (H2 d1 (rtc_refl _ _))) (t0 + 4))).
Defined.

Lemma one_live_refresh_token_witness : refresh_ok sample_db /\ refresh_ok rotated_db /\
  count_where (unspent "fam") (refresh_tokens rotated_db) = 1.
Proof.
  assert (refresh_ok sample_db) as H0.
  { split; [intros h r Hr; change (refresh_tokens sample_db) with (∅ : gmap string RefreshTokenRow) in Hr;
      by rewrite lookup_empty in Hr|intros jti; vm_compute; discriminate]. }
  split; [exact H0|]. split; [|vm_compute; reflexivity].
  apply (one_live_refresh_token sample_db rotated_db); [|exact H0].
  eapply rtc_l; [apply (token_consume_code _ "code1" t0)|].
  eapply rtc_l.
  { destruct (after_inr (CreateRefreshFamily sample_family "code1" "rt1" (t0 + 1))
      (ConsumeAuthorizationCode "code1" t0 sample_db).2) as [[] Hr]; [eexists; vm_compute; reflexivity|].
    eapply token_create_family; [intros []|exact Hr]. }
  apply rtc_once.
  destruct (after_inr (RotateRefreshToken None "rt1" "c1" "rt2" (sample_access "a1") (t0 + 2)) family_db) as [r Hr];
    [eexists; vm_compute; reflexivity|].
  eapply token_rotate; [intros []|exact Hr].
Defined.

Lemma rotation_is_bounded_witness :
  exists f, RotateRefreshToken None "rt1" "c1" "rt2" (sample_access "a1") (t0 + 2) family_db = inr (Rotated f, rotated_db) /\
    rf_ClientID f = "c1"%string.
Proof.
  destruct (after_inr (RotateRefreshToken None "rt1" "c1" "rt2" (sample_access "a1") (t0 + 2)) family_db) as [r Hr];
    [eexists; vm_compute; reflexivity|].
  assert (match RotateRefreshToken None "rt1" "c1" "rt2" (sample_access "a1") (t0 + 2) family_db with
    | inr (Rotated _, _) => true | _ => false end = true) as Hb by (vm_compute; reflexivity).
  rewrite Hr in Hb. destruct r as [f|f]; [|discriminate]. exists f. split; [exact Hr|].
  exact (proj1 (rotation_is_bounded None "rt1" "c1" "rt2" (sample_access "a1") (t0 + 2) family_db f rotated_db Hr)).
Defined.

Lemma policy_edit_invalidates_witness :
  let p := MkAppAuthenticationPolicy "fresh" 0 "mfa" 0 0 0 in
  exists d', SetAppAuthenticationPolicy "crm" p 1 None (fun _ => JNull) t0 sample_db = inr (tt, d') /\
    forall k c, authorization_codes d' !! k = Some c -> c_ClientID c <> "c1"%string.
Proof.
  cbv zeta. destruct (after_inr (SetAppAuthenticationPolicy "crm" (MkAppAuthenticationPolicy "fresh" 0 "mfa" 0 0 0) 1
    None (fun _ => JNull) t0) sample_db) as [[] Hr]; [eexists; vm_compute; reflexivity|].
  eexists. split; [exact Hr|].
  apply (policy_edit_invalidates "crm" (MkAppAuthenticationPolicy "fresh" 0 "mfa" 0 0 0) 1 None (fun _ => JNull) t0
    sample_db _ sample_app "c1" Hr); [discriminate|vm_compute; reflexivity|reflexivity|reflexivity].
Defined.
