(* ===== verification/StepUp.v ===== *)
(** Step-up proofs ([store/stepup.go]): a session re-proves the account's
    credentials for one named operation and receives a single-use grant. *)
From S2P Require Import Prelude Schema Access Sample Sessions.

(** ** Operations *)

Definition fk_user (d : DB) (user : string) : bool := negb (is_null (users d !! user)).

(** The session is live, belongs to the user, and the user is active. *)
Definition session_of_active (now : Z) (d : DB) (session user : string) : bool :=
  in_sessions d (fun s => (s_UserID s =?s user) && (now <? s_ExpiresAt s) && raw_active d (s_UserID s)) session.

Definition createStepUpTokenTx (t : StepUpToken) (audit : option AuditEvent) (now : Z) : STx unit :=
  let t := set_st_CreatedAt now (set_st_UsedAt None t) in
  d <- tx_get ;;
  tx_guard ((st_Operation t <>?s EmptyString) && session_of_active now d (st_SessionID t) (st_UserID t))
    (ErrText "step-up session or operation is no longer valid") ;;;
  tx_guard (negb (exists_where (fun x => st_TokenHash x =?s st_TokenHash t) (step_up_tokens d))) ErrConstraint ;;;
  insert_row step_up_tokens on_step_up_tokens (st_ID t) t ;;;
  recordAuditTx audit now.

Definition CreateStepUpToken (t : StepUpToken) (audit : option AuditEvent) (now : Z) : DB -> (StoreError + unit) * DB :=
  commit (createStepUpTokenTx t audit now).

Definition CreateStepUpChallenge (c : StepUpChallenge) (audit : option AuditEvent) (now : Z) : STx unit :=
  let c := set_sc_Attempts 0 (set_sc_UsedAt None c) in
  d <- tx_get ;;
  tx_guard (fk_user d (sc_UserID c) && in_sessions d (fun _ => true) (sc_SessionID c)) ErrConstraint ;;;
  insert_row step_up_challenges on_step_up_challenges (sc_TokenHash c) c ;;;
  recordAuditTx audit now.

(** Unused, unexpired, and with guesses left. *)
Definition challenge_open (now : Z) (user session : string) (c : StepUpChallenge) : bool :=
  (sc_UserID c =?s user) && (sc_SessionID c =?s session) && is_null (sc_UsedAt c) &&
  (now <? sc_ExpiresAt c) && (sc_Attempts c <? 5).

Definition GetStepUpChallenge (hash user session : string) (now : Z) (d : DB) : option StepUpChallenge :=
  match step_up_challenges d !! hash with
  | Some c => if challenge_open now user session c then Some c else None
  | None => None
  end.

Definition FailStepUpChallenge (hash : string) : DB -> DB :=
  on_step_up_challenges (alter
    (fun c => if is_null (sc_UsedAt c) then set_sc_Attempts (sc_Attempts c + 1) c else c) hash).

(** Completion, grant and audit record in one transaction; [false] rolls back. *)
Definition CompleteStepUpChallenge (hash : string) (t : StepUpToken) (audit : option AuditEvent) (now : Z) (d : DB) :
    (StoreError + bool) * DB :=
  match step_up_challenges d !! hash with
  | Some c =>
    if challenge_open now (st_UserID t) (st_SessionID t) c && (sc_Operation c =?s st_Operation t) then
      commit (tx_set (on_step_up_challenges <[hash := set_sc_UsedAt (Some now) c]>) ;;;
              createStepUpTokenTx t audit now ;;; tx_ret true) d
    else (inr false, d)
  | None => (inr false, d)
  end.

Definition CancelStepUp (hash user session : string) (now : Z) (d : DB) : DB :=
  on_step_up_tokens (update_where
    (fun t => (st_TokenHash t =?s hash) && (st_UserID t =?s user) && (st_SessionID t =?s session))
    (set_st_UsedAt (Some now)))
  (on_step_up_challenges (alter
    (fun c => if (sc_UserID c =?s user) && (sc_SessionID c =?s session)
      then set_sc_UsedAt (Some now) c else c) hash) d).

Definition grant_matches (now : Z) (hash user session operation : string) (t : StepUpToken) : bool :=
  (st_TokenHash t =?s hash) && (st_UserID t =?s user) && (st_SessionID t =?s session) &&
  (st_Operation t =?s operation) && is_null (st_UsedAt t) && (now <? st_ExpiresAt t).

Definition ConsumeStepUpToken (hash user session operation : string) (now : Z) (d : DB) : bool * DB :=
  let p t := grant_matches now hash user session operation t &&
    in_sessions d (fun s => (now <? s_ExpiresAt s) && raw_active d (s_UserID s)) (st_SessionID t) in
  (count_where p (step_up_tokens d) =? 1, on_step_up_tokens (update_where p (set_st_UsedAt (Some now))) d).

Definition HasValidStepUpToken (hash user session operation : string) (now : Z) (d : DB) : bool :=
  0 <? count_where (grant_matches now hash user session operation) (step_up_tokens d).

Definition DeleteExpiredStepUpTokens (now : Z) (d : DB) : DB :=
  on_step_up_challenges (delete_where (fun c => sc_ExpiresAt c <? now))
    (on_step_up_tokens (delete_where (fun t => st_ExpiresAt t <? now)) d).

(** ** Histories *)

(** One operation at any instant; [J] holds the token hashes that are not minted again. *)
Inductive stepup_step (J : string -> Prop) : DB -> DB -> Prop :=
| su_grant t audit now d d' : ~ J (st_TokenHash t) ->
    CreateStepUpToken t audit now d = (inr tt, d') -> stepup_step J d d'
| su_challenge c audit now d d' : ~ J (sc_TokenHash c) ->
    CreateStepUpChallenge c audit now d = inr (tt, d') -> stepup_step J d d'
| su_fail hash d : stepup_step J d (FailStepUpChallenge hash d)
| su_complete hash t audit now d b d' : ~ J (st_TokenHash t) ->
    CompleteStepUpChallenge hash t audit now d = (inr b, d') -> stepup_step J d d'
| su_cancel hash user session now d : stepup_step J d (CancelStepUp hash user session now d)
| su_consume hash user session op now d : stepup_step J d (ConsumeStepUpToken hash user session op now d).2
| su_expire now d : stepup_step J d (DeleteExpiredStepUpTokens now d)
| su_revoke newid user audit now d d' :
    RevokeUserAccess newid user audit now d = (inr tt, d') -> stepup_step J d d'.

(** Histories in which [n] wrong proofs were offered for the challenge [h]. *)
Inductive guesses (h : string) : nat -> DB -> DB -> Prop :=
| guesses_none d : guesses h 0 d d
| guesses_wrong n d d' : guesses h n (FailStepUpChallenge h d) d' -> guesses h (S n) d d'
| guesses_other n d d1 d' : stepup_step (eq h) d d1 -> guesses h n d1 d' -> guesses h n d d'.

(** ** What is spent stays spent *)

(** Every grant selected by [p] is used, whatever else happens to its row. *)
Definition grants_used (p : StepUpToken -> bool) (t : gmap string StepUpToken) : Prop :=
  forall k x, t !! k = Some x -> p x = true -> st_UsedAt x <> None.

(** A predicate on the columns a grant keeps. *)
Definition stable_st (p : StepUpToken -> bool) : Prop :=
  forall v x, p (set_st_UsedAt v x) = p x.

(** The challenge [h], if its row is still there and [p] selects it, is used. *)
Definition challenge_used (p : StepUpChallenge -> bool) (h : string) (t : gmap string StepUpChallenge) : Prop :=
  forall x, t !! h = Some x -> p x = true -> sc_UsedAt x <> None.

Definition stable_sc (p : StepUpChallenge -> bool) : Prop :=
  (forall v x, p (set_sc_UsedAt v x) = p x) /\ forall v x, p (set_sc_Attempts v x) = p x.

Lemma create_grant_inv t audit now d u d' : createStepUpTokenTx t audit now d = inr (u, d') ->
  exists m q, st_Operation t <> EmptyString /\ session_of_active now d (st_SessionID t) (st_UserID t) = true /\
  exists_where (fun x => st_TokenHash x =?s st_TokenHash t) (step_up_tokens d) = false /\
  step_up_tokens d !! st_ID t = None /\
  d' = audited m q
    (on_step_up_tokens <[st_ID t := set_st_CreatedAt now (set_st_UsedAt None t)]> d).
Proof.
  unfold createStepUpTokenTx. intros Hr. tx_inv. bool_hyps.
  match goal with H : insert_row _ _ _ _ _ = _ |- _ => apply insert_row_inv in H as [Hn ->] end. audit_inv.
  exists m, q. cbn in *. done.
Qed.

Lemma complete_inv hash t audit now d d' : CompleteStepUpChallenge hash t audit now d = (inr true, d') ->
  exists c, step_up_challenges d !! hash = Some c /\
  challenge_open now (st_UserID t) (st_SessionID t) c = true /\ sc_Operation c = st_Operation t /\
  createStepUpTokenTx t audit now (on_step_up_challenges <[hash := set_sc_UsedAt (Some now) c]> d) = inr (tt, d').
Proof.
  unfold CompleteStepUpChallenge. destruct (step_up_challenges d !! hash) as [c|]; [|done].
  destruct (challenge_open _ _ _ c && _) eqn:Eo; [|done]. intros Hr. apply commit_inr in Hr. tx_inv.
  apply andb_true_iff in Eo as [Eo Hop]. apply streqb_true in Hop. exists c.
  match goal with H : createStepUpTokenTx _ _ _ _ = inr (?u, _) |- _ => destruct u; exact (conj eq_refl (conj Eo (conj Hop H))) end.
Qed.

Lemma complete_false_inv hash t audit now d d' : CompleteStepUpChallenge hash t audit now d = (inr false, d') -> d' = d.
Proof.
  unfold CompleteStepUpChallenge. destruct (step_up_challenges d !! hash) as [c|]; [|congruence].
  destruct (_ && _); [|congruence]. intros Hr. apply commit_inr in Hr. by tx_inv.
Qed.

Lemma grants_used_update p q now t : stable_st p -> grants_used p t ->
  grants_used p (update_where q (set_st_UsedAt (Some now)) t).
Proof.
  intros Hs Ht k x Hk Hp. apply lookup_update_where_Some in Hk as (x0 & Hk & ->).
  destruct (q x0); [done|by eapply Ht].
Qed.

Lemma grants_used_delete p q t : grants_used p t -> grants_used p (delete_where q t).
Proof. intros Ht k x Hk. apply lookup_delete_where_Some in Hk as [Hk _]. by eapply Ht. Qed.

Lemma grants_used_insert p k r t : p r = false -> grants_used p t -> grants_used p (<[k := r]> t).
Proof. intros Hr Ht k' x Hk. apply lookup_insert_Some in Hk as [[<- <-]|[_ Hk]]; [congruence|by eapply Ht]. Qed.

(** Only minting a grant with the hash could undo its use. *)
Lemma stepup_step_grants J p d d' : stable_st p -> (forall x, p x = true -> J (st_TokenHash x)) ->
  stepup_step J d d' -> grants_used p (step_up_tokens d) -> grants_used p (step_up_tokens d').
Proof.
  intros Hs HJ Hstep Hd.
  assert (forall t now, ~ J (st_TokenHash t) -> p (set_st_CreatedAt now (set_st_UsedAt None t)) = false) as Hmint.
  { intros t now Hn. destruct (p _) eqn:E; [|done]. apply HJ in E. by cbn in E. }
  destruct Hstep as [t audit now e e' Hn Hr|c audit now e e' Hn Hr|h e|h t audit now e b e' Hn Hr|h u s now e
    |h u s op now e|now e|newid u audit now e e' Hr].
  - unfold CreateStepUpToken in Hr. apply commit_inr in Hr. apply create_grant_inv in Hr as (m & ? & _ & _ & _ & _ & ->).
    apply grants_used_insert; [by apply Hmint|done].
  - unfold CreateStepUpChallenge in Hr. tx_inv. audit_inv.
    match goal with H : insert_row _ _ _ _ _ = _ |- _ => apply insert_row_inv in H as [_ ->] end. exact Hd.
  - exact Hd.
  - destruct b; [|apply complete_false_inv in Hr as ->; exact Hd].
    apply complete_inv in Hr as (c & _ & _ & _ & Hr). apply create_grant_inv in Hr as (m & ? & _ & _ & _ & _ & ->).
    apply grants_used_insert; [by apply Hmint|exact Hd].
  - by apply grants_used_update.
  - by apply grants_used_update.
  - by apply grants_used_delete.
  - apply auditedTx_inr in Hr as (d1 & m & q0 & Hr & ->). apply revokeUserAccessTx_inv in Hr as (m' & _ & ->).
    cbn -[update_where set_st_UsedAt]. by do 2 (apply grants_used_update; [done|]).
Qed.

(** What a step does to one challenge row. *)
Lemma stepup_step_challenge J h d d' x' : J h -> stepup_step J d d' -> step_up_challenges d' !! h = Some x' ->
  exists x, step_up_challenges d !! h = Some x /\ (sc_UsedAt x <> None -> sc_UsedAt x' <> None) /\
    sc_UserID x' = sc_UserID x /\ sc_SessionID x' = sc_SessionID x /\
    (sc_UsedAt x' = None -> sc_Attempts x <= sc_Attempts x').
Proof.
  intros HJ Hstep Hx.
  assert (forall t : gmap string StepUpChallenge, t !! h = Some x' -> exists x, t !! h = Some x /\ (sc_UsedAt x <> None -> sc_UsedAt x' <> None) /\
    sc_UserID x' = sc_UserID x /\ sc_SessionID x' = sc_SessionID x /\ (sc_UsedAt x' = None -> sc_Attempts x <= sc_Attempts x')) as Hid
    by (intros t Ht; exists x'; split_and!; done || lia).
  destruct Hstep as [t audit now e e' Hn Hr|c audit now e e' Hn Hr|h0 e|h0 t audit now e b e' Hn Hr|h0 u s now e
    |h0 u s op now e|now e|newid u audit now e e' Hr].
  - unfold CreateStepUpToken in Hr. apply commit_inr in Hr. apply create_grant_inv in Hr as (m & ? & _ & _ & _ & _ & ->). by apply Hid.
  - unfold CreateStepUpChallenge in Hr. tx_inv. audit_inv.
    match goal with H : insert_row _ _ _ _ _ = _ |- _ => apply insert_row_inv in H as [_ ->] end.
    cbn in Hx. apply lookup_insert_Some in Hx as [[<- _]|[_ Hx]]; [done|by apply Hid].
  - cbn in Hx. apply lookup_alter_Some in Hx as [(<- & x & Hx & ->)|[_ Hx]]; [|by apply Hid].
    exists x. split; [done|]. destruct (sc_UsedAt x) eqn:Eu; cbn; rewrite ?Eu; split_and!; done || lia.
  - destruct b; [|apply complete_false_inv in Hr as ->; by apply Hid].
    apply complete_inv in Hr as (c & Hc & _ & _ & Hr). apply create_grant_inv in Hr as (m & ? & _ & _ & _ & _ & ->).
    cbn in Hx. apply lookup_insert_Some in Hx as [[<- <-]|[_ Hx]]; [|by apply Hid]. exists c. by split_and!.
  - cbn in Hx. apply lookup_alter_Some in Hx as [(<- & x & Hx & ->)|[_ Hx]]; [|by apply Hid].
    exists x. split; [done|]. destruct (_ && _); cbn; split_and!; done || lia.
  - by apply Hid.
  - cbn -[delete_where] in Hx. apply lookup_delete_where_Some in Hx as [Hx _]. by apply Hid.
  - apply auditedTx_inr in Hr as (d1 & m & q0 & Hr & ->). apply revokeUserAccessTx_inv in Hr as (m' & _ & ->).
    cbn -[update_where delete_where] in Hx. apply lookup_update_where_Some in Hx as (x1 & Hx & ->).
    apply lookup_delete_where_Some in Hx as [Hx _]. apply lookup_update_where_Some in Hx as (x & Hx & ->).
    exists x. split; [done|]. repeat case_match; cbn; split_and!; done || lia.
Qed.

(** ** Properties *)

(** [token_hash TEXT NOT NULL UNIQUE] *)
Definition grant_hash_unique (d : DB) : Prop := forall k k' t t',
  step_up_tokens d !! k = Some t -> step_up_tokens d !! k' = Some t' -> st_TokenHash t = st_TokenHash t' -> k' = k.

Lemma steps_keep_grants_used h p d d' : stable_st p -> (forall x, p x = true -> st_TokenHash x = h) ->
  rtc (stepup_step (eq h)) d d' -> grants_used p (step_up_tokens d) -> grants_used p (step_up_tokens d').
Proof.
  intros Hp Hh. induction 1 as [|x y z Hs _ IH]; [done|]. intros Hd. apply IH.
  eapply (stepup_step_grants (eq h)); [done| |exact Hs|done]. intros; symmetry; auto.
Qed.

Lemma consume_needs_unused h user session op now d :
  grants_used (grant_matches now h user session op) (step_up_tokens d) ->
  (ConsumeStepUpToken h user session op now d).1 = false.
Proof.
  intros Hu. unfold ConsumeStepUpToken. cbn [fst]. apply Z.eqb_neq.
  match goal with |- count_where ?q ?t <> 1 => enough (count_where q t = 0) by lia end.
  apply count_where_0, exists_where_false. intros k x Hk. apply andb_false_iff. left.
  destruct (grant_matches now h user session op x) eqn:E; [|done]. specialize (Hu _ _ Hk E).
  unfold grant_matches in E. bool_hyps. by destruct (st_UsedAt x).
Qed.

(** A step-up grant that was consumed authorises nothing again, over any
    later step-up operations. *)
Theorem stepup_grant_single_use h user session op now d d1 d2 user' session' op' now' :
  grant_hash_unique d -> ConsumeStepUpToken h user session op now d = (true, d1) ->
  rtc (stepup_step (eq h)) d1 d2 -> (ConsumeStepUpToken h user' session' op' now' d2).1 = false.
Proof.
  intros Hu Hc Hs. apply consume_needs_unused.
  set (p := fun t => st_TokenHash t =?s h).
  assert (grants_used p (step_up_tokens d1)) as H1.
  { unfold ConsumeStepUpToken in Hc. injection Hc as Hn <-. apply Z.eqb_eq in Hn. cbn -[update_where].
    set (q := fun t => grant_matches now h user session op t && _) in *.
    assert (exists_where q (step_up_tokens d) = true) as (k0 & r0 & Hk0 & Hq)%exists_where_true.
    { destruct (exists_where q (step_up_tokens d)) eqn:E; [done|]. apply count_where_0 in E. lia. }
    intros k x Hk Hp. apply lookup_update_where_Some in Hk as (x0 & Hk & ->).
    assert (p x0 = true) as Hp0 by (by destruct (q x0)). unfold p in Hp0. apply streqb_true in Hp0.
    assert (st_TokenHash r0 = h) as Hr0 by (unfold q, grant_matches in Hq; by bool_hyps).
    assert (k = k0) as -> by (apply (Hu _ _ _ _ Hk0 Hk); congruence).
    assert (x0 = r0) as -> by congruence. by rewrite Hq. }
  assert (grants_used p (step_up_tokens d2)) as H2
    by (apply (steps_keep_grants_used h p d1); [done|intros x; apply streqb_true|exact Hs|exact H1]).
  intros k x Hk Hm. apply (H2 k); [done|]. unfold grant_matches in Hm. bool_hyps. unfold p. by apply streqb_true.
Qed.

Lemma stepup_grant_single_use_witness :
  let r := ConsumeStepUpToken "sthash" "bob" "s-bob" "change_mfa" t0 sample_db in
  r.1 = true /\ (ConsumeStepUpToken "sthash" "bob" "s-bob" "change_mfa" t0 r.2).1 = false.
Proof.
  cbv zeta. assert ((ConsumeStepUpToken "sthash" "bob" "s-bob" "change_mfa" t0 sample_db).1 = true) as Hr
    by (vm_compute; reflexivity).
  destruct (ConsumeStepUpToken "sthash" "bob" "s-bob" "change_mfa" t0 sample_db) as [b d1] eqn:E. cbn [fst snd] in *.
  subst b. split; [reflexivity|].
  apply (stepup_grant_single_use "sthash" "bob" "s-bob" "change_mfa" t0 sample_db d1 d1 _ _ _ _); [|exact E|reflexivity].
  intros k k' t t' Hk Hk' _.
  change (step_up_tokens sample_db) with ({[ "st1"%string := sample_step_up ]} : gmap string StepUpToken) in Hk, Hk'.
  apply lookup_singleton_Some in Hk as [<- _], Hk' as [<- _]. reflexivity.
Defined.

(** After a step-up is cancelled its grant cannot be consumed, its
    challenge cannot be read and no completion succeeds. *)
Theorem stepup_cancel_is_final h user session now d d' :
  rtc (stepup_step (eq h)) (CancelStepUp h user session now d) d' ->
  (forall op now', (ConsumeStepUpToken h user session op now' d').1 = false) /\
  (forall now', GetStepUpChallenge h user session now' d' = None) /\
  (forall t audit now', st_UserID t = user -> st_SessionID t = session ->
     CompleteStepUpChallenge h t audit now' d' = (inr false, d')).
Proof.
  intros Hs.
  set (p := fun t => (st_TokenHash t =?s h) && (st_UserID t =?s user) && (st_SessionID t =?s session)).
  set (q := fun c => (sc_UserID c =?s user) && (sc_SessionID c =?s session)).
  assert (grants_used p (step_up_tokens d')) as Hg.
  { apply (steps_keep_grants_used h p (CancelStepUp h user session now d)); [done|intros x Hx; unfold p in Hx; by bool_hyps|exact Hs|].
    intros k x Hk Hp. cbn -[update_where] in Hk. apply lookup_update_where_Some in Hk as (x0 & _ & ->).
    fold (p x0) in Hp |- *. destruct (p x0) eqn:E; [done|]. congruence. }
  assert (forall c, step_up_challenges d' !! h = Some c -> q c = true -> sc_UsedAt c <> None) as Hc.
  { remember (CancelStepUp h user session now d) as d1 eqn:E1.
    assert (forall c, step_up_challenges d1 !! h = Some c -> q c = true -> sc_UsedAt c <> None) as H1.
    { subst d1. intros c Hk Hq. cbn in Hk. apply lookup_alter_Some in Hk as [(_ & x & Hk & ->)|[? _]]; [|done].
      fold (q x) in Hq |- *. destruct (q x) eqn:E; [done|]. congruence. }
    clear E1 Hg. induction Hs as [|x y z Hstep _ IH]; [done|]. apply IH. intros c Hk Hq.
    eapply (stepup_step_challenge (eq h)) in Hk as (c0 & Hk & Hu & Hus & Hse & _); [|reflexivity|exact Hstep].
    apply Hu, (H1 c0 Hk). unfold q. by rewrite <- Hus, <- Hse. }
  assert (forall now', match step_up_challenges d' !! h with
    | Some c => challenge_open now' user session c = false | None => True end) as Hopen.
  { intros now'. destruct (step_up_challenges d' !! h) as [c|]; [|done].
    destruct (challenge_open now' user session c) eqn:E; [|done]. unfold challenge_open in E. bool_hyps.
    exfalso. apply (Hc c); [done| |by destruct (sc_UsedAt c)]. unfold q. row_hyps. }
  split; [|split].
  - intros op now'. apply consume_needs_unused. intros k x Hk Hm. apply (Hg k); [done|].
    unfold grant_matches in Hm. bool_hyps. unfold p. row_hyps.
  - intros now'. specialize (Hopen now'). unfold GetStepUpChallenge.
    destruct (step_up_challenges d' !! h); [by rewrite Hopen|done].
  - intros t audit now' <- <-. specialize (Hopen now'). unfold CompleteStepUpChallenge.
    destruct (step_up_challenges d' !! h); [by rewrite Hopen|done].
Qed.

Lemma stepup_cancel_is_final_witness :
  (ConsumeStepUpToken "sthash" "bob" "s-bob" "change_mfa" t0 sample_db).1 = true /\
  (ConsumeStepUpToken "sthash" "bob" "s-bob" "change_mfa" (t0 + 1) (CancelStepUp "sthash" "bob" "s-bob" t0 sample_db)).1 = false.
Proof.
  split; [vm_compute; reflexivity|].
  exact (proj1 (stepup_cancel_is_final "sthash" "bob" "s-bob" t0 sample_db _ (rtc_refl _ _)) "change_mfa"%string (t0 + 1)).
Defined.

(** After five failed guesses a step-up challenge can be neither read nor
    completed, however the guesses interleave with other step-up operations. *)
Theorem stepup_guess_budget h n d d' c user session :
  guesses h n d d' -> step_up_challenges d !! h = Some c -> 0 <= sc_Attempts c -> (5 <= n)%nat ->
  (forall now, GetStepUpChallenge h user session now d' = None) /\
  (forall t audit now, CompleteStepUpChallenge h t audit now d' = (inr false, d')).
Proof.
  intros Hg Hk Ha Hn.
  assert (forall x, step_up_challenges d' !! h = Some x -> sc_UsedAt x = None -> 0 + Z.of_nat n <= sc_Attempts x) as Hclosed.
  { assert (forall x, step_up_challenges d !! h = Some x -> sc_UsedAt x = None -> 0 <= sc_Attempts x) as H0
      by (intros x Hx _; congruence).
    clear Hk Ha Hn c. revert H0. generalize 0 as a.
    induction Hg as [d|n d d' _ IH|n d d1 d' Hstep _ IH]; intros a H0.
    - intros x Hx Hu. specialize (H0 x Hx Hu). lia.
    - intros x Hx Hu. enough ((a + 1) + Z.of_nat n <= sc_Attempts x) by lia. apply IH; [|done|done].
      intros y Hy Hyu. cbn in Hy. apply lookup_alter_Some in Hy as [(_ & y0 & Hy & ->)|[? _]]; [|done].
      destruct (sc_UsedAt y0) eqn:E; cbn in *; [congruence|]. specialize (H0 _ Hy E). lia.
    - apply IH. intros y Hy Hyu.
      eapply (stepup_step_challenge (eq h)) in Hy as (y0 & Hy & Hu & _ & _ & Hle); [|reflexivity|exact Hstep].
      specialize (Hle Hyu). specialize (H0 _ Hy). destruct (sc_UsedAt y0); [by destruct Hu|]. specialize (H0 eq_refl). lia. }
  assert (forall user session now x, step_up_challenges d' !! h = Some x -> challenge_open now user session x = false) as Ho.
  { intros u s now x Hx. destruct (challenge_open now u s x) eqn:E; [|done]. unfold challenge_open in E. bool_hyps.
    assert (sc_UsedAt x = None) as Hu by (by destruct (sc_UsedAt x)). specialize (Hclosed _ Hx Hu). lia. }
  split.
  - intros now. unfold GetStepUpChallenge. destruct (step_up_challenges d' !! h) eqn:E; [by rewrite Ho|done].
  - intros t audit now. unfold CompleteStepUpChallenge. destruct (step_up_challenges d' !! h) eqn:E; [by rewrite Ho|done].
Qed.

Definition challenge_db : DB :=
  on_step_up_challenges (fun _ => {[ "ch"%string := MkStepUpChallenge "ch" "bob" "s-bob" "change_mfa" "totp" "proof" t0
    (t0 + 5 * minute) 0 None ]}) sample_db.

Lemma stepup_guess_budget_witness :
  is_Some (GetStepUpChallenge "ch" "bob" "s-bob" t0 challenge_db) /\
  GetStepUpChallenge "ch" "bob" "s-bob" t0 (Nat.iter 5 (FailStepUpChallenge "ch") challenge_db) = None.
Proof.
  split; [vm_compute; eauto|].
  apply (stepup_guess_budget "ch" 5 challenge_db _ (MkStepUpChallenge "ch" "bob" "s-bob" "change_mfa" "totp" "proof" t0
    (t0 + 5 * minute) 0 None) "bob" "s-bob"); [|reflexivity|reflexivity|lia].
  do 5 apply guesses_wrong. apply guesses_none.
Defined.
