(* ===== verification/Mfa.v ===== *)
(** Second factors and the limits on guessing them, the lockout, TOTP, push,
    pairing, passkey and recovery-code parts of [store/store.go] with the
    device changes of [store/enrollment_policy.go]. *)
From S2P Require Import Prelude Schema Access Sample Sessions Tokens StepUp.

(** ** Account lockout *)

Definition MaxFailedLogins : Z := 10.
Definition LockoutDuration : Z := 15 * minute.

Definition RecordFailedLogin (user source : string) (now : Z) (d : DB) : (StoreError + Z) * DB :=
  if negb (fk_user d user) then (inl ErrConstraint, d) else
  let failures := match login_failures d !! (user, source) with
    | Some f => if lf_LastFailureAt f <=? now - LockoutDuration then 1 else lf_Failures f + 1
    | None => 1
    end in
  (inr failures, on_login_failures <[(user, source) := MkLoginFailure failures now]> d).

Definition failing (now : Z) (o : option LoginFailure) : bool :=
  opt_test (fun f => (MaxFailedLogins <=? lf_Failures f) && (now - LockoutDuration <? lf_LastFailureAt f)) o.

(** From that address, or by its second-factor failures. *)
Definition IsAccountLocked (user source : string) (now : Z) (d : DB) : bool :=
  failing now (login_failures d !! (user, source)) || failing now (login_failures d !! (user, EmptyString)).

Definition DeleteExpiredLoginFailures (now : Z) : DB -> DB :=
  on_login_failures (delete_where (fun f => lf_LastFailureAt f <=? now - LockoutDuration)).

Definition ClearFailedLogins (user source : string) : DB -> DB :=
  on_login_failures (filter (fun kv : (string * string) * LoginFailure =>
    negb ((kv.1.1 =?s user) && ((source =?s EmptyString) || (kv.1.2 =?s source) || (kv.1.2 =?s EmptyString))) = true)).

(** ** Device assertions *)

Definition ConsumeDeviceSignOnJTI (jti : string) (expiresAt now : Z) (d : DB) : bool * DB :=
  let d := on_device_signon_jtis (delete_where (fun e => e <? now)) d in
  match device_signon_jtis d !! jti with
  | Some _ => (false, d)
  | None => (true, on_device_signon_jtis <[jti := expiresAt]> d)
  end.

(** ** TOTP *)

Definition ConsumeTOTPCounter (user : string) (counter : Z) (d : DB) : bool * DB :=
  let p m := (mm_UserID m =?s user) && (mm_MethodType m =?s "totp") && (mm_LastTOTPCounter m <? counter) in
  (count_where p (mfa_methods d) =? 1, on_mfa_methods (update_where p (set_mm_LastTOTPCounter counter)) d).

Definition GetMFAMethod (user kind : string) (d : DB) : option MFAMethod :=
  snd <$> find_where (fun m => (mm_UserID m =?s user) && (mm_MethodType m =?s kind)) (mfa_methods d).

(** [ON CONFLICT(user_id, method_type) DO UPDATE]: the stored step survives a new secret. *)
Definition upsert_method (m : MFAMethod) : STx unit :=
  d <- tx_get ;;
  tx_guard (fk_user d (mm_UserID m) && one_of (mm_MethodType m) ["totp"; "push"]%string) ErrConstraint ;;;
  match find_where (fun x => (mm_UserID x =?s mm_UserID m) && (mm_MethodType x =?s mm_MethodType m)) (mfa_methods d) with
  | Some (k, x) =>
    tx_set (on_mfa_methods <[k := set_mm_IsPrimary (mm_IsPrimary m) (set_mm_EncryptedSecret (mm_EncryptedSecret m) x)]>)
  | None => insert_row mfa_methods on_mfa_methods (mm_ID m) (set_mm_LastTOTPCounter 0 m)
  end.

Definition SetMFAMethod (m : MFAMethod) (audit : option AuditEvent) (now : Z) : STx unit :=
  upsert_method (set_mm_CreatedAt now m) ;;; recordAuditTx audit now.

(** ** Push challenges *)

Definition challenge_statuses : list string := ["pending"; "approved"; "denied"; "expired"]%string.

Definition CreateMFAChallenge (ch : MFAChallenge) (now : Z) : STx unit :=
  d <- tx_get ;;
  tx_guard (fk_user d (mc_UserID ch) && one_of (mc_Status ch) challenge_statuses) ErrConstraint ;;;
  insert_row mfa_challenges on_mfa_challenges (mc_ID ch) (set_mc_VerifiedAt None (set_mc_CreatedAt now ch)).

(** A live login push of the user. *)
Definition pending_login (user : string) (now : Z) (c : MFAChallenge) : bool :=
  (mc_UserID c =?s user) && (mc_Purpose c =?s "login") && (mc_Status c =?s "pending") && (now <? mc_ExpiresAt c).

Definition CreateLoginPushChallenge (ch : MFAChallenge) (now : Z) : STx bool :=
  d <- tx_get ;;
  if exists_where (pending_login (mc_UserID ch) now) (mfa_challenges d) then tx_ret false
  else CreateMFAChallenge (set_mc_Purpose "login" ch) now ;;; tx_ret true.

Definition HasPendingLoginPush (user : string) (now : Z) (d : DB) : bool :=
  exists_where (pending_login user now) (mfa_challenges d).

Definition CountUnansweredLoginPushes (user : string) (since now : Z) (d : DB) : Z :=
  count_where (fun c => (mc_UserID c =?s user) && (mc_Purpose c =?s "login") && (since <? mc_CreatedAt c) &&
    (one_of (mc_Status c) ["denied"; "expired"]%string ||
     ((mc_Status c =?s "pending") && (mc_ExpiresAt c <=? now)))) (mfa_challenges d).

Definition GetMFAChallenge (id : string) (d : DB) : option MFAChallenge := mfa_challenges d !! id.

Definition TransitionMFAChallengeStatus (id from to : string) (now : Z) (d : DB) : (StoreError + bool) * DB :=
  match mfa_challenges d !! id with
  | Some c =>
    if mc_Status c =?s from then
      if one_of to challenge_statuses then
        (inr true, on_mfa_challenges <[id := set_mc_VerifiedAt (if to =?s "approved" then Some now else None)
          (set_mc_Status to c)]> d)
      else (inl ErrConstraint, d)
    else (inr false, d)
  | None => (inr false, d)
  end.

Definition DeleteExpiredMFAChallenges (now : Z) : DB -> DB :=
  on_mfa_challenges (delete_where (fun c => mc_ExpiresAt c <? now - hour)).

(** ** Pending sign-ins *)

(** The columns of [mfa_tokens]: the proven password hash is checked, not stored. *)
Definition mfa_token_row (t : MFAToken) (now : Z) : MFAToken :=
  MkMFAToken EmptyString (mt_InteractionHash t) (mt_PrimaryAuthenticatedAt t) (mt_ID t) (mt_UserID t) (mt_TokenHash t)
    (match mt_ChallengeID t with Some EmptyString => None | c => c end) 0 (mt_ExpiresAt t) None now.

Definition CreateMFAToken (t : MFAToken) (now : Z) : STx unit :=
  d <- tx_get ;;
  (if mt_ProvenPasswordHash t =?s EmptyString then tx_guard (fk_user d (mt_UserID t)) ErrConstraint
   else tx_guard (match users d !! mt_UserID t with
     | Some u => (u_Status u =?s "active") && (u_PasswordHash u =?s mt_ProvenPasswordHash t)
     | None => false
     end) ErrNotFound) ;;;
  tx_guard (negb (exists_where (fun x => mt_TokenHash x =?s mt_TokenHash t) (mfa_tokens d))) ErrConstraint ;;;
  insert_row mfa_tokens on_mfa_tokens (mt_ID t) (mfa_token_row t now).

Definition mfa_open (now max : Z) (t : MFAToken) : bool :=
  is_null (mt_UsedAt t) && (now <? mt_ExpiresAt t) && (mt_Attempts t <? max).

Definition GetValidMFAToken (hash : string) (max now : Z) (d : DB) : option MFAToken :=
  snd <$> find_where (fun t => (mt_TokenHash t =?s hash) && mfa_open now max t) (mfa_tokens d).

(** The new total of attempts, or 0 when none is left. *)
Definition ReserveMFAAttempt (id : string) (max now : Z) (d : DB) : Z * DB :=
  match mfa_tokens d !! id with
  | Some t => if mfa_open now max t
    then (mt_Attempts t + 1, on_mfa_tokens <[id := set_mt_Attempts (mt_Attempts t + 1) t]> d) else (0, d)
  | None => (0, d)
  end.

Definition ConsumeMFAToken (id : string) (now : Z) (d : DB) : bool * DB :=
  match mfa_tokens d !! id with
  | Some t => if is_null (mt_UsedAt t) then (true, on_mfa_tokens <[id := set_mt_UsedAt (Some now) t]> d) else (false, d)
  | None => (false, d)
  end.

Definition DeleteExpiredMFATokens (now : Z) : DB -> DB :=
  on_mfa_tokens (delete_where (fun t => mt_ExpiresAt t <? now)).

(** ** Passkey ceremonies *)

Definition CreateWebAuthnChallenge (ch : WebAuthnChallenge) (now : Z) : STx unit :=
  d <- tx_get ;;
  tx_guard (fk_user d (wh_UserID ch) &&
    negb (exists_where (fun x => wh_Challenge x =?s wh_Challenge ch) (webauthn_challenges d))) ErrConstraint ;;;
  insert_row webauthn_challenges on_webauthn_challenges (wh_ID ch) (set_wh_UsedAt None (set_wh_CreatedAt now ch)).

Definition ConsumeWebAuthnChallenge (challenge purpose user : string) (now : Z) (d : DB) : bool * DB :=
  let p c := (wh_Challenge c =?s challenge) && (wh_Purpose c =?s purpose) && (wh_UserID c =?s user) &&
    is_null (wh_UsedAt c) && (now <? wh_ExpiresAt c) in
  (count_where p (webauthn_challenges d) =? 1, on_webauthn_challenges (update_where p (set_wh_UsedAt (Some now))) d).

Definition DeleteExpiredWebAuthnChallenges (now : Z) : DB -> DB :=
  on_webauthn_challenges (delete_where (fun c => (wh_ExpiresAt c <? now) || negb (is_null (wh_UsedAt c)))).

Definition CreateWebAuthnCredential (c : WebAuthnCredential) (audit : option AuditEvent) (now : Z) : STx unit :=
  d <- tx_get ;;
  tx_guard (fk_user d (wc_UserID c) &&
    negb (exists_where (fun x => wc_CredentialID x =?s wc_CredentialID c) (webauthn_credentials d))) ErrConstraint ;;;
  insert_row webauthn_credentials on_webauthn_credentials (wc_ID c)
    (MkWebAuthnCredential (wc_ID c) (wc_UserID c) (wc_CredentialID c) (wc_PublicKeySPKI c) (wc_SignCount c)
      (wc_Name c) (wc_BackupEligible c) (wc_BackupState c) None now) ;;;
  recordAuditTx audit now.

(** [false] rolls back; a compliant account keeps a compliant factor. *)
Definition DeleteWebAuthnCredential (id user : string) (audit : option AuditEvent) (now : Z) : STx bool :=
  d <- tx_get ;;
  let wasCompliant := compliantEnrollmentTx d user in
  match webauthn_credentials d !! id with
  | Some c =>
    if wc_UserID c =?s user then
      tx_set (on_webauthn_credentials (delete id)) ;;;
      recordAuditTx audit now ;;;
      preserveCompliantEnrollmentTx user wasCompliant ;;; tx_ret true
    else tx_ret false
  | None => tx_ret false
  end.

(** ** Recovery codes *)

Definition ReplaceRecoveryCodes (user : string) (codes : list RecoveryCode) (audit : option AuditEvent) (now : Z) : STx unit :=
  tx_set (on_recovery_codes (delete_where (fun c => rc_UserID c =?s user))) ;;;
  tx_iter (fun c =>
    d <- tx_get ;;
    tx_guard (fk_user d (rc_UserID c)) ErrConstraint ;;;
    insert_row recovery_codes on_recovery_codes (rc_ID c) (set_rc_UsedAt None (set_rc_CreatedAt now c))) codes ;;;
  recordAuditTx audit now.

(** The code matching the keyed hash or the legacy one is spent with its audit row. *)
Definition ConsumeRecoveryCode (user keyedHash legacyHash : string) (audit : option AuditEvent) (now : Z) (d : DB) :
    (StoreError + bool) * DB :=
  let p c := (rc_UserID c =?s user) && one_of (rc_CodeHash c) [keyedHash; legacyHash] && is_null (rc_UsedAt c) in
  match auditedTx audit now (
      d <- tx_get ;;
      tx_set (on_recovery_codes (update_where p (set_rc_UsedAt (Some now)))) ;;;
      tx_guard (count_where p (recovery_codes d) =? 1) ErrNoRecoveryCode) d with
  | (inr tt, d') => (inr true, d')
  | (inl ErrNoRecoveryCode, d') => (inr false, d')
  | (inl e, d') => (inl e, d')
  end.

(** ** Pairing tokens *)

Definition PairingPINBudget : Z := 5.

Definition CreateDevicePairingToken (t : DevicePairingToken) (audit : option AuditEvent) (now : Z) :
    DB -> (StoreError + unit) * DB :=
  let t := set_dp_PinFailures 0 (set_dp_UsedAt None (set_dp_CreatedAt now t)) in
  auditedTx audit now (
    d <- tx_get ;;
    tx_guard (fk_user d (dp_UserID t) &&
      negb (exists_where (fun x => dp_TokenHash x =?s dp_TokenHash t) (device_pairing_tokens d))) ErrConstraint ;;;
    insert_row device_pairing_tokens on_device_pairing_tokens (dp_ID t) t).

Definition pairing_live (now : Z) (user : string) (t : DevicePairingToken) : bool :=
  (dp_UserID t =?s user) && is_null (dp_UsedAt t) && (now <? dp_ExpiresAt t).

Definition GetValidDevicePairingToken (hash : string) (now : Z) (d : DB) : option DevicePairingToken :=
  snd <$> find_where (fun t => (dp_TokenHash t =?s hash) && is_null (dp_UsedAt t) && (now <? dp_ExpiresAt t))
    (device_pairing_tokens d).

(** Every miss counts against all of the user's live tokens; the miss that
    spends the budget expires them. *)
Definition MatchDevicePairingPIN (user pinHash : string) (now : Z) (d : DB) : option DevicePairingToken * DB :=
  match find_where (fun t => pairing_live now user t && (dp_PINHash t =?s pinHash) && (dp_PINHash t <>?s EmptyString))
    (device_pairing_tokens d) with
  | Some (_, t) => (Some t, d)
  | None =>
    let t1 := update_where (pairing_live now user) (fun t => set_dp_PinFailures (dp_PinFailures t + 1) t)
      (device_pairing_tokens d) in
    let t2 := if exists_where (fun t => pairing_live now user t && (PairingPINBudget <=? dp_PinFailures t)) t1
      then update_where (pairing_live now user) (set_dp_ExpiresAt now) t1 else t1 in
    (None, on_device_pairing_tokens (fun _ => t2) d)
  end.

Definition ExpireDevicePairingTokens (user : string) (at_ : Z) : DB -> DB :=
  on_device_pairing_tokens (update_where (fun t => dp_UserID t =?s user) (set_dp_ExpiresAt at_)).

Definition DeleteExpiredDevicePairingTokens (now : Z) : DB -> DB :=
  on_device_pairing_tokens (delete_where (fun t => dp_ExpiresAt t <? now)).

Definition ConsumeDevicePairingToken (id : string) (now : Z) (d : DB) : bool * DB :=
  match device_pairing_tokens d !! id with
  | Some t => if is_null (dp_UsedAt t) && (now <? dp_ExpiresAt t)
    then (true, on_device_pairing_tokens <[id := set_dp_UsedAt (Some now) t]> d) else (false, d)
  | None => (false, d)
  end.

(** ** Enrolled devices *)

Definition platforms : list string := ["android"; "ios"; "macos"; "linux"]%string.
Definition push_transports : list string := ["fcm"; "unifiedpush"; "ubuntupush"]%string.

(** [attestationColumns]: a known grade, its instant unless it is none. *)
Definition attestationColumns (level bootState : string) (at_ : Z) : StoreError + option Z :=
  if negb (one_of level ["none"; "tee"; "strongbox"; "appattest"]%string) then inl (ErrText "invalid attested level")
  else if negb (one_of bootState ["locked-verified"; "locked-selfsigned"; "unlocked"; "unknown"]%string)
  then inl (ErrText "invalid boot state")
  else inr (if level =?s "none" then None else Some at_).

Definition or_default (s v : string) : string := if s =?s EmptyString then v else s.

(** Stamp an enrolment; an ungraded device enrols as none and unknown. *)
Definition prepareEnrollment (dev : NativeDevice) (now : Z) : StoreError + NativeDevice :=
  let level := or_default (nd_AttestedLevel dev) "none" in
  let boot := or_default (nd_BootState dev) "unknown" in
  match attestationColumns level boot now with
  | inl e => inl e
  | inr attestedAt => inr (MkNativeDevice (nd_ID dev) (nd_UserID dev) (nd_DeviceName dev) (nd_DeviceIdentifier dev)
      (or_default (nd_Platform dev) "android") (nd_PublicKey dev) (nd_PushToken dev) 0
      (or_default (nd_PushTransport dev) "fcm") (nd_PushP256dh dev) (nd_PushAuth dev) (nd_IsMFAApprover dev)
      (nd_CanSignOn dev) level attestedAt boot (nd_AttestationSerials dev) (Some now) now)
  end.

(** [nativeDeviceUpsert]: a re-pair keeps the stored id, owner, identifier,
    creation and push replay state. *)
Definition nativeDeviceUpsert (dev : NativeDevice) : STx NativeDevice :=
  d <- tx_get ;;
  tx_guard (fk_user d (nd_UserID dev) && one_of (nd_Platform dev) platforms &&
    one_of (nd_PushTransport dev) push_transports) ErrConstraint ;;;
  match find_where (fun x => (nd_UserID x =?s nd_UserID dev) && (nd_DeviceIdentifier x =?s nd_DeviceIdentifier dev))
    (native_devices d) with
  | Some (k, x) =>
    let row := MkNativeDevice (nd_ID x) (nd_UserID x) (nd_DeviceName dev) (nd_DeviceIdentifier x) (nd_Platform dev)
      (nd_PublicKey dev) (nd_PushToken dev) (nd_PushTokenUpdatedAtMS x) (nd_PushTransport dev) (nd_PushP256dh dev)
      (nd_PushAuth dev) (nd_IsMFAApprover dev) (nd_CanSignOn dev) (nd_AttestedLevel dev) (nd_AttestedAt dev)
      (nd_BootState dev) (nd_AttestationSerials dev) (nd_LastSeenAt dev) (nd_CreatedAt x) in
    tx_set (on_native_devices <[k := row]>) ;;; tx_ret row
  | None => insert_row native_devices on_native_devices (nd_ID dev) dev ;;; tx_ret dev
  end.

(** The push row of [mfa_methods] follows the approver devices. *)
Definition syncPushMethodTx (newid : string) (user : string) (now : Z) : STx unit :=
  d <- tx_get ;;
  let is_push m := (mm_UserID m =?s user) && (mm_MethodType m =?s "push") in
  let enrolled := enrolled_factors d user 2 in
  (if enrolled then tx_ret tt else tx_set (on_mfa_methods (delete_where is_push))) ;;;
  d <- tx_get ;;
  if enrolled && negb (exists_where is_push (mfa_methods d)) && is_null (mfa_methods d !! newid)
  then tx_set (on_mfa_methods <[newid := MkMFAMethod newid user "push" EmptyString false 0 now]>) else tx_ret tt.

(** One device write with its audit row; [n] rows matched. *)
Definition changeEnrollmentDevice (newid user : string) (audit : option AuditEvent) (now : Z) (write : STx Z) : STx unit :=
  d <- tx_get ;;
  let wasCompliant := compliantEnrollmentTx d user in
  n <- write ;;
  tx_guard (negb (n =? 0)) ErrNoRows ;;;
  syncPushMethodTx newid user now ;;;
  recordAuditTx audit now ;;;
  preserveCompliantEnrollmentTx user wasCompliant.

Definition own_device (id user : string) (n : NativeDevice) : bool := (nd_ID n =?s id) && (nd_UserID n =?s user).

Definition update_devices (p : NativeDevice -> bool) (g : NativeDevice -> NativeDevice) : STx Z :=
  d <- tx_get ;; tx_set (on_native_devices (update_where p g)) ;;; tx_ret (count_where p (native_devices d)).

Definition UpsertNativeDevice (newid : string) (dev : NativeDevice) (now : Z) : STx unit :=
  match prepareEnrollment dev now with
  | inl e => tx_fail e
  | inr dev => changeEnrollmentDevice newid (nd_UserID dev) None now (nativeDeviceUpsert dev ;;; tx_ret 1)
  end.

Definition SetNativeDeviceMFAApprover (newid id user : string) (approver : bool) (audit : option AuditEvent) (now : Z) : STx unit :=
  changeEnrollmentDevice newid user audit now (update_devices (own_device id user) (set_nd_IsMFAApprover approver)).

Definition DeleteNativeDevice (newid id user : string) (audit : option AuditEvent) (now : Z) : STx unit :=
  changeEnrollmentDevice newid user audit now (
    d <- tx_get ;; tx_set (on_native_devices (delete_where (own_device id user))) ;;;
    tx_ret (count_where (own_device id user) (native_devices d))).

(** Enabling needs an approver device; disabling is always allowed. *)
Definition SetNativeDeviceCanSignOn (id user : string) (enabled : bool) (audit : option AuditEvent) (now : Z) : STx unit :=
  let p n := own_device id user n && (negb enabled || nd_IsMFAApprover n) in
  d <- tx_get ;;
  if count_where p (native_devices d) =? 1 then
    tx_set (on_native_devices (update_where p (set_nd_CanSignOn enabled))) ;;; recordAuditTx audit now
  else if exists_where (own_device id user) (native_devices d) then tx_fail ErrDeviceNotApprover
  else tx_fail ErrNoRows.

(** Duplicate or older signed refreshes are rejected. *)
Definition UpdateNativeDevicePushToken (id transport token p256dh auth : string) (issuedAtMS seenAt : Z)
    (audit : option AuditEvent) (now : Z) : STx bool :=
  d <- tx_get ;;
  match native_devices d !! id with
  | Some n =>
    if nd_PushTokenUpdatedAtMS n <? issuedAtMS then
      tx_guard (one_of transport push_transports) ErrConstraint ;;;
      tx_set (on_native_devices <[id := MkNativeDevice (nd_ID n) (nd_UserID n) (nd_DeviceName n) (nd_DeviceIdentifier n)
        (nd_Platform n) (nd_PublicKey n) token issuedAtMS transport p256dh auth (nd_IsMFAApprover n) (nd_CanSignOn n)
        (nd_AttestedLevel n) (nd_AttestedAt n) (nd_BootState n) (nd_AttestationSerials n) (Some seenAt) (nd_CreatedAt n)]>) ;;;
      recordAuditTx audit now ;;; tx_ret true
    else tx_ret false
  | None => tx_ret false
  end.

(** Regrade a device only while it still holds the key that was graded. *)
Definition SetNativeDeviceAttestation (id key level boot : string) (serials : list string) (at_ : Z) (d : DB) :
    (StoreError + bool) * DB :=
  match attestationColumns level boot at_ with
  | inl e => (inl e, d)
  | inr attestedAt =>
    match native_devices d !! id with
    | Some n =>
      if nd_PublicKey n =?s key then
        (inr true, on_native_devices <[id := MkNativeDevice (nd_ID n) (nd_UserID n) (nd_DeviceName n)
          (nd_DeviceIdentifier n) (nd_Platform n) (nd_PublicKey n) (nd_PushToken n) (nd_PushTokenUpdatedAtMS n)
          (nd_PushTransport n) (nd_PushP256dh n) (nd_PushAuth n) (nd_IsMFAApprover n) (nd_CanSignOn n) level
          attestedAt boot serials (nd_LastSeenAt n) (nd_CreatedAt n)]> d)
      else (inr false, d)
    | None => (inr false, d)
    end
  end.

(** Spend the pairing token and enrol the device as a push approver. *)
Definition RegisterNativeDeviceWithPairingToken (tokenID : string) (dev : NativeDevice) (method : MFAMethod)
    (audit : NativeDevice -> option AuditEvent) (now : Z) : STx (option NativeDevice) :=
  d <- tx_get ;;
  match device_pairing_tokens d !! tokenID with
  | Some t =>
    if is_null (dp_UsedAt t) && (now <? dp_ExpiresAt t) then
      tx_set (on_device_pairing_tokens <[tokenID := set_dp_UsedAt (Some now) t]>) ;;;
      let wasCompliant := compliantEnrollmentTx d (nd_UserID dev) in
      match prepareEnrollment dev now with
      | inl e => tx_fail e
      | inr row =>
        stored <- nativeDeviceUpsert row ;;
        upsert_method (set_mm_CreatedAt now method) ;;;
        preserveCompliantEnrollmentTx (nd_UserID dev) wasCompliant ;;;
        recordAuditTx (audit stored) now ;;;
        tx_ret (Some stored)
      end
    else tx_ret None
  | None => tx_ret None
  end.

(** ** Failures *)

(** Wrong passwords from one source, in order. *)
Definition fail_times (user source : string) (times : list Z) (d : DB) : DB :=
  fold_left (fun d t => (RecordFailedLogin user source t d).2) times d.

(** Each failure follows the previous one within the window. *)
Fixpoint chained (prev : Z) (times : list Z) : Prop :=
  match times with
  | [] => True
  | t :: times' => t - prev < LockoutDuration /\ chained t times'
  end.

Lemma last_shift (t prev : Z) times : List.last (t :: times) prev = List.last times t.
Proof. revert t prev. induction times as [|x times IH]; [done|]. intros t prev.
  change (List.last (x :: times) prev = List.last (x :: times) t). by rewrite !IH. Qed.

Lemma fail_times_row user source times : forall d n prev,
  fk_user d user = true -> login_failures d !! (user, source) = Some (MkLoginFailure n prev) ->
  chained prev times ->
  let d' := fail_times user source times d in
  login_failures d' !! (user, source) =
    Some (MkLoginFailure (n + Z.of_nat (length times)) (List.last times prev)) /\
  forall k, k <> (user, source) -> login_failures d' !! k = login_failures d !! k.
Proof.
  induction times as [|t times IH]; intros d n prev Hu Hrow Hc; cbn [fail_times fold_left].
  - split; [|done]. cbn. by rewrite Z.add_0_r.
  - destruct Hc as [Hgap Hc]. unfold RecordFailedLogin at 2 4. rewrite Hu, Hrow. cbn [negb snd lf_LastFailureAt lf_Failures].
    destruct (Z.leb_spec prev (t - LockoutDuration)); [lia|].
    set (d1 := on_login_failures _ d).
    destruct (IH d1 (n + 1) t) as [H1 H2]; [exact Hu|cbn; apply lookup_insert_eq|done|].
    split.
    + unfold fail_times in H1. rewrite H1. f_equal. rewrite last_shift.
      f_equal; cbn [length]; lia.
    + intros k Hk. unfold fail_times in H2. rewrite (H2 k Hk). cbn. by apply lookup_insert_ne.
Qed.

(** ** Device assertions *)

(** Assertions accepted while the one with expiry [e] is still within its life. *)
Definition jti_step (e : Z) (d d' : DB) : Prop :=
  exists jti expiresAt now, now <= e /\ d' = (ConsumeDeviceSignOnJTI jti expiresAt now d).2.

Lemma jti_kept jti e d d' : jti_step e d d' -> device_signon_jtis d !! jti = Some e ->
  device_signon_jtis d' !! jti = Some e.
Proof.
  intros (j & x & now & Hle & ->) Hk. unfold ConsumeDeviceSignOnJTI. cbv zeta.
  assert (device_signon_jtis (on_device_signon_jtis (delete_where (fun e => e <? now)) d) !! jti = Some e) as H1.
  { cbn -[delete_where]. apply lookup_delete_where_Some. split; [done|]. apply Z.ltb_ge. lia. }
  destruct (device_signon_jtis _ !! j) eqn:E; [exact H1|].
  cbn -[delete_where] in *. rewrite lookup_insert_ne; [done|]. congruence.
Qed.

(** ** TOTP *)

Definition is_totp (user : string) (m : MFAMethod) : bool := (mm_UserID m =?s user) && (mm_MethodType m =?s "totp").

(** Accepting a code or enrolling again; a reset starts a new secret. *)
Inductive totp_step : DB -> DB -> Prop :=
| totp_consume user counter d : totp_step d (ConsumeTOTPCounter user counter d).2
| totp_enrol m audit now d d' : SetMFAMethod m audit now d = inr (tt, d') -> totp_step d d'.

(** An enrolled TOTP whose accepted steps have all reached [c]. *)
Definition totp_reached (user : string) (c : Z) (d : DB) : Prop :=
  (exists k m, mfa_methods d !! k = Some m /\ is_totp user m = true) /\
  forall k m, mfa_methods d !! k = Some m -> is_totp user m = true -> c <= mm_LastTOTPCounter m.

Lemma consume_reached user c user' counter d : totp_reached user c d ->
  totp_reached user c (ConsumeTOTPCounter user' counter d).2.
Proof.
  intros [(k & m & Hk & Hm) Hle]. unfold ConsumeTOTPCounter. cbn -[update_where].
  set (p := fun m => _ && (mm_LastTOTPCounter m <? counter)). split.
  - exists k, (if p m then set_mm_LastTOTPCounter counter m else m). split; [|by destruct (p m)].
    apply lookup_update_where_Some. eauto.
  - intros k' x Hx Hp. apply lookup_update_where_Some in Hx as (x0 & Hx & ->).
    destruct (p x0) eqn:E; [|by eapply Hle]. unfold p in E. bool_hyps. cbn.
    specialize (Hle _ _ Hx). unfold is_totp in Hle, Hp. cbn in Hp. specialize (Hle Hp). lia.
Qed.

Lemma upsert_method_inv m d u d' : upsert_method m d = inr (u, d') ->
  (exists k x, mfa_methods d !! k = Some x /\ mm_UserID x = mm_UserID m /\ mm_MethodType x = mm_MethodType m /\
     d' = on_mfa_methods <[k := set_mm_IsPrimary (mm_IsPrimary m) (set_mm_EncryptedSecret (mm_EncryptedSecret m) x)]> d) \/
  ((forall k x, mfa_methods d !! k = Some x -> mm_UserID x = mm_UserID m -> mm_MethodType x <> mm_MethodType m) /\
     mfa_methods d !! mm_ID m = None /\ d' = on_mfa_methods <[mm_ID m := set_mm_LastTOTPCounter 0 m]> d).
Proof.
  unfold upsert_method. intros Hr. tx_inv. destruct (find_where _ _) as [[k x]|] eqn:E; tx_inv.
  - left. apply find_where_Some in E as [Hk Hp]. bool_hyps. exists k, x. eauto.
  - right. apply insert_row_inv in Hr as [Hn ->]. split; [|by split]. rewrite find_where_None in E.
    intros k x Hk Hu Ht. specialize (E _ _ Hk). rewrite Hu, Ht, !streqb_refl in E. done.
Qed.

Lemma totp_step_reached user c d d' : totp_step d d' -> totp_reached user c d -> totp_reached user c d'.
Proof.
  intros [user' counter e|m audit now e e' Hr] Hd; [by apply consume_reached|].
  unfold SetMFAMethod in Hr. apply tx_bind_inr in Hr as (u & d1 & H1 & Hr). audit_inv.
  apply upsert_method_inv in H1 as [(k & x & Hk & Hu & Ht & ->)|(Hnone & Hnew & ->)].
  - destruct Hd as [(k0 & y0 & Hk0 & Hm0) Hle]. unfold totp_reached. cbn. split.
    + destruct (decide (k0 = k)) as [->|Hne].
      * eexists k, _. split; [apply lookup_insert_eq|]. rewrite Hk in Hk0. by injection Hk0 as ->.
      * exists k0, y0. by rewrite lookup_insert_ne.
    + intros k' y Hy Hp. apply lookup_insert_Some in Hy as [[<- <-]|[_ Hy]]; [|by eapply Hle].
      cbn. by eapply (Hle _ _ Hk).
  - destruct Hd as [(k0 & y0 & Hk0 & Hm0) Hle]. unfold totp_reached. cbn in *.
    assert (is_totp user (set_mm_CreatedAt now m) = false) as Hnt.
    { unfold is_totp. cbn. destruct (_ && _) eqn:E; [|done]. bool_hyps. exfalso.
      unfold is_totp in Hm0. bool_hyps. apply (Hnone _ _ Hk0); congruence. }
    split.
    + destruct (decide (k0 = mm_ID m)) as [->|Hne]; [|exists k0, y0; by rewrite lookup_insert_ne].
      cbn in Hnew. congruence.
    + intros k' y Hy Hp. apply lookup_insert_Some in Hy as [[<- <-]|[_ Hy]];
        [unfold is_totp in *; cbn in *; congruence|by eapply Hle].
Qed.

(** ** Properties *)

Lemma failing_row now n t :
  failing now (Some (MkLoginFailure n t)) = (MaxFailedLogins <=? n) && (now - LockoutDuration <? t).
Proof. done. Qed.

(** A source with an unbroken run of failures is locked exactly from the
    tenth failure until fifteen minutes after the last, and other sources of
    the same account are unaffected. *)
Theorem lockout_exact user source t times now d :
  fk_user d user = true -> login_failures d !! (user, source) = None ->
  login_failures d !! (user, EmptyString) = None -> source <> EmptyString ->
  chained t times ->
  let d' := fail_times user source (t :: times) d in
  IsAccountLocked user source now d' =
    ((10 <=? 1 + Z.of_nat (length times)) && (now - 15 * minute <? List.last times t)) /\
  forall src, src <> source -> IsAccountLocked user src now d' = failing now (login_failures d !! (user, src)).
Proof.
  intros Hu Hn He Hs Hc. cbn [fail_times fold_left].
  assert (RecordFailedLogin user source t d =
    (inr 1, on_login_failures <[(user, source) := MkLoginFailure 1 t]> d)) as ->
    by (unfold RecordFailedLogin; by rewrite Hu, Hn). cbn [snd].
  set (d1 := on_login_failures _ d).
  destruct (fail_times_row user source times d1 1 t) as [H1 H2]; [exact Hu|cbn; apply lookup_insert_eq|done|].
  unfold fail_times in H1, H2. unfold IsAccountLocked.
  rewrite (H2 (user, EmptyString)) by congruence. unfold d1 at 2 4. cbn [login_failures on_login_failures].
  rewrite lookup_insert_ne, He by congruence. rewrite !orb_false_r. split.
  - rewrite H1, failing_row. done.
  - intros src Hsrc. rewrite orb_false_r, (H2 (user, src)) by congruence. unfold d1. cbn.
    by rewrite lookup_insert_ne by congruence.
Qed.

Lemma lockout_exact_witness :
  let d' := fail_times "bob" "192.0.2.7" (map (fun i => t0 + Z.of_nat i * minute) (seq 0 10)) sample_db in
  IsAccountLocked "bob" "192.0.2.7" (t0 + 20 * minute) d' = true /\
  IsAccountLocked "bob" "192.0.2.7" (t0 + 24 * minute) d' = false /\
  IsAccountLocked "bob" "203.0.113.9" (t0 + 20 * minute) d' = false.
Proof.
  destruct (lockout_exact "bob" "192.0.2.7" (t0 + 0 * minute) (map (fun i => t0 + Z.of_nat i * minute) (seq 1 9))
    (t0 + 20 * minute) sample_db) as [H1 H2]; [reflexivity|reflexivity|reflexivity|discriminate|repeat split; vm_compute; reflexivity|].
  destruct (lockout_exact "bob" "192.0.2.7" (t0 + 0 * minute) (map (fun i => t0 + Z.of_nat i * minute) (seq 1 9))
    (t0 + 24 * minute) sample_db) as [H3 _]; [reflexivity|reflexivity|reflexivity|discriminate|repeat split; vm_compute; reflexivity|].
  split; [exact H1|split; [exact H3|]]. exact (H2 "203.0.113.9"%string ltac:(discriminate)).
Defined.

(** A device assertion identifier is accepted at most once while the
    assertion could still be valid. *)
Theorem device_assertion_once jti expiresAt now d d1 d2 now' e' :
  now <= expiresAt -> ConsumeDeviceSignOnJTI jti expiresAt now d = (true, d1) ->
  rtc (jti_step expiresAt) d1 d2 -> now' <= expiresAt ->
  (ConsumeDeviceSignOnJTI jti e' now' d2).1 = false.
Proof.
  intros _ Hc Hs Hle.
  assert (device_signon_jtis d1 !! jti = Some expiresAt) as H1.
  { unfold ConsumeDeviceSignOnJTI in Hc. cbv zeta in Hc. destruct (device_signon_jtis _ !! jti); [discriminate|].
    injection Hc as <-. cbn. apply lookup_insert_eq. }
  clear Hc. revert H1. induction Hs as [x|x y z Hstep _ IH]; intros H1.
  - unfold ConsumeDeviceSignOnJTI. cbv zeta.
    assert (device_signon_jtis (on_device_signon_jtis (delete_where (fun e => e <? now')) x) !! jti = Some expiresAt) as ->;
      [|done]. cbn -[delete_where]. apply lookup_delete_where_Some. split; [done|]. apply Z.ltb_ge. lia.
  - apply IH. by eapply jti_kept.
Qed.

Lemma device_assertion_once_witness :
  let r := ConsumeDeviceSignOnJTI "a1" (t0 + minute) t0 sample_db in
  let r2 := ConsumeDeviceSignOnJTI "a2" (t0 + 2 * minute) (t0 + second) r.2 in
  r.1 = true /\ (ConsumeDeviceSignOnJTI "a1" (t0 + hour) (t0 + minute) r2.2).1 = false.
Proof.
  cbv zeta. assert ((ConsumeDeviceSignOnJTI "a1" (t0 + minute) t0 sample_db).1 = true) as Hr by (vm_compute; reflexivity).
  destruct (ConsumeDeviceSignOnJTI "a1" (t0 + minute) t0 sample_db) as [b d1] eqn:E. cbn [fst snd] in *. subst b.
  split; [reflexivity|].
  apply (device_assertion_once "a1" (t0 + minute) t0 sample_db d1); [vm_compute; discriminate|exact E| |vm_compute; discriminate].
  apply rtc_once. exists "a2"%string, (t0 + 2 * minute), (t0 + second). split; [vm_compute; discriminate|reflexivity].
Defined.

(** Once a TOTP counter was accepted for a user, no counter up to it is
    accepted again over any later factor operations. *)
Theorem totp_code_once user c now_counter d d1 d2 :
  ConsumeTOTPCounter user c d = (true, d1) -> rtc totp_step d1 d2 -> now_counter <= c ->
  (ConsumeTOTPCounter user now_counter d2).1 = false.
Proof.
  intros Hc Hs Hle.
  assert (forall d, (exists k m, mfa_methods d !! k = Some m /\ is_totp user m = true) ->
    (forall k m, mfa_methods d !! k = Some m -> is_totp user m = true -> c <= mm_LastTOTPCounter m) ->
    totp_reached user c d) as Hmk by (intros; by split).
  unfold ConsumeTOTPCounter in Hc. injection Hc as Hn <-. apply Z.eqb_eq in Hn.
  set (p := fun m => _ && (mm_LastTOTPCounter m <? c)) in *.
  assert (exists_where p (mfa_methods d) = true) as (k0 & r0 & Hk0 & Hp0)%exists_where_true.
  { destruct (exists_where p (mfa_methods d)) eqn:E; [done|]. apply count_where_0 in E. lia. }
  assert (totp_reached user c (on_mfa_methods (update_where p (set_mm_LastTOTPCounter c)) d)) as H1.
  { apply Hmk.
    - exists k0, (set_mm_LastTOTPCounter c r0). split.
      + cbn -[update_where]. apply lookup_update_where_Some. exists r0. by rewrite Hp0.
      + unfold p in Hp0. bool_hyps. unfold is_totp. row_hyps.
    - intros k m Hk Hm. cbn -[update_where] in Hk. apply lookup_update_where_Some in Hk as (x & Hk & ->).
      destruct (p x) eqn:E; [cbn; lia|]. unfold p in E. unfold is_totp in Hm. rewrite Hm in E. cbn in E. lia. }
  assert (totp_reached user c d2) as [_ H2].
  { revert H1. induction Hs as [x|x y z Hstep _ IH]; [done|]. intros H1. apply IH. by eapply totp_step_reached. }
  unfold ConsumeTOTPCounter. cbn [fst]. apply Z.eqb_neq.
  match goal with |- count_where ?q ?t <> 1 => enough (count_where q t = 0) by lia end.
  apply count_where_0, exists_where_false. intros k x Hk. destruct (is_totp user x) eqn:E.
  - specialize (H2 _ _ Hk E). unfold is_totp in E. rewrite E. cbn. lia.
  - unfold is_totp in E. by rewrite E.
Qed.

Definition totp_db : DB :=
  on_mfa_methods (fun _ => {[ "m1"%string := MkMFAMethod "m1" "bob" "totp" "secret" true 100 t0 ]}) sample_db.

Lemma totp_code_once_witness :
  let r := ConsumeTOTPCounter "bob" 117 totp_db in
  r.1 = true /\ (ConsumeTOTPCounter "bob" 117 (ConsumeTOTPCounter "bob" 118 r.2).2).1 = false.
Proof.
  cbv zeta. assert ((ConsumeTOTPCounter "bob" 117 totp_db).1 = true) as Hr by (vm_compute; reflexivity).
  destruct (ConsumeTOTPCounter "bob" 117 totp_db) as [b d1] eqn:E. cbn [fst snd] in *. subst b.
  split; [reflexivity|].
  apply (totp_code_once "bob" 117 117 totp_db d1); [exact E| |lia]. apply rtc_once. apply totp_consume.
Defined.

(** *** Push challenges *)

(** What happens to challenges between [t] and [t'], in order of time: a login
    push, a push of another purpose, an answer or a timeout, a clean-up. *)
Inductive push_history : Z -> Z -> DB -> DB -> Prop :=
| push_end t t' d : t <= t' -> push_history t t' d d
| push_login t now t' ch b d d1 d' : t <= now -> CreateLoginPushChallenge ch now d = inr (b, d1) ->
    push_history now t' d1 d' -> push_history t t' d d'
| push_other t now t' ch d d1 d' : t <= now -> mc_Purpose ch <> "login"%string ->
    CreateMFAChallenge ch now d = inr (tt, d1) -> push_history now t' d1 d' -> push_history t t' d d'
| push_answer t now t' id to b d d1 d' : t <= now -> to <> "pending"%string ->
    TransitionMFAChallengeStatus id "pending" to now d = (inr b, d1) ->
    push_history now t' d1 d' -> push_history t t' d d'
| push_clean t now t' d d' : t <= now -> push_history now t' (DeleteExpiredMFAChallenges now d) d' ->
    push_history t t' d d'.

Lemma pending_login_earlier user t t' c : t <= t' -> pending_login user t' c = true -> pending_login user t c = true.
Proof. unfold pending_login. intros. row_hyps. Qed.

Lemma pending_count_later user t t' (tab : gmap string MFAChallenge) : t <= t' ->
  count_where (pending_login user t') tab <= count_where (pending_login user t) tab.
Proof. intros. apply count_where_impl. intros k r _. by apply pending_login_earlier. Qed.

Lemma CreateMFAChallenge_inv ch now d u d' : CreateMFAChallenge ch now d = inr (u, d') ->
  mfa_challenges d !! mc_ID ch = None /\
  d' = on_mfa_challenges <[mc_ID ch := set_mc_VerifiedAt None (set_mc_CreatedAt now ch)]> d.
Proof. unfold CreateMFAChallenge. intros Hr. tx_inv. by apply insert_row_inv in Hr. Qed.

Lemma login_push_count user ch now b d d' : CreateLoginPushChallenge ch now d = inr (b, d') ->
  count_where (pending_login user now) (mfa_challenges d) <= 1 ->
  count_where (pending_login user now) (mfa_challenges d') <= 1.
Proof.
  unfold CreateLoginPushChallenge. intros Hr Hd. apply tx_bind_inr in Hr as (e & d0 & Hg & Hr). tx_inv.
  destruct (exists_where _ _) eqn:E; tx_inv; [done|].
  match goal with H : CreateMFAChallenge _ _ _ = _ |- _ => apply CreateMFAChallenge_inv in H as [_ ->] end.
  cbn -[exists_where] in *. set (row := set_mc_VerifiedAt _ _).
  destruct (pending_login user now row) eqn:Ep; [|etrans; [by apply count_where_write_false|done]].
  apply count_where_write_first. unfold pending_login in Ep. bool_hyps. subst row. cbn in *. by subst user.
Qed.

(** At every instant of every push history a user has at most one pending
    login push. *)
Theorem one_login_push user t t' d d' :
  push_history t t' d d' -> count_where (pending_login user t) (mfa_challenges d) <= 1 ->
  count_where (pending_login user t') (mfa_challenges d') <= 1.
Proof.
  induction 1 as [t t' d Hle|t now t' ch b d d1 d' Hle Hr _ IH|t now t' ch d d1 d' Hle Hp Hr _ IH
    |t now t' id to b d d1 d' Hle Hto Hr _ IH|t now t' d d' Hle _ IH]; intros Hd;
    pose proof (pending_count_later user _ _ (mfa_challenges d) Hle).
  - lia.
  - apply IH. apply (login_push_count user _ _ _ _ _ Hr). lia.
  - apply IH. apply CreateMFAChallenge_inv in Hr as [_ ->]. cbn.
    etrans; [apply count_where_write_false|lia]. unfold pending_login. cbn.
    destruct (_ =?s "login") eqn:E; [by apply streqb_true in E|by rewrite andb_false_r].
  - apply IH. unfold TransitionMFAChallengeStatus in Hr. destruct (mfa_challenges d !! id) as [c|]; [|simplify_eq; lia].
    destruct (mc_Status c =?s "pending"); [|simplify_eq; lia]. destruct (one_of _ _); [|done]. injection Hr as _ <-. cbn.
    etrans; [apply count_where_write_false|lia]. unfold pending_login. cbn.
    destruct (_ =?s "pending") eqn:E; [by apply streqb_true in E|by rewrite andb_false_r].
  - apply IH. cbn -[delete_where]. etrans; [apply count_where_delete_where|lia].
Qed.

Definition sample_push (id : string) : MFAChallenge :=
  MkMFAChallenge None id "bob" "push" "42" ["17"; "88"]%string "pending" "login" (t0 + minute) t0.

Lemma one_login_push_witness :
  let first := after (CreateLoginPushChallenge (sample_push "p1") t0) sample_db in
  let again := after (CreateLoginPushChallenge (sample_push "p2") (t0 + second)) first in
  mfa_challenges first !! "p1"%string <> None /\ mfa_challenges again !! "p2"%string = None /\
  count_where (pending_login "bob" (t0 + second)) (mfa_challenges again) <= 1.
Proof.
  cbv zeta. split; [vm_compute; discriminate|]. split; [vm_compute; reflexivity|].
  destruct (after_inr (CreateLoginPushChallenge (sample_push "p1") t0) sample_db) as [b1 H1]; [eexists; vm_compute; reflexivity|].
  destruct (after_inr (CreateLoginPushChallenge (sample_push "p2") (t0 + second))
    (after (CreateLoginPushChallenge (sample_push "p1") t0) sample_db)) as [b2 H2]; [eexists; vm_compute; reflexivity|].
  apply (one_login_push "bob" t0 (t0 + second) sample_db).
  - eapply push_login; [|exact H1|]; [lia|]. eapply push_login; [|exact H2|]; [vm_compute; discriminate|].
    apply push_end. lia.
  - vm_compute. discriminate.
Defined.

(** *** Pending sign-ins *)

(** What happens to pending sign-ins while [n] attempts on [id] are granted. *)
Inductive attempts (id : string) (max : Z) : nat -> DB -> DB -> Prop :=
| at_end d : attempts id max 0 d d
| at_granted n now r d d1 d' : ReserveMFAAttempt id max now d = (r, d1) -> r <> 0 ->
    attempts id max n d1 d' -> attempts id max (S n) d d'
| at_refused n now d d' : (ReserveMFAAttempt id max now d).1 = 0 ->
    attempts id max n (ReserveMFAAttempt id max now d).2 d' -> attempts id max n d d'
| at_other n id' max' now d d' : id' <> id -> attempts id max n (ReserveMFAAttempt id' max' now d).2 d' -> attempts id max n d d'
| at_consume n id' now d d' : attempts id max n (ConsumeMFAToken id' now d).2 d' -> attempts id max n d d'
| at_create n t now d d1 d' : mt_ID t <> id -> CreateMFAToken t now d = inr (tt, d1) ->
    attempts id max n d1 d' -> attempts id max n d d'
| at_clean n now d d' : attempts id max n (DeleteExpiredMFATokens now d) d' -> attempts id max n d d'.

Lemma CreateMFAToken_inv t now d u d' : CreateMFAToken t now d = inr (u, d') ->
  d' = on_mfa_tokens <[mt_ID t := mfa_token_row t now]> d.
Proof.
  unfold CreateMFAToken. intros Hr. apply tx_bind_inr in Hr as (e & d0 & He & Hr).
  apply tx_bind_inr in Hr as (e1 & d1 & H1 & Hr). tx_inv. apply insert_row_inv in Hr as [_ ->].
  destruct (_ =?s EmptyString); by tx_inv.
Qed.

Lemma reserve_inv id max now d :
  let '(r, d') := ReserveMFAAttempt id max now d in
  (r = 0 /\ d' = d) \/ (exists t, mfa_tokens d !! id = Some t /\ r = mt_Attempts t + 1 /\ mt_Attempts t < max /\
     d' = on_mfa_tokens <[id := set_mt_Attempts (mt_Attempts t + 1) t]> d).
Proof.
  unfold ReserveMFAAttempt. destruct (mfa_tokens d !! id) as [t|] eqn:E; [|by left].
  destruct (mfa_open now max t) eqn:Eo; [|by left]. right. exists t. split; [done|].
  unfold mfa_open in Eo. bool_hyps. done.
Qed.

Lemma consume_mfa_row id id' now d t : mfa_tokens (ConsumeMFAToken id' now d).2 !! id = Some t ->
  exists t0, mfa_tokens d !! id = Some t0 /\ mt_Attempts t0 = mt_Attempts t.
Proof.
  unfold ConsumeMFAToken. destruct (mfa_tokens d !! id') as [x|] eqn:E; [|eauto].
  destruct (is_null (mt_UsedAt x)); [|eauto]. cbn. intros Hl.
  apply lookup_insert_Some in Hl as [[<- <-]|[_ Hl]]; eauto.
Qed.

(** A pending second-factor login admits at most its budget of attempts and
    completes at most once. *)
Theorem second_factor_guess_budget id max n d d' :
  attempts id max n d d' ->
  forall a, 0 <= a -> (forall t, mfa_tokens d !! id = Some t -> a <= mt_Attempts t) ->
  (0 < n)%nat -> a + Z.of_nat n <= max.
Proof.
  induction 1 as [d|n now r d d1 d' Hr Hne Hrest IH|n now d d' Hz _ IH|n id' max' now d d' Hne _ IH|n id' now d d' _ IH
    |n t now d d1 d' Hne Hr _ IH|n now d d' _ IH]; intros a Ha Hd Hn.
  - lia.
  - pose proof (reserve_inv id max now d) as Hi. rewrite Hr in Hi.
    destruct Hi as [[-> _]|(t & Ht & _ & Hlt & ->)]; [done|]. specialize (Hd _ Ht).
    destruct n as [|n]; [lia|]. specialize (IH (a + 1)).
    assert (a + 1 + Z.of_nat (S n) <= max) as H1; [|lia]. apply IH; [lia| |lia].
    intros t' Ht'. cbn in Ht'. rewrite lookup_insert_eq in Ht'. simplify_eq. cbn. lia.
  - apply IH; [done| |done]. intros t Ht.
    pose proof (reserve_inv id max now d) as Hi. destruct (ReserveMFAAttempt id max now d) as [r e]. cbn in *.
    destruct Hi as [[_ ->]|(t1 & Ht1 & -> & _ & _)]; [by apply Hd|]. specialize (Hd _ Ht1). lia.
  - apply IH; [done| |done]. intros t Ht.
    pose proof (reserve_inv id' max' now d) as Hi. destruct (ReserveMFAAttempt id' max' now d) as [r e]. cbn in *.
    destruct Hi as [[_ ->]|(t1 & Ht1 & _ & _ & ->)]; [by apply Hd|]. cbn in Ht.
    rewrite lookup_insert_ne in Ht by done. by apply Hd.
  - apply IH; [done| |done]. intros t Ht. apply consume_mfa_row in Ht as (x & Hx & <-). by apply Hd.
  - apply IH; [done| |done]. intros t' Ht. apply CreateMFAToken_inv in Hr as ->. cbn in Ht.
    rewrite lookup_insert_ne in Ht by done. by apply Hd.
  - apply IH; [done| |done]. intros t Ht. cbn -[delete_where] in Ht.
    apply lookup_delete_where_Some in Ht as [Ht _]. by apply Hd.
Qed.

Definition pending_db : DB :=
  on_mfa_tokens (fun _ => {[ "mt"%string := MkMFAToken EmptyString EmptyString (Some t0) "mt" "bob" "mhash" None 4
    (t0 + 5 * minute) None t0 ]}) sample_db.

Lemma second_factor_guess_budget_witness :
  (ReserveMFAAttempt "mt" 5 t0 pending_db).1 = 5 /\ 4 + Z.of_nat 1 <= 5.
Proof.
  assert ((ReserveMFAAttempt "mt" 5 t0 pending_db).1 = 5) as Hr by (vm_compute; reflexivity).
  destruct (ReserveMFAAttempt "mt" 5 t0 pending_db) as [r d1] eqn:E. cbn [fst] in *. subst r.
  split; [reflexivity|].
  refine (second_factor_guess_budget "mt" 5 1 pending_db d1
    (at_granted "mt" 5 0 t0 5 pending_db d1 d1 E ltac:(discriminate) (at_end "mt" 5 d1)) 4 ltac:(discriminate) _ ltac:(lia)).
  intros t Ht. unfold pending_db, on_mfa_tokens in Ht. cbn [mfa_tokens] in Ht.
  apply lookup_singleton_Some in Ht as [_ <-]. cbn [mt_Attempts]. discriminate.
Defined.

(** *** Pairing PINs *)

(** What happens to pairing tokens between [t] and [t'], in order of time,
    while [n] PINs of the user are missed; [id] is not minted again. *)
Inductive pin_history (id user : string) : Z -> Z -> nat -> DB -> DB -> Prop :=
| pin_end t t' d : t <= t' -> pin_history id user t t' 0 d d
| pin_miss t now t' n pin d d1 d' : t <= now -> MatchDevicePairingPIN user pin now d = (None, d1) ->
    pin_history id user now t' n d1 d' -> pin_history id user t t' (S n) d d'
| pin_hit t now t' n pin r d d1 d' : t <= now -> MatchDevicePairingPIN user pin now d = (Some r, d1) ->
    pin_history id user now t' n d1 d' -> pin_history id user t t' n d d'
| pin_other t now t' n user' pin d d' : t <= now -> user' <> user ->
    pin_history id user now t' n (MatchDevicePairingPIN user' pin now d).2 d' -> pin_history id user t t' n d d'
| pin_create t now t' n r audit d d1 d' : t <= now -> dp_ID r <> id ->
    CreateDevicePairingToken r audit now d = (inr tt, d1) ->
    pin_history id user now t' n d1 d' -> pin_history id user t t' n d d'
| pin_consume t now t' n id' d d' : t <= now ->
    pin_history id user now t' n (ConsumeDevicePairingToken id' now d).2 d' -> pin_history id user t t' n d d'
| pin_clean t now t' n d d' : t <= now ->
    pin_history id user now t' n (DeleteExpiredDevicePairingTokens now d) d' -> pin_history id user t t' n d d'.

(** At [t] the token is gone, dead, or has counted [n] misses below the budget. *)
Definition pin_counted (id user : string) (t : Z) (n : Z) (d : DB) : Prop :=
  forall r, device_pairing_tokens d !! id = Some r -> dp_UserID r = user /\
    (pairing_live t user r = true -> n <= dp_PinFailures r < PairingPINBudget).

Lemma pairing_live_earlier user t t' r : t <= t' -> pairing_live t' user r = true -> pairing_live t user r = true.
Proof. unfold pairing_live. intros. row_hyps. Qed.

Lemma pin_counted_later id user t t' n d : t <= t' -> pin_counted id user t n d -> pin_counted id user t' n d.
Proof. intros Ht Hc r Hr. destruct (Hc r Hr) as [Hu Hl]. split; [done|]. intros. by eapply Hl, pairing_live_earlier. Qed.

(** One miss of [who]: the tokens of another user stay, a live one counts it. *)
Lemma miss_row who pin now d d1 id r : MatchDevicePairingPIN who pin now d = (None, d1) ->
  device_pairing_tokens d1 !! id = Some r ->
  exists x, device_pairing_tokens d !! id = Some x /\ dp_UserID r = dp_UserID x /\
    (r = x \/ pairing_live now who r = false \/
     (pairing_live now who x = true /\ dp_PinFailures r = dp_PinFailures x + 1 /\ dp_PinFailures r < PairingPINBudget)).
Proof.
  unfold MatchDevicePairingPIN. destruct (find_where _ _) as [[? ?]|]; [discriminate|]. intros [= <-].
  cbn -[update_where exists_where]. set (f := fun t => set_dp_PinFailures (dp_PinFailures t + 1) t).
  destruct (exists_where _ _) eqn:E; intros Hr.
  - apply lookup_update_where_Some in Hr as (x1 & Hr & ->). apply lookup_update_where_Some in Hr as (x & Hx & ->).
    exists x. split; [done|]. split; [by repeat case_match|].
    destruct (pairing_live now who x) eqn:El.
    + right; left. assert (pairing_live now who (f x) = true) as -> by exact El.
      unfold pairing_live. cbn. by rewrite Z.ltb_irrefl, andb_false_r.
    + left. by rewrite El.
  - apply lookup_update_where_Some in Hr as (x & Hx & ->). exists x. split; [done|].
    destruct (pairing_live now who x) eqn:El; [|by auto]. split; [done|]. right; right. split_and!; try done.
    rewrite exists_where_false in E. specialize (E id (f x)).
    rewrite lookup_update_where, Hx in E. cbn in E. rewrite El in E. specialize (E eq_refl).
    assert (pairing_live now who (f x) = true) as Hf by exact El. rewrite Hf in E. cbn in *. lia.
Qed.

Lemma match_hit_same who pin now d r d1 : MatchDevicePairingPIN who pin now d = (Some r, d1) -> d1 = d.
Proof. unfold MatchDevicePairingPIN. destruct (find_where _ _) as [[? ?]|]; congruence. Qed.

Lemma pin_counted_miss id user pin now n d d1 : MatchDevicePairingPIN user pin now d = (None, d1) ->
  pin_counted id user now n d -> pin_counted id user now (n + 1) d1.
Proof.
  intros Hm Hc r Hr. destruct (miss_row _ _ _ _ _ _ _ Hm Hr) as (x & Hx & Hu & Hcase).
  destruct (Hc x Hx) as [Hux Hl]. split; [congruence|]. intros Hlive.
  destruct Hcase as [->|[?|(Hlx & Hf & Hb)]]; [|congruence|specialize (Hl Hlx); lia].
  exfalso. unfold MatchDevicePairingPIN in Hm. destruct (find_where _ _) as [[? ?]|]; [discriminate|].
  injection Hm as <-. cbn -[update_where exists_where] in Hr.
  destruct (exists_where _ _).
  - apply lookup_update_where_Some in Hr as (x1 & Hr & E). apply lookup_update_where_Some in Hr as (x0 & Hx0 & ->).
    assert (x0 = x) as -> by congruence. rewrite Hlive in E.
    assert (pairing_live now user (set_dp_PinFailures (dp_PinFailures x + 1) x) = true) as E' by exact Hlive.
    rewrite E' in E. apply (f_equal dp_PinFailures) in E. cbn in E. lia.
  - apply lookup_update_where_Some in Hr as (x0 & Hx0 & E). assert (x0 = x) as -> by congruence. rewrite Hlive in E.
    apply (f_equal dp_PinFailures) in E. cbn in E. lia.
Qed.

Lemma pin_counted_other id user who pin now n d : who <> user ->
  pin_counted id user now n d -> pin_counted id user now n (MatchDevicePairingPIN who pin now d).2.
Proof.
  intros Hne Hc. destruct (MatchDevicePairingPIN who pin now d) as [[r|] d1] eqn:E; cbn [snd].
  { by apply match_hit_same in E as ->. }
  intros r Hr. destruct (miss_row _ _ _ _ _ _ _ E Hr) as (x & Hx & Hu & _). destruct (Hc x Hx) as [Hux Hl].
  split; [congruence|]. enough (r = x) as -> by done.
  unfold MatchDevicePairingPIN in E. destruct (find_where _ _) as [[? ?]|]; [discriminate|]. injection E as <-.
  assert (forall y, dp_UserID y = user -> pairing_live now who y = false) as Hnl.
  { intros y Hy. unfold pairing_live. destruct (dp_UserID y =?s who) eqn:Ey; [|done]. apply streqb_true in Ey. congruence. }
  cbn -[update_where exists_where] in Hr. destruct (exists_where _ _).
  - apply lookup_update_where_Some in Hr as (x1 & Hr & ->). apply lookup_update_where_Some in Hr as (x0 & Hx0 & ->).
    assert (x0 = x) as -> by congruence. by rewrite !(Hnl x Hux).
  - apply lookup_update_where_Some in Hr as (x0 & Hx0 & ->). assert (x0 = x) as -> by congruence. by rewrite !(Hnl x Hux).
Qed.

Lemma pin_history_counted id user t t' n d d' : pin_history id user t t' n d d' ->
  forall c, pin_counted id user t c d -> pin_counted id user t' (c + Z.of_nat n) d'.
Proof.
  induction 1 as [t t' d Hle|t now t' n pin d d1 d' Hle Hm _ IH|t now t' n pin r d d1 d' Hle Hm _ IH
    |t now t' n u pin d d' Hle Hne _ IH|t now t' n r audit d d1 d' Hle Hne Hm _ IH
    |t now t' n id' d d' Hle _ IH|t now t' n d d' Hle _ IH]; intros c Hc;
    apply (pin_counted_later _ _ _ _ _ _ Hle) in Hc.
  - by rewrite Z.add_0_r.
  - replace (c + Z.of_nat (S n)) with ((c + 1) + Z.of_nat n) by lia. apply IH. by eapply pin_counted_miss.
  - apply match_hit_same in Hm as ->. by apply IH.
  - apply IH. by apply pin_counted_other.
  - apply IH. unfold CreateDevicePairingToken in Hm. apply auditedTx_inr in Hm as (d2 & m & q0 & Hm & ->). tx_inv.
    apply insert_row_inv in Hm as [_ ->]. intros x Hx. cbn in Hx. rewrite lookup_insert_ne in Hx by done. by apply Hc.
  - apply IH. unfold ConsumeDevicePairingToken. destruct (device_pairing_tokens d !! id') as [x|] eqn:E; [|done].
    destruct (_ && _); [|done]. intros r Hr. cbn in Hr. apply lookup_insert_Some in Hr as [[<- <-]|[_ Hr]]; [|by apply Hc].
    destruct (Hc _ E) as [Hu _]. split; [done|]. unfold pairing_live. cbn. by rewrite andb_false_r.
  - apply IH. intros r Hr. cbn -[delete_where] in Hr. apply lookup_delete_where_Some in Hr as [Hr _]. by apply Hc.
Qed.

(** Wrong pairing PINs are counted against every live pairing of the
    account, and after the budget is spent none of them can be matched or
    redeemed. *)
Theorem pairing_pin_budget id user t t' n d d' r :
  pin_history id user t t' n d d' -> device_pairing_tokens d !! id = Some r -> dp_UserID r = user ->
  0 <= dp_PinFailures r < PairingPINBudget -> (5 <= n)%nat ->
  forall r', device_pairing_tokens d' !! id = Some r' -> pairing_live t' user r' = false.
Proof.
  intros Hh Hr Hu Hf Hn r' Hr'.
  assert (pin_counted id user t 0 d) as H0 by (intros x Hx; simplify_eq; split; [done|]; intros; lia).
  destruct (pin_history_counted _ _ _ _ _ _ _ Hh 0 H0 r' Hr') as [_ Hl].
  destruct (pairing_live t' user r'); [|done]. specialize (Hl eq_refl). unfold PairingPINBudget in *. lia.
Qed.

Definition sample_pairing : DevicePairingToken :=
  MkDevicePairingToken "pt" "bob" "pthash" "pin" false 0 (t0 + 10 * minute) None t0.
Definition pairing_db : DB := on_device_pairing_tokens (fun _ => {[ "pt"%string := sample_pairing ]}) sample_db.
Definition miss (d : DB) : DB := (MatchDevicePairingPIN "bob" "wrong" t0 d).2.

Lemma pairing_pin_budget_witness :
  (MatchDevicePairingPIN "bob" "pin" t0 (Nat.iter 4 miss pairing_db)).1 <> None /\
  forall r', device_pairing_tokens (Nat.iter 5 miss pairing_db) !! "pt"%string = Some r' -> pairing_live t0 "bob" r' = false.
Proof.
  split; [vm_compute; discriminate|].
  assert (forall n d, (n <= 5)%nat -> (forall k, (k < n)%nat -> (MatchDevicePairingPIN "bob" "wrong" t0 (Nat.iter k miss d)).1 = None) ->
    pin_history "pt" "bob" t0 t0 n d (Nat.iter n miss d)) as Hrun.
  { induction n as [|n IH]; intros d Hn Hk; [apply pin_end; lia|].
    pose proof (Hk 0%nat ltac:(lia)) as H0. cbn [Nat.iter nat_rect] in H0.
    rewrite Nat.iter_succ_r. apply (pin_miss "pt" "bob" t0 t0 t0 n "wrong" d (miss d)); [lia| |].
    - unfold miss. destruct (MatchDevicePairingPIN _ _ _ d) as [o e]. cbn in *. by subst o.
    - apply IH; [lia|]. intros k Hlt. specialize (Hk (S k) ltac:(lia)). by rewrite Nat.iter_succ_r in Hk. }
  refine (pairing_pin_budget "pt" "bob" t0 t0 5 pairing_db _ sample_pairing (Hrun 5%nat pairing_db ltac:(lia) _) _ eq_refl _ ltac:(lia)).
  - intros k Hk. do 5 (destruct k as [|k]; [vm_compute; reflexivity|]). lia.
  - reflexivity.
  - split; [discriminate|reflexivity].
Defined.

(** *** Device changes *)

(** The three device changes of [enrollment_policy.go]. *)
Inductive device_change (newid user : string) (now : Z) : STx unit -> Prop :=
| dc_upsert dev : nd_UserID dev = user -> device_change newid user now (UpsertNativeDevice newid dev now)
| dc_approver id b audit : device_change newid user now (SetNativeDeviceMFAApprover newid id user b audit now)
| dc_delete id audit : device_change newid user now (DeleteNativeDevice newid id user audit now).

Definition push_row (d : DB) (user : string) : bool :=
  exists_where (fun m => (mm_UserID m =?s user) && (mm_MethodType m =?s "push")) (mfa_methods d).

Lemma prepareEnrollment_user dev now row : prepareEnrollment dev now = inr row -> nd_UserID row = nd_UserID dev.
Proof. unfold prepareEnrollment. destruct (attestationColumns _ _ _); [done|]. by intros [= <-]. Qed.

Lemma nativeDeviceUpsert_methods dev d x d' : nativeDeviceUpsert dev d = inr (x, d') -> mfa_methods d' = mfa_methods d.
Proof.
  unfold nativeDeviceUpsert. intros Hr. apply tx_bind_inr in Hr as (e & d0 & He & Hr). tx_inv.
  destruct (find_where _ _) as [[k y]|]; [by tx_inv|]. apply tx_bind_inr in Hr as (u & d1 & H1 & Hr).
  apply insert_row_inv in H1 as [_ ->]. by tx_inv.
Qed.

(** Each change is [changeEnrollmentDevice] around a write of [native_devices]. *)
Lemma device_change_shape newid user now m d d' : device_change newid user now m -> m d = inr (tt, d') ->
  exists audit w n d1, changeEnrollmentDevice newid user audit now w d = inr (tt, d') /\ w d = inr (n, d1) /\
    mfa_methods d1 = mfa_methods d.
Proof.
  intros [dev <-|id b audit|id audit] Hr.
  - unfold UpsertNativeDevice in Hr. destruct (prepareEnrollment dev now) as [|row] eqn:Ep; [done|].
    do 2 eexists. rewrite (prepareEnrollment_user _ _ _ Ep) in Hr. pose proof Hr as Hr'. unfold changeEnrollmentDevice in Hr'.
    apply tx_bind_inr in Hr' as (e & d0 & He & Hr'). injection He as <- <-.
    apply tx_bind_inr in Hr' as (k & d1 & Hw & _).
    exists k, d1. split; [exact Hr|]. split; [exact Hw|].
    apply tx_bind_inr in Hw as (x & d2 & Hw & H2). injection H2 as _ <-. by apply nativeDeviceUpsert_methods in Hw.
  - exists audit. eexists. do 2 eexists. split; [exact Hr|]. by split.
  - exists audit. eexists. do 2 eexists. split; [exact Hr|]. by split.
Qed.

Lemma syncPushMethodTx_inv newid user now d u d' : syncPushMethodTx newid user now d = inr (u, d') ->
  mfa_methods d !! newid = None ->
  push_row d' user = enrolled_factors d' user 2.
Proof.
  unfold syncPushMethodTx. intros Hr Hn. apply tx_bind_inr in Hr as (e & d0 & He & Hr). injection He as <- <-.
  set (is_push := fun m => (mm_UserID m =?s user) && (mm_MethodType m =?s "push")) in *. cbv zeta in Hr.
  assert (forall f, enrolled_factors (on_mfa_methods f d) user 2 = enrolled_factors d user 2) as Hef by done.
  destruct (enrolled_factors d user 2) eqn:Een.
  - apply tx_bind_inr in Hr as (e & d0 & He & Hr). injection He as _ <-.
    apply tx_bind_inr in Hr as (e' & d0 & He & Hr). injection He as <- <-. cbn [andb] in Hr.
    rewrite Hn in Hr. cbn [is_null] in Hr. rewrite andb_true_r in Hr.
    destruct (exists_where is_push (mfa_methods d)) eqn:Ep; cbn [negb] in Hr; injection Hr as _ <-.
    + rewrite Een. exact Ep.
    + rewrite Hef. apply exists_where_true. exists newid. eexists. split; [cbn; apply lookup_insert_eq|].
      cbn. by rewrite streqb_refl.
  - apply tx_bind_inr in Hr as (e & d0 & He & Hr). injection He as _ <-.
    apply tx_bind_inr in Hr as (e' & d0 & He & Hr). injection He as <- <-. cbn [andb] in Hr. injection Hr as _ <-.
    rewrite Hef. apply exists_where_deleted. done.
Qed.

(** Changing or removing a device keeps the push method row in step with
    the enrolled devices and never leaves a compliant account non-compliant. *)
Theorem device_change_keeps_enrollment newid user now m d d' :
  device_change newid user now m -> mfa_methods d !! newid = None -> m d = inr (tt, d') ->
  push_row d' user = enrolled_factors d' user 2 /\
  (compliantEnrollmentTx d user = true -> compliantEnrollmentTx d' user = true).
Proof.
  intros Hc Hn Hr. destruct (device_change_shape _ _ _ _ _ _ Hc Hr) as (audit & w & n & d1 & Hch & Hw & Hm).
  clear Hr Hc. unfold changeEnrollmentDevice in Hch. apply tx_bind_inr in Hch as (e & d0 & He & Hch). injection He as <- <-.
  apply tx_bind_inr in Hch as (n' & d2 & Hw' & Hch). rewrite Hw in Hw'. injection Hw' as <- <-.
  apply tx_bind_inr in Hch as (u1 & d2 & Hg & Hch). apply tx_guard_inr in Hg as [_ ->].
  apply tx_bind_inr in Hch as (u2 & d2 & Hs & Hch). apply tx_bind_inr in Hch as (u3 & d3 & Ha & Hch). audit_inv.
  apply syncPushMethodTx_inv in Hs; [|congruence].
  unfold preserveCompliantEnrollmentTx in Hch. apply tx_bind_inr in Hch as (e & d3 & He & Hch). injection He as <- <-.
  apply tx_guard_inr in Hch as [Hp ->]. split; [exact Hs|]. intros Hco. rewrite Hco in Hp. exact Hp.
Qed.

Definition sample_device : NativeDevice :=
  MkNativeDevice "dev" "bob" "phone" "ident" "android" "key" EmptyString 0 "fcm" EmptyString EmptyString true false
    "none" None "unknown" [] None t0.

(** Every account must hold a passkey or a push device; Bob holds the latter. *)
Definition device_db : DB :=
  on_enrollment_policies (fun _ => {[ "organization"%string := MkEnrollmentPolicyRow None true 6 0 1 ]}) (
  on_mfa_methods (fun _ => {[ "push1"%string := MkMFAMethod "push1" "bob" "push" EmptyString false 0 t0 ]}) (
  on_native_devices (fun _ => {[ "dev"%string := sample_device ]}) sample_db)).

Lemma device_change_keeps_enrollment_witness :
  DeleteNativeDevice "n1" "dev" "bob" None t0 device_db = inl ErrLastCompliantFactor /\
  let d := on_enrollment_policies (fun _ => ∅) device_db in
  push_row d "bob" = true /\ push_row (after (DeleteNativeDevice "n1" "dev" "bob" None t0) d) "bob" = false.
Proof.
  split; [vm_compute; reflexivity|]. cbv zeta. split; [vm_compute; reflexivity|].
  destruct (after_inr (DeleteNativeDevice "n1" "dev" "bob" None t0) (on_enrollment_policies (fun _ => ∅) device_db)) as [[] Hr];
    [eexists; vm_compute; reflexivity|].
  assert (mfa_methods (on_enrollment_policies (fun _ => ∅) device_db) !! "n1"%string = None) as Hn by (vm_compute; reflexivity).
  rewrite (proj1 (device_change_keeps_enrollment "n1" "bob" t0 _ _ _ (dc_delete "n1" "bob" t0 "dev" None) Hn Hr)).
  vm_compute. reflexivity.
Defined.
