(* ===== verification/Outbox.v ===== *)
(** The provisioning outbox: the desired state of every account and group at
    every connector ([store/provisioning.go]), the events that deliver it and
    the durable fences around remote writes ([store/sync_delivery.go], the
    claim of [store/store.go]), the app roles a profile carries
    ([store/app_roles.go]) and the remote mappings ([store/scim.go]). *)
From stdpp Require Import sorting.
From S2P Require Import Prelude Schema Access Sample Sessions Tokens.

(** ** Profiles

    The struct [scim.User] belongs to another module: [scim_object] is the JSON
    object its marshalling gives and [scim_role] that of a [scim.MultiValue]
    with a value and the primary flag.  The code relies on the ["active"]
    member. *)

Record ScimUser := MkScimUser { su_ID : string; su_UserName : string; su_DisplayName : string;
  su_Active : bool; su_Meta : option (Z * Z); su_Email : string }.

Class Codec := {
  scim_object : ScimUser -> list (string * Json);
  scim_role : string -> bool -> Json;
  sha256_hex : string -> string;
  scim_object_active u : obj_get "active" (scim_object u) = Some (JBool (su_Active u)) }.

(** [sort.Strings] and [ORDER BY] on text: byte order. *)
Definition str_le (a b : string) : Prop := String.ltb b a = false.
#[global] Instance str_le_dec a b : Decision (str_le a b) := bool_eq_dec _ _.
Definition sort_strings : list string -> list string := merge_sort str_le.

Definition pair_le (a b : string * string) : Prop :=
  String.ltb b.1 a.1 || ((a.1 =?s b.1) && String.ltb b.2 a.2) = false.
#[global] Instance pair_le_dec a b : Decision (pair_le a b) := bool_eq_dec _ _.
Definition sort_pairs : list (string * string) -> list (string * string) := merge_sort pair_le.

Definition created_le (a b : AccountSyncEvent) : Prop := (e_CreatedAt a <=? e_CreatedAt b) = true.
#[global] Instance created_le_dec a b : Decision (created_le a b) := bool_eq_dec _ _.

Section outbox.
Context `{Codec}.

(** The app roles the user holds, by name. *)
Definition app_roles_of (now : Z) (d : DB) (user app : string) : list string :=
  sort_strings (remove_dups (omap (fun kv : string * AppRole =>
    if (ro_AppID kv.2 =?s app) &&
       (bool_decide ((kv.1, user) ∈ app_role_user_assignments d) ||
        existsb (fun a : string * string => (a.1 =?s kv.1) && live_group_memberships now d a.2 user)
          (elements (app_role_group_assignments d)))
    then Some (ro_Name kv.2) else None) (map_to_list (app_roles d)))).

(** The role list; the first is primary. *)
Definition role_values (names : list string) : Json :=
  JArr (imap (fun i name => scim_role name (Nat.eqb i 0)) names).

Definition scimUserPayloadWithRoles (u : User) (active : bool) (roles : Json) : Json :=
  JObj (obj_set "roles" roles (scim_object
    (MkScimUser (u_ID u) (u_Username u) (u_DisplayName u) active (Some (u_CreatedAt u, u_UpdatedAt u)) (u_Email u)))).

Definition scimUserPayload (u : User) (active : bool) : Json :=
  scimUserPayloadWithRoles u active
    (role_values (if u_Role u =?s EmptyString then [] else [u_Role u])).

Definition scimInactivePayload (user : string) : Json :=
  JObj (scim_object (MkScimUser user EmptyString EmptyString false None EmptyString)).

Definition scimGroupSchema : string := "urn:ietf:params:scim:schemas:core:2.0:Group".

Definition scimGroupPayload (group : string) : Json :=
  JObj [("externalId", JStr group); ("id", JStr group); ("schemas", JArr [JStr scimGroupSchema])]%string.

(** A connector with an app sends that app's roles only. *)
Definition scimUserPayloadTx (now : Z) (d : DB) (u : User) (active : bool) (sys : string) : Json :=
  match find_where (app_of_system sys) (app_registry d) with
  | None => scimUserPayload u active
  | Some (app, _) => scimUserPayloadWithRoles u active (role_values (app_roles_of now d (u_ID u) app))
  end.

(** ** Outbox rows *)

Definition update_events (p : AccountSyncEvent -> bool) (g : AccountSyncEvent -> AccountSyncEvent) : DB -> DB :=
  on_account_sync_events (map (fun e => if p e then g e else e)).

Definition delete_events (p : AccountSyncEvent -> bool) : DB -> DB :=
  on_account_sync_events (List.filter (fun e => negb (p e))).

Definition of_resource (sys res : string) (e : AccountSyncEvent) : bool :=
  (e_SystemID e =?s sys) && (e_UserID e =?s res).

(** An attempt that holds this event. *)
Definition fence_on (d : DB) (e : AccountSyncEvent) : bool :=
  exists_where (fun a => da_EventID a =?s e_ID e) (sync_delivery_attempts d).

Definition unsent (d : DB) (sys res : string) (e : AccountSyncEvent) : bool :=
  of_resource sys res e && one_of (e_Status e) ["pending"; "failed"]%string && negb (fence_on d e).

Definition insert_event (e : AccountSyncEvent) : STx unit :=
  d <- tx_get ;;
  tx_guard (negb (existsb (fun x => e_ID x =?s e_ID e) (account_sync_events d)) &&
    one_of (e_Status e) ["pending"; "delivered"; "failed"]%string) ErrConstraint ;;;
  tx_set (on_account_sync_events (fun l => l ++ [e])).

Definition insertResourceEventTx (id sys res kind : string) (payload : Json) (revision now : Z) : STx unit :=
  insert_event (MkAccountSyncEvent EmptyString id res sys kind payload revision 0 0 "pending" EmptyString
    None None now now).

Definition desired_event_types : list string :=
  ["user.created"; "user.updated"; "group.updated"; "group.deleted"]%string.

Record desiredState := MkDesired { ds_systemID : string; ds_resourceID : string; ds_kind : string;
  ds_active : bool; ds_payload : Json; ds_members : string; ds_force : bool; ds_deleted : bool }.

Definition desired_type (s : desiredState) (provisioned : bool) : string :=
  if ds_deleted s then "user.deleted"
  else if (ds_kind s =?s "group") && ds_active s then "group.updated"
  else if ds_kind s =?s "group" then "group.deleted"
  else if ds_active s && (negb provisioned || ds_force s) then "user.created"
  else "user.updated".

Definition is_provisioned (d : DB) (sys res : string) : bool :=
  match sync_resource_state d !! (sys, res) with Some st => rs_Provisioned st | None => false end.

Definition is_fenced (d : DB) (sys res : string) : bool :=
  negb (is_null (sync_delivery_attempts d !! (sys, res))).

(** The upsert of [sync_resource_state]: a conflict keeps kind, provisioned and
    delivery_revision, and clears the acknowledgement. *)
Definition next_state (s : desiredState) (o : option SyncResourceState) : SyncResourceState :=
  match o with
  | None => MkSyncResourceState (ds_kind s) (ds_active s) false 1 0 (ds_members s) None EmptyString None
  | Some st => MkSyncResourceState (rs_Kind st) (ds_active s) (rs_Provisioned st) (rs_Revision st + 1)
      (rs_DeliveryRevision st) (ds_members s) None (rs_Observed st) (rs_ObservedAt st)
  end.

(** A reset that a removal overtakes, moved behind it with the removal's body. *)
Definition moved_reset (s : desiredState) (revision now : Z) (r : AccountSyncEvent) : AccountSyncEvent :=
  MkAccountSyncEvent EmptyString (e_ID r) (e_UserID r) (e_SystemID r) (e_EventType r) (ds_payload s) revision 0
    (e_Attempts r) (e_Status r) (e_LastError r) (e_NextAttempt r) None (e_CreatedAt r) now.

(** Record the desired state and queue the event that delivers it, superseding
    unfenced work for the resource. *)
Definition queueDesiredStateTx (newid : string -> string -> string) (s : desiredState) (now : Z) : STx unit :=
  d <- tx_get ;;
  let sys := ds_systemID s in
  let res := ds_resourceID s in
  let provisioned := is_provisioned d sys res in
  let fenced := is_fenced d sys res in
  tx_set (delete_events (fun e => unsent d sys res e && one_of (e_EventType e) desired_event_types)) ;;;
  let is_reset e := (ds_kind s =?s "user") && (negb (ds_active s) || ds_deleted s) &&
    unsent d sys res e && (e_EventType e =?s "user.mfa_reset") in
  let resets := List.filter is_reset (account_sync_events d) in
  tx_set (delete_events is_reset) ;;;
  if (ds_kind s =?s "group") && negb (ds_active s) && negb provisioned && negb fenced then
    tx_set (on_sync_resource_state (delete (sys, res)))
  else
    tx_guard (negb (is_null (paired_systems d !! sys))) ErrConstraint ;;;
    let st := next_state s (sync_resource_state d !! (sys, res)) in
    tx_set (on_sync_resource_state <[(sys, res) := st]>) ;;;
    insertResourceEventTx (newid sys res) sys res (desired_type s provisioned) (ds_payload s) (rs_Revision st) now ;;;
    tx_iter (fun r => insert_event (moved_reset s (rs_Revision st) now r)) resets.

(** ** Queueing *)

Definition live_system (d : DB) (sys : string) : bool :=
  match paired_systems d !! sys with Some s => ps_Status s <>?s "disabled" | None => false end.

(** Connectors where the account is desired. *)
Definition desired_at (d : DB) (res : string) : list (string * SyncResourceState) :=
  omap (fun kv : (string * string) * SyncResourceState =>
    if (kv.1.2 =?s res) && (rs_Kind kv.2 =?s "user") && rs_Active kv.2 && live_system d kv.1.1
    then Some (kv.1.1, kv.2) else None) (map_to_list (sync_resource_state d)).

Definition queueUserNotificationTx (newid : string -> string -> string) (u : User) (kind : string) (now : Z) : STx unit :=
  d <- tx_get ;;
  tx_iter (fun t : string * SyncResourceState =>
    insertResourceEventTx (newid t.1 (u_ID u)) t.1 (u_ID u) kind
      (scimUserPayloadTx now d u (u_Status u =?s "active") t.1) (rs_Revision t.2) now) (desired_at d (u_ID u)).

Definition queueUserUpdateTx (newid : string -> string -> string) (u : User) (now : Z) : STx unit :=
  d <- tx_get ;;
  tx_iter (fun sys =>
    queueDesiredStateTx newid (MkDesired sys (u_ID u) "user" true (scimUserPayloadTx now d u true sys) EmptyString false false) now)
    (List.filter (fun sys => system_access now d sys (u_ID u)) (map fst (desired_at d (u_ID u)))).

(** ** Reconciliation *)

Definition inactive_at (d : DB) (sys user : string) : bool :=
  match sync_resource_state d !! (sys, user) with Some st => negb (rs_Active st) | None => true end.

Definition gains (now : Z) (d : DB) : list (string * string) :=
  sort_pairs (List.filter (fun p : string * string =>
      live_system d p.1 && system_access now d p.1 p.2 && inactive_at d p.1 p.2)
    (list_prod (map fst (map_to_list (paired_systems d))) (map fst (map_to_list (users d))))).

Definition losses (now : Z) (d : DB) : list (string * string) :=
  sort_pairs (map fst (List.filter (fun kv : (string * string) * SyncResourceState =>
      (rs_Kind kv.2 =?s "user") && rs_Active kv.2 && live_system d kv.1.1 &&
      negb (system_access now d kv.1.1 kv.1.2))
    (map_to_list (sync_resource_state d)))).

(** The profile of a possibly deleted account. *)
Definition removal_payload (now : Z) (d : DB) (sys user : string) : Json :=
  match get_user now d user with
  | Some u => scimUserPayloadTx now d u false sys
  | None => scimInactivePayload user
  end.

(** [desiredGroupsTx]; an empty [sys] selects every connector. *)
Definition desiredGroupsTx (d : DB) (sys : string) : list (string * string) :=
  sort_pairs (concat (map (fun kv : string * AppRecord =>
    match a_SystemID kv.2 with
    | None => []
    | Some s =>
      match paired_systems d !! s with
      | Some ps =>
        if ps_GroupsEnabled ps && (ps_SystemType ps =?s "scim") && (ps_Status ps <>?s "disabled") &&
           ((sys =?s EmptyString) || (s =?s sys))
        then omap (fun ag : string * string =>
          if (ag.1 =?s kv.1) && negb (is_null (directory_groups d !! ag.2)) then Some (s, ag.2) else None)
          (elements (app_group_assignments d))
        else []
      | None => []
      end
    end) (map_to_list (app_registry d)))).

Fixpoint join_lines (first : bool) (l : list string) : string :=
  match l with
  | [] => EmptyString
  | x :: l' => String.append (if first then x else String (Ascii.ascii_of_N 10) x) (join_lines false l')
  end.

(** The group's name and its in-scope members. *)
Definition groupMembersHashTx (now : Z) (d : DB) (sys group : string) : string :=
  let name := match directory_groups d !! group with Some g => g_Name g | None => EmptyString end in
  let ids := sort_strings (omap (fun kv : (string * string) * option Z =>
    if (kv.1.1 =?s group) && unexpired kv.2 (unix now) && system_access now d sys kv.1.2 then Some kv.1.2 else None)
    (map_to_list (group_memberships d))) in
  sha256_hex (String.append name (String (Ascii.ascii_of_N 10) (join_lines true ids))).

Definition queueGroupTx (newid : string -> string -> string) (sys group : string) (force : bool) (now : Z) : STx unit :=
  d <- tx_get ;;
  queueDesiredStateTx newid (MkDesired sys group "group" true (scimGroupPayload group)
    (groupMembersHashTx now d sys group) force false) now.

(** Groups whose connector opted in but whose app no longer assigns them. *)
Definition lost_groups (d : DB) : list (string * string) :=
  map fst (List.filter (fun kv : (string * string) * SyncResourceState =>
    (rs_Kind kv.2 =?s "group") && rs_Active kv.2 && live_system d kv.1.1 &&
    match paired_systems d !! kv.1.1 with Some ps => ps_GroupsEnabled ps | None => false end &&
    negb (existsb (fun ag : string * string =>
      match app_registry d !! ag.1 with
      | Some a => (ag.2 =?s kv.1.2) && app_of_system kv.1.1 a
      | None => false
      end) (elements (app_group_assignments d)))) (map_to_list (sync_resource_state d))).

Definition reconcileGroupsTx (newid : string -> string -> string) (force : bool) (now : Z) : STx unit :=
  d <- tx_get ;;
  tx_iter (fun g : string * string =>
    d <- tx_get ;;
    let hash := groupMembersHashTx now d g.1 g.2 in
    if force || match sync_resource_state d !! g with
                | Some st => negb (rs_Active st) || (rs_Members st <>?s hash)
                | None => true
                end
    then queueGroupTx newid g.1 g.2 force now else tx_ret tt) (desiredGroupsTx d EmptyString) ;;;
  d <- tx_get ;;
  tx_iter (fun g : string * string =>
    queueDesiredStateTx newid (MkDesired g.1 g.2 "group" false (scimGroupPayload g.2) EmptyString false false) now)
    (lost_groups d).

Definition current_revision (d : DB) (e : AccountSyncEvent) : option Z :=
  rs_Revision <$> sync_resource_state d !! (e_SystemID e, e_UserID e).

Definition stateless (e : AccountSyncEvent) : bool :=
  one_of (e_EventType e) ["user.deleted"; "user.mfa_reset"]%string.

Definition exhausted (d : DB) (e : AccountSyncEvent) : bool := (e_Status e =?s "failed") && negb (fence_on d e).

(** Exhausted work that a newer state overtook goes; the rest re-enters backoff. *)
Definition overtaken (d : DB) (e : AccountSyncEvent) : bool :=
  exhausted d e && negb (stateless e) && negb (e_Revision e =? default (-1) (current_revision d e)).

Definition revivable (d : DB) (e : AccountSyncEvent) : bool :=
  exhausted d e && (stateless e || opt_test (Z.eqb (e_Revision e)) (current_revision d e)) &&
  negb (is_null (paired_systems d !! e_SystemID e)).

Definition revive (now : Z) (e : AccountSyncEvent) : AccountSyncEvent :=
  set_e_Status "pending" (set_e_Attempts 0 (set_e_NextAttempt (Some (now + 30 * minute)) (set_e_UpdatedAt now e))).

Definition queue_gain (newid : string -> string -> string) (now : Z) (p : string * string) : STx unit :=
  d <- tx_get ;;
  match get_user now d p.2 with
  | None => tx_ret tt
  | Some u => queueDesiredStateTx newid (MkDesired p.1 p.2 "user" true (scimUserPayloadTx now d u true p.1)
      EmptyString false false) now
  end.

Definition queue_loss (newid : string -> string -> string) (now : Z) (p : string * string) : STx unit :=
  d <- tx_get ;;
  queueDesiredStateTx newid (MkDesired p.1 p.2 "user" false (removal_payload now d p.1 p.2) EmptyString false false) now.

(** Move every connector from its recorded desired state to what access implies.
    The gains join [users], so a missing account cannot end the pass early. *)
Definition reconcileProvisioningTx (newid : string -> string -> string) (now : Z) : STx unit :=
  d <- tx_get ;;
  tx_iter (queue_gain newid now) (gains now d) ;;;
  tx_iter (queue_loss newid now) (losses now d) ;;;
  reconcileGroupsTx newid false now ;;;
  d <- tx_get ;;
  tx_set (delete_events (overtaken d)) ;;;
  d <- tx_get ;;
  tx_set (update_events (revivable d) (revive now)).

Definition ReconcileProvisioning (newid : string -> string -> string) (now : Z) : DB -> (StoreError + unit) * DB :=
  commit (reconcileProvisioningTx newid now).


(** ** Delivery *)

Definition SyncAttemptBudget : Z := 5.

(** Whether the event takes access away. *)
Definition Removal (e : AccountSyncEvent) : bool :=
  one_of (e_EventType e) ["user.deleted"; "group.deleted"]%string ||
  ((e_EventType e =?s "user.updated") &&
   match json_get "active" (e_Payload e) with Some (JBool false) => true | _ => false end).

(** The same predicate in SQL, where [json_extract] renders false as 0. *)
Definition removalSQL (e : AccountSyncEvent) : bool :=
  one_of (e_EventType e) ["user.deleted"; "group.deleted"]%string ||
  ((e_EventType e =?s "user.updated") &&
   match json_get "active" (e_Payload e) with Some (JBool false) => true | Some (JNum n) => n =? 0 | _ => false end).

(** A removal's own fence is released past its recovery time. *)
Definition releaseFencesForRemovalsTx (now : Z) (d : DB) : DB :=
  let d := update_events (fun e =>
      exists_where (fun a => (da_EventID a =?s e_ID e) && (da_RecoverAfter a <=? now)) (sync_delivery_attempts d) &&
      removalSQL e)
    (fun e => set_e_Status "pending" (set_e_NextAttempt None (set_e_LeaseUntil None
      (set_e_ClaimToken EmptyString (set_e_UpdatedAt now e))))) d in
  on_sync_delivery_attempts (delete_where (fun a => (da_RecoverAfter a <=? now) &&
    existsb (fun e => (e_ID e =?s da_EventID a) && removalSQL e) (account_sync_events d))) d.

(** A reset reactivates only an account that is desired, active and in scope. *)
Definition reset_active (now : Z) (d : DB) (e : AccountSyncEvent) : bool :=
  match sync_resource_state d !! (e_SystemID e, e_UserID e), users d !! e_UserID e with
  | Some st, Some u => rs_Active st && (u_Status u =?s "active") && unexpired (u_EndsAt u) (unix now) &&
      system_access now d (e_SystemID e) (e_UserID e)
  | _, _ => false
  end.

Definition inactive_profile (profile : list (string * Json)) : list (string * Json) :=
  let p := obj_set "active" (JBool false) profile in
  match obj_get "status" p with Some _ => obj_set "status" (JStr "disabled") p | None => p end.

(** Assign the event its delivery revision, once. *)
Definition prepareSyncDeliveryTx (now : Z) (ev : AccountSyncEvent) : STx AccountSyncEvent :=
  if negb (e_DeliveryRevision ev =? 0) || negb (String.prefix "user." (e_EventType ev)) then tx_ret ev else
  d <- tx_get ;;
  payload <- (if e_EventType ev =?s "user.mfa_reset" then
      match e_Payload ev with
      | JObj profile => tx_ret (JObj (if reset_active now d ev then profile else inactive_profile profile))
      | _ => tx_fail (ErrText "sync user profile must be a JSON object")
      end
    else tx_ret (e_Payload ev)) ;;
  tx_guard (negb (is_null (paired_systems d !! e_SystemID ev))) ErrConstraint ;;;
  let key := (e_SystemID ev, e_UserID ev) in
  let st := match sync_resource_state d !! key with
    | Some st => st
    | None => MkSyncResourceState "user" false false 0 0 EmptyString None EmptyString None
    end in
  let rev := Z.max (Z.max (rs_DeliveryRevision st + 1) (rs_Revision st + 1)) (e_Revision ev) in
  tx_set (on_sync_resource_state <[key := set_rs_DeliveryRevision rev st]>) ;;;
  tx_set (update_events (fun x => e_ID x =?s e_ID ev)
    (fun x => set_e_DeliveryRevision rev (set_e_Payload payload x))) ;;;
  tx_ret (set_e_DeliveryRevision rev (set_e_Payload payload ev)).

(** The roles of a claimed profile are the ones held now. *)
Definition refreshSyncEventRolesTx (now : Z) (ev : AccountSyncEvent) : STx AccountSyncEvent :=
  if negb (one_of (e_EventType ev) ["user.created"; "user.updated"; "user.deleted"; "user.mfa_reset"]%string)
  then tx_ret ev else
  d <- tx_get ;;
  match find_where (app_of_system (e_SystemID ev)) (app_registry d) with
  | None => tx_ret ev
  | Some (app, _) =>
    match e_Payload ev with
    | JObj profile =>
      let payload := JObj (obj_set "roles" (role_values (app_roles_of now d (e_UserID ev) app)) profile) in
      tx_set (update_events (fun x => e_ID x =?s e_ID ev) (set_e_Payload payload)) ;;;
      tx_ret (set_e_Payload payload ev)
    | _ => tx_fail (ErrText "sync user profile must be a JSON object")
    end
  end.

Definition deliverableTypes : list string :=
  ["scim"; "suite_webhook"; "kypost"; "kypasswords"; "kybookmarks"; "kynotes"]%string.

(** Work that holds back what was queued after it for the same resource. *)
Definition waiting (e : AccountSyncEvent) : bool :=
  (e_Status e =?s "pending") || ((e_Status e =?s "failed") && (e_EventType e =?s "user.mfa_reset")).

(** A connector that is gone cannot hold an event back; a disabled, held or
    unsupported one does. *)
Definition sendable (d : DB) (sys : string) : bool :=
  match paired_systems d !! sys with
  | Some ps => (ps_Status ps <>?s "disabled") && negb (ps_ProvisioningHold ps) && one_of (ps_SystemType ps) deliverableTypes
  | None => true
  end.

Definition due (now : Z) (o : option Z) : bool := match o with Some t => t <=? now | None => true end.

(** The scan in rowid order: [older] are the rows before this one. *)
Fixpoint claimable (now : Z) (d : DB) (older l : list AccountSyncEvent) : list AccountSyncEvent :=
  match l with
  | [] => []
  | e :: l' =>
    let rest := claimable now d (older ++ [e]) l' in
    if (e_Status e =?s "pending") && negb (is_fenced d (e_SystemID e) (e_UserID e)) &&
       negb (existsb (fun o => of_resource (e_SystemID e) (e_UserID e) o && waiting o) older) &&
       sendable d (e_SystemID e) && due now (e_NextAttempt e) && due now (e_LeaseUntil e)
    then e :: rest else rest
  end.

Fixpoint tx_map {A B} (f : A -> STx B) (l : list A) : STx (list B) :=
  match l with
  | [] => tx_ret []
  | a :: l' => b <- f a ;; bs <- tx_map f l' ;; tx_ret (b :: bs)
  end.

(** Take the lease under a fresh claim token. *)
Definition claim_event (token : string -> string) (until now : Z) (ev : AccountSyncEvent) : STx (option AccountSyncEvent) :=
  d <- tx_get ;;
  let ev := set_e_ClaimToken (token (e_ID ev)) ev in
  let p x := (e_ID x =?s e_ID ev) && due now (e_LeaseUntil x) in
  tx_set (update_events p (fun x => set_e_LeaseUntil (Some until) (set_e_UpdatedAt now (set_e_ClaimToken (e_ClaimToken ev) x)))) ;;;
  tx_ret (if Nat.eqb (length (List.filter p (account_sync_events d))) 1 then Some ev else None).

Definition ClaimDueSyncEvents (token : string -> string) (limit : nat) (lease now : Z) : STx (list AccountSyncEvent) :=
  tx_set (releaseFencesForRemovalsTx now) ;;;
  d <- tx_get ;;
  let events := firstn limit (merge_sort created_le (claimable now d [] (account_sync_events d))) in
  events <- tx_map (fun ev => ev <- prepareSyncDeliveryTx now ev ;; refreshSyncEventRolesTx now ev) events ;;
  claimed <- tx_map (claim_event token (now + lease) now) events ;;
  tx_ret (omap id claimed).

(** A claim still held becomes the resource's fence, unless one is there. *)
Definition BeginSyncDelivery (ev : AccountSyncEvent) (duration now : Z) (d : DB) : (StoreError + bool) * DB :=
  match List.find (fun x => (e_ID x =?s e_ID ev) && (e_ClaimToken x =?s e_ClaimToken ev) && (e_ClaimToken x <>?s EmptyString) &&
      opt_test (Z.ltb now) (e_LeaseUntil x) && (e_Status x =?s "pending")) (account_sync_events d) with
  | Some x =>
    let key := (e_SystemID x, e_UserID x) in
    if is_fenced d (e_SystemID x) (e_UserID x) then (inr false, d)
    else if exists_where (fun a => da_Token a =?s e_ClaimToken x) (sync_delivery_attempts d) then (inl ErrConstraint, d)
    else (inr true, on_sync_delivery_attempts <[key := MkSyncDeliveryAttempt (e_ClaimToken x) (e_ID x) (e_EventType x)
        now (now + duration)]> d)
  | None => (inr false, d)
  end.

(** A confirmed first delivery re-queues the groups holding the user. *)
Definition provisionedTx (newid : string -> string -> string) (ev : AccountSyncEvent) (now : Z) : STx unit :=
  let sys := e_SystemID ev in
  let key := (sys, e_UserID ev) in
  (if one_of (e_EventType ev) ["user.deleted"; "user.updated"]%string then
     tx_set (on_sync_resource_state (alter (fun st =>
       if (rs_Kind st =?s "user") && negb (rs_Active st) && (rs_Revision st =? e_Revision ev)
       then set_rs_OffboardedAt (Some now) st else st) key))
   else tx_ret tt) ;;;
  if one_of (e_EventType ev) ["user.created"; "group.updated"]%string then
    d <- tx_get ;;
    match sync_resource_state d !! key with
    | Some st =>
      if rs_Provisioned st then tx_ret tt else
      tx_set (on_sync_resource_state <[key := set_rs_Provisioned true st]>) ;;;
      if e_EventType ev =?s "group.updated" then tx_ret tt else
      tx_iter (fun g : string * string =>
        d <- tx_get ;;
        if live_group_memberships now d g.2 (e_UserID ev) then queueGroupTx newid g.1 g.2 true now else tx_ret tt)
        (desiredGroupsTx d sys)
    | None => tx_ret tt
    end
  else if e_EventType ev =?s "group.deleted" then
    tx_set (on_sync_resource_state (fun t => match t !! key with
      | Some st => if (rs_Kind st =?s "group") && negb (rs_Active st) then delete key t else t
      | None => t
      end))
  else tx_ret tt.

(** The status an outcome is recorded with. *)
Definition finish_status (ev : AccountSyncEvent) (status : string) (attempts : Z) : string :=
  if (status =?s "pending") && (SyncAttemptBudget <=? attempts) && negb (Removal ev) && (e_EventType ev <>?s "user.mfa_reset")
  then "failed" else status.

Definition mark_system (sys : string) (g : PairedSystem -> PairedSystem) : DB -> DB :=
  on_paired_systems (alter (fun ps => if ps_Status ps =?s "disabled" then ps else g ps) sys).

Definition FinishSyncDelivery (newid : string -> string -> string) (ev : AccountSyncEvent) (status message : string)
    (attempts : Z) (next : option Z) (now : Z) : STx unit :=
  let status := finish_status ev status attempts in
  d <- tx_get ;;
  tx_guard (count_where (fun a => da_Token a =?s e_ClaimToken ev) (sync_delivery_attempts d) =? 1)
    (ErrText "delivery attempt changed") ;;;
  let mine x := (e_ID x =?s e_ID ev) && (e_ClaimToken x =?s e_ClaimToken ev) in
  tx_guard (one_of status ["pending"; "delivered"; "failed"]%string || negb (existsb mine (account_sync_events d))) ErrConstraint ;;;
  tx_set (on_sync_delivery_attempts (delete_where (fun a => da_Token a =?s e_ClaimToken ev))) ;;;
  tx_set (update_events mine (fun x => set_e_Status status (set_e_LastError message (set_e_Attempts attempts (set_e_NextAttempt next
      (set_e_LeaseUntil None (set_e_ClaimToken EmptyString (set_e_UpdatedAt now x)))))))) ;;;
  if status =?s "delivered" then
    provisionedTx newid ev now ;;;
    tx_set (mark_system (e_SystemID ev) (fun ps => set_ps_LastSyncedAt (Some now) (set_ps_Status "active" ps)))
  else if message <>?s EmptyString then tx_set (mark_system (e_SystemID ev) (set_ps_Status "failing"))
  else tx_ret tt.

Definition releaseAttemptEventTx (event : string) (now : Z) : DB -> DB :=
  update_events (fun x => e_ID x =?s event) (fun x => set_e_Status "pending" (set_e_Attempts 0 (set_e_NextAttempt None
    (set_e_LeaseUntil None (set_e_ClaimToken EmptyString (set_e_LastError EmptyString
    (set_e_DeliveryRevision (if e_EventType x =?s "user.mfa_reset" then 0 else e_DeliveryRevision x) (set_e_UpdatedAt now x)))))))).

(** An operator who established remote quiescence releases one fence. *)
Definition ResumeSyncDelivery (sys token : string) (allowCreateRetry : bool) (audit : option AuditEvent) (now : Z) : STx unit :=
  d <- tx_get ;;
  match List.find (fun kv : (string * string) * SyncDeliveryAttempt =>
      (kv.1.1 =?s sys) && (da_Token kv.2 =?s token) && (da_RecoverAfter kv.2 <=? now)) (map_to_list (sync_delivery_attempts d)) with
  | None => tx_fail (ErrText "attempt changed or still within delivery window")
  | Some ((_, user), a) =>
    tx_set (on_sync_delivery_attempts (delete (sys, user))) ;;;
    (if allowCreateRetry then
       tx_set (on_scim_user_links (fun t => match t !! (sys, user) with
         | Some l => if sl_RemoteID l =?s EmptyString then delete (sys, user) t else t
         | None => t
         end))
     else tx_ret tt) ;;;
    tx_set (releaseAttemptEventTx (da_EventID a) now) ;;;
    recordAuditTx audit now
  end.

(** Every expired attempt of one connector; the audit gains the released tokens. *)
Definition ResumeSyncDeliveries (sys : string) (audit : AuditEvent) (now : Z) : STx Z :=
  d <- tx_get ;;
  let expired kv := ((kv : (string * string) * SyncDeliveryAttempt).1.1 =?s sys) && (da_RecoverAfter kv.2 <=? now) in
  let rows := List.filter expired (map_to_list (sync_delivery_attempts d)) in
  tx_guard (negb (Nat.eqb (length rows) 0)) (ErrText "no expired attempts") ;;;
  tx_set (on_sync_delivery_attempts (filter (fun kv => expired kv = false))) ;;;
  tx_iter (fun kv => tx_set (releaseAttemptEventTx (da_EventID kv.2) now)) rows ;;;
  let details := match ae_Details audit with JObj l => l | _ => [] end in
  recordAuditTx (Some (set_ae_Details (JObj (obj_set "attemptTokens" (JArr (map (fun kv => JStr (da_Token kv.2)) rows)) details)) audit)) now ;;;
  tx_ret (Z.of_nat (length rows)).

Definition MarkSyncDeliveryUncertain (ev : AccountSyncEvent) (now : Z) (d : DB) : DB :=
  let fenced := exists_where (fun a => da_Token a =?s e_ClaimToken ev) (sync_delivery_attempts d) in
  let d := update_events (fun x => (e_ID x =?s e_ID ev) && (e_ClaimToken x =?s e_ClaimToken ev))
    (fun x => set_e_LastError "remote write outcome uncertain; operator recovery required" (set_e_UpdatedAt now x)) d in
  if fenced then mark_system (e_SystemID ev) (set_ps_Status "failing") d else d.

Definition UpdateSyncEventStatus (id status message : string) (attempts : Z) (next : option Z) (now : Z) : DB -> DB :=
  update_events (fun x => e_ID x =?s id) (fun x => set_e_Status status (set_e_LastError message (set_e_Attempts attempts
    (set_e_NextAttempt next (set_e_LeaseUntil None (set_e_UpdatedAt now x)))))).

Definition ReleaseSyncEventLease (id : string) : DB -> DB :=
  update_events (fun x => e_ID x =?s id) (set_e_LeaseUntil None).

Definition DeleteDeliveredSyncEvents (olderThan : Z) : DB -> DB :=
  delete_events (fun x => (e_Status x =?s "delivered") && (e_UpdatedAt x <? olderThan)).

(** ** Resynchronisation *)

Definition ResyncSystem (newid again : string -> string -> string) (sys : string) (audit : option AuditEvent) (now : Z) : STx unit :=
  d <- tx_get ;;
  tx_guard (negb (is_null (paired_systems d !! sys))) ErrNotFound ;;;
  reconcileProvisioningTx newid now ;;;
  d <- tx_get ;;
  let held := List.filter (fun user => match sync_resource_state d !! (sys, user) with
      | Some st => (rs_Kind st =?s "user") && rs_Active st | None => false end)
    (sort_strings (map fst (map_to_list (users d)))) in
  tx_iter (fun user =>
    d <- tx_get ;;
    match get_user now d user with
    | Some u => queueDesiredStateTx again (MkDesired sys user "user" true (scimUserPayloadTx now d u true sys) EmptyString true false) now
    | None => tx_ret tt
    end) held ;;;
  d <- tx_get ;;
  let mapped user := match scim_user_links d !! (sys, user) with
    | Some l => (sl_Kind l =?s "user") && (sl_RemoteID l <>?s EmptyString) | None => false end in
  let orphans := List.filter (fun k : string * string => (k.1 =?s sys) && mapped k.2 &&
      negb (system_access now d sys k.2) && is_null (sync_resource_state d !! k)) (map fst (map_to_list (scim_user_links d))) in
  tx_iter (fun k => tx_set (on_sync_resource_state <[k := MkSyncResourceState "user" false true 0 0 EmptyString None EmptyString None]>)) orphans ;;;
  tx_set (on_sync_resource_state (map_imap (fun k st =>
    Some (if (k.1 =?s sys) && (rs_Kind st =?s "user") && negb (rs_Active st) && negb (rs_Provisioned st) && mapped k.2
          then set_rs_Provisioned true st else st)))) ;;;
  d <- tx_get ;;
  let removed := sort_strings (omap (fun kv : (string * string) * SyncResourceState =>
    if (kv.1.1 =?s sys) && (rs_Kind kv.2 =?s "user") && negb (rs_Active kv.2) then Some kv.1.2 else None)
    (map_to_list (sync_resource_state d))) in
  tx_iter (fun user => queue_loss again now (sys, user)) removed ;;;
  d <- tx_get ;;
  tx_iter (fun g : string * string => queueGroupTx again g.1 g.2 true now) (desiredGroupsTx d sys) ;;;
  recordAuditTx audit now.

(** What a remote group should hold now: its name and its members at the target, by remote ID. *)
Definition SCIMGroupMembers (sys group : string) (now : Z) (d : DB) : option (string * list (string * string)) :=
  match directory_groups d !! group with
  | None => None
  | Some g => Some (g_Name g, map (fun p : string * string => (p.2, p.1)) (sort_pairs (omap (fun kv : (string * string) * option Z =>
      match scim_user_links d !! (sys, kv.1.2) with
      | Some l => if (kv.1.1 =?s group) && unexpired kv.2 (unix now) && (sl_Kind l =?s "user") &&
                     (sl_RemoteID l <>?s EmptyString) && system_access now d sys kv.1.2
                  then Some (sl_RemoteID l, kv.1.2) else None
      | None => None
      end) (map_to_list (group_memberships d)))))
  end.

(** ** Remote mappings *)

Definition SCIMRemote (sys kind local : string) (d : DB) : option string :=
  match scim_user_links d !! (sys, local) with
  | Some l => if sl_Kind l =?s kind then Some (sl_RemoteID l) else None
  | None => None
  end.

(** Only the first caller may create remotely. *)
Definition StartSCIMCreate (sys kind local : string) (d : DB) : (StoreError + bool) * DB :=
  if is_null (paired_systems d !! sys) || (local =?s EmptyString) then (inl ErrConstraint, d) else
  match scim_user_links d !! (sys, local) with
  | Some _ => (inr false, d)
  | None => (inr true, on_scim_user_links <[(sys, local) := MkSCIMLink kind EmptyString]> d)
  end.

(** A remote resource is mapped once per connector and kind. *)
Definition remote_taken (d : DB) (sys kind local remote : string) : bool :=
  existsb (fun kv : (string * string) * SCIMLink => (kv.1.1 =?s sys) && (kv.1.2 <>?s local) && (sl_Kind kv.2 =?s kind) &&
    (sl_RemoteID kv.2 =?s remote)) (map_to_list (scim_user_links d)).

Definition SaveSCIMLink (sys kind local remote : string) (d : DB) : (StoreError + unit) * DB :=
  if one_of remote [EmptyString; "."; ".."]%string then (inl (ErrText "invalid remote ID"), d) else
  if is_null (paired_systems d !! sys) || (local =?s EmptyString) || remote_taken d sys kind local remote
  then (inl ErrConstraint, d) else
  match scim_user_links d !! (sys, local) with
  | Some l =>
    if (sl_Kind l =?s kind) && ((sl_RemoteID l =?s EmptyString) || (sl_RemoteID l =?s remote))
    then (inr tt, on_scim_user_links <[(sys, local) := MkSCIMLink (sl_Kind l) remote]> d)
    else (inl (ErrText "remote mapping changed"), d)
  | None => (inr tt, on_scim_user_links <[(sys, local) := MkSCIMLink kind remote]> d)
  end.

Definition drop_link (sys local : string) (p : SCIMLink -> bool) : DB -> DB :=
  on_scim_user_links (fun t => match t !! (sys, local) with Some l => if p l then delete (sys, local) t else t | None => t end).

Definition RejectSCIMCreate (sys kind local : string) : DB -> DB :=
  drop_link sys local (fun l => (sl_Kind l =?s kind) && (sl_RemoteID l =?s EmptyString)).

Definition DeleteSCIMLink (sys kind local : string) : DB -> DB :=
  drop_link sys local (fun l => sl_Kind l =?s kind).

Definition ConfigureSystem (newid : string -> string -> string) (sys oldType newType encrypted : string) (groups : bool)
    (reconcileHours : Z) (audit : option AuditEvent) (now : Z) : STx unit :=
  tx_guard ((0 <=? reconcileHours) && (reconcileHours <=? 24 * 30)) (ErrInput "reconcile interval must be 0 to 720 hours") ;;;
  d <- tx_get ;;
  match paired_systems d !! sys with
  | Some ps =>
    tx_guard (ps_SystemType ps =?s oldType) (ErrInput "system changed; reload and retry") ;;;
    tx_set (on_paired_systems <[sys := MkPairedSystem (ps_ID ps) (ps_Name ps) newType (ps_Description ps) (ps_IconURL ps) 
      (ps_CallbackURL ps) encrypted (ps_Status ps) (ps_LastSyncedAt ps) (ps_CreatedAt ps) groups reconcileHours (ps_ProvisioningHold ps)]>) ;;;
    reconcileProvisioningTx newid now ;;;
    recordAuditTx audit now
  | None => tx_fail (ErrInput "system changed; reload and retry")
  end.

End outbox.

(** ** Facts *)

Section facts.
Context `{Codec}.

(** The outbox writes two tables only. *)
Definition queued (d d' : DB) : Prop := exists es st,
  d' = on_account_sync_events (fun _ => es) (on_sync_resource_state (fun _ => st) d).

Lemma queued_refl d : queued d d.
Proof. by exists (account_sync_events d), (sync_resource_state d). Qed.

Lemma queued_trans d1 d2 d3 : queued d1 d2 -> queued d2 d3 -> queued d1 d3.
Proof. intros (e & s & ->) (e' & s' & ->). by exists e', s'. Qed.

Lemma queued_events f d : queued d (on_account_sync_events f d).
Proof. by exists (f (account_sync_events d)), (sync_resource_state d). Qed.

Lemma queued_state f d : queued d (on_sync_resource_state f d).
Proof. by exists (account_sync_events d), (f (sync_resource_state d)). Qed.

Lemma queued_iter {A} (f : A -> STx unit) l : (forall a s u s', f a s = inr (u, s') -> queued s s') ->
  forall d u d', tx_iter f l d = inr (u, d') -> queued d d'.
Proof.
  intros Hf d u d' Hr. apply (tx_iter_preserves (queued d) f l) in Hr; [done| |apply queued_refl].
  intros. by eapply queued_trans, Hf.
Qed.

Lemma insert_event_inv e d u d' : insert_event e d = inr (u, d') ->
  (forall x, In x (account_sync_events d) -> e_ID x <> e_ID e) /\
  d' = on_account_sync_events (fun l => l ++ [e]) d.
Proof.
  unfold insert_event. intros Hr. tx_inv. split; [|done]. bool_hyps. intros x Hx He.
  match goal with H : existsb _ _ = false |- _ => apply not_true_iff_false in H; apply H end.
  apply existsb_exists. exists x. by rewrite He, streqb_refl.
Qed.

Lemma insert_events_inv {A} (f : A -> AccountSyncEvent) l : forall d u d',
  tx_iter (fun a => insert_event (f a)) l d = inr (u, d') ->
  d' = on_account_sync_events (fun es => es ++ map f l) d.
Proof.
  induction l as [|a l IH]; intros d u d' Hr; cbn [tx_iter] in Hr.
  - injection Hr as _ <-. unfold on_account_sync_events. cbn [map]. by rewrite app_nil_r.
  - apply tx_bind_inr in Hr as (? & d1 & H1 & Hr). apply insert_event_inv in H1 as [_ ->]. apply IH in Hr as ->.
    cbn. unfold on_account_sync_events. cbn. by rewrite <- app_assoc.
Qed.

(** A group that was never created is forgotten rather than deleted. *)
Definition forgotten (d : DB) (s : desiredState) : bool :=
  (ds_kind s =?s "group") && negb (ds_active s) && negb (is_provisioned d (ds_systemID s) (ds_resourceID s)) &&
  negb (is_fenced d (ds_systemID s) (ds_resourceID s)).

Definition superseded (d : DB) (s : desiredState) (e : AccountSyncEvent) : bool :=
  unsent d (ds_systemID s) (ds_resourceID s) e &&
  (one_of (e_EventType e) desired_event_types ||
   ((ds_kind s =?s "user") && (negb (ds_active s) || ds_deleted s) && (e_EventType e =?s "user.mfa_reset"))).

Definition moved (d : DB) (s : desiredState) : list AccountSyncEvent :=
  List.filter (fun e => (ds_kind s =?s "user") && (negb (ds_active s) || ds_deleted s) &&
    unsent d (ds_systemID s) (ds_resourceID s) e && (e_EventType e =?s "user.mfa_reset")) (account_sync_events d).

Definition desired_event (id : string) (d : DB) (s : desiredState) (now : Z) : AccountSyncEvent :=
  MkAccountSyncEvent EmptyString id (ds_resourceID s) (ds_systemID s)
    (desired_type s (is_provisioned d (ds_systemID s) (ds_resourceID s))) (ds_payload s)
    (rs_Revision (next_state s (sync_resource_state d !! (ds_systemID s, ds_resourceID s)))) 0 0 "pending"
    EmptyString None None now now.

Lemma filter_filter {A} (p q : A -> bool) l :
  List.filter p (List.filter q l) = List.filter (fun x => q x && p x) l.
Proof.
  induction l as [|x l IH]; [done|]. cbn. destruct (q x) eqn:Eq; cbn; [destruct (p x)|]; rewrite ?IH; done.
Qed.

Lemma filter_ext_in' {A} (p q : A -> bool) l : (forall x, In x l -> p x = q x) -> List.filter p l = List.filter q l.
Proof. apply List.filter_ext_in. Qed.

(** What one queueing does, statement by statement. *)
Lemma queue_inv newid s now d u d' : queueDesiredStateTx newid s now d = inr (u, d') ->
  let key := (ds_systemID s, ds_resourceID s) in
  let kept := List.filter (fun e => negb (superseded d s e)) (account_sync_events d) in
  if forgotten d s then
    d' = on_account_sync_events (fun _ => kept) (on_sync_resource_state (delete key) d)
  else
    let st := next_state s (sync_resource_state d !! key) in
    (forall x, In x kept -> e_ID x <> newid (ds_systemID s) (ds_resourceID s)) /\
    d' = on_account_sync_events (fun _ => kept ++ desired_event (newid (ds_systemID s) (ds_resourceID s)) d s now ::
           map (moved_reset s (rs_Revision st) now) (moved d s))
         (on_sync_resource_state <[key := st]> d).
Proof.
  unfold queueDesiredStateTx. intros Hr. cbv zeta in *.
  apply tx_bind_inr in Hr as (a1 & d0 & He & Hr). injection He as <- <-.
  apply tx_bind_inr in Hr as (a2 & d0 & He & Hr). injection He as _ <-.
  apply tx_bind_inr in Hr as (a3 & d0 & He & Hr). injection He as _ <-.
  set (kept := List.filter _ (account_sync_events d)).
  match type of Hr with (if _ then _ else _) ?x = _ => set (d1 := x) in Hr end.
  assert (d1 = on_account_sync_events (fun _ => kept) d) as E.
  { unfold d1, delete_events, on_account_sync_events. cbn. f_equal. rewrite filter_filter. apply filter_ext_in'.
    intros x _. unfold superseded. destruct (unsent d _ _ x); cbn; [|by rewrite andb_false_r].
    repeat (destruct (e_EventType x =?s _); cbn; rewrite ?andb_true_r, ?andb_false_r; try done). }
  clearbody d1. subst d1. fold (forgotten d s) in Hr. destruct (forgotten d s); [by injection Hr as _ <-|].
  apply tx_bind_inr in Hr as (a4 & d0 & He & Hr). apply tx_guard_inr in He as [_ ->].
  apply tx_bind_inr in Hr as (a5 & d0 & He & Hr). injection He as _ <-.
  apply tx_bind_inr in Hr as (a6 & d0 & He & Hr). apply insert_event_inv in He as [Hfresh ->].
  cbn -[kept] in Hfresh. split; [exact Hfresh|].
  apply insert_events_inv in Hr as ->. unfold on_account_sync_events, on_sync_resource_state. cbn -[kept next_state].
  f_equal. by rewrite <- app_assoc.
Qed.

Lemma queue_queued newid s now d u d' : queueDesiredStateTx newid s now d = inr (u, d') -> queued d d'.
Proof.
  intros Hr. apply queue_inv in Hr. cbv zeta in Hr. destruct (forgotten d s); [subst d'|destruct Hr as [_ ->]].
  - eapply queued_trans; [apply queued_state|apply queued_events].
  - eapply queued_trans; [apply queued_state|apply queued_events].
Qed.

(** The state rows after one queueing. *)
Lemma queue_state newid s now d u d' k : queueDesiredStateTx newid s now d = inr (u, d') ->
  sync_resource_state d' !! k =
    if decide (k = (ds_systemID s, ds_resourceID s)) then
      if forgotten d s then None else Some (next_state s (sync_resource_state d !! k))
    else sync_resource_state d !! k.
Proof.
  intros Hr. apply queue_inv in Hr. cbv zeta in Hr. destruct (forgotten d s); [subst d'|destruct Hr as [_ ->]]; cbn;
    destruct (decide _) as [->|Hne]; rewrite ?lookup_delete_eq, ?lookup_insert_eq, ?lookup_delete_ne, ?lookup_insert_ne; auto.
Qed.

(** Access does not depend on the outbox. *)
Lemma queued_access now d d' sys user : queued d d' -> system_access now d' sys user = system_access now d sys user.
Proof. by intros (es & st & ->). Qed.

Lemma queued_live d d' sys : queued d d' -> live_system d' sys = live_system d sys.
Proof. by intros (es & st & ->). Qed.

(** Running one queueing per listed pair leaves exactly those rows in the queued state. *)
Definition wants (active : bool) (f : string * string -> STx unit) (P : DB -> Prop) : Prop :=
  forall p d u d', P d -> f p d = inr (u, d') -> P d' /\ queued d d' /\
    (forall k, k <> p -> sync_resource_state d' !! k = sync_resource_state d !! k) /\
    exists st, sync_resource_state d' !! p = Some st /\ rs_Active st = active /\
      rs_Kind st = match sync_resource_state d !! p with Some x => rs_Kind x | None => "user"%string end.

Lemma wants_iter active f P l : wants active f P -> forall d u d', P d -> tx_iter f l d = inr (u, d') ->
  queued d d' /\
  (forall k, ~ In k l -> sync_resource_state d' !! k = sync_resource_state d !! k) /\
  (forall k, In k l -> exists st, sync_resource_state d' !! k = Some st /\ rs_Active st = active /\
      rs_Kind st = match sync_resource_state d !! k with Some x => rs_Kind x | None => "user"%string end).
Proof.
  intros Hw. induction l as [|p l IH]; intros d u d' HP Hr; cbn [tx_iter] in Hr.
  { injection Hr as _ <-. split; [apply queued_refl|]. by split. }
  apply tx_bind_inr in Hr as (u1 & d1 & H1 & Hr). apply Hw in H1 as (HP1 & Hq & Hne & st & Hst & Ha & Hk); [|done].
  destruct (IH _ _ _ HP1 Hr) as (Hq2 & Hout & Hin). split; [by eapply queued_trans|]. split.
  - intros k Hn. rewrite Hout by (intros ?; apply Hn; by right). apply Hne. intros ->. apply Hn. by left.
  - intros k Hk'. destruct (in_dec (fun a b => decide (a = b)) k l) as [Hi|Hi].
    + destruct (Hin k Hi) as (st' & ? & ? & Hkind). exists st'. split_and!; [done|done|]. rewrite Hkind.
      destruct (decide (k = p)) as [->|Hd]; [by rewrite Hst|by rewrite Hne].
    + destruct Hk' as [<-|]; [|done]. rewrite Hout by done. eauto.
Qed.

Lemma queue_user_wants newid active payload now p d u d' :
  queueDesiredStateTx newid (MkDesired p.1 p.2 "user" active payload EmptyString false false) now d = inr (u, d') ->
  queued d d' /\ (forall k, k <> p -> sync_resource_state d' !! k = sync_resource_state d !! k) /\
    exists st, sync_resource_state d' !! p = Some st /\ rs_Active st = active /\
      rs_Kind st = match sync_resource_state d !! p with Some x => rs_Kind x | None => "user"%string end.
Proof.
  intros Hr. split; [by eapply queue_queued|]. destruct p as [sys user]. cbn [fst snd] in Hr. split.
  - intros k Hk. rewrite (queue_state _ _ _ _ _ _ k Hr). cbn. by rewrite decide_False.
  - rewrite (queue_state _ _ _ _ _ _ (sys, user) Hr). cbn. rewrite decide_True by done.
    eexists. split; [done|]. destruct (sync_resource_state d !! (sys, user)); by cbn.
Qed.

Lemma loss_wants newid now : wants false (queue_loss newid now) (fun _ => True).
Proof.
  intros p d u d' _ Hr. split; [done|]. unfold queue_loss in Hr. apply tx_bind_inr in Hr as (e & d0 & He & Hr).
  injection He as <- <-. by apply queue_user_wants in Hr.
Qed.

Lemma gain_iter newid now l : forall d u d', (forall p, In p l -> is_Some (users d !! p.2)) ->
  tx_iter (queue_gain newid now) l d = inr (u, d') ->
  queued d d' /\
  (forall k, ~ In k l -> sync_resource_state d' !! k = sync_resource_state d !! k) /\
  (forall k, In k l -> exists st, sync_resource_state d' !! k = Some st /\ rs_Active st = true /\
      rs_Kind st = match sync_resource_state d !! k with Some x => rs_Kind x | None => "user"%string end).
Proof.
  intros d u d' Hu Hr. apply (wants_iter true (fun p => if in_dec (fun a b => decide (a = b)) p l then queue_gain newid now p else tx_fail ErrNoRows)
    (fun e => forall p, In p l -> is_Some (users e !! p.2)) l) with (d := d) (u := u); [|done|].
  - intros p e v e' HP. destruct (in_dec _ p l) as [Hi|]; [|done]. intros He. unfold queue_gain in He.
    apply tx_bind_inr in He as (x & d0 & Hx & He). injection Hx as <- <-.
    destruct (HP p Hi) as [usr Husr]. assert (get_user now e p.2 = Some (scanUser now usr)) as Hgu by (unfold get_user; by rewrite Husr).
    rewrite Hgu in He.
    apply queue_user_wants in He as (Hq & Hne & Hst). split; [|done].
    intros q Hq'. destruct Hq as (es & st & ->). cbn. by apply HP.
  - assert (forall l', incl l' l -> forall e, tx_iter (fun p => if in_dec (fun a b => decide (a = b)) p l
        then queue_gain newid now p else tx_fail ErrNoRows) l' e = tx_iter (queue_gain newid now) l' e) as Heq.
    { induction l' as [|p l' IH]; intros Hincl e; [done|]. cbn [tx_iter]. unfold tx_bind.
      destruct (in_dec _ p l) as [|Hn]; [|destruct Hn; by apply Hincl; left].
      destruct (queue_gain newid now p e) as [|[? e']]; [done|]. apply IH. intros ? ?. apply Hincl. by right. }
    rewrite Heq; [done|apply incl_refl].
Qed.

Lemma in_sort_pairs l p : In p (sort_pairs l) <-> In p l.
Proof.
  unfold sort_pairs. rewrite <- !list_elem_of_In. by rewrite (merge_sort_Permutation pair_le l).
Qed.

Lemma in_gains now d sys user : In (sys, user) (gains now d) <->
  is_Some (users d !! user) /\ live_system d sys = true /\ system_access now d sys user = true /\ inactive_at d sys user = true.
Proof.
  unfold gains. rewrite in_sort_pairs, filter_In, in_prod_iff. cbn [fst snd]. rewrite !andb_true_iff, !in_map_iff. split.
  - intros ([_ ([u x] & <- & Hu)] & [Hl Ha] & Hi). apply list_elem_of_In, elem_of_map_to_list in Hu. cbn in *. eauto.
  - intros ([u Hu] & Hl & Ha & Hi). split_and!; [|exists (user, u)|done..].
    + unfold live_system in Hl. destruct (paired_systems d !! sys) as [ps|] eqn:E; [|done]. exists (sys, ps). split; [done|].
      by apply list_elem_of_In, elem_of_map_to_list.
    + split; [done|]. by apply list_elem_of_In, elem_of_map_to_list.
Qed.

Lemma in_losses now d sys user : In (sys, user) (losses now d) <->
  live_system d sys = true /\ system_access now d sys user = false /\
  exists st, sync_resource_state d !! (sys, user) = Some st /\ rs_Kind st = "user"%string /\ rs_Active st = true.
Proof.
  unfold losses. rewrite in_sort_pairs, in_map_iff. split.
  - intros ([k st] & Hk & Hin). cbn in Hk. subst k. apply filter_In in Hin as [Hin Hp].
    apply list_elem_of_In, elem_of_map_to_list in Hin. cbn [fst snd] in Hp. bool_hyps. eauto 8.
  - intros (Hl & Ha & st & Hst & Hk & Hact). exists ((sys, user), st). split; [done|]. apply filter_In. split.
    + by apply list_elem_of_In, elem_of_map_to_list.
    + cbn [fst snd]. by rewrite Hk, Hact, Hl, Ha.
Qed.

(** Group work leaves the row of an account alone. *)
Lemma reconcileGroups_keeps newid force now d u d' sys user :
  reconcileGroupsTx newid force now d = inr (u, d') ->
  directory_groups d !! user = None ->
  (forall st, sync_resource_state d !! (sys, user) = Some st -> rs_Kind st = "user"%string) ->
  queued d d' /\ sync_resource_state d' !! (sys, user) = sync_resource_state d !! (sys, user).
Proof.
  intros Hr Hg Hk. unfold reconcileGroupsTx in Hr. apply tx_bind_inr in Hr as (a & d0 & He & Hr). injection He as <- <-.
  apply tx_bind_inr in Hr as (a2 & d1 & H1 & Hr).
  set (P := fun e => queued d e /\ sync_resource_state e !! (sys, user) = sync_resource_state d !! (sys, user)).
  assert (P d1) as [Hq1 Hs1].
  { apply (tx_iter_preserves P) in H1; [done| |split; [apply queued_refl|done]].
    intros [s g] e v e' Hin [Hq Hs] He. apply tx_bind_inr in He as (b & e0 & Hb & He). injection Hb as <- <-. cbv zeta in He.
    destruct (_ || _); [|by injection He as _ <-]. unfold queueGroupTx in He.
    apply tx_bind_inr in He as (b & e0 & Hb & He). injection Hb as <- <-. split; [by eapply queued_trans, queue_queued|].
    rewrite (queue_state _ _ _ _ _ _ (sys, user) He). cbn. rewrite decide_False; [done|]. intros [= -> ->].
    unfold desiredGroupsTx in Hin. rewrite in_sort_pairs in Hin. apply in_concat in Hin as (l & Hl & Hin).
    apply in_map_iff in Hl as ([ak a] & <- & _). cbn in Hin. destruct (a_SystemID a); [|done].
    destruct (paired_systems d !! _); [|done]. destruct (_ && _ && _ && _); [|done].
    apply list_elem_of_In, list_elem_of_omap in Hin as ([? g'] & _ & Hin). cbn in Hin.
    destruct (_ =?s ak); [|done]. cbn in Hin. destruct (directory_groups d !! g') eqn:Eg; [|done].
    cbn in Hin. injection Hin as -> ->. congruence. }
  apply tx_bind_inr in Hr as (b & e0 & Hb & Hr). injection Hb as <- <-.
  apply (tx_iter_preserves P) in Hr; [done| |by split].
  intros [s g] e v e' Hin [Hq Hs] He. split; [by eapply queued_trans, queue_queued|].
  rewrite (queue_state _ _ _ _ _ _ (sys, user) He). cbn. rewrite decide_False; [done|]. intros [= -> ->].
  unfold lost_groups in Hin. apply in_map_iff in Hin as ([k st] & E & Hin). cbn in E. subst k.
  apply filter_In in Hin as [Hin Hp]. apply list_elem_of_In, elem_of_map_to_list in Hin. cbn [fst snd] in Hp. bool_hyps.
  rewrite Hs1 in Hin. specialize (Hk _ Hin). congruence.
Qed.

(** ** Properties *)

(** The connector is meant to hold the account. *)
Definition desired_active (d : DB) (sys user : string) : bool :=
  match sync_resource_state d !! (sys, user) with Some st => (rs_Kind st =?s "user") && rs_Active st | None => false end.

(** The row of one account after a pass, access being untouched by it. *)
Lemma reconcile_active newid now d d' sys user :
  reconcileProvisioningTx newid now d = inr (tt, d') ->
  live_system d sys = true -> directory_groups d !! user = None ->
  (forall st, sync_resource_state d !! (sys, user) = Some st -> rs_Kind st = "user"%string) ->
  desired_active d' sys user = system_access now d' sys user /\ system_access now d' sys user = system_access now d sys user.
Proof.
  intros Hr Hl Hg Hk. unfold reconcileProvisioningTx in Hr.
  apply tx_bind_inr in Hr as (a1 & d0 & He & Hr). injection He as <- <-.
  apply tx_bind_inr in Hr as (a2 & d1 & H1 & Hr). apply tx_bind_inr in Hr as (a3 & d2 & H2 & Hr).
  apply tx_bind_inr in Hr as (a4 & d3 & H3 & Hr).
  apply tx_bind_inr in Hr as (a5 & d0 & He & Hr). injection He as <- <-.
  apply tx_bind_inr in Hr as (a6 & d0 & He & Hr). injection He as _ <-.
  apply tx_bind_inr in Hr as (a7 & d0 & He & Hr). injection He as _ <-. injection Hr as <-.
  apply gain_iter in H1 as (Hq1 & Hout1 & Hin1).
  2:{ intros [s u] Hp%in_gains. apply Hp. }
  apply (wants_iter false _ _ _ (loss_wants newid now)) in H2 as (Hq2 & Hout2 & Hin2); [|done].
  assert (queued d d2) as Hq12 by (by eapply queued_trans).
  assert (system_access now d sys user = true -> is_Some (users d !! user)) as Huser.
  { intros Ha. apply exists_where_true in Ha as (app & r & _ & Hp). unfold effective_app_access in Hp. bool_hyps.
    destruct (app_registry d !! a_ID r), (users d !! user); eauto; done. }
  assert ((forall st, sync_resource_state d2 !! (sys, user) = Some st -> rs_Kind st = "user"%string) /\
    desired_active d2 sys user = system_access now d sys user) as [Hk2 Hd2].
  { unfold desired_active.
    destruct (in_dec (fun a b => decide (a = b)) (sys, user) (losses now d)) as [Hi|Hi].
    - destruct (Hin2 _ Hi) as (st & Hst & Hact & Hkind). rewrite Hst. apply in_losses in Hi as (_ & -> & st0 & Hst0 & _ & Hact0).
      rewrite Hact, andb_false_r. split; [|done]. intros st' [= <-]. rewrite Hkind.
      rewrite Hout1; [by rewrite Hst0; apply Hk|]. rewrite in_gains. unfold inactive_at. rewrite Hst0, Hact0. by intros (_ & _ & _ & ?).
    - rewrite (Hout2 _ Hi). destruct (in_dec (fun a b => decide (a = b)) (sys, user) (gains now d)) as [Hj|Hj].
      + destruct (Hin1 _ Hj) as (st & Hst & Hact & Hkind). rewrite Hst. apply in_gains in Hj as (_ & _ & -> & _).
        assert (rs_Kind st = "user"%string) as Hku.
        { rewrite Hkind. destruct (sync_resource_state d !! (sys, user)) as [x|] eqn:E; [by apply Hk|done]. }
        split; [by intros ? [= <-]|]. by rewrite Hku, Hact.
      + rewrite (Hout1 _ Hj). split; [done|]. destruct (system_access now d sys user) eqn:Ea.
        * rewrite in_gains in Hj. destruct (sync_resource_state d !! (sys, user)) as [st|] eqn:E.
          -- rewrite (Hk _ eq_refl). cbn. destruct (rs_Active st) eqn:Eact; [done|]. exfalso. apply Hj.
             split_and!; [auto|done..|]. unfold inactive_at. by rewrite E, Eact.
          -- exfalso. apply Hj. split_and!; [auto|done..|]. unfold inactive_at. by rewrite E.
        * destruct (sync_resource_state d !! (sys, user)) as [st|] eqn:E; [|done].
          rewrite (Hk _ eq_refl). cbn. destruct (rs_Active st) eqn:Eact; [|done]. exfalso. apply Hi, in_losses.
          split_and!; [done..|]. exists st. rewrite (Hk _ eq_refl). done. }
  apply (reconcileGroups_keeps _ _ _ _ _ _ sys user) in H3 as [Hq3 Hs3]; [|destruct Hq12 as (? & ? & ->); exact Hg|done].
  match goal with |- desired_active ?x _ _ = _ /\ _ => set (d' := x) end.
  assert (queued d d') as Hq' by (eapply queued_trans; [exact Hq12|]; eapply queued_trans; [exact Hq3|];
    eapply queued_trans; apply queued_events).
  rewrite (queued_access _ _ _ _ _ Hq'). split; [|done]. rewrite <- Hd2. unfold desired_active.
  replace (sync_resource_state d' !! (sys, user)) with (sync_resource_state d3 !! (sys, user)) by done. by rewrite Hs3.
Qed.

(** C5. After a provisioning pass the recorded desired state of every account at
    every live connector equals the access the database grants, and the pass
    does not change that access: the incremental outbox refines its
    specification, desired state = access. *)
Theorem reconcile_reaches_access newid now d d' :
  reconcileProvisioningTx newid now d = inr (tt, d') ->
  (forall user, directory_groups d !! user <> None -> users d !! user = None) ->
  (forall sys user st, sync_resource_state d !! (sys, user) = Some st -> users d !! user <> None -> rs_Kind st = "user"%string) ->
  forall sys user, live_system d sys = true -> users d !! user <> None ->
    desired_active d' sys user = system_access now d' sys user /\ system_access now d' sys user = system_access now d sys user.
Proof.
  intros Hr Hg Hk sys user Hl Hu. apply (reconcile_active newid now d d'); [done|done| |].
  - destruct (directory_groups d !! user) eqn:E; [|done]. by rewrite (Hg user) in Hu by congruence.
  - intros st Hst. by apply (Hk sys user).
Qed.

Lemma filter_none {A} (p : A -> bool) l : (forall x, In x l -> p x = false) -> List.filter p l = [].
Proof.
  induction l as [|x l IH]; intros Hp; [done|]. cbn. rewrite (Hp x) by by left. apply IH. intros ? ?. apply Hp. by right.
Qed.

Lemma of_resource_moved d s r : In r (moved d s) ->
  of_resource (ds_systemID s) (ds_resourceID s) r = true /\ e_EventType r = "user.mfa_reset"%string.
Proof.
  unfold moved, unsent. intros Hr. apply filter_In in Hr as [_ Hp]. bool_hyps. done.
Qed.

(** Queueing a desired state stores it and its event and removes exactly
    the unsent events it supersedes: no other unsent desired-state event of
    that resource remains, and other resources' events are untouched. *)
Theorem queue_supersedes newid s now d d' :
  queueDesiredStateTx newid s now d = inr (tt, d') -> forgotten d s = false ->
  let sys := ds_systemID s in let res := ds_resourceID s in
  let ev := desired_event (newid sys res) d s now in
  sync_resource_state d' !! (sys, res) = Some (next_state s (sync_resource_state d !! (sys, res))) /\
  In ev (account_sync_events d') /\
  (forall e, In e (account_sync_events d') -> unsent d' sys res e = true ->
     one_of (e_EventType e) desired_event_types = true -> e = ev) /\
  List.filter (fun e => negb (of_resource sys res e)) (account_sync_events d') =
  List.filter (fun e => negb (of_resource sys res e)) (account_sync_events d).
Proof.
  intros Hr Hf. cbv zeta. pose proof (queue_state _ _ _ _ _ _ (ds_systemID s, ds_resourceID s) Hr) as Hst.
  rewrite decide_True, Hf in Hst by done. split; [exact Hst|]. clear Hst.
  apply queue_inv in Hr. cbv zeta in Hr. rewrite Hf in Hr. destruct Hr as [_ ->].
  set (ev := desired_event _ d s now). set (st := next_state s _).
  set (sys := ds_systemID s) in *. set (res := ds_resourceID s) in *.
  cbn [account_sync_events on_account_sync_events on_sync_resource_state]. split; [|split].
  - apply in_app_iff. right. by left.
  - intros e Hin Hu Ht. apply in_app_iff in Hin as [Hin|[<-|Hin]]; [|done|].
    + apply filter_In in Hin as [_ Hn]. apply negb_true_iff in Hn. unfold superseded in Hn. rewrite Ht in Hn.
      change (unsent d sys res e = true) in Hu. fold sys res in Hn. rewrite Hu in Hn. done.
    + apply in_map_iff in Hin as (r & <- & Hr). apply of_resource_moved in Hr as [_ Hr].
      unfold moved_reset in Ht. cbn [e_EventType] in Ht. by rewrite Hr in Ht.
  - rewrite List.filter_app, filter_filter. cbn [List.filter].
    assert (of_resource sys res ev = true) as -> by (unfold of_resource, ev; cbn; by rewrite !streqb_refl). cbn [negb].
    rewrite (filter_none _ (map _ _)), app_nil_r.
    + apply filter_ext_in'. intros x _. unfold superseded, unsent. fold sys res.
      destruct (of_resource sys res x); cbn [andb negb]; [by rewrite andb_false_r|done].
    + intros x Hx. apply in_map_iff in Hx as (r & <- & Hr). apply of_resource_moved in Hr as [Hr _].
      apply negb_false_iff. exact Hr.
Qed.

(** ** Claims *)

Definition resource (e : AccountSyncEvent) : string * string := (e_SystemID e, e_UserID e).

(** Rows keep their ID and type. *)
Definition evs_kept (d d' : DB) : Prop := forall x, In x (account_sync_events d') ->
  exists y, In y (account_sync_events d) /\ e_ID y = e_ID x /\ e_EventType y = e_EventType x.

Lemma evs_kept_refl d : evs_kept d d.
Proof. intros x Hx. eauto. Qed.

Lemma evs_kept_trans d1 d2 d3 : evs_kept d1 d2 -> evs_kept d2 d3 -> evs_kept d1 d3.
Proof.
  intros H1 H2 x Hx. destruct (H2 x Hx) as (y & Hy & E1 & E2). destruct (H1 y Hy) as (z & Hz & E3 & E4).
  exists z. split_and!; congruence.
Qed.

Lemma update_events_kept p g d : (forall x, e_ID (g x) = e_ID x /\ e_EventType (g x) = e_EventType x) ->
  evs_kept d (update_events p g d).
Proof.
  intros Hg x Hx. cbn in Hx. apply in_map_iff in Hx as (y & <- & Hy). exists y. split; [done|].
  destruct (p y); [|done]. by destruct (Hg y) as [-> ->].
Qed.

Lemma delete_events_kept p d : evs_kept d (delete_events p d).
Proof. intros x Hx. cbn in Hx. apply filter_In in Hx as [Hx _]. eauto. Qed.

(** A step on claimed events: same resource, same fences, rows kept. *)
Definition claim_ok (ev ev' : AccountSyncEvent) (d d' : DB) : Prop :=
  resource ev' = resource ev /\ sync_delivery_attempts d' = sync_delivery_attempts d /\
  paired_systems d' = paired_systems d /\ evs_kept d d'.

Lemma prepare_ok now ev d ev' d' : prepareSyncDeliveryTx now ev d = inr (ev', d') -> claim_ok ev ev' d d'.
Proof.
  unfold prepareSyncDeliveryTx. intros Hr. destruct (_ || _).
  { injection Hr as <- <-. split_and!; [done..|apply evs_kept_refl]. }
  apply tx_bind_inr in Hr as (a & d0 & He & Hr). injection He as <- <-.
  apply tx_bind_inr in Hr as (pl & d0 & He & Hr).
  assert (d0 = d) as ->.
  { destruct (_ =?s _); [destruct (e_Payload ev); try done|]; by injection He. }
  apply tx_bind_inr in Hr as (a & d0 & Hg & Hr). apply tx_guard_inr in Hg as [_ ->].
  apply tx_bind_inr in Hr as (a2 & d0 & Hg & Hr). injection Hg as _ <-.
  apply tx_bind_inr in Hr as (a3 & d0 & Hg & Hr). injection Hg as _ <-. injection Hr as <- <-.
  split_and!; [done..|]. eapply evs_kept_trans; [|by apply update_events_kept]. intros x Hx. by exists x.
Qed.

Lemma refresh_ok now ev d ev' d' : refreshSyncEventRolesTx now ev d = inr (ev', d') -> claim_ok ev ev' d d'.
Proof.
  unfold refreshSyncEventRolesTx. intros Hr. assert (claim_ok ev ev d d) as Hid by (split_and!; [done..|apply evs_kept_refl]).
  destruct (negb _); [by injection Hr as <- <-|].
  apply tx_bind_inr in Hr as (a & d0 & He & Hr). injection He as <- <-.
  destruct (find_where _ _) as [[app ?]|]; [|by injection Hr as <- <-].
  destruct (e_Payload ev); try done. apply tx_bind_inr in Hr as (a2 & d0 & Hg & Hr). injection Hg as _ <-. injection Hr as <- <-.
  split_and!; [done..|by apply update_events_kept].
Qed.

Lemma claim_ok_trans e1 e2 e3 d1 d2 d3 : claim_ok e1 e2 d1 d2 -> claim_ok e2 e3 d2 d3 -> claim_ok e1 e3 d1 d3.
Proof.
  intros (H1 & H2 & H3 & H4) (G1 & G2 & G3 & G4). split_and!; [congruence..|by eapply evs_kept_trans].
Qed.

(** Mapping a claim step over a list keeps the resources. *)
Lemma tx_map_ok (f : AccountSyncEvent -> STx AccountSyncEvent) l :
  (forall ev d ev' d', f ev d = inr (ev', d') -> claim_ok ev ev' d d') ->
  forall d l' d', tx_map f l d = inr (l', d') -> map resource l' = map resource l /\
    sync_delivery_attempts d' = sync_delivery_attempts d /\ paired_systems d' = paired_systems d /\ evs_kept d d'.
Proof.
  intros Hf. induction l as [|ev l IH]; intros d l' d' Hr; cbn [tx_map] in Hr.
  { injection Hr as <- <-. split_and!; [done..|apply evs_kept_refl]. }
  apply tx_bind_inr in Hr as (ev' & d1 & H1 & Hr). apply tx_bind_inr in Hr as (l1 & d2 & H2 & Hr). injection Hr as <- <-.
  apply Hf in H1 as (R1 & A1 & P1 & K1). apply IH in H2 as (R2 & A2 & P2 & K2).
  split_and!; [cbn; congruence|congruence..|by eapply evs_kept_trans].
Qed.

Lemma claim_map_ok token until now l : forall d l' d', tx_map (claim_event token until now) l d = inr (l', d') ->
  sublist (map resource (omap id l')) (map resource l) /\
    sync_delivery_attempts d' = sync_delivery_attempts d /\ paired_systems d' = paired_systems d /\ evs_kept d d'.
Proof.
  induction l as [|ev l IH]; intros d l' d' Hr; cbn [tx_map] in Hr.
  { injection Hr as <- <-. split_and!; [done..|apply evs_kept_refl]. }
  apply tx_bind_inr in Hr as (o & d1 & H1 & Hr). apply tx_bind_inr in Hr as (l1 & d2 & H2 & Hr). injection Hr as <- <-.
  unfold claim_event in H1. apply tx_bind_inr in H1 as (a & d0 & He & H1). injection He as <- <-. cbv zeta in H1.
  apply tx_bind_inr in H1 as (a2 & d0 & He & H1). injection He as _ <-. injection H1 as <- <-.
  apply IH in H2 as (R2 & A2 & P2 & K2). split_and!; [|exact A2|exact P2|].
  - destruct (Nat.eqb _ 1); cbn; [|by apply sublist_cons]. by apply sublist_skip.
  - eapply evs_kept_trans; [|exact K2]. by apply update_events_kept.
Qed.

(** The scan yields one unfenced pending event per resource: the oldest work. *)
Lemma claimable_spec now d l : forall older,
  NoDup (map resource (claimable now d older l)) /\
  forall e, In e (claimable now d older l) -> In e l /\ is_fenced d (e_SystemID e) (e_UserID e) = false /\
    sendable d (e_SystemID e) = true /\
    existsb (fun o => of_resource (e_SystemID e) (e_UserID e) o && waiting o) older = false.
Proof.
  induction l as [|x l IH]; intros older; cbn [claimable]; [split; [constructor|by intros ? []]|].
  destruct (IH (older ++ [x])) as [Hnd Hin].
  assert (forall e, In e (claimable now d (older ++ [x]) l) -> In e (x :: l) /\ is_fenced d (e_SystemID e) (e_UserID e) = false /\
    sendable d (e_SystemID e) = true /\
    existsb (fun o => of_resource (e_SystemID e) (e_UserID e) o && waiting o) older = false) as Hin'.
  { intros e He. destruct (Hin e He) as (Q1 & Q2 & Q3 & Q4). rewrite existsb_app in Q4. bool_hyps. split_and!; [by right|done..]. }
  match goal with |- context [if ?b then _ else _] => destruct b eqn:Ec end; [|by split]. bool_hyps. split.
  - cbn [map]. apply NoDup_cons. split; [|done]. intros Hx. apply list_elem_of_In, in_map_iff in Hx as (e & He & Hie).
    destruct (Hin e Hie) as (_ & _ & _ & Q4). rewrite existsb_app in Q4. bool_hyps.
    unfold resource in He. injection He as E1 E2.
    match goal with H : existsb _ [x] = false |- _ => cbn in H; unfold of_resource, waiting in H end.
    rewrite E1, E2, !streqb_refl in *. rewrite (proj2 (streqb_true (e_Status x) "pending"%string)) in * by done. done.
  - intros e [<-|He]; [|by apply Hin']. split_and!; [by left|done..].
Qed.

Lemma claimed_events now d limit :
  let evs := firstn limit (merge_sort created_le (claimable now d [] (account_sync_events d))) in
  NoDup (map resource evs) /\ forall e, In e evs -> In e (claimable now d [] (account_sync_events d)).
Proof.
  cbv zeta. set (l := claimable now d [] (account_sync_events d)).
  pose proof (merge_sort_Permutation created_le l) as Hp. split.
  - rewrite <- firstn_map. eapply sublist_NoDup; [|apply sublist_take].
    rewrite (Permutation_map resource Hp). apply claimable_spec.
  - intros e He. assert (In e (merge_sort created_le l)) as Hi.
    { rewrite <- (firstn_skipn limit). apply in_app_iff. by left. }
    rewrite <- list_elem_of_In in Hi |- *. by rewrite Hp in Hi.
Qed.

Lemma claim_inv token limit lease now d evs d' : ClaimDueSyncEvents token limit lease now d = inr (evs, d') ->
  let d1 := releaseFencesForRemovalsTx now d in
  NoDup (map resource evs) /\ sync_delivery_attempts d' = sync_delivery_attempts d1 /\ paired_systems d' = paired_systems d /\
  evs_kept d1 d' /\ forall e, In e evs -> exists x, resource x = resource e /\
    In x (claimable now d1 [] (account_sync_events d1)).
Proof.
  unfold ClaimDueSyncEvents. intros Hr. cbv zeta.
  apply tx_bind_inr in Hr as (a & d0 & He & Hr). injection He as _ <-.
  apply tx_bind_inr in Hr as (a2 & d0 & He & Hr). injection He as <- <-. cbv zeta in Hr.
  set (d1 := releaseFencesForRemovalsTx now d) in *.
  apply tx_bind_inr in Hr as (l1 & d2 & H1 & Hr). apply tx_bind_inr in Hr as (l2 & d3 & H2 & Hr). injection Hr as <- <-.
  apply tx_map_ok in H1 as (R1 & A1 & P1 & K1).
  2:{ intros ev e ev' e' Hp. apply tx_bind_inr in Hp as (ev1 & e1 & Hp1 & Hp2). apply prepare_ok in Hp1. apply refresh_ok in Hp2.
      by eapply claim_ok_trans. }
  apply claim_map_ok in H2 as (R2 & A2 & P2 & K2). destruct (claimed_events now d1 limit) as [Hnd Hcl]. rewrite R1 in R2.
  split_and!.
  - by eapply sublist_NoDup.
  - congruence.
  - rewrite P2, P1. done.
  - by eapply evs_kept_trans.
  - intros e He. assert (In (resource e) (map resource (omap id l2))) as Hi by (by apply in_map).
    apply list_elem_of_In in Hi. eapply sublist_subseteq in Hi; [|exact R2]. apply list_elem_of_In, in_map_iff in Hi as (x & Hx & Hix).
    eauto.
Qed.

(** A claim returns at most one event per connector and resource, and only
    for connectors that may be sent to and resources without a fence. *)
Theorem claim_one_per_resource token limit lease now d evs d' :
  ClaimDueSyncEvents token limit lease now d = inr (evs, d') ->
  NoDup (map resource evs) /\
  forall e, In e evs -> is_fenced d' (e_SystemID e) (e_UserID e) = false /\ sendable d' (e_SystemID e) = true.
Proof.
  intros Hr. destruct (claim_inv _ _ _ _ _ _ _ Hr) as (Hnd & Ha & Hp & _ & Hin). split; [done|]. intros e He.
  destruct (Hin e He) as (x & Hx & Hc). apply claimable_spec in Hc as (_ & Hf & Hs & _).
  unfold resource in Hx. injection Hx as E1 E2. unfold is_fenced, sendable in *. rewrite Ha, Hp. rewrite E1 in *. rewrite E2 in *. done.
Qed.

(** ** Fences *)

(** A write whose outcome, when unknown, only an operator can settle: any
    but a removal, an update included unless its profile is inactive. *)
Definition uncertain_write (e : AccountSyncEvent) : bool :=
  one_of (e_EventType e) ["user.created"; "group.updated"; "user.mfa_reset"]%string ||
  ((e_EventType e =?s "user.updated") &&
   match json_get "active" (e_Payload e) with Some (JBool b) => b | Some (JNum n) => negb (n =? 0) | _ => true end).

(** The fence [a] on [key] stands, and its event is such a write to [key]. *)
Definition fence_stands (a : SyncDeliveryAttempt) (key : string * string) (d : DB) : Prop :=
  sync_delivery_attempts d !! key = Some a /\
  forall x, In x (account_sync_events d) -> e_ID x = da_EventID a -> resource x = key /\ uncertain_write x = true.

(** Everything the outbox does short of settling [a] itself. *)
Inductive outbox_step (a : SyncDeliveryAttempt) : DB -> DB -> Prop :=
| os_begin ev duration now r d d' : BeginSyncDelivery ev duration now d = (r, d') -> outbox_step a d d'
| os_claim token limit lease now evs d d' : ClaimDueSyncEvents token limit lease now d = inr (evs, d') -> outbox_step a d d'
| os_queue newid s now d d' : (forall sys res, newid sys res <> da_EventID a) ->
    queueDesiredStateTx newid s now d = inr (tt, d') -> outbox_step a d d'
| os_notify newid u kind now d d' : (forall sys res, newid sys res <> da_EventID a) ->
    queueUserNotificationTx newid u kind now d = inr (tt, d') -> outbox_step a d d'
| os_reconcile newid now d d' : (forall sys res, newid sys res <> da_EventID a) ->
    reconcileProvisioningTx newid now d = inr (tt, d') -> outbox_step a d d'
| os_finish newid ev status message n next now d d' : (forall sys res, newid sys res <> da_EventID a) ->
    e_ClaimToken ev <> da_Token a -> FinishSyncDelivery newid ev status message n next now d = inr (tt, d') -> outbox_step a d d'
| os_resume sys token retry audit now d d' : token <> da_Token a ->
    ResumeSyncDelivery sys token retry audit now d = inr (tt, d') -> outbox_step a d d'
| os_uncertain ev now d : outbox_step a d (MarkSyncDeliveryUncertain ev now d)
| os_status id status message n next now d : outbox_step a d (UpdateSyncEventStatus id status message n next now d)
| os_release id d : outbox_step a d (ReleaseSyncEventLease id d)
| os_prune older d : outbox_step a d (DeleteDeliveredSyncEvents older d).

(** The rows with the ID [id] still write, uncertainly, to the same resource. *)
Definition same_write (id : string) (d d' : DB) : Prop := forall x, In x (account_sync_events d') -> e_ID x = id ->
  exists y, In y (account_sync_events d) /\ e_ID y = id /\ resource y = resource x /\
    (uncertain_write y = true -> uncertain_write x = true).

Lemma same_write_refl id d d' : account_sync_events d' = account_sync_events d -> same_write id d d'.
Proof. intros E x Hx He. rewrite E in Hx. eauto. Qed.

Lemma same_write_trans id d1 d2 d3 : same_write id d1 d2 -> same_write id d2 d3 -> same_write id d1 d3.
Proof.
  intros H1 H2 x Hx He. destruct (H2 x Hx He) as (y & Hy & E1 & E2 & E3). destruct (H1 y Hy E1) as (z & Hz & F1 & F2 & F3).
  exists z. split_and!; [done..|congruence|auto].
Qed.

Lemma update_same_write id p g d : (forall x, e_ID (g x) = e_ID x) ->
  (forall x, p x = true -> e_ID x = id ->
    resource (g x) = resource x /\ e_EventType (g x) = e_EventType x /\ e_Payload (g x) = e_Payload x) ->
  same_write id d (update_events p g d).
Proof.
  intros Hi Hg x Hx He. cbn in Hx. apply in_map_iff in Hx as (y & <- & Hy). exists y. split; [done|].
  destruct (p y) eqn:Ep; [|done]. rewrite Hi in He. destruct (Hg y Ep He) as (-> & E2 & E3). split_and!; [done..|].
  unfold uncertain_write. by rewrite E2, E3.
Qed.

Lemma delete_same_write id p d : same_write id d (delete_events p d).
Proof. intros x Hx He. cbn in Hx. apply filter_In in Hx as [Hx _]. eauto. Qed.

Lemma fence_other a key d d' : sync_delivery_attempts d' !! key = Some a -> same_write (da_EventID a) d d' ->
  fence_stands a key d -> fence_stands a key d'.
Proof.
  intros Ha Ho [_ Hw]. split; [done|]. intros x Hx He. destruct (Ho x Hx He) as (y & Hy & E1 & <- & E3).
  destruct (Hw y Hy E1). auto.
Qed.

(** Claiming rewrites only the events it claims. *)
Lemma tx_map_same_write {B} id (f : AccountSyncEvent -> STx B) (Q : B -> Prop) l :
  (forall ev d b d', e_ID ev <> id -> f ev d = inr (b, d') -> same_write id d d' /\ Q b) ->
  List.Forall (fun ev => e_ID ev <> id) l -> forall d bs d', tx_map f l d = inr (bs, d') ->
  same_write id d d' /\ List.Forall Q bs.
Proof.
  intros Hf. induction 1 as [|ev l He _ IH]; intros d bs d' Hr; cbn [tx_map] in Hr.
  { injection Hr as <- <-. split; [by apply same_write_refl|constructor]. }
  apply tx_bind_inr in Hr as (b & d1 & H1 & Hr). apply tx_bind_inr in Hr as (l1 & d2 & H2 & Hr). injection Hr as <- <-.
  apply Hf in H1 as [S1 N1]; [|done]. apply IH in H2 as [S2 N2]. split; [by eapply same_write_trans|by constructor].
Qed.

Lemma update_others_write id id' g d : id' <> id -> (forall x, e_ID (g x) = e_ID x) ->
  same_write id d (update_events (fun x => e_ID x =?s id') g d).
Proof. intros Hn Hg. apply update_same_write; [done|]. intros x Hp He. apply streqb_true in Hp. congruence. Qed.

Lemma prepare_same_write now id ev d ev' d' : e_ID ev <> id -> prepareSyncDeliveryTx now ev d = inr (ev', d') ->
  same_write id d d' /\ e_ID ev' = e_ID ev.
Proof.
  intros Hn Hr. unfold prepareSyncDeliveryTx in Hr. destruct (_ || _).
  { injection Hr as <- <-. split; [by apply same_write_refl|done]. }
  apply tx_bind_inr in Hr as (a & d0 & He & Hr). injection He as <- <-.
  apply tx_bind_inr in Hr as (pl & d0 & He & Hr).
  assert (d0 = d) as ->.
  { destruct (_ =?s _); [destruct (e_Payload ev); try done|]; by injection He. }
  apply tx_bind_inr in Hr as (a & d0 & Hg & Hr). apply tx_guard_inr in Hg as [_ ->].
  apply tx_bind_inr in Hr as (a2 & d0 & Hg & Hr). injection Hg as _ <-.
  apply tx_bind_inr in Hr as (a3 & d0 & Hg & Hr). injection Hg as _ <-. injection Hr as <- <-.
  split; [|done]. eapply same_write_trans; [|by apply update_others_write]. by apply same_write_refl.
Qed.

Lemma refresh_same_write now id ev d ev' d' : e_ID ev <> id -> refreshSyncEventRolesTx now ev d = inr (ev', d') ->
  same_write id d d' /\ e_ID ev' = e_ID ev.
Proof.
  intros Hn Hr. unfold refreshSyncEventRolesTx in Hr. assert (same_write id d d) as Hid by (by apply same_write_refl).
  destruct (negb _); [by injection Hr as <- <-|].
  apply tx_bind_inr in Hr as (a & d0 & He & Hr). injection He as <- <-.
  destruct (find_where _ _) as [[app ?]|]; [|by injection Hr as <- <-].
  destruct (e_Payload ev); try done. apply tx_bind_inr in Hr as (a2 & d0 & Hg & Hr). injection Hg as _ <-. injection Hr as <- <-.
  split; [|done]. by apply update_others_write.
Qed.

Lemma claim_same_write token until now id ev d o d' : e_ID ev <> id -> claim_event token until now ev d = inr (o, d') ->
  same_write id d d'.
Proof.
  intros Hn Hr. unfold claim_event in Hr. apply tx_bind_inr in Hr as (a & d0 & He & Hr). injection He as <- <-. cbv zeta in Hr.
  apply tx_bind_inr in Hr as (a2 & d0 & He & Hr). injection He as _ <-. injection Hr as _ <-. by apply update_same_write.
Qed.

Lemma claims_same_write id token limit lease now d evs d' : ClaimDueSyncEvents token limit lease now d = inr (evs, d') ->
  let d1 := releaseFencesForRemovalsTx now d in
  (forall e, In e (claimable now d1 [] (account_sync_events d1)) -> e_ID e <> id) -> same_write id d1 d'.
Proof.
  unfold ClaimDueSyncEvents. intros Hr. cbv zeta.
  apply tx_bind_inr in Hr as (a & d0 & He & Hr). injection He as _ <-.
  apply tx_bind_inr in Hr as (a2 & d0 & He & Hr). injection He as <- <-. cbv zeta in Hr.
  set (d1 := releaseFencesForRemovalsTx now d) in *. intros Hn.
  apply tx_bind_inr in Hr as (l1 & d2 & H1 & Hr). apply tx_bind_inr in Hr as (l2 & d3 & H2 & Hr). injection Hr as <- <-.
  apply (tx_map_same_write id _ (fun ev => e_ID ev <> id)) in H1 as [S1 N1].
  2:{ intros ev e ev' e' Hne Hp. apply tx_bind_inr in Hp as (ev1 & e1 & Hp1 & Hp2).
      apply (prepare_same_write _ id) in Hp1 as [Q1 E1]; [|done]. apply (refresh_same_write _ id) in Hp2 as [Q2 E2]; [|congruence].
      split; [by eapply same_write_trans|congruence]. }
  2:{ apply List.Forall_forall. intros e He. by apply Hn, (claimed_events now d1 limit). }
  apply (tx_map_same_write id _ (fun _ => True)) in H2 as [S2 _]; [by eapply same_write_trans| |exact N1].
  intros ev e b e' Hne Hc. split; [by eapply claim_same_write|done].
Qed.

Lemma queue_fence newid s now d u d' a key : (forall sys res, newid sys res <> da_EventID a) ->
  queueDesiredStateTx newid s now d = inr (u, d') -> fence_stands a key d -> fence_stands a key d'.
Proof.
  intros Hid Hr. apply queue_inv in Hr. cbv zeta in Hr.
  assert (forall x, In x (List.filter (fun e => negb (superseded d s e)) (account_sync_events d)) -> In x (account_sync_events d)) as Hkept
    by (intros x Hx; by apply filter_In in Hx as [Hx _]).
  intros Hd. assert (sync_delivery_attempts d' !! key = Some a) as Ha.
  { destruct Hd as [Hd _]. destruct (forgotten d s); [by subst d'|by destruct Hr as [_ ->]]. }
  revert Hd. apply fence_other; [exact Ha|]. clear Ha.
  destruct (forgotten d s); [subst d'|destruct Hr as [_ ->]]; cbn; intros x Hx He.
  - exists x. split; [by apply Hkept|done].
  - cbn in Hx. apply in_app_iff in Hx as [Hx|[<-|Hx]]; [exists x; split; [by apply Hkept|done]|by apply Hid in He|].
    apply in_map_iff in Hx as (r & <- & Hr). unfold moved in Hr. apply filter_In in Hr as [Hr Hp]. exists r.
    split; [done|]. split; [done|]. split; [done|]. bool_hyps. intros _. unfold uncertain_write. cbn.
    match goal with E : e_EventType r = _ |- _ => by rewrite E end.
Qed.

Lemma iter_fence {A} (f : A -> STx unit) l a key : (forall x d u d', f x d = inr (u, d') -> fence_stands a key d -> fence_stands a key d') ->
  forall d u d', tx_iter f l d = inr (u, d') -> fence_stands a key d -> fence_stands a key d'.
Proof. intros Hf d u d' Hr Hd. apply (tx_iter_preserves (fence_stands a key) f l) in Hr; [done| |done]. eauto. Qed.

Lemma group_fence newid g1 g2 force now d u d' a key : (forall sys res, newid sys res <> da_EventID a) ->
  queueGroupTx newid g1 g2 force now d = inr (u, d') -> fence_stands a key d -> fence_stands a key d'.
Proof.
  intros Hid Hr. unfold queueGroupTx in Hr. apply tx_bind_inr in Hr as (b & e0 & Hb & Hr). injection Hb as <- <-.
  by eapply queue_fence.
Qed.

Lemma reconcile_fence newid now d u d' a key : (forall sys res, newid sys res <> da_EventID a) ->
  reconcileProvisioningTx newid now d = inr (u, d') -> fence_stands a key d -> fence_stands a key d'.
Proof.
  intros Hid Hr Hd. unfold reconcileProvisioningTx in Hr.
  apply tx_bind_inr in Hr as (a1 & d0 & He & Hr). injection He as <- <-.
  apply tx_bind_inr in Hr as (a2 & d1 & H1 & Hr). apply tx_bind_inr in Hr as (a3 & d2 & H2 & Hr).
  apply tx_bind_inr in Hr as (a4 & d3 & H3 & Hr).
  apply tx_bind_inr in Hr as (a5 & d0 & He & Hr). injection He as <- <-.
  apply tx_bind_inr in Hr as (a6 & d0 & He & Hr). injection He as _ <-.
  apply tx_bind_inr in Hr as (a7 & d0 & He & Hr). injection He as _ <-. injection Hr as _ <-.
  eapply (iter_fence _ _ a key) in H1; [| |exact Hd].
  2:{ intros p e v e' He. unfold queue_gain in He. apply tx_bind_inr in He as (b & e0 & Hb & He). injection Hb as <- <-.
      destruct (get_user _ _ _); [by eapply queue_fence|by injection He as _ <-]. }
  eapply (iter_fence _ _ a key) in H2; [| |exact H1].
  2:{ intros p e v e' He. unfold queue_loss in He. apply tx_bind_inr in He as (b & e0 & Hb & He). injection Hb as <- <-.
      by eapply queue_fence. }
  assert (fence_stands a key d3) as Hd3.
  { unfold reconcileGroupsTx in H3. apply tx_bind_inr in H3 as (b & e0 & Hb & H3). injection Hb as <- <-.
    apply tx_bind_inr in H3 as (b2 & d4 & H4 & H3).
    eapply (iter_fence _ _ a key) in H4; [| |exact H2].
    2:{ intros p e v e' He. apply tx_bind_inr in He as (b & e0 & Hb & He). injection Hb as <- <-. cbv zeta in He.
        destruct (_ || _); [by eapply group_fence|by injection He as _ <-]. }
    apply tx_bind_inr in H3 as (b & e0 & Hb & H3). injection Hb as <- <-.
    eapply (iter_fence _ _ a key) in H3; [done| |exact H4]. intros. by eapply queue_fence. }
  eapply fence_other; [apply Hd3| |exact Hd3]. eapply same_write_trans; [apply delete_same_write|]. by apply update_same_write.
Qed.

Lemma uncertain_no_removal e : uncertain_write e = true -> removalSQL e = false.
Proof.
  unfold uncertain_write, removalSQL, one_of. cbn [existsb]. intros Hu.
  destruct (e_EventType e =?s "user.created") eqn:E1; [apply streqb_true in E1; by rewrite E1|].
  destruct (e_EventType e =?s "group.updated") eqn:E2; [apply streqb_true in E2; by rewrite E2|].
  destruct (e_EventType e =?s "user.mfa_reset") eqn:E3; [apply streqb_true in E3; by rewrite E3|].
  destruct (e_EventType e =?s "user.updated") eqn:E4; [|done]. apply streqb_true in E4. rewrite E4. cbn in *.
  destruct (json_get _ _) as [[| [] | | | |]|]; try done. by destruct (n =? 0).
Qed.

(** No removal is recorded under the fence's event, so its fence is not released with theirs. *)
Lemma release_fence a key now d : fence_stands a key d -> fence_stands a key (releaseFencesForRemovalsTx now d).
Proof.
  intros [Hf Hw]. unfold releaseFencesForRemovalsTx. cbv zeta.
  match goal with |- fence_stands _ _ (on_sync_delivery_attempts _ ?x) => set (d1 := x) end.
  assert (same_write (da_EventID a) d d1) as Hk by by apply update_same_write.
  assert (fence_stands a key d1) as [Hf1 Hw1] by (by apply (fence_other a key d)).
  split; [|exact Hw1]. cbn -[delete_where d1]. apply lookup_delete_where_Some. split; [exact Hf1|].
  apply andb_false_iff. right. apply not_true_iff_false. rewrite existsb_exists. intros (x & Hx & Hp). bool_hyps.
  match goal with H : e_ID x = _ |- _ => apply (Hw1 x Hx) in H as [_ Hu] end.
  by apply uncertain_no_removal in Hu; congruence.
Qed.

Lemma provisioned_fence newid ev now d u d' a key : (forall sys res, newid sys res <> da_EventID a) ->
  provisionedTx newid ev now d = inr (u, d') -> fence_stands a key d -> fence_stands a key d'.
Proof.
  intros Hid Hr Hd. unfold provisionedTx in Hr. cbv zeta in Hr. apply tx_bind_inr in Hr as (b & d1 & H1 & Hr).
  assert (fence_stands a key d1) as Hd1.
  { destruct (one_of _ _); injection H1 as _ <-; [|done]. by destruct Hd. }
  destruct (one_of (e_EventType ev) ["user.created"; "group.updated"]%string).
  - apply tx_bind_inr in Hr as (b1 & e0 & Hb & Hr). injection Hb as <- <-.
    destruct (sync_resource_state d1 !! _) as [st|]; [|by injection Hr as _ <-].
    destruct (rs_Provisioned st); [by injection Hr as _ <-|].
    apply tx_bind_inr in Hr as (b2 & e0 & Hb & Hr). injection Hb as _ <-.
    destruct (_ =?s "group.updated"); [by injection Hr as _ <-|].
    eapply (iter_fence _ _ a key) in Hr; [done| |exact Hd1].
    intros g e v e' He. apply tx_bind_inr in He as (b3 & e0 & Hb & He). injection Hb as <- <-.
    destruct (live_group_memberships _ _ _ _); [by eapply group_fence|by injection He as _ <-].
  - destruct (_ =?s "group.deleted"); injection Hr as _ <-; exact Hd1.
Qed.

Lemma mark_fence a key sys g d : fence_stands a key d -> fence_stands a key (mark_system sys g d).
Proof. done. Qed.

Lemma update_fence a key p g d : (forall x, e_ID (g x) = e_ID x) ->
  (forall x, resource (g x) = resource x /\ e_EventType (g x) = e_EventType x /\ e_Payload (g x) = e_Payload x) ->
  fence_stands a key d -> fence_stands a key (update_events p g d).
Proof. intros Hi Hg Hd. eapply fence_other; [apply Hd|by apply update_same_write|done]. Qed.

Lemma begin_fence ev duration now r d d' a key : BeginSyncDelivery ev duration now d = (r, d') ->
  fence_stands a key d -> fence_stands a key d'.
Proof.
  unfold BeginSyncDelivery. intros Hr [Hf Hw]. destruct (List.find _ _) as [x|]; [|injection Hr as _ <-; by split].
  unfold is_fenced in Hr. destruct (sync_delivery_attempts d !! (e_SystemID x, e_UserID x)) eqn:E; cbn in Hr;
    [injection Hr as _ <-; by split|].
  destruct (exists_where _ _); injection Hr as _ <-; [by split|]. split; [|exact Hw]. cbn.
  rewrite lookup_insert_ne; [done|]. intros <-. congruence.
Qed.

Lemma outbox_step_fence a key d d' : outbox_step a d d' -> fence_stands a key d -> fence_stands a key d'.
Proof.
  intros [ev dur now r e e' Hr|token limit lease now evs e e' Hr|newid s now e e' Hid Hr|newid u kind now e e' Hid Hr
    |newid now e e' Hid Hr|newid ev status message n next now e e' Hid Ht Hr|sys token retry audit now e e' Ht Hr|ev now e
    |id status message n next now e|id e|older e] Hd.
  - by eapply begin_fence.
  - pose proof (claim_inv _ _ _ _ _ _ _ Hr) as (_ & Ha & _). apply (release_fence _ _ now) in Hd.
    apply (claims_same_write (da_EventID a)) in Hr; [eapply fence_other; [rewrite Ha; apply Hd|exact Hr|exact Hd]|].
    intros x Hx Hid. apply claimable_spec in Hx as (Hx & Hfen & _). destruct Hd as [Hf Hw]. destruct (Hw x Hx Hid) as [Hk _].
    unfold is_fenced in Hfen. unfold resource in Hk. by rewrite Hk, Hf in Hfen.
  - by eapply queue_fence.
  - unfold queueUserNotificationTx in Hr. apply tx_bind_inr in Hr as (b & e0 & Hb & Hr). injection Hb as <- <-.
    eapply (iter_fence _ _ a key) in Hr; [done| |exact Hd]. intros t x v x' Hx. apply insert_event_inv in Hx as [_ ->].
    intros Hd0. eapply fence_other; [apply Hd0| |exact Hd0]. intros y Hy He. cbn in Hy.
    apply in_app_iff in Hy as [Hy|[<-|[]]]; [eauto|by apply Hid in He].
  - by eapply reconcile_fence.
  - unfold FinishSyncDelivery in Hr. cbv zeta in Hr. apply tx_bind_inr in Hr as (b & e0 & Hb & Hr). injection Hb as <- <-.
    apply tx_bind_inr in Hr as (b & e0 & Hb & Hr). apply tx_guard_inr in Hb as [_ ->].
    apply tx_bind_inr in Hr as (b2 & e0 & Hb & Hr). apply tx_guard_inr in Hb as [_ ->].
    apply tx_bind_inr in Hr as (b3 & e1 & Hb & Hr). injection Hb as _ <-.
    apply tx_bind_inr in Hr as (b4 & e1 & Hb & Hr). injection Hb as _ <-.
    match type of Hr with (if _ then _ else _) (update_events ?p ?g ?x) = _ => set (d1 := update_events p g x) in Hr end.
    assert (fence_stands a key d1) as Hd1.
    { apply update_fence; [done|done|]. destruct Hd as [Hf Hw]. split; [|exact Hw]. cbn -[delete_where].
      apply lookup_delete_where_Some. split; [done|]. apply streqb_false. congruence. }
    clearbody d1. destruct (_ =?s "delivered").
    + apply tx_bind_inr in Hr as (b5 & d2 & H2 & Hr). injection Hr as <-. apply mark_fence. by eapply provisioned_fence.
    + destruct (message <>?s EmptyString); injection Hr as <-; [by apply mark_fence|done].
  - unfold ResumeSyncDelivery in Hr. apply tx_bind_inr in Hr as (b & e0 & Hb & Hr). injection Hb as <- <-.
    destruct (List.find _ _) as [[[k1 k2] x]|] eqn:Ef; [|done]. apply find_some in Ef as [Hin Hp]. cbn [fst snd] in Hp. bool_hyps.
    apply list_elem_of_In, elem_of_map_to_list in Hin. subst k1.
    apply tx_bind_inr in Hr as (b & e1 & Hb & Hr). injection Hb as _ <-.
    apply tx_bind_inr in Hr as (b2 & e1 & Hb & Hr). apply tx_bind_inr in Hr as (b3 & e2 & Hb2 & Hr). injection Hb2 as _ <-.
    apply recordAuditTx_inv in Hr as (m & q9 & ->).
    assert (fence_stands a key e1) as He1.
    { destruct Hd as [Hf Hw]. destruct retry; injection Hb as _ <-; (split; [|exact Hw]); cbn;
        (rewrite lookup_delete_ne; [done|]); intros <-; congruence. }
    apply (update_fence a key); [done|done|exact He1].
  - unfold MarkSyncDeliveryUncertain. cbv zeta. destruct (exists_where _ _); [apply mark_fence|]; by apply update_fence.
  - by apply update_fence.
  - by apply update_fence.
  - eapply fence_other; [apply Hd|by apply delete_same_write|done].
Qed.

(** C6. While a fence stands for a write whose outcome only an operator can
    settle - a creation, a group update, a factor reset, or a user update
    that is no deactivation - no outbox operation releases it, no claim
    returns work for its resource and no second delivery begins on it. *)
Theorem unresolved_write_is_never_raced a key d d' :
  rtc (outbox_step a) d d' -> fence_stands a key d ->
  (forall token limit lease now evs d2, ClaimDueSyncEvents token limit lease now d' = inr (evs, d2) ->
     forall e, In e evs -> resource e <> key) /\
  (forall ev duration now d2, BeginSyncDelivery ev duration now d' = (inr true, d2) ->
     sync_delivery_attempts d2 !! key = Some a /\
     exists key2 b, key2 <> key /\ sync_delivery_attempts d' !! key2 = None /\ sync_delivery_attempts d2 !! key2 = Some b).
Proof.
  intros Hs Hd. assert (fence_stands a key d') as Hd'.
  { revert Hd. induction Hs as [|x y z Hstep _ IH]; [done|]. intros Hd. by apply IH, (outbox_step_fence a key x). }
  clear Hs Hd. split.
  - intros token limit lease now evs d2 Hc e He <-. apply claim_inv in Hc as (_ & Ha & _ & _ & Hin).
    destruct (Hin e He) as (x & Hx & Hcl). apply claimable_spec in Hcl as (_ & Hf & _ & _).
    unfold is_fenced in Hf. unfold resource in Hx. rewrite Hx in Hf.
    destruct (release_fence a _ now d' Hd') as [Hr _]. unfold resource in Hr. by rewrite Hr in Hf.
  - intros ev duration now d2 Hb. split; [by eapply begin_fence in Hb as [Hf _]|].
    unfold BeginSyncDelivery in Hb. destruct (List.find _ _) as [y|]; [|done]. unfold is_fenced in Hb.
    destruct (sync_delivery_attempts d' !! (e_SystemID y, e_UserID y)) eqn:E; [done|]. cbn in Hb.
    destruct (exists_where _ _); [done|]. injection Hb as <-. destruct Hd' as [Hf _].
    eexists (e_SystemID y, e_UserID y), _. split; [congruence|]. split; [done|]. cbn. by rewrite lookup_insert_eq.
Qed.

(** ** Delivery versions and resets *)

Lemma obj_set_active_inactive profile : obj_get "active" (inactive_profile profile) = Some (JBool false).
Proof.
  unfold inactive_profile. destruct (obj_get "status" _); [rewrite obj_get_set_ne by done|]; apply obj_get_set.
Qed.

(** Preparing a first delivery gives it a revision above every one the
    resource had, stores it, and a reset goes out active only while the
    account still has access. *)
Theorem prepared_delivery_is_newer now ev d ev' d' :
  prepareSyncDeliveryTx now ev d = inr (ev', d') -> e_DeliveryRevision ev = 0 -> String.prefix "user." (e_EventType ev) = true ->
  (exists st', sync_resource_state d' !! resource ev = Some st' /\ rs_DeliveryRevision st' = e_DeliveryRevision ev') /\
  e_Revision ev <= e_DeliveryRevision ev' /\
  (forall st, sync_resource_state d !! resource ev = Some st ->
     rs_DeliveryRevision st < e_DeliveryRevision ev' /\ rs_Revision st < e_DeliveryRevision ev') /\
  (e_EventType ev = "user.mfa_reset"%string -> json_get "active" (e_Payload ev') = Some (JBool true) ->
     reset_active now d ev = true).
Proof.
  unfold prepareSyncDeliveryTx. intros Hr Hz Hp. rewrite Hz, Hp in Hr. cbn [Z.eqb negb orb] in Hr.
  apply tx_bind_inr in Hr as (a & d0 & He & Hr). injection He as <- <-.
  apply tx_bind_inr in Hr as (pl & d0 & He & Hr).
  assert (d0 = d) as ->.
  { destruct (_ =?s _); [destruct (e_Payload ev); try done|]; by injection He. }
  apply tx_bind_inr in Hr as (a & d0 & Hg & Hr). apply tx_guard_inr in Hg as [_ ->].
  apply tx_bind_inr in Hr as (a2 & d0 & Hg & Hr). injection Hg as _ <-.
  apply tx_bind_inr in Hr as (a3 & d0 & Hg & Hr). injection Hg as _ <-. injection Hr as <- <-.
  unfold resource. cbn -[Z.max]. rewrite lookup_insert_eq. split_and!.
  - eexists. by split.
  - lia.
  - intros st Hst. rewrite Hst. lia.
  - intros Ht Ha. rewrite Ht in He. cbn in He. destruct (e_Payload ev) as [| | | | |profile]; try done. injection He as <-.
    destruct (reset_active now d ev); [done|]. cbn in Ha. by rewrite obj_set_active_inactive in Ha.
Qed.

(** ** Remote mappings *)

(** Creating and learning remote resources; forgetting one after it is gone is
    [DeleteSCIMLink]. *)
Inductive link_step : DB -> DB -> Prop :=
| ln_start sys kind local r d d' : StartSCIMCreate sys kind local d = (r, d') -> link_step d d'
| ln_save sys kind local remote r d d' : SaveSCIMLink sys kind local remote d = (r, d') -> link_step d d'
| ln_reject sys kind local d : link_step d (RejectSCIMCreate sys kind local d).

(** The partial unique index [scim_remote_resource]. *)
Definition links_unique (d : DB) : Prop := forall sys l1 l2 x1 x2,
  scim_user_links d !! (sys, l1) = Some x1 -> scim_user_links d !! (sys, l2) = Some x2 ->
  sl_Kind x1 = sl_Kind x2 -> sl_RemoteID x1 = sl_RemoteID x2 -> sl_RemoteID x1 <> EmptyString -> l1 = l2.

Lemma remote_taken_false d sys kind local remote : remote_taken d sys kind local remote = false ->
  forall l x, scim_user_links d !! (sys, l) = Some x -> l <> local -> sl_Kind x = kind -> sl_RemoteID x <> remote.
Proof.
  unfold remote_taken. intros Hf l x Hx Hl <- <-. apply not_true_iff_false in Hf. apply Hf, existsb_exists.
  exists ((sys, l), x). split; [by apply list_elem_of_In, elem_of_map_to_list|]. cbn. rewrite !streqb_refl.
  by rewrite (proj2 (streqb_false _ _) Hl).
Qed.

Lemma save_unique sys kind local remote d x : links_unique d -> remote_taken d sys kind local remote = false ->
  sl_Kind x = kind -> sl_RemoteID x = remote -> links_unique (on_scim_user_links <[(sys, local) := x]> d).
Proof.
  intros Hu Ht Hk Hr s l1 l2 x1 x2 H1 H2 Ek Er Hne. cbn in H1, H2.
  apply lookup_insert_Some in H1 as [[E1 <-]|[N1 H1]]; apply lookup_insert_Some in H2 as [[E2 <-]|[N2 H2]].
  - congruence.
  - injection E1 as <- <-. destruct (decide (l2 = local)) as [->|Hl]; [done|]. exfalso.
    apply (remote_taken_false _ _ _ _ _ Ht l2 x2); [done|done|congruence|congruence].
  - injection E2 as <- <-. destruct (decide (l1 = local)) as [->|Hl]; [done|]. exfalso.
    apply (remote_taken_false _ _ _ _ _ Ht l1 x1); [done|done|congruence|congruence].
  - by eapply Hu.
Qed.

Lemma link_step_unique d d' : link_step d d' -> links_unique d -> links_unique d'.
Proof.
  intros [sys kind local r e e' Hr|sys kind local remote r e e' Hr|sys kind local e] Hu.
  - unfold StartSCIMCreate in Hr. destruct (_ || _); [by injection Hr as _ <-|].
    destruct (scim_user_links e !! (sys, local)); injection Hr as _ <-; [done|].
    intros s l1 l2 x1 x2 H1 H2 Ek Er Hne. cbn in H1, H2.
    apply lookup_insert_Some in H1 as [[_ <-]|[_ H1]]; [done|].
    apply lookup_insert_Some in H2 as [[_ <-]|[_ H2]]; [by rewrite Er in Hne|]. by eapply Hu.
  - unfold SaveSCIMLink in Hr. destruct (one_of _ _); [by injection Hr as _ <-|].
    destruct (_ || remote_taken _ _ _ _ _) eqn:Ec; [by injection Hr as _ <-|]. bool_hyps.
    destruct (scim_user_links e !! (sys, local)) as [l|] eqn:El.
    + destruct (_ && _) eqn:Eb; injection Hr as _ <-; [|done]. bool_hyps.
      apply (save_unique sys kind local remote); done.
    + injection Hr as _ <-. by apply (save_unique sys kind local remote).
  - unfold RejectSCIMCreate, drop_link. intros s l1 l2 x1 x2 H1 H2. cbn in H1, H2.
    destruct (scim_user_links e !! (sys, local)) as [l|]; [destruct (_ && _)|].
    + apply lookup_delete_Some in H1 as [_ H1], H2 as [_ H2]. by eapply Hu.
    + by eapply Hu.
    + by eapply Hu.
Qed.

Lemma link_step_kept d d' key l : link_step d d' -> scim_user_links d !! key = Some l -> sl_RemoteID l <> EmptyString ->
  scim_user_links d' !! key = Some l.
Proof.
  intros [sys kind local r e e' Hr|sys kind local remote r e e' Hr|sys kind local e] Hl Hne.
  - unfold StartSCIMCreate in Hr. destruct (_ || _); [by injection Hr as _ <-|].
    destruct (scim_user_links e !! (sys, local)) eqn:E; injection Hr as _ <-; [done|]. cbn.
    rewrite lookup_insert_ne; [done|]. intros <-. congruence.
  - unfold SaveSCIMLink in Hr. destruct (one_of _ _); [by injection Hr as _ <-|].
    destruct (_ || remote_taken _ _ _ _ _); [by injection Hr as _ <-|].
    destruct (scim_user_links e !! (sys, local)) as [x|] eqn:E.
    + destruct (_ && _) eqn:Eb; injection Hr as _ <-; [|done]. cbn.
      destruct (decide (key = (sys, local))) as [->|Hk]; [|by rewrite lookup_insert_ne].
      rewrite lookup_insert_eq. assert (x = l) as -> by congruence. apply andb_true_iff in Eb as [_ Eb].
      apply orb_true_iff in Eb as [Eb|Eb]; apply streqb_true in Eb; [done|]. subst remote. by destruct l.
    + injection Hr as _ <-. cbn. rewrite lookup_insert_ne; [done|]. intros <-. congruence.
  - unfold RejectSCIMCreate, drop_link. cbn. destruct (scim_user_links e !! (sys, local)) as [x|] eqn:E; [|done].
    destruct (_ && _) eqn:Eb; [|done]. bool_hyps. rewrite lookup_delete_ne; [done|]. intros <-. congruence.
Qed.

(** Over every sequence of creates, saves and rejections a remote
    identifier belongs to one local resource, a saved mapping never changes,
    and a mapped resource is never created again. *)
Theorem remote_mapping_is_stable d d' :
  rtc link_step d d' -> links_unique d ->
  links_unique d' /\
  forall key l, scim_user_links d !! key = Some l -> sl_RemoteID l <> EmptyString ->
    scim_user_links d' !! key = Some l /\
    forall kind, (StartSCIMCreate key.1 kind key.2 d').1 <> inr true.
Proof.
  intros Hs Hu. assert (links_unique d' /\ forall key l, scim_user_links d !! key = Some l -> sl_RemoteID l <> EmptyString ->
    scim_user_links d' !! key = Some l) as [Hu' Hk].
  { induction Hs as [|x y z Hstep _ IH]; [done|]. destruct IH as [H1 H2]; [by eapply link_step_unique|]. split; [done|].
    intros key l Hl Hne. apply H2; [|done]. by eapply link_step_kept. }
  split; [done|]. intros key l Hl Hne. specialize (Hk _ _ Hl Hne). split; [done|]. intros kind. unfold StartSCIMCreate.
  destruct key as [sys local]. cbn. rewrite Hk. by destruct (_ || _).
Qed.

End facts.

(** ** Witnesses *)

Definition sample_codec : Codec := {|
  scim_object u := [("active", JBool (su_Active u)); ("id", JStr (su_ID u)); ("userName", JStr (su_UserName u))]%string;
  scim_role name primary := JObj [("value", JStr name); ("primary", JBool primary)]%string;
  sha256_hex s := s;
  scim_object_active u := eq_refl |}.
#[local] Existing Instance sample_codec.

Definition sample_system : PairedSystem := MkPairedSystem "sys" "CRM" "scim" EmptyString EmptyString "https://crm.example/scim/v2" EmptyString "active" None t0 true 0 false.
Definition outbox_db : DB := on_paired_systems (fun _ => {[ "sys"%string := sample_system ]}) sample_db.
Definition event_id (sys res : string) : string := String.append "ev-" (String.append sys res).
Definition claim_token (id : string) : string := String.append "tok-" id.
Definition reconciled_db : DB := after (reconcileProvisioningTx event_id t0) outbox_db.

Lemma reconcile_reaches_access_witness :
  system_access t0 outbox_db "sys" "bob" = true /\ desired_active outbox_db "sys" "bob" = false /\
  desired_active reconciled_db "sys" "bob" = true.
Proof.
  split; [vm_compute; reflexivity|]. split; [vm_compute; reflexivity|].
  destruct (after_inr (reconcileProvisioningTx event_id t0) outbox_db) as [[] Hr]; [eexists; vm_compute; reflexivity|].
  assert (live_system outbox_db "sys" = true) as Hl by (vm_compute; reflexivity).
  assert (sync_resource_state outbox_db = ∅) as Hs by (vm_compute; reflexivity).
  assert (directory_groups outbox_db = ∅) as Hgs by (vm_compute; reflexivity).
  assert (users outbox_db !! "bob"%string <> None) as Hb by (vm_compute; discriminate).
  destruct (reconcile_reaches_access event_id t0 outbox_db _ Hr) with (sys := "sys"%string) (user := "bob"%string) as [H1 H2]; [| |exact Hl|exact Hb|].
  { intros user Hd. rewrite Hgs, lookup_empty in Hd. destruct (Hd eq_refl). }
  { intros sys user st Hst. rewrite Hs, lookup_empty in Hst. discriminate. }
  unfold reconciled_db. rewrite H1, H2. vm_compute. reflexivity.
Defined.

(** Bob's removal overtakes his undelivered creation. *)
Definition sample_removal : desiredState := MkDesired "sys" "bob" "user" false (scimInactivePayload "bob") EmptyString false false.
Definition removed_db : DB := after (queueDesiredStateTx (fun s r => String.append "del-" (event_id s r)) sample_removal (t0 + second)) reconciled_db.

Lemma queue_supersedes_witness :
  map e_EventType (List.filter (of_resource "sys" "bob") (account_sync_events reconciled_db)) = ["user.created"%string] /\
  (forall e, In e (account_sync_events removed_db) -> unsent removed_db "sys" "bob" e = true ->
    one_of (e_EventType e) desired_event_types = true -> e_EventType e = "user.updated"%string).
Proof.
  split; [vm_compute; reflexivity|].
  destruct (after_inr (queueDesiredStateTx (fun s r => String.append "del-" (event_id s r)) sample_removal (t0 + second)) reconciled_db)
    as [[] Hr]; [eexists; vm_compute; reflexivity|].
  assert (forgotten reconciled_db sample_removal = false) as Hf by (vm_compute; reflexivity).
  destruct (queue_supersedes _ sample_removal (t0 + second) reconciled_db _ Hr Hf) as (_ & _ & Hu & _).
  intros e Hin Hun Ht. rewrite (Hu e Hin Hun Ht). vm_compute. reflexivity.
Defined.

Definition claimed (d : DB) : list AccountSyncEvent :=
  match ClaimDueSyncEvents claim_token 10 (5 * minute) (t0 + minute) d with inr (evs, _) => evs | inl _ => [] end.
Definition claimed_db : DB := after (ClaimDueSyncEvents claim_token 10 (5 * minute) (t0 + minute)) reconciled_db.

Lemma claim_one_per_resource_witness :
  map resource (claimed reconciled_db) = [("sys", "alice"); ("sys", "bob")]%string /\ NoDup (map resource (claimed reconciled_db)).
Proof.
  split; [vm_compute; reflexivity|].
  destruct (after_inr (ClaimDueSyncEvents claim_token 10 (5 * minute) (t0 + minute)) reconciled_db) as [evs Hr];
    [eexists; vm_compute; reflexivity|].
  assert (claimed reconciled_db = evs) as -> by (unfold claimed; rewrite Hr; reflexivity).
  exact (proj1 (claim_one_per_resource _ _ _ _ _ _ _ Hr)).
Defined.

(** Bob's creation was sent and its outcome is unknown. *)
Definition bobs_event : AccountSyncEvent :=
  default (MkAccountSyncEvent EmptyString EmptyString EmptyString EmptyString EmptyString JNull 0 0 0 EmptyString EmptyString
    None None 0 0) (List.find (of_resource "sys" "bob") (account_sync_events claimed_db)).
Definition sent_db : DB := (BeginSyncDelivery bobs_event minute (t0 + 2 * minute) claimed_db).2.
Definition bobs_attempt : SyncDeliveryAttempt :=
  MkSyncDeliveryAttempt "tok-ev-sysbob" "ev-sysbob" "user.created" (t0 + 2 * minute) (t0 + 3 * minute).

Lemma unresolved_write_is_never_raced_witness :
  (BeginSyncDelivery bobs_event minute (t0 + 2 * minute) claimed_db).1 = inr true /\
  forall token limit lease now evs d2, ClaimDueSyncEvents token limit lease now (MarkSyncDeliveryUncertain bobs_event (t0 + hour) sent_db) = inr (evs, d2) ->
    forall e, In e evs -> resource e <> ("sys", "bob")%string.
Proof.
  split; [vm_compute; reflexivity|].
  refine (proj1 (unresolved_write_is_never_raced bobs_attempt ("sys", "bob")%string sent_db _
    (rtc_once _ _ (os_uncertain _ bobs_event (t0 + hour) sent_db)) _)).
  split; [vm_compute; reflexivity|]. intros x Hx He.
  assert (forallb (fun x => (e_ID x <>?s "ev-sysbob") || ((e_SystemID x =?s "sys") && (e_UserID x =?s "bob") && uncertain_write x))
    (account_sync_events sent_db) = true) as Ha by (vm_compute; reflexivity).
  rewrite forallb_forall in Ha. specialize (Ha x Hx). cbn [da_EventID bobs_attempt] in He. rewrite He, streqb_refl in Ha.
  apply andb_true_iff in Ha as [Ha Hu]. apply andb_true_iff in Ha as [H1 H2]. apply streqb_true in H1, H2.
  split; [unfold resource; by rewrite H1, H2|exact Hu].
Defined.

(** A reset queued before Bob lost access is sent inactive. *)
Definition old_reset : AccountSyncEvent :=
  MkAccountSyncEvent EmptyString "reset" "bob" "sys" "user.mfa_reset" (JObj [("active", JBool true)]%string) 1 0 0 "pending"
    EmptyString None None t0 t0.
Definition reset_db : DB := on_account_sync_events (fun _ => [old_reset]) (on_app_user_assignments (fun _ => ∅) outbox_db).

Lemma prepared_delivery_is_newer_witness : exists ev' d',
  prepareSyncDeliveryTx t0 old_reset reset_db = inr (ev', d') /\ 1 <= e_DeliveryRevision ev' /\
  json_get "active" (e_Payload ev') <> Some (JBool true).
Proof.
  destruct (prepareSyncDeliveryTx t0 old_reset reset_db) as [|[ev' d']] eqn:E; [vm_compute in E; discriminate|].
  exists ev', d'. split; [reflexivity|].
  destruct (prepared_delivery_is_newer t0 old_reset reset_db ev' d' E eq_refl eq_refl) as (_ & Hr & _ & Ha).
  split; [exact Hr|]. intros Hj. specialize (Ha eq_refl Hj). vm_compute in Ha. discriminate.
Defined.

Definition mapped_db : DB := (SaveSCIMLink "sys" "user" "bob" "r1" outbox_db).2.

Lemma remote_mapping_is_stable_witness :
  (SaveSCIMLink "sys" "user" "bob" "r1" outbox_db).1 = inr tt /\
  scim_user_links (SaveSCIMLink "sys" "user" "bob" "r2" mapped_db).2 !! ("sys", "bob")%string = Some (MkSCIMLink "user" "r1").
Proof.
  split; [vm_compute; reflexivity|].
  assert (links_unique mapped_db) as Hu.
  { intros sys l1 l2 x1 x2 H1 H2 _ _ _.
    change (scim_user_links mapped_db) with (<[ ("sys", "bob")%string := MkSCIMLink "user" "r1" ]> (∅ : gmap (string * string) SCIMLink)) in H1, H2.
    apply lookup_insert_Some in H1 as [[E1 _]|[_ H1]]; [|rewrite lookup_empty in H1; discriminate].
    apply lookup_insert_Some in H2 as [[E2 _]|[_ H2]]; [|rewrite lookup_empty in H2; discriminate]. congruence. }
  assert (scim_user_links mapped_db !! ("sys", "bob")%string = Some (MkSCIMLink "user" "r1")) as Hm by (vm_compute; reflexivity).
  assert (EmptyString <> "r1"%string) as Hne by discriminate.
  exact (proj1 (proj2 (remote_mapping_is_stable mapped_db _ (rtc_once _ _ (ln_save "sys" "user" "bob" "r2" _ mapped_db _
    (surjective_pairing _))) Hu) _ _ Hm (not_eq_sym Hne))).
Defined.
