(* ===== verification/AppAccess.v ===== *)
(** Edits of application access: the assignments and policy of
    [store/app_access.go], the app roles of [store/app_roles.go] and the access
    requests of [store/access_requests.go].  Every edit revokes what lost its
    source and queues the downstream work in the same transaction. *)
From S2P Require Import Prelude Schema Access Sample Sessions Tokens Outbox.

(** ** Trimming

    [strings.TrimSpace]: the UTF-8 encodings of the Unicode white space. *)

Definition bytes (l : list N) : string := String.string_of_list_ascii (map Ascii.ascii_of_N l).

Definition white_space : list string :=
  map bytes ([[9]; [10]; [11]; [12]; [13]; [32]; [0xC2; 0x85]; [0xC2; 0xA0]; [0xE1; 0x9A; 0x80];
    [0xE2; 0x80; 0xA8]; [0xE2; 0x80; 0xA9]; [0xE2; 0x80; 0xAF]; [0xE2; 0x81; 0x9F]; [0xE3; 0x80; 0x80]] ++
    map (fun n => [0xE2; 0x80; 0x80 + N.of_nat n]) (seq 0 11))%N.

Definition drop_prefix (p s : string) : option string :=
  if String.prefix p s then Some (String.substring (String.length p) (String.length s - String.length p) s) else None.

Definition drop_suffix (p s : string) : option string :=
  let n := (String.length s - String.length p)%nat in
  if (Nat.leb (String.length p) (String.length s)) && (String.substring n (String.length p) s =?s p)
  then Some (String.substring 0 n s) else None.

Fixpoint first_some {A B} (f : A -> option B) (l : list A) : option B :=
  match l with [] => None | a :: l' => match f a with Some b => Some b | None => first_some f l' end end.

(** Each round drops at least a byte, so the length is fuel enough. *)
Fixpoint trim_with (drop : string -> string -> option string) (fuel : nat) (s : string) : string :=
  match fuel with
  | O => s
  | S n => match first_some (fun p => drop p s) white_space with Some s' => trim_with drop n s' | None => s end
  end.

Definition TrimSpace (s : string) : string :=
  let s := trim_with drop_prefix (String.length s) s in trim_with drop_suffix (String.length s) s.

Example trim_both : TrimSpace "  a b
" = "a b"%string.
Proof. vm_compute. reflexivity. Qed.

Section access.
Context `{Codec}.

(** ** Losing access *)

(** Everything minted for an access that is gone ends with it. *)
Definition revokeLostAppAccessTx (lid : string -> string) (now : Z) : STx unit :=
  d <- tx_get ;;
  let lost user client := negb (client_reachable now d user client) in
  tx_set (on_issued_tokens (update_where (fun t => is_null (it_RevokedAt t) && lost (it_UserID t) (it_ClientID t))
    (set_it_RevokedAt (Some now)))) ;;;
  tx_set (on_authorization_codes (delete_where (fun c => lost (c_UserID c) (c_ClientID c)))) ;;;
  enqueueLogoutTx lid now (fun cs => lost (cs_UserID cs) (cs_ClientID cs)) ;;;
  tx_set (on_oidc_client_sessions (delete_where (fun cs => lost (cs_UserID cs) (cs_ClientID cs)))).

Definition access_modes : list string := ["assigned_only"; "all_active_users"]%string.

Definition SetAppPolicy (lid : string -> string) (eid : string -> string -> string) (id mode : string) (enabled : bool)
    (revision : Z) (audit : option AuditEvent) (details : AppRecord -> Json) (now : Z) : STx unit :=
  tx_guard (one_of mode access_modes) ErrAppLinkConflict ;;;
  before <- lockAppRecord id revision ;;
  tx_set (on_app_registry <[id := set_a_Revision (a_Revision before + 1) (set_a_AccessMode mode (set_a_Enabled enabled before))]>) ;;;
  revokeLostAppAccessTx lid now ;;;
  reconcileProvisioningTx eid now ;;;
  recordAuditTx (appRegistryAudit audit (details before)) now.

Definition bump_revision (id : string) : STx unit :=
  d <- tx_get ;;
  match app_registry d !! id with
  | Some a => tx_set (on_app_registry <[id := set_a_Revision (a_Revision a + 1) a]>)
  | None => tx_fail ErrAppRecordMissing
  end.

(** The name of a principal of the given kind. *)
Definition principal_name (d : DB) (kind principal : string) : option string :=
  if kind =?s "users" then u_Username <$> users d !! principal else g_Name <$> directory_groups d !! principal.

(** The one way a grant row is written. *)
Definition applyAppAssignmentTx (lid : string -> string) (eid : string -> string -> string) (id kind principal : string)
    (assigned : bool) (expiresAt : option Z) (now : Z) : STx string :=
  tx_guard (one_of kind ["users"; "groups"]%string) ErrAppLinkConflict ;;;
  bump_revision id ;;;
  d <- tx_get ;;
  match principal_name d kind principal with
  | None => tx_fail ErrAppRecordMissing
  | Some name =>
    tx_set (if kind =?s "users" then
        on_app_user_assignments (if assigned then <[(id, principal) := unixOrNil expiresAt]> else delete (id, principal))
      else on_app_group_assignments (if assigned then union {[ (id, principal) ]} else fun s => s ∖ {[ (id, principal) ]})) ;;;
    revokeLostAppAccessTx lid now ;;;
    reconcileProvisioningTx eid now ;;;
    tx_ret name
  end.

Definition setAppAssignment (lid : string -> string) (eid : string -> string -> string) (id kind principal : string)
    (assigned : bool) (expiresAt : option Z) (audit : option AuditEvent) (details : option AppRecord -> string -> Json) (now : Z) : STx unit :=
  name <- applyAppAssignmentTx lid eid id kind principal assigned expiresAt now ;;
  d <- tx_get ;;
  recordAuditTx (appRegistryAudit audit (details (app_registry d !! id) name)) now.

(** Only direct user grants carry an instant. *)
Definition SetAppAssignmentUntil (lid : string -> string) (eid : string -> string -> string) (id kind principal : string)
    (expiresAt : option Z) (audit : option AuditEvent) (details : option AppRecord -> string -> Json) (now : Z) : STx unit :=
  tx_guard ((kind =?s "users") || is_null expiresAt) ErrAppLinkConflict ;;;
  tx_guard (checkExpiry expiresAt now) ErrExpiryInPast ;;;
  setAppAssignment lid eid id kind principal true expiresAt audit details now.

(** Users the proposed policy would shut out or newly admit. *)
Definition LosingAccess (now : Z) (d : DB) (a : AppRecord) (mode : string) (enabled : bool) : Z :=
  count_where (fun u => let f := app_access_facts now d a u in
    appAllowedSQL (f_access_mode f) (f_enabled f) f && negb (appAllowedSQL mode enabled f)) (users d).

Definition GainingAccess (now : Z) (d : DB) (a : AppRecord) (mode : string) (enabled : bool) : Z :=
  count_where (fun u => let f := app_access_facts now d a u in
    negb (appAllowedSQL (f_access_mode f) (f_enabled f) f) && appAllowedSQL mode enabled f) (users d).

(** ** App roles *)

(** The profile is re-sent where the user is desired and still in scope. *)
Definition role_desired (now : Z) (d : DB) (app : AppRecord) (sys user : string) : bool :=
  match sync_resource_state d !! (sys, user) with
  | Some st => (rs_Kind st =?s "user") && rs_Active st && live_system d sys && effective_app_access now d (a_ID app) user
  | None => false
  end.

Definition revoke_for_roles (app : AppRecord) (user : string) (now : Z) (d : DB) : DB :=
  match a_ClientID app with
  | None => d
  | Some client =>
    on_authorization_codes (delete_where (fun c => (c_ClientID c =?s client) && (c_UserID c =?s user)))
      (on_issued_tokens (update_where (fun t => (it_ClientID t =?s client) && (it_UserID t =?s user) && is_null (it_RevokedAt t))
        (set_it_RevokedAt (Some now))) d)
  end.

Fixpoint role_users (eid : string -> string -> string) (app : AppRecord) (users : list string) (now : Z) : STx unit :=
  match users with
  | [] => tx_ret tt
  | user :: rest =>
    tx_set (revoke_for_roles app user now) ;;;
    d <- tx_get ;;
    match a_SystemID app with
    | None => role_users eid app rest now
    | Some sys =>
      if role_desired now d app sys user then
        match get_user now d user with
        | None => tx_ret tt
        | Some u =>
          queueDesiredStateTx eid (MkDesired sys user "user" true (scimUserPayloadTx now d u true sys) EmptyString false false) now ;;;
          role_users eid app rest now
        end
      else role_users eid app rest now
    end
  end.

Definition bump_role_revision (a : AppRecord) : AppRecord :=
  set_a_RoleRevision (a_RoleRevision a + 1) (set_a_Revision (a_Revision a + 1) a).

(** The follow-up to any role or mapping change. *)
Definition roleChangeTx (eid : string -> string -> string) (app : AppRecord) (users : list string) (now : Z) : STx unit :=
  tx_set (on_app_registry (alter bump_role_revision (a_ID app))) ;;;
  role_users eid app users now.

Definition lockAppForRoles (id : string) : STx AppRecord :=
  d <- tx_get ;;
  match app_registry d !! id with Some a => tx_ret a | None => tx_fail ErrAppRecordMissing end.

(** [^[A-Za-z0-9][A-Za-z0-9_.:-]{0,63}$] *)
Definition alnum (c : Ascii.ascii) : bool :=
  let n := Ascii.N_of_ascii c in
  (((48 <=? n) && (n <=? 57)) || ((65 <=? n) && (n <=? 90)) || ((97 <=? n) && (n <=? 122)))%N.

Definition role_char (c : Ascii.ascii) : bool :=
  alnum c || existsb (fun x => Ascii.eqb c x) (String.list_ascii_of_string "_.:-").

Definition roleName (s : string) : bool :=
  match s with
  | EmptyString => false
  | String c s' => alnum c && forallb role_char (String.list_ascii_of_string s') && Nat.leb (String.length s') 63
  end.

(** The users with access, each once. *)
Definition app_users (now : Z) (d : DB) (app : string) : list string :=
  List.filter (effective_app_access now d app) (map fst (map_to_list (users d))).

Definition role_count (d : DB) (app : string) : Z := count_where (fun r => ro_AppID r =?s app) (app_roles d).

(** Defining the first role or removing the last one changes every profile. *)
Definition appRoleShapeChangeTx (eid : string -> string -> string) (app : AppRecord) (boundary now : Z) : STx unit :=
  d <- tx_get ;;
  if negb (role_count d (a_ID app) =? boundary) then
    tx_set (on_app_registry (alter (fun a => set_a_Revision (a_Revision a + 1) a) (a_ID app)))
  else roleChangeTx eid app (app_users now d (a_ID app)) now.

Definition app_roles_name_taken (d : DB) (app name : string) : bool :=
  exists_where (fun r => (ro_AppID r =?s app) && eq_nocase (ro_Name r) name) (app_roles d).

Definition CreateAppRole (eid : string -> string -> string) (role app name description : string)
    (audit : option AuditEvent) (details : Json) (now : Z) : STx string :=
  let name := TrimSpace name in
  let description := TrimSpace description in
  tx_guard (roleName name && Nat.leb (String.length description) 512) (ErrText "role name must be 1-64 characters of letters, digits, '_', '.', ':' or '-'") ;;;
  a <- lockAppForRoles app ;;
  d <- tx_get ;;
  tx_guard (negb (app_roles_name_taken d app name) && is_null (app_roles d !! role)) (ErrText "role name already exists for this app") ;;;
  tx_set (on_app_roles <[role := MkAppRole app name]>) ;;;
  appRoleShapeChangeTx eid a 1 now ;;;
  recordAuditTx (appRegistryAudit audit details) now ;;;
  tx_ret role.

(** Everyone who holds the role directly or through a group. *)
Definition roleHoldersTx (now : Z) (d : DB) (role : string) : list string :=
  remove_dups (map snd (List.filter (fun a : string * string => a.1 =?s role) (elements (app_role_user_assignments d))) ++
    concat (map (fun a : string * string =>
      if a.1 =?s role then omap (fun kv : (string * string) * option Z =>
          if (kv.1.1 =?s a.2) && unexpired kv.2 (unix now) then Some kv.1.2 else None) (map_to_list (group_memberships d))
      else []) (elements (app_role_group_assignments d)))).

(** Removing the row removes its mappings with it. *)
Definition delete_role (role : string) (d : DB) : DB :=
  on_app_role_group_assignments (filter (fun a : string * string => a.1 <> role))
    (on_app_role_user_assignments (filter (fun a : string * string => a.1 <> role)) (on_app_roles (delete role) d)).

Definition role_of_app (d : DB) (app role : string) : option AppRole :=
  match app_roles d !! role with Some r => if ro_AppID r =?s app then Some r else None | None => None end.

Definition DeleteAppRole (eid : string -> string -> string) (app role : string) (audit : option AuditEvent)
    (details : string -> Z -> Json) (now : Z) : STx unit :=
  a <- lockAppForRoles app ;;
  d <- tx_get ;;
  let holders := roleHoldersTx now d role in
  match role_of_app d app role with
  | None => tx_fail ErrAppRecordMissing
  | Some r =>
    tx_set (delete_role role) ;;;
    roleChangeTx eid a holders now ;;;
    appRoleShapeChangeTx eid a 0 now ;;;
    recordAuditTx (appRegistryAudit audit (details (ro_Name r) (Z.of_nat (length holders)))) now
  end.

Definition group_live_members (now : Z) (d : DB) (group : string) : list string :=
  omap (fun kv : (string * string) * option Z =>
    if (kv.1.1 =?s group) && unexpired kv.2 (unix now) then Some kv.1.2 else None) (map_to_list (group_memberships d)).

(** A mapping already in the wanted state changes nothing. *)
Definition SetAppRoleAssignment (eid : string -> string -> string) (app role kind principal : string) (assigned : bool)
    (audit : option AuditEvent) (details : string -> string -> Json) (now : Z) : STx unit :=
  tx_guard (one_of kind ["users"; "groups"]%string) ErrAppLinkConflict ;;;
  a <- lockAppForRoles app ;;
  d <- tx_get ;;
  match role_of_app d app role, principal_name d kind principal with
  | Some r, Some name =>
    let key := (role, principal) in
    let is_user := kind =?s "users" in
    let present := if is_user then bool_decide (key ∈ app_role_user_assignments d)
                   else bool_decide (key ∈ app_role_group_assignments d) in
    let write (s : gset (string * string)) := if assigned then {[ key ]} ∪ s else s ∖ {[ key ]} in
    tx_set (if is_user then on_app_role_user_assignments write else on_app_role_group_assignments write) ;;;
    let affected := if is_user then [principal] else group_live_members now d principal in
    (if Bool.eqb present assigned then tx_ret tt else roleChangeTx eid a affected now) ;;;
    recordAuditTx (appRegistryAudit audit (details (ro_Name r) name)) now
  | _, _ => tx_fail ErrAppRecordMissing
  end.

Definition set_claims (legacy groups : bool) (a : AppRecord) : AppRecord :=
  MkAppRecord (a_Authentication a) (a_AuthenticationRevision a) (a_RoleRevision a + 1) legacy groups (a_AccessMode a)
    (a_Enabled a) (a_Requestable a) (a_ID a) (a_Revision a + 1) (a_ClientID a) (a_LauncherID a) (a_SystemID a).

Definition SetAppClaimSettings (app : string) (legacy groups : bool) (revision : Z) (audit : option AuditEvent)
    (unchanged changed : Json) (now : Z) : STx unit :=
  a <- lockAppRecord app revision ;;
  if Bool.eqb (a_LegacyRoleClaim a) legacy && Bool.eqb (a_GroupsClaim a) groups then
    recordAuditTx (appRegistryAudit audit unchanged) now
  else
    tx_set (on_app_registry <[app := set_claims legacy groups a]>) ;;;
    (match a_ClientID a with
     | Some client =>
       tx_set (on_authorization_codes (delete_where (fun c => c_ClientID c =?s client))) ;;;
       revokeClientTokensTx client now
     | None => tx_ret tt
     end) ;;;
    recordAuditTx (appRegistryAudit audit changed) now.

Record AppClaims := MkAppClaims { ac_Roles : list string; ac_Groups : list string; ac_LegacyRole : bool; ac_GroupsClaim : bool }.

(** The groups an app may see: the assigned ones and those mapped to its roles. *)
Definition app_groups_of (now : Z) (d : DB) (user app : string) : list string :=
  sort_strings (remove_dups (omap (fun kv : string * Group =>
    if live_group_memberships now d kv.1 user &&
       (bool_decide ((app, kv.1) ∈ app_group_assignments d) ||
        existsb (fun a : string * string => (a.2 =?s kv.1) && negb (is_null (role_of_app d app a.1)))
          (elements (app_role_group_assignments d)))
    then Some (g_Name kv.2) else None) (map_to_list (directory_groups d)))).

Definition UserAppClaims (user client : string) (now : Z) (d : DB) : AppClaims :=
  match find_where (app_of_client client) (app_registry d) with
  | None => MkAppClaims [] [] true false
  | Some (app, a) => MkAppClaims (app_roles_of now d user app)
      (if a_GroupsClaim a then app_groups_of now d user app else []) (a_LegacyRoleClaim a) (a_GroupsClaim a)
  end.

(** ** Access requests *)

Definition maxPendingRequests : Z := 5.
Definition MaxRequestDuration : Z := 90 * 24 * hour.
Definition requestTTL : Z := 14 * 24 * hour.
Definition maxReasonLength : nat := 500.

Definition open_to_requests (a : AppRecord) : bool :=
  a_Requestable a && a_Enabled a && (a_AccessMode a =?s "assigned_only").

Definition pending (r : AccessRequest) : bool := ar_Status r =?s "pending".

Definition SetAppRequestable (id : string) (requestable : bool) (revision : Z) (audit : option AuditEvent) (details : Json)
    (now : Z) : STx unit :=
  before <- lockAppRecord id revision ;;
  tx_set (on_app_registry <[id := set_a_Requestable requestable (set_a_Revision (a_Revision before + 1) before)]>) ;;;
  recordAuditTx (appRegistryAudit audit details) now.

(** What the user may ask for, and whether they already do. *)
Definition RequestableApps (user : string) (now : Z) (d : DB) : list (string * bool) :=
  omap (fun kv : string * AppRecord =>
    if open_to_requests kv.2 && negb (effective_app_access now d kv.1 user)
    then Some (kv.1, exists_where (fun r => (ar_AppID r =?s kv.1) && (ar_UserID r =?s user) && pending r) (access_requests d))
    else None) (map_to_list (app_registry d)).

Definition CreateAccessRequest (id user app reason : string) (duration : Z) (audit : option AuditEvent) (details : Json)
    (now : Z) : STx AccessRequest :=
  let reason := TrimSpace reason in
  tx_guard ((reason <>?s EmptyString) && Nat.leb (String.length reason) maxReasonLength && (0 <=? duration) &&
    (duration <=? MaxRequestDuration)) ErrAppLinkConflict ;;;
  d <- tx_get ;;
  tx_guard (match app_registry d !! app with Some a => open_to_requests a | None => false end) ErrAppNotRequestable ;;;
  tx_guard (negb (effective_app_access now d app user)) ErrAlreadyHasAccess ;;;
  tx_guard (count_where (fun r => (ar_UserID r =?s user) && pending r) (access_requests d) <? maxPendingRequests) ErrTooManyRequests ;;;
  tx_guard (is_null (access_requests d !! id) &&
    negb (exists_where (fun r => (ar_AppID r =?s app) && (ar_UserID r =?s user) && pending r) (access_requests d))) ErrDuplicateRequest ;;;
  tx_guard (negb (is_null (users d !! user))) ErrConstraint ;;;
  let req := MkAccessRequest app user reason (duration / second) "pending" now (unix (now + requestTTL)) None EmptyString EmptyString in
  tx_set (on_access_requests <[id := req]>) ;;;
  recordAuditTx (appRegistryAudit audit details) now ;;;
  tx_ret req.

Definition close_request (status : string) (decidedAt : Z) (by_ note : string) (r : AccessRequest) : AccessRequest :=
  MkAccessRequest (ar_AppID r) (ar_UserID r) (ar_Reason r) (ar_DurationSeconds r) status (ar_CreatedAt r) (ar_ExpiresAt r)
    (Some decidedAt) by_ note.

Definition CancelAccessRequest (id user : string) (audit : option AuditEvent) (details : Json) (now : Z) : STx unit :=
  d <- tx_get ;;
  match access_requests d !! id with
  | Some r =>
    tx_guard ((ar_UserID r =?s user) && pending r) ErrRequestNotPending ;;;
    tx_set (on_access_requests <[id := close_request "cancelled" now (ar_DecidedBy r) (ar_DecisionNote r) r]>) ;;;
    recordAuditTx (appRegistryAudit audit details) now
  | None => tx_fail ErrRequestNotPending
  end.

Definition active_user (now : Z) (u : User) : bool := (u_Status u =?s "active") && unexpired (u_EndsAt u) (unix now).

(** A global administrator, or an active owner of the app. *)
Definition may_decide (now : Z) (d : DB) (actor app : string) : bool :=
  match users d !! actor with
  | Some u => activeAdminSQL now u ||
      (bool_decide ((actor, "app_owner"%string, app) ∈ admin_delegations d) && active_user now u)
  | None => false
  end.

(** The instant an approval asks for. *)
Definition requested_until (now : Z) (r : AccessRequest) : option Z :=
  if 0 <? ar_DurationSeconds r then Some (of_unix (unix (now + wrap64 (ar_DurationSeconds r * second)))) else None.

(** A direct grant made since the request that already lasts as long. *)
Definition keep_grant (current : option (option Z)) (expiresAt : option Z) : bool :=
  match current with
  | None => false
  | Some None => true
  | Some (Some c) => match expiresAt with Some e => unix e <=? c | None => false end
  end.

(** The expired branch updates the row and then returns an error, which rolls
    the whole transaction back. *)
Definition decideTx (lid : string -> string) (eid : string -> string -> string) (id actor : string) (approve : bool)
    (note : string) (now : Z) : STx AccessRequest :=
  d <- tx_get ;;
  match access_requests d !! id with
  | None => tx_fail ErrRequestNotPending
  | Some r =>
    tx_guard (pending r) ErrRequestNotPending ;;;
    tx_guard (negb (is_null (users d !! ar_UserID r)) && negb (is_null (app_registry d !! ar_AppID r))) ErrNoRows ;;;
    (if of_unix (ar_ExpiresAt r) <=? now then
       tx_set (on_access_requests <[id := close_request "expired" now (ar_DecidedBy r) (ar_DecisionNote r) r]>) ;;;
       tx_fail ErrRequestNotPending
     else tx_ret tt) ;;;
    tx_guard (ar_UserID r <>?s actor) ErrSelfApproval ;;;
    tx_guard (may_decide now d actor (ar_AppID r)) ErrCannotDecide ;;;
    (if approve then
       tx_guard (match app_registry d !! ar_AppID r with Some a => open_to_requests a | None => false end) ErrAppNotRequestable ;;;
       if keep_grant (app_user_assignments d !! (ar_AppID r, ar_UserID r)) (requested_until now r) then tx_ret tt
       else applyAppAssignmentTx lid eid (ar_AppID r) "users" (ar_UserID r) true (requested_until now r) now ;;; tx_ret tt
     else tx_ret tt) ;;;
    let closed := close_request (if approve then "approved" else "denied") now actor note r in
    tx_set (on_access_requests <[id := closed]>) ;;;
    tx_ret closed
  end.

Definition DecideAccessRequest (lid : string -> string) (eid : string -> string -> string) (id actor : string) (approve : bool)
    (note : string) (audit : option AuditEvent) (details : AccessRequest -> Json) (now : Z) (d : DB) : (StoreError + AccessRequest) * DB :=
  let note := TrimSpace note in
  if Nat.ltb maxReasonLength (String.length note) then (inl ErrAppLinkConflict, d) else
  commit (r <- decideTx lid eid id actor approve note now ;;
    recordAuditTx (appRegistryAudit audit (details r)) now ;;; tx_ret r) d.

(** Close the pending requests nobody answered in time. *)
Definition expireAccessRequestsTx (now : Z) : DB -> DB :=
  on_access_requests (update_where (fun r => pending r && (ar_ExpiresAt r <=? unix now))
    (fun r => close_request "expired" now (ar_DecidedBy r) (ar_DecisionNote r) r)).

End access.

(** ** Facts *)

Section access_facts.
Context `{Codec}.

(** Nothing minted for an access that is gone is left. *)
Definition access_closed (now : Z) (d : DB) : Prop :=
  (forall k t, issued_tokens d !! k = Some t -> it_RevokedAt t = None -> client_reachable now d (it_UserID t) (it_ClientID t) = true) /\
  (forall k c, authorization_codes d !! k = Some c -> client_reachable now d (c_UserID c) (c_ClientID c) = true) /\
  (forall k cs, oidc_client_sessions d !! k = Some cs -> client_reachable now d (cs_UserID cs) (cs_ClientID cs) = true).

Lemma queued_closed now d d' : queued d d' -> access_closed now d -> access_closed now d'.
Proof. by intros (es & st & ->). Qed.

Lemma reconcile_queued eid now d u d' : reconcileProvisioningTx eid now d = inr (u, d') -> queued d d'.
Proof.
  intros Hr. unfold reconcileProvisioningTx in Hr.
  apply tx_bind_inr in Hr as (a1 & d0 & He & Hr). injection He as <- <-.
  apply tx_bind_inr in Hr as (a2 & d1 & H1 & Hr). apply tx_bind_inr in Hr as (a3 & d2 & H2 & Hr).
  apply tx_bind_inr in Hr as (a4 & d3 & H3 & Hr).
  apply tx_bind_inr in Hr as (a5 & d0 & He & Hr). injection He as <- <-.
  apply tx_bind_inr in Hr as (a6 & d0 & He & Hr). injection He as _ <-.
  apply tx_bind_inr in Hr as (a7 & d0 & He & Hr). injection He as _ <-. injection Hr as _ <-.
  apply queued_iter in H1.
  2:{ intros p e v e' He. unfold queue_gain in He. apply tx_bind_inr in He as (b & e0 & Hb & He). injection Hb as <- <-.
      destruct (get_user _ _ _); [by eapply queue_queued|injection He as _ <-; apply queued_refl]. }
  apply queued_iter in H2.
  2:{ intros p e v e' He. unfold queue_loss in He. apply tx_bind_inr in He as (b & e0 & Hb & He). injection Hb as <- <-.
      by eapply queue_queued. }
  assert (queued d2 d3) as Hq3.
  { unfold reconcileGroupsTx in H3. apply tx_bind_inr in H3 as (b & e0 & Hb & H3). injection Hb as <- <-.
    apply tx_bind_inr in H3 as (b2 & d4 & H4 & H3). apply queued_iter in H4.
    2:{ intros p e v e' He. apply tx_bind_inr in He as (b & e0 & Hb & He). injection Hb as <- <-. cbv zeta in He.
        destruct (_ || _); [|injection He as _ <-; apply queued_refl]. unfold queueGroupTx in He.
        apply tx_bind_inr in He as (b & e0 & Hb & He). injection Hb as <- <-. by eapply queue_queued. }
    apply tx_bind_inr in H3 as (b & e0 & Hb & H3). injection Hb as <- <-.
    eapply queued_trans; [exact H4|]. apply queued_iter in H3; [done|]. intros. by eapply queue_queued. }
  eapply queued_trans; [exact H1|]. eapply queued_trans; [exact H2|]. eapply queued_trans; [exact Hq3|].
  eapply queued_trans; apply queued_events.
Qed.

(** What losing access writes. *)
Lemma revokeLost_inv lid now d u d' : revokeLostAppAccessTx lid now d = inr (u, d') ->
  let lost user client := negb (client_reachable now d user client) in
  exists m, d' = on_oidc_client_sessions (delete_where (fun cs => lost (cs_UserID cs) (cs_ClientID cs)))
    (on_logout_deliveries (fun _ => m)
      (on_authorization_codes (delete_where (fun c => lost (c_UserID c) (c_ClientID c)))
        (on_issued_tokens (update_where (fun t => is_null (it_RevokedAt t) && lost (it_UserID t) (it_ClientID t))
          (set_it_RevokedAt (Some now))) d))).
Proof.
  unfold revokeLostAppAccessTx. intros Hr. cbv zeta in *.
  apply tx_bind_inr in Hr as (a1 & d0 & He & Hr). injection He as <- <-.
  apply tx_bind_inr in Hr as (a2 & d0 & He & Hr). injection He as _ <-.
  apply tx_bind_inr in Hr as (a3 & d0 & He & Hr). injection He as _ <-.
  apply tx_bind_inr in Hr as (a4 & d1 & He & Hr). injection Hr as _ <-.
  unfold enqueueLogoutTx in He. apply tx_bind_inr in He as (a5 & d0 & Hg & He). injection Hg as <- <-.
  match type of He with tx_iter _ _ ?x = _ => set (d2 := x) in He end.
  assert (exists m, d1 = on_logout_deliveries (fun _ => m) d2) as [m ->].
  { apply (tx_iter_preserves (fun s => exists m, s = on_logout_deliveries (fun _ => m) d2)) in He; [done| |by exists (logout_deliveries d2)].
    intros [k cs] s v s' _ [m ->] Hi. apply insert_row_inv in Hi as [_ ->]. by eexists. }
  by exists m.
Qed.

Lemma revokeLost_closed lid now d u d' : revokeLostAppAccessTx lid now d = inr (u, d') -> access_closed now d'.
Proof.
  intros Hr. apply revokeLost_inv in Hr as [m ->].
  assert (forall d' user client, (exists f g h, d' = on_oidc_client_sessions f (on_logout_deliveries (fun _ => m)
    (on_authorization_codes g (on_issued_tokens h d)))) -> client_reachable now d' user client = client_reachable now d user client) as Hc
    by (by intros ? ? ? (f & g & h & ->)).
  split_and!; intros k x Hk; rewrite Hc by (by do 3 eexists); cbn -[update_where delete_where client_reachable] in Hk.
  - apply lookup_update_where_Some in Hk as (t & _ & ->). intros Hn.
    destruct (is_null (it_RevokedAt t) && _) eqn:E; [done|]. rewrite Hn in E. cbn in E. by apply negb_false_iff in E.
  - apply lookup_delete_where_Some in Hk as [_ Hk]. by apply negb_false_iff in Hk.
  - apply lookup_delete_where_Some in Hk as [_ Hk]. by apply negb_false_iff in Hk.
Qed.

Lemma audit_closed now d m q : access_closed now d -> access_closed now (audited m q d).
Proof. done. Qed.

(** What writing one grant row does. *)
Lemma applyAssignment_inv lid eid id kind principal assigned expiresAt now d name d' :
  applyAppAssignmentTx lid eid id kind principal assigned expiresAt now d = inr (name, d') ->
  exists a d1 u1 d2 u2, app_registry d !! id = Some a /\
    d1 = (if kind =?s "users" then
        on_app_user_assignments (if assigned then <[(id, principal) := unixOrNil expiresAt]> else delete (id, principal))
      else on_app_group_assignments (if assigned then union {[ (id, principal) ]} else fun s => s ∖ {[ (id, principal) ]}))
        (on_app_registry <[id := set_a_Revision (a_Revision a + 1) a]> d) /\
    revokeLostAppAccessTx lid now d1 = inr (u1, d2) /\ reconcileProvisioningTx eid now d2 = inr (u2, d').
Proof.
  unfold applyAppAssignmentTx. intros Hr.
  apply tx_bind_inr in Hr as (a1 & d0 & He & Hr). apply tx_guard_inr in He as [_ ->].
  apply tx_bind_inr in Hr as (a2 & d1 & Hb & Hr). unfold bump_revision in Hb.
  apply tx_bind_inr in Hb as (a3 & d0 & He & Hb). injection He as <- <-.
  destruct (app_registry d !! id) as [a|] eqn:Ea; [|done]. injection Hb as _ <-.
  apply tx_bind_inr in Hr as (a4 & d0 & He & Hr). injection He as <- <-.
  destruct (principal_name _ kind principal) as [n|]; [|done].
  apply tx_bind_inr in Hr as (a5 & d0 & He & Hr). injection He as _ <-.
  apply tx_bind_inr in Hr as (a6 & d2 & H1 & Hr). apply tx_bind_inr in Hr as (a7 & d3 & H2 & Hr). injection Hr as _ <-.
  exists a. do 4 eexists. split; [done|]. split; [reflexivity|]. split; [exact H1|exact H2].
Qed.

Lemma applyAssignment_closed lid eid id kind principal assigned expiresAt now d name d' :
  applyAppAssignmentTx lid eid id kind principal assigned expiresAt now d = inr (name, d') -> access_closed now d'.
Proof.
  intros Hr. apply applyAssignment_inv in Hr as (a & d1 & u1 & d2 & u2 & _ & _ & H1 & H2).
  eapply queued_closed; [by eapply reconcile_queued|by eapply revokeLost_closed].
Qed.

(** The tables a grant write leaves alone. *)
Lemma applyAssignment_frame lid eid id kind principal assigned expiresAt now d name d' :
  applyAppAssignmentTx lid eid id kind principal assigned expiresAt now d = inr (name, d') ->
  access_requests d' = access_requests d /\ users d' = users d /\ admin_delegations d' = admin_delegations d.
Proof.
  intros Hr. apply applyAssignment_inv in Hr as (a & d1 & u1 & d2 & u2 & _ & -> & H1 & H2).
  apply reconcile_queued in H2 as (es & st & ->). apply revokeLost_inv in H1 as [m ->]. by destruct (kind =?s "users").
Qed.

Lemma applyAssignment_grant lid eid id principal expiresAt now d name d' :
  applyAppAssignmentTx lid eid id "users" principal true expiresAt now d = inr (name, d') ->
  app_user_assignments d' = <[(id, principal) := unixOrNil expiresAt]> (app_user_assignments d).
Proof.
  intros Hr. apply applyAssignment_inv in Hr as (a & d1 & u1 & d2 & u2 & _ & -> & H1 & H2).
  apply reconcile_queued in H2 as (es & st & ->). apply revokeLost_inv in H1 as [m ->]. done.
Qed.

(** The edits that can take application access away. *)
Inductive access_edit (now : Z) : STx unit -> Prop :=
| ae_policy lid eid id mode enabled revision audit details :
    access_edit now (SetAppPolicy lid eid id mode enabled revision audit details now)
| ae_assign lid eid id kind principal assigned expiresAt audit details :
    access_edit now (setAppAssignment lid eid id kind principal assigned expiresAt audit details now)
| ae_until lid eid id kind principal expiresAt audit details :
    access_edit now (SetAppAssignmentUntil lid eid id kind principal expiresAt audit details now).

(** After an application policy or assignment edit, no authorization code,
    interaction or live token remains for an account that may no longer
    reach its client. *)
Theorem access_edit_closes now m d d' :
  access_edit now m -> m d = inr (tt, d') -> access_closed now d'.
Proof.
  assert (forall lid eid id kind principal assigned expiresAt audit details x x',
    setAppAssignment lid eid id kind principal assigned expiresAt audit details now x = inr (tt, x') -> access_closed now x') as Hset.
  { intros lid eid id kind principal assigned expiresAt audit details x x' Hr. unfold setAppAssignment in Hr.
    apply tx_bind_inr in Hr as (n & d1 & H1 & Hr). apply tx_bind_inr in Hr as (b & d0 & He & Hr). injection He as <- <-.
    apply recordAuditTx_inv in Hr as (k & q9 & ->). by eapply audit_closed, applyAssignment_closed. }
  intros [lid eid id mode enabled revision audit details|lid eid id kind principal assigned expiresAt audit details
    |lid eid id kind principal expiresAt audit details] Hr.
  - unfold SetAppPolicy in Hr. apply tx_bind_inr in Hr as (a1 & d0 & He & Hr). apply tx_guard_inr in He as [_ ->].
    apply tx_bind_inr in Hr as (a & d1 & H1 & Hr). apply tx_bind_inr in Hr as (a2 & d2 & H2 & Hr).
    apply tx_bind_inr in Hr as (a3 & d3 & H3 & Hr). apply tx_bind_inr in Hr as (a4 & d4 & H4 & Hr).
    apply recordAuditTx_inv in Hr as (k & q9 & ->). apply audit_closed.
    eapply queued_closed; [by eapply reconcile_queued|by eapply revokeLost_closed].
  - by eapply Hset.
  - unfold SetAppAssignmentUntil in Hr. apply tx_bind_inr in Hr as (a1 & d0 & He & Hr). apply tx_guard_inr in He as [_ ->].
    apply tx_bind_inr in Hr as (a2 & d0 & He & Hr). apply tx_guard_inr in He as [_ ->]. by eapply Hset.
Qed.

(** ** Requests *)

(** [b] lasts at least as long as [a]; absence of an instant is for ever. *)
Definition lasts (a b : option Z) : Prop :=
  match b with None => True | Some y => match a with Some x => x <= y | None => False end end.

(** C27. An approved access request was decided by someone other than its
    requester who administers or owns the application, leaves the requester
    a direct grant at least as long as requested, and never shortens a grant
    already held. *)
Theorem approval_is_authorised_and_never_shortens lid eid id actor note audit details now d r d' :
  DecideAccessRequest lid eid id actor true note audit details now d = (inr r, d') ->
  ar_UserID r <> actor /\ may_decide now d actor (ar_AppID r) = true /\
  exists grant, app_user_assignments d' !! (ar_AppID r, ar_UserID r) = Some grant /\
    lasts (unix <$> requested_until now r) grant /\
    forall old, app_user_assignments d !! (ar_AppID r, ar_UserID r) = Some old -> lasts old grant.
Proof.
  unfold DecideAccessRequest. cbv zeta. destruct (Nat.ltb _ _); [done|]. intros Hr. apply commit_inr in Hr.
  apply tx_bind_inr in Hr as (r0 & d1 & Hd & Hr). apply tx_bind_inr in Hr as (a1 & d2 & Ha & Hr). injection Hr as -> ->.
  apply recordAuditTx_inv in Ha as (k & q9 & ->). unfold decideTx in Hd.
  apply tx_bind_inr in Hd as (a2 & d0 & He & Hd). injection He as <- <-.
  destruct (access_requests d !! id) as [q|]; [|done].
  apply tx_bind_inr in Hd as (a3 & d0 & He & Hd). apply tx_guard_inr in He as [_ ->].
  apply tx_bind_inr in Hd as (a4 & d0 & He & Hd). apply tx_guard_inr in He as [_ ->].
  apply tx_bind_inr in Hd as (a5 & d0 & He & Hd).
  destruct (of_unix _ <=? now); [apply tx_bind_inr in He as (? & ? & _ & He); done|injection He as _ <-].
  apply tx_bind_inr in Hd as (a6 & d0 & He & Hd). apply tx_guard_inr in He as [Hself ->].
  apply tx_bind_inr in Hd as (a7 & d0 & He & Hd). apply tx_guard_inr in He as [Hmay ->].
  apply tx_bind_inr in Hd as (a8 & d3 & Hg & Hd). apply tx_bind_inr in Hd as (a9 & d0 & He & Hd). injection He as _ <-.
  injection Hd as <- <-. cbn. split; [by bool_hyps|]. split; [done|].
  apply tx_bind_inr in Hg as (a10 & d0 & He & Hg). apply tx_guard_inr in He as [_ ->].
  change (requested_until now (close_request "approved" now actor (TrimSpace note) q)) with (requested_until now q).
  destruct (keep_grant _ _) eqn:Ek.
  - injection Hg as _ <-. unfold keep_grant in Ek. destruct (app_user_assignments d !! _) as [g|]; [|done].
    exists g. split; [done|]. split; [|intros old [= <-]; destruct g; simpl; lia].
    destruct g as [c|]; [|done]. destruct (requested_until now q); [|done]. simpl. lia.
  - apply tx_bind_inr in Hg as (n & d4 & Hap & Hg). injection Hg as _ <-. apply applyAssignment_grant in Hap. rewrite Hap.
    eexists. split; [apply lookup_insert_eq|]. unfold unixOrNil. split; [destruct (requested_until now q); simpl; lia|].
    intros old Hold. rewrite Hold in Ek. unfold keep_grant in Ek. destruct old as [c|]; [|done].
    destruct (requested_until now q); simpl in *; lia.
Qed.

(** C29. Deciding a pending request whose time has passed returns not-pending
    and leaves the database as it was: the expired status written on the way
    is rolled back with the error. *)
Theorem expired_decision_writes_nothing lid eid id actor approve note audit details now d r :
  access_requests d !! id = Some r -> pending r = true -> of_unix (ar_ExpiresAt r) <= now ->
  (String.length (TrimSpace note) <= maxReasonLength)%nat ->
  is_Some (users d !! ar_UserID r) -> is_Some (app_registry d !! ar_AppID r) ->
  DecideAccessRequest lid eid id actor approve note audit details now d = (inl ErrRequestNotPending, d).
Proof.
  intros Hr Hp Hle Hn [u Hu] [a Ha]. unfold DecideAccessRequest. cbv zeta.
  destruct (Nat.ltb_spec maxReasonLength (String.length (TrimSpace note))); [lia|].
  unfold commit, decideTx, tx_bind, tx_get, tx_guard. rewrite Hr, Hp, Hu, Ha. cbn.
  by rewrite (proj2 (Z.leb_le _ _) Hle).
Qed.

(** Everything that writes requests. *)
Inductive request_step : DB -> DB -> Prop :=
| rq_create id user app reason duration audit details now r d d' :
    CreateAccessRequest id user app reason duration audit details now d = inr (r, d') -> request_step d d'
| rq_cancel id user audit details now d d' :
    CancelAccessRequest id user audit details now d = inr (tt, d') -> request_step d d'
| rq_decide lid eid id actor approve note audit details now r d d' :
    DecideAccessRequest lid eid id actor approve note audit details now d = (r, d') -> request_step d d'
| rq_expire now d : request_step d (expireAccessRequestsTx now d).

Definition pending_of (user : string) (r : AccessRequest) : bool := (ar_UserID r =?s user) && pending r.
Definition pending_for (app user : string) (r : AccessRequest) : bool := (ar_AppID r =?s app) && (ar_UserID r =?s user) && pending r.

(** A decided row is replaced by no step; a pending one may close. *)
Definition closes (t t' : gmap string AccessRequest) : Prop :=
  forall id r', t' !! id = Some r' ->
    exists r, t !! id = Some r /\ (r' = r \/ (pending r = true /\ pending r' = false /\ ar_UserID r' = ar_UserID r /\ ar_AppID r' = ar_AppID r)).

Definition keeps_decided (t t' : gmap string AccessRequest) : Prop :=
  forall id r, t !! id = Some r -> pending r = false -> t' !! id = Some r.

Lemma close_one id s n b note t r : t !! id = Some r -> pending r = true -> (s =?s "pending") = false ->
  closes t (<[id := close_request s n b note r]> t) /\ keeps_decided t (<[id := close_request s n b note r]> t).
Proof.
  intros Hr Hp Hs. split.
  - intros k r' Hk. apply lookup_insert_Some in Hk as [[<- <-]|[_ Hk]]; [|eauto]. exists r. split; [done|]. right. by split_and!.
  - intros k x Hx Hn. rewrite lookup_insert_ne; [done|]. intros <-. congruence.
Qed.

Lemma decide_requests lid eid id actor approve note audit details now d r d' :
  DecideAccessRequest lid eid id actor approve note audit details now d = (r, d') ->
  access_requests d' = access_requests d \/
  exists q s n b x, access_requests d !! id = Some q /\ pending q = true /\ (s =?s "pending") = false /\
    access_requests d' = <[id := close_request s n b x q]> (access_requests d).
Proof.
  unfold DecideAccessRequest. cbv zeta. destruct (Nat.ltb _ _); [by intros [= <- <-]; left|].
  intros Hr. destruct r as [e|r]; [apply commit_inl in Hr as [-> _]; by left|]. apply commit_inr in Hr. right.
  apply tx_bind_inr in Hr as (r0 & d1 & Hd & Hr). apply tx_bind_inr in Hr as (a1 & d2 & Ha & Hr). injection Hr as -> ->.
  apply recordAuditTx_inv in Ha as (k & q9 & ->). unfold decideTx in Hd.
  apply tx_bind_inr in Hd as (a2 & d0 & He & Hd). injection He as <- <-.
  destruct (access_requests d !! id) as [q|]; [|done].
  apply tx_bind_inr in Hd as (a3 & d0 & He & Hd). apply tx_guard_inr in He as [Hp ->].
  apply tx_bind_inr in Hd as (a4 & d0 & He & Hd). apply tx_guard_inr in He as [_ ->].
  apply tx_bind_inr in Hd as (a5 & d0 & He & Hd).
  destruct (of_unix _ <=? now); [apply tx_bind_inr in He as (? & ? & _ & He); done|injection He as _ <-].
  apply tx_bind_inr in Hd as (a6 & d0 & He & Hd). apply tx_guard_inr in He as [_ ->].
  apply tx_bind_inr in Hd as (a7 & d0 & He & Hd). apply tx_guard_inr in He as [_ ->].
  apply tx_bind_inr in Hd as (a8 & d3 & Hg & Hd). apply tx_bind_inr in Hd as (a9 & d0 & He & Hd). injection He as _ <-.
  injection Hd as _ <-.
  assert (access_requests d3 = access_requests d) as Hd3.
  { destruct approve; [|by injection Hg as _ <-]. apply tx_bind_inr in Hg as (a10 & d0 & He & Hg). apply tx_guard_inr in He as [_ ->].
    destruct (keep_grant _ _); [by injection Hg as _ <-|]. apply tx_bind_inr in Hg as (n & d4 & Hap & Hg). injection Hg as _ <-.
    by apply applyAssignment_frame in Hap as (-> & _). }
  exists q. do 4 eexists. split; [done|]. split; [done|]. split; [|cbn; rewrite Hd3; reflexivity]. by destruct approve.
Qed.

(** The step either adds a fresh pending row under the limits, or closes rows. *)
Lemma request_step_shape d d' : request_step d d' ->
  (closes (access_requests d) (access_requests d') /\ keeps_decided (access_requests d) (access_requests d')) \/
  exists id r, access_requests d !! id = None /\ access_requests d' = <[id := r]> (access_requests d) /\ pending r = true /\
    count_where (pending_of (ar_UserID r)) (access_requests d) < 5 /\
    exists_where (pending_for (ar_AppID r) (ar_UserID r)) (access_requests d) = false.
Proof.
  assert (forall t : gmap string AccessRequest, closes t t /\ keeps_decided t t) as Hid.
  { intros t. split; [intros k r Hk; eauto|by intros k r Hk]. }
  intros [id user app reason duration audit details now r e e' Hr|id user audit details now e e' Hr
    |lid eid id actor approve note audit details now r e e' Hr|now e].
  - right. unfold CreateAccessRequest in Hr. cbv zeta in Hr.
    apply tx_bind_inr in Hr as (a1 & d0 & He & Hr). apply tx_guard_inr in He as [_ ->].
    apply tx_bind_inr in Hr as (a2 & d0 & He & Hr). injection He as <- <-.
    apply tx_bind_inr in Hr as (a3 & d0 & He & Hr). apply tx_guard_inr in He as [_ ->].
    apply tx_bind_inr in Hr as (a4 & d0 & He & Hr). apply tx_guard_inr in He as [_ ->].
    apply tx_bind_inr in Hr as (a5 & d0 & He & Hr). apply tx_guard_inr in He as [Hc ->].
    apply tx_bind_inr in Hr as (a6 & d0 & He & Hr). apply tx_guard_inr in He as [Hu ->].
    apply tx_bind_inr in Hr as (a7 & d0 & He & Hr). apply tx_guard_inr in He as [_ ->].
    apply tx_bind_inr in Hr as (a8 & d0 & He & Hr). injection He as _ <-.
    apply tx_bind_inr in Hr as (a9 & d0 & He & Hr). injection Hr as _ <-. apply recordAuditTx_inv in He as (m & q9 & ->).
    apply andb_true_iff in Hu as [Hn Hu]. apply negb_true_iff in Hu. apply Z.ltb_lt in Hc.
    eexists id, _. split; [by destruct (access_requests e !! id)|]. split; [reflexivity|]. split; [done|]. by split.
  - left. unfold CancelAccessRequest in Hr. apply tx_bind_inr in Hr as (a1 & d0 & He & Hr). injection He as <- <-.
    destruct (access_requests e !! id) as [q|] eqn:Eq; [|done].
    apply tx_bind_inr in Hr as (a3 & d0 & He & Hr). apply tx_guard_inr in He as [Hp ->]. bool_hyps.
    apply tx_bind_inr in Hr as (a4 & d0 & He & Hr). injection He as _ <-. apply recordAuditTx_inv in Hr as (m & q9 & ->).
    by apply close_one.
  - left. apply decide_requests in Hr as [->|(q & s & n & b & x & Hq & Hp & Hs & ->)]; [apply Hid|by apply close_one].
  - left. split.
    + intros k r' Hk. cbn -[update_where] in Hk. apply lookup_update_where_Some in Hk as (r & Hk & ->). exists r. split; [done|].
      destruct (pending r && _) eqn:E; [|by left]. right. bool_hyps. by split_and!.
    + intros k r Hk Hn. cbn -[update_where]. apply lookup_update_where_ne; [done|]. by rewrite Hn.
Qed.

(** The bounds on what is pending. *)
Definition requests_bounded (d : DB) : Prop :=
  (forall user, count_where (pending_of user) (access_requests d) <= 5) /\
  (forall app user k1 k2 r1 r2, access_requests d !! k1 = Some r1 -> access_requests d !! k2 = Some r2 ->
     pending_for app user r1 = true -> pending_for app user r2 = true -> k1 = k2).

Lemma closes_pending t t' k r' : closes t t' -> t' !! k = Some r' -> pending r' = true -> t !! k = Some r'.
Proof. intros Hc Hk Hp. destruct (Hc k r' Hk) as (r & Hr & [->|(_ & Hn & _)]); [done|congruence]. Qed.

Lemma request_step_bounded d d' : request_step d d' -> requests_bounded d -> requests_bounded d'.
Proof.
  intros Hs [Hn Hu]. destruct (request_step_shape _ _ Hs) as [[Hc _]|(id & r & Hid & Hd & Hp & Hlt & Hno)].
  - split.
    + intros user. etrans; [|apply (Hn user)]. apply count_where_subset. intros k r' Hk Hr. exists r'. split; [|done].
      unfold pending_of in Hr. bool_hyps. by eapply closes_pending.
    + intros app user k1 k2 r1 r2 H1 H2 P1 P2. unfold pending_for in P1, P2.
      apply (Hu app user k1 k2 r1 r2); [| |done|done]; eapply closes_pending; eauto; by bool_hyps.
  - unfold requests_bounded. rewrite Hd. split.
    + intros user. rewrite count_where_insert_new by done. specialize (Hn user).
      destruct (pending_of user r) eqn:E; [|lia]. unfold pending_of in E. bool_hyps. subst user. lia.
    + rewrite exists_where_false in Hno. intros app user k1 k2 r1 r2 H1 H2 P1 P2.
      assert (forall k x, access_requests d !! k = Some x -> pending_for app user r = true -> pending_for app user x = true -> False) as Hx.
      { intros k x Hk Pr Px. unfold pending_for in Pr. bool_hyps. subst app user. specialize (Hno k x Hk). congruence. }
      apply lookup_insert_Some in H1 as [[<- <-]|[_ H1]]; apply lookup_insert_Some in H2 as [[<- <-]|[_ H2]];
        [done|exfalso; eauto|exfalso; eauto|by eapply Hu].
Qed.

(** Over every sequence of request operations a user keeps at most one
    pending request per application and at most the configured number in
    all, and a request that was decided never changes again. *)
Theorem access_requests_bounded_and_final d d' :
  rtc request_step d d' -> requests_bounded d ->
  requests_bounded d' /\
  forall id r, access_requests d !! id = Some r -> pending r = false -> access_requests d' !! id = Some r.
Proof.
  induction 1 as [d|d d1 d' Hs _ IH]; intros Hb; [by split|].
  destruct (IH (request_step_bounded _ _ Hs Hb)) as [Hb' Hk]. split; [done|]. intros id r Hr Hp. apply Hk; [|done].
  destruct (request_step_shape _ _ Hs) as [[_ Hkd]|(id' & r' & Hid & Hd & _)]; [by apply Hkd|].
  rewrite Hd, lookup_insert_ne; [done|]. congruence.
Qed.

(** ** Role changes *)

(** No live token and no code of the user for the client. *)
Definition unbound (client user : string) (d : DB) : Prop :=
  (forall k t, issued_tokens d !! k = Some t -> it_ClientID t = client -> it_UserID t = user -> it_RevokedAt t <> None) /\
  (forall k c, authorization_codes d !! k = Some c -> c_ClientID c = client -> c_UserID c <> user).

Lemma revoke_for_roles_unbound app client user now d : a_ClientID app = Some client ->
  unbound client user (revoke_for_roles app user now d) /\
  (forall u, unbound client u d -> unbound client u (revoke_for_roles app user now d)).
Proof.
  intros Hc. unfold revoke_for_roles. rewrite Hc. split; [|intros u [Ht Hco]]; split; intros k x Hk; cbn -[update_where delete_where] in Hk.
  - apply lookup_update_where_Some in Hk as (y & _ & ->). intros E1 E2.
    destruct ((it_ClientID y =?s client) && _ && _) eqn:E; [done|].
    rewrite E1, E2, !streqb_refl in E. cbn in E. destruct (it_RevokedAt y); [done|discriminate].
  - apply lookup_delete_where_Some in Hk as [_ Hk]. intros E1 E2. by rewrite E1, E2, !streqb_refl in Hk.
  - apply lookup_update_where_Some in Hk as (y & Hy & ->). intros E1 E2.
    destruct ((it_ClientID y =?s client) && _ && _) eqn:E; [done|]. by eapply Ht.
  - apply lookup_delete_where_Some in Hk as [Hk _]. by eapply Hco.
Qed.

Lemma queued_unbound client user d d' : queued d d' -> unbound client user d -> unbound client user d'.
Proof. by intros (es & st & ->). Qed.

Lemma role_desired_user now d app sys user : role_desired now d app sys user = true -> is_Some (get_user now d user).
Proof.
  unfold role_desired. destruct (sync_resource_state d !! _); [|done]. intros Hd. bool_hyps.
  unfold effective_app_access in *. destruct (app_registry d !! _); [|done]. unfold get_user.
  destruct (users d !! user); [by eexists|done].
Qed.

(** The loop reaches every user of the list. *)
Lemma role_users_unbound eid app client l now : a_ClientID app = Some client -> forall d u d',
  role_users eid app l now d = inr (u, d') ->
  app_registry d' = app_registry d /\ (forall x, In x l -> unbound client x d') /\ (forall x, unbound client x d -> unbound client x d').
Proof.
  intros Hc. induction l as [|x l IH]; intros d u d' Hr; cbn [role_users] in Hr.
  { injection Hr as _ <-. split; [done|]. by split. }
  apply tx_bind_inr in Hr as (a1 & d0 & He & Hr). injection He as _ <-.
  apply tx_bind_inr in Hr as (a2 & d0 & He & Hr). injection He as <- <-.
  destruct (revoke_for_roles_unbound app client x now d Hc) as [Hx Hk].
  assert (app_registry (revoke_for_roles app x now d) = app_registry d) as Hreg by (unfold revoke_for_roles; by rewrite Hc).
  set (d1 := revoke_for_roles app x now d) in *. clearbody d1.
  assert (forall d2, queued d1 d2 -> role_users eid app l now d2 = inr (u, d') ->
    app_registry d' = app_registry d /\ (forall y, In y (x :: l) -> unbound client y d') /\ (forall y, unbound client y d -> unbound client y d')) as Hrest.
  { intros d2 Hq H2. destruct (IH _ _ _ H2) as (R & Hin & Hkeep). split; [|split].
    - rewrite R, <- Hreg. by destruct Hq as (es & st & ->).
    - intros y [<-|Hy]; [|by apply Hin]. by eapply Hkeep, queued_unbound.
    - intros y Hy. eapply Hkeep, queued_unbound; [exact Hq|]. by apply Hk. }
  destruct (a_SystemID app) as [sys|]; [|by apply (Hrest d1 (queued_refl _))].
  destruct (role_desired now d1 app sys x) eqn:Ed; [|by apply (Hrest d1 (queued_refl _))].
  apply role_desired_user in Ed as [w Hw]. rewrite Hw in Hr.
  apply tx_bind_inr in Hr as (a3 & d2 & H2 & Hr). apply (Hrest d2); [by eapply queue_queued|done].
Qed.

Lemma roleChange_unbound eid app client l now d u d' : a_ClientID app = Some client ->
  roleChangeTx eid app l now d = inr (u, d') ->
  app_registry d' = alter bump_role_revision (a_ID app) (app_registry d) /\ forall x, In x l -> unbound client x d'.
Proof.
  intros Hc Hr. unfold roleChangeTx in Hr. apply tx_bind_inr in Hr as (a1 & d0 & He & Hr). injection He as _ <-.
  apply (role_users_unbound eid app client l now Hc) in Hr as (-> & Hin & _). done.
Qed.

(** Whether the mapping is there before the edit. *)
Definition role_mapped (d : DB) (kind role principal : string) : bool :=
  if kind =?s "users" then bool_decide ((role, principal) ∈ app_role_user_assignments d)
  else bool_decide ((role, principal) ∈ app_role_group_assignments d).

Definition role_affected (now : Z) (d : DB) (kind principal : string) : list string :=
  if kind =?s "users" then [principal] else group_live_members now d principal.

(** Changing an application role assignment raises the application's role
    revision and leaves no code, interaction or live token at the
    application's client for any account the change affects. *)
Theorem role_edit_ends_grants eid app role kind principal assigned audit details now d d' a client :
  SetAppRoleAssignment eid app role kind principal assigned audit details now d = inr (tt, d') ->
  app_registry d !! app = Some a -> a_ID a = app -> a_ClientID a = Some client ->
  role_mapped d kind role principal <> assigned ->
  (exists a', app_registry d' !! app = Some a' /\ a_RoleRevision a' = a_RoleRevision a + 1) /\
  forall user, In user (role_affected now d kind principal) -> unbound client user d'.
Proof.
  intros Hr Ha Hid Hc Hm. unfold SetAppRoleAssignment in Hr.
  apply tx_bind_inr in Hr as (a1 & d0 & He & Hr). apply tx_guard_inr in He as [_ ->].
  apply tx_bind_inr in Hr as (a2 & d0 & He & Hr). unfold lockAppForRoles in He.
  apply tx_bind_inr in He as (a3 & d1 & Hg & He). injection Hg as <- <-. rewrite Ha in He. injection He as <- <-.
  apply tx_bind_inr in Hr as (a4 & d0 & He & Hr). injection He as <- <-.
  destruct (role_of_app d app role) as [r|]; [|done]. destruct (principal_name d kind principal) as [n|]; [|done].
  apply tx_bind_inr in Hr as (a5 & d0 & He & Hr). injection He as _ <-.
  apply tx_bind_inr in Hr as (a6 & d1 & H1 & Hr). apply recordAuditTx_inv in Hr as (m & q9 & ->).
  fold (role_mapped d kind role principal) in H1. fold (role_affected now d kind principal) in H1.
  destruct (Bool.eqb _ assigned) eqn:Eb; [apply eqb_prop in Eb; congruence|].
  apply (roleChange_unbound eid a client) in H1 as [Hreg Hin]; [|done]. split; [|exact Hin].
  cbn. rewrite Hreg, Hid. destruct (kind =?s "users"); cbn; rewrite lookup_alter_eq, Ha; by eexists.
Qed.

End access_facts.

(** ** Witnesses *)

#[local] Existing Instance sample_codec.

Definition logout_id (sid : string) : string := String.append "lo-" sid.
Definition no_details (a : option AppRecord) (name : string) : Json := JNull.

Lemma access_edit_closes_witness :
  let d' := after (setAppAssignment logout_id event_id "crm" "users" "bob" false None None no_details t0) outbox_db in
  client_reachable t0 outbox_db "bob" "c1" = true /\ access_closed t0 d' /\ client_reachable t0 d' "bob" "c1" = false.
Proof.
  cbv zeta. split; [vm_compute; reflexivity|].
  destruct (after_inr (setAppAssignment logout_id event_id "crm" "users" "bob" false None None no_details t0) outbox_db) as [[] Hr];
    [eexists; vm_compute; reflexivity|].
  split; [exact (access_edit_closes t0 _ outbox_db _ (ae_assign t0 logout_id event_id "crm" "users" "bob" false None None no_details) Hr)|].
  vm_compute. reflexivity.
Defined.

Definition carol : User := sample_user "carol" "user".

(** Carol asked for the app for a day. *)
Definition request_db : DB :=
  on_users <["carol"%string := carol]> (
  on_app_registry <["crm"%string := set_a_Requestable true sample_app]> (
  on_access_requests (fun _ => {[ "rq1"%string := MkAccessRequest "crm" "carol" "please" 86400 "pending" t0 (unix t0 + 1000) None EmptyString EmptyString ]})
  outbox_db)).
Definition no_request_details (r : AccessRequest) : Json := JNull.

Lemma approval_is_authorised_and_never_shortens_witness : exists r d',
  DecideAccessRequest logout_id event_id "rq1" "alice" true "ok" None no_request_details t0 request_db = (inr r, d') /\
  may_decide t0 request_db "alice" (ar_AppID r) = true /\ ar_UserID r <> "alice"%string.
Proof.
  assert (match (DecideAccessRequest logout_id event_id "rq1" "alice" true "ok" None no_request_details t0 request_db).1 with
    inr _ => true | inl _ => false end = true) as Hok by (vm_compute; reflexivity).
  destruct (DecideAccessRequest logout_id event_id "rq1" "alice" true "ok" None no_request_details t0 request_db) as [[e|r] d'] eqn:E;
    [discriminate Hok|].
  exists r, d'. split; [reflexivity|].
  destruct (approval_is_authorised_and_never_shortens logout_id event_id "rq1" "alice" "ok" None no_request_details t0 request_db r d' E)
    as (H1 & H2 & _). split; [exact H2|exact H1].
Defined.

Lemma expired_decision_writes_nothing_witness :
  DecideAccessRequest logout_id event_id "rq1" "alice" true "ok" None no_request_details (t0 + hour) request_db
    = (inl ErrRequestNotPending, request_db).
Proof.
  apply (expired_decision_writes_nothing logout_id event_id "rq1" "alice" true "ok" None no_request_details (t0 + hour) request_db
    (MkAccessRequest "crm" "carol" "please" 86400 "pending" t0 (unix t0 + 1000) None EmptyString EmptyString)).
  - reflexivity.
  - reflexivity.
  - vm_compute. discriminate.
  - apply Nat.leb_le. vm_compute. reflexivity.
  - vm_compute. eauto.
  - vm_compute. eauto.
Defined.

Lemma access_requests_bounded_and_final_witness :
  let d' := (DecideAccessRequest logout_id event_id "rq1" "alice" false "no" None no_request_details t0 request_db).2 in
  let d2 := (DecideAccessRequest logout_id event_id "rq1" "alice" true "ok" None no_request_details t0 d').2 in
  (ar_Status <$> access_requests d' !! "rq1"%string) = Some "denied"%string /\
  (ar_Status <$> access_requests d2 !! "rq1"%string) = Some "denied"%string.
Proof.
  cbv zeta. split; [vm_compute; reflexivity|].
  set (d' := (DecideAccessRequest logout_id event_id "rq1" "alice" false "no" None no_request_details t0 request_db).2).
  assert (match access_requests d' !! "rq1"%string with Some r => (ar_Status r =?s "denied") && negb (pending r) | None => false end = true) as Hd
    by (vm_compute; reflexivity).
  destruct (access_requests d' !! "rq1"%string) as [r|] eqn:Er; [|discriminate Hd].
  apply andb_true_iff in Hd as [Hs Hp]. apply streqb_true in Hs. apply negb_true_iff in Hp.
  assert (requests_bounded d') as Hb.
  { apply (request_step_bounded request_db); [eapply rq_decide, surjective_pairing|]. split.
    - intros user. etrans; [apply (count_where_le_1 _ _ "rq1"%string)|lia].
      intros k x Hk _. unfold request_db, on_access_requests, on_users, on_app_registry in Hk. cbn [access_requests] in Hk.
      apply lookup_singleton_Some in Hk as [<- _]. reflexivity.
    - intros app user k1 k2 r1 r2 H1 H2 _ _. unfold request_db, on_access_requests, on_users, on_app_registry in H1, H2.
      cbn [access_requests] in H1, H2. apply lookup_singleton_Some in H1 as [<- _], H2 as [<- _]. reflexivity. }
  destruct (access_requests_bounded_and_final d' _ (rtc_once _ _ (rq_decide logout_id event_id "rq1" "alice" true "ok" None
    no_request_details t0 _ d' _ (surjective_pairing _))) Hb) as [_ Hk].
  rewrite (Hk _ _ Er Hp). cbn. rewrite Hs. reflexivity.
Defined.

Definition role_db : DB := on_app_roles (fun _ => {[ "r1"%string := MkAppRole "crm" "editor" ]}) outbox_db.
Definition no_role_details (r n : string) : Json := JNull.

Lemma role_edit_ends_grants_witness :
  let d' := after (SetAppRoleAssignment event_id "crm" "r1" "users" "bob" true None no_role_details t0) role_db in
  (it_RevokedAt <$> issued_tokens role_db !! "jti-bob"%string) = Some None /\ unbound "c1" "bob" d'.
Proof.
  cbv zeta. split; [vm_compute; reflexivity|].
  destruct (after_inr (SetAppRoleAssignment event_id "crm" "r1" "users" "bob" true None no_role_details t0) role_db) as [[] Hr];
    [eexists; vm_compute; reflexivity|].
  assert (app_registry role_db !! "crm"%string = Some sample_app) as Ha by (vm_compute; reflexivity).
  assert (role_mapped role_db "users" "r1" "bob" = false) as Hm by (vm_compute; reflexivity).
  refine (proj2 (role_edit_ends_grants event_id "crm" "r1" "users" "bob" true None no_role_details t0 role_db _ sample_app "c1" Hr Ha eq_refl eq_refl _) "bob"%string _).
  - rewrite Hm. discriminate.
  - left. reflexivity.
Defined.
