(* ===== verification/Directory.v ===== *)
(** The directory: account creation, update, end and deletion
    ([store/store.go], [store/offboarding.go], [store/disable_user.go]), account
    links and passwords ([store/onboarding.go]), groups ([store/groups.go]),
    delegations ([store/delegations.go]), due expiries ([store/expiry.go]) and
    the MFA enrollment policy ([store/enrollment_policy.go]).

    The triggers of [store/group_enrollment.go] are written out at the
    statements that fire them. *)
From S2P Require Import Prelude Text Schema Access Sample Sessions Tokens Outbox AppAccess.

(** ** Enrollment policy *)

Record EnrollmentPolicy := MkEnrollmentPolicy { pol_Scope : string; pol_Required : bool;
  pol_AllowedMethods : list string; pol_GraceSeconds : Z; pol_Revision : Z }.

Definition enrollment_mask (p : EnrollmentPolicy) : Z := policy_mask (pol_AllowedMethods p) 0.

Definition EnrollmentPolicy_Valid (p : EnrollmentPolicy) : bool :=
  let len := String.length (pol_Scope p) in
  (one_of (pol_Scope p) ["organization"; "administrators"]%string ||
   (String.prefix "group:" (pol_Scope p) && Nat.ltb 6 len && Nat.leb len 512)) &&
  (0 <? enrollment_mask p) && (0 <=? pol_GraceSeconds p) && (pol_GraceSeconds p <=? 90 * 86400) && (0 <? pol_Revision p).

(** The deadlines a required policy gives its users, as (user, scope) and instant. *)
Definition applicable (d : DB) (now : Z) (p : string -> string -> bool) : list ((string * string) * Z) :=
  concat (map (fun kv : string * User =>
    omap (fun sp : string * EnrollmentPolicyRow =>
      if p (u_ID kv.2) sp.1 then Some ((u_ID kv.2, sp.1), unix now + ep_GraceSeconds sp.2) else None)
      (required_policies d kv.2)) (map_to_list (users d))).

(** [ON CONFLICT DO UPDATE SET due_at=MIN(...)]: a deadline never moves later. *)
Definition add_min (t : gmap (string * string) Z) (x : (string * string) * Z) : gmap (string * string) Z :=
  <[x.1 := match t !! x.1 with Some due => Z.min due x.2 | None => x.2 end]> t.

(** [INSERT OR IGNORE]: a deadline already there stands. *)
Definition add_new (t : gmap (string * string) Z) (x : (string * string) * Z) : gmap (string * string) Z :=
  match t !! x.1 with Some _ => t | None => <[x.1 := x.2]> t end.

Definition satisfiable (d : DB) : bool :=
  negb (exists_where (fun u => let r := enrollment_requirements d u in r_required r && (r_allowed_mask r =? 0)) (users d)).

Definition applyEnrollmentPolicyTx (p : EnrollmentPolicy) (now : Z) : STx unit :=
  tx_guard (EnrollmentPolicy_Valid p) ErrEnrollmentPolicy ;;;
  d <- tx_get ;;
  match enrollment_policies d !! pol_Scope p with
  | Some row =>
    tx_guard (ep_Revision row =? pol_Revision p) ErrAppLinkConflict ;;;
    tx_set (on_enrollment_policies <[pol_Scope p := MkEnrollmentPolicyRow (ep_GroupID row) (pol_Required p)
      (enrollment_mask p) (pol_GraceSeconds p) (ep_Revision row + 1)]>) ;;;
    d <- tx_get ;;
    tx_guard (satisfiable d) ErrEnrollmentPolicy ;;;
    tx_set (on_enrollment_deadlines (fun t => fold_left add_min (applicable d now (fun _ _ => true)) t))
  | None => tx_fail ErrAppLinkConflict
  end.

Record EnrollmentPreview := MkEnrollmentPreview { ep_Affected : Z; ep_MissingFactor : Z; ep_RestrictedSessions : Z; ep_CanActivate : bool }.

(** A group scope narrows the counts to its members; [LIKE] folds case. *)
Definition in_scope (d : DB) (scope user : string) : bool :=
  negb (String.prefix "group:" (lower scope)) ||
  existsb (fun kv : (string * string) * option Z => (kv.1.2 =?s user) && (String.append "group:" kv.1.1 =?s scope))
    (map_to_list (group_memberships d)).

(** The activating administrator signed in with a permitted factor within five minutes. *)
Definition can_activate (d : DB) (session : string) (now : Z) : bool :=
  match sessions d !! session with
  | None => false
  | Some s =>
    match users d !! s_UserID s with
    | None => false
    | Some u =>
      let r := enrollment_requirements d u in
      let ev := s_Evidence s in
      let recent o := opt_test (fun t => (t <=? now) && (now - 5 * minute <? t)) o in
      let bit := factorBit (ev_FactorMethod ev) in
      (u_Role u =?s "admin") && (u_Status u =?s "active") && negb (s_EnrollmentOnly s) && (now <? s_ExpiresAt s) &&
      (negb (r_required r) ||
       (enrolled_factors d (s_UserID s) bit && recent (ev_PrimaryAuthenticatedAt ev) && recent (ev_FactorAuthenticatedAt ev) &&
        negb (Z.land bit (r_allowed_mask r) =? 0)))
    end
  end.

Definition previewEnrollmentTx (d : DB) (session scope : string) (now : Z) : EnrollmentPreview :=
  let affected u := r_required (enrollment_requirements d u) && (u_Status u =?s "active") && in_scope d scope (u_ID u) in
  {| ep_Affected := count_where affected (users d);
     ep_MissingFactor := count_where (fun u => affected u &&
       negb (enrolled_in d (u_ID u) (r_allowed_mask (enrollment_requirements d u)))) (users d);
     ep_RestrictedSessions := count_where (fun s => negb (is_null (users d !! s_UserID s)) && negb (mfa_session_access now d s) &&
       (now <? s_ExpiresAt s) && in_scope d scope (s_UserID s)) (sessions d);
     ep_CanActivate := can_activate d session now |}.

(** The preview rolls its tentative edit back. *)
Definition PreviewEnrollmentPolicy (p : EnrollmentPolicy) (session : string) (now : Z) (d : DB) : StoreError + EnrollmentPreview :=
  match applyEnrollmentPolicyTx p now d with
  | inl e => inl e
  | inr (_, d') => inr (previewEnrollmentTx d' session (pol_Scope p) now)
  end.

Definition SetEnrollmentPolicy (p : EnrollmentPolicy) (session : string) (audit : option AuditEvent)
    (details : EnrollmentPreview -> option string -> Json) (now : Z) : STx unit :=
  applyEnrollmentPolicyTx p now ;;;
  d <- tx_get ;;
  let preview := previewEnrollmentTx d session (pol_Scope p) now in
  tx_guard (ep_CanActivate preview) ErrEmergencyAdministrator ;;;
  tx_set (on_authorization_codes (fun _ => ∅)) ;;;
  tx_set (on_authorization_interactions (fun _ => ∅)) ;;;
  tx_set (on_issued_tokens (update_where (fun t => is_null (it_RevokedAt t)) (set_it_RevokedAt (Some now)))) ;;;
  (if String.prefix "group:" (pol_Scope p) then
     match enrollment_policies d !! pol_Scope p with
     | Some row =>
       match ep_GroupID row ≫= fun g => directory_groups d !! g with
       | Some g => recordAuditTx (appRegistryAudit audit (details preview (Some (g_Name g)))) now
       | None => tx_fail ErrNoRows
       end
     | None => tx_fail ErrNoRows
     end
   else recordAuditTx (appRegistryAudit audit (details preview None)) now).

(** [SessionEnrollmentStatus]: required, permitted methods, deadline, enrolled, restricted. *)
Definition SessionEnrollmentStatus (user session : string) (now : Z) (d : DB) : option (bool * list string * Z * bool * bool) :=
  match users d !! user with
  | None => None
  | Some u =>
    let r := enrollment_requirements d u in
    Some (r_required r, factorNames (r_allowed_mask r), r_due_at r, enrolled_in d user (r_allowed_mask r),
      negb match sessions d !! session with
           | Some s => (s_UserID s =?s user) && mfa_session_access now d s
           | None => false
           end)
  end.

(** Membership and delegation changes end the old grants even when they relax. *)
Definition invalidateUserEnrollmentTx (user : string) (now : Z) : STx unit :=
  tx_set (on_authorization_codes (delete_where (fun c => c_UserID c =?s user))) ;;;
  tx_set (on_authorization_interactions (delete_where (fun i => i_UserID i =?s user))) ;;;
  tx_set (on_issued_tokens (update_where (fun t => (it_UserID t =?s user) && is_null (it_RevokedAt t)) (set_it_RevokedAt (Some now)))).

(** Trigger [enrollment_user_role] and [enrollment_role_compatibility], and the
    insert trigger that shares the first's statement. *)
Definition new_deadlines (user : string) (p : string -> bool) (now : Z) (d : DB) : DB :=
  on_enrollment_deadlines (fun t => fold_left add_new (applicable d now (fun u scope => (u =?s user) && p scope)) t) d.

Definition compatible (d : DB) (user : string) : bool :=
  match users d !! user with Some u => negb (r_allowed_mask (enrollment_requirements d u) =? 0) | None => true end.

Definition role_triggers (user : string) (now : Z) : STx unit :=
  d <- tx_get ;;
  tx_guard (compatible d user) ErrEnrollmentPolicy ;;;
  tx_set (new_deadlines user (fun _ => true) now).

Section directory.
Context `{Codec}.

(** ** Accounts *)

(** The CHECK and UNIQUE constraints of [users]. *)
Definition user_constraints (d : DB) (u : User) : bool :=
  one_of (u_Role u) ["user"; "admin"]%string && one_of (u_Status u) ["active"; "disabled"]%string &&
  negb (exists_where (fun x => (u_ID x <>?s u_ID u) &&
    (eq_nocase (u_Username x) (u_Username u) || eq_nocase (u_Email x) (u_Email u))) (users d)).

(** The columns of a creation; source and end columns take their defaults. *)
Definition new_user (u : User) (now : Z) : User :=
  MkUser (u_ID u) (u_Username u) (u_DisplayName u) (u_Email u) (u_PasswordHash u) (u_Role u) (u_Status u) (u_Pending u)
    (u_PasswordChangeRequired u) None EmptyString EmptyString true false None now now.

Definition CreateUserWithSyncEvents (eid : string -> string -> string) (u : User) (audit : option AuditEvent) (now : Z) : STx unit :=
  d <- tx_get ;;
  let row := new_user u now in
  tx_guard (is_null (users d !! u_ID u) && user_constraints d row) ErrUserConflict ;;;
  tx_set (on_users <[u_ID u := row]>) ;;;
  tx_set (new_deadlines (u_ID u) (fun _ => true) now) ;;;
  reconcileProvisioningTx eid now ;;;
  recordAuditTx audit now.

(** A source-owned account is active only while the upstream says so, no local
    override holds and a password was set. *)
Definition ApplySourceState (u : User) : User :=
  if u_SourceConnectorID u =?s EmptyString then u
  else set_u_Status (if u_SourceActive u && negb (u_LocallyDisabled u) && negb (u_Pending u) then "active" else "disabled") u.

Definition remote_mapped (d : DB) (sys user : string) : bool :=
  match scim_user_links d !! (sys, user) with
  | Some l => (sl_Kind l =?s "user") && (sl_RemoteID l <>?s EmptyString)
  | None => false
  end.

Definition user_tracked (d : DB) (sys user : string) : bool :=
  match sync_resource_state d !! (sys, user) with Some st => rs_Kind st =?s "user" | None => false end.

(** A mapping proves the target holds the account even when no grant was tracked. *)
Definition held_row (mapped : bool) (o : option SyncResourceState) : SyncResourceState :=
  match o with
  | None => MkSyncResourceState "user" true true 0 0 EmptyString None EmptyString None
  | Some st => if mapped && negb (rs_Provisioned st) then set_rs_Provisioned true st else st
  end.

(** The one way a login stops. *)
Definition offboardUserTx (lid : string -> string) (eid : string -> string -> string) (u : User) (deleted : bool) (now : Z) : STx unit :=
  revokeUserAccessTx lid (u_ID u) now ;;;
  d <- tx_get ;;
  let user := u_ID u in
  tx_iter (fun sys =>
    d <- tx_get ;;
    let payload := scimUserPayloadTx now d u false sys in
    tx_set (on_sync_resource_state (fun t => <[(sys, user) := held_row (remote_mapped d sys user) (t !! (sys, user))]> t)) ;;;
    queueDesiredStateTx eid (MkDesired sys user "user" false payload EmptyString false deleted) now)
    (sort_strings (List.filter (fun sys => live_system d sys && (user_tracked d sys user || remote_mapped d sys user))
      (map fst (map_to_list (paired_systems d))))).

(** An edit gives the new row, its end date as an instant, and whether access ends. *)
Definition user_edit : Type := DB -> User -> StoreError + (User * option Z * bool).

Definition with_ends (u : User) (ends : option Z) : User := set_u_EndsAt (unixOrNil ends) u.

(** The columns [updateUser] writes; the rest keep the stored value. *)
Definition updated_row (row u : User) (ends : option Z) (now : Z) : User :=
  MkUser (u_ID row) (u_Username u) (u_DisplayName u) (u_Email u) (u_PasswordHash u) (u_Role u) (u_Status u) (u_Pending u)
    (u_PasswordChangeRequired u) (u_EmailVerifiedAt row) (u_SourceConnectorID row) (u_ExternalID row) (u_SourceActive u)
    (u_LocallyDisabled u) (unixOrNil ends) (u_CreatedAt row) now.

Definition updateUser (lid : string -> string) (eid : string -> string -> string) (id : string) (edit : user_edit)
    (audit : option AuditEvent) (now : Z) : STx User :=
  d <- tx_get ;;
  match users d !! id with
  | None => tx_fail ErrNoRows
  | Some row =>
    let current := scanUser now row in
    match edit d current with
    | inl e => tx_fail e
    | inr (next, ends, revokeAccess) =>
      let u := ApplySourceState (set_u_ID id next) in
      let schedulingEnd := match ends with
        | None => false
        | Some t => match timeFromUnix (u_EndsAt current) with Some c => negb (t =? c) | None => true end
        end in
      tx_guard (negb schedulingEnd || checkExpiry ends now) ErrExpiryInPast ;;;
      (if (u_Role current =?s "admin") && (u_Status current =?s "active") &&
          ((u_Role u <>?s "admin") || (u_Status u <>?s "active") || schedulingEnd)
       then requirePermanentAdminTx (fun x => u_ID x <>?s id) else tx_ret tt) ;;;
      let written := updated_row row u ends now in
      tx_guard (user_constraints d written) ErrConstraint ;;;
      tx_set (on_users <[id := written]>) ;;;
      role_triggers id now ;;;
      (if (u_Role current <>?s "admin") && (u_Role u =?s "admin") then expireAccountTokensTx now (fun t => at_UserID t =?s id) else tx_ret tt) ;;;
      (if EqualFold (u_Email current) (u_Email u) then tx_ret tt else
         tx_set (on_users (alter (set_u_EmailVerifiedAt None) id)) ;;;
         expireAccountTokensTx now (fun t => at_UserID t =?s id)) ;;;
      d <- tx_get ;;
      match get_user now d id with
      | None => tx_fail ErrNoRows
      | Some stored =>
        (if (u_Status current =?s "active") && (u_Status stored =?s "disabled") then offboardUserTx lid eid stored false now
         else if revokeAccess then revokeUserAccessTx lid id now else tx_ret tt) ;;;
        queueUserUpdateTx eid stored now ;;;
        reconcileProvisioningTx eid now ;;;
        recordAuditTx audit now ;;;
        tx_ret stored
      end
    end
  end.

Definition CountAdmins (now : Z) (d : DB) : Z := count_where (activeAdminSQL now) (users d).

(** [ON DELETE CASCADE] on [users]; its sessions take their own dependants. *)
Definition delete_user_row (id : string) (d : DB) : DB :=
  let d := delete_sessions (fun s => s_UserID s =?s id) d in
  let d := on_group_memberships (filter (fun kv : (string * string) * option Z => kv.1.2 <> id)) d in
  let d := on_app_user_assignments (filter (fun kv : (string * string) * option Z => kv.1.2 <> id)) d in
  let d := on_app_role_user_assignments (filter (fun a : string * string => a.2 <> id)) d in
  let d := on_admin_delegations (filter (fun k : string * string * string => k.1.1 <> id)) d in
  let d := on_enrollment_deadlines (filter (fun kv : (string * string) * Z => kv.1.1 <> id)) d in
  let d := on_access_requests (delete_where (fun r => ar_UserID r =?s id)) d in
  let d := on_account_tokens (delete_where (fun t => at_UserID t =?s id)) d in
  let d := on_login_failures (filter (fun kv : (string * string) * LoginFailure => kv.1.1 <> id)) d in
  let d := on_device_pairing_tokens (delete_where (fun t => dp_UserID t =?s id)) d in
  let d := on_native_devices (delete_where (fun n => nd_UserID n =?s id)) d in
  let d := on_mfa_methods (delete_where (fun m => mm_UserID m =?s id)) d in
  let d := on_mfa_challenges (delete_where (fun c => mc_UserID c =?s id)) d in
  let d := on_mfa_tokens (delete_where (fun t => mt_UserID t =?s id)) d in
  let d := on_recovery_codes (delete_where (fun c => rc_UserID c =?s id)) d in
  let d := on_webauthn_credentials (delete_where (fun c => wc_UserID c =?s id)) d in
  let d := on_webauthn_challenges (delete_where (fun c => wh_UserID c =?s id)) d in
  let d := on_authorization_codes (delete_where (fun c => c_UserID c =?s id)) d in
  let d := on_issued_tokens (delete_where (fun t => it_UserID t =?s id)) d in
  let d := on_step_up_tokens (delete_where (fun t => st_UserID t =?s id)) d in
  let d := on_step_up_challenges (delete_where (fun c => sc_UserID c =?s id)) d in
  on_users (delete id) d.

(** A bare deletion for a connector with no recorded account. *)
Definition queue_stranger (eid : string -> string -> string) (user : string) (now : Z) (sys : string) : STx unit :=
  insert_row sync_resource_state on_sync_resource_state (sys, user) (MkSyncResourceState "user" false false 0 0 EmptyString None EmptyString None) ;;;
  insertResourceEventTx (eid sys user) sys user "user.deleted" (scimInactivePayload user) 0 now.

Definition DeleteUserWithSyncEvents (lid : string -> string) (eid : string -> string -> string) (id : string)
    (audit : option AuditEvent) (now : Z) : STx unit :=
  d <- tx_get ;;
  match get_user now d id with
  | None => tx_fail ErrNoRows
  | Some u =>
    (if (u_Role u =?s "admin") && (u_Status u =?s "active") then requirePermanentAdminTx (fun x => u_ID x <>?s id) else tx_ret tt) ;;;
    offboardUserTx lid eid u true now ;;;
    d <- tx_get ;;
    tx_iter (queue_stranger eid id now)
      (sort_strings (List.filter (fun sys => live_system d sys && negb (user_tracked d sys id)) (map fst (map_to_list (paired_systems d))))) ;;;
    tx_set (delete_user_row id) ;;;
    reconcileProvisioningTx eid now ;;;
    recordAuditTx audit now
  end.

(** ** Disabling by name *)

Definition find_username (d : DB) (name : string) : option User :=
  snd <$> find_where (fun u => eq_nocase (u_Username u) name) (users d).

Definition live_link (now : Z) (d : DB) (user : string) : bool :=
  exists_where (fun t => (at_UserID t =?s user) && is_null (at_UsedAt t) && (now <? at_ExpiresAt t)) (account_tokens d).

(** The guard is another active administrator with no end date. *)
Definition disable_edit (username guard : string) (now : Z) : user_edit := fun d u =>
  if negb (EqualFold (u_Username u) username) then inl ErrNotFound
  else if (u_Status u =?s "disabled") && ((u_SourceConnectorID u =?s EmptyString) || u_LocallyDisabled u) && negb (live_link now d (u_ID u))
  then inl ErrAlreadyDisabled
  else if negb (exists_where (fun x => permanent_admin x && eq_nocase (u_Username x) guard && (u_ID x <>?s u_ID u)) (users d))
  then inl ErrGuardAdministrator
  else inr (set_u_LocallyDisabled (u_LocallyDisabled u || (u_SourceConnectorID u <>?s EmptyString)) (set_u_Status "disabled" u),
            timeFromUnix (u_EndsAt u), true).

Definition DisableUserByName (lid : string -> string) (eid : string -> string -> string) (username guard : string)
    (audit : option AuditEvent) (now : Z) (d : DB) : (StoreError + bool) * DB :=
  if EqualFold username guard then (inl ErrGuardAdministrator, d) else
  match find_username d username with
  | None => (inl ErrNotFound, d)
  | Some u =>
    match commit (updateUser lid eid (u_ID u) (disable_edit username guard now) audit now) d with
    | (inr _, d') => (inr true, d')
    | (inl ErrAlreadyDisabled, d') => (inr false, d')
    | (inl e, d') => (inl e, d')
    end
  end.

(** ** Account links *)

Definition not_source_disabled (u : User) : bool :=
  (u_SourceConnectorID u =?s EmptyString) || (u_SourceActive u && negb (u_LocallyDisabled u)).

Definition link_eligible (kind : string) (u : User) : bool :=
  if kind =?s "reset" then (u_Status u =?s "active") && negb (u_Pending u) else u_Pending u && not_source_disabled u.

(** A new link retires the earlier ones of its kind; only the hash is stored. *)
Definition IssueAccountToken (token hash user kind delivery : string) (ttl : Z) (audit : option AuditEvent) (now : Z) :
    DB -> (StoreError + unit) * DB :=
  auditedTx audit now (
    d <- tx_get ;;
    tx_guard (match users d !! user with Some u => link_eligible kind u | None => false end) ErrNotFound ;;;
    expireAccountTokensTx now (fun t => (at_UserID t =?s user) && (at_Kind t =?s kind)) ;;;
    tx_guard (one_of kind ["activation"; "reset"]%string && one_of delivery ["manual"; "email"]%string &&
      negb (exists_where (fun t => at_TokenHash t =?s hash) (account_tokens d))) ErrConstraint ;;;
    insert_row account_tokens on_account_tokens token (MkAccountToken user kind hash delivery (now + ttl) None now)).

Definition link_live (hash kind : string) (now : Z) (t : AccountToken) : bool :=
  (at_TokenHash t =?s hash) && (at_Kind t =?s kind) && is_null (at_UsedAt t) && (now <? at_ExpiresAt t).

(** The state the link was issued for. *)
Definition redeemable (kind : string) (u : User) : bool :=
  ((kind =?s "activation") && u_Pending u) || ((kind =?s "reset") && (u_Status u =?s "active") && negb (u_Pending u)).

Definition redeemed_row (kind delivery password : string) (now : Z) (u : User) : User :=
  MkUser (u_ID u) (u_Username u) (u_DisplayName u) (u_Email u) password (u_Role u)
    (if kind =?s "activation" then (if not_source_disabled u then "active" else "disabled")%string else u_Status u)
    false false
    (match u_EmailVerifiedAt u with Some t => Some t | None => if delivery =?s "email" then Some now else None end)
    (u_SourceConnectorID u) (u_ExternalID u) (u_SourceActive u) (u_LocallyDisabled u) (u_EndsAt u) (u_CreatedAt u) now.

Definition RedeemAccountToken (lid : string -> string) (eid : string -> string -> string) (hash kind password : string)
    (audit : User -> option AuditEvent) (now : Z) : STx User :=
  d <- tx_get ;;
  match find_where (link_live hash kind now) (account_tokens d) with
  | None => tx_fail ErrNotFound
  | Some (id, t) =>
    tx_set (on_account_tokens <[id := set_at_UsedAt (Some now) t]>) ;;;
    match users d !! at_UserID t with
    | None => tx_fail ErrNotFound
    | Some u =>
      tx_guard (redeemable kind u) ErrNotFound ;;;
      let row := redeemed_row kind (at_Delivery t) password now u in
      tx_set (on_users <[at_UserID t := row]>) ;;;
      revokeUserAccessTx lid (at_UserID t) now ;;;
      tx_set (on_login_failures (filter (fun kv : (string * string) * LoginFailure => kv.1.1 <> at_UserID t))) ;;;
      reconcileProvisioningTx eid now ;;;
      recordAuditTx (audit (scanUser now row)) now ;;;
      tx_ret (scanUser now row)
    end
  end.

(** The session that proved itself stays; everything else of the account ends. *)
Definition ChangePassword (lid : string -> string) (user keep password : string) (audit : option AuditEvent) (now : Z) :
    DB -> (StoreError + unit) * DB :=
  auditedTx audit now (
    d <- tx_get ;;
    match users d !! user with
    | None => tx_fail ErrNotFound
    | Some u =>
      tx_guard ((u_Status u =?s "active") && negb (u_Pending u) &&
        in_sessions d (fun s => (s_UserID s =?s user) && (now <? s_ExpiresAt s)) keep) ErrNotFound ;;;
      tx_set (on_users <[user := set_u_UpdatedAt now (set_u_PasswordChangeRequired false (set_u_PasswordHash password u))]>) ;;;
      revokeSessionsTx lid now (fun s => (s_UserID s =?s user) && (s_ID s <>?s keep)) ;;;
      tx_set (on_device_pairing_tokens (update_where (fun t => (dp_UserID t =?s user) && is_null (dp_UsedAt t)) (set_dp_ExpiresAt now))) ;;;
      revokeSessionGrantsTx (fun _ u => u =?s user) now ;;;
      spendMFATokensTx now user ;;;
      expireAccountTokensTx now (fun t => at_UserID t =?s user)
    end).

Definition DeleteExpiredAccountTokens (now : Z) : DB -> DB :=
  on_account_tokens (delete_where (fun t => (at_ExpiresAt t <? now) || negb (is_null (at_UsedAt t)))).

(** Every factor goes, and everything a factor was backing. *)
Definition ResetUserMFA (lid : string -> string) (eid : string -> string -> string) (user : string) (audit : option AuditEvent) (now : Z) : STx unit :=
  tx_set (on_enrollment_deadlines (map_imap (fun k due => Some (if k.1 =?s user then 0 else due)))) ;;;
  tx_set (on_mfa_methods (delete_where (fun m => mm_UserID m =?s user))) ;;;
  tx_set (on_recovery_codes (delete_where (fun c => rc_UserID c =?s user))) ;;;
  tx_set (on_webauthn_credentials (delete_where (fun c => wc_UserID c =?s user))) ;;;
  tx_set (on_native_devices (update_where (fun n => nd_UserID n =?s user)
    (fun n => set_nd_IsMFAApprover false (set_nd_CanSignOn false n)))) ;;;
  revokeUserAccessTx lid user now ;;;
  d <- tx_get ;;
  (match get_user now d user with
   | Some u => queueUserNotificationTx eid u "user.mfa_reset" now
   | None => tx_ret tt
   end) ;;;
  recordAuditTx audit now.

(** ** Groups *)

Definition group_name_taken (d : DB) (id name : string) : bool :=
  exists_where (fun g => (g_ID g <>?s id) && eq_nocase (g_Name g) name) (directory_groups d).

(** Trigger [enrollment_new_group] gives every group its policy row. *)
Definition new_group_policy (group : string) : STx unit :=
  insert_row enrollment_policies on_enrollment_policies (String.append "group:" group) (MkEnrollmentPolicyRow (Some group) false 7 0 1).

Definition CreateGroup (g : Group) (audit : option AuditEvent) (now : Z) : STx unit :=
  d <- tx_get ;;
  tx_guard (is_null (directory_groups d !! g_ID g) && negb (group_name_taken d (g_ID g) (g_Name g))) ErrGroupNameExists ;;;
  tx_set (on_directory_groups <[g_ID g := MkGroup (g_ID g) (g_Name g) (g_Description g) EmptyString EmptyString now now]>) ;;;
  new_group_policy (g_ID g) ;;;
  recordAuditTx audit now.

(** A source-owned group keeps its name; the column compares without case. *)
Definition UpdateGroup (eid : string -> string -> string) (g : Group) (audit : option AuditEvent) (now : Z) : STx unit :=
  d <- tx_get ;;
  match directory_groups d !! g_ID g with
  | None => tx_fail ErrGroupTargetMissing
  | Some row =>
    tx_guard ((g_SourceConnectorID row =?s EmptyString) || eq_nocase (g_Name row) (g_Name g)) ErrGroupSourceOwned ;;;
    tx_guard (negb (group_name_taken d (g_ID g) (g_Name g))) ErrGroupNameExists ;;;
    tx_set (on_directory_groups <[g_ID g := MkGroup (g_ID row) (g_Name g) (g_Description g) (g_SourceConnectorID row) (g_ExternalID row)
      (g_CreatedAt row) now]>) ;;;
    reconcileProvisioningTx eid now ;;;
    recordAuditTx audit now
  end.

Definition mappedRoleApps (d : DB) (group : string) : list string :=
  remove_dups (omap (fun a : string * string => if a.2 =?s group then ro_AppID <$> app_roles d !! a.1 else None)
    (elements (app_role_group_assignments d))).

(** The apps are read first, then each runs its follow-up. *)
Definition roleChangeForAppsTx (eid : string -> string -> string) (apps : list AppRecord) (users : list string) (now : Z) : STx unit :=
  match users with
  | [] => tx_ret tt
  | _ => tx_iter (fun a => roleChangeTx eid a users now) apps
  end.

Definition app_records (d : DB) (ids : list string) : list AppRecord := omap (fun id => app_registry d !! id) ids.

Definition groupRoleChangeTx (eid : string -> string -> string) (group : string) (users : list string) (now : Z) : STx unit :=
  d <- tx_get ;; roleChangeForAppsTx eid (app_records d (mappedRoleApps d group)) users now.

Definition reconcileAccessTx (lid : string -> string) (eid : string -> string -> string) (now : Z) : STx unit :=
  revokeLostAppAccessTx lid now ;;; reconcileProvisioningTx eid now.

Definition group_policy (d : DB) (group : string) : option EnrollmentPolicyRow :=
  snd <$> find_where (fun p => opt_test (String.eqb group) (ep_GroupID p)) (enrollment_policies d).


(** Write one membership row with its policy checks; the caller reconciles. *)
Definition applyGroupMembershipTx (eid : string -> string -> string) (group user : string) (member : bool) (expiresAt : option Z)
    (session : string) (now : Z) : STx unit :=
  d <- tx_get ;;
  tx_guard (negb (is_null (directory_groups d !! group)) && negb (is_null (users d !! user))) ErrGroupTargetMissing ;;;
  let key := (group, user) in
  let before := group_memberships d !! key in
  let changed := if member then negb (bool_decide (before = Some (unixOrNil expiresAt))) else negb (is_null before) in
  tx_set (on_group_memberships (if member then <[key := unixOrNil expiresAt]> else delete key)) ;;;
  (if member && is_null before
   then tx_set (new_deadlines user (fun scope => scope =?s String.append "group:" group) now) else tx_ret tt) ;;;
  d <- tx_get ;;
  match group_policy d group with
  | None => tx_fail ErrNoRows
  | Some p =>
    (if ep_Required p && changed then
       tx_guard (compatible d user) ErrEnrollmentPolicy ;;;
       tx_guard (can_activate d session now) ErrEmergencyAdministrator ;;;
       invalidateUserEnrollmentTx user now
     else tx_ret tt) ;;;
    (if changed then groupRoleChangeTx eid group [user] now else tx_ret tt)
  end.

Definition SetGroupMembershipUntil (lid : string -> string) (eid : string -> string -> string) (group user : string)
    (member : bool) (expiresAt : option Z) (session : string) (audit : option AuditEvent) (now : Z) : STx unit :=
  tx_guard (checkExpiry expiresAt now) ErrExpiryInPast ;;;
  applyGroupMembershipTx eid group user member expiresAt session now ;;;
  reconcileAccessTx lid eid now ;;;
  recordAuditTx audit now.

(** [ON DELETE CASCADE] on [directory_groups]; a policy takes its deadlines. *)
Definition delete_group_row (group : string) (d : DB) : DB :=
  let scopes := map fst (List.filter (fun kv : string * EnrollmentPolicyRow => opt_test (String.eqb group) (ep_GroupID kv.2))
    (map_to_list (enrollment_policies d))) in
  let d := on_enrollment_deadlines (filter (fun kv : (string * string) * Z => kv.1.2 ∉ scopes)) d in
  let d := on_enrollment_policies (delete_where (fun p => opt_test (String.eqb group) (ep_GroupID p))) d in
  let d := on_group_memberships (filter (fun kv : (string * string) * option Z => kv.1.1 <> group)) d in
  let d := on_app_group_assignments (filter (fun a : string * string => a.2 <> group)) d in
  let d := on_app_role_group_assignments (filter (fun a : string * string => a.2 <> group)) d in
  on_directory_groups (delete group) d.

Definition deleteGroupTx (lid : string -> string) (eid : string -> string -> string) (group session : string) (now : Z) : STx string :=
  d <- tx_get ;;
  let required := match group_policy d group with Some p => ep_Required p | None => false end in
  let concerned user := required && negb (is_null (group_memberships d !! (group, user))) in
  tx_set (on_authorization_codes (delete_where (fun c => concerned (c_UserID c)))) ;;;
  tx_set (on_authorization_interactions (delete_where (fun i => concerned (i_UserID i)))) ;;;
  tx_set (on_issued_tokens (update_where (fun t => is_null (it_RevokedAt t) && concerned (it_UserID t)) (set_it_RevokedAt (Some now)))) ;;;
  tx_guard (negb (is_null (group_policy d group))) ErrGroupTargetMissing ;;;
  tx_guard (negb required || can_activate d session now) ErrEmergencyAdministrator ;;;
  match directory_groups d !! group with
  | None => tx_fail ErrGroupTargetMissing
  | Some g =>
    let apps := app_records d (mappedRoleApps d group) in
    let members := map (fun kv : (string * string) * option Z => kv.1.2)
      (List.filter (fun kv : (string * string) * option Z => kv.1.1 =?s group) (map_to_list (group_memberships d))) in
    tx_set (delete_group_row group) ;;;
    roleChangeForAppsTx eid apps members now ;;;
    reconcileAccessTx lid eid now ;;;
    tx_ret (g_Name g)
  end.

Definition DeleteGroupForSession (lid : string -> string) (eid : string -> string -> string) (group session : string)
    (audit : string -> option AuditEvent) (now : Z) : STx unit :=
  name <- deleteGroupTx lid eid group session now ;; recordAuditTx (audit name) now.

(** ** Delegations *)

Record Delegations := MkDelegations { dl_Helpdesk : bool; dl_Auditor : bool; dl_AppOwner : list string }.

Definition GetDelegations (user : string) (d : DB) : Delegations :=
  let has kind := existsb (fun k : string * string * string => (k.1.1 =?s user) && (k.1.2 =?s kind)) (elements (admin_delegations d)) in
  MkDelegations (has "helpdesk"%string) (has "auditor"%string)
    (sort_strings (omap (fun k : string * string * string =>
      if (k.1.1 =?s user) && (k.1.2 =?s "app_owner") then Some k.2 else None) (elements (admin_delegations d)))).

(** One inserted row, with trigger [enrollment_new_delegation]. *)
Definition insert_delegation (user kind app : string) (now : Z) : STx unit :=
  tx_set (on_admin_delegations (union {[ (user, kind, app) ]})) ;;;
  d <- tx_get ;;
  tx_guard (compatible d user) ErrEnrollmentPolicy ;;;
  tx_set (new_deadlines user (fun scope => scope =?s "administrators") now).

(** Exactly the set given; links issued before do not hand a delegate over. *)
Definition SetDelegations (user : string) (dl : Delegations) (audit : option AuditEvent) (details : Json) (now : Z) : STx unit :=
  d <- tx_get ;;
  tx_guard (negb (is_null (users d !! user))) ErrUserMissing ;;;
  tx_set (on_admin_delegations (filter (fun k : string * string * string => k.1.1 <> user))) ;;;
  (if dl_Helpdesk dl then insert_delegation user "helpdesk" EmptyString now else tx_ret tt) ;;;
  (if dl_Auditor dl then insert_delegation user "auditor" EmptyString now else tx_ret tt) ;;;
  tx_iter (fun app =>
    d <- tx_get ;;
    tx_guard (negb (is_null (app_registry d !! app))) ErrAppRecordMissing ;;;
    insert_delegation user "app_owner" app now) (remove_dups (sort_strings (dl_AppOwner dl))) ;;;
  invalidateUserEnrollmentTx user now ;;;
  (if dl_Helpdesk dl || dl_Auditor dl || negb (Nat.eqb (length (dl_AppOwner dl)) 0)
   then expireAccountTokensTx now (fun t => at_UserID t =?s user) else tx_ret tt) ;;;
  recordAuditTx (appRegistryAudit audit details) now.

(** ** Due expiries *)

Definition due_account (now : Z) (u : User) : bool :=
  opt_test (fun e => e <=? unix now) (u_EndsAt u) && (u_Status u =?s "active").

(** One ended account; the last administrator is kept and its end date dropped. *)
Definition end_account (lid : string -> string) (eid : string -> string -> string) (audit : string -> option AuditEvent)
    (now : Z) (id : string) : STx bool :=
  d <- tx_get ;;
  match users d !! id with
  | None => tx_ret false
  | Some row =>
    if negb (due_account now row) then tx_ret false else
    if (u_Role row =?s "admin") && (count_where (fun x => activeAdminSQL now x && (u_ID x <>?s id)) (users d) =? 0) then
      tx_set (on_users <[id := set_u_UpdatedAt now (set_u_EndsAt None row)]>) ;;;
      recordAuditTx (audit "account.end_refused") now ;;; tx_ret false
    else
      let ended := set_u_UpdatedAt now (set_u_LocallyDisabled true (set_u_Status "disabled" row)) in
      let u := set_u_LocallyDisabled true (set_u_Status "disabled" row) in
      tx_set (on_users <[id := ended]>) ;;;
      offboardUserTx lid eid u false now ;;;
      queueUserUpdateTx eid u now ;;;
      recordAuditTx (audit "account.ended") now ;;; tx_ret true
  end.

Definition expire_membership (lid : string -> string) (eid : string -> string -> string) (audit : option AuditEvent)
    (now : Z) (group user : string) : STx bool :=
  d <- tx_get ;;
  match group_memberships d !! (group, user) with
  | Some (Some e) =>
    if unix now <? e then tx_ret false else
    tx_set (on_group_memberships (delete (group, user))) ;;;
    groupRoleChangeTx eid group [user] now ;;;
    d <- tx_get ;;
    (if match group_policy d group with Some p => ep_Required p | None => false end
     then invalidateUserEnrollmentTx user now else tx_ret tt) ;;;
    recordAuditTx audit now ;;; tx_ret true
  | _ => tx_ret false
  end.

Definition expire_assignment (audit : option AuditEvent) (now : Z) (app user : string) : STx bool :=
  d <- tx_get ;;
  match app_user_assignments d !! (app, user) with
  | Some (Some e) =>
    if unix now <? e then tx_ret false else
    tx_set (on_app_user_assignments (delete (app, user))) ;;;
    tx_set (on_app_registry (alter (fun a => set_a_Revision (a_Revision a + 1) a) app)) ;;;
    recordAuditTx audit now ;;; tx_ret true
  | _ => tx_ret false
  end.

(** Each item commits on its own: a failure leaves the database and is retried
    by the next pass. *)
Fixpoint each_item {A} (f : A -> STx bool) (l : list A) (n : Z) (d : DB) : Z * DB :=
  match l with
  | [] => (n, d)
  | a :: l' =>
    match commit (f a) d with
    | (inr true, d') => each_item f l' (n + 1) d'
    | (_, d') => each_item f l' n d'
    end
  end.

Record ExpiryRun := MkExpiryRun { ex_Accounts : Z; ex_Memberships : Z; ex_Assignments : Z }.

Definition expired_rows (now : Z) (t : gmap (string * string) (option Z)) : list (string * string) :=
  map fst (List.filter (fun kv : (string * string) * option Z => opt_test (fun e => e <=? unix now) kv.2) (map_to_list t)).

Definition RunDueExpiries (lid : string -> string) (eid : string -> string -> string) (audit : string -> string -> option AuditEvent)
    (now : Z) (d : DB) : ExpiryRun * DB :=
  let ended := map fst (List.filter (fun kv : string * User => due_account now kv.2) (map_to_list (users d))) in
  let '(accounts, d) := each_item (fun id => end_account lid eid (fun action => audit action id) now id) ended 0 d in
  let '(memberships, d) := each_item (fun m : string * string =>
      expire_membership lid eid (audit "group.membership_expired" m.2) now m.1 m.2) (expired_rows now (group_memberships d)) 0 d in
  let '(assignments, d) := each_item (fun m : string * string =>
      expire_assignment (audit "app.assignment_expired" m.2) now m.1 m.2) (expired_rows now (app_user_assignments d)) 0 d in
  let '(_, d) := commit (tx_set (expireAccessRequestsTx now) ;;; reconcileAccessTx lid eid now) d in
  (MkExpiryRun accounts memberships assignments, d).

End directory.

(** ** Facts *)

Section directory_facts.
Context `{Codec}.

(** The account rows a step leaves alone. *)
Lemma queued_users d d' : queued d d' -> users d' = users d.
Proof. by intros (es & st & ->). Qed.

Lemma revokeUserAccess_users lid user now d u d' : revokeUserAccessTx lid user now d = inr (u, d') -> users d' = users d.
Proof. intros Hr. by apply revokeUserAccessTx_inv in Hr as (m & _ & ->). Qed.

Lemma offboard_inv lid eid u deleted now d v d' : offboardUserTx lid eid u deleted now d = inr (v, d') ->
  exists d1, revokeUserAccessTx lid (u_ID u) now d = inr (tt, d1) /\ queued d1 d'.
Proof.
  unfold offboardUserTx. intros Hr. apply tx_bind_inr in Hr as ([] & d1 & H1 & Hr). exists d1. split; [done|].
  apply tx_bind_inr in Hr as (a & d0 & He & Hr). injection He as <- <-. cbv zeta in Hr. apply queued_iter in Hr; [done|].
  intros sys s w s' Hs. apply tx_bind_inr in Hs as (b & e0 & Hb & Hs). injection Hb as <- <-.
  apply tx_bind_inr in Hs as (b1 & e0 & Hb & Hs). injection Hb as _ <-.
  eapply queued_trans; [apply queued_state|by eapply queue_queued].
Qed.

Lemma queueUserUpdate_queued eid u now d v d' : queueUserUpdateTx eid u now d = inr (v, d') -> queued d d'.
Proof.
  unfold queueUserUpdateTx. intros Hr. apply tx_bind_inr in Hr as (a & d0 & He & Hr). injection He as <- <-.
  apply queued_iter in Hr; [done|]. intros. by eapply queue_queued.
Qed.

Lemma expireAccountTokens_inv now p d u d' : expireAccountTokensTx now p d = inr (u, d') ->
  exists t, d' = on_account_tokens (fun _ => t) d.
Proof. unfold expireAccountTokensTx. intros [= _ <-]. by eexists. Qed.

(** Rows under their own ID. *)
Definition users_keyed (d : DB) : Prop := forall k u, users d !! k = Some u -> u_ID u = k.

Definition has_permanent_admin (d : DB) : Prop := exists k u, users d !! k = Some u /\ permanent_admin u = true.

Lemma late_write d g t t2 (f : User -> User) id w :
  on_account_tokens (fun _ => t2) (on_users (alter f id) (on_account_tokens (fun _ => t) (on_enrollment_deadlines g (on_users <[id := w]> d)))) =
  on_account_tokens (fun _ => t2) (on_users (fun _ => alter f id (<[id := w]> (users d))) (on_enrollment_deadlines g d)).
Proof. reflexivity. Qed.

(** What one account update writes, and what it was allowed to. *)
Lemma updateUser_inv lid eid id edit audit now d stored d' : updateUser lid eid id edit audit now d = inr (stored, d') ->
  exists row u ends rv w d1 d2 d3, users d !! id = Some row /\ edit d (scanUser now row) = inr (u, ends, rv) /\
    u_ID w = u_ID row /\ u_Role w = u_Role u /\ u_Status w = u_Status (ApplySourceState (set_u_ID id u)) /\ u_EndsAt w = unixOrNil ends /\
    users d1 = <[id := w]> (users d) /\ stored = scanUser now w /\
    (u_Role (scanUser now row) = "admin"%string -> u_Status (scanUser now row) = "active"%string ->
     u_Role u <> "admin"%string \/ u_Status (ApplySourceState (set_u_ID id u)) <> "active"%string \/
     (ends <> None /\ u_EndsAt row = None) ->
     exists k x, users d !! k = Some x /\ permanent_admin x = true /\ u_ID x <> id) /\
    (if (u_Status (scanUser now row) =?s "active") && (u_Status stored =?s "disabled") then
       offboardUserTx lid eid stored false now d1 = inr (tt, d2)
     else if rv then revokeUserAccessTx lid id now d1 = inr (tt, d2) else d2 = d1) /\
    sync_resource_state d1 = sync_resource_state d /\ directory_groups d1 = directory_groups d /\ paired_systems d1 = paired_systems d /\
    (exists d2', queueUserUpdateTx eid stored now d2 = inr (tt, d2') /\ reconcileProvisioningTx eid now d2' = inr (tt, d3)) /\
    exists m q, d' = audited m q d3.
Proof.
  unfold updateUser. intros Hr. apply tx_bind_inr in Hr as (a1 & d0 & He & Hr). injection He as <- <-.
  destruct (users d !! id) as [row|] eqn:Erow; [|done]. cbv zeta in Hr.
  destruct (edit d (scanUser now row)) as [|[[u ends] rv]] eqn:Eedit; [done|].
  apply tx_bind_inr in Hr as (a2 & d0 & He & Hr). apply tx_guard_inr in He as [_ ->].
  apply tx_bind_inr in Hr as (a3 & d0 & Hguard & Hr).
  apply tx_bind_inr in Hr as (a4 & d1 & He & Hr). apply tx_guard_inr in He as [_ ->].
  apply tx_bind_inr in Hr as (a5 & d1 & He & Hr). injection He as _ <-.
  apply tx_bind_inr in Hr as (a6 & d1 & Htr & Hr). apply tx_bind_inr in Hr as (a7 & d2 & Hx1 & Hr).
  apply tx_bind_inr in Hr as (a8 & d3 & Hx2 & Hr). apply tx_bind_inr in Hr as (a9 & d4 & He & Hr). injection He as <- <-.
  remember (ApplySourceState (set_u_ID id u)) as src eqn:Hsrc. remember (updated_row row src ends now) as w0 eqn:Hw0.
  assert (u_ID w0 = u_ID row /\ u_Role w0 = u_Role src /\ u_Status w0 = u_Status src /\ u_EndsAt w0 = unixOrNil ends) as (Hw1 & Hw2 & Hw3 & Hw4) by by subst w0.
  clear Hw0.
  assert (d0 = d) as ->.
  { match type of Hguard with (if ?b then _ else _) _ = _ => destruct b end; [|by injection Hguard]. unfold requirePermanentAdminTx in Hguard.
    apply tx_bind_inr in Hguard as (b & e & Hb & Hguard). injection Hb as <- <-. by apply tx_guard_inr in Hguard as [_ ->]. }
  assert (exists g, d1 = on_enrollment_deadlines g (on_users <[id := w0]> d)) as [g ->].
  { unfold role_triggers in Htr. apply tx_bind_inr in Htr as (b & e & Hb & Htr). injection Hb as <- <-.
    apply tx_bind_inr in Htr as (b & e & Hb & Htr). apply tx_guard_inr in Hb as [_ ->]. injection Htr as _ <-. by eexists. }
  assert (exists t, d2 = on_account_tokens (fun _ => t) (on_enrollment_deadlines g (on_users <[id := w0]> d))) as [t ->].
  { match type of Hx1 with (if ?b then _ else _) _ = _ => destruct b end; [by apply expireAccountTokens_inv in Hx1|]. injection Hx1 as _ <-.
    by exists (account_tokens (on_enrollment_deadlines g (on_users <[id := w0]> d))). }
  assert (exists w t', users d3 = <[id := w]> (users d) /\ u_ID w = u_ID row /\ u_Role w = u_Role u /\ u_Status w = u_Status src /\ u_EndsAt w = unixOrNil ends /\
    d3 = on_account_tokens (fun _ => t') (on_users (fun _ => <[id := w]> (users d)) (on_enrollment_deadlines g d))) as (w & t' & Hus & Hid & Hrole & Hst & Hends & Hd3).
  { assert (u_Role src = u_Role u) as Hsr by (subst src; unfold ApplySourceState; by repeat case_match).
    match type of Hx2 with (if ?b then _ else _) _ = _ => destruct b end.
    - injection Hx2 as _ <-. exists w0, t. split_and!; [done|done|by rewrite Hw2|done|done|reflexivity]. 
    - apply tx_bind_inr in Hx2 as (b & e & Hb & Hx2). injection Hb as _ <-. apply expireAccountTokens_inv in Hx2 as [t2 ->].
      exists (set_u_EmailVerifiedAt None w0), t2. cbn [users on_account_tokens on_users on_enrollment_deadlines]. rewrite alter_insert_eq.
      split_and!; [done|done|by rewrite <- Hsr|done|done|].
      rewrite late_write. by rewrite alter_insert_eq. }
  assert (get_user now d3 id = Some (scanUser now w)) as Hget by (unfold get_user; by rewrite Hus, lookup_insert_eq).
  rewrite Hget in Hr.
  apply tx_bind_inr in Hr as (a10 & d5 & Hoff & Hr). apply tx_bind_inr in Hr as ([] & d6 & Hq & Hr).
  apply tx_bind_inr in Hr as ([] & d7 & Hrec & Hr). apply tx_bind_inr in Hr as (a11 & d8 & Ha & Hr).
  apply recordAuditTx_inv in Ha as (m & q9 & ->). injection Hr as <- <-.
  exists row, u, ends, rv, w, d3, d5, d7. rewrite <- Hsrc. split_and!; try done.
  - intros E1 E2 Hcase. rewrite E1, E2, !streqb_refl in Hguard. cbn [andb] in Hguard.
    match type of Hguard with (if ?b then _ else _) _ = _ => assert (b = true) as Hb end.
    { apply orb_true_iff. destruct Hcase as [Hc|[Hc|[Hc Hn]]].
      - left. apply orb_true_iff. left. apply negb_true_iff, streqb_false.
        subst src. unfold ApplySourceState. by repeat case_match.
      - left. apply orb_true_iff. right. by apply negb_true_iff, streqb_false.
      - right. destruct ends; [|done]. destruct (scanUser_fields now row) as (_ & _ & -> & _). by rewrite Hn. }
    rewrite Hb in Hguard. unfold requirePermanentAdminTx in Hguard.
    apply tx_bind_inr in Hguard as (b & e & Hb' & Hguard). injection Hb' as <- <-. apply tx_guard_inr in Hguard as [Hex _].
    apply exists_where_true in Hex as (k & x & Hk & Hp). bool_hyps. exists k, x. by split_and!.
  - match type of Hoff with (if ?b then _ else _) _ = _ => destruct b end; [by destruct a10|]. destruct rv; [by destruct a10|by injection Hoff].
  - by rewrite Hd3.
  - by rewrite Hd3.
  - by rewrite Hd3.
  - by exists d6.
  - by eexists _, _.
Qed.

Lemma updateUser_users lid eid id edit audit now d stored d' : updateUser lid eid id edit audit now d = inr (stored, d') ->
  exists w, users d' = <[id := w]> (users d) /\ stored = scanUser now w.
Proof.
  intros Hr. apply updateUser_inv in Hr as (row & u & ends & rv & w & d1 & d2 & d3 & _ & _ & _ & _ & _ & _ & Hu & Hs & _ & Hoff & _ & _ & _ & (d4 & Hq & Hrec) & m & q & ->).
  exists w. split; [|done]. apply reconcile_queued, queued_users in Hrec. apply queueUserUpdate_queued, queued_users in Hq.
  change (users d3 = <[id := w]> (users d)). rewrite Hrec, Hq, <- Hu. destruct (_ && _).
  - apply offboard_inv in Hoff as (d0 & H0 & Hq0). apply queued_users in Hq0. apply revokeUserAccess_users in H0. congruence.
  - destruct rv; [by apply revokeUserAccess_users in Hoff|by subst].
Qed.

(** Everything that removes, demotes, disables or end-dates an account. *)
Inductive directory_step : DB -> DB -> Prop :=
| ds_create eid u audit now d d' : CreateUserWithSyncEvents eid u audit now d = inr (tt, d') -> directory_step d d'
| ds_update lid eid id edit audit now r d d' : updateUser lid eid id edit audit now d = inr (r, d') -> directory_step d d'
| ds_disable lid eid username guard audit now r d d' : DisableUserByName lid eid username guard audit now d = (r, d') -> directory_step d d'
| ds_delete lid eid id audit now d d' : DeleteUserWithSyncEvents lid eid id audit now d = inr (tt, d') -> directory_step d d'
| ds_end lid eid audit now id b d d' : end_account lid eid audit now id d = inr (b, d') -> directory_step d d'.

Definition directory_ok (d : DB) : Prop := users_keyed d /\ has_permanent_admin d.

Lemma updateUser_ok lid eid id edit audit now d r d' : updateUser lid eid id edit audit now d = inr (r, d') ->
  directory_ok d -> directory_ok d'.
Proof.
  intros Hr [Hk (k & x & Hx & Hp)]. pose proof (updateUser_users _ _ _ _ _ _ _ _ _ Hr) as (w' & Hw & Hsw).
  apply updateUser_inv in Hr as (row & u & ends & rv & w & d1 & d2 & d3 & Hrow & Hed & Hid & Hrole & Hst & Hends & Hu & Hs & Hguard & Hoff & _ & _ & _ & (d4 & Hq & Hrec) & m & q & ->).
  assert (w' = w) as ->.
  { apply reconcile_queued, queued_users in Hrec. apply queueUserUpdate_queued, queued_users in Hq.
    change (users (audited m q d3)) with (users d3) in Hw.
    assert (users d2 = users d1) as E.
    { destruct (_ && _); [apply offboard_inv in Hoff as (d0 & H0 & Hq0); apply queued_users in Hq0; apply revokeUserAccess_users in H0; congruence|].
      destruct rv; [by apply revokeUserAccess_users in Hoff|by subst]. }
    assert (<[id := w']> (users d) !! id = <[id := w]> (users d) !! id) as E2 by congruence.
    rewrite !lookup_insert_eq in E2. congruence. }
  unfold directory_ok, users_keyed, has_permanent_admin. rewrite Hw. split.
  - intros k' y Hy. apply lookup_insert_Some in Hy as [[<- <-]|[_ Hy]]; [|by apply Hk]. rewrite Hid. by apply Hk.
  - destruct (decide (k = id)) as [->|Hne]; [|exists k, x; by rewrite lookup_insert_ne].
    assert (row = x) as -> by congruence.
    assert (scanUser now x = x) as Hscan.
    { apply scanUser_unexpired. unfold permanent_admin in Hp. bool_hyps. by destruct (u_EndsAt x). }
    unfold permanent_admin in Hp. bool_hyps. rewrite Hscan in Hguard. destruct (u_EndsAt x) eqn:Ex; [done|].
    destruct (decide (u_Role u = "admin"%string)) as [Er|Er].
    + destruct (decide (u_Status (ApplySourceState (set_u_ID id u)) = "active"%string)) as [Es|Es].
      * destruct ends as [t|].
        -- destruct (Hguard ltac:(done) ltac:(done)) as (k2 & y & Hy & Hpy & Hney); [right; right; by split|].
           exists k2, y. rewrite lookup_insert_ne; [done|]. intros <-. apply Hney. by apply Hk.
        -- exists id, w. rewrite lookup_insert_eq. split; [done|]. unfold permanent_admin. rewrite Hrole, Er, Hst, Es, Hends. done.
      * destruct (Hguard ltac:(done) ltac:(done)) as (k2 & y & Hy & Hpy & Hney); [right; by left|].
        exists k2, y. rewrite lookup_insert_ne; [done|]. intros <-. apply Hney. by apply Hk.
    + destruct (Hguard ltac:(done) ltac:(done)) as (k2 & y & Hy & Hpy & Hney); [by left|].
      exists k2, y. rewrite lookup_insert_ne; [done|]. intros <-. apply Hney. by apply Hk.
Qed.

Lemma directory_step_ok d d' : directory_step d d' -> directory_ok d -> directory_ok d'.
Proof.
  intros [eid u audit now e e' Hr|lid eid id edit audit now r e e' Hr|lid eid username guard audit now r e e' Hr
    |lid eid id audit now e e' Hr|lid eid audit now id b e e' Hr] Hok.
  - unfold CreateUserWithSyncEvents in Hr. apply tx_bind_inr in Hr as (a1 & d0 & He & Hr). injection He as <- <-. cbv zeta in Hr.
    apply tx_bind_inr in Hr as (a2 & d0 & He & Hr). apply tx_guard_inr in He as [Hn ->]. bool_hyps.
    apply tx_bind_inr in Hr as (a3 & d0 & He & Hr). injection He as _ <-.
    apply tx_bind_inr in Hr as (a4 & d0 & He & Hr). injection He as _ <-.
    apply tx_bind_inr in Hr as (a5 & d1 & Hs1 & Hr). apply recordAuditTx_inv in Hr as (m & q9 & ->).
    apply reconcile_queued, queued_users in Hs1. unfold directory_ok, users_keyed, has_permanent_admin.
    cbn [users audited on_audit_events on_alert_queue]. rewrite Hs1. cbn [users new_deadlines on_enrollment_deadlines on_users].
    destruct Hok as [Hk (k & x & Hx & Hp)]. split.
    + intros k' y Hy. apply lookup_insert_Some in Hy as [[<- <-]|[_ Hy]]; [done|by apply Hk].
    + exists k, x. rewrite lookup_insert_ne; [done|]. intros <-. destruct (users e !! u_ID u); done.
  - by eapply updateUser_ok.
  - unfold DisableUserByName in Hr. destruct (EqualFold _ _); [by injection Hr as _ <-|].
    destruct (find_username e username) as [u|]; [|by injection Hr as _ <-].
    destruct (commit _ e) as [[er|x] e2] eqn:Ec.
    + apply commit_inl in Ec as [-> _]. by destruct er; injection Hr as _ <-.
    + apply commit_inr in Ec. injection Hr as _ <-. by eapply updateUser_ok.
  - unfold DeleteUserWithSyncEvents in Hr. apply tx_bind_inr in Hr as (a1 & d0 & He & Hr). injection He as <- <-.
    unfold get_user in Hr. destruct (users e !! id) as [row|] eqn:Erow; [|done]. cbn [fmap option_fmap option_map] in Hr.
    apply tx_bind_inr in Hr as (a2 & d0 & Hg & Hr). apply tx_bind_inr in Hr as (a3 & d1 & Hs1 & Hr).
    apply tx_bind_inr in Hr as (a4 & d2 & He & Hr). injection He as <- <-. apply tx_bind_inr in Hr as (a5 & d2 & Hs2 & Hr).
    apply tx_bind_inr in Hr as (a6 & d3 & He & Hr). injection He as _ <-.
    apply tx_bind_inr in Hr as (a7 & d3 & Hs3 & Hr). apply recordAuditTx_inv in Hr as (m & q9 & ->).
    assert (d0 = e /\ (permanent_admin row = true -> exists k x, users e !! k = Some x /\ permanent_admin x = true /\ u_ID x <> id)) as [-> Hgd].
    { match type of Hg with (if ?b then _ else _) _ = _ => destruct b eqn:Ea end.
      - unfold requirePermanentAdminTx in Hg. apply tx_bind_inr in Hg as (b & e1 & Hb & Hg). injection Hb as <- <-.
        apply tx_guard_inr in Hg as [Hex ->]. split; [done|]. intros _. apply exists_where_true in Hex as (k & x & Hx & Hp). bool_hyps.
        exists k, x. by split_and!.
      - injection Hg as _ <-. split; [done|]. intros Hp. unfold permanent_admin in Hp. bool_hyps.
        rewrite scanUser_unexpired in Ea by by destruct (u_EndsAt row).
        destruct (u_Role row =?s "admin") eqn:E1; [destruct (u_Status row =?s "active") eqn:E2|]; [done| |]; bool_hyps; done. }
    apply offboard_inv in Hs1 as (d4 & Hs4 & Hq). apply revokeUserAccess_users in Hs4. apply queued_users in Hq.
    assert (users d2 = users d1) as H21.
    { apply (tx_iter_preserves (fun s => users s = users d1)) in Hs2; [done| |done]. intros sys s v s' _ Hs Hq2.
      unfold queue_stranger in Hq2. apply tx_bind_inr in Hq2 as (b & e1 & Hb & Hq2). apply insert_row_inv in Hb as [_ ->].
      by apply insert_event_inv in Hq2 as [_ ->]. }
    apply reconcile_queued, queued_users in Hs3. unfold directory_ok, users_keyed, has_permanent_admin.
    cbn [users audited on_audit_events on_alert_queue]. rewrite Hs3. change (users (delete_user_row id d2)) with (delete id (users d2)).
    rewrite H21, Hq, Hs4. destruct Hok as [Hk (k & x & Hx & Hp)]. split.
    + intros k' y Hy. apply lookup_delete_Some in Hy as [_ Hy]. by apply Hk.
    + destruct (decide (k = id)) as [->|Hne]; [|exists k, x; by rewrite lookup_delete_ne].
      assert (row = x) as -> by congruence. destruct (Hgd Hp) as (k2 & y & Hy & Hpy & Hney).
      exists k2, y. rewrite lookup_delete_ne; [done|]. intros <-. apply Hney. by apply Hk.
  - unfold end_account in Hr. apply tx_bind_inr in Hr as (a1 & d0 & He & Hr). injection He as <- <-.
    destruct (users e !! id) as [row|] eqn:Erow; [|by injection Hr as _ <-].
    destruct (due_account now row) eqn:Edue; cbn [negb] in Hr; [|by injection Hr as _ <-].
    assert (permanent_admin row = false) as Hnp.
    { unfold due_account in Edue. unfold permanent_admin. destruct (u_EndsAt row); [|done]. by rewrite andb_false_r. }
    assert (exists w, users e' = <[id := w]> (users e) /\ u_ID w = u_ID row) as (w & Hw & Hidw).
    { destruct (_ && _).
      - apply tx_bind_inr in Hr as (a2 & d1 & He & Hr). injection He as _ <-. apply tx_bind_inr in Hr as (a3 & d1 & He & Hr).
        apply recordAuditTx_inv in He as (m & q9 & ->). injection Hr as _ <-. by eexists.
      - cbv zeta in Hr. apply tx_bind_inr in Hr as (a2 & d1 & He & Hr). injection He as _ <-.
        apply tx_bind_inr in Hr as (a3 & d1 & Hs1 & Hr). apply tx_bind_inr in Hr as (a4 & d2 & Hs2 & Hr).
        apply tx_bind_inr in Hr as (a5 & d3 & Hs3 & Hr). apply recordAuditTx_inv in Hs3 as (m & q9 & ->). injection Hr as _ <-.
        apply offboard_inv in Hs1 as (d4 & Hs4 & Hq). apply revokeUserAccess_users in Hs4. apply queued_users in Hq.
        apply queueUserUpdate_queued, queued_users in Hs2. eexists. cbn [users audited on_audit_events on_alert_queue]. rewrite Hs2, Hq, Hs4. by split. }
    unfold directory_ok, users_keyed, has_permanent_admin. rewrite Hw. destruct Hok as [Hk (k & x & Hx & Hp)]. split.
    + intros k' y Hy. apply lookup_insert_Some in Hy as [[<- <-]|[_ Hy]]; [rewrite Hidw; by apply Hk|by apply Hk].
    + exists k, x. rewrite lookup_insert_ne; [done|]. intros <-. congruence.
Qed.

(** C2. Over every sequence of account creations, updates, disablings by name,
    deletions and due account ends, an active administrator without an end
    date remains, so the administrator count is positive at every instant. *)
Theorem a_permanent_administrator_remains d d' :
  rtc directory_step d d' -> directory_ok d -> has_permanent_admin d' /\ forall now, 0 < CountAdmins now d'.
Proof.
  intros Hs Hok. assert (directory_ok d') as [_ (k & x & Hx & Hp)].
  { revert Hok. induction Hs as [|y z w Hstep _ IH]; [done|]. intros Hok. by apply IH, (directory_step_ok y). }
  split; [by exists k, x|]. intros now. unfold CountAdmins. apply Z.le_neq. split; [apply count_where_nonneg|].
  intros E. symmetry in E. apply count_where_0 in E. rewrite exists_where_false in E. specialize (E k x Hx).
  rewrite (permanent_is_active now x Hp) in E. done.
Qed.

(** ** Offboarding *)

(** Nothing but account records under this ID. *)
Definition account_only (user : string) (d : DB) : Prop :=
  directory_groups d !! user = None /\ forall sys st, sync_resource_state d !! (sys, user) = Some st -> rs_Kind st = "user"%string.

Lemma queue_account_only eid s user now d v d' : ds_kind s = "user"%string ->
  queueDesiredStateTx eid s now d = inr (v, d') -> account_only user d -> account_only user d'.
Proof.
  intros Hk Hr [Hg Hs]. split; [by apply queue_queued in Hr as (? & ? & ->)|]. intros sys st Hst.
  rewrite (queue_state _ _ _ _ _ _ (sys, user) Hr) in Hst. destruct (decide _); [|by apply (Hs sys)].
  destruct (forgotten _ _); [done|]. injection Hst as <-.
  unfold next_state. destruct (sync_resource_state d !! (sys, user)) as [x|] eqn:E; [exact (Hs sys x E)|exact Hk].
Qed.

Lemma offboard_account_only lid eid u deleted now d v d' user : offboardUserTx lid eid u deleted now d = inr (v, d') ->
  account_only user d -> account_only user d'.
Proof.
  unfold offboardUserTx. intros Hr Ho. apply tx_bind_inr in Hr as ([] & d1 & H1 & Hr).
  apply revokeUserAccessTx_inv in H1 as (m & _ & ->). apply tx_bind_inr in Hr as (a & d0 & He & Hr). injection He as <- <-. cbv zeta in Hr.
  apply (tx_iter_preserves (account_only user)) in Hr; [done| |done].
  intros sys s w s' _ Hs Hq. apply tx_bind_inr in Hq as (b & e0 & Hb & Hq). injection Hb as <- <-.
  apply tx_bind_inr in Hq as (b1 & e0 & Hb & Hq). injection Hb as _ <-.
  eapply queue_account_only in Hq; [exact Hq|done|]. destruct Hs as [Hg Hs]. split; [done|]. intros sy st Hst. cbn in Hst.
  apply lookup_insert_Some in Hst as [[E <-]|[_ Hst]]; [|by apply (Hs sy)]. injection E as <- <-.
  unfold held_row. destruct (sync_resource_state s !! (sys, u_ID u)) as [x|] eqn:Ex; [|done]. specialize (Hs sys x Ex). by destruct (_ && _).
Qed.

Lemma queueUserUpdate_account_only eid u now d v d' user : queueUserUpdateTx eid u now d = inr (v, d') ->
  account_only user d -> account_only user d'.
Proof.
  unfold queueUserUpdateTx. intros Hr Ho. apply tx_bind_inr in Hr as (a & d0 & He & Hr). injection He as <- <-.
  apply (tx_iter_preserves (account_only user)) in Hr; [done| |done]. intros sys s w s' _ Hs Hq. by eapply queue_account_only in Hq.
Qed.

Lemma disabled_has_no_access now d sys user u : users d !! user = Some u -> u_Status (scanUser now u) = "disabled"%string ->
  system_access now d sys user = false.
Proof.
  intros Hu Hs. apply exists_where_false. intros k a _. apply andb_false_iff. right. unfold effective_app_access.
  destruct (app_registry d !! a_ID a) as [b|]; [|done]. rewrite Hu. unfold app_allows, appAllowedSQL.
  assert (f_active (app_access_facts now d b u) = false) as ->.
  { cbn. destruct (unexpired (u_EndsAt u) (unix now)) eqn:E; [|by rewrite andb_false_r].
    rewrite scanUser_unexpired in Hs by done. by rewrite Hs. }
  done.
Qed.

Lemma queued_holds now user d d' : queued d d' -> holds_access now user d' = holds_access now user d.
Proof. by intros (es & st & ->). Qed.

(** C1. An account update that turns an active login off leaves the account no
    session, code, interaction, live token, step-up grant or other
    credential, no access through any live connector, and every live
    connector's recorded desired state inactive, in the same commit. *)
Theorem offboarding_is_complete lid eid id edit audit now d stored d' row :
  updateUser lid eid id edit audit now d = inr (stored, d') ->
  users d !! id = Some row -> u_ID row = id -> account_only id d ->
  u_Status (scanUser now row) = "active"%string -> u_Status stored = "disabled"%string ->
  holds_access now id d' = false /\
  forall sys, live_system d' sys = true -> system_access now d' sys id = false /\ desired_active d' sys id = false.
Proof.
  intros Hr Hrow Hid Hao Hact Hdis. pose proof (updateUser_users _ _ _ _ _ _ _ _ _ Hr) as (w' & Hw' & Hsw).
  apply updateUser_inv in Hr as (row' & u & ends & rv & w & d1 & d2 & d3 & Hrow' & _ & Hidw & _ & _ & _ & _ & Hs & _ & Hoff & Est & Eg & _ & (d4 & Hq & Hrec) & m & q & ->).
  assert (row' = row) as -> by congruence. rewrite Hact, Hdis in Hoff. rewrite !streqb_refl in Hoff. cbn [andb] in Hoff. 
  assert (u_ID stored = id) as Eid by (rewrite Hs, <- Hid, <- Hidw; by destruct (scanUser_fields now w)).
  assert (account_only id d2) as Ho2.
  { eapply offboard_account_only; [exact Hoff|]. unfold account_only. by rewrite Eg, Est. }
  apply offboard_inv in Hoff as (d0 & H0 & Hq0). rewrite Eid in H0.
  pose proof (queueUserUpdate_account_only _ _ _ _ _ _ _ Hq Ho2) as [Hg4 Hs4].
  pose proof (reconcile_queued _ _ _ _ _ Hrec) as Hqr.
  pose proof (queueUserUpdate_queued _ _ _ _ _ _ Hq) as Hqu. split.
  - change (holds_access now id d3 = false). rewrite (queued_holds _ _ _ _ Hqr), (queued_holds _ _ _ _ Hqu), (queued_holds _ _ _ _ Hq0).
    by eapply revokeUserAccessTx_locks_out.
  - intros sys Hl. assert (system_access now (audited m q d3) sys id = false) as Hns.
    { apply (disabled_has_no_access now _ sys id w'); [rewrite Hw'; apply lookup_insert_eq|congruence]. }
    split; [done|]. destruct (reconcile_active eid now d4 d3 sys id Hrec) as [H1 _].
    + rewrite <- (queued_live _ _ _ Hqr). exact Hl.
    + done.
    + intros st Hst. by apply (Hs4 sys).
    + change (desired_active d3 sys id = false). rewrite H1. exact Hns.
Qed.

(** ** Enrollment policy edits *)

Lemma fold_add_min_old l : forall t k due, t !! k = Some due ->
  exists due', fold_left add_min l t !! k = Some due' /\ due' <= due.
Proof.
  induction l as [|x l IH]; intros t k due Hk; cbn [fold_left]; [exists due; split; [done|lia]|].
  destruct (decide (x.1 = k)) as [<-|Hne].
  - destruct (IH (add_min t x) x.1 (Z.min due x.2)) as (due' & ? & ?); [unfold add_min; by rewrite lookup_insert_eq, Hk|].
    exists due'. split; [done|lia].
  - apply IH. unfold add_min. by rewrite lookup_insert_ne.
Qed.

Lemma fold_add_min_new l : forall t x, In x l -> exists due, fold_left add_min l t !! x.1 = Some due /\ due <= x.2.
Proof.
  induction l as [|y l IH]; [by intros ? ? []|]. intros t x [<-|Hin]; cbn [fold_left]; [|by apply IH].
  destruct (fold_add_min_old l (add_min t y) y.1 (match t !! y.1 with Some due => Z.min due y.2 | None => y.2 end)) as (due & ? & Hle).
  { unfold add_min. apply lookup_insert_eq. }
  exists due. split; [done|]. destruct (t !! y.1); lia.
Qed.

Lemma can_activate_allowed d session now : can_activate d session now = true -> session_allowed now d session = true.
Proof.
  unfold can_activate, session_allowed, mfa_session_access. destruct (sessions d !! session) as [s|]; [|done].
  destruct (users d !! s_UserID s) as [u|]; [|done]. intros Hc. apply andb_true_iff in Hc as [Hc Hr]. bool_hyps.
  apply orb_true_iff in Hr as [Hr|Hr].
  - rewrite Hr. by destruct (s_EnrollmentOnly s).
  - destruct (s_EnrollmentOnly s); [done|]. bool_hyps.
    destruct (ev_PrimaryAuthenticatedAt _); [|done]. destruct (ev_FactorAuthenticatedAt _); [|done].
    repeat (apply orb_true_iff; right). unfold is_null. cbn [negb andb].
    apply andb_true_iff. split; [|done].
    apply negb_true_iff. first [done|by apply Z.eqb_neq].
Qed.

Lemma applyEnrollmentPolicy_inv p now d d' : applyEnrollmentPolicyTx p now d = inr (tt, d') ->
  exists row d1, enrollment_policies d !! pol_Scope p = Some row /\ ep_Revision row = pol_Revision p /\ EnrollmentPolicy_Valid p = true /\
    d1 = on_enrollment_policies <[pol_Scope p := MkEnrollmentPolicyRow (ep_GroupID row) (pol_Required p)
      (enrollment_mask p) (pol_GraceSeconds p) (ep_Revision row + 1)]> d /\
    satisfiable d1 = true /\
    d' = on_enrollment_deadlines (fun t => fold_left add_min (applicable d1 now (fun _ _ => true)) t) d1.
Proof.
  unfold applyEnrollmentPolicyTx. intros Hr. apply tx_bind_inr in Hr as (a1 & d0 & He & Hr). apply tx_guard_inr in He as [Hv ->].
  apply tx_bind_inr in Hr as (a2 & d0 & He & Hr). injection He as <- <-.
  destruct (enrollment_policies d !! pol_Scope p) as [row|] eqn:Erow; [|done].
  apply tx_bind_inr in Hr as (a3 & d0 & He & Hr). apply tx_guard_inr in He as [Hrev ->]. apply Z.eqb_eq in Hrev.
  apply tx_bind_inr in Hr as (a4 & d1 & He & Hr). injection He as _ <-.
  apply tx_bind_inr in Hr as (a5 & d0 & He & Hr). injection He as <- <-.
  apply tx_bind_inr in Hr as (a6 & d0 & He & Hr). apply tx_guard_inr in He as [Hs ->].
  injection Hr as <-. by exists row, (on_enrollment_policies <[pol_Scope p := MkEnrollmentPolicyRow (ep_GroupID row) (pol_Required p)
      (enrollment_mask p) (pol_GraceSeconds p) (ep_Revision row + 1)]> d).
Qed.

(** Committing an enrollment policy deletes every pending code and
    interaction, revokes every token, leaves every account a permitted
    factor, never moves a deadline later, gives each required policy's
    account a deadline within its grace period, and leaves the activating
    session allowed. *)
Theorem policy_change_forces_enrollment p session audit details now d d' :
  SetEnrollmentPolicy p session audit details now d = inr (tt, d') ->
  authorization_codes d' = ∅ /\ authorization_interactions d' = ∅ /\
  (forall jti t, issued_tokens d' !! jti = Some t -> it_RevokedAt t <> None) /\
  (forall user u, users d' !! user = Some u ->
    let r := enrollment_requirements d' u in r_required r = true -> r_allowed_mask r <> 0) /\
  (forall key due, enrollment_deadlines d !! key = Some due -> exists due', enrollment_deadlines d' !! key = Some due' /\ due' <= due) /\
  (forall user u scope row, users d' !! user = Some u -> In (scope, row) (required_policies d' u) ->
    exists due, enrollment_deadlines d' !! (u_ID u, scope) = Some due /\ due <= unix now + ep_GraceSeconds row) /\
  session_allowed now d' session = true.
Proof.
  unfold SetEnrollmentPolicy. intros Hr. apply tx_bind_inr in Hr as ([] & d1 & H1 & Hr).
  apply applyEnrollmentPolicy_inv in H1 as (row & d2 & Hrow & _ & _ & Ed2 & Hsat & Ed1).
  apply tx_bind_inr in Hr as (a2 & d0 & He & Hr). injection He as <- <-. cbv zeta in Hr.
  apply tx_bind_inr in Hr as (a3 & d0 & He & Hr). apply tx_guard_inr in He as [Hact ->].
  apply tx_bind_inr in Hr as (a4 & d0 & He & Hr). injection He as _ <-.
  apply tx_bind_inr in Hr as (a5 & d0 & He & Hr). injection He as _ <-.
  apply tx_bind_inr in Hr as (a6 & d0 & He & Hr). injection He as _ <-.
  set (d3 := on_issued_tokens _ _) in Hr. assert (exists m q, d' = audited m q d3) as (m & q & ->).
  { destruct (String.prefix _ _); [|by apply recordAuditTx_inv in Hr].
    destruct (enrollment_policies d1 !! pol_Scope p) as [x|]; [|done].
    destruct (ep_GroupID x ≫= fun g => directory_groups d1 !! g); [|done]. by apply recordAuditTx_inv in Hr. }
  split; [done|]. split; [done|]. split_and!.
  - intros jti t Ht. cbn -[update_where] in Ht. apply lookup_update_where_Some in Ht as (t0' & _ & ->).
    destruct (it_RevokedAt t0') eqn:E; cbn; [by rewrite E|done].
  - intros user u Hu. cbv zeta. intros Hreq Hm.
    change (enrollment_requirements (audited m q d3) u) with (enrollment_requirements d1 u) in *.
    rewrite Ed1 in Hreq, Hm. change (users (audited m q d3)) with (users d1) in Hu. rewrite Ed1 in Hu.
    unfold satisfiable in Hsat. apply negb_true_iff in Hsat. rewrite exists_where_false in Hsat. specialize (Hsat user u Hu). cbv zeta in Hsat.
    change (r_required (enrollment_requirements d2 u) = true) in Hreq. change (r_allowed_mask (enrollment_requirements d2 u) = 0) in Hm.
    by rewrite Hreq, Hm in Hsat.
  - intros key due Hd. change (enrollment_deadlines (audited m q d3)) with (enrollment_deadlines d1). rewrite Ed1.
    apply fold_add_min_old. by rewrite Ed2.
  - intros user u scope rw Hu Hin. change (enrollment_deadlines (audited m q d3)) with (enrollment_deadlines d1).
    change (users (audited m q d3)) with (users d1) in Hu. change (In (scope, rw) (required_policies d1 u)) in Hin.
    rewrite Ed1 in *. apply (fold_add_min_new _ _ ((u_ID u, scope), unix now + ep_GraceSeconds rw)).
    unfold applicable. apply in_concat. exists (omap (fun sp : string * EnrollmentPolicyRow =>
      Some ((u_ID u, sp.1), unix now + ep_GraceSeconds sp.2)) (required_policies d2 u)). split.
    + apply in_map_iff. exists (user, u). split; [done|]. by apply list_elem_of_In, elem_of_map_to_list.
    + apply list_elem_of_In, list_elem_of_omap. exists (scope, rw). split; [by apply list_elem_of_In|done].
  - apply can_activate_allowed in Hact. exact Hact.
Qed.

(** ** Account links *)

(** At most one row carries a hash: the UNIQUE column. *)
Definition link_hashes_unique (d : DB) : Prop := forall i j t t', account_tokens d !! i = Some t -> account_tokens d !! j = Some t' ->
  at_TokenHash t = at_TokenHash t' -> i = j.

(** No live link carries the hash. *)
Definition link_spent (hash : string) (d : DB) : Prop :=
  forall i t, account_tokens d !! i = Some t -> at_TokenHash t = hash -> at_UsedAt t <> None.

(** The operations on links, at any instant; the hash itself is not drawn again. *)
Inductive link_op (hash : string) : DB -> DB -> Prop :=
| lo_issue token h user kind delivery ttl audit now r d d' : h <> hash ->
    IssueAccountToken token h user kind delivery ttl audit now d = (r, d') -> link_op hash d d'
| lo_redeem lid eid h kind pw audit now u d d' : RedeemAccountToken lid eid h kind pw audit now d = inr (u, d') -> link_op hash d d'
| lo_password lid user keep pw audit now r d d' : ChangePassword lid user keep pw audit now d = (r, d') -> link_op hash d d'
| lo_prune now d : link_op hash d (DeleteExpiredAccountTokens now d).

Lemma expireAccountTokens_eq now p d : expireAccountTokensTx now p d =
  inr (tt, on_account_tokens (update_where (fun t => is_null (at_UsedAt t) && (now <? at_ExpiresAt t) && p t) (set_at_ExpiresAt now)) d).
Proof. reflexivity. Qed.

Lemma spent_expire hash d p now : link_spent hash d ->
  link_spent hash (on_account_tokens (update_where p (set_at_ExpiresAt now)) d).
Proof.
  intros Hs i t Hi Hh. cbn -[update_where] in Hi. apply lookup_update_where_Some in Hi as (t1 & Hi & ->).
  destruct (p t1); exact (Hs i t1 Hi Hh).
Qed.

Lemma redeem_inv lid eid hash kind pw audit now d u d' : RedeemAccountToken lid eid hash kind pw audit now d = inr (u, d') ->
  exists id t row d1 d2 m q, account_tokens d !! id = Some t /\ link_live hash kind now t = true /\ users d !! at_UserID t = Some row /\
    redeemable kind row = true /\
    let new := redeemed_row kind (at_Delivery t) pw now row in
    u = scanUser now new /\
    revokeUserAccessTx lid (at_UserID t) now (on_users <[at_UserID t := new]> (on_account_tokens <[id := set_at_UsedAt (Some now) t]> d)) = inr (tt, d1) /\
    queued (on_login_failures (filter (fun kv : (string * string) * LoginFailure => kv.1.1 <> at_UserID t)) d1) d2 /\
    d' = audited m q d2.
Proof.
  unfold RedeemAccountToken. intros Hr. apply tx_bind_inr in Hr as (a1 & d0 & He & Hr). injection He as <- <-.
  destruct (find_where _ _) as [[id t]|] eqn:Ef; [|done]. apply find_where_Some in Ef as [Hid Hl].
  apply tx_bind_inr in Hr as (a2 & d0 & He & Hr). injection He as _ <-.
  destruct (users d !! at_UserID t) as [row|] eqn:Erow; [|done].
  apply tx_bind_inr in Hr as (a3 & d0 & He & Hr). apply tx_guard_inr in He as [Hrd ->]. cbv zeta in Hr.
  apply tx_bind_inr in Hr as (a4 & d0 & He & Hr). injection He as _ <-.
  apply tx_bind_inr in Hr as ([] & d1 & H1 & Hr). apply tx_bind_inr in Hr as (a5 & d0 & He & Hr). injection He as _ <-.
  apply tx_bind_inr in Hr as (a6 & d2 & H2 & Hr). apply tx_bind_inr in Hr as (a7 & d3 & H3 & Hr). injection Hr as <- <-.
  apply recordAuditTx_inv in H3 as (m & q9 & ->). apply reconcile_queued in H2.
  exists id, t, row, d1, d2, m, q9. by split_and!.
Qed.

Lemma revokeUserAccess_tokens lid user now d u d' : revokeUserAccessTx lid user now d = inr (u, d') ->
  account_tokens d' = update_where (fun t => is_null (at_UsedAt t) && (now <? at_ExpiresAt t) && (at_UserID t =?s user)) (set_at_ExpiresAt now) (account_tokens d).
Proof. intros Hr. by apply revokeUserAccessTx_inv in Hr as (m & _ & ->). Qed.

(** The tokens after a redemption. *)
Lemma redeem_tokens lid eid hash kind pw audit now d u d' : RedeemAccountToken lid eid hash kind pw audit now d = inr (u, d') ->
  exists id t p, account_tokens d !! id = Some t /\ link_live hash kind now t = true /\
    account_tokens d' = update_where p (set_at_ExpiresAt now) (<[id := set_at_UsedAt (Some now) t]> (account_tokens d)).
Proof.
  intros Hr. apply redeem_inv in Hr as (id & t & row & d1 & d2 & m & q & Hid & Hl & _ & _ & _ & H1 & (es & st & ->) & ->).
  apply revokeUserAccess_tokens in H1. cbn -[update_where] in H1. eexists id, t, _. split; [done|]. split; [done|]. exact H1.
Qed.

Lemma link_op_spent hash d d' : link_op hash d d' -> link_spent hash d -> link_spent hash d'.
Proof.
  intros [token h user kind delivery ttl audit now r e e' Hne Hr|lid eid h kind pw audit now u e e' Hr
    |lid user keep pw audit now r e e' Hr|now e] Hs.
  - unfold IssueAccountToken in Hr. destruct r as [er|x]; [by apply commit_inl in Hr as [-> _]|].
    apply auditedTx_inr in Hr as (e1 & m & q0 & Hr & ->). change (link_spent hash e1).
    apply tx_bind_inr in Hr as (a1 & d0 & He & Hr). injection He as <- <-.
    apply tx_bind_inr in Hr as (a2 & d0 & He & Hr). apply tx_guard_inr in He as [_ ->].
    apply tx_bind_inr in Hr as (a3 & d0 & He & Hr). rewrite expireAccountTokens_eq in He. injection He as _ <-.
    apply tx_bind_inr in Hr as (a4 & d0 & He & Hr). apply tx_guard_inr in He as [_ ->].
    apply insert_row_inv in Hr as [_ ->]. intros i t Hi Hh. cbn -[update_where] in Hi.
    apply lookup_insert_Some in Hi as [[_ <-]|[_ Hi]]; [by destruct Hne|].
    by eapply (spent_expire hash e).
  - apply redeem_tokens in Hr as (id & t & p & Hid & _ & Ht). intros i x Hi Hh. rewrite Ht in Hi.
    apply lookup_update_where_Some in Hi as (y & Hi & ->). apply lookup_insert_Some in Hi as [[_ <-]|[_ Hi]].
    + by destruct (p _).
    + destruct (p y); exact (Hs i y Hi Hh).
  - unfold ChangePassword in Hr. destruct r as [er|x]; [by apply commit_inl in Hr as [-> _]|].
    apply auditedTx_inr in Hr as (e1 & m & q0 & Hr & ->). change (link_spent hash e1).
    apply tx_bind_inr in Hr as (a1 & d0 & He & Hr). injection He as <- <-. destruct (users e !! user) as [w|]; [|done].
    apply tx_bind_inr in Hr as (a2 & d0 & He & Hr). apply tx_guard_inr in He as [_ ->].
    apply tx_bind_inr in Hr as (a3 & d0 & He & Hr). injection He as _ <-.
    apply tx_bind_inr in Hr as (a4 & d1 & He & Hr). apply revokeSessionsTx_inv in He as (_ & m1 & _ & ->).
    apply tx_bind_inr in Hr as (a5 & d0 & He & Hr). injection He as _ <-.
    apply tx_bind_inr in Hr as (a6 & d0 & He & Hr). rewrite revokeSessionGrantsTx_eq in He. injection He as _ <-.
    apply tx_bind_inr in Hr as (a7 & d0 & He & Hr). injection He as _ <-.
    rewrite expireAccountTokens_eq in Hr. injection Hr as _ <-. by apply spent_expire.
  - intros i t Hi. cbn -[delete_where] in Hi. apply lookup_delete_where_Some in Hi as [Hi _]. by eapply Hs.
Qed.

(** C25. A redeemed account link sets the password, clears the pending and
    change-required flags, ends every access and login failure of the
    account, and no later link operation makes the same link redeemable
    again. *)
Theorem account_link_single_use lid eid hash kind pw audit now d u d1 d2 :
  RedeemAccountToken lid eid hash kind pw audit now d = inr (u, d1) -> link_hashes_unique d -> rtc (link_op hash) d1 d2 ->
  (exists user row, users d1 !! user = Some row /\ u = scanUser now row /\ u_PasswordHash row = pw /\ u_Pending row = false /\
     u_PasswordChangeRequired row = false /\ holds_access now user d1 = false /\
     forall ip, login_failures d1 !! (user, ip) = None) /\
  forall lid' eid' kind' pw' audit' now', RedeemAccountToken lid' eid' hash kind' pw' audit' now' d2 = inl ErrNotFound.
Proof.
  intros Hr Hu Hs. split.
  - apply redeem_inv in Hr as (id & t & row & d3 & d4 & m & q & _ & _ & _ & _ & -> & H1 & Hq & ->).
    exists (at_UserID t), (redeemed_row kind (at_Delivery t) pw now row).
    pose proof (revokeUserAccess_users _ _ _ _ _ _ H1) as Hus. apply revokeUserAccessTx_locks_out in H1.
    split; [|split_and!; try done].
    + destruct Hq as (es & st & ->). change (users d3 !! at_UserID t = Some (redeemed_row kind (at_Delivery t) pw now row)).
      rewrite Hus. apply lookup_insert_eq.
    + change (holds_access now (at_UserID t) d4 = false). rewrite (queued_holds _ _ _ _ Hq). exact H1.
    + intros ip. destruct Hq as (es & st & ->). cbn -[filter]. apply map_lookup_filter_None. right. intros x _ Hx. by apply Hx.
  - assert (link_spent hash d2) as Hsp.
    { apply redeem_tokens in Hr as (id & t & p & Hid & Hl & Ht).
      assert (link_spent hash d1) as H1.
      { intros i x Hi Hh. rewrite Ht in Hi. apply lookup_update_where_Some in Hi as (y & Hi & ->).
        apply lookup_insert_Some in Hi as [[_ <-]|[Hn Hi]]; [by destruct (p _)|].
        unfold link_live in Hl. bool_hyps. exfalso. apply Hn. apply (Hu id i t y Hid Hi). transitivity hash; [done|]. by destruct (p y). }
      clear Ht. induction Hs as [|x y z Hstep _ IH]; [done|]. by apply IH, (link_op_spent hash x). }
    intros lid' eid' kind' pw' audit' now'. unfold RedeemAccountToken, tx_bind, tx_get.
    destruct (find_where _ (account_tokens d2)) as [[i x]|] eqn:Ef; [|done].
    apply find_where_Some in Ef as [Hi Hl]. unfold link_live in Hl. bool_hyps.
    exfalso. apply (Hsp i x Hi); [done|]. by destruct (at_UsedAt x).
Qed.

End directory_facts.

(** ** Witnesses *)

#[local] Existing Instance sample_codec.

(** An edit that switches an account off. *)
Definition switch_off : user_edit := fun _ u => inr (set_u_Status "disabled" u, None, false).
Definition disable_bob : STx User := updateUser logout_id event_id "bob" switch_off None t0.

(** Dropping the only administrator is refused; another account may go. *)
Lemma a_permanent_administrator_remains_witness :
  let demote := updateUser logout_id event_id "alice" (fun _ u => inr (set_u_Role "user" u, None, false)) None t0 in
  demote outbox_db = inl ErrLastActiveAdmin /\ get_user t0 (after disable_bob outbox_db) "bob" <> get_user t0 outbox_db "bob" /\
  0 < CountAdmins t0 (after disable_bob outbox_db).
Proof.
  cbv zeta. split; [vm_compute; reflexivity|]. split; [vm_compute; discriminate|].
  destruct (after_inr disable_bob outbox_db) as [u Hr]; [eexists; vm_compute; reflexivity|].
  assert (users outbox_db !! "alice"%string = Some (sample_user "alice" "admin")) as Ha by (vm_compute; reflexivity).
  assert (users_keyed outbox_db) as Hk.
  { intros k x Hx. apply (schema_user outbox_db); [vm_compute; reflexivity|exact Hx]. }
  assert (directory_ok outbox_db) as Hok.
  { split; [exact Hk|]. exists "alice"%string, (sample_user "alice" "admin"). split; [exact Ha|reflexivity]. }
  refine (proj2 (a_permanent_administrator_remains outbox_db _ (rtc_once _ _ _) Hok) t0).
  exact (ds_update logout_id event_id "bob" switch_off None t0 u outbox_db _ Hr).
Defined.

Lemma offboarding_is_complete_witness :
  let d' := after disable_bob reconciled_db in
  holds_access t0 "bob" reconciled_db = true /\ desired_active reconciled_db "sys" "bob" = true /\
  holds_access t0 "bob" d' = false /\ desired_active d' "sys" "bob" = false.
Proof.
  cbv zeta. split; [vm_compute; reflexivity|]. split; [vm_compute; reflexivity|].
  destruct (after_inr disable_bob reconciled_db) as [u Hr]; [eexists; vm_compute; reflexivity|].
  assert (users reconciled_db !! "bob"%string = Some (sample_user "bob" "user")) as Hb by (vm_compute; reflexivity).
  assert (account_only "bob" reconciled_db) as Ho.
  { split; [vm_compute; reflexivity|]. intros sys st Hst. apply elem_of_map_to_list in Hst.
    assert (forallb (fun kv : (string * string) * SyncResourceState => (rs_Kind kv.2 =?s "user")) (map_to_list (sync_resource_state reconciled_db)) = true)
      as Hall by (vm_compute; reflexivity).
    rewrite forallb_forall in Hall. apply list_elem_of_In in Hst. apply Hall in Hst. by apply streqb_true in Hst. }
  assert (u_Status u = "disabled"%string) as Hu.
  { assert (match disable_bob reconciled_db with inr (x, _) => u_Status x =?s "disabled" | _ => false end = true) as Hx by (vm_compute; reflexivity).
    rewrite Hr in Hx. by apply streqb_true in Hx. }
  assert (live_system (after disable_bob reconciled_db) "sys" = true) as Hl by (vm_compute; reflexivity).
  assert (u_Status (scanUser t0 (sample_user "bob" "user")) = "active"%string) as Hs by (vm_compute; reflexivity).
  destruct (offboarding_is_complete logout_id event_id "bob" switch_off None t0 reconciled_db u _ _ Hr Hb eq_refl Ho Hs Hu) as [H1 H2].
  split; [exact H1|]. exact (proj2 (H2 "sys"%string Hl)).
Defined.

Definition admin_evidence : AuthenticationEvidence :=
  MkAuthenticationEvidence (Some (t0 - minute)) (Some (t0 - minute)) "totp".

(** The organization rule not yet required, and an administrator with TOTP. *)
Definition enroll_db : DB :=
  on_enrollment_policies (fun _ => {[ "organization"%string := MkEnrollmentPolicyRow None false 7 0 1 ]}) (
  on_mfa_methods (fun _ => {[ "m1"%string := MkMFAMethod "m1" "alice" "totp" "secret" true 0 t0 ]}) (
  on_sessions (fun _ => {[ "s-alice"%string := MkSession admin_evidence "s-alice" "alice" "h-alice" "192.0.2.1" "agent"
    (t0 + 24 * hour) t0 t0 false EmptyString ]}) outbox_db)).

Definition require_totp : EnrollmentPolicy := MkEnrollmentPolicy "organization" true ["totp"%string] 3600 1.
Definition require_totp_tx : STx unit := SetEnrollmentPolicy require_totp "s-alice" None (fun _ _ => JNull) t0.

Lemma policy_change_forces_enrollment_witness :
  authorization_codes enroll_db <> ∅ /\ authorization_codes (after require_totp_tx enroll_db) = ∅ /\
  session_allowed t0 (after require_totp_tx enroll_db) "s-alice" = true.
Proof.
  destruct (after_inr require_totp_tx enroll_db) as [[] Hr]; [eexists; vm_compute; reflexivity|].
  destruct (policy_change_forces_enrollment require_totp "s-alice" None (fun _ _ => JNull) t0 enroll_db _ Hr) as (H1 & _ & _ & _ & _ & _ & H2).
  split; [vm_compute; discriminate|]. split; [exact H1|exact H2].
Defined.

Definition sample_link : AccountToken := MkAccountToken "bob" "reset" "linkhash" "email" (t0 + hour) None t0.
Definition link_db : DB := on_account_tokens (fun _ => {[ "l1"%string := sample_link ]}) outbox_db.
Definition redeem_tx : STx User := RedeemAccountToken logout_id event_id "linkhash" "reset" "new-pw" (fun _ => None) t0.

Lemma account_link_single_use_witness :
  holds_access t0 "bob" link_db = true /\
  exists d2, rtc (link_op "linkhash") (after redeem_tx link_db) d2 /\ redeem_tx d2 = inl ErrNotFound.
Proof.
  split; [vm_compute; reflexivity|].
  destruct (after_inr redeem_tx link_db) as [u Hr]; [eexists; vm_compute; reflexivity|].
  assert (link_hashes_unique link_db) as Hu.
  { intros i j t t' Hi Hj _. change (account_tokens link_db) with ({[ "l1"%string := sample_link ]} : gmap string AccountToken) in Hi, Hj.
    apply lookup_singleton_Some in Hi as [<- _], Hj as [<- _]. reflexivity. }
  exists (DeleteExpiredAccountTokens t0 (after redeem_tx link_db)).
  assert (rtc (link_op "linkhash") (after redeem_tx link_db) (DeleteExpiredAccountTokens t0 (after redeem_tx link_db))) as Hs by
    (apply rtc_once; exact (lo_prune _ t0 _)).
  split; [exact Hs|].
  exact (proj2 (account_link_single_use logout_id event_id "linkhash" "reset" "new-pw" (fun _ => None) t0 link_db u _ _ Hr Hu Hs)
    logout_id event_id "reset"%string "new-pw"%string (fun _ => None) t0).
Defined.
