(* ===== verification/Crypto.v ===== *)
(** Digests, encodings and sealed secrets: [crypto/crypto.go], with the parts of
    Go's [crypto/sha256], [crypto/hmac], [encoding/hex] and [encoding/base64]
    it stands on written out.  A byte is a [Z] in [0,256). *)
From S2P Require Import Prelude Schema Access Sample Sessions Tokens Outbox AppAccess.

(** ** Bytes *)

Definition byte_of (c : Ascii.ascii) : Z := Z.of_N (Ascii.N_of_ascii c).
Definition char_of (b : Z) : Ascii.ascii := Ascii.ascii_of_N (Z.to_N b).

Fixpoint bytes_of (s : string) : list Z :=
  match s with EmptyString => [] | String c s' => byte_of c :: bytes_of s' end.

Fixpoint string_of (l : list Z) : string :=
  match l with [] => EmptyString | b :: l' => String (char_of b) (string_of l') end.

Definition is_byte (b : Z) : Prop := 0 <= b < 256.

(** ** SHA-256 (FIPS 180-4), on 32-bit words *)

Definition w32 (x : Z) : Z := Z.land x 0xffffffff.
Definition rotr (x n : Z) : Z := w32 (Z.lor (Z.shiftr x n) (Z.shiftl x (32 - n))).

Definition ch (x y z : Z) : Z := Z.lxor (Z.land x y) (Z.land (Z.lxor x 0xffffffff) z).
Definition maj (x y z : Z) : Z := Z.lxor (Z.lxor (Z.land x y) (Z.land x z)) (Z.land y z).
Definition bsig0 (x : Z) : Z := Z.lxor (Z.lxor (rotr x 2) (rotr x 13)) (rotr x 22).
Definition bsig1 (x : Z) : Z := Z.lxor (Z.lxor (rotr x 6) (rotr x 11)) (rotr x 25).
Definition ssig0 (x : Z) : Z := Z.lxor (Z.lxor (rotr x 7) (rotr x 18)) (Z.shiftr x 3).
Definition ssig1 (x : Z) : Z := Z.lxor (Z.lxor (rotr x 17) (rotr x 19)) (Z.shiftr x 10).

(** The constants by their definition: the first 32 bits of the fractional parts
    of the cube roots of the first 64 primes, and of the square roots of the
    first eight. *)
Definition is_prime (n : nat) : bool := forallb (fun k => negb (Nat.eqb (Nat.modulo n k) 0)) (seq 2 (n - 2)).
Definition primes_below_312 : list Z := map Z.of_nat (List.filter is_prime (seq 2 310)).

(** The root's bits, from bit [n - 1] down. *)
Fixpoint cube_root (n : nat) (acc x : Z) : Z :=
  match n with
  | O => acc
  | S n' => let r := acc + 2 ^ Z.of_nat n' in cube_root n' (if r * r * r <=? x then r else acc) x
  end.

Definition round_constants : list Z := Eval vm_compute in map (fun p => w32 (cube_root 36 0 (p * 2 ^ 96))) primes_below_312.
Definition initial_hash : list Z := Eval vm_compute in map (fun p => w32 (Z.sqrt (p * 2 ^ 64))) (firstn 8 primes_below_312).

(** [n] big-endian bytes of [x]. *)
Fixpoint be_bytes (n : nat) (x : Z) : list Z :=
  match n with O => [] | S n' => Z.land (Z.shiftr x (8 * Z.of_nat n')) 255 :: be_bytes n' x end.

Fixpoint words (l : list Z) : list Z :=
  match l with
  | a :: b :: c :: d :: l' => (a * 16777216 + b * 65536 + c * 256 + d) :: words l'
  | _ => []
  end.

(** The schedule, kept newest first. *)
Fixpoint extend (n : nat) (w : list Z) : list Z :=
  match n with
  | O => w
  | S n' => extend n' (w32 (ssig1 (nth 1 w 0) + nth 6 w 0 + ssig0 (nth 14 w 0) + nth 15 w 0) :: w)
  end.

Definition sha_round (st : list Z) (kw : Z * Z) : list Z :=
  match st with
  | [a; b; c; d; e; f; g; h] =>
    let t1 := w32 (h + bsig1 e + ch e f g + kw.1 + kw.2) in
    let t2 := w32 (bsig0 a + maj a b c) in
    [w32 (t1 + t2); a; b; c; w32 (d + t1); e; f; g]
  | _ => st
  end.

Definition compress (st block : list Z) : list Z :=
  let ws := rev (extend 48 (rev (words block))) in
  map (fun p : Z * Z => w32 (p.1 + p.2)) (combine st (fold_left sha_round (combine round_constants ws) st)).

Definition pad (m : list Z) : list Z :=
  let n := Z.of_nat (length m) in
  m ++ 128 :: repeat 0 (Z.to_nat ((55 - n) mod 64)) ++ be_bytes 8 (8 * n).

Fixpoint blocks (fuel : nat) (st m : list Z) : list Z :=
  match fuel, m with
  | S k, _ :: _ => blocks k (compress st (firstn 64 m)) (skipn 64 m)
  | _, _ => st
  end.

(** One block of fuel per 64 bytes, and never fewer than there are blocks. *)
Definition Sum256 (m : list Z) : list Z :=
  let p := pad m in concat (map (be_bytes 4) (blocks (S (length p / 64)) initial_hash p)).

(** ** Hexadecimal *)

Definition hex_digits : list Z := bytes_of "0123456789abcdef".
Definition hex_encode (m : list Z) : list Z :=
  concat (map (fun b => [nth (Z.to_nat (b / 16)) hex_digits 0; nth (Z.to_nat (b mod 16)) hex_digits 0]) m).

(** Lower and upper case; [None] for any other byte. *)
Definition hex_value (c : Z) : option Z :=
  if (48 <=? c) && (c <=? 57) then Some (c - 48)
  else if (97 <=? c) && (c <=? 102) then Some (c - 87)
  else if (65 <=? c) && (c <=? 70) then Some (c - 55) else None.

Fixpoint hex_decode (m : list Z) : option (list Z) :=
  match m with
  | [] => Some []
  | a :: b :: m' =>
    match hex_value a, hex_value b, hex_decode m' with
    | Some x, Some y, Some r => Some (x * 16 + y :: r)
    | _, _, _ => None
    end
  | [_] => None
  end.

Definition HashSHA256 (input : string) : string := string_of (hex_encode (Sum256 (bytes_of input))).

Example sha256_abc : HashSHA256 "abc" = "ba7816bf8f01cfea414140de5dae2223b00361a396177a9cb410ff61f20015ad"%string.
Proof. vm_compute. reflexivity. Qed.

(** ** HMAC (RFC 2104) with a 64-byte block *)

Definition hmac_key (key : list Z) : list Z :=
  let k := if Nat.ltb 64 (length key) then Sum256 key else key in k ++ repeat 0 (64 - length k).

Definition hmac (key data : list Z) : list Z :=
  let k := hmac_key key in
  Sum256 (map (Z.lxor 0x5c) k ++ Sum256 (map (Z.lxor 0x36) k ++ data)).

Definition SignHMACSHA256 (key data : list Z) : string := string_of (hex_encode (hmac key data)).

Definition list_eqb (a b : list Z) : bool := bool_decide (a = b).

Definition VerifyHMACSHA256 (key data : list Z) (expectedHex : string) : bool :=
  match hex_decode (bytes_of expectedHex) with
  | Some sig => list_eqb (hmac key data) sig
  | None => false
  end.

Definition DeriveKey (master : list Z) (label : string) : list Z := hmac master (bytes_of label).

(** ** Base64

    The four encodings of [encoding/base64]; a decoder skips CR and LF. *)

Record Encoding := MkEncoding { enc_url : bool; enc_padded : bool }.
Definition StdEncoding := MkEncoding false true.
Definition RawStdEncoding := MkEncoding false false.
Definition URLEncoding := MkEncoding true true.
Definition RawURLEncoding := MkEncoding true false.

Definition alphabet (url : bool) : list Z :=
  bytes_of "ABCDEFGHIJKLMNOPQRSTUVWXYZabcdefghijklmnopqrstuvwxyz0123456789" ++ (if url then [45; 95] else [43; 47]).

Definition b64_char (url : bool) (i : Z) : Z := nth (Z.to_nat i) (alphabet url) 0.

Fixpoint index_of (c : Z) (l : list Z) (i : Z) : option Z :=
  match l with [] => None | x :: l' => if x =? c then Some i else index_of c l' (i + 1) end.

Definition b64_value (url : bool) (c : Z) : option Z := index_of c (alphabet url) 0.

Definition padding (e : Encoding) (n : nat) : list Z := if enc_padded e then repeat 61 n else [].

Fixpoint b64_encode (e : Encoding) (m : list Z) : list Z :=
  let ch := b64_char (enc_url e) in
  match m with
  | [] => []
  | [a] => [ch (a / 4); ch (a mod 4 * 16)] ++ padding e 2
  | [a; b] => [ch (a / 4); ch (a mod 4 * 16 + b / 16); ch (b mod 16 * 4)] ++ padding e 1
  | a :: b :: c :: m' =>
    ch (a / 4) :: ch (a mod 4 * 16 + b / 16) :: ch (b mod 16 * 4 + c / 64) :: ch (c mod 64) :: b64_encode e m'
  end.

Definition byte1 (i j : Z) : Z := i * 4 + j / 16.
Definition byte2 (j k : Z) : Z := j mod 16 * 16 + k / 4.
Definition byte3 (k l : Z) : Z := k mod 4 * 64 + l.

(** Padding is read only in the last quantum, and only where the encoding has it. *)
Definition last_quantum (e : Encoding) (q : list Z) : option (list Z) :=
  let v := b64_value (enc_url e) in
  match q with
  | [a; b; c; d] =>
    if enc_padded e && (d =? 61) then
      if c =? 61 then match v a, v b with Some i, Some j => Some [byte1 i j] | _, _ => None end
      else match v a, v b, v c with Some i, Some j, Some k => Some [byte1 i j; byte2 j k] | _, _, _ => None end
    else None
  | [a; b] => if enc_padded e then None else match v a, v b with Some i, Some j => Some [byte1 i j] | _, _ => None end
  | [a; b; c] => if enc_padded e then None else
      match v a, v b, v c with Some i, Some j, Some k => Some [byte1 i j; byte2 j k] | _, _, _ => None end
  | _ => None
  end.

Fixpoint quanta (e : Encoding) (m : list Z) : option (list Z) :=
  let v := b64_value (enc_url e) in
  match m with
  | [] => Some []
  | a :: b :: c :: d :: m' =>
    match v a, v b, v c, v d with
    | Some i, Some j, Some k, Some l =>
      match quanta e m' with Some r => Some (byte1 i j :: byte2 j k :: byte3 k l :: r) | None => None end
    | _, _, _, _ => match m' with [] => last_quantum e [a; b; c; d] | _ => None end
    end
  | q => last_quantum e q
  end.

Definition newline (c : Z) : bool := (c =? 10) || (c =? 13).
Definition b64_decode (e : Encoding) (m : list Z) : option (list Z) :=
  quanta e (List.filter (fun c => negb (newline c)) m).

Definition decodeBase64Any (s : string) : option (list Z) :=
  let m := bytes_of (TrimSpace s) in
  first_some (fun e => b64_decode e m) [StdEncoding; RawStdEncoding; URLEncoding; RawURLEncoding].

(** ** Random strings

    The source of randomness is the list of bytes it yields; [None] is running
    out of it, which the code never does. *)
Fixpoint draw (limit n : Z) (src : list Z) : option (Z * list Z) :=
  match src with
  | [] => None
  | b :: src' => if b <? limit then Some (b mod n, src') else draw limit n src'
  end.

Fixpoint draws (limit n : Z) (len : nat) (src : list Z) : option (list Z * list Z) :=
  match len with
  | O => Some ([], src)
  | S k =>
    match draw limit n src with
    | Some (i, src') => match draws limit n k src' with Some (l, r) => Some (i :: l, r) | None => None end
    | None => None
    end
  end.

Definition draw_limit (n : Z) : Z := 256 - 256 mod n.

Definition randomString (charset : string) (length : nat) (src : list Z) : option (string + string) :=
  let n := Z.of_nat (String.length charset) in
  if (n =? 0) || (256 <? n) then Some (inl "charset must hold between 1 and 256 characters"%string) else
  match draws (draw_limit n) n length src with
  | Some (l, _) => Some (inr (string_of (map (fun i => nth (Z.to_nat i) (bytes_of charset) 0) l)))
  | None => None
  end.

Definition GenerateRandomAlphanumeric (length : nat) (src : list Z) : option (string + string) :=
  randomString "ABCDEFGHJKLMNPQRSTUVWXYZ23456789" length src.
Definition GenerateRandomPIN (digits : nat) (src : list Z) : option (string + string) :=
  randomString "0123456789" digits src.

(** ** Sealed secrets

    AES-256-GCM is an interface: sealing under a nonce, and opening, which
    fails on any text not sealed under the same key and associated data. *)
Class AEAD := {
  gcm_seal : list Z -> list Z -> list Z -> list Z -> list Z;
  gcm_open : list Z -> list Z -> list Z -> list Z -> option (list Z) }.

Definition gcm_nonce_size : nat := 12.

Section sealed.
Context `{AEAD}.

Definition encryptAESGCM (key plaintext aad nonce : list Z) : option string :=
  if negb (Nat.eqb (length key) 32) then None else
  Some (string_of (b64_encode StdEncoding (nonce ++ gcm_seal key nonce plaintext aad))).

Definition decryptAESGCM (key : list Z) (ciphertext : string) (aad : list Z) : option (list Z) :=
  if negb (Nat.eqb (length key) 32) then None else
  match b64_decode StdEncoding (bytes_of ciphertext) with
  | None => None
  | Some data =>
    if Nat.ltb (length data) gcm_nonce_size then None
    else gcm_open key (firstn gcm_nonce_size data) (skipn gcm_nonce_size data) aad
  end.

Definition EncryptAESGCM (key plaintext nonce : list Z) : option string := encryptAESGCM key plaintext [] nonce.
Definition DecryptAESGCM (key : list Z) (ciphertext : string) : option (list Z) := decryptAESGCM key ciphertext [].

Definition sealedPrefix : string := "v2:".
Definition sealKey (master : list Z) (purpose : string) : list Z := DeriveKey master (String.append "kyidentity:seal:" purpose).
Definition sealAAD (purpose row : string) : list Z := bytes_of (String.append purpose (String.append "|" row)).

Definition Seal (master : list Z) (purpose row : string) (plaintext nonce : list Z) : option string :=
  String.append sealedPrefix <$> encryptAESGCM (sealKey master purpose) plaintext (sealAAD purpose row) nonce.

Inductive OpenResult := Opened (plaintext : list Z) | LegacyCiphertext | OpenFailed.

Definition Open (master : list Z) (purpose row sealed : string) : OpenResult :=
  match drop_prefix sealedPrefix sealed with
  | None => LegacyCiphertext
  | Some body =>
    match decryptAESGCM (sealKey master purpose) body (sealAAD purpose row) with
    | Some p => Opened p
    | None => OpenFailed
    end
  end.

Definition IsSealed (s : string) : bool := String.prefix sealedPrefix s.

End sealed.

(** ** Facts *)

Lemma byte_of_char b : is_byte b -> byte_of (char_of b) = b.
Proof.
  unfold is_byte, byte_of, char_of. intros Hb. rewrite Ascii.N_ascii_embedding; lia.
Qed.

Lemma bytes_string l : Forall is_byte l -> bytes_of (string_of l) = l.
Proof. induction 1 as [|b l Hb _ IH]; [done|]. cbn. by rewrite byte_of_char, IH. Qed.

Lemma bytes_app a b : bytes_of (String.append a b) = bytes_of a ++ bytes_of b.
Proof. induction a as [|c a IH]; [done|]. change (byte_of c :: bytes_of (String.append a b) = byte_of c :: (bytes_of a ++ bytes_of b)). by rewrite IH. Qed.

Lemma byte_of_inj a b : byte_of a = byte_of b -> a = b.
Proof.
  unfold byte_of. intros E. apply (f_equal Z.to_N) in E. rewrite !N2Z.id in E.
  rewrite <- (Ascii.ascii_N_embedding a), <- (Ascii.ascii_N_embedding b). by rewrite E.
Qed.

Lemma bytes_of_inj a : forall b, bytes_of a = bytes_of b -> a = b.
Proof.
  induction a as [|c a IH]; intros [|c' b] E; try done. cbn in E. injection E as E1 E2.
  apply byte_of_inj in E1 as <-. f_equal. by apply IH.
Qed.

(** A fact about all values below a bound, by evaluating each. *)
Lemma below_dec n (p : Z -> bool) : forallb p (map Z.of_nat (seq 0 n)) = true -> forall i, 0 <= i < Z.of_nat n -> p i = true.
Proof.
  intros Hall i Hi. rewrite forallb_forall in Hall. apply Hall. apply in_map_iff. exists (Z.to_nat i). split; [lia|].
  apply in_seq. lia.
Qed.

(** *** Hexadecimal *)

Definition hex_round (i : Z) : bool :=
  bool_decide (hex_value (nth (Z.to_nat i) hex_digits 0) = Some i) && bool_decide (is_byte (nth (Z.to_nat i) hex_digits 0)).

#[export] Instance is_byte_dec b : Decision (is_byte b).
Proof. unfold is_byte. apply _. Defined.

Lemma hex_digit_value i : 0 <= i < 16 -> hex_value (nth (Z.to_nat i) hex_digits 0) = Some i /\ is_byte (nth (Z.to_nat i) hex_digits 0).
Proof.
  intros Hi. assert (hex_round i = true) as Hr by (apply (below_dec 16); [vm_compute; reflexivity|lia]).
  unfold hex_round in Hr. by apply andb_true_iff in Hr as [?%bool_decide_eq_true ?%bool_decide_eq_true].
Qed.

Lemma hex_roundtrip m : Forall is_byte m -> hex_decode (hex_encode m) = Some m /\ Forall is_byte (hex_encode m).
Proof.
  induction 1 as [|b m Hb _ [IH1 IH2]]; [done|]. unfold is_byte in Hb.
  destruct (hex_digit_value (b / 16)) as [E1 B1]; [Z.to_euclidean_division_equations; lia|].
  destruct (hex_digit_value (b mod 16)) as [E2 B2]; [by apply Z.mod_pos_bound|].
  unfold hex_encode. cbn [map concat app]. fold (hex_encode m). cbn [hex_decode]. rewrite E1, E2, IH1. split.
  - f_equal. f_equal. pose proof (Z.div_mod b 16). lia.
  - by apply Forall_cons_2, Forall_cons_2.
Qed.

(** *** Base64 *)

(** An alphabet's characters: their value is theirs in either alphabet that has
    them, and none is white space, a newline or the padding. *)
Definition b64_char_ok (i : Z) : bool :=
  forallb (fun u => let c := b64_char u i in
    (33 <=? c) && (c <=? 126) && negb (c =? 61) &&
    bool_decide (b64_value u c = Some i) &&
    match b64_value (negb u) c with Some j => j =? i | None => true end) [true; false].

Lemma b64_char_facts u i : 0 <= i < 64 -> let c := b64_char u i in
  33 <= c <= 126 /\ c <> 61 /\ b64_value u c = Some i /\ forall u', b64_value u' c = Some i \/ b64_value u' c = None.
Proof.
  intros Hi. assert (b64_char_ok i = true) as Hok by (apply (below_dec 64); [vm_compute; reflexivity|lia]).
  unfold b64_char_ok in Hok. rewrite forallb_forall in Hok. assert (In u [true; false]) as Hu by (destruct u; cbn; tauto).
  specialize (Hok u Hu). cbv zeta in Hok |- *.
  apply andb_true_iff in Hok as [Hok E5]. apply andb_true_iff in Hok as [Hok E4]. apply andb_true_iff in Hok as [Hok E3].
  apply andb_true_iff in Hok as [E1 E2]. apply Z.leb_le in E1, E2. apply negb_true_iff, Z.eqb_neq in E3.
  apply bool_decide_eq_true in E4. split_and!; [done|done|done|done|]. intros u'.
  destruct (decide (u' = u)) as [->|Hne]; [by left|]. assert (u' = negb u) as -> by (by destruct u, u').
  destruct (b64_value (negb u) (b64_char u i)) as [j|]; [|by right]. apply Z.eqb_eq in E5 as ->. by left.
Qed.

Lemma quantum_bytes a b c : is_byte a -> is_byte b -> is_byte c ->
  let i := a / 4 in let j := a mod 4 * 16 + b / 16 in let k := b mod 16 * 4 + c / 64 in let l := c mod 64 in
  (0 <= i < 64 /\ 0 <= j < 64 /\ 0 <= k < 64 /\ 0 <= l < 64) /\ byte1 i j = a /\ byte2 j k = b /\ byte3 k l = c.
Proof. unfold is_byte, byte1, byte2, byte3. intros. cbv zeta. Z.to_euclidean_division_equations. lia. Qed.

Lemma is_byte_0 : is_byte 0.
Proof. done. Qed.

(** Induction by groups of three. *)
Lemma list_ind3 {A} (P : list A -> Prop) : P [] -> (forall a, P [a]) -> (forall a b, P [a; b]) ->
  (forall a b c l, P l -> P (a :: b :: c :: l)) -> forall l, P l.
Proof.
  intros H0 H1 H2 H3 l. enough (P l /\ (forall a, P (a :: l)) /\ forall a b, P (a :: b :: l)) by tauto.
  induction l as [|x l (IH0 & IH1 & IH2)]; auto.
Qed.

Lemma padding_value u : b64_value u 61 = None.
Proof. by destruct u. Qed.

(** What one encoding's decoder makes of another's text. *)
Definition reads (e e' : Encoding) (m : list Z) (o : option (list Z)) : Prop :=
  (o = Some m \/ o = None) /\ (e = e' -> o = Some m).

Lemma reads_none e e' m : e <> e' -> reads e e' m None.
Proof. split; [by right|done]. Qed.

Lemma reads_some e e' m : reads e e' m (Some m).
Proof. split; [by left|done]. Qed.

Lemma enc_eq e e' : enc_padded e = enc_padded e' -> (enc_url e = enc_url e' -> e = e').
Proof. destruct e, e'; cbn; congruence. Qed.

Ltac char_cases u i v H :=
  let F := fresh "F" in let G := fresh "G" in
  destruct (b64_char_facts u i H) as (_ & F & _ & G); apply Z.eqb_neq in F; rewrite ?F;
  destruct (G v) as [-> | ->].

Lemma char_read u u' i : 0 <= i < 64 -> b64_value u (b64_char u' i) = Some i \/ (b64_value u (b64_char u' i) = None /\ u <> u').
Proof.
  intros Hi. destruct (b64_char_facts u' i Hi) as (_ & _ & He & Hv). destruct (Hv u) as [->|Hn]; [by left|].
  right. split; [done|]. intros ->. congruence.
Qed.

Lemma char_not_pad u i : 0 <= i < 64 -> (b64_char u i =? 61) = false.
Proof. intros Hi. destruct (b64_char_facts u i Hi) as (_ & F & _). by apply Z.eqb_neq. Qed.

Lemma quanta_encode e e' m : Forall is_byte m -> reads e e' m (quanta e (b64_encode e' m)).
Proof.
  induction m as [|a|a b|a b c m IH] using list_ind3; intros Hm; inversion_clear Hm as [|x l Ha Hm1].
  - apply reads_some.
  - destruct (quantum_bytes a 0 0) as (Hr & E1 & _); [done|apply is_byte_0|apply is_byte_0|].
    rewrite Z.div_0_l, Z.add_0_r in * by done. destruct Hr as (R1 & R2 & _).
    cbn [b64_encode]. destruct e as [u p], e' as [u' p']. unfold padding. cbn [enc_url enc_padded].
    assert (u <> u' -> MkEncoding u p <> MkEncoding u' p') as Hu by congruence.
    assert (p <> p' -> MkEncoding u p <> MkEncoding u' p') as Hp by congruence.
    destruct (char_read u u' _ R1) as [V1|[V1 N1]]; [|destruct p'; cbn -[b64_value b64_char byte1 byte2 byte3 Z.modulo Z.div]; rewrite ?V1; destruct p; apply reads_none; auto].
    destruct (char_read u u' _ R2) as [V2|[V2 N2]]; [|destruct p'; cbn -[b64_value b64_char byte1 byte2 byte3 Z.modulo Z.div]; rewrite ?V1, ?V2; destruct p; apply reads_none; auto].
    destruct p', p; cbn -[b64_value b64_char byte1 byte2 byte3 Z.modulo Z.div]; rewrite ?V1, ?V2, ?padding_value, ?E1; try apply reads_some; apply reads_none; auto.
  - inversion_clear Hm1 as [|x l Hb _].
    destruct (quantum_bytes a b 0) as (Hr & E1 & E2 & _); [done|done|apply is_byte_0|].
    rewrite Z.div_0_l, Z.add_0_r in * by done. destruct Hr as (R1 & R2 & R3 & _).
    cbn [b64_encode]. destruct e as [u p], e' as [u' p']. unfold padding. cbn [enc_url enc_padded].
    assert (u <> u' -> MkEncoding u p <> MkEncoding u' p') as Hu by congruence.
    assert (p <> p' -> MkEncoding u p <> MkEncoding u' p') as Hp by congruence.
    pose proof (char_not_pad u' _ R3) as P3.
    destruct (char_read u u' _ R1) as [V1|[V1 N1]]; [|destruct p'; cbn -[b64_value b64_char byte1 byte2 byte3 Z.modulo Z.div]; rewrite ?V1, ?P3; destruct p; apply reads_none; auto].
    destruct (char_read u u' _ R2) as [V2|[V2 N2]]; [|destruct p'; cbn -[b64_value b64_char byte1 byte2 byte3 Z.modulo Z.div]; rewrite ?V1, ?V2, ?P3; destruct p; apply reads_none; auto].
    destruct (char_read u u' _ R3) as [V3|[V3 N3]]; [|destruct p'; cbn -[b64_value b64_char byte1 byte2 byte3 Z.modulo Z.div]; rewrite ?V1, ?V2, ?V3, ?P3; destruct p; apply reads_none; auto].
    destruct p', p; cbn -[b64_value b64_char byte1 byte2 byte3 Z.modulo Z.div]; rewrite ?V1, ?V2, ?V3, ?padding_value, ?P3, ?E1, ?E2; try apply reads_some; apply reads_none; auto.
  - inversion_clear Hm1 as [|x l Hb Hm2]. inversion_clear Hm2 as [|x l Hc Hm].
    destruct (quantum_bytes a b c) as (Hr & E1 & E2 & E3); [done..|]. destruct Hr as (R1 & R2 & R3 & R4).
    specialize (IH Hm). cbn [b64_encode quanta]. destruct e as [u p], e' as [u' p']. cbn [enc_url enc_padded] in *.
    pose proof (char_not_pad u' _ R4) as P4.
    assert (forall q : list Z, u <> u' -> reads (MkEncoding u p) (MkEncoding u' p') (a :: b :: c :: m)
      (match q with [] => last_quantum (MkEncoding u p) [b64_char u' (a / 4); b64_char u' (a mod 4 * 16 + b / 16);
        b64_char u' (b mod 16 * 4 + c / 64); b64_char u' (c mod 64)] | _ => None end)) as Hbad.
    { intros q Hu. destruct q; [|apply reads_none; congruence]. cbn -[b64_value b64_char byte1 byte2 byte3 Z.modulo Z.div]. rewrite P4, andb_false_r. apply reads_none. congruence. }
    destruct (char_read u u' _ R1) as [V1|[V1 N1]]; rewrite V1; [|by apply Hbad].
    destruct (char_read u u' _ R2) as [V2|[V2 N2]]; rewrite V2; [|by apply Hbad].
    destruct (char_read u u' _ R3) as [V3|[V3 N3]]; rewrite V3; [|by apply Hbad].
    destruct (char_read u u' _ R4) as [V4|[V4 N4]]; rewrite V4; [|by apply Hbad].
    rewrite E1, E2, E3. destruct IH as [[->| ->] IH]; [apply reads_some|]. split; [by right|]. intros E. by apply IH in E.
Qed.

Definition plain (c : Z) : Prop := 33 <= c <= 126.

(** Every character of encoded text is one of the alphabet or the pad. *)
Lemma encode_chars (P : Z -> Prop) e m : (forall i, 0 <= i < 64 -> P (b64_char (enc_url e) i)) -> P 61 ->
  Forall is_byte m -> Forall P (b64_encode e m).
Proof.
  intros Hp H61.
  assert (forall n, Forall P (padding e n)) as Hpad.
  { intros n. unfold padding. destruct (enc_padded e); [|constructor]. induction n as [|n IHn]; [constructor|].
    by apply Forall_cons_2. }
  induction m as [|a|a b|a b c m IH] using list_ind3; intros Hm; inversion_clear Hm as [|x l Ha Hm1]; [constructor| | |].
  - destruct (quantum_bytes a 0 0) as (Hr & _); [done|apply is_byte_0|apply is_byte_0|].
    rewrite Z.div_0_l, Z.add_0_r in Hr by done. cbn [b64_encode app]. repeat (apply Forall_cons_2; [apply Hp; tauto|]). apply Hpad.
  - inversion_clear Hm1 as [|x l Hb _]. destruct (quantum_bytes a b 0) as (Hr & _); [done|done|apply is_byte_0|].
    rewrite Z.div_0_l, Z.add_0_r in Hr by done. cbn [b64_encode app]. repeat (apply Forall_cons_2; [apply Hp; tauto|]). apply Hpad.
  - inversion_clear Hm1 as [|x l Hb Hm2]. inversion_clear Hm2 as [|x l Hc Hm].
    destruct (quantum_bytes a b c) as (Hr & _); [done..|]. cbn [b64_encode]. repeat (apply Forall_cons_2; [apply Hp; tauto|]). by apply IH.
Qed.

Lemma encode_plain e m : Forall is_byte m -> Forall plain (b64_encode e m).
Proof. apply encode_chars; [|by split]. intros i Hi. by apply b64_char_facts. Qed.

Lemma plain_byte c : plain c -> is_byte c.
Proof. unfold plain, is_byte. lia. Qed.

Definition plain_string (s : string) : Prop := Forall plain (bytes_of s).

(** No white space starts like a printable character. *)
Lemma white_head p : In p white_space -> match p with String c _ => ~ plain (byte_of c) | EmptyString => False end.
Proof.
  intros Hp. assert (forallb (fun p => match p with String c _ => negb ((33 <=? byte_of c) && (byte_of c <=? 126)) | EmptyString => false end)
    white_space = true) as Hall by (vm_compute; reflexivity).
  rewrite forallb_forall in Hall. apply Hall in Hp. destruct p as [|c p]; [done|]. apply negb_true_iff in Hp. unfold plain. intros [H1 H2].
  apply Z.leb_le in H1, H2. by rewrite H1, H2 in Hp.
Qed.

Lemma get_plain s : plain_string s -> forall n c, String.get n s = Some c -> plain (byte_of c).
Proof.
  induction s as [|x s IH]; intros Hs n c Hc; [by destruct n|]. inversion_clear Hs as [|? ? Hx Hs'].
  destruct n; cbn in Hc; [by injection Hc as <-|]. by eapply IH.
Qed.

Lemma first_some_none {A B} (f : A -> option B) l : (forall a, In a l -> f a = None) -> first_some f l = None.
Proof. induction l as [|a l IH]; intros Hf; [done|]. cbn. rewrite Hf by by left. apply IH. intros b Hb. apply Hf. by right. Qed.

Lemma trim_with_none drop s : (forall p, In p white_space -> drop p s = None) -> forall n, trim_with drop n s = s.
Proof. intros Hd [|n]; [done|]. cbn [trim_with]. by rewrite first_some_none. Qed.

Lemma TrimSpace_plain s : plain_string s -> TrimSpace s = s.
Proof.
  intros Hs. unfold TrimSpace. rewrite (trim_with_none drop_prefix); [rewrite (trim_with_none drop_suffix); [done|]|].
  - intros p Hp. apply white_head in Hp. destruct p as [|c p]; [done|]. unfold drop_suffix.
    destruct (Nat.leb _ _) eqn:El; [|done]. cbn [andb]. destruct (_ =?s _) eqn:E; [|done]. apply streqb_true in E. exfalso. apply Hp.
    apply (get_plain s Hs (0 + (String.length s - String.length (String c p)))).
    rewrite <- (String.substring_correct1 s (String.length s - String.length (String c p)) (String.length (String c p)) 0) by (cbn; lia).
    by rewrite E.
  - intros p Hp. apply white_head in Hp. destruct p as [|c p]; [done|]. unfold drop_prefix.
    destruct (String.prefix _ _) eqn:E; [|done]. exfalso. apply Hp. destruct s as [|x s]; [done|]. cbn in E.
    destruct (Ascii.ascii_dec c x) as [->|]; [|done]. by inversion Hs.
Qed.

Lemma filter_all {A} (f : A -> bool) l : (forall a, In a l -> f a = true) -> List.filter f l = l.
Proof. induction l as [|a l IH]; intros Hf; [done|]. cbn. rewrite Hf by by left. f_equal. apply IH. intros b Hb. apply Hf. by right. Qed.

Lemma decode_encode e e' m : Forall is_byte m -> reads e e' m (b64_decode e (b64_encode e' m)).
Proof.
  intros Hm. unfold b64_decode. rewrite filter_all; [by apply quanta_encode|].
  intros c Hc. pose proof (encode_plain e' m Hm) as Hp. rewrite List.Forall_forall in Hp. apply Hp in Hc. unfold plain, newline in *.
  apply negb_true_iff, orb_false_iff. split; apply Z.eqb_neq; lia.
Qed.

(** Base64 text in any of the four accepted alphabets and paddings decodes
    to the bytes it encodes. *)
Theorem decodeBase64Any_accepts e m : Forall is_byte m -> decodeBase64Any (string_of (b64_encode e m)) = Some m.
Proof.
  intros Hm. pose proof (encode_plain e m Hm) as Hp. assert (Forall is_byte (b64_encode e m)) as Hb by (eapply Forall_impl; [exact Hp|apply plain_byte]).
  unfold decodeBase64Any. rewrite TrimSpace_plain by (unfold plain_string; by rewrite bytes_string). rewrite bytes_string by done.
  pose proof (fun e' => decode_encode e' e m Hm) as Hr. cbn [first_some].
  destruct (Hr StdEncoding) as [[->|H1] H1']; [done|]. rewrite H1.
  destruct (Hr RawStdEncoding) as [[->|H2] H2']; [done|]. rewrite H2.
  destruct (Hr URLEncoding) as [[->|H3] H3']; [done|]. rewrite H3.
  destruct (Hr RawURLEncoding) as [[->|H4] H4']; [done|].
  destruct e as [[|] [|]]; unfold StdEncoding, RawStdEncoding, URLEncoding, RawURLEncoding in *;
    [specialize (H3' eq_refl)|specialize (H4' eq_refl)|specialize (H1' eq_refl)|specialize (H2' eq_refl)]; congruence.
Qed.

(** *** Random strings *)

Lemma draw_limit_mul n : 0 < n -> draw_limit n = n * (256 / n).
Proof. intros Hn. unfold draw_limit. pose proof (Z.div_mod 256 n). lia. Qed.

(** The draws below the limit, in order. *)
Definition accepted (limit : Z) (src : list Z) : list Z := List.filter (fun b => b <? limit) src.

Lemma draws_accepted (limit n : Z) len : forall src : list Z, (len <= length (accepted limit src))%nat ->
  exists rest : list Z, draws limit n len src = Some (map (fun b : Z => b mod n) (firstn len (accepted limit src)), rest).
Proof.
  induction len as [|k IH]; intros src Hl; [by exists src|]. cbn [draws].
  enough (exists (b : Z) src', draw limit n src = Some (b mod n, src') /\ accepted limit src = b :: accepted limit src')
    as (b & src' & -> & E).
  { rewrite E in *. cbn in Hl. destruct (IH src') as [rest ->]; [lia|]. cbn. by eexists. }
  induction src as [|b src IHs]; [cbn in Hl; lia|]. cbn in *. destruct (b <? limit) eqn:Eb; [by exists b, src|]. by apply IHs.
Qed.

(** The byte values that select a character. *)
Definition selects (n i b : Z) : bool := (b <? draw_limit n) && (b mod n =? i).

Lemma selected_values n i : 0 < n -> 0 <= i < n ->
  List.filter (selects n i) (map Z.of_nat (seq 0 256)) ≡ₚ map (fun j => i + n * Z.of_nat j) (seq 0 (Z.to_nat (256 / n))).
Proof.
  intros Hn Hi. apply NoDup_Permutation.
  - apply NoDup_ListNoDup, List.NoDup_filter, NoDup_ListNoDup. apply NoDup_fmap_2; [intros ? ?; lia|apply NoDup_seq].
  - apply NoDup_fmap_2; [intros x y E; apply Nat2Z.inj; nia|apply NoDup_seq].
  - intros b. rewrite !list_elem_of_In, filter_In, !in_map_iff. unfold selects. rewrite draw_limit_mul by done. split.
    + intros [(k & <- & Hk) Hb]. apply in_seq in Hk. bool_hyps. subst i. exists (Z.to_nat (Z.of_nat k / n)).
      assert (0 <= Z.of_nat k / n) by (apply Z.div_pos; lia). pose proof (Z.div_mod (Z.of_nat k) n). rewrite Z2Nat.id by done. split; [lia|].
      apply in_seq. assert (Z.of_nat k / n < 256 / n) by (apply Z.div_lt_upper_bound; lia). lia.
    + intros (j & <- & Hj). apply in_seq in Hj. assert (0 <= 256 / n) by (apply Z.div_pos; lia).
      assert (n * (256 / n) <= 256) by (apply Z.mul_div_le; lia). assert (i + n * Z.of_nat j < n * (256 / n)) by nia. split.
      * exists (Z.to_nat (i + n * Z.of_nat j)). split; [lia|]. apply in_seq. lia.
      * apply andb_true_iff. split; [by apply Z.ltb_lt|]. apply Z.eqb_eq. rewrite Z.mul_comm, Z.mod_add by lia. by apply Z.mod_small.
Qed.

(** A random string takes the draws below the limit in order and maps each
    to a character, and every character is selected by the same number of
    byte values, so the string is uniform. *)
Theorem randomString_uniform charset len src :
  let n := Z.of_nat (String.length charset) in let kept := accepted (draw_limit n) src in
  0 < n <= 256 -> (len <= length kept)%nat ->
  randomString charset len src =
    Some (inr (string_of (map (fun b => nth (Z.to_nat (b mod n)) (bytes_of charset) 0) (firstn len kept)))) /\
  forall i, 0 <= i < n -> length (List.filter (selects n i) (map Z.of_nat (seq 0 256))) = Z.to_nat (256 / n).
Proof.
  cbv zeta. intros Hn Hl. split.
  - unfold randomString. set (n := Z.of_nat (String.length charset)) in *.
    assert ((n =? 0) || (256 <? n) = false) as -> by (apply orb_false_iff; split; lia).
    destruct (draws_accepted (draw_limit n) n len src Hl) as [rest ->]. by rewrite map_map.
  - intros i Hi. destruct Hn as [Hn _]. rewrite (Permutation_length (selected_values _ i Hn Hi)). by rewrite length_map, length_seq.
Qed.

Lemma randomString_uniform_witness :
  GenerateRandomPIN 3 [255; 7; 250; 19; 130] = Some (inr "790"%string) /\
  length (List.filter (selects 10 7) (map Z.of_nat (seq 0 256))) = 25%nat.
Proof.
  destruct (randomString_uniform "0123456789" 3 [255; 7; 250; 19; 130]) as [H1 H2]; [split; [reflexivity|vm_compute; discriminate]|vm_compute; lia|].
  split; [unfold GenerateRandomPIN; rewrite H1; vm_compute; reflexivity|].
  apply (H2 7). split; [discriminate|reflexivity].
Defined.

(** *** Sealed secrets *)

Lemma be_bytes_spec n x : length (be_bytes n x) = n /\ Forall is_byte (be_bytes n x).
Proof.
  induction n as [|n [IH1 IH2]]; [done|]. cbn [be_bytes length]. split; [by f_equal|]. apply Forall_cons_2; [|done].
  unfold is_byte. change 255 with (Z.ones 8). rewrite Z.land_ones by done. by apply Z.mod_pos_bound.
Qed.

Lemma sha_round_length st kw : length st = 8%nat -> length (sha_round st kw) = 8%nat.
Proof. do 9 (destruct st as [|? st]; try done). Qed.

Lemma compress_length st b : length st = 8%nat -> length (compress st b) = 8%nat.
Proof.
  intros Hs. unfold compress. rewrite length_map, length_combine, Hs.
  assert (forall l s, length s = 8%nat -> length (fold_left sha_round l s) = 8%nat) as Hf.
  { induction l as [|kw l IH]; intros s Hl; [done|]. cbn. by apply IH, sha_round_length. }
  by rewrite Hf.
Qed.

Lemma blocks_length n : forall st m, length st = 8%nat -> length (blocks n st m) = 8%nat.
Proof. induction n as [|n IH]; intros st [|x m] Hs; try done. cbn [blocks]. by apply IH, compress_length. Qed.

Lemma Sum256_spec m : length (Sum256 m) = 32%nat /\ Forall is_byte (Sum256 m).
Proof.
  unfold Sum256. cbv zeta. set (l := blocks _ _ _). assert (length l = 8%nat) as Hl by by apply blocks_length. clearbody l. split.
  - do 9 (destruct l as [|? l]; try done).
  - apply Forall_concat, Forall_fmap, Forall_true. intros x. apply be_bytes_spec.
Qed.

(** A purpose ends at the separator. *)
Definition no_bar (purpose : string) : Prop := ~ In 124 (bytes_of purpose).

Lemma bytes_of_bytes s : Forall is_byte (bytes_of s).
Proof.
  induction s as [|c s IH]; [constructor|]. apply Forall_cons_2; [|exact IH]. unfold is_byte, byte_of.
  pose proof (Ascii.N_ascii_bounded c). lia.
Qed.

Lemma string_bytes s : string_of (bytes_of s) = s.
Proof. apply bytes_of_inj. rewrite bytes_string; [done|apply bytes_of_bytes]. Qed.

Lemma split_at_bar (a b c d : list Z) : ~ In 124 a -> ~ In 124 c -> a ++ 124 :: b = c ++ 124 :: d -> a = c /\ b = d.
Proof.
  revert c. induction a as [|x a IH]; intros [|y c] Ha Hc E; cbn in E.
  - by injection E.
  - injection E as <- _. destruct Hc. by left.
  - injection E as -> _. destruct Ha. by left.
  - injection E as -> E. destruct (IH c) as [-> ->]; [| |done|done]; intros Hi; [apply Ha|apply Hc]; by right.
Qed.

Lemma sealAAD_inj p r p' r' : no_bar p -> no_bar p' -> sealAAD p r = sealAAD p' r' -> p = p' /\ r = r'.
Proof.
  unfold no_bar, sealAAD. rewrite !bytes_app. intros Hp Hp' E.
  change (bytes_of p ++ 124 :: bytes_of r = bytes_of p' ++ 124 :: bytes_of r') in E.
  apply split_at_bar in E as [E1 E2]; [|done|done]. by apply bytes_of_inj in E1, E2.
Qed.

(** ':' is in no base64 text. *)
Lemma b64_char_colon u i : 0 <= i < 64 -> b64_char u i <> 58.
Proof.
  intros Hi. assert (forallb (fun u => negb (b64_char u i =? 58)) [true; false] = true) as Hok.
  { apply (below_dec 64 (fun i => forallb (fun u => negb (b64_char u i =? 58)) [true; false])); [vm_compute; reflexivity|lia]. }
  rewrite forallb_forall in Hok. specialize (Hok u ltac:(destruct u; cbn; tauto)). by apply negb_true_iff, Z.eqb_neq in Hok.
Qed.

Lemma encode_third a b c m : is_byte b -> is_byte c -> nth_error (b64_encode StdEncoding (a :: b :: c :: m)) 2 <> Some 58.
Proof.
  intros Hb Hc. cbn [b64_encode nth_error]. intros E. injection E as E. revert E. apply b64_char_colon.
  unfold is_byte in *. Z.to_euclidean_division_equations. lia.
Qed.

Lemma prefix_split p : forall s, String.prefix p s = true -> exists r, s = String.append p r.
Proof.
  induction p as [|c p IH]; intros s Hs; [by exists s|]. destruct s as [|x s]; [done|]. cbn [String.prefix] in Hs.
  destruct (Ascii.ascii_dec c x) as [<-|]; [|done]. apply IH in Hs as [r ->]. by exists r.
Qed.

Lemma drop_append p s : drop_prefix p (String.append p s) = Some s.
Proof.
  unfold drop_prefix. assert (String.prefix p (String.append p s) = true) as ->.
  { induction p as [|c p IH]; [by destruct s|]. change (String.prefix (String c p) (String c (String.append p s)) = true).
    cbn [String.prefix]. destruct (Ascii.ascii_dec c c); [exact IH|done]. }
  f_equal. induction p as [|c p IH]; [|exact IH]. change (String.append EmptyString s) with s. cbn [String.length]. rewrite Nat.sub_0_r.
  induction s as [|c s IH]; [done|]. cbn [String.length String.substring]. by rewrite IH.
Qed.

Section sealed_facts.
Context `{AEAD}.

(** What AES-256-GCM promises: sealed text opens under its own key and data,
    and under no other data. *)
Record aead_laws : Prop := {
  gcm_open_seal k n p a : Forall is_byte p -> gcm_open k n (gcm_seal k n p a) a = Some p;
  gcm_seal_bytes k n p a : Forall is_byte p -> Forall is_byte a -> Forall is_byte (gcm_seal k n p a);
  gcm_authentic k n p a k' a' : a' <> a -> gcm_open k' n (gcm_seal k n p a) a' = None }.

Lemma decrypt_encrypt (L : aead_laws) key key' p aad aad' nonce :
  length key = 32%nat -> length key' = 32%nat -> length nonce = gcm_nonce_size -> Forall is_byte nonce -> Forall is_byte p -> Forall is_byte aad ->
  exists s, encryptAESGCM key p aad nonce = Some s /\ decryptAESGCM key' s aad' = gcm_open key' nonce (gcm_seal key nonce p aad) aad'.
Proof.
  intros Hk Hk' Hn Hbn Hbp Hba. unfold encryptAESGCM, decryptAESGCM. rewrite Hk, Hk'. cbn [Nat.eqb negb].
  eexists. split; [done|]. assert (Forall is_byte (nonce ++ gcm_seal key nonce p aad)) as Hb by (apply Forall_app; split; [done|by apply gcm_seal_bytes]).
  rewrite bytes_string by (eapply Forall_impl; [by apply encode_plain|apply plain_byte]).
  rewrite (proj2 (decode_encode StdEncoding StdEncoding _ Hb) eq_refl).
  destruct (Nat.ltb_spec (length (nonce ++ gcm_seal key nonce p aad)) gcm_nonce_size) as [Hlt|_]; [rewrite length_app in Hlt; lia|].
  f_equal; [|]; rewrite <- Hn; [by rewrite take_app_length|by rewrite drop_app_length].
Qed.

Lemma DeriveKey_length m l : length (DeriveKey m l) = 32%nat.
Proof. apply Sum256_spec. Qed.

(** A sealed value opens under the key, purpose and row it was sealed with. *)
Lemma Open_Seal (L : aead_laws) master purpose row p nonce :
  Forall is_byte p -> Forall is_byte nonce -> length nonce = gcm_nonce_size ->
  exists c, encryptAESGCM (sealKey master purpose) p (sealAAD purpose row) nonce = Some c /\
    Seal master purpose row p nonce = Some (String.append sealedPrefix c) /\ Open master purpose row (String.append sealedPrefix c) = Opened p.
Proof.
  intros Hp Hn Hl. destruct (decrypt_encrypt L (sealKey master purpose) (sealKey master purpose) p (sealAAD purpose row) (sealAAD purpose row) nonce)
    as (c & Hc & Hd); [apply DeriveKey_length|apply DeriveKey_length|done|done|done|apply bytes_of_bytes|].
  exists c. split; [done|]. unfold Seal, Open. rewrite Hc, drop_append. split; [done|]. by rewrite Hd, gcm_open_seal.
Qed.

(** A sealed value opens to its plaintext under the purpose and row it was
    sealed for and fails to open under any other purpose or row; a value in
    the older unbound format is reported as such. *)
Theorem sealed_opens_only_in_place (L : aead_laws) master purpose row plaintext nonce :
  Forall is_byte plaintext -> Forall is_byte nonce -> length nonce = gcm_nonce_size -> no_bar purpose ->
  (exists s, Seal master purpose row plaintext nonce = Some s /\ IsSealed s = true /\
     Open master purpose row s = Opened plaintext /\
     forall purpose' row', no_bar purpose' -> (purpose', row') <> (purpose, row) -> Open master purpose' row' s = OpenFailed) /\
  forall key s, EncryptAESGCM key plaintext nonce = Some s -> Open master purpose row s = LegacyCiphertext.
Proof.
  intros Hp Hn Hl Hb. split.
  - destruct (Open_Seal L master purpose row plaintext nonce) as (c & Hc & Hs & Ho); [done|done|done|].
    exists (String.append sealedPrefix c). split; [done|]. split; [by destruct c|]. split; [done|]. intros purpose' row' Hb' Hne. unfold Open. rewrite drop_append.
    destruct (decrypt_encrypt L (sealKey master purpose) (sealKey master purpose') plaintext (sealAAD purpose row) (sealAAD purpose' row') nonce)
      as (c' & Hc' & Hd'); [apply DeriveKey_length|apply DeriveKey_length|done|done|done|apply bytes_of_bytes|].
    rewrite Hc in Hc'. injection Hc' as <-. rewrite Hd', gcm_authentic; [done|done|].
    intros E. apply sealAAD_inj in E as [-> ->]; [|done|done]. by apply Hne.
  - intros key s He. unfold EncryptAESGCM, encryptAESGCM in He. destruct (negb _); [done|]. injection He as <-. unfold Open.
    unfold drop_prefix. destruct (String.prefix _ _) eqn:E; [|done]. exfalso.
    destruct nonce as [|x [|y [|z nonce]]]; try done. inversion_clear Hn as [|? ? Hx Hn1]. inversion_clear Hn1 as [|? ? Hy Hn2].
    inversion_clear Hn2 as [|? ? Hz Hrest]. cbn [app] in E. set (t := nonce ++ _) in E.
    assert (forall l, String.prefix sealedPrefix (string_of l) = true -> Forall is_byte l -> nth_error l 2 = Some 58) as Hpre.
    { intros l Hpr Hbl. apply prefix_split in Hpr as [r Hr]. apply (f_equal bytes_of) in Hr.
      rewrite bytes_string, bytes_app in Hr by done. by rewrite Hr. }
    apply (encode_third x y z t Hy Hz), Hpre; [exact E|].
    apply (Forall_impl plain); [|apply plain_byte]. apply encode_plain. do 3 (apply Forall_cons_2; [done|]).
    unfold t. apply Forall_app. split; [done|by apply gcm_seal_bytes].
Qed.

End sealed_facts.

(** A transparent cipher: the associated data in clear before the text. *)
Definition toy_header (a : list Z) : list Z := concat (map (fun x => [1; x]) a) ++ [0].
#[local] Instance toy_aead : AEAD := {|
  gcm_seal k n p a := toy_header a ++ p;
  gcm_open k n c a := let h := toy_header a in
    if list_eqb (firstn (length h) c) h then Some (skipn (length h) c) else None |}.

Lemma toy_header_free a b p q : toy_header a ++ p = toy_header b ++ q -> a = b.
Proof.
  unfold toy_header. revert b. induction a as [|x a IH]; intros [|y b] E; cbn in E; try done.
  injection E as <- E. f_equal. by apply IH.
Qed.

Lemma toy_aead_laws : aead_laws.
Proof.
  split.
  - intros k n p a _. cbn. unfold list_eqb. by rewrite take_app_length, drop_app_length, bool_decide_eq_true_2.
  - intros k n p a Hp Ha. cbn. apply Forall_app. split; [|done]. unfold toy_header. apply Forall_app. split; [|by repeat constructor].
    induction Ha as [|x a Hx _ IH]; [constructor|]. cbn. apply Forall_cons_2; [done|]. by apply Forall_cons_2.
  - intros k n p a k' a' Hne. cbn. unfold list_eqb. rewrite bool_decide_eq_false_2; [done|]. intros E. apply Hne. symmetry.
    apply (toy_header_free a a' p (skipn (length (toy_header a')) (toy_header a ++ p))).
    rewrite <- E at 1. by rewrite take_drop.
Qed.

Definition toy_sealed : option string := Seal (repeat 7 32) "totp" "m1" (bytes_of "secret") (repeat 9 12).

Lemma sealed_opens_only_in_place_witness : exists s, toy_sealed = Some s /\
  Open (repeat 7 32) "totp" "m1" s = Opened (bytes_of "secret") /\ Open (repeat 7 32) "totp" "m2" s = OpenFailed.
Proof.
  destruct (sealed_opens_only_in_place toy_aead_laws (repeat 7 32) "totp" "m1" (bytes_of "secret") (repeat 9 12)) as [(s & H1 & _ & H2 & H3) _].
  - apply bytes_of_bytes.
  - vm_compute. repeat constructor; discriminate.
  - reflexivity.
  - vm_compute. intros H. repeat (destruct H as [H|H]; [discriminate H|]). exact H.
  - exists s. split; [exact H1|]. split; [exact H2|]. apply H3; [|discriminate].
    vm_compute. intros H. repeat (destruct H as [H|H]; [discriminate H|]). exact H.
Defined.

Lemma decodeBase64Any_accepts_witness :
  decodeBase64Any "-_8=" = Some [251; 255] /\ decodeBase64Any (string_of (b64_encode RawURLEncoding [251; 255])) = Some [251; 255].
Proof.
  split; [vm_compute; reflexivity|]. apply (decodeBase64Any_accepts RawURLEncoding [251; 255]).
  repeat constructor; discriminate.
Defined.
