(* ===== verification/Requests.v ===== *)
(** What an authorization request may ask for: scopes, PKCE and redirect URIs
    of [oauth/oauth.go] and the authentication requirements of
    [oauth/authentication_request.go]. *)
From S2P Require Import Prelude Schema Access Sample Sessions Tokens Outbox AppAccess Crypto.

(** ** Fields

    [strings.Fields] over the UTF-8 encodings of white space. *)

Fixpoint strip_prefix (p l : list Z) : bool :=
  match p, l with
  | [], _ => true
  | x :: p', y :: l' => (x =? y) && strip_prefix p' l'
  | _ :: _, [] => false
  end.

(** The white-space character the text starts with, by its length. *)
Definition space_at (l : list Z) : option nat :=
  first_some (fun p => if strip_prefix p l then Some (length p) else None) (map bytes_of white_space).

Definition flush (cur : list Z) : list (list Z) := match cur with [] => [] | _ => [cur] end.

(** [skip] bytes of a white-space character are still to be passed over. *)
Fixpoint fields_from (cur : list Z) (skip : nat) (l : list Z) : list (list Z) :=
  match l with
  | [] => flush cur
  | c :: l' =>
    match skip with
    | S k => fields_from cur k l'
    | O => match space_at l with
      | Some n => flush cur ++ fields_from [] (n - 1) l'
      | None => fields_from (cur ++ [c]) 0 l'
      end
    end
  end.

Definition Fields (s : string) : list string := map string_of (fields_from [] 0 (bytes_of s)).

Definition Join (l : list string) : string := String.concat " " l.

Example fields_mixed : Fields "  openid	profile  email " = ["openid"; "profile"; "email"]%string.
Proof. vm_compute. reflexivity. Qed.

(** ** Scopes *)

Definition hasScope (scope want : string) : bool := one_of want (Fields scope).

(** One pass over the request: allowed, and not granted yet. *)
Fixpoint grant (permitted seen requested : list string) : list string :=
  match requested with
  | [] => []
  | s :: r =>
    if one_of s permitted && negb (one_of s seen) then s :: grant permitted (s :: seen) r else grant permitted seen r
  end.

Inductive OAuthError := FromStore (e : StoreError) | OAuthText (s : string)
| InvalidClient | RefreshReuse | ClaimsTooLarge | DeviceSignOnDisabled | DeviceSignOnNotPermitted.

Definition GrantedScope (d : DB) (client requested : string) : OAuthError + string :=
  match oauth_clients d !! client with
  | None => inl (OAuthText "unknown client")
  | Some c =>
    match oc_AllowedScopes c with
    | None => inl (OAuthText "malformed scope allowlist")
    | Some allowed =>
      match grant (map TrimSpace allowed) [] (Fields requested) with
      | [] => inl (OAuthText "none of the requested scopes are permitted for this client")
      | granted => inr (Join granted)
      end
    end
  end.

(** ** Redirect URIs *)

Definition registeredExactly (registered : option (list string)) (uri : string) : bool :=
  if uri =?s EmptyString then false else
  match registered with
  | None => false
  | Some l => existsb (fun c => let c := TrimSpace c in if c =?s EmptyString then false else c =?s uri) l
  end.

Definition ValidateRedirectURI (client : option OAuthClient) (uri : string) : bool :=
  match client with None => false | Some c => registeredExactly (oc_RedirectURIs c) uri end.

Definition ValidatePostLogoutRedirectURI (client : option OAuthClient) (uri : string) : bool :=
  match client with None => false | Some c => registeredExactly (oc_PostLogoutRedirectURIs c) uri end.

(** ** PKCE *)

Definition s256 (verifier : string) : string := string_of (b64_encode RawURLEncoding (Sum256 (bytes_of verifier))).

Definition ValidatePKCE (verifier challenge method : string) : bool :=
  if (method <>?s "S256") || (verifier =?s EmptyString) || (challenge =?s EmptyString) then false
  else s256 verifier =?s challenge.

(** RFC 7636, Appendix B. *)
Example pkce_vector :
  ValidatePKCE "dBjftJeZ4CVP-mB92K27uhbUJU1p1r_wW1gFWFOEjXk" "E9Melhoa2OwvFrEMTJguCHaoeK1t8URWbuGJSstw-cM" "S256" = true.
Proof. vm_compute. reflexivity. Qed.

(** ** Authentication requirements *)

Definition PasswordACR : string := "urn:kysignon:acr:password".
Definition MFAACR : string := "urn:kysignon:acr:mfa".
Definition DeviceACR : string := "urn:kysignon:acr:device".

Record AuthenticationRequest := MkAuthenticationRequest { rq_Fresh : bool; rq_Silent : bool; rq_MaxAge : option Z;
  rq_ACR : string; rq_AppPolicy : AppAuthenticationPolicy }.

(** The zero value of the Go struct. *)
Definition no_policy : AppAuthenticationPolicy := MkAppAuthenticationPolicy "" 0 "" 0 0 0.
Definition no_requirements : AuthenticationRequest := MkAuthenticationRequest false false None EmptyString no_policy.

(** [strconv.ParseInt(raw,10,32)] of a text of digits. *)
Fixpoint digits (l : list Z) (acc : Z) : option Z :=
  match l with
  | [] => Some acc
  | c :: l' => if (48 <=? c) && (c <=? 57) then digits l' (acc * 10 + (c - 48)) else None
  end.

Definition parse_age (raw : string) : option Z :=
  if raw =?s EmptyString then None else
  match digits (bytes_of raw) 0 with Some n => if n <? 2 ^ 31 then Some n else None | None => None end.

(** The query as [url.Values]: every value of every key, in order.  [None] is
    the one error every malformed request gets. *)
Definition Values : Type := gmap string (list string).
Definition get_value (q : Values) (k : string) : option string := q !! k ≫= head.

Definition ParseAuthenticationRequest (q : Values) : option AuthenticationRequest :=
  if exists_where (fun l => negb (Nat.eqb (length l) 1)) q then None else
  match (match get_value q "prompt" with
         | None => Some (false, false)
         | Some v => if v =?s "none" then Some (false, true) else if v =?s "login" then Some (true, false) else None
         end) with
  | None => None
  | Some (fresh, silent) =>
    match (match get_value q "max_age" with
           | None => Some (fresh, None)
           | Some raw => match parse_age raw with
             | None => None
             | Some age => if age =? 0 then Some (true, None) else Some (fresh, Some age)
             end
           end) with
    | None => None
    | Some (fresh, age) =>
      match (match get_value q "acr_values" with
             | None => Some EmptyString
             | Some v => match Fields v with
               | [] => None
               | c :: cs => if forallb (fun x => one_of x [PasswordACR; MFAACR]) (c :: cs) then Some c else None
               end
             end) with
      | None => None
      | Some acr =>
        if existsb (fun k => negb (is_null (q !! k))) ["request"; "request_uri"; "claims"]%string then None
        else Some (MkAuthenticationRequest fresh silent age acr no_policy)
      end
    end
  end.

(** [e == nil || e.After(now)] is [unproven] of [store/app_authentication.go]. *)
Definition Satisfied (p : AuthenticationRequest) (e : AuthenticationEvidence) (now : Z) : bool :=
  ((p_Mode (rq_AppPolicy p) =?s EmptyString) || (EvidenceReason (rq_AppPolicy p) e now =?s EmptyString)) &&
  negb (rq_Fresh p) &&
  ((is_null (rq_MaxAge p) && (rq_ACR p =?s EmptyString)) || negb (unproven (ev_PrimaryAuthenticatedAt e) now)) &&
  match rq_MaxAge p with
  | None => true
  | Some age => match ev_PrimaryAuthenticatedAt e with Some t => negb (t <? now - age * second) | None => true end
  end &&
  ((rq_ACR p <>?s MFAACR) ||
   (negb (unproven (ev_FactorAuthenticatedAt e) now) && one_of (ev_FactorMethod e) ["totp"; "push"; "webauthn"]%string)).

Definition WithAppPolicy (p : AuthenticationRequest) (policy : AppAuthenticationPolicy) : AuthenticationRequest :=
  MkAuthenticationRequest (rq_Fresh p || (p_Mode policy =?s "fresh")) (rq_Silent p) (rq_MaxAge p) (rq_ACR p) policy.

(** ** Facts *)

Lemma strip_prefix_app p l r : strip_prefix p l = true -> strip_prefix p (l ++ r) = true.
Proof.
  revert l. induction p as [|x p IH]; intros [|y l] Hp; try done. cbn in *. apply andb_true_iff in Hp as [-> Hp]. by apply IH.
Qed.

(** A match that runs past [t] takes in the byte after it. *)
Lemma strip_prefix_split p t c r : strip_prefix p (t ++ c :: r) = true -> strip_prefix p t = true \/ In c (skipn (length t) p).
Proof.
  revert p. induction t as [|y t IH]; intros [|x p] Hp; try by left.
  - cbn in Hp. apply andb_true_iff in Hp as [Hx _]. apply Z.eqb_eq in Hx as ->. right. by left.
  - cbn in *. apply andb_true_iff in Hp as [-> Hp]. by apply IH.
Qed.

Lemma space_at_none l : space_at l = None <-> forall p, In p (map bytes_of white_space) -> strip_prefix p l = false.
Proof.
  unfold space_at. generalize (map bytes_of white_space) as ws. intros ws. induction ws as [|p ws IH]; cbn [first_some].
  { by split. }
  destruct (strip_prefix p l) eqn:E; split.
  - done.
  - intros Ha. by rewrite (Ha p) in E by by left.
  - intros Hn q [<-|Hq]; [done|]. by apply IH.
  - intros Ha. apply IH. intros q Hq. apply Ha. by right.
Qed.

(** The blank occurs in white space only as its own character. *)
Lemma blank_in_space p n : In p (map bytes_of white_space) -> In 32 (skipn (S n) p) -> False.
Proof.
  intros Hp Hn. assert (forallb (fun p => negb (existsb (Z.eqb 32) (skipn 1 p))) (map bytes_of white_space) = true) as Hall by (vm_compute; reflexivity).
  rewrite forallb_forall in Hall. apply Hall in Hp. apply negb_true_iff in Hp. apply not_true_iff_false in Hp. apply Hp.
  apply existsb_exists. exists 32. split; [|done]. destruct p as [|x p]; [by destruct n|]. cbn [skipn] in *.
  clear -Hn. revert Hn. generalize (n)%nat. intros m. revert p. induction m as [|m IH]; intros p Hn; [done|]. destruct p; [done|]. right. by apply IH.
Qed.

(** No white space inside: what [Fields] yields, and what it reads back. *)
Definition solid (t : list Z) : Prop := t <> [] /\ forall a b, t = a ++ b -> b <> [] -> space_at b = None.

Definition open_field (cur l : list Z) : Prop := forall a b, cur = a ++ b -> b <> [] -> space_at (b ++ l) = None.

Lemma flush_solid cur l : open_field cur l -> Forall solid (flush cur).
Proof.
  intros Hc. destruct cur as [|x cur]; [constructor|]. apply Forall_cons_2; [|constructor]. split; [done|]. intros a b E Hb.
  specialize (Hc a b E Hb). rewrite space_at_none in *. intros p Hp. specialize (Hc p Hp).
  destruct (strip_prefix p b) eqn:Es; [|done]. by rewrite (strip_prefix_app _ _ l Es) in Hc.
Qed.

Lemma open_field_nil l : open_field [] l.
Proof. intros a b E Hb. symmetry in E. by apply app_eq_nil in E as [_ ->]. Qed.

Lemma open_field_snoc cur c l : open_field cur (c :: l) -> space_at (c :: l) = None -> open_field (cur ++ [c]) l.
Proof.
  intros Hc Hs a b E Hb. destruct (exists_last Hb) as (b' & x & ->). rewrite app_assoc in E. apply app_inj_tail in E as [-> ->].
  rewrite <- app_assoc. destruct b' as [|y b']; [exact Hs|]. by apply (Hc a).
Qed.

Lemma fields_solid l : forall cur skip, cur = [] \/ (skip = O /\ open_field cur l) -> Forall solid (fields_from cur skip l).
Proof.
  induction l as [|c l IH]; intros cur skip Hc; cbn [fields_from].
  { destruct Hc as [->|[_ Hc]]; [constructor|by eapply flush_solid]. }
  destruct skip as [|k]; [|destruct Hc as [->|[? _]]; [apply IH; by left|done]].
  assert (open_field cur (c :: l)) as Ho by (destruct Hc as [->|[_ Hc]]; [apply open_field_nil|done]).
  destruct (space_at (c :: l)) as [n|] eqn:Es.
  - apply Forall_app. split; [by eapply flush_solid|]. apply IH. by left.
  - apply IH. right. split; [done|]. by apply open_field_snoc.
Qed.

Lemma solid_byte (t : list Z) r : (forall a b, t = a ++ b -> b <> [] -> space_at b = None) -> t <> [] -> space_at (t ++ 32 :: r) = None.
Proof.
  intros Ht Hne. specialize (Ht [] t eq_refl Hne). rewrite space_at_none in *. intros p Hp. specialize (Ht p Hp).
  destruct (strip_prefix p (t ++ 32 :: r)) eqn:E; [|done]. apply strip_prefix_split in E as [E|E]; [congruence|].
  destruct t as [|x t]; [done|]. exfalso. by eapply blank_in_space.
Qed.

Lemma fields_token t r : forall cur, (forall a b, t = a ++ b -> b <> [] -> space_at b = None) ->
  fields_from cur 0 (t ++ 32 :: r) = flush (cur ++ t) ++ fields_from [] 0 r.
Proof.
  induction t as [|c t IH]; intros cur Ht; cbn [app fields_from].
  - rewrite app_nil_r. reflexivity.
  - change (c :: t ++ 32 :: r) with ((c :: t) ++ 32 :: r). rewrite solid_byte by done. rewrite IH.
    + by rewrite <- app_assoc.
    + intros a b -> Hb. by apply (Ht (c :: a)).
Qed.

Lemma fields_last t : forall cur, (forall a b, t = a ++ b -> b <> [] -> space_at b = None) -> fields_from cur 0 t = flush (cur ++ t).
Proof.
  induction t as [|c t IH]; intros cur Ht; cbn [fields_from]; [by rewrite app_nil_r|].
  rewrite (Ht [] (c :: t)) by done. rewrite IH; [by rewrite <- app_assoc|]. intros a b -> Hb. by apply (Ht (c :: a)).
Qed.

Definition joined (l : list (list Z)) : list Z :=
  match l with [] => [] | x :: l' => fold_left (fun acc t => acc ++ 32 :: t) l' x end.

Lemma bytes_join l : bytes_of (Join l) = match l with [] => [] | x :: l' => bytes_of x ++ concat (map (fun s => 32 :: bytes_of s) l') end.
Proof.
  unfold Join. destruct l as [|x l]; [done|]. revert x. induction l as [|y l IH]; intros x; cbn [String.concat map concat].
  - by rewrite app_nil_r.
  - rewrite !bytes_app. f_equal. rewrite <- app_comm_cons. f_equal. apply IH.
Qed.

Lemma fields_joined l : Forall solid l -> fields_from [] 0 (match l with [] => [] | x :: l' => x ++ concat (map (cons 32) l') end) = l.
Proof.
  destruct l as [|x l]; [done|]. intros Hs. apply Forall_cons in Hs as [Hx Hl]. revert x Hx. induction Hl as [|y l Hy _ IH]; intros x [Hne Hx].
  - cbn [map concat]. rewrite app_nil_r, fields_last by done. by destruct x.
  - cbn [map concat app]. rewrite fields_token by done. cbn [app]. rewrite IH by done. by destruct x.
Qed.

Lemma fields_bytes l : Forall is_byte l -> forall cur skip, Forall is_byte cur -> Forall (Forall is_byte) (fields_from cur skip l).
Proof.
  assert (forall cur, Forall is_byte cur -> Forall (Forall is_byte) (flush cur)) as Hf.
  { intros [|x cur] Hc; [constructor|]. by apply Forall_cons_2. }
  induction 1 as [|c l Hc Hl IH]; intros cur skip Hcur; cbn [fields_from]; [by apply Hf|].
  destruct skip; [destruct (space_at (c :: l))|]; [apply Forall_app; split; [by apply Hf|]; apply IH; constructor| |by apply IH].
  apply IH, Forall_app. split; [done|]. by apply Forall_cons_2.
Qed.

Lemma Fields_solid s x : In x (Fields s) -> solid (bytes_of x).
Proof.
  unfold Fields. intros Hx. apply in_map_iff in Hx as (t & <- & Ht). rewrite bytes_string.
  - pose proof (fields_solid (bytes_of s) [] 0 ltac:(by left)) as Hs. rewrite List.Forall_forall in Hs. by apply Hs.
  - pose proof (fields_bytes (bytes_of s) (bytes_of_bytes s) [] 0 ltac:(constructor)) as Hb. rewrite List.Forall_forall in Hb. by apply Hb.
Qed.

(** Reading back what was joined. *)
Lemma Fields_Join l : (forall x, In x l -> solid (bytes_of x)) -> Fields (Join l) = l.
Proof.
  intros Hl. unfold Fields. rewrite bytes_join.
  assert (map string_of (map bytes_of l) = l) as Hm by (rewrite map_map; rewrite <- (map_id l) at 2; apply map_ext, string_bytes).
  rewrite <- Hm at 2. rewrite <- (fields_joined (map bytes_of l)).
  - f_equal. f_equal. destruct l as [|x l]; [done|]. cbn [map]. f_equal. by rewrite map_map.
  - apply List.Forall_forall. intros t Ht. apply in_map_iff in Ht as (x & <- & Hx). by apply Hl.
Qed.

(** Fields of a text, and of what is kept of them joined again. *)
Lemma grant_spec permitted req : forall seen,
  NoDup (grant permitted seen req) /\
  forall s, In s (grant permitted seen req) <-> In s req /\ In s permitted /\ ~ In s seen.
Proof.
  induction req as [|x req IH]; intros seen; cbn [grant]; [split; [constructor|naive_solver]|].
  destruct (one_of x permitted && negb (one_of x seen)) eqn:E.
  - apply andb_true_iff in E as [E1 E2]. apply one_of_true in E1. apply negb_true_iff, not_true_iff_false in E2. rewrite one_of_true in E2.
    destruct (IH (x :: seen)) as [Hnd Hin]. split.
    + apply NoDup_cons. split; [|done]. rewrite list_elem_of_In, Hin. intros (_ & _ & Hx). apply Hx. by left.
    + intros s. cbn [In]. rewrite Hin. destruct (decide (s = x)) as [->|]; [naive_solver|]. cbn [In]. naive_solver congruence.
  - destruct (IH seen) as [Hnd Hin]. split; [done|]. intros s. rewrite Hin. cbn [In]. split; [naive_solver|].
    intros ([<-|Hr] & Hp & Hn); [|done]. exfalso. apply andb_false_iff in E as [E|E].
    + apply not_true_iff_false in E. by apply E, one_of_true.
    + apply negb_false_iff, one_of_true in E. done.
Qed.

(** The granted scope is exactly the requested scopes the client's allow
    list has, without duplicates; the request is refused exactly when none
    is allowed. *)
Theorem GrantedScope_exact d client c allowed requested :
  oauth_clients d !! client = Some c -> oc_AllowedScopes c = Some allowed ->
  match GrantedScope d client requested with
  | inr scope => NoDup (Fields scope) /\ Fields scope <> [] /\
      forall s, hasScope scope s = hasScope requested s && one_of s (map TrimSpace allowed)
  | inl _ => forall s, hasScope requested s && one_of s (map TrimSpace allowed) = false
  end.
Proof.
  intros Hc Ha. unfold GrantedScope. rewrite Hc, Ha. destruct (grant_spec (map TrimSpace allowed) (Fields requested) []) as [Hnd Hin].
  assert (forall s, In s (grant (map TrimSpace allowed) [] (Fields requested)) <->
    hasScope requested s && one_of s (map TrimSpace allowed) = true) as Hiff.
  { intros s. rewrite Hin. unfold hasScope. rewrite andb_true_iff, !one_of_true. naive_solver. }
  destruct (grant _ _ _) as [|x l] eqn:Eg.
  - intros s. destruct (hasScope requested s && _) eqn:E; [|done]. by apply Hiff in E.
  - rewrite Fields_Join.
    + split; [done|]. split; [done|]. intros s. unfold hasScope at 1. rewrite Fields_Join.
      * apply eq_true_iff_eq. rewrite one_of_true. apply Hiff.
      * intros y Hy. apply (Fields_solid requested). by apply Hin in Hy as [? _].
    + intros y Hy. apply (Fields_solid requested). by apply Hin in Hy as [? _].
Qed.

(** *** Requirements *)

Lemma get_value_single (q : Values) k v : exists_where (fun l => negb (Nat.eqb (length l) 1)) q = false ->
  q !! k = Some [v] <-> get_value q k = Some v.
Proof.
  intros He. unfold get_value. rewrite exists_where_false in He. destruct (q !! k) as [l|] eqn:E; cbn; [|done].
  specialize (He k l E). destruct l as [|x [|y l]]; try done. cbn. naive_solver.
Qed.

Lemma unproven_false o now : unproven o now = false <-> exists t, o = Some t /\ t <= now.
Proof.
  unfold unproven. destruct o as [t|]; cbn; [|by split; [|intros (? & ? & _)]].
  split; [|intros (? & [= <-] & ?)]; [intros H; exists t; split; [done|lia]|lia].
Qed.

Lemma digits_bound l : forall acc n, 0 <= acc -> digits l acc = Some n -> 0 <= n.
Proof.
  induction l as [|c l IH]; intros acc n Ha Hn; cbn in Hn; [injection Hn as <-; done|].
  destruct ((48 <=? c) && (c <=? 57)) eqn:E; [|done]. bool_hyps. apply IH in Hn; lia.
Qed.

Lemma parse_age_bounds raw n : parse_age raw = Some n -> 0 <= n < 2 ^ 31.
Proof.
  unfold parse_age. destruct (raw =?s _); [done|]. destruct (digits _ _) as [m|] eqn:E; [|done]. destruct (m <? 2 ^ 31) eqn:El; [|done].
  intros [= <-]. apply digits_bound in E; lia.
Qed.

(** When a parsed authorization request counts as satisfied by a session's
    evidence, the application policy holds, no fresh login was asked for,
    the password is within the requested maximum age, a requested context
    class was reached and a requested second factor was used; requests with
    unsupported parameters are never parsed. *)
Theorem requested_assurance_is_honoured q p policy e now :
  ParseAuthenticationRequest q = Some p -> Satisfied (WithAppPolicy p policy) e now = true ->
  (p_Mode policy <> EmptyString -> EvidenceReason policy e now = EmptyString) /\ p_Mode policy <> "fresh"%string /\
  q !! "prompt" <> Some ["login"] /\
  (forall raw, q !! "max_age" = Some [raw] -> exists age t, parse_age raw = Some age /\ 0 < age < 2 ^ 31 /\
     ev_PrimaryAuthenticatedAt e = Some t /\ t <= now <= t + age * second) /\
  (forall v, q !! "acr_values" = Some [v] -> exists t, ev_PrimaryAuthenticatedAt e = Some t /\ t <= now) /\
  (forall v, q !! "acr_values" = Some [v] -> head (Fields v) = Some MFAACR ->
     exists t, ev_FactorAuthenticatedAt e = Some t /\ t <= now /\ In (ev_FactorMethod e) ["totp"; "push"; "webauthn"]) /\
  forall k, In k ["request"; "request_uri"; "claims"] -> q !! k = None.
Proof.
  unfold ParseAuthenticationRequest. destruct (exists_where _ q) eqn:Eq; [done|].
  pose proof (fun k v => get_value_single q k v Eq) as Hg. intros Hp Hs.
  destruct (match get_value q "prompt" with Some _ => _ | None => _ end) as [[fresh silent]|] eqn:E1; [|done].
  destruct (match get_value q "max_age" with Some _ => _ | None => _ end) as [[fresh' age]|] eqn:E2; [|done].
  destruct (match get_value q "acr_values" with Some _ => _ | None => _ end) as [acr|] eqn:E3; [|done].
  destruct (existsb _ _) eqn:E4; [done|]. injection Hp as <-.
  unfold Satisfied, WithAppPolicy in Hs. cbn [rq_Fresh rq_MaxAge rq_ACR rq_AppPolicy] in Hs.
  apply andb_true_iff in Hs as [Hs H5]. apply andb_true_iff in Hs as [Hs H4]. apply andb_true_iff in Hs as [Hs H3].
  apply andb_true_iff in Hs as [H1 H2]. apply negb_true_iff, orb_false_iff in H2 as [-> H2]. apply streqb_false in H2.
  split_and!.
  - intros Hm. apply orb_true_iff in H1 as [H1|H1]; apply streqb_true in H1; congruence.
  - done.
  - intros Hq. apply Hg in Hq. rewrite Hq in E1. injection E1 as <- _. destruct (get_value q "max_age"); [|done].
    destruct (parse_age _); [|done]. by destruct (_ =? 0).
  - intros raw Hq. apply Hg in Hq. rewrite Hq in E2. destruct (parse_age raw) as [n|] eqn:En; [|done].
    destruct (n =? 0) eqn:E0; [done|]. injection E2 as _ <-. cbn [is_null andb orb] in H3. apply negb_true_iff, unproven_false in H3 as (t & Ht & Hle).
    rewrite Ht in H4. apply negb_true_iff, Z.ltb_ge in H4. apply Z.eqb_neq in E0.
    pose proof (parse_age_bounds _ _ En). exists n, t. split_and!; try done; lia.
  - intros v Hq. apply Hg in Hq. rewrite Hq in E3. destruct (Fields v) as [|c cs]; [done|]. destruct (forallb _ _) eqn:Ef; [|done]. injection E3 as <-.
    apply orb_true_iff in H3 as [H3|H3].
    + apply andb_true_iff in H3 as [_ H3]. apply streqb_true in H3. subst c. cbn in Ef. done.
    + by apply negb_true_iff, unproven_false in H3.
  - intros v Hq Hh. apply Hg in Hq. rewrite Hq in E3. destruct (Fields v) as [|c cs]; [done|]. destruct (forallb _ _) eqn:Ef; [|done]. injection E3 as <-.
    injection Hh as ->. rewrite streqb_refl in H5. cbn [negb orb] in H5. apply andb_true_iff in H5 as [H5 H6].
    apply negb_true_iff, unproven_false in H5 as (t & Ht & Hle). apply one_of_true in H6. by exists t.
  - intros k Hk. apply not_true_iff_false in E4. destruct (q !! k) eqn:E; [|done]. exfalso. apply E4, existsb_exists. exists k. by rewrite E.
Qed.

(** An ID-token policy needs a factor within the hour; the client asks for a login within ten minutes. *)
Definition sample_query : Values := {[ "max_age" := ["600"]; "acr_values" := ["urn:kysignon:acr:mfa"] ]}%string.
Definition sample_proof : AuthenticationEvidence := MkAuthenticationEvidence (Some (t0 - 5 * minute)) (Some (t0 - 4 * minute)) "totp".

Lemma requested_assurance_is_honoured_witness : exists p, ParseAuthenticationRequest sample_query = Some p /\
  Satisfied (WithAppPolicy p sample_policy) sample_proof t0 = true /\ exists age, parse_age "600" = Some age /\ 0 < age.
Proof.
  destruct (ParseAuthenticationRequest sample_query) as [p|] eqn:E; [|vm_compute in E; discriminate E]. exists p. split; [reflexivity|].
  assert (Satisfied (WithAppPolicy p sample_policy) sample_proof t0 = true) as Hs.
  { vm_compute in E. injection E as <-. vm_compute. reflexivity. }
  split; [exact Hs|].
  destruct (requested_assurance_is_honoured sample_query p sample_policy sample_proof t0 E Hs) as (_ & _ & _ & H & _).
  destruct (H "600"%string) as (age & t & H1 & [H2 _] & _); [vm_compute; reflexivity|]. exists age. split; [exact H1|exact H2].
Defined.

Lemma GrantedScope_exact_witness :
  GrantedScope sample_db "c1" " offline_access openid email openid" = inr "offline_access openid"%string /\
  hasScope "offline_access openid" "email" = false.
Proof.
  assert (GrantedScope sample_db "c1" " offline_access openid email openid" = inr "offline_access openid"%string) as E by (vm_compute; reflexivity).
  split; [exact E|].
  assert (oauth_clients sample_db !! "c1"%string = Some sample_client) as Hc by (vm_compute; reflexivity).
  pose proof (GrantedScope_exact sample_db "c1" sample_client _ " offline_access openid email openid" Hc eq_refl) as H. rewrite E in H.
  destruct H as (_ & _ & H). rewrite H. vm_compute. reflexivity.
Defined.

