(* ===== verification/OAuth.v ===== *)
(** The OAuth engine: code issue and exchange, refresh, tokens, user info and
    revocation ([oauth/oauth.go], [oauth/authentication.go], [oauth/logout.go],
    [oauth/backchannel.go]), the token verification of [crypto/crypto.go] and
    the device grant ([oauth/device_assertion.go]).

    A call runs several store transactions, so it is a [Run]: what an earlier
    one committed stays when a later one fails. *)
From stdpp Require Import pretty.
From S2P Require Import Prelude Schema Access Sample Sessions Tokens Mfa Outbox AppAccess Crypto Requests.

(** ** Interfaces

    Third-party and wire formats: [jwt_sign] signs claims under a [typ] header
    with the server's key, [jwt_read] gives the claims of a text whose RS256
    signature verifies under it, [json_marshal] is [json.Marshal];
    [jws_parse] decodes a device assertion without trusting it, [es256_ok]
    verifies it under a stored public key, [url_parse] is [url.Parse]. *)

Definition Claims : Type := list (string * Json).

Record URL := MkURL { url_Scheme : string; url_Opaque : string; url_User : bool; url_Host : string; url_Path : string }.

(** A decoded, unverified assertion: its header, and the claims the grant reads;
    times are the numeric dates' seconds. *)
Record Assertion := MkAssertion { as_alg : string; as_typ : string; as_kid : string; as_header_len : Z; as_iss : string; as_sub : string;
  as_aud : list string; as_client_id : string; as_origin : string; as_jti : string; as_iat : option Z; as_exp : option Z; as_nbf : option Z }.

Class Wire := {
  jwt_sign : string -> Claims -> string;
  jwt_read : string -> option Claims;
  json_marshal : Json -> string;
  jws_parse : string -> option Assertion;
  p256_key : string -> bool;
  es256_ok : string -> string -> bool;
  url_parse : string -> option URL }.

Definition ORun : Type -> Type := Run DB OAuthError.

(** One store transaction, committed or rolled back. *)
Definition in_tx {A} (m : STx A) : ORun A := fun d =>
  match commit m d with (inr a, d') => (inr a, d') | (inl e, d') => (inl (FromStore e), d') end.

Definition result {A} (r : StoreError + A) : ORun A := fun d =>
  match r with inr a => (inr a, d) | inl e => (inl (FromStore e), d) end.

Definition oresult {A} (r : OAuthError + A) : ORun A := fun d => (r, d).

Definition AccessTokenTTL : Z := 15 * minute.
Definition AuthorizationCodeTTL : Z := 60 * second.
Definition LogoutTokenTTL : Z := 2 * minute.
Definition MaxIdentityClaimBytes : Z := 4096.

(** [time.Time.Before] against a bound that may be absent. *)
Definition earliest (t : Z) (bound : option Z) : Z := match bound with Some b => if b <? t then b else t | None => t end.

Definition GetSessionByID (id : string) (now : Z) (d : DB) : option Session :=
  match sessions d !! id with Some s => if now <? s_ExpiresAt s then Some s else None | None => None end.

Section oauth.
Context `{Wire}.

(** ** Verification *)

Definition claim_str (k : string) (c : Claims) : string := match obj_get k c with Some (JStr s) => s | _ => EmptyString end.
Definition claim_is (k v : string) (c : Claims) : bool := match obj_get k c with Some (JStr s) => s =?s v | _ => false end.

(** A numeric date: absent, a number, or malformed. *)
Definition claim_date (k : string) (c : Claims) : option (option Z) :=
  match obj_get k c with None => Some None | Some (JNum n) => Some (Some n) | Some _ => None end.

(** The library's claim validation with [WithExpirationRequired] and [WithIssuer]. *)
Definition library_valid (issuer : string) (now : Z) (c : Claims) : bool :=
  match claim_date "exp" c, claim_date "nbf" c with
  | Some (Some e), Some nbf => (now <? of_unix e) && match nbf with Some n => of_unix n <=? now | None => true end && claim_is "iss" issuer c
  | _, _ => false
  end.

Definition verifyJWT (token issuer tokenUse : string) (allowExpired : bool) (now : Z) : option Claims :=
  if (issuer =?s EmptyString) || (tokenUse =?s EmptyString) then None else
  match jwt_read token with
  | None => None
  | Some c =>
    if (allowExpired || library_valid issuer now c) && match claim_date "exp" c with Some (Some _) => true | _ => false end &&
       claim_is "iss" issuer c && claim_is "token_use" tokenUse c
    then Some c else None
  end.

Definition VerifyJWT (token issuer tokenUse : string) (now : Z) : option Claims := verifyJWT token issuer tokenUse false now.
Definition VerifyExpiredJWT (token issuer tokenUse : string) (now : Z) : option Claims := verifyJWT token issuer tokenUse true now.
Definition SignJWT (c : Claims) : string := jwt_sign "JWT" c.

(** ** Claims *)

Definition set_claims (new c : Claims) : Claims := fold_left (fun c kv => obj_set kv.1 kv.2 c) new c.

Definition strings (l : list string) : Json := JArr (map JStr l).

Definition addAuthenticationClaims (c : Claims) (ev : AuthenticationEvidence) : Claims :=
  match ev_PrimaryAuthenticatedAt ev with
  | None => c
  | Some at_ =>
    let m := ev_FactorMethod ev in
    let '(methods, context) :=
      if is_null (ev_FactorAuthenticatedAt ev) then (["pwd"], PasswordACR)
      else if m =?s "totp" then (["pwd"; "otp"; "mfa"], MFAACR)
      else if one_of m ["push"; "webauthn"] then (["pwd"; String.append "urn:kysignon:amr:" m; "mfa"], MFAACR)
      else if m =?s "recovery" then (["pwd"; "urn:kysignon:amr:recovery"], "urn:kysignon:acr:recovery")
      else (["pwd"], PasswordACR) in
    set_claims [("auth_time", JNum (unix at_)); ("amr", strings methods); ("acr", JStr context)] c
  end%string.

Definition identityClaims (user : User) (client scope : string) (now : Z) (d : DB) : OAuthError + Claims :=
  let app := UserAppClaims (u_ID user) client now d in
  let c := [("sub", JStr (u_ID user))] ++
    (if hasScope scope "profile" then [("username", JStr (u_Username user)); ("preferred_username", JStr (u_Username user)); ("name", JStr (u_DisplayName user))] else []) ++
    (if hasScope scope "email" then [("email", JStr (u_Email user)); ("email_verified", JBool (negb (is_null (u_EmailVerifiedAt user))))] else []) ++
    [("roles", strings (ac_Roles app))] ++
    (if ac_GroupsClaim app then [("groups", strings (ac_Groups app))] else []) ++
    (if ac_LegacyRole app then [("role", JStr (u_Role user))] else []) in
  if MaxIdentityClaimBytes <? Z.of_nat (String.length (json_marshal (JObj c))) then inl ClaimsTooLarge else inr c.

Record TokenResponse := MkTokenResponse { tr_AccessToken : string; tr_ExpiresIn : Z; tr_IDToken : string; tr_RefreshToken : string; tr_Scope : string }.

Definition access_claims (issuer user client jti scope : string) (exp now : Z) : Claims :=
  [("iss", JStr issuer); ("sub", JStr user); ("aud", JStr client); ("exp", JNum (unix exp)); ("iat", JNum (unix now));
   ("jti", JStr jti); ("scope", JStr scope); ("token_use", JStr "access_token")]%string.

(** The registered claims an ID token adds to the identity. *)
Definition id_claims (issuer client sid jti : string) (exp now : Z) : Claims :=
  [("sid", JStr sid); ("iss", JStr issuer); ("aud", JStr client); ("exp", JNum (unix exp)); ("iat", JNum (unix now));
   ("jti", JStr jti); ("token_use", JStr "id_token")]%string.

(** [newsid] and [idjti] are the random identifiers drawn on the way. *)
Definition tokenResponse (issuer newsid idjti : string) (user : User) (client session scope : string) (ev : AuthenticationEvidence)
    (nonce accessJTI : string) (exp now : Z) : ORun TokenResponse :=
  let access := SignJWT (access_claims issuer (u_ID user) client accessJTI scope exp now) in
  idToken <~ (if hasScope scope "openid" then
      sid <~ in_tx (EnsureClientSession newsid client session (u_ID user)) ;;
      d <~ run_get ;;
      c <~ oresult (identityClaims user client scope now d) ;;
      let c := addAuthenticationClaims (set_claims (id_claims issuer client sid idjti exp now) c) ev in
      run_ret (SignJWT (if nonce =?s EmptyString then c else set_claims [("nonce"%string, JStr nonce)] c))
    else run_ret EmptyString) ;;
  run_ret (MkTokenResponse access (Z.quot (exp - now) second) idToken EmptyString scope).

(** ** Codes *)

Definition GetOAuthClientByID (client : string) (d : DB) : option OAuthClient := oauth_clients d !! client.

(** Deadline of a requested maximum age, counted from the password. *)
Definition max_age_end (p : AuthenticationRequest) (ev : AuthenticationEvidence) : option Z :=
  match rq_MaxAge p, ev_PrimaryAuthenticatedAt ev with Some age, Some t => Some (t + age * second) | _, _ => None end.

(** [raw] and [id] are the random code and row identifier. *)
Definition CreateAuthorizationCodeForInteraction (raw id client session redirect scope challenge method nonce : string)
    (requirements : AuthenticationRequest) (interaction : string) (now : Z) : ORun string :=
  d <~ run_get ;;
  run_guard (match GetOAuthClientByID client d with Some c => oc_Enabled c | None => false end) (OAuthText "invalid or disabled client") ~;;
  run_guard ((challenge <>?s EmptyString) && (method =?s "S256")) (OAuthText "PKCE with S256 is required") ~;;
  match GetSessionByID session now d with
  | None => run_fail (OAuthText "active session required")
  | Some s =>
    pb <~ result (ClientAuthenticationPolicyBinding d client) ;;
    let req := WithAppPolicy requirements pb.1 in
    let req := if interaction =?s EmptyString then req
      else MkAuthenticationRequest false (rq_Silent req) (rq_MaxAge req) (rq_ACR req) (rq_AppPolicy req) in
    run_guard (Satisfied req (s_Evidence s) now) (FromStore ErrAppAuthentication) ~;;
    in_tx (CreateAuthorizationCode (MkAuthorizationCode EmptyString 0 0 interaction (max_age_end req (s_Evidence s)) (s_Evidence s) (s_ID s) id
      (HashSHA256 raw) client (s_UserID s) redirect scope challenge method nonce (now + AuthorizationCodeTTL) None 0) now) ~;;
    run_ret raw
  end.

Definition authenticateClient (c : OAuthClient) (secret : string) : option OAuthError :=
  if oc_ClientType c =?s "confidential" then
    if oc_ClientSecretHash c =?s EmptyString then Some (OAuthText "confidential client has no secret configured; re-register it")
    else if HashSHA256 secret =?s oc_ClientSecretHash c then None else Some (OAuthText "invalid client secret")
  else if oc_ClientType c =?s "public" then None else Some (OAuthText "unknown client type").

Definition authentic (c : OAuthClient) (secret : string) : ORun unit :=
  match authenticateClient c secret with None => run_ret tt | Some e => run_fail e end.

Definition AuthenticateConfidentialClient (client secret : string) (d : DB) : OAuthError + OAuthClient :=
  match GetOAuthClientByID client d with
  | Some c => if oc_Enabled c && (oc_ClientType c =?s "confidential") && is_null (authenticateClient c secret) then inr c else inl InvalidClient
  | None => inl InvalidClient
  end.

Definition newRefreshFamily (jti : string) (code : AuthorizationCode) (policy : AppAuthenticationPolicy) (now : Z) (d : DB) : OAuthError + RefreshFamily :=
  match GetSessionByID (c_SessionID code) now d with
  | None => inl (OAuthText "active session required")
  | Some s =>
    let end_ := now + p_RefreshLifetime policy * second in
    let end_ := earliest (earliest end_ (Some (s_ExpiresAt s))) (c_AuthenticationExpiresAt code) in
    let end_ := earliest end_ (AccessEndsAt now d (c_UserID code) (c_ClientID code)) in
    inr (MkRefreshFamily jti (c_UserID code) (c_ClientID code) (c_SessionID code) (c_Scope code) (c_Evidence code)
      (MkAppPolicyBinding (c_AuthenticationAppID code) (c_AuthenticationPolicyRevision code) (c_RoleRevision code))
      (p_RefreshIdle policy * second) end_)
  end.

(** The random identifiers of one exchange. *)
Record Draws := MkDraws { dr_access : string; dr_family : string; dr_refresh : string; dr_sid : string; dr_id : string }.

Definition ExchangeAuthorizationCode (issuer : string) (dr : Draws) (code client secret redirect verifier : string) (now : Z) : ORun TokenResponse :=
  d <~ run_get ;;
  match GetValidAuthorizationCode (HashSHA256 code) now d with
  | None => run_fail (OAuthText "invalid or expired authorization code")
  | Some ac =>
    run_guard (c_ClientID ac =?s client) (OAuthText "client mismatch") ~;;
    match GetOAuthClientByID client d with
    | None => run_fail (OAuthText "invalid or disabled client")
    | Some cl =>
      run_guard (oc_Enabled cl) (OAuthText "invalid or disabled client") ~;;
      authentic cl secret ~;;
      run_guard (c_RedirectURI ac =?s redirect) (OAuthText "redirect uri mismatch") ~;;
      run_guard (ValidatePKCE verifier (c_CodeChallenge ac) (c_CodeChallengeMethod ac)) (OAuthText "invalid PKCE code verifier") ~;;
      spent <~ (fun d => let '(b, d') := ConsumeAuthorizationCode (c_ID ac) now d in (inr b, d')) ;;
      run_guard spent (OAuthText "authorization code has already been redeemed") ~;;
      d <~ run_get ;;
      match get_user now d (c_UserID ac) with
      | None => run_fail (OAuthText "user not found or inactive")
      | Some user =>
        run_guard (u_Status user =?s "active") (OAuthText "user not found or inactive") ~;;
        let exp := earliest (now + AccessTokenTTL) (AccessEndsAt now d (u_ID user) client) in
        pb <~ result (ClientAuthenticationPolicyBinding d client) ;;
        family <~ (if RefreshEnabled pb.1 && (oc_ClientType cl =?s "confidential")
          then f <~ oresult (newRefreshFamily (dr_family dr) ac pb.1 now d) ;; run_ret (Some f) else run_ret None) ;;
        in_tx (recordIssuedTokenTx (MkIssuedToken (c_ID ac) no_binding no_device (rf_JTI <$> family) (Some (c_SessionID ac))
          (dr_access dr) (u_ID user) client exp None 0) now) ~;;
        resp <~ tokenResponse issuer (dr_sid dr) (dr_id dr) user client (c_SessionID ac) (c_Scope ac) (c_Evidence ac) (c_Nonce ac) (dr_access dr) exp now ;;
        match family with
        | None => run_ret resp
        | Some f =>
          in_tx (CreateRefreshFamily f (c_ID ac) (HashSHA256 (dr_refresh dr)) now) ~;;
          run_ret (MkTokenResponse (tr_AccessToken resp) (tr_ExpiresIn resp) (tr_IDToken resp) (dr_refresh dr) (tr_Scope resp))
        end
      end
    end
  end.

(** ** Refresh

    The user the token names, which the code returns for the audit, is not kept. *)

Definition granted_refresh_scope (original requested : string) : option string :=
  match Fields requested with
  | [] => Some original
  | l => if forallb (hasScope original) l then Some (Join l) else None
  end.

Definition ExchangeRefreshToken (cache : option SessionLimits) (issuer : string) (dr : Draws) (raw client secret scope : string) (now : Z) :
    ORun TokenResponse :=
  d <~ run_get ;;
  match GetOAuthClientByID client d with
  | None => run_fail (OAuthText "refresh requires an enabled confidential client")
  | Some cl =>
    run_guard (oc_Enabled cl && (oc_ClientType cl =?s "confidential")) (OAuthText "refresh requires an enabled confidential client") ~;;
    authentic cl secret ~;;
    peek <~ result (LookupRefreshFamily d (HashSHA256 raw)) ;;
    match granted_refresh_scope (rf_Scope peek) scope with
    | None => run_fail (OAuthText "refresh scope exceeds the original grant")
    | Some granted =>
      let exp := earliest (now + AccessTokenTTL) (AccessEndsAt now d (rf_UserID peek) client) in
      r <~ in_tx (RotateRefreshToken cache (HashSHA256 raw) client (HashSHA256 (dr_refresh dr))
        (MkIssuedToken EmptyString no_binding no_device None None (dr_access dr) EmptyString EmptyString exp None 0) now) ;;
      match r with
      | Reused _ => run_fail RefreshReuse
      | Rotated f =>
        d <~ run_get ;;
        match get_user now d (rf_UserID f) with
        | None => run_fail (OAuthText "user not found or inactive")
        | Some user =>
          run_guard (u_Status user =?s "active") (OAuthText "user not found or inactive") ~;;
          resp <~ tokenResponse issuer (dr_sid dr) (dr_id dr) user client (rf_SessionID f) granted (rf_Evidence f) EmptyString (dr_access dr)
            (earliest exp (Some (rf_ExpiresAt f))) now ;;
          run_ret (MkTokenResponse (tr_AccessToken resp) (tr_ExpiresIn resp) (tr_IDToken resp) (dr_refresh dr) (tr_Scope resp))
        end
      end
    end
  end.

(** ** Using a token *)

Definition verifyAccessToken (issuer token : string) (now : Z) (d : DB) : option Claims :=
  match VerifyJWT token issuer "access_token" now with
  | None => None
  | Some c => let jti := claim_str "jti" c in
    if (jti =?s EmptyString) || IsTokenRevoked jti now d then None else Some c
  end.

Definition GetUserinfo (issuer token : string) (now : Z) (d : DB) : OAuthError + Claims :=
  match verifyAccessToken issuer token now d with
  | None => inl (OAuthText "invalid token")
  | Some c =>
    let sub := claim_str "sub" c in
    if sub =?s EmptyString then inl (OAuthText "missing sub claim in token") else
    match get_user now d sub with
    | None => inl (OAuthText "user not found or inactive")
    | Some user =>
      if u_Status user =?s "active" then identityClaims user (claim_str "aud" c) (claim_str "scope" c) now d
      else inl (OAuthText "user not found or inactive")
    end
  end.

Definition OAuthRevokeToken (issuer token client secret : string) (now : Z) : ORun unit :=
  d <~ run_get ;;
  match GetOAuthClientByID client d with
  | None => run_fail (OAuthText "invalid or disabled client")
  | Some cl =>
    run_guard (oc_Enabled cl) (OAuthText "invalid or disabled client") ~;;
    authentic cl secret ~;;
    match VerifyJWT token issuer "access_token" now with
    | None => in_tx (RevokeRefreshFamily (HashSHA256 token) client now)
    | Some c =>
      if claim_is "aud" client c && (claim_str "jti" c <>?s EmptyString)
      then in_tx (tx_set (RevokeToken (claim_str "jti" c) now)) else run_ret tt
    end
  end.

Record IDTokenHint := MkIDTokenHint { hint_ClientID : string; hint_Subject : string; hint_SID : string }.

Definition ParseIDTokenHint (issuer token : string) (now : Z) : option IDTokenHint :=
  match VerifyExpiredJWT token issuer "id_token" now with
  | None => None
  | Some c =>
    let aud := claim_str "aud" c in let sub := claim_str "sub" c in
    if (aud =?s EmptyString) || (sub =?s EmptyString) then None else Some (MkIDTokenHint aud sub (claim_str "sid" c))
  end.

Definition logout_claims (issuer client subject sid jti : string) (now : Z) : Claims :=
  [("iss", JStr issuer); ("sub", JStr subject); ("aud", JStr client); ("iat", JNum (unix now)); ("exp", JNum (unix (now + LogoutTokenTTL)));
   ("jti", JStr jti); ("sid", JStr sid); ("events", JObj [("http://schemas.openid.net/event/backchannel-logout", JObj [])])]%string.

Definition SignLogoutToken (issuer client subject sid jti : string) (now : Z) : string :=
  jwt_sign "logout+jwt" (logout_claims issuer client subject sid jti now).

(** ** Device sign-on *)

Definition deviceAssertionMaxWindow : Z := 300 * second.
Definition deviceAssertionSkew : Z := 60 * second.
Definition maxAssertionLen : nat := 4096.
Definition maxOriginLen : nat := 256.

(** The last colon of a host, when an optional port follows it: [URL.Hostname] and [URL.Port]. *)
Fixpoint split_port (l : list Z) : option (list Z * list Z) :=
  match l with
  | [] => None
  | c :: l' => match split_port l' with
    | Some (h, p) => Some (c :: h, p)
    | None => if c =? 58 then Some ([], l') else None
    end
  end.

Definition host_port (host : list Z) : list Z * list Z :=
  let '(h, p) := match split_port host with
    | Some (h, p) => if forallb (fun c => (48 <=? c) && (c <=? 57)) p then (h, p) else (host, [])
    | None => (host, [])
    end in
  match h, rev h with
  | 91 :: h', 93 :: _ => (removelast h', p)
  | _, _ => (h, p)
  end.

Definition itoa (n : Z) : string := pretty n.

Definition originOf (u : URL) : option string :=
  let '(h, p) := host_port (bytes_of (url_Host u)) in
  let host := lower (string_of h) in
  if (url_Scheme u <>?s "https") || (url_Opaque u <>?s EmptyString) || url_User u || (host =?s EmptyString) then None else
  let host := if existsb (Z.eqb 58) (bytes_of host) then String.append "[" (String.append host "]") else host in
  match p with
  | [] => match rev (bytes_of (url_Host u)) with 58 :: _ => None | _ => Some (String.append "https://" host) end
  | _ =>
    match digits p 0 with
    | None => None
    | Some port =>
      if (port <? 1) || (65535 <? port) then None
      else if port =? 443 then Some (String.append "https://" host)
      else Some (String.append "https://" (String.append host (String.append ":" (itoa port))))
    end
  end.

Definition canonicalOrigin (raw : string) : option string :=
  if Nat.ltb maxOriginLen (String.length raw) || existsb (fun c => (c =? 63) || (c =? 35)) (bytes_of raw) then None else
  match url_parse raw with
  | Some u => if one_of (url_Path u) [EmptyString; "/"%string] then originOf u else None
  | None => None
  end.

Definition registeredOrigin (registered : option (list string)) (origin : string) : bool :=
  match registered with
  | None => false
  | Some l => existsb (fun c => match url_parse (TrimSpace c) with
      | Some u => match originOf u with Some o => o =?s origin | None => false end
      | None => false
      end) l
  end.

Record deviceAssertion := MkDeviceAssertion { da_DeviceID : string; da_Subject : string; da_ClientID : string; da_Origin : string;
  da_JTI : string; da_IssuedAt : Z; da_ExpiresAt : Z }.

(** The verifier's checks in its order: the header and claims before the key is
    looked up, then the signature, then audience and times with the leeway.
    Every refusal is one error to the caller; the reasons are audit only. *)
Definition parseDeviceAssertion (compact audience : string) (now : Z) (key : string -> string -> option NativeDevice) :
    option (deviceAssertion * NativeDevice) :=
  if Nat.ltb maxAssertionLen (String.length compact) then None else
  match jws_parse compact with
  | None => None
  | Some a =>
    if negb ((as_alg a =?s "ES256") && (as_typ a =?s "JWT") && (as_kid a <>?s EmptyString) && (as_header_len a =? 3) &&
       (as_iss a =?s String.append "device:" (as_kid a)) && (as_sub a <>?s EmptyString) && (as_client_id a <>?s EmptyString) &&
       (as_jti a <>?s EmptyString) && Nat.eqb (length (as_aud a)) 1) then None else
    match as_iat a, canonicalOrigin (as_origin a), key (as_kid a) (as_sub a) with
    | Some iat, Some origin, Some dev =>
      if negb (iat =? 0) && es256_ok compact (nd_PublicKey dev) && one_of audience (as_aud a) &&
         match as_exp a with Some e => now <? of_unix e + deviceAssertionSkew | None => false end &&
         (of_unix iat <=? now + deviceAssertionSkew) &&
         match as_nbf a with Some n => of_unix n <=? now + deviceAssertionSkew | None => true end
      then Some (MkDeviceAssertion (as_kid a) (as_sub a) (as_client_id a) origin (as_jti a) iat (default 0 (as_exp a)), dev) else None
    | _, _, _ => None
    end
  end.

(** The enrolled device the assertion names. *)
Definition assertion_key (d : DB) (kid sub : string) : option NativeDevice :=
  match native_devices d !! kid with
  | Some n => if (nd_UserID n =?s sub) && (nd_PublicKey n <>?s EmptyString) && p256_key (nd_PublicKey n) then Some n else None
  | None => None
  end.

Definition device_evidence (dev : NativeDevice) (iat now : Z) : AuthenticationEvidence :=
  let at_ := if now <? of_unix iat then now else of_unix iat in
  if one_of (nd_AttestedLevel dev) ["tee"; "strongbox"]%string then MkAuthenticationEvidence (Some at_) (Some at_) "push"
  else MkAuthenticationEvidence (Some at_) None EmptyString.

Record DeviceDraws := MkDeviceDraws { dd_session : string; dd_hash : string; dd_access : string; dd_sid : string; dd_id : string }.

(** The deferred clean-up: a grant that fails after its session was made takes
    the session with it. *)
Definition or_delete_session {A} (id : string) (m : ORun A) : ORun A := fun d =>
  match m d with
  | (inr a, d') => (inr a, d')
  | (inl e, d') => (inl e, DeleteSession id d')
  end.

Definition touch_device (id : string) (now : Z) : DB -> DB :=
  on_native_devices (alter (fun n => set_nd_LastSeenAt (Some now) n) id).

Definition device_claims (a : deviceAssertion) (dev : NativeDevice) (auth_at : Z) : Claims :=
  let attested := one_of (nd_AttestedLevel dev) ["tee"; "strongbox"] in
  [("auth_time", JNum (unix auth_at))] ++
    (if attested then [("amr", strings ["hwk"; "user"; "mfa"]); ("acr", JStr MFAACR); ("attested", JStr (nd_AttestedLevel dev))]
     else [("amr", strings ["pop"]); ("acr", JStr DeviceACR)]) ++
    [("signon_method", JStr "device"); ("device_id", JStr (nd_ID dev)); ("origin", JStr (da_Origin a))]%string%list.

(** From a created session to the signed response. *)
Definition device_tokens (issuer : string) (dr : DeviceDraws) (a : deviceAssertion) (dev : NativeDevice) (user : User) (client scope : string)
    (binding : AppPolicyBinding) (exp now : Z) : ORun TokenResponse :=
  (fun d => match in_tx (recordIssuedTokenTx (MkIssuedToken EmptyString binding (MkDeviceBinding (nd_ID dev) (nd_UserID dev) (nd_PublicKey dev) (nd_AttestedLevel dev))
      None (Some (dd_session dr)) (dd_access dr) (u_ID user) client exp None 0) now) d with
    | (inl (FromStore ErrAppAccessDenied), d') => (inl (if device_current d' (MkDeviceBinding (nd_ID dev) (nd_UserID dev) (nd_PublicKey dev) (nd_AttestedLevel dev))
        then DeviceSignOnNotPermitted else DeviceSignOnDisabled), d')
    | r => r
    end) ~;;
  let access := SignJWT (access_claims issuer (u_ID user) client (dd_access dr) scope exp now) in
  sid <~ in_tx (EnsureClientSession (dd_sid dr) client (dd_session dr) (u_ID user)) ;;
  d <~ run_get ;;
  c <~ oresult (identityClaims user client scope now d) ;;
  let auth_at := if now <? of_unix (da_IssuedAt a) then now else of_unix (da_IssuedAt a) in
  let c := set_claims (device_claims a dev auth_at) (set_claims (id_claims issuer client sid (dd_id dr) exp now) c) in
  (fun d => (inr (MkTokenResponse access (Z.quot (exp - now) second) (SignJWT c) EmptyString scope), touch_device (nd_ID dev) now d)).

Definition ExchangeDeviceAssertion (issuer : string) (dr : DeviceDraws) (compact client ip agent : string) (now : Z) : ORun TokenResponse :=
  d <~ run_get ;;
  match parseDeviceAssertion compact (String.append issuer "/oauth/token") now (assertion_key d) with
  | None => run_fail (OAuthText "assertion refused")
  | Some (a, dev) =>
    let iat := of_unix (da_IssuedAt a) in let until := of_unix (da_ExpiresAt a) in
    run_guard (da_ClientID a =?s client) (OAuthText "client_id does not match the assertion") ~;;
    run_guard ((iat <? until) && (until - iat <=? deviceAssertionMaxWindow)) (OAuthText "assertion validity window invalid") ~;;
    run_guard (nd_CanSignOn dev && nd_IsMFAApprover dev) DeviceSignOnDisabled ~;;
    match GetOAuthClientByID client d with
    | None => run_fail (OAuthText "unknown client")
    | Some cl =>
      run_guard (oc_Enabled cl) (OAuthText "unknown client") ~;;
      run_guard (registeredOrigin (oc_RedirectURIs cl) (da_Origin a)) (OAuthText "assertion origin is not a registered origin of the client") ~;;
      fresh <~ (fun d => let '(b, d') := ConsumeDeviceSignOnJTI (da_JTI a) (until + deviceAssertionSkew) now d in (inr b, d')) ;;
      run_guard fresh (OAuthText "assertion replayed") ~;;
      d <~ run_get ;;
      match get_user now d (da_Subject a) with
      | None => run_fail (OAuthText "user not found or inactive")
      | Some user =>
        run_guard (u_Status user =?s "active") (OAuthText "user not found or inactive") ~;;
        scope <~ oresult (GrantedScope d client "openid profile email") ;;
        run_guard (hasScope scope "openid") (OAuthText "client may not be granted the openid scope") ~;;
        let evidence := device_evidence dev (da_IssuedAt a) now in
        let attested := one_of (nd_AttestedLevel dev) ["tee"; "strongbox"]%string in
        pb <~ result (ClientAuthenticationPolicyBinding d client) ;;
        let policy := pb.1 in
        run_guard (policy_Valid policy && (attested || (p_Mode policy =?s "reuse")) && (EvidenceReason policy evidence now =?s EmptyString)) DeviceSignOnNotPermitted ~;;
        let exp := earliest (earliest (now + AccessTokenTTL) (AccessEndsAt now d (u_ID user) client)) (Deadline policy evidence) in
        run_guard (now <? exp) DeviceSignOnNotPermitted ~;;
        in_tx (CreateSession (MkSession evidence (dd_session dr) (u_ID user) (dd_hash dr) ip agent (now + AccessTokenTTL) now now false EmptyString) now) ~;;
        or_delete_session (dd_session dr) (device_tokens issuer dr a dev user client scope pb.2 exp now)
      end
    end
  end.

End oauth.

(** ** Facts *)

(** Split a successful run into its successful steps. *)
Ltac run_inv :=
  repeat match goal with
  | H : run_bind _ _ _ = (inr _, _) |- _ => apply run_bind_inr in H as (? & ? & ? & H)
  | H : run_guard _ _ _ = (inr _, _) |- _ => apply run_guard_inr in H as [? ->]
  | H : run_get _ = (inr _, _) |- _ => injection H as <- <-
  | H : run_fail _ _ = (inr _, _) |- _ => discriminate H
  | H : run_ret _ _ = (inr _, _) |- _ => injection H as <- <-
  end.

Section oauth_facts.
Context `{Wire}.

Lemma in_tx_inr {A} (m : STx A) d a d' : in_tx m d = (inr a, d') -> m d = inr (a, d').
Proof. unfold in_tx, commit. destruct (m d) as [e|[b d1]]; congruence. Qed.

Lemma in_tx_inl {A} (m : STx A) d e d' : in_tx m d = (inl e, d') -> d' = d.
Proof. unfold in_tx, commit. destruct (m d) as [e0|[b d1]]; congruence. Qed.

Lemma result_inr {A} (r : StoreError + A) d a d' : result r d = (inr a, d') -> r = inr a /\ d' = d.
Proof. unfold result. destruct r; naive_solver congruence. Qed.

Lemma oresult_inr {A} (r : OAuthError + A) d a d' : oresult r d = (inr a, d') -> r = inr a /\ d' = d.
Proof. unfold oresult. naive_solver congruence. Qed.

Lemma authentic_inr c secret d u d' : authentic c secret d = (inr u, d') -> authenticateClient c secret = None /\ d' = d.
Proof. unfold authentic. destruct (authenticateClient c secret); [done|]. by intros [= _ <-]. Qed.

Lemma earliest_le t b : earliest t b <= t /\ forall x, b = Some x -> earliest t b <= x.
Proof. unfold earliest. destruct b as [x|]; [|split; [lia|done]]. destruct (x <? t) eqn:E; split; intros; simplify_eq; lia. Qed.

(** Everything a caller must prove to spend a code. *)
Definition exchange_proofs (d : DB) (code client secret redirect verifier : string) (now : Z) : Prop :=
  exists k ac cl, authorization_codes d !! k = Some ac /\ c_CodeHash ac = HashSHA256 code /\ code_live now ac = true /\
    c_ClientID ac = client /\ oauth_clients d !! client = Some cl /\ oc_Enabled cl = true /\ authenticateClient cl secret = None /\
    c_RedirectURI ac = redirect /\ s256 verifier = c_CodeChallenge ac /\ c_CodeChallengeMethod ac = "S256"%string.

Lemma pkce_inv v c m : ValidatePKCE v c m = true -> s256 v = c /\ m = "S256"%string.
Proof.
  unfold ValidatePKCE. destruct (_ || _ || _) eqn:E; [done|]. intros Hs. apply streqb_true in Hs. split; [done|].
  apply orb_false_iff in E as [E _]. apply orb_false_iff in E as [E _]. by apply negb_false_iff, streqb_true in E.
Qed.

(** The tables a token response leaves alone: all but the client sessions. *)
Lemma EnsureClientSession_inv sid client session user d r d' : EnsureClientSession sid client session user d = inr (r, d') ->
  exists m, d' = on_oidc_client_sessions (fun _ => m) d.
Proof.
  unfold EnsureClientSession. intros Hr. apply tx_bind_inr in Hr as (a & d0 & He & Hr). injection He as <- <-. cbv zeta in Hr.
  apply tx_bind_inr in Hr as (a1 & d1 & H1 & Hr). apply tx_bind_inr in Hr as (a2 & d2 & He & Hr). injection He as <- <-.
  assert (exists m, d1 = on_oidc_client_sessions (fun _ => m) d) as [m ->].
  { match type of H1 with (if ?b then _ else _) _ = _ => destruct b end; injection H1 as _ <-; [by eexists|by exists (oidc_client_sessions d)]. }
  destruct (find_where _ _) as [[? cs]|]; [|done]. injection Hr as _ <-. by exists m.
Qed.

Lemma tokenResponse_inr issuer newsid idjti user client session scope ev nonce jti exp now d resp d' :
  tokenResponse issuer newsid idjti user client session scope ev nonce jti exp now d = (inr resp, d') ->
  tr_AccessToken resp = SignJWT (access_claims issuer (u_ID user) client jti scope exp now) /\ tr_Scope resp = scope /\
  (exists m, d' = on_oidc_client_sessions (fun _ => m) d) /\
  (hasScope scope "openid" = true -> exists sid c m, identityClaims user client scope now (on_oidc_client_sessions (fun _ => m) d) = inr c /\
     let c := addAuthenticationClaims (set_claims (id_claims issuer client sid idjti exp now) c) ev in
     tr_IDToken resp = SignJWT (if nonce =?s EmptyString then c else set_claims [("nonce"%string, JStr nonce)] c)).
Proof.
  unfold tokenResponse. intros Hr. apply run_bind_inr in Hr as (idt & d1 & Hi & Hr). injection Hr as <- <-.
  split; [done|]. split; [done|]. destruct (hasScope scope "openid").
  - apply run_bind_inr in Hi as (sid & d2 & H2 & Hi). apply in_tx_inr, EnsureClientSession_inv in H2 as [m ->].
    apply run_bind_inr in Hi as (a & d3 & He & Hi). injection He as <- <-.
    apply run_bind_inr in Hi as (c & d4 & He & Hi). apply oresult_inr in He as [He ->]. injection Hi as <- <-.
    split; [by exists m|]. intros _. by exists sid, c, m.
  - injection Hi as <- <-. split; [by exists (oidc_client_sessions d)|done].
Qed.

Lemma run_sat_in_tx {A B} (Q : OAuthError + B -> DB -> Prop) (m : STx A) (k : A -> ORun B) d :
  (forall e, Q (inl (FromStore e)) d) -> (forall a d', m d = inr (a, d') -> run_sat Q (k a) d') -> run_sat Q (run_bind (in_tx m) k) d.
Proof.
  intros H1 H2. apply run_sat_bind.
  - intros e d' He. unfold in_tx, commit in He. destruct (m d) as [e0|[a d0]]; [|done]. by injection He as <- <-.
  - intros a d' Ha. by apply H2, in_tx_inr.
Qed.

Lemma run_sat_result {A B} (Q : OAuthError + B -> DB -> Prop) (r : StoreError + A) (k : A -> ORun B) d :
  (forall e, Q (inl (FromStore e)) d) -> (forall a, r = inr a -> run_sat Q (k a) d) -> run_sat Q (run_bind (result r) k) d.
Proof. intros H1 H2. apply run_sat_bind; unfold result; destruct r; naive_solver. Qed.

Lemma run_sat_authentic {B} (Q : OAuthError + B -> DB -> Prop) c secret (k : unit -> ORun B) d :
  (forall e, Q (inl e) d) -> (authenticateClient c secret = None -> run_sat Q (k tt) d) -> run_sat Q (run_bind (authentic c secret) k) d.
Proof. intros H1 H2. apply run_sat_bind; unfold authentic; destruct (authenticateClient c secret); naive_solver. Qed.

Lemma live_code_inv hash now d ac : GetValidAuthorizationCode hash now d = Some ac ->
  exists k, authorization_codes d !! k = Some ac /\ c_CodeHash ac = hash /\ code_live now ac = true.
Proof.
  unfold GetValidAuthorizationCode. destruct (find_where _ _) as [[k c]|] eqn:Ef; [|done]. intros [= <-].
  apply find_where_Some in Ef as [Hk Hb]. apply andb_true_iff in Hb as [Hh Hl]. exists k. by apply streqb_true in Hh.
Qed.

(** Spending a code leaves who may use the client as it was. *)
Lemma consume_access id now d user client :
  ClientAccessAllowed now (ConsumeAuthorizationCode id now d).2 user client = ClientAccessAllowed now d user client.
Proof. unfold ConsumeAuthorizationCode. destruct (authorization_codes d !! id) as [c|]; [|done]. by destruct (code_live now c). Qed.

Lemma allowed_access now d t : issuance_allowed now d t = true -> ClientAccessAllowed now d (it_UserID t) (it_ClientID t) = true.
Proof. unfold issuance_allowed. intros Ha. by repeat (apply andb_true_iff in Ha as [Ha ?]). Qed.

Definition exchange_outcome (issuer : string) (dr : Draws) (code client secret redirect verifier : string) (now : Z) (d : DB)
    (r : OAuthError + TokenResponse) (d' : DB) : Prop :=
  match r with
  | inr resp => exchange_proofs d code client secret redirect verifier now /\
      exists t user, issued_tokens d' !! dr_access dr = Some t /\ it_ClientID t = client /\ it_UserID t = u_ID user /\
        tr_AccessToken resp = SignJWT (access_claims issuer (u_ID user) client (dr_access dr) (tr_Scope resp) (it_ExpiresAt t) now) /\
        it_RevokedAt t = None /\ it_ExpiresAt t <= now + 15 * minute /\ ClientAccessAllowed now d (it_UserID t) client = true
  | inl _ => d' = d \/ exchange_proofs d code client secret redirect verifier now
  end.

(** What a family written after the access token leaves of it. *)
Lemma family_keeps f code hash now d u d' jti t : CreateRefreshFamily f code hash now d = inr (u, d') ->
  issued_tokens d !! jti = Some t -> issued_tokens d' !! jti = Some t.
Proof.
  intros Hc Hj. apply create_family_inv in Hc as (row & _ & Hn & _ & _ & ->). cbn.
  rewrite lookup_insert_ne; [done|congruence].
Qed.

(** C30. Exchanging an authorization code returns tokens only for a live stored
    code presented by its own, enabled and authenticated client with the
    registered redirect and the PKCE verifier of its challenge; the access
    token is recorded for at most fifteen minutes and for an account with
    access. A refused exchange either changes nothing or had presented all
    of that. *)
Theorem exchange_needs_every_proof issuer dr code client secret redirect verifier now d :
  let '(r, d') := ExchangeAuthorizationCode issuer dr code client secret redirect verifier now d in
  exchange_outcome issuer dr code client secret redirect verifier now d r d'.
Proof.
  enough (run_sat (exchange_outcome issuer dr code client secret redirect verifier now d)
    (ExchangeAuthorizationCode issuer dr code client secret redirect verifier now) d) as Hs.
  { unfold run_sat in Hs. by destruct (ExchangeAuthorizationCode _ _ _ _ _ _ _ _ _). }
  unfold ExchangeAuthorizationCode. apply run_sat_get.
  destruct (GetValidAuthorizationCode _ now d) as [ac|] eqn:Eac; [|by left].
  apply live_code_inv in Eac as (k & Hk & Hhash & Hlive).
  apply run_sat_guard; [by left|]. intros Hcl. apply streqb_true in Hcl.
  destruct (GetOAuthClientByID client d) as [cl|] eqn:Ecl; [|by left].
  apply run_sat_guard; [by left|]. intros Hen. apply run_sat_authentic; [by left|]. intros Hsec.
  apply run_sat_guard; [by left|]. intros Hred. apply streqb_true in Hred.
  apply run_sat_guard; [by left|]. intros [Hv Hm]%pkce_inv.
  assert (exchange_proofs d code client secret redirect verifier now) as Hp by by exists k, ac, cl.
  apply run_sat_bind; [by right|]. intros spent d1 Hspent.
  apply run_sat_guard; [by right|]. intros ->. apply run_sat_get.
  pose proof (consume_access (c_ID ac) now d) as Hacc.
  destruct (ConsumeAuthorizationCode (c_ID ac) now d) as [b dc]. cbn [snd] in Hacc. injection Hspent as -> ->.
  destruct (get_user now d1 (c_UserID ac)) as [user|]; [|by right].
  apply run_sat_guard; [by right|]. intros _. cbv zeta. set (exp := earliest _ _).
  apply run_sat_result; [by right|]. intros [policy bind] _.
  apply run_sat_bind; [by right|]. intros family d2 Hf.
  assert (d2 = d1) as -> by
    (destruct (_ && _); [apply run_bind_inr in Hf as (f & d0 & He & Hf); apply oresult_inr in He as [_ ->]|]; by injection Hf as _ <-).
  apply run_sat_in_tx; [by right|]. intros [] d3 Hrec. apply record_inv in Hrec as (Ha & _ & ->).
  apply allowed_access in Ha. cbn [it_UserID it_ClientID] in Ha. rewrite Hacc in Ha.
  apply run_sat_bind; [by right|]. intros resp d4 Hresp. apply tokenResponse_inr in Hresp as (Hat & Hsc & [m ->] & _).
  set (t := token_row _ _). set (d2 := on_oidc_client_sessions _ _).
  assert (issued_tokens d2 !! dr_access dr = Some t) as Ht by apply lookup_insert_eq.
  assert (it_ExpiresAt t <= now + 15 * minute) as He by apply (proj1 (earliest_le _ _)).
  rewrite <- Hsc in Hat. destruct family as [f|]; [|split; [done|]; by exists t, user].
  apply run_sat_in_tx; [by right|]. intros [] d5 Hfam. split; [done|].
  exists t, user. split; [by eapply family_keeps|done].
Qed.

(** *** Refresh *)

Lemma granted_inv original requested granted : granted_refresh_scope original requested = Some granted ->
  forall s, In s (Fields granted) -> hasScope original s = true.
Proof.
  unfold granted_refresh_scope. destruct (Fields requested) as [|x l] eqn:Ef.
  - intros [= ->] s Hs. by apply one_of_true.
  - destruct (forallb _ _) eqn:Ha; [|done]. intros [= <-] s Hs. rewrite forallb_forall in Ha. apply Ha.
    rewrite Fields_Join in Hs; [done|]. rewrite <- Ef. by apply Fields_solid.
Qed.

Lemma authentic_not_reuse c secret d d' : authentic c secret d <> (inl RefreshReuse, d').
Proof.
  unfold authentic, authenticateClient. destruct (oc_ClientType c =?s _); [|by destruct (oc_ClientType c =?s _)].
  destruct (_ =?s EmptyString); [done|]. by destruct (_ =?s _).
Qed.

Lemma tokenResponse_not_reuse issuer newsid idjti user client session scope ev nonce jti exp now d d' :
  tokenResponse issuer newsid idjti user client session scope ev nonce jti exp now d <> (inl RefreshReuse, d').
Proof.
  unfold tokenResponse. intros Hr. apply run_bind_inl in Hr as [Hr|(? & ? & _ & Hr)]; [|done].
  destruct (hasScope scope "openid"); [|done]. apply run_bind_inl in Hr as [Hr|(? & ? & _ & Hr)].
  - unfold in_tx in Hr. by destruct (commit _ _) as [[]].
  - apply run_bind_inl in Hr as [Hr|(? & ? & _ & Hr)]; [done|]. apply run_bind_inl in Hr as [Hr|(? & ? & _ & Hr)]; [|done].
    unfold oresult, identityClaims in Hr. by destruct (_ <? _).
Qed.

(** What a refresh returns, and the store it leaves. *)
Definition refresh_outcome (issuer : string) (dr : Draws) (raw client : string) (now : Z) (d : DB) (r : OAuthError + TokenResponse) (d' : DB) : Prop :=
  match r with
  | inr resp => exists f t user exp, LookupRefreshFamily d (HashSHA256 raw) = inr f /\ rf_ClientID f = client /\
      issued_tokens d !! rf_JTI f = Some t /\ it_RevokedAt t = None /\ users d !! rf_UserID f = Some user /\
      (forall s, In s (Fields (tr_Scope resp)) -> hasScope (rf_Scope f) s = true) /\
      tr_AccessToken resp = SignJWT (access_claims issuer (u_ID user) client (dr_access dr) (tr_Scope resp) exp now) /\
      exp <= rf_ExpiresAt f /\ exp <= now + 15 * minute /\
      LookupRefreshFamily d' (HashSHA256 raw) = inr f /\
      exists used, refresh_tokens d' !! HashSHA256 raw = Some used /\ rt_UsedAt used = Some now
  | inl RefreshReuse => exists f, LookupRefreshFamily d (HashSHA256 raw) = inr f /\
      forall k t, issued_tokens d' !! k = Some t -> in_family (rf_JTI f) t = true -> it_RevokedAt t <> None
  | inl _ => True
  end.

Lemma revoked_family jti now d k t :
  issued_tokens (on_issued_tokens (update_where (fun t => in_family jti t && is_null (it_RevokedAt t)) (set_it_RevokedAt (Some now))) d) !! k = Some t ->
  in_family jti t = true -> it_RevokedAt t <> None.
Proof.
  cbn. intros Hk Hf. apply lookup_update_where_Some in Hk as (t0 & _ & ->).
  destruct (in_family jti t0 && is_null (it_RevokedAt t0)) eqn:Eb; [done|].
  rewrite Hf in Eb. by destruct (it_RevokedAt t0).
Qed.

(** After a rotation the family is the same, its old token spent. *)
Lemma rotated_inv cache old client new jti exp now d f d' :
  RotateRefreshToken cache old client new
    (MkIssuedToken EmptyString no_binding no_device None None jti EmptyString EmptyString exp None 0) now d = inr (Rotated f, d') ->
  LookupRefreshFamily d old = inr f /\ rf_ClientID f = client /\
  (exists t, issued_tokens d !! rf_JTI f = Some t /\ it_RevokedAt t = None) /\
  LookupRefreshFamily d' old = inr f /\
  (exists used, refresh_tokens d' !! old = Some used /\ rt_UsedAt used = Some now) /\
  users d' = users d.
Proof.
  intros Hr. apply rotate_inv in Hr as (f0 & row & t & Hs & [(? & _)|(Hf & _ & Hcl & Hrev & _ & _ & _ & Hfree & Hnew & d1 & -> & _ & ->)]);
    [done|]. injection Hf as ->.
  pose proof (scan_inv _ _ _ _ _ Hs) as (Hrow & Hj & Ht & _).
  assert (new <> old) as Hne by congruence.
  split; [unfold LookupRefreshFamily; by rewrite Hs|]. split; [done|]. split; [by exists t|].
  cbn [it_JTI] in Hfree. split; [|split; [|done]].
  - unfold LookupRefreshFamily, scanRefreshFamily in *. cbn -[lookup insert]. rewrite lookup_insert_ne by done. rewrite lookup_insert_eq.
    cbn [rt_FamilyJTI set_rt_UsedAt]. rewrite Hrow in Hs. rewrite lookup_insert_ne by congruence.
    destruct (refresh_families d !! rt_FamilyJTI row) as [fr|]; [|done]. rewrite <- Hj, Ht in Hs |- *. by injection Hs as <-.
  - cbn -[lookup insert]. rewrite lookup_insert_ne by done. rewrite lookup_insert_eq. by eexists.
Qed.

(** A successful refresh returns only scopes of the family's grant, to the
    family's own client, in an access token that ends no later than the
    family, and leaves the presented token spent; a refresh that reports
    reuse has revoked every token of the family. *)
Theorem refresh_never_widens cache issuer dr raw client secret scope now d :
  let '(r, d') := ExchangeRefreshToken cache issuer dr raw client secret scope now d in
  refresh_outcome issuer dr raw client now d r d'.
Proof.
  enough (run_sat (refresh_outcome issuer dr raw client now d) (ExchangeRefreshToken cache issuer dr raw client secret scope now) d) as Hs.
  { unfold run_sat in Hs. by destruct (ExchangeRefreshToken _ _ _ _ _ _ _ _ _). }
  unfold ExchangeRefreshToken, refresh_outcome. generalize (HashSHA256 raw) (HashSHA256 (dr_refresh dr)); intros old new. apply run_sat_get. destruct (GetOAuthClientByID client d) as [cl|]; [|done].
  apply run_sat_guard; [done|]. intros _.
  apply run_sat_bind; [intros [] d0 Ha; try done; by apply authentic_not_reuse in Ha|]. intros [] d0 Ha. apply authentic_inr in Ha as [_ ->].
  apply run_sat_result; [done|]. intros peek Hpeek.
  destruct (granted_refresh_scope (rf_Scope peek) scope) as [granted|] eqn:Eg; [|done]. cbv zeta. set (exp := earliest _ _).
  apply run_sat_in_tx; [done|]. intros [f|f] d1 Hrot.
  - apply rotated_inv in Hrot as (Hl & Hcl & (t & Ht & Hn) & Hl' & Hu & Hus).
    assert (peek = f) as -> by congruence. apply run_sat_get.
    unfold get_user. rewrite Hus. destruct (users d !! rf_UserID f) as [user|] eqn:Eu; [|done]. cbn [fmap option_fmap option_map].
    apply run_sat_guard; [done|]. intros _.
    apply run_sat_bind; [intros [] d2 Hr; try done; by apply tokenResponse_not_reuse in Hr|]. intros resp d2 Hr.
    apply tokenResponse_inr in Hr as (Hat & Hsc & [m ->] & _).
    exists f, t, user, (earliest exp (Some (rf_ExpiresAt f))). do 5 (split; [done|]). split.
    { cbn [tr_Scope]. rewrite Hsc. by eapply granted_inv. }
    split; [cbn [tr_Scope tr_AccessToken]; rewrite Hsc, Hat; by destruct (scanUser_fields now user) as (-> & _)|].
    pose proof (earliest_le exp (Some (rf_ExpiresAt f))) as [H1 H2]. split; [by apply H2|].
    split; [etrans; [apply H1|]; apply (proj1 (earliest_le _ _))|done].
  - apply rotate_inv in Hrot as (f0 & row & t & Hs & [(Hf & _ & ->)|(? & _)]); [|done]. injection Hf as ->.
    exists f0. split; [unfold LookupRefreshFamily; by rewrite Hs|]. intros k x. apply revoked_family.
Qed.

(** *** Kinds of token *)

Lemma obj_get_claims k new c : NoDup (map fst new) ->
  obj_get k (set_claims new c) = match obj_get k new with Some v => Some v | None => obj_get k c end.
Proof.
  unfold set_claims. revert c. induction new as [|[k0 v0] new IH]; intros c Hnd; [done|]. cbn [map fst] in Hnd.
  apply NoDup_cons in Hnd as [Hni Hnd]. cbn [fold_left fst snd]. rewrite IH by done. cbn [obj_get].
  destruct (k =?s k0) eqn:E.
  - apply streqb_true in E as ->. rewrite obj_get_set. destruct (obj_get k0 new) as [v|] eqn:Ek; [|done].
    exfalso. apply Hni. clear - Ek. induction new as [|[k1 v1] new IH]; [done|]. cbn [obj_get] in Ek. cbn [map fst].
    destruct (k0 =?s k1) eqn:E; [apply streqb_true in E as ->; left|right; by apply IH].
  - destruct (obj_get k new); [done|]. rewrite obj_get_set_ne; [done|]. intros ->. by rewrite streqb_refl in E.
Qed.

(** The claims of an ID token that no evidence and no nonce replaces. *)
Definition authentication_keys : list string := ["auth_time"; "amr"; "acr"; "nonce"]%string.

Lemma addAuthenticationClaims_get k c ev : one_of k authentication_keys = false -> obj_get k (addAuthenticationClaims c ev) = obj_get k c.
Proof.
  intros Hk. unfold addAuthenticationClaims. destruct (ev_PrimaryAuthenticatedAt ev) as [at_|]; [|done].
  destruct (if is_null (ev_FactorAuthenticatedAt ev) then _ else _) as [methods context].
  rewrite obj_get_claims; [|cbn [map fst]; by apply (bool_decide_unpack _)].
  assert (obj_get k [("auth_time", JNum (unix at_)); ("amr", strings methods); ("acr", JStr context)] = None)%string as ->; [|done].
  cbn in Hk |- *. by repeat (apply orb_false_iff in Hk as [-> Hk]).
Qed.

Lemma with_nonce_get k nonce c : one_of k authentication_keys = false ->
  obj_get k (if nonce =?s EmptyString then c else set_claims [("nonce"%string, JStr nonce)] c) = obj_get k c.
Proof.
  intros Hk. destruct (nonce =?s EmptyString); [done|]. unfold set_claims. cbn [fold_left fst snd]. apply obj_get_set_ne. intros <-. by vm_compute in Hk.
Qed.

Lemma id_claims_get k issuer client sid jti exp now c :
  obj_get k (set_claims (id_claims issuer client sid jti exp now) c) =
  match obj_get k (id_claims issuer client sid jti exp now) with Some v => Some v | None => obj_get k c end.
Proof. apply obj_get_claims. by apply (bool_decide_unpack _). Qed.

(** A signature of the server reads back as the claims it signed. *)
Definition signatures_read : Prop := forall typ c, jwt_read (jwt_sign typ c) = Some c.

Lemma verify_signed typ c issuer use b now : signatures_read ->
  verifyJWT (jwt_sign typ c) issuer use b now =
  (if (issuer =?s EmptyString) || (use =?s EmptyString) then None else
   if (b || library_valid issuer now c) && match claim_date "exp" c with Some (Some _) => true | _ => false end &&
      claim_is "iss" issuer c && claim_is "token_use" use c then Some c else None).
Proof. intros Hr. unfold verifyJWT. by rewrite Hr. Qed.

(** C32. A signed access token verifies as one exactly until its expiry and
    never serves as an ID token hint; an ID token never verifies as an
    access token and reads back as the hint naming its client, subject and
    session, whatever evidence and nonce it carries; a logout token verifies
    as neither. *)
Theorem tokens_keep_their_kind issuer user client jti scope sid exp iat ident ev nonce use b now :
  signatures_read -> issuer <> EmptyString -> client <> EmptyString -> user <> EmptyString -> obj_get "sub" ident = Some (JStr user) ->
  let access := SignJWT (access_claims issuer user client jti scope exp iat) in
  let id0 := addAuthenticationClaims (set_claims (id_claims issuer client sid jti exp iat) ident) ev in
  let id := SignJWT (if nonce =?s EmptyString then id0 else set_claims [("nonce"%string, JStr nonce)] id0) in
  VerifyJWT access issuer "access_token" now =
    (if now <? of_unix (unix exp) then Some (access_claims issuer user client jti scope exp iat) else None) /\
  ParseIDTokenHint issuer access now = None /\
  VerifyJWT id issuer "access_token" now = None /\
  ParseIDTokenHint issuer id now = Some (MkIDTokenHint client user sid) /\
  verifyJWT (SignLogoutToken issuer client user sid jti iat) issuer use b now = None.
Proof.
  intros Hr Hi Hc Hu Hsub. cbv zeta.
  assert (issuer =?s EmptyString = false) as Hi' by by apply streqb_false.
  assert (client =?s EmptyString = false) as Hc' by by apply streqb_false.
  assert (user =?s EmptyString = false) as Hu' by by apply streqb_false.
  set (id0 := addAuthenticationClaims _ _). set (idc := if nonce =?s EmptyString then _ else _).
  assert (forall k, one_of k authentication_keys = false -> obj_get k idc =
    match obj_get k (id_claims issuer client sid jti exp iat) with Some v => Some v | None => obj_get k ident end) as Hid.
  { intros k Hk. subst idc id0. rewrite with_nonce_get, addAuthenticationClaims_get by done. apply id_claims_get. }
  unfold ParseIDTokenHint, VerifyExpiredJWT, VerifyJWT, SignJWT, SignLogoutToken. rewrite !verify_signed, Hi' by done.
  unfold claim_is, claim_str, claim_date. rewrite !Hid by done.
  unfold library_valid, claim_is, claim_date.
  cbn -[of_unix Z.mul Z.ltb Z.leb unix]. rewrite !streqb_refl, !andb_true_r, !andb_false_r. cbn -[of_unix Z.mul Z.ltb Z.leb unix].
  rewrite !Hid by done. cbn -[of_unix Z.mul Z.ltb Z.leb unix]. rewrite Hsub, Hc', Hu'.
  split; [done|]. split; [done|]. split; [done|]. split; [done|]. by destruct (use =?s EmptyString).
Qed.

(** *** Device sign-on *)

Lemma parse_inv compact audience now key a dev : parseDeviceAssertion compact audience now key = Some (a, dev) ->
  key (da_DeviceID a) (da_Subject a) = Some dev /\ es256_ok compact (nd_PublicKey dev) = true /\
  now < of_unix (da_ExpiresAt a) + deviceAssertionSkew /\ of_unix (da_IssuedAt a) <= now + deviceAssertionSkew.
Proof.
  unfold parseDeviceAssertion. intros Hp. destruct (Nat.ltb _ _); [done|]. destruct (jws_parse compact) as [s|]; [|done].
  destruct (negb _); [done|]. destruct (as_iat s) as [iat|]; [|done]. destruct (canonicalOrigin _) as [o|]; [|done].
  destruct (key (as_kid s) (as_sub s)) as [n|] eqn:Ek; [|done].
  match type of Hp with (if ?b then _ else _) = _ => destruct b eqn:Eb; [|done] end. injection Hp as <- <-. cbn.
  apply andb_true_iff in Eb as [Eb _]. apply andb_true_iff in Eb as [Eb Hi]. apply andb_true_iff in Eb as [Eb He].
  apply andb_true_iff in Eb as [Eb _]. apply andb_true_iff in Eb as [_ Eb].
  destruct (as_exp s) as [e|]; [|done]. cbn. split; [done|]. split; [done|]. lia.
Qed.

Lemma assertion_key_inv d kid sub n : assertion_key d kid sub = Some n -> native_devices d !! kid = Some n /\ nd_UserID n = sub.
Proof.
  unfold assertion_key. destruct (native_devices d !! kid) as [x|]; [|done]. destruct (nd_UserID x =?s sub) eqn:E; [|done]. cbn [andb].
  destruct (_ && _); [|done]. intros [= <-]. by apply streqb_true in E.
Qed.

(** A session made outside an interaction is one new row. *)
Lemma create_session_row sess now d s d' : CreateSession sess now d = inr (s, d') ->
  exists m row, d' = on_sessions (fun _ => m) d /\ m !! s_ID sess = Some row /\ s_UserID row = s_UserID sess /\ s_ExpiresAt row = s_ExpiresAt sess /\
    forall k x, m !! k = Some x -> s_ID x <> s_ID sess -> sessions d !! k = Some x.
Proof.
  unfold CreateSession, CreateSessionForInteraction. rewrite streqb_refl. intros Hr.
  apply tx_bind_inr in Hr as (? & ? & [= <- <-] & Hr). cbv zeta in Hr. cbn [default is_null] in Hr. tx_inv.
  match goal with H : insert_row _ _ _ _ _ = _ |- _ => apply insert_row_inv in H as [_ ->] end.
  eexists _, _. split; [reflexivity|]. split; [|split; [|split]].
  - rewrite lookup_update_where. cbn -[lookup insert]. rewrite lookup_insert_eq. cbn -[session_allowed]. by rewrite streqb_refl.
  - done.
  - done.
  - intros k x Hk Hne. apply lookup_update_where_Some in Hk as (y & Hy & ->). cbn -[lookup insert session_allowed] in Hy.
    apply lookup_insert_Some in Hy as [[<- <-]|[_ Hy]].
    + exfalso. apply Hne. cbn -[session_allowed]. by rewrite streqb_refl.
    + destruct (s_ID y =?s s_ID sess) eqn:E; [|done]. apply streqb_true in E. by destruct Hne.
Qed.

(** Signing leaves the sessions alone, and registers the access token. *)
Definition device_tokens_outcome (dr : DeviceDraws) (user : User) (client : string) (exp : Z) (d : DB) (r : OAuthError + TokenResponse) (d' : DB) : Prop :=
  sessions d' = sessions d /\ device_signon_jtis d' = device_signon_jtis d /\
  match r with
  | inr _ => exists t, issued_tokens d' !! dd_access dr = Some t /\ it_SessionID t = Some (dd_session dr) /\ it_UserID t = u_ID user /\
      it_ClientID t = client /\ it_ExpiresAt t = exp
  | inl _ => True
  end.

Lemma device_tokens_keep issuer dr a dev user client scope binding exp now d :
  run_sat (device_tokens_outcome dr user client exp d) (device_tokens issuer dr a dev user client scope binding exp now) d.
Proof.
  unfold device_tokens. apply run_sat_bind.
  - intros e d1 He. destruct (in_tx _ d) as [[e0|x] d0] eqn:Er; [|done]. apply in_tx_inl in Er as ->.
    assert (d1 = d) as -> by (destruct e0 as [[]| | | | | |]; congruence). done.
  - intros [] d1 Hr. destruct (in_tx _ d) as [[e0|x] d0] eqn:Er; [by destruct e0 as [[]| | | | | |]|]. injection Hr as -> <-.
    apply in_tx_inr, record_inv in Er as (_ & _ & ->). cbv zeta.
    set (t := token_row _ _). apply run_sat_in_tx; [done|]. intros sid d2 Hs. apply EnsureClientSession_inv in Hs as [m ->].
    apply run_sat_get. apply run_sat_bind; unfold oresult; [intros e d2 [= _ <-]; done|]. intros c d2 [= _ <-].
    unfold run_sat. cbn -[lookup insert SignJWT]. split; [done|]. split; [done|]. exists t. split; [apply lookup_insert_eq|done].
Qed.

Definition device_proofs (issuer compact client : string) (now : Z) (d : DB) (a : deviceAssertion) (dev : NativeDevice) : Prop :=
  native_devices d !! da_DeviceID a = Some dev /\ nd_UserID dev = da_Subject a /\ es256_ok compact (nd_PublicKey dev) = true /\
  nd_CanSignOn dev = true /\ nd_IsMFAApprover dev = true /\ da_ClientID a = client /\
  of_unix (da_IssuedAt a) <= now + minute /\ now < of_unix (da_ExpiresAt a) + minute /\
  of_unix (da_ExpiresAt a) <= of_unix (da_IssuedAt a) + 300 * second /\
  (exists cl, oauth_clients d !! client = Some cl /\ oc_Enabled cl = true /\ registeredOrigin (oc_RedirectURIs cl) (da_Origin a) = true) /\
  (forall e, device_signon_jtis d !! da_JTI a = Some e -> e < now).

(** A grant's result: every check held and the session and token are there, or no session is added. *)
Definition device_outcome (issuer : string) (dr : DeviceDraws) (compact client : string) (now : Z) (d : DB)
    (r : OAuthError + TokenResponse) (d' : DB) : Prop :=
  match r with
  | inr _ => exists a dev s t e, device_proofs issuer compact client now d a dev /\ device_signon_jtis d' !! da_JTI a = Some e /\ now <= e /\
      sessions d' !! dd_session dr = Some s /\ issued_tokens d' !! dd_access dr = Some t /\ it_SessionID t = Some (dd_session dr) /\
      it_UserID t = s_UserID s /\ it_ClientID t = client /\ it_ExpiresAt t <= s_ExpiresAt s /\ s_ExpiresAt s <= now + 15 * minute
  | inl _ => forall k s, sessions d' !! k = Some s -> sessions d !! k = Some s
  end.

Lemma consume_jti_inv jti exp now d b d' : ConsumeDeviceSignOnJTI jti exp now d = (b, d') ->
  sessions d' = sessions d /\ (b = true -> device_signon_jtis d' !! jti = Some exp /\ forall e, device_signon_jtis d !! jti = Some e -> e < now).
Proof.
  unfold ConsumeDeviceSignOnJTI. cbv zeta. destruct (device_signon_jtis (on_device_signon_jtis _ d) !! jti) as [x|] eqn:Ej; intros [= <- <-]; split; try done.
  intros _. cbn -[lookup insert] in *. split; [apply lookup_insert_eq|]. intros e He. unfold delete_where in Ej. apply map_lookup_filter_None in Ej as [Ej|Ej]; [congruence|].
  specialize (Ej e He). cbn in Ej. destruct (e <? now) eqn:El; [lia|done].
Qed.

Lemma ExchangeDeviceAssertion_sat issuer dr compact client ip agent now d :
  run_sat (device_outcome issuer dr compact client now d) (ExchangeDeviceAssertion issuer dr compact client ip agent now) d.
Proof.
  assert (forall e, device_outcome issuer dr compact client now d (inl e) d) as Hno by by intros e k s.
  unfold ExchangeDeviceAssertion. apply run_sat_get.
  destruct (parseDeviceAssertion _ _ _ _) as [[a dev]|] eqn:Ep; [|apply Hno].
  apply parse_inv in Ep as (Hk & Hsig & Hexp & Hiat). apply assertion_key_inv in Hk as [Hk Hu]. cbv zeta.
  apply run_sat_guard; [intros; apply Hno|]. intros Hcl. apply streqb_true in Hcl.
  apply run_sat_guard; [intros; apply Hno|]. intros Hw. apply run_sat_guard; [intros; apply Hno|]. intros Hen.
  destruct (GetOAuthClientByID client d) as [cl|] eqn:Ecl; [|apply Hno].
  apply run_sat_guard; [intros; apply Hno|]. intros Hon. apply run_sat_guard; [intros; apply Hno|]. intros Hor.
  apply run_sat_bind.
  { intros e d1 He. by destruct (ConsumeDeviceSignOnJTI _ _ _ _). }
  intros fresh d1 Hj. destruct (ConsumeDeviceSignOnJTI _ _ _ _) as [b d1'] eqn:Ej. injection Hj as <- <-.
  apply consume_jti_inv in Ej as [Hs1 Hj].
  assert (forall k s, sessions d1' !! k = Some s -> sessions d !! k = Some s) as Hss by by rewrite Hs1.
  clear Hno. assert (forall e, device_outcome issuer dr compact client now d (inl e) d1') as Hno by by intros e.
  apply run_sat_guard; [intros; apply Hno|]. intros ->. destruct (Hj eq_refl) as [Hj' Hfresh]. apply run_sat_get.
  destruct (get_user now d1' (da_Subject a)) as [user|]; [|apply Hno].
  apply run_sat_guard; [intros; apply Hno|]. intros _. apply run_sat_bind; [intros e d2 [= _ <-]; apply Hno|]. intros scope d2 [= _ <-].
  apply run_sat_guard; [intros; apply Hno|]. intros _. apply run_sat_result; [intros; apply Hno|]. intros [policy bind] _.
  apply run_sat_guard; [intros; apply Hno|]. intros _. set (exp := earliest _ _). apply run_sat_guard; [intros; apply Hno|]. intros _.
  apply run_sat_in_tx; [intros; apply Hno|]. intros sess d2 Hcs. apply create_session_row in Hcs as (m & row & -> & Hm & Hru & Hre & Hold).
  cbn [s_ID s_UserID s_ExpiresAt] in *. unfold or_delete_session, run_sat.
  pose proof (device_tokens_keep issuer dr a dev user client scope bind exp now (on_sessions (fun _ => m) d1')) as Hd.
  cbn [snd] in Hd |- *. unfold run_sat in Hd. destruct (device_tokens _ _ _ _ _ _ _ _ _ _ _) as [[e|resp] d3]; cbn [fst snd] in *.
  - destruct Hd as (Hsd & _ & _). intros k s Hks. unfold DeleteSession, delete_sessions in Hks. cbn -[lookup] in Hks.
    unfold delete_where in Hks. apply map_lookup_filter_Some in Hks as [Hks Hne]. rewrite Hsd in Hks. cbn in Hks, Hne.
    apply Hss, (Hold k s Hks). intros Heq. rewrite Heq, streqb_refl in Hne. done.
  - destruct Hd as (Hsd & Hjd & t & Ht & Hts & Htu & Htc & Hte). apply andb_true_iff in Hw as [Hw1 Hw2]. apply andb_true_iff in Hen as [Hen1 Hen2].
    exists a, dev, row, t, (of_unix (da_ExpiresAt a) + deviceAssertionSkew). rewrite Hjd, Hsd. split.
    { split; [done|]. split; [done|]. split; [done|]. split; [done|]. split; [done|]. split; [done|]. split; [done|]. split; [done|].
      split; [unfold deviceAssertionMaxWindow in *; lia|]. split; [by exists cl|done]. }
    split; [exact Hj'|]. split; [lia|]. split; [exact Hm|]. split; [done|]. split; [done|]. split; [congruence|]. split; [done|].
    rewrite Hte, Hre. split; [|done]. etrans; [apply (proj1 (earliest_le _ _))|]. apply (proj1 (earliest_le _ _)).
Qed.

(** C31. A device assertion yields tokens only when an enrolled sign-on device
    signed it for this client and a registered origin, inside its window and
    with an identifier not used before; session and token then last at most
    fifteen minutes. A refused assertion adds no session. *)
Theorem device_sign_on_is_proved_or_leaves_no_session issuer dr compact client ip agent now d :
  let '(r, d') := ExchangeDeviceAssertion issuer dr compact client ip agent now d in device_outcome issuer dr compact client now d r d'.
Proof.
  pose proof (ExchangeDeviceAssertion_sat issuer dr compact client ip agent now d) as Hs. unfold run_sat in Hs.
  by destruct (ExchangeDeviceAssertion _ _ _ _ _ _ _ _).
Qed.
End oauth_facts.

(** ** A concrete wire

    A signature writes the type header and the claims down in full. *)
Fixpoint json_tree (j : Json) : gen_tree (string + Z) :=
  match j with
  | JNull => GenNode 0 []
  | JBool b => GenNode (if b then 1 else 2) []
  | JNum n => GenLeaf (inr n)
  | JStr s => GenLeaf (inl s)
  | JArr l => GenNode 3 (map json_tree l)
  | JObj l => GenNode 4 (map (fun kv => GenNode 5 [GenLeaf (inl kv.1); json_tree kv.2]) l)
  end.

Fixpoint tree_json (t : gen_tree (string + Z)) : Json :=
  match t with
  | GenLeaf (inr n) => JNum n
  | GenLeaf (inl s) => JStr s
  | GenNode 1 _ => JBool true
  | GenNode 2 _ => JBool false
  | GenNode 3 l => JArr (map tree_json l)
  | GenNode 4 l => JObj (map (fun t => match t with GenNode 5 [GenLeaf (inl k); v] => (k, tree_json v) | _ => (EmptyString, JNull) end) l)
  | _ => JNull
  end.

Fixpoint json_tree_json (j : Json) : tree_json (json_tree j) = j.
Proof.
  destruct j as [|[]|n|s|l|l]; [done..| |].
  - cbn. f_equal. induction l as [|x l IH]; [done|]. cbn. by rewrite json_tree_json, IH.
  - cbn. f_equal. induction l as [|[k x] l IH]; [done|]. cbn. by rewrite json_tree_json, IH.
Qed.

Fixpoint pos_text (p : positive) : string :=
  match p with xH => EmptyString | xO p => String Ascii.zero (pos_text p) | xI p => String Ascii.one (pos_text p) end.

Fixpoint text_pos (s : string) : positive :=
  match s with EmptyString => xH | String c s => if Ascii.eqb c Ascii.zero then xO (text_pos s) else xI (text_pos s) end.

Lemma pos_text_pos p : text_pos (pos_text p) = p.
Proof. induction p as [p IH|p IH|]; cbn; by rewrite ?IH. Qed.

Definition toy_sign (typ : string) (c : Claims) : string := pos_text (encode (json_tree (JObj [(typ, JObj c)]))).

Definition toy_read (token : string) : option Claims :=
  match tree_json <$> decode (text_pos token) with Some (JObj [(_, JObj c)]) => Some c | _ => None end.

Lemma toy_reads typ c : toy_read (toy_sign typ c) = Some c.
Proof. unfold toy_read, toy_sign. rewrite pos_text_pos, countable.decode_encode. cbn [fmap option_fmap option_map]. by rewrite json_tree_json. Qed.

(** One enrolled device's assertion, for the client whose callback is registered. *)
Definition toy_assertion : Assertion :=
  MkAssertion "ES256" "JWT" "phone" 3 "device:phone" "bob" ["https://id.example.org/oauth/token"%string] "c1" "https://crm.example.org" "jti1"
    (Some (unix t0)) (Some (unix t0 + 60)) None.

Definition toy_wire : Wire := {| jwt_sign := toy_sign; jwt_read := toy_read; json_marshal := fun _ => EmptyString;
  jws_parse := fun s => if s =?s "assertion" then Some toy_assertion else None; p256_key := fun _ => true; es256_ok := fun _ _ => true;
  url_parse := fun s => if String.prefix "https://crm.example.org" s
    then Some (MkURL "https" EmptyString false "crm.example.org" (if s =?s "https://crm.example.org" then EmptyString else "/cb")) else None |}.

Lemma tokens_keep_their_kind_witness : exists hint,
  ParseIDTokenHint (H := toy_wire) "https://id.example.org" (SignJWT (H := toy_wire) (addAuthenticationClaims
    (set_claims (id_claims "https://id.example.org" "c1" "sid1" "j1" (t0 + hour) t0) [("sub", JStr "bob")]) sample_evidence)) t0 = Some hint /\
  hint_Subject hint = "bob"%string.
Proof.
  assert (@signatures_read toy_wire) as Hr by exact toy_reads.
  pose proof (@tokens_keep_their_kind toy_wire "https://id.example.org" "bob" "c1" "j1" "openid" "sid1" (t0 + hour) t0 [("sub", JStr "bob")]%string
    sample_evidence EmptyString "id_token" true t0 Hr ltac:(discriminate) ltac:(discriminate) ltac:(discriminate) eq_refl) as (_ & _ & _ & Hid & _).
  eexists. split; [exact Hid|reflexivity].
Defined.

(** A whole exchange and a whole device grant succeed on the sample store. *)
Definition toy_code : AuthorizationCode :=
  MkAuthorizationCode "crm" 1 1 EmptyString None sample_evidence "s-bob" "code2" (HashSHA256 "raw") "c1" "bob"
    "https://crm.example.org/cb" "openid profile" (s256 "a-verifier-of-at-least-forty-three-characters") "S256" "nonce" (t0 + minute) None t0.

Definition toy_client : OAuthClient :=
  MkOAuthClient "c1" "CRM" "confidential" (HashSHA256 "s3cret") (Some ["https://crm.example.org/cb"%string])
    (Some ["openid"; "profile"; "offline_access"]%string) None "https://crm.example.org/logout" EmptyString EmptyString EmptyString EmptyString EmptyString true t0.

Definition toy_device : NativeDevice :=
  MkNativeDevice "phone" "bob" "Phone" "hw" "android" "key" EmptyString 0 EmptyString EmptyString EmptyString true true "tee" None EmptyString [] None t0.

Definition toy_db : DB :=
  on_native_devices <["phone" := toy_device]> (on_oauth_clients <["c1" := toy_client]> (on_authorization_codes <["code2" := toy_code]> sample_db)).

Definition toy_draws : Draws := MkDraws "at" "family" "refresh" "sid9" "idt".

Example exchange_succeeds :
  match fst (ExchangeAuthorizationCode (H := toy_wire) "https://id.example.org" toy_draws "raw" "c1" "s3cret" "https://crm.example.org/cb"
    "a-verifier-of-at-least-forty-three-characters" t0 toy_db) with
  | inr r => tr_RefreshToken r = "refresh"%string /\ tr_ExpiresIn r = 900
  | inl _ => False
  end.
Proof. vm_compute. split; reflexivity. Qed.

Example device_grant_succeeds_once :
  let '(r, d1) := ExchangeDeviceAssertion (H := toy_wire) "https://id.example.org" (MkDeviceDraws "s9" "h9" "at9" "sid9" "j9") "assertion" "c1" "192.0.2.1" "agent" t0 toy_db in
  (exists resp, r = inr resp /\ tr_Scope resp = "openid profile"%string) /\
  fst (ExchangeDeviceAssertion (H := toy_wire) "https://id.example.org" (MkDeviceDraws "s8" "h8" "at8" "sid8" "j8") "assertion" "c1" "192.0.2.1" "agent" t0 d1) =
    inl (OAuthText "assertion replayed").
Proof. vm_compute. split; [by eexists|reflexivity]. Qed.
