(* ===== verification/ScimInbound.v ===== *)
(** Inbound SCIM: an upstream directory's connectors and bearer tokens, the
    accounts it owns ([store/scim_inbound.go]) and the groups it owns
    ([store/scim_inbound_groups.go]).

    The callback of an update is a function of the row as read under the write
    lock; identifiers and the raw bearer value are drawn by the caller. *)
From stdpp Require Import sorting.
From S2P Require Import Prelude Text Schema Access Sample Sessions Tokens Outbox AppAccess Directory Crypto.

Section scim_inbound.
Context `{Codec}.

(** ** Connectors and their tokens *)

Definition CreateSCIMConnector (id name : string) (audit : option AuditEvent) (now : Z) : STx SCIMConnector :=
  let c := MkSCIMConnector id (TrimSpace name) "active" now now in
  tx_guard (sn_Name c <>?s EmptyString) (ErrInput "name is required") ;;;
  insert_row scim_connectors on_scim_connectors id c ;;;
  recordAuditTx audit now ;;;
  tx_ret c.

Definition UpdateSCIMConnector (id name status : string) (audit : option AuditEvent) (now : Z) : STx unit :=
  tx_guard (one_of status ["active"; "disabled"]%string) (ErrInput "status must be active or disabled") ;;;
  tx_guard (TrimSpace name <>?s EmptyString) (ErrInput "name is required") ;;;
  d <- tx_get ;;
  match scim_connectors d !! id with
  | None => tx_fail ErrNotFound
  | Some c =>
    tx_set (on_scim_connectors <[id := MkSCIMConnector (sn_ID c) (TrimSpace name) status (sn_CreatedAt c) now]>) ;;;
    recordAuditTx audit now
  end.

Definition owned_by (connector : string) (u : User) : bool := (connector <>?s EmptyString) && (u_SourceConnectorID u =?s connector).
Definition group_owned_by (connector : string) (g : Group) : bool := (connector <>?s EmptyString) && (g_SourceConnectorID g =?s connector).

Definition CountSCIMConnectorUsers (connector : string) (d : DB) : Z := count_where (owned_by connector) (users d).
Definition CountSCIMConnectorGroups (connector : string) (d : DB) : Z := count_where (group_owned_by connector) (directory_groups d).

(** The raw value is [raw]; the caller shows it once behind its prefix. *)
Definition IssueSCIMToken (connector scope id raw : string) (audit : option AuditEvent) (now : Z) : STx (string * SCIMConnectorToken) :=
  tx_guard (one_of scope ["read"; "write"]%string) (ErrInput "scope must be read or write") ;;;
  d <- tx_get ;;
  tx_guard (negb (is_null (scim_connectors d !! connector))) ErrNotFound ;;;
  let t := MkSCIMConnectorToken id connector (HashSHA256 raw) scope now None None in
  tx_guard (negb (exists_where (fun x => ct_TokenHash x =?s ct_TokenHash t) (scim_connector_tokens d))) ErrConstraint ;;;
  insert_row scim_connector_tokens on_scim_connector_tokens id t ;;;
  recordAuditTx audit now ;;;
  tx_ret (String.append "scim_" raw, t).

Definition RevokeSCIMToken (connector id : string) (audit : option AuditEvent) (now : Z) : STx unit :=
  d <- tx_get ;;
  match scim_connector_tokens d !! id with
  | Some t =>
    tx_guard ((ct_ConnectorID t =?s connector) && is_null (ct_RevokedAt t)) ErrNotFound ;;;
    tx_set (on_scim_connector_tokens <[id := set_ct_RevokedAt (Some now) t]>) ;;;
    recordAuditTx audit now
  | None => tx_fail ErrNotFound
  end.

Definition TrimPrefix (s p : string) : string := if String.prefix p s then string_of (skipn (String.length p) (bytes_of s)) else s.

(** The join of live tokens and active connectors. *)
Definition live_token (hash : string) (d : DB) : option (string * SCIMConnectorToken * SCIMConnector) :=
  match find_where (fun t => (ct_TokenHash t =?s hash) && is_null (ct_RevokedAt t)) (scim_connector_tokens d) with
  | Some (id, t) =>
    match scim_connectors d !! ct_ConnectorID t with
    | Some c => if sn_Status c =?s "active" then Some (id, t, c) else None
    | None => None
    end
  | None => None
  end.

Definition AuthenticateSCIMToken (presented : string) (now : Z) (d : DB) : (StoreError + (SCIMConnector * string)) * DB :=
  let raw := TrimPrefix presented "scim_" in
  if raw =?s EmptyString then (inl ErrNotFound, d) else
  match live_token (HashSHA256 raw) d with
  | None => (inl ErrNotFound, d)
  | Some (id, t, c) =>
    (inr (c, ct_Scope t),
     if match ct_LastUsedAt t with None => true | Some used => minute <? now - used end
     then on_scim_connector_tokens <[id := set_ct_LastUsedAt (Some now) t]> d else d)
  end.

(** ** Accounts *)

(** No other account may use either identifier, as its username or its email. *)
Definition cross_identity_clash (d : DB) (exclude username email : string) : bool :=
  exists_where (fun x => (u_ID x <>?s exclude) && (eq_nocase (u_Username x) username || eq_nocase (u_Email x) username ||
    eq_nocase (u_Username x) email || eq_nocase (u_Email x) email)) (users d).

(** [CREATE UNIQUE INDEX users_source_external]. *)
Definition source_taken (d : DB) (u : User) : bool :=
  exists_where (fun x => (u_ID x <>?s u_ID u) && owned_by (u_SourceConnectorID u) x && (u_ExternalID x =?s u_ExternalID u)) (users d).

(** The row of a creation: pending, without password, override or end date. *)
Definition upstream_row (id : string) (u : User) (now : Z) : User :=
  ApplySourceState (MkUser id (u_Username u) (u_DisplayName u) (u_Email u) EmptyString "user" (u_Status u) true false None
    (u_SourceConnectorID u) (u_ExternalID u) (u_SourceActive u) false None now now).

Definition CreateUpstreamUser (id : string) (u : User) (audit : option AuditEvent) (now : Z) : STx User :=
  tx_guard ((u_SourceConnectorID u <>?s EmptyString) && (u_ExternalID u <>?s EmptyString)) (ErrText "connector and external id are required") ;;;
  let row := upstream_row id u now in
  d <- tx_get ;;
  tx_guard (negb (cross_identity_clash d id (u_Username u) (u_Email u))) ErrUserConflict ;;;
  tx_guard (is_null (users d !! id) && user_constraints d row && negb (source_taken d row)) ErrUserConflict ;;;
  tx_set (on_users <[id := row]>) ;;;
  tx_set (new_deadlines id (fun _ => true) now) ;;;
  recordAuditTx audit now ;;;
  tx_ret row.

Definition GetUpstreamUser (connector id : string) (now : Z) (d : DB) : option User :=
  match users d !! id with Some u => if owned_by connector u then Some (scanUser now u) else None | None => None end.

(** One exact-match attribute; [None] refuses the query. *)
Definition user_filter (attribute value : string) : option (User -> bool) :=
  if attribute =?s EmptyString then Some (fun _ => true)
  else if attribute =?s "userName" then Some (fun u => eq_nocase (u_Username u) value)
  else if attribute =?s "externalId" then Some (fun u => u_ExternalID u =?s value)
  else if one_of attribute ["emails.value"; "emails"]%string then Some (fun u => eq_nocase (u_Email u) value)
  else if attribute =?s "id" then Some (fun u => u_ID u =?s value)
  else None.

(** [ORDER BY created_at, id LIMIT count OFFSET startIndex-1], both clamped. *)
Definition by_creation {A} (created : A -> Z) (id : A -> string) (a b : A) : bool :=
  (created a <? created b) || ((created a =? created b) && String.leb (id a) (id b)).

Fixpoint insert_by {A} (le : A -> A -> bool) (x : A) (l : list A) : list A :=
  match l with [] => [x] | y :: l' => if le x y then x :: l else y :: insert_by le x l' end.
Definition sort_by {A} (le : A -> A -> bool) (l : list A) : list A := fold_right (insert_by le) [] l.

Definition page {A} (startIndex count : Z) (l : list A) : list A :=
  let start := if startIndex <? 1 then 1 else startIndex in
  let count := if count <? 0 then 0 else if 200 <? count then 200 else count in
  firstn (Z.to_nat count) (skipn (Z.to_nat (start - 1)) l).

Definition upstream_users (connector : string) (p : User -> bool) (now : Z) (d : DB) : list User :=
  map (scanUser now) (sort_by (by_creation u_CreatedAt u_ID)
    (map snd (map_to_list (where_ (fun u => owned_by connector u && p u) (users d))))).

Definition ListUpstreamUsers (connector attribute value : string) (startIndex count now : Z) (d : DB) : StoreError + (list User * Z) :=
  match user_filter attribute value with
  | None => inl (ErrText "unsupported filter attribute")
  | Some p => let l := upstream_users connector p now d in inr (page startIndex count l, Z.of_nat (length l))
  end.

(** Only the profile and the active flag are the upstream's to write. *)
Definition upstream_merge (current u : User) : User :=
  MkUser (u_ID u) (u_Username u) (u_DisplayName u) (u_Email u) (u_PasswordHash current) (u_Role current) (u_Status u) (u_Pending current)
    (u_PasswordChangeRequired u) (u_EmailVerifiedAt u) (u_SourceConnectorID current) (u_ExternalID u) (u_SourceActive u)
    (u_LocallyDisabled current) (u_EndsAt current) (u_CreatedAt u) (u_UpdatedAt u).

Definition privileged (d : DB) (role id : string) : bool :=
  (role =?s "admin") || existsb (fun k : string * string * string => k.1.1 =?s id) (elements (admin_delegations d)).

Definition upstream_edit (connector : string) (edit : User -> StoreError + User) : user_edit := fun d current =>
  if negb (owned_by connector current) then inl ErrNotFound else
  match edit current with
  | inl e => inl e
  | inr u =>
    if u_ExternalID u <>?s u_ExternalID current then inl (ErrText "external id is immutable")
    else if negb (EqualFold (u_Username current) (u_Username u) && EqualFold (u_Email current) (u_Email u)) && privileged d (u_Role current) (u_ID u)
    then inl ErrPrivilegedIdentity
    else if cross_identity_clash d (u_ID u) (u_Username u) (u_Email u) then inl ErrUserConflict
    else inr (upstream_merge current u, timeFromUnix (u_EndsAt current), false)
  end.

(** The absent row and a unique violation are renamed for the caller. *)
Definition UpdateUpstreamUser (lid : string -> string) (eid : string -> string -> string) (connector id : string) (audit : option AuditEvent)
    (edit : User -> StoreError + User) (now : Z) (d : DB) : (StoreError + User) * DB :=
  match commit (updateUser lid eid id (upstream_edit connector edit) audit now) d with
  | (inl ErrNoRows, d') => (inl ErrNotFound, d')
  | (inl ErrConstraint, d') => (inl ErrUserConflict, d')
  | r => r
  end.

(** The row an account keeps once its connector is gone. *)
Definition released_row (u : User) (disable : bool) (now : Z) (row : User) : User :=
  MkUser (u_ID row) (u_Username row) (u_DisplayName row) (u_Email row) (u_PasswordHash row) (u_Role row)
    (if disable then "disabled" else u_Status u) (u_Pending row) (u_PasswordChangeRequired row) (u_EmailVerifiedAt row)
    EmptyString EmptyString true false (u_EndsAt row) (u_CreatedAt row) now.

Definition release_account (lid : string -> string) (eid : string -> string -> string) (disable : bool) (now : Z) (u : User) : STx unit :=
  (if disable && (u_Status u =?s "active") then offboardUserTx lid eid u false now else tx_ret tt) ;;;
  tx_set (on_users (alter (released_row u disable now) (u_ID u))) ;;;
  if u_Pending u && (disable || negb (u_SourceActive u) || u_LocallyDisabled u)
  then expireAccountTokensTx now (fun t => at_UserID t =?s u_ID u) else tx_ret tt.

Definition released_group (now : Z) (g : Group) : Group :=
  MkGroup (g_ID g) (g_Name g) (g_Description g) EmptyString EmptyString (g_CreatedAt g) now.

Definition DeleteSCIMConnector (lid : string -> string) (eid : string -> string -> string) (id : string) (disable : bool)
    (audit : option AuditEvent) (now : Z) : STx Z :=
  d <- tx_get ;;
  let owned := map (fun kv : string * User => scanUser now kv.2) (map_to_list (where_ (owned_by id) (users d))) in
  (if disable && exists_where (fun u => owned_by id u && activeAdminSQL now u) (users d)
   then requirePermanentAdminTx (fun u => negb (owned_by id u)) else tx_ret tt) ;;;
  tx_iter (release_account lid eid disable now) owned ;;;
  tx_set (on_directory_groups (update_where (group_owned_by id) (released_group now))) ;;;
  d <- tx_get ;;
  tx_guard (negb (is_null (scim_connectors d !! id))) ErrNotFound ;;;
  tx_set (on_scim_connector_tokens (delete_where (fun t => ct_ConnectorID t =?s id))) ;;;
  tx_set (on_scim_connectors (delete id)) ;;;
  reconcileProvisioningTx eid now ;;;
  recordAuditTx audit now ;;;
  tx_ret (Z.of_nat (length owned)).

(** ** Groups *)

(** Trimmed, in order, without blanks and repetitions. *)
Fixpoint uniqueStrings (l : list string) : list string :=
  match l with
  | [] => []
  | v :: l' => let v := TrimSpace v in
    let rest := uniqueStrings l' in if v =?s EmptyString then rest else v :: List.filter (fun x => x <>?s v) rest
  end.

Definition membersOwnedTx (connector : string) (members : list string) : STx unit :=
  d <- tx_get ;;
  tx_guard (forallb (fun id => match users d !! id with Some u => owned_by connector u | None => false end) members) ErrGroupMemberForeign.

Definition externalGroupFreeTx (connector external exclude : string) : STx unit :=
  d <- tx_get ;;
  tx_guard ((external =?s EmptyString) || negb (exists_where (fun g => group_owned_by connector g && (g_ExternalID g =?s external) &&
    (g_ID g <>?s exclude)) (directory_groups d))) ErrGroupExternalExists.

Definition groupMembersTx (d : DB) (group : string) : list string :=
  sort_strings (map (fun kv : (string * string) * option Z => kv.1.2)
    (List.filter (fun kv : (string * string) * option Z => kv.1.1 =?s group) (map_to_list (group_memberships d)))).

Definition add_members (eid : string -> string -> string) (group : string) (now : Z) (members : list string) : STx unit :=
  tx_iter (fun user => applyGroupMembershipTx eid group user true None EmptyString now) members.

Definition CreateUpstreamGroup (lid : string -> string) (eid : string -> string -> string) (id : string) (g : Group) (members : list string)
    (audit : option AuditEvent) (now : Z) : STx unit :=
  tx_guard (g_SourceConnectorID g <>?s EmptyString) (ErrText "connector is required") ;;;
  let members := uniqueStrings members in
  externalGroupFreeTx (g_SourceConnectorID g) (g_ExternalID g) id ;;;
  membersOwnedTx (g_SourceConnectorID g) members ;;;
  d <- tx_get ;;
  tx_guard (is_null (directory_groups d !! id) && negb (group_name_taken d id (g_Name g))) ErrGroupNameExists ;;;
  tx_set (on_directory_groups <[id := MkGroup id (g_Name g) (g_Description g) (g_SourceConnectorID g) (g_ExternalID g) now now]>) ;;;
  new_group_policy id ;;;
  add_members eid id now members ;;;
  (match members with [] => tx_ret tt | _ => reconcileAccessTx lid eid now end) ;;;
  recordAuditTx (set_ae_TargetID id <$> audit) now.

Record UpstreamGroup := MkUpstreamGroup { ug_Group : Group; ug_Members : list string }.

Definition GetUpstreamGroup (connector id : string) (d : DB) : option UpstreamGroup :=
  match directory_groups d !! id with
  | Some g => if group_owned_by connector g then Some (MkUpstreamGroup g (groupMembersTx d id)) else None
  | None => None
  end.

Definition group_filter (attribute value : string) : option (Group -> bool) :=
  if attribute =?s EmptyString then Some (fun _ => true)
  else if attribute =?s "displayName" then Some (fun g => eq_nocase (g_Name g) value)
  else if attribute =?s "externalId" then Some (fun g => (g_ExternalID g <>?s EmptyString) && (g_ExternalID g =?s value))
  else if attribute =?s "id" then Some (fun g => g_ID g =?s value)
  else None.

Definition upstream_groups (connector : string) (p : Group -> bool) (d : DB) : list Group :=
  sort_by (by_creation g_CreatedAt g_ID) (map snd (map_to_list (where_ (fun g => group_owned_by connector g && p g) (directory_groups d)))).

Definition ListUpstreamGroups (connector attribute value : string) (startIndex count : Z) (d : DB) : StoreError + (list UpstreamGroup * Z) :=
  match group_filter attribute value with
  | None => inl (ErrText "unsupported filter attribute")
  | Some p => let l := upstream_groups connector p d in
    inr (map (fun g => MkUpstreamGroup g (groupMembersTx d (g_ID g))) (page startIndex count l), Z.of_nat (length l))
  end.

(** The members to add, in any order: the code ranges over a Go map. *)
Definition ReplaceUpstreamGroup (lid : string -> string) (eid : string -> string -> string) (order : list string -> list string)
    (connector id : string) (audit : option AuditEvent) (edit : UpstreamGroup -> StoreError + UpstreamGroup) (now : Z) : STx unit :=
  d <- tx_get ;;
  match GetUpstreamGroup connector id d with
  | None => tx_fail ErrGroupTargetMissing
  | Some current =>
    let have := ug_Members current in
    match edit current with
    | inl e => tx_fail e
    | inr next =>
      let row := ug_Group current in let g := ug_Group next in let members := uniqueStrings (ug_Members next) in
      tx_guard ((g_Name g =?s g_Name row) || negb match group_policy d id with Some p => ep_Required p | None => false end) ErrEmergencyAdministrator ;;;
      tx_guard ((g_ExternalID g =?s EmptyString) || (g_ExternalID row =?s EmptyString) || (g_ExternalID g =?s g_ExternalID row))
        (ErrText "external id is immutable") ;;;
      let external := if g_ExternalID g =?s EmptyString then g_ExternalID row else g_ExternalID g in
      externalGroupFreeTx connector external id ;;;
      let added := List.filter (fun u => negb (one_of u have)) members in
      membersOwnedTx connector added ;;;
      tx_guard (negb (group_name_taken d id (g_Name g))) ErrGroupNameExists ;;;
      tx_set (on_directory_groups <[id := MkGroup (g_ID row) (g_Name g) (g_Description row) (g_SourceConnectorID row) external (g_CreatedAt row) now]>) ;;;
      let dropped := List.filter (fun u => negb (one_of u members)) have in
      tx_iter (fun user => applyGroupMembershipTx eid id user false None EmptyString now) dropped ;;;
      add_members eid id now (order added) ;;;
      (match dropped ++ added with [] => tx_ret tt | _ => reconcileAccessTx lid eid now end) ;;;
      recordAuditTx audit now
    end
  end.

Definition DeleteUpstreamGroup (lid : string -> string) (eid : string -> string -> string) (connector id : string) (expect : option Z)
    (audit : string -> option AuditEvent) (now : Z) : STx unit :=
  d <- tx_get ;;
  match directory_groups d !! id with
  | Some g =>
    tx_guard (group_owned_by connector g) ErrGroupTargetMissing ;;;
    tx_guard (match expect with Some t => g_UpdatedAt g =? t | None => true end) ErrGroupVersionStale ;;;
    name <- deleteGroupTx lid eid id EmptyString now ;;
    recordAuditTx (audit name) now
  | None => tx_fail ErrGroupTargetMissing
  end.

End scim_inbound.

(** ** Facts *)

Section scim_inbound_facts.
Context `{Codec}.

(** *** Account updates *)

(** The whole row an update writes. *)
Lemma updateUser_row lid eid id edit audit now d stored d' : updateUser lid eid id edit audit now d = inr (stored, d') ->
  exists row u ends rv v, users d !! id = Some row /\ edit d (scanUser now row) = inr (u, ends, rv) /\
    users d' = <[id := set_u_EmailVerifiedAt v (updated_row row (ApplySourceState (set_u_ID id u)) ends now)]> (users d).
Proof.
  unfold updateUser. intros Hr. apply tx_bind_inr in Hr as (a1 & d0 & He & Hr). injection He as <- <-.
  destruct (users d !! id) as [row|] eqn:Erow; [|done]. cbv zeta in Hr.
  destruct (edit d (scanUser now row)) as [e|[[u ends] rv]] eqn:Eed; [done|]. exists row, u, ends, rv.
  remember (updated_row row (ApplySourceState (set_u_ID id u)) ends now) as w0 eqn:Hw0.
  assert (w0 = set_u_EmailVerifiedAt (u_EmailVerifiedAt w0) w0) as Hv by by subst w0. clear Hw0.
  apply tx_bind_inr in Hr as (a2 & d0 & He & Hr). apply tx_guard_inr in He as [_ ->].
  apply tx_bind_inr in Hr as (a3 & d0 & Hguard & Hr).
  assert (d0 = d) as ->.
  { match type of Hguard with (if ?b then _ else _) _ = _ => destruct b end; [|by injection Hguard]. unfold requirePermanentAdminTx in Hguard.
    apply tx_bind_inr in Hguard as (b & e & Hb & Hguard). injection Hb as <- <-. by apply tx_guard_inr in Hguard as [_ ->]. }
  apply tx_bind_inr in Hr as (a4 & d1 & He & Hr). apply tx_guard_inr in He as [_ ->].
  apply tx_bind_inr in Hr as (a5 & d1 & He & Hr). injection He as _ <-.
  apply tx_bind_inr in Hr as (a6 & d1 & Htr & Hr). apply tx_bind_inr in Hr as (a7 & d2 & Hx1 & Hr).
  assert (users d1 = <[id := w0]> (users d)) as H1.
  { unfold role_triggers in Htr. apply tx_bind_inr in Htr as (b & e & Hb & Htr). injection Hb as <- <-.
    apply tx_bind_inr in Htr as (b & e & Hb & Htr). apply tx_guard_inr in Hb as [_ ->]. by injection Htr as _ <-. }
  assert (users d2 = users d1) as H2.
  { match type of Hx1 with (if ?b then _ else _) _ = _ => destruct b end; [by apply expireAccountTokens_inv in Hx1 as [t ->]|]. by injection Hx1 as _ <-. }
  apply tx_bind_inr in Hr as (a8 & d3 & Hx2 & Hr).
  assert (exists v, users d3 = <[id := set_u_EmailVerifiedAt v w0]> (users d)) as [v H3].
  { match type of Hx2 with (if ?b then _ else _) _ = _ => destruct b end.
    - injection Hx2 as _ <-. exists (u_EmailVerifiedAt w0). by rewrite <- Hv, H2.
    - apply tx_bind_inr in Hx2 as (b & e & Hb & Hx2). injection Hb as _ <-. apply expireAccountTokens_inv in Hx2 as [t2 ->].
      exists None. cbn -[alter insert]. rewrite H2, H1. apply alter_insert_eq. }
  exists v. split; [done|]. split; [done|]. rewrite <- H3.
  apply tx_bind_inr in Hr as (a9 & d4 & He & Hr). injection He as <- <-.
  destruct (get_user now d3 id) as [st|]; [|done].
  apply tx_bind_inr in Hr as (a10 & d5 & Hoff & Hr). apply tx_bind_inr in Hr as ([] & d6 & Hq & Hr).
  apply tx_bind_inr in Hr as ([] & d7 & Hrec & Hr). apply tx_bind_inr in Hr as (a11 & d8 & Ha & Hr). injection Hr as _ <-.
  apply recordAuditTx_inv in Ha as (m & q & ->). apply reconcile_queued, queued_users in Hrec. apply queueUserUpdate_queued, queued_users in Hq.
  change (users d7 = users d3). rewrite Hrec, Hq.
  match type of Hoff with (if ?b then _ else _) _ = _ => destruct b end.
  - apply offboard_inv in Hoff as (d9 & H0 & Hq0). apply queued_users in Hq0. apply revokeUserAccess_users in H0. congruence.
  - destruct rv; [by apply revokeUserAccess_users in Hoff|by injection Hoff as _ <-].
Qed.

Lemma update_upstream_inr lid eid connector id audit edit now d stored d' :
  UpdateUpstreamUser lid eid connector id audit edit now d = (inr stored, d') ->
  updateUser lid eid id (upstream_edit connector edit) audit now d = inr (stored, d').
Proof.
  unfold UpdateUpstreamUser. destruct (commit _ d) as [[e|s] d1] eqn:Ec; [by destruct e|]. intros [= -> <-]. by apply commit_inr in Ec.
Qed.

(** A refused write leaves the store alone. *)
Lemma update_upstream_inl lid eid connector id audit edit now d e d' :
  UpdateUpstreamUser lid eid connector id audit edit now d = (inl e, d') -> d' = d.
Proof.
  unfold UpdateUpstreamUser. destruct (commit _ d) as [[e0|s] d1] eqn:Ec; [|done]. apply commit_inl in Ec as [-> _].
  intros Hd. assert (snd (inl e : StoreError + User, d') = d); [|done]. rewrite <- Hd. by destruct e0.
Qed.

(** What the upstream may have changed of an account it owns. *)
Definition confined_write (connector : string) (d : DB) (row new : User) : Prop :=
  owned_by connector row = true /\ u_ID new = u_ID row /\ u_Role new = u_Role row /\ u_PasswordHash new = u_PasswordHash row /\
  u_Pending new = u_Pending row /\ u_LocallyDisabled new = u_LocallyDisabled row /\ u_EndsAt new = u_EndsAt row /\
  u_SourceConnectorID new = u_SourceConnectorID row /\ u_ExternalID new = u_ExternalID row /\
  (u_Status new = "active"%string <-> u_SourceActive new = true /\ u_LocallyDisabled row = false /\ u_Pending row = false) /\
  (privileged d (u_Role row) (u_ID row) = true ->
   EqualFold (u_Username row) (u_Username new) = true /\ EqualFold (u_Email row) (u_Email new) = true) /\
  cross_identity_clash d (u_ID new) (u_Username new) (u_Email new) = false.

Lemma update_upstream_confined lid eid connector id audit edit now d :
  users_keyed d -> (forall u v, edit u = inr v -> u_ID v = u_ID u) ->
  let '(r, d') := UpdateUpstreamUser lid eid connector id audit edit now d in
  match r with
  | inl _ => d' = d
  | inr _ => exists row new, users d !! id = Some row /\ users d' = <[id := new]> (users d) /\ confined_write connector d row new
  end.
Proof.
  intros Hk Hid. destruct (UpdateUpstreamUser _ _ _ _ _ _ _ _) as [[e|stored] d'] eqn:Eu; [by eapply update_upstream_inl|].
  apply update_upstream_inr, updateUser_row in Eu as (row & u & ends & rv & v & Hrow & Hed & Hus).
  exists row. eexists. split; [done|]. split; [exact Hus|]. clear Hus stored d'. pose proof (Hk _ _ Hrow) as Hrid.
  unfold upstream_edit in Hed. destruct (scanUser_fields now row) as (Sid & Srole & Sends & Semail).
  assert (forall {A} (f : User -> A), (forall s r, f (set_u_Status s r) = f r) -> f (scanUser now row) = f row) as Sf.
  { intros A f Hf. unfold scanUser. destruct (u_EndsAt row) as [t|]; [|done]. by destruct (of_unix t <=? now). }
  assert (owned_by connector (scanUser now row) = owned_by connector row) as Sown by (apply Sf; done).
  rewrite Sown in Hed. destruct (owned_by connector row) eqn:Eo; [|done]. cbn [negb] in Hed.
  destruct (edit (scanUser now row)) as [|e] eqn:Ee; [done|]. apply Hid in Ee.
  rewrite !(Sf _ u_ExternalID), (Sf _ u_Username), (Sf _ u_Email), Srole in Hed by done.
  destruct (u_ExternalID e =?s u_ExternalID row) eqn:Ext; [|done]. apply streqb_true in Ext. cbn [negb] in Hed.
  destruct (negb _ && _) eqn:Ep; [done|]. destruct (cross_identity_clash _ _ _ _) eqn:Ec; [done|]. injection Hed as <- <- <-.
  assert (u_SourceConnectorID row =?s EmptyString = false) as Hsrc.
  { unfold owned_by in Eo. bool_hyps. apply streqb_false. congruence. }
  unfold confined_write, ApplySourceState. cbn. rewrite !(Sf _ u_SourceConnectorID), Hsrc by done. cbn.
  rewrite !(Sf _ u_Role), !(Sf _ u_PasswordHash), !(Sf _ u_Pending), !(Sf _ u_LocallyDisabled), Sends by done.
  do 2 (split; [done|]). split; [done|]. split; [done|]. split; [done|]. split; [done|].
  split; [destruct (u_EndsAt row); cbn; [by rewrite unix_of_unix|done]|]. do 2 (split; [done|]). split.
  { destruct (u_SourceActive e), (u_LocallyDisabled row), (u_Pending row); cbn; intuition discriminate. }
  rewrite Ee, Sid in Ep, Ec. split; [|done]. intros Hp. rewrite Hp, andb_true_r in Ep. apply negb_false_iff in Ep. by apply andb_true_iff in Ep.
Qed.

(** *** Frames of the group operations *)

(** The tables a role or access follow-up leaves alone. *)
Definition same_directory (d d' : DB) : Prop :=
  users d' = users d /\ directory_groups d' = directory_groups d /\ group_memberships d' = group_memberships d.

Lemma same_directory_refl d : same_directory d d.
Proof. done. Qed.

Lemma same_directory_trans d1 d2 d3 : same_directory d1 d2 -> same_directory d2 d3 -> same_directory d1 d3.
Proof. unfold same_directory. intuition congruence. Qed.

Lemma queued_directory d d' : queued d d' -> same_directory d d'.
Proof. by intros (es & st & ->). Qed.

Lemma role_users_directory eid app l now : forall d u d', role_users eid app l now d = inr (u, d') -> same_directory d d'.
Proof.
  induction l as [|x l IH]; intros d u d' Hr; cbn [role_users] in Hr; [by injection Hr as _ <-|].
  apply tx_bind_inr in Hr as (a1 & d0 & He & Hr). injection He as _ <-.
  apply tx_bind_inr in Hr as (a2 & d0 & He & Hr). injection He as <- <-.
  apply (same_directory_trans _ (revoke_for_roles app x now d)); [unfold revoke_for_roles; by destruct (a_ClientID app)|].
  destruct (a_SystemID app) as [sys|]; [|by eapply IH].
  destruct (role_desired _ _ _ _ _); [|by eapply IH]. destruct (get_user _ _ _); [|by injection Hr as _ <-].
  apply tx_bind_inr in Hr as (a3 & d2 & H2 & Hr). eapply same_directory_trans; [|by eapply IH].
  by eapply queued_directory, queue_queued.
Qed.

Lemma roleChange_apps_directory eid apps l now d u d' : roleChangeForAppsTx eid apps l now d = inr (u, d') -> same_directory d d'.
Proof.
  unfold roleChangeForAppsTx. destruct l as [|x l]; [by intros [= _ <-]|]. intros Hr.
  apply (tx_iter_preserves (same_directory d)) in Hr; [done| |done]. intros a s v s' _ Hs Ha.
  unfold roleChangeTx in Ha. apply tx_bind_inr in Ha as (a1 & d0 & He & Ha). injection He as _ <-.
  apply role_users_directory in Ha. eapply same_directory_trans; [exact Hs|]. exact Ha.
Qed.

Lemma groupRoleChange_directory eid g l now d u d' : groupRoleChangeTx eid g l now d = inr (u, d') -> same_directory d d'.
Proof. unfold groupRoleChangeTx. intros Hr. apply tx_bind_inr in Hr as (a & d0 & He & Hr). injection He as <- <-. by apply roleChange_apps_directory in Hr. Qed.

Lemma reconcileAccess_directory lid eid now d u d' : reconcileAccessTx lid eid now d = inr (u, d') -> same_directory d d' /\ access_closed now d'.
Proof.
  unfold reconcileAccessTx. intros Hr. apply tx_bind_inr in Hr as (a & d1 & H1 & Hr). pose proof (revokeLost_closed _ _ _ _ _ H1) as Hc.
  apply revokeLost_inv in H1 as [m ->]. apply reconcile_queued in Hr. split; [|by eapply queued_closed].
  by destruct Hr as (es & st & ->).
Qed.

Lemma applyMembership_inv eid g user member expires session now d u d' :
  applyGroupMembershipTx eid g user member expires session now d = inr (u, d') ->
  users d' = users d /\ directory_groups d' = directory_groups d /\
  group_memberships d' = (if member then <[(g, user) := unixOrNil expires]> else delete (g, user)) (group_memberships d).
Proof.
  unfold applyGroupMembershipTx. intros Hr. apply tx_bind_inr in Hr as (a & d0 & He & Hr). injection He as <- <-.
  apply tx_bind_inr in Hr as (a1 & d0 & He & Hr). apply tx_guard_inr in He as [_ ->]. cbv zeta in Hr.
  apply tx_bind_inr in Hr as (a2 & d0 & He & Hr). injection He as _ <-. set (d1 := on_group_memberships _ _) in *.
  apply tx_bind_inr in Hr as (a3 & d2 & H2 & Hr).
  assert (same_directory d1 d2) as S2 by (match type of H2 with (if ?b then _ else _) _ = _ => destruct b end; by injection H2 as _ <-).
  apply tx_bind_inr in Hr as (a4 & d0 & He & Hr). injection He as <- <-. destruct (group_policy d2 g) as [p|]; [|done].
  apply tx_bind_inr in Hr as (a5 & d3 & H3 & Hr).
  assert (same_directory d2 d3) as S3.
  { match type of H3 with (if ?b then _ else _) _ = _ => destruct b end; [|by injection H3 as _ <-].
    apply tx_bind_inr in H3 as (b & e & Hb & H3). apply tx_guard_inr in Hb as [_ ->].
    apply tx_bind_inr in H3 as (b1 & e & Hb & H3). apply tx_guard_inr in Hb as [_ ->].
    unfold invalidateUserEnrollmentTx in H3. tx_inv. done. }
  assert (same_directory d3 d') as S4.
  { match type of Hr with (if ?b then _ else _) _ = _ => destruct b end; [by eapply groupRoleChange_directory|by injection Hr as _ <-]. }
  destruct (same_directory_trans _ _ _ S2 (same_directory_trans _ _ _ S3 S4)) as (-> & -> & ->). by destruct member.
Qed.

(** *** Membership after a replace *)

Lemma uniqueStrings_spec l : NoDup (uniqueStrings l) /\ forall v, In v (uniqueStrings l) <-> v <> EmptyString /\ In v (map TrimSpace l).
Proof.
  induction l as [|x l [Hnd Hin]]; cbn; [split; [constructor|naive_solver]|]. destruct (TrimSpace x =?s EmptyString) eqn:E.
  - apply streqb_true in E. split; [done|]. intros v. rewrite Hin, E. naive_solver.
  - apply streqb_false in E. assert (forall v, In v (List.filter (fun y => y <>?s TrimSpace x) (uniqueStrings l)) <->
      v <> TrimSpace x /\ In v (uniqueStrings l)) as Hf.
    { intros v. rewrite filter_In. split; [intros [? Hb]; apply negb_true_iff, streqb_false in Hb; done|intros [Hn ?]; split; [done|by apply negb_true_iff, streqb_false]]. }
    split.
    + constructor; [intros Hx%list_elem_of_In; apply Hf in Hx; naive_solver|]. apply NoDup_ListNoDup, List.NoDup_filter. by apply NoDup_ListNoDup.
    + intros v. cbn [In]. rewrite Hf, Hin. destruct (decide (v = TrimSpace x)) as [->|]; naive_solver.
Qed.

(** Writing the members of one group, in any order. *)
Lemma memberships_iter eid g member now l : forall d u d',
  tx_iter (fun user => applyGroupMembershipTx eid g user member None EmptyString now) l d = inr (u, d') ->
  users d' = users d /\ directory_groups d' = directory_groups d /\
  forall k, group_memberships d' !! k =
    if (k.1 =?s g) && one_of k.2 l then (if member then Some None else None) else group_memberships d !! k.
Proof.
  induction l as [|x l IH]; intros d u d' Hr; cbn [tx_iter] in Hr.
  - injection Hr as _ <-. do 2 (split; [done|]). intros k. cbn. by rewrite andb_false_r.
  - apply tx_bind_inr in Hr as (a & d1 & H1 & Hr). apply applyMembership_inv in H1 as (Hu & Hg & Hm).
    apply IH in Hr as (Hu' & Hg' & Hk). split; [congruence|]. split; [congruence|]. intros [g' v]. rewrite Hk, Hm. unfold one_of. cbn [existsb fst snd].
    destruct (g' =?s g) eqn:Eg; cbn [andb].
    + apply streqb_true in Eg as ->. destruct (existsb _ l); [by rewrite orb_true_r|]. rewrite orb_false_r. destruct (v =?s x) eqn:Ev.
      * apply streqb_true in Ev as ->. destruct member; [by rewrite lookup_insert_eq|by rewrite lookup_delete_eq].
      * apply streqb_false in Ev. destruct member; [rewrite lookup_insert_ne|rewrite lookup_delete_ne]; congruence.
    + apply streqb_false in Eg. destruct member; [rewrite lookup_insert_ne|rewrite lookup_delete_ne]; congruence.
Qed.

Lemma group_members_spec d g u : In u (groupMembersTx d g) <-> is_Some (group_memberships d !! (g, u)).
Proof.
  unfold groupMembersTx. unfold sort_strings. rewrite <- list_elem_of_In, (merge_sort_Permutation str_le), list_elem_of_In, in_map_iff. split.
  - intros ([[g' u'] e] & Hu & Hin). cbn in Hu. subst u'. apply filter_In in Hin as [Hin Hb]. cbn in Hb. apply streqb_true in Hb as ->.
    apply list_elem_of_In, elem_of_map_to_list in Hin. by exists e.
  - intros [e He]. exists ((g, u), e). split; [done|]. apply filter_In. cbn. rewrite streqb_refl. split; [|done].
    by apply list_elem_of_In, elem_of_map_to_list.
Qed.


(** What a replace wrote: the members to add and to drop, one row each. *)
Definition to_add (have members : list string) : list string := List.filter (fun u => negb (one_of u have)) members.
Definition to_drop (have members : list string) : list string := List.filter (fun u => negb (one_of u members)) have.

Lemma In_to_add have members u : In u (to_add have members) <-> In u members /\ ~ In u have.
Proof. unfold to_add. by rewrite filter_In, negb_true_iff, <- not_true_iff_false, one_of_true. Qed.

Lemma In_to_drop have members u : In u (to_drop have members) <-> In u have /\ ~ In u members.
Proof. unfold to_drop. by rewrite filter_In, negb_true_iff, <- not_true_iff_false, one_of_true. Qed.

Lemma replace_inv lid eid order connector id audit edit now d d' :
  ReplaceUpstreamGroup lid eid order connector id audit edit now d = inr (tt, d') ->
  exists current next, GetUpstreamGroup connector id d = Some current /\ edit current = inr next /\
    let members := uniqueStrings (ug_Members next) in
    let added := to_add (ug_Members current) members in let dropped := to_drop (ug_Members current) members in
    forallb (fun id => match users d !! id with Some u => owned_by connector u | None => false end) added = true /\
    users d' = users d /\
    (exists g, directory_groups d' = <[id := g]> (directory_groups d) /\ g_SourceConnectorID g = connector /\ g_Name g = g_Name (ug_Group next)) /\
    (forall k, group_memberships d' !! k = if (k.1 =?s id) && one_of k.2 (order added) then Some None
      else if (k.1 =?s id) && one_of k.2 dropped then None else group_memberships d !! k) /\
    (dropped ++ added <> [] -> access_closed now d').
Proof.
  intros Hr. unfold ReplaceUpstreamGroup in Hr. apply tx_bind_inr in Hr as (a & d0 & He & Hr). injection He as <- <-.
  destruct (GetUpstreamGroup connector id d) as [current|] eqn:Ecur; [|done]. cbv zeta in Hr.
  destruct (edit current) as [|next] eqn:Ee; [done|]. exists current, next. split; [done|]. split; [done|]. cbv zeta.
  unfold GetUpstreamGroup in Ecur. destruct (directory_groups d !! id) as [row|] eqn:Erow; [|done].
  destruct (group_owned_by connector row) eqn:Eown; [|done]. injection Ecur as <-. cbn [ug_Group ug_Members] in *.
  unfold group_owned_by in Eown. apply andb_true_iff in Eown as [_ Eown]. apply streqb_true in Eown.
  set (members := uniqueStrings (ug_Members next)) in *. set (have := groupMembersTx d id) in *.
  fold (to_add have members) (to_drop have members) in Hr. set (added := to_add have members) in *. set (dropped := to_drop have members) in *.
  apply tx_bind_inr in Hr as (a1 & d0 & He & Hr). apply tx_guard_inr in He as [_ ->].
  apply tx_bind_inr in Hr as (a2 & d0 & He & Hr). apply tx_guard_inr in He as [_ ->].
  apply tx_bind_inr in Hr as (a3 & d0 & He & Hr). unfold externalGroupFreeTx in He.
  apply tx_bind_inr in He as (b & e & Hb & He). injection Hb as <- <-. apply tx_guard_inr in He as [_ ->].
  apply tx_bind_inr in Hr as (a4 & d0 & He & Hr). unfold membersOwnedTx in He.
  apply tx_bind_inr in He as (b & e & Hb & He). injection Hb as <- <-. apply tx_guard_inr in He as [Hown ->].
  apply tx_bind_inr in Hr as (a5 & d0 & He & Hr). apply tx_guard_inr in He as [_ ->].
  apply tx_bind_inr in Hr as (a6 & d0 & He & Hr). injection He as _ <-.
  apply tx_bind_inr in Hr as (a7 & d1 & H1 & Hr). apply memberships_iter in H1 as (Hu1 & Hg1 & Hm1).
  apply tx_bind_inr in Hr as (a8 & d2 & H2 & Hr). apply memberships_iter in H2 as (Hu2 & Hg2 & Hm2).
  apply tx_bind_inr in Hr as (a9 & d3 & H3 & Hr). apply recordAuditTx_inv in Hr as (m & q & ->).
  assert (same_directory d2 d3 /\ (dropped ++ added <> [] -> access_closed now d3)) as [(Hu3 & Hg3 & Hm3) Hcl].
  { match type of H3 with (match ?l with [] => _ | _ => _ end) _ = _ => change l with (dropped ++ added) in H3 end. destruct (dropped ++ added); [by injection H3 as _ <-|]. apply reconcileAccess_directory in H3 as [? ?]. by split. }
  cbn -[lookup insert] in Hu1, Hg1, Hm1.
  change (group_memberships (audited m q d3)) with (group_memberships d3). change (users (audited m q d3)) with (users d3).
  change (directory_groups (audited m q d3)) with (directory_groups d3). change (access_closed now (audited m q d3)) with (access_closed now d3).
  rewrite Hu3, Hu2, Hu1, Hg3, Hg2, Hg1, Hm3. split; [done|]. split; [done|]. split; [eexists; split; [reflexivity|by rewrite <- Eown]|].
  split; [|done]. intros k. by rewrite Hm2, Hm1.
Qed.

(** Replacing an upstream group leaves exactly the requested accounts as
    members, each once, all owned by the connector, under a free name and
    external id; other groups keep their members, and access and desired
    state agree again. *)
Theorem replace_sets_exactly_the_members lid eid order connector id audit edit now d d' :
  (forall l, Permutation (order l) l) ->
  ReplaceUpstreamGroup lid eid order connector id audit edit now d = inr (tt, d') ->
  exists current next, GetUpstreamGroup connector id d = Some current /\ edit current = inr next /\
    let members := uniqueStrings (ug_Members next) in
    (forall u, is_Some (group_memberships d' !! (id, u)) <-> In u members) /\
    (forall u, In u members -> In u (ug_Members current) -> group_memberships d' !! (id, u) = group_memberships d !! (id, u)) /\
    (forall u, In u members -> ~ In u (ug_Members current) -> exists x, users d !! u = Some x /\ owned_by connector x = true) /\
    (forall g u, g <> id -> group_memberships d' !! (g, u) = group_memberships d !! (g, u)) /\
    users d' = users d /\ (group_memberships d' <> group_memberships d -> access_closed now d') /\
    exists g, directory_groups d' = <[id := g]> (directory_groups d) /\ g_SourceConnectorID g = connector /\ g_Name g = g_Name (ug_Group next).
Proof.
  intros Hord Hr. apply replace_inv in Hr as (current & next & Hc & He & Hown & Hu & Hg & Hm & Hcl). exists current, next.
  split; [done|]. split; [done|]. cbv zeta.
  assert (forall u, is_Some (group_memberships d !! (id, u)) <-> In u (ug_Members current)) as Hhave.
  { intros u. unfold GetUpstreamGroup in Hc. destruct (directory_groups d !! id) as [g|]; [|done]. destruct (group_owned_by connector g); [|done].
    injection Hc as <-. symmetry. apply group_members_spec. }
  set (members := uniqueStrings (ug_Members next)) in *. set (have := ug_Members current) in *.
  set (added := to_add have members) in *. set (dropped := to_drop have members) in *.
  assert (forall u, one_of u (order added) = true <-> In u members /\ ~ In u have) as Ha.
  { intros u. rewrite one_of_true, <- In_to_add. by rewrite <- !list_elem_of_In, (Hord added). }
  assert (forall u, one_of u dropped = true <-> In u have /\ ~ In u members) as Hd by (intros u; rewrite one_of_true; apply In_to_drop).
  assert (forall (l : list string) u, In u l \/ ~ In u l) as Hdec by (intros l u; destruct (decide (u ∈ l)) as [Hi|Hi]; rewrite list_elem_of_In in Hi; tauto).
  assert (forall u, group_memberships d' !! (id, u) = if one_of u (order added) then Some None else if one_of u dropped then None else group_memberships d !! (id, u)) as Hmi.
  { intros u. rewrite Hm. cbn [fst snd]. by rewrite streqb_refl. }
  split; [|split; [|split; [|split; [|split; [done|split; [|done]]]]]].
  - intros u. rewrite Hmi. specialize (Ha u). specialize (Hd u). specialize (Hhave u). destruct (one_of u (order added)), (one_of u dropped).
    + split; [tauto|by eexists].
    + split; [tauto|by eexists].
    + split; [by intros []|tauto].
    + rewrite Hhave. destruct (Hdec members u), (Hdec have u); intuition discriminate.
  - intros u Hi Hh. rewrite Hmi. specialize (Ha u). specialize (Hd u). destruct (one_of u (order added)), (one_of u dropped); tauto.
  - intros u Hi Hh. rewrite forallb_forall in Hown. specialize (Hown u (proj2 (In_to_add have members u) (conj Hi Hh))). cbn -[lookup] in Hown.
    destruct (users d !! u) as [x|]; [|done]. by exists x.
  - intros g u Hne. rewrite Hm. cbn [fst snd]. by rewrite (proj2 (streqb_false g id) Hne).
  - intros Hne. apply Hcl. intros Hnil. apply app_eq_nil in Hnil as [Hd0 Ha0]. fold dropped in Hd0. fold added in Ha0. apply Hne, map_eq. intros k.
    rewrite Hm. fold dropped added. pose proof (Hord added) as Hp. rewrite Ha0 in Hp |- *. apply Permutation_sym, Permutation_nil in Hp as ->.
    rewrite Hd0. cbn. by rewrite andb_false_r.
Qed.

(** *** Everything an upstream can do *)

(** The calls its bearer token admits, for connector [c]. *)
Inductive upstream_step (c : string) : DB -> DB -> Prop :=
| us_create id u audit now d r d' : u_SourceConnectorID u = c -> CreateUpstreamUser id u audit now d = inr (r, d') -> upstream_step c d d'
| us_update lid eid id audit edit now d r d' : (forall u v, edit u = inr v -> u_ID v = u_ID u) ->
    UpdateUpstreamUser lid eid c id audit edit now d = (r, d') -> upstream_step c d d'
| us_create_group lid eid id g members audit now d d' : g_SourceConnectorID g = c ->
    CreateUpstreamGroup lid eid id g members audit now d = inr (tt, d') -> upstream_step c d d'
| us_replace lid eid order id audit edit now d d' :
    ReplaceUpstreamGroup lid eid order c id audit edit now d = inr (tt, d') -> upstream_step c d d'
| us_delete_group lid eid id expect audit now d d' :
    DeleteUpstreamGroup lid eid c id expect audit now d = inr (tt, d') -> upstream_step c d d'.

(** What stays of an account the upstream owns. *)
Definition kept (r0 r : User) : Prop :=
  u_Role r = u_Role r0 /\ u_PasswordHash r = u_PasswordHash r0 /\ u_Pending r = u_Pending r0 /\ u_LocallyDisabled r = u_LocallyDisabled r0 /\
  u_EndsAt r = u_EndsAt r0 /\ u_ExternalID r = u_ExternalID r0 /\
  (u_Role r0 = "admin"%string -> EqualFold (u_Username r0) (u_Username r) = true /\ EqualFold (u_Email r0) (u_Email r) = true).

(** A new one cannot sign in: no password, pending, not active, no role. *)
Definition powerless (r : User) : Prop :=
  u_Role r = "user"%string /\ u_PasswordHash r = EmptyString /\ u_Pending r = true /\ u_Status r <> "active"%string /\ u_LocallyDisabled r = false.

Definition confined (c : string) (o0 o : option User) : Prop :=
  match o0, o with
  | Some r0, Some r => if owned_by c r0 then owned_by c r = true /\ kept r0 r /\ (u_LocallyDisabled r0 = true -> r = r0 \/ u_Status r <> "active"%string)
      else r = r0
  | None, Some r => owned_by c r = true /\ powerless r
  | Some _, None => False
  | None, None => True
  end.

Lemma delete_group_users lid eid g session now d r d' : deleteGroupTx lid eid g session now d = inr (r, d') -> users d' = users d.
Proof.
  unfold deleteGroupTx. intros Hr. apply tx_bind_inr in Hr as (a & d0 & He & Hr). injection He as <- <-. cbv zeta in Hr.
  apply tx_bind_inr in Hr as (a1 & d0 & He & Hr). injection He as _ <-. apply tx_bind_inr in Hr as (a2 & d0 & He & Hr). injection He as _ <-.
  apply tx_bind_inr in Hr as (a3 & d0 & He & Hr). injection He as _ <-. apply tx_bind_inr in Hr as (a4 & d0 & He & Hr). apply tx_guard_inr in He as [_ ->].
  apply tx_bind_inr in Hr as (a5 & d0 & He & Hr). apply tx_guard_inr in He as [_ ->]. destruct (directory_groups d !! g) as [row|]; [|done].
  apply tx_bind_inr in Hr as (a6 & d0 & He & Hr). injection He as _ <-. apply tx_bind_inr in Hr as (a7 & d1 & H1 & Hr).
  apply tx_bind_inr in Hr as (a8 & d2 & H2 & Hr). injection Hr as _ <-. apply roleChange_apps_directory in H1 as [H1 _].
  apply reconcileAccess_directory in H2 as [[H2 _] _]. by rewrite H2, H1.
Qed.

Lemma create_group_users lid eid id g members audit now d d' : CreateUpstreamGroup lid eid id g members audit now d = inr (tt, d') -> users d' = users d.
Proof.
  unfold CreateUpstreamGroup. intros Hr. apply tx_bind_inr in Hr as (a & d0 & He & Hr). apply tx_guard_inr in He as [_ ->]. cbv zeta in Hr.
  apply tx_bind_inr in Hr as (a1 & d0 & He & Hr). unfold externalGroupFreeTx in He.
  apply tx_bind_inr in He as (b & e & Hb & He). injection Hb as <- <-. apply tx_guard_inr in He as [_ ->].
  apply tx_bind_inr in Hr as (a2 & d0 & He & Hr). unfold membersOwnedTx in He.
  apply tx_bind_inr in He as (b & e & Hb & He). injection Hb as <- <-. apply tx_guard_inr in He as [_ ->].
  apply tx_bind_inr in Hr as (a3 & d0 & He & Hr). injection He as <- <-. apply tx_bind_inr in Hr as (a4 & d0 & He & Hr). apply tx_guard_inr in He as [_ ->].
  apply tx_bind_inr in Hr as (a5 & d0 & He & Hr). injection He as _ <-. apply tx_bind_inr in Hr as (a6 & d1 & He & Hr). unfold new_group_policy in He.
  apply insert_row_inv in He as [_ ->]. apply tx_bind_inr in Hr as (a7 & d2 & H2 & Hr). apply memberships_iter in H2 as (Hu & _).
  apply tx_bind_inr in Hr as (a8 & d3 & H3 & Hr). apply recordAuditTx_inv in Hr as (m & q & ->). change (users d3 = users d).
  destruct (uniqueStrings members); [by injection H3 as _ <-|]. apply reconcileAccess_directory in H3 as [[-> _] _]. exact Hu.
Qed.

Lemma create_upstream_inv id u audit now d r d' : CreateUpstreamUser id u audit now d = inr (r, d') ->
  users d !! id = None /\ users d' = <[id := r]> (users d) /\ u_ID r = id /\ owned_by (u_SourceConnectorID u) r = true /\ powerless r /\
  cross_identity_clash d id (u_Username r) (u_Email r) = false.
Proof.
  unfold CreateUpstreamUser. intros Hr. apply tx_bind_inr in Hr as (a & d0 & He & Hr). apply tx_guard_inr in He as [Hc ->]. cbv zeta in Hr.
  apply tx_bind_inr in Hr as (a1 & d0 & He & Hr). injection He as <- <-. apply tx_bind_inr in Hr as (a2 & d0 & He & Hr). apply tx_guard_inr in He as [Hx ->].
  apply tx_bind_inr in Hr as (a3 & d0 & He & Hr). apply tx_guard_inr in He as [Hn ->]. apply tx_bind_inr in Hr as (a4 & d0 & He & Hr). injection He as _ <-.
  apply tx_bind_inr in Hr as (a5 & d0 & He & Hr). injection He as _ <-. apply tx_bind_inr in Hr as (a6 & d1 & He & Hr). injection Hr as <- <-.
  apply recordAuditTx_inv in He as (m & q & ->). apply andb_true_iff in Hn as [Hn _]. apply andb_true_iff in Hn as [Hn _].
  apply andb_true_iff in Hc as [Hc _]. split; [by destruct (users d !! id)|]. split; [done|].
  unfold upstream_row, ApplySourceState, powerless, owned_by. cbn. apply negb_true_iff in Hc. rewrite Hc. cbn. rewrite streqb_refl, andb_false_r. cbn.
  apply negb_true_iff in Hx. by split_and!.
Qed.

Lemma upstream_step_confined c d0 d d' : upstream_step c d d' -> users_keyed d -> (forall k, confined c (users d0 !! k) (users d !! k)) ->
  users_keyed d' /\ forall k, confined c (users d0 !! k) (users d' !! k).
Proof.
  intros Hs Hk Hc. destruct Hs as [id u audit now d r d' <- Hr|lid eid id audit edit now d r d' Hid Hr|lid eid id g members audit now d d' _ Hr|
    lid eid order id audit edit now d d' Hr|lid eid id expect audit now d d' Hr].
  - apply create_upstream_inv in Hr as (Hn & Hu & Hi & Ho & Hp & _). unfold users_keyed. rewrite Hu. split; intros k.
    + intros x Hx. apply lookup_insert_Some in Hx as [[<- <-]|[_ Hx]]; [done|by apply Hk].
    + specialize (Hc k). destruct (decide (k = id)) as [->|Hne]; [|by rewrite lookup_insert_ne].
      rewrite lookup_insert_eq. rewrite Hn in Hc. by destruct (users d0 !! id).
  - pose proof (update_upstream_confined lid eid c id audit edit now d Hk Hid) as Hu. rewrite Hr in Hu. destruct r as [e|s]; [by subst|].
    destruct Hu as (row & new & Hrow & Hu & (Ho & Hi & Hro & Hpw & Hpe & Hld & Hen & Hsr & Hex & Hst & Hpr & _)).
    unfold users_keyed. rewrite Hu. split; intros k.
    { intros x Hx. apply lookup_insert_Some in Hx as [[<- <-]|[_ Hx]]; [|by apply Hk]. rewrite Hi. by apply Hk. }
    specialize (Hc k). destruct (decide (k = id)) as [->|Hne]; [|by rewrite lookup_insert_ne]. rewrite lookup_insert_eq. rewrite Hrow in Hc.
    assert (owned_by c new = true) as Ho' by (unfold owned_by in *; by rewrite Hsr). unfold confined in *.
    destruct (users d0 !! id) as [r0|]; [destruct (owned_by c r0) eqn:E0; [|by subst; congruence]|].
    + destruct Hc as (_ & (K1 & K2 & K3 & K4 & K5 & K6 & K7) & Hl). split; [done|]. unfold kept. split; [|].
      * repeat (split; [congruence|]). intros Ha. destruct (K7 Ha) as [E1 E2]. unfold privileged in Hpr. rewrite K1, Ha in Hpr. cbn in Hpr.
        destruct (Hpr eq_refl) as [P1 P2]. split; by eapply EqualFold_trans.
      * intros Hd. right. rewrite Hst. intros (_ & Hf & _). congruence.
    + destruct Hc as (_ & P1 & P2 & P3 & P4 & P5). split; [done|]. unfold powerless. do 3 (split; [congruence|]). split; [|congruence].
      rewrite Hst. intros (_ & _ & Hf). congruence.
  - unfold users_keyed. by rewrite (create_group_users _ _ _ _ _ _ _ _ _ Hr).
  - unfold users_keyed.
    by apply replace_inv in Hr as (? & ? & _ & _ & _ & -> & _).
  - unfold DeleteUpstreamGroup in Hr. apply tx_bind_inr in Hr as (a & e0 & He & Hr). injection He as <- <-.
    destruct (directory_groups d !! id) as [g|]; [|done]. apply tx_bind_inr in Hr as (a1 & e0 & He & Hr). apply tx_guard_inr in He as [_ ->].
    apply tx_bind_inr in Hr as (a2 & e0 & He & Hr). apply tx_guard_inr in He as [_ ->]. apply tx_bind_inr in Hr as (name & d1 & H1 & Hr).
    apply recordAuditTx_inv in Hr as (m & q & ->). apply delete_group_users in H1. unfold users_keyed.
    change (users (audited m q d1)) with (users d1). by rewrite H1.
Qed.

(** Transactions that leave the devices and enrolled factors as they are. *)
Definition keeps_factors {A} (m : STx A) : Prop := forall d a d', m d = inr (a, d') -> same_factors d d'.

Lemma factors_bind {A B} (m : STx A) (k : A -> STx B) : keeps_factors m -> (forall a, keeps_factors (k a)) -> keeps_factors (tx_bind m k).
Proof.
  intros Hm Hk d b d' Hr. apply tx_bind_inr in Hr as (a & d1 & H1 & Hr). apply Hm in H1 as (E1 & E2 & E3 & E4).
  apply Hk in Hr as (F1 & F2 & F3 & F4). repeat split; congruence.
Qed.

Lemma factors_get_bind {B} (k : DB -> STx B) : (forall d, keeps_factors (k d)) -> keeps_factors (tx_bind tx_get k).
Proof. intros Hk d b d' Hr. by apply Hk in Hr. Qed.

Lemma factors_ret {A} (a : A) : keeps_factors (tx_ret a).
Proof. intros d b d' [= _ <-]. by repeat split. Qed.

Lemma factors_fail {A} e : keeps_factors (A := A) (tx_fail e).
Proof. by intros d b d' Hr. Qed.

Lemma factors_guard b e : keeps_factors (tx_guard b e).
Proof. intros d a d' Hr. apply tx_guard_inr in Hr as [_ ->]. by repeat split. Qed.

Lemma factors_set f : (forall d, same_factors d (f d)) -> keeps_factors (tx_set f).
Proof. intros Hf d a d' [= _ <-]. apply Hf. Qed.

Lemma factors_iter {A} (f : A -> STx unit) l : (forall x, keeps_factors (f x)) -> keeps_factors (tx_iter f l).
Proof. intros Hf. induction l as [|x l IH]; cbn [tx_iter]; [apply factors_ret|]. apply factors_bind; [apply Hf|by intros _]. Qed.

Lemma factors_insert {K A} `{Countable K} get on (k : K) (r : A) : (forall f d, same_factors d (on f d)) -> keeps_factors (insert_row get on k r).
Proof. intros Ho d a d' Hr. apply insert_row_inv in Hr as [_ ->]. apply Ho. Qed.

Lemma factors_audit audit now : keeps_factors (recordAuditTx audit now).
Proof. intros d a d' Hr. apply recordAuditTx_inv in Hr as (m & q & ->). by repeat split. Qed.

Lemma factors_queued {A} (m : STx A) : (forall d a d', m d = inr (a, d') -> queued d d') -> keeps_factors m.
Proof. intros Hm d a d' Hr. apply Hm in Hr as (es & st & ->). by repeat split. Qed.

Lemma factors_expire now p : keeps_factors (expireAccountTokensTx now p).
Proof. intros d a d' Hr. apply expireAccountTokens_inv in Hr as [t ->]. by repeat split. Qed.

Lemma factors_reconcile eid now : keeps_factors (reconcileProvisioningTx eid now).
Proof. apply factors_queued. intros d a d'. apply reconcile_queued. Qed.

Lemma factors_revoke lid user now : keeps_factors (revokeUserAccessTx lid user now).
Proof. intros d a d' Hr. apply revokeUserAccessTx_inv in Hr as (m & _ & ->). by repeat split. Qed.

Lemma factors_lost lid now : keeps_factors (revokeLostAppAccessTx lid now).
Proof. intros d a d' Hr. apply revokeLost_inv in Hr as [m ->]. by repeat split. Qed.

Create HintDb keeps.
#[local] Hint Resolve factors_ret factors_fail factors_guard factors_audit factors_expire factors_reconcile factors_revoke factors_lost : keeps.
Ltac keeps := repeat (cbv zeta; match goal with
  | |- keeps_factors (tx_bind tx_get _) => apply factors_get_bind; intros
  | |- keeps_factors (tx_bind _ _) => apply factors_bind; [|intros]
  | |- keeps_factors (tx_set _) => apply factors_set; intros; by repeat split
  | |- keeps_factors (tx_iter _ _) => apply factors_iter; intros
  | |- keeps_factors (insert_row _ _ _ _) => apply factors_insert; intros; by repeat split
  | |- keeps_factors (match ?x with _ => _ end) => destruct x
  end); auto with keeps.

Lemma factors_queue eid s now : keeps_factors (queueDesiredStateTx eid s now).
Proof. apply factors_queued. intros d a d'. apply queue_queued. Qed.
#[local] Hint Resolve factors_queue : keeps.

Lemma factors_role_users eid app l now : keeps_factors (role_users eid app l now).
Proof.
  induction l as [|x l IH]; cbn [role_users]; [apply factors_ret|]. apply factors_bind; [|intros; keeps].
  apply factors_set. intros d. unfold revoke_for_roles. destruct (a_ClientID app); by repeat split.
Qed.
#[local] Hint Resolve factors_role_users : keeps.

Lemma factors_role_change eid apps l now : keeps_factors (roleChangeForAppsTx eid apps l now).
Proof. unfold roleChangeForAppsTx, roleChangeTx. keeps. Qed.

Lemma factors_membership eid g user member expires session now : keeps_factors (applyGroupMembershipTx eid g user member expires session now).
Proof.
  unfold applyGroupMembershipTx, invalidateUserEnrollmentTx, groupRoleChangeTx. keeps; apply factors_role_change.
Qed.

Lemma factors_access lid eid now : keeps_factors (reconcileAccessTx lid eid now).
Proof. unfold reconcileAccessTx. keeps. Qed.

Lemma factors_offboard lid eid u deleted now : keeps_factors (offboardUserTx lid eid u deleted now).
Proof. intros d a d' Hr. apply offboard_inv in Hr as (x & Hx & es & st & ->). apply factors_revoke in Hx. exact Hx. Qed.

Lemma factors_user_update eid u now : keeps_factors (queueUserUpdateTx eid u now).
Proof. apply factors_queued. intros d a d'. apply queueUserUpdate_queued. Qed.
#[local] Hint Resolve factors_offboard factors_user_update : keeps.

Lemma factors_update lid eid id edit audit now : keeps_factors (updateUser lid eid id edit audit now).
Proof. unfold updateUser, requirePermanentAdminTx, role_triggers. keeps. Qed.

#[local] Hint Resolve factors_membership factors_access factors_role_change : keeps.

Lemma upstream_step_factors c d d' : upstream_step c d d' -> same_factors d d'.
Proof.
  intros [id u audit now e r e' _ Hr|lid eid id audit edit now e r e' _ Hr|lid eid id g members audit now e e' _ Hr|
    lid eid order id audit edit now e e' Hr|lid eid id expect audit now e e' Hr].
  - revert Hr. generalize e r e'. change (keeps_factors (CreateUpstreamUser id u audit now)). unfold CreateUpstreamUser, role_triggers. keeps.
  - unfold UpdateUpstreamUser in Hr. destruct (commit _ e) as [[er|s] e1] eqn:Ec.
    + apply commit_inl in Ec as [-> _]. assert (e' = e) as -> by (destruct er; by injection Hr). by repeat split.
    + apply commit_inr, factors_update in Ec. by injection Hr as _ <-.
  - revert Hr. generalize tt at 1. generalize e e'. intros x y v. revert x v y.
    change (keeps_factors (CreateUpstreamGroup lid eid id g members audit now)).
    unfold CreateUpstreamGroup, externalGroupFreeTx, membersOwnedTx, new_group_policy, add_members. keeps.
  - revert Hr. generalize tt at 1. generalize e e'. intros x y v. revert x v y.
    change (keeps_factors (ReplaceUpstreamGroup lid eid order c id audit edit now)).
    unfold ReplaceUpstreamGroup, externalGroupFreeTx, membersOwnedTx, add_members. keeps.
  - revert Hr. generalize tt at 1. generalize e e'. intros x y v. revert x v y.
    change (keeps_factors (DeleteUpstreamGroup lid eid c id expect audit now)).
    unfold DeleteUpstreamGroup, deleteGroupTx. keeps.
Qed.

(** C33. Over every sequence of operations of one inbound connector, an account
    it does not own keeps every column, an account it owns keeps its role,
    local password, pending and locally-disabled flags, end date and
    external identifier, an administrator's also its name and address up to
    Unicode case folding, an account it creates holds no privilege, and no
    device, authenticator, recovery code or passkey changes. *)
Theorem an_upstream_only_writes_its_own c d0 d : users_keyed d0 -> rtc (upstream_step c) d0 d ->
  (forall k, confined c (users d0 !! k) (users d !! k)) /\
  native_devices d = native_devices d0 /\ mfa_methods d = mfa_methods d0 /\ recovery_codes d = recovery_codes d0 /\
  webauthn_credentials d = webauthn_credentials d0.
Proof.
  intros Hk Hs. split.
  - assert (forall x y, rtc (upstream_step c) x y -> users_keyed x -> (forall k, confined c (users d0 !! k) (users x !! k)) ->
      forall k, confined c (users d0 !! k) (users y !! k)) as Hrtc.
    { intros x y. induction 1 as [x|x z y Hxz _ IH]; [done|]. intros Hkx Hcx. destruct (upstream_step_confined c d0 x z Hxz Hkx Hcx) as [Hkz Hcz]. by apply IH. }
    apply (Hrtc d0 d Hs Hk). intros k. unfold confined. destruct (users d0 !! k) as [r|]; [|done].
    destruct (owned_by c r) eqn:E; [|done]. split; [done|]. split; [|intros _; by left]. unfold kept. split_and!; try done. intros _. split; apply EqualFold_refl.
  - change (same_factors d0 d). clear Hk. induction Hs as [x|x y z Hxy _ IH]; [by repeat split|].
    apply upstream_step_factors in Hxy as (E1 & E2 & E3 & E4). destruct IH as (F1 & F2 & F3 & F4). repeat split; congruence.
Qed.

(** *** Removing a connector *)

Definition release_rows (disable : bool) (now : Z) (l : list User) (t : gmap string User) : gmap string User :=
  fold_left (fun t u => alter (released_row u disable now) (u_ID u) t) l t.

Lemma release_accounts_inv lid eid disable now l : forall d u d',
  tx_iter (release_account lid eid disable now) l d = inr (u, d') ->
  users d' = release_rows disable now l (users d) /\ directory_groups d' = directory_groups d /\ scim_connectors d' = scim_connectors d /\
  scim_connector_tokens d' = scim_connector_tokens d.
Proof.
  induction l as [|x l IH]; intros d u d' Hr; cbn [tx_iter] in Hr; [by injection Hr as _ <-|].
  apply tx_bind_inr in Hr as (a & d1 & H1 & Hr). apply IH in Hr as (-> & -> & -> & ->).
  assert (users d1 = alter (released_row x disable now) (u_ID x) (users d) /\ directory_groups d1 = directory_groups d /\
    scim_connectors d1 = scim_connectors d /\ scim_connector_tokens d1 = scim_connector_tokens d) as (-> & -> & -> & ->); [|done].
  unfold release_account in H1. apply tx_bind_inr in H1 as (b & e & Hb & H1).
  assert (users e = users d /\ directory_groups e = directory_groups d /\ scim_connectors e = scim_connectors d /\
    scim_connector_tokens e = scim_connector_tokens d) as (<- & <- & <- & <-).
  { match type of Hb with (if ?c then _ else _) _ = _ => destruct c end; [|by injection Hb as _ <-].
    apply offboard_inv in Hb as (e0 & H0 & (es & st & ->)). by apply revokeUserAccessTx_inv in H0 as (m & _ & ->). }
  apply tx_bind_inr in H1 as (b1 & e1 & He & H1). injection He as _ <-.
  match type of H1 with (if ?c then _ else _) _ = _ => destruct c end; [by apply expireAccountTokens_inv in H1 as [t ->]|by injection H1 as _ <-].
Qed.

Lemma release_rows_other disable now l : forall t k, ~ In k (map u_ID l) -> release_rows disable now l t !! k = t !! k.
Proof.
  induction l as [|x l IH]; intros t k Hk; [done|].
  change (release_rows disable now (x :: l) t) with (release_rows disable now l (alter (released_row x disable now) (u_ID x) t)).
  cbn [map In] in Hk. rewrite IH by tauto. apply lookup_alter_ne. tauto.
Qed.

Lemma release_rows_hit disable now l : forall t k r, In k (map u_ID l) -> t !! k = Some r ->
  exists u x, In u l /\ u_ID u = k /\ release_rows disable now l t !! k = Some (released_row u disable now x) /\
    u_ID x = u_ID r /\ u_Role x = u_Role r /\ u_EndsAt x = u_EndsAt r.
Proof.
  induction l as [|y l IH]; intros t k r Hk Ht; [done|]. cbn [map In] in Hk.
  change (release_rows disable now (y :: l) t) with (release_rows disable now l (alter (released_row y disable now) (u_ID y) t)).
  destruct (decide (k ∈ map u_ID l)) as [Hi|Hi]; rewrite list_elem_of_In in Hi.
  - destruct (decide (u_ID y = k)) as [<-|Hne].
    + destruct (IH (alter (released_row y disable now) (u_ID y) t) (u_ID y) (released_row y disable now r) Hi) as (u & x & Hu & Hid & Hl & H1 & H2 & H3);
        [by rewrite lookup_alter_eq, Ht|]. exists u, x. split; [by right|]. done.
    + destruct (IH (alter (released_row y disable now) (u_ID y) t) k r Hi) as (u & x & Hu & Hrest); [by rewrite lookup_alter_ne|].
      exists u, x. split; [by right|]. done.
  - destruct Hk as [<-|Hk]; [|done]. exists y, r. split; [by left|]. split; [done|]. split; [|done].
    rewrite release_rows_other by done. by rewrite lookup_alter_eq, Ht.
Qed.

(** The rows a removal visits. *)
Definition owned_rows (id : string) (now : Z) (d : DB) : list User :=
  map (fun kv : string * User => scanUser now kv.2) (map_to_list (where_ (owned_by id) (users d))).

Lemma owned_rows_spec id now d y : users_keyed d ->
  In y (owned_rows id now d) <-> exists u, users d !! u_ID y = Some u /\ owned_by id u = true /\ y = scanUser now u.
Proof.
  intros Hk. unfold owned_rows. rewrite in_map_iff. split.
  - intros ([k u] & <- & Hl). apply list_elem_of_In, elem_of_map_to_list, lookup_where in Hl as [Hl Ho]. cbn in *. exists u.
    destruct (scanUser_fields now u) as (-> & _). by rewrite (Hk _ _ Hl).
  - intros (u & Hu & Ho & Hy). exists (u_ID y, u). split; [done|]. apply list_elem_of_In, elem_of_map_to_list, lookup_where. by split.
Qed.

Lemma owned_ids id now d k : users_keyed d -> In k (map u_ID (owned_rows id now d)) <-> exists u, users d !! k = Some u /\ owned_by id u = true.
Proof.
  intros Hk. rewrite in_map_iff. split.
  - intros (y & <- & Hy). apply owned_rows_spec in Hy as (u & Hu & Ho & _); [|done]. by exists u.
  - intros (u & Hu & Ho). exists (scanUser now u). destruct (scanUser_fields now u) as (Hid & _). rewrite Hid, (Hk _ _ Hu). split; [done|].
    apply owned_rows_spec; [done|]. exists u. by rewrite Hid, (Hk _ _ Hu).
Qed.

Lemma release_effect id disable now d k : users_keyed d ->
  match users d !! k with
  | Some u => if owned_by id u then exists x, release_rows disable now (owned_rows id now d) (users d) !! k = Some (released_row (scanUser now u) disable now x) /\
        u_ID x = u_ID u /\ u_Role x = u_Role u /\ u_EndsAt x = u_EndsAt u
      else release_rows disable now (owned_rows id now d) (users d) !! k = Some u
  | None => release_rows disable now (owned_rows id now d) (users d) !! k = None
  end.
Proof.
  intros Hk. destruct (users d !! k) as [u|] eqn:E.
  - destruct (owned_by id u) eqn:Eo.
    + destruct (release_rows_hit disable now (owned_rows id now d) (users d) k u) as (y & x & Hy & Hid & Hl & Hx); [apply owned_ids; eauto|done|].
      apply owned_rows_spec in Hy as (u' & Hu' & _ & ->); [|done]. rewrite Hid in Hu'. assert (u' = u) as -> by congruence. by exists x.
    + rewrite release_rows_other; [done|]. intros (u' & Hu' & Ho)%owned_ids; [|done]. congruence.
  - rewrite release_rows_other; [done|]. intros (u' & Hu' & Ho)%owned_ids; [|done]. congruence.
Qed.

Lemma delete_connector_inv lid eid id disable audit now d n d' : DeleteSCIMConnector lid eid id disable audit now d = inr (n, d') ->
  n = CountSCIMConnectorUsers id d /\ users d' = release_rows disable now (owned_rows id now d) (users d) /\
  directory_groups d' = update_where (group_owned_by id) (released_group now) (directory_groups d) /\
  scim_connectors d' = delete id (scim_connectors d) /\
  scim_connector_tokens d' = delete_where (fun t => ct_ConnectorID t =?s id) (scim_connector_tokens d) /\
  is_Some (scim_connectors d !! id) /\
  (disable = true -> exists_where (fun u => owned_by id u && activeAdminSQL now u) (users d) = true ->
   exists k x, users d !! k = Some x /\ permanent_admin x = true /\ owned_by id x = false).
Proof.
  intros Hr. unfold DeleteSCIMConnector in Hr. apply tx_bind_inr in Hr as (a & d0 & He & Hr). injection He as <- <-. cbv zeta in Hr.
  fold (owned_rows id now d) in Hr.
  apply tx_bind_inr in Hr as (a1 & d0 & Hguard & Hr). apply tx_bind_inr in Hr as (a2 & d1 & H1 & Hr). apply release_accounts_inv in H1 as (Hu & Hg & Hc & Ht).
  apply tx_bind_inr in Hr as (a3 & d2 & He & Hr). injection He as _ <-. apply tx_bind_inr in Hr as (a4 & d2 & He & Hr). injection He as <- <-.
  apply tx_bind_inr in Hr as (a5 & d2 & He & Hr). apply tx_guard_inr in He as [Hsome ->]. apply tx_bind_inr in Hr as (a6 & d2 & He & Hr). injection He as _ <-.
  apply tx_bind_inr in Hr as (a7 & d2 & He & Hr). injection He as _ <-. apply tx_bind_inr in Hr as ([] & d2 & Hq & Hr). apply reconcile_queued in Hq as (es & st & ->).
  apply tx_bind_inr in Hr as (a8 & d3 & He & Hr). injection Hr as <- <-. apply recordAuditTx_inv in He as (m & q & ->).
  assert (d0 = d /\ (disable = true -> exists_where (fun u => owned_by id u && activeAdminSQL now u) (users d) = true ->
    exists k x, users d !! k = Some x /\ permanent_admin x = true /\ owned_by id x = false)) as [-> Hperm].
  { destruct (disable && exists_where _ _) eqn:Eb; [|injection Hguard as _ <-; split; [done|]; intros -> E; rewrite E in Eb; done].
    unfold requirePermanentAdminTx in Hguard. apply tx_bind_inr in Hguard as (b & e & Hb & Hguard). injection Hb as <- <-.
    apply tx_guard_inr in Hguard as [Hp ->]. split; [done|]. intros _ _. apply exists_where_true in Hp as (k & x & Hx & Hp). bool_hyps. by exists k, x. }
  split; [unfold owned_rows, CountSCIMConnectorUsers, count_where; by rewrite length_map, length_map_to_list|].
  split; [exact Hu|]. split; [cbn -[update_where]; by rewrite Hg|]. split; [cbn -[delete]; by rewrite Hc|]. split; [cbn -[delete_where]; by rewrite Ht|].
  split; [|done]. cbn in Hsome. rewrite Hc in Hsome. by destruct (scim_connectors d !! id).
Qed.

(** Removing an inbound connector deletes it with its tokens, keeps every
    account, releases the ones it owned, disabling them exactly when asked
    to or when upstream had, and changes no other account. *)
Theorem a_removed_connector_leaves_local_accounts lid eid id disable audit now d n d' :
  users_keyed d -> DeleteSCIMConnector lid eid id disable audit now d = inr (n, d') ->
  n = CountSCIMConnectorUsers id d /\ scim_connectors d' = delete id (scim_connectors d) /\
  (forall k t, scim_connector_tokens d' !! k = Some t -> ct_ConnectorID t <> id) /\
  (forall k u, users d' !! k = Some u -> owned_by id u = false) /\ (forall k g, directory_groups d' !! k = Some g -> group_owned_by id g = false) /\
  (forall k u, users d !! k = Some u -> owned_by id u = false -> users d' !! k = Some u) /\
  (forall k u, users d !! k = Some u -> owned_by id u = true -> exists u', users d' !! k = Some u' /\ u_Role u' = u_Role u /\
     u_SourceConnectorID u' = EmptyString /\ u_Status u' = if disable then "disabled"%string else u_Status (scanUser now u)) /\
  (has_permanent_admin d -> has_permanent_admin d').
Proof.
  intros Hk Hr. apply delete_connector_inv in Hr as (Hn & Hu & Hg & Hc & Ht & _ & Hp). rewrite Hu, Hg, Ht.
  pose proof (fun k => release_effect id disable now d k Hk) as He. split; [done|]. split; [done|]. split; [|split; [|split; [|split; [|split]]]].
  - intros k t Hl. apply lookup_delete_where_Some in Hl as [_ Hl]. by apply streqb_false.
  - intros k u Hl. specialize (He k). destruct (users d !! k) as [u0|]; [|congruence]. destruct (owned_by id u0) eqn:E0; [|congruence].
    destruct He as (x & Hx & _). rewrite Hx in Hl. injection Hl as <-. unfold owned_by. cbn. destruct id; done.
  - intros k g Hl. apply lookup_update_where_Some in Hl as (g0 & Hg0 & ->). destruct (group_owned_by id g0) eqn:E; [|done].
    unfold group_owned_by. cbn. destruct id; done.
  - intros k u Hl Ho. specialize (He k). by rewrite Hl, Ho in He.
  - intros k u Hl Ho. specialize (He k). rewrite Hl, Ho in He. destruct He as (x & Hx & _ & Hr & _). eexists. split; [exact Hx|].
    by rewrite <- Hr.
  - unfold has_permanent_admin. rewrite Hu. intros (k & u & Hl & Ha). specialize (He k) as Hek. rewrite Hl in Hek. destruct (owned_by id u) eqn:Eo; [|by exists k, u].
    destruct Hek as (x & Hx & _ & Hr & Hen). destruct disable.
    + destruct (Hp eq_refl) as (k2 & y & Hy & Hpa & Hyo).
      { apply exists_where_true. exists k, u. split; [done|]. rewrite Eo. by apply permanent_is_active. }
      exists k2, y. specialize (He k2). by rewrite Hy, Hyo in He.
    + eexists k, _. split; [exact Hx|]. unfold permanent_admin in *. cbn. rewrite Hr, Hen.
      assert (scanUser now u = u) as -> by (apply scanUser_unexpired; bool_hyps; by destruct (u_EndsAt u)). done.
Qed.

(** *** Bearer tokens *)

Lemma trim_issued raw : TrimPrefix (String.append "scim_" raw) "scim_" = raw.
Proof.
  unfold TrimPrefix. assert (String.prefix "scim_" (String.append "scim_" raw) = true) as -> by (by destruct raw).
  exact (string_bytes raw).
Qed.

(** The connectors' tokens as a store keeps them: unique hashes. *)
Definition tokens_unique (d : DB) : Prop := forall i j s t, scim_connector_tokens d !! i = Some s -> scim_connector_tokens d !! j = Some t ->
  ct_TokenHash s = ct_TokenHash t -> i = j.

Lemma live_token_exact d hash id t c : tokens_unique d ->
  live_token hash d = Some (id, t, c) <-> scim_connector_tokens d !! id = Some t /\ ct_TokenHash t = hash /\ ct_RevokedAt t = None /\
    scim_connectors d !! ct_ConnectorID t = Some c /\ sn_Status c = "active"%string.
Proof.
  intros Hu. unfold live_token. split.
  - destruct (find_where _ _) as [[i x]|] eqn:Ef; [|done]. apply find_where_Some in Ef as [Hi Hb]. apply andb_true_iff in Hb as [Hh Hn].
    destruct (scim_connectors d !! ct_ConnectorID x) as [y|] eqn:Ec; [|done]. destruct (sn_Status y =?s "active") eqn:Es; [|done].
    intros [= <- <- <-]. apply streqb_true in Hh, Es. split_and!; try done. by destruct (ct_RevokedAt x).
  - intros (Hi & Hh & Hn & Hc & Hs). rewrite (find_where_unique _ _ id t); [by rewrite Hc, Hs|done|by rewrite Hh, Hn, streqb_refl|].
    intros k r Hk Hb. apply andb_true_iff in Hb as [Hb _]. apply streqb_true in Hb. apply (Hu k id r t); congruence.
Qed.

Lemma issue_inv connector scope id raw audit now d shown t d1 : IssueSCIMToken connector scope id raw audit now d = inr ((shown, t), d1) ->
  shown = String.append "scim_" raw /\ t = MkSCIMConnectorToken id connector (HashSHA256 raw) scope now None None /\
  scim_connectors d1 = scim_connectors d /\ scim_connector_tokens d1 = <[id := t]> (scim_connector_tokens d).
Proof.
  intros Hr. unfold IssueSCIMToken in Hr. generalize dependent (HashSHA256 raw). intros hash Hr.
  apply tx_bind_inr in Hr as (a & d0 & He & Hr). apply tx_guard_inr in He as [_ ->].
  apply tx_bind_inr in Hr as (a1 & d0 & He & Hr). injection He as <- <-. apply tx_bind_inr in Hr as (a2 & d0 & He & Hr). apply tx_guard_inr in He as [_ ->].
  cbv zeta in Hr. apply tx_bind_inr in Hr as (a3 & d0 & He & Hr). apply tx_guard_inr in He as [_ ->].
  apply tx_bind_inr in Hr as (a4 & d0 & He & Hr). apply insert_row_inv in He as [_ ->].
  apply tx_bind_inr in Hr as (a5 & d0 & He & Hr). injection Hr as <- <- <-. by apply recordAuditTx_inv in He as (m & q & ->).
Qed.

(** The text shown when a connector token is issued authenticates as that
    connector with the token's scope while the connector is active, and
    never again once the token is revoked. *)
Theorem a_bearer_token_authenticates_until_revoked connector scope id raw audit now d shown t d1 c later d2 :
  IssueSCIMToken connector scope id raw audit now d = inr ((shown, t), d1) -> raw <> EmptyString ->
  scim_connectors d2 = scim_connectors d1 -> tokens_unique d2 -> scim_connectors d !! connector = Some c ->
  (exists used, scim_connector_tokens d2 !! id = Some (set_ct_LastUsedAt used t)) ->
  fst (AuthenticateSCIMToken shown later d2) = (if sn_Status c =?s "active" then inr (c, scope) else inl ErrNotFound) /\
  forall audit' d3, RevokeSCIMToken connector id audit' later d2 = inr (tt, d3) -> fst (AuthenticateSCIMToken shown later d3) = inl ErrNotFound.
Proof.
  intros Hr Hraw Hsc Hu2 Hc [used Hid]. apply issue_inv in Hr as (-> & -> & Hsc1 & _). rewrite Hsc1 in Hsc.
  unfold AuthenticateSCIMToken. rewrite !trim_issued.
  rewrite (proj2 (streqb_false _ _) Hraw). generalize dependent (HashSHA256 raw). intros hash Hid. split.
  - destruct (sn_Status c =?s "active") eqn:Es.
    + apply streqb_true in Es. assert (live_token hash d2 = Some (id, set_ct_LastUsedAt used (MkSCIMConnectorToken id connector hash scope now None None), c)) as ->.
      { apply live_token_exact; [done|]. split; [exact Hid|]. by rewrite Hsc. }
      done.
    + destruct (live_token hash d2) as [[[i x] y]|] eqn:El; [|done]. apply live_token_exact in El as (Hi & Hh & _ & Hy & Hs); [|done].
      assert (i = id) as -> by (eapply Hu2; [exact Hi|exact Hid|done]). rewrite Hid in Hi. injection Hi as <-. cbn in Hy. rewrite Hsc, Hc in Hy. injection Hy as <-.
      by rewrite Hs in Es.
  - intros audit' d3 Hr. unfold RevokeSCIMToken in Hr. apply tx_bind_inr in Hr as (b & e & He & Hr). injection He as <- <-. rewrite Hid in Hr.
    apply tx_bind_inr in Hr as (b1 & e & He & Hr). apply tx_guard_inr in He as [_ ->]. apply tx_bind_inr in Hr as (b2 & e & He & Hr). injection He as _ <-.
    apply recordAuditTx_inv in Hr as (m' & q' & ->). destruct (live_token hash _) as [[[i x] y]|] eqn:El; [|done]. exfalso.
    unfold live_token in El. destruct (find_where _ _) as [[j z]|] eqn:Ef; [|done]. apply find_where_Some in Ef as [Hj Hb]. apply andb_true_iff in Hb as [Hh Hn].
    apply streqb_true in Hh. change (scim_connector_tokens (audited _ _ ?e)) with (scim_connector_tokens e) in Hj. cbn -[lookup insert] in Hj.
    apply lookup_insert_Some in Hj as [[<- <-]|[Hne Hj]]; [done|]. apply Hne. by apply (Hu2 id j _ z Hid Hj).
Qed.

(** The audit row of a creation is the caller's, which cannot name the account yet. *)
Lemma upstream_creation_is_audited_untargeted id u e now d r d' : CreateUpstreamUser id u (Some e) now d = inr (r, d') ->
  exists row, audit_events d' !! ae_ID e = Some row /\ ae_TargetID row = ae_TargetID e.
Proof.
  intros Hr. unfold CreateUpstreamUser in Hr. apply tx_bind_inr in Hr as (a & d0 & He & Hr). apply tx_guard_inr in He as [_ ->]. cbv zeta in Hr.
  apply tx_bind_inr in Hr as (a1 & d0 & He & Hr). injection He as <- <-. apply tx_bind_inr in Hr as (a2 & d0 & He & Hr). apply tx_guard_inr in He as [_ ->].
  apply tx_bind_inr in Hr as (a3 & d0 & He & Hr). apply tx_guard_inr in He as [_ ->]. apply tx_bind_inr in Hr as (a4 & d0 & He & Hr). injection He as _ <-.
  apply tx_bind_inr in Hr as (a5 & d0 & He & Hr). injection He as _ <-. apply tx_bind_inr in Hr as (a6 & d1 & He & Hr). injection Hr as _ <-.
  unfold recordAuditTx in He. apply tx_bind_inr in He as (a7 & d2 & H1 & He). injection He as _ <-. apply insert_row_inv in H1 as [_ ->].
  destruct (ae_CreatedAt e =? 0); eexists; (split; [apply lookup_insert_eq|done]).
Qed.
End scim_inbound_facts.

(** ** Witnesses *)

#[local] Existing Instance sample_codec.

Definition upstream_user (id : string) : User :=
  MkUser id id id (String.append id "@up.example.org") EmptyString "user" "disabled" true false None "up1" (String.append "x-" id) true false None t0 t0.

Definition upstream_db : DB :=
  on_scim_connectors (fun _ => {[ "up1" := MkSCIMConnector "up1" "HR" "active" t0 t0 ]}%string)
  (on_users <["carol" := upstream_user "carol"]>
  (on_directory_groups (fun _ => {[ "g1" := MkGroup "g1" "Staff" EmptyString "up1" "xg" t0 t0 ]}%string)
  (on_group_memberships (fun _ => {[ ("g1", "bob") := None ]}%string)
  (on_enrollment_policies (fun _ => {[ "group:g1" := MkEnrollmentPolicyRow (Some "g1"%string) false 7 0 1 ]}%string) sample_db)))).

Lemma upstream_db_keyed : users_keyed upstream_db.
Proof. intros k u. assert (schema_ok upstream_db = true) as Hok by (vm_compute; reflexivity). by apply schema_user. Qed.

Lemma an_upstream_only_writes_its_own_witness :
  let d1 := after (CreateUpstreamUser "dave" (upstream_user "dave") None t0) upstream_db in
  confined "up1" (users upstream_db !! "bob"%string) (users d1 !! "bob"%string) /\ is_Some (users d1 !! "dave"%string).
Proof.
  cbv zeta. destruct (after_inr (CreateUpstreamUser "dave" (upstream_user "dave") None t0) upstream_db) as [r Hr]; [eexists; vm_compute; reflexivity|].
  split; [|eexists; vm_compute; reflexivity].
  refine (proj1 (an_upstream_only_writes_its_own "up1" upstream_db _ upstream_db_keyed _) "bob"%string). apply rtc_once. by apply (us_create "up1" "dave" (upstream_user "dave") None t0 _ r).
Defined.

Definition only_carol (g : UpstreamGroup) : StoreError + UpstreamGroup := inr (MkUpstreamGroup (ug_Group g) ["carol"; " carol "]%string).

Lemma replace_sets_exactly_the_members_witness :
  let d1 := after (ReplaceUpstreamGroup (fun x => x) (fun s r => String.append s r) (fun l => l) "up1" "g1" None only_carol t0) upstream_db in
  group_memberships d1 !! ("g1", "bob")%string = None /\ users d1 = users upstream_db.
Proof.
  cbv zeta. destruct (after_inr (ReplaceUpstreamGroup (fun x => x) (fun s r => String.append s r) (fun l => l) "up1" "g1" None only_carol t0) upstream_db)
    as [[] Hr]; [eexists; vm_compute; reflexivity|].
  destruct (replace_sets_exactly_the_members _ _ _ _ _ _ _ _ _ _ (fun l => Permutation_refl l) Hr) as (cur & next & _ & Hnext & Hin & _ & _ & _ & Hu & _).
  split; [|exact Hu]. injection Hnext as <-. cbn [ug_Members] in Hin.
  destruct (group_memberships _ !! ("g1", "bob")%string) eqn:E; [|reflexivity]. exfalso.
  assert (In "bob"%string (uniqueStrings ["carol"; " carol "]%string)) as Hb by (apply Hin; rewrite E; by eexists). vm_compute in Hb. destruct Hb as [Hb|[]]. discriminate Hb.
Defined.

Lemma a_removed_connector_leaves_local_accounts_witness :
  let d1 := after (DeleteSCIMConnector (fun x => x) (fun s r => String.append s r) "up1" true None t0) upstream_db in
  CountSCIMConnectorUsers "up1" upstream_db = 1 /\ forall k u, users d1 !! k = Some u -> owned_by "up1" u = false.
Proof.
  cbv zeta. destruct (after_inr (DeleteSCIMConnector (fun x => x) (fun s r => String.append s r) "up1" true None t0) upstream_db) as [n Hr]; [eexists; vm_compute; reflexivity|].
  split; [vm_compute; reflexivity|].
  exact (proj1 (proj2 (proj2 (proj2 (a_removed_connector_leaves_local_accounts _ _ _ _ _ _ _ _ _ upstream_db_keyed Hr))))).
Defined.

Lemma never_used i c h s n : set_ct_LastUsedAt None (MkSCIMConnectorToken i c h s n None None) = MkSCIMConnectorToken i c h s n None None.
Proof. reflexivity. Qed.

Lemma issue_runs : exists r, IssueSCIMToken "up1" "write" "t1" "abcdef" None t0 upstream_db = inr r.
Proof. eexists. vm_compute. reflexivity. Qed.

Lemma a_bearer_token_authenticates_until_revoked_witness :
  let d1 := after (IssueSCIMToken "up1" "write" "t1" "abcdef" None t0) upstream_db in
  fst (AuthenticateSCIMToken "scim_abcdef" (t0 + hour) d1) = inr (MkSCIMConnector "up1" "HR" "active" t0 t0, "write"%string).
Proof.
  cbv zeta. destruct (after_inr (IssueSCIMToken "up1" "write" "t1" "abcdef" None t0) upstream_db) as [[shown t] Hr]; [exact issue_runs|].
  destruct (issue_inv _ _ _ _ _ _ _ _ _ _ Hr) as (-> & -> & _ & Ht).
  change (scim_connector_tokens upstream_db) with (∅ : gmap string SCIMConnectorToken) in Ht. rewrite insert_empty in Ht.
  refine (proj1 (a_bearer_token_authenticates_until_revoked "up1" "write" "t1" "abcdef" None t0 upstream_db _ _ _
    (MkSCIMConnector "up1" "HR" "active" t0 t0) (t0 + hour) _ Hr _ eq_refl _ eq_refl _)).
  - discriminate.
  - intros i j s x Hi Hj _. rewrite Ht in Hi, Hj. apply lookup_singleton_Some in Hi as [<- _], Hj as [<- _]. reflexivity.
  - exists None. rewrite Ht, lookup_singleton_eq, never_used. exact eq_refl.
Defined.
