(* ===== verification/Reconcile.v ===== *)
(** The comparison of a connector with its target: what a listing holds, the
    drift report, and the pass that records what was observed and queues the
    repair ([store/reconcile.go]). *)
From stdpp Require Import sorting.
From S2P Require Import Prelude Text Schema Access Sample Sessions Tokens Outbox AppAccess Directory.

(** ** Target text

    [boundRemoteText] cuts at code points. *)

(** Bounds any target-supplied text kept in memory or in a report. *)
Definition RemoteTextLimit : Z := 128.

Definition boundRemoteText (s : string) : string :=
  if RuneCountInString s <=? RemoteTextLimit then s
  else String.concat EmptyString (firstn (Z.to_nat RemoteTextLimit) (runes s)).

(** ** What a listing holds *)

Record RemoteAccount := MkRemoteAccount { ra_ID : string; ra_ExternalID : string; ra_UserName : string; ra_DisplayName : string;
  ra_Email : string; ra_Active : bool }.

Definition RemoteAccount_Bounded (a : RemoteAccount) : RemoteAccount :=
  MkRemoteAccount (ra_ID a) (ra_ExternalID a) (boundRemoteText (ra_UserName a)) (boundRemoteText (ra_DisplayName a))
    (boundRemoteText (ra_Email a)) (ra_Active a).

Record RemoteGroup := MkRemoteGroup { rg_ID : string; rg_ExternalID : string; rg_DisplayName : string }.

Definition RemoteGroup_Bounded (g : RemoteGroup) : RemoteGroup := MkRemoteGroup (rg_ID g) (rg_ExternalID g) (boundRemoteText (rg_DisplayName g)).

Record RemoteListing := MkRemoteListing { rl_Supported : bool; rl_Complete : bool; rl_Users : list RemoteAccount;
  rl_Groups : list RemoteGroup; rl_GroupsListed : bool }.

Record DriftEntry := MkDriftEntry { de_ID : string; de_Username : string; de_Reason : string }.

Record DriftReport := MkDriftReport { dr_Supported : bool; dr_Complete : bool; dr_Repaired : bool; dr_ListedUsers : Z; dr_Unrelated : Z;
  dr_MissingCount : Z; dr_StaleCount : Z; dr_OrphanedCount : Z; dr_Missing : list DriftEntry; dr_Stale : list DriftEntry;
  dr_Orphaned : list DriftEntry; dr_GroupsRequeued : Z; dr_GroupsOrphaned : Z; dr_MappingConflicts : Z; dr_ListingError : string }.

Definition driftSample : nat := 100.

(** The sample is bounded, the count is not. *)
Definition appendDrift (l : list DriftEntry) (e : DriftEntry) : list DriftEntry :=
  if Nat.ltb (length l) driftSample then l ++ [e] else l.

Definition add_unrelated (r : DriftReport) : DriftReport := MkDriftReport (dr_Supported r) (dr_Complete r) (dr_Repaired r) (dr_ListedUsers r)
  (dr_Unrelated r + 1) (dr_MissingCount r) (dr_StaleCount r) (dr_OrphanedCount r) (dr_Missing r) (dr_Stale r) (dr_Orphaned r)
  (dr_GroupsRequeued r) (dr_GroupsOrphaned r) (dr_MappingConflicts r) (dr_ListingError r).
Definition add_missing (e : DriftEntry) (r : DriftReport) : DriftReport := MkDriftReport (dr_Supported r) (dr_Complete r) (dr_Repaired r)
  (dr_ListedUsers r) (dr_Unrelated r) (dr_MissingCount r + 1) (dr_StaleCount r) (dr_OrphanedCount r) (appendDrift (dr_Missing r) e) (dr_Stale r)
  (dr_Orphaned r) (dr_GroupsRequeued r) (dr_GroupsOrphaned r) (dr_MappingConflicts r) (dr_ListingError r).
Definition add_stale (e : DriftEntry) (r : DriftReport) : DriftReport := MkDriftReport (dr_Supported r) (dr_Complete r) (dr_Repaired r)
  (dr_ListedUsers r) (dr_Unrelated r) (dr_MissingCount r) (dr_StaleCount r + 1) (dr_OrphanedCount r) (dr_Missing r) (appendDrift (dr_Stale r) e)
  (dr_Orphaned r) (dr_GroupsRequeued r) (dr_GroupsOrphaned r) (dr_MappingConflicts r) (dr_ListingError r).
Definition add_orphaned (e : DriftEntry) (r : DriftReport) : DriftReport := MkDriftReport (dr_Supported r) (dr_Complete r) (dr_Repaired r)
  (dr_ListedUsers r) (dr_Unrelated r) (dr_MissingCount r) (dr_StaleCount r) (dr_OrphanedCount r + 1) (dr_Missing r) (dr_Stale r)
  (appendDrift (dr_Orphaned r) e) (dr_GroupsRequeued r) (dr_GroupsOrphaned r) (dr_MappingConflicts r) (dr_ListingError r).
Definition add_conflict (r : DriftReport) : DriftReport := MkDriftReport (dr_Supported r) (dr_Complete r) (dr_Repaired r) (dr_ListedUsers r)
  (dr_Unrelated r) (dr_MissingCount r) (dr_StaleCount r) (dr_OrphanedCount r) (dr_Missing r) (dr_Stale r) (dr_Orphaned r)
  (dr_GroupsRequeued r) (dr_GroupsOrphaned r) (dr_MappingConflicts r + 1) (dr_ListingError r).
Definition add_requeued (r : DriftReport) : DriftReport := MkDriftReport (dr_Supported r) (dr_Complete r) (dr_Repaired r) (dr_ListedUsers r)
  (dr_Unrelated r) (dr_MissingCount r) (dr_StaleCount r) (dr_OrphanedCount r) (dr_Missing r) (dr_Stale r) (dr_Orphaned r)
  (dr_GroupsRequeued r + 1) (dr_GroupsOrphaned r) (dr_MappingConflicts r) (dr_ListingError r).
Definition add_group_orphaned (r : DriftReport) : DriftReport := MkDriftReport (dr_Supported r) (dr_Complete r) (dr_Repaired r) (dr_ListedUsers r)
  (dr_Unrelated r) (dr_MissingCount r) (dr_StaleCount r) (dr_OrphanedCount r) (dr_Missing r) (dr_Stale r) (dr_Orphaned r)
  (dr_GroupsRequeued r) (dr_GroupsOrphaned r + 1) (dr_MappingConflicts r) (dr_ListingError r).
Definition set_repaired (b : bool) (r : DriftReport) : DriftReport := MkDriftReport (dr_Supported r) (dr_Complete r) b (dr_ListedUsers r)
  (dr_Unrelated r) (dr_MissingCount r) (dr_StaleCount r) (dr_OrphanedCount r) (dr_Missing r) (dr_Stale r) (dr_Orphaned r)
  (dr_GroupsRequeued r) (dr_GroupsOrphaned r) (dr_MappingConflicts r) (dr_ListingError r).
Definition set_listing_error (s : string) (r : DriftReport) : DriftReport := MkDriftReport (dr_Supported r) (dr_Complete r) (dr_Repaired r)
  (dr_ListedUsers r) (dr_Unrelated r) (dr_MissingCount r) (dr_StaleCount r) (dr_OrphanedCount r) (dr_Missing r) (dr_Stale r) (dr_Orphaned r)
  (dr_GroupsRequeued r) (dr_GroupsOrphaned r) (dr_MappingConflicts r) s.

Definition entry_json (e : DriftEntry) : Json :=
  JObj ([("id"%string, JStr (de_ID e))] ++ (if de_Username e =?s EmptyString then [] else [("username"%string, JStr (de_Username e))]) ++
    [("reason"%string, JStr (de_Reason e))]).

(** [json.Marshal(report)]. *)
Definition report_json (r : DriftReport) : Json :=
  JObj ([("supported", JBool (dr_Supported r)); ("complete", JBool (dr_Complete r)); ("repaired", JBool (dr_Repaired r));
    ("listedUsers", JNum (dr_ListedUsers r)); ("unrelated", JNum (dr_Unrelated r)); ("missingCount", JNum (dr_MissingCount r));
    ("staleCount", JNum (dr_StaleCount r)); ("orphanedCount", JNum (dr_OrphanedCount r)); ("missing", JArr (map entry_json (dr_Missing r)));
    ("stale", JArr (map entry_json (dr_Stale r))); ("orphaned", JArr (map entry_json (dr_Orphaned r)));
    ("groupsRequeued", JNum (dr_GroupsRequeued r)); ("groupsOrphaned", JNum (dr_GroupsOrphaned r));
    ("mappingConflicts", JNum (dr_MappingConflicts r))]%string ++
    (if dr_ListingError r =?s EmptyString then [] else [("listingError"%string, JStr (dr_ListingError r))])).

(** ** The comparison *)

Section reconcile.
Context `{Codec}.

Fixpoint tx_fold {A B} (f : A -> B -> STx A) (acc : A) (l : list B) : STx A :=
  match l with
  | [] => tx_ret acc
  | x :: l' => acc <- f acc x ;; tx_fold f acc l'
  end.

(** The accounts with access to the connector, as read at the start. *)
Definition desired_users (now : Z) (d : DB) (sys : string) : gmap string User :=
  scanUser now <$> filter (fun kv : string * User => system_access now d sys kv.1 = true) (users d).

(** What the pass compares: the connector, the listing, the accounts and groups
    the directory wants there, whether to write, and the identifiers of the
    events it queues. *)
Record Pass := MkPass { p_sys : string; p_listing : RemoteListing; p_desired : gmap string User;
  p_groups : list (string * string); p_repair : bool; p_newid : string -> string -> string; p_now : Z }.

Definition wanted_group (p : Pass) (id : string) : bool := one_of id (map snd (p_groups p)).

(** A relationship the connector already has: access, a held row or a mapping. *)
Definition managed (p : Pass) (kind id : string) (d : DB) : bool :=
  ((kind =?s "user") && negb (is_null (p_desired p !! id))) || ((kind =?s "group") && wanted_group p id) ||
  match sync_resource_state d !! (p_sys p, id) with Some st => rs_Kind st =?s kind | None => false end ||
  match scim_user_links d !! (p_sys p, id) with Some l => sl_Kind l =?s kind | None => false end.

Definition listed (p : Pass) (kind remote : string) : bool :=
  if kind =?s "user" then one_of remote (map ra_ID (rl_Users (p_listing p)))
  else if kind =?s "group" then one_of remote (map rg_ID (rl_Groups (p_listing p))) else false.

(** A stored mapping to an identifier a complete listing does not hold. *)
Definition dead (p : Pass) (kind remote : string) : bool :=
  (remote <>?s EmptyString) && rl_Complete (p_listing p) && ((kind =?s "user") || rl_GroupsListed (p_listing p)) && negb (listed p kind remote).

Definition stored_remote (p : Pass) (kind local : string) (d : DB) : string := default EmptyString (SCIMRemote (p_sys p) kind local d).

Definition dropDead (p : Pass) (kind local : string) : STx unit :=
  d <- tx_get ;;
  if dead p kind (stored_remote p kind local d) then tx_set (DeleteSCIMLink (p_sys p) kind local) else tx_ret tt.

(** Whether the account may be written through the identifier the target gave. *)
Definition link (p : Pass) (kind local remote : string) : STx bool :=
  tx_guard (negb (one_of remote [EmptyString; "."; ".."]%string)) (ErrText "invalid remote ID in listing") ;;;
  d <- tx_get ;;
  let stored := stored_remote p kind local d in
  if (stored <>?s EmptyString) && (stored <>?s remote) && negb (dead p kind stored) then tx_ret false
  else if remote_taken d (p_sys p) kind local remote then tx_ret false
  else
    tx_guard (negb (is_null (paired_systems d !! p_sys p)) && (local <>?s EmptyString)) ErrConstraint ;;;
    match scim_user_links d !! (p_sys p, local) with
    | None => tx_set (on_scim_user_links <[(p_sys p, local) := MkSCIMLink kind remote]>) ;;; tx_ret true
    | Some l =>
      if (sl_Kind l =?s kind) && one_of (sl_RemoteID l) [EmptyString; stored] then
        tx_set (on_scim_user_links <[(p_sys p, local) := MkSCIMLink (sl_Kind l) remote]>) ;;; tx_ret true
      else tx_ret (stored =?s remote)
    end.

(** One row of the connector, when its kind is [kind]. *)
Definition alter_state (p : Pass) (kind id : string) (g : SyncResourceState -> SyncResourceState) : DB -> DB :=
  on_sync_resource_state (alter (fun st => if rs_Kind st =?s kind then g st else st) (p_sys p, id)).

Definition observe (p : Pass) (kind id state : string) : DB -> DB := alter_state p kind id (set_rs_Observed state (Some (p_now p))).

(** A managed resource with no row is recorded as held. *)
Definition hold (p : Pass) (kind id : string) : STx unit :=
  d <- tx_get ;;
  tx_guard (negb (is_null (paired_systems d !! p_sys p))) ErrConstraint ;;;
  tx_set (on_sync_resource_state <[(p_sys p, id) :=
    match sync_resource_state d !! (p_sys p, id) with
    | Some st => set_rs_Provisioned true st
    | None => MkSyncResourceState kind true true 0 0 EmptyString None EmptyString None
    end]>).

Definition queue_account (p : Pass) (id : string) (active : bool) (payload : Json) (force : bool) : STx unit :=
  queueDesiredStateTx (p_newid p) (MkDesired (p_sys p) id "user" active payload EmptyString force false) (p_now p).

Definition differs (u : User) (r : RemoteAccount) : bool :=
  negb (ra_Active r) || (ra_UserName r <>?s boundRemoteText (u_Username u)) || (ra_DisplayName r <>?s boundRemoteText (u_DisplayName u)) ||
  (ra_Email r <>?s boundRemoteText (u_Email u)).

Definition drift_stale (p : Pass) (report : DriftReport) (u : User) : STx DriftReport :=
  (if p_repair p then
    d <- tx_get ;; queue_account p (u_ID u) true (scimUserPayloadTx (p_now p) d u true (p_sys p)) true
   else tx_ret tt) ;;;
  tx_ret (add_stale (MkDriftEntry (u_ID u) (u_Username u) "attributes differ") report).

Definition drift_orphan (p : Pass) (report : DriftReport) (r : RemoteAccount) : STx DriftReport :=
  d <- tx_get ;;
  let id := ra_ExternalID r in
  let local := get_user (p_now p) d id in
  (if p_repair p then
    hold p "user" id ;;;
    d <- tx_get ;;
    queue_account p id false
      (match local with Some u => scimUserPayloadTx (p_now p) d u false (p_sys p) | None => scimInactivePayload id end) false
   else tx_ret tt) ;;;
  tx_ret (add_orphaned (MkDriftEntry id (match local with Some u => u_Username u | None => boundRemoteText (ra_UserName r) end)
    "active without access") report).

(** One account of the listing; [seen] are the accounts it named. *)
Definition drift_user (p : Pass) (acc : DriftReport * list string) (r : RemoteAccount) : STx (DriftReport * list string) :=
  let (report, seen) := acc in
  let id := ra_ExternalID r in
  d <- tx_get ;;
  if negb ((id <>?s EmptyString) && managed p "user" id d) then tx_ret (add_unrelated report, seen) else
  linked <- (if p_repair p then link p "user" id (ra_ID r) else tx_ret true) ;;
  let report := if linked then report else add_conflict report in
  report <- (if negb linked then tx_ret report else
    match p_desired p !! id with
    | Some u => if differs u r then drift_stale p report u else tx_ret report
    | None => if ra_Active r && rl_Complete (p_listing p) then drift_orphan p report r else tx_ret report
    end) ;;
  tx_set (observe p "user" id (if ra_Active r then "present_active" else "present_inactive")) ;;;
  tx_ret (report, id :: seen).

(** One account the directory wants and a complete listing lacks. *)
Definition drift_missing (p : Pass) (report : DriftReport) (u : string * User) : STx DriftReport :=
  (if p_repair p then
    dropDead p "user" u.1 ;;;
    tx_set (alter_state p "user" u.1 (set_rs_Provisioned false)) ;;;
    d <- tx_get ;;
    queue_account p u.1 true (scimUserPayloadTx (p_now p) d u.2 true (p_sys p)) true
   else tx_ret tt) ;;;
  tx_ret (add_missing (MkDriftEntry u.1 (u_Username u.2) "absent at target") report).

(** Every held account the pass did not observe is absent. *)
Definition observe_absent (p : Pass) : DB -> DB :=
  on_sync_resource_state (map_imap (fun k st => Some (
    if (k.1 =?s p_sys p) && (rs_Kind st =?s "user") && match rs_ObservedAt st with Some t => t <? p_now p | None => true end
    then set_rs_Observed "absent" (Some (p_now p)) st else st))).

Definition drift_group (p : Pass) (report : DriftReport) (g : string * string) : STx DriftReport :=
  (if p_repair p then
    dropDead p "group" g.2 ;;;
    d <- tx_get ;;
    queueDesiredStateTx (p_newid p) (MkDesired (p_sys p) g.2 "group" true (scimGroupPayload g.2)
      (groupMembersHashTx (p_now p) d g.1 g.2) true false) (p_now p)
   else tx_ret tt) ;;;
  tx_ret (add_requeued report).

Definition drift_remote_group (p : Pass) (report : DriftReport) (r : RemoteGroup) : STx DriftReport :=
  let id := rg_ExternalID r in
  if (id =?s EmptyString) || wanted_group p id then tx_ret report else
  d <- tx_get ;;
  if negb (managed p "group" id d) then tx_ret report else
  let report := add_group_orphaned report in
  if negb (p_repair p) then tx_ret report else
  linked <- link p "group" id (rg_ID r) ;;
  if negb linked then tx_ret (add_conflict report) else
  hold p "group" id ;;;
  queueDesiredStateTx (p_newid p) (MkDesired (p_sys p) id "group" false (scimGroupPayload id) EmptyString false false) (p_now p) ;;;
  tx_ret report.

Definition new_report (l : RemoteListing) : DriftReport :=
  MkDriftReport (rl_Supported l) (rl_Supported l && rl_Complete l) false 0 0 0 0 0 [] [] [] 0 0 0 EmptyString.

Definition set_listed_users (n : Z) (r : DriftReport) : DriftReport := MkDriftReport (dr_Supported r) (dr_Complete r) (dr_Repaired r) n
  (dr_Unrelated r) (dr_MissingCount r) (dr_StaleCount r) (dr_OrphanedCount r) (dr_Missing r) (dr_Stale r) (dr_Orphaned r)
  (dr_GroupsRequeued r) (dr_GroupsOrphaned r) (dr_MappingConflicts r) (dr_ListingError r).

(** The loops of the comparison; [order] is the order in which Go ranges over
    the desired accounts. *)
Definition compare_users (p : Pass) (report : DriftReport) : STx (DriftReport * list string) :=
  tx_fold (drift_user p) (report, []) (rl_Users (p_listing p)).

Definition compare_missing (p : Pass) (order : list (string * User) -> list (string * User)) (report : DriftReport) (seen : list string) : STx DriftReport :=
  if rl_Complete (p_listing p) then
    report <- tx_fold (drift_missing p) report (List.filter (fun u => negb (one_of u.1 seen)) (order (map_to_list (p_desired p)))) ;;
    tx_set (observe_absent p) ;;;
    tx_ret report
  else tx_ret report.

Definition compare_groups (p : Pass) (report : DriftReport) : STx DriftReport :=
  if rl_GroupsListed (p_listing p) && rl_Complete (p_listing p) then
    report <- tx_fold (drift_group p) report (p_groups p) ;;
    tx_fold (drift_remote_group p) report (rl_Groups (p_listing p))
  else tx_ret report.

Definition start_pass (newid : string -> string -> string) (sys : string) (l : RemoteListing) (repair : bool) (now : Z) (d : DB) : Pass :=
  MkPass sys l (desired_users now d sys) (if rl_GroupsListed l then desiredGroupsTx d sys else []) repair newid now.

(** Compare a listing with desired state, record what was observed and, for a
    repair, queue the desired state of every managed account that differs. *)
Definition ReconcileDrift (newid : string -> string -> string) (order : list (string * User) -> list (string * User)) (sys : string)
    (l : RemoteListing) (repair : bool) (now : Z) : STx DriftReport :=
  d <- tx_get ;;
  tx_guard (negb (is_null (paired_systems d !! sys))) ErrNoRows ;;;
  if negb (rl_Supported l) then
    tx_set (on_sync_resource_state (map_imap (fun k st => Some (
      if k.1 =?s sys then set_rs_Observed "unsupported" (Some now) st else st)))) ;;;
    tx_ret (new_report l)
  else
    let p := start_pass newid sys l repair now d in
    rs <- compare_users p (set_listed_users (Z.of_nat (length (rl_Users l))) (new_report l)) ;;
    report <- compare_missing p order rs.1 rs.2 ;;
    report <- compare_groups p report ;;
    tx_ret (set_repaired (repair && rl_Complete l) report).

(** Re-queue one user's current desired state, superseding exhausted work. *)
Definition RetryProvisioning (newid : string -> string -> string) (sys user : string) (audit : option AuditEvent) (now : Z) : STx unit :=
  d <- tx_get ;;
  let u := get_user now d user in
  let desired := system_access now d sys user in
  let held := match sync_resource_state d !! (sys, user) with Some st => rs_Kind st =?s "user" | None => false end in
  tx_guard (live_system d sys && (desired || held)) ErrNoRows ;;;
  queueDesiredStateTx newid (MkDesired sys user "user" desired
    (match u with Some u => scimUserPayloadTx now d u desired sys | None => scimInactivePayload user end) EmptyString desired false) now ;;;
  recordAuditTx audit now.
End reconcile.

(** ** Facts *)

Section reconcile_facts.
Context `{Codec}.

(** *** What a pass may write *)

(** A pass writes the three outbox tables only. *)
Definition reconciled (d d' : DB) : Prop := exists es st ln,
  d' = on_scim_user_links (fun _ => ln) (on_account_sync_events (fun _ => es) (on_sync_resource_state (fun _ => st) d)).

Lemma reconciled_refl d : reconciled d d.
Proof. by exists (account_sync_events d), (sync_resource_state d), (scim_user_links d). Qed.

Lemma reconciled_trans d1 d2 d3 : reconciled d1 d2 -> reconciled d2 d3 -> reconciled d1 d3.
Proof. intros (e & s & l & ->) (e' & s' & l' & ->). by exists e', s', l'. Qed.

(** A resource of another connector, or one this connector has nothing to do with. *)
Definition foreign (p : Pass) (k : string * string) (d : DB) : Prop :=
  k.1 <> p_sys p \/ (managed p "user" k.2 d = false /\ managed p "group" k.2 d = false).

Record confined (p : Pass) (d d' : DB) : Prop := {
  cf_frame : reconciled d d';
  cf_row k st : sync_resource_state d !! k = Some st -> exists st', sync_resource_state d' !! k = Some st' /\ rs_Kind st' = rs_Kind st /\
    (rl_Complete (p_listing p) = false -> rs_Active st = true -> rs_Active st' = true) /\ (foreign p k d -> st' = st);
  cf_new k st' : sync_resource_state d !! k = None -> sync_resource_state d' !! k = Some st' ->
    k.1 = p_sys p /\ (rs_Kind st' = "user" \/ rs_Kind st' = "group")%string /\ managed p (rs_Kind st') k.2 d = true;
  cf_link k l : scim_user_links d !! k = Some l ->
    k.1 <> p_sys p \/ (sl_RemoteID l <> EmptyString /\ dead p (sl_Kind l) (sl_RemoteID l) = false) -> scim_user_links d' !! k = Some l;
  cf_linked k l : scim_user_links d' !! k = Some l -> scim_user_links d !! k = Some l \/
    (k.1 = p_sys p /\ (sl_Kind l = "user" \/ sl_Kind l = "group")%string /\ managed p (sl_Kind l) k.2 d = true);
  cf_events k : foreign p k d -> List.filter (of_resource k.1 k.2) (account_sync_events d') = List.filter (of_resource k.1 k.2) (account_sync_events d) }.

(** Confinement keeps a resource unmanaged. *)
Lemma confined_managed p d d' kind id : confined p d d' -> managed p kind id d' = true -> managed p kind id d = true.
Proof.
  intros Hc. unfold managed. intros Hm. apply orb_true_iff in Hm as [Hm|Hm]; [apply orb_true_iff in Hm as [Hm|Hm]|].
  - by rewrite Hm.
  - destruct (sync_resource_state d' !! (p_sys p, id)) as [st'|] eqn:E'; [|done].
    destruct (sync_resource_state d !! (p_sys p, id)) as [st|] eqn:E.
    + destruct (cf_row _ _ _ Hc _ _ E) as (x & Hx & Hk & _). rewrite E' in Hx. injection Hx as <-. rewrite <- Hk, Hm.
      by rewrite orb_true_r.
    + destruct (cf_new _ _ _ Hc _ _ E E') as (_ & _ & Hm'). apply streqb_true in Hm as <-. cbn in Hm'.
      unfold managed in Hm'. rewrite E in Hm'. exact Hm'.
  - destruct (scim_user_links d' !! (p_sys p, id)) as [l'|] eqn:E'; [|done].
    destruct (cf_linked _ _ _ Hc _ _ E') as [E|(_ & _ & Hm')].
    + rewrite E, Hm. by rewrite !orb_true_r.
    + apply streqb_true in Hm as <-. exact Hm'.
Qed.

Lemma confined_foreign p d d' k : confined p d d' -> foreign p k d -> foreign p k d'.
Proof.
  intros Hc [Hn|[Hu Hg]]; [by left|right]. split; apply not_true_iff_false; intros Hm;
    apply (confined_managed _ _ _ _ _ Hc) in Hm; congruence.
Qed.

Lemma confined_refl p d : confined p d d.
Proof. constructor; [apply reconciled_refl|intros k st Hk; by exists st|congruence|done|by left|done]. Qed.

Lemma confined_trans p d1 d2 d3 : confined p d1 d2 -> confined p d2 d3 -> confined p d1 d3.
Proof.
  intros H1 H2. constructor.
  - eapply reconciled_trans; [apply (cf_frame _ _ _ H1)|apply (cf_frame _ _ _ H2)].
  - intros k st Hk. destruct (cf_row _ _ _ H1 k st Hk) as (s2 & Hs2 & Hk2 & Ha2 & Hf2).
    destruct (cf_row _ _ _ H2 k s2 Hs2) as (s3 & Hs3 & Hk3 & Ha3 & Hf3). exists s3. split; [done|]. split; [congruence|]. split; [tauto|].
    intros Hf. rewrite Hf3, Hf2; [done|done|by eapply confined_foreign].
  - intros k st Hn Hs. destruct (sync_resource_state d2 !! k) as [s2|] eqn:E2.
    + destruct (cf_row _ _ _ H2 k s2 E2) as (s3 & Hs3 & Hk3 & _). rewrite Hs in Hs3. injection Hs3 as <-. rewrite Hk3.
      by apply (cf_new _ _ _ H1).
    + destruct (cf_new _ _ _ H2 k st E2 Hs) as (? & ? & Hm). split; [done|]. split; [done|]. by apply (confined_managed _ _ _ _ _ H1).
  - intros k l Hl Hc. apply (cf_link _ _ _ H2); [|done]. by apply (cf_link _ _ _ H1).
  - intros k l Hl. apply (cf_linked _ _ _ H2) in Hl as [Hl|(? & ? & Hm)]; [by apply (cf_linked _ _ _ H1) in Hl|].
    right. split; [done|]. split; [done|]. by apply (confined_managed _ _ _ _ _ H1).
  - intros k Hf. rewrite (cf_events _ _ _ H2); [by apply (cf_events _ _ _ H1)|by eapply confined_foreign].
Qed.

(** Kinds in use. *)
Definition a_kind (kind : string) : Prop := (kind = "user" \/ kind = "group")%string.

Lemma managed_not_foreign p kind id d : a_kind kind -> managed p kind id d = true -> ~ foreign p (p_sys p, id) d.
Proof. intros [-> | ->] Hm [Hn|[Hu Hg]]; [done|cbn in *; congruence|done|cbn in *; congruence]. Qed.

Lemma confined_row p kind id st' d : a_kind kind -> managed p kind id d = true ->
  match sync_resource_state d !! (p_sys p, id) with
  | Some st => rs_Kind st' = rs_Kind st /\ (rl_Complete (p_listing p) = false -> rs_Active st = true -> rs_Active st' = true)
  | None => rs_Kind st' = kind
  end -> confined p d (on_sync_resource_state <[(p_sys p, id) := st']> d).
Proof.
  intros Hkd Hm Hst. pose proof (managed_not_foreign _ _ _ _ Hkd Hm) as Hnf. constructor.
  - exists (account_sync_events d), (<[(p_sys p, id) := st']> (sync_resource_state d)), (scim_user_links d). reflexivity.
  - intros k st Hk. cbn -[lookup insert]. destruct (decide (k = (p_sys p, id))) as [->|Hne].
    + rewrite Hk in Hst. rewrite lookup_insert_eq. exists st'. destruct Hst as [Hs1 Hs2]. split; [done|]. split; [done|]. split; [exact Hs2|]. intros Hf. by destruct Hnf.
    + rewrite lookup_insert_ne by done. by exists st.
  - intros k st Hn Hs. cbn -[lookup insert] in Hs. apply lookup_insert_Some in Hs as [[<- <-]|[_ Hs]]; [|congruence]. rewrite Hn in Hst. subst kind. done.
  - done.
  - by left.
  - done.
Qed.

Lemma confined_events p es d : (forall k, foreign p k d ->
    List.filter (of_resource k.1 k.2) es = List.filter (of_resource k.1 k.2) (account_sync_events d)) ->
  confined p d (on_account_sync_events (fun _ => es) d).
Proof.
  intros Hes. constructor; [|intros k st Hk; by exists st|cbn; congruence|done|by left|done].
  exists es, (sync_resource_state d), (scim_user_links d). reflexivity.
Qed.

#[global] Instance scim_link_eq_dec : EqDecision SCIMLink.
Proof. solve_decision. Defined.

Lemma confined_link p kind id o d : a_kind kind -> managed p kind id d = true ->
  (forall l, scim_user_links d !! (p_sys p, id) = Some l -> o <> Some l ->
    sl_RemoteID l = EmptyString \/ dead p (sl_Kind l) (sl_RemoteID l) = true) ->
  (forall l', o = Some l' -> sl_Kind l' = kind) ->
  confined p d (on_scim_user_links (fun t => match o with Some l' => <[(p_sys p, id) := l']> t | None => delete (p_sys p, id) t end) d).
Proof.
  intros Hkd Hm Hold Hnew. constructor; [|intros k st Hk; by exists st|cbn; congruence| | |done].
  - exists (account_sync_events d), (sync_resource_state d), (match o with Some l' => <[(p_sys p, id) := l']> (scim_user_links d) | None => delete (p_sys p, id) (scim_user_links d) end). reflexivity.
  - intros k l Hl Hc. cbn -[lookup insert delete]. destruct (decide (k = (p_sys p, id))) as [->|Hne].
    + cbn in Hc. destruct Hc as [Hc|[He Hd]]; [done|]. destruct (decide (o = Some l)) as [->|Hne].
      * by rewrite lookup_insert_eq.
      * destruct (Hold l Hl Hne); congruence.
    + destruct o; [by rewrite lookup_insert_ne|by rewrite lookup_delete_ne].
  - intros k l Hl. cbn -[lookup insert delete] in Hl. destruct o as [l'|].
    + apply lookup_insert_Some in Hl as [[<- <-]|[_ Hl]]; [|by left]. right. by rewrite (Hnew l' eq_refl).
    + apply lookup_delete_Some in Hl as [_ Hl]. by left.
Qed.

(** Writes to a resource's row and link keep it managed. *)
Lemma managed_same p kind id d d' :
  (forall st, sync_resource_state d !! (p_sys p, id) = Some st -> exists st', sync_resource_state d' !! (p_sys p, id) = Some st' /\ rs_Kind st' = rs_Kind st) ->
  scim_user_links d' = scim_user_links d -> managed p kind id d = true -> managed p kind id d' = true.
Proof.
  unfold managed. intros Hr ->. destruct (sync_resource_state d !! (p_sys p, id)) as [st|].
  - destruct (Hr st eq_refl) as (st' & -> & ->). done.
  - rewrite orb_false_r. intros Hm. apply orb_true_iff in Hm as [->| ->]; by rewrite ?orb_true_r.
Qed.

Lemma confined_keeps_managed p kind id d d' : confined p d d' -> scim_user_links d' = scim_user_links d ->
  managed p kind id d = true -> managed p kind id d' = true.
Proof. intros Hc Hl. apply managed_same; [|done]. intros st Hst. destruct (cf_row _ _ _ Hc _ _ Hst) as (st' & ? & ? & _). by exists st'. Qed.

Lemma filter_other (f g : AccountSyncEvent -> bool) l : (forall e, f e = true -> g e = true) ->
  List.filter f (List.filter g l) = List.filter f l.
Proof. intros Hi. induction l as [|x l IH]; [done|]. cbn. destruct (g x) eqn:Eg; cbn; destruct (f x) eqn:Ef; rewrite ?IH; try done. by rewrite (Hi _ Ef) in Eg. Qed.

Lemma of_resource_same sys id e k : of_resource sys id e = true -> of_resource k.1 k.2 e = true -> k = (sys, id).
Proof.
  unfold of_resource. intros H1 H2. apply andb_true_iff in H1 as [A1 B1], H2 as [A2 B2]. apply streqb_true in A1, B1, A2, B2.
  destruct k. cbn in *. congruence.
Qed.

(** Queueing touches the events of its own resource only. *)
Lemma queue_other_events newid s now d u d' k : queueDesiredStateTx newid s now d = inr (u, d') -> k <> (ds_systemID s, ds_resourceID s) ->
  List.filter (of_resource k.1 k.2) (account_sync_events d') = List.filter (of_resource k.1 k.2) (account_sync_events d).
Proof.
  intros Hr Hk. apply queue_inv in Hr. cbv zeta in Hr.
  assert (forall l, List.filter (of_resource k.1 k.2) (List.filter (fun e => negb (superseded d s e)) l) = List.filter (of_resource k.1 k.2) l) as Hf.
  { intros l. apply filter_other. intros e He. apply negb_true_iff. unfold superseded, unsent.
    destruct (of_resource (ds_systemID s) (ds_resourceID s) e) eqn:E; [|done]. by destruct Hk; eapply of_resource_same. }
  destruct (forgotten d s); [by subst d'; apply Hf|destruct Hr as [_ ->]]. cbn -[List.filter].
  rewrite List.filter_app, Hf. rewrite <- (app_nil_r (List.filter (of_resource k.1 k.2) (account_sync_events d))) at 2. f_equal.
  apply filter_none. intros x [<-|Hx]; apply not_true_iff_false; intros Hx'.
  - apply Hk. eapply of_resource_same; [|exact Hx']. unfold of_resource. cbn. by rewrite !streqb_refl.
  - apply in_map_iff in Hx as (y & <- & Hy). apply filter_In in Hy as [_ Hy]. apply andb_true_iff in Hy as [Hy _]. apply andb_true_iff in Hy as [_ Hy].
    unfold unsent in Hy. apply andb_true_iff in Hy as [Hy _]. apply andb_true_iff in Hy as [Hy _]. apply Hk. eapply of_resource_same; [exact Hy|exact Hx'].
Qed.

Lemma confined_queue p kind id s d u d' : a_kind kind -> managed p kind id d = true -> ds_systemID s = p_sys p -> ds_resourceID s = id ->
  ds_kind s = kind -> forgotten d s = false -> (ds_active s = false -> rl_Complete (p_listing p) = true) ->
  queueDesiredStateTx (p_newid p) s (p_now p) d = inr (u, d') -> confined p d d'.
Proof.
  intros Hkd Hm Hs Hi Hkind Hfg Hact Hr.
  assert (forall k, foreign p k d -> List.filter (of_resource k.1 k.2) (account_sync_events d') = List.filter (of_resource k.1 k.2) (account_sync_events d)) as Hev.
  { intros k Hf. apply (queue_other_events _ _ _ _ _ _ _ Hr). rewrite Hs, Hi. intros ->. by apply (managed_not_foreign _ _ _ _ Hkd Hm). }
  apply queue_inv in Hr. cbv zeta in Hr. rewrite Hfg, Hs, Hi in Hr. destruct Hr as [_ ->].
  match goal with |- confined p d (on_account_sync_events (fun _ => ?es) ?d1) => set (es0 := es) in *; set (d1' := d1) end.
  assert (forall k2 st, sync_resource_state d !! (p_sys p, k2) = Some st ->
    exists st', sync_resource_state d1' !! (p_sys p, k2) = Some st' /\ rs_Kind st' = rs_Kind st) as Hrow.
  { intros k2 st Hst. unfold d1'. cbn -[lookup insert next_state]. destruct (decide (k2 = id)) as [->|Hne].
    - rewrite lookup_insert_eq, Hst. by eexists.
    - rewrite lookup_insert_ne by congruence. by exists st. }
  apply confined_trans with d1'.
  - apply (confined_row p kind); [done|done|]. destruct (sync_resource_state d !! (p_sys p, id)) as [st|]; [|done]. cbn. split; [done|].
    intros Hc Ha. destruct (ds_active s); [done|]. by rewrite Hact in Hc.
  - apply confined_events. intros k Hf. apply Hev. destruct Hf as [Hf|[Hu Hg]]; [by left|right].
    split; apply not_true_iff_false; intros Hm'.
    + apply not_true_iff_false in Hu. apply Hu. apply (managed_same p "user" k.2 d d1' (Hrow k.2)); [done|exact Hm'].
    + apply not_true_iff_false in Hg. apply Hg. apply (managed_same p "group" k.2 d d1' (Hrow k.2)); [done|exact Hm'].
Qed.

Lemma confined_alter p kind id g d : a_kind kind -> (forall st, rs_Kind (g st) = rs_Kind st /\ rs_Active (g st) = rs_Active st) ->
  confined p d (alter_state p kind id g d).
Proof.
  intros Hkd Hg. unfold alter_state. destruct (sync_resource_state d !! (p_sys p, id)) as [st|] eqn:E.
  - destruct (rs_Kind st =?s kind) eqn:Ek.
    + assert (on_sync_resource_state (alter (fun st => if rs_Kind st =?s kind then g st else st) (p_sys p, id)) d =
        on_sync_resource_state <[(p_sys p, id) := g st]> d) as ->.
      { unfold on_sync_resource_state. f_equal. apply map_eq. intros k. destruct (decide (k = (p_sys p, id))) as [->|Hne].
        - rewrite lookup_alter_eq, lookup_insert_eq, E. cbn. by rewrite Ek.
        - by rewrite lookup_alter_ne, lookup_insert_ne. }
      apply (confined_row p kind); [done| |].
      * unfold managed. rewrite E, Ek. by rewrite orb_true_r.
      * rewrite E. destruct (Hg st) as [-> ->]. done.
    + assert (on_sync_resource_state (alter (fun st => if rs_Kind st =?s kind then g st else st) (p_sys p, id)) d = d) as ->; [|apply confined_refl].
      unfold on_sync_resource_state. rewrite alter_id; [done|]. intros x Hx. rewrite E in Hx. injection Hx as <-. by rewrite Ek.
  - assert (on_sync_resource_state (alter (fun st => if rs_Kind st =?s kind then g st else st) (p_sys p, id)) d = d) as ->; [|apply confined_refl].
    unfold on_sync_resource_state. rewrite alter_id; [done|]. intros x Hx. congruence.
Qed.

Lemma confined_observe p kind id state d : a_kind kind -> confined p d (observe p kind id state d).
Proof. intros Hk. by apply confined_alter. Qed.

Lemma confined_absent p d : confined p d (observe_absent p d).
Proof.
  constructor; [| | |done|by left|done].
  - exists (account_sync_events d), (sync_resource_state (observe_absent p d)), (scim_user_links d). reflexivity.
  - intros k st Hk. unfold observe_absent. cbn -[lookup]. rewrite map_lookup_imap, Hk. cbn. eexists. split; [done|].
    destruct (_ && _) eqn:E; [|by repeat split]. split; [done|]. split; [by intros|]. intros [Hf|[Hu _]].
    + apply andb_true_iff in E as [E _]. apply andb_true_iff in E as [E _]. by apply streqb_true in E.
    + apply andb_true_iff in E as [E _]. apply andb_true_iff in E as [E1 E2]. apply streqb_true in E1. unfold managed in Hu.
      rewrite <- E1, <- surjective_pairing, Hk, E2 in Hu. by rewrite orb_true_r in Hu.
  - intros k st Hn Hs. unfold observe_absent in Hs. cbn -[lookup] in Hs. by rewrite map_lookup_imap, Hn in Hs.
Qed.

(** Each statement of a pass, for a managed resource. *)
Lemma hold_inv p kind id d u d' : a_kind kind -> managed p kind id d = true -> hold p kind id d = inr (u, d') ->
  confined p d d' /\ scim_user_links d' = scim_user_links d /\ is_provisioned d' (p_sys p) id = true.
Proof.
  intros Hkd Hm Hr. unfold hold in Hr. apply tx_bind_inr in Hr as (a & d0 & He & Hr). injection He as <- <-.
  apply tx_bind_inr in Hr as (a1 & d0 & He & Hr). apply tx_guard_inr in He as [_ ->]. injection Hr as _ <-. split; [|split; [done|]].
  - apply (confined_row p kind); [done|done|]. by destruct (sync_resource_state d !! (p_sys p, id)).
  - unfold is_provisioned. cbn -[lookup insert]. rewrite lookup_insert_eq. by destruct (sync_resource_state d !! (p_sys p, id)).
Qed.

Lemma stored_link p kind id d : stored_remote p kind id d <> EmptyString -> exists l, scim_user_links d !! (p_sys p, id) = Some l /\
  sl_Kind l = kind /\ sl_RemoteID l = stored_remote p kind id d.
Proof.
  unfold stored_remote, SCIMRemote. destruct (scim_user_links d !! (p_sys p, id)) as [l|]; [|done].
  destruct (sl_Kind l =?s kind) eqn:E; [|done]. intros _. apply streqb_true in E. by exists l.
Qed.

Lemma link_inv p kind id remote d b d' : a_kind kind -> managed p kind id d = true -> link p kind id remote d = inr (b, d') ->
  confined p d d' /\ sync_resource_state d' = sync_resource_state d /\ account_sync_events d' = account_sync_events d /\ managed p kind id d' = true.
Proof.
  intros Hkd Hm Hr. unfold link in Hr. apply tx_bind_inr in Hr as (a & d0 & He & Hr). apply tx_guard_inr in He as [_ ->].
  apply tx_bind_inr in Hr as (a1 & d0 & He & Hr). injection He as <- <-. cbv zeta in Hr.
  destruct ((stored_remote p kind id d <>?s EmptyString) && _ && _) eqn:Edisp; [injection Hr as _ <-; by split; [apply confined_refl|]|].
  destruct (remote_taken _ _ _ _ _); [injection Hr as _ <-; by split; [apply confined_refl|]|].
  apply tx_bind_inr in Hr as (a2 & d0 & He & Hr). apply tx_guard_inr in He as [_ ->].
  assert (forall l, (forall x, scim_user_links d !! (p_sys p, id) = Some x -> x <> l -> sl_RemoteID x = EmptyString \/ dead p (sl_Kind x) (sl_RemoteID x) = true) ->
    sl_Kind l = kind -> on_scim_user_links <[(p_sys p, id) := l]> d = d' ->
    confined p d d' /\ sync_resource_state d' = sync_resource_state d /\ account_sync_events d' = account_sync_events d /\ managed p kind id d' = true) as Hw.
  { intros l Hx Hl <-. split; [|split; [done|split; [done|]]].
    - pose proof (confined_link p kind id (Some l) d Hkd Hm) as Hc. apply Hc; [|by intros ? [= <-]]. intros x Hxl Hne. apply Hx; [done|]. by intros ->.
    - unfold managed. cbn -[lookup insert]. rewrite lookup_insert_eq, Hl, streqb_refl. by rewrite orb_true_r. }
  destruct (scim_user_links d !! (p_sys p, id)) as [l|] eqn:El.
  - destruct ((sl_Kind l =?s kind) && _) eqn:Ek.
    + apply andb_true_iff in Ek as [Ek _]. apply streqb_true in Ek.
      apply tx_bind_inr in Hr as (a3 & d0 & He & Hr). injection He as _ <-. injection Hr as _ <-. apply (Hw (MkSCIMLink (sl_Kind l) remote)); [|exact Ek|reflexivity].
      intros x [= <-] Hne. assert (stored_remote p kind id d = sl_RemoteID l) as Hst by (unfold stored_remote, SCIMRemote; by rewrite El, Ek, streqb_refl).
      rewrite Hst in Edisp. destruct (sl_RemoteID l =?s EmptyString) eqn:Ee; [left; by apply streqb_true|]. cbn in Edisp.
      destruct (sl_RemoteID l =?s remote) eqn:Er; cbn in Edisp.
      * apply streqb_true in Er. destruct Hne. destruct l. cbn in *. congruence.
      * right. rewrite Ek. by apply negb_false_iff.
    + injection Hr as _ <-. by split; [apply confined_refl|].
  - apply tx_bind_inr in Hr as (a3 & d0 & He & Hr). injection He as _ <-. injection Hr as _ <-. by apply (Hw (MkSCIMLink kind remote)).
Qed.

Lemma dropDead_inv p kind id d u d' : a_kind kind -> managed p kind id d = true -> dropDead p kind id d = inr (u, d') ->
  confined p d d' /\ sync_resource_state d' = sync_resource_state d /\ account_sync_events d' = account_sync_events d.
Proof.
  intros Hkd Hm Hr. unfold dropDead in Hr. apply tx_bind_inr in Hr as (a & d0 & He & Hr). injection He as <- <-.
  destruct (dead p kind _) eqn:Ed; [|injection Hr as _ <-; by split; [apply confined_refl|]]. injection Hr as _ <-. split; [|done].
  assert (stored_remote p kind id d <> EmptyString) as Hne.
  { unfold dead in Ed. apply andb_true_iff in Ed as [Ed _]. apply andb_true_iff in Ed as [Ed _]. apply andb_true_iff in Ed as [Ed _].
    apply negb_true_iff in Ed. by apply streqb_false. }
  destruct (stored_link _ _ _ _ Hne) as (l & Hl & Hk & Hs).
  assert (DeleteSCIMLink (p_sys p) kind id d = on_scim_user_links (delete (p_sys p, id)) d) as ->.
  { unfold DeleteSCIMLink, drop_link, on_scim_user_links. f_equal. by rewrite Hl, Hk, streqb_refl. }
  pose proof (confined_link p kind id None d Hkd Hm) as Hc. apply Hc; [|done]. intros x Hx _. rewrite Hl in Hx. injection Hx as <-. right.
  by rewrite Hk, Hs.
Qed.

(** A pass whose desired accounts carry their own identifiers. *)
Definition pass_keyed (p : Pass) : Prop := forall k u, p_desired p !! k = Some u -> u_ID u = k.

Lemma user_kind : a_kind "user".
Proof. by left. Qed.

Lemma group_kind : a_kind "group".
Proof. by right. Qed.

Lemma stale_confined p report u d r d' : managed p "user" (u_ID u) d = true -> drift_stale p report u d = inr (r, d') -> confined p d d'.
Proof.
  intros Hm Hr. unfold drift_stale in Hr. apply tx_bind_inr in Hr as (a & d1 & He & Hr). injection Hr as _ <-.
  destruct (p_repair p); [|injection He as _ <-; apply confined_refl]. apply tx_bind_inr in He as (a1 & d0 & Hg & He). injection Hg as <- <-.
  by eapply (confined_queue p "user" (u_ID u)); [apply user_kind|exact Hm| | | | | |exact He].
Qed.

Lemma orphan_confined p report r d report' d' : managed p "user" (ra_ExternalID r) d = true -> rl_Complete (p_listing p) = true ->
  drift_orphan p report r d = inr (report', d') -> confined p d d'.
Proof.
  intros Hm Hc Hr. unfold drift_orphan in Hr. apply tx_bind_inr in Hr as (a & d1 & He & Hr). injection He as <- <-. cbv zeta in Hr.
  apply tx_bind_inr in Hr as (a1 & d1 & He & Hr). injection Hr as _ <-. destruct (p_repair p); [|injection He as _ <-; apply confined_refl].
  apply tx_bind_inr in He as (a2 & d2 & Hh & He). apply (hold_inv _ _ _ _ _ _ user_kind Hm) in Hh as (Hc2 & Hl2 & _).
  apply tx_bind_inr in He as (a3 & d3 & Hg & He). injection Hg as <- <-. eapply confined_trans; [exact Hc2|].
  by eapply (confined_queue p "user" (ra_ExternalID r)); [apply user_kind|eapply confined_keeps_managed; [exact Hc2|exact Hl2|exact Hm]| | | | | |exact He].
Qed.

Lemma drift_user_confined p acc r d acc' d' : pass_keyed p -> drift_user p acc r d = inr (acc', d') -> confined p d d'.
Proof.
  intros Hpk Hr. unfold drift_user in Hr. destruct acc as [report seen]. cbv zeta in Hr.
  apply tx_bind_inr in Hr as (a & d0 & He & Hr). injection He as <- <-. destruct (negb _) eqn:Em; [injection Hr as _ <-; apply confined_refl|].
  apply negb_false_iff in Em. apply andb_true_iff in Em as [_ Hm]. apply tx_bind_inr in Hr as (linked & d1 & Hl & Hr).
  assert (confined p d d1 /\ managed p "user" (ra_ExternalID r) d1 = true) as [H1 Hm1].
  { destruct (p_repair p); [by apply (link_inv _ _ _ _ _ _ _ user_kind Hm) in Hl as (? & _ & _ & ?)|]. injection Hl as _ <-. by split; [apply confined_refl|]. }
  apply tx_bind_inr in Hr as (report' & d2 & H2 & Hr). apply tx_bind_inr in Hr as (a3 & d3 & He & Hr). injection He as _ <-. injection Hr as _ <-.
  eapply confined_trans; [exact H1|]. eapply confined_trans; [|apply confined_observe, user_kind].
  destruct (negb linked); [injection H2 as _ <-; apply confined_refl|]. destruct (p_desired p !! ra_ExternalID r) as [u|] eqn:Eu.
  - destruct (differs u r); [|injection H2 as _ <-; apply confined_refl]. eapply stale_confined; [|exact H2]. by rewrite (Hpk _ _ Eu).
  - destruct (ra_Active r && rl_Complete (p_listing p)) eqn:Ea; [|injection H2 as _ <-; apply confined_refl].
    apply andb_true_iff in Ea as [_ Ec]. by eapply orphan_confined.
Qed.

Lemma missing_confined p report u d r d' : is_Some (p_desired p !! u.1) -> drift_missing p report u d = inr (r, d') -> confined p d d'.
Proof.
  intros [x Hx] Hr. unfold drift_missing in Hr. apply tx_bind_inr in Hr as (a & d1 & He & Hr). injection Hr as _ <-.
  destruct (p_repair p); [|injection He as _ <-; apply confined_refl]. assert (forall e, managed p "user" u.1 e = true) as Hm by (intros e; unfold managed; by rewrite Hx).
  apply tx_bind_inr in He as (a1 & d2 & Hd & He). apply (dropDead_inv _ _ _ _ _ _ user_kind (Hm d)) in Hd as (Hc2 & _).
  apply tx_bind_inr in He as (a2 & d3 & Hs & He). injection Hs as _ <-. apply tx_bind_inr in He as (a3 & d4 & Hg & He). injection Hg as <- <-.
  eapply confined_trans; [exact Hc2|]. eapply confined_trans; [by apply (confined_alter p "user" u.1 (set_rs_Provisioned false) d2 user_kind)|].
  by eapply (confined_queue p "user" u.1); [apply user_kind|apply Hm| | | | | |exact He].
Qed.

Lemma group_confined p report g d r d' : wanted_group p g.2 = true -> drift_group p report g d = inr (r, d') -> confined p d d'.
Proof.
  intros Hw Hr. unfold drift_group in Hr. apply tx_bind_inr in Hr as (a & d1 & He & Hr). injection Hr as _ <-.
  destruct (p_repair p); [|injection He as _ <-; apply confined_refl].
  assert (forall e, managed p "group" g.2 e = true) as Hm by (intros e; unfold managed; by rewrite Hw).
  apply tx_bind_inr in He as (a1 & d2 & Hd & He). apply (dropDead_inv _ _ _ _ _ _ group_kind (Hm d)) in Hd as (Hc2 & _).
  apply tx_bind_inr in He as (a3 & d4 & Hg & He). injection Hg as <- <-. eapply confined_trans; [exact Hc2|].
  by eapply (confined_queue p "group" g.2); [apply group_kind|apply Hm| | | | | |exact He].
Qed.

Lemma remote_group_confined p report r d report' d' : rl_Complete (p_listing p) = true ->
  drift_remote_group p report r d = inr (report', d') -> confined p d d'.
Proof.
  intros Hc Hr. unfold drift_remote_group in Hr. cbv zeta in Hr. destruct (_ || _); [injection Hr as _ <-; apply confined_refl|].
  apply tx_bind_inr in Hr as (a & d0 & He & Hr). injection He as <- <-.
  destruct (negb (managed _ _ _ _)) eqn:Em; [injection Hr as _ <-; apply confined_refl|]. apply negb_false_iff in Em.
  destruct (negb (p_repair p)); [injection Hr as _ <-; apply confined_refl|].
  apply tx_bind_inr in Hr as (linked & d1 & Hl & Hr). apply (link_inv _ _ _ _ _ _ _ group_kind Em) in Hl as (H1 & _ & _ & Hm1).
  destruct (negb linked); [by injection Hr as _ <-|].
  apply tx_bind_inr in Hr as (a2 & d2 & Hh & Hr). apply (hold_inv _ _ _ _ _ _ group_kind Hm1) in Hh as (H2 & Hl2 & Hp2).
  apply tx_bind_inr in Hr as (a3 & d3 & Hq & Hr). injection Hr as _ <-. eapply confined_trans; [exact H1|]. eapply confined_trans; [exact H2|].
  eapply (confined_queue p "group" (rg_ExternalID r)); [apply group_kind|eapply confined_keeps_managed; [exact H2|exact Hl2|exact Hm1]| | | |  | |exact Hq]; try done.
  unfold forgotten. cbn [ds_kind ds_active ds_systemID ds_resourceID]. by rewrite Hp2, !andb_false_r.
Qed.

Lemma tx_fold_confined {A B} p (f : A -> B -> STx A) l : (forall acc x d acc' d', In x l -> f acc x d = inr (acc', d') -> confined p d d') ->
  forall acc d acc' d', tx_fold f acc l d = inr (acc', d') -> confined p d d'.
Proof.
  induction l as [|x l IH]; intros Hf acc d acc' d' Hr; cbn [tx_fold] in Hr; [injection Hr as _ <-; apply confined_refl|].
  apply tx_bind_inr in Hr as (acc1 & d1 & H1 & Hr). eapply confined_trans; [eapply Hf; [by left|exact H1]|].
  eapply IH; [|exact Hr]. intros. eapply Hf; [by right|done].
Qed.

Lemma drift_inv newid order sys l repair now d report d' : ReconcileDrift newid order sys l repair now d = inr (report, d') ->
  is_Some (paired_systems d !! sys) /\
  (if negb (rl_Supported l) then report = new_report l /\
     d' = on_sync_resource_state (map_imap (fun k st => Some (if k.1 =?s sys then set_rs_Observed "unsupported" (Some now) st else st))) d
   else let p := start_pass newid sys l repair now d in
     exists rs d1 r2 d2 r3, compare_users p (set_listed_users (Z.of_nat (length (rl_Users l))) (new_report l)) d = inr (rs, d1) /\
       compare_missing p order rs.1 rs.2 d1 = inr (r2, d2) /\ compare_groups p r2 d2 = inr (r3, d') /\ report = set_repaired (repair && rl_Complete l) r3).
Proof.
  intros Hr. unfold ReconcileDrift in Hr. apply tx_bind_inr in Hr as (a & d0 & He & Hr). injection He as <- <-.
  apply tx_bind_inr in Hr as (a1 & d0 & He & Hr). apply tx_guard_inr in He as [Hs ->]. split; [by destruct (paired_systems d !! sys)|].
  destruct (negb (rl_Supported l)).
  - apply tx_bind_inr in Hr as (a2 & d0 & He & Hr). injection He as _ <-. by injection Hr as <- <-.
  - cbv zeta in *. apply tx_bind_inr in Hr as (rs & d1 & H1 & Hr). apply tx_bind_inr in Hr as (r2 & d2 & H2 & Hr).
    apply tx_bind_inr in Hr as (r3 & d3 & H3 & Hr). injection Hr as <- <-. by exists rs, d1, r2, d2, r3.
Qed.

Lemma groups_wanted p g : In g (p_groups p) -> wanted_group p g.2 = true.
Proof. intros Hi. apply one_of_true. by apply in_map. Qed.

Lemma compare_confined p order r1 d rs d1 r2 d2 r3 d3 : pass_keyed p -> (forall l x, In x (order l) -> In x l) ->
  compare_users p r1 d = inr (rs, d1) -> compare_missing p order rs.1 rs.2 d1 = inr (r2, d2) -> compare_groups p r2 d2 = inr (r3, d3) ->
  confined p d d3.
Proof.
  intros Hpk Hord H1 H2 H3. apply confined_trans with d1.
  { eapply tx_fold_confined; [|exact H1]. intros acc x e acc' e' _. by apply drift_user_confined. }
  apply confined_trans with d2.
  - unfold compare_missing in H2. destruct (rl_Complete (p_listing p)); [|injection H2 as _ <-; apply confined_refl].
    apply tx_bind_inr in H2 as (r & e & Hf & H2). apply tx_bind_inr in H2 as (a & e' & He & H2). injection He as _ <-. injection H2 as _ <-.
    eapply confined_trans; [|apply confined_absent]. eapply tx_fold_confined; [|exact Hf]. intros acc x e1 acc' e1' Hx. apply missing_confined.
    apply filter_In in Hx as [Hx _]. apply Hord in Hx. destruct x as [k u]. apply list_elem_of_In, elem_of_map_to_list in Hx. by exists u.
  - unfold compare_groups in H3. destruct (rl_GroupsListed _ && rl_Complete (p_listing p)) eqn:Ec; [|injection H3 as _ <-; apply confined_refl].
    apply andb_true_iff in Ec as [_ Ec]. apply tx_bind_inr in H3 as (r & e & Hf & H3). apply confined_trans with e.
    + eapply tx_fold_confined; [|exact Hf]. intros acc x e1 acc' e1' Hx. by apply group_confined, groups_wanted.
    + eapply tx_fold_confined; [|exact H3]. intros acc x e1 acc' e1' _. by apply remote_group_confined.
Qed.

Lemma start_keyed newid sys l repair now d : users_keyed d -> pass_keyed (start_pass newid sys l repair now d).
Proof.
  intros Hk k u Hu. cbn -[lookup] in Hu. unfold desired_users in Hu. rewrite lookup_fmap in Hu.
  destruct (filter _ (users d) !! k) as [r|] eqn:E; [|done]. cbn in Hu. injection Hu as <-. apply map_lookup_filter_Some in E as [E _].
  rewrite <- (Hk k r E). unfold scanUser. by destruct (u_EndsAt r) as [e|]; [destruct (of_unix e <=? now)|].
Qed.

(** A reconciliation pass writes only rows of its own connector, and of
    those only resources the connector already manages: other rows and
    events stay, live mappings stay, an account the target merely names
    gains no row, mapping or queued work, and an incomplete listing
    deactivates nothing. *)
Theorem a_repair_touches_only_what_it_manages newid order sys l repair now d report d' :
  users_keyed d -> (forall l x, In x (order l) -> In x l) -> rl_Supported l = true ->
  ReconcileDrift newid order sys l repair now d = inr (report, d') -> confined (start_pass newid sys l repair now d) d d'.
Proof.
  intros Hk Hord Hs Hr. apply drift_inv in Hr as [_ Hr]. rewrite Hs in Hr. cbn [negb] in Hr. destruct Hr as (rs & d1 & r2 & d2 & r3 & H1 & H2 & H3 & _).
  eapply compare_confined; [by apply start_keyed|exact Hord|exact H1|exact H2|exact H3].
Qed.

(** *** A complete repair converges *)

(** The resource's recorded state and its events. *)
Definition record_of (k : string * string) (d : DB) : option (bool * Z) * list AccountSyncEvent :=
  ((fun st => (rs_Active st, rs_Revision st)) <$> sync_resource_state d !! k, List.filter (of_resource k.1 k.2) (account_sync_events d)).

(** The state is recorded and an event that delivers this revision waits. *)
Definition recorded (active : bool) (k : string * string) (d : DB) : Prop :=
  exists rev e, (record_of k d).1 = Some (active, rev) /\ In e (record_of k d).2 /\ e_Status e = "pending"%string /\ e_Revision e = rev.

(** What a statement does to an account: nothing, or record what access says. *)
Definition settles (p : Pass) (id : string) (d d' : DB) : Prop :=
  record_of (p_sys p, id) d' = record_of (p_sys p, id) d \/ recorded (negb (is_null (p_desired p !! id))) (p_sys p, id) d'.

Lemma settles_refl p id d : settles p id d d.
Proof. by left. Qed.

Lemma settles_trans p id d1 d2 d3 : settles p id d1 d2 -> settles p id d2 d3 -> settles p id d1 d3.
Proof.
  unfold settles, recorded. intros H1 [E|H2]; [|by right]. rewrite E. exact H1.
Qed.

Lemma recorded_settles p id d d' : recorded (negb (is_null (p_desired p !! id))) (p_sys p, id) d -> settles p id d d' ->
  recorded (negb (is_null (p_desired p !! id))) (p_sys p, id) d'.
Proof. unfold settles, recorded. intros Hr [->|Hs]; done. Qed.

Lemma queue_recorded newid s now d u d' : queueDesiredStateTx newid s now d = inr (u, d') -> forgotten d s = false ->
  recorded (ds_active s) (ds_systemID s, ds_resourceID s) d'.
Proof.
  intros Hr Hf. apply queue_inv in Hr. cbv zeta in Hr. rewrite Hf in Hr. destruct Hr as [_ ->]. unfold recorded, record_of. cbn -[lookup insert next_state List.filter].
  rewrite lookup_insert_eq. set (st := next_state _ _). exists (rs_Revision st), (desired_event (newid (ds_systemID s) (ds_resourceID s)) d s now).
  split; [|split; [|done]].
  - unfold st, next_state. by destruct (sync_resource_state d !! _).
  - apply filter_In. split; [apply in_or_app; right; by left|]. unfold of_resource. cbn. by rewrite !streqb_refl.
Qed.

Lemma queue_other newid s now d u d' k : queueDesiredStateTx newid s now d = inr (u, d') -> k <> (ds_systemID s, ds_resourceID s) ->
  record_of k d' = record_of k d.
Proof.
  intros Hr Hk. unfold record_of. rewrite (queue_other_events _ _ _ _ _ _ _ Hr Hk). f_equal.
  rewrite (queue_state _ _ _ _ _ _ k Hr). by rewrite decide_False.
Qed.

Lemma queue_settles p id0 active payload force id d u d' : active = negb (is_null (p_desired p !! id0)) ->
  queue_account p id0 active payload force d = inr (u, d') -> settles p id d d'.
Proof.
  intros Ha Hr. destruct (decide (id = id0)) as [->|Hne].
  - right. rewrite <- Ha. by apply (queue_recorded _ _ _ _ _ _ Hr).
  - left. apply (queue_other _ _ _ _ _ _ _ Hr). cbn. congruence.
Qed.

Lemma alter_record p kind id g d k : (forall st, rs_Active (g st) = rs_Active st /\ rs_Revision (g st) = rs_Revision st) ->
  record_of k (alter_state p kind id g d) = record_of k d.
Proof.
  intros Hg. unfold record_of, alter_state. cbn -[lookup alter]. f_equal. destruct (decide (k = (p_sys p, id))) as [->|Hne].
  - rewrite lookup_alter_eq. destruct (sync_resource_state d !! _) as [st|]; [|done]. cbn. destruct (_ =?s _); [|done]. by destruct (Hg st) as [-> ->].
  - by rewrite lookup_alter_ne.
Qed.

Lemma absent_record p d k : record_of k (observe_absent p d) = record_of k d.
Proof.
  unfold record_of, observe_absent. cbn -[lookup]. f_equal. rewrite map_lookup_imap. destruct (sync_resource_state d !! k) as [st|]; [|done]. cbn.
  by destruct (_ && _).
Qed.

Lemma same_tables_record k d d' : sync_resource_state d' = sync_resource_state d -> account_sync_events d' = account_sync_events d ->
  record_of k d' = record_of k d.
Proof. unfold record_of. by intros -> ->. Qed.

Lemma hold_other p kind id d u d' k : hold p kind id d = inr (u, d') -> k <> (p_sys p, id) -> record_of k d' = record_of k d.
Proof.
  intros Hr Hk. unfold hold in Hr. apply tx_bind_inr in Hr as (a & d0 & He & Hr). injection He as <- <-.
  apply tx_bind_inr in Hr as (a1 & d0 & He & Hr). apply tx_guard_inr in He as [_ ->]. injection Hr as _ <-. unfold record_of. cbn -[lookup insert].
  by rewrite lookup_insert_ne.
Qed.

Lemma stale_settles p report u d r d' id : is_Some (p_desired p !! u_ID u) -> drift_stale p report u d = inr (r, d') ->
  settles p id d d' /\ (p_repair p = true -> recorded true (p_sys p, u_ID u) d').
Proof.
  intros [x Hx] Hr. unfold drift_stale in Hr. apply tx_bind_inr in Hr as (a & d1 & He & Hr). injection Hr as _ <-.
  destruct (p_repair p); [|injection He as _ <-; by split; [apply settles_refl|]]. apply tx_bind_inr in He as (a1 & d0 & Hg & He). injection Hg as <- <-.
  split; [eapply queue_settles; [|exact He]; by rewrite Hx|]. intros _. by apply (queue_recorded _ _ _ _ _ _ He).
Qed.

Lemma orphan_settles p report r d report' d' id : p_desired p !! ra_ExternalID r = None -> drift_orphan p report r d = inr (report', d') ->
  settles p id d d' /\ (p_repair p = true -> recorded false (p_sys p, ra_ExternalID r) d').
Proof.
  intros Hx Hr. unfold drift_orphan in Hr. apply tx_bind_inr in Hr as (a & d1 & He & Hr). injection He as <- <-. cbv zeta in Hr.
  apply tx_bind_inr in Hr as (a1 & d1 & He & Hr). injection Hr as _ <-. destruct (p_repair p); [|injection He as _ <-; by split; [apply settles_refl|]].
  apply tx_bind_inr in He as (a2 & d2 & Hh & He). apply tx_bind_inr in He as (a3 & d3 & Hg & He). injection Hg as <- <-.
  assert (recorded false (p_sys p, ra_ExternalID r) d1) as Hrec by by apply (queue_recorded _ _ _ _ _ _ He). split; [|done].
  destruct (decide (id = ra_ExternalID r)) as [->|Hne]; [right; by rewrite Hx|]. left.
  rewrite (queue_other _ _ _ _ _ _ _ He) by (cbn; congruence). eapply hold_other; [exact Hh|congruence].
Qed.

(** An account the listing gives a reason to write. *)
Definition triggers (p : Pass) (r : RemoteAccount) : bool :=
  match p_desired p !! ra_ExternalID r with Some u => differs u r | None => ra_Active r && rl_Complete (p_listing p) end.

Lemma drift_user_settles p report seen r d report' seen' d' id : pass_keyed p -> p_repair p = true -> drift_user p (report, seen) r d = inr ((report', seen'), d') ->
  settles p id d d' /\ dr_MappingConflicts report <= dr_MappingConflicts report' /\
  (seen' = seen \/ (seen' = ra_ExternalID r :: seen /\ ra_ExternalID r <> EmptyString)) /\
  (ra_ExternalID r <> EmptyString -> managed p "user" (ra_ExternalID r) d = true ->
     (seen' = ra_ExternalID r :: seen) /\
     (dr_MappingConflicts report' = dr_MappingConflicts report -> triggers p r = true ->
        recorded (negb (is_null (p_desired p !! ra_ExternalID r))) (p_sys p, ra_ExternalID r) d')).
Proof.
  intros Hpk Hrep Hr. unfold drift_user in Hr. cbv zeta in Hr. rewrite Hrep in Hr.
  apply tx_bind_inr in Hr as (a & d0 & He & Hr). injection He as <- <-. destruct (negb _) eqn:Em.
  { injection Hr as <- <- <-. split; [apply settles_refl|]. split; [cbn; lia|]. split; [by left|]. intros Hne Hm. apply negb_true_iff in Em.
    apply streqb_false in Hne. by rewrite Hne, Hm in Em. }
  apply negb_false_iff in Em. apply andb_true_iff in Em as [Ene Hm]. apply negb_true_iff, streqb_false in Ene.
  apply tx_bind_inr in Hr as (linked & d1 & Hl & Hr). apply (link_inv _ _ _ _ _ _ _ user_kind Hm) in Hl as (_ & Hs1 & He1 & _).
  apply tx_bind_inr in Hr as (report2 & d2 & H2 & Hr). apply tx_bind_inr in Hr as (a3 & d3 & He & Hr). injection He as _ <-. injection Hr as <- <- <-.
  assert (forall k, record_of k (observe p "user" (ra_ExternalID r) (if ra_Active r then "present_active" else "present_inactive")%string d2) = record_of k d2) as Hob
    by (intros k; by apply alter_record).
  assert (settles p id d d1) as Hd1 by (left; by apply same_tables_record).
  enough (settles p id d1 d2 /\ dr_MappingConflicts report <= dr_MappingConflicts report2 /\
    (dr_MappingConflicts report2 = dr_MappingConflicts report -> triggers p r = true ->
        recorded (negb (is_null (p_desired p !! ra_ExternalID r))) (p_sys p, ra_ExternalID r) d2)) as (E1 & E2 & E3).
  { split; [|split; [done|split; [by right|]]].
    - eapply settles_trans; [exact Hd1|]. eapply settles_trans; [exact E1|]. left. apply Hob.
    - intros _ _. split; [done|]. intros Hc Ht. unfold recorded. rewrite Hob. by apply E3. }
  unfold triggers. destruct linked; cbn [negb] in H2.
  - destruct (p_desired p !! ra_ExternalID r) as [u|] eqn:Eu.
    + pose proof (Hpk _ _ Eu) as Hid. destruct (differs u r).
      * assert (dr_MappingConflicts report2 = dr_MappingConflicts report) as Hc.
        { unfold drift_stale in H2. apply tx_bind_inr in H2 as (a4 & d4 & _ & H2). by injection H2 as <- <-. }
        apply (stale_settles _ _ _ _ _ _ id) in H2 as [Hs Hrec]; [|rewrite Hid; by exists u]. split; [done|]. split; [lia|]. intros _ _. cbn. rewrite <- Hid. by apply Hrec.
      * injection H2 as <- <-. split; [apply settles_refl|]. split; [lia|done].
    + destruct (ra_Active r && rl_Complete (p_listing p)).
      * assert (dr_MappingConflicts report2 = dr_MappingConflicts report) as Hc.
        { unfold drift_orphan in H2. apply tx_bind_inr in H2 as (a4 & d4 & _ & H2). cbv zeta in H2. apply tx_bind_inr in H2 as (a5 & d5 & _ & H2). by injection H2 as <- <-. }
        apply (orphan_settles _ _ _ _ _ _ id) in H2 as [Hs Hrec]; [|done]. split; [done|]. split; [lia|]. intros _ _. by apply Hrec.
      * injection H2 as <- <-. split; [apply settles_refl|]. split; [lia|done].
  - injection H2 as <- <-. split; [apply settles_refl|]. cbn. split; [lia|]. intros Hc. lia.
Qed.

(** Comparing an account deletes no mapping and changes no mapping's kind. *)
Lemma link_kinds p kind id remote d b d' k l : link p kind id remote d = inr (b, d') -> scim_user_links d !! k = Some l ->
  exists l', scim_user_links d' !! k = Some l' /\ sl_Kind l' = sl_Kind l.
Proof.
  intros Hr Hl. unfold link in Hr. apply tx_bind_inr in Hr as (a & d0 & He & Hr). apply tx_guard_inr in He as [_ ->].
  apply tx_bind_inr in Hr as (a1 & d0 & He & Hr). injection He as <- <-. cbv zeta in Hr.
  destruct ((stored_remote p kind id d <>?s EmptyString) && _ && _); [injection Hr as _ <-; by exists l|].
  destruct (remote_taken _ _ _ _ _); [injection Hr as _ <-; by exists l|].
  apply tx_bind_inr in Hr as (a2 & d0 & He & Hr). apply tx_guard_inr in He as [_ ->].
  destruct (scim_user_links d !! (p_sys p, id)) as [x|] eqn:E.
  - destruct (_ && _); [|injection Hr as _ <-; by exists l]. apply tx_bind_inr in Hr as (a3 & d0 & He & Hr). injection He as _ <-. injection Hr as _ <-.
    cbn -[lookup insert]. destruct (decide (k = (p_sys p, id))) as [->|Hne]; [|rewrite lookup_insert_ne by done; by exists l].
    rewrite lookup_insert_eq. rewrite E in Hl. injection Hl as <-. by eexists.
  - apply tx_bind_inr in Hr as (a3 & d0 & He & Hr). injection He as _ <-. injection Hr as _ <-. cbn -[lookup insert].
    rewrite lookup_insert_ne by congruence. by exists l.
Qed.

Lemma queued_links d d' : queued d d' -> scim_user_links d' = scim_user_links d.
Proof. by intros (es & st & ->). Qed.

Lemma stale_links p report u d r d' : drift_stale p report u d = inr (r, d') -> scim_user_links d' = scim_user_links d.
Proof.
  intros Hr. unfold drift_stale in Hr. apply tx_bind_inr in Hr as (a & d1 & He & Hr). injection Hr as _ <-.
  destruct (p_repair p); [|by injection He as _ <-]. apply tx_bind_inr in He as (a1 & d0 & Hg & He). injection Hg as <- <-.
  by apply queued_links, (queue_queued _ _ _ _ _ _ He).
Qed.

Lemma orphan_links p report r d report' d' : drift_orphan p report r d = inr (report', d') -> scim_user_links d' = scim_user_links d.
Proof.
  intros Hr. unfold drift_orphan in Hr. apply tx_bind_inr in Hr as (a & d1 & He & Hr). injection He as <- <-. cbv zeta in Hr.
  apply tx_bind_inr in Hr as (a1 & d1 & He & Hr). injection Hr as _ <-. destruct (p_repair p); [|by injection He as _ <-].
  apply tx_bind_inr in He as (a2 & d2 & Hh & He). apply tx_bind_inr in He as (a3 & d3 & Hg & He). injection Hg as <- <-.
  rewrite (queued_links _ _ (queue_queued _ _ _ _ _ _ He)). unfold hold in Hh. apply tx_bind_inr in Hh as (a4 & d4 & Hx & Hh). injection Hx as <- <-.
  apply tx_bind_inr in Hh as (a5 & d4 & Hx & Hh). apply tx_guard_inr in Hx as [_ ->]. by injection Hh as _ <-.
Qed.

Lemma drift_user_keeps p acc r d acc' d' id : pass_keyed p -> drift_user p acc r d = inr (acc', d') ->
  managed p "user" id d = true -> managed p "user" id d' = true.
Proof.
  intros Hpk Hr Hm. pose proof (drift_user_confined _ _ _ _ _ _ Hpk Hr) as Hc.
  assert (forall k l, scim_user_links d !! k = Some l -> exists l', scim_user_links d' !! k = Some l' /\ sl_Kind l' = sl_Kind l) as Hk.
  { intros k l Hl. unfold drift_user in Hr. destruct acc as [report seen]. cbv zeta in Hr.
    apply tx_bind_inr in Hr as (a & d0 & He & Hr). injection He as <- <-. destruct (negb (_ && _)); [injection Hr as _ <-; by exists l|].
    apply tx_bind_inr in Hr as (linked & d1 & H1 & Hr).
    apply tx_bind_inr in Hr as (report2 & d2 & H2 & Hr). apply tx_bind_inr in Hr as (a3 & d3 & He & Hr). injection He as _ <-. injection Hr as _ <-.
    change (scim_user_links (observe _ _ _ _ _)) with (scim_user_links d2).
    assert (exists l', scim_user_links d1 !! k = Some l' /\ sl_Kind l' = sl_Kind l) as Hl1.
    { destruct (p_repair p); [by eapply link_kinds|]. injection H1 as _ <-. by exists l. }
    enough (scim_user_links d2 = scim_user_links d1) as -> by done. destruct (negb linked); [by injection H2 as _ <-|].
    destruct (p_desired p !! _); [destruct (differs _ _); [by eapply stale_links|by injection H2 as _ <-]|].
    destruct (_ && _); [by eapply orphan_links|by injection H2 as _ <-]. }
  unfold managed in *. apply orb_true_iff in Hm as [Hm|Hm]; [apply orb_true_iff in Hm as [Hm|Hm]|].
  - by rewrite Hm.
  - destruct (sync_resource_state d !! (p_sys p, id)) as [st|] eqn:E; [|done]. destruct (cf_row _ _ _ Hc _ _ E) as (st' & -> & -> & _). rewrite Hm.
    by rewrite orb_true_r.
  - destruct (scim_user_links d !! (p_sys p, id)) as [l|] eqn:E; [|done]. destruct (Hk _ _ E) as (l' & -> & ->). rewrite Hm. by rewrite !orb_true_r.
Qed.

Lemma compare_users_settles p l : pass_keyed p -> p_repair p = true -> forall report seen d report' seen' d',
  tx_fold (drift_user p) (report, seen) l d = inr ((report', seen'), d') ->
  (forall id, settles p id d d') /\ dr_MappingConflicts report <= dr_MappingConflicts report' /\
  (forall s, In s seen' -> In s seen \/ (s <> EmptyString /\ exists r, In r l /\ ra_ExternalID r = s)) /\
  (dr_MappingConflicts report' = dr_MappingConflicts report -> forall r, In r l -> ra_ExternalID r <> EmptyString ->
     managed p "user" (ra_ExternalID r) d = true -> triggers p r = true ->
     recorded (negb (is_null (p_desired p !! ra_ExternalID r))) (p_sys p, ra_ExternalID r) d').
Proof.
  intros Hpk Hrep. induction l as [|r l IH]; intros report seen d report' seen' d' Hr; cbn [tx_fold] in Hr.
  { injection Hr as <- <- <-. split; [intros; apply settles_refl|]. split; [lia|]. split; [by left|done]. }
  apply tx_bind_inr in Hr as ([report1 seen1] & d1 & H1 & Hr). destruct (IH _ _ _ _ _ _ Hr) as (S2 & C2 & N2 & R2).
  pose proof (fun id => drift_user_settles p report seen r d report1 seen1 d1 id Hpk Hrep H1) as Hs.
  split; [intros id; eapply settles_trans; [apply Hs|apply S2]|]. destruct (Hs EmptyString) as (_ & C1 & N1 & R1). split; [lia|]. split.
  - intros s Hin. destruct (N2 s Hin) as [Hi|(Hne & x & Hx & Hxs)]; [|right; split; [done|]; exists x; split; [by right|done]].
    destruct N1 as [->|[-> Hne]]; [by left|]. destruct Hi as [<-|Hi]; [|by left]. right. split; [done|]. exists r. split; [by left|done].
  - intros Hc x [<-|Hx] Hne Hm Ht.
    + destruct (R1 Hne Hm) as [_ Hrec]. eapply recorded_settles; [apply Hrec; [lia|done]|apply S2].
    + apply R2; [lia|done|done| |done]. by eapply drift_user_keeps.
Qed.

Lemma missing_settles p report u d r d' id : p_repair p = true -> p_desired p !! u.1 = Some u.2 -> drift_missing p report u d = inr (r, d') ->
  settles p id d d' /\ recorded true (p_sys p, u.1) d' /\ dr_MappingConflicts r = dr_MappingConflicts report.
Proof.
  intros Hrep Hx Hr. unfold drift_missing in Hr. rewrite Hrep in Hr. apply tx_bind_inr in Hr as (a & d1 & He & Hr). injection Hr as <- <-.
  assert (forall e, managed p "user" u.1 e = true) as Hm by (intros e; unfold managed; by rewrite Hx).
  apply tx_bind_inr in He as (a1 & d2 & Hd & He). apply (dropDead_inv _ _ _ _ _ _ user_kind (Hm d)) in Hd as (_ & Hs & Hev).
  apply tx_bind_inr in He as (a2 & d3 & Hs3 & He). injection Hs3 as _ <-. apply tx_bind_inr in He as (a3 & d4 & Hg & He). injection Hg as <- <-.
  split; [|split; [by apply (queue_recorded _ _ _ _ _ _ He)|done]].
  eapply settles_trans; [left; by apply same_tables_record|]. eapply settles_trans; [left; by apply (alter_record p "user" u.1 (set_rs_Provisioned false))|].
  eapply queue_settles; [|exact He]. by rewrite Hx.
Qed.

Lemma compare_missing_settles p order report seen d report' d' : p_repair p = true -> rl_Complete (p_listing p) = true ->
  (forall l, Permutation (order l) l) -> compare_missing p order report seen d = inr (report', d') ->
  (forall id, settles p id d d') /\ dr_MappingConflicts report' = dr_MappingConflicts report /\
  (forall id, is_Some (p_desired p !! id) -> ~ In id seen -> recorded true (p_sys p, id) d').
Proof.
  intros Hrep Hc Hord Hr. unfold compare_missing in Hr. rewrite Hc in Hr. apply tx_bind_inr in Hr as (rep & e & Hf & Hr).
  apply tx_bind_inr in Hr as (a & e' & He & Hr). injection He as _ <-. injection Hr as <- <-.
  assert (forall l, (forall u, In u l -> p_desired p !! u.1 = Some u.2) -> forall report d rep e, tx_fold (drift_missing p) report l d = inr (rep, e) ->
    (forall id, settles p id d e) /\ dr_MappingConflicts rep = dr_MappingConflicts report /\
    forall u, In u l -> recorded true (p_sys p, u.1) e) as Hl.
  { clear Hf. induction l as [|u l IH]; intros Hin report1 d1 rep1 e1 Hf; cbn [tx_fold] in Hf.
    { injection Hf as <- <-. split; [intros; apply settles_refl|]. by split. }
    apply tx_bind_inr in Hf as (rep2 & e2 & H2 & Hf). pose proof (fun id => missing_settles p _ u _ _ _ id Hrep (Hin u (or_introl eq_refl)) H2) as Hs.
    destruct (IH (fun x Hx => Hin x (or_intror Hx)) _ _ _ _ Hf) as (S2 & C2 & R2). destruct (Hs EmptyString) as (_ & R1 & C1).
    split; [intros id; eapply settles_trans; [apply Hs|apply S2]|]. split; [congruence|].
    intros x [<-|Hx]; [|by apply R2]. pose proof (recorded_settles p u.1 e2 e1) as Hk. rewrite (Hin u (or_introl eq_refl)) in Hk. by apply Hk. }
  apply Hl in Hf as (S & C & R).
  - split; [intros id; eapply settles_trans; [apply S|left; apply absent_record]|]. split; [done|].
    intros id [u Hu] Hn. unfold recorded. rewrite absent_record. apply (R (id, u)). apply filter_In. split.
    + eapply Permutation_in; [apply Permutation_sym, Hord|]. by apply list_elem_of_In, elem_of_map_to_list.
    + cbn. apply negb_true_iff, not_true_iff_false. intros Ho. by apply one_of_true in Ho.
  - intros u Hu. apply filter_In in Hu as [Hu _]. eapply Permutation_in in Hu; [|apply Hord]. destruct u. by apply list_elem_of_In, elem_of_map_to_list in Hu.
Qed.

(** The group loops leave the accounts' records alone. *)
Lemma group_record p report g d r d' id : wanted_group p g.2 = true -> managed p "group" id d = false -> drift_group p report g d = inr (r, d') ->
  record_of (p_sys p, id) d' = record_of (p_sys p, id) d /\ dr_MappingConflicts r = dr_MappingConflicts report.
Proof.
  intros Hw Hn Hr. unfold drift_group in Hr. apply tx_bind_inr in Hr as (a & d1 & He & Hr). injection Hr as <- <-. split; [|done].
  destruct (p_repair p); [|by injection He as _ <-].
  assert (forall e, managed p "group" g.2 e = true) as Hm by (intros e; unfold managed; by rewrite Hw).
  apply tx_bind_inr in He as (a1 & d2 & Hd & He). apply (dropDead_inv _ _ _ _ _ _ group_kind (Hm d)) in Hd as (_ & Hs & Hev).
  apply tx_bind_inr in He as (a3 & d4 & Hg & He). injection Hg as <- <-. rewrite (queue_other _ _ _ _ _ _ (p_sys p, id) He).
  - by apply same_tables_record.
  - cbn. intros [= ->]. by rewrite Hm in Hn.
Qed.

Lemma remote_group_record p report r d report' d' id : managed p "group" id d = false ->
  drift_remote_group p report r d = inr (report', d') ->
  record_of (p_sys p, id) d' = record_of (p_sys p, id) d /\ dr_MappingConflicts report <= dr_MappingConflicts report'.
Proof.
  intros Hn Hr. unfold drift_remote_group in Hr. cbv zeta in Hr. destruct (_ || _); [injection Hr as <- <-; by split|].
  apply tx_bind_inr in Hr as (a & d0 & He & Hr). injection He as <- <-.
  destruct (negb (managed _ _ _ _)) eqn:Em; [injection Hr as <- <-; by split|]. apply negb_false_iff in Em.
  destruct (negb (p_repair p)); [injection Hr as <- <-; by split|].
  apply tx_bind_inr in Hr as (linked & d1 & Hl & Hr). apply (link_inv _ _ _ _ _ _ _ group_kind Em) in Hl as (_ & H1 & H2 & _).
  destruct (negb linked); [injection Hr as <- <-; split; [by apply same_tables_record|cbn; lia]|].
  apply tx_bind_inr in Hr as (a2 & d2 & Hh & Hr). apply tx_bind_inr in Hr as (a3 & d3 & Hq & Hr). injection Hr as <- <-. split; [|cbn; lia].
  assert (id <> rg_ExternalID r) as Hne by (intros ->; congruence). rewrite (queue_other _ _ _ _ _ _ (p_sys p, id) Hq) by (cbn; congruence).
  rewrite (hold_other _ _ _ _ _ _ (p_sys p, id) Hh) by congruence. by apply same_tables_record.
Qed.

Lemma tx_fold_record {B} p id (f : DriftReport -> B -> STx DriftReport) l :
  (forall report x d report' d', In x l -> managed p "group" id d = false -> f report x d = inr (report', d') ->
     confined p d d' /\ record_of (p_sys p, id) d' = record_of (p_sys p, id) d /\ dr_MappingConflicts report <= dr_MappingConflicts report') ->
  forall report d report' d', managed p "group" id d = false -> tx_fold f report l d = inr (report', d') ->
  managed p "group" id d' = false /\ record_of (p_sys p, id) d' = record_of (p_sys p, id) d /\ dr_MappingConflicts report <= dr_MappingConflicts report'.
Proof.
  induction l as [|x l IH]; intros Hf report d report' d' Hn Hr; cbn [tx_fold] in Hr; [injection Hr as <- <-; split; [done|split; [done|lia]]|].
  apply tx_bind_inr in Hr as (acc1 & d1 & H1 & Hr). apply Hf in H1 as (Hc & E1 & C1); [|by left|done].
  destruct (IH (fun r y e r' e' Hy => Hf r y e r' e' (or_intror Hy)) acc1 d1 report' d') as (N2 & E2 & C2); [|done|].
  - apply not_true_iff_false. intros Hm. apply (confined_managed _ _ _ _ _ Hc) in Hm. congruence.
  - split; [done|]. split; [congruence|lia].
Qed.

Lemma compare_groups_record p report d report' d' id : managed p "group" id d = false -> compare_groups p report d = inr (report', d') ->
  record_of (p_sys p, id) d' = record_of (p_sys p, id) d /\ dr_MappingConflicts report <= dr_MappingConflicts report'.
Proof.
  intros Hn Hr. unfold compare_groups in Hr. destruct (rl_GroupsListed _ && rl_Complete (p_listing p)) eqn:Ec; [|injection Hr as <- <-; by split].
  apply andb_true_iff in Ec as [_ Ec]. apply tx_bind_inr in Hr as (rep & e & Hf & Hr).
  apply (tx_fold_record p id) in Hf as (N1 & E1 & C1); [| |done].
  - apply (tx_fold_record p id) in Hr as (N2 & E2 & C2); [split; [congruence|lia]| |done]. intros r x e1 r' e1' _ He Hg.
    split; [by eapply remote_group_confined|]. by eapply remote_group_record.
  - intros r x e1 r' e1' Hx He Hg. apply groups_wanted in Hx. split; [by eapply group_confined|].
    destruct (group_record _ _ _ _ _ _ id Hx He Hg) as [? ->]. split; [done|lia].
Qed.

(** No account shares its identifier with a group the connector knows. *)
Definition ids_apart (p : Pass) (d : DB) : Prop := forall id, managed p "user" id d = true -> managed p "group" id d = false.

(** C34. A committed repair against a complete listing without mapping conflicts
    reports itself repaired, leaves every account the directory wants there
    that is missing or differs recorded active with work queued, and leaves
    every managed account that is active at the target without access
    recorded inactive with work queued. *)
Theorem a_complete_repair_converges newid order sys l now d report d' : let p := start_pass newid sys l true now d in
  users_keyed d -> (forall l, Permutation (order l) l) -> ids_apart p d -> rl_Supported l = true -> rl_Complete l = true ->
  ReconcileDrift newid order sys l true now d = inr (report, d') -> dr_MappingConflicts report = 0 ->
  (forall id u, p_desired p !! id = Some u ->
     (forall r, In r (rl_Users l) -> ra_ExternalID r <> id) \/ (exists r, In r (rl_Users l) /\ ra_ExternalID r = id /\ differs u r = true) ->
     recorded true (sys, id) d') /\
  (forall r, In r (rl_Users l) -> ra_ExternalID r <> EmptyString -> managed p "user" (ra_ExternalID r) d = true ->
     p_desired p !! ra_ExternalID r = None -> ra_Active r = true -> recorded false (sys, ra_ExternalID r) d') /\
  dr_Repaired report = true.
Proof.
  intros p Hk Hord Hap Hs Hc Hr Hmc. apply drift_inv in Hr as [_ Hr]. rewrite Hs in Hr. cbn [negb] in Hr.
  destruct Hr as (rs & d1 & r2 & d2 & r3 & H1 & H2 & H3 & ->). fold p in H1, H2, H3. change (dr_MappingConflicts r3 = 0) in Hmc.
  assert (pass_keyed p) as Hpk by by apply start_keyed. destruct rs as [r1 seen]. cbn [fst snd] in H2.
  destruct (compare_users_settles p _ Hpk eq_refl _ _ _ _ _ _ H1) as (S1 & C1 & N1 & R1).
  destruct (compare_missing_settles p order _ _ _ _ _ eq_refl Hc Hord H2) as (S2 & C2 & R2).
  assert (confined p d d2) as Hcf.
  { eapply confined_trans; [eapply tx_fold_confined; [|exact H1]; intros acc x e acc' e' _; by apply drift_user_confined|].
    unfold compare_missing in H2. change (rl_Complete (p_listing p)) with (rl_Complete l) in H2. rewrite Hc in H2.
    apply tx_bind_inr in H2 as (r & e & Hf & H2). apply tx_bind_inr in H2 as (a & e' & He & H2). injection He as _ <-. injection H2 as _ <-.
    eapply confined_trans; [|apply confined_absent]. eapply tx_fold_confined; [|exact Hf]. intros acc x e1 acc' e1' Hx. apply missing_confined.
    apply filter_In in Hx as [Hx _]. eapply Permutation_in in Hx; [|apply Hord]. destruct x as [k u]. apply list_elem_of_In, elem_of_map_to_list in Hx. by exists u. }
  assert (forall id, managed p "user" id d = true -> record_of (sys, id) d' = record_of (sys, id) d2 /\ dr_MappingConflicts r2 <= dr_MappingConflicts r3) as H4.
  { intros id Hm. apply (compare_groups_record p _ _ _ _ id) in H3; [done|]. apply not_true_iff_false. intros Hg. apply (confined_managed _ _ _ _ _ Hcf) in Hg.
    rewrite Hap in Hg; done. }
  assert (0 <= dr_MappingConflicts r2) as Hpos by (rewrite C2; exact C1).
  assert (forall id, managed p "user" id d = true -> recorded (negb (is_null (p_desired p !! id))) (p_sys p, id) d2 ->
    recorded (negb (is_null (p_desired p !! id))) (sys, id) d') as Hfin.
  { intros id Hm Hrec. destruct (H4 id Hm) as [Hsame _]. unfold recorded. by rewrite Hsame. }
  assert (forall id r, managed p "user" id d = true -> In r (rl_Users l) -> ra_ExternalID r = id -> id <> EmptyString -> triggers p r = true ->
    recorded (negb (is_null (p_desired p !! id))) (sys, id) d') as Htrig.
  { intros id r Hm Hi <- Hne Ht. apply Hfin; [done|]. eapply recorded_settles; [|apply S2]. apply R1; try done. destruct (H4 _ Hm) as [_ Hle].
    change (dr_MappingConflicts (set_listed_users (Z.of_nat (length (rl_Users l))) (new_report l))) with 0 in *. lia. }
  split; [|split; [|cbn; by rewrite Hc]].
  - intros id u Hu Hcase. assert (managed p "user" id d = true) as Hm by (unfold managed; by rewrite Hu).
    pose proof (Hfin id Hm) as Hf. rewrite Hu in Hf. destruct (in_dec String.string_dec id seen) as [Hin|Hnot].
    + destruct (N1 id Hin) as [[]|(Hne & x & Hx & Hxi)]. destruct Hcase as [Hno|(r & Hi & He & Hd)]; [by destruct (Hno x Hx)|].
      pose proof (Htrig id r Hm Hi He Hne) as Ht. rewrite Hu in Ht. apply Ht. unfold triggers. by rewrite He, Hu.
    + apply Hf, R2; [by exists u|done].
  - intros r Hi Hne Hm Hnd Ha. pose proof (Htrig (ra_ExternalID r) r Hm Hi eq_refl Hne) as Ht. rewrite Hnd in Ht. apply Ht.
    unfold triggers. rewrite Hnd, Ha. cbn. by rewrite Hc.
Qed.

(** The frame of a pass, whatever the accounts' keys are. *)
Lemma queued_reconciled d d' : queued d d' -> reconciled d d'.
Proof. intros (es & st & ->). by exists es, st, (scim_user_links d). Qed.

Lemma links_reconciled f d : reconciled d (on_scim_user_links f d).
Proof. by exists (account_sync_events d), (sync_resource_state d), (f (scim_user_links d)). Qed.

Lemma state_reconciled f d : reconciled d (on_sync_resource_state f d).
Proof. by exists (account_sync_events d), (f (sync_resource_state d)), (scim_user_links d). Qed.

Lemma hold_frame p kind id d u d' : hold p kind id d = inr (u, d') -> reconciled d d'.
Proof.
  intros Hr. unfold hold in Hr. apply tx_bind_inr in Hr as (a & d0 & He & Hr). injection He as <- <-.
  apply tx_bind_inr in Hr as (a1 & d0 & He & Hr). apply tx_guard_inr in He as [_ ->]. injection Hr as _ <-. apply state_reconciled.
Qed.

Lemma link_frame p kind id remote d b d' : link p kind id remote d = inr (b, d') -> reconciled d d'.
Proof.
  intros Hr. unfold link in Hr. apply tx_bind_inr in Hr as (a & d0 & He & Hr). apply tx_guard_inr in He as [_ ->].
  apply tx_bind_inr in Hr as (a1 & d0 & He & Hr). injection He as <- <-. cbv zeta in Hr.
  destruct ((stored_remote p kind id d <>?s EmptyString) && _ && _); [injection Hr as _ <-; apply reconciled_refl|].
  destruct (remote_taken _ _ _ _ _); [injection Hr as _ <-; apply reconciled_refl|].
  apply tx_bind_inr in Hr as (a2 & d0 & He & Hr). apply tx_guard_inr in He as [_ ->].
  destruct (scim_user_links d !! _) as [x|].
  - destruct (_ && _); [|injection Hr as _ <-; apply reconciled_refl]. apply tx_bind_inr in Hr as (a3 & d0 & He & Hr). injection He as _ <-. injection Hr as _ <-.
    apply links_reconciled.
  - apply tx_bind_inr in Hr as (a3 & d0 & He & Hr). injection He as _ <-. injection Hr as _ <-. apply links_reconciled.
Qed.

Lemma dropDead_frame p kind id d u d' : dropDead p kind id d = inr (u, d') -> reconciled d d'.
Proof.
  intros Hr. unfold dropDead in Hr. apply tx_bind_inr in Hr as (a & d0 & He & Hr). injection He as <- <-.
  destruct (dead _ _ _); injection Hr as _ <-; [apply links_reconciled|apply reconciled_refl].
Qed.

Lemma tx_fold_frame {A B} (f : A -> B -> STx A) l : (forall acc x d acc' d', f acc x d = inr (acc', d') -> reconciled d d') ->
  forall acc d acc' d', tx_fold f acc l d = inr (acc', d') -> reconciled d d'.
Proof.
  intros Hf. induction l as [|x l IH]; intros acc d acc' d' Hr; cbn [tx_fold] in Hr; [injection Hr as _ <-; apply reconciled_refl|].
  apply tx_bind_inr in Hr as (acc1 & d1 & H1 & Hr). eapply reconciled_trans; [by eapply Hf|by eapply IH].
Qed.

(** Walk a statement list whose statements have a frame. *)
Ltac frame_step :=
  match goal with
  | H : tx_bind _ _ _ = inr _ |- _ => let a := fresh "a" in let e := fresh "e" in let He := fresh "He" in apply tx_bind_inr in H as (a & e & He & H)
  | H : tx_get _ = inr _ |- _ => injection H as <- <-
  | H : tx_set _ _ = inr _ |- _ => injection H as _ <-
  | H : tx_ret _ _ = inr _ |- _ => injection H as _ <-
  | H : (if ?b then _ else _) _ = inr _ |- _ => destruct b
  | H : match ?o with Some _ => _ | None => _ end _ = inr _ |- _ => destruct o
  | H : queueDesiredStateTx _ _ _ _ = inr _ |- _ => apply queue_queued, queued_reconciled in H
  | H : hold _ _ _ _ = inr _ |- _ => apply hold_frame in H
  | H : link _ _ _ _ _ = inr _ |- _ => apply link_frame in H
  | H : dropDead _ _ _ _ = inr _ |- _ => apply dropDead_frame in H
  end.

Ltac frame := repeat first [frame_step | progress cbv zeta in *];
  repeat first [apply reconciled_refl | eassumption | eapply reconciled_trans; [eassumption|] | eapply reconciled_trans; [apply state_reconciled|]
    | eapply reconciled_trans; [|apply state_reconciled] ].

Lemma drift_user_frame p acc r d acc' d' : drift_user p acc r d = inr (acc', d') -> reconciled d d'.
Proof. destruct acc as [report seen]. unfold drift_user, drift_stale, drift_orphan, queue_account. intros Hr. frame. Qed.

Lemma drift_missing_frame p report u d r d' : drift_missing p report u d = inr (r, d') -> reconciled d d'.
Proof. unfold drift_missing, queue_account. intros Hr. frame. Qed.

Lemma drift_group_frame p report g d r d' : drift_group p report g d = inr (r, d') -> reconciled d d'.
Proof. unfold drift_group. intros Hr. frame. Qed.

Lemma drift_remote_group_frame p report g d r d' : drift_remote_group p report g d = inr (r, d') -> reconciled d d'.
Proof. unfold drift_remote_group. intros Hr. frame. Qed.

Lemma drift_frame newid order sys l repair now d report d' : ReconcileDrift newid order sys l repair now d = inr (report, d') -> reconciled d d'.
Proof.
  intros Hr. apply drift_inv in Hr as [_ Hr]. destruct (negb (rl_Supported l)); [destruct Hr as [_ ->]; apply state_reconciled|].
  destruct Hr as (rs & d1 & r2 & d2 & r3 & H1 & H2 & H3 & _). unfold compare_users in H1. apply tx_fold_frame in H1; [|apply drift_user_frame].
  eapply reconciled_trans; [exact H1|]. apply reconciled_trans with d2.
  - unfold compare_missing in H2. destruct (rl_Complete _); [|injection H2 as _ <-; apply reconciled_refl].
    apply tx_bind_inr in H2 as (r & e & Hf & H2). apply tx_fold_frame in Hf; [|apply drift_missing_frame]. frame.
  - unfold compare_groups in H3. destruct (_ && _); [|injection H3 as _ <-; apply reconciled_refl].
    apply tx_bind_inr in H3 as (r & e & Hf & H3). apply tx_fold_frame in Hf; [|apply drift_group_frame].
    apply tx_fold_frame in H3; [|apply drift_remote_group_frame]. by eapply reconciled_trans.
Qed.

(** *** A preview observes *)

(** Rows that differ in what was observed only. *)
Definition observed_only (d d' : DB) : Prop := exists st, d' = on_sync_resource_state (fun _ => st) d /\
  forall k, (fun r => set_rs_Observed EmptyString None r) <$> st !! k = (fun r => set_rs_Observed EmptyString None r) <$> sync_resource_state d !! k.

Lemma observed_refl d : observed_only d d.
Proof. by exists (sync_resource_state d). Qed.

Lemma observed_trans d1 d2 d3 : observed_only d1 d2 -> observed_only d2 d3 -> observed_only d1 d3.
Proof. intros (s & -> & H1) (s' & -> & H2). exists s'. split; [done|]. intros k. by rewrite H2. Qed.

Lemma observe_only p kind id state d : observed_only d (observe p kind id state d).
Proof.
  exists (sync_resource_state (observe p kind id state d)). split; [done|]. intros k. unfold observe, alter_state. cbn -[lookup alter].
  destruct (decide (k = (p_sys p, id))) as [->|Hne]; [|by rewrite lookup_alter_ne]. rewrite lookup_alter_eq.
  destruct (sync_resource_state d !! _) as [st|]; [|done]. cbn. by destruct (_ =?s _).
Qed.

Lemma imap_only (f : string * string -> SyncResourceState -> bool) v now d :
  observed_only d (on_sync_resource_state (map_imap (fun k st => Some (if f k st then set_rs_Observed v (Some now) st else st))) d).
Proof.
  eexists. split; [reflexivity|]. intros k. rewrite map_lookup_imap. destruct (sync_resource_state d !! k) as [st|]; [|done]. cbn. by destruct (f k st).
Qed.

Lemma tx_fold_only {A B} (f : A -> B -> STx A) l : (forall acc x d acc' d', f acc x d = inr (acc', d') -> observed_only d d') ->
  forall acc d acc' d', tx_fold f acc l d = inr (acc', d') -> observed_only d d'.
Proof.
  intros Hf. induction l as [|x l IH]; intros acc d acc' d' Hr; cbn [tx_fold] in Hr; [injection Hr as _ <-; apply observed_refl|].
  apply tx_bind_inr in Hr as (acc1 & d1 & H1 & Hr). eapply observed_trans; [by eapply Hf|by eapply IH].
Qed.

(** C: preview *)
Theorem a_preview_only_observes newid order sys l now d report d' :
  ReconcileDrift newid order sys l false now d = inr (report, d') -> observed_only d d' /\ dr_Repaired report = false /\ dr_MappingConflicts report = 0.
Proof.
  intros Hr. apply drift_inv in Hr as [_ Hr]. destruct (negb (rl_Supported l)).
  { destruct Hr as [-> ->]. split; [|done]. apply (imap_only (fun k _ => k.1 =?s sys)). }
  destruct Hr as (rs & d1 & r2 & d2 & r3 & H1 & H2 & H3 & ->). set (p := start_pass newid sys l false now d) in *.
  assert (p_repair p = false) as Hp by done. clearbody p.
  assert (forall (acc : DriftReport * list string) x e acc' e', drift_user p acc x e = inr (acc', e') -> observed_only e e' /\ dr_MappingConflicts acc'.1 = dr_MappingConflicts acc.1) as Hu.
  { intros [rep seen] x e acc' e' Hr. unfold drift_user in Hr. cbv zeta in Hr. rewrite Hp in Hr. apply tx_bind_inr in Hr as (a & e0 & He & Hr). injection He as <- <-.
    destruct (negb (_ && _)); [injection Hr as <- <-; split; [apply observed_refl|done]|]. apply tx_bind_inr in Hr as (b & e1 & He & Hr). injection He as <- <-.
    cbn [negb] in Hr. apply tx_bind_inr in Hr as (rep2 & e2 & He & Hr). apply tx_bind_inr in Hr as (a2 & e3 & Hs & Hr). injection Hs as _ <-. injection Hr as <- <-.
    enough (e2 = e /\ dr_MappingConflicts rep2 = dr_MappingConflicts rep) as [-> Hm] by (split; [apply observe_only|done]).
    unfold drift_stale, drift_orphan in He. rewrite Hp in He. destruct (p_desired p !! _) as [u|].
    - destruct (differs u x); [|by injection He as <- <-]. by injection He as <- <-.
    - destruct (_ && _); [|by injection He as <- <-]. by injection He as <- <-. }
  assert (forall l0 (acc acc' : DriftReport * list string) e e', tx_fold (drift_user p) acc l0 e = inr (acc', e') -> dr_MappingConflicts acc'.1 = dr_MappingConflicts acc.1) as Hcu.
  { induction l0 as [|x l0 IH]; intros acc acc' e e' Hr; cbn [tx_fold] in Hr; [by injection Hr as <- _|].
    apply tx_bind_inr in Hr as (acc1 & e1 & He & Hr). apply Hu in He as [_ <-]. by eapply IH. }
  pose proof (Hcu _ _ _ _ _ H1) as C1. unfold compare_users in H1. apply tx_fold_only in H1; [|intros; by eapply Hu].
  assert (observed_only d1 d2 /\ dr_MappingConflicts r2 = dr_MappingConflicts rs.1) as [E2 C2].
  { unfold compare_missing in H2. destruct (rl_Complete _); [|injection H2 as <- <-; split; [apply observed_refl|done]].
    apply tx_bind_inr in H2 as (r & e & Hf & H2). apply tx_bind_inr in H2 as (a & e' & He & H2). injection He as _ <-. injection H2 as <- <-.
    assert (forall l0 rep rep' e e', tx_fold (drift_missing p) rep l0 e = inr (rep', e') -> e' = e /\ dr_MappingConflicts rep' = dr_MappingConflicts rep) as Hm.
    { induction l0 as [|x l0 IH]; intros rep rep' e0 e0' Hr; cbn [tx_fold] in Hr; [by injection Hr as <- <-|].
      apply tx_bind_inr in Hr as (rep1 & e1 & He & Hr). unfold drift_missing in He. rewrite Hp in He. injection He as <- <-. by apply IH in Hr. }
    apply Hm in Hf as [-> Hf]. split; [|done]. apply (imap_only (fun k st => (k.1 =?s p_sys p) && (rs_Kind st =?s "user") && _)). }
  assert (d' = d2 /\ dr_MappingConflicts r3 = dr_MappingConflicts r2) as [-> C3].
  { unfold compare_groups in H3. destruct (_ && _); [|by injection H3 as <- <-]. apply tx_bind_inr in H3 as (r & e & Hf & H3).
    assert (forall l0 rep rep' e e', tx_fold (drift_group p) rep l0 e = inr (rep', e') -> e' = e /\ dr_MappingConflicts rep' = dr_MappingConflicts rep) as Hm.
    { induction l0 as [|x l0 IH]; intros rep rep' e0 e0' Hr; cbn [tx_fold] in Hr; [by injection Hr as <- <-|].
      apply tx_bind_inr in Hr as (rep1 & e1 & He & Hr). unfold drift_group in He. rewrite Hp in He. injection He as <- <-. by apply IH in Hr. }
    assert (forall l0 rep rep' e e', tx_fold (drift_remote_group p) rep l0 e = inr (rep', e') -> e' = e /\ dr_MappingConflicts rep' = dr_MappingConflicts rep) as Hg.
    { induction l0 as [|x l0 IH]; intros rep rep' e0 e0' Hr; cbn [tx_fold] in Hr; [by injection Hr as <- <-|].
      apply tx_bind_inr in Hr as (rep1 & e1 & He & Hr). enough (e1 = e0 /\ dr_MappingConflicts rep1 = dr_MappingConflicts rep) as [-> <-] by by apply IH in Hr.
      unfold drift_remote_group in He. cbv zeta in He. rewrite Hp in He. destruct (_ || _); [by injection He as <- <-|].
      apply tx_bind_inr in He as (a & e2 & Hx & He). injection Hx as <- <-. destruct (negb (managed _ _ _ _)); by injection He as <- <-. }
    apply Hm in Hf as [-> Hf]. apply Hg in H3 as [-> H3]. split; [done|congruence]. }
  split; [by eapply observed_trans|]. split; [done|]. cbn. rewrite C3, C2, C1. done.
Qed.

(** *** Bounded text *)

Lemma rune_error_front s : rune_len (String.append RuneError s) = 3%nat.
Proof. reflexivity. Qed.

(** The length of a code point is read off its own bytes. *)
Lemma rune_len_prefix s n s' : rune_len s = S n -> rune_len (String.append (take_bytes (S n) s) s') = S n.
Proof.
  destruct s as [|a [|b [|c [|e s]]]]; cbn [rune_len]; intros Hn;
    repeat (match type of Hn with (if ?x then _ else _) = _ => destruct x eqn:? end); try discriminate Hn;
    injection Hn as <-; lazy beta iota zeta delta [take_bytes String.append rune_len];
    repeat match goal with E : ?x = _ |- context [if ?x then _ else _] => rewrite E end; try done;
    destruct s'; done.
Qed.

Lemma length_drop_bytes n s : String.length (drop_bytes n s) = (String.length s - n)%nat.
Proof. revert s. induction n as [|n IH]; intros [|a s]; cbn; rewrite ?IH; lia. Qed.

Lemma runes_fuel n : forall s, (String.length s <= n)%nat -> runes_upto n s = runes s.
Proof.
  induction n as [n IH] using lt_wf_ind. intros s Hs. destruct n as [|n]; [destruct s; [done|cbn in Hs; lia]|]. unfold runes. destruct s as [|a s]; [done|].
  cbn [runes_upto String.length] in *. destruct (rune_len (String a s)) as [|k].
  - f_equal. rewrite (IH n) by lia. by rewrite (IH (String.length s)) by lia.
  - assert (String.length (drop_bytes (S k) (String a s)) <= String.length s)%nat by (rewrite length_drop_bytes; cbn; lia).
    f_equal. rewrite (IH n) by lia. by rewrite (IH (String.length s)) by lia.
Qed.

Lemma runes_cons a s : runes (String a s) = match rune_len (String a s) with
  | O => RuneError :: runes s
  | n => take_bytes n (String a s) :: runes (drop_bytes n (String a s))
  end.
Proof.
  unfold runes at 1. cbn [runes_upto String.length]. destruct (rune_len (String a s)) as [|k]; f_equal.
  apply runes_fuel. rewrite length_drop_bytes. cbn. lia.
Qed.

(** A piece that decodes to itself, whatever follows. *)
Definition is_rune (c : string) : Prop := forall s, runes (String.append c s) = c :: runes s.

Lemma take_bytes_append c s : take_bytes (String.length c) (String.append c s) = c /\ drop_bytes (String.length c) (String.append c s) = s.
Proof.
  induction c as [|a c IH]; [by destruct s|]. change (String.append (String a c) s) with (String a (String.append c s)).
  cbn [String.length take_bytes drop_bytes]. by destruct IH as [-> ->].
Qed.

Lemma is_rune_len c : (forall s, rune_len (String.append c s) = String.length c) -> c <> EmptyString -> is_rune c.
Proof.
  intros Hl Hc s. destruct c as [|a c]; [done|]. change (String.append (String a c) s) with (String a (String.append c s)).
  rewrite runes_cons. change (String a (String.append c s)) with (String.append (String a c) s).
  rewrite (Hl s). destruct (take_bytes_append (String a c) s) as [E1 E2]. cbn [String.length] in *. by rewrite E1, E2.
Qed.

Lemma length_take_bytes n s : (n <= String.length s)%nat -> String.length (take_bytes n s) = n.
Proof. revert s. induction n as [|n IH]; intros [|a s] Hl; cbn in *; try lia. rewrite IH; lia. Qed.

Lemma rune_len_le s : (rune_len s <= String.length s)%nat.
Proof. destruct s as [|a [|b [|c [|e s]]]]; cbn; repeat match goal with |- context [if ?x then _ else _] => destruct x end; lia. Qed.

Lemma runes_are_runes s : Forall is_rune (runes s).
Proof.
  induction s as [s IH] using (induction_ltof1 _ String.length). unfold ltof in IH. destruct s as [|a s]; [constructor|]. rewrite runes_cons.
  pose proof (rune_len_le (String a s)) as Hle. destruct (rune_len (String a s)) as [|k] eqn:Ek; constructor.
  - apply is_rune_len; [|done]. intros s'. rewrite rune_error_front. done.
  - apply IH. cbn. lia.
  - apply is_rune_len; [|done]. intros s'. rewrite length_take_bytes by done. by apply rune_len_prefix.
  - apply IH. rewrite length_drop_bytes. cbn. lia.
Qed.

Lemma concat_cons c l : String.concat EmptyString (c :: l) = String.append c (String.concat EmptyString l).
Proof.
  destruct l as [|x l]; [|done]. cbn. induction c as [|a c IH]; [done|]. change (String a c = String a (String.append c EmptyString)). by rewrite <- IH.
Qed.

Lemma runes_concat l : Forall is_rune l -> runes (String.concat EmptyString l) = l.
Proof. induction 1 as [|c l Hc _ IH]; [done|]. rewrite concat_cons, Hc. by rewrite IH. Qed.

(** C: text *)
Theorem remote_text_is_bounded s :
  runes (boundRemoteText s) = firstn (Z.to_nat RemoteTextLimit) (runes s) /\ RuneCountInString (boundRemoteText s) <= RemoteTextLimit /\
  boundRemoteText (boundRemoteText s) = boundRemoteText s /\ (RuneCountInString s <= RemoteTextLimit -> boundRemoteText s = s).
Proof.
  assert (runes (boundRemoteText s) = firstn (Z.to_nat RemoteTextLimit) (runes s)) as Hr.
  { unfold boundRemoteText. destruct (RuneCountInString s <=? RemoteTextLimit) eqn:E.
    - apply Z.leb_le in E. unfold RuneCountInString in E. rewrite firstn_all2 by lia. done.
    - apply runes_concat, Forall_take, runes_are_runes. }
  assert (RuneCountInString (boundRemoteText s) <= RemoteTextLimit) as Hb.
  { unfold RuneCountInString. rewrite Hr, length_firstn. unfold RemoteTextLimit. lia. }
  split; [done|]. split; [done|]. split; [|intros Hs].
  - unfold boundRemoteText at 1. apply Z.leb_le in Hb. by rewrite Hb.
  - unfold boundRemoteText. apply Z.leb_le in Hs. by rewrite Hs.
Qed.
End reconcile_facts.

(** ** Witnesses *)

#[local] Existing Instance sample_codec.

(** The target holds bob under an old name, alice, whom it was once sent and
    who has no access, and an account of its own. *)
Definition drift_listing : RemoteListing := MkRemoteListing true true
  [MkRemoteAccount "r1" "bob" "bobby" "Bob" "bob@example.com" true; MkRemoteAccount "r2" "alice" "alice" "Alice" EmptyString true;
   MkRemoteAccount "r3" "mallory" "mallory" EmptyString EmptyString true] [] false.

Definition drift_db : DB := on_scim_user_links <[("sys", "alice")%string := MkSCIMLink "user" "r2"]>
  (on_app_user_assignments (delete ("crm", "alice")%string) outbox_db).
Definition drift_id (sys res : string) : string := String.append "dr-" (event_id sys res).
Definition drift_run (repair : bool) : StoreError + (DriftReport * DB) := ReconcileDrift drift_id (fun l => l) "sys" drift_listing repair t0 drift_db.

Lemma drift_db_keyed : users_keyed drift_db.
Proof. intros k u Hu. by apply (proj1 (all_rows_true (fun k u => u_ID u =?s k) (users drift_db)) ltac:(by vm_compute)), streqb_true in Hu. Qed.

Lemma a_repair_touches_only_what_it_manages_witness : exists report d', drift_run true = inr (report, d') /\
  confined (start_pass drift_id "sys" drift_listing true t0 drift_db) drift_db d'.
Proof.
  destruct (drift_run true) as [e|[report d']] eqn:Hr; [by vm_compute in Hr|]. exists report, d'. split; [done|].
  apply (a_repair_touches_only_what_it_manages drift_id (fun l => l) "sys" drift_listing true t0 drift_db report d'); [apply drift_db_keyed|done|done|exact Hr].
Defined.

Lemma a_preview_only_observes_witness : exists report d', drift_run false = inr (report, d') /\ observed_only drift_db d' /\
  dr_StaleCount report = 1 /\ dr_OrphanedCount report = 1 /\ dr_Unrelated report = 1.
Proof.
  destruct (drift_run false) as [e|[report d']] eqn:Hr; [by vm_compute in Hr|]. exists report, d'.
  destruct (a_preview_only_observes drift_id (fun l => l) "sys" drift_listing t0 drift_db report d' Hr) as [Ho _]. split; [done|]. split; [done|].
  assert (match drift_run false with inr (r, _) => (dr_StaleCount r, dr_OrphanedCount r, dr_Unrelated r) | _ => (0, 0, 0) end = (1, 1, 1)) as Hc
    by (vm_compute; reflexivity).
  rewrite Hr in Hc. injection Hc as H1 H2 H3. split; [exact H1|]. split; [exact H2|exact H3].
Defined.

(** Bob's profile is sent again and alice's account is switched off. *)
Lemma a_complete_repair_converges_witness : exists report d', drift_run true = inr (report, d') /\
  recorded true ("sys", "bob")%string d' /\ recorded false ("sys", "alice")%string d'.
Proof.
  destruct (drift_run true) as [e|[report d']] eqn:Hr; [by vm_compute in Hr|]. exists report, d'. split; [done|].
  assert (match drift_run true with inr (r, _) => dr_MappingConflicts r | _ => 1 end = 0) as Hc by (vm_compute; reflexivity). rewrite Hr in Hc.
  destruct (a_complete_repair_converges drift_id (fun l => l) "sys" drift_listing t0 drift_db report d') as (Ha & Hb & _).
  - apply drift_db_keyed.
  - done.
  - intros id _. assert (sync_resource_state drift_db = ∅) as Hst by (vm_compute; reflexivity).
    assert (scim_user_links drift_db = {[ ("sys", "alice")%string := MkSCIMLink "user" "r2" ]}) as Hl by (vm_compute; reflexivity).
    unfold managed, wanted_group. rewrite Hst, Hl, lookup_empty. change (p_groups _) with (@nil (string * string)). cbn -[lookup].
    destruct (decide (id = "alice"%string)) as [->|Hne]; [reflexivity|]. by rewrite lookup_singleton_ne by congruence.
  - done.
  - done.
  - exact Hr.
  - exact Hc.
  - split.
    + destruct (p_desired (start_pass drift_id "sys" drift_listing true t0 drift_db) !! "bob"%string) as [u|] eqn:Eu; [|by vm_compute in Eu].
      apply (Ha "bob"%string u Eu). right. eexists. split; [by left|]. split; [done|].
      assert (match p_desired (start_pass drift_id "sys" drift_listing true t0 drift_db) !! "bob"%string with Some u => differs u (MkRemoteAccount "r1" "bob" "bobby" "Bob" "bob@example.com" true) | None => false end = true) as Hd by (vm_compute; reflexivity).
      by rewrite Eu in Hd.
    + apply (Hb (MkRemoteAccount "r2" "alice" "alice" "Alice" EmptyString true)); [right; by left|done| | |done]; vm_compute; reflexivity.
Defined.

Lemma remote_text_is_bounded_witness : RuneCountInString "Zoë" = 3 /\ boundRemoteText "Zoë" = "Zoë"%string.
Proof.
  assert (RuneCountInString "Zoë" = 3) as Hc by (vm_compute; reflexivity). split; [exact Hc|].
  apply (remote_text_is_bounded "Zoë"). rewrite Hc. vm_compute. discriminate.
Defined.
