(* ===== verification/ReconcileJobs.v ===== *)
(** Running reconciliations: the job queue ([store/reconcile.go]), the hold a
    restore puts on delivery ([store/restore.go]), the walk that lists a target
    and the job runner ([sync/reconcile.go]). *)
From stdpp Require Import sorting.
From S2P Require Import Prelude Text Schema Access Sample Sessions Tokens Outbox AppAccess Directory Reconcile.

(** ** The job queue *)

Definition reconcileAttempts : Z := 3.

Definition set_job (status token error : string) (lease finished : option Z) (result : option Json) (j : ReconcileJob) : ReconcileJob :=
  MkReconcileJob (j_ID j) (j_SystemID j) (j_Kind j) status (j_RequestedBy j) token (j_Attempts j) (j_CreatedAt j) lease
    (j_StartedAt j) finished result error.

Definition job_of (sys : string) (j : ReconcileJob) : bool := j_SystemID j =?s sys.
Definition active_job (sys : string) (j : ReconcileJob) : bool := job_of sys j && one_of (j_Status j) ["queued"; "running"]%string.
Definition finished_job (sys : string) (j : ReconcileJob) : bool := job_of sys j && one_of (j_Status j) ["done"; "failed"]%string.

(** The identifiers of a connector's jobs, newest first; ties in key order. *)
Definition newer_le (a b : string * ReconcileJob) : Prop := (j_CreatedAt b.2 <=? j_CreatedAt a.2) = true.
#[global] Instance newer_le_dec a b : Decision (newer_le a b) := bool_eq_dec _ _.
Definition newest_jobs (sys : string) (t : gmap string ReconcileJob) : list (string * ReconcileJob) :=
  merge_sort newer_le (List.filter (fun kv => job_of sys kv.2) (map_to_list t)).

Definition job_history : nat := 20.

(** A finished job that is not among the newest goes. *)
Definition trim_jobs (sys : string) (t : gmap string ReconcileJob) : gmap string ReconcileJob :=
  delete_where (fun j => finished_job sys j && negb (one_of (j_ID j) (map fst (firstn job_history (newest_jobs sys t))))) t.

Definition CreateReconcileJob (id sys kind requestedBy : string) (audit : option AuditEvent) (now : Z) : STx ReconcileJob :=
  tx_guard (one_of kind ["preview"; "repair"]%string) (ErrText "kind must be preview or repair") ;;;
  d <- tx_get ;;
  tx_guard (live_system d sys) ErrNoRows ;;;
  tx_guard (negb (exists_where (active_job sys) (sync_reconcile_jobs d))) ErrReconcileBusy ;;;
  let job := MkReconcileJob id sys kind "queued" requestedBy EmptyString 0 now None None None None EmptyString in
  insert_row sync_reconcile_jobs on_sync_reconcile_jobs id job ;;;
  tx_set (on_sync_reconcile_jobs (trim_jobs sys)) ;;;
  recordAuditTx audit now ;;;
  tx_ret job.

(** The time of the connector's newest job. *)
Definition last_job (sys : string) (d : DB) : option Z := j_CreatedAt <$> (snd <$> head (newest_jobs sys (sync_reconcile_jobs d))).

Definition reconcile_due (now : Z) (d : DB) (sys : string) (ps : PairedSystem) : bool :=
  (0 <? ps_ReconcileHours ps) && (ps_SystemType ps =?s "scim") && (ps_Status ps <>?s "disabled") &&
  negb (exists_where (active_job sys) (sync_reconcile_jobs d)) &&
  match last_job sys d with Some t => t + wrap64 (ps_ReconcileHours ps * hour) <=? now | None => true end.

Definition schedule_audit (id sys : string) : AuditEvent :=
  MkAuditEvent id EmptyString "schedule" "admin.reconcile_requested" sys "system" EmptyString "success"
    (JObj [("kind", JStr "repair"); ("requestedBy", JStr "schedule")])%string 0.

(** Queue a repair for every connector whose interval has elapsed, one
    transaction each. *)
Definition ScheduleReconcileJobs (jid aid : string -> string) (now : Z) (d : DB) : (StoreError + unit) * DB :=
  fold_left (fun (r : (StoreError + unit) * DB) sys =>
    match r with
    | (inl e, d) => (inl e, d)
    | (inr _, d) =>
      match commit (CreateReconcileJob (jid sys) sys "repair" "schedule" (Some (schedule_audit (aid sys) sys)) now) d with
      | (inl ErrReconcileBusy, d') => (inr tt, d')
      | (inl e, d') => (inl e, d')
      | (inr _, d') => (inr tt, d')
      end
    end)
    (map fst (List.filter (fun kv => reconcile_due now d kv.1 kv.2) (map_to_list (paired_systems d)))) (inr tt, d).

Definition lease_lapsed (now : Z) (j : ReconcileJob) : bool := (j_Status j =?s "running") && opt_test (fun l => l <=? now) (j_LeaseUntil j).

Definition interrupted (now : Z) (j : ReconcileJob) : bool := lease_lapsed now j && (reconcileAttempts <=? j_Attempts j).

Definition claimable_job (now : Z) (j : ReconcileJob) : bool :=
  ((j_Status j =?s "queued") || lease_lapsed now j) && (j_Attempts j <? reconcileAttempts).

Definition oldest_job (t : gmap string ReconcileJob) : option (string * ReconcileJob) :=
  fold_right (fun kv best => match best with
    | Some b => if j_CreatedAt kv.2 <=? j_CreatedAt b.2 then Some kv else Some b
    | None => Some kv
    end) None (map_to_list t).

Definition claim_job (token : string) (until now : Z) (j : ReconcileJob) : ReconcileJob :=
  MkReconcileJob (j_ID j) (j_SystemID j) (j_Kind j) "running" (j_RequestedBy j) token (j_Attempts j + 1) (j_CreatedAt j) (Some until)
    (match j_StartedAt j with Some t => Some t | None => Some now end) (j_FinishedAt j) (j_Result j) (j_Error j).

(** The oldest queued job, or a running one whose lease expired; a job
    interrupted repeatedly fails instead. *)
Definition ClaimReconcileJob (token : string) (lease now : Z) : STx (option ReconcileJob) :=
  tx_set (on_sync_reconcile_jobs (update_where (interrupted now)
    (fun j => set_job "failed" EmptyString "interrupted repeatedly" None (Some now) (j_Result j) j))) ;;;
  d <- tx_get ;;
  match oldest_job (where_ (claimable_job now) (sync_reconcile_jobs d)) with
  | None => tx_ret None
  | Some (id, j) =>
    let j' := claim_job token (now + lease) now j in
    tx_set (on_sync_reconcile_jobs <[id := j']>) ;;;
    tx_ret (Some j')
  end.

(** ** The hold *)

Definition set_ps_ProvisioningHold (b : bool) (p : PairedSystem) : PairedSystem :=
  MkPairedSystem (ps_ID p) (ps_Name p) (ps_SystemType p) (ps_Description p) (ps_IconURL p) (ps_CallbackURL p)
  (ps_HMACSecretEncrypted p) (ps_Status p) (ps_LastSyncedAt p) (ps_CreatedAt p) (ps_GroupsEnabled p)
  (ps_ReconcileHours p) b.

Definition releaseProvisioningHoldTx (sys : string) : DB -> DB :=
  on_paired_systems (alter (fun p => if ps_ProvisioningHold p then set_ps_ProvisioningHold false p else p) sys).

(** An operator's decision to accept what was in the capsule. *)
Definition ResumeProvisioning (sys : string) (audit : option AuditEvent) (now : Z) : DB -> (StoreError + unit) * DB :=
  auditedTx audit now (
    d <- tx_get ;;
    tx_guard (negb (is_null (paired_systems d !! sys))) ErrNoRows ;;;
    tx_set (releaseProvisioningHoldTx sys)).

Definition HeldConnectors (d : DB) : list string :=
  sort_strings (map (fun kv => ps_Name kv.2) (List.filter (fun kv : string * PairedSystem =>
    ps_ProvisioningHold kv.2 && (ps_Status kv.2 <>?s "disabled")) (map_to_list (paired_systems d)))).

(** The counts a finished repair is audited with; Go writes map keys sorted. *)
Definition finish_details (job : ReconcileJob) (report : option DriftReport) (failed : bool) : Json :=
  let counts := match report with
    | None => []
    | Some r => [("groupsOrphaned", JNum (dr_GroupsOrphaned r)); ("groupsRequeued", JNum (dr_GroupsRequeued r))]
    end%string in
  let more := match report with
    | None => []
    | Some r => [("listedUsers", JNum (dr_ListedUsers r)); ("mappingConflicts", JNum (dr_MappingConflicts r)); ("missing", JNum (dr_MissingCount r));
        ("orphaned", JNum (dr_OrphanedCount r))]
    end%string in
  let reason := if failed then Some "job failed"%string else match report with
    | None => Some "verification unsupported"%string
    | Some r => if negb (dr_Supported r) then Some "verification unsupported"%string
        else if negb (dr_Complete r) then Some "listing incomplete"%string else None
    end in
  JObj (counts ++ [("jobId"%string, JStr (j_ID job))] ++ more ++
    match reason with Some s => [("reason"%string, JStr s)] | None => [] end ++
    match report with Some r => [("repaired"%string, JBool (dr_Repaired r))] | None => [] end ++
    [("requestedBy"%string, JStr (j_RequestedBy job))] ++
    match report with Some r => [("stale"%string, JNum (dr_StaleCount r))] | None => [] end ++
    [("status"%string, JStr (if failed then "failed" else "done"))] ++
    match report with Some r => [("unrelated"%string, JNum (dr_Unrelated r))] | None => [] end).

(** The evidence that lifts a hold: a repair that listed the far side
    completely and wrote through. *)
Definition lifts_hold (job : ReconcileJob) (report : option DriftReport) (runErr : option string) : bool :=
  (j_Kind job =?s "repair") && is_null runErr &&
  match report with Some r => dr_Repaired r && (dr_ListingError r =?s EmptyString) | None => false end.

(** [aid] is the audit row's identifier; [runErr] the error's text. *)
Definition FinishReconcileJob (aid : string) (job : ReconcileJob) (report : option DriftReport) (runErr : option string) (now : Z) : STx unit :=
  d <- tx_get ;;
  let status := match runErr with Some _ => "failed" | None => "done" end%string in
  match sync_reconcile_jobs d !! j_ID job with
  | None => tx_fail (ErrText "reconciliation job changed")
  | Some row =>
    tx_guard (j_ClaimToken row =?s j_ClaimToken job) (ErrText "reconciliation job changed") ;;;
    tx_set (on_sync_reconcile_jobs <[j_ID job := set_job status EmptyString (default EmptyString runErr) None (Some now) (report_json <$> report) row]>) ;;;
    (if lifts_hold job report runErr then tx_set (releaseProvisioningHoldTx (j_SystemID job)) else tx_ret tt) ;;;
    if j_Kind job =?s "repair" then
      recordAuditTx (Some (MkAuditEvent aid EmptyString (j_RequestedBy job) "admin.reconcile_completed" (j_SystemID job) "system" EmptyString
        (if is_null runErr then "success" else "failure") (finish_details job report (negb (is_null runErr))) 0)) now
    else tx_ret tt
  end.

Definition ListReconcileJobs (sys : string) (limit : nat) (d : DB) : list ReconcileJob :=
  map snd (firstn limit (newest_jobs sys (sync_reconcile_jobs d))).

Section running.
Context `{Codec}.

(** ** Reading a target

    [Target] is what the engine gets from the far side, which is not this
    program: the connector's signing secret if it can be opened, whether its
    endpoint parses as a plain https address, the texts of the SCIM library's
    insecure-URL and malformed-response errors, and the answer to each page
    request, errors already as the text [deliveryError] stores. *)

Record listedResource := MkListedResource { lr_ID : string; lr_ExternalID : string; lr_UserName : string; lr_DisplayName : string;
  lr_Emails : list (string * bool); lr_Active : option bool }.

Record Page := MkPage { pg_Total : option Z; pg_Start : option Z; pg_Resources : list listedResource }.

Record Target := MkTarget { t_secret : option string; t_endpoint : bool; t_insecure : string; t_malformed : string;
  t_page : string -> nat -> Z -> string + Page }.

(** [deliveryError] of an error that is none of the library's. *)
Definition delivery_failed : string := "delivery failed; check connector configuration and downstream availability".

Definition visible_ascii : Ascii.ascii -> bool := byte_in 33 126.

(** The check of [validateSCIMConfig] on the endpoint and bearer token. *)
Definition validateSCIMConfig (t : Target) (token : string) : option string :=
  if negb (t_endpoint t) then Some (t_insecure t)
  else if (Z.of_nat (String.length token) =? 0) || (8192 <? Z.of_nat (String.length token)) || negb (forallb visible_ascii (String.list_ascii_of_string token))
  then Some delivery_failed else None.

Definition listingPage : Z := 100.
Definition listingMax : Z := 20000.
Definition listingPages : nat := Z.to_nat (listingMax / listingPage + 10).

Definition good_resource (seen : list string) (r : listedResource) : bool :=
  (lr_ID r <>?s EmptyString) && negb (one_of (lr_ID r) seen) && (RuneCountInString (lr_ID r) <=? RemoteTextLimit) &&
  (RuneCountInString (lr_ExternalID r) <=? RemoteTextLimit).

(** The resources of a page up to the first bad one, and whether all were good. *)
Fixpoint take_page (out l : list listedResource) : list listedResource * bool :=
  match l with
  | [] => (out, true)
  | r :: l' => if good_resource (map lr_ID out) r then take_page (out ++ [r]) l' else (out, false)
  end.

(** The walk; [fuel] is what is left of the page budget, [total] -1 before the
    first page. *)
Fixpoint walk_pages (t : Target) (collection : string) (fuel : nat) (start total : Z) (out : list listedResource) : list listedResource * option string :=
  match fuel with
  | O => (out, Some (t_malformed t))
  | S fuel' =>
    match t_page t collection (listingPages - fuel) start with
    | inl e => (out, Some e)
    | inr page =>
      match pg_Total page with
      | None => (out, Some (t_malformed t))
      | Some n =>
        if (n <? 0) || match pg_Start page with Some s => negb (s =? start) | None => false end then (out, Some (t_malformed t))
        else if negb (total =? -1) && negb (n =? total) then (out, Some (t_malformed t))
        else if listingMax <? n then (out, Some (t_malformed t))
        else
          match take_page out (pg_Resources page) with
          | (out, false) => (out, Some (t_malformed t))
          | (out, true) =>
            if n <=? Z.of_nat (length out) then (out, if Z.of_nat (length out) =? n then None else Some (t_malformed t))
            else match pg_Resources page with
              | [] => (out, Some (t_malformed t))
              | _ => walk_pages t collection fuel' (start + Z.of_nat (length (pg_Resources page))) n out
              end
          end
      end
    end
  end.

Definition listSCIMCollection (t : Target) (token collection : string) : list listedResource * option string :=
  match validateSCIMConfig t token with
  | Some e => ([], Some e)
  | None => walk_pages t collection listingPages 1 (-1) []
  end.

(** The primary e-mail address, or the first that is not blank. *)
Definition listed_email (l : list (string * bool)) : string :=
  fold_left (fun email (m : string * bool) => if m.2 || (email =?s EmptyString) then m.1 else email) l EmptyString.

Definition listed_account (r : listedResource) : RemoteAccount := RemoteAccount_Bounded
  (MkRemoteAccount (lr_ID r) (lr_ExternalID r) (lr_UserName r) (lr_DisplayName r) (listed_email (lr_Emails r)) (default true (lr_Active r))).

Definition listed_group (r : listedResource) : RemoteGroup := RemoteGroup_Bounded (MkRemoteGroup (lr_ID r) (lr_ExternalID r) (lr_DisplayName r)).

Definition listRemote (t : Target) (sys : PairedSystem) : RemoteListing * option string :=
  if ps_SystemType sys <>?s "scim" then (MkRemoteListing false false [] [] false, None) else
  match t_secret t with
  | None => (MkRemoteListing false false [] [] false, Some delivery_failed)
  | Some secret =>
    let (users, err) := listSCIMCollection t secret "Users" in
    let accounts := map listed_account users in
    match err with
    | Some e => (MkRemoteListing true false accounts [] false, Some e)
    | None =>
      if negb (ps_GroupsEnabled sys) then (MkRemoteListing true true accounts [] false, None) else
      let (groups, err) := listSCIMCollection t secret "Groups" in
      match err with
      | Some e => (MkRemoteListing true false accounts (map listed_group groups) false, Some e)
      | None => (MkRemoteListing true true accounts (map listed_group groups) true, None)
      end
    end
  end.

Definition reconcileLease : Z := 10 * minute.

(** The identifiers and the order one run draws, and the error texts a failed
    store call gives the job. *)
Record RunDraws := MkRunDraws { rd_token : string; rd_audit : string; rd_newid : string -> string -> string;
  rd_order : list (string * User) -> list (string * User); rd_text : StoreError -> string }.

Definition finish_run (dr : RunDraws) (job : ReconcileJob) (report : option DriftReport) (err : option string) (now : Z) (d : DB) : (StoreError + bool) * DB :=
  match commit (FinishReconcileJob (rd_audit dr) job report err now) d with
  | (inl e, d') => (inl e, d')
  | (inr _, d') => (inr true, d')
  end.

(** Claim one job, list the target and apply the comparison; each store call
    is a transaction of its own.  [later] is the instant of the finish. *)
Definition RunReconcileJob (dr : RunDraws) (target : string -> Target) (now later : Z) (d : DB) : (StoreError + bool) * DB :=
  match commit (ClaimReconcileJob (rd_token dr) reconcileLease now) d with
  | (inl e, d) => (inl e, d)
  | (inr None, d) => (inr false, d)
  | (inr (Some job), d) =>
    match paired_systems d !! j_SystemID job with
    | None => finish_run dr job None (Some "paired system no longer exists"%string) later d
    | Some sys =>
      let (listing, listErr) := listRemote (target (j_SystemID job)) sys in
      match commit (ReconcileDrift (rd_newid dr) (rd_order dr) (ps_ID sys) listing (j_Kind job =?s "repair") now) d with
      | (inl e, d) => finish_run dr job None (Some (rd_text dr e)) later d
      | (inr report, d) =>
        finish_run dr job (Some (match listErr with Some e => set_listing_error e report | None => report end)) None later d
      end
    end
  end.

(** At most four jobs per tick. *)
Fixpoint runReconcileJobs (dr : nat -> RunDraws) (target : nat -> string -> Target) (clock : nat -> Z * Z) (n : nat) (d : DB) : DB :=
  match n with
  | O => d
  | S n' =>
    match RunReconcileJob (dr n) (target n) (clock n).1 (clock n).2 d with
    | (inr true, d') | (inl _, d') => runReconcileJobs dr target clock n' d'
    | (inr false, d') => d'
    end
  end.
End running.

(** ** Restoring a snapshot

    A restored copy brings back the directory, not the credentials: what is
    ephemeral goes, and delivery waits for a reconciliation. *)

(** No state row can carry it. *)
Definition restoredRevision : Z := -1.
Definition restoredReason : string := "superseded by a restore; reconcile the connector to re-derive the work".

Record RestoreReport := MkRestoreReport { rr_Credentials : Z; rr_QueuedDeliveries : Z; rr_LogoutsQueued : Z; rr_HeldConnectors : Z;
  rr_Connectors : list string }.

(** A login of a client with a receiver that no standing delivery announces. *)
Definition unannounced (d : DB) (cs : ClientSession) : bool :=
  backchannel_client d (cs_ClientID cs) &&
  negb (exists_where (fun ld => (ld_ClientID ld =?s cs_ClientID cs) && (ld_SID ld =?s cs_SID cs) && (ld_Status ld <>?s "delivered")) (logout_deliveries d)).

Definition announce_logouts (newid : string -> string) (now : Z) : STx Z :=
  d <- tx_get ;;
  tx_iter (fun kv : string * ClientSession => insert_row logout_deliveries on_logout_deliveries (newid kv.1) (new_delivery now kv.2))
    (map_to_list (where_ (unannounced d) (oidc_client_sessions d))) ;;;
  tx_ret (count_where (unannounced d) (oidc_client_sessions d)).

(** [DELETE FROM t], with the rows it reports. *)
Definition clear {K A} `{Countable K} (get : DB -> gmap K A) (on : (gmap K A -> gmap K A) -> DB -> DB) : STx Z :=
  d <- tx_get ;; tx_set (on (fun _ => ∅)) ;;; tx_ret (Z.of_nat (size (get d))).

(** The tables of [restoredCleared], in its order. *)
Definition clear_credentials : STx Z :=
  d <- tx_get ;;
  tx_set (delete_sessions (fun _ => true)) ;;;
  n1 <- clear refresh_tokens on_refresh_tokens ;;
  n2 <- clear refresh_families on_refresh_families ;;
  n3 <- clear issued_tokens on_issued_tokens ;;
  n4 <- clear authorization_codes on_authorization_codes ;;
  n5 <- clear authorization_interactions on_authorization_interactions ;;
  n6 <- clear mfa_tokens on_mfa_tokens ;;
  n7 <- clear mfa_challenges on_mfa_challenges ;;
  n8 <- clear webauthn_challenges on_webauthn_challenges ;;
  n9 <- clear step_up_challenges on_step_up_challenges ;;
  n10 <- clear step_up_tokens on_step_up_tokens ;;
  n11 <- clear account_tokens on_account_tokens ;;
  n12 <- clear device_pairing_tokens on_device_pairing_tokens ;;
  n13 <- clear device_signon_jtis on_device_signon_jtis ;;
  n14 <- clear login_failures on_login_failures ;;
  n15 <- clear sync_delivery_attempts on_sync_delivery_attempts ;;
  tx_ret (count_where (fun _ => true) (sessions d) + n1 + n2 + n3 + n4 + n5 + n6 + n7 + n8 + n9 + n10 + n11 + n12 + n13 + n14 + n15).

Definition undelivered (e : AccountSyncEvent) : bool :=
  one_of (e_Status e) ["pending"; "failed"]%string && negb (e_Revision e =? restoredRevision) && (e_LastError e <>?s restoredReason).

(** A closed-out event; a removal and a reset keep their revision. *)
Definition close_out (now : Z) (e : AccountSyncEvent) : AccountSyncEvent :=
  let reset := e_EventType e =?s "user.mfa_reset" in
  MkAccountSyncEvent EmptyString (e_ID e) (e_UserID e) (e_SystemID e) (e_EventType e) (e_Payload e)
    (if reset || removalSQL e then e_Revision e else restoredRevision) (if reset then 0 else e_DeliveryRevision e) (e_Attempts e) "failed"
    restoredReason (e_NextAttempt e) None (e_CreatedAt e) now.

(** An in-flight logout delivery goes out again. *)
Definition requeue_logout (now : Z) (ld : LogoutDelivery) : LogoutDelivery :=
  set_ld (ld_Status ld) (ld_LastError ld) EmptyString 0 None now now ld.

Definition live_connectors (d : DB) : list string :=
  sort_strings (map (fun kv => ps_Name kv.2) (List.filter (fun kv : string * PairedSystem => ps_Status kv.2 <>?s "disabled") (map_to_list (paired_systems d)))).

Definition backup_interval_key : string := "backup_interval_sec".

Definition restore_tx (newid : string -> string) (now : Z) : STx RestoreReport :=
  queued <- announce_logouts newid now ;;
  tx_set (on_logout_deliveries (update_where (fun ld => ld_Status ld =?s "queued") (requeue_logout now))) ;;;
  credentials <- clear_credentials ;;
  d <- tx_get ;;
  tx_set (update_events undelivered (close_out now)) ;;;
  tx_set (on_paired_systems (update_where (fun _ => true) (set_ps_ProvisioningHold true))) ;;;
  tx_set (on_system_settings <[backup_interval_key := JNum 0]>) ;;;
  tx_ret (MkRestoreReport credentials (Z.of_nat (length (List.filter undelivered (account_sync_events d)))) queued
    (Z.of_nat (length (live_connectors d))) (live_connectors d)).

(** The counts join the caller's details. *)
Definition restore_details (r : RestoreReport) (l : list (string * Json)) : Json :=
  JObj (obj_set "scheduledDepositsOff" (JBool true) (obj_set "connectorsHeld" (JArr (map JStr (rr_Connectors r)))
    (obj_set "logoutsQueued" (JNum (rr_LogoutsQueued r)) (obj_set "queuedDeliveriesClosed" (JNum (rr_QueuedDeliveries r))
      (obj_set "credentialsInvalidated" (JNum (rr_Credentials r)) l))))).

(** [JNull] is the empty details text. *)
Definition ApplyRestoredState (newid : string -> string) (audit : option AuditEvent) (now : Z) : DB -> (StoreError + RestoreReport) * DB :=
  commit (
    r <- restore_tx newid now ;;
    audit <- (match audit with
      | None => tx_ret None
      | Some e => match ae_Details e with
        | JNull => tx_ret (Some (set_ae_Details (restore_details r []) e))
        | JObj l => tx_ret (Some (set_ae_Details (restore_details r l) e))
        | _ => tx_fail (ErrText "audit details must be a JSON object")
        end
      end) ;;
    recordAuditTx audit now ;;;
    tx_ret r).

(** ** Facts *)

Section jobs_facts.
Context `{Codec}.

(** *** The queue *)

Definition job_ok (k : string) (j : ReconcileJob) : Prop :=
  j_ID j = k /\ 0 <= j_Attempts j <= reconcileAttempts /\ one_of (j_Status j) ["queued"; "running"; "done"; "failed"]%string = true /\
  (j_Status j = "running"%string -> 1 <= j_Attempts j /\ exists t, j_LeaseUntil j = Some t).

(** One active job per connector, a bounded history, and jobs in order. *)
Definition queue_ok (d : DB) : Prop :=
  (forall k j, sync_reconcile_jobs d !! k = Some j -> job_ok k j) /\
  (forall sys, count_where (active_job sys) (sync_reconcile_jobs d) <= 1) /\
  (forall sys, count_where (job_of sys) (sync_reconcile_jobs d) <= Z.of_nat job_history + 1).

Inductive job_step : DB -> DB -> Prop :=
| js_create id sys kind by_ audit now d j d' : CreateReconcileJob id sys kind by_ audit now d = inr (j, d') -> job_step d d'
| js_schedule jid aid now d r d' : ScheduleReconcileJobs jid aid now d = (r, d') -> job_step d d'
| js_claim token lease now d j d' : ClaimReconcileJob token lease now d = inr (j, d') -> job_step d d'
| js_finish aid job report err now d u d' : FinishReconcileJob aid job report err now d = inr (u, d') -> job_step d d'
| js_run dr target now later d r d' : RunReconcileJob dr target now later d = (r, d') -> job_step d d'
| js_other d d' : sync_reconcile_jobs d' = sync_reconcile_jobs d -> job_step d d'.

Lemma queue_ok_same d d' : sync_reconcile_jobs d' = sync_reconcile_jobs d -> queue_ok d -> queue_ok d'.
Proof. unfold queue_ok. by intros ->. Qed.

(** The newest jobs, bounded, hold at most as many finished ones. *)
Lemma trim_finished sys t : (forall k j, t !! k = Some j -> j_ID j = k) ->
  count_where (finished_job sys) (trim_jobs sys t) <= Z.of_nat job_history.
Proof.
  intros Hk. unfold count_where. set (ids := map fst (firstn job_history (newest_jobs sys t))).
  assert (length ids <= job_history)%nat as Hl by (unfold ids; rewrite length_map, length_firstn; lia).
  enough (size (dom (where_ (finished_job sys) (trim_jobs sys t))) <= length ids)%nat as Hs by (rewrite size_dom in Hs; lia).
  transitivity (size (list_to_set ids : gset string)).
  - apply subseteq_size. intros k Hin. apply elem_of_dom in Hin as [j Hj]. apply lookup_where in Hj as [Hj Hf].
    apply lookup_delete_where_Some in Hj as [Hj Hb]. rewrite Hf in Hb. cbn in Hb. apply negb_false_iff, one_of_true in Hb.
    apply elem_of_list_to_set, list_elem_of_In. by rewrite <- (Hk k j Hj).
  - clear. induction ids as [|x l IH]; [done|]. cbn. rewrite size_union_alt, size_singleton.
    pose proof (subseteq_size (list_to_set l ∖ {[x]} : gset string) (list_to_set l) ltac:(set_solver)). lia.
Qed.


(** Updates that add no job and activate none keep the bounds. *)
Definition jobs_evolve (t t' : gmap string ReconcileJob) : Prop := forall k j', t' !! k = Some j' ->
  exists j, t !! k = Some j /\ j_SystemID j' = j_SystemID j /\ (forall sys, active_job sys j' = true -> active_job sys j = true).

Lemma evolve_counts t t' sys : jobs_evolve t t' -> count_where (active_job sys) t' <= count_where (active_job sys) t /\
  count_where (job_of sys) t' <= count_where (job_of sys) t.
Proof.
  intros He. split; apply count_where_subset; intros k r Hk Hp; destruct (He k r Hk) as (j & Hj & Hs & Ha); exists j; (split; [done|]).
  - by apply Ha.
  - unfold job_of in *. by rewrite <- Hs.
Qed.

Lemma queue_ok_evolve d t' : jobs_evolve (sync_reconcile_jobs d) t' -> (forall k j, t' !! k = Some j -> job_ok k j) -> queue_ok d ->
  queue_ok (on_sync_reconcile_jobs (fun _ => t') d).
Proof.
  intros He Hj (_ & Ha & Hc). split; [exact Hj|]. split; intros sys; cbn; destruct (evolve_counts _ _ sys He); [specialize (Ha sys)|specialize (Hc sys)]; lia.
Qed.

Lemma create_ok id sys kind by_ audit now d j d' : CreateReconcileJob id sys kind by_ audit now d = inr (j, d') -> queue_ok d -> queue_ok d'.
Proof.
  intros Hr (Hj & Ha & Hc). unfold CreateReconcileJob in Hr. apply tx_bind_inr in Hr as (a & d0 & He & Hr). apply tx_guard_inr in He as [_ ->].
  apply tx_bind_inr in Hr as (a1 & d0 & He & Hr). injection He as <- <-. apply tx_bind_inr in Hr as (a2 & d0 & He & Hr). apply tx_guard_inr in He as [_ ->].
  apply tx_bind_inr in Hr as (a3 & d0 & He & Hr). apply tx_guard_inr in He as [Hb ->]. apply negb_true_iff in Hb. cbv zeta in Hr.
  apply tx_bind_inr in Hr as (a4 & d0 & He & Hr). apply insert_row_inv in He as [Hn ->]. apply tx_bind_inr in Hr as (a5 & d0 & He & Hr). injection He as _ <-.
  apply tx_bind_inr in Hr as (a6 & d0 & He & Hr). injection Hr as _ <-. apply recordAuditTx_inv in He as (m & q & ->).
  match type of Hn with _ = None => idtac end.
  set (job := MkReconcileJob id sys kind "queued" by_ EmptyString 0 now None None None None EmptyString) in *.
  set (t := <[id := job]> (sync_reconcile_jobs d)).
  apply (queue_ok_same (on_sync_reconcile_jobs (fun _ => trim_jobs sys t) d)); [done|].
  assert (forall k j, t !! k = Some j -> job_ok k j) as Ht.
  { intros k x Hx. apply lookup_insert_Some in Hx as [[<- <-]|[_ Hx]]; [|by apply Hj]. unfold job_ok, reconcileAttempts. cbn. split; [done|]. split; [lia|]. done. }
  assert (forall s, count_where (active_job s) t <= 1) as Hact.
  { intros s. unfold t. destruct (decide (s = sys)) as [->|Hne]; [by apply count_where_write_first|].
    rewrite count_where_insert_new by done. specialize (Ha s). assert (active_job s job = false) as ->; [|lia].
    unfold active_job, job_of. cbn. apply not_eq_sym, streqb_false in Hne. by rewrite Hne. }
  unfold queue_ok. cbn [sync_reconcile_jobs on_sync_reconcile_jobs]. split; [|split].
  - intros k x Hx. apply lookup_delete_where_Some in Hx as [Hx _]. by apply Ht.
  - intros s. etrans; [apply count_where_delete_where|]. apply Hact.
  - intros s. destruct (decide (s = sys)) as [->|Hne].
    + etrans; [apply (count_where_all_but_one _ (finished_job sys) _ id)|].
      * intros k x Hx Hjob. apply lookup_delete_where_Some in Hx as [Hx _]. destruct (decide (k = id)) as [->|Hk]; [by left|right].
        apply lookup_insert_Some in Hx as [[<- _]|[_ Hx]]; [done|]. unfold finished_job. rewrite Hjob. cbn.
        destruct (Hj k x Hx) as (_ & _ & Hst & _). rewrite exists_where_false in Hb. specialize (Hb k x Hx). unfold active_job in Hb. rewrite Hjob in Hb. cbn in Hb, Hst.
        destruct (j_Status x =?s "queued"); [done|]. destruct (j_Status x =?s "running"); [done|]. exact Hst.
      * pose proof (trim_finished sys t) as Htr. assert (forall k j, t !! k = Some j -> j_ID j = k) as Hid by (intros k x Hx; by destruct (Ht k x Hx)).
        specialize (Htr Hid). lia.
    + etrans; [apply count_where_delete_where|]. unfold t. rewrite count_where_insert_new by done. specialize (Hc s).
      assert (job_of s job = false) as ->; [|lia]. unfold job_of. cbn. by apply streqb_false, not_eq_sym.
Qed.

Lemma oldest_job_Some t k j : oldest_job t = Some (k, j) -> t !! k = Some j.
Proof.
  unfold oldest_job. intros Ho. apply elem_of_map_to_list, list_elem_of_In. revert Ho. generalize (map_to_list t). intros l. revert k j.
  induction l as [|kv l IH]; intros k j Ho; [done|]. cbn in Ho. destruct (fold_right _ None l) as [b|].
  - destruct (_ <=? _); injection Ho as ->; [by left|]. right. by apply IH.
  - injection Ho as ->. by left.
Qed.

(** What a claim leaves, and the job it hands out. *)
Lemma claim_job_inv token lease now d o d' : ClaimReconcileJob token lease now d = inr (o, d') ->
  exists t', d' = on_sync_reconcile_jobs (fun _ => t') d /\ jobs_evolve (sync_reconcile_jobs d) t' /\
  (queue_ok d -> forall k j, t' !! k = Some j -> job_ok k j) /\
  (forall j, o = Some j -> queue_ok d -> t' !! j_ID j = Some j /\ j_ClaimToken j = token /\ j_Status j = "running"%string /\
     exists j0, sync_reconcile_jobs d !! j_ID j = Some j0 /\ j_Attempts j = j_Attempts j0 + 1 /\ j_Kind j = j_Kind j0 /\ j_SystemID j = j_SystemID j0).
Proof.
  intros Hr. unfold ClaimReconcileJob in Hr. apply tx_bind_inr in Hr as (a & d0 & He & Hr). injection He as _ <-.
  apply tx_bind_inr in Hr as (a1 & d0 & He & Hr). injection He as <- <-. cbn [sync_reconcile_jobs on_sync_reconcile_jobs] in Hr.
  set (fl := fun j => set_job "failed" EmptyString "interrupted repeatedly" None (Some now) (j_Result j) j) in *.
  set (t1 := update_where (interrupted now) fl (sync_reconcile_jobs d)) in *.
  assert (jobs_evolve (sync_reconcile_jobs d) t1) as He1.
  { intros k j' Hj. apply lookup_update_where_Some in Hj as (j & Hj & ->). exists j. split; [done|]. destruct (interrupted now j); [|done]. split; [done|].
    intros sys. unfold active_job. cbn. by rewrite andb_false_r. }
  assert (queue_ok d -> forall k j, t1 !! k = Some j -> job_ok k j) as Hok1.
  { intros (Hj & _) k j' Hj'. apply lookup_update_where_Some in Hj' as (j & Hj0 & ->). destruct (interrupted now j); [|by apply Hj].
    destruct (Hj k j Hj0) as (? & ? & _). unfold job_ok. cbn. split; [done|]. split; [done|]. done. }
  destruct (oldest_job _) as [[id j]|] eqn:Eo.
  - apply oldest_job_Some, lookup_where in Eo as [Eo Hcl]. apply tx_bind_inr in Hr as (a2 & d0 & He & Hr). injection He as _ <-. injection Hr as <- <-.
    set (j1 := claim_job token (now + lease) now j).
    exists (<[id := j1]> t1). split; [done|].
    assert (forall k j', <[id := j1]> t1 !! k = Some j' -> exists j0, t1 !! k = Some j0 /\ j_SystemID j' = j_SystemID j0 /\
      (forall sys, active_job sys j' = true -> active_job sys j0 = true)) as Hins.
    { intros k j' Hj'. apply lookup_insert_Some in Hj' as [[<- <-]|[_ Hj']]; [|by exists j']. exists j. split; [done|]. split; [done|].
      intros sys. unfold active_job, job_of. cbn. intros Hb. apply andb_true_iff in Hb as [-> _]. cbn. unfold claimable_job, lease_lapsed in Hcl.
      apply andb_true_iff in Hcl as [Hcl _]. destruct (j_Status j =?s "queued"); [done|]. cbn in Hcl. apply andb_true_iff in Hcl as [-> _]. done. }
    split; [|split].
    + intros k j' Hj'. destruct (Hins k j' Hj') as (j0 & Hj0 & Hs & Ha). destruct (He1 k j0 Hj0) as (j2 & Hj2 & Hs2 & Ha2).
      exists j2. split; [done|]. split; [congruence|]. intros sys Hx. by apply Ha2, Ha.
    + intros Hq k j' Hj'. apply lookup_insert_Some in Hj' as [[<- <-]|[_ Hj']]; [|by apply Hok1]. destruct (Hok1 Hq id j Eo) as (Hi & Hat & _).
      unfold claimable_job in Hcl. apply andb_true_iff in Hcl as [_ Hcl]. apply Z.ltb_lt in Hcl. unfold job_ok, reconcileAttempts in *. cbn. split; [done|]. split; [lia|].
      split; [done|]. intros _. split; [lia|]. by eexists.
    + intros j' [= <-] Hq. destruct (Hok1 Hq id j Eo) as (Hi & _). change (j_ID j1) with (j_ID j). rewrite Hi, lookup_insert_eq. split; [done|].
      split; [done|]. split; [done|]. apply lookup_update_where_Some in Eo as (j0 & Hj0 & Hjj).
      assert (interrupted now j0 = false) as Hint.
      { destruct (interrupted now j0) eqn:E; [|done]. exfalso. subst j. unfold claimable_job, lease_lapsed in Hcl. cbn in Hcl. done. }
      rewrite Hint in Hjj. subst j0. by exists j.
  - injection Hr as <- <-. exists t1. split; [done|]. split; [done|]. split; [done|]. done.
Qed.

Lemma finish_inv aid job report err now d u d' : FinishReconcileJob aid job report err now d = inr (u, d') ->
  exists row m q, sync_reconcile_jobs d !! j_ID job = Some row /\ j_ClaimToken row = j_ClaimToken job /\
    d' = audited m q (on_paired_systems (fun t => if lifts_hold job report err then
           alter (fun p => if ps_ProvisioningHold p then set_ps_ProvisioningHold false p else p) (j_SystemID job) t else t)
         (on_sync_reconcile_jobs <[j_ID job := set_job (match err with Some _ => "failed" | None => "done" end) EmptyString (default EmptyString err)
            None (Some now) (report_json <$> report) row]> d)).
Proof.
  intros Hr. unfold FinishReconcileJob in Hr. apply tx_bind_inr in Hr as (a & d0 & He & Hr). injection He as <- <-. cbv zeta in Hr.
  destruct (sync_reconcile_jobs d !! j_ID job) as [row|]; [|done]. apply tx_bind_inr in Hr as (a1 & d0 & He & Hr). apply tx_guard_inr in He as [Ht ->].
  apply streqb_true in Ht. apply tx_bind_inr in Hr as (a2 & d1 & He & Hr). injection He as _ <-. apply tx_bind_inr in Hr as (a3 & d2 & He & Hr).
  assert (exists m q, d' = audited m q d2) as (m & q & ->).
  { destruct (j_Kind job =?s "repair"); [by apply recordAuditTx_inv in Hr|]. injection Hr as _ <-. by eexists (audit_events d2), (alert_queue d2). }
  exists row, m, q. split; [done|]. split; [done|]. f_equal. destruct (lifts_hold job report err); by injection He as _ <-.
Qed.

Lemma finish_ok aid job report err now d u d' : FinishReconcileJob aid job report err now d = inr (u, d') -> queue_ok d -> queue_ok d'.
Proof.
  intros Hr Hq. apply finish_inv in Hr as (row & m & q & Hrow & _ & ->). set (row' := set_job _ _ _ _ _ _ row).
  apply (queue_ok_same (on_sync_reconcile_jobs (fun _ => <[j_ID job := row']> (sync_reconcile_jobs d)) d)); [done|]. apply queue_ok_evolve; [| |done].
  - intros k j' Hj. apply lookup_insert_Some in Hj as [[<- <-]|[_ Hj]]; [|by exists j']. exists row. split; [done|]. split; [done|].
    intros sys. unfold active_job, row'. destruct err; cbn; by rewrite andb_false_r.
  - intros k j' Hj. destruct Hq as (Hok & _). apply lookup_insert_Some in Hj as [[<- <-]|[_ Hj]]; [|by apply Hok].
    destruct (Hok _ _ Hrow) as (? & ? & _). unfold job_ok, row'. destruct err; cbn; (split; [done|]; split; [done|]; done).
Qed.

Lemma schedule_ok jid aid now d r d' : ScheduleReconcileJobs jid aid now d = (r, d') -> queue_ok d -> queue_ok d'.
Proof.
  unfold ScheduleReconcileJobs. match goal with |- context [fold_left ?f] => set (step := f) end. generalize (map fst (List.filter (fun kv => reconcile_due now d kv.1 kv.2) (map_to_list (paired_systems d)))).
  intros l. assert (forall r0 e, queue_ok e -> fold_left step l (r0, e) = (r, d') -> queue_ok d') as Hl.
  { induction l as [|sys l IH]; intros r0 e Hq Hf; [by injection Hf as _ <-|].
    change (fold_left step l (step (r0, e) sys) = (r, d')) in Hf. destruct (step (r0, e) sys) as [r1 e1] eqn:Es. apply (IH r1 e1); [|done].
    unfold step in Es. destruct r0 as [er|[]]; [by injection Es as _ <-|].
    destruct (commit _ e) as [[er|j] e2] eqn:Ec.
    - apply commit_inl in Ec as [-> _]. by destruct er; injection Es as _ <-.
    - apply commit_inr in Ec. injection Es as _ <-. by eapply create_ok. }
  intros Hf Hq. by eapply Hl.
Qed.

Lemma finish_run_ok dr job report err now d r d' : finish_run dr job report err now d = (r, d') -> queue_ok d -> queue_ok d'.
Proof.
  unfold finish_run. destruct (commit _ d) as [[e|u] d1] eqn:Ec; intros Hr Hq; injection Hr as _ <-.
  - apply commit_inl in Ec as [-> _]. done.
  - apply commit_inr in Ec. by eapply finish_ok.
Qed.

Lemma reconciled_jobs d d' : reconciled d d' -> sync_reconcile_jobs d' = sync_reconcile_jobs d /\ paired_systems d' = paired_systems d.
Proof. by intros (es & st & ln & ->). Qed.

(** One run, step by step: the claim, the pass if it got that far, the finish. *)
Lemma run_inv dr target now later d r d' : RunReconcileJob dr target now later d = (r, d') ->
  exists o d1, ClaimReconcileJob (rd_token dr) reconcileLease now d = inr (o, d1) /\
  match o with
  | None => r = inr false /\ d' = d1
  | Some job => exists d2 report err, reconciled d1 d2 /\ finish_run dr job report err later d2 = (r, d') /\
      (lifts_hold job report err = true -> exists sys listing rep, paired_systems d1 !! j_SystemID job = Some sys /\
         listRemote (target (j_SystemID job)) sys = (listing, None) /\ ReconcileDrift (rd_newid dr) (rd_order dr) (ps_ID sys) listing true now d1 = inr (rep, d2) /\
         dr_Repaired rep = true)
  end.
Proof.
  intros Hr. unfold RunReconcileJob in Hr. destruct (commit (ClaimReconcileJob _ _ _) d) as [[e|o] d1] eqn:Ec.
  { exfalso. apply commit_inl in Ec as [_ Ec]. unfold ClaimReconcileJob in Ec. unfold tx_bind, tx_set, tx_get in Ec. cbn in Ec.
    by destruct (oldest_job _) as [[id j]|]. }
  apply commit_inr in Ec. exists o, d1. split; [done|]. destruct o as [job|]; [|by injection Hr as <- <-].
  destruct (paired_systems d1 !! j_SystemID job) as [sys|] eqn:Es.
  - destruct (listRemote (target (j_SystemID job)) sys) as [listing listErr] eqn:El.
    destruct (commit (ReconcileDrift _ _ _ _ _ _) d1) as [[e|report] d2] eqn:Ed.
    + apply commit_inl in Ed as [-> _]. exists d1, None, (Some (rd_text dr e)). split; [apply reconciled_refl|]. split; [done|]. unfold lifts_hold. by rewrite andb_false_r.
    + apply commit_inr in Ed. exists d2, (Some (match listErr with Some e => set_listing_error e report | None => report end)), None.
      split; [by eapply drift_frame|]. split; [done|]. unfold lifts_hold. intros Hl. apply andb_true_iff in Hl as [Hk Hl]. apply andb_true_iff in Hk as [Hk _].
      rewrite Hk in Ed. apply andb_true_iff in Hl as [Hrep Hle]. apply streqb_true in Hle. destruct listErr as [e|].
      * exfalso. cbn in Hrep, Hle. subst e. apply drift_inv in Ed as [_ Ed]. assert (rl_Complete listing = false) as Hinc.
        { clear -El. unfold listRemote in El. destruct (negb _); [by injection El|]. destruct (t_secret _); [|by injection El as <- _].
          destruct (listSCIMCollection _ _ "Users") as [us [e|]]; [by injection El as <- _|]. destruct (negb _); [by injection El|].
          destruct (listSCIMCollection _ _ "Groups") as [gs [e|]]; [by injection El as <- _|by injection El]. }
        destruct (negb (rl_Supported listing)); [destruct Ed as [-> _]; cbn in Hrep; done|].
        destruct Ed as (? & ? & ? & ? & ? & _ & _ & _ & ->). cbn in Hrep. by rewrite Hinc in Hrep.
      * by exists sys, listing, report.
  - exists d1, None, (Some "paired system no longer exists"%string). split; [apply reconciled_refl|]. split; [done|]. unfold lifts_hold. by rewrite andb_false_r.
Qed.

Lemma job_step_ok d d' : job_step d d' -> queue_ok d -> queue_ok d'.
Proof.
  intros Hs Hq. destruct Hs as [id sys kind by_ audit now d j d' Hr|jid aid now d r d' Hr|token lease now d j d' Hr|aid job report err now d u d' Hr|dr target now later d r d' Hr|d d' Hr].
  - by eapply create_ok.
  - by eapply schedule_ok.
  - apply claim_job_inv in Hr as (t' & -> & He & Hj & _). apply queue_ok_evolve; [done|by apply Hj|done].
  - by eapply finish_ok.
  - apply run_inv in Hr as (o & d1 & Hc & Hr). apply claim_job_inv in Hc as (t' & -> & He & Hj & _).
    assert (queue_ok (on_sync_reconcile_jobs (fun _ => t') d)) as Hq1 by (apply queue_ok_evolve; [done|by apply Hj|done]).
    destruct o as [job|]; [|by destruct Hr as [_ ->]]. destruct Hr as (d2 & report & err & Hrec & Hf & _).
    eapply finish_run_ok; [exact Hf|]. apply reconciled_jobs in Hrec as [Hrec _]. by eapply queue_ok_same.
  - by eapply queue_ok_same.
Qed.

(** Over every interleaving of requests, schedules, claims and completions
    a connector has at most one reconciliation job queued or running and a
    bounded history, and a claim returns a stored running job within its
    attempt budget. *)
Theorem reconcile_jobs_stay_bounded d0 d : queue_ok d0 -> rtc job_step d0 d ->
  queue_ok d /\ (forall token lease now j d', ClaimReconcileJob token lease now d = inr (Some j, d') ->
    j_Status j = "running"%string /\ 1 <= j_Attempts j <= reconcileAttempts /\ sync_reconcile_jobs d' !! j_ID j = Some j).
Proof.
  intros Hq Hs. assert (queue_ok d) as Hqd by (induction Hs as [|x y z Hxy _ IH]; [done|]; by apply IH, (job_step_ok x)).
  split; [done|]. intros token lease now j d' Hr. apply claim_job_inv in Hr as (t' & -> & _ & Hj & Hc). destruct (Hc j eq_refl Hqd) as (Hl & _ & Hst & _).
  split; [done|]. split; [|done]. destruct (Hj Hqd _ _ Hl) as (_ & Hat & _ & Hrun). destruct (Hrun Hst). lia.
Qed.

(** *** Holds *)

(** C35. No delivery of a held connector is claimed, and a reconciliation run
    lifts the hold only when the target's listing was supported, complete
    and without error and the repair against it committed. *)
Theorem a_hold_lifts_only_on_a_complete_repair dr target now later d r d' sys ps ps' :
  (forall k p, paired_systems d !! k = Some p -> ps_ID p = k) ->
  paired_systems d !! sys = Some ps -> ps_ProvisioningHold ps = true ->
  (forall token limit lease t evs e, ClaimDueSyncEvents token limit lease t d = inr (evs, e) -> forall ev, In ev evs -> e_SystemID ev <> sys) /\
  (RunReconcileJob dr target now later d = (r, d') -> paired_systems d' !! sys = Some ps' -> ps_ProvisioningHold ps' = false ->
     exists listing t' report d2, listRemote (target sys) ps = (listing, None) /\ rl_Supported listing = true /\ rl_Complete listing = true /\
       ReconcileDrift (rd_newid dr) (rd_order dr) sys listing true now (on_sync_reconcile_jobs (fun _ => t') d) = inr (report, d2) /\ dr_Repaired report = true).
Proof.
  intros Hk Hs Hh. split.
  - intros token limit lease t evs e Hc ev Hin Heq. pose proof Hc as Hc2. apply claim_one_per_resource in Hc as [_ Hc]. destruct (Hc ev Hin) as [_ Hse].
    apply claim_inv in Hc2 as (_ & _ & Hps & _). unfold sendable in Hse. rewrite Hps, Heq, Hs, Hh in Hse. cbn in Hse. rewrite andb_false_r in Hse. done.
  - intros Hr Hs' Hh'. apply run_inv in Hr as (o & d1 & Hc & Hr). apply claim_job_inv in Hc as (t' & -> & _).
    destruct o as [job|]; [|destruct Hr as [_ ->]; cbn in Hs'; congruence]. destruct Hr as (d2 & report & err & Hrec & Hf & Hlift).
    unfold finish_run in Hf. destruct (commit _ d2) as [[e|u] d3] eqn:Ec; injection Hf as _ <-.
    { apply commit_inl in Ec as [-> _]. apply reconciled_jobs in Hrec as [_ Hrec]. rewrite Hrec in Hs'. cbn in Hs'. congruence. }
    apply commit_inr in Ec. apply finish_inv in Ec as (row & m & q & _ & _ & ->). apply reconciled_jobs in Hrec as [_ Hrec].
    change (paired_systems (audited m q ?x)) with (paired_systems x) in Hs'. cbn -[lookup alter] in Hs'. rewrite Hrec in Hs'. cbn -[lookup alter] in Hs'.
    destruct (lifts_hold job report err) eqn:El; [|congruence]. destruct (decide (j_SystemID job = sys)) as [<-|Hne]; [|rewrite lookup_alter_ne in Hs' by done; congruence].
    destruct (Hlift eq_refl) as (sys' & listing & rep & Hsys & Hlist & Hd & Hrp). cbn in Hsys. rewrite Hs in Hsys. injection Hsys as <-. rewrite (Hk _ _ Hs) in Hd.
    exists listing, t', rep, d2. split; [done|]. apply drift_inv in Hd as Hd2. destruct Hd2 as [_ Hd2].
    destruct (rl_Supported listing); cbn [negb] in Hd2; [|destruct Hd2 as [-> _]; done].
    destruct Hd2 as (? & ? & ? & ? & ? & _ & _ & _ & ->). cbn in Hrp. destruct (rl_Complete listing); [|done]. by split_and!.
Qed.

(** *** Listing a target *)

Definition listing_ok (out : list listedResource) : Prop :=
  NoDup (map lr_ID out) /\ Forall (fun r => lr_ID r <> EmptyString /\ RuneCountInString (lr_ID r) <= RemoteTextLimit /\
    RuneCountInString (lr_ExternalID r) <= RemoteTextLimit) out.

Lemma take_page_ok l : forall out, listing_ok out -> listing_ok (take_page out l).1.
Proof.
  induction l as [|r l IH]; intros out Ho; [done|]. cbn [take_page]. destruct (good_resource (map lr_ID out) r) eqn:Eg; [|done].
  apply IH. destruct Ho as [Hn Hf]. unfold good_resource in Eg. bool_hyps.
  match goal with H : one_of _ _ = false |- _ => rename H into Hnew end. split.
  - rewrite map_app. apply NoDup_app. split; [done|]. split; [|apply NoDup_singleton]. intros x Hx Hx2. cbn in Hx2. apply list_elem_of_singleton in Hx2 as ->.
    apply not_true_iff_false in Hnew. apply Hnew. by apply one_of_true, list_elem_of_In.
  - apply Forall_app. split; [done|]. apply Forall_singleton. done.
Qed.

Lemma take_page_all l : forall out, NoDup (map lr_ID (out ++ l)) ->
  Forall (fun r => lr_ID r <> EmptyString /\ RuneCountInString (lr_ID r) <= RemoteTextLimit /\ RuneCountInString (lr_ExternalID r) <= RemoteTextLimit) l ->
  take_page out l = (out ++ l, true).
Proof.
  induction l as [|r l IH]; intros out Hn Hf; [by rewrite app_nil_r|]. cbn [take_page]. apply Forall_cons in Hf as [(H1 & H2 & H3) Hf].
  assert (good_resource (map lr_ID out) r = true) as ->.
  { unfold good_resource. apply streqb_false in H1. apply Z.leb_le in H2, H3. rewrite H1, H2, H3. cbn. rewrite !andb_true_r. apply negb_true_iff, not_true_iff_false.
    intros Ho. apply one_of_true, list_elem_of_In in Ho. rewrite map_app in Hn. apply NoDup_app in Hn as (_ & Hn & _). apply (Hn _ Ho). by left. }
  replace (out ++ r :: l) with ((out ++ [r]) ++ l) in * by by rewrite <- app_assoc. by apply IH.
Qed.

Lemma listingPages_210 : listingPages = 210%nat.
Proof. by vm_compute. Qed.

(** A listing reported complete holds as many resources as the target says it
    has, each once. *)
Lemma walk_sound t collection fuel : forall start total out res, walk_pages t collection fuel start total out = (res, None) -> listing_ok out ->
  listing_ok res /\ exists i s page, (i < listingPages)%nat /\ t_page t collection i s = inr page /\ pg_Total page = Some (Z.of_nat (length res)) /\ Z.of_nat (length res) <= listingMax.
Proof.
  induction fuel as [|fuel IH]; intros start total out res Hw Ho; [done|]. cbn [walk_pages] in Hw.
  destruct (t_page t collection _ start) as [e|page] eqn:Ep; [done|]. destruct (pg_Total page) as [n|] eqn:En; [|done].
  destruct (_ || _); [done|]. destruct (_ && _); [done|]. destruct (listingMax <? n) eqn:Emax; [done|]. apply Z.ltb_ge in Emax.
  pose proof (take_page_ok (pg_Resources page) out Ho) as Ho2. destruct (take_page out (pg_Resources page)) as [out2 [|]]; [|done]. cbn in Ho2.
  destruct (n <=? Z.of_nat (length out2)) eqn:El.
  - destruct (Z.of_nat (length out2) =? n) eqn:Ee; [|done]. injection Hw as <-. apply Z.eqb_eq in Ee. split; [done|]. rewrite Ee. exists (listingPages - S fuel)%nat, start, page.
    split; [|done]. rewrite listingPages_210. lia.
  - destruct (pg_Resources page); [done|]. by eapply IH.
Qed.

(** The window a target answers a request with. *)
Definition window (l : list listedResource) (start : Z) : list listedResource := firstn (Z.to_nat listingPage) (skipn (Z.to_nat (start - 1)) l).

Lemma walk_whole t collection l : listing_ok l -> Z.of_nat (length l) <= listingMax ->
  (forall i start, exists s, (s = None \/ s = Some start) /\ t_page t collection i start = inr (MkPage (Some (Z.of_nat (length l))) s (window l start))) ->
  forall fuel k total, (k <= length l)%nat -> (k = 0 \/ k < length l)%nat -> (1 <= fuel)%nat -> (length l <= k + fuel * Z.to_nat listingPage)%nat ->
    (total = -1 \/ total = Z.of_nat (length l)) ->
    walk_pages t collection fuel (Z.of_nat k + 1) total (firstn k l) = (l, None).
Proof.
  intros [Hn Hf] Hmax Ht. induction fuel as [|fuel IH]; intros k total Hk Hk0 Hfu Hb Htot; [lia|]. cbn [walk_pages].
  destruct (Ht (listingPages - S fuel)%nat (Z.of_nat k + 1)) as (s & Hs & ->). cbn [pg_Total pg_Start pg_Resources].
  assert (((Z.of_nat (length l) <? 0) || match s with Some s0 => negb (s0 =? Z.of_nat k + 1) | None => false end) = false) as ->.
  { apply orb_false_iff. split; [by apply Z.ltb_ge; lia|]. destruct Hs as [-> | ->]; [done|]. by rewrite Z.eqb_refl. }
  assert ((negb (total =? -1) && negb (Z.of_nat (length l) =? total)) = false) as ->.
  { destruct Htot as [-> | ->]; [done|]. rewrite Z.eqb_refl. by rewrite andb_false_r. }
  assert (listingMax <? Z.of_nat (length l) = false) as -> by by apply Z.ltb_ge.
  set (m := Z.to_nat listingPage). assert (window l (Z.of_nat k + 1) = firstn m (skipn k l)) as -> by (unfold window; do 2 f_equal; lia).
  assert (firstn k l ++ firstn m (skipn k l) = firstn (k + m) l) as Happ.
  { rewrite <- (firstn_skipn k l) at 3. rewrite firstn_app, firstn_firstn, length_firstn.
    replace (k + m - min k (length l))%nat with m by lia. replace (min (k + m) k) with k by lia. done. }
  rewrite take_page_all.
  2:{ rewrite Happ, <- firstn_map. eapply sublist_NoDup; [exact Hn|apply sublist_take]. }
  2:{ apply Forall_take. by apply Forall_drop. }
  rewrite Happ. destruct (Z.of_nat (length l) <=? Z.of_nat (length (firstn (k + m) l))) eqn:El.
  - apply Z.leb_le in El. rewrite length_firstn in El. rewrite firstn_all2 by lia. by rewrite Z.eqb_refl.
  - apply Z.leb_gt in El. rewrite length_firstn in El. destruct (firstn m (skipn k l)) as [|x w] eqn:Ew.
    + exfalso. assert (length (firstn m (skipn k l)) = 0%nat) as Hz by by rewrite Ew. rewrite length_firstn, length_skipn in Hz. unfold m, listingPage in Hz. lia.
    + rewrite <- Ew. replace (Z.of_nat k + 1 + Z.of_nat (length (firstn m (skipn k l)))) with (Z.of_nat (k + m) + 1) by (rewrite length_firstn, length_skipn; lia).
      apply IH; lia.
Qed.

(** The requests of a walk are numbered; it asks for nothing past its budget,
    so a target that answers differently from there on is listed alike. *)
Definition answering_as (t : Target) (page : string -> nat -> Z -> string + Page) : Target :=
  MkTarget (t_secret t) (t_endpoint t) (t_insecure t) (t_malformed t) page.

Lemma walk_within t page collection fuel : (fuel <= listingPages)%nat ->
  (forall i s, (i < listingPages)%nat -> page collection i s = t_page t collection i s) ->
  forall start total out, walk_pages (answering_as t page) collection fuel start total out = walk_pages t collection fuel start total out.
Proof.
  intros Hf Hp. induction fuel as [|fuel IH]; intros start total out; [done|]. cbn [walk_pages].
  assert (t_page (answering_as t page) collection (listingPages - S fuel) start = t_page t collection (listingPages - S fuel) start) as ->
    by (apply Hp; lia).
  change (t_malformed (answering_as t page)) with (t_malformed t).
  destruct (t_page t collection _ start) as [|pg]; [done|]. destruct (pg_Total pg); [|done].
  destruct (_ || _); [done|]. destruct (_ && _); [done|]. destruct (listingMax <? _); [done|].
  destruct (take_page out (pg_Resources pg)) as [out2 [|]]; [|done]. destruct (_ <=? _); [done|].
  destruct (pg_Resources pg); [done|]. apply IH. lia.
Qed.

(** C36. Walking a target's pages asks for at most 210 of them: what it would
    answer from request 210 on changes nothing. A listing reported complete
    has distinct well-formed identifiers, at most 20000, as many as one of
    its pages announced; and for a target that serves one well-formed
    collection of at most 20000 in pages the listing is complete and is
    exactly that collection. *)
Theorem a_complete_listing_is_the_collection t token collection :
  (forall page, (forall i s, (i < 210)%nat -> page collection i s = t_page t collection i s) ->
     listSCIMCollection (answering_as t page) token collection = listSCIMCollection t token collection) /\
  (forall res, listSCIMCollection t token collection = (res, None) -> listing_ok res /\ Z.of_nat (length res) <= 20000 /\
     exists i s page, (i < 210)%nat /\ t_page t collection i s = inr page /\ pg_Total page = Some (Z.of_nat (length res))) /\
  (forall l, validateSCIMConfig t token = None -> listing_ok l -> Z.of_nat (length l) <= 20000 ->
     (forall i start, exists s, (s = None \/ s = Some start) /\ t_page t collection i start = inr (MkPage (Some (Z.of_nat (length l))) s (window l start))) ->
     listSCIMCollection t token collection = (l, None)).
Proof.
  split; [|split].
  - intros page Hp. unfold listSCIMCollection. change (validateSCIMConfig (answering_as t page) token) with (validateSCIMConfig t token).
    destruct (validateSCIMConfig t token); [done|]. apply walk_within; [done|]. by rewrite listingPages_210.
  - intros res. unfold listSCIMCollection. destruct (validateSCIMConfig t token); [done|]. intros Hw.
    apply walk_sound in Hw as (Ho & i & s & page & Hi & Hp & Ht & Hm); [|split; constructor].
    split; [done|]. split; [done|]. rewrite listingPages_210 in Hi. by exists i, s, page.
  - intros l Hv Ho Hm Ht. unfold listSCIMCollection. rewrite Hv. pose proof (walk_whole t collection l Ho Hm Ht listingPages 0 (-1)) as Hw.
    rewrite listingPages_210 in *. apply Hw; [lia|by left|lia| |by left]. unfold listingPage. lia.
Qed.


(** *** Restoring *)

(** A client session belongs to a login. *)
Definition logins_known (d : DB) : Prop := forall sid cs, oidc_client_sessions d !! sid = Some cs -> is_Some (sessions d !! cs_SessionID cs).

(** The tables of [restoredCleared] and the client sessions are empty: logins,
    tokens of relying parties, codes, unfinished sign-ins and challenges,
    step-up proofs, account links, pairing tokens and failure counts. *)
Definition no_credentials (d : DB) : Prop :=
  sessions d = ∅ /\ oidc_client_sessions d = ∅ /\ refresh_tokens d = ∅ /\ refresh_families d = ∅ /\ issued_tokens d = ∅ /\
  authorization_codes d = ∅ /\ authorization_interactions d = ∅ /\ mfa_tokens d = ∅ /\ mfa_challenges d = ∅ /\ webauthn_challenges d = ∅ /\
  step_up_challenges d = ∅ /\ step_up_tokens d = ∅ /\ account_tokens d = ∅ /\ device_pairing_tokens d = ∅ /\ device_signon_jtis d = ∅ /\
  login_failures d = ∅ /\ sync_delivery_attempts d = ∅.

(** What comes back as it was: accounts with their passwords, groups,
    applications, enrolled factors, recovery codes and devices, and the
    inbound SCIM connectors with their tokens. *)
Definition directory_kept (d d' : DB) : Prop :=
  users d' = users d /\ directory_groups d' = directory_groups d /\ group_memberships d' = group_memberships d /\ app_registry d' = app_registry d /\
  app_user_assignments d' = app_user_assignments d /\ app_group_assignments d' = app_group_assignments d /\ oauth_clients d' = oauth_clients d /\
  mfa_methods d' = mfa_methods d /\ webauthn_credentials d' = webauthn_credentials d /\ recovery_codes d' = recovery_codes d /\
  native_devices d' = native_devices d /\ sync_resource_state d' = sync_resource_state d /\ scim_user_links d' = scim_user_links d /\
  scim_connectors d' = scim_connectors d /\ scim_connector_tokens d' = scim_connector_tokens d.

(** What clearing the credentials leaves, and the rows it reports. *)
Definition cleared (d : DB) : DB :=
  on_sync_delivery_attempts (fun _ => ∅) (on_login_failures (fun _ => ∅) (on_device_signon_jtis (fun _ => ∅)
    (on_device_pairing_tokens (fun _ => ∅) (on_account_tokens (fun _ => ∅) (on_step_up_tokens (fun _ => ∅) (on_step_up_challenges (fun _ => ∅)
     (on_webauthn_challenges (fun _ => ∅) (on_mfa_challenges (fun _ => ∅) (on_mfa_tokens (fun _ => ∅) (on_authorization_interactions (fun _ => ∅)
      (on_authorization_codes (fun _ => ∅) (on_issued_tokens (fun _ => ∅) (on_refresh_families (fun _ => ∅) (on_refresh_tokens (fun _ => ∅)
       (delete_sessions (fun _ => true) d))))))))))))))).

(** One statement: the table it empties was empty if it was before. *)
Lemma clear_step {K A B} `{Countable K} (get : DB -> gmap K A) on (k : Z -> STx B) d r : tx_bind (clear get on) k d = r ->
  k (Z.of_nat (size (get d))) (on (fun _ => ∅) d) = r.
Proof. done. Qed.

Lemma tx_ret_inr {B} (b b' : B) (d d' : DB) : @tx_ret DB StoreError B b d = inr (b', d') -> b' = b /\ d' = d.
Proof. by intros [= -> ->]. Qed.

Lemma clear_credentials_inv d n d' : clear_credentials d = inr (n, d') -> d' = cleared d /\ (no_credentials d -> n = 0).
Proof.
  intros Hc. unfold clear_credentials in Hc. apply tx_bind_inr in Hc as (a & d0 & He & Hc). injection He as <- <-.
  apply tx_bind_inr in Hc as (a1 & d1 & He & Hc). injection He as _ <-. do 15 apply clear_step in Hc. apply tx_ret_inr in Hc as [-> ->]. split; [reflexivity|].
  intros (E1 & E2 & E3 & E4 & E5 & E6 & E7 & E8 & E9 & E10 & E11 & E12 & E13 & E14 & E15 & E16 & E17).
  assert (forall (c : StepUpChallenge -> bool), delete_where c (step_up_challenges d) = ∅) as Es by (intros c; rewrite E11; by apply map_eq).
  repeat match goal with |- context [size (?t ?e)] => lazymatch e with d => fail | _ =>
    first [change (t e) with (t d) | change (t e) with (delete_where (fun c => in_sessions d (fun _ => true) (sc_SessionID c)) (step_up_challenges d)); rewrite Es] end end.
  rewrite E1, E3, E4, E5, E6, E7, E8, E9, E10, E12, E13, E14, E15, E16, E17. reflexivity.
Qed.

(** What the restore's statements leave. *)
Definition restored_db (m : gmap string LogoutDelivery) (now : Z) (d : DB) : DB :=
  on_system_settings <[backup_interval_key := JNum 0]> (on_paired_systems (update_where (fun _ => true) (set_ps_ProvisioningHold true))
   (update_events undelivered (close_out now)
    (cleared (on_logout_deliveries (fun _ => update_where (fun ld => ld_Status ld =?s "queued") (requeue_logout now) m) d)))).

Lemma restore_tx_inv newid now d r d' : restore_tx newid now d = inr (r, d') ->
  exists m, d' = restored_db m now d /\ logout_deliveries d ⊆ m /\
    (forall sid cs, oidc_client_sessions d !! sid = Some cs -> unannounced d cs = true -> m !! newid sid = Some (new_delivery now cs)) /\
    rr_LogoutsQueued r = count_where (unannounced d) (oidc_client_sessions d) /\
    rr_QueuedDeliveries r = Z.of_nat (length (List.filter undelivered (account_sync_events d))) /\
    (no_credentials d -> rr_Credentials r = 0).
Proof.
  intros Hr. unfold restore_tx in Hr. apply tx_bind_inr in Hr as (q & d1 & Ha & Hr). unfold announce_logouts in Ha.
  apply tx_bind_inr in Ha as (a & d0 & He & Ha). injection He as <- <-. apply tx_bind_inr in Ha as (a1 & d2 & Hi & Ha). injection Ha as <- <-.
  apply enqueue_rows_inv in Hi as (m & -> & Hm & Hn). apply tx_bind_inr in Hr as (a2 & d0 & He & Hr). injection He as _ <-.
  apply tx_bind_inr in Hr as (n & d0 & Hc & Hr). apply clear_credentials_inv in Hc as [-> Hn0].
  apply tx_bind_inr in Hr as (a5 & d1 & He & Hr). injection He as <- <-. apply tx_bind_inr in Hr as (a6 & d1 & He & Hr). injection He as _ <-.
  apply tx_bind_inr in Hr as (a7 & d1 & He & Hr). injection He as _ <-. apply tx_bind_inr in Hr as (a8 & d1 & He & Hr). injection He as _ <-.
  injection Hr as <- <-. exists m. split; [reflexivity|]. split; [done|]. split; [|split; [done|split; [done|]]].
  - intros sid cs Hs Hu. apply (Hn (sid, cs)). by apply list_elem_of_In, elem_of_map_to_list, lookup_where.
  - exact Hn0.
Qed.

Lemma restored_no_credentials m now d : logins_known d -> no_credentials (restored_db m now d).
Proof.
  intros Hk. unfold no_credentials. repeat (split; [try reflexivity|]); try reflexivity.
  - change (delete_where (fun _ => true) (sessions d) = ∅). apply map_eq. intros k. rewrite lookup_empty.
    destruct (delete_where _ _ !! k) eqn:E; [|done]. by apply lookup_delete_where_Some in E as [_ E].
  - change (delete_where (fun cs => in_sessions d (fun _ => true) (cs_SessionID cs)) (oidc_client_sessions d) = ∅). apply map_eq. intros k. rewrite lookup_empty.
    destruct (delete_where _ _ !! k) eqn:E; [|done]. apply lookup_delete_where_Some in E as [E Hb]. unfold in_sessions in Hb. destruct (Hk _ _ E) as [s Hs]. by rewrite Hs in Hb.
Qed.

(** Projecting a table out of the restored database. *)
Ltac restored_table := lazy beta iota zeta delta [restored_db cleared delete_sessions update_events on_system_settings on_paired_systems
  on_account_sync_events on_sync_delivery_attempts on_login_failures on_device_signon_jtis on_device_pairing_tokens on_account_tokens on_step_up_tokens
  on_step_up_challenges on_webauthn_challenges on_mfa_challenges on_mfa_tokens on_authorization_interactions on_authorization_codes on_issued_tokens
  on_refresh_families on_refresh_tokens on_sessions on_oidc_client_sessions on_logout_deliveries users directory_groups group_memberships app_registry
  app_user_assignments app_group_assignments oauth_clients admin_delegations enrollment_policies enrollment_deadlines sessions oidc_client_sessions
  logout_deliveries authorization_interactions authorization_codes issued_tokens refresh_families refresh_tokens step_up_tokens step_up_challenges
  account_tokens login_failures native_devices device_pairing_tokens mfa_methods mfa_challenges mfa_tokens recovery_codes webauthn_credentials
  webauthn_challenges access_requests paired_systems account_sync_events sync_resource_state sync_delivery_attempts scim_user_links app_roles
  app_role_user_assignments app_role_group_assignments device_signon_jtis system_settings audit_events scim_connectors scim_connector_tokens
  sync_reconcile_jobs alerts alert_queue alert_deliveries]; reflexivity.

Lemma restored_kept m now d : directory_kept d (restored_db m now d).
Proof. unfold directory_kept. repeat (split; [restored_table|]). restored_table. Qed.

Lemma restored_systems m now d : paired_systems (restored_db m now d) = update_where (fun _ => true) (set_ps_ProvisioningHold true) (paired_systems d).
Proof. restored_table. Qed.

Lemma restored_events m now d : account_sync_events (restored_db m now d) = map (fun e => if undelivered e then close_out now e else e) (account_sync_events d).
Proof. restored_table. Qed.

Lemma restored_logouts m now d : logout_deliveries (restored_db m now d) = update_where (fun ld => ld_Status ld =?s "queued") (requeue_logout now) m.
Proof. restored_table. Qed.

Lemma audited_credentials mq qq d : no_credentials d -> no_credentials (audited mq qq d).
Proof. done. Qed.

Lemma audited_kept mq qq d d1 : directory_kept d d1 -> directory_kept d (audited mq qq d1).
Proof. done. Qed.

Lemma closed_events l now : List.filter undelivered (map (fun e => if undelivered e then close_out now e else e) l) = [].
Proof.
  apply filter_none. intros x Hx. apply in_map_iff in Hx as (e & <- & _). destruct (undelivered e) eqn:E; [|done].
  unfold undelivered, close_out. cbn. by rewrite andb_false_r.
Qed.

Lemma requeued_row now ld : ld_ClientID (if ld_Status ld =?s "queued" then requeue_logout now ld else ld) = ld_ClientID ld /\
  ld_SID (if ld_Status ld =?s "queued" then requeue_logout now ld else ld) = ld_SID ld /\
  ld_Status (if ld_Status ld =?s "queued" then requeue_logout now ld else ld) = ld_Status ld.
Proof. by destruct (_ =?s _). Qed.

(** The outcome of a restore, apart from its audit row. *)
Lemma restore_inv newid audit now d r d' : ApplyRestoredState newid audit now d = (inr r, d') ->
  exists m mq qq, d' = audited mq qq (restored_db m now d) /\ logout_deliveries d ⊆ m /\
    (forall sid cs, oidc_client_sessions d !! sid = Some cs -> unannounced d cs = true -> m !! newid sid = Some (new_delivery now cs)) /\
    rr_LogoutsQueued r = count_where (unannounced d) (oidc_client_sessions d) /\
    rr_QueuedDeliveries r = Z.of_nat (length (List.filter undelivered (account_sync_events d))) /\
    (no_credentials d -> rr_Credentials r = 0).
Proof.
  unfold ApplyRestoredState. intros Hr. apply commit_inr in Hr. apply tx_bind_inr in Hr as (r0 & d1 & H1 & Hr).
  apply restore_tx_inv in H1 as (m & -> & Hm & Hn & Hl & Hq & Hc). apply tx_bind_inr in Hr as (au & d2 & H2 & Hr).
  assert (d2 = restored_db m now d) as ->.
  { destruct audit as [e|]; [destruct (ae_Details e); try discriminate H2; by apply tx_ret_inr in H2 as [_ ->]|by apply tx_ret_inr in H2 as [_ ->]]. }
  apply tx_bind_inr in Hr as (u & d3 & H3 & Hr). apply tx_ret_inr in Hr as [-> ->]. apply recordAuditTx_inv in H3 as (mq & qq & ->). by exists m, mq, qq.
Qed.

Lemma undelivered_pending l e : List.filter undelivered l = [] -> In e l -> undelivered e = false.
Proof.
  intros Hf Hi. apply not_true_iff_false. intros Hu. assert (In e (List.filter undelivered l)) as Hx by by apply filter_In. by rewrite Hf in Hx.
Qed.

(** C37. After a restore is applied no session, relying-party token,
    authorization code, unfinished sign-in, challenge, step-up proof,
    pairing token or account link of the restored data is left; accounts
    with their passwords, groups, applications, enrolled factors, recovery
    codes, devices and inbound SCIM connectors with their tokens come back
    as they were. Every connector is held so that no delivery can be
    claimed, every login of a client with back-channel logout has a delivery
    on record that has not been delivered, and applying it again finds
    nothing to clear. *)
Theorem a_restore_revives_no_credential newid audit now d r d' : logins_known d -> ApplyRestoredState newid audit now d = (inr r, d') ->
  no_credentials d' /\ directory_kept d d' /\
  (forall k p, paired_systems d' !! k = Some p -> ps_ProvisioningHold p = true) /\
  (forall token limit lease t evs e, (forall x, In x (account_sync_events d') -> is_Some (paired_systems d' !! e_SystemID x)) ->
     ClaimDueSyncEvents token limit lease t d' = inr (evs, e) -> evs = []) /\
  (forall sid cs, oidc_client_sessions d !! sid = Some cs -> backchannel_client d (cs_ClientID cs) = true ->
     exists k ld, logout_deliveries d' !! k = Some ld /\ ld_ClientID ld = cs_ClientID cs /\ ld_SID ld = cs_SID cs /\ ld_Status ld <> "delivered"%string) /\
  (forall newid2 audit2 later r2 d2, ApplyRestoredState newid2 audit2 later d' = (inr r2, d2) ->
     rr_Credentials r2 = 0 /\ rr_QueuedDeliveries r2 = 0 /\ rr_LogoutsQueued r2 = 0).
Proof.
  intros Hk Hr. apply restore_inv in Hr as (m & mq & qq & -> & Hm & Hn & _).
  pose proof (restored_no_credentials m now d Hk) as Hnc. pose proof (restored_kept m now d) as Hkept. pose proof (restored_systems m now d) as Hsys.
  pose proof (restored_events m now d) as Hevs. pose proof (restored_logouts m now d) as Hlog. generalize dependent (restored_db m now d). intros d1 Hnc Hkept Hsys Hevs Hlog.
  apply (audited_credentials mq qq) in Hnc.
  assert (forall k p, paired_systems (audited mq qq d1) !! k = Some p -> ps_ProvisioningHold p = true) as Hheld.
  { intros k p Hp. change (paired_systems (audited mq qq d1)) with (paired_systems d1) in Hp. rewrite Hsys in Hp.
    apply lookup_update_where_Some in Hp as (p0 & _ & ->). done. }
  split; [exact Hnc|]. split; [by apply audited_kept|]. split; [exact Hheld|]. split; [|split].
  - intros token limit lease t evs e Hfk Hc. destruct evs as [|ev evs]; [done|exfalso]. pose proof Hc as Hc2.
    apply claim_one_per_resource in Hc as [_ Hc]. destruct (Hc ev (or_introl eq_refl)) as [_ Hse]. apply claim_inv in Hc2 as (_ & _ & Hps & _ & Hin).
    destruct (Hin ev (or_introl eq_refl)) as (x & Hx & Hcl). apply claimable_spec in Hcl as (Hix & _). unfold resource in Hx. injection Hx as Hx1 _.
    unfold sendable in Hse. rewrite Hps in Hse. assert (is_Some (paired_systems (audited mq qq d1) !! e_SystemID ev)) as [p Hp].
    { assert (exists y, In y (account_sync_events (audited mq qq d1)) /\ e_SystemID y = e_SystemID x) as (y & Hy & Hyx); [|rewrite <- Hx1, <- Hyx; by apply Hfk].
      unfold releaseFencesForRemovalsTx in Hix. cbn [account_sync_events on_sync_delivery_attempts update_events on_account_sync_events] in Hix.
      apply in_map_iff in Hix as (y & Hyx & Hy). exists y. split; [exact Hy|]. rewrite <- Hyx. by destruct (_ && _). }
    rewrite Hp, (Hheld _ _ Hp) in Hse. cbn in Hse. by rewrite andb_false_r in Hse.
  - intros sid cs Hs Hb. change (logout_deliveries (audited mq qq d1)) with (logout_deliveries d1). rewrite Hlog.
    assert (exists k ld, m !! k = Some ld /\ ld_ClientID ld = cs_ClientID cs /\ ld_SID ld = cs_SID cs /\ ld_Status ld <> "delivered"%string) as (k & ld & Hl & H1 & H2 & H3).
    { destruct (unannounced d cs) eqn:Eu; [eexists _, _; split; [by apply Hn|done]|]. unfold unannounced in Eu. rewrite Hb in Eu. cbn in Eu. apply negb_false_iff, exists_where_true in Eu as (k & ld & Hl & Hq).
      bool_hyps. exists k, ld. split; [by eapply lookup_weaken|done]. }
    destruct (requeued_row now ld) as (E1 & E2 & E3). eexists k, _. split; [rewrite lookup_update_where, Hl; reflexivity|]. by rewrite E1, E2, E3.
  - intros newid2 audit2 later r2 d2 Hr2. apply restore_inv in Hr2 as (m2 & mq2 & qq2 & _ & _ & _ & Hlq & Hqd & Hcr).
    split; [by apply Hcr|]. split.
    + rewrite Hqd. change (account_sync_events (audited mq qq d1)) with (account_sync_events d1). by rewrite Hevs, closed_events.
    + rewrite Hlq. destruct Hnc as (_ & -> & _). reflexivity.
Qed.

(** It commits whenever the identifiers it draws are fresh. *)
Lemma a_restore_commits newid now d : fresh_ids newid d -> exists r d', ApplyRestoredState newid None now d = (inr r, d').
Proof.
  intros [Hinj Hf]. unfold ApplyRestoredState, commit, restore_tx. unfold tx_bind at 1 2. unfold announce_logouts. unfold tx_bind at 1 2. cbn [tx_get].
  destruct (enqueue_rows_total newid now (map_to_list (where_ (unannounced d) (oidc_client_sessions d))) d) as [d1 ->].
  - rewrite <- (map_map fst newid). apply NoDup_fmap_2_strong; [intros; by apply Hinj|]. apply NoDup_fst_map_to_list.
  - by intros.
  - eexists _, _. reflexivity.
Qed.
End jobs_facts.

(** ** Witnesses *)

#[local] Existing Instance sample_codec.

(** A held connector with a queued repair, and a target that answers it. *)
Definition remote_bob : listedResource := MkListedResource "r1" "bob" "bob" "bob" [("bob@example.org"%string, true)] None.
Definition remote_other : listedResource := MkListedResource "r3" "mallory" "mallory" EmptyString [] (Some false).
Definition sample_target (sys : string) : Target :=
  MkTarget (Some "token"%string) true "insecure" "malformed"
    (fun collection _ start => inr (let l := if collection =?s "Users" then [remote_bob; remote_other] else [] in
       MkPage (Some (Z.of_nat (length l))) (Some start) (window l start))).

Definition held_db : DB := on_paired_systems (update_where (fun _ => true) (set_ps_ProvisioningHold true)) drift_db.
Definition repair_db : DB := after (CreateReconcileJob "job1" "sys" "repair" "alice" None t0) held_db.
Definition sample_draws : RunDraws := MkRunDraws "claim1" "audit1" drift_id (fun l => l) (fun _ => "error"%string).
Definition repair_run : (StoreError + bool) * DB := RunReconcileJob sample_draws sample_target t0 (t0 + minute) repair_db.

Lemma empty_queue_ok d : sync_reconcile_jobs d = ∅ -> queue_ok d.
Proof. intros He. unfold queue_ok. rewrite He. split; [|by split]. intros k j Hk. by rewrite lookup_empty in Hk. Qed.

Lemma reconcile_jobs_stay_bounded_witness : exists d, rtc job_step held_db d /\ queue_ok d /\
  count_where (active_job "sys") (sync_reconcile_jobs d) = 1.
Proof.
  exists repair_db. destruct (after_inr (CreateReconcileJob "job1" "sys" "repair" "alice" None t0) held_db) as [j Hj]; [eexists; vm_compute; reflexivity|].
  assert (rtc job_step held_db repair_db) as Hs by (eapply rtc_once, js_create, Hj). split; [done|]. split; [|vm_compute; reflexivity].
  apply (reconcile_jobs_stay_bounded held_db repair_db); [|exact Hs]. apply empty_queue_ok. vm_compute. reflexivity.
Defined.

Lemma a_hold_lifts_only_on_a_complete_repair_witness : exists ps ps' listing, paired_systems repair_db !! "sys"%string = Some ps /\
  ps_ProvisioningHold ps = true /\ paired_systems repair_run.2 !! "sys"%string = Some ps' /\ ps_ProvisioningHold ps' = false /\
  listRemote (sample_target "sys") ps = (listing, None) /\ rl_Complete listing = true.
Proof.
  assert (exists ps ps', paired_systems repair_db !! "sys"%string = Some ps /\ ps_ProvisioningHold ps = true /\
    paired_systems repair_run.2 !! "sys"%string = Some ps' /\ ps_ProvisioningHold ps' = false) as (ps & ps' & Hs & Hh & Hs' & Hh').
  { do 2 eexists. split; [vm_compute; reflexivity|]. split; [reflexivity|]. split; [vm_compute; reflexivity|]. reflexivity. }
  destruct (a_hold_lifts_only_on_a_complete_repair sample_draws sample_target t0 (t0 + minute) repair_db repair_run.1 repair_run.2 "sys" ps ps') as [_ Hl].
  - intros k p Hp. by apply (proj1 (all_rows_true (fun k p => ps_ID p =?s k) (paired_systems repair_db)) ltac:(by vm_compute)), streqb_true in Hp.
  - exact Hs.
  - exact Hh.
  - destruct Hl as (listing & t' & report & d2 & H1 & _ & H2 & _); [apply surjective_pairing|exact Hs'|exact Hh'|].
    exists ps, ps', listing. by split_and!.
Defined.

Lemma a_complete_listing_is_the_collection_witness :
  listSCIMCollection (sample_target "sys") "token" "Users" = ([remote_bob; remote_other], None) /\ listing_ok [remote_bob; remote_other].
Proof.
  destruct (a_complete_listing_is_the_collection (sample_target "sys") "token" "Users") as (_ & Hsound & Hwhole).
  assert (listSCIMCollection (sample_target "sys") "token" "Users" = ([remote_bob; remote_other], None)) as Hl.
  { apply Hwhole; [vm_compute; reflexivity| |vm_compute; discriminate|].
    - split; [apply (bool_decide_unpack _); vm_compute; reflexivity|]. repeat constructor; vm_compute; discriminate.
    - intros i start. exists (Some start). split; [by right|]. reflexivity. }
  split; [exact Hl|]. by apply Hsound.
Defined.

Lemma a_restore_revives_no_credential_witness : exists r d', ApplyRestoredState (fun sid => String.append "ld-" sid) None t0 reconciled_db = (inr r, d') /\
  no_credentials d' /\ rr_LogoutsQueued r = 1 /\ rr_QueuedDeliveries r = 2.
Proof.
  destruct (a_restore_commits (fun sid => String.append "ld-" sid) t0 reconciled_db) as (r & d' & Hr).
  { split; [intros a b Hab; by apply (inj (String.append "ld-")) in Hab|]. intros sid. assert (logout_deliveries reconciled_db = ∅) as -> by (vm_compute; reflexivity). apply lookup_empty. }
  exists r, d'. split; [exact Hr|]. destruct (a_restore_revives_no_credential (fun sid => String.append "ld-" sid) None t0 reconciled_db r d') as (Hn & _).
  - intros sid cs Hs. assert (all_rows (fun _ cs => negb (is_null (sessions reconciled_db !! cs_SessionID cs))) (oidc_client_sessions reconciled_db) = true) as Ha by (vm_compute; reflexivity).
    pose proof (proj1 (all_rows_true _ _) Ha _ _ Hs) as Hx. cbn beta in Hx. by destruct (sessions reconciled_db !! cs_SessionID cs).
  - exact Hr.
  - split; [exact Hn|]. apply restore_inv in Hr as (m & mq & qq & _ & _ & _ & Hq & Hd & _). rewrite Hq, Hd. split; vm_compute; reflexivity.
Defined.

(** A login whose earlier logout delivery failed for good is ended by a
    restore and nothing is queued for it. *)
Definition failed_delivery : LogoutDelivery :=
  MkLogoutDelivery "c1" "bob" "sid1" "failed" 5 "refused" EmptyString None t0 t0 t0.
Definition failed_logout_db : DB := on_logout_deliveries <["ld0"%string := failed_delivery]> reconciled_db.

Example a_failed_logout_is_not_announced_again :
  is_null (oidc_client_sessions failed_logout_db !! "sid1"%string) = false /\
  exists_where (fun ld => ld_Status ld =?s "queued") (logout_deliveries (ApplyRestoredState (fun sid => String.append "ld-" sid) None t0 failed_logout_db).2) = false.
Proof. split; vm_compute; reflexivity. Qed.
