(* ===== verification/Alerts.v ===== *)
(** Alerts ([store/alerts.go]): the rules that turn queued audit events and
    failing connectors into alerts, the mail they owe and its delivery. *)
From stdpp Require Import sorting pretty.
From S2P Require Import Prelude Text Schema Access Sample Sessions Outbox AppAccess Reconcile.

(** ** Settings *)

Definition alertSettingsKey : string := "alert_settings".
Definition alertDeliveryAttempts : Z := 8.
Definition alertBatch : nat := 500.
Definition alertMaxBatches : nat := 10.
(** Past it, further login-failure sources fold into one alert. *)
Definition loginAlertCeiling : Z := 10.
Definition loginAlertCooldown : Z := 4 * hour.

Record AlertSettings := MkAlertSettings { as_LoginFailureThreshold : Z; as_LoginFailureWindowSeconds : Z; as_Recipients : list string }.

(** [json.Unmarshal] into a [[]string] field: absent keeps the seed, null
    empties it and a null element is a blank string. *)
Definition unmarshal_strings (k : string) (seed : list string) (j : Json) : option (list string) :=
  match json_get k j with
  | None => Some seed
  | Some JNull => Some []
  | Some (JArr l) => mapM (fun v => match v with JStr s => Some s | JNull => Some EmptyString | _ => None end) l
  | Some _ => None
  end.

Definition GetAlertSettings (d : DB) : StoreError + AlertSettings :=
  match system_settings d !! alertSettingsKey with
  | None => inr (MkAlertSettings 10 600 [])
  | Some j => match unmarshal_int "loginFailureThreshold" 10 j, unmarshal_int "loginFailureWindowSeconds" 600 j, unmarshal_strings "recipients" [] j with
    | Some t, Some w, Some r => inr (MkAlertSettings t w r)
    | _, _, _ => inl (ErrText "json")
    end
  end.

Definition settings_json (a : AlertSettings) : Json :=
  JObj [("loginFailureThreshold", JNum (as_LoginFailureThreshold a)); ("loginFailureWindowSeconds", JNum (as_LoginFailureWindowSeconds a));
    ("recipients", JArr (map JStr (as_Recipients a)))]%string.

(** An active, unended administrator or auditor. *)
Definition alertReader (now : Z) (d : DB) (u : User) : bool :=
  (u_Status u =?s "active") && unexpired (u_EndsAt u) (unix now) &&
  ((u_Role u =?s "admin") ||
   existsb (fun k : string * string * string => (k.1.1 =?s u_ID u) && (k.1.2 =?s "auditor")) (elements (admin_delegations d))).

(** The address of an account that may read alerts right now. *)
Definition alertReaderTx (now : Z) (d : DB) (user : string) : option string :=
  match users d !! user with
  | Some u => if alertReader now d u && (u_Email u <>?s EmptyString) then Some (u_Email u) else None
  | None => None
  end.

(** Each recipient once, in order. *)
Fixpoint dedup (seen l : list string) : list string :=
  match l with
  | [] => []
  | x :: l' => if one_of x seen then dedup seen l' else x :: dedup (x :: seen) l'
  end.

Definition SetAlertSettings (a : AlertSettings) (audit : option AuditEvent) (now : Z) : DB -> (StoreError + unit) * DB := fun d =>
  if (as_LoginFailureThreshold a <? 1) || (1000 <? as_LoginFailureThreshold a) || (as_LoginFailureWindowSeconds a <? 60) ||
     (86400 <? as_LoginFailureWindowSeconds a) then (inl ErrAlertSettings, d) else
  let a := MkAlertSettings (as_LoginFailureThreshold a) (as_LoginFailureWindowSeconds a) (dedup [] (as_Recipients a)) in
  auditedTx audit now (
    d <- tx_get ;;
    tx_guard (forallb (fun id => negb (is_null (alertReaderTx now d id))) (as_Recipients a)) ErrAlertRecipient ;;;
    tx_set (on_system_settings <[alertSettingsKey := settings_json a]>)) d.

(** ** Text *)

(** [unicode.IsControl]: U+0000 to U+001F and U+007F to U+009F. *)
Definition control_rune (r : string) : bool :=
  match r with
  | String a EmptyString => byte_in 0 31 a || byte_in 127 127 a
  | String a (String b EmptyString) => byte_in 194 194 a && byte_in 128 159 b
  | _ => false
  end.

(** Untrusted names as display and header text. *)
Definition alertText (s : string) : string :=
  let s := TrimSpace (String.concat EmptyString (List.filter (fun r => negb (control_rune r)) (runes s))) in
  if 120 <? RuneCountInString s then String.concat EmptyString (firstn 120 (runes s)) else s.

(** ** Rules *)

(** A string member of the details, or true. *)
Definition detail (key : string) (e : AuditEvent) : string :=
  match json_get key (ae_Details e) with
  | Some (JStr s) => s
  | Some (JBool true) => "true"
  | _ => EmptyString
  end.

Record alertSpec := MkAlertSpec { sp_rule : string; sp_key : string; sp_severity : string; sp_title : string; sp_summary : string; sp_count : Z }.

(** The tables the rules name.  [directory_groups] is not one of them: there is
    no table [groups], and [app_registry] has no column [name], so both lookups
    fail and the identifier stands in. *)
Definition nameTx (d : DB) (table id : string) : string :=
  let name :=
    if table =?s "users" then u_Username <$> users d !! id
    else if table =?s "oauth_clients" then oc_ClientName <$> oauth_clients d !! id
    else if table =?s "scim_connectors" then sn_Name <$> scim_connectors d !! id
    else if table =?s "paired_systems" then ps_Name <$> paired_systems d !! id
    else None in
  match name with Some n => if n =?s EmptyString then id else n | None => id end.

Definition concat_all (l : list string) : string := String.concat EmptyString l.

Definition event_user (d : DB) (e : AuditEvent) : string :=
  if ae_TargetID e <>?s EmptyString then alertText (nameTx d "users" (ae_TargetID e)) else alertText (detail "username" e).

Definition login_failure (e : AuditEvent) : bool := (ae_Action e =?s "auth.login") && (ae_Outcome e <>?s "success").

(** Up to this event, from the same account or else address, in the window. *)
Definition same_failures (settings : AlertSettings) (now : Z) (e x : AuditEvent) : bool :=
  login_failure x &&
  (if ae_TargetID e =?s EmptyString then ae_IPAddress x =?s ae_IPAddress e else ae_TargetID x =?s ae_TargetID e) &&
  (now - wrap64 (as_LoginFailureWindowSeconds settings * second) <? ae_CreatedAt x) &&
  ((ae_CreatedAt x <? ae_CreatedAt e) || ((ae_CreatedAt x =? ae_CreatedAt e) && negb (String.ltb (ae_ID e) (ae_ID x)))).

Definition live_alert (rule key : string) (a : Alert) : bool := (al_Rule a =?s rule) && (al_Key a =?s key) && (al_Status a <>?s "resolved").

(** A live login alert of a source of its own. *)
Definition login_source (a : Alert) : bool := (al_Rule a =?s "login_failures") && (al_Key a <>?s "many-sources") && (al_Status a <>?s "resolved").

Definition many_sources (settings : AlertSettings) : alertSpec :=
  MkAlertSpec "login_failures" "many-sources" "warning" "Repeated login failures from many sources"
    (concat_all ["Failed sign-ins are arriving from more than "; pretty loginAlertCeiling; " accounts or addresses within ";
      pretty (Z.quot (as_LoginFailureWindowSeconds settings) 60); " minutes; sources past that share this alert."]) 1.

Definition classify_login (d : DB) (e : AuditEvent) (settings : AlertSettings) (now : Z) : option alertSpec :=
  if ae_Outcome e =?s "success" then None else
  let source := let k := alertText (ae_IPAddress e) in if k =?s EmptyString then "unknown-source"%string else k in
  let key := if ae_TargetID e =?s EmptyString then source else ae_TargetID e in
  let subject := if ae_TargetID e =?s EmptyString then String.append "from " source else String.append "for " (event_user d e) in
  let n := count_where (same_failures settings now e) (audit_events d) in
  if n <? as_LoginFailureThreshold settings then None
  else if negb (exists_where (live_alert "login_failures" key) (alerts d)) && (loginAlertCeiling <=? count_where login_source (alerts d))
  then Some (many_sources settings)
  else Some (MkAlertSpec "login_failures" key "warning" (String.append "Repeated login failures " subject)
    (concat_all [pretty n; " failed sign-ins "; subject; " within "; pretty (Z.quot (as_LoginFailureWindowSeconds settings) 60); " minutes."]) n).

Definition removal_table (type : string) : string :=
  if type =?s "user" then "users" else if type =?s "group" then "groups" else if type =?s "application" then "app_registry" else EmptyString.

Definition classify_removal (d : DB) (e : AuditEvent) : alertSpec :=
  let what := if removal_table (ae_TargetType e) =?s EmptyString then "the directory"%string
    else concat_all [ae_TargetType e; " "; alertText (nameTx d (removal_table (ae_TargetType e)) (ae_TargetID e))] in
  MkAlertSpec "access_removal_failed" (if ae_TargetID e =?s EmptyString then "directory" else ae_TargetID e) "critical" "Scheduled access removal failed"
    (concat_all ["Removing expired access for "; what; " failed; the access may still be live."]) 1.

(** The alert an audit event calls for, if any. *)
Definition classifyTx (d : DB) (e : AuditEvent) (settings : AlertSettings) (now : Z) : option alertSpec :=
  (let success := ae_Outcome e =?s "success" in
  let act (l : list string) := one_of (ae_Action e) l in
  let user := event_user d e in
  let actor := alertText (ae_ActorUsername e) in
  let spec rule key severity title summary := Some (MkAlertSpec rule key severity (concat_all title) (concat_all summary) 1) in
  let privilege summary := spec "privilege_change" (ae_TargetID e) "critical" ["Privileges changed for "; user] summary in
  let recovery summary := spec "recovery_use" (ae_TargetID e) "warning" ["Recovery used for "; user] summary in
  let credentials key name summary := spec "connector_credentials" key "critical" ["Connector credentials changed: "; name] summary in
  if act ["admin.user_created"] then
    if success && (detail "role" e =?s "admin") then privilege [actor; " created "; user; " as an administrator."] else None
  else if act ["admin.user_updated"] then
    if success && (detail "roleChanged" e =?s "true")
    then privilege [actor; " changed the role of "; user; " to "; alertText (detail "role" e); "."] else None
  else if act ["admin.delegations_updated"] then
    if success then privilege [actor; " changed the delegated administration of "; user; "."] else None
  else if act ["auth.mfa_recovery_consumed"] then
    if success then recovery ["A recovery code was used to sign in as "; user; "."] else None
  else if act ["admin.user_mfa_reset"] then
    if success then recovery [actor; " reset the second factor of "; user; "."] else None
  else if act ["auth.password_reset"] then
    if success then recovery ["A password reset link was redeemed for "; user; "."] else None
  else if act ["auth.mfa_push_fatigue"] then
    spec "push_fatigue" (ae_TargetID e) "warning" ["Unanswered sign-in pushes for "; user]
      ["Several sign-in pushes for "; user; " were denied or left unanswered within an hour; someone else may know the password."]
  else if act ["admin.scim_token_issued"; "admin.scim_token_revoked"] then
    let name := alertText (nameTx d "scim_connectors" (ae_TargetID e)) in
    if success then credentials (ae_TargetID e) name [actor; " changed the inbound SCIM credentials of "; name; "."] else None
  else if act ["admin.system_created"; "admin.system_configured"] then
    let name := alertText (nameTx d "paired_systems" (ae_TargetID e)) in
    if success && (act ["admin.system_created"] || (detail "credentialRotated" e =?s "true"))
    then credentials (ae_TargetID e) name [actor; " changed the outbound credentials of "; name; "."] else None
  else if act ["admin.mail_configured"] then
    if success then credentials "mail" "mail relay" [actor; " changed the mail relay settings."] else None
  else if act ["auth.login"] then classify_login d e settings now
  else if act ["account.end_failed"; "group.membership_expiry_failed"; "app.assignment_expiry_failed"; "access.expiry_reconcile_failed"] then
    Some (classify_removal d e)
  else if act ["account.end_refused"] then
    spec "access_removal_failed" (ae_TargetID e) "critical" ["Account end refused for "; user]
      ["The scheduled end of "; user; " was refused because it is the last active administrator."]
  else None)%string.

(** ** Raising *)

(** One pending message per recipient.  AUTOINCREMENT identifiers grow and are
    only compared: the next one is past every row. *)
Definition next_delivery (d : DB) : Z := 1 + fold_right Z.max 0 (map fst (map_to_list (alert_deliveries d))).

Definition queueDeliveriesTx (now : Z) (alert kind : string) (recipients : list string) : STx unit :=
  tx_iter (fun r =>
    d <- tx_get ;;
    tx_guard (negb (is_null (alerts d !! alert))) ErrConstraint ;;;
    insert_row alert_deliveries on_alert_deliveries (next_delivery d)
      (MkAlertDeliveryRow alert r kind "pending" 0 now EmptyString None now now)) recipients.

Definition open_alert (id : string) (now : Z) (s : alertSpec) : Alert :=
  MkAlert id (sp_rule s) (sp_key s) (sp_severity s) (sp_title s) (sp_summary s) "open" (sp_count s) now now None None None.

(** One live alert per rule and key ([alerts_live]). *)
Definition insert_alert (id : string) (a : Alert) : STx unit :=
  d <- tx_get ;;
  tx_guard (negb (exists_where (live_alert (al_Rule a) (al_Key a)) (alerts d)) && one_of (al_Severity a) ["critical"; "warning"]%string) ErrConstraint ;;;
  insert_row alerts on_alerts id a.

(** A login-failure alert was mailed within the cooldown. *)
Definition mailed_recently (now : Z) (d : DB) (rule : string) : bool :=
  exists_where (fun r => match alerts d !! ad_AlertID r with Some a => (al_Rule a =?s rule) && (now - loginAlertCooldown <? ad_CreatedAt r) | None => false end)
    (alert_deliveries d).

(** Another occurrence of a live alert. *)
Definition fold_alert (now : Z) (s : alertSpec) (a : Alert) : Alert :=
  MkAlert (al_ID a) (al_Rule a) (al_Key a) (al_Severity a) (al_Title a) (sp_summary s) "open" (al_Count a + 1) (al_FirstSeen a) now None None (al_ResolvedAt a).

(** Fold the occurrence into the live alert for its rule and key, or open one. *)
Definition raiseAlertTx (newid : string -> string -> string) (now : Z) (s : alertSpec) (recipients : list string) : STx unit :=
  d <- tx_get ;;
  match find_where (live_alert (sp_rule s) (sp_key s)) (alerts d) with
  | None =>
    let id := newid (sp_rule s) (sp_key s) in
    insert_alert id (open_alert id now s) ;;;
    d <- tx_get ;;
    if (sp_rule s =?s "login_failures") && mailed_recently now d (sp_rule s) then tx_ret tt
    else queueDeliveriesTx now id "opened" recipients
  | Some (id, a) =>
    tx_set (on_alerts <[id := fold_alert now s a]>) ;;;
    if al_Status a =?s "acknowledged" then queueDeliveriesTx now id "opened" recipients else tx_ret tt
  end.

(** ** Evaluation *)

Definition queued_le (a b : string * Z) : Prop := (a.2 <? b.2) || ((a.2 =? b.2) && negb (String.ltb b.1 a.1)) = true.
#[global] Instance queued_le_dec a b : Decision (queued_le a b) := bool_eq_dec _ _.

(** The queued events that still exist, oldest first. *)
Definition queued_events (d : DB) : list AuditEvent :=
  omap (fun q : string * Z => audit_events d !! q.1) (merge_sort queued_le (map_to_list (alert_queue d))).

(** One event: its alert, then its queue row. *)
Definition evaluate_event (newid : string -> string -> string) (settings : AlertSettings) (now : Z) (e : AuditEvent) : STx unit :=
  d <- tx_get ;;
  match classifyTx d e settings now with
  | Some s => if sp_rule s <>?s EmptyString then raiseAlertTx newid now s (as_Recipients settings) else tx_ret tt
  | None => tx_ret tt
  end ;;;
  tx_set (on_alert_queue (delete (ae_ID e))).

Definition evaluateBatch (newid : string -> string -> string) (settings : AlertSettings) (now : Z) : STx nat :=
  d <- tx_get ;;
  let events := firstn alertBatch (queued_events d) in
  tx_iter (evaluate_event newid settings now) events ;;;
  d <- tx_get ;;
  tx_set (on_alert_queue (filter (fun q : string * Z => is_null (audit_events d !! q.1) = false))) ;;;
  tx_ret (length events).

Definition resolve (now : Z) (a : Alert) : Alert :=
  MkAlert (al_ID a) (al_Rule a) (al_Key a) (al_Severity a) (al_Title a) (al_Summary a) "resolved" (al_Count a) (al_FirstSeen a) now
    (al_AcknowledgedAt a) (al_AcknowledgedBy a) (Some now).

(** A login alert whose source recorded no failure for a whole window. *)
Definition quiet (settings : AlertSettings) (now : Z) (d : DB) (a : Alert) : bool :=
  (al_Rule a =?s "login_failures") && (al_Status a <>?s "resolved") &&
  negb (exists_where (fun e => login_failure e && (now - wrap64 (as_LoginFailureWindowSeconds settings * second) <? ae_CreatedAt e) &&
    ((al_Key a =?s "many-sources") || (ae_TargetID e =?s al_Key a) || (ae_IPAddress e =?s al_Key a))) (audit_events d)).

Definition resolveQuietLoginAlerts (settings : AlertSettings) (now : Z) (d : DB) : DB :=
  on_alerts (update_where (quiet settings now d) (resolve now)) d.

(** A connector that fails or holds work needing attention. *)
Definition system_failing (now : Z) (d : DB) (id : string) (ps : PairedSystem) : bool :=
  (ps_Status ps <>?s "disabled") &&
  ((ps_Status ps =?s "failing") ||
   existsb (fun e => (e_SystemID e =?s id) && ((e_Status e =?s "failed") || ((e_Status e =?s "pending") && (SyncAttemptBudget <=? e_Attempts e)))) (account_sync_events d) ||
   existsb (fun kv : (string * string) * SyncDeliveryAttempt => (kv.1.1 =?s id) && (da_RecoverAfter kv.2 <=? now)) (map_to_list (sync_delivery_attempts d))).

Definition client_failing (d : DB) (id : string) : bool :=
  exists_where (fun ld => (ld_ClientID ld =?s id) && (ld_Status ld =?s "failed")) (logout_deliveries d).

(** The outages right now. *)
Definition outages (now : Z) (d : DB) : list alertSpec :=
  map (fun kv => let name := alertText (ps_Name kv.2) in
      MkAlertSpec "provisioning_outage" kv.1 "critical" (String.append "Provisioning failing: " name)
        (concat_all ["Deliveries to "; name; " are failing, retrying or held; accounts there may be out of date. See its Deliveries."]%string) 1)
    (List.filter (fun kv => system_failing now d kv.1 kv.2) (map_to_list (paired_systems d))) ++
  map (fun kv => let name := alertText (oc_ClientName kv.2) in
      MkAlertSpec "logout_outage" kv.1 "critical" (String.append "Logout delivery failing: " name)
        (concat_all ["Back-channel logouts to "; name; " have been given up; sessions there may outlive the sign-out."]%string) 1)
    (List.filter (fun kv => client_failing d kv.1) (map_to_list (oauth_clients d))).

Definition set_al_LastSeen (v : Z) (a : Alert) : Alert :=
  MkAlert (al_ID a) (al_Rule a) (al_Key a) (al_Severity a) (al_Title a) (al_Summary a) (al_Status a) (al_Count a) (al_FirstSeen a) v
    (al_AcknowledgedAt a) (al_AcknowledgedBy a) (al_ResolvedAt a).

Definition note_outage (newid : string -> string -> string) (settings : AlertSettings) (now : Z) (o : alertSpec) : STx unit :=
  d <- tx_get ;;
  match find_where (live_alert (sp_rule o) (sp_key o)) (alerts d) with
  | None =>
    let id := newid (sp_rule o) (sp_key o) in
    insert_alert id (open_alert id now o) ;;;
    queueDeliveriesTx now id "opened" (as_Recipients settings)
  | Some (id, a) => tx_set (on_alerts <[id := set_al_LastSeen now a]>)
  end.

(** [rule + "/" + key], the key of the map [keep]. *)
Definition outage_key (rule key : string) : string := String.append rule (String.append "/" key).

Definition stale_outage (live : list alertSpec) (a : Alert) : bool :=
  one_of (al_Rule a) ["provisioning_outage"; "logout_outage"]%string && (al_Status a <>?s "resolved") &&
  negb (one_of (outage_key (al_Rule a) (al_Key a)) (map (fun o => outage_key (sp_rule o) (sp_key o)) live)).

Definition evaluateOutages (newid : string -> string -> string) (settings : AlertSettings) (now : Z) : STx unit :=
  d <- tx_get ;;
  let live := outages now d in
  tx_iter (note_outage newid settings now) live ;;;
  d <- tx_get ;;
  tx_iter (fun kv : string * Alert =>
    tx_set (on_alerts (alter (resolve now) kv.1)) ;;;
    queueDeliveriesTx now kv.1 "resolved" (as_Recipients settings)) (map_to_list (where_ (stale_outage live) (alerts d))).

(** At most [n] batches, until one is not full; each a transaction of its own. *)
Fixpoint evaluateBatches (newid : nat -> string -> string -> string) (settings : AlertSettings) (now : Z) (n : nat) : Run DB StoreError unit :=
  match n with
  | O => run_ret tt
  | S n' => k <~ commit (evaluateBatch (newid n) settings now) ;; if Nat.ltb k alertBatch then run_ret tt else evaluateBatches newid settings now n'
  end.

Definition EvaluateAlerts (newid : nat -> string -> string -> string) (now : Z) : Run DB StoreError unit :=
  d <~ run_get ;;
  match GetAlertSettings d with
  | inl e => run_fail e
  | inr settings =>
    (fun d => (inr tt, resolveQuietLoginAlerts settings now d)) ~;;
    evaluateBatches newid settings now alertMaxBatches ~;;
    commit (evaluateOutages (newid 0%nat) settings now)
  end.

(** ** Acknowledging *)

Definition AcknowledgeAlert (id actor : string) (audit : option AuditEvent) (now : Z) : DB -> (StoreError + unit) * DB :=
  auditedTx audit now (
    d <- tx_get ;;
    match alerts d !! id with
    | None => tx_fail ErrAlertMissing
    | Some a =>
      tx_guard (al_Status a =?s "open") ErrAlertNotOpen ;;;
      tx_set (on_alerts <[id := MkAlert (al_ID a) (al_Rule a) (al_Key a) (al_Severity a) (al_Title a) (al_Summary a) "acknowledged" (al_Count a)
        (al_FirstSeen a) (al_LastSeen a) (Some now) (Some (nameTx d "users" actor)) (al_ResolvedAt a)]>)
    end).

(** ** Delivery *)

(** Four times longer after every failure, six hours at most. *)
Fixpoint backoff (n : nat) (d : Z) : Z :=
  match n with
  | O => d
  | S n' => if d <? 6 * hour then backoff n' (d * 4) else d
  end.

Definition alertBackoff (attempts : Z) : Z := Z.min (backoff (Z.to_nat (attempts - 1)) minute) (6 * hour).

Record Mail := MkMail { m_to : string; m_subject : string; m_body : string }.

Definition crlf : string := String (Ascii.ascii_of_N 13) (String (Ascii.ascii_of_N 10) EmptyString).

(** [rfc3339] is the time package's rendering of an instant in UTC. *)
Definition alert_mail (rfc3339 : Z -> string) (to kind : string) (a : Alert) : Mail :=
  MkMail to (String.append (if kind =?s "resolved" then "KySignOn alert resolved: " else "KySignOn alert: ") (al_Title a))
    (concat_all [al_Summary a; crlf; crlf; "Severity: "; al_Severity a; crlf; "Status: "; al_Status a; crlf; "Occurrences: "; pretty (al_Count a);
      " (first "; rfc3339 (al_FirstSeen a); ", last "; rfc3339 (al_LastSeen a); ")"; crlf; crlf;
      "Review it on the Alerts page of the KySignOn console. This message carries no further detail by design."; crlf]%string).

Definition due_delivery (now : Z) (r : AlertDeliveryRow) : bool := (ad_Status r =?s "pending") && (ad_NextAttemptAt r <=? now).

Definition set_delivery (status : string) (attempts next : Z) (error : string) (delivered : option Z) (now : Z) (r : AlertDeliveryRow) : AlertDeliveryRow :=
  MkAlertDeliveryRow (ad_AlertID r) (ad_UserID r) (ad_Kind r) status attempts next error delivered (ad_CreatedAt r) now.

Definition skipped (now : Z) (r : AlertDeliveryRow) : AlertDeliveryRow :=
  set_delivery "skipped" (ad_Attempts r) (ad_NextAttemptAt r) "recipient may no longer read alerts" (ad_DeliveredAt r) now r.

(** The row after an attempt; [err] is the relay's error text. *)
Definition attempted (now : Z) (r0 : AlertDeliveryRow) (err : option string) (r : AlertDeliveryRow) : AlertDeliveryRow :=
  let attempts := ad_Attempts r0 + 1 in
  match err with
  | None => set_delivery "delivered" attempts (ad_NextAttemptAt r) EmptyString (Some now) now r
  | Some e =>
    if alertDeliveryAttempts <=? attempts then set_delivery "failed" attempts (ad_NextAttemptAt r) (alertText e) (ad_DeliveredAt r) now r
    else set_delivery (ad_Status r) attempts (now + alertBackoff attempts) (alertText e) (ad_DeliveredAt r) now r
  end.

Definition id_le (a b : Z * AlertDeliveryRow) : Prop := (a.1 <=? b.1) = true.
#[global] Instance id_le_dec a b : Decision (id_le a b) := bool_eq_dec _ _.

(** The due messages of known alerts, in identifier order, with their alert. *)
Definition due_batch (now : Z) (d : DB) : list (Z * AlertDeliveryRow * Alert) :=
  firstn 50 (omap (fun kv : Z * AlertDeliveryRow => match alerts d !! ad_AlertID kv.2 with Some a => Some (kv, a) | None => None end)
    (merge_sort id_le (map_to_list (where_ (due_delivery now) (alert_deliveries d))))).

(** The calls to [send] in order and the state they leave; [ended] tells whether
    the context is over before the message. *)
Fixpoint deliver_batch (rfc3339 : Z -> string) (send : Mail -> option string) (ended : Z -> bool) (now : Z)
    (l : list (Z * AlertDeliveryRow * Alert)) (d : DB) : list Mail * DB :=
  match l with
  | [] => ([], d)
  | (id, r, a) :: l' =>
    match alertReaderTx now d (ad_UserID r) with
    | None => deliver_batch rfc3339 send ended now l' (on_alert_deliveries (alter (skipped now) id) d)
    | Some email =>
      if ended id then ([], d) else
      let mail := alert_mail rfc3339 email (ad_Kind r) a in
      let (rest, d') := deliver_batch rfc3339 send ended now l' (on_alert_deliveries (alter (attempted now r (send mail)) id) d) in
      (mail :: rest, d')
    end
  end.

Definition DeliverAlerts (rfc3339 : Z -> string) (send : Mail -> option string) (ended : Z -> bool) (now : Z) (d : DB) : list Mail * DB :=
  deliver_batch rfc3339 send ended now (due_batch now d) d.

(** Resolved alerts go with their messages, and finished messages of live ones. *)
Definition DeleteAlertsOlderThan (cutoff : Z) (d : DB) : DB :=
  let gone a := (al_Status a =?s "resolved") && opt_test (fun t => t <? cutoff) (al_ResolvedAt a) in
  on_alert_deliveries (fun t => delete_where (fun r => (ad_Status r <>?s "pending") && (ad_UpdatedAt r <? cutoff))
      (delete_where (fun r => match alerts d !! ad_AlertID r with Some a => gone a | None => false end) t))
    (on_alerts (delete_where gone) d).

(** ** Facts *)

(** *** One live alert per rule and key *)

Definition delivery_ok (r : AlertDeliveryRow) : Prop :=
  0 <= ad_Attempts r <= alertDeliveryAttempts /\ (ad_Status r = "pending"%string -> ad_Attempts r < alertDeliveryAttempts) /\
  one_of (ad_Status r) ["pending"; "delivered"; "failed"; "skipped"]%string = true.

Definition alerts_ok (d : DB) : Prop :=
  (forall rule key, count_where (live_alert rule key) (alerts d) <= 1) /\
  count_where login_source (alerts d) <= loginAlertCeiling /\
  (forall k r, alert_deliveries d !! k = Some r -> delivery_ok r).

(** Everything that writes alerts or their messages. *)
Inductive alert_step : DB -> DB -> Prop :=
| as_batch newid settings now d n d' : evaluateBatch newid settings now d = inr (n, d') -> alert_step d d'
| as_quiet settings now d : alert_step d (resolveQuietLoginAlerts settings now d)
| as_outages newid settings now d d' : evaluateOutages newid settings now d = inr (tt, d') -> alert_step d d'
| as_acknowledge id actor audit now d r d' : AcknowledgeAlert id actor audit now d = (r, d') -> alert_step d d'
| as_deliver rfc3339 send ended now d mails d' : DeliverAlerts rfc3339 send ended now d = (mails, d') -> alert_step d d'
| as_delete cutoff d : alert_step d (DeleteAlertsOlderThan cutoff d)
| as_other d d' : alerts d' = alerts d -> alert_deliveries d' = alert_deliveries d -> alert_step d d'.

Lemma alerts_ok_same d d' : alerts d' = alerts d -> alert_deliveries d' = alert_deliveries d -> alerts_ok d -> alerts_ok d'.
Proof. unfold alerts_ok, delivery_ok. by intros -> ->. Qed.

(** Writes that keep every alert's rule and key and bring none back to life. *)
Definition alerts_evolve (t t' : gmap string Alert) : Prop := forall k a', t' !! k = Some a' -> exists a, t !! k = Some a /\
  al_Rule a' = al_Rule a /\ al_Key a' = al_Key a /\ (al_Status a' <> "resolved"%string -> al_Status a <> "resolved"%string).

Lemma evolve_live t t' rule key : alerts_evolve t t' -> count_where (live_alert rule key) t' <= count_where (live_alert rule key) t.
Proof.
  intros He. apply count_where_subset. intros k r Hk Hp. destruct (He k r Hk) as (a & Ha & Hr & Hky & Hs). exists a. split; [done|].
  unfold live_alert in *. rewrite <- Hr, <- Hky. bool_hyps. repeat (apply andb_true_iff; split); [by apply streqb_true|by apply streqb_true|].
  apply negb_true_iff, streqb_false. by apply Hs.
Qed.

Lemma evolve_sources t t' : alerts_evolve t t' -> count_where login_source t' <= count_where login_source t.
Proof.
  intros He. apply count_where_subset. intros k r Hk Hp. destruct (He k r Hk) as (a & Ha & Hr & Hky & Hs). exists a. split; [done|].
  unfold login_source in *. rewrite <- Hr, <- Hky. bool_hyps. repeat (apply andb_true_iff; split); [by apply streqb_true|by apply negb_true_iff, streqb_false|].
  apply negb_true_iff, streqb_false. by apply Hs.
Qed.

Lemma alerts_ok_evolve d t : alerts_evolve (alerts d) t -> alerts_ok d -> alerts_ok (on_alerts (fun _ => t) d).
Proof.
  intros He (H1 & H2 & H3). split; [|split].
  - intros rule key. cbn. etrans; [by apply evolve_live|apply H1].
  - cbn. etrans; [by apply evolve_sources|exact H2].
  - exact H3.
Qed.

Lemma alerts_ok_deliveries d t : (forall k r, t !! k = Some r -> delivery_ok r) -> alerts_ok d -> alerts_ok (on_alert_deliveries (fun _ => t) d).
Proof. intros Ht (H1 & H2 & _). by split. Qed.

(** What queueing mail writes. *)
Lemma queue_deliveries_inv now id kind rs : forall d u d', queueDeliveriesTx now id kind rs d = inr (u, d') ->
  exists t, d' = on_alert_deliveries (fun _ => t) d /\ alert_deliveries d ⊆ t /\
    (forall k r, t !! k = Some r -> alert_deliveries d !! k = Some r \/ exists rc, In rc rs /\ r = MkAlertDeliveryRow id rc kind "pending" 0 now EmptyString None now now) /\
    (forall rc, In rc rs -> exists k, t !! k = Some (MkAlertDeliveryRow id rc kind "pending" 0 now EmptyString None now now)).
Proof.
  unfold queueDeliveriesTx. induction rs as [|rc rs IH]; intros d u d' Hr; cbn [tx_iter] in Hr.
  - injection Hr as _ <-. exists (alert_deliveries d). split; [done|]. split; [done|]. split; [by left|done].
  - apply tx_bind_inr in Hr as (u1 & d1 & H1 & Hr). apply tx_bind_inr in H1 as (a & d0 & He & H1). injection He as <- <-.
    apply tx_bind_inr in H1 as (a1 & d0 & He & H1). apply tx_guard_inr in He as [_ ->]. apply insert_row_inv in H1 as [Hn ->].
    apply IH in Hr as (t & -> & Hsub & Hinv & Hin). set (row := MkAlertDeliveryRow id rc kind "pending" 0 now EmptyString None now now) in *.
    cbn -[insert lookup] in Hsub, Hinv. exists t. split; [done|]. split; [|split].
    + etrans; [|exact Hsub]. by apply insert_subseteq.
    + intros k r Hk. apply Hinv in Hk as [Hk|(x & Hx & ->)]; [|right; exists x; split; [by right|done]].
      apply lookup_insert_Some in Hk as [[_ <-]|[_ Hk]]; [right; exists rc; split; [by left|done]|by left].
    + intros x [<-|Hx]; [|by apply Hin]. eexists. eapply lookup_weaken; [|exact Hsub]. apply lookup_insert_eq.
Qed.

Lemma queue_deliveries_ok now id kind rs d u d' : queueDeliveriesTx now id kind rs d = inr (u, d') -> alerts_ok d -> alerts_ok d'.
Proof.
  intros Hr Hok. apply queue_deliveries_inv in Hr as (t & -> & _ & Hinv & _). apply alerts_ok_deliveries; [|done]. intros k r Hk.
  apply Hinv in Hk as [Hk|(rc & _ & ->)]; [by apply Hok in Hk|]. unfold delivery_ok, alertDeliveryAttempts. cbn. split; [lia|]. split; [lia|done].
Qed.

(** Opening an alert that has no live counterpart. *)
Lemma insert_alert_inv id a d u d' : insert_alert id a d = inr (u, d') ->
  exists_where (live_alert (al_Rule a) (al_Key a)) (alerts d) = false /\ alerts d !! id = None /\ d' = on_alerts <[id := a]> d.
Proof.
  intros Hr. unfold insert_alert in Hr. apply tx_bind_inr in Hr as (x & d0 & He & Hr). injection He as <- <-.
  apply tx_bind_inr in Hr as (x1 & d0 & He & Hr). apply tx_guard_inr in He as [Hg ->]. apply insert_row_inv in Hr as [Hn ->].
  apply andb_true_iff in Hg as [Hg _]. apply negb_true_iff in Hg. done.
Qed.

Lemma insert_alert_ok id a d u d' : insert_alert id a d = inr (u, d') ->
  (login_source a = true -> count_where login_source (alerts d) < loginAlertCeiling) -> alerts_ok d -> alerts_ok d'.
Proof.
  intros Hr Hs (H1 & H2 & H3). apply insert_alert_inv in Hr as (Hl & Hn & ->). split; [|split; [|exact H3]].
  - intros rule key. cbn -[insert]. rewrite count_where_insert_new by done. destruct (live_alert rule key a) eqn:El; [|specialize (H1 rule key); lia].
    unfold live_alert in El. bool_hyps. subst rule key. apply count_where_0 in Hl. lia.
  - cbn -[insert]. rewrite count_where_insert_new by done. destruct (login_source a) eqn:El; [|lia]. specialize (Hs eq_refl). lia.
Qed.

Lemma fold_evolves now s t k a : t !! k = Some a -> al_Status a <> "resolved"%string -> alerts_evolve t (<[k := fold_alert now s a]> t).
Proof.
  intros Hk Hs j a' Hj. apply lookup_insert_Some in Hj as [[<- <-]|[_ Hj]]; [|by exists a']. exists a. by split.
Qed.

(** A raised login alert of a new source leaves room under the ceiling. *)
Definition spec_room (d : DB) (s : alertSpec) : Prop :=
  sp_rule s = "login_failures"%string -> sp_key s = "many-sources"%string \/ exists_where (live_alert (sp_rule s) (sp_key s)) (alerts d) = true \/
    count_where login_source (alerts d) < loginAlertCeiling.

Lemma raise_ok newid now s rs d u d' : raiseAlertTx newid now s rs d = inr (u, d') -> spec_room d s -> alerts_ok d -> alerts_ok d'.
Proof.
  intros Hr Hroom Hok. unfold raiseAlertTx in Hr. apply tx_bind_inr in Hr as (x & d0 & He & Hr). injection He as <- <-.
  destruct (find_where _ (alerts d)) as [[id a]|] eqn:Ef.
  - apply find_where_Some in Ef as [Ha Hl]. unfold live_alert in Hl. bool_hyps. apply tx_bind_inr in Hr as (x1 & d1 & He & Hr). injection He as _ <-.
    assert (alerts_ok (on_alerts <[id := fold_alert now s a]> d)) as Hok1.
    { apply (alerts_ok_evolve d (<[id := fold_alert now s a]> (alerts d))); [|done]. by apply fold_evolves. }
    destruct (al_Status a =?s "acknowledged"); [|by injection Hr as _ <-]. by eapply queue_deliveries_ok.
  - cbv zeta in Hr. apply tx_bind_inr in Hr as (x1 & d1 & He & Hr). apply insert_alert_ok in He; [| |done].
    + apply tx_bind_inr in Hr as (x2 & d2 & Hg & Hr). injection Hg as <- <-. destruct (_ && _); [by injection Hr as _ <-|]. by eapply queue_deliveries_ok.
    + unfold login_source. cbn. intros Hls. bool_hyps. destruct Hroom as [Hk|[Hl|Hc]]; [done|done| |done].
      rewrite find_where_None in Ef. apply exists_where_true in Hl as (k & r & Hk & Hl). by rewrite (Ef k r Hk) in Hl.
Qed.

Lemma classify_room d e settings now s : classifyTx d e settings now = Some s -> spec_room d s.
Proof.
  unfold classifyTx, classify_removal. intros Hc Hrule.
  repeat match type of Hc with (if ?b then _ else _) = _ => destruct b eqn:? end; try discriminate Hc; try (injection Hc as <-; discriminate Hrule).
  unfold classify_login in Hc. destruct (_ =?s _) in Hc; [done|]. cbv zeta in Hc. destruct (_ <? _) in Hc; [done|].
  match type of Hc with (if ?b then _ else _) = _ => destruct b eqn:Eb end; injection Hc as <-; [by left|]. right. cbn [sp_rule sp_key].
  apply andb_false_iff in Eb as [Eb|Eb]; [left; by apply negb_false_iff|right]. by apply Z.leb_gt.
Qed.

Lemma tx_iter_ok {A} (f : A -> STx unit) l : (forall x d u d', In x l -> f x d = inr (u, d') -> alerts_ok d -> alerts_ok d') ->
  forall d u d', tx_iter f l d = inr (u, d') -> alerts_ok d -> alerts_ok d'.
Proof.
  intros Hf d u d' Hr Hok. apply (tx_iter_preserves alerts_ok f l) in Hr; [done| |done]. intros a s v s' Ha Hs Hx. by eapply Hf.
Qed.

Lemma evaluate_event_ok newid settings now e d u d' : evaluate_event newid settings now e d = inr (u, d') -> alerts_ok d -> alerts_ok d'.
Proof.
  intros Hr Hok. unfold evaluate_event in Hr. apply tx_bind_inr in Hr as (x & d0 & He & Hr). injection He as <- <-.
  apply tx_bind_inr in Hr as (x1 & d1 & He & Hr). injection Hr as _ <-.
  apply (alerts_ok_same d1); [done|done|]. destruct (classifyTx d e settings now) as [s|] eqn:Ec; [|by injection He as _ <-].
  destruct (negb _); [|by injection He as _ <-]. apply classify_room in Ec. by eapply raise_ok.
Qed.

Lemma evolve_alter now id t : alerts_evolve t (alter (resolve now) id t).
Proof.
  intros k a' Hk. destruct (decide (k = id)) as [->|Hne].
  - rewrite lookup_alter_eq in Hk. destruct (t !! id) as [a|] eqn:E; [|done]. cbn in Hk. injection Hk as <-. by exists a.
  - rewrite lookup_alter_ne in Hk by done. by exists a'.
Qed.

Lemma outage_rules now d o : In o (outages now d) -> sp_rule o <> "login_failures"%string.
Proof.
  unfold outages. rewrite in_app_iff, !in_map_iff. by intros [(x & <- & _)|(x & <- & _)].
Qed.

Lemma outages_ok newid settings now d u d' : evaluateOutages newid settings now d = inr (u, d') -> alerts_ok d -> alerts_ok d'.
Proof.
  intros Hr Hok. unfold evaluateOutages in Hr. apply tx_bind_inr in Hr as (x & d0 & He & Hr). injection He as <- <-. cbv zeta in Hr.
  apply tx_bind_inr in Hr as (x1 & d1 & H1 & Hr). apply tx_bind_inr in Hr as (x2 & d2 & He & Hr). injection He as <- <-.
  assert (alerts_ok d1) as Hok1.
  { eapply tx_iter_ok; [|exact H1|exact Hok]. intros o e v e' Ho Hn He. unfold note_outage in Hn. apply tx_bind_inr in Hn as (y & e0 & Hg & Hn). injection Hg as <- <-.
    destruct (find_where _ (alerts e)) as [[id a]|] eqn:Ef.
    - injection Hn as _ <-. apply find_where_Some in Ef as [Ha _]. apply (alerts_ok_evolve e (<[id := set_al_LastSeen now a]> (alerts e))); [|done].
      intros k a' Hk. apply lookup_insert_Some in Hk as [[<- <-]|[_ Hk]]; [by exists a|by exists a'].
    - cbv zeta in Hn. apply tx_bind_inr in Hn as (y1 & e1 & Hi & Hn). apply insert_alert_ok in Hi; [by eapply queue_deliveries_ok| |done].
      apply outage_rules in Ho. unfold login_source. cbn. intros Hl. by bool_hyps. }
  eapply tx_iter_ok; [|exact Hr|exact Hok1]. intros kv e v e' _ Hn He. apply tx_bind_inr in Hn as (y & e1 & Hi & Hn). injection Hi as _ <-.
  eapply queue_deliveries_ok; [exact Hn|]. apply (alerts_ok_evolve e (alter (resolve now) kv.1 (alerts e))); [|done]. apply evolve_alter.
Qed.

Lemma due_batch_spec now d x : In x (due_batch now d) -> alert_deliveries d !! x.1.1 = Some x.1.2 /\ due_delivery now x.1.2 = true /\
  alerts d !! ad_AlertID x.1.2 = Some x.2.
Proof.
  unfold due_batch. intros Hi. assert (forall (l : list (Z * AlertDeliveryRow * Alert)) n, In x (firstn n l) -> In x l) as Hf.
  { intros l n Hx. rewrite <- (firstn_skipn n l). apply in_or_app. by left. }
  apply Hf in Hi. apply list_elem_of_In, list_elem_of_omap in Hi as ([k r] & Hk & Hx). cbn in Hx. destruct (alerts d !! ad_AlertID r) as [a|] eqn:Ea; [|done].
  injection Hx as <-. rewrite merge_sort_Permutation in Hk. apply elem_of_map_to_list, lookup_where in Hk as [Hk Hd]. done.
Qed.

Lemma deliver_ok rfc3339 send ended now l : forall d mails d', deliver_batch rfc3339 send ended now l d = (mails, d') ->
  (forall x, In x l -> delivery_ok x.1.2 /\ ad_Status x.1.2 = "pending"%string) -> alerts_ok d -> alerts_ok d'.
Proof.
  assert (forall d id f, (forall r, delivery_ok r -> delivery_ok (f r)) -> alerts_ok d -> alerts_ok (on_alert_deliveries (alter f id) d)) as Halt.
  { intros d id f Hf (H1 & H2 & H3). split; [done|]. split; [done|]. intros k r Hk. cbn -[lookup alter] in Hk. destruct (decide (k = id)) as [->|Hne].
    - rewrite lookup_alter_eq in Hk. destruct (alert_deliveries d !! id) as [r0|] eqn:E; [|done]. cbn in Hk. injection Hk as <-. apply Hf. by eapply H3.
    - rewrite lookup_alter_ne in Hk by done. by eapply H3. }
  induction l as [|[[id r] a] l IH]; intros d mails d' Hr Hl Hok; cbn [deliver_batch] in Hr; [by injection Hr as _ <-|].
  destruct (Hl _ (or_introl eq_refl)) as [Hrow Hpend]. cbn [fst snd] in Hrow, Hpend.
  destruct (alertReaderTx now d (ad_UserID r)) as [email|].
  - destruct (ended id); [by injection Hr as _ <-|]. destruct (deliver_batch _ _ _ _ l _) as [rest d2] eqn:Ed. injection Hr as _ <-.
    eapply IH; [exact Ed|intros x Hx; by apply Hl; right|]. apply Halt; [|done]. intros r0 (Ha & Hp & Hs). destruct Hrow as (Ha0 & Hp0 & _). specialize (Hp0 Hpend).
    unfold attempted, delivery_ok, alertDeliveryAttempts in *. destruct (send _) as [e|].
    + destruct (8 <=? ad_Attempts r + 1) eqn:E; cbn; [split; [lia|split; [done|done]]|]. apply Z.leb_gt in E. split; [lia|]. split; [lia|done].
    + cbn. split; [lia|done].
  - eapply IH; [exact Hr|intros x Hx; by apply Hl; right|]. apply Halt; [|done]. intros r0 (Ha & Hp & Hs). unfold delivery_ok, skipped. cbn. by split.
Qed.

Lemma delete_alerts_ok cutoff d : alerts_ok d -> alerts_ok (DeleteAlertsOlderThan cutoff d).
Proof.
  intros (H1 & H2 & H3). unfold DeleteAlertsOlderThan. cbv zeta. split; [|split].
  - intros rule key. cbn. etrans; [apply count_where_delete_where|apply H1].
  - cbn. etrans; [apply count_where_delete_where|exact H2].
  - intros k r Hk. cbn -[lookup] in Hk. apply lookup_delete_where_Some in Hk as [Hk _]. apply lookup_delete_where_Some in Hk as [Hk _]. by eapply H3.
Qed.

Lemma alert_step_ok d d' : alert_step d d' -> alerts_ok d -> alerts_ok d'.
Proof.
  intros Hs Hok. destruct Hs as [newid settings now d n d' Hr|settings now d|newid settings now d d' Hr|id actor audit now d r d' Hr|rfc3339 send ended now d mails d' Hr|cutoff d|d d' Ha Hd].
  - unfold evaluateBatch in Hr. apply tx_bind_inr in Hr as (x & d0 & He & Hr). injection He as <- <-. cbv zeta in Hr.
    apply tx_bind_inr in Hr as (x1 & d1 & H1 & Hr). apply tx_bind_inr in Hr as (x2 & d2 & He & Hr). injection He as <- <-.
    apply tx_bind_inr in Hr as (x3 & d3 & He & Hr). injection He as _ <-. injection Hr as _ <-. apply (alerts_ok_same d1); [done|done|].
    eapply tx_iter_ok; [|exact H1|exact Hok]. intros e x v x' _. by apply evaluate_event_ok.
  - apply (alerts_ok_evolve d (update_where (quiet settings now d) (resolve now) (alerts d))); [|done]. intros k a' Hk.
    apply lookup_update_where_Some in Hk as (a & Ha & ->). exists a. split; [done|]. by destruct (quiet settings now d a).
  - by eapply outages_ok.
  - unfold AcknowledgeAlert, auditedTx in Hr. destruct (commit _ d) as [r2 d2] eqn:Ec. injection Hr as _ <-. destruct r2 as [e|u]; [by apply commit_inl in Ec as [-> _]|].
    apply commit_inr in Ec. apply tx_bind_inr in Ec as (x & d1 & H1 & Ec). apply tx_bind_inr in Ec as (x1 & d3 & H2 & Ec). injection Ec as _ <-.
    apply recordAuditTx_inv in H2 as (m & q & ->). apply (alerts_ok_same d1); [done|done|]. apply tx_bind_inr in H1 as (y & d0 & He & H1). injection He as <- <-.
    destruct (alerts d !! id) as [a|] eqn:Ea; [|done]. apply tx_bind_inr in H1 as (y1 & d4 & He & H1). apply tx_guard_inr in He as [Ho ->]. injection H1 as _ <-.
    apply streqb_true in Ho.
    match goal with |- alerts_ok (on_alerts <[id := ?a']> d) => apply (alerts_ok_evolve d (<[id := a']> (alerts d))); [|done] end.
    intros k a' Hk. apply lookup_insert_Some in Hk as [[<- <-]|[_ Hk]]; [|by exists a']. exists a. rewrite Ho. by split_and!.
  - eapply deliver_ok; [exact Hr| |exact Hok]. intros x Hx. apply due_batch_spec in Hx as (Hk & Hd & _). destruct Hok as (_ & _ & H3). split; [by eapply H3|].
    unfold due_delivery in Hd. by bool_hyps.
  - by apply delete_alerts_ok.
  - by eapply alerts_ok_same.
Qed.

(** Over every interleaving of evaluation, outages, acknowledgements, mail
    delivery and retention there is at most one unresolved alert per rule
    and key, at most the ceiling of login-failure sources, and every message
    stays within its attempt budget. *)
Theorem one_live_alert_per_cause d0 d : alerts_ok d0 -> rtc alert_step d0 d -> alerts_ok d.
Proof. intros Hok Hs. induction Hs as [|x y z Hxy _ IH]; [done|]. by apply IH, (alert_step_ok x). Qed.

(** *** The queue drains *)

(** A queue row belongs to a stored event ([ON DELETE CASCADE]). *)
Definition queue_linked (d : DB) : Prop := forall k t, alert_queue d !! k = Some t -> exists e, audit_events d !! k = Some e /\ ae_ID e = k.

(** Raising writes neither the queue nor the trail. *)
Lemma queue_deliveries_frame now id kind rs d u d' : queueDeliveriesTx now id kind rs d = inr (u, d') -> alert_queue d' = alert_queue d /\ audit_events d' = audit_events d.
Proof. intros Hr. by apply queue_deliveries_inv in Hr as (t & -> & _). Qed.

Lemma raise_frame newid now s rs d u d' : raiseAlertTx newid now s rs d = inr (u, d') -> alert_queue d' = alert_queue d /\ audit_events d' = audit_events d.
Proof.
  intros Hr. unfold raiseAlertTx in Hr. apply tx_bind_inr in Hr as (x & d0 & He & Hr). injection He as <- <-. destruct (find_where _ _) as [[id a]|].
  - apply tx_bind_inr in Hr as (x1 & d1 & He & Hr). injection He as _ <-. destruct (_ =?s _); [by apply queue_deliveries_frame in Hr|by injection Hr as _ <-].
  - cbv zeta in Hr. apply tx_bind_inr in Hr as (x1 & d1 & He & Hr). apply insert_alert_inv in He as (_ & _ & ->).
    apply tx_bind_inr in Hr as (x2 & d2 & Hg & Hr). injection Hg as <- <-. destruct (_ && _); [by injection Hr as _ <-|by apply queue_deliveries_frame in Hr].
Qed.

Lemma evaluate_event_frame newid settings now e d u d' : evaluate_event newid settings now e d = inr (u, d') ->
  alert_queue d' = delete (ae_ID e) (alert_queue d) /\ audit_events d' = audit_events d.
Proof.
  intros Hr. unfold evaluate_event in Hr. apply tx_bind_inr in Hr as (x & d0 & He & Hr). injection He as <- <-.
  apply tx_bind_inr in Hr as (x1 & d1 & He & Hr). injection Hr as _ <-. cbn.
  enough (alert_queue d1 = alert_queue d /\ audit_events d1 = audit_events d) as [-> ->] by done.
  destruct (classifyTx d e settings now); [|by injection He as _ <-]. destruct (negb _); [by apply raise_frame in He|by injection He as _ <-].
Qed.

Lemma batch_iter_queue newid settings now l : forall d u d', tx_iter (evaluate_event newid settings now) l d = inr (u, d') ->
  NoDup (map ae_ID l) -> (forall e, In e l -> is_Some (alert_queue d !! ae_ID e)) ->
  (size (alert_queue d') + length l = size (alert_queue d))%nat /\ alert_queue d' ⊆ alert_queue d /\ audit_events d' = audit_events d.
Proof.
  induction l as [|e l IH]; intros d u d' Hr Hn Hin; cbn [tx_iter] in Hr; [injection Hr as _ <-; cbn; split; [lia|done]|].
  apply tx_bind_inr in Hr as (u1 & d1 & H1 & Hr). apply evaluate_event_frame in H1 as [Hq Hau]. apply NoDup_cons in Hn as [Hne Hn].
  destruct (IH _ _ _ Hr Hn) as (Hs & Hsub & Hau2).
  - intros x Hx. rewrite Hq, lookup_delete_ne; [apply Hin; by right|]. intros He. apply Hne. rewrite He. by apply list_elem_of_In, in_map.
  - destruct (Hin e (or_introl eq_refl)) as [t Ht]. rewrite Hq in Hs, Hsub. rewrite map_size_delete, Ht in Hs. cbn [length].
    assert (0 < size (alert_queue d))%nat by (destruct (decide (size (alert_queue d) = 0)%nat) as [Hz|]; [|lia]; apply map_size_empty_inv in Hz; rewrite Hz in Ht; by rewrite lookup_empty in Ht).
    split; [lia|]. split; [etrans; [exact Hsub|apply delete_subseteq]|congruence].
Qed.

Lemma queued_events_spec d : queue_linked d -> NoDup (map ae_ID (queued_events d)) /\ length (queued_events d) = size (alert_queue d) /\
  forall e, In e (queued_events d) -> is_Some (alert_queue d !! ae_ID e).
Proof.
  intros Hl. unfold queued_events. pose proof (merge_sort_Permutation queued_le (map_to_list (alert_queue d))) as Hp. set (l := merge_sort queued_le (map_to_list (alert_queue d))) in *.
  assert (forall q, In q l -> exists e, audit_events d !! q.1 = Some e /\ ae_ID e = q.1) as Hall.
  { intros [k t] Hq. apply list_elem_of_In in Hq. rewrite Hp in Hq. apply elem_of_map_to_list in Hq. by apply (Hl k t). }
  assert (map ae_ID (omap (fun q : string * Z => audit_events d !! q.1) l) = map fst l) as Hm.
  { clear Hp. clearbody l. induction l as [|q l IH]; [done|]. destruct (Hall q (or_introl eq_refl)) as (e & He & Hi). cbn. rewrite He. cbn. rewrite IH; [by rewrite Hi|].
    intros x Hx. apply Hall. by right. }
  split; [|split].
  - rewrite Hm. rewrite (Permutation_map fst Hp). apply NoDup_fst_map_to_list.
  - rewrite <- (length_map ae_ID), Hm, length_map, Hp. apply length_map_to_list.
  - intros e He. apply (in_map ae_ID) in He. rewrite Hm in He. apply in_map_iff in He as ([k t] & Hk & Hq). cbn in Hk. subst k.
    apply list_elem_of_In in Hq. rewrite Hp in Hq. apply elem_of_map_to_list in Hq. by exists t.
Qed.

Lemma batch_queue newid settings now d n d' : queue_linked d -> evaluateBatch newid settings now d = inr (n, d') ->
  queue_linked d' /\ n = Nat.min alertBatch (size (alert_queue d)) /\ (size (alert_queue d') = size (alert_queue d) - n)%nat /\
  alert_queue d' ⊆ alert_queue d /\ audit_events d' = audit_events d.
Proof.
  intros Hl Hr. unfold evaluateBatch in Hr. apply tx_bind_inr in Hr as (x & d0 & He & Hr). injection He as <- <-. cbv zeta in Hr.
  apply tx_bind_inr in Hr as (x1 & d1 & H1 & Hr). apply tx_bind_inr in Hr as (x2 & d2 & He & Hr). injection He as <- <-.
  apply tx_bind_inr in Hr as (x3 & d3 & He & Hr). injection He as _ <-. injection Hr as <- <-.
  destruct (queued_events_spec d Hl) as (Hn & Hlen & Hin). set (l := firstn alertBatch (queued_events d)) in *.
  assert (incl l (queued_events d)) as Hi by (intros e He; rewrite <- (firstn_skipn alertBatch (queued_events d)); apply in_or_app; by left).
  apply batch_iter_queue in H1 as (Hs & Hsub & Hau).
  - assert (filter (fun q : string * Z => is_null (audit_events d1 !! q.1) = false) (alert_queue d1) = alert_queue d1) as Hf.
    { apply map_filter_id. intros k t Hk. cbn. rewrite Hau. assert (alert_queue d !! k = Some t) as Hk0 by by eapply lookup_weaken. by destruct (Hl k t Hk0) as (e & -> & _). }
    cbn -[filter]. rewrite Hf, Hau.
    assert (length l = Nat.min alertBatch (size (alert_queue d))) as Hll by (unfold l; by rewrite length_firstn, Hlen).
    split; [|split; [exact Hll|split; [by rewrite <- Hs, Nat.add_sub|done]]].
    intros k t Hk. change (audit_events _) with (audit_events d1). rewrite Hau. apply (Hl k t).
    change (filter (fun q : string * Z => is_null (audit_events d !! q.1) = false) (alert_queue d1) !! k = Some t) in Hk.
    rewrite <- Hau, Hf in Hk. exact (lookup_weaken _ _ _ _ Hk Hsub).
  - unfold l. rewrite <- firstn_map. eapply sublist_NoDup; [exact Hn|apply sublist_take].
  - intros e He. by apply Hin, Hi.
Qed.

Lemma quiet_frame settings now d : alert_queue (resolveQuietLoginAlerts settings now d) = alert_queue d /\ audit_events (resolveQuietLoginAlerts settings now d) = audit_events d.
Proof. done. Qed.

Lemma batches_queue newid settings now n : forall d d', queue_linked d -> evaluateBatches newid settings now n d = (inr tt, d') ->
  (size (alert_queue d') = size (alert_queue d) - n * alertBatch)%nat /\ alert_queue d' ⊆ alert_queue d /\ audit_events d' = audit_events d.
Proof.
  induction n as [|n IH]; intros d d' Hl Hr; cbn [evaluateBatches] in Hr; [injection Hr as <-; split; [lia|done]|].
  apply run_bind_inr in Hr as (k & d1 & H1 & Hr). apply commit_inr in H1. apply (batch_queue _ _ _ _ _ _ Hl) in H1 as (Hl1 & Hk & Hs & Hsub & Hau).
  destruct (Nat.ltb k alertBatch) eqn:E.
  - apply Nat.ltb_lt in E. injection Hr as <-. split; [|done]. rewrite Hs. lia.
  - apply Nat.ltb_ge in E. apply IH in Hr as (Hs2 & Hsub2 & Hau2); [|done]. split; [rewrite Hs2, Hs; lia|]. split; [by etrans|congruence].
Qed.

Lemma outages_frame newid settings now d u d' : evaluateOutages newid settings now d = inr (u, d') -> alert_queue d' = alert_queue d /\ audit_events d' = audit_events d.
Proof.
  intros Hr. unfold evaluateOutages in Hr. apply tx_bind_inr in Hr as (x & d0 & He & Hr). injection He as <- <-. cbv zeta in Hr.
  apply tx_bind_inr in Hr as (x1 & d1 & H1 & Hr). apply tx_bind_inr in Hr as (x2 & d2 & He & Hr). injection He as <- <-.
  assert (alert_queue d1 = alert_queue d /\ audit_events d1 = audit_events d) as [E1 E2].
  { apply (tx_iter_preserves (fun e => alert_queue e = alert_queue d /\ audit_events e = audit_events d)) in H1; [done| |done].
    intros o e v e' _ [Q1 Q2] Hn. unfold note_outage in Hn. apply tx_bind_inr in Hn as (y & e0 & Hg & Hn). injection Hg as <- <-.
    destruct (find_where _ _) as [[id a]|]; [by injection Hn as _ <-|]. cbv zeta in Hn. apply tx_bind_inr in Hn as (y1 & e1 & Hi & Hn).
    apply insert_alert_inv in Hi as (_ & _ & ->). apply queue_deliveries_frame in Hn as [-> ->]. done. }
  apply (tx_iter_preserves (fun e => alert_queue e = alert_queue d /\ audit_events e = audit_events d)) in Hr; [done| |done].
  intros kv e v e' _ [Q1 Q2] Hn. apply tx_bind_inr in Hn as (y & e1 & Hi & Hn). injection Hi as _ <-. apply queue_deliveries_frame in Hn as [-> ->]. done.
Qed.

Lemma evaluation_queue newid now d d' : queue_linked d -> EvaluateAlerts newid now d = (inr tt, d') ->
  (size (alert_queue d') = size (alert_queue d) - alertMaxBatches * alertBatch)%nat /\ alert_queue d' ⊆ alert_queue d /\ audit_events d' = audit_events d.
Proof.
  intros Hl Hr. unfold EvaluateAlerts in Hr. apply run_bind_inr in Hr as (x & d0 & He & Hr). injection He as <- <-.
  destruct (GetAlertSettings d) as [e|settings]; [done|]. apply run_bind_inr in Hr as (x1 & d1 & He & Hr). injection He as _ <-.
  apply run_bind_inr in Hr as (x2 & d2 & H2 & Hr). apply commit_inr in Hr. apply outages_frame in Hr as [E1 E2]. destruct x2.
  apply batches_queue in H2 as (Hs & Hsub & Hau); [|exact Hl]. rewrite E1, E2. split; [exact Hs|done].
Qed.

(** An evaluation that succeeds takes exactly ten full batches, or
    everything, off the queue of audit events, adds nothing to it and leaves
    the audit trail as it was. *)
Theorem evaluation_drains_the_queue newid now d d' : queue_linked d -> EvaluateAlerts newid now d = (inr tt, d') ->
  (size (alert_queue d') = size (alert_queue d) - alertMaxBatches * alertBatch)%nat /\ alert_queue d' ⊆ alert_queue d /\ audit_events d' = audit_events d.
Proof. apply evaluation_queue. Qed.

(** ** Every event in its turn *)

(** What evaluation writes besides the queue and the trail. *)
Definition only_alerts (d d' : DB) : Prop :=
  exists a m q, d' = on_alert_queue (fun _ => q) (on_alert_deliveries (fun _ => m) (on_alerts (fun _ => a) d)).

Lemma only_alerts_refl d : only_alerts d d.
Proof. by exists (alerts d), (alert_deliveries d), (alert_queue d). Qed.

Lemma only_alerts_trans d d1 d2 : only_alerts d d1 -> only_alerts d1 d2 -> only_alerts d d2.
Proof. intros (a & m & q & ->) (a' & m' & q' & ->). by exists a', m', q'. Qed.

Lemma only_alerts_on_alerts f d : only_alerts d (on_alerts f d).
Proof. by exists (f (alerts d)), (alert_deliveries d), (alert_queue d). Qed.

Lemma only_alerts_on_queue f d : only_alerts d (on_alert_queue f d).
Proof. by exists (alerts d), (alert_deliveries d), (f (alert_queue d)). Qed.

Lemma only_alerts_deliveries now id kind rs d u d' : queueDeliveriesTx now id kind rs d = inr (u, d') -> only_alerts d d' /\ alerts d' = alerts d.
Proof. intros Hr. apply queue_deliveries_inv in Hr as (t & -> & _). split; [|done]. by exists (alerts d), t, (alert_queue d). Qed.

(** The alerts of [now] that stand stay open for their cause. *)
Definition outage_rule (rule : string) : bool := one_of rule ["provisioning_outage"; "logout_outage"]%string.

Definition standing (now : Z) (rule key : string) (a : Alert) : Prop :=
  al_Rule a = rule /\ al_Key a = key /\ al_Status a = "open"%string /\ al_LastSeen a = now.

Definition renewed (now : Z) (d d' : DB) : Prop := forall k a rule key, alerts d !! k = Some a -> standing now rule key a -> outage_rule rule = false ->
  exists a', alerts d' !! k = Some a' /\ standing now rule key a'.

Lemma renewed_same now d d' : alerts d' = alerts d -> renewed now d d'.
Proof. intros E k a rule key Hk Hs _. rewrite E. eauto. Qed.

Lemma renewed_trans now d d1 d2 : renewed now d d1 -> renewed now d1 d2 -> renewed now d d2.
Proof. intros H1 H2 k a rule key Hk Hs Ho. destruct (H1 k a rule key Hk Hs Ho) as (a1 & Hk1 & Hs1). by apply (H2 k a1). Qed.

Lemma renewed_write now d k0 a0 a1 : alerts d !! k0 = Some a0 ->
  (forall rule key, standing now rule key a0 -> outage_rule rule = false -> standing now rule key a1) -> renewed now d (on_alerts <[k0 := a1]> d).
Proof.
  intros Hk0 Ha k a rule key Hk Hs Ho. cbn -[lookup insert]. destruct (decide (k0 = k)) as [<-|Hne].
  - rewrite lookup_insert_eq. exists a1. split; [done|]. apply Ha; [|done]. congruence.
  - rewrite lookup_insert_ne by done. eauto.
Qed.

Lemma renewed_insert now d k0 a1 : alerts d !! k0 = None -> renewed now d (on_alerts <[k0 := a1]> d).
Proof. intros Hn k a rule key Hk Hs _. exists a. split; [|done]. cbn -[lookup insert]. rewrite lookup_insert_ne; [done|congruence]. Qed.

(** Raising leaves an open alert of the cause, seen now. *)
Lemma raise_stands newid now s rs d u d' : raiseAlertTx newid now s rs d = inr (u, d') ->
  only_alerts d d' /\ renewed now d d' /\ exists k a, alerts d' !! k = Some a /\ standing now (sp_rule s) (sp_key s) a.
Proof.
  intros Hr. unfold raiseAlertTx in Hr. apply tx_bind_inr in Hr as (x & d0 & He & Hr). injection He as <- <-. destruct (find_where _ _) as [[id a]|] eqn:Ef.
  - apply tx_bind_inr in Hr as (x1 & d1 & He & Hr). injection He as _ <-. apply find_where_Some in Ef as [Ha Hl]. unfold live_alert in Hl. bool_hyps.
    set (d1 := on_alerts <[id:=fold_alert now s a]> d) in *.
    assert (only_alerts d1 d' /\ alerts d' = alerts d1) as [Ho Hd].
    { destruct (_ =?s _); [by apply only_alerts_deliveries in Hr|injection Hr as _ <-; split; [apply only_alerts_refl|done]]. }
    split; [eapply only_alerts_trans; [apply only_alerts_on_alerts|exact Ho]|]. split.
    + eapply renewed_trans; [eapply renewed_write; [exact Ha|]|by apply renewed_same]. intros rule key (R & K & _) _. by split_and!.
    + exists id, (fold_alert now s a). rewrite Hd. split; [apply lookup_insert_eq|]. split_and!; done.
  - cbv zeta in Hr. apply tx_bind_inr in Hr as (x1 & d1 & He & Hr). apply insert_alert_inv in He as (_ & Hn & ->).
    apply tx_bind_inr in Hr as (x2 & d2 & Hg & Hr). injection Hg as <- <-. set (d1 := on_alerts _ d) in *.
    assert (only_alerts d1 d' /\ alerts d' = alerts d1) as [Ho Hd].
    { destruct (_ && _); [injection Hr as _ <-; split; [apply only_alerts_refl|done]|by apply only_alerts_deliveries in Hr]. }
    split; [eapply only_alerts_trans; [apply only_alerts_on_alerts|exact Ho]|]. split.
    + eapply renewed_trans; [by apply renewed_insert|by apply renewed_same].
    + eexists _, _. rewrite Hd. split; [apply lookup_insert_eq|]. by split_and!.
Qed.

(** The source a failed sign-in is counted under. *)
Definition failure_source (e : AuditEvent) : string :=
  if ae_TargetID e =?s EmptyString then (if alertText (ae_IPAddress e) =?s EmptyString then "unknown-source" else alertText (ae_IPAddress e))%string
  else ae_TargetID e.

(** The key an alert called for by [s] may carry: its own, or for failed
    sign-ins the source's or the shared one of many sources. *)
Definition key_of (e : AuditEvent) (s : alertSpec) (key : string) : Prop :=
  key = sp_key s \/ sp_rule s = "login_failures"%string /\ (key = "many-sources"%string \/ key = failure_source e).

Lemma classify_rule d e settings now s : classifyTx d e settings now = Some s ->
  sp_rule s <> EmptyString /\ outage_rule (sp_rule s) = false /\
  (sp_rule s = "login_failures"%string -> sp_key s = "many-sources"%string \/ sp_key s = failure_source e).
Proof.
  unfold classifyTx, classify_removal. intros Hc.
  repeat match type of Hc with (if ?b then _ else _) = _ => destruct b eqn:? end; try discriminate Hc;
    try (injection Hc as <-; split; [discriminate|split; [reflexivity|discriminate]]).
  unfold classify_login in Hc. destruct (_ =?s _) in Hc; [done|]. cbv zeta in Hc. destruct (_ <? _) in Hc; [done|].
  match type of Hc with (if ?b then _ else _) = _ => destruct b eqn:Eb end; injection Hc as <-; (split; [discriminate|split; [reflexivity|intros _]]); [by left|by right].
Qed.

(** What an event calls for depends on the alerts there are in its key alone. *)
Lemma classify_stable d d1 e settings now s : only_alerts d d1 -> classifyTx d e settings now = Some s ->
  exists s1, classifyTx d1 e settings now = Some s1 /\ sp_rule s1 = sp_rule s /\ (forall key, key_of e s1 key -> key_of e s key).
Proof.
  intros (a & m & q & ->) Hc. pose proof (classify_rule _ _ _ _ _ Hc) as (_ & _ & Hk). revert Hc. unfold classifyTx.
  repeat match goal with |- (if ?b then _ else _) = _ -> _ => destruct b eqn:? end; try discriminate;
    try (intros [= <-]; eexists; split; [reflexivity|split; [reflexivity|done]]).
  unfold classify_login. change (audit_events (on_alert_queue _ _)) with (audit_events d). destruct (_ =?s _); [done|]. cbv zeta. destruct (_ <? _); [done|].
  intros Hc. assert (sp_rule s = "login_failures"%string) as Hs by (destruct (_ && _) in Hc; by injection Hc as <-). specialize (Hk Hs).
  match goal with |- exists s1, (if ?b then _ else _) = _ /\ _ => destruct b end; (eexists; split; [reflexivity|]); (split; [by rewrite Hs|]);
    intros key Hkey; right; (split; [done|]); destruct Hkey as [->|[_ ?]]; auto.
Qed.

(** An open alert of the cause of [e], seen now. *)
Definition raised_for (now : Z) (e : AuditEvent) (s : alertSpec) (d : DB) : Prop :=
  exists k a key, alerts d !! k = Some a /\ standing now (sp_rule s) key a /\ key_of e s key.

Definition answered (settings : AlertSettings) (now : Z) (e : AuditEvent) (d d' : DB) : Prop :=
  forall s, classifyTx d e settings now = Some s -> raised_for now e s d'.

Lemma answered_before settings now e d d1 d' : only_alerts d d1 -> answered settings now e d1 d' -> answered settings now e d d'.
Proof.
  intros Ho Ha s Hs. destruct (classify_stable _ _ _ _ _ _ Ho Hs) as (s1 & Hs1 & Hr & Hk). destruct (Ha _ Hs1) as (k & a & key & H1 & H2 & H3).
  exists k, a, key. rewrite <- Hr. auto.
Qed.

Lemma answered_after settings now e d d1 d' : renewed now d1 d' -> answered settings now e d d1 -> answered settings now e d d'.
Proof.
  intros Hn Ha s Hs. destruct (Ha _ Hs) as (k & a & key & H1 & H2 & H3). destruct (classify_rule _ _ _ _ _ Hs) as (_ & Ho & _).
  destruct (Hn _ _ _ _ H1 H2 Ho) as (a' & H1' & H2'). by exists k, a', key.
Qed.

Lemma evaluate_event_answers newid settings now e d u d' : evaluate_event newid settings now e d = inr (u, d') ->
  only_alerts d d' /\ renewed now d d' /\ answered settings now e d d'.
Proof.
  intros Hr. unfold evaluate_event in Hr. apply tx_bind_inr in Hr as (x & d0 & He & Hr). injection He as <- <-.
  apply tx_bind_inr in Hr as (x1 & d1 & He & Hr). injection Hr as _ <-. set (d2 := on_alert_queue _ d1).
  assert (only_alerts d d1 /\ renewed now d d1 /\ answered settings now e d d1) as (H1 & H2 & H3).
  { unfold answered. destruct (classifyTx d e settings now) as [s|] eqn:Ec.
    - destruct (classify_rule _ _ _ _ _ Ec) as (Hne & _). apply streqb_false in Hne. rewrite Hne in He. cbn [negb] in He.
      apply raise_stands in He as (Ho & Hn & k & a & Ha & Hs). split; [done|]. split; [done|]. intros s' [= <-]. exists k, a, (sp_key s). split_and!; [done..|by left].
    - injection He as _ <-. split; [apply only_alerts_refl|]. split; [by apply renewed_same|done]. }
  split; [eapply only_alerts_trans; [exact H1|apply only_alerts_on_queue]|].
  split; [eapply renewed_trans; [exact H2|by apply renewed_same]|]. eapply answered_after; [|exact H3]. by apply renewed_same.
Qed.

Lemma events_answered newid settings now l : forall d u d', tx_iter (evaluate_event newid settings now) l d = inr (u, d') ->
  only_alerts d d' /\ renewed now d d' /\ (forall e, In e l -> answered settings now e d d' /\ alert_queue d' !! ae_ID e = None) /\
  alert_queue d' ⊆ alert_queue d.
Proof.
  induction l as [|e l IH]; intros d u d' Hr; cbn [tx_iter] in Hr.
  { injection Hr as _ <-. split_and!; [apply only_alerts_refl|by apply renewed_same|by intros ? []|done]. }
  apply tx_bind_inr in Hr as (u1 & d1 & H1 & Hr). pose proof (evaluate_event_answers _ _ _ _ _ _ _ H1) as (O1 & N1 & A1).
  apply evaluate_event_frame in H1 as [Hq _]. destruct (IH _ _ _ Hr) as (O2 & N2 & A2 & S2). split_and!.
  - by eapply only_alerts_trans.
  - by eapply renewed_trans.
  - intros x [<-|Hx].
    + split; [by eapply answered_after|]. rewrite Hq in S2. destruct (alert_queue d' !! ae_ID e) eqn:E; [|done].
      eapply lookup_weaken in E; [|exact S2]. by rewrite lookup_delete_eq in E.
    + destruct (A2 x Hx) as [Ax Qx]. split; [|done]. by eapply answered_before.
  - etrans; [exact S2|]. rewrite Hq. apply delete_subseteq.
Qed.

(** *** First in, first out *)

(** [q] is taken before [x]: it is older, or as old with a smaller identifier. *)
Definition earlier (q x : string * Z) : bool := (q.2 <? x.2) || ((q.2 =? x.2) && String.ltb q.1 x.1).

(** How many rows are taken before [x]. *)
Definition ahead (x : string * Z) (t : gmap string Z) : nat := size (filter (fun q : string * Z => earlier q x = true) t).

Lemma string_ltb_asym a b : String.ltb a b = true -> String.ltb b a = false.
Proof. unfold String.ltb. rewrite (String.compare_antisym b a). by destruct (String.compare a b). Qed.

#[local] Instance queued_le_total : Total queued_le.
Proof.
  intros [i s] [j t]. unfold queued_le. cbn [fst snd]. destruct (Z.ltb_spec s t); [by left|]. destruct (Z.ltb_spec t s); [by right|].
  assert (s = t) as -> by lia. rewrite Z.eqb_refl. cbn. destruct (String.ltb j i) eqn:E; [right; by rewrite (string_ltb_asym _ _ E)|by left].
Qed.

Lemma queued_le_earlier p x : queued_le p x -> p.1 <> x.1 -> earlier p x = true.
Proof.
  unfold queued_le, earlier. intros Hl Hne. destruct (p.2 <? x.2); [done|]. cbn in *. bool_hyps.
  match goal with H : p.2 = x.2 |- _ => rewrite H, Z.eqb_refl end. cbn. by destruct (string_ltb_total _ _ Hne); congruence.
Qed.

#[local] Instance queued_le_trans : Transitive queued_le.
Proof.
  intros [i s] [j t] [k v]. unfold queued_le. cbn [fst snd]. intros H1 H2.
  destruct (Z.ltb_spec s v); [done|]. cbn. destruct (Z.ltb_spec s t); destruct (Z.ltb_spec t v); cbn in *; bool_hyps; try lia. subst.
  rewrite Z.eqb_refl. cbn. apply negb_true_iff, not_true_iff_false. intros Hki.
  destruct (decide (j = i)) as [->|Hij]; [congruence|]. destruct (string_ltb_total _ _ Hij) as [Hji|Hij']; [congruence|].
  pose proof (string_ltb_trans _ _ _ Hki Hij'). congruence.
Qed.

(** Taking rows that are ahead of [x] brings it forward by as many. *)
Lemma taken_ahead x newid settings now l : forall d u d', tx_iter (evaluate_event newid settings now) l d = inr (u, d') ->
  NoDup (map ae_ID l) -> (forall e, In e l -> exists t, alert_queue d !! ae_ID e = Some t /\ earlier (ae_ID e, t) x = true) ->
  (ahead x (alert_queue d') + length l = ahead x (alert_queue d))%nat.
Proof.
  induction l as [|e l IH]; intros d u d' Hr Hn Hin; cbn [tx_iter] in Hr; [injection Hr as _ <-; cbn; lia|].
  apply tx_bind_inr in Hr as (u1 & d1 & H1 & Hr). apply evaluate_event_frame in H1 as [Hq _]. apply NoDup_cons in Hn as [Hne Hn].
  pose proof (IH _ _ _ Hr Hn) as Hs. destruct (Hin e (or_introl eq_refl)) as (t & Ht & He).
  assert (ahead x (alert_queue d) = S (ahead x (alert_queue d1))) as ->.
  { unfold ahead. rewrite Hq, map_filter_delete, map_size_delete_Some; [|exists t; by apply map_lookup_filter_Some].
    assert (filter (fun q : string * Z => earlier q x = true) (alert_queue d) !! ae_ID e = Some t) as Hf by by apply map_lookup_filter_Some.
    assert (0 < size (filter (fun q : string * Z => earlier q x = true) (alert_queue d)))%nat; [|lia].
    destruct (size (filter _ _)) eqn:Ez; [|lia]. apply map_size_empty_inv in Ez. rewrite Ez in Hf. by rewrite lookup_empty in Hf. }
  cbn [length]. rewrite <- Hs; [lia|]. intros y Hy. rewrite Hq. destruct (Hin y (or_intror Hy)) as (ty & Hty & Hey). exists ty. split; [|done].
  rewrite lookup_delete_ne; [done|]. intros E. apply Hne. rewrite E. by apply list_elem_of_In, in_map.
Qed.

Lemma ahead_subseteq x t t' : t' ⊆ t -> (ahead x t' <= ahead x t)%nat.
Proof. intros Hs. apply map_subseteq_size. by apply map_filter_subseteq_mono. Qed.

(** The queue's events with the rows they come from, in order. *)
Lemma queued_events_in_order d : queue_linked d ->
  let l := merge_sort queued_le (map_to_list (alert_queue d)) in
  map ae_ID (queued_events d) = map fst l /\ StronglySorted queued_le l.
Proof.
  intros Hl. cbv zeta. split; [|apply StronglySorted_merge_sort; apply _]. unfold queued_events.
  pose proof (merge_sort_Permutation queued_le (map_to_list (alert_queue d))) as Hp. set (l := merge_sort _ _) in *.
  assert (forall q, In q l -> exists e, audit_events d !! q.1 = Some e /\ ae_ID e = q.1) as Hall.
  { intros [k t] Hq. apply list_elem_of_In in Hq. rewrite Hp in Hq. apply elem_of_map_to_list in Hq. by apply (Hl k t). }
  clear Hp. clearbody l. induction l as [|q l IH]; [done|]. destruct (Hall q (or_introl eq_refl)) as (e & He & Hi). cbn. rewrite He. cbn.
  rewrite IH; [by rewrite Hi|]. intros x Hx. apply Hall. by right.
Qed.

(** In a sorted list what comes before [x] is earlier, unless it is [x]. *)
Lemma sorted_prefix (l : list (string * Z)) n x : StronglySorted queued_le l -> NoDup (map fst l) -> In x l ->
  In x (firstn n l) \/ ((n <= length l)%nat /\ forall p, In p (firstn n l) -> earlier p x = true).
Proof.
  intros Hs Hn Hx. rewrite <- (firstn_skipn n l) in Hx, Hs, Hn. apply in_app_iff in Hx as [Hx|Hx]; [by left|right]. split.
  - destruct (Nat.leb_spec n (length l)); [done|]. rewrite skipn_all2 in Hx by lia. destruct Hx.
  - intros p Hp. apply queued_le_earlier.
    + eapply StronglySorted_app_1_elem_of; [exact Hs|by apply list_elem_of_In..].
    + rewrite map_app in Hn. apply NoDup_app in Hn as (_ & Hn & _). intros E. apply (Hn p.1); [apply list_elem_of_In; by apply in_map|].
      rewrite E. apply list_elem_of_In. by apply in_map.
Qed.

(** A batch takes [x], or five hundred rows ahead of it. *)
Lemma batch_in_order newid settings now d n d' x e : queue_linked d -> alert_queue d !! x.1 = Some x.2 -> audit_events d !! x.1 = Some e ->
  evaluateBatch newid settings now d = inr (n, d') ->
  only_alerts d d' /\ renewed now d d' /\
  ((alert_queue d' !! x.1 = Some x.2 /\ n = alertBatch /\ (ahead x (alert_queue d') + alertBatch <= ahead x (alert_queue d))%nat) \/
   (alert_queue d' !! x.1 = None /\ answered settings now e d d')).
Proof.
  intros Hl Hx He Hr. pose proof (batch_queue _ _ _ _ _ _ Hl Hr) as (_ & Hcount & _ & Hsub & _).
  unfold evaluateBatch in Hr. apply tx_bind_inr in Hr as (y & d0 & Hg & Hr). injection Hg as <- <-. cbv zeta in Hr.
  apply tx_bind_inr in Hr as (x1 & d1 & H1 & Hr). apply tx_bind_inr in Hr as (x2 & d2 & Hg & Hr). injection Hg as <- <-.
  apply tx_bind_inr in Hr as (x3 & d3 & Hg & Hr). injection Hg as _ <-. injection Hr as Hlen <-.
  set (d2 := on_alert_queue _ d1) in *. set (l := firstn alertBatch (queued_events d)) in *.
  assert (alert_queue d2 ⊆ alert_queue d1) as Hfil by apply map_filter_subseteq.
  pose proof (events_answered _ _ _ _ _ _ _ H1) as (O1 & N1 & A1 & S1).
  split; [eapply only_alerts_trans; [exact O1|apply only_alerts_on_queue]|]. split; [eapply renewed_trans; [exact N1|by apply renewed_same]|].
  destruct (queued_events_in_order d Hl) as [Hm Hs]. set (rows := merge_sort queued_le (map_to_list (alert_queue d))) in *.
  assert (rows ≡ₚ map_to_list (alert_queue d)) as Hp by apply merge_sort_Permutation.
  assert (NoDup (map fst rows)) as Hnd by (rewrite (Permutation_map fst Hp); apply NoDup_fst_map_to_list).
  assert (In x rows) as Hin. { apply list_elem_of_In. rewrite Hp. destruct x. by apply elem_of_map_to_list. }
  assert (map ae_ID l = map fst (firstn alertBatch rows)) as Hml by (unfold l; by rewrite <- firstn_map, Hm, firstn_map).
  destruct (sorted_prefix rows alertBatch x Hs Hnd Hin) as [Hfirst|[Hfull Hearly]].
  - right. assert (In x.1 (map ae_ID l)) as Hi by (rewrite Hml; by apply in_map). apply in_map_iff in Hi as (e' & He' & Hi).
    destruct (A1 e' Hi) as [Ha Hq]. assert (e' = e) as ->.
    { assert (In e' (queued_events d)) as Hi2 by (rewrite <- (firstn_skipn alertBatch (queued_events d)); apply in_or_app; by left).
      unfold queued_events in Hi2. apply list_elem_of_In, list_elem_of_omap in Hi2 as ([k t] & Hk & Hk2). cbn in Hk2.
      assert (is_Some (alert_queue d !! k)) as [t' Ht']. { exists t. apply elem_of_map_to_list. by rewrite <- Hp. }
      destruct (Hl _ _ Ht') as (e2 & He2 & Hid). rewrite Hk2 in He2. injection He2 as <-. rewrite Hid in He'. subst k. congruence. }
    split; [|eapply answered_after; [|exact Ha]; by apply renewed_same]. rewrite <- He'.
    destruct (alert_queue d2 !! ae_ID e) eqn:E; [|done]. eapply lookup_weaken in E; [|exact Hfil]. congruence.
  - left. assert (length l = alertBatch) as Hll.
    { unfold l. rewrite length_firstn. rewrite <- (length_map ae_ID (queued_events d)), Hm, length_map. lia. }
    assert (forall y, In y l -> exists t, alert_queue d !! ae_ID y = Some t /\ earlier (ae_ID y, t) x = true) as Hrow.
    { intros y Hy. apply (in_map ae_ID) in Hy. rewrite Hml in Hy. apply in_map_iff in Hy as ([k t] & Hk & Hkt). cbn in Hk. subst k. exists t.
      split; [|by apply (Hearly _ Hkt)]. apply elem_of_map_to_list. rewrite <- Hp. apply list_elem_of_In.
      rewrite <- (firstn_skipn alertBatch rows). apply in_or_app. by left. }
    assert (NoDup (map ae_ID l)) as Hndl.
    { rewrite Hml, <- firstn_map. eapply sublist_NoDup; [exact Hnd|apply sublist_take]. }
    pose proof (taken_ahead x _ _ _ _ _ _ _ H1 Hndl Hrow) as Hah. pose proof (ahead_subseteq x _ _ Hfil) as Hf.
    split; [|split; [by rewrite <- Hlen|rewrite Hll in Hah; lia]].
    assert (alert_queue d1 !! x.1 = Some x.2) as Hq1.
    { assert (forall y, In y l -> ae_ID y <> x.1) as Hneq.
      { intros y Hy E. destruct (Hrow y Hy) as (t & Ht & Hey). rewrite E in *. assert (t = x.2) as -> by congruence.
        unfold earlier in Hey. cbn [fst snd] in Hey. rewrite Z.ltb_irrefl, Z.eqb_refl in Hey. cbn in Hey. pose proof (string_ltb_asym _ _ Hey). congruence. }
      clearbody l. clear -H1 Hneq Hx. revert d H1 Hx. induction l as [|y l IH]; intros d H1 Hx; cbn [tx_iter] in H1; [by injection H1 as _ <-|].
      apply tx_bind_inr in H1 as (u & d2 & H2 & H1). apply evaluate_event_frame in H2 as [Hq _]. apply (IH (fun z Hz => Hneq z (or_intror Hz)) _ H1).
      rewrite Hq, lookup_delete_ne; [done|]. apply Hneq. by left. }
    unfold d2. cbn -[filter lookup]. apply map_lookup_filter_Some. split; [exact Hq1|]. cbn.
    assert (audit_events d1 = audit_events d) as -> by (destruct O1 as (? & ? & ? & ->); done). by rewrite He.
Qed.

Lemma batches_only newid settings now n : forall d d', evaluateBatches newid settings now n d = (inr tt, d') -> only_alerts d d' /\ renewed now d d'.
Proof.
  induction n as [|n IH]; intros d d' Hr; cbn [evaluateBatches] in Hr; [injection Hr as <-; split; [apply only_alerts_refl|by apply renewed_same]|].
  apply run_bind_inr in Hr as (k & d1 & H1 & Hr). apply commit_inr in H1. assert (only_alerts d d1 /\ renewed now d d1) as [O1 N1].
  { unfold evaluateBatch in H1. apply tx_bind_inr in H1 as (y & d0 & Hg & H1). injection Hg as <- <-. cbv zeta in H1.
    apply tx_bind_inr in H1 as (x1 & e1 & H2 & H1). apply tx_bind_inr in H1 as (x2 & d2 & Hg & H1). injection Hg as <- <-.
    apply tx_bind_inr in H1 as (x3 & d3 & Hg & H1). injection Hg as _ <-. injection H1 as _ <-. apply events_answered in H2 as (O1 & N1 & _).
    split; [eapply only_alerts_trans; [exact O1|apply only_alerts_on_queue]|eapply renewed_trans; [exact N1|by apply renewed_same]]. }
  destruct (Nat.ltb k alertBatch); [by injection Hr as <-|]. apply IH in Hr as [O2 N2].
  split; [by eapply only_alerts_trans|by eapply renewed_trans].
Qed.

Lemma batches_in_order newid settings now x e n : forall d d', queue_linked d -> alert_queue d !! x.1 = Some x.2 -> audit_events d !! x.1 = Some e ->
  evaluateBatches newid settings now n d = (inr tt, d') ->
  only_alerts d d' /\ renewed now d d' /\
  ((alert_queue d' !! x.1 = Some x.2 /\ (ahead x (alert_queue d') + n * alertBatch <= ahead x (alert_queue d))%nat) \/
   (alert_queue d' !! x.1 = None /\ answered settings now e d d')).
Proof.
  induction n as [|n IH]; intros d d' Hl Hx He Hr; cbn [evaluateBatches] in Hr.
  { injection Hr as <-. split_and!; [apply only_alerts_refl|by apply renewed_same|left; split; [done|lia]]. }
  apply run_bind_inr in Hr as (k & d1 & H1 & Hr). apply commit_inr in H1. pose proof (batch_queue _ _ _ _ _ _ Hl H1) as (Hl1 & _ & _ & _ & Hau).
  apply (batch_in_order _ _ _ _ _ _ x e) in H1 as (O1 & N1 & H1); [|done..]. destruct (Nat.ltb k alertBatch) eqn:Ek.
  - injection Hr as <-. split; [done|]. split; [done|]. destruct H1 as [(_ & -> & _)|H1]; [by rewrite Nat.ltb_irrefl in Ek|by right].
  - destruct H1 as [(Hq & _ & Ha)|[Hq Ha]].
    + apply IH in Hr as (O2 & N2 & H2); [|done|done|by rewrite Hau]. split; [by eapply only_alerts_trans|]. split; [by eapply renewed_trans|].
      destruct H2 as [[Hq2 Ha2]|[Hq2 Ha2]]; [left; split; [done|lia]|right; split; [done|by eapply answered_before]].
    + assert (only_alerts d1 d' /\ renewed now d1 d' /\ alert_queue d' ⊆ alert_queue d1) as (O2 & N2 & S2).
      { pose proof (batches_queue _ _ _ _ _ _ Hl1 Hr) as (_ & S2 & _). split_and!; [| |exact S2];
          by apply (batches_only _ _ _ _ _ _ Hr). }
      split; [by eapply only_alerts_trans|]. split; [by eapply renewed_trans|]. right. split; [|by eapply answered_after].
      destruct (alert_queue d' !! x.1) eqn:E; [|done]. eapply lookup_weaken in E; [|exact S2]. congruence.
Qed.

Lemma outages_renew newid settings now d u d' : evaluateOutages newid settings now d = inr (u, d') -> only_alerts d d' /\ renewed now d d'.
Proof.
  intros Hr. unfold evaluateOutages in Hr. apply tx_bind_inr in Hr as (x & d0 & He & Hr). injection He as <- <-. cbv zeta in Hr.
  apply tx_bind_inr in Hr as (x1 & d1 & H1 & Hr). apply tx_bind_inr in Hr as (x2 & d2 & He & Hr). injection He as <- <-.
  assert (only_alerts d d1 /\ renewed now d d1) as [O1 N1].
  { apply (tx_iter_preserves (fun e => only_alerts d e /\ renewed now d e)) in H1; [done| |split; [apply only_alerts_refl|by apply renewed_same]].
    intros o e v e' _ [Q1 Q2] Hn. unfold note_outage in Hn. apply tx_bind_inr in Hn as (y & e0 & Hg & Hn). injection Hg as <- <-.
    destruct (find_where _ _) as [[id a]|] eqn:Ef.
    - injection Hn as _ <-. apply find_where_Some in Ef as [Ha _]. split; [eapply only_alerts_trans; [exact Q1|apply only_alerts_on_alerts]|].
      eapply renewed_trans; [exact Q2|]. eapply renewed_write; [exact Ha|]. intros rule key (R & K & S & _) _. by split_and!.
    - cbv zeta in Hn. apply tx_bind_inr in Hn as (y1 & e1 & Hi & Hn). apply insert_alert_inv in Hi as (_ & Hf & ->).
      apply only_alerts_deliveries in Hn as [Ho Ha]. split.
      + eapply only_alerts_trans; [exact Q1|]. eapply only_alerts_trans; [apply only_alerts_on_alerts|exact Ho].
      + eapply renewed_trans; [exact Q2|]. eapply renewed_trans; [by apply renewed_insert|by apply renewed_same]. }
  set (P := fun e => only_alerts d e /\ renewed now d e /\
    forall k a, alerts e !! k = Some a -> exists a0, alerts d1 !! k = Some a0 /\ al_Rule a = al_Rule a0).
  apply (tx_iter_preserves P) in Hr; [by destruct Hr as (? & ? & _)| |unfold P; split_and!; [done|done|eauto]].
  intros [k0 a0] e v e' Hin (Q1 & Q2 & Q3) Hn. apply tx_bind_inr in Hn as (y & e1 & Hi & Hn). injection Hi as _ <-. cbn [fst] in *.
  apply list_elem_of_In, elem_of_map_to_list, lookup_where in Hin as [Hk0 Hst]. unfold stale_outage in Hst. bool_hyps.
  apply only_alerts_deliveries in Hn as [Ho Ha]. unfold P. split; [|split].
  - eapply only_alerts_trans; [exact Q1|]. eapply only_alerts_trans; [apply only_alerts_on_alerts|exact Ho].
  - eapply renewed_trans; [exact Q2|]. intros k a rule key Hk Hs Hor. rewrite Ha. cbn -[lookup alter]. destruct (decide (k = k0)) as [->|Hne].
    + exfalso. destruct (Q3 _ _ Hk) as (a1 & Hk1 & Hr1). destruct Hs as (<- & _). unfold outage_rule in Hor.
      rewrite Hk0 in Hk1. injection Hk1 as <-. rewrite Hr1 in Hor. congruence.
    + rewrite lookup_alter_ne by done. eauto.
  - intros k a Hk. rewrite Ha in Hk. cbn -[lookup alter] in Hk. destruct (decide (k = k0)) as [->|Hne].
    + rewrite lookup_alter_eq in Hk. destruct (alerts e !! k0) as [a1|] eqn:E1; [|done]. injection Hk as <-. destruct (Q3 _ _ E1) as (a2 & Hk2 & Hr2). by exists a2.
    + rewrite lookup_alter_ne in Hk by done. by apply Q3.
Qed.

(** An evaluation takes [x], answering for it, or five thousand rows ahead of it. *)
Lemma evaluation_in_order newid now d d' x e : queue_linked d -> alert_queue d !! x.1 = Some x.2 -> audit_events d !! x.1 = Some e ->
  EvaluateAlerts newid now d = (inr tt, d') ->
  (alert_queue d' !! x.1 = Some x.2 /\ (ahead x (alert_queue d') + alertMaxBatches * alertBatch <= ahead x (alert_queue d))%nat) \/
  (alert_queue d' !! x.1 = None /\ exists settings, GetAlertSettings d = inr settings /\ answered settings now e d d').
Proof.
  intros Hl Hx He Hr. unfold EvaluateAlerts in Hr. apply run_bind_inr in Hr as (y & d0 & Hg & Hr). injection Hg as <- <-.
  destruct (GetAlertSettings d) as [er|settings]; [done|]. apply run_bind_inr in Hr as (x1 & d1 & Hg & Hr). injection Hg as _ <-.
  apply run_bind_inr in Hr as (x2 & d2 & H2 & Hr). apply commit_inr in Hr. destruct x2. set (d1 := resolveQuietLoginAlerts settings now d) in *.
  assert (only_alerts d d1) as O1 by apply only_alerts_on_alerts. pose proof (outages_frame _ _ _ _ _ _ Hr) as [Hq _]. apply outages_renew in Hr as [_ N3].
  destruct (batches_in_order _ _ _ x e _ d1 d2 Hl Hx He H2) as (_ & _ & H3). rewrite Hq. destruct H3 as [H3|[H3 Ha]]; [by left|right].
  split; [done|]. exists settings. split; [done|]. eapply answered_after; [exact N3|]. by eapply answered_before.
Qed.

(** Evaluations that succeed, events recorded meanwhile, and whatever leaves
    both tables alone; with how many evaluations there were and how many of
    the events went ahead of [x]. *)
Inductive evaluated_while (x : string * Z) : nat -> nat -> DB -> DB -> Prop :=
| ew_done d : evaluated_while x 0 0 d d
| ew_pass newid now n k d d1 d2 : evaluated_while x n k d d1 -> EvaluateAlerts newid now d1 = (inr tt, d2) -> evaluated_while x (S n) k d d2
| ew_event e now n k d d1 d2 : evaluated_while x n k d d1 -> recordAuditTx (Some e) now d1 = inr (tt, d2) ->
    evaluated_while x n (if earlier (ae_ID e, if ae_CreatedAt e =? 0 then now else ae_CreatedAt e) x then S k else k) d d2
| ew_other n k d d1 d2 : evaluated_while x n k d d1 -> alert_queue d2 = alert_queue d1 -> audit_events d2 = audit_events d1 -> evaluated_while x n k d d2.

Lemma record_queue e now d d' : recordAuditTx (Some e) now d = inr (tt, d') -> queue_linked d ->
  queue_linked d' /\ audit_events d !! ae_ID e = None /\ (forall id, id <> ae_ID e -> audit_events d' !! id = audit_events d !! id) /\
  alert_queue d' = <[ae_ID e := if ae_CreatedAt e =? 0 then now else ae_CreatedAt e]> (alert_queue d).
Proof.
  intros Hr Hl. unfold recordAuditTx in Hr. set (e0 := if ae_CreatedAt e =? 0 then set_ae_CreatedAt now e else e) in *.
  assert (ae_ID e0 = ae_ID e /\ ae_CreatedAt e0 = if ae_CreatedAt e =? 0 then now else ae_CreatedAt e) as [Hid Hat] by (unfold e0; by destruct (_ =? 0)).
  apply tx_bind_inr in Hr as ([] & d1 & H1 & Hr). apply insert_row_inv in H1 as [Hn ->]. unfold tx_set in Hr. injection Hr as <-. rewrite Hid, Hat in *.
  split; [|split; [done|split; [|done]]].
  - intros k t Hk. change (<[ae_ID e := if ae_CreatedAt e =? 0 then now else ae_CreatedAt e]> (alert_queue d) !! k = Some t) in Hk.
    change (exists x, <[ae_ID e:=e0]> (audit_events d) !! k = Some x /\ ae_ID x = k).
    apply lookup_insert_Some in Hk as [[<- _]|[Hne Hk]]; [exists e0; by rewrite lookup_insert_eq|].
    rewrite lookup_insert_ne by done. by apply (Hl k t).
  - intros id Hne. change (<[ae_ID e:=e0]> (audit_events d) !! id = audit_events d !! id). by rewrite lookup_insert_ne.
Qed.

Lemma ahead_insert x t k v : t !! k = None -> ahead x (<[k := v]> t) = if earlier (k, v) x then S (ahead x t) else ahead x t.
Proof.
  intros Hn. unfold ahead. rewrite map_filter_insert. destruct (decide _) as [E|E].
  - rewrite E. rewrite map_size_insert_None; [done|]. apply map_lookup_filter_None. by left.
  - apply not_true_iff_false in E. rewrite E. by rewrite delete_id.
Qed.

(** The event was taken by one of the evaluations, which answered for it. *)
Definition evaluated_once (x : string * Z) (e : AuditEvent) (d d' : DB) : Prop :=
  exists newid now settings n1 k1 n2 k2 dA dB, evaluated_while x n1 k1 d dA /\ EvaluateAlerts newid now dA = (inr tt, dB) /\
    evaluated_while x n2 k2 dB d' /\ alert_queue dA !! x.1 = Some x.2 /\ alert_queue dB !! x.1 = None /\
    GetAlertSettings dA = inr settings /\ answered settings now e dA dB.

Lemma evaluated_while_queue x e d : queue_linked d -> alert_queue d !! x.1 = Some x.2 -> audit_events d !! x.1 = Some e ->
  forall n k d', evaluated_while x n k d d' -> queue_linked d' /\ audit_events d' !! x.1 = Some e /\
  ((alert_queue d' !! x.1 = Some x.2 /\ (ahead x (alert_queue d') + n * (alertMaxBatches * alertBatch) <= ahead x (alert_queue d) + k)%nat) \/
   (alert_queue d' !! x.1 = None /\ evaluated_once x e d d')).
Proof.
  intros Hl Hx He n k d' Hw.
  induction Hw as [d|newid now n k d d1 d2 Hw IH Hr|e0 now n k d d1 d2 Hw IH Hr|n k d d1 d2 Hw IH Hq Ha].
  - split; [done|]. split; [done|]. left. split; [done|lia].
  - destruct (IH Hl Hx He) as (Hl1 & He1 & H1). destruct (evaluation_queue _ _ _ _ Hl1 Hr) as (_ & Hsub & Hau).
    split; [intros j t Hj; rewrite Hau; apply (Hl1 j t); by eapply lookup_weaken|]. split; [by rewrite Hau|].
    destruct H1 as [[Hq1 Ha1]|[Hq1 (newid0 & now0 & settings & n1 & k1 & n2 & k2 & dA & dB & W1 & E1 & W2 & R)]].
    + destruct (evaluation_in_order _ _ _ _ _ _ Hl1 Hq1 He1 Hr) as [[Hq2 Ha2]|(Hq2 & settings & Hset & Hans)].
      * left. split; [done|]. rewrite Nat.mul_succ_l. lia.
      * right. split; [done|]. exists newid, now, settings, n, k, 0%nat, 0%nat, d1, d2. split_and!; [done|done|constructor|done..].
    + right. split.
      * destruct (alert_queue d2 !! x.1) eqn:E; [|done]. eapply lookup_weaken in E; [|exact Hsub]. congruence.
      * exists newid0, now0, settings, n1, k1, (S n2), k2, dA, dB. split_and!; try apply R; [done|done|by eapply ew_pass].
  - destruct (IH Hl Hx He) as (Hl1 & He1 & H1). destruct (record_queue _ _ _ _ Hr Hl1) as (Hl2 & Hn & Hka & Hq).
    assert (x.1 <> ae_ID e0) as Hne by congruence. split; [done|]. split; [by rewrite Hka|]. rewrite Hq.
    assert (alert_queue d1 !! ae_ID e0 = None) as Hqn. { destruct (alert_queue d1 !! ae_ID e0) as [t|] eqn:E; [|done]. apply Hl1 in E as (? & ? & _). congruence. }
    rewrite lookup_insert_ne by done. destruct H1 as [[Hq1 Ha1]|[Hq1 (newid0 & now0 & settings & n1 & k1 & n2 & k2 & dA & dB & W1 & E1 & W2 & R)]].
    + left. split; [done|]. rewrite ahead_insert by done. destruct (earlier _ x); lia.
    + right. split; [done|]. exists newid0, now0, settings, n1, k1, n2, (if earlier (ae_ID e0, if ae_CreatedAt e0 =? 0 then now else ae_CreatedAt e0) x then S k2 else k2), dA, dB.
      split_and!; try apply R; [done|done|by eapply ew_event].
  - destruct (IH Hl Hx He) as (Hl1 & He1 & H1). split; [intros j t; rewrite Hq, Ha; apply Hl1|]. split; [by rewrite Ha|]. rewrite Hq.
    destruct H1 as [H1|[Hq1 (newid0 & now0 & settings & n1 & k1 & n2 & k2 & dA & dB & W1 & E1 & W2 & R)]]; [by left|right]. split; [done|].
    exists newid0, now0, settings, n1, k1, n2, k2, dA, dB. split_and!; try apply R; [done|done|by eapply ew_other].
Qed.

(** C39. Every queued event is evaluated in the end, in the order of recording:
    once the successful evaluations, five thousand events each, could have
    taken all that were queued ahead of it and all recorded since that
    belong ahead of it - later ones never delay it - it is off the queue and
    still in the audit trail, and right after the evaluation that took it,
    if its rule calls for an alert, an alert of that rule and key stands
    open, last seen at that evaluation. *)
Theorem every_event_is_evaluated_in_the_end id at_ e d n k d' :
  queue_linked d -> alert_queue d !! id = Some at_ -> audit_events d !! id = Some e -> evaluated_while (id, at_) n k d d' ->
  (ahead (id, at_) (alert_queue d) + k < n * 5000)%nat ->
  alert_queue d' !! id = None /\ audit_events d' !! id = Some e /\
  exists newid now settings dA dB n1 k1 n2 k2, evaluated_while (id, at_) n1 k1 d dA /\ EvaluateAlerts newid now dA = (inr tt, dB) /\
    evaluated_while (id, at_) n2 k2 dB d' /\ alert_queue dA !! id = Some at_ /\ alert_queue dB !! id = None /\ GetAlertSettings dA = inr settings /\
    forall s, classifyTx dA e settings now = Some s -> exists aid a, alerts dB !! aid = Some a /\ al_Rule a = sp_rule s /\
      al_Status a = "open"%string /\ al_LastSeen a = now /\
      (al_Key a = sp_key s \/ (sp_rule s = "login_failures"%string /\ (al_Key a = "many-sources"%string \/ al_Key a = failure_source e))).
Proof.
  intros Hl Hx He Hw Hn. destruct (evaluated_while_queue (id, at_) e d Hl Hx He n k d' Hw) as (_ & Ha & H). cbn [fst snd] in *.
  split; [|split; [done|]]; (destruct H as [[_ Hs]|[Hq H]]; [exfalso; change (alertMaxBatches * alertBatch)%nat with 5000%nat in Hs; lia|]); [done|].
  destruct H as (newid & now & settings & n1 & k1 & n2 & k2 & dA & dB & W1 & E1 & W2 & QA & QB & Hset & Hans). cbn [fst snd] in *.
  exists newid, now, settings, dA, dB, n1, k1, n2, k2. do 6 (split; [done|]). intros s Hs.
  destruct (Hans s Hs) as (aid & a & key & H1 & (H2 & <- & H4 & H5) & H6). by exists aid, a.
Qed.

(** *** Mail *)

Lemma backoff_bounds n : forall d, minute <= d -> minute <= backoff n d.
Proof. induction n as [|n IH]; intros d Hd; cbn [backoff]; [done|]. destruct (_ <? _); [|done]. apply IH. unfold minute, second in *. lia. Qed.

(** A retry waits a minute at least and six hours at most. *)
Lemma alertBackoff_bounds attempts : minute <= alertBackoff attempts <= 6 * hour.
Proof.
  unfold alertBackoff. pose proof (backoff_bounds (Z.to_nat (attempts - 1)) minute ltac:(done)).
  assert (minute <= 6 * hour) by (vm_compute; discriminate). lia.
Qed.

(** What a pass does to a row it takes up. *)
Definition handled (now : Z) (d : DB) (r r' : AlertDeliveryRow) : Prop :=
  (alertReaderTx now d (ad_UserID r) = None /\ r' = skipped now r) \/
  (is_Some (alertReaderTx now d (ad_UserID r)) /\ exists err, r' = attempted now r err r).

(** The message a row owes, to an address that may still read alerts. *)
Definition owed_mail (rfc3339 : Z -> string) (now : Z) (d : DB) (x : Z * AlertDeliveryRow * Alert) (m : Mail) : Prop :=
  exists u, users d !! ad_UserID x.1.2 = Some u /\ alertReader now d u = true /\ u_Email u <> EmptyString /\
    m = alert_mail rfc3339 (u_Email u) (ad_Kind x.1.2) x.2.

Lemma handled_not_due now d r r' : handled now d r r' -> due_delivery now r' = false.
Proof.
  unfold due_delivery. intros [[_ ->]|(_ & err & ->)]; [done|]. unfold attempted. destruct err as [e|]; [|done].
  destruct (_ <=? _); [done|]. cbn. pose proof (alertBackoff_bounds (ad_Attempts r + 1)). assert (0 < minute) by done.
  apply andb_false_iff. right. apply Z.leb_gt. lia.
Qed.

Lemma reader_owed rfc3339 now d x email : alertReaderTx now d (ad_UserID x.1.2) = Some email ->
  owed_mail rfc3339 now d x (alert_mail rfc3339 email (ad_Kind x.1.2) x.2).
Proof.
  unfold alertReaderTx. destruct (users d !! _) as [u|] eqn:Eu; [|done]. destruct (alertReader now d u && _) eqn:Ea; [|done]. intros [= <-].
  bool_hyps. by exists u.
Qed.

(** The end of a row taken up: dealt with, unless the pass was cut short. *)
Definition row_after (ended : Z -> bool) (now : Z) (d d' : DB) (x : Z * AlertDeliveryRow * Alert) : Prop :=
  exists r', alert_deliveries d' !! x.1.1 = Some r' /\ ((r' = x.1.2 /\ exists id, ended id = true) \/ handled now d x.1.2 r').

Lemma deliver_step ended now d d' id r a f (l : list (Z * AlertDeliveryRow * Alert)) : alert_deliveries d !! id = Some r -> handled now d r (f r) ->
  NoDup (map (fun x : Z * AlertDeliveryRow * Alert => x.1.1) ((id, r, a) :: l)) ->
  (forall k, k ∉ map (fun x : Z * AlertDeliveryRow * Alert => x.1.1) l -> alert_deliveries d' !! k = alert_deliveries (on_alert_deliveries (alter f id) d) !! k) ->
  (forall x, In x l -> row_after ended now (on_alert_deliveries (alter f id) d) d' x) ->
  (forall k, k ∉ map (fun x : Z * AlertDeliveryRow * Alert => x.1.1) ((id, r, a) :: l) -> alert_deliveries d' !! k = alert_deliveries d !! k) /\
  (forall x, In x ((id, r, a) :: l) -> row_after ended now d d' x).
Proof.
  intros Hid Hh Hn Hout Hin. apply NoDup_cons in Hn as [Hni Hn]. cbn [fst] in Hni. split.
  - intros k Hk. apply not_elem_of_cons in Hk as [Hne Hk]. rewrite Hout by done. cbn -[lookup alter]. by rewrite lookup_alter_ne.
  - intros x [<-|Hx]; [|by apply Hin]. exists (f r). split; [|by right]. cbn [fst]. rewrite Hout by done. cbn -[lookup alter].
    by rewrite lookup_alter_eq, Hid.
Qed.

Lemma deliver_spec rfc3339 send ended now l : forall d mails d', deliver_batch rfc3339 send ended now l d = (mails, d') ->
  NoDup (map (fun x : Z * AlertDeliveryRow * Alert => x.1.1) l) -> (forall x, In x l -> alert_deliveries d !! x.1.1 = Some x.1.2) ->
  (exists sent, sent `sublist_of` l /\ Forall2 (owed_mail rfc3339 now d) sent mails) /\
  (forall k, k ∉ map (fun x : Z * AlertDeliveryRow * Alert => x.1.1) l -> alert_deliveries d' !! k = alert_deliveries d !! k) /\
  (forall x, In x l -> row_after ended now d d' x).
Proof.
  induction l as [|[[id r] a] l IH]; intros d mails d' Hr Hn Hin; cbn [deliver_batch] in Hr.
  { injection Hr as <- <-. split; [by exists []|done]. }
  pose proof (Hin _ (or_introl eq_refl)) as Hid. cbn [fst snd] in Hid. pose proof Hn as Hn0. apply NoDup_cons in Hn0 as [Hni Hnl].
  assert (forall f x, In x l -> alert_deliveries (on_alert_deliveries (alter f id) d) !! x.1.1 = Some x.1.2) as Hin2.
  { intros f x Hx. cbn -[lookup alter]. rewrite lookup_alter_ne; [apply Hin; by right|]. intros E. apply Hni. cbn [fst]. rewrite E. by apply list_elem_of_In, (in_map (fun x : Z * AlertDeliveryRow * Alert => x.1.1)). }
  destruct (alertReaderTx now d (ad_UserID r)) as [email|] eqn:Ee.
  - destruct (ended id) eqn:Een.
    { injection Hr as <- <-. split; [exists []; split; [apply sublist_nil_l|done]|]. split; [done|]. intros x Hx. exists x.1.2. split; [by apply Hin|]. left. split; [done|by exists id]. }
    destruct (deliver_batch _ _ _ _ l _) as [rest d2] eqn:Ed. injection Hr as <- <-.
    apply IH in Ed as ((sent & Hs & Hf) & Hout & Hrows); [|done|by apply Hin2]. split.
    + exists ((id, r, a) :: sent). split; [by apply sublist_skip|]. constructor; [by apply reader_owed|exact Hf].
    + eapply (deliver_step _ _ _ _ _ _ a (attempted now r (send (alert_mail rfc3339 email (ad_Kind r) a)))); [done| |done|done|done]. right. split; [by rewrite Ee|by eexists].
  - apply IH in Hr as ((sent & Hs & Hf) & Hout & Hrows); [|done|by apply Hin2]. split.
    + exists sent. split; [by apply sublist_cons|exact Hf].
    + eapply (deliver_step _ _ _ _ _ _ a (skipped now)); [done| |done|done|done]. by left.
Qed.

Lemma omap_nodup {A B K} (f : A -> option B) (g : B -> K) (h : A -> K) l : (forall x y, f x = Some y -> g y = h x) -> NoDup (map h l) -> NoDup (map g (omap f l)).
Proof.
  intros Hf. induction l as [|x l IH]; intros Hn; [done|]. apply NoDup_cons in Hn as [Hx Hn]. cbn. destruct (f x) as [y|] eqn:E; [|by apply IH].
  cbn. apply NoDup_cons. split; [|by apply IH]. rewrite (Hf x y E). intros Hi. apply Hx. apply list_elem_of_In, in_map_iff in Hi as (z & Hz & Hi).
  apply list_elem_of_In, list_elem_of_omap in Hi as (w & Hw & Hwz). rewrite <- Hz, (Hf w z Hwz). apply list_elem_of_In, in_map. by apply list_elem_of_In.
Qed.

Lemma omap_length_le {A B} (f : A -> option B) l : (length (omap f l) <= length l)%nat.
Proof. induction l as [|x l IH]; [done|]. cbn. destruct (f x); cbn; lia. Qed.

Lemma due_batch_nodup now d : NoDup (map (fun x : Z * AlertDeliveryRow * Alert => x.1.1) (due_batch now d)).
Proof.
  unfold due_batch. rewrite <- firstn_map. eapply sublist_NoDup; [|apply sublist_take].
  apply (omap_nodup _ _ fst); [|rewrite (Permutation_map fst (merge_sort_Permutation _ _)); apply NoDup_fst_map_to_list].
  intros kv y Hy. destruct (alerts d !! _); [|done]. by injection Hy as <-.
Qed.

Lemma due_batch_complete now d id r a : (size (where_ (due_delivery now) (alert_deliveries d)) <= 50)%nat ->
  alert_deliveries d !! id = Some r -> due_delivery now r = true -> alerts d !! ad_AlertID r = Some a -> In (id, r, a) (due_batch now d).
Proof.
  intros Hs Hk Hd Ha. unfold due_batch. rewrite take_ge.
  - apply list_elem_of_In, list_elem_of_omap. exists (id, r). split; [|cbn; by rewrite Ha]. rewrite merge_sort_Permutation.
    apply elem_of_map_to_list, lookup_where. by split.
  - etrans; [apply omap_length_le|]. rewrite (Permutation_length (merge_sort_Permutation _ _)), length_map_to_list. exact Hs.
Qed.

Lemma map_sublist {A B} (f : A -> B) l l' : l `sublist_of` l' -> map f l `sublist_of` map f l'.
Proof. induction 1; cbn; [done|by apply sublist_skip|by apply sublist_cons]. Qed.

(** A delivery pass sends at most fifty messages, each for a different due
    row and to the current address of an account that may read alerts at
    that moment; every row is unchanged, skipped or attempted once, and when
    the pass is not cut short and at most fifty are due, none is due
    afterwards. *)
Theorem mail_goes_to_readers_once rfc3339 send ended now d mails d' : DeliverAlerts rfc3339 send ended now d = (mails, d') ->
  (exists sent, NoDup (map (fun x : Z * AlertDeliveryRow * Alert => x.1.1) sent) /\ (length sent <= 50)%nat /\ Forall2 (owed_mail rfc3339 now d) sent mails /\
    Forall (fun x => alert_deliveries d !! x.1.1 = Some x.1.2 /\ due_delivery now x.1.2 = true /\ alerts d !! ad_AlertID x.1.2 = Some x.2) sent) /\
  (forall id r', alert_deliveries d' !! id = Some r' -> exists r, alert_deliveries d !! id = Some r /\
     (r' = r \/ (due_delivery now r = true /\ handled now d r r' /\ due_delivery now r' = false))) /\
  ((forall id, ended id = false) -> (size (where_ (due_delivery now) (alert_deliveries d)) <= 50)%nat ->
   (forall id r, alert_deliveries d !! id = Some r -> is_Some (alerts d !! ad_AlertID r)) ->
   forall id r', alert_deliveries d' !! id = Some r' -> due_delivery now r' = false).
Proof.
  intros Hr. pose proof (due_batch_nodup now d) as Hn. assert (forall x, In x (due_batch now d) -> alert_deliveries d !! x.1.1 = Some x.1.2) as Hin by (intros x Hx; by apply due_batch_spec in Hx as [Hx _]).
  apply deliver_spec in Hr as ((sent & Hs & Hf) & Hout & Hrows); [|done|done].
  assert (forall id r', alert_deliveries d' !! id = Some r' -> (id ∉ map (fun x : Z * AlertDeliveryRow * Alert => x.1.1) (due_batch now d) /\ alert_deliveries d !! id = Some r') \/
    exists x, In x (due_batch now d) /\ x.1.1 = id /\ ((r' = x.1.2 /\ exists i, ended i = true) \/ handled now d x.1.2 r')) as Hcase.
  { intros id r' Hk. destruct (decide (id ∈ map (fun x : Z * AlertDeliveryRow * Alert => x.1.1) (due_batch now d))) as [Hi|Hi]; [|left; by rewrite <- Hout].
    right. apply list_elem_of_In, in_map_iff in Hi as (x & <- & Hx). exists x. split_and!; [done|done|]. destruct (Hrows x Hx) as (r2 & Hr2 & Hc).
    rewrite Hr2 in Hk. by injection Hk as <-. }
  split; [|split].
  - exists sent. split; [eapply sublist_NoDup; [exact Hn|by apply map_sublist]|]. split; [|split; [done|]].
    + etrans; [by apply sublist_length|]. unfold due_batch. rewrite length_take. lia.
    + apply Forall_forall. intros x Hx. apply due_batch_spec, list_elem_of_In. by eapply elem_of_sublist.
  - intros id r' Hk. destruct (Hcase id r' Hk) as [[_ Hk2]|(x & Hx & <- & Hc)]; [exists r'; split; [done|by left]|].
    apply due_batch_spec in Hx as (Hx & Hd & _). exists x.1.2. split; [done|]. destruct Hc as [[-> _]|Hh]; [by left|right].
    split_and!; [done|done|by eapply handled_not_due].
  - intros He Hsz Hfk id r' Hk. destruct (Hcase id r' Hk) as [[Hi Hk2]|(x & Hx & <- & [[_ [i Hc]]|Hh])]; [|by rewrite He in Hc|by eapply handled_not_due].
    destruct (due_delivery now r') eqn:Ed; [|done]. exfalso. destruct (Hfk id r' Hk2) as [a Ha]. apply Hi.
    apply list_elem_of_In, in_map_iff. exists (id, r', a). split; [done|]. by apply due_batch_complete.
Qed.

(** ** Witnesses *)

Definition sample_event (id action target : string) (at_ : Z) : AuditEvent :=
  MkAuditEvent id "bob" "bob" action target "user" "192.0.2.1" "failure" JNull at_.

(** Two queued events of one cause, alice receiving the mail. *)
Definition alert_db : DB :=
  on_system_settings <[alertSettingsKey := settings_json (MkAlertSettings 10 600 ["alice"%string])]> (
  on_audit_events (fun _ => {[ "e1" := sample_event "e1" "auth.mfa_push_fatigue" "bob" t0; "e2" := sample_event "e2" "auth.mfa_push_fatigue" "bob" (t0 + second) ]}%string) (
  on_alert_queue (fun _ => {[ "e1" := t0; "e2" := t0 + second ]}%string) sample_db)).

Definition sample_alert_id (n : nat) (rule key : string) : string := concat_all [rule; "/"; key]%string.
Definition evaluated_run : (StoreError + unit) * DB := EvaluateAlerts sample_alert_id (t0 + minute) alert_db.
Definition evaluated_db : DB := evaluated_run.2.

Lemma no_alerts_ok d : alerts d = ∅ -> alert_deliveries d = ∅ -> alerts_ok d.
Proof.
  intros Ha Hd. unfold alerts_ok. rewrite Ha, Hd. split; [|split].
  - intros rule key. vm_compute. discriminate.
  - vm_compute. discriminate.
  - intros k r Hk. by rewrite lookup_empty in Hk.
Qed.

Definition raised_db : DB := match evaluateBatch (sample_alert_id 0) (MkAlertSettings 10 600 ["alice"%string]) (t0 + minute) alert_db with inr (_, d) => d | inl _ => alert_db end.

Lemma one_live_alert_per_cause_witness : rtc alert_step alert_db raised_db /\ alerts_ok raised_db /\
  (exists a, alerts raised_db !! "push_fatigue/bob"%string = Some a /\ al_Count a = 2).
Proof.
  assert (rtc alert_step alert_db raised_db) as Hs.
  { apply rtc_once. unfold raised_db. destruct (evaluateBatch _ _ _ alert_db) as [e|[n d]] eqn:E; [|by eapply as_batch].
    apply as_other; reflexivity. }
  split; [exact Hs|]. split.
  - apply (one_live_alert_per_cause alert_db raised_db); [|exact Hs]. apply no_alerts_ok; vm_compute; reflexivity.
  - eexists. split; [vm_compute; reflexivity|]. reflexivity.
Defined.

Lemma evaluation_drains_the_queue_witness : evaluated_run.1 = inr tt /\ size (alert_queue alert_db) = 2%nat /\
  size (alert_queue evaluated_db) = 0%nat.
Proof.
  assert (evaluated_run.1 = inr tt) as Hr by (vm_compute; reflexivity).
  assert (size (alert_queue alert_db) = 2%nat) as H2 by (vm_compute; reflexivity). split; [exact Hr|]. split; [exact H2|].
  destruct (evaluation_drains_the_queue sample_alert_id (t0 + minute) alert_db evaluated_db) as [Hs _].
  - intros k t Hk. assert (all_rows (fun k _ => match audit_events alert_db !! k with Some e => ae_ID e =?s k | None => false end) (alert_queue alert_db) = true) as Ha by (vm_compute; reflexivity).
    pose proof (proj1 (all_rows_true _ _) Ha _ _ Hk) as Hx. cbn beta in Hx. destruct (audit_events alert_db !! k) as [e|]; [|discriminate Hx].
    exists e. split; [reflexivity|by apply streqb_true].
  - unfold evaluated_db, evaluated_run in *. rewrite <- Hr. apply surjective_pairing.
  - rewrite Hs, H2. vm_compute. reflexivity.
Defined.

Lemma every_event_is_evaluated_in_the_end_witness : exists e a, audit_events evaluated_db !! "e1"%string = Some e /\
  alert_queue evaluated_db !! "e1"%string = None /\ alerts evaluated_db !! "push_fatigue/bob"%string = Some a /\ al_Status a = "open"%string.
Proof.
  destruct (every_event_is_evaluated_in_the_end "e1" t0 (sample_event "e1" "auth.mfa_push_fatigue" "bob" t0) alert_db 1 0 evaluated_db) as (Hq & He & _).
  - intros k x Hk. assert (all_rows (fun k _ => match audit_events alert_db !! k with Some e => ae_ID e =?s k | None => false end) (alert_queue alert_db) = true) as Ha by (vm_compute; reflexivity).
    pose proof (proj1 (all_rows_true _ _) Ha _ _ Hk) as Hx. cbn beta in Hx. destruct (audit_events alert_db !! k) as [e|]; [|discriminate Hx].
    exists e. split; [reflexivity|by apply streqb_true].
  - vm_compute. reflexivity.
  - vm_compute. reflexivity.
  - apply (ew_pass ("e1"%string, t0) sample_alert_id (t0 + minute) 0 0 alert_db alert_db evaluated_db); [constructor|].
    assert (evaluated_run.1 = inr tt) as Hr by (vm_compute; reflexivity). unfold evaluated_db, evaluated_run in *. rewrite <- Hr. apply surjective_pairing.
  - apply Nat.ltb_lt. vm_compute. reflexivity.
  - assert (match alerts evaluated_db !! "push_fatigue/bob"%string with Some a => al_Status a =?s "open" | None => false end = true) as Hs by (vm_compute; reflexivity).
    destruct (alerts evaluated_db !! "push_fatigue/bob"%string) as [a|]; [|discriminate Hs]. eexists _, a. split; [exact He|]. split; [exact Hq|]. split; [reflexivity|].
    by apply streqb_true.
Defined.

Definition delivery_run : list Mail * DB := DeliverAlerts (fun _ => "2026"%string) (fun _ => None) (fun _ => false) (t0 + minute) evaluated_db.

Lemma mail_goes_to_readers_once_witness : map m_to delivery_run.1 = ["alice@example.org"%string] /\
  forall id r', alert_deliveries delivery_run.2 !! id = Some r' -> due_delivery (t0 + minute) r' = false.
Proof.
  split; [vm_compute; reflexivity|].
  destruct (mail_goes_to_readers_once (fun _ => "2026"%string) (fun _ => None) (fun _ => false) (t0 + minute) evaluated_db delivery_run.1 delivery_run.2) as (_ & _ & Hl).
  - apply surjective_pairing.
  - apply Hl; [reflexivity|apply Nat.leb_le; vm_compute; reflexivity|]. intros id r Hk.
    assert (all_rows (fun _ r => negb (is_null (alerts evaluated_db !! ad_AlertID r))) (alert_deliveries evaluated_db) = true) as Ha by (vm_compute; reflexivity).
    pose proof (proj1 (all_rows_true _ _) Ha _ _ Hk) as Hx. cbn beta in Hx. by destruct (alerts evaluated_db !! ad_AlertID r).
Defined.

(** A failed removal in the group [Engineering] is reported by identifier. *)
Example a_failed_group_removal_is_not_named :
  sp_summary (classify_removal (on_directory_groups (fun _ => {[ "g1" := MkGroup "g1" "Engineering" EmptyString EmptyString EmptyString t0 t0 ]}%string) sample_db)
    (MkAuditEvent "e1" EmptyString EmptyString "group.membership_expiry_failed" "g1" "group" EmptyString "failure" JNull t0))
  = "Removing expired access for group g1 failed; the access may still be live."%string.
Proof. vm_compute. reflexivity. Qed.
