(* ===== verification/Net.v ===== *)
(** Network addresses: Go's textual IP addresses and host:port pairs
    ([net.ParseIP], [net.SplitHostPort], [net.IPNet.Contains]), the outbound
    policy of [netguard/netguard.go] and the address a request is attributed to
    ([api/middleware.go]). *)
From stdpp Require Import pretty.
From S2P Require Import Prelude Schema Access Sample Sessions Tokens Mfa Outbox AppAccess Crypto.

(** ** IP addresses

    A [net.IP] as [net.ParseIP] returns it: sixteen bytes, an IPv4 address in
    its mapped form. *)

Definition IP : Type := list Z.

Definition v4_prefix : list Z := repeat 0 10 ++ [255; 255].
Definition IPv4 (a b c d : Z) : IP := v4_prefix ++ [a; b; c; d].

(** [IP.To4]: the four bytes of an address in the mapped form. *)
Definition To4 (ip : IP) : option (list Z) :=
  if list_eqb (firstn 12 ip) v4_prefix && Nat.eqb (length ip) 16 then Some (skipn 12 ip) else None.

Definition dec_digit (c : Z) : bool := (48 <=? c) && (c <=? 57).

(** The dotted octets read so far are [out]; [val] and [len] are the octet being read. *)
Fixpoint parse_v4_from (l out : list Z) (val : Z) (len : nat) : option (list Z) :=
  match l with
  | [] => if Nat.eqb len 0 || negb (Nat.eqb (length out) 3) then None else Some (out ++ [val])
  | c :: l' =>
    if dec_digit c then
      if Nat.eqb len 1 && (val =? 0) then None
      else let val' := val * 10 + (c - 48) in if 255 <? val' then None else parse_v4_from l' out val' (S len)
    else if c =? 46 then
      if Nat.eqb len 0 || Nat.eqb (length out) 3 then None else parse_v4_from l' (out ++ [val]) 0 0
    else None
  end.

Definition parseIPv4Fields (l : list Z) : option (list Z) := parse_v4_from l [] 0 0.

(** One group of hexadecimal digits: its value, the number of digits and the rest. *)
Fixpoint hex_group (l : list Z) (off : nat) (acc : Z) : option (Z * nat * list Z) :=
  match l with
  | [] => Some (acc, off, [])
  | c :: l' =>
    match hex_value c with
    | None => Some (acc, off, l)
    | Some v => if Nat.ltb 3 off then None else let acc' := acc * 16 + v in if 65535 <? acc' then None else hex_group l' (S off) acc'
    end
  end.

Definition group_bytes (acc : Z) : list Z := [acc / 256; acc mod 256].

(** The groups after the first [length out] bytes; [ell] is where an ellipsis
    stood.  Eight rounds fill the address. *)
Fixpoint parse_v6_from (fuel : nat) (l out : list Z) (ell : option nat) : option (list Z * option nat) :=
  match fuel with
  | O => match l with [] => Some (out, ell) | _ => None end
  | S fuel' =>
    match hex_group l 0 0 with
    | None => None
    | Some (acc, off, rest) =>
      if Nat.eqb off 0 then None else
      match rest with
      | [] => Some (out ++ group_bytes acc, ell)
      | c :: rest =>
        if c =? 46 then
          if (is_null ell && negb (Nat.eqb (length out) 12)) || Nat.ltb 12 (length out) then None else
          v4 ← parseIPv4Fields l; Some (out ++ v4, ell)
        else if negb (c =? 58) then None else
        let out := out ++ group_bytes acc in
        match rest with
        | [] => None
        | c2 :: rest' =>
          if negb (c2 =? 58) then parse_v6_from fuel' rest out ell
          else if negb (is_null ell) then None
          else match rest' with [] => Some (out, Some (length out)) | _ => parse_v6_from fuel' rest' out (Some (length out)) end
        end
      end
    end
  end.

(** Filling in what an ellipsis stands for. *)
Definition expand (out : list Z) (ell : option nat) : option IP :=
  match ell with
  | None => if Nat.eqb (length out) 16 then Some out else None
  | Some e => if Nat.ltb (length out) 16 then Some (firstn e out ++ repeat 0 (16 - length out) ++ skipn e out) else None
  end.

Definition parseIPv6 (l : list Z) : option IP :=
  r ← (if list_eqb (firstn 2 l) [58; 58]
       then match skipn 2 l with [] => Some ([], Some 0%nat) | l' => parse_v6_from 8 l' [] (Some 0%nat) end
       else parse_v6_from 8 l [] None);
  expand r.1 r.2.

(** The text up to the first byte [c] and the text after it. *)
Fixpoint cut (c : Z) (l : list Z) : list Z * option (list Z) :=
  match l with
  | [] => ([], None)
  | x :: l' => if x =? c then ([], Some l') else let (a, b) := cut c l' in (x :: a, b)
  end.

(** [netip.ParseAddr], the zone beside the address.  The first of [.], [:] and
    [%] tells the form. *)
Definition ParseAddr (s : string) : option (IP * list Z) :=
  let l := bytes_of s in
  match List.find (fun c => (c =? 46) || (c =? 58) || (c =? 37)) l with
  | Some c =>
    if c =? 46 then (fun v => (v4_prefix ++ v, [])) <$> parseIPv4Fields l
    else if c =? 58 then
      let (addr, zone) := cut 37 l in
      match zone with
      | Some [] => None
      | _ => (fun ip => (ip, default [] zone)) <$> parseIPv6 addr
      end
    else None
  | None => None
  end.

(** [net.ParseIP] takes no zone. *)
Definition ParseIP (s : string) : option IP :=
  match ParseAddr s with Some (ip, []) => Some ip | _ => None end.

(** The last [:] of a text, as what stands before and after it. *)
Definition cut_last (c : Z) (l : list Z) : option (list Z * list Z) :=
  match cut c (rev l) with (_, None) => None | (a, Some b) => Some (rev b, rev a) end.

(** [net.SplitHostPort]; an error is [None]. *)
Definition SplitHostPort (s : string) : option (string * string) :=
  let l := bytes_of s in
  match cut_last 58 l with
  | None => None
  | Some (before, port) =>
    if hd 0 l =? 91 then
      match cut 93 l with
      | (_, None) => None
      | (open_host, Some rest) =>
        let host := tl open_host in
        if Nat.eqb (length before) (S (length open_host)) then
          if existsb (Z.eqb 91) (tl l) || existsb (Z.eqb 93) rest then None else Some (string_of host, string_of port)
        else None
      end
    else
      if existsb (Z.eqb 58) before || existsb (Z.eqb 91) l || existsb (Z.eqb 93) l then None
      else Some (string_of before, string_of port)
  end.

(** [IP.String] of an IPv4 address. *)
Definition dotted (a b c d : Z) : string :=
  String.concat "." [pretty a; pretty b; pretty c; pretty d].

(** ** Classes of addresses *)

Definition nth_byte (ip : list Z) (i : nat) : Z := nth i ip 0.

Definition v6_loopback : IP := repeat 0 15 ++ [1].
Definition v6_unspecified : IP := repeat 0 16.

Definition IsLoopback (ip : IP) : bool :=
  match To4 ip with Some v => nth_byte v 0 =? 127 | None => list_eqb ip v6_loopback end.

Definition IsLinkLocalUnicast (ip : IP) : bool :=
  match To4 ip with
  | Some v => (nth_byte v 0 =? 169) && (nth_byte v 1 =? 254)
  | None => (nth_byte ip 0 =? 0xfe) && (Z.land (nth_byte ip 1) 0xc0 =? 0x80)
  end.

Definition IsLinkLocalMulticast (ip : IP) : bool :=
  match To4 ip with
  | Some v => (nth_byte v 0 =? 224) && (nth_byte v 1 =? 0) && (nth_byte v 2 =? 0)
  | None => (nth_byte ip 0 =? 0xff) && (Z.land (nth_byte ip 1) 0x0f =? 0x02)
  end.

Definition IsUnspecified (ip : IP) : bool := list_eqb ip (IPv4 0 0 0 0) || list_eqb ip v6_unspecified.

Definition IsMulticast (ip : IP) : bool :=
  match To4 ip with Some v => Z.land (nth_byte v 0) 0xf0 =? 0xe0 | None => nth_byte ip 0 =? 0xff end.

Definition IsInterfaceLocalMulticast (ip : IP) : bool := (nth_byte ip 0 =? 0xff) && (Z.land (nth_byte ip 1) 0x0f =? 0x01).

Definition IsPrivate (ip : IP) : bool :=
  match To4 ip with
  | Some v => (nth_byte v 0 =? 10) || ((nth_byte v 0 =? 172) && (Z.land (nth_byte v 1) 0xf0 =? 16)) || ((nth_byte v 0 =? 192) && (nth_byte v 1 =? 168))
  | None => Z.land (nth_byte ip 0) 0xfe =? 0xfc
  end.

(** A network: its address, four or sixteen bytes, and the length of its prefix. *)
Record IPNet := MkIPNet { net_IP : list Z; net_Ones : nat }.

(** Byte [i] of the mask of a prefix. *)
Definition mask_byte (ones i : nat) : Z := 255 - (Z.shiftr 255 (Z.of_nat (Nat.min 8 (ones - 8 * i)))).

Definition Contains (n : IPNet) (ip : IP) : bool :=
  let ip := default ip (To4 ip) in
  Nat.eqb (length ip) (length (net_IP n)) &&
  forallb (fun i => Z.land (nth_byte (net_IP n) i) (mask_byte (net_Ones n) i) =? Z.land (nth_byte ip i) (mask_byte (net_Ones n) i)) (seq 0 (length ip)).

(** ** The outbound policy *)

(** [CIDRMask] applied: the address with its host bits cleared. *)
Definition masked (ip : list Z) (ones : nat) : list Z :=
  imap (fun i b => Z.land b (mask_byte ones i)) ip.

(** A decimal number of digits only, below the big limit of [dtoi]. *)
Fixpoint dtoi (l : list Z) (n : Z) : option Z :=
  match l with
  | [] => Some n
  | c :: l' => if dec_digit c then let n' := n * 10 + (c - 48) in if 0xffffff <=? n' then None else dtoi l' n' else None
  end.

Definition ParseCIDR (s : string) : option IPNet :=
  let (addr, mask) := cut 47 (bytes_of s) in
  m ← mask; ip ← ParseIP (string_of addr);
  ones ← match m with [] => None | _ => dtoi m 0 end;
  let ip := if default 0 (List.find (fun c => (c =? 46) || (c =? 58)) addr) =? 46 then skipn 12 ip else ip in
  if Z.of_nat (8 * length ip) <? ones then None else Some (MkIPNet (masked ip (Z.to_nat ones)) (Z.to_nat ones)).

Definition cidrs (l : list string) : list IPNet := omap ParseCIDR l.

Definition privateRanges : list IPNet := cidrs ["100.64.0.0/10"; "fec0::/10"]%string.

Definition reservedRanges : list IPNet :=
  cidrs ["0.0.0.0/8"; "192.0.0.0/24"; "198.18.0.0/15"; "240.0.0.0/4"; "64:ff9b::/96"; "64:ff9b:1::/48"; "100.100.100.200/32";
    "fd00:ec2::254/128"]%string.

Definition inAny (ip : IP) (nets : list IPNet) : bool := existsb (fun n => Contains n ip) nets.

(** [AllowLoopback] and [AllowPrivate] are the package's switches. *)
Definition refused (AllowLoopback : bool) (ip : IP) (allowPrivate : bool) : bool :=
  if IsLoopback ip then negb AllowLoopback
  else if IsLinkLocalUnicast ip || IsLinkLocalMulticast ip || IsUnspecified ip || IsMulticast ip || IsInterfaceLocalMulticast ip ||
    inAny ip reservedRanges then true
  else if IsPrivate ip || inAny ip privateRanges then negb allowPrivate
  else false.

(** The check the dialer makes of the address it is about to connect to. *)
Definition dial_allowed (AllowPrivate AllowLoopback device : bool) (address : string) : bool :=
  match SplitHostPort address with
  | None => false
  | Some (host, _) =>
    match ParseIP host with
    | None => false
    | Some ip => negb (refused AllowLoopback ip (AllowPrivate && negb device))
    end
  end.

(** What [url.Parse] yields of a URL, as far as the policy reads it. *)
Record ParsedURL := MkParsedURL { pu_Scheme : string; pu_Hostname : string; pu_User : bool; pu_Fragment : string }.

(** A refusal, by its message; [url_parse] is [url.Parse]. *)
Inductive URLError := URLRequired | URLInvalid | URLScheme | URLHost | URLCredentials | URLFragment | URLPrivate | URLNonPublic.

Section validate.
Context (url_parse : string -> option ParsedURL) (AllowPrivate AllowLoopback : bool).

Definition validate (raw : string) (device : bool) : option URLError :=
  let allowPrivate := AllowPrivate && negb device in
  if TrimSpace raw =?s EmptyString then Some URLRequired else
  match url_parse raw with
  | None => Some URLInvalid
  | Some u =>
    if (pu_Scheme u <>?s "https") && negb ((pu_Scheme u =?s "http") && allowPrivate) then Some URLScheme
    else if pu_Hostname u =?s EmptyString then Some URLHost
    else if pu_User u then Some URLCredentials
    else if (pu_Fragment u <>?s EmptyString) || existsb (Z.eqb 35) (bytes_of raw) then Some URLFragment
    else match ParseIP (pu_Hostname u) with
      | Some ip =>
        if refused AllowLoopback ip allowPrivate then
          if negb device && negb (refused AllowLoopback ip true) then Some URLPrivate else Some URLNonPublic
        else None
      | None => None
      end
  end.

Definition ValidateURL (raw : string) : option URLError := validate raw false.
Definition ValidateDeviceURL (raw : string) : option URLError := validate raw true.
End validate.

(** ** The address of a request *)

(** The eight groups of an address. *)
Definition groups (ip : IP) : list Z :=
  map (fun i => nth_byte ip (2 * i) * 256 + nth_byte ip (2 * i + 1)) (seq 0 8).

Fixpoint zero_run (l : list Z) : nat :=
  match l with 0 :: l' => S (zero_run l') | _ => O end.

(** The first longest run of at least two zero groups: where it starts and ends. *)
Definition longest_run (g : list Z) : option (nat * nat) :=
  fold_left (fun best i =>
    let n := zero_run (skipn i g) in
    let cur := match best with Some (a, b) => b - a | None => 0 end%nat in
    if Nat.leb 2 n && Nat.ltb cur n then Some (i, i + n)%nat else best) (seq 0 8) None.

(** [strconv.AppendUint] in base 16. *)
Definition hex_digit (d : Z) : string := string_of [nth (Z.to_nat d) hex_digits 0].
Definition hex_text (n : Z) : string :=
  String.concat EmptyString (map hex_digit (match List.filter (fun k => 0 <? n / 16 ^ k) [3; 2; 1] with
    | k :: _ => map (fun j => n / 16 ^ j mod 16) (if k =? 3 then [3; 2; 1; 0] else if k =? 2 then [2; 1; 0] else [1; 0])
    | [] => [n]
    end)).

Definition v6_text (ip : IP) : string :=
  let g := groups ip in
  let join l := String.concat ":" (map hex_text l) in
  match longest_run g with
  | Some (a, b) => String.append (join (firstn a g)) (String.append "::" (join (skipn b g)))
  | None => join g
  end.

(** [IP.String] *)
Definition ip_String (ip : IP) : string :=
  match To4 ip with
  | Some v => dotted (nth_byte v 0) (nth_byte v 1) (nth_byte v 2) (nth_byte v 3)
  | None => v6_text ip
  end.

(** What attribution reads of a request: the peer's address and the value of
    the configured forwarding header. *)
Record Peer := MkPeer { rq_RemoteAddr : string; rq_Forwarded : string; rq_TLS : bool; rq_Proto : string }.

Record Manager := MkManager { mm_trusted : list IPNet; mm_header : string }.

Definition remoteHost (r : Peer) : string :=
  match SplitHostPort (rq_RemoteAddr r) with Some (h, _) => h | None => rq_RemoteAddr r end.

Definition isTrustedIP (m : Manager) (ip : option IP) : bool :=
  match ip with None => false | Some ip => inAny ip (mm_trusted m) end.

Definition isTrustedProxy (m : Manager) (r : Peer) : bool :=
  match mm_trusted m with [] => false | _ => isTrustedIP m (ParseIP (remoteHost r)) end.

(** [strings.Split] on one byte. *)
Fixpoint split_on (c : Z) (cur l : list Z) : list (list Z) :=
  match l with
  | [] => [rev cur]
  | x :: l' => if x =? c then rev cur :: split_on c [] l' else split_on c (x :: cur) l'
  end.

Definition entries (header : string) : list string := map string_of (split_on 44 [] (bytes_of header)).

(** The walk of the forwarded chain from its right end; [last] is the entry
    before it.  [None] is the peer's own address. *)
Fixpoint walk_chain (m : Manager) (chain : list string) (last : option IP) : option string :=
  match chain with
  | [] => ip_String <$> last
  | part :: chain' =>
    match ParseIP (TrimSpace part) with
    | None => None
    | Some ip => if isTrustedIP m (Some ip) then walk_chain m chain' (Some ip) else Some (ip_String ip)
    end
  end.

Definition ClientIP (m : Manager) (r : Peer) : string :=
  if negb (isTrustedProxy m r) || (mm_header m =?s EmptyString) then remoteHost r
  else default (remoteHost r) (walk_chain m (rev (entries (rq_Forwarded r))) None).

(** An IPv6 address is collapsed to its /64. *)
Definition rateLimitPrefix (ip : string) : string :=
  match ParseAddr ip with
  | None => ip
  | Some (a, _) =>
    match To4 a with
    | Some _ => ip_String a
    | None => String.append (v6_text (firstn 8 a ++ repeat 0 8)) "/64"
    end
  end.

Definition rateLimitIP (m : Manager) (r : Peer) : string := rateLimitPrefix (ClientIP m r).

Definition IsHTTPS (m : Manager) (r : Peer) : bool :=
  rq_TLS r || (isTrustedProxy m r && (lower (rq_Proto r) =?s "https")).

(** The text of an address after reading it. *)
Definition normal (s : string) : option string := ip_String <$> ParseIP s.

Example ip_examples : (normal "2001:db8::1:0:0:1" = Some "2001:db8::1:0:0:1" /\ normal "2001:0:0:1::8:ABCD" = Some "2001::1:0:0:8:abcd" /\
  normal "::ffff:10.1.2.3" = Some "10.1.2.3" /\ normal "::" = Some "::" /\ normal "1::" = Some "1::" /\ normal "::7" = Some "::7" /\
  normal "1.2.3.04" = None /\ normal "1:2:3:4:5:6:7:8:9" = None /\ normal "fe80::1%eth0" = None /\ normal "1::2::3" = None /\
  SplitHostPort "[::1]:443" = Some ("::1", "443") /\ SplitHostPort "::1:443" = None /\ SplitHostPort "10.0.0.1:80" = Some ("10.0.0.1", "80") /\
  rateLimitPrefix "2001:db8:1:2:3:4:5:6" = "2001:db8:1:2::/64" /\ rateLimitPrefix "fe80::1%eth0" = "fe80::/64")%string.
Proof. vm_compute. repeat split. Qed.

(** ** Facts *)

(** *** Blocks of addresses *)

(** The number a byte string spells. *)
Definition number (l : list Z) : Z := fold_left (fun n b => n * 256 + b) l 0.

Definition bytes_ok (l : list Z) : Prop := Forall is_byte l.

Lemma number_from l : forall n, fold_left (fun n b => n * 256 + b) l n = n * 256 ^ Z.of_nat (length l) + number l.
Proof.
  unfold number. induction l as [|b l IH]; intros n; cbn [fold_left length]; [cbn; lia|].
  rewrite IH, (IH (0 * 256 + b)), Nat2Z.inj_succ, Z.pow_succ_r by lia. ring.
Qed.

Lemma number_cons b l : number (b :: l) = b * 256 ^ Z.of_nat (length l) + number l.
Proof. unfold number at 1. cbn [fold_left]. by rewrite number_from. Qed.

Lemma number_bound l : bytes_ok l -> 0 <= number l < 256 ^ Z.of_nat (length l).
Proof.
  induction l as [|b l IH]; intros Hl; [done|]. apply Forall_cons in Hl as [Hb Hl]. specialize (IH Hl). unfold is_byte in Hb.
  rewrite number_cons. cbn [length]. rewrite Nat2Z.inj_succ, Z.pow_succ_r by lia. nia.
Qed.

(** The first [ones] bits of two byte strings agree. *)
Fixpoint prefix_eq (ones : nat) (a b : list Z) : bool :=
  match a, b with
  | x :: a', y :: b' => (Z.land x (mask_byte ones 0) =? Z.land y (mask_byte ones 0)) && prefix_eq (ones - 8) a' b'
  | _, _ => true
  end.

Lemma mask_shift ones i : mask_byte ones (S i) = mask_byte (ones - 8) i.
Proof. unfold mask_byte. do 4 f_equal. lia. Qed.

Lemma forallb_map {A B} (f : A -> B) (g : B -> bool) l : forallb g (map f l) = forallb (fun x => g (f x)) l.
Proof. induction l as [|x l IH]; [done|]. cbn. by rewrite IH. Qed.

Lemma forallb_ext_in {A} (f g : A -> bool) l : (forall x, f x = g x) -> forallb f l = forallb g l.
Proof. intros He. induction l as [|x l IH]; [done|]. cbn. by rewrite IH, He. Qed.

Lemma contains_prefix a : forall b ones, length a = length b ->
  forallb (fun i => Z.land (nth_byte a i) (mask_byte ones i) =? Z.land (nth_byte b i) (mask_byte ones i)) (seq 0 (length b)) = prefix_eq ones a b.
Proof.
  induction a as [|x a IH]; intros [|y b] ones Hl; try done. injection Hl as Hl. cbn [length seq forallb prefix_eq nth_byte nth]. f_equal.
  rewrite <- seq_shift, forallb_map, <- (IH b (ones - 8)%nat Hl). apply forallb_ext_in. intros i. by rewrite mask_shift.
Qed.

(** A masked byte tells its leading bits. *)
Definition byte_range : list Z := map Z.of_nat (seq 0 256).

Lemma in_byte_range b : is_byte b -> In b byte_range.
Proof. intros Hb. unfold is_byte in Hb. apply in_map_iff. exists (Z.to_nat b). split; [lia|]. apply in_seq. lia. Qed.

Lemma masked_byte x y ones : is_byte x -> is_byte y ->
  (Z.land x (mask_byte ones 0) =? Z.land y (mask_byte ones 0)) = (x / 2 ^ (8 - Z.of_nat (Nat.min 8 ones)) =? y / 2 ^ (8 - Z.of_nat (Nat.min 8 ones))).
Proof.
  intros Hx Hy.
  assert (forallb (fun o => forallb (fun x => Z.land x (mask_byte o 0) =? x / 2 ^ (8 - Z.of_nat (Nat.min 8 o)) * 2 ^ (8 - Z.of_nat (Nat.min 8 o))) byte_range) (seq 0 9) = true) as Hall
    by (vm_compute; reflexivity).
  assert (forall z, is_byte z -> Z.land z (mask_byte ones 0) = z / 2 ^ (8 - Z.of_nat (Nat.min 8 ones)) * 2 ^ (8 - Z.of_nat (Nat.min 8 ones))) as Hm.
  { intros z Hz. assert (mask_byte ones 0 = mask_byte (Nat.min 8 ones) 0) as -> by (unfold mask_byte; do 3 f_equal; lia).
    rewrite forallb_forall in Hall. specialize (Hall (Nat.min 8 ones) ltac:(apply in_seq; lia)). cbn beta in Hall. rewrite forallb_forall in Hall.
    specialize (Hall z (in_byte_range z Hz)). apply Z.eqb_eq in Hall. rewrite Hall. replace (Nat.min 8 (Nat.min 8 ones)) with (Nat.min 8 ones) by lia. done. }
  rewrite !Hm by done. assert (0 < 2 ^ (8 - Z.of_nat (Nat.min 8 ones))) by (apply Z.pow_pos_nonneg; lia).
  apply eq_true_iff_eq. rewrite !Z.eqb_eq. nia.
Qed.

(** A network of a table: its first address, and the addresses it holds. *)
Lemma prefix_number a : forall b ones, length a = length b -> bytes_ok a -> bytes_ok b -> (ones <= 8 * length a)%nat ->
  prefix_eq ones a b = (number a / 2 ^ (8 * Z.of_nat (length a) - Z.of_nat ones) =? number b / 2 ^ (8 * Z.of_nat (length a) - Z.of_nat ones)).
Proof.
  induction a as [|x a IH]; intros [|y b] ones Hl Ha Hb Ho; try done. injection Hl as Hl.
  apply Forall_cons in Ha as [Hx Ha], Hb as [Hy Hb]. cbn [prefix_eq length]. rewrite masked_byte by done. cbn [length] in Ho.
  rewrite !number_cons, <- Hl. pose proof (number_bound a Ha) as Na. pose proof (number_bound b Hb) as Nb. rewrite <- Hl in Nb.
  assert (256 ^ Z.of_nat (length a) = 2 ^ (8 * Z.of_nat (length a))) as E by (rewrite Z.pow_mul_r by lia; done). rewrite E in *.
  set (w := 8 * Z.of_nat (length a)) in *. assert (8 * Z.of_nat (S (length a)) = w + 8) as -> by (unfold w; lia).
  destruct (Nat.leb_spec ones 8) as [H8|H8].
  - replace (Nat.min 8 ones) with ones by lia. replace (w + 8 - Z.of_nat ones) with (w + (8 - Z.of_nat ones)) by lia.
    rewrite !Z.pow_add_r, <- !Z.div_div by (try apply Z.pow_nonzero; try apply Z.pow_pos_nonneg; lia).
    rewrite !Z.div_add_l, (Z.div_small (number a)), (Z.div_small (number b)), !Z.add_0_r by lia.
    replace (ones - 8)%nat with 0%nat by lia. assert (forall b', prefix_eq 0 a b' = true) as Hp.
    { clear. induction a as [|z a IH]; intros [|z' b']; try done. cbn [prefix_eq]. rewrite IH. unfold mask_byte. cbn. by rewrite !Z.land_0_r. }
    by rewrite Hp, andb_true_r.
  - replace (Nat.min 8 ones) with 8%nat by lia. change (8 - Z.of_nat 8) with 0. rewrite !Z.pow_0_r, !Z.div_1_r.
    rewrite (IH b (ones - 8)%nat) by (done || lia). fold w. replace (w - Z.of_nat (ones - 8)) with (w + 8 - Z.of_nat ones) by lia.
    set (k := w + 8 - Z.of_nat ones). assert (0 <= k <= w) as Hk by (unfold k, w; lia).
    replace (2 ^ w) with (2 ^ (w - k) * 2 ^ k) by (rewrite <- Z.pow_add_r by lia; f_equal; lia).
    rewrite !Z.mul_assoc, !Z.div_add_l by (apply Z.pow_nonzero; lia).
    assert (2 ^ w = 2 ^ (w - k) * 2 ^ k) as Ew by (rewrite <- Z.pow_add_r by lia; f_equal; lia). rewrite Ew in Na, Nb.
    assert (0 < 2 ^ k) by (apply Z.pow_pos_nonneg; lia).
    assert (0 <= number a / 2 ^ k < 2 ^ (w - k)) by (split; [apply Z.div_pos; lia|apply Z.div_lt_upper_bound; lia]).
    assert (0 <= number b / 2 ^ k < 2 ^ (w - k)) by (split; [apply Z.div_pos; lia|apply Z.div_lt_upper_bound; lia]).
    apply eq_true_iff_eq. rewrite andb_true_iff, !Z.eqb_eq. split; [by intros [-> ->]|]. intros He.
    apply (Z.div_mod_unique (2 ^ (w - k))); [by left|by left|lia].
Qed.

(** *** The policy as a table *)

(** A sixteen-byte address. *)
Definition ip_ok (ip : IP) : Prop := length ip = 16%nat /\ bytes_ok ip.

(** The addresses from [lo] to [hi], both in text, as numbers. *)
Definition within (ip : IP) (r : string * string) : bool :=
  match ParseIP r.1, ParseIP r.2 with
  | Some lo, Some hi => (number lo <=? number ip) && (number ip <=? number hi)
  | _, _ => false
  end.

(** The numbers of both ends. *)
Definition within_bounds (r : string * string) : option (Z * Z) :=
  match ParseIP r.1, ParseIP r.2 with Some lo, Some hi => Some (number lo, number hi) | _, _ => None end.

(** Loopback, unspecified and "this" network, link local, multicast, IETF
    assignments, benchmarking, class E, NAT64 and cloud metadata. *)
Definition never_dialed : list (string * string) :=
  [("127.0.0.0", "127.255.255.255"); ("::1", "::1"); ("0.0.0.0", "0.255.255.255"); ("::", "::");
   ("169.254.0.0", "169.254.255.255"); ("fe80::", "febf:ffff:ffff:ffff:ffff:ffff:ffff:ffff");
   ("224.0.0.0", "239.255.255.255"); ("ff00::", "ffff:ffff:ffff:ffff:ffff:ffff:ffff:ffff");
   ("192.0.0.0", "192.0.0.255"); ("198.18.0.0", "198.19.255.255"); ("240.0.0.0", "255.255.255.255");
   ("64:ff9b::", "64:ff9b::ffff:ffff"); ("64:ff9b:1::", "64:ff9b:1:ffff:ffff:ffff:ffff:ffff");
   ("100.100.100.200", "100.100.100.200"); ("fd00:ec2::254", "fd00:ec2::254")]%string.

(** The local networks [AllowPrivate] opens. *)
Definition local_networks : list (string * string) :=
  [("10.0.0.0", "10.255.255.255"); ("172.16.0.0", "172.31.255.255"); ("192.168.0.0", "192.168.255.255");
   ("fc00::", "fdff:ffff:ffff:ffff:ffff:ffff:ffff:ffff"); ("100.64.0.0", "100.127.255.255");
   ("fec0::", "feff:ffff:ffff:ffff:ffff:ffff:ffff:ffff")]%string.

Lemma number_app a b : number (a ++ b) = number a * 256 ^ Z.of_nat (length b) + number b.
Proof. unfold number at 1. rewrite fold_left_app, number_from. done. Qed.

Lemma number_inj a : forall b, length a = length b -> bytes_ok a -> bytes_ok b -> number a = number b -> a = b.
Proof.
  induction a as [|x a IH]; intros [|y b] Hl Ha Hb He; try done. injection Hl as Hl. apply Forall_cons in Ha as [Hx Ha], Hb as [Hy Hb].
  rewrite !number_cons, Hl in He. pose proof (number_bound a Ha) as Na. pose proof (number_bound b Hb) as Nb. rewrite Hl in Na.
  destruct (Z.div_mod_unique (256 ^ Z.of_nat (length b)) x y (number a) (number b)) as [-> Hn]; [by left|by left|lia|]. f_equal. by apply IH.
Qed.

Lemma list_eqb_true a b : list_eqb a b = true <-> a = b.
Proof. unfold list_eqb. apply bool_decide_eq_true. Qed.

Lemma bytes_ok_app a b : bytes_ok (a ++ b) <-> bytes_ok a /\ bytes_ok b.
Proof. unfold bytes_ok. apply Forall_app. Qed.

Lemma v4_prefix_ok : bytes_ok v4_prefix.
Proof. unfold bytes_ok, v4_prefix. repeat constructor; unfold is_byte; lia. Qed.

Lemma To4_Some ip v : ip_ok ip -> To4 ip = Some v <-> ip = v4_prefix ++ v /\ length v = 4%nat.
Proof.
  intros [Hl Hb]. unfold To4. rewrite Hl. cbn [Nat.eqb]. rewrite andb_true_r. destruct (list_eqb _ _) eqn:E.
  - apply list_eqb_true in E. split.
    + intros [= <-]. rewrite <- E, firstn_skipn. split; [done|]. rewrite length_skipn. lia.
    + intros [-> Hv]. f_equal.
  - split; [done|]. intros [-> Hv]. by apply not_true_iff_false in E.
Qed.

Lemma To4_number ip : ip_ok ip -> match To4 ip with
  | Some v => number ip = 0xffff * 2 ^ 32 + number v /\ length v = 4%nat /\ bytes_ok v
  | None => number ip / 2 ^ 32 <> 0xffff
  end.
Proof.
  intros [Hl Hb]. destruct (To4 ip) as [v|] eqn:E.
  - apply To4_Some in E as [-> Hv]; [|by split]. rewrite number_app, Hv. split; [done|]. split; [done|]. by apply bytes_ok_app in Hb as [_ Hb].
  - intros Hn. assert (ip = firstn 12 ip ++ skipn 12 ip) as Hs by by rewrite firstn_skipn.
    assert (length (skipn 12 ip) = 4%nat) as H4 by (rewrite length_skipn; lia). assert (length (firstn 12 ip) = 12%nat) as H12 by (rewrite length_firstn; lia).
    rewrite Hs in Hb. apply bytes_ok_app in Hb as [Hb1 Hb2]. rewrite Hs, number_app, H4 in Hn. change (256 ^ Z.of_nat 4) with (2 ^ 32) in Hn.
    pose proof (number_bound _ Hb2) as N2. rewrite H4 in N2. rewrite Z.div_add_l, (Z.div_small (number (skipn 12 ip))), Z.add_0_r in Hn by (done || lia).
    assert (firstn 12 ip = v4_prefix) as Hp by (apply number_inj; [by rewrite H12|done|apply v4_prefix_ok|by rewrite Hn]).
    assert (To4 ip = Some (skipn 12 ip)) as Ht by (apply To4_Some; [split; [done|rewrite Hs; by apply bytes_ok_app]|by rewrite <- Hp, <- Hs]).
    by rewrite Ht in E.
Qed.

(** A network holds the addresses between its first and its last. *)
Definition net_ok (n : IPNet) : bool :=
  (Nat.eqb (length (net_IP n)) 4 || Nat.eqb (length (net_IP n)) 16) && Nat.leb (net_Ones n) (8 * length (net_IP n)) &&
  forallb (fun b => (0 <=? b) && (b <? 256)) (net_IP n) &&
  (number (net_IP n) mod 2 ^ (8 * Z.of_nat (length (net_IP n)) - Z.of_nat (net_Ones n)) =? 0) &&
  negb (Nat.eqb (length (net_IP n)) 16 && (number (net_IP n) <? 0x10000 * 2 ^ 32) && (0xffff * 2 ^ 32 <=? number (net_IP n) + 2 ^ (8 * Z.of_nat (length (net_IP n)) - Z.of_nat (net_Ones n)) - 1)).

Definition net_first (n : IPNet) : Z := number (net_IP n) + if Nat.eqb (length (net_IP n)) 4 then 0xffff * 2 ^ 32 else 0.
Definition net_last (n : IPNet) : Z := net_first n + 2 ^ (8 * Z.of_nat (length (net_IP n)) - Z.of_nat (net_Ones n)) - 1.

Lemma same_block x b w : 0 < w -> b mod w = 0 -> (b / w =? x / w) = ((b <=? x) && (x <=? b + w - 1)).
Proof.
  intros Hw Hb. apply eq_true_iff_eq. rewrite andb_true_iff, Z.eqb_eq, !Z.leb_le. pose proof (Z.div_mod b w ltac:(lia)) as Eb.
  pose proof (Z.div_mod x w ltac:(lia)) as Ex. pose proof (Z.mod_pos_bound x w Hw). rewrite Hb in Eb. split.
  - intros He. rewrite He in Eb. lia.
  - intros Hr. nia.
Qed.

Lemma Contains_range n ip : net_ok n = true -> ip_ok ip -> Contains n ip = (net_first n <=? number ip) && (number ip <=? net_last n).
Proof.
  unfold net_ok. intros Hn Hip. repeat (apply andb_true_iff in Hn as [Hn ?]). rename H into Hmap, H0 into Hmod, H1 into Hby, H2 into Hones.
  apply Nat.leb_le in Hones. apply Z.eqb_eq in Hmod. apply negb_true_iff in Hmap.
  assert (bytes_ok (net_IP n)) as Hbn. { rewrite forallb_forall in Hby. apply Forall_forall. intros b Hb. apply list_elem_of_In, Hby in Hb. unfold is_byte. lia. }
  pose proof (To4_number ip Hip) as Ht. destruct Hip as [Hl Hb]. unfold Contains, net_first, net_last, net_first. cbv zeta.
  set (w := 8 * Z.of_nat (length (net_IP n)) - Z.of_nat (net_Ones n)) in *. assert (0 < 2 ^ w) as Hw by (apply Z.pow_pos_nonneg; unfold w; lia).
  pose proof (number_bound _ Hbn) as Nn. apply orb_true_iff in Hn. destruct (To4 ip) as [v|]; cbn [default].
  - destruct Ht as (Hnum & Hv & Hbv). unfold id. rewrite Hv. destruct Hn as [Hn|Hn]; apply Nat.eqb_eq in Hn.
    + rewrite Hn. cbn [Nat.eqb andb]. rewrite <- Hv. rewrite contains_prefix by congruence. rewrite prefix_number by (congruence || done).
      fold w. rewrite same_block by done. rewrite Hnum. apply eq_true_iff_eq. rewrite !andb_true_iff, !Z.leb_le. lia.
    + rewrite Hn in *. cbn [Nat.eqb andb] in *. pose proof (number_bound _ Hbv) as Nv. rewrite Hv in Nv. symmetry. apply not_true_iff_false.
      rewrite andb_true_iff, !Z.leb_le. intros Hr. apply andb_false_iff in Hmap. rewrite Z.ltb_ge, Z.leb_gt in Hmap. change (256 ^ Z.of_nat 4) with (2 ^ 32) in Nv. lia.
  - rewrite Hl. destruct Hn as [Hn|Hn]; apply Nat.eqb_eq in Hn.
    + rewrite Hn in *. cbn [Nat.eqb andb] in *. symmetry. apply not_true_iff_false. rewrite andb_true_iff, !Z.leb_le. intros Hr. apply Ht.
      change (256 ^ Z.of_nat 4) with (2 ^ 32) in Nn.
      assert (number (net_IP n) + 2 ^ w <= 2 ^ 32) as Hend.
      { pose proof (Z.div_mod (number (net_IP n)) (2 ^ w) ltac:(lia)) as Ed. rewrite Hmod, Z.add_0_r in Ed.
        assert (2 ^ 32 = 2 ^ Z.of_nat (net_Ones n) * 2 ^ w) as E32 by (rewrite <- Z.pow_add_r by (unfold w; lia); f_equal; unfold w; lia).
        rewrite E32 in Nn |- *. set (q := number (net_IP n) / 2 ^ w) in *. set (p := 2 ^ Z.of_nat (net_Ones n)) in *.
        assert (q < p) by (apply (Zmult_lt_reg_r _ _ (2 ^ w)); lia). rewrite Ed. nia. }
      symmetry. apply (Z.div_unique _ _ _ (number ip - 0xffff * 2 ^ 32)); lia.
    + rewrite Hn. cbn [Nat.eqb andb]. rewrite <- Hl. rewrite contains_prefix by congruence. rewrite prefix_number by (congruence || done).
      fold w. rewrite same_block by done. by rewrite Z.add_0_r.
Qed.

(** The classes of [net.IP] are networks too. *)
Lemma land_byte b : is_byte b -> Z.land b 255 = b.
Proof.
  intros Hb. change 255 with (Z.ones 8). rewrite Z.land_ones by lia. apply Z.mod_small. exact Hb.
Qed.

Lemma contains_v4 n ip v : ip_ok ip -> To4 ip = Some v -> length (net_IP n) = 4%nat -> Contains n ip = prefix_eq (net_Ones n) (net_IP n) v.
Proof.
  intros Hip Ht Hn. apply To4_Some in Ht as Hv; [|done]. destruct Hv as [_ Hv]. unfold Contains. rewrite Ht. cbv zeta. cbn [default from_option]. unfold id.
  rewrite Hv, Hn. cbn [Nat.eqb andb]. rewrite <- Hv. apply contains_prefix. congruence.
Qed.

Lemma contains_v6 n ip : ip_ok ip -> To4 ip = None -> length (net_IP n) = 16%nat -> Contains n ip = prefix_eq (net_Ones n) (net_IP n) ip.
Proof.
  intros [Hl _] Ht Hn. unfold Contains. rewrite Ht. cbv zeta. cbn [default from_option]. rewrite Hl, Hn. cbn [Nat.eqb andb].
  rewrite <- Hl. apply contains_prefix. congruence.
Qed.

Lemma contains_other n ip : ip_ok ip -> (if is_null (To4 ip) then 4 else 16)%nat = length (net_IP n) -> Contains n ip = false.
Proof.
  intros Hip Hn. unfold Contains. cbv zeta. destruct (To4 ip) as [v|] eqn:E; cbn [is_null] in Hn; rewrite <- Hn.
  - apply To4_Some in E as [_ Hv]; [|done]. cbn [default from_option]. unfold id. by rewrite Hv.
  - destruct Hip as [Hl _]. cbn [default from_option]. by rewrite Hl.
Qed.

Lemma prefix_none a b : prefix_eq 0 a b = true.
Proof. revert b. induction a as [|x a IH]; intros [|y b]; try done. cbn [prefix_eq]. change (mask_byte 0 0) with 0. by rewrite !Z.land_0_r, IH. Qed.

Lemma prefix_whole a b : length a = length b -> bytes_ok a -> bytes_ok b -> prefix_eq (8 * length a) a b = list_eqb b a.
Proof.
  intros Hl Ha Hb. rewrite prefix_number by (done || lia). replace (8 * Z.of_nat (length a) - Z.of_nat (8 * length a)) with 0 by lia.
  rewrite Z.pow_0_r, !Z.div_1_r. apply eq_true_iff_eq. rewrite Z.eqb_eq, list_eqb_true. split; [|by intros ->]. intros He. symmetry. by apply number_inj.
Qed.

(** Cases on the form of an address, with its bytes named. *)
Ltac ip_cases ip Hip :=
  let v := fresh "v" in let Et := fresh "Et" in let E := fresh "E" in let Hv := fresh "Hv" in let Hb := fresh "Hb" in
  destruct (To4 ip) as [v|] eqn:Et;
  [pose proof (To4_number ip Hip) as Hb; rewrite Et in Hb; destruct Hb as (_ & Hv & Hb); destruct v as [|? [|? [|? [|? []]]]]; try discriminate Hv;
   unfold bytes_ok in Hb; repeat match goal with H : Forall is_byte (_ :: _) |- _ => apply Forall_cons in H as [? H] end
  |pose proof Hip as [Hv Hb]; destruct ip as [|? [|? [|? [|? [|? [|? [|? [|? [|? [|? [|? [|? [|? [|? [|? [|? []]]]]]]]]]]]]]]]]; try discriminate Hv;
   unfold bytes_ok in Hb; repeat match goal with H : Forall is_byte (_ :: _) |- _ => apply Forall_cons in H as [? H] end].

(** A network membership, read off the bytes. *)
Ltac net_bytes Hip :=
  repeat first
    [rewrite (contains_other _ _ Hip) by (match goal with E : To4 _ = _ |- _ => rewrite E; reflexivity end)
    |erewrite (contains_v4 _ _ _ Hip) by (eassumption || reflexivity)
    |rewrite (contains_v6 _ _ Hip) by (assumption || reflexivity)];
  cbn [net_Ones net_IP prefix_eq app repeat Nat.sub nth_byte nth];
  rewrite ?prefix_none;
  repeat match goal with |- context [mask_byte ?o 0] => let m := eval vm_compute in (mask_byte o 0) in change (mask_byte o 0) with m end;
  rewrite ?Z.land_0_r;
  repeat match goal with H : is_byte ?z |- context [Z.land ?z 255] => rewrite (land_byte z H) end;
  repeat match goal with |- context [Z.land ?a ?b] => let m := eval vm_compute in (Z.land a b) in lazymatch m with Z0 => idtac | Zpos _ => idtac end; change (Z.land a b) with m end;
  rewrite ?Z.eqb_refl, ?andb_true_r, ?orb_false_r, ?orb_false_l.

(** Equality with one address of the long form. *)
Lemma single_net a ip : ip_ok ip -> To4 ip = None -> ip_ok a -> Contains (MkIPNet a 128) ip = list_eqb ip a.
Proof.
  intros Hip Et [Ha Hab]. rewrite contains_v6 by done. cbn [net_Ones net_IP]. replace 128%nat with (8 * length a)%nat by (by rewrite Ha).
  apply prefix_whole; [by rewrite Ha; destruct Hip as [-> _]|done|by destruct Hip].
Qed.

Lemma loopback_net ip : ip_ok ip -> IsLoopback ip = Contains (MkIPNet [127; 0; 0; 0] 8) ip || Contains (MkIPNet v6_loopback 128) ip.
Proof.
  intros Hip. unfold IsLoopback. destruct (To4 ip) as [v0|] eqn:Et0.
  - revert v0 Et0. ip_cases ip Hip; [|done]. intros v0 [= <-]. net_bytes Hip. apply Z.eqb_sym.
  - rewrite (contains_other _ _ Hip) by (by rewrite Et0). rewrite single_net; [done|done|done|]. split; [done|]. repeat constructor; unfold is_byte; lia.
Qed.

Lemma link_local_net ip : ip_ok ip -> IsLinkLocalUnicast ip =
  Contains (MkIPNet [169; 254; 0; 0] 16) ip || Contains (MkIPNet ([0xfe; 0x80] ++ repeat 0 14) 10) ip.
Proof.
  intros Hip. unfold IsLinkLocalUnicast. ip_cases ip Hip; net_bytes Hip; rewrite ?(Z.eqb_sym 169), ?(Z.eqb_sym 254), ?(Z.eqb_sym 128); done.
Qed.

Lemma multicast_net ip : ip_ok ip -> IsMulticast ip = Contains (MkIPNet [224; 0; 0; 0] 4) ip || Contains (MkIPNet (0xff :: repeat 0 15) 8) ip.
Proof. intros Hip. unfold IsMulticast. ip_cases ip Hip; net_bytes Hip; apply Z.eqb_sym. Qed.

Lemma local_multicast ip : ip_ok ip -> IsLinkLocalMulticast ip || IsInterfaceLocalMulticast ip = true -> IsMulticast ip = true.
Proof.
  intros Hip. unfold IsLinkLocalMulticast, IsInterfaceLocalMulticast, IsMulticast. destruct (To4 ip) as [v|] eqn:Et.
  - apply To4_Some in Et as [-> _]; [|done]. cbn [v4_prefix app repeat nth_byte nth]. intros Hm. rewrite orb_false_r in Hm.
    apply andb_true_iff in Hm as [Hm _]. apply andb_true_iff in Hm as [Hm _]. apply Z.eqb_eq in Hm. by rewrite Hm.
  - intros Hm. apply orb_true_iff in Hm as [Hm|Hm]; by apply andb_true_iff in Hm as [Hm _].
Qed.

Lemma unspecified_net ip : ip_ok ip -> IsUnspecified ip = Contains (MkIPNet [0; 0; 0; 0] 32) ip || Contains (MkIPNet v6_unspecified 128) ip.
Proof.
  intros Hip. unfold IsUnspecified. assert (ip_ok v6_unspecified) as Hu by (split; [done|]; repeat constructor; unfold is_byte; lia).
  destruct (To4 ip) as [v|] eqn:Et.
  - rewrite (contains_v4 _ _ _ Hip Et), (contains_other _ _ Hip) by (done || by rewrite Et). cbn [net_Ones net_IP]. apply To4_Some in Et as Hv; [|done]. destruct Hv as [Hv Hl].
    pose proof (To4_number ip Hip) as Hb. rewrite Et in Hb. destruct Hb as (_ & _ & Hb).
    assert (prefix_eq 32 [0; 0; 0; 0] v = list_eqb v [0; 0; 0; 0]) as -> by (apply (prefix_whole [0; 0; 0; 0] v); [done|repeat constructor; unfold is_byte; lia|done]).
    rewrite orb_false_r. apply eq_true_iff_eq. rewrite orb_true_iff, !list_eqb_true, Hv. split.
    + intros [He|He]; [by apply app_inv_head in He|]. exfalso. apply (f_equal (nth 10%nat)) in He. apply (f_equal (fun f => f 0)) in He. discriminate He.
    + intros ->. by left.
  - rewrite (contains_other _ _ Hip), (single_net _ _ Hip Et Hu) by (by rewrite Et). cbn [orb]. enough (list_eqb ip (IPv4 0 0 0 0) = false) as -> by done.
    apply not_true_iff_false. rewrite list_eqb_true. intros ->. discriminate Et.
Qed.

Lemma private_net ip : ip_ok ip -> IsPrivate ip =
  Contains (MkIPNet [10; 0; 0; 0] 8) ip || Contains (MkIPNet [172; 16; 0; 0] 12) ip || Contains (MkIPNet [192; 168; 0; 0] 16) ip ||
  Contains (MkIPNet (0xfc :: repeat 0 15) 7) ip.
Proof.
  intros Hip. unfold IsPrivate. ip_cases ip Hip; net_bytes Hip;
    rewrite ?(Z.eqb_sym 10), ?(Z.eqb_sym 172), ?(Z.eqb_sym 16), ?(Z.eqb_sym 192), ?(Z.eqb_sym 168), ?(Z.eqb_sym 252); done.
Qed.

(** The networks the tables stand for, in the same order. *)
Definition never_nets : list IPNet :=
  [MkIPNet [127; 0; 0; 0] 8; MkIPNet v6_loopback 128; MkIPNet [0; 0; 0; 0] 8; MkIPNet v6_unspecified 128;
   MkIPNet [169; 254; 0; 0] 16; MkIPNet ([0xfe; 0x80] ++ repeat 0 14) 10; MkIPNet [224; 0; 0; 0] 4; MkIPNet (0xff :: repeat 0 15) 8;
   MkIPNet [192; 0; 0; 0] 24; MkIPNet [198; 18; 0; 0] 15; MkIPNet [240; 0; 0; 0] 4;
   MkIPNet ([0; 0x64; 0xff; 0x9b] ++ repeat 0 12) 96; MkIPNet ([0; 0x64; 0xff; 0x9b; 0; 1] ++ repeat 0 10) 48;
   MkIPNet [100; 100; 100; 200] 32; MkIPNet ([0xfd; 0; 0x0e; 0xc2] ++ repeat 0 10 ++ [2; 0x54]) 128].

Definition local_nets : list IPNet :=
  [MkIPNet [10; 0; 0; 0] 8; MkIPNet [172; 16; 0; 0] 12; MkIPNet [192; 168; 0; 0] 16; MkIPNet (0xfc :: repeat 0 15) 7;
   MkIPNet [100; 64; 0; 0] 10; MkIPNet ([0xfe; 0xc0] ++ repeat 0 14) 10].

Definition same_net (r : string * string) (n : IPNet) : bool :=
  net_ok n && bool_decide (within_bounds r = Some (net_first n, net_last n)).

Lemma within_nets ip rs : forall ns, ip_ok ip -> length rs = length ns -> forallb (fun p => same_net p.1 p.2) (combine rs ns) = true ->
  existsb (within ip) rs = inAny ip ns.
Proof.
  induction rs as [|r rs IH]; intros [|n ns] Hip Hl Hs; try done. injection Hl as Hl. cbn [combine forallb fst snd] in Hs.
  apply andb_true_iff in Hs as [Hs Hrs]. unfold same_net in Hs. apply andb_true_iff in Hs as [Hn Hr]. apply bool_decide_eq_true in Hr.
  cbn [inAny existsb]. rewrite Contains_range by done. unfold inAny in IH. rewrite <- (IH ns) by done. f_equal. unfold within. unfold within_bounds in Hr.
  destruct (ParseIP r.1), (ParseIP r.2); try done. by injection Hr as -> ->.
Qed.

Lemma reserved_nets : reservedRanges = [MkIPNet [0; 0; 0; 0] 8] ++ skipn 8 never_nets.
Proof. vm_compute. reflexivity. Qed.

Lemma private_nets : privateRanges = skipn 4 local_nets.
Proof. vm_compute. reflexivity. Qed.

(** A disjunction is the same whatever the order of its members. *)
Ltac same_disjuncts :=
  repeat match goal with b : bool |- _ => destruct b; [cbn; rewrite ?orb_true_r; done|cbn [orb]; rewrite ?orb_false_r] end; try done.

(** The switch of cases is the table. *)
Lemma refused_table ip allowPrivate : ip_ok ip ->
  refused false ip allowPrivate = existsb (within ip) never_dialed || (negb allowPrivate && existsb (within ip) local_networks).
Proof.
  intros Hip. rewrite (within_nets ip never_dialed never_nets), (within_nets ip local_networks local_nets) by (done || vm_compute; reflexivity).
  unfold refused. rewrite loopback_net, link_local_net, unspecified_net, private_net by done.
  assert (IsLinkLocalMulticast ip = true -> IsMulticast ip = true) as H1 by (intros He; apply local_multicast; [done|by rewrite He]).
  assert (IsInterfaceLocalMulticast ip = true -> IsMulticast ip = true) as H2 by (intros He; apply local_multicast; [done|by rewrite He, orb_true_r]).
  rewrite multicast_net in H1, H2 |- * by done.
  assert (Contains (MkIPNet [0; 0; 0; 0] 32) ip = true -> Contains (MkIPNet [0; 0; 0; 0] 8) ip = true) as H3.
  { rewrite !Contains_range by (done || vm_compute; reflexivity). rewrite !andb_true_iff, !Z.leb_le.
    assert (net_first (MkIPNet [0; 0; 0; 0] 32) = net_first (MkIPNet [0; 0; 0; 0] 8) /\ net_last (MkIPNet [0; 0; 0; 0] 32) <= net_last (MkIPNet [0; 0; 0; 0] 8)) as [-> ?] by (split; vm_compute; congruence).
    lia. }
  rewrite reserved_nets, private_nets. unfold inAny, never_nets, local_nets. cbn [existsb app skipn].
  repeat match goal with |- context [Contains ?n ip] => let b := fresh "b" in remember (Contains n ip) as b eqn:Eb; clear Eb end.
  assert (forall a r l : bool, (if a then negb false else if r then true else if l then negb allowPrivate else false) = (a || r) || (negb allowPrivate && l)) as ->
    by (by intros [] [] []; rewrite ?andb_true_r, ?andb_false_r).
  f_equal; [|f_equal; by rewrite !orb_assoc, !orb_false_r]. assert (IsLinkLocalMulticast ip || IsInterfaceLocalMulticast ip = true -> b5 || b6 = true) as H12
    by (intros [Hx|Hx]%orb_true_iff; auto).
  clear H1 H2. destruct (IsLinkLocalMulticast ip), (IsInterfaceLocalMulticast ip).
  all: try (specialize (H12 eq_refl); apply orb_true_iff in H12 as [-> | ->]).
  all: try clear H12; destruct b3; [rewrite H3 by done|]; clear H3; same_disjuncts.
Qed.

(** *** Reading addresses *)

Lemma parse_v4_ok l : forall out val k r, parse_v4_from l out val k = Some r -> bytes_ok out -> (length out <= 3)%nat -> 0 <= val <= 255 -> bytes_ok r /\ length r = 4%nat.
Proof.
  induction l as [|c l IH]; intros out val k r; cbn [parse_v4_from].
  - destruct (Nat.eqb k 0 || _) eqn:E; [done|]. intros [= <-] Ho Hl Hv. apply orb_false_iff in E as [_ E]. apply negb_false_iff, Nat.eqb_eq in E.
    split; [|rewrite length_app, E; done]. apply bytes_ok_app. split; [done|]. constructor; [unfold is_byte; lia|constructor].
  - destruct (dec_digit c) eqn:Ed.
    + unfold dec_digit in Ed. apply andb_true_iff in Ed as [E1 E0]. destruct (Nat.eqb k 1 && (val =? 0)); [discriminate|]. destruct (255 <? _) eqn:E2; [done|]. apply Z.ltb_ge in E2. intros Hr Ho Hl Hv. eapply IH; [exact Hr|done|done|]. lia.
    + destruct (c =? 46); [|done]. destruct (Nat.eqb k 0 || _) eqn:E; [done|]. apply orb_false_iff in E as [_ E]. apply Nat.eqb_neq in E.
      intros Hr Ho Hl Hv. eapply IH; [exact Hr| |rewrite length_app; cbn; lia|lia]. apply bytes_ok_app. split; [done|]. constructor; [unfold is_byte; lia|constructor].
Qed.

Lemma hex_group_ok l : forall off acc v n rest, hex_group l off acc = Some (v, n, rest) -> 0 <= acc <= 65535 -> 0 <= v <= 65535.
Proof.
  induction l as [|c l IH]; intros off acc v n rest; cbn [hex_group]; [by intros [= <- _ _]|].
  destruct (hex_value c) as [x|] eqn:Ex; [|by intros [= <- _ _]]. destruct (Nat.ltb 3 off); [done|]. destruct (65535 <? _) eqn:E; [done|]. apply Z.ltb_ge in E.
  intros Hr Ha. eapply IH; [exact Hr|]. unfold hex_value in Ex. repeat case_match; simplify_eq; bool_hyps; lia.
Qed.

Lemma group_bytes_ok acc : 0 <= acc <= 65535 -> bytes_ok (group_bytes acc).
Proof. intros Ha. unfold group_bytes. repeat constructor; unfold is_byte; try apply Z.mod_pos_bound; try apply Z.div_pos; try apply Z.div_lt_upper_bound; lia. Qed.

(** The bytes read so far and the place of the ellipsis among them. *)
Definition reading_ok (out : list Z) (ell : option nat) : Prop := bytes_ok out /\ forall e, ell = Some e -> (e <= length out)%nat.

Lemma reading_app out ell l : reading_ok out ell -> bytes_ok l -> reading_ok (out ++ l) ell.
Proof. intros [Ho He] Hl. split; [by apply bytes_ok_app|]. intros e Hx. specialize (He e Hx). rewrite length_app. lia. Qed.

Lemma reading_here out ell : reading_ok out ell -> reading_ok out (Some (length out)).
Proof. intros [Ho _]. split; [done|]. by intros e [= <-]. Qed.

Lemma parse_v6_ok fuel : forall l out ell out' ell', parse_v6_from fuel l out ell = Some (out', ell') -> reading_ok out ell -> reading_ok out' ell'.
Proof.
  induction fuel as [|fuel IH]; intros l out ell out' ell' Hr Ho; cbn [parse_v6_from] in Hr; [destruct l; [by injection Hr as <- <-|done]|].
  destruct (hex_group l 0 0) as [[[acc off] rest]|] eqn:Eg; [|done]. apply hex_group_ok in Eg as Hacc; [|lia]. apply group_bytes_ok in Hacc.
  destruct (Nat.eqb off 0); [done|]. pose proof (reading_app _ _ _ Ho Hacc) as Ho2. destruct rest as [|c rest]; [by injection Hr as <- <-|].
  destruct (c =? 46).
  - destruct (_ || _); [done|]. destruct (parseIPv4Fields l) as [v4|] eqn:E4; [|done]. injection Hr as <- <-.
    apply parse_v4_ok in E4 as [Hb _]; [|constructor|cbn; lia|lia]. by apply reading_app.
  - destruct (negb (c =? 58)); [done|]. destruct rest as [|c2 rest]; [done|]. destruct (negb (c2 =? 58)); [by eapply IH|].
    destruct ell as [e0|]; [done|]. cbn [is_null negb] in Hr. apply reading_here in Ho2. destruct rest as [|c3 rest]; [by injection Hr as <- <-|by eapply IH].
Qed.

Lemma expand_ok out ell ip : expand out ell = Some ip -> reading_ok out ell -> ip_ok ip.
Proof.
  unfold expand. intros Hr [Ho He]. destruct ell as [e|].
  - specialize (He e eq_refl). destruct (Nat.ltb _ _) eqn:El; [|done]. apply Nat.ltb_lt in El. injection Hr as <-. split.
    + rewrite !length_app, repeat_length, length_firstn, length_skipn. lia.
    + rewrite <- (firstn_skipn e out) in Ho. apply bytes_ok_app in Ho as [H1 H2]. apply bytes_ok_app. split; [done|]. apply bytes_ok_app. split; [|done].
      apply Forall_forall. intros x Hx. apply list_elem_of_In, repeat_spec in Hx as ->. unfold is_byte. lia.
  - destruct (Nat.eqb _ _) eqn:El; [|done]. apply Nat.eqb_eq in El. by injection Hr as <-.
Qed.

Lemma reading_start ell : ell = None \/ ell = Some 0%nat -> reading_ok [] ell.
Proof. intros He. split; [constructor|]. intros e Hx. destruct He; simplify_eq. done. Qed.

Lemma parseIPv6_ok l ip : parseIPv6 l = Some ip -> ip_ok ip.
Proof.
  unfold parseIPv6. destruct (if list_eqb _ _ then _ else _) as [[out ell]|] eqn:E; [|done]. intros Hr. apply expand_ok in Hr; [done|].
  destruct (list_eqb _ _); [destruct (skipn 2 l); [injection E as <- <-; apply reading_start; auto|]|]; (eapply parse_v6_ok; [exact E|apply reading_start; auto]).
Qed.

Lemma ParseAddr_ok s ip zone : ParseAddr s = Some (ip, zone) -> ip_ok ip.
Proof.
  unfold ParseAddr. destruct (List.find _ _) as [c|]; [|done]. destruct (c =? 46).
  - destruct (parseIPv4Fields _) as [v|] eqn:E; [|done]. intros [= <- _]. apply parse_v4_ok in E as [Hb Hl]; [|constructor|cbn; lia|lia].
    split; [cbn; by rewrite Hl|]. apply (proj2 (bytes_ok_app v4_prefix v)). split; [apply v4_prefix_ok|done].
  - destruct (c =? 58); [|done]. destruct (cut 37 _) as [addr z]. destruct z as [[|]|]; [done| |].
    all: destruct (parseIPv6 addr) as [a|] eqn:E; [|done]; intros [= <- _]; by eapply parseIPv6_ok.
Qed.

Lemma ParseIP_ok s ip : ParseIP s = Some ip -> ip_ok ip.
Proof. unfold ParseIP. destruct (ParseAddr s) as [[a [|]]|] eqn:E; [|done|done]. intros [= <-]. by eapply ParseAddr_ok. Qed.

(** *** Dotted addresses *)

(** Reading a run of digits. *)
Fixpoint scan_octet (l : list Z) (val : Z) (k : nat) : option (Z * nat) :=
  match l with
  | [] => Some (val, k)
  | c :: l' => if negb (dec_digit c) || (Nat.eqb k 1 && (val =? 0)) || (255 <? val * 10 + (c - 48)) then None else scan_octet l' (val * 10 + (c - 48)) (S k)
  end.

Lemma scan_octet_app ds : forall l out val k v k', scan_octet ds val k = Some (v, k') -> parse_v4_from (ds ++ l) out val k = parse_v4_from l out v k'.
Proof.
  induction ds as [|c ds IH]; intros l out val k v k' Hs; cbn [scan_octet app] in *; [by injection Hs as <- <-|].
  destruct (_ || _) eqn:E; [done|]. apply orb_false_iff in E as [E E3]. apply orb_false_iff in E as [E1 E2]. apply negb_false_iff in E1.
  cbn [parse_v4_from]. rewrite E1, E2. cbv zeta. rewrite E3. by apply IH.
Qed.

Lemma octet_text a : is_byte a -> exists k, scan_octet (bytes_of (pretty a)) 0 0 = Some (a, S k).
Proof.
  intros Ha. assert (forallb (fun a => match scan_octet (bytes_of (pretty a)) 0 0 with Some (v, S _) => v =? a | _ => false end) byte_range = true) as Hall by (vm_compute; reflexivity).
  rewrite forallb_forall in Hall. specialize (Hall a (in_byte_range a Ha)). cbn beta in Hall. destruct (scan_octet _ 0 0) as [[v [|k]]|]; try done.
  apply Z.eqb_eq in Hall as ->. by exists k.
Qed.

Lemma dotted_bytes a b c d : bytes_of (dotted a b c d) =
  bytes_of (pretty a) ++ 46 :: bytes_of (pretty b) ++ 46 :: bytes_of (pretty c) ++ 46 :: bytes_of (pretty d).
Proof. unfold dotted. cbn [String.concat]. by rewrite !bytes_app. Qed.

Lemma parse_dotted a b c d : is_byte a -> is_byte b -> is_byte c -> is_byte d -> ParseIP (dotted a b c d) = Some (IPv4 a b c d).
Proof.
  intros Ha Hb Hc Hd. destruct (octet_text a Ha) as [ka Ka], (octet_text b Hb) as [kb Kb], (octet_text c Hc) as [kc Kc], (octet_text d Hd) as [kd Kd].
  unfold ParseIP, ParseAddr. rewrite dotted_bytes.
  assert (forall ds l v k val k', scan_octet ds val k' = Some (v, k) -> List.find (fun c => (c =? 46) || (c =? 58) || (c =? 37)) (ds ++ 46 :: l) = Some 46) as Hfind.
  { induction ds as [|x ds IH]; intros l v k val k' Hs; [done|]. cbn [scan_octet] in Hs. destruct (_ || _) eqn:E; [done|].
    apply orb_false_iff in E as [E _]. apply orb_false_iff in E as [E _]. apply negb_false_iff in E. unfold dec_digit in E. apply andb_true_iff in E as [E1 E2].
    cbn [app List.find]. assert ((x =? 46) || (x =? 58) || (x =? 37) = false) as -> by (repeat (apply orb_false_iff; split); apply Z.eqb_neq; lia). by eapply IH. }
  rewrite (Hfind _ _ _ _ _ _ Ka). cbn [Z.eqb Pos.eqb]. unfold parseIPv4Fields.
  rewrite (scan_octet_app _ _ _ _ _ _ _ Ka). cbn [parse_v4_from dec_digit]. cbn [Z.leb Z.compare Pos.compare Pos.compare_cont andb Z.eqb Pos.eqb Nat.eqb orb length app].
  rewrite (scan_octet_app _ _ _ _ _ _ _ Kb). cbn [parse_v4_from dec_digit]. cbn [Z.leb Z.compare Pos.compare Pos.compare_cont andb Z.eqb Pos.eqb Nat.eqb orb length app].
  rewrite (scan_octet_app _ _ _ _ _ _ _ Kc). cbn [parse_v4_from dec_digit]. cbn [Z.leb Z.compare Pos.compare Pos.compare_cont andb Z.eqb Pos.eqb Nat.eqb orb length app].
  rewrite <- (app_nil_r (bytes_of (pretty d))), (scan_octet_app _ _ _ _ _ _ _ Kd). reflexivity.
Qed.

(** *** Dialing *)

(** C40. The dialer accepts an address exactly when it is a host and port whose
    host is a literal IP address outside every range of an independently
    written table: loopback, unspecified, link-local, multicast, reserved
    and metadata addresses always, and private networks unless the operator
    opened them and the URL is not a device's. *)
Theorem dialed_addresses_are_public AllowPrivate device address : dial_allowed AllowPrivate false device address = true <->
  exists host port ip, SplitHostPort address = Some (host, port) /\ ParseIP host = Some ip /\ existsb (within ip) never_dialed = false /\
    (AllowPrivate && negb device = false -> existsb (within ip) local_networks = false).
Proof.
  unfold dial_allowed. split.
  - destruct (SplitHostPort address) as [[host port]|]; [|done]. destruct (ParseIP host) as [ip|] eqn:Ep; [|done].
    intros Hr. rewrite negb_true_iff, refused_table in Hr by by eapply ParseIP_ok. apply orb_false_iff in Hr as [H1 H2].
    exists host, port, ip. split_and!; [done|done|done|]. intros Hf. by rewrite Hf in H2.
  - intros (host & port & ip & -> & Hp & H1 & H2). rewrite Hp. rewrite negb_true_iff, refused_table, H1 by by eapply ParseIP_ok.
    destruct (AllowPrivate && negb device); [done|]. by rewrite H2.
Qed.

(** A URL that names a literal address passes only if that address may be dialed. *)
Lemma validated_literal_dials url_parse AllowPrivate raw device u ip port address : validate url_parse AllowPrivate false raw device = None ->
  url_parse raw = Some u -> SplitHostPort address = Some (pu_Hostname u, port) -> ParseIP (pu_Hostname u) = Some ip -> dial_allowed AllowPrivate false device address = true.
Proof.
  unfold validate, dial_allowed. intros Hv Hu -> Hp. rewrite Hu, Hp in *. cbv zeta in Hv. repeat case_match; simplify_eq; done.
Qed.

(** *** Attribution *)

(** An entry that names a trusted proxy. *)
Definition trusted_entry (m : Manager) (e : string) : Prop := exists ip, ParseIP (TrimSpace e) = Some ip /\ isTrustedIP m (Some ip) = true.

Lemma walk_trusted m suf : forall rest last, Forall (trusted_entry m) suf ->
  walk_chain m (suf ++ rest) last = walk_chain m rest (match rev suf with [] => last | e :: _ => ParseIP (TrimSpace e) end).
Proof.
  induction suf as [|e suf IH]; intros rest last0 Hs; [done|]. apply Forall_cons in Hs as [(ip & He & Ht) Hs]. cbn [app walk_chain]. rewrite He, Ht.
  rewrite IH by done. cbn [rev]. destruct (rev suf) as [|x l]; cbn; [by rewrite He|done].
Qed.

(** A request is attributed to its peer unless the peer is a configured
    proxy; then to the rightmost forwarded entry that is not one, whatever
    stands to its left, and a malformed entry falls back to the peer.
    Addresses of one IPv6 /64 share a rate-limit key. *)
Theorem attribution_stops_at_the_first_stranger m r :
  (isTrustedProxy m r = false \/ mm_header m = EmptyString -> ClientIP m r = remoteHost r) /\
  (isTrustedProxy m r = true -> mm_header m <> EmptyString ->
    (forall pre x suf, entries (rq_Forwarded r) = pre ++ x :: suf -> Forall (trusted_entry m) suf ->
       (ParseIP (TrimSpace x) = None -> ClientIP m r = remoteHost r) /\
       (forall ip, ParseIP (TrimSpace x) = Some ip -> isTrustedIP m (Some ip) = false \/ pre = [] -> ClientIP m r = ip_String ip))) /\
  (forall s t a b za zb, ParseAddr s = Some (a, za) -> ParseAddr t = Some (b, zb) ->
     a = b \/ (To4 a = None /\ To4 b = None /\ firstn 8 a = firstn 8 b) -> rateLimitPrefix s = rateLimitPrefix t).
Proof.
  split; [|split].
  - intros Hc. unfold ClientIP. destruct Hc as [-> | ->]; [done|]. by rewrite orb_true_r.
  - intros Ht Hh pre x suf He Hs. unfold ClientIP. rewrite Ht. assert ((mm_header m =?s EmptyString) = false) as -> by by apply streqb_false.
    cbn [negb orb]. rewrite He, rev_app_distr. cbn [rev]. rewrite <- app_assoc. apply Forall_rev in Hs. rewrite walk_trusted by done. cbn [app walk_chain].
    split; [by intros ->|]. intros ip -> [-> | ->]; [done|]. destruct (isTrustedIP m (Some ip)); done.
  - intros s t a b za zb Hs Ht Hc. unfold rateLimitPrefix. rewrite Hs, Ht. destruct Hc as [-> |(-> & -> & ->)]; done.
Qed.

(** An IPv4 address is read back from its text. *)
Lemma dotted_text a b c d : is_byte a -> is_byte b -> is_byte c -> is_byte d -> ip_String <$> ParseIP (dotted a b c d) = Some (dotted a b c d).
Proof. intros Ha Hb Hc Hd. by rewrite parse_dotted. Qed.

(** ** Witnesses *)

Definition edge : Manager := MkManager (cidrs ["10.0.0.0/8"]%string) "X-Forwarded-For".
Definition forwarded_request : Peer := MkPeer "10.0.0.7:443" "198.51.100.1, 203.0.113.9, 10.1.1.1" false EmptyString.

Lemma attribution_stops_at_the_first_stranger_witness : ClientIP edge forwarded_request = "203.0.113.9"%string /\
  rateLimitPrefix "2001:db8::1" = rateLimitPrefix "2001:db8::2:0:0:9".
Proof.
  split.
  - destruct (attribution_stops_at_the_first_stranger edge forwarded_request) as (_ & Hc & _).
    destruct (Hc ltac:(vm_compute; reflexivity) ltac:(discriminate) ["198.51.100.1"]%string " 203.0.113.9"%string [" 10.1.1.1"]%string) as [_ Hx].
    + vm_compute. reflexivity.
    + constructor; [|constructor]. exists (IPv4 10 1 1 1). split; vm_compute; reflexivity.
    + rewrite (Hx (IPv4 203 0 113 9)); [vm_compute; reflexivity|vm_compute; reflexivity|left; vm_compute; reflexivity].
  - destruct (attribution_stops_at_the_first_stranger edge forwarded_request) as (_ & _ & Hp).
    eapply Hp; [vm_compute; reflexivity|vm_compute; reflexivity|right; vm_compute; split_and!; reflexivity].
Defined.
