(* ===== verification/Dispatch.v ===== *)
(** Delivering the outbox: SCIM resources and webhooks ([sync/sync.go]), the
    generic SCIM connector ([sync/scim.go], [sync/scim_groups.go]) and the
    outcome tracking of a write ([sync/delivery.go]).

    The far side is a function from everything sent so far to what came back,
    so a statement about all of them covers every behaviour of a target.  The
    SCIM and signing libraries, [url.Parse] and the JSON of instants are the
    operations of the class [Far]. *)
From stdpp Require Import pretty.
From S2P Require Import Prelude Schema Access Sample Sessions Tokens Outbox Crypto Net ReconcileJobs.

Open Scope string_scope.
Open Scope Z_scope.

(** ** SCIM user resources *)

Record SCIMEmail := MkSCIMEmail { em_Value : string; em_Type : string; em_Primary : bool }.
Record SCIMRole := MkSCIMRole { rl_Value : string; rl_Primary : bool }.
Record SCIMName := MkSCIMName { nm_Formatted : string; nm_FamilyName : string; nm_GivenName : string }.
Record SCIMMeta := MkSCIMMeta { me_ResourceType : string; me_Created : option Z; me_LastModified : option Z; me_Location : string; me_Version : string }.

(** A nil role list is [None]. *)
Record SCIMUserResource := MkSCIMUserResource { sr_Schemas : list string; sr_ID : string; sr_ExternalID : string; sr_UserName : string;
  sr_DisplayName : string; sr_Name : option SCIMName; sr_Emails : list SCIMEmail; sr_Roles : option (list SCIMRole); sr_Active : bool;
  sr_Meta : option SCIMMeta }.

Definition SCIMUserSchema : string := "urn:ietf:params:scim:schemas:core:2.0:User".

Definition UserToSCIMResource (u : User) : SCIMUserResource :=
  MkSCIMUserResource [SCIMUserSchema] (u_ID u) (u_ID u) (u_Username u) (u_DisplayName u) (Some (MkSCIMName (u_DisplayName u) "" ""))
    (if u_Email u <>?s "" then [MkSCIMEmail (u_Email u) "work" true] else [])
    (if u_Role u <>?s "" then Some [MkSCIMRole (u_Role u) true] else None)
    (u_Status u =?s "active") (Some (MkSCIMMeta "User" (Some (u_CreatedAt u)) (Some (u_UpdatedAt u)) "" "")).

(** ** What the far side is *)

Inductive Sentinel := ErrAmbiguous | ErrMalformedResponse | ErrUnauthorized | ErrInsecureURL | ErrRemoteNotFound | ErrConflict.
#[global] Instance Sentinel_eq_dec : EqDecision Sentinel.
Proof. solve_decision. Defined.

(** An error as [errors.As] and [errors.Is] classify it: an answer's status
    ([*scim.Error]), a transport error ([*url.Error]), one of the SCIM
    library's sentinels, or any other. *)
Inductive DeliveryError := Remote (status retryAfter : Z) | Transport | Known (s : Sentinel) | CreateUncertain | Other.

Inductive RetryAfter := RetryNone | RetrySeconds (n : Z) | RetryDate (t : Z).

(** Bodies as [json.Unmarshal] reads them into the engine's structs. *)
Record FoundPage := MkFoundPage { fp_Total : option Z; fp_Start : option Z; fp_Resources : list (string * string) }.
Record RemoteGroupBody := MkRemoteGroupBody { rg_ID : string; rg_ExternalID : string; rg_Members : list string }.

(** An answer; [rs_Readable]: the body was read whole and is at most 1 MiB. *)
Record Response := MkResponse { rs_Status : Z; rs_Location : bool; rs_RetryAfter : RetryAfter; rs_Readable : bool;
  rs_Page : option FoundPage; rs_User : option (string * string); rs_Group : option RemoteGroupBody }.

(** A user body as the write sends it; [ub_Rest] is what the engine passes through. *)
Record scimUserBody := MkScimUserBody { ub_ID : string; ub_ExternalID : string; ub_UserName : string; ub_Active : bool; ub_HasMeta : bool;
  ub_Roles : option (list Json); ub_Rest : Json }.
Record scimGroup := MkScimGroup { sg_Schemas : list string; sg_ExternalID : string; sg_DisplayName : string; sg_Members : list string }.

Inductive Body := NoBody | UserBody (b : scimUserBody) | GroupBody (g : scimGroup) | PatchActive (v : bool) | Event (j : Json).

(** The target is the base with its path segments and query. *)
Record WireRequest := MkWireRequest { wq_Method : string; wq_Base : string; wq_Path : list string; wq_Query : list (string * string);
  wq_Headers : list (string * string); wq_Body : Body }.

(** What a round trip did: whether the request's headers were written, and the
    answer if one came. *)
Record RoundTrip := MkRoundTrip { rt_Wrote : bool; rt_Response : option Response }.

Definition Exchange : Type := WireRequest * RoundTrip.

Record SCIMEndpoint := MkSCIMEndpoint { en_Scheme : string; en_Hostname : string; en_User : bool; en_RawQuery : string; en_ForceQuery : bool;
  en_Fragment : string; en_Path : string }.

Class Far := {
  far_side : list Exchange -> WireRequest -> RoundTrip; (** the last exchange is the head *)
  lib_GetUser : string -> string -> string -> list Exchange -> list Exchange * (DeliveryError + (string * string)); (** base, token, remote id *)
  lib_PatchUser : string -> string -> string -> bool -> list Exchange -> list Exchange * (DeliveryError + unit);
  lib_is : Z -> Sentinel -> bool; (** [errors.Is] of an answer's status *)
  lib_text : Sentinel -> string;
  lib_body : Json -> option scimUserBody; (** [json.Unmarshal] into the library's user *)
  syncauth_Sign : string -> Z -> string -> string -> Json -> option (list (string * string));
  url_endpoint : string -> option SCIMEndpoint; (** [url.Parse] *)
  url_with_path : string -> string -> string; (** the parsed URL under another path *)
  time_json : Z -> Json;
  time_read : Json -> option Z
}.

(** ** The JSON of a profile *)

Section json.
Context `{Far}.

(** [Unmarshal] into a field: absent or null keeps the zero value. *)
Definition dec_string (k : string) (l : list (string * Json)) : option string :=
  match obj_get k l with None | Some JNull => Some "" | Some (JStr s) => Some s | _ => None end.
Definition dec_bool_ptr (k : string) (l : list (string * Json)) : option (option bool) :=
  match obj_get k l with None | Some JNull => Some None | Some (JBool b) => Some (Some b) | _ => None end.
Definition dec_bool (k : string) (l : list (string * Json)) : option bool := default false <$> dec_bool_ptr k l.

(** A slice: [None] inside is nil. *)
Definition dec_slice {A} (f : Json -> option A) (k : string) (l : list (string * Json)) : option (option (list A)) :=
  match obj_get k l with None | Some JNull => Some None | Some (JArr xs) => Some <$> mapM f xs | _ => None end.

Definition dec_object {A} (zero : A) (f : list (string * Json) -> option A) (j : Json) : option A :=
  match j with JNull => Some zero | JObj l => f l | _ => None end.

Definition dec_text (j : Json) : option string := match j with JNull => Some "" | JStr s => Some s | _ => None end.

Definition dec_role : Json -> option SCIMRole := dec_object (MkSCIMRole "" false) (fun l =>
  v ← dec_string "value" l; p ← dec_bool "primary" l; Some (MkSCIMRole v p)).

Definition dec_email : Json -> option SCIMEmail := dec_object (MkSCIMEmail "" "" false) (fun l =>
  v ← dec_string "value" l; t ← dec_string "type" l; p ← dec_bool "primary" l; Some (MkSCIMEmail v t p)).

Definition dec_time (k : string) (l : list (string * Json)) : option (option Z) :=
  match obj_get k l with None | Some JNull => Some None | Some j => Some <$> time_read j end.

Definition dec_ptr {A} (f : list (string * Json) -> option A) (k : string) (l : list (string * Json)) : option (option A) :=
  match obj_get k l with None | Some JNull => Some None | Some (JObj x) => Some <$> f x | _ => None end.

Definition dec_name (l : list (string * Json)) : option SCIMName :=
  f ← dec_string "formatted" l; n ← dec_string "familyName" l; g ← dec_string "givenName" l; Some (MkSCIMName f n g).

Definition dec_meta (l : list (string * Json)) : option SCIMMeta :=
  t ← dec_string "resourceType" l; c ← dec_time "created" l; m ← dec_time "lastModified" l; loc ← dec_string "location" l;
  v ← dec_string "version" l; Some (MkSCIMMeta t c m loc v).

Definition dec_resource (l : list (string * Json)) : option SCIMUserResource :=
  schemas ← dec_slice dec_text "schemas" l; id ← dec_string "id" l; ext ← dec_string "externalId" l; uname ← dec_string "userName" l;
  display ← dec_string "displayName" l; name ← dec_ptr dec_name "name" l; emails ← dec_slice dec_email "emails" l;
  roles ← dec_slice dec_role "roles" l; active ← dec_bool "active" l; meta ← dec_ptr dec_meta "meta" l;
  Some (MkSCIMUserResource (default [] schemas) id ext uname display name (default [] emails) roles active meta).

(** The struct of [FormatUserAsSCIM], for a payload in the store's older form. *)
Record legacyProfile := MkLegacyProfile { lp_Schemas : list string; lp_ID : string; lp_UserName : string; lp_DisplayName : string;
  lp_Email : string; lp_Username : string; lp_Role : string; lp_Roles : option (list SCIMRole); lp_Status : string; lp_Active : option bool }.

Definition dec_legacy : Json -> option legacyProfile := dec_object (MkLegacyProfile [] "" "" "" "" "" "" None "" None) (fun l =>
  schemas ← dec_slice dec_text "schemas" l; id ← dec_string "id" l; uname ← dec_string "userName" l; display ← dec_string "displayName" l;
  email ← dec_string "email" l; old ← dec_string "username" l; role ← dec_string "role" l; roles ← dec_slice dec_role "roles" l;
  status ← dec_string "status" l; active ← dec_bool_ptr "active" l;
  Some (MkLegacyProfile (default [] schemas) id uname display email old role roles status active)).

Definition from_legacy (t : legacyProfile) : SCIMUserResource :=
  MkSCIMUserResource [SCIMUserSchema] (lp_ID t) (lp_ID t) (if lp_UserName t =?s "" then lp_Username t else lp_UserName t) (lp_DisplayName t)
    (Some (MkSCIMName (lp_DisplayName t) "" "")) (if lp_Email t <>?s "" then [MkSCIMEmail (lp_Email t) "work" true] else [])
    (match lp_Roles t with Some rs => Some rs | None => if lp_Role t <>?s "" then Some [MkSCIMRole (lp_Role t) true] else None end)
    (match lp_Active t with Some b => b | None => (lp_Status t =?s "") || (lp_Status t =?s "active") end)
    (Some (MkSCIMMeta "User" None None "" "")).

(** The payload of a queued event; [None] is an error. *)
Definition FormatUserAsSCIM (payload : Json) : option SCIMUserResource :=
  match dec_legacy payload with
  | None => None
  | Some t =>
    match lp_Schemas t, payload with
    | _ :: _, JObj l => match dec_resource l with Some r => Some r | None => Some (from_legacy t) end
    | _, _ => Some (from_legacy t)
    end
  end.

(** [omitempty]. *)
Definition opt_string (k s : string) : list (string * Json) := if s =?s "" then [] else [(k, JStr s)].
Definition opt_time (k : string) (t : option Z) : list (string * Json) := match t with Some t => [(k, time_json t)] | None => [] end.

Definition enc_role (r : SCIMRole) : Json := JObj [("value", JStr (rl_Value r)); ("primary", JBool (rl_Primary r))].
Definition enc_email (m : SCIMEmail) : Json :=
  JObj ([("value", JStr (em_Value m))] ++ opt_string "type" (em_Type m) ++ [("primary", JBool (em_Primary m))])%list.
Definition enc_name (n : SCIMName) : Json :=
  JObj (opt_string "formatted" (nm_Formatted n) ++ opt_string "familyName" (nm_FamilyName n) ++ opt_string "givenName" (nm_GivenName n))%list.
Definition enc_meta (m : SCIMMeta) : Json :=
  JObj ([("resourceType", JStr (me_ResourceType m))] ++ opt_time "created" (me_Created m) ++ opt_time "lastModified" (me_LastModified m) ++
    opt_string "location" (me_Location m) ++ opt_string "version" (me_Version m))%list.

Definition enc_resource (r : SCIMUserResource) : list (string * Json) :=
  ([("schemas", JArr (map JStr (sr_Schemas r))); ("id", JStr (sr_ID r))] ++ opt_string "externalId" (sr_ExternalID r) ++
   [("userName", JStr (sr_UserName r))] ++ opt_string "displayName" (sr_DisplayName r) ++
   match sr_Name r with Some n => [("name", enc_name n)] | None => [] end ++
   match sr_Emails r with [] => [] | l => [("emails", JArr (map enc_email l))] end ++
   [("roles", match sr_Roles r with Some l => JArr (map enc_role l) | None => JNull end); ("active", JBool (sr_Active r))] ++
   match sr_Meta r with Some m => [("meta", enc_meta m)] | None => [] end)%list.

(** [W/] with the revision in quotes. *)
Definition quote : string := String (Ascii.ascii_of_nat 34) "".
Definition etag (revision : Z) : string := String.append "W/" (String.append quote (String.append (pretty revision) quote)).

(** What the wire carries for a user event: the profile under the event's
    delivery revision, its role list always stated.  Its instants were read
    from JSON, so writing it back cannot fail. *)
Definition outgoing (ev : AccountSyncEvent) : Json :=
  if String.prefix "group." (e_EventType ev) then e_Payload ev else
  match FormatUserAsSCIM (e_Payload ev) with
  | None => e_Payload ev
  | Some r =>
    let m := default (MkSCIMMeta "User" None None "" "") (sr_Meta r) in
    JObj (enc_resource (MkSCIMUserResource (sr_Schemas r) (sr_ID r) (sr_ExternalID r) (sr_UserName r) (sr_DisplayName r) (sr_Name r)
      (sr_Emails r) (Some (default [] (sr_Roles r))) (sr_Active r)
      (Some (MkSCIMMeta (me_ResourceType m) (me_Created m) (me_LastModified m) (me_Location m) (etag (e_DeliveryRevision ev))))))
  end.
End json.

(** ** Requests *)

(** What one delivery threads: the database, everything sent so far (newest
    first), and whether a write of this delivery is unsettled. *)
Record Line := MkLine { ln_DB : DB; ln_Sent : list Exchange; ln_Uncertain : bool }.

Definition Wired : Type -> Type := Run Line DeliveryError.

Section delivery.
Context `{Codec} `{AEAD} `{Far}.

(** A store call; its errors are none the far side's. *)
Definition stored {A} (m : DB -> (StoreError + A) * DB) : Wired A := fun s =>
  match m (ln_DB s) with
  | (inl _, d) => (inl Other, MkLine d (ln_Sent s) (ln_Uncertain s))
  | (inr a, d) => (inr a, MkLine d (ln_Sent s) (ln_Uncertain s))
  end.

Definition store_write (f : DB -> DB) : Wired unit := fun s => (inr tt, MkLine (f (ln_DB s)) (ln_Sent s) (ln_Uncertain s)).

Definition mutation (rq : WireRequest) : bool := negb (one_of (wq_Method rq) ["GET"; "HEAD"]).

(** An answer that proves the write was applied, or that it never will be. *)
Definition settles (code : Z) : bool :=
  (code =? 200) || (code =? 201) || (code =? 204) || (code =? 503) || ((400 <=? code) && (code <? 500) && negb (code =? 408)).

(** [deliveryTransport.RoundTrip]'s flag after one exchange. *)
Definition track (uncertain : bool) (x : Exchange) : bool :=
  if mutation x.1 then
    let written := if rt_Wrote x.2 then true else uncertain in
    match rt_Response x.2 with
    | Some r => if settles (rs_Status r) then false else written
    | None => written
    end
  else uncertain.

(** Exchanges a library call had, oldest first. *)
Definition carried (xs : list Exchange) (s : Line) : Line :=
  MkLine (ln_DB s) (rev xs ++ ln_Sent s)%list (fold_left track xs (ln_Uncertain s)).

(** A redirect is refused, which the client reports as a transport error. *)
Definition redirected (r : Response) : bool :=
  rs_Location r && existsb (Z.eqb (rs_Status r)) [301; 302; 303; 307; 308].

(** [http.Client.Do]. *)
Definition Do (rq : WireRequest) : Wired Response := fun s =>
  let t := far_side (ln_Sent s) rq in
  (match rt_Response t with
   | Some r => if redirected r then inl Transport else inr r
   | None => inl Transport
   end, carried [(rq, t)] s).

Definition library {A} (call : list Exchange -> list Exchange * (DeliveryError + A)) : Wired A := fun s =>
  let '(xs, r) := call (ln_Sent s) in (r, carried xs s).

(** [Retry-After], between nothing and an hour. *)
Definition retry_after (now : Z) (h : RetryAfter) : Z :=
  match h with
  | RetrySeconds n => Z.max 0 (Z.min n 3600) * second
  | RetryDate t => Z.max 0 (Z.min (t - now) hour)
  | RetryNone => 0
  end.

(** The status, 0 without an answer, and the answer or the error. *)
Definition scimRequest (now : Z) (method base token : string) (path : list string) (query : list (string * string)) (body : Body) :
    Wired (Z * (DeliveryError + Response)) := fun s =>
  let headers := ([("Authorization", String.append "Bearer " token); ("Accept", "application/scim+json")] ++
    match body with NoBody => [] | _ => [("Content-Type", "application/scim+json")] end)%list in
  match Do (MkWireRequest method base path query headers body) s with
  | (inl e, s) => (inr (0, inl e), s)
  | (inr r, s) =>
    (inr (rs_Status r,
      if (200 <=? rs_Status r) && (rs_Status r <? 300) then
        if rs_Readable r then inr r else inl (Known ErrMalformedResponse)
      else inl (Remote (rs_Status r) (retry_after now (rs_RetryAfter r)))), s)
  end.

Definition is_error (e : DeliveryError) (k : Sentinel) : bool :=
  match e with Remote status _ => lib_is status k | Known k' => bool_decide (k = k') | _ => false end.

Definition malformed {A} : Wired A := run_fail (Known ErrMalformedResponse).

(** The text an event keeps of a failed delivery. *)
Definition deliveryError (e : DeliveryError) : string :=
  match e with
  | Remote status _ => String.append "SCIM HTTP " (pretty status)
  | CreateUncertain => "SCIM create outcome unresolved; reconcile externalId at the target before retrying"
  | _ =>
    match List.find (is_error e) [ErrAmbiguous; ErrMalformedResponse; ErrUnauthorized; ErrInsecureURL; ErrRemoteNotFound] with
    | Some k => lib_text k
    | None => delivery_failed
    end
  end.

(** Whether a failed create cannot have been applied. *)
Definition createRefused (uncertain : bool) (e : DeliveryError) : bool :=
  match e with
  | Remote s _ => (s =? 503) || ((400 <=? s) && (s <? 500) && negb (s =? 408))
  | Transport => negb uncertain
  | _ => false
  end.

(** ** Connectors *)

Fixpoint trim_right_slash (l : list Ascii.ascii) : list Ascii.ascii :=
  match l with
  | [] => []
  | c :: l' => match trim_right_slash l' with
    | [] => if Ascii.eqb c (Ascii.ascii_of_nat 47) then [] else [c]
    | l'' => c :: l''
    end
  end.
Definition TrimRightSlash (s : string) : string := String.string_of_list_ascii (trim_right_slash (String.list_ascii_of_string s)).

Definition TrimSuffix (s suffix : string) : string :=
  let n := (String.length s - String.length suffix)%nat in
  if String.append (String.substring 0 n s) suffix =?s s then String.substring 0 n s else s.

(** The base URL of the SCIM client; the old endpoint form loses its collection. *)
Definition scim_base (sys : PairedSystem) : string := TrimSuffix (TrimRightSlash (ps_CallbackURL sys)) "/Users".

Inductive ConfigError := ConfigURL | ConfigToken.

Definition scim_config_error (raw token : string) : option ConfigError :=
  match url_endpoint raw with
  | Some u =>
    if (en_Scheme u <>?s "https") || (en_Hostname u =?s "") || en_User u || (en_RawQuery u <>?s "") || en_ForceQuery u || (en_Fragment u <>?s "")
    then Some ConfigURL
    else if (Z.of_nat (String.length token) =? 0) || (8192 <? Z.of_nat (String.length token)) ||
      negb (forallb visible_ascii (String.list_ascii_of_string token)) then Some ConfigToken
    else None
  | None => Some ConfigURL
  end.

Definition demand_config (raw token : string) : Wired unit :=
  match scim_config_error raw token with
  | None => run_ret tt
  | Some ConfigURL => run_fail (Known ErrInsecureURL)
  | Some ConfigToken => run_fail Other
  end.

Definition supportedSystemType (kind : string) : bool :=
  one_of kind ["scim"; "suite_webhook"; "kypost"; "kypasswords"; "kybookmarks"; "kynotes"].

Definition SealConnector : string := "paired_system".

(** [None]: the connector must be re-paired, or its secret does not open. *)
Definition SigningSecret (encryptionKey : list Z) (sys : PairedSystem) : option string :=
  if ps_HMACSecretEncrypted sys =?s "" then None else
  match Open encryptionKey SealConnector (ps_ID sys) (ps_HMACSecretEncrypted sys) with
  | Opened plain => Some (string_of plain)
  | _ => None
  end.

(** ** Looking a resource up *)

(** A filter value: backslashes and quotes are escaped. *)
Fixpoint escaped (s : string) : string :=
  match s with
  | "" => ""
  | String c s' =>
    if Ascii.eqb c (Ascii.ascii_of_nat 92) || Ascii.eqb c (Ascii.ascii_of_nat 34) then String (Ascii.ascii_of_nat 92) (String c (escaped s')) else String c (escaped s')
  end.

Definition external_id_filter (localID : string) : string :=
  String.append "externalId eq " (String.append quote (String.append (escaped localID) quote)).

Definition bad_id (id : string) : bool := one_of id [""; "."; ".."].

(** What a page says of the one resource carrying [localID]. *)
Definition read_page (localID : string) (page : option FoundPage) : DeliveryError + string :=
  match page with
  | None => inl (Known ErrMalformedResponse)
  | Some p =>
    match fp_Total p with
    | None => inl (Known ErrMalformedResponse)
    | Some total =>
      if (total <? 0) || match fp_Start p with Some s => negb (s =? 1) | None => false end then inl (Known ErrMalformedResponse)
      else if (1 <? total) || (1 <? length (fp_Resources p))%nat then inl (Known ErrAmbiguous)
      else if negb (total =? Z.of_nat (length (fp_Resources p))) then inl (Known ErrMalformedResponse)
      else match fp_Resources p with
        | [] => inl (Known ErrRemoteNotFound)
        | (id, ext) :: _ => if bad_id id || (ext <>?s localID) then inl (Known ErrMalformedResponse) else inr id
        end
    end
  end.

Definition lift {A} (r : DeliveryError + A) : Wired A := fun s => (r, s).

Definition findSCIMResource (now : Z) (base token collection localID : string) : Wired string :=
  demand_config base token ~;;
  r <~ scimRequest now "GET" base token [collection]
    [("count", "2"); ("filter", external_id_filter localID); ("startIndex", "1")] NoBody ;;
  if r.1 =? 404 then malformed else
  match r.2 with
  | inl e => run_fail e
  | inr page => if negb (rs_Status page =? 200) then malformed else lift (read_page localID (rs_Page page))
  end.

(** A lookup that distinguishes what was found, absence and any other error. *)
Definition found_or_absent (m : Wired string) : Wired (option string) := fun s =>
  match m s with
  | (inr id, s) => (inr (Some id), s)
  | (inl e, s) => if is_error e ErrRemoteNotFound then (inr None, s) else (inl e, s)
  end.

(** The stored mapping: the remote id, and whether a create was started. *)
Definition SCIMLinkOf (sys kind local : string) (d : DB) : string * bool :=
  match SCIMRemote sys kind local d with Some remote => (remote, true) | None => ("", false) end.

(** ** Users at a generic SCIM connector *)

(** [createSCIMUser]: the id and external id the target answered with. *)
Definition createSCIMUser (now : Z) (base token : string) (desired : scimUserBody) : Wired (DeliveryError + (string * string)) :=
  r <~ scimRequest now "POST" base token ["Users"] [] (UserBody desired) ;;
  run_ret (match r.2 with
    | inl e => inl e
    | inr a =>
      if negb (rs_Status a =? 201) && negb (rs_Status a =? 200) then inl (Known ErrMalformedResponse) else
      match rs_User a with
      | Some (id, ext) => if bad_id id then inl (Known ErrMalformedResponse) else inr (id, ext)
      | None => inl (Known ErrMalformedResponse)
      end
    end).

Definition uncertain_now : Wired bool := fun s => (inr (ln_Uncertain s), s).

(** A refused create forgets its marker. *)
Definition reject_if_refused (sys kind localID : string) (e : DeliveryError) : Wired unit :=
  uncertain <~ uncertain_now ;;
  if createRefused uncertain e then store_write (RejectSCIMCreate sys kind localID) else run_ret tt.

Inductive Created := Done | Mapped (remote : string).

(** What the answer to a create makes of its mapping.  A conflict may be our
    own create whose answer was lost, so the target is asked once more. *)
Definition conclude_create (now : Z) (base token sys localID : string) (created : DeliveryError + (string * string)) : Wired Created :=
  match created with
  | inr (id, ext) =>
    if (ext <>?s "") && (ext <>?s localID) then malformed
    else stored (SaveSCIMLink sys "user" localID id) ~;; run_ret Done
  | inl e =>
    reject_if_refused sys "user" localID e ~;;
    if negb (is_error e ErrConflict) then run_fail e else
    fun s => match findSCIMResource now base token "Users" localID s with
      | (inl _, s) => (inl e, s)
      | (inr id, s) => (stored (SaveSCIMLink sys "user" localID id) ~;; run_ret (Mapped id)) s
      end
  end.

(** Nothing carries the external id: create it, unless a create of it is unresolved. *)
Definition create_user (now : Z) (base token : string) (sys localID : string) (started deactivate : bool) (desired : scimUserBody) : Wired Created :=
  if started then run_fail CreateUncertain else
  if deactivate then run_ret Done else
  won <~ stored (StartSCIMCreate sys "user" localID) ;;
  if negb won then run_fail CreateUncertain else
  created <~ createSCIMUser now base token desired ;;
  conclude_create now base token sys localID created.

(** A mapping read from the store may name an account that is gone or another's. *)
Definition verified (base token remoteID localID : string) (deactivate : bool) (k : Wired unit) : Wired unit := fun s =>
  match library (lib_GetUser base token remoteID) s with
  | (inl e, s) => if deactivate && is_error e ErrRemoteNotFound then (inr tt, s) else (inl e, s)
  | (inr (id, ext), s) => if (id <>?s remoteID) || (ext <>?s localID) then malformed s else k s
  end.

(** Deactivate what is there, or replace the whole profile. *)
Definition write_user (now : Z) (base token remoteID : string) (deactivate : bool) (desired : scimUserBody) : Wired unit :=
  if deactivate then fun s =>
    match library (lib_PatchUser base token remoteID false) s with
    | (inl e, s) => if is_error e ErrRemoteNotFound then (inr tt, s) else (inl e, s)
    | (inr _, s) => (inr tt, s)
    end
  else
    r <~ scimRequest now "PUT" base token ["Users"; remoteID] [] (UserBody desired) ;;
    match r.2 with
    | inl e => run_fail e
    | inr _ => if existsb (Z.eqb r.1) [200; 201; 204] then run_ret tt else malformed
    end.

(** The body of a write: no target id or meta, the local id as external id, and
    a role list even when empty. *)
Definition stated_roles (b : scimUserBody) : scimUserBody :=
  MkScimUserBody (ub_ID b) (ub_ExternalID b) (ub_UserName b) (ub_Active b) (ub_HasMeta b) (Some (default [] (ub_Roles b))) (ub_Rest b).
Definition desired_body (localID : string) (b : scimUserBody) : scimUserBody :=
  MkScimUserBody "" localID (ub_UserName b) (ub_Active b) false (ub_Roles b) (ub_Rest b).

Definition deliverSCIM (now : Z) (sys : PairedSystem) (secret eventType localID : string) (payload : Json) : Wired unit :=
  run_guard (localID <>?s "") Other ~;;
  run_guard (one_of eventType ["user.created"; "user.updated"; "user.deleted"; "user.mfa_reset"]) Other ~;;
  if eventType =?s "user.mfa_reset" then run_ret tt else
  let base := scim_base sys in
  demand_config base secret ~;;
  s0 <~ run_get ;;
  let '(remoteID, started) := SCIMLinkOf (ps_ID sys) "user" localID (ln_DB s0) in
  match lib_body payload with
  | None => malformed
  | Some body =>
    let body := stated_roles body in
    let deactivate := (eventType =?s "user.deleted") || negb (ub_Active body) in
    run_guard (deactivate || (ub_UserName body <>?s "")) (Known ErrMalformedResponse) ~;;
    let desired := if deactivate then body else desired_body localID body in
    if remoteID <>?s "" then
      verified base secret remoteID localID deactivate (write_user now base secret remoteID deactivate desired)
    else
      found <~ found_or_absent (findSCIMResource now base secret "Users" localID) ;;
      match found with
      | Some remoteID =>
        stored (SaveSCIMLink (ps_ID sys) "user" localID remoteID) ~;;
        write_user now base secret remoteID deactivate desired
      | None =>
        c <~ create_user now base secret (ps_ID sys) localID started deactivate desired ;;
        match c with Done => run_ret tt | Mapped remoteID => write_user now base secret remoteID deactivate desired end
      end
  end.

(** ** Groups at a generic SCIM connector *)

(** The members, by remote id, that still carry their local id.  The code reads
    eight at a time; here they are read one after another. *)
Fixpoint owned_loop (base token : string) (added : list (string * string)) (owned : list string) (firstErr : option DeliveryError) :
    Wired (list string * option DeliveryError) :=
  match added with
  | [] => run_ret (owned, firstErr)
  | (localID, remoteID) :: rest => fun s =>
    match library (lib_GetUser base token remoteID) s with
    | (inr (id, ext), s) => owned_loop base token rest (if (id =?s remoteID) && (ext =?s localID) then remoteID :: owned else owned) firstErr s
    | (inl e, s) =>
      owned_loop base token rest owned
        (if is_error e ErrRemoteNotFound then firstErr else match firstErr with Some e0 => Some e0 | None => Some e end) s
    end
  end.

Definition ownedMembers (base token : string) (added : list (string * string)) : Wired (list string) :=
  r <~ owned_loop base token added [] None ;;
  match r.2 with Some e => run_fail e | None => run_ret r.1 end.

(** The members a write names: those the group already holds there and those
    just confirmed. *)
Definition write_members (held owned : list string) (members : list (string * string)) : list string :=
  List.filter (fun remote => one_of remote held || one_of remote owned) (map snd members).

Definition create_group (now : Z) (base token sys groupID : string) (desired : scimGroup) : Wired unit :=
  won <~ stored (StartSCIMCreate sys "group" groupID) ;;
  if negb won then run_fail CreateUncertain else
  r <~ scimRequest now "POST" base token ["Groups"] [] (GroupBody desired) ;;
  match r.2 with
  | inl e => reject_if_refused sys "group" groupID e ~;; run_fail e
  | inr a =>
    match rs_Group a with
    | Some g =>
      if (negb (rs_Status a =? 201) && negb (rs_Status a =? 200)) || bad_id (rg_ID g) || ((rg_ExternalID g <>?s "") && (rg_ExternalID g <>?s groupID))
      then malformed
      else stored (SaveSCIMLink sys "group" groupID (rg_ID g))
    | None => malformed
    end
  end.

(** What a mapped group holds now; [None]: it is gone, and so is the work of a deletion. *)
Definition current_group (now : Z) (base token remoteID groupID eventType : string) : Wired (option (list string)) :=
  r <~ scimRequest now "GET" base token ["Groups"; remoteID] [] NoBody ;;
  match r.2 with
  | inl e => if is_error e ErrRemoteNotFound && (eventType =?s "group.deleted") then run_ret None else run_fail e
  | inr a =>
    match rs_Group a with
    | Some g =>
      if negb (rs_Status a =? 200) || (rg_ID g <>?s remoteID) || (rg_ExternalID g <>?s groupID) then malformed
      else run_ret (Some (rg_Members g))
    | None => malformed
    end
  end.

Definition delete_group (now : Z) (base token sys groupID remoteID : string) : Wired unit :=
  if remoteID =?s "" then run_ret tt else
  r <~ scimRequest now "DELETE" base token ["Groups"; remoteID] [] NoBody ;;
  match r.2 with
  | inl e => if is_error e ErrRemoteNotFound then store_write (DeleteSCIMLink sys "group" groupID) else run_fail e
  | inr a => if (rs_Status a =? 200) || (rs_Status a =? 204) then store_write (DeleteSCIMLink sys "group" groupID) else malformed
  end.

(** A full replacement of the membership the directory holds now. *)
Definition write_group (now : Z) (base token sys groupID remoteID : string) (held : list string) : Wired unit :=
  s0 <~ run_get ;;
  match SCIMGroupMembers sys groupID now (ln_DB s0) with
  | None => run_ret tt
  | Some (name, members) =>
    owned <~ ownedMembers base token (List.filter (fun m => negb (one_of m.2 held)) members) ;;
    let desired := MkScimGroup [scimGroupSchema] groupID name (write_members held owned members) in
    if remoteID =?s "" then create_group now base token sys groupID desired else
    r <~ scimRequest now "PUT" base token ["Groups"; remoteID] [] (GroupBody desired) ;;
    match r.2 with
    | inl e => run_fail e
    | inr _ => if (r.1 =? 200) || (r.1 =? 204) then run_ret tt else malformed
    end
  end.

Definition deliverSCIMGroup (now : Z) (sys : PairedSystem) (secret eventType groupID : string) : Wired unit :=
  run_guard (groupID <>?s "") Other ~;;
  let base := scim_base sys in
  demand_config base secret ~;;
  s0 <~ run_get ;;
  let '(mapped, started) := SCIMLinkOf (ps_ID sys) "group" groupID (ln_DB s0) in
  remoteID <~ (if mapped <>?s "" then run_ret mapped else
    found <~ found_or_absent (findSCIMResource now base secret "Groups" groupID) ;;
    match found with
    | Some remoteID => stored (SaveSCIMLink (ps_ID sys) "group" groupID remoteID) ~;; run_ret remoteID
    | None => if started then run_fail CreateUncertain else run_ret ""
    end) ;;
  current <~ (if mapped <>?s "" then current_group now base secret remoteID groupID eventType else run_ret (Some [])) ;;
  match current with
  | None => store_write (DeleteSCIMLink (ps_ID sys) "group" groupID)
  | Some held =>
    if eventType =?s "group.deleted" then delete_group now base secret (ps_ID sys) groupID remoteID
    else if eventType =?s "group.updated" then write_group now base secret (ps_ID sys) groupID remoteID held
    else run_fail Other
  end.

(** ** One delivery *)

(** The webhook's URL; the historical bookmarks preset named a SCIM path. *)
Definition resolveSCIMURL (sys : PairedSystem) : string :=
  let trimmed := TrimRightSlash (ps_CallbackURL sys) in
  if ps_SystemType sys =?s "kybookmarks" then
    match url_endpoint trimmed with
    | Some u => if TrimRightSlash (en_Path u) =?s "/scim/v2" then url_with_path trimmed "/api/sync/events" else trimmed
    | None => trimmed
    end
  else trimmed.

(** An answer a suite webhook's event counts as delivered by. *)
Definition acknowledges (eventType : string) (payload : Json) (status : Z) : bool :=
  let inactive := match json_get "active" payload with Some (JBool false) => true | _ => false end in
  existsb (Z.eqb status) [200; 201; 204] ||
  (((eventType =?s "user.deleted") || ((eventType =?s "user.updated") && inactive)) && (status =? 404)) ||
  ((eventType =?s "user.created") && (status =? 409)).

Definition deliver_webhook (now : Z) (sys : PairedSystem) (secret eventID eventType : string) (payload : Json) : Wired unit :=
  match syncauth_Sign secret now eventType eventID payload, url_endpoint (resolveSCIMURL sys) with
  | Some headers, Some _ =>
    r <~ Do (MkWireRequest "POST" (resolveSCIMURL sys) [] [] ([("Content-Type", "application/scim+json");
      ("Accept", "application/scim+json, application/json")] ++ headers ++ [("Idempotency-Key", eventID)])%list (Event payload)) ;;
    run_guard (acknowledges eventType payload (rs_Status r)) Other
  | _, _ => run_fail Other
  end.

Definition deliver (now : Z) (sys : PairedSystem) (secret eventID eventType userID : string) (payload : Json) : Wired unit :=
  if String.prefix "group." eventType then
    run_guard ((ps_SystemType sys =?s "scim") && ps_GroupsEnabled sys) Other ~;;
    deliverSCIMGroup now sys secret eventType userID
  else if ps_SystemType sys =?s "scim" then deliverSCIM now sys secret eventType userID payload
  else run_guard (supportedSystemType (ps_SystemType sys)) Other ~;;
    deliver_webhook now sys secret eventID eventType payload.

(** ** The dispatcher *)

(** Exponential with a ceiling; the shift is capped, and a negative shift panics
    (attempts never are). *)
Definition retryDelay (attempts : Z) : Z := Z.min (Z.shiftl 1 (Z.min attempts 6) * (30 * second)) (30 * minute).

Definition deliveryLease : Z := 60 * second.

(** One event's turn: when its delivery begins and when its outcome is
    recorded, whether the dispatcher was told to stop before it or during it,
    and the identifiers a first delivery draws. *)
Record Turn := MkTurn { tn_now : Z; tn_later : Z; tn_stopped : bool; tn_aborted : bool; tn_newid : string -> string -> string }.

Definition finish (t : Turn) (ev : AccountSyncEvent) (status message : string) (attempts : Z) (next : option Z) : DB -> (StoreError + unit) * DB :=
  commit (FinishSyncDelivery (tn_newid t) ev status message attempts next (tn_later t)).

(** After a failed attempt: give up past the budget, else wait. *)
Definition back_off (t : Turn) (ev : AccountSyncEvent) (e : DeliveryError) : DB -> (StoreError + unit) * DB :=
  let attempts := e_Attempts ev + 1 in
  if (SyncAttemptBudget <=? attempts) && negb (Removal ev) && (e_EventType ev <>?s "user.mfa_reset")
  then finish t ev "failed" (deliveryError e) attempts None
  else
    let delay := retryDelay (e_Attempts ev) in
    let delay := match e with Remote _ after => Z.min (Z.max delay after) (30 * minute) | _ => delay end in
    finish t ev "pending" (deliveryError e) attempts (Some (tn_later t + delay)).

(** The delivery itself, under an outcome tracker of its own; what is recorded
    of it, and whether the connector's turn ends there. *)
Definition attempt_delivery (t : Turn) (ev : AccountSyncEvent) (sys : PairedSystem) (secret : string) (d : DB) (sent : list Exchange) :
    (StoreError + bool) * (DB * list Exchange) :=
  let '(r, s) := deliver (tn_now t) sys secret (e_ID ev) (e_EventType ev) (e_UserID ev) (outgoing ev) (MkLine d sent false) in
  let out (m : (StoreError + unit) * DB) (stop : bool) := (match m.1 with inl e => inl e | inr _ => inr stop end, (m.2, ln_Sent s)) in
  match r with
  | inr _ => out (finish t ev "delivered" "" (e_Attempts ev + 1) None (ln_DB s)) false
  | inl e =>
    if ln_Uncertain s && negb (Removal ev) then (inr false, (MarkSyncDeliveryUncertain ev (tn_later t) (ln_DB s), ln_Sent s))
    else if tn_aborted t then out (finish t ev "pending" "" (e_Attempts ev) (e_NextAttempt ev) (ln_DB s)) true
    else out (back_off t ev e (ln_DB s)) false
  end.

(** A begun event: the connector may be gone, disabled or without a secret. *)
Definition take_turn (t : Turn) (ev : AccountSyncEvent) (loaded : option (PairedSystem * option string)) (d : DB) (sent : list Exchange) :
    (StoreError + bool) * (DB * list Exchange) :=
  let out (m : (StoreError + unit) * DB) := (match m.1 with inl e => inl e | inr _ => inr false end, (m.2, sent)) in
  match loaded with
  | None => out (finish t ev "failed" "paired system no longer exists" (e_Attempts ev) None d)
  | Some (sys, secret) =>
    if (ps_Status sys =?s "disabled") || negb (supportedSystemType (ps_SystemType sys))
    then out (finish t ev "pending" "" (e_Attempts ev) (e_NextAttempt ev) d)
    else match secret with
    | None => out (finish t ev "pending" "signing secret unavailable" (e_Attempts ev + 1) (Some (tn_later t + retryDelay (e_Attempts ev))) d)
    | Some secret => attempt_delivery t ev sys secret d sent
    end
  end.

Definition load_system (key : list Z) (sys : string) (d : DB) : option (PairedSystem * option string) :=
  (fun ps => (ps, SigningSecret key ps)) <$> (paired_systems d !! sys).

(** One connector's claimed events in order; the connector is read once, at the
    first event that begins. *)
Fixpoint dispatchSystem (key : list Z) (events : list (Turn * AccountSyncEvent)) (loaded : option (option (PairedSystem * option string)))
    (d : DB) (sent : list Exchange) : option StoreError * (DB * list Exchange) :=
  match events with
  | [] => (None, (d, sent))
  | (t, ev) :: rest =>
    if tn_stopped t then (None, (d, sent)) else
    match BeginSyncDelivery ev deliveryLease (tn_now t) d with
    | (inl e, d) => (Some e, (d, sent))
    | (inr false, d) => dispatchSystem key rest loaded d sent
    | (inr true, d) =>
      let sys := match loaded with Some sys => sys | None => load_system key (e_SystemID ev) d end in
      match take_turn t ev sys d sent with
      | (inl e, (d, sent)) => (Some e, (d, sent))
      | (inr true, (d, sent)) => (None, (d, sent))
      | (inr false, (d, sent)) => dispatchSystem key rest (Some sys) d sent
      end
    end
  end.

(** The claimed events of each connector, connectors in the order they were
    first claimed. *)
Definition connectors_of (events : list AccountSyncEvent) : list string := rev (remove_dups (rev (map e_SystemID events))).

(** One pass.  Connectors run at once in the code, each on its own events; here
    they run one after another, in any order. *)
Fixpoint dispatch_all (key : list Z) (turn : AccountSyncEvent -> Turn) (order : list string) (events : list AccountSyncEvent) (d : DB)
    (sent : list Exchange) : list StoreError * (DB * list Exchange) :=
  match order with
  | [] => ([], (d, sent))
  | sys :: rest =>
    let mine := List.filter (fun ev => e_SystemID ev =?s sys) events in
    let '(e, (d, sent)) := dispatchSystem key (map (fun ev => (turn ev, ev)) mine) None d sent in
    let '(es, r) := dispatch_all key turn rest events d sent in
    (match e with Some e => e :: es | None => es end, r)
  end.

Definition DispatchPendingEvents (key : list Z) (token : string -> string) (turn : AccountSyncEvent -> Turn)
    (arrange : list string -> list string) (now : Z) (d : DB) (sent : list Exchange) : list StoreError * (DB * list Exchange) :=
  match commit (ClaimDueSyncEvents token 50 deliveryLease now) d with
  | (inl e, d) => ([e], (d, sent))
  | (inr events, d) => dispatch_all key turn (arrange (connectors_of events)) events d sent
  end.

(** ** Operator reads *)

(** [TestSystem]: an authenticated read of the collection. *)
Definition TestSystem (key : list Z) (now : Z) (sys : PairedSystem) : Wired unit :=
  run_guard (ps_SystemType sys =?s "scim") Other ~;;
  match SigningSecret key sys with
  | None => run_fail Other
  | Some secret =>
    found <~ found_or_absent (findSCIMResource now (scim_base sys) secret "Users" "kyidentity-connection-test") ;;
    run_ret tt
  end.

Inductive Observed := Unsupported | Absent | Present (remote : string).

(** Observation only: the database is not touched. *)
Definition ReadBackSyncResource (key : list Z) (now : Z) (sys : PairedSystem) (eventType resourceID : string) : Wired Observed :=
  if ps_SystemType sys <>?s "scim" then run_ret Unsupported else
  match SigningSecret key sys with
  | None => run_fail Other
  | Some secret =>
    found <~ found_or_absent (findSCIMResource now (scim_base sys) secret
      (if String.prefix "group." eventType then "Groups" else "Users") resourceID) ;;
    run_ret (match found with Some id => Present id | None => Absent end)
  end.

(** An operator's choice for a legacy connector, a new token, or the group and
    reconciliation settings; the error is the text shown. *)
Definition ReviewSystem (key nonce : list Z) (newid : string -> string -> string) (sys : PairedSystem) (kind token : string) (groups : bool)
    (reconcileHours : Z) (audit : option AuditEvent) (now : Z) (d : DB) : (StoreError + unit) * DB :=
  if negb (one_of kind ["scim"; "suite_webhook"]) then (inl (ErrInput "choose scim or suite_webhook"), d)
  else if supportedSystemType (ps_SystemType sys) && (ps_SystemType sys <>?s kind) then (inl (ErrInput "an established connector cannot change protocol"), d)
  else if (groups || (0 <? reconcileHours)) && (kind <>?s "scim")
  then (inl (ErrInput "group delivery and reconciliation require a generic SCIM connector"), d)
  else
    let configure encrypted :=
      commit (ConfigureSystem newid (ps_ID sys) (ps_SystemType sys) kind encrypted groups reconcileHours audit now) d in
    if (kind =?s "scim") && ((token <>?s "") || (ps_SystemType sys <>?s "scim")) then
      match scim_config_error (ps_CallbackURL sys) token with
      | Some ConfigURL => (inl (ErrInput (lib_text ErrInsecureURL)), d)
      | Some ConfigToken => (inl (ErrInput "bearer token must contain 1-8192 visible ASCII characters without spaces"), d)
      | None =>
        match Seal key SealConnector (ps_ID sys) (bytes_of token) nonce with
        | Some encrypted => configure encrypted
        | None => (inl (ErrText "crypto: invalid key size"), d)
        end
      end
    else if (kind <>?s "scim") && (token <>?s "") then (inl (ErrInput "suite webhook retains its existing signing secret"), d)
    else configure (ps_HMACSecretEncrypted sys).
End delivery.

(** ** Facts *)

Section facts.
Context `{Codec} `{AEAD} `{Far}.

(** What the engine relies on of the SCIM library: a read only reads, a patch
    is one request, and the two statuses its sentinels stand for. *)
Record lawful_library : Prop := {
  get_reads base token id sent x : In x (lib_GetUser base token id sent).1 -> wq_Method x.1 = "GET";
  patch_once base token id v sent : (length (lib_PatchUser base token id v sent).1 <= 1)%nat /\
    forall x, In x (lib_PatchUser base token id v sent).1 -> wq_Method x.1 = "PATCH";
  conflict_is_409 status : lib_is status ErrConflict = true -> status = 409;
  missing_is_404 status : lib_is status ErrRemoteNotFound = true -> status = 404 }.

Definition writes (xs : list Exchange) : list Exchange := List.filter (fun x => mutation x.1) xs.

(** A delivery changes no table but the remote mappings. *)
Definition links_only (d d' : DB) : Prop := d' = on_scim_user_links (fun _ => scim_user_links d') d.

Lemma links_only_refl d : links_only d d.
Proof. reflexivity. Qed.

Lemma links_only_trans d1 d2 d3 : links_only d1 d2 -> links_only d2 d3 -> links_only d1 d3.
Proof. unfold links_only. intros E1 E2. rewrite E2 at 1. rewrite E1. reflexivity. Qed.

(** The run from [s] to [s'] sent the writes [ms], in this order, and any
    reads, and may have changed mappings. *)
Definition did (ms : list Exchange) (s s' : Line) : Prop :=
  (exists xs, ln_Sent s' = (rev xs ++ ln_Sent s)%list /\ ln_Uncertain s' = fold_left track xs (ln_Uncertain s) /\ writes xs = ms) /\
  links_only (ln_DB s) (ln_DB s').

Lemma track_fold xs u : fold_left track xs u = fold_left track (writes xs) u.
Proof.
  revert u. induction xs as [|x xs IH]; intros u; [done|]. cbn. destruct (mutation x.1) eqn:E; cbn; [apply IH|].
  rewrite IH. unfold track at 2. by rewrite E.
Qed.

Lemma did_flag ms s s' : did ms s s' -> ln_Uncertain s' = fold_left track ms (ln_Uncertain s).
Proof. intros [(xs & _ & -> & <-) _]. apply track_fold. Qed.

Lemma did_nothing d s : links_only (ln_DB s) d -> did [] s (MkLine d (ln_Sent s) (ln_Uncertain s)).
Proof. intros Hd. split; [by exists []|done]. Qed.

Lemma did_refl s : did [] s s.
Proof. split; [by exists []|apply links_only_refl]. Qed.

Lemma did_app ms1 ms2 s1 s2 s3 : did ms1 s1 s2 -> did ms2 s2 s3 -> did (ms1 ++ ms2)%list s1 s3.
Proof.
  intros [(xs & E1 & F1 & W1) D1] [(ys & E2 & F2 & W2) D2]. split; [|by eapply links_only_trans].
  exists (xs ++ ys)%list. split; [|split].
  - by rewrite E2, E1, rev_app_distr, app_assoc.
  - by rewrite F2, F1, fold_left_app.
  - subst ms1 ms2. apply List.filter_app.
Qed.

Lemma did_carried xs s : did (writes xs) s (carried xs s).
Proof. split; [by exists xs|apply links_only_refl]. Qed.

(** [Q] holds of a run's result, the writes it sent and the database it leaves. *)
Definition sends {A} (m : Wired A) (s : Line) (Q : DeliveryError + A -> list Exchange -> DB -> Prop) : Prop :=
  exists ms, did ms s (m s).2 /\ Q (m s).1 ms (ln_DB (m s).2).

Lemma sends_bind {A B} (m : Wired A) (k : A -> Wired B) s Q R :
  sends m s R ->
  (forall e ms d, R (inl e) ms d -> Q (inl e) ms d) ->
  (forall a ms s', did ms s s' -> R (inr a) ms (ln_DB s') -> sends (k a) s' (fun r ms' d => Q r (ms ++ ms')%list d)) ->
  sends (run_bind m k) s Q.
Proof.
  intros (ms & Hd & Hr) He Hk. unfold sends, run_bind. destruct (m s) as [[e|a] s'] eqn:E; cbn in *.
  - exists ms. split; [done|]. by apply He.
  - destruct (Hk a ms s' Hd Hr) as (ms' & Hd' & Hq). exists (ms ++ ms')%list. split; [|done]. by eapply did_app.
Qed.

Lemma sends_weaken {A} (m : Wired A) s (Q R : DeliveryError + A -> list Exchange -> DB -> Prop) :
  sends m s R -> (forall r ms d, R r ms d -> Q r ms d) -> sends m s Q.
Proof. intros (ms & Hd & Hr) Hw. exists ms. split; [done|]. by apply Hw. Qed.

Lemma sends_ret {A} (r : DeliveryError + A) s (Q : DeliveryError + A -> list Exchange -> DB -> Prop) :
  Q r [] (ln_DB s) -> sends (fun s => (r, s)) s Q.
Proof. intros Hq. exists []. split; [apply did_refl|done]. Qed.

Lemma sends_guard {B} b e (k : unit -> Wired B) s Q :
  (b = false -> Q (inl e) [] (ln_DB s)) -> (b = true -> sends (k tt) s Q) -> sends (run_bind (run_guard b e) k) s Q.
Proof.
  intros Hf Ht. destruct b.
  - destruct (Ht eq_refl) as (ms & Hd & Hq). exists ms. unfold run_bind, run_guard. by cbn.
  - exists []. split; [apply did_refl|by apply Hf].
Qed.

(** Programs that only read. *)
Definition only_reads {A} (m : Wired A) : Prop := forall s, sends m s (fun _ ms d => ms = [] /\ d = ln_DB s).

Lemma only_reads_bind {A B} (m : Wired A) (k : A -> Wired B) : only_reads m -> (forall a, only_reads (k a)) -> only_reads (run_bind m k).
Proof.
  intros Hm Hk s. eapply sends_bind; [apply Hm|done|]. intros a ms s' Hd [-> E]. eapply sends_weaken; [apply Hk|].
  cbn. intros r ms d [-> ->]. by rewrite E.
Qed.

Lemma only_reads_ret {A} (r : DeliveryError + A) : only_reads (fun s => (r, s)).
Proof. intros s. by apply sends_ret. Qed.

(** What one request did, and what it reports of it. *)
Definition answered (rq : WireRequest) (x : Exchange) (st : Z) (res : DeliveryError + Response) : Prop :=
  x.1 = rq /\
  match rt_Response x.2 with
  | None => st = 0 /\ res = inl Transport
  | Some a =>
    if redirected a then st = 0 /\ res = inl Transport else
    st = rs_Status a /\
    (if (200 <=? st) && (st <? 300) then res = inr a \/ res = inl (Known ErrMalformedResponse)
     else exists after, res = inl (Remote st after))
  end.

Lemma request_sends now method base token path query body s :
  sends (scimRequest now method base token path query body) s (fun r ms d => d = ln_DB s /\
    exists st res headers x, r = inr (st, res) /\
      answered (MkWireRequest method base path query headers body) x st res /\ ms = (if mutation x.1 then [x] else [])).
Proof.
  unfold scimRequest, sends, Do. set (hs := (_ ++ _)%list). set (rq := MkWireRequest _ _ _ _ _ _).
  set (t := far_side (ln_Sent s) rq). exists (writes [(rq, t)]).
  destruct (rt_Response t) as [a|] eqn:Er; [destruct (redirected a) eqn:Ed|]; (split; [apply did_carried|]);
    (split; [done|]).
  - exists 0, (inl Transport), hs, (rq, t). split; [done|]. split; [|done]. split; [done|]. cbn [snd]. by rewrite Er, Ed.
  - eexists _, _, hs, (rq, t). split; [reflexivity|]. split; [|done]. split; [done|]. cbn [snd]. rewrite Er, Ed. split; [done|].
    destruct ((200 <=? rs_Status a) && (rs_Status a <? 300)); [|eauto]. destruct (rs_Readable a); auto.
  - exists 0, (inl Transport), hs, (rq, t). split; [done|]. split; [|done]. split; [done|]. cbn [snd]. by rewrite Er.
Qed.

Lemma get_only_reads now base token path query body : only_reads (scimRequest now "GET" base token path query body).
Proof.
  intros s. eapply sends_weaken; [apply request_sends|]. cbn. intros r ms d (-> & st & res & hs & x & _ & [Hx _] & ->).
  by rewrite Hx.
Qed.

Lemma find_only_reads now base token collection localID : only_reads (findSCIMResource now base token collection localID).
Proof.
  apply only_reads_bind; [unfold demand_config; destruct (scim_config_error _ _) as [[]|]; apply only_reads_ret|].
  intros _. apply only_reads_bind; [apply get_only_reads|]. intros [st [e|a]]; cbn; destruct (st =? 404); try apply only_reads_ret.
  destruct (negb _); apply only_reads_ret.
Qed.

Lemma found_only_reads m : only_reads m -> only_reads (found_or_absent m).
Proof.
  intros Hm s. destruct (Hm s) as (ms & Hd & -> & E). unfold sends, found_or_absent.
  destruct (m s) as [[e|id] s']; [destruct (is_error _ _)|]; by exists [].
Qed.

Lemma user_only_reads base token id : lawful_library -> only_reads (library (lib_GetUser base token id)).
Proof.
  intros Hl s. unfold sends, library. pose proof (get_reads Hl base token id (ln_Sent s)) as Hg.
  destruct (lib_GetUser base token id (ln_Sent s)) as [xs r]. cbn in *. exists []. split; [|done].
  replace [] with (writes xs); [apply did_carried|]. clear -Hg. induction xs as [|x xs IH]; [done|]. cbn.
  unfold mutation. rewrite (Hg x) by (by left). cbn. apply IH. intros y Hy. apply Hg. by right.
Qed.

Lemma owned_only_reads base token : lawful_library -> forall added, only_reads (ownedMembers base token added).
Proof.
  intros Hl added. unfold ownedMembers. apply only_reads_bind; [|intros [l [e|]]; apply only_reads_ret].
  generalize (@nil string), (@None DeliveryError). induction added as [|[localID remoteID] added IH]; intros owned err; [apply only_reads_ret|].
  intros s. destruct (user_only_reads base token remoteID Hl s) as (ms & Hd & -> & E). unfold sends. cbn.
  destruct (library (lib_GetUser base token remoteID) s) as [[e|[id ext]] s1]; cbn in *;
    (edestruct IH as (ms & Hd2 & -> & E2); exists []; split; [exact (did_app _ _ _ _ _ Hd Hd2)|split; [done|by rewrite E2]]).
Qed.

(** ** Writes and their outcomes *)

(** The request reached the target and nothing says what became of it. *)
Definition unsettled (x : Exchange) : bool :=
  rt_Wrote x.2 && negb (match rt_Response x.2 with Some r => settles (rs_Status r) | None => false end).

(** A create that cannot have been applied: never sent, or turned down. *)
Definition refused_create (x : Exchange) : bool :=
  match rt_Response x.2 with
  | Some a => if redirected a then negb (rt_Wrote x.2)
    else (rs_Status a =? 503) || ((400 <=? rs_Status a) && (rs_Status a <? 500) && negb (rs_Status a =? 408))
  | None => negb (rt_Wrote x.2)
  end.

(** Only the last write may be unsettled. *)
Definition orderly (ms : list Exchange) : Prop := forall front x back, ms = (front ++ x :: back)%list -> unsettled x = true -> back = [].

Lemma orderly_nil : orderly [].
Proof. intros [|? ?] x back E; discriminate E. Qed.

Lemma orderly_short ms : (length ms <= 1)%nat -> orderly ms.
Proof.
  intros Hl front x back E _. subst ms. rewrite length_app in Hl. cbn in Hl. destruct back; [done|]. cbn in Hl. lia.
Qed.

Lemma orderly_cons x ms : unsettled x = false -> orderly ms -> orderly (x :: ms).
Proof.
  intros Hx Ho [|y front] z back E Hz; injection E as E1 E2; subst.
  - congruence.
  - by eapply Ho.
Qed.

Lemma track_write u x : mutation x.1 = true -> track u x = unsettled x || (u && negb (match rt_Response x.2 with Some r => settles (rs_Status r) | None => false end)).
Proof.
  intros Hm. unfold track, unsettled. rewrite Hm. destruct (rt_Wrote x.2), (rt_Response x.2) as [r|]; cbn; try destruct (settles _); by destruct u.
Qed.

Lemma did_mutation ms s s' x : did ms s s' -> In x ms -> mutation x.1 = true.
Proof. intros [(xs & _ & _ & <-) _] Hx. by apply filter_In in Hx as [_ Hx]. Qed.

(** An unsettled write leaves the flag up, and with none it stays down. *)
Lemma did_unsettled ms s s' x : did ms s s' -> orderly ms -> In x ms -> unsettled x = true -> ln_Uncertain s' = true.
Proof.
  intros Hd Ho Hx Hu. apply in_split in Hx as (front & back & ->). pose proof (Ho front x back eq_refl Hu) as ->.
  rewrite (did_flag _ _ _ Hd), fold_left_app. cbn. rewrite track_write, Hu; [done|].
  eapply did_mutation; [exact Hd|]. apply in_app_iff. right. by left.
Qed.

Lemma did_settled ms s s' : did ms s s' -> (forall x, In x ms -> unsettled x = false) -> ln_Uncertain s = false -> ln_Uncertain s' = false.
Proof.
  intros Hd Hn Hs. rewrite (did_flag _ _ _ Hd), Hs. assert (forall x, In x ms -> mutation x.1 = true) as Hm by (intros x; by eapply did_mutation).
  clear -Hn Hm. induction ms as [|x ms IH]; [done|]. cbn. rewrite track_write by (apply Hm; by left).
  rewrite Hn by (by left). cbn. apply IH; intros; [apply Hn|apply Hm]; by right.
Qed.

(** ** Mappings *)

(** Every mapping stays, as the kind it was. *)
Definition links_kept (d d' : DB) : Prop := forall k l, scim_user_links d !! k = Some l ->
  exists l', scim_user_links d' !! k = Some l' /\ sl_Kind l' = sl_Kind l.

Lemma links_kept_refl d : links_kept d d.
Proof. intros k l Hl. by exists l. Qed.

Lemma links_kept_trans d1 d2 d3 : links_kept d1 d2 -> links_kept d2 d3 -> links_kept d1 d3.
Proof. intros G1 G2 k l Hl. destruct (G1 k l Hl) as (l1 & E1 & K1). destruct (G2 k l1 E1) as (l2 & E2 & K2). exists l2. split; congruence. Qed.

Lemma links_kept_eq d d' : scim_user_links d' = scim_user_links d -> links_kept d d'.
Proof. intros E k l Hl. exists l. by rewrite E. Qed.

Lemma start_facts sys kind local d r d' : StartSCIMCreate sys kind local d = (r, d') ->
  links_only d d' /\ links_kept d d' /\ (r = inr true -> scim_user_links d !! (sys, local) = None /\
    d' = on_scim_user_links <[(sys, local) := MkSCIMLink kind EmptyString]> d).
Proof.
  unfold StartSCIMCreate. destruct (_ || _); [by intros [= <- <-]; split; [|split; [apply links_kept_refl|]]|].
  destruct (scim_user_links d !! (sys, local)) eqn:E; intros [= <- <-]; [by split; [|split; [apply links_kept_refl|]]|].
  split; [done|]. split; [|done]. intros k l Hl. exists l. cbn. rewrite lookup_insert_ne; [done|]. intros <-. congruence.
Qed.

Lemma save_facts sys kind local remote d r d' : SaveSCIMLink sys kind local remote d = (r, d') ->
  links_only d d' /\ links_kept d d' /\ (r = inr tt -> scim_user_links d' !! (sys, local) = Some (MkSCIMLink kind remote)).
Proof.
  unfold SaveSCIMLink. destruct (one_of _ _); [by intros [= <- <-]; split; [|split; [apply links_kept_refl|]]|].
  destruct (_ || remote_taken _ _ _ _ _); [by intros [= <- <-]; split; [|split; [apply links_kept_refl|]]|].
  destruct (scim_user_links d !! (sys, local)) as [l|] eqn:E.
  - destruct (_ && _) eqn:Eb; intros [= <- <-]; [|by split; [|split; [apply links_kept_refl|]]]. bool_hyps. split; [done|]. split.
    + intros k l0 Hl. cbn. destruct (decide (k = (sys, local))) as [->|Hk].
      * rewrite lookup_insert_eq. eexists. split; [done|]. cbn. congruence.
      * rewrite lookup_insert_ne by done. by exists l0.
    + intros _. cbn. rewrite lookup_insert_eq. congruence.
  - intros [= <- <-]. split; [done|]. split; [|intros _; cbn; by rewrite lookup_insert_eq].
    intros k l Hl. exists l. cbn. rewrite lookup_insert_ne; [done|]. intros <-. congruence.
Qed.

(** ** The shape of a user's delivery *)

(** A create of [localID] sent to [base]. *)
Definition creates (base localID : string) (x : Exchange) : Prop :=
  wq_Method x.1 = "POST" /\ wq_Base x.1 = base /\ wq_Path x.1 = ["Users"] /\
  exists b, wq_Body x.1 = UserBody b /\ ub_ExternalID b = localID.

(** The target answered that the profile [b] is applied, to the account [remote] it
    is mapped to: a completed replacement of that account, or its creation. *)
Definition confirms (base remote : string) (b : scimUserBody) (x : Exchange) : Prop :=
  wq_Base x.1 = base /\ wq_Body x.1 = UserBody b /\ exists a, rt_Response x.2 = Some a /\
  ((wq_Method x.1 = "PUT" /\ wq_Path x.1 = ["Users"; remote] /\ In (rs_Status a) [200; 201; 204]) \/
   (wq_Method x.1 = "POST" /\ wq_Path x.1 = ["Users"] /\ In (rs_Status a) [200; 201] /\ exists ext, rs_User a = Some (remote, ext))).

Definition mapped (d : DB) (sys localID remote : string) : Prop := scim_user_links d !! (sys, localID) = Some (MkSCIMLink "user" remote).

Lemma write_user_sends now base token remote deactivate b s : lawful_library ->
  sends (write_user now base token remote deactivate b) s (fun r ms d => d = ln_DB s /\ orderly ms /\
    (forall x, In x ms -> wq_Method x.1 <> "POST") /\
    (r = inr tt -> deactivate = false -> exists x, ms = [x] /\ confirms base remote b x)).
Proof.
  intros Hl. unfold write_user. destruct deactivate.
  - destruct (patch_once Hl base token remote false (ln_Sent s)) as [Hn Hm]. unfold sends, library.
    destruct (lib_PatchUser base token remote false (ln_Sent s)) as [xs r]. cbn in *. exists (writes xs).
    assert (orderly (writes xs)) as Ho by (apply orderly_short; destruct xs as [|x [|y xs]]; cbn in *; try lia; destruct (mutation x.1); cbn; lia).
    assert (forall x, In x (writes xs) -> wq_Method x.1 <> "POST") as Hp
      by (intros x Hx; apply filter_In in Hx as [Hx _]; rewrite Hm by done; done).
    destruct r as [e|u]; [destruct (is_error e ErrRemoteNotFound)|]; (split; [apply did_carried|]); done.
  - eapply sends_bind; [apply request_sends| |].
    + intros e ms d (_ & st & res & hs & x & E & _). discriminate E.
    + intros a ms s' Hd (E & st & res & hs & x & Ea & [Hx Hans] & ->). injection Ea as ->. cbn [fst snd].
      assert (mutation x.1 = true) as Hm by (by rewrite Hx).
      rewrite Hm. assert (forall r, (r = inr tt -> confirms base remote b x) -> 
        sends (fun s0 : Line => (r, s0)) s' (fun r ms' d => d = ln_DB s /\ orderly ([x] ++ ms') /\
          (forall y, In y ([x] ++ ms')%list -> wq_Method y.1 <> "POST") /\ (r = inr tt -> false = false -> exists y, ([x] ++ ms')%list = [y] /\ confirms base remote b y))) as Hgo.
      { intros r Hr. apply sends_ret. rewrite app_nil_r. split; [done|]. split; [apply orderly_short; cbn; lia|]. split.
        - intros y [<-|[]]. by rewrite Hx.
        - intros Hok _. exists x. split; [done|by apply Hr]. }
      destruct res as [e|a]; [by apply Hgo|]. destruct (existsb (Z.eqb st) [200; 201; 204]) eqn:Es; [|by apply Hgo].
      apply Hgo. intros _. split; [by rewrite Hx|]. split; [by rewrite Hx|].
      destruct (rt_Response x.2) as [a'|]; [|destruct Hans as [_ Hf]; discriminate Hf].
      destruct (redirected a'); [destruct Hans as [_ Hf]; discriminate Hf|]. destruct Hans as [-> _].
      exists a'. split; [done|]. left. split; [by rewrite Hx|]. split; [by rewrite Hx|].
      apply existsb_exists in Es as (z & Hz & Ez). apply Z.eqb_eq in Ez. by subst z.
Qed.

(** What a create request reports of its exchange. *)
Definition create_outcome (x : Exchange) (res : DeliveryError + (string * string)) : Prop :=
  match res with
  | inr who => exists a, rt_Response x.2 = Some a /\ In (rs_Status a) [200; 201] /\ rs_User a = Some who
  | inl Transport => match rt_Response x.2 with None => True | Some a => redirected a = true end
  | inl (Remote st _) => exists a, rt_Response x.2 = Some a /\ redirected a = false /\ rs_Status a = st
  | inl e => e = Known ErrMalformedResponse
  end.

Lemma createSCIMUser_sends now base token b s :
  sends (createSCIMUser now base token b) s (fun r ms d => d = ln_DB s /\ exists res x, r = inr res /\ ms = [x] /\
    creates base (ub_ExternalID b) x /\ wq_Body x.1 = UserBody b /\ mutation x.1 = true /\ create_outcome x res).
Proof.
  eapply sends_bind; [apply request_sends| |].
  { intros e ms d (_ & st & res & hs & x & E & _). discriminate E. }
  intros a ms s' Hd (E & st & res & hs & x & Ea & [Hx Hans] & ->). injection Ea as ->. cbn [fst snd].
  assert (mutation x.1 = true) as Hm by (by rewrite Hx). rewrite Hm. apply sends_ret. split; [done|].
  eexists _, x. split; [reflexivity|]. split; [done|]. split; [unfold creates; rewrite Hx; cbn; by eauto 6|]. split; [by rewrite Hx|]. split; [done|].
  destruct (rt_Response x.2) as [a|] eqn:Er; [|destruct Hans as [-> ->]; cbn; by rewrite Er].
  destruct (redirected a) eqn:Ed; [destruct Hans as [-> ->]; cbn; by rewrite Er|]. destruct Hans as [-> Hres].
  destruct ((200 <=? rs_Status a) && (rs_Status a <? 300)); [destruct Hres as [->| ->]; [|done]|destruct Hres as [after ->]; by exists a].
  destruct (negb (rs_Status a =? 201) && negb (rs_Status a =? 200)) eqn:Es; [done|].
  destruct (rs_User a) as [[id ext]|] eqn:Eu; [|done]. destruct (bad_id id); [done|]. exists a. split; [done|]. split; [|done].
  destruct (Z.eqb_spec (rs_Status a) 200) as [->|]; [by left|]. destruct (Z.eqb_spec (rs_Status a) 201) as [->|]; [right; by left|done].
Qed.

Lemma refused_outcome x e : create_outcome x (inl e) -> mutation x.1 = true -> createRefused (track false x) e = true -> refused_create x = true.
Proof.
  intros Ho Hm. rewrite (track_write false x Hm), orb_false_r. unfold refused_create, unsettled. destruct e; cbn in *; try done.
  - destruct Ho as (a & -> & -> & <-). done.
  - destruct (rt_Response x.2) as [a|]; [|by rewrite andb_true_r]. rewrite Ho.
    assert (settles (rs_Status a) = false) as ->; [|by rewrite andb_true_r].
    unfold redirected in Ho. apply andb_true_iff in Ho as [_ Ho]. apply existsb_exists in Ho as (z & Hz & Ez). apply Z.eqb_eq in Ez.
    rewrite Ez. repeat destruct Hz as [<-|Hz]; try reflexivity. by destruct Hz.
Qed.

Lemma conflict_settled x e : lawful_library -> create_outcome x (inl e) -> is_error e ErrConflict = true ->
  unsettled x = false /\ forall u, createRefused u e = true.
Proof.
  intros Hl Ho Hc. destruct e as [st after| |k| |]; try done; cbn in Hc.
  - apply (conflict_is_409 Hl) in Hc as ->. destruct Ho as (a & Ha & _ & Hs). unfold unsettled. rewrite Ha, Hs. split; [apply andb_false_r|done].
  - cbn in Ho. injection Ho as ->. discriminate Hc.
Qed.

(** The creates among the writes: sent only where nothing was mapped, and
    afterwards either refused or on record. *)
Definition recorded (d : DB) (sys localID : string) : Prop := exists l, scim_user_links d !! (sys, localID) = Some l /\ sl_Kind l = "user".
Definition creates_once (base sys localID : string) (d0 : DB) (ms : list Exchange) (d : DB) : Prop :=
  forall x, In x ms -> wq_Method x.1 = "POST" ->
    creates base localID x /\ scim_user_links d0 !! (sys, localID) = None /\ (refused_create x = true \/ recorded d sys localID).

Lemma mapped_recorded d sys localID remote : mapped d sys localID remote -> recorded d sys localID.
Proof. intros Hm. by eexists. Qed.

Definition created_spec (base sys localID : string) (deactivate : bool) (b : scimUserBody) (d0 : DB)
    (r : DeliveryError + Created) (ms : list Exchange) (d : DB) : Prop :=
  links_kept d0 d /\ orderly ms /\ creates_once base sys localID d0 ms d /\
  match r with
  | inl _ => True
  | inr Done => deactivate = false -> exists x remote, ms = [x] /\ confirms base remote b x /\ mapped d sys localID remote
  | inr (Mapped remote) => deactivate = false /\ (forall x, In x ms -> unsettled x = false) /\ mapped d sys localID remote
  end.

Lemma stored_sends {A} (m : DB -> (StoreError + A) * DB) s (Q : DeliveryError + A -> list Exchange -> DB -> Prop) :
  (forall r d, m (ln_DB s) = (r, d) -> links_only (ln_DB s) d /\ Q (match r with inl _ => inl Other | inr a => inr a end) [] d) -> sends (stored m) s Q.
Proof.
  intros Hq. unfold sends, stored. destruct (m (ln_DB s)) as [[e|a] d] eqn:E; destruct (Hq _ _ eq_refl) as [Hd Hr]; exists [];
    (split; [by apply did_nothing|done]).
Qed.

Lemma save_sends sys localID remote (a : Created) s :
  sends (stored (SaveSCIMLink sys "user" localID remote) ~;; run_ret a) s
    (fun r ms d => ms = [] /\ links_kept (ln_DB s) d /\ (r = inr a /\ mapped d sys localID remote \/ exists e, r = inl e)).
Proof.
  eapply sends_bind with (R := fun r ms d => ms = [] /\ links_kept (ln_DB s) d /\ (r = inr tt -> mapped d sys localID remote)).
  - apply stored_sends. intros r d E. apply save_facts in E as (Ho & Hk & Hs). split; [done|]. split; [done|]. split; [done|]. intros Hr. apply Hs. by destruct r as [|[]].
  - intros e ms d (-> & Hk & _). split; [done|]. split; [done|]. right. by exists e.
  - intros [] ms s' _ (-> & Hk & Hs). apply sends_ret. split; [done|]. split; [done|]. left. split; [done|by apply Hs].
Qed.

Section concluding.
Context (Hl : lawful_library) (now : Z) (base token sys localID : string) (b : scimUserBody) (d0 : DB) (x : Exchange).
Context (Hb : ub_ExternalID b = localID) (Hcx : creates base localID x) (Hbx : wq_Body x.1 = UserBody b) (Hmx : mutation x.1 = true).
Context (Hnone : scim_user_links d0 !! (sys, localID) = None).

Lemma one_create d : refused_create x = true \/ recorded d sys localID -> creates_once base sys localID d0 [x] d.
Proof. intros Hr y [<-|[]] _. auto. Qed.

(** A refused create leaves no trace, any other its marker. *)
Lemma rejected s e : ln_DB s = on_scim_user_links <[(sys, localID) := MkSCIMLink "user" EmptyString]> d0 ->
  ln_Uncertain s = track false x -> create_outcome x (inl e) ->
  sends (reject_if_refused sys "user" localID e) s (fun r ms d => r = inr tt /\ ms = [] /\ links_kept d0 d /\
    creates_once base sys localID d0 [x] d).
Proof.
  intros Ed Eu Ho. unfold sends, reject_if_refused, uncertain_now, run_bind. cbn. rewrite Eu.
  destruct (createRefused (track false x) e) eqn:Er; exists []; (split; [apply did_nothing; reflexivity || apply did_refl|]); (split; [done|]); (split; [done|]).
  - pose proof (refused_outcome x e Ho Hmx Er) as Hr. split; [|apply one_create; by left].
    intros k l Hk. exists l. split; [|done]. cbn. rewrite Ed. unfold RejectSCIMCreate, drop_link. cbn. rewrite lookup_insert_eq. cbn.
    by rewrite delete_insert_eq, delete_id.
  - cbn. rewrite Ed. split.
    + intros k l Hk. exists l. cbn. rewrite lookup_insert_ne; [done|]. intros <-. congruence.
    + apply one_create. right. eexists. cbn. by rewrite lookup_insert_eq.
Qed.

Lemma failed_create_sends s e : ln_DB s = on_scim_user_links <[(sys, localID) := MkSCIMLink "user" EmptyString]> d0 ->
  ln_Uncertain s = track false x -> create_outcome x (inl e) ->
  sends (conclude_create now base token sys localID (inl e)) s (fun r ms d => created_spec base sys localID false b d0 r (x :: ms) d).
Proof.
  intros Ed Eu Ho. assert (orderly [x]) as Hor by (apply orderly_short; cbn; lia).
  unfold conclude_create. eapply sends_bind; [by apply rejected| |].
  { intros e' ms d [E _]. discriminate E. }
  intros [] ms s1 _ (_ & -> & Hk & Hone). cbn [app].
  destruct (is_error e ErrConflict) eqn:Econf; cbn [negb]; [|by apply sends_ret].
  destruct (conflict_settled x e Hl Ho Econf) as [Hset Href]. specialize (Href (track false x)). apply (refused_outcome x e Ho Hmx) in Href.
  destruct (find_only_reads now base token "Users" localID s1) as (ms & Hd2 & -> & E2). unfold sends.
  destruct (findSCIMResource now base token "Users" localID s1) as [[e'|remote] s2]; cbn [fst snd] in *.
  { exists []. split; [done|]. cbn. by rewrite E2. }
  destruct (save_sends sys localID remote (Mapped remote) s2) as (ms & Hd3 & -> & Hk3 & Hr3). rewrite E2 in Hk3.
  exists []. split; [exact (did_app _ _ _ _ _ Hd2 Hd3)|]. split; [by eapply links_kept_trans|]. split; [done|].
  split; [apply one_create; by left|]. destruct Hr3 as [[-> Hm]|[e0 ->]]; [|done]. split; [done|]. split; [by intros y [<-|[]]|done].
Qed.

Lemma answered_create_sends s who : ln_DB s = on_scim_user_links <[(sys, localID) := MkSCIMLink "user" EmptyString]> d0 ->
  create_outcome x (inr who) ->
  sends (conclude_create now base token sys localID (inr who)) s (fun r ms d => created_spec base sys localID false b d0 r (x :: ms) d).
Proof.
  intros Ed (a & Ha & Hst & Hua). destruct who as [id ext]. assert (orderly [x]) as Hor by (apply orderly_short; cbn; lia).
  assert (links_kept d0 (ln_DB s)) as Hk.
  { rewrite Ed. intros k l Hk. exists l. cbn. rewrite lookup_insert_ne; [done|]. intros <-. congruence. }
  assert (forall d, links_kept (ln_DB s) d -> recorded d sys localID) as Hrec.
  { intros d Hkd. destruct (Hkd (sys, localID) (MkSCIMLink "user" EmptyString)) as (l & ? & ?); [rewrite Ed; cbn; by rewrite lookup_insert_eq|]. by exists l. }
  unfold conclude_create. destruct (_ && _).
  { apply sends_ret. split; [done|]. split; [done|]. split; [|done]. apply one_create. right. apply Hrec, links_kept_refl. }
  eapply sends_weaken; [apply save_sends|]. intros r ms d (-> & Hk' & Hr). split; [by eapply links_kept_trans|]. split; [done|].
  split; [apply one_create; right; by apply Hrec|]. destruct Hr as [[-> Hm]|[e ->]]; [|done]. intros _. exists x, id. split; [done|]. split; [|done].
  destruct Hcx as (Hpost & Hbase & Hp & _). split; [done|]. split; [done|]. exists a. split; [done|]. right. eauto 6.
Qed.
End concluding.

Lemma create_user_sends now base token sys localID started deactivate b s :
  lawful_library -> ln_Uncertain s = false -> (deactivate = false -> ub_ExternalID b = localID) ->
  sends (create_user now base token sys localID started deactivate b) s (created_spec base sys localID deactivate b (ln_DB s)).
Proof.
  intros Hl Hu Hb. unfold create_user.
  assert (forall r d, links_kept (ln_DB s) d -> match r with inl _ => True | inr Done => deactivate = true | _ => False end ->
    created_spec base sys localID deactivate b (ln_DB s) r [] d) as Hquiet.
  { intros r d Hk Hr. split; [done|]. split; [apply orderly_nil|]. split; [intros x []|]. destruct r as [|[]]; [done|congruence|done]. }
  pose proof (links_kept_refl (ln_DB s)) as Hkr.
  destruct started; [by apply sends_ret, Hquiet|]. destruct deactivate; [by apply sends_ret, Hquiet|]. specialize (Hb eq_refl).
  eapply sends_bind with (R := fun r ms d => ms = [] /\ links_kept (ln_DB s) d /\ (r = inr true ->
    scim_user_links (ln_DB s) !! (sys, localID) = None /\ d = on_scim_user_links <[(sys, localID) := MkSCIMLink "user" EmptyString]> (ln_DB s))).
  { apply stored_sends. intros r d E. apply start_facts in E as (Ho & Hk & Hn). split; [done|]. split; [done|]. split; [done|]. destruct r; [done|]. intros [= ->]. by apply Hn. }
  { intros e ms d (-> & Hk & _). by apply Hquiet. }
  intros won ms s1 Hd1 (-> & Hk1 & Hn). cbn [app]. destruct won; cbn [negb]; [|by apply sends_ret, Hquiet].
  destruct (Hn eq_refl) as [Hnone Ed1]. assert (ln_Uncertain s1 = false) as Hu1 by (rewrite (did_flag _ _ _ Hd1); done).
  eapply sends_bind; [apply createSCIMUser_sends| |].
  { intros e ms d (_ & res & x & E & _). discriminate E. }
  intros created ms s2 Hd2 (Ed2 & res & x & Ec & -> & Hcx & Hbx & Hmx & Ho). injection Ec as ->. rewrite Hb in Hcx.
  assert (ln_Uncertain s2 = track false x) as Hu2 by (by rewrite (did_flag _ _ _ Hd2), Hu1). rewrite <- Ed2 in Ed1.
  destruct res as [e|who]; [by apply failed_create_sends|by apply answered_create_sends].
Qed.

(** What an applied profile leaves behind: the last exchange confirms it. *)
Definition applied (base sys localID : string) (b : scimUserBody) (ms : list Exchange) (d : DB) : Prop :=
  exists front x remote, ms = (front ++ [x])%list /\ confirms base remote b x /\ mapped d sys localID remote.

Definition delivery_spec (base sys localID : string) (d0 : DB) (stated : scimUserBody -> Prop) (r : DeliveryError + unit) (ms : list Exchange) (d : DB) : Prop :=
  links_kept d0 d /\ orderly ms /\ creates_once base sys localID d0 ms d /\ (r = inr tt -> forall b, stated b -> applied base sys localID b ms d).

Lemma quiet_delivery base sys localID d0 (stated : scimUserBody -> Prop) r d : links_kept d0 d -> (r = inr tt -> forall b, ~ stated b) ->
  delivery_spec base sys localID d0 stated r [] d.
Proof. intros Hk Hr. split; [done|]. split; [apply orderly_nil|]. split; [intros x []|]. intros Hok b Hb. by destruct (Hr Hok b). Qed.

(** A write to a known remote account, after [front] and with the mapping in place. *)
Lemma write_known now base token sys localID remote deactivate b (stated : scimUserBody -> Prop) d0 front s : lawful_library ->
  (forall b', stated b' -> deactivate = false /\ b' = b) -> mapped (ln_DB s) sys localID remote -> links_kept d0 (ln_DB s) ->
  (forall x, In x front -> unsettled x = false) -> creates_once base sys localID d0 front (ln_DB s) ->
  sends (write_user now base token remote deactivate b) s (fun r ms d => delivery_spec base sys localID d0 stated r (front ++ ms) d).
Proof.
  intros Hl Hst Hm Hk Hf Hc. eapply sends_weaken; [by apply write_user_sends|]. intros r ms d (-> & Ho & Hp & Hr). split; [done|]. split; [|split].
  - clear Hc. induction front as [|x front IH]; [done|]. cbn. apply orderly_cons; [apply Hf; by left|]. apply IH. intros y Hy. apply Hf. by right.
  - intros x Hx Hpost. apply in_app_iff in Hx as [Hx|Hx]; [by apply Hc|]. by apply Hp in Hx.
  - intros Hok b' Hb'. destruct (Hst b' Hb') as [Hd ->]. destruct (Hr Hok Hd) as (x & -> & Hx). by exists front, x, remote.
Qed.

Lemma verified_sends base token remote localID deactivate k s Q : lawful_library ->
  (forall e, Q (inl e) [] (ln_DB s)) -> (deactivate = true -> Q (inr tt) [] (ln_DB s)) ->
  (forall s', did [] s s' -> ln_DB s' = ln_DB s -> sends k s' Q) -> sends (verified base token remote localID deactivate k) s Q.
Proof.
  intros Hl He Hd Hk. destruct (user_only_reads base token remote Hl s) as (ms & Hs & -> & E). unfold sends, verified.
  destruct (library (lib_GetUser base token remote) s) as [[e|[id ext]] s']; cbn [fst snd] in *.
  - destruct (deactivate && is_error e ErrRemoteNotFound) eqn:Ed; exists []; (split; [done|]); cbn; rewrite E; [|by apply He].
    apply andb_true_iff in Ed as [Ed _]. by apply Hd.
  - destruct (_ || _); [exists []; split; [done|]; cbn; rewrite E; by apply He|].
    destruct (Hk s' Hs E) as (ms & Hs' & Hq). exists ms. split; [exact (did_app [] _ _ _ _ Hs Hs')|done].
Qed.

(** The profile an event states, for the user it is about: none is stated by a
    reset or a deactivation. *)
Definition states (eventType localID : string) (payload : Json) (b : scimUserBody) : Prop :=
  eventType <> "user.mfa_reset" /\ eventType <> "user.deleted" /\ exists body, lib_body payload = Some body /\ ub_Active body = true /\
  b = desired_body localID (stated_roles body).

Lemma looked_up_sends now sys base secret localID started deactivate desired (stated : scimUserBody -> Prop) s : lawful_library -> ln_Uncertain s = false ->
  (deactivate = false -> ub_ExternalID desired = localID) -> (forall b, stated b -> deactivate = false /\ b = desired) ->
  sends (found <~ found_or_absent (findSCIMResource now base secret "Users" localID) ;;
    match found with
    | Some remoteID =>
      stored (SaveSCIMLink sys "user" localID remoteID) ~;;
      write_user now base secret remoteID deactivate desired
    | None =>
      c <~ create_user now base secret sys localID started deactivate desired ;;
      match c with Done => run_ret tt | Mapped remoteID => write_user now base secret remoteID deactivate desired end
    end) s (delivery_spec base sys localID (ln_DB s) stated).
Proof.
  intros Hl Hu Hd Hst. pose proof (links_kept_refl (ln_DB s)) as Hkr.
  eapply sends_bind; [apply found_only_reads, find_only_reads| |].
  { intros e ms d (-> & ->). by apply quiet_delivery. }
  intros found ms s1 Hd1 (-> & E1). cbn [app]. rewrite <- E1 in *. destruct found as [remote|].
  - eapply sends_bind with (R := fun r ms d => ms = [] /\ links_kept (ln_DB s1) d /\ (r = inr tt -> mapped d sys localID remote)).
    { apply stored_sends. intros r d E. apply save_facts in E as (Ho & Hk & Hs). split; [done|]. split; [done|]. split; [done|]. intros Hr. apply Hs. by destruct r as [|[]]. }
    { intros e ms d (-> & Hk & _). by apply quiet_delivery. }
    intros [] ms s2 Hd2 (-> & Hk & Hm). apply (write_known now base secret sys localID remote deactivate desired stated (ln_DB s1) []); try done; by apply Hm.
  - assert (ln_Uncertain s1 = false) as Hu1 by (by rewrite (did_flag _ _ _ Hd1)).
    eapply sends_bind; [by apply create_user_sends| |].
    { intros e ms d (Hk & Ho & Hc & _). by split; [|split; [|split]]. }
    intros c ms s2 Hd2 (Hk & Ho & Hc & Hr). destruct c as [|remote].
    + apply sends_ret. rewrite app_nil_r. split; [done|]. split; [done|]. split; [done|]. intros _ b Hb. destruct (Hst b Hb) as [Hda ->].
      destruct (Hr Hda) as (x & remote & -> & Hx & Hm). by exists [], x, remote.
    + destruct Hr as (Hda & Hset & Hm). by apply write_known.
Qed.

Lemma deliverSCIM_sends now sys secret eventType localID payload s : lawful_library -> ln_Uncertain s = false ->
  sends (deliverSCIM now sys secret eventType localID payload) s
    (delivery_spec (scim_base sys) (ps_ID sys) localID (ln_DB s) (states eventType localID payload)).
Proof.
  intros Hl Hu. pose proof (links_kept_refl (ln_DB s)) as Hkr. unfold deliverSCIM.
  assert (forall e ms d, ms = [] /\ d = ln_DB s -> delivery_spec (scim_base sys) (ps_ID sys) localID (ln_DB s) (states eventType localID payload) (inl e) ms d) as Hfail.
  { intros e ms d [-> ->]. by apply quiet_delivery. }
  apply sends_guard; [by intros _; apply Hfail|intros _]. apply sends_guard; [by intros _; apply Hfail|intros _].
  destruct (eventType =?s "user.mfa_reset") eqn:Er.
  { apply sends_ret, quiet_delivery; [done|]. intros _ b [Hr _]. by apply streqb_true in Er. }
  eapply sends_bind with (R := fun r ms d => ms = [] /\ d = ln_DB s).
  { unfold demand_config. destruct (scim_config_error _ _) as [[]|]; by apply sends_ret. }
  { intros e ms d Hq. by apply Hfail. }
  intros [] ms s1 Hd1 (-> & E1). cbn [app]. assert (ln_Uncertain s1 = false) as Hu1 by (by rewrite (did_flag _ _ _ Hd1)). rewrite <- E1 in *.
  change (sends (run_bind run_get ?k) s1 ?Q) with (sends (k s1) s1 Q). cbv beta.
  destruct (SCIMLinkOf (ps_ID sys) "user" localID (ln_DB s1)) as [remote started] eqn:Elink.
  destruct (lib_body payload) as [body|] eqn:Eb; [|by apply sends_ret, Hfail].
  set (deactivate := (eventType =?s "user.deleted") || negb (ub_Active (stated_roles body))).
  set (desired := if deactivate then stated_roles body else desired_body localID (stated_roles body)).
  assert (forall b, states eventType localID payload b -> deactivate = false /\ b = desired) as Hst.
  { intros b (_ & Hdel & body' & Eb' & Ha & ->). rewrite Eb in Eb'. injection Eb' as <-. apply streqb_false in Hdel. unfold desired, deactivate.
    rewrite Hdel. cbn. by rewrite Ha. }
  apply sends_guard; [by intros _; apply Hfail|intros _].
  destruct (remote <>?s "") eqn:Erem.
  - apply verified_sends; [done|by intros e; apply Hfail| |].
    + intros Hda. apply quiet_delivery; [done|]. intros _ b Hb. destruct (Hst b Hb). congruence.
    + intros s2 Hd2 E2. apply (write_known now _ _ _ _ remote _ _ _ (ln_DB s1) []); try done; try by rewrite E2.
      rewrite E2. unfold mapped. unfold SCIMLinkOf, SCIMRemote in Elink. destruct (scim_user_links (ln_DB s1) !! _) as [l|] eqn:El.
      * destruct (sl_Kind l =?s "user") eqn:Ek; [|by injection Elink as <- _]. apply streqb_true in Ek. injection Elink as <- _. destruct l. cbn in *. by subst.
      * by injection Elink as <- _.
  - apply looked_up_sends; try done. intros Hda. unfold desired. by rewrite Hda.
Qed.

(** ** Groups and webhooks *)

(** Mappings of accounts stay. *)
Definition user_kept (d d' : DB) : Prop := forall k, (exists l, scim_user_links d !! k = Some l /\ sl_Kind l = "user") ->
  exists l, scim_user_links d' !! k = Some l /\ sl_Kind l = "user".

Lemma kept_user d d' : links_kept d d' -> user_kept d d'.
Proof. intros Hk k (l & Hl & Hu). destruct (Hk k l Hl) as (l' & Hl' & E). exists l'. split; congruence. Qed.

Lemma user_kept_trans d1 d2 d3 : user_kept d1 d2 -> user_kept d2 d3 -> user_kept d1 d3.
Proof. intros G1 G2 k Hk. by apply G2, G1. Qed.

Lemma user_kept_refl d : user_kept d d.
Proof. by intros k. Qed.

Lemma drop_group_kept sys local p d : (forall l, p l = true -> sl_Kind l = "group") -> user_kept d (drop_link sys local p d).
Proof.
  intros Hp k (l & Hl & Hu). exists l. split; [|done]. unfold drop_link. cbn.
  destruct (scim_user_links d !! (sys, local)) as [l0|] eqn:E; [|done]. destruct (p l0) eqn:Ep; [|done].
  rewrite lookup_delete_ne; [done|]. intros <-. rewrite E in Hl. injection Hl as ->. apply Hp in Ep. rewrite Hu in Ep. discriminate Ep.
Qed.

(** Keeps the accounts' mappings and sends at most one write. *)
Definition modest {A} (m : Wired A) : Prop := forall s, sends m s (fun _ ms d => user_kept (ln_DB s) d /\ (length ms <= 1)%nat).
Definition silent {A} (m : Wired A) : Prop := forall s, sends m s (fun _ ms d => user_kept (ln_DB s) d /\ ms = []).

Lemma reads_silent {A} (m : Wired A) : only_reads m -> silent m.
Proof. intros Hm s. eapply sends_weaken; [apply Hm|]. intros r ms d [-> ->]. split; [apply user_kept_refl|done]. Qed.

Lemma silent_modest {A} (m : Wired A) : silent m -> modest m.
Proof. intros Hm s. eapply sends_weaken; [apply Hm|]. intros r ms d [Hk ->]. split; [done|cbn; lia]. Qed.

Lemma silent_ret {A} (r : DeliveryError + A) : silent (fun s => (r, s)).
Proof. apply reads_silent, only_reads_ret. Qed.

Lemma silent_bind {A B} (m : Wired A) (k : A -> Wired B) : silent m -> (forall a, silent (k a)) -> silent (run_bind m k).
Proof.
  intros Hm Hk s. eapply sends_bind; [apply Hm|done|]. intros a ms s' _ [Hu ->]. eapply sends_weaken; [apply Hk|]. cbn.
  intros r ms d [Hu' ->]. split; [by eapply user_kept_trans|done].
Qed.

Lemma silent_first {A B} (m : Wired A) (k : A -> Wired B) : silent m -> (forall a, modest (k a)) -> modest (run_bind m k).
Proof.
  intros Hm Hk s. eapply sends_bind; [apply Hm| |].
  - intros e ms d [Hu ->]. split; [done|cbn; lia].
  - intros a ms s' _ [Hu ->]. eapply sends_weaken; [apply Hk|]. cbn. intros r ms d [Hu' Hn]. split; [by eapply user_kept_trans|done].
Qed.

Lemma silent_last {A B} (m : Wired A) (k : A -> Wired B) : modest m -> (forall a, silent (k a)) -> modest (run_bind m k).
Proof.
  intros Hm Hk s. eapply sends_bind; [apply Hm|done|]. intros a ms s' _ [Hu Hn]. eapply sends_weaken; [apply Hk|]. cbn.
  intros r ms' d [Hu' ->]. rewrite app_nil_r. split; [by eapply user_kept_trans|done].
Qed.

Lemma request_modest now method base token path query body : modest (scimRequest now method base token path query body).
Proof.
  intros s. eapply sends_weaken; [apply request_sends|]. intros r ms d (-> & st & res & hs & x & _ & _ & ->).
  split; [apply user_kept_refl|]. destruct (mutation _); cbn; lia.
Qed.

Lemma stored_silent {A} (m : DB -> (StoreError + A) * DB) : (forall d r d', m d = (r, d') -> links_only d d' /\ links_kept d d') -> silent (stored m).
Proof. intros Hm s. apply stored_sends. intros r d E. apply Hm in E as [Ho Hk]. split; [done|]. split; [by apply kept_user|done]. Qed.

Lemma save_silent sys kind local remote : silent (stored (SaveSCIMLink sys kind local remote)).
Proof. apply stored_silent. intros d r d' E. by apply save_facts in E as (Ho & Hk & _). Qed.

Lemma start_silent sys kind local : silent (stored (StartSCIMCreate sys kind local)).
Proof. apply stored_silent. intros d r d' E. by apply start_facts in E as (Ho & Hk & _). Qed.

Lemma drop_silent sys local p : (forall l, p l = true -> sl_Kind l = "group") -> silent (store_write (drop_link sys local p)).
Proof.
  intros Hp s. exists []. split; [by apply did_nothing|]. split; [by apply drop_group_kept|done].
Qed.

Lemma delete_silent sys group : silent (store_write (DeleteSCIMLink sys "group" group)).
Proof. apply drop_silent. intros l Hl. by apply streqb_true. Qed.

Lemma reject_silent sys group e : silent (reject_if_refused sys "group" group e).
Proof.
  apply silent_bind; [apply reads_silent; intros s; by apply sends_ret|]. intros u. destruct (createRefused u e); [|apply silent_ret].
  apply drop_silent. intros l Hl. apply andb_true_iff in Hl as [Hl _]. by apply streqb_true.
Qed.

Lemma guard_silent b e : silent (run_guard b e).
Proof. apply reads_silent. intros s. by apply sends_ret. Qed.

Lemma get_silent : silent run_get.
Proof. apply reads_silent. intros s. by apply sends_ret. Qed.

Lemma config_silent base token : silent (demand_config base token).
Proof. unfold demand_config. destruct (scim_config_error _ _) as [[]|]; apply silent_ret. Qed.

Ltac quietly := repeat case_match; first [apply silent_ret | apply silent_modest, silent_ret].

Lemma create_group_modest now base token sys group desired : modest (create_group now base token sys group desired).
Proof.
  apply silent_first; [apply start_silent|]. intros won. destruct won; cbn [negb]; [|apply silent_modest, silent_ret].
  apply silent_last; [apply request_modest|]. intros [st [e|a]]; cbn [snd].
  - apply silent_bind; [apply reject_silent|]. intros _. apply silent_ret.
  - repeat case_match; first [apply silent_ret|apply save_silent].
Qed.

Lemma delete_group_modest now base token sys group remote : modest (delete_group now base token sys group remote).
Proof.
  unfold delete_group. destruct (remote =?s ""); [apply silent_modest, silent_ret|]. apply silent_last; [apply request_modest|].
  intros [st [e|a]]; cbn [snd]; repeat case_match; first [apply silent_ret|apply delete_silent].
Qed.

Lemma write_group_modest now base token sys group remote held : lawful_library -> modest (write_group now base token sys group remote held).
Proof.
  intros Hl. apply silent_first; [apply get_silent|]. intros s0. destruct (SCIMGroupMembers _ _ _ _) as [[name members]|]; [|apply silent_modest, silent_ret].
  apply silent_first; [apply reads_silent; by apply owned_only_reads|]. intros owned. cbv zeta. destruct (remote =?s ""); [apply create_group_modest|].
  apply silent_last; [apply request_modest|]. intros [st [e|a]]; cbn [fst snd]; quietly.
Qed.

Lemma current_group_silent now base token remote group kind : silent (current_group now base token remote group kind).
Proof. apply silent_bind; [apply reads_silent, get_only_reads|]. intros [st [e|a]]; cbn [snd]; quietly. Qed.

Lemma deliverSCIMGroup_modest now sys secret kind group : lawful_library -> modest (deliverSCIMGroup now sys secret kind group).
Proof.
  intros Hl. apply silent_first; [apply guard_silent|]. intros _. cbv zeta. apply silent_first; [apply config_silent|]. intros _.
  apply silent_first; [apply get_silent|]. intros s0. destruct (SCIMLinkOf _ _ _ _) as [mapped0 started]. apply silent_first.
  { destruct (mapped0 <>?s ""); [apply silent_ret|]. apply silent_bind; [apply reads_silent, found_only_reads, find_only_reads|].
    intros [remote|]; [|destruct started; apply silent_ret]. apply silent_bind; [apply save_silent|]. intros _. apply silent_ret. }
  intros remote. apply silent_first; [destruct (mapped0 <>?s ""); [apply current_group_silent|apply silent_ret]|].
  intros [held|]; [|apply silent_modest, delete_silent]. destruct (kind =?s "group.deleted"); [apply delete_group_modest|].
  destruct (kind =?s "group.updated"); [by apply write_group_modest|apply silent_modest, silent_ret].
Qed.

Lemma do_modest rq : modest (Do rq).
Proof.
  intros s. exists (writes [(rq, far_side (ln_Sent s) rq)]). split; [apply did_carried|]. split; [apply user_kept_refl|].
  cbn. destruct (mutation rq); cbn; lia.
Qed.

Lemma webhook_modest now sys secret id kind payload : modest (deliver_webhook now sys secret id kind payload).
Proof.
  unfold deliver_webhook. destruct (syncauth_Sign _ _ _ _ _) as [headers|]; [|apply silent_modest, silent_ret].
  destruct (url_endpoint _); [|apply silent_modest, silent_ret]. apply silent_last; [|intros a; apply guard_silent].
  apply do_modest.
Qed.

(** Every delivery keeps the accounts' mappings and leaves at most its last write unsettled. *)
Lemma deliver_sends now sys secret id kind user payload s : lawful_library -> ln_Uncertain s = false ->
  sends (deliver now sys secret id kind user payload) s (fun _ ms d => user_kept (ln_DB s) d /\ orderly ms).
Proof.
  intros Hl Hu. assert (forall m : Wired unit, modest m -> sends m s (fun _ ms d => user_kept (ln_DB s) d /\ orderly ms)) as Hm.
  { intros m Hm. eapply sends_weaken; [apply Hm|]. intros r ms d [Hk Hn]. split; [done|by apply orderly_short]. }
  unfold deliver. destruct (String.prefix "group." kind).
  - apply Hm, silent_first; [apply guard_silent|]. intros _. by apply deliverSCIMGroup_modest.
  - destruct (ps_SystemType sys =?s "scim").
    + eapply sends_weaken; [by apply deliverSCIM_sends|]. intros r ms d (Hk & Ho & _). split; [by apply kept_user|done].
    + apply Hm, silent_first; [apply guard_silent|]. intros _. apply webhook_modest.
Qed.

(** ** Outcomes *)

(** An exchange of the run that started with [sent]. *)
Definition sent_since (sent : list Exchange) (s : Line) (x : Exchange) : Prop := exists xs, ln_Sent s = (rev xs ++ sent)%list /\ In x xs.

Lemma sends_elim {A} (m : Wired A) s Q r s' : sends m s Q -> m s = (r, s') -> exists ms, did ms s s' /\ Q r ms (ln_DB s').
Proof. intros (ms & Hd & Hq) E. rewrite E in Hd, Hq. by exists ms. Qed.

Lemma did_writes ms s s' x : did ms s s' -> mutation x.1 = true -> sent_since (ln_Sent s) s' x <-> In x ms.
Proof.
  intros [(xs & E & _ & <-) _] Hm. split.
  - intros (ys & E' & Hx). rewrite E in E'. apply app_inv_tail in E'. apply (f_equal (@rev _)) in E'. rewrite !rev_involutive in E'. subst.
    apply filter_In. by split.
  - intros Hx. apply filter_In in Hx as [Hx _]. by exists xs.
Qed.

(** The rows an outcome is recorded in. *)
Definition claimed_row (ev x : AccountSyncEvent) : bool := (e_ID x =?s e_ID ev) && (e_ClaimToken x =?s e_ClaimToken ev).
Definition recorded_row (status message : string) (attempts : Z) (next : option Z) (now : Z) (x : AccountSyncEvent) : AccountSyncEvent :=
  set_e_Status status (set_e_LastError message (set_e_Attempts attempts (set_e_NextAttempt next
    (set_e_LeaseUntil None (set_e_ClaimToken EmptyString (set_e_UpdatedAt now x)))))).

Lemma finish_undelivered newid ev status message n next now d u d' : finish_status ev status n <> "delivered" ->
  FinishSyncDelivery newid ev status message n next now d = inr (u, d') ->
  sync_delivery_attempts d' = delete_where (fun a => da_Token a =?s e_ClaimToken ev) (sync_delivery_attempts d) /\
  account_sync_events d' = map (fun x => if claimed_row ev x then recorded_row (finish_status ev status n) message n next now x else x)
    (account_sync_events d).
Proof.
  intros Hs Hf. unfold FinishSyncDelivery in Hf. cbv zeta in Hf. set (st := finish_status ev status n) in *.
  apply tx_bind_inr in Hf as (d0 & s0 & E & Hf). injection E as <- <-.
  apply tx_bind_inr in Hf as (u1 & s1 & E & Hf). apply tx_guard_inr in E as [_ ->].
  apply tx_bind_inr in Hf as (u2 & s2 & E & Hf). apply tx_guard_inr in E as [_ ->].
  apply tx_bind_inr in Hf as (u3 & s3 & E & Hf). injection E as _ <-.
  apply tx_bind_inr in Hf as (u4 & s4 & E & Hf). injection E as _ <-.
  apply streqb_false in Hs. rewrite Hs in Hf. destruct (message <>?s EmptyString); injection Hf as _ <-; done.
Qed.

(** The outcome of a failed delivery that left nothing unsettled. *)
Lemma released_row t ev sys secret d sent stop d' sent' e s :
  attempt_delivery t ev sys secret d sent = (inr stop, (d', sent')) ->
  deliver (tn_now t) sys secret (e_ID ev) (e_EventType ev) (e_UserID ev) (outgoing ev) (MkLine d sent false) = (inl e, s) ->
  ln_Uncertain s && negb (Removal ev) = false ->
  sync_delivery_attempts d' = delete_where (fun a => da_Token a =?s e_ClaimToken ev) (sync_delivery_attempts (ln_DB s)).
Proof.
  intros Ha Hd Hu. unfold attempt_delivery in Ha. rewrite Hd, Hu in Ha.
  assert (forall status msg n next, status <> "delivered" -> forall d1, finish t ev status msg n next (ln_DB s) = (inr tt, d1) ->
    sync_delivery_attempts d1 = delete_where (fun a => da_Token a =?s e_ClaimToken ev) (sync_delivery_attempts (ln_DB s))) as Hf.
  { intros status msg n next Hs d1 E. unfold finish in E. apply commit_inr in E. apply finish_undelivered in E; [by destruct E|].
    unfold finish_status. destruct ((status =?s "pending") && _ && _ && _); [intros Hx; discriminate Hx|exact Hs]. }
  assert (forall (m : (StoreError + unit) * DB) b, (match m.1 with inl e => inl e | inr _ => inr b end, (m.2, ln_Sent s)) =
    (inr stop, (d', sent')) -> m = (inr tt, d')) as Hm.
  { intros [[x|[]] d1] b E; cbn in E; [discriminate E|]. by injection E as _ -> _. }
  destruct (tn_aborted t).
  - apply Hm in Ha. by eapply Hf; [|exact Ha].
  - apply Hm in Ha. unfold back_off in Ha. destruct (_ && _ && _); by eapply Hf; [|exact Ha].
Qed.

(** After a failed delivery that takes no access away, the resource's fence
    stands exactly when the delivery sent a write that reached the target
    and got no settling answer; the event is then only marked uncertain. *)
Theorem a_fence_outlives_exactly_the_unsettled t ev sys secret d sent e s stop d' sent' key a :
  lawful_library -> Removal ev = false ->
  deliver (tn_now t) sys secret (e_ID ev) (e_EventType ev) (e_UserID ev) (outgoing ev) (MkLine d sent false) = (inl e, s) ->
  attempt_delivery t ev sys secret d sent = (inr stop, (d', sent')) ->
  sync_delivery_attempts d !! key = Some a -> da_Token a = e_ClaimToken ev ->
  (sync_delivery_attempts d' !! key = Some a <-> exists x, sent_since sent s x /\ mutation x.1 = true /\ unsettled x = true) /\
  ((exists x, sent_since sent s x /\ mutation x.1 = true /\ unsettled x = true) ->
     account_sync_events d' = map (fun x => if claimed_row ev x
       then set_e_LastError "remote write outcome uncertain; operator recovery required" (set_e_UpdatedAt (tn_later t) x) else x)
       (account_sync_events d)).
Proof.
  intros Hl Hrem Hd Ha Hk Htok.
  pose proof (sends_elim _ _ _ _ _ (deliver_sends _ sys secret (e_ID ev) (e_EventType ev) (e_UserID ev) (outgoing ev) (MkLine d sent false) Hl eq_refl) Hd)
    as (ms & Hdid & _ & Ho).
  assert (links_only d (ln_DB s)) as Hlo by apply Hdid.
  assert ((exists x, sent_since sent s x /\ mutation x.1 = true /\ unsettled x = true) <-> ln_Uncertain s = true) as Hflag.
  { split.
    - intros (x & Hx & Hm & Hu). apply (did_writes _ _ _ _ Hdid Hm) in Hx. by eapply did_unsettled.
    - intros Hu. destruct (existsb unsettled ms) eqn:Ex.
      + apply existsb_exists in Ex as (x & Hx & Hux). pose proof (did_mutation _ _ _ _ Hdid Hx) as Hm.
        exists x. split; [by apply (did_writes _ _ _ _ Hdid Hm)|done].
      + rewrite (did_settled _ _ _ Hdid) in Hu; [done| |done]. intros x Hx. destruct (unsettled x) eqn:Eu; [|done].
        exfalso. eapply not_true_iff_false; [exact Ex|]. apply existsb_exists. by exists x. }
  rewrite Hflag. clear Hflag. destruct (ln_Uncertain s) eqn:Eu.
  - unfold attempt_delivery in Ha. rewrite Hd, Eu, Hrem in Ha. cbn [negb andb] in Ha. injection Ha as _ <- _. split; [split; [done|intros _]|intros _].
    + unfold MarkSyncDeliveryUncertain. rewrite Hlo. cbn. by destruct (exists_where _ _).
    + unfold MarkSyncDeliveryUncertain. rewrite Hlo. cbn. by destruct (exists_where _ _).
  - split; [|done]. split; [|done]. intros Hk'. exfalso. apply (released_row _ _ _ _ _ _ _ _ _ _ _ Ha) in Hd; [|by rewrite Eu].
    rewrite Hd in Hk'. apply lookup_delete_where_Some in Hk' as [_ Hf]. by apply streqb_false in Hf.
Qed.

(** A successful delivery of an active profile to a generic SCIM connector
    ends with the target's completed answer to a write of exactly that
    profile under the local id, to the account the store then maps it to,
    with no write left unsettled. *)
Theorem delivered_profiles_are_confirmed now sys secret eventType localID payload b d sent s :
  lawful_library -> states eventType localID payload b ->
  deliverSCIM now sys secret eventType localID payload (MkLine d sent false) = (inr tt, s) ->
  exists x remote, sent_since sent s x /\ confirms (scim_base sys) remote b x /\
    scim_user_links (ln_DB s) !! (ps_ID sys, localID) = Some (MkSCIMLink "user" remote) /\
    forall y, sent_since sent s y -> mutation y.1 = true -> unsettled y = false.
Proof.
  intros Hl Hb Hd.
  pose proof (sends_elim _ _ _ _ _ (deliverSCIM_sends now sys secret eventType localID payload (MkLine d sent false) Hl eq_refl) Hd)
    as (ms & Hdid & _ & Ho & _ & Happ). destruct (Happ eq_refl b Hb) as (front & x & remote & Ems & Hx & Hmap).
  assert (In x ms) as Hin by (rewrite Ems; apply in_app_iff; right; by left).
  exists x, remote. split; [by apply (did_writes _ _ _ _ Hdid); [eapply did_mutation|]|]. split; [done|]. split; [done|].
  intros y Hy Hm. apply (did_writes _ _ _ _ Hdid Hm) in Hy. destruct (unsettled y) eqn:Eu; [|done]. exfalso.
  assert (y = x) as ->.
  { pose proof Hy as Hy'. apply in_split in Hy' as (f & k & E). pose proof (Ho f y k E Eu) as ->. rewrite Ems in E. by apply app_inj_tail in E as [_ ->]. }
  destruct Hx as (_ & _ & a & Ha & Hst). unfold unsettled in Eu. rewrite Ha in Eu. apply andb_true_iff in Eu as [_ Eu].
  destruct Hst as [(_ & _ & Hst)|(_ & _ & Hst & _)]; repeat (destruct Hst as [Hst|Hst]; [rewrite <- Hst in Eu; discriminate Eu|]); destruct Hst.
Qed.

(** Deliveries of any events at any connectors, and whatever else keeps the
    accounts' mappings. *)
Inductive delivery_step : DB -> DB -> Prop :=
| dl_deliver now sys secret id kind user payload sent d :
    delivery_step d (ln_DB (deliver now sys secret id kind user payload (MkLine d sent false)).2)
| dl_other d d' : user_kept d d' -> delivery_step d d'.

Lemma steps_kept d d' : lawful_library -> rtc delivery_step d d' -> user_kept d d'.
Proof.
  intros Hl Hs. induction Hs as [|d1 d2 d3 Hstep _ IH]; [apply user_kept_refl|]. eapply user_kept_trans; [|exact IH].
  destruct Hstep as [now sys secret id kind user payload sent d|d d' Hk]; [|done].
  by destruct (deliver_sends now sys secret id kind user payload (MkLine d sent false) Hl eq_refl) as (ms & _ & Hk & _).
Qed.

(** C11. A create of an account is sent to a connector only while the store maps
    nothing for it; once one was sent that the target did not turn down, no
    later delivery of that account to that connector sends another, whatever
    else is delivered in between and whatever the target answers. *)
Theorem an_unrefused_create_is_never_repeated now sys secret eventType localID payload d sent r s x d2 :
  lawful_library ->
  deliverSCIM now sys secret eventType localID payload (MkLine d sent false) = (r, s) ->
  sent_since sent s x -> wq_Method x.1 = "POST" -> refused_create x = false -> rtc delivery_step (ln_DB s) d2 ->
  creates (scim_base sys) localID x /\ scim_user_links d !! (ps_ID sys, localID) = None /\
  forall now' sys' secret' eventType' payload' sent' y, ps_ID sys' = ps_ID sys ->
    sent_since sent' (deliverSCIM now' sys' secret' eventType' localID payload' (MkLine d2 sent' false)).2 y -> wq_Method y.1 <> "POST".
Proof.
  intros Hl Hd Hx Hpost Href Hs.
  pose proof (sends_elim _ _ _ _ _ (deliverSCIM_sends now sys secret eventType localID payload (MkLine d sent false) Hl eq_refl) Hd)
    as (ms & Hdid & _ & _ & Hc & _).
  assert (mutation x.1 = true) as Hm by (unfold mutation; by rewrite Hpost). apply (did_writes _ _ _ _ Hdid Hm) in Hx.
  destruct (Hc x Hx Hpost) as (Hcx & Hnone & Hrec). split; [done|]. split; [done|].
  destruct Hrec as [Hr|(l & Hlk & Hu)]; [congruence|].
  destruct (steps_kept _ _ Hl Hs (ps_ID sys, localID)) as (l2 & Hl2 & _); [by exists l|].
  intros now' sys' secret' eventType' payload' sent' y Hid Hy Hpy.
  destruct (deliverSCIM_sends now' sys' secret' eventType' localID payload' (MkLine d2 sent' false) Hl eq_refl) as (ms2 & Hdid2 & _ & _ & Hc2 & _).
  assert (mutation y.1 = true) as Hmy by (unfold mutation; by rewrite Hpy). apply (did_writes _ _ _ _ Hdid2 Hmy) in Hy.
  destruct (Hc2 y Hy Hpy) as (_ & Hn & _). cbn in Hn. rewrite Hid in Hn. congruence.
Qed.

(** ** Backing off *)

Lemma retryDelay_bounds n : 0 <= n -> 30 * second <= retryDelay n <= 30 * minute.
Proof.
  intros Hn. unfold retryDelay. assert (1 <= Z.shiftl 1 (Z.min n 6)).
  { rewrite Z.shiftl_1_l. pose proof (Z.pow_pos_nonneg 2 (Z.min n 6)). lia. }
  unfold minute, second. lia.
Qed.

(** A failed attempt counts once and releases the fence; past the budget an
    event that takes nothing away is given up, any other waits between
    thirty seconds and thirty minutes, a target's Retry-After only
    lengthening the wait. *)
Theorem a_failed_attempt_is_bounded t ev e d d' : 0 <= e_Attempts ev -> back_off t ev e d = (inr tt, d') ->
  let n := e_Attempts ev + 1 in
  let gives_up := (SyncAttemptBudget <=? n) && negb (Removal ev) && (e_EventType ev <>?s "user.mfa_reset") in
  exists next, account_sync_events d' = map (fun x => if claimed_row ev x
      then recorded_row (if gives_up then "failed" else "pending") (deliveryError e) n next (tn_later t) x else x) (account_sync_events d) /\
    (forall key a, sync_delivery_attempts d' !! key = Some a -> da_Token a <> e_ClaimToken ev) /\
    if gives_up then next = None
    else exists wait, next = Some (tn_later t + wait) /\ 30 * second <= wait <= 30 * minute /\
      (wait = retryDelay (e_Attempts ev) \/ exists status after, e = Remote status after /\ retryDelay (e_Attempts ev) <= wait).
Proof.
  intros Hn Hb n gives_up. unfold back_off in Hb. cbv zeta in Hb. fold n in Hb. change (_ && _ && _) with gives_up in Hb.
  pose proof (retryDelay_bounds (e_Attempts ev) Hn) as Hr. destruct gives_up eqn:Eg.
  - unfold finish in Hb. apply commit_inr in Hb. exists None.
    assert (finish_status ev "failed" n = "failed") as Hst by done.
    apply finish_undelivered in Hb as [Ea Ee]; [|by rewrite Hst]. rewrite Hst in Ee. split; [done|]. split; [|done].
    intros key a Hk. rewrite Ea in Hk. apply lookup_delete_where_Some in Hk as [_ Hk]. by apply streqb_false.
  - unfold finish in Hb. apply commit_inr in Hb.
    assert (finish_status ev "pending" n = "pending") as Hst by (unfold finish_status; rewrite streqb_refl; cbn [andb]; unfold gives_up in Eg; by rewrite Eg).
    apply finish_undelivered in Hb as [Ea Ee]; [|by rewrite Hst]. rewrite Hst in Ee. eexists. split; [exact Ee|]. split.
    + intros key a Hk. rewrite Ea in Hk. apply lookup_delete_where_Some in Hk as [_ Hk]. by apply streqb_false.
    + eexists. split; [reflexivity|]. destruct e as [status after| | | |]; try (split; [exact Hr|by left]). split; [lia|]. right. exists status, after. split; [done|lia].
Qed.
End facts.

(** ** Witnesses *)

#[local] Existing Instances sample_codec toy_aead.

(** A target with an empty collection that answers a create as [post] says; its
    library only ever times out. *)
Definition toy_answer (status : Z) (page : option FoundPage) (user : option (string * string)) : Response :=
  MkResponse status false RetryNone true page user None.
Definition toy_reads : RoundTrip := MkRoundTrip true (Some (toy_answer 200 (Some (MkFoundPage (Some 0) None [])) None)).
Definition toy_get (base id : string) : Exchange := (MkWireRequest "GET" base ["Users"; id] [] [] NoBody, MkRoundTrip true None).
Definition toy_patch (base id : string) (v : bool) : Exchange := (MkWireRequest "PATCH" base ["Users"; id] [] [] (PatchActive v), MkRoundTrip true None).

Definition toy_far (post : RoundTrip) : Far := {|
  far_side sent rq := if wq_Method rq =?s "GET" then toy_reads else post;
  lib_GetUser base token id sent := ([toy_get base id], inl Transport);
  lib_PatchUser base token id v sent := ([toy_patch base id v], inl Transport);
  lib_is status k := match k with ErrConflict => status =? 409 | ErrRemoteNotFound => status =? 404 | _ => false end;
  lib_text k := "scim: error";
  lib_body j := match j with
    | JObj l => match obj_get "userName" l, obj_get "active" l with
      | Some (JStr n), Some (JBool a) => Some (MkScimUserBody "" "" n a true None JNull)
      | _, _ => None
      end
    | _ => None
    end;
  syncauth_Sign secret now kind id payload := Some [("X-Signature", secret)];
  url_endpoint raw := Some (MkSCIMEndpoint "https" "crm.example" false "" false "" "/scim/v2");
  url_with_path raw path := path;
  time_json t := JNum t;
  time_read j := match j with JNum t => Some t | _ => None end |}.

Lemma toy_far_lawful post : @lawful_library (toy_far post).
Proof.
  split; cbn.
  - by intros base token id _ x [<-|[]].
  - intros base token id v _. split; [lia|]. by intros x [<-|[]].
  - intros status E. by apply Z.eqb_eq.
  - intros status E. by apply Z.eqb_eq.
Qed.

Definition lost : RoundTrip := MkRoundTrip true None.
Definition made : RoundTrip := MkRoundTrip true (Some (toy_answer 201 None (Some ("r-bob", "bob")))).

Definition bobs_turn : Turn := MkTurn (t0 + 2 * minute) (t0 + 3 * minute) false false event_id.
Definition bobs_delivery (post : RoundTrip) : (DeliveryError + unit) * Line :=
  @deliver (toy_far post) (tn_now bobs_turn) sample_system "s3cret" (e_ID bobs_event) (e_EventType bobs_event) (e_UserID bobs_event)
    (@outgoing (toy_far post) bobs_event) (MkLine sent_db [] false).
Definition bobs_outcome (post : RoundTrip) : (StoreError + bool) * (DB * list Exchange) :=
  @attempt_delivery _ (toy_far post) bobs_turn bobs_event sample_system "s3cret" sent_db [].

(** The create as the last exchange of Bob's delivery. *)
Definition last_sent (l : list Exchange) : Exchange := match l with x :: _ => x | [] => toy_get "" "" end.
Definition bobs_create (post : RoundTrip) : Exchange := last_sent (ln_Sent (bobs_delivery post).2).

Lemma last_sent_since s n : length (ln_Sent s) = S n -> sent_since [] s (last_sent (ln_Sent s)).
Proof.
  intros Hn. exists (rev (ln_Sent s)). rewrite rev_involutive, app_nil_r. split; [done|]. rewrite <- in_rev.
  destruct (ln_Sent s); [done|by left].
Qed.

Lemma bobs_create_sent : sent_since [] (bobs_delivery lost).2 (bobs_create lost).
Proof. apply (last_sent_since _ 1). vm_compute. reflexivity. Qed.

Lemma a_fence_outlives_exactly_the_unsettled_witness :
  (bobs_outcome lost).1 = inr false /\ sync_delivery_attempts (bobs_outcome lost).2.1 !! ("sys", "bob") = Some bobs_attempt /\
  sync_delivery_attempts (bobs_outcome made).2.1 !! ("sys", "bob") = None.
Proof.
  split; [vm_compute; reflexivity|]. split; [|vm_compute; reflexivity].
  destruct (bobs_delivery lost) as [r s] eqn:Ed. destruct (bobs_outcome lost) as [o [d' sent']] eqn:Eo.
  assert (r = inl Transport) as -> by (replace r with (bobs_delivery lost).1 by (rewrite Ed; reflexivity); vm_compute; reflexivity).
  assert (o = inr false) as -> by (replace o with (bobs_outcome lost).1 by (rewrite Eo; reflexivity); vm_compute; reflexivity).
  unfold bobs_delivery in Ed. unfold bobs_outcome in Eo.
  refine (proj2 (proj1 (@a_fence_outlives_exactly_the_unsettled _ (toy_far lost) bobs_turn bobs_event sample_system "s3cret" sent_db []
    Transport s false d' sent' ("sys", "bob") bobs_attempt (toy_far_lawful lost) _ Ed Eo _ _)) _).
  - vm_compute. reflexivity.
  - vm_compute. reflexivity.
  - vm_compute. reflexivity.
  - exists (bobs_create lost). split; [|split; vm_compute; reflexivity].
    pose proof bobs_create_sent as Hx. unfold bobs_delivery in Hx. rewrite Ed in Hx. exact Hx.
Defined.

Definition bobs_body : scimUserBody := desired_body "bob" (stated_roles (MkScimUserBody "" "" "bob" true true None JNull)).
Definition bobs_profile (post : RoundTrip) : (DeliveryError + unit) * Line :=
  @deliverSCIM (toy_far post) (t0 + 2 * minute) sample_system "s3cret" "user.created" "bob" (@outgoing (toy_far post) bobs_event) (MkLine sent_db [] false).

Lemma delivered_profiles_are_confirmed_witness : exists x remote, confirms "https://crm.example/scim/v2" remote bobs_body x /\
  scim_user_links (ln_DB (bobs_profile made).2) !! ("sys", "bob") = Some (MkSCIMLink "user" remote).
Proof.
  destruct (bobs_profile made) as [r s] eqn:Ed.
  assert (r = inr tt) as -> by (replace r with (bobs_profile made).1 by (rewrite Ed; reflexivity); vm_compute; reflexivity).
  unfold bobs_profile in Ed.
  assert (@states (toy_far made) "user.created" "bob" (@outgoing (toy_far made) bobs_event) bobs_body) as Hb.
  { split; [discriminate|]. split; [discriminate|]. eexists. split; [vm_compute; reflexivity|]. split; vm_compute; reflexivity. }
  destruct (@delivered_profiles_are_confirmed (toy_far made) _ _ _ _ _ _ _ _ _ _ (toy_far_lawful made) Hb Ed) as (x & remote & _ & Hx & Hm & _).
  exists x, remote. split; [exact Hx|exact Hm].
Defined.

Lemma an_unrefused_create_is_never_repeated_witness :
  exists s, bobs_profile lost = (inl Transport, s) /\
  forall sent' y, sent_since sent' (@deliverSCIM (toy_far lost) (t0 + hour) sample_system "s3cret" "user.updated" "bob"
    (@outgoing (toy_far lost) bobs_event) (MkLine (ln_DB s) sent' false)).2 y -> wq_Method y.1 <> "POST".
Proof.
  destruct (bobs_profile lost) as [r s] eqn:Ed. exists s.
  assert (r = inl Transport) as -> by (replace r with (bobs_profile lost).1 by (rewrite Ed; reflexivity); vm_compute; reflexivity).
  split; [reflexivity|]. intros sent' y Hy.
  unfold bobs_profile in Ed.
  refine (proj2 (proj2 (@an_unrefused_create_is_never_repeated (toy_far lost) _ _ _ _ _ _ _ _ _ _ (bobs_create lost) (ln_DB s) (toy_far_lawful lost) Ed
    _ _ _ (rtc_refl _ _))) _ sample_system _ _ _ sent' y eq_refl Hy).
  - assert (ln_Sent (bobs_delivery lost).2 = ln_Sent s) as E by (replace s with (bobs_profile lost).2 by (unfold bobs_profile; rewrite Ed; reflexivity); vm_compute; reflexivity).
    destruct bobs_create_sent as (xs & Hxs & Hin). exists xs. rewrite <- E. split; [exact Hxs|exact Hin].
  - vm_compute. reflexivity.
  - vm_compute. reflexivity.
Defined.

Lemma a_failed_attempt_is_bounded_witness :
  exists d', @back_off _ (toy_far lost) bobs_turn bobs_event (Remote 503 (2 * hour)) sent_db = (inr tt, d') /\
  exists wait, 30 * second <= wait <= 30 * minute /\ In (Some (tn_later bobs_turn + wait)) (map e_NextAttempt (account_sync_events d')).
Proof.
  destruct (@back_off _ (toy_far lost) bobs_turn bobs_event (Remote 503 (2 * hour)) sent_db) as [r d'] eqn:Eb. exists d'.
  assert (r = inr tt) as -> by (replace r with (@back_off _ (toy_far lost) bobs_turn bobs_event (Remote 503 (2 * hour)) sent_db).1
    by (rewrite Eb; reflexivity); vm_compute; reflexivity).
  split; [reflexivity|]. assert (0 <= e_Attempts bobs_event) as Hn by (vm_compute; discriminate).
  destruct (@a_failed_attempt_is_bounded _ (toy_far lost) bobs_turn bobs_event _ _ _ Hn Eb) as (next & He & _ & Hw).
  assert ((SyncAttemptBudget <=? e_Attempts bobs_event + 1) && negb (Removal bobs_event) && (e_EventType bobs_event <>?s "user.mfa_reset") = false)
    as Hg by (vm_compute; reflexivity).
  rewrite Hg in Hw, He. destruct Hw as (wait & -> & Hb & _). exists wait. split; [exact Hb|]. rewrite He, map_map.
  assert (exists x, In x (account_sync_events sent_db) /\ claimed_row bobs_event x = true) as (x & Hx & Hc).
  { assert (existsb (claimed_row bobs_event) (account_sync_events sent_db) = true) as Hx by (vm_compute; reflexivity).
    apply existsb_exists in Hx as (x & Hx & Hc). exists x. split; [exact Hx|exact Hc]. }
  set (l := account_sync_events sent_db) in *. clearbody l. refine (proj2 (in_map_iff _ _ _) (ex_intro _ x (conj _ Hx))).
  cbv beta. rewrite Hc. reflexivity.
Defined.
