(* ===== verification/Registry.v ===== *)
(** The registry of applications: OAuth clients, launcher cards and connectors
    ([store/store.go]), the record that joins them ([store/app_registry.go]),
    the checks of [store/app_access.go] on a link, settings, and pairing a
    connector ([sync/sync.go]).

    The triggers of [migrateAppRegistry] and the cascades of the foreign keys are
    written out at the statements that fire them. *)
From stdpp Require Import sorting.
From S2P Require Import Prelude Schema Access Sample Sessions Tokens Outbox AppAccess Directory Crypto Net ReconcileJobs Dispatch.

Open Scope string_scope.
Open Scope Z_scope.

(** ** References *)

(** The three columns of a record, one per source table. *)
Inductive Ref := RefClient | RefLauncher | RefSystem.
#[global] Instance Ref_eq_dec : EqDecision Ref.
Proof. solve_decision. Defined.

Definition ref (k : Ref) (a : AppRecord) : option string :=
  match k with RefClient => a_ClientID a | RefLauncher => a_LauncherID a | RefSystem => a_SystemID a end.
Definition set_ref (k : Ref) (v : option string) (a : AppRecord) : AppRecord :=
  match k with RefClient => set_a_ClientID v a | RefLauncher => set_a_LauncherID v a | RefSystem => set_a_SystemID v a end.

Definition refers (k : Ref) (source : string) (a : AppRecord) : bool := opt_test (String.eqb source) (ref k a).

(** The columns of [INSERT INTO app_registry(id,column)] left to their defaults. *)
Definition new_app_record (id : string) : AppRecord :=
  MkAppRecord (MkAppAuthenticationPolicy "reuse" 0 "password" 0 0 0) 1 0 false false "assigned_only" true false id 1 None None None.

(** The insert; each reference column is UNIQUE. *)
Definition insert_app (a : AppRecord) : STx unit :=
  d <- tx_get ;;
  tx_guard (forallb (fun k => match ref k a with Some s => negb (exists_where (refers k s) (app_registry d)) | None => true end)
    [RefClient; RefLauncher; RefSystem]) ErrConstraint ;;;
  insert_row app_registry on_app_registry (a_ID a) a.

(** Trigger [registry_insert_*]: a new source gets a record of its own. *)
Definition registry_insert (k : Ref) (rid source : string) : STx unit := insert_app (set_ref k (Some source) (new_app_record rid)).

(** Deleting a record takes its assignments, roles, requests and owners with it. *)
Definition delete_app (id : string) (d : DB) : DB :=
  let roles := map fst (List.filter (fun kv : string * AppRole => ro_AppID kv.2 =?s id) (map_to_list (app_roles d))) in
  let d := fold_left (fun d role => delete_role role d) roles d in
  let d := on_app_user_assignments (filter (fun kv : (string * string) * option Z => kv.1.1 <> id)) d in
  let d := on_app_group_assignments (filter (fun a : string * string => a.1 <> id)) d in
  let d := on_access_requests (delete_where (fun r => ar_AppID r =?s id)) d in
  let d := on_admin_delegations (filter (fun k : string * string * string => ~ (k.1.2 = "app_owner" /\ k.2 = id))) d in
  on_app_registry (delete id) d.

Definition unreferenced (a : AppRecord) : bool := is_null (a_ClientID a) && is_null (a_LauncherID a) && is_null (a_SystemID a).

(** Trigger [registry_delete_*], the foreign key's SET NULL, and trigger
    [registry_cleanup_*]. *)
Definition registry_delete (k : Ref) (source : string) (d : DB) : DB :=
  let d := on_app_registry (update_where (refers k source) (fun a => set_ref k None (set_a_Revision (a_Revision a + 1) a))) d in
  fold_left (fun d id => delete_app id d)
    (map fst (List.filter (fun kv : string * AppRecord => unreferenced kv.2) (map_to_list (app_registry d)))) d.

Section registry.
Context `{Codec}.

(** ** OAuth clients *)

(** An absent list of logout redirects is the empty list. *)
Definition logout_uris (c : OAuthClient) : option (list string) :=
  match oc_PostLogoutRedirectURIs c with None => Some [] | l => l end.

Definition stored_client (created : Z) (c : OAuthClient) : OAuthClient :=
  MkOAuthClient (oc_ID c) (oc_ClientName c) (oc_ClientType c) (oc_ClientSecretHash c) (oc_RedirectURIs c) (oc_AllowedScopes c) (logout_uris c)
    (oc_BackchannelLogoutURI c) (oc_LaunchURL c) (oc_Description c) (oc_IconName c) (oc_LauncherName c) (oc_LauncherAudience c)
    (oc_Enabled c) created.

Definition client_types : list string := ["public"; "confidential"].

Definition CreateOAuthClient (rid : string) (c : OAuthClient) (audit : option AuditEvent) (now : Z) : DB -> (StoreError + unit) * DB :=
  auditedTx audit now (
    tx_guard (one_of (oc_ClientType c) client_types) ErrConstraint ;;;
    insert_row oauth_clients on_oauth_clients (oc_ID c) (stored_client now c) ;;;
    registry_insert RefClient rid (oc_ID c)).

Definition client_le (a b : OAuthClient) : Prop := String.ltb (oc_ClientName b) (oc_ClientName a) = false.
#[local] Instance client_le_dec a b : Decision (client_le a b) := bool_eq_dec _ _.
Definition ListOAuthClients (d : DB) : list OAuthClient := merge_sort client_le (map snd (map_to_list (oauth_clients d))).

(** Disabling a client, or an edit that takes authority away, revokes every
    token it issued. *)
Definition UpdateOAuthClientWithAudit (eid : string -> string -> string) (c : OAuthClient) (revokeTokens : bool) (audit : option AuditEvent)
    (now : Z) : DB -> (StoreError + unit) * DB :=
  commit (
    d <- tx_get ;;
    tx_guard (is_null (oauth_clients d !! oc_ID c) || one_of (oc_ClientType c) client_types) ErrConstraint ;;;
    tx_set (on_oauth_clients (alter (fun old => stored_client (oc_CreatedAt old) c) (oc_ID c))) ;;;
    (if revokeTokens || negb (oc_Enabled c) then revokeClientTokensTx (oc_ID c) now else tx_ret tt) ;;;
    reconcileProvisioningTx eid now ;;;
    recordAuditTx audit now).

Definition UpdateOAuthClient (eid : string -> string -> string) (c : OAuthClient) (now : Z) : DB -> (StoreError + unit) * DB :=
  UpdateOAuthClientWithAudit eid c false None now.

(** The row goes with its codes, its logout deliveries and its reference. *)
Definition delete_client (id : string) (d : DB) : DB :=
  let d := on_oauth_clients (delete id) d in
  let d := on_authorization_codes (delete_where (fun c => c_ClientID c =?s id)) d in
  let d := on_logout_deliveries (delete_where (fun l => ld_ClientID l =?s id)) d in
  registry_delete RefClient id d.

Definition DeleteOAuthClient (eid : string -> string -> string) (id : string) (audit : option AuditEvent) (now : Z) : DB -> (StoreError + bool) * DB :=
  commit (
    d <- tx_get ;;
    if is_null (oauth_clients d !! id) then tx_ret false else
    tx_set (delete_client id) ;;;
    revokeClientTokensTx id now ;;;
    reconcileProvisioningTx eid now ;;;
    recordAuditTx audit now ;;;
    tx_ret true).

(** ** Launcher cards *)

Definition set_ap_CreatedAt (t : Z) (a : Application) : Application :=
  MkApplication (ap_ID a) (ap_Name a) (ap_URL a) (ap_IconName a) (ap_Description a) (ap_SortOrder a) (ap_Enabled a) t.

Definition CreateApplication (rid : string) (app : Application) (audit : option AuditEvent) (now : Z) : DB -> (StoreError + unit) * DB :=
  auditedTx audit now (
    insert_row applications on_applications (ap_ID app) (set_ap_CreatedAt now app) ;;;
    registry_insert RefLauncher rid (ap_ID app)).

Definition GetApplicationByID (id : string) (d : DB) : option Application := applications d !! id.

Definition card_le (a b : Application) : Prop :=
  ((ap_SortOrder a <? ap_SortOrder b) || ((ap_SortOrder a =? ap_SortOrder b) && negb (String.ltb (ap_Name b) (ap_Name a)))) = true.
#[local] Instance card_le_dec a b : Decision (card_le a b) := bool_eq_dec _ _.
Definition ListApplications (d : DB) : list Application := merge_sort card_le (map snd (map_to_list (applications d))).

Definition UpdateApplication (app : Application) (audit : option AuditEvent) (now : Z) : DB -> (StoreError + unit) * DB :=
  auditedTx audit now (tx_set (on_applications (alter (fun old => set_ap_CreatedAt (ap_CreatedAt old) app) (ap_ID app)))).

Definition DeleteApplication (id : string) (audit : option AuditEvent) (now : Z) : DB -> (StoreError + bool) * DB :=
  commit (
    d <- tx_get ;;
    if is_null (applications d !! id) then tx_ret false else
    tx_set (fun d => registry_delete RefLauncher id (on_applications (delete id) d)) ;;;
    recordAuditTx audit now ;;;
    tx_ret true).

Definition CreateLauncherIcon (icon : LauncherIcon) (audit : option AuditEvent) (now : Z) : DB -> (StoreError + unit) * DB :=
  auditedTx audit now
    (insert_row launcher_icons on_launcher_icons (ic_ID icon) (MkLauncherIcon (ic_ID icon) (ic_ContentType icon) (ic_Data icon) now)).

Definition GetLauncherIcon (id : string) (d : DB) : option LauncherIcon := launcher_icons d !! id.

(** A card or a client that names the image. *)
Definition icon_used (name : string) (d : DB) : bool :=
  exists_where (fun a => ap_IconName a =?s name) (applications d) || exists_where (fun c => oc_IconName c =?s name) (oauth_clients d).

Definition icon_prefix : string := "icon:".
Definition DeleteLauncherIconIfUnused (iconName : string) (d : DB) : DB :=
  if icon_used iconName d then d
  else on_launcher_icons (delete (match drop_prefix icon_prefix iconName with Some id => id | None => iconName end)) d.

Definition orphaned (olderThan now : Z) (d : DB) (i : LauncherIcon) : bool :=
  (ic_CreatedAt i <? now - olderThan) && negb (icon_used (String.append icon_prefix (ic_ID i)) d).
Definition DeleteOrphanedLauncherIcons (olderThan now : Z) (d : DB) : Z * DB :=
  (count_where (orphaned olderThan now d) (launcher_icons d), on_launcher_icons (delete_where (orphaned olderThan now d)) d).

(** ** Connectors *)

Definition system_statuses : list string := ["active"; "failing"; "disabled"].

(** The insert names neither the sync instant nor the group, reconciliation and
    hold settings. *)
Definition CreatePairedSystem (rid : string) (ps : PairedSystem) (audit : option AuditEvent) (now : Z) : DB -> (StoreError + unit) * DB :=
  auditedTx audit now (
    tx_guard (one_of (ps_Status ps) system_statuses) ErrConstraint ;;;
    insert_row paired_systems on_paired_systems (ps_ID ps) (MkPairedSystem (ps_ID ps) (ps_Name ps) (ps_SystemType ps) (ps_Description ps)
      (ps_IconURL ps) (ps_CallbackURL ps) (ps_HMACSecretEncrypted ps) (ps_Status ps) None now false 0 false) ;;;
    registry_insert RefSystem rid (ps_ID ps)).

Definition GetPairedSystemByID (id : string) (d : DB) : option PairedSystem := paired_systems d !! id.

Definition system_le (a b : PairedSystem) : Prop := (ps_CreatedAt a <=? ps_CreatedAt b) = true.
#[local] Instance system_le_dec a b : Decision (system_le a b) := bool_eq_dec _ _.
Definition ListAllPairedSystems (d : DB) : list PairedSystem := merge_sort system_le (map snd (map_to_list (paired_systems d))).

(** The row goes with its state, jobs, mappings and fences, and its queued work. *)
Definition delete_system (id : string) (d : DB) : DB :=
  let d := on_paired_systems (delete id) d in
  let d := on_sync_resource_state (filter (fun kv : (string * string) * SyncResourceState => kv.1.1 <> id)) d in
  let d := on_sync_reconcile_jobs (delete_where (fun j => j_SystemID j =?s id)) d in
  let d := on_scim_user_links (filter (fun kv : (string * string) * SCIMLink => kv.1.1 <> id)) d in
  let d := on_sync_delivery_attempts (filter (fun kv : (string * string) * SyncDeliveryAttempt => kv.1.1 <> id)) d in
  let d := registry_delete RefSystem id d in
  delete_events (fun e => e_SystemID e =?s id) d.

Definition DeletePairedSystem (id : string) (audit : option AuditEvent) (now : Z) : DB -> (StoreError + bool) * DB :=
  commit (
    d <- tx_get ;;
    if is_null (paired_systems d !! id) then tx_ret false else
    tx_set (delete_system id) ;;;
    recordAuditTx audit now ;;;
    tx_ret true).

(** ** Joining records *)

Definition assigned (app : string) (d : DB) : bool :=
  existsb (fun kv : (string * string) * option Z => kv.1.1 =?s app) (map_to_list (app_user_assignments d)) ||
  existsb (fun a : string * string => a.1 =?s app) (elements (app_group_assignments d)).
Definition has_roles (app : string) (d : DB) : bool := exists_where (fun r => ro_AppID r =?s app) (app_roles d).

(** Two records join only when nothing would change for anyone. *)
Definition ensureAppLinkPoliciesTx (target source : AppRecord) : STx unit :=
  d <- tx_get ;;
  tx_guard ((a_AccessMode target =?s a_AccessMode source) && eqb (a_Enabled target) (a_Enabled source) &&
    policy_eqb (a_Authentication target) (a_Authentication source)) ErrAppLinkConflict ;;;
  tx_guard (negb (assigned (a_ID target) d || assigned (a_ID source) d)) ErrAppLinkConflict ;;;
  tx_guard (negb (has_roles (a_ID target) d || has_roles (a_ID source) d)) ErrAppLinkConflict ;;;
  tx_guard (eqb (a_LegacyRoleClaim target) (a_LegacyRoleClaim source) && eqb (a_GroupsClaim target) (a_GroupsClaim source)) ErrAppLinkConflict.

Definition both (k : Ref) (a b : AppRecord) : bool := negb (is_null (ref k a)) && negb (is_null (ref k b)).
Definition pick (k : Ref) (a b : AppRecord) : option string := match ref k a with Some s => Some s | None => ref k b end.

Definition joined (target source : AppRecord) : AppRecord :=
  set_a_Revision (a_Revision target + 1) (set_ref RefClient (pick RefClient target source)
    (set_ref RefLauncher (pick RefLauncher target source) (set_ref RefSystem (pick RefSystem target source) target))).

(** The target keeps its identity and takes over the source's connections. *)
Definition LinkAppRecords (eid : string -> string -> string) (targetID sourceID : string) (targetRevision sourceRevision : Z)
    (audit : option AuditEvent) (details : AppRecord -> AppRecord -> Json) (now : Z) : DB -> (StoreError + unit) * DB :=
  commit (
    tx_guard (targetID <>?s sourceID) ErrAppLinkConflict ;;;
    target <- lockAppRecord targetID targetRevision ;;
    source <- lockAppRecord sourceID sourceRevision ;;
    ensureAppLinkPoliciesTx target source ;;;
    tx_guard (negb (both RefClient target source || both RefLauncher target source || both RefSystem target source)) ErrAppLinkConflict ;;;
    tx_set (delete_app sourceID) ;;;
    tx_set (on_app_registry <[targetID := joined target source]>) ;;;
    reconcileProvisioningTx eid now ;;;
    recordAuditTx (appRegistryAudit audit (details target source)) now).

Definition ref_of_kind (kind : string) : option Ref :=
  if kind =?s "client" then Some RefClient else if kind =?s "launcher" then Some RefLauncher
  else if kind =?s "system" then Some RefSystem else None.

Definition refs_held (a : AppRecord) : list Ref := List.filter (fun k => negb (is_null (ref k a))) [RefClient; RefLauncher; RefSystem].

(** The copied columns; the role revision and the request setting start afresh. *)
Definition split_copy (newID : string) (k : Ref) (a : AppRecord) : AppRecord :=
  set_ref k (ref k a) (MkAppRecord (a_Authentication a) (a_AuthenticationRevision a) 0 (a_LegacyRoleClaim a) (a_GroupsClaim a) (a_AccessMode a)
    (a_Enabled a) false newID 1 None None None).

Definition copy_assignments (from to : string) (d : DB) : DB :=
  let users := List.filter (fun kv : (string * string) * option Z => kv.1.1 =?s from) (map_to_list (app_user_assignments d)) in
  let groups := List.filter (fun a : string * string => a.1 =?s from) (elements (app_group_assignments d)) in
  on_app_group_assignments (fun s => s ∪ list_to_set (map (fun a : string * string => (to, a.2)) groups))
    (on_app_user_assignments (fun t => list_to_map (map (fun kv : (string * string) * option Z => ((to, kv.1.2), kv.2)) users) ∪ t) d).

(** One connection leaves for a record of its own with the same access. *)
Definition UnlinkAppRecord (eid : string -> string -> string) (newID id kind : string) (revision : Z) (audit : option AuditEvent)
    (details : AppRecord -> Json) (now : Z) : DB -> (StoreError + string) * DB :=
  commit (
    match ref_of_kind kind with
    | None => tx_fail ErrAppLinkConflict
    | Some k =>
      a <- lockAppRecord id revision ;;
      tx_guard (negb (length (refs_held a) <? 2)%nat && negb (is_null (ref k a))) ErrAppLinkConflict ;;;
      tx_set (on_app_registry <[id := set_ref k None (set_a_Revision (a_Revision a + 1) a)]>) ;;;
      insert_app (split_copy newID k a) ;;;
      d <- tx_get ;;
      tx_guard (negb (has_roles id d)) ErrAppLinkConflict ;;;
      tx_set (copy_assignments id newID) ;;;
      reconcileProvisioningTx eid now ;;;
      recordAuditTx (appRegistryAudit audit (details a)) now ;;;
      tx_ret newID
    end).

(** ** Settings *)

Definition getSetting (key : string) : STx Json :=
  d <- tx_get ;; match system_settings d !! key with Some v => tx_ret v | None => tx_fail ErrNotFound end.
Definition setSetting (key : string) (value : Json) : STx unit := tx_set (on_system_settings <[key := value]>).
Definition deleteSetting (key : string) : STx unit := tx_set (on_system_settings (delete key)).

Definition EditSettings (audit : option AuditEvent) (fn : STx unit) (now : Z) : DB -> (StoreError + unit) * DB := auditedTx audit now fn.

(** The audit trail's retention; the queue for the alert rules cascades. *)
Definition DeleteAuditEventsOlderThan (cutoff : Z) (d : DB) : DB :=
  let d' := on_audit_events (delete_where (fun e => ae_CreatedAt e <? cutoff)) d in
  on_alert_queue (filter (fun kv : string * Z => is_Some (audit_events d' !! kv.1))) d'.

(** The organisation's display name and logo. *)
Definition BrandingNameSetting : string := "branding_org_name".
Definition BrandingLogoSetting : string := "branding_logo".

Definition SetBrandingName (name : string) (audit : option AuditEvent) (now : Z) : DB -> (StoreError + unit) * DB :=
  EditSettings audit (if name =?s "" then deleteSetting BrandingNameSetting else setSetting BrandingNameSetting (JStr name)) now.

Definition SetBrandingLogo (contentType : string) (data : list Z) (audit : option AuditEvent) (now : Z) : DB -> (StoreError + unit) * DB :=
  EditSettings audit (match data with
    | [] => deleteSetting BrandingLogoSetting
    | _ => setSetting BrandingLogoSetting (JStr (String.append contentType (String.append ";base64," (string_of (b64_encode StdEncoding data)))))
    end) now.

Record Branding := MkBranding { br_Name : string; br_LogoType : string; br_Logo : list Z }.

Definition setting_text (key : string) (d : DB) : string := match system_settings d !! key with Some (JStr s) => s | _ => "" end.

(** [strings.Cut] at a separator. *)
Fixpoint cut_at (sep s : string) : option (string * string) :=
  if String.prefix sep s then Some ("", String.substring (String.length sep) (String.length s - String.length sep) s) else
  match s with
  | "" => None
  | String c s' => match cut_at sep s' with Some (a, b) => Some (String c a, b) | None => None end
  end.

(** [None]: the stored logo does not decode. *)
Definition GetBranding (d : DB) : option Branding :=
  let name := setting_text BrandingNameSetting d in
  match cut_at ";base64," (setting_text BrandingLogoSetting d) with
  | None => Some (MkBranding name "" [])
  | Some (contentType, encoded) =>
    match b64_decode StdEncoding (bytes_of encoded) with
    | Some data => Some (MkBranding name contentType data)
    | None => None
    end
  end.

(** The first eight bytes of the logo's digest. *)
Definition LogoVersion (b : Branding) : string :=
  match br_Logo b with [] => "" | data => string_of (hex_encode (firstn 8 (Sum256 data))) end.
End registry.

(** ** Pairing a connector *)

Section pairing.
Context `{Codec} `{AEAD} `{Far}.

Record CreateSystemRequest := MkCreateSystemRequest { cs_Name : string; cs_SystemType : string; cs_Description : string; cs_IconURL : string;
  cs_CallbackURL : string; cs_BearerToken : string }.

(** The texts of the URL policy's refusals are not kept. *)
Definition refused_url : StoreError := ErrInput "callbackUrl".

(** What a pairing draws: the connector's and its record's identifiers, the
    sealing nonce, and the bytes of a webhook's signing secret. *)
Record PairDraws := MkPairDraws { pd_id : string; pd_rid : string; pd_nonce : list Z; pd_secret : list Z }.

(** The credential to store: a bearer token given, or a generated secret. *)
Definition pairing_credential (dr : PairDraws) (kind callback token : string) : StoreError + string :=
  if kind =?s "scim" then
    match scim_config_error callback token with
    | Some ConfigURL => inl (ErrInput (lib_text ErrInsecureURL))
    | Some ConfigToken => inl (ErrInput "bearer token must contain 1-8192 visible ASCII characters without spaces")
    | None => inr token
    end
  else if token <>?s "" then inl (ErrInput "suite webhooks use a generated signing secret")
  else inr (string_of (hex_encode (pd_secret dr))).

(** The stored connector, and the secret shown once for a webhook. *)
Definition CreateSystem (url_parse : string -> option ParsedURL) (AllowPrivate AllowLoopback : bool) (key : list Z) (dr : PairDraws)
    (req : CreateSystemRequest) (audit : option (PairedSystem -> AuditEvent)) (now : Z) (d : DB) : (StoreError + (PairedSystem * string)) * DB :=
  let name := if cs_Name req =?s "" then cs_SystemType req else cs_Name req in
  if name =?s "" then (inl (ErrInput "name is required"), d) else
  let kind := if cs_SystemType req =?s "" then "scim" else cs_SystemType req in
  match ValidateURL url_parse AllowPrivate AllowLoopback (cs_CallbackURL req) with
  | Some _ => (inl refused_url, d)
  | None =>
    if negb (supportedSystemType kind) then (inl (ErrInput "select scim or suite_webhook explicitly for a custom service"), d) else
    match pairing_credential dr kind (cs_CallbackURL req) (cs_BearerToken req) with
    | inl e => (inl e, d)
    | inr token =>
      match Seal key SealConnector (pd_id dr) (bytes_of token) (pd_nonce dr) with
      | None => (inl (ErrText "failed to encrypt bearer token"), d)
      | Some encrypted =>
        let ps := MkPairedSystem (pd_id dr) name kind (cs_Description req) (cs_IconURL req) (cs_CallbackURL req) encrypted "active" None now false 0 false in
        match CreatePairedSystem (pd_rid dr) ps ((fun f => f ps) <$> audit) now d with
        | (inl e, d) => (inl e, d)
        | (inr _, d) => (inr (ps, if kind =?s "scim" then "" else token), d)
        end
      end
    end
  end.
End pairing.

(** ** Facts *)

(** Which sources exist. *)
Definition live_source (d : DB) (k : Ref) (s : string) : Prop :=
  match k with
  | RefClient => is_Some (oauth_clients d !! s)
  | RefLauncher => is_Some (applications d !! s)
  | RefSystem => is_Some (paired_systems d !! s)
  end.

(** The registry is the directory of sources: records under their own
    identifier, each with at least one connection, every connection to a live
    source, every live source in exactly one record. *)
Record records_ok (live : Ref -> string -> Prop) (r : gmap string AppRecord) : Prop := {
  ro_keyed id a : r !! id = Some a -> a_ID a = id;
  ro_live id a k s : r !! id = Some a -> ref k a = Some s -> live k s;
  ro_unique id1 id2 a1 a2 k s : r !! id1 = Some a1 -> r !! id2 = Some a2 -> ref k a1 = Some s -> ref k a2 = Some s -> id1 = id2;
  ro_held id a : r !! id = Some a -> unreferenced a = false;
  ro_total k s : live k s -> exists id a, r !! id = Some a /\ ref k a = Some s }.

Definition registry_ok (d : DB) : Prop := records_ok (live_source d) (app_registry d).

Lemma records_ok_iff live live' r : (forall k s, live k s <-> live' k s) -> records_ok live r -> records_ok live' r.
Proof.
  intros Hl [G1 G2 G3 G4 G5]. split; [done| |done|done|].
  - intros id a k s Ha Hr. apply Hl. by eapply G2.
  - intros k s Hs. apply G5. by apply Hl.
Qed.

Lemma ref_set k k' v a : ref k (set_ref k' v a) = if bool_decide (k = k') then v else ref k a.
Proof. by destruct k, k'. Qed.

Lemma refers_true k s a : refers k s a = true <-> ref k a = Some s.
Proof.
  unfold refers. destruct (ref k a) as [s'|]; cbn; [|done]. rewrite streqb_true. split; congruence.
Qed.

Lemma unreferenced_true a : unreferenced a = true <-> forall k, ref k a = None.
Proof.
  unfold unreferenced. split.
  - intros Hu k. destruct k; cbn; destruct (a_ClientID a), (a_LauncherID a), (a_SystemID a); done.
  - intros Hn. pose proof (Hn RefClient) as G1. pose proof (Hn RefLauncher) as G2. pose proof (Hn RefSystem) as G3. cbn in *. by rewrite G1, G2, G3.
Qed.

Lemma held_by k s a : ref k a = Some s -> unreferenced a = false.
Proof. intros Hr. apply not_true_iff_false. rewrite unreferenced_true. intros Hn. by rewrite Hn in Hr. Qed.

(** A new source in a record of its own. *)
Lemma records_insert live r k s rid a : records_ok live r -> ~ live k s -> r !! rid = None -> a_ID a = rid ->
  (forall k', ref k' a = if bool_decide (k' = k) then Some s else None) ->
  records_ok (fun k' s' => live k' s' \/ (k' = k /\ s' = s)) (<[rid := a]> r).
Proof.
  intros [G1 G2 G3 G4 G5] Hn Hfree Hid Href. split.
  - intros id b Hb. apply lookup_insert_Some in Hb as [[<- <-]|[_ Hb]]; [done|by apply G1].
  - intros id b k' s' Hb Hr. apply lookup_insert_Some in Hb as [[<- <-]|[_ Hb]]; [|left; by eapply G2].
    rewrite Href in Hr. case_bool_decide; [|done]. right. by injection Hr as ->.
  - intros id1 id2 a1 a2 k' s' H1' H2' R1 R2. apply lookup_insert_Some in H1' as [[<- <-]|[N1 H1']], H2' as [[<- <-]|[N2 H2']]; [done| | |by eapply G3].
    + exfalso. apply Hn. rewrite Href in R1. case_bool_decide; [|done]. subst. injection R1 as ->. by eapply G2.
    + exfalso. apply Hn. rewrite Href in R2. case_bool_decide; [|done]. subst. injection R2 as ->. by eapply G2.
  - intros id b Hb. apply lookup_insert_Some in Hb as [[<- <-]|[_ Hb]]; [|by eapply G4].
    apply (held_by k s). rewrite Href. by rewrite bool_decide_true.
  - intros k' s' [Hl|[-> ->]].
    + destruct (G5 k' s' Hl) as (id & b & Hb & Hr). exists id, b. split; [|done]. rewrite lookup_insert_ne; [done|]. congruence.
    + exists rid, a. rewrite lookup_insert_eq, Href. by rewrite bool_decide_true.
Qed.

(** A source gone, with the records it leaves empty. *)
Definition dropped (k : Ref) (s : string) (r : gmap string AppRecord) : gmap string AppRecord :=
  delete_where unreferenced (update_where (refers k s) (fun a => set_ref k None (set_a_Revision (a_Revision a + 1) a)) r).

Lemma ref_revision k v a : ref k (set_a_Revision v a) = ref k a.
Proof. by destruct k. Qed.

Lemma dropped_Some k s r id a : dropped k s r !! id = Some a <->
  exists b, r !! id = Some b /\ unreferenced a = false /\
    a = if refers k s b then set_ref k None (set_a_Revision (a_Revision b + 1) b) else b.
Proof.
  unfold dropped. rewrite lookup_delete_where_Some, lookup_update_where_Some. naive_solver.
Qed.

Lemma records_drop live r k s : records_ok live r -> records_ok (fun k' s' => live k' s' /\ ~ (k' = k /\ s' = s)) (dropped k s r).
Proof.
  intros [G1 G2 G3 G4 G5].
  assert (forall id a k' s', dropped k s r !! id = Some a -> ref k' a = Some s' ->
    exists b, r !! id = Some b /\ ref k' b = Some s' /\ ~ (k' = k /\ s' = s)) as Hback.
  { intros id a k' s' Ha Hr. apply dropped_Some in Ha as (b & Hb & _ & ->). exists b. split; [done|].
    destruct (refers k s b) eqn:Er.
    - rewrite ref_set, ref_revision in Hr. case_bool_decide; [done|]. split; [done|]. intros [-> _]. done.
    - split; [done|]. intros [-> ->]. apply not_true_iff_false in Er. apply Er. by apply refers_true. }
  split.
  - intros id a Ha. apply dropped_Some in Ha as (b & Hb & _ & ->). apply G1 in Hb. destruct (refers k s b); [|done]. by destruct k.
  - intros id a k' s' Ha Hr. destruct (Hback _ _ _ _ Ha Hr) as (b & Hb & Hrb & Hn). split; [by eapply G2|done].
  - intros id1 id2 a1 a2 k' s' H1' H2' R1 R2. destruct (Hback _ _ _ _ H1' R1) as (b1 & Hb1 & Hr1 & _).
    destruct (Hback _ _ _ _ H2' R2) as (b2 & Hb2 & Hr2 & _). by eapply G3.
  - intros id a Ha. by apply dropped_Some in Ha as (b & _ & Hu & _).
  - intros k' s' [Hl Hn]. destruct (G5 k' s' Hl) as (id & b & Hb & Hr).
    set (a := if refers k s b then set_ref k None (set_a_Revision (a_Revision b + 1) b) else b).
    assert (ref k' a = Some s') as Ha.
    { unfold a. destruct (refers k s b) eqn:Er; [|done]. rewrite ref_set, ref_revision. case_bool_decide as Hk; [|done]. subst k'.
      apply refers_true in Er. exfalso. apply Hn. split; congruence. }
    exists id, a. split; [|done]. apply dropped_Some. exists b. split; [done|]. split; [by eapply held_by|done].
Qed.

(** Moving a connection: [to] takes what [from] gave up. *)
Lemma ref_joined k target source : ref k (joined target source) = pick k target source.
Proof. by destruct k. Qed.

Lemma records_join live r t s target source : records_ok live r -> t <> s -> r !! t = Some target -> r !! s = Some source ->
  (forall k, both k target source = false) -> records_ok live (<[t := joined target source]> (delete s r)).
Proof.
  intros [G1 G2 G3 G4 G5] Hne Ht Hs Hboth.
  assert (forall k x, ref k (joined target source) = Some x -> ref k target = Some x \/ ref k source = Some x) as Hpick.
  { intros k x. rewrite ref_joined. unfold pick. destruct (ref k target); auto. }
  assert (forall id a, <[t := joined target source]> (delete s r) !! id = Some a ->
    (id = t /\ a = joined target source) \/ (id <> t /\ id <> s /\ r !! id = Some a)) as Hcase.
  { intros id a Ha. apply lookup_insert_Some in Ha as [[<- <-]|[N Ha]]; [by left|right]. apply lookup_delete_Some in Ha as [N2 Ha].
    split; [congruence|]. split; [congruence|done]. }
  split.
  - intros id a Ha. apply Hcase in Ha as [[-> ->]|(_ & _ & Ha)]; [|by apply G1]. exact (G1 t target Ht).
  - intros id a k x Ha Hr. apply Hcase in Ha as [[-> ->]|(_ & _ & Ha)]; [|by eapply G2]. apply Hpick in Hr as [Hr|Hr]; [by eapply (G2 t)|by eapply (G2 s)].
  - assert (forall id a k x, id <> t -> id <> s -> r !! id = Some a -> ref k a = Some x -> ref k (joined target source) <> Some x) as Hno.
    { intros id a k x N1 N2 Ha R1 R2. apply Hpick in R2 as [R2|R2]; [apply N1; by eapply G3|apply N2; by eapply G3]. }
    intros id1 id2 a1 a2 k x H1' H2' R1 R2. apply Hcase in H1' as [[-> ->]|(N1 & M1 & H1')], H2' as [[-> ->]|(N2 & M2 & H2')]; [done| | |by eapply G3].
    + by destruct (Hno id2 a2 k x N2 M2 H2' R2).
    + by destruct (Hno id1 a1 k x N1 M1 H1' R1).
  - intros id a Ha. apply Hcase in Ha as [[-> ->]|(_ & _ & Ha)]; [|by eapply G4]. pose proof (G4 t _ Ht) as Hu. apply not_true_iff_false in Hu.
    apply not_true_iff_false. intros Hj. apply Hu. rewrite unreferenced_true in *. intros k. specialize (Hj k). rewrite ref_joined in Hj.
    unfold pick in Hj. by destruct (ref k target).
  - intros k x Hl. destruct (G5 k x Hl) as (id & a & Ha & Hr). destruct (decide (id = t)) as [->|N1].
    + exists t, (joined target source). rewrite lookup_insert_eq, ref_joined. split; [done|]. rewrite Ht in Ha. injection Ha as ->. unfold pick. by rewrite Hr.
    + destruct (decide (id = s)) as [->|N2].
      * exists t, (joined target source). rewrite lookup_insert_eq, ref_joined. split; [done|]. rewrite Hs in Ha. injection Ha as ->.
        specialize (Hboth k). unfold both in Hboth. unfold pick. rewrite Hr in *. by destruct (ref k target).
      * exists id, a. split; [|done]. by rewrite lookup_insert_ne, lookup_delete_ne by congruence.
Qed.

Lemma records_split live r id newID k a b : records_ok live r -> r !! id = Some a -> r !! newID = None ->
  (2 <= length (refs_held a))%nat -> a_ID b = newID -> (forall k', ref k' b = if bool_decide (k' = k) then ref k a else None) -> is_Some (ref k a) ->
  records_ok live (<[newID := b]> (<[id := set_ref k None (set_a_Revision (a_Revision a + 1) a)]> r)).
Proof.
  intros [G1 G2 G3 G4 G5] Ha Hfree Htwo Hid Href [s Hs]. set (a' := set_ref k None _).
  assert (newID <> id) as Hne by congruence.
  assert (forall k', ref k' a' = if bool_decide (k' = k) then None else ref k' a) as Ha' by (intros k'; unfold a'; by rewrite ref_set, ref_revision).
  assert (forall i c, <[newID := b]> (<[id := a']> r) !! i = Some c -> (i = newID /\ c = b) \/ (i = id /\ c = a') \/ (i <> id /\ r !! i = Some c)) as Hcase.
  { intros i c Hc. apply lookup_insert_Some in Hc as [[<- <-]|[_ Hc]]; [by left|]. apply lookup_insert_Some in Hc as [[<- <-]|[N Hc]]; auto. }
  assert (forall i c k' s', <[newID := b]> (<[id := a']> r) !! i = Some c -> ref k' c = Some s' ->
    exists j e, r !! j = Some e /\ ref k' e = Some s' /\ i = (if bool_decide (j = id /\ k' = k) then newID else j)) as Hback.
  { intros i c k' s' Hc Hr. apply Hcase in Hc as [[-> ->]|[[-> ->]|[N Hc]]].
    - rewrite Href in Hr. case_bool_decide; [|done]. subst k'. exists id, a. by rewrite bool_decide_true.
    - rewrite Ha' in Hr. case_bool_decide; [done|]. exists id, a. rewrite bool_decide_false by tauto. done.
    - exists i, c. rewrite bool_decide_false by tauto. done. }
  split.
  - intros i c Hc. apply Hcase in Hc as [[-> ->]|[[-> ->]|[_ Hc]]]; [done| |by apply G1]. unfold a'. destruct k; exact (G1 id a Ha).
  - intros i c k' s' Hc Hr. destruct (Hback _ _ _ _ Hc Hr) as (j & e & He & Hre & _). by eapply G2.
  - intros i1 i2 c1 c2 k' s' C1 C2 R1 R2. destruct (Hback _ _ _ _ C1 R1) as (j1 & e1 & E1 & Q1 & ->).
    destruct (Hback _ _ _ _ C2 R2) as (j2 & e2 & E2 & Q2 & ->). by rewrite (G3 _ _ _ _ _ _ E1 E2 Q1 Q2).
  - intros i c Hc. apply Hcase in Hc as [[-> ->]|[[-> ->]|[_ Hc]]]; [| |by eapply G4].
    + apply (held_by k s). by rewrite Href, bool_decide_true.
    + apply not_true_iff_false. rewrite unreferenced_true. intros Hn. assert (forall k', k' <> k -> ref k' a = None) as Hother.
      { intros k' Hk. specialize (Hn k'). rewrite Ha' in Hn. by rewrite bool_decide_false in Hn. }
      unfold refs_held in Htwo. destruct k; cbn in Htwo; pose proof (Hother RefClient); pose proof (Hother RefLauncher); pose proof (Hother RefSystem); cbn in *;
        repeat match goal with G : _ <> _ -> _ = None |- _ => rewrite G in Htwo by done; clear G end; cbn in Htwo;
        repeat case_match; cbn in Htwo; lia.
  - intros k' s' Hl. destruct (G5 k' s' Hl) as (j & e & He & Hr). destruct (decide (j = id)) as [->|N].
    + rewrite Ha in He. injection He as <-. destruct (decide (k' = k)) as [->|Nk].
      * exists newID, b. rewrite lookup_insert_eq, Href. by rewrite bool_decide_true.
      * exists id, a'. rewrite lookup_insert_ne, lookup_insert_eq by done. rewrite Ha'. by rewrite bool_decide_false.
    + exists j, e. rewrite !lookup_insert_ne; [done|congruence|congruence].
Qed.

(** *** What a deletion reaches *)

(** The tables a record's deletion leaves alone. *)
Definition apart_from_apps (d d' : DB) : Prop :=
  oauth_clients d' = oauth_clients d /\ applications d' = applications d /\ paired_systems d' = paired_systems d /\
  issued_tokens d' = issued_tokens d /\ users d' = users d /\ sessions d' = sessions d.

Lemma apart_refl d : apart_from_apps d d.
Proof. done. Qed.
Lemma apart_trans d1 d2 d3 : apart_from_apps d1 d2 -> apart_from_apps d2 d3 -> apart_from_apps d1 d3.
Proof. unfold apart_from_apps. intros (?&?&?&?&?&?) (?&?&?&?&?&?). repeat split; congruence. Qed.

Lemma delete_roles_frame l d : let d' := fold_left (fun d role => delete_role role d) l d in
  apart_from_apps d d' /\ app_registry d' = app_registry d.
Proof.
  revert d. induction l as [|r l IH]; intros d; cbn [fold_left]; [done|]. destruct (IH (delete_role r d)) as [G1 G2]. split; [|by rewrite G2].
  eapply apart_trans; [|exact G1]. done.
Qed.

Lemma delete_app_frame id d : apart_from_apps d (delete_app id d) /\ app_registry (delete_app id d) = delete id (app_registry d).
Proof.
  unfold delete_app. cbv zeta. match goal with |- context [fold_left _ ?l d] => generalize l end. intros l. destruct (delete_roles_frame l d) as [G1 G2].
  set (d1 := fold_left _ l d) in *. clearbody d1. split; [exact G1|]. by rewrite <- G2.
Qed.

Lemma delete_apps_frame l d : let d' := fold_left (fun d id => delete_app id d) l d in
  apart_from_apps d d' /\ forall id, app_registry d' !! id = if bool_decide (id ∈ l) then None else app_registry d !! id.
Proof.
  revert d. induction l as [|i l IH]; intros d; cbn [fold_left].
  - split; [done|]. intros id. rewrite bool_decide_false; [done|]. set_solver.
  - destruct (IH (delete_app i d)) as [G1 G2], (delete_app_frame i d) as [G3 G4]. split; [by eapply apart_trans|]. intros id. rewrite G2, G4.
    destruct (decide (id = i)) as [->|N].
    + rewrite lookup_delete_eq, (bool_decide_true (i ∈ i :: l)) by set_solver. by case_bool_decide.
    + rewrite lookup_delete_ne by done. repeat case_bool_decide; set_solver.
Qed.

Lemma registry_delete_frame k s d : apart_from_apps d (registry_delete k s d) /\ app_registry (registry_delete k s d) = dropped k s (app_registry d).
Proof.
  unfold registry_delete. cbv zeta. match goal with |- context [fold_left _ ?l ?x] => set (ids := l); set (d1 := x) end.
  destruct (delete_apps_frame ids d1) as [G1 G2]. split; [exact (apart_trans _ _ _ (apart_refl d) G1)|].
  set (d2 := fold_left _ ids d1) in *. clearbody d2. apply map_eq. intros id. rewrite G2. unfold dropped.
  change (update_where _ _ (app_registry d)) with (app_registry d1). unfold delete_where.
  assert (id ∈ ids <-> exists a, app_registry d1 !! id = Some a /\ unreferenced a = true) as Hin.
  { unfold ids. rewrite list_elem_of_In, in_map_iff. split.
    - intros ([i a] & <- & Hi). apply List.filter_In in Hi as [Hi Hu]. exists a. split; [|done]. by apply elem_of_map_to_list, list_elem_of_In.
    - intros (a & Ha & Hu). exists (id, a). split; [done|]. apply List.filter_In. split; [|done]. by apply list_elem_of_In, elem_of_map_to_list. }
  destruct (app_registry d1 !! id) as [a|] eqn:Ea.
  - destruct (unreferenced a) eqn:Eu.
    + rewrite bool_decide_true by (apply Hin; eauto). symmetry. apply map_lookup_filter_None. right. intros b Hb. rewrite Ea in Hb. injection Hb as <-.
      cbn. by rewrite Eu.
    + rewrite bool_decide_false; [|intros Hi; apply Hin in Hi as (b & Hb & Hub); congruence]. symmetry. apply map_lookup_filter_Some. split; [done|].
      cbn. by rewrite Eu.
  - rewrite bool_decide_false; [|intros Hi; apply Hin in Hi as (b & Hb & _); congruence]. symmetry. apply map_lookup_filter_None. by left.
Qed.

Section facts.
Context `{Codec}.

(** *** The registry keeps its shape *)

Lemma registry_ok_same d d' : apart_from_apps d d' -> app_registry d' = app_registry d -> registry_ok d -> registry_ok d'.
Proof.
  intros (G1 & G2 & G3 & _) Hr. unfold registry_ok. rewrite Hr. apply records_ok_iff. intros [] s; cbn; by rewrite ?G1, ?G2, ?G3.
Qed.

Lemma audited_apart m q d : apart_from_apps d (audited m q d).
Proof. done. Qed.
Lemma queued_apart d d' : queued d d' -> apart_from_apps d d' /\ app_registry d' = app_registry d.
Proof. by intros (es & st & ->). Qed.

(** What closes most of these transactions: reconciling, then the audit row. *)
Lemma closing_ok eid now audit d d1 d2 u v : reconcileProvisioningTx eid now d = inr (u, d1) -> recordAuditTx audit now d1 = inr (v, d2) ->
  apart_from_apps d d2 /\ app_registry d2 = app_registry d.
Proof.
  intros Hr Ha. apply reconcile_queued in Hr as (es & st & ->). by apply recordAuditTx_inv in Ha as (m & q & ->).
Qed.

Ltac before_closing := match goal with G1 : reconcileProvisioningTx _ _ ?x = _, G2 : recordAuditTx _ _ _ = _ |- registry_ok _ =>
  let F1 := fresh "F" in let F2 := fresh "F" in
  destruct (closing_ok _ _ _ _ _ _ _ _ G1 G2) as [F1 F2]; apply (registry_ok_same x); [exact F1|exact F2|] end.

Lemma insert_app_inr a d u d' : insert_app a d = inr (u, d') ->
  app_registry d !! a_ID a = None /\ d' = on_app_registry <[a_ID a := a]> d.
Proof. unfold insert_app. intros Hr. tx_inv. by apply insert_row_inv in Hr. Qed.

Lemma registry_insert_ok k rid s d0 d u d' : registry_insert k rid s d = inr (u, d') -> registry_ok d0 -> ~ live_source d0 k s ->
  app_registry d = app_registry d0 -> (forall k' s', live_source d k' s' <-> live_source d0 k' s' \/ (k' = k /\ s' = s)) -> registry_ok d'.
Proof.
  intros Hr Hok Hn Heq Hl. apply insert_app_inr in Hr as [Hfree ->]. assert (a_ID (set_ref k (Some s) (new_app_record rid)) = rid) as Hid by by destruct k.
  rewrite Hid in *. rewrite Heq in Hfree. unfold registry_ok. eapply records_ok_iff; [intros k' s'; symmetry; exact (Hl k' s')|].
  change (records_ok (fun k' s' => live_source d0 k' s' \/ (k' = k /\ s' = s)) (<[rid := set_ref k (Some s) (new_app_record rid)]> (app_registry d))).
  rewrite Heq. apply records_insert; [done|done|done|done|]. intros k'. rewrite ref_set. case_bool_decide; [done|]. by destruct k'.
Qed.

Lemma is_Some_insert {A} (m : gmap string A) i x j : is_Some (<[i := x]> m !! j) <-> is_Some (m !! j) \/ j = i.
Proof.
  destruct (decide (j = i)) as [->|N]; [rewrite lookup_insert_eq|rewrite lookup_insert_ne by done]; [|naive_solver]. split; [by right|done].
Qed.
Lemma is_Some_delete {A} (m : gmap string A) i j : is_Some (delete i m !! j) <-> is_Some (m !! j) /\ j <> i.
Proof.
  destruct (decide (j = i)) as [->|N]; [rewrite lookup_delete_eq|rewrite lookup_delete_ne by done]; [|naive_solver].
  split; [intros [? G]; discriminate G|tauto].
Qed.

Lemma dropped_ok k s d0 d : registry_ok d0 -> app_registry d = dropped k s (app_registry d0) ->
  (forall k' s', live_source d k' s' <-> live_source d0 k' s' /\ ~ (k' = k /\ s' = s)) -> registry_ok d.
Proof.
  intros Hok Heq Hl. unfold registry_ok. rewrite Heq. eapply records_ok_iff; [intros k' s'; symmetry; exact (Hl k' s')|]. by apply records_drop.
Qed.

(** A source's insert with its record: only the new source's table is left to read. *)
Ltac created Hr Hok := match type of Hr with _ = (?r, _) => destruct r as [e|u]; [by apply commit_inl in Hr as [-> _]|] end;
  apply auditedTx_inr in Hr as (d1 & m & q & Hr & ->); tx_inv;
  match goal with G : insert_row _ _ _ _ _ = _ |- _ => apply insert_row_inv in G as [Hf ->] end;
  apply (registry_ok_same d1); [done|done|]; eapply registry_insert_ok; [exact Hr|exact Hok|let x := fresh in let Hx := fresh in intros [x Hx]; congruence|done|].

Lemma create_client_ok rid c audit now d r d' : CreateOAuthClient rid c audit now d = (r, d') -> registry_ok d -> registry_ok d'.
Proof.
  intros Hr Hok. created Hr Hok.
  intros [] s; cbn -[insert]; [|naive_solver|naive_solver]. rewrite is_Some_insert. naive_solver.
Qed.

Lemma create_card_ok rid c audit now d r d' : CreateApplication rid c audit now d = (r, d') -> registry_ok d -> registry_ok d'.
Proof.
  intros Hr Hok. created Hr Hok.
  intros [] s; cbn -[insert]; [naive_solver| |naive_solver]. rewrite is_Some_insert. naive_solver.
Qed.

Lemma create_system_ok rid c audit now d r d' : CreatePairedSystem rid c audit now d = (r, d') -> registry_ok d -> registry_ok d'.
Proof.
  intros Hr Hok. created Hr Hok.
  intros [] s; cbn -[insert]; [naive_solver|naive_solver|]. rewrite is_Some_insert. naive_solver.
Qed.

Lemma client_edit_ok c f d : registry_ok d -> registry_ok (on_oauth_clients (alter f c) d).
Proof. unfold registry_ok. apply records_ok_iff. intros [] s; cbn -[alter]; [|done|done]. by rewrite lookup_alter_is_Some. Qed.
Lemma card_edit_ok c f d : registry_ok d -> registry_ok (on_applications (alter f c) d).
Proof. unfold registry_ok. apply records_ok_iff. intros [] s; cbn -[alter]; [done| |done]. by rewrite lookup_alter_is_Some. Qed.

Lemma update_client_ok eid c rv audit now d r d' : UpdateOAuthClientWithAudit eid c rv audit now d = (r, d') -> registry_ok d -> registry_ok d'.
Proof.
  intros Hr Hok. destruct r as [e|u]; [by apply commit_inl in Hr as [-> _]|]. unfold UpdateOAuthClientWithAudit, revokeClientTokensTx in Hr. tx_inv.
  before_closing.
  apply (client_edit_ok (oc_ID c) (fun old => stored_client (oc_CreatedAt old) c)) in Hok.
  destruct (rv || negb (oc_Enabled c)); tx_inv; exact Hok.
Qed.

Lemma update_card_ok c audit now d r d' : UpdateApplication c audit now d = (r, d') -> registry_ok d -> registry_ok d'.
Proof.
  intros Hr Hok. destruct r as [e|u]; [by apply commit_inl in Hr as [-> _]|]. apply auditedTx_inr in Hr as (d1 & m & q & Hr & ->). tx_inv.
  exact (card_edit_ok (ap_ID c) (fun old => set_ap_CreatedAt (ap_CreatedAt old) c) d Hok).
Qed.

Lemma delete_client_ok id d : registry_ok d -> registry_ok (delete_client id d).
Proof.
  intros Hok. unfold delete_client. cbv zeta. match goal with |- context [registry_delete _ _ ?x] => set (d1 := x) end.
  destruct (registry_delete_frame RefClient id d1) as [(G1 & G2 & G3 & _) G4]. eapply dropped_ok; [exact Hok|exact G4|].
  intros [] s; cbn -[delete]; rewrite ?G1, ?G2, ?G3; cbn -[delete]; [|naive_solver|naive_solver]. rewrite is_Some_delete. naive_solver.
Qed.

Lemma drop_client_ok eid id audit now d r d' : DeleteOAuthClient eid id audit now d = (r, d') -> registry_ok d -> registry_ok d'.
Proof.
  intros Hr Hok. destruct r as [e|b]; [by apply commit_inl in Hr as [-> _]|]. unfold DeleteOAuthClient, revokeClientTokensTx in Hr. tx_inv.
  destruct (is_null _); tx_inv; [done|].
  before_closing. exact (delete_client_ok id d Hok).
Qed.

Lemma drop_card_ok id audit now d r d' : DeleteApplication id audit now d = (r, d') -> registry_ok d -> registry_ok d'.
Proof.
  intros Hr Hok. destruct r as [e|b]; [by apply commit_inl in Hr as [-> _]|]. unfold DeleteApplication in Hr. tx_inv.
  destruct (is_null _); tx_inv; [done|]. audit_inv. match goal with |- context [registry_delete _ _ ?x] => set (d1 := x) end.
  destruct (registry_delete_frame RefLauncher id d1) as [(G1 & G2 & G3 & _) G4]. eapply (registry_ok_same (registry_delete RefLauncher id d1)); [done|done|].
  eapply dropped_ok; [exact Hok|exact G4|].
  intros [] s; cbn -[delete]; rewrite ?G1, ?G2, ?G3; cbn -[delete]; [naive_solver| |naive_solver]. rewrite is_Some_delete. naive_solver.
Qed.

Lemma drop_system_ok id audit now d r d' : DeletePairedSystem id audit now d = (r, d') -> registry_ok d -> registry_ok d'.
Proof.
  intros Hr Hok. destruct r as [e|b]; [by apply commit_inl in Hr as [-> _]|]. unfold DeletePairedSystem in Hr. tx_inv.
  destruct (is_null _); tx_inv; [done|]. audit_inv. unfold delete_system. cbv zeta. match goal with |- context [registry_delete _ _ ?x] => set (d1 := x) end.
  destruct (registry_delete_frame RefSystem id d1) as [(G1 & G2 & G3 & _) G4].
  eapply (registry_ok_same (registry_delete RefSystem id d1)); [done|done|]. eapply dropped_ok; [exact Hok|exact G4|].
  intros [] s; cbn -[delete]; rewrite ?G1, ?G2, ?G3; cbn -[delete]; [naive_solver|naive_solver|]. rewrite is_Some_delete. naive_solver.
Qed.

Lemma lock_inr id rev d a d' : lockAppRecord id rev d = inr (a, d') -> d' = d /\ app_registry d !! id = Some a /\ a_Revision a = rev.
Proof.
  unfold lockAppRecord. intros Hr. tx_inv. destruct (app_registry _ !! id); [|discriminate]. tx_inv. by bool_hyps.
Qed.

(** What two records must agree on to be joined. *)
Definition joinable (t s : AppRecord) (d : DB) : Prop :=
  a_AccessMode t = a_AccessMode s /\ a_Enabled t = a_Enabled s /\ assigned (a_ID t) d = false /\ assigned (a_ID s) d = false.

Lemma link_policies_inr t s d u d' : ensureAppLinkPoliciesTx t s d = inr (u, d') -> d' = d /\ joinable t s d.
Proof.
  unfold ensureAppLinkPoliciesTx. intros Hr. tx_inv. bool_hyps. split; [done|]. unfold joinable.
  repeat match goal with G : eqb _ _ = true |- _ => apply eqb_prop in G | G : (_ || _) = false |- _ => apply orb_false_iff in G as [? ?] end. done.
Qed.

Lemma link_records_inv eid t s rt rs audit details now d d' : LinkAppRecords eid t s rt rs audit details now d = (inr tt, d') -> exists target source m q,
  t <> s /\ app_registry d !! t = Some target /\ app_registry d !! s = Some source /\ (forall k, both k target source = false) /\
  joinable target source d /\ exists d1, queued (on_app_registry <[t := joined target source]> (delete_app s d)) d1 /\ d' = audited m q d1.
Proof.
  unfold LinkAppRecords. intros Hr. tx_inv.
  match goal with G1 : lockAppRecord t _ _ = inr (?a, _), G2 : lockAppRecord s _ _ = inr (?b, _), G3 : ensureAppLinkPoliciesTx _ _ _ = inr (_, _) |- _ =>
    apply lock_inr in G1 as (-> & Ht & _); apply lock_inr in G2 as (-> & Hs & _); apply link_policies_inr in G3 as [-> Hj]; exists a, b end.
  match goal with G1 : reconcileProvisioningTx _ _ _ = _ |- _ => apply reconcile_queued in G1 end. audit_inv. exists m, q.
  split; [by apply streqb_false, negb_true_iff|]. split; [exact Ht|]. split; [exact Hs|]. split; [|eauto].
  intros k. bool_hyps. match goal with G : _ = false |- _ => repeat apply orb_false_iff in G as [G ?] end. by destruct k.
Qed.

Lemma link_ok eid t s rt rs audit details now d r d' : LinkAppRecords eid t s rt rs audit details now d = (r, d') -> registry_ok d -> registry_ok d'.
Proof.
  intros Hr Hok. destruct r as [e|[]]; [by apply commit_inl in Hr as [-> _]|].
  apply link_records_inv in Hr as (target & source & m & q & Hne & Ht & Hs & Hb & _ & d1 & Hq & ->). apply queued_apart in Hq as [F1 F2].
  destruct (delete_app_frame s d) as [(G1 & G2 & G3 & _) G4]. apply (registry_ok_same (on_app_registry <[t := joined target source]> (delete_app s d))); [exact F1|exact F2|].
  unfold registry_ok. change (app_registry (on_app_registry ?f ?x)) with (f (app_registry x)). rewrite G4.
  eapply records_ok_iff; [|by eapply (records_join (live_source d)); try exact Hok].
  intros [] x; cbn -[delete_app]; by rewrite ?G1, ?G2, ?G3.
Qed.

Lemma unlink_record_inv eid n id kind rev audit details now d v d' : UnlinkAppRecord eid n id kind rev audit details now d = (inr v, d') ->
  exists k a m q d1, ref_of_kind kind = Some k /\ v = n /\ app_registry d !! id = Some a /\ (2 <= length (refs_held a))%nat /\ is_Some (ref k a) /\
    has_roles id d = false /\
    let r := <[id := set_ref k None (set_a_Revision (a_Revision a + 1) a)]> (app_registry d) in
    r !! n = None /\ queued (copy_assignments id n (on_app_registry (fun _ => <[n := split_copy n k a]> r) d)) d1 /\ d' = audited m q d1.
Proof.
  unfold UnlinkAppRecord. intros Hr. destruct (ref_of_kind kind) as [k|]; [|by apply commit_inr in Hr]. tx_inv.
  match goal with G1 : lockAppRecord id _ _ = inr (?a, _) |- _ => apply lock_inr in G1 as (-> & Ha & _); exists k, a end.
  match goal with G : insert_app _ _ = inr _ |- _ => apply insert_app_inr in G as [Hf ->] end.
  match goal with G1 : reconcileProvisioningTx _ _ _ = _ |- _ => apply reconcile_queued in G1 as Hq end. audit_inv.
  match goal with Hq : queued _ ?x |- _ => exists m, q, x end. bool_hyps.
  match goal with |- context [split_copy n k ?a] => assert (a_ID (split_copy n k a) = n) as Hid by by destruct k end. rewrite Hid in *.
  split; [done|]. split; [done|]. split; [done|]. split; [by apply Nat.ltb_ge|]. split.
  { destruct (ref k _); [by eexists|discriminate]. }
  split; [assumption|]. cbv zeta. split; [exact Hf|]. split; [exact Hq|done].
Qed.

Lemma unlink_ok eid n id kind rev audit details now d r d' : UnlinkAppRecord eid n id kind rev audit details now d = (r, d') -> registry_ok d -> registry_ok d'.
Proof.
  intros Hr Hok. destruct r as [e|v]; [by apply commit_inl in Hr as [-> _]|].
  apply unlink_record_inv in Hr as (k & a & m & q & d1 & _ & _ & Ha & Htwo & Hk & _ & Hf & Hq & ->). apply queued_apart in Hq as [F1 F2].
  eapply registry_ok_same; [exact F1|exact F2|]. apply lookup_insert_None in Hf as [Hf _].
  apply (records_split (live_source d) (app_registry d) id n k a (split_copy n k a)); [exact Hok|exact Ha|exact Hf|exact Htwo|by destruct k| |exact Hk].
  intros k'. unfold split_copy. rewrite ref_set. case_bool_decide; [done|]. by destruct k'.
Qed.

(** One operation on the registry, whatever it answers. *)
Inductive registry_step : DB -> DB -> Prop :=
  | step_create_client rid c audit now d r d' : CreateOAuthClient rid c audit now d = (r, d') -> registry_step d d'
  | step_update_client eid c revoke audit now d r d' : UpdateOAuthClientWithAudit eid c revoke audit now d = (r, d') -> registry_step d d'
  | step_delete_client eid id audit now d r d' : DeleteOAuthClient eid id audit now d = (r, d') -> registry_step d d'
  | step_create_card rid c audit now d r d' : CreateApplication rid c audit now d = (r, d') -> registry_step d d'
  | step_update_card c audit now d r d' : UpdateApplication c audit now d = (r, d') -> registry_step d d'
  | step_delete_card id audit now d r d' : DeleteApplication id audit now d = (r, d') -> registry_step d d'
  | step_create_system rid ps audit now d r d' : CreatePairedSystem rid ps audit now d = (r, d') -> registry_step d d'
  | step_delete_system id audit now d r d' : DeletePairedSystem id audit now d = (r, d') -> registry_step d d'
  | step_link eid t s rt rs audit details now d r d' : LinkAppRecords eid t s rt rs audit details now d = (r, d') -> registry_step d d'
  | step_unlink eid n id kind rev audit details now d r d' : UnlinkAppRecord eid n id kind rev audit details now d = (r, d') -> registry_step d d'.

(** C26. However clients, launcher cards and connectors are created, edited,
    deleted, joined and split, in whatever order and with whatever outcome,
    the registry stays their directory: every record sits under its own
    identifier and holds at least one connection, every connection leads to
    a source that exists, no source is in two records, and no source is
    without one. *)
Theorem the_registry_stays_a_directory d d' : registry_ok d -> rtc registry_step d d' -> registry_ok d'.
Proof.
  intros Hok Hs. induction Hs as [|d1 d2 d3 Hs _ IH]; [done|]. apply IH. clear IH.
  destruct Hs; eauto using create_client_ok, update_client_ok, drop_client_ok, create_card_ok, update_card_ok, drop_card_ok,
    create_system_ok, drop_system_ok, link_ok, unlink_ok.
Qed.

(** *** Joining and splitting records leave access alone *)

(** The switch a record's client adds to its access. *)
Definition client_on (d : DB) (a : AppRecord) : bool :=
  match a_ClientID a with None => true | Some c => match oauth_clients d !! c with Some cl => oc_Enabled cl | None => false end end.

Definition grants (now : Z) (d : DB) (app user : string) : bool := direct_grant now d app user || group_grant now d app user.

Lemma app_allows_eq now d d' a a' u : oauth_clients d' = oauth_clients d -> client_on d a' = client_on d a -> a_AccessMode a' = a_AccessMode a ->
  a_Enabled a' = a_Enabled a -> grants now d' (a_ID a') (u_ID u) = grants now d (a_ID a) (u_ID u) -> app_allows now d' a' u = app_allows now d a u.
Proof.
  intros Hc Hon Hm He Hg. unfold app_allows, appAllowedSQL, app_access_facts; cbn [f_active f_access_mode f_enabled f_client_enabled f_direct f_group_assigned].
  fold (client_on d' a'). fold (client_on d a). unfold grants in Hg. rewrite <- !orb_assoc, Hg, Hm, He. f_equal. f_equal. f_equal.
  unfold client_on in *. by rewrite Hc.
Qed.

(** Every connection of [d] is in [d'], and the other way round, under a record
    that admits the same people. *)
Definition carried (k : Ref) (now : Z) (user : string) (d d' : DB) : Prop := forall i a s, app_registry d !! i = Some a -> ref k a = Some s ->
  exists j b, app_registry d' !! j = Some b /\ ref k b = Some s /\
    effective_app_access now d' (a_ID b) user = effective_app_access now d (a_ID a) user.

Lemma carried_access k now user d d' s : carried k now user d d' -> carried k now user d' d ->
  exists_where (fun a => refers k s a && effective_app_access now d' (a_ID a) user) (app_registry d') =
  exists_where (fun a => refers k s a && effective_app_access now d (a_ID a) user) (app_registry d).
Proof.
  assert (forall d1 d2, carried k now user d1 d2 ->
    exists_where (fun a => refers k s a && effective_app_access now d1 (a_ID a) user) (app_registry d1) = true ->
    exists_where (fun a => refers k s a && effective_app_access now d2 (a_ID a) user) (app_registry d2) = true) as Hone.
  { intros d1 d2 Hc. rewrite !exists_where_true. intros (i & a & Hi & Ha). apply andb_true_iff in Ha as [Hr He]. apply refers_true in Hr.
    destruct (Hc i a s Hi Hr) as (j & b & Hj & Hb & Heq). exists j, b. split; [done|]. apply andb_true_iff. split; [by apply refers_true|congruence]. }
  intros G1 G2. apply eq_true_iff_eq. split; by apply Hone.
Qed.

Lemma list_to_map_moved (t : gmap (string * string) (option Z)) from to user :
  (list_to_map (map (fun kv : (string * string) * option Z => ((to, kv.1.2), kv.2))
    (List.filter (fun kv : (string * string) * option Z => kv.1.1 =?s from) (map_to_list t))) : gmap (string * string) (option Z)) !! (to, user) = t !! (from, user).
Proof.
  set (l := map _ _). assert (forall x e, (x, e) ∈ l <-> x.1 = to /\ t !! (from, x.2) = Some e) as Hl.
  { intros [x y] e. unfold l. rewrite list_elem_of_In, in_map_iff. split.
    - intros ([[f y'] e'] & G1 & G2). injection G1 as <- <- <-. apply List.filter_In in G2 as [G2 G3]. apply streqb_true in G3; cbn in *. subst f.
      split; [done|]. by apply elem_of_map_to_list, list_elem_of_In.
    - cbn. intros [-> G]. exists ((from, y), e). split; [done|]. apply List.filter_In. split; [|by apply streqb_true]. by apply list_elem_of_In, elem_of_map_to_list. }
  destruct (list_to_map l !! (to, user)) as [e|] eqn:E.
  - apply elem_of_list_to_map_2, Hl in E as [_ E]. by cbn in E.
  - apply not_elem_of_list_to_map_2 in E. destruct (t !! (from, user)) as [e|] eqn:Et; [|done]. exfalso. apply E. rewrite list_elem_of_fmap.
    exists ((to, user), e). split; [done|]. by apply Hl.
Qed.

Lemma list_to_map_elsewhere (t : gmap (string * string) (option Z)) from to app user : app <> to ->
  (list_to_map (map (fun kv : (string * string) * option Z => ((to, kv.1.2), kv.2))
    (List.filter (fun kv : (string * string) * option Z => kv.1.1 =?s from) (map_to_list t))) : gmap (string * string) (option Z)) !! (app, user) = None.
Proof.
  intros Hn. apply not_elem_of_list_to_map_1. rewrite list_elem_of_fmap. intros ([x e] & G1 & G2). cbn in G1. subst x.
  apply list_elem_of_In, in_map_iff in G2 as (y & G2 & _). congruence.
Qed.

Lemma unassigned_None d app : assigned app d = false ->
  (forall user, app_user_assignments d !! (app, user) = None) /\ (forall g, (app, g) ∉ app_group_assignments d).
Proof.
  unfold assigned. intros Hf. apply orb_false_iff in Hf as [G1 G2]. split.
  - intros user. destruct (app_user_assignments d !! (app, user)) as [e|] eqn:E; [|done]. exfalso. apply not_true_iff_false in G1. apply G1.
    apply existsb_exists. exists ((app, user), e). split; [by apply list_elem_of_In, elem_of_map_to_list|by apply streqb_true].
  - intros g Hg. apply not_true_iff_false in G2. apply G2. apply existsb_exists. exists (app, g). split; [by apply list_elem_of_In, elem_of_elements|by apply streqb_true].
Qed.

Lemma copied_grants now from to app user d : assigned to d = false ->
  grants now (copy_assignments from to d) app user = grants now d (if bool_decide (app = to) then from else app) user.
Proof.
  intros Hfree. destruct (unassigned_None _ _ Hfree) as [Hu Hg]. unfold grants. f_equal.
  - unfold direct_grant, copy_assignments; cbn [app_user_assignments on_app_group_assignments on_app_user_assignments]. rewrite lookup_union.
    case_bool_decide as Hd.
    + subst app. rewrite list_to_map_moved, Hu. by rewrite (right_id_L None _).
    + rewrite list_to_map_elsewhere by done. by rewrite (left_id_L None _).
  - unfold group_grant. apply eq_true_iff_eq. rewrite !existsb_exists. split.
    + intros ([x g] & Hin & Hx). apply list_elem_of_In, elem_of_elements in Hin. apply andb_true_iff in Hx as [Hx Hm]. apply streqb_true in Hx; cbn in *. subst x.
      exists (if bool_decide (app = to) then from else app, g). cbn. rewrite (proj2 (streqb_true _ _) eq_refl). split; [|exact Hm]. apply list_elem_of_In, elem_of_elements.
      apply elem_of_union in Hin as [Hin|Hin].
      * case_bool_decide as Hd; [subst; by destruct (Hg g)|done].
      * apply elem_of_list_to_set, list_elem_of_In, in_map_iff in Hin as ([f g'] & G1 & G2). injection G1 as <- <-. rewrite bool_decide_true by done.
        apply List.filter_In in G2 as [G2 G3]. apply streqb_true in G3; cbn in *. subst f. by apply elem_of_elements, list_elem_of_In.
    + intros ([x g] & Hin & Hx). apply list_elem_of_In, elem_of_elements in Hin. apply andb_true_iff in Hx as [Hx Hm]. apply streqb_true in Hx; cbn in *. subst x.
      exists (app, g). cbn. rewrite (proj2 (streqb_true _ _) eq_refl). split; [|exact Hm]. apply list_elem_of_In, elem_of_elements. cbn. apply elem_of_union.
      case_bool_decide as Hd; [right|by left]. subst app. apply elem_of_list_to_set, list_elem_of_In, in_map_iff. exists (from, g). split; [done|].
      apply List.filter_In. split; [by apply list_elem_of_In, elem_of_elements|by apply streqb_true].
Qed.

Lemma effective_eq now d d' i j a b user : app_registry d !! i = Some a -> app_registry d' !! j = Some b -> a_ID a = i -> a_ID b = j ->
  users d' = users d -> oauth_clients d' = oauth_clients d -> client_on d b = client_on d a -> a_AccessMode b = a_AccessMode a -> a_Enabled b = a_Enabled a ->
  (forall u, grants now d' j u = grants now d i u) -> effective_app_access now d' (a_ID b) user = effective_app_access now d (a_ID a) user.
Proof.
  intros Ha Hb Hi Hj Hu Hc Hon Hm He Hg. unfold effective_app_access. rewrite Hi, Hj, Ha, Hb, Hu. destruct (users d !! user) as [u|]; [|done].
  apply app_allows_eq; try done. rewrite Hi, Hj. apply Hg.
Qed.

Lemma client_on_kept d k v a : k <> RefClient -> client_on d (set_ref k v a) = client_on d a.
Proof. by destruct k. Qed.

(** A record that stays as it is carries what it held. *)
Lemma carried_same now d d' i a user : app_registry d !! i = Some a -> app_registry d' !! i = Some a -> a_ID a = i -> users d' = users d ->
  oauth_clients d' = oauth_clients d -> (forall u, grants now d' i u = grants now d i u) ->
  effective_app_access now d' (a_ID a) user = effective_app_access now d (a_ID a) user.
Proof. intros. eapply effective_eq; eauto. Qed.

Section split.
Context (d d' : DB) (id n : string) (k0 : Ref) (a0 : AppRecord) (now : Z) (user : string).
Hypothesis Hkeyed : forall i a, app_registry d !! i = Some a -> a_ID a = i.
Hypothesis Ha0 : app_registry d !! id = Some a0.
Hypothesis Hn : app_registry d !! n = None.
Hypothesis Hreg : app_registry d' = <[n := split_copy n k0 a0]> (<[id := set_ref k0 None (set_a_Revision (a_Revision a0 + 1) a0)]> (app_registry d)).
Hypothesis Husers : users d' = users d.
Hypothesis Hclients : oauth_clients d' = oauth_clients d.
Hypothesis Hgrants : forall app u, grants now d' app u = grants now d (if bool_decide (app = n) then id else app) u.

Lemma split_ne : n <> id.
Proof. congruence. Qed.

Lemma split_id : app_registry d' !! id = Some (set_ref k0 None (set_a_Revision (a_Revision a0 + 1) a0)).
Proof. rewrite Hreg, lookup_insert_ne by exact split_ne. by rewrite lookup_insert_eq. Qed.
Lemma split_n : app_registry d' !! n = Some (split_copy n k0 a0).
Proof. rewrite Hreg. by rewrite lookup_insert_eq. Qed.
Lemma split_other i : i <> n -> i <> id -> app_registry d' !! i = app_registry d !! i.
Proof. intros. rewrite Hreg. by rewrite !lookup_insert_ne. Qed.

Lemma split_left k : k <> k0 -> (k <> RefClient -> client_on d a0 = true) ->
  effective_app_access now d' (a_ID (set_ref k0 None (set_a_Revision (a_Revision a0 + 1) a0))) user = effective_app_access now d (a_ID a0) user.
Proof.
  intros Hk Hon. pose proof (Hkeyed _ _ Ha0) as Hid. eapply effective_eq; [exact Ha0|exact split_id|exact Hid| |exact Husers|exact Hclients| | | |].
  - destruct k0; exact Hid.
  - destruct (decide (k0 = RefClient)) as [E|N]; [|by rewrite client_on_kept]. symmetry. subst k0. apply Hon. exact Hk.
  - by destruct k0.
  - by destruct k0.
  - intros u. rewrite Hgrants, bool_decide_false; [done|]. intros E. by apply split_ne.
Qed.

Lemma split_moved : (k0 <> RefClient -> client_on d a0 = true) ->
  effective_app_access now d' (a_ID (split_copy n k0 a0)) user = effective_app_access now d (a_ID a0) user.
Proof.
  intros Hon. pose proof (Hkeyed _ _ Ha0) as Hid. eapply effective_eq; [exact Ha0|exact split_n|exact Hid| |exact Husers|exact Hclients| | | |].
  - by destruct k0.
  - destruct k0; [done|symmetry; by apply Hon|symmetry; by apply Hon].
  - by destruct k0.
  - by destruct k0.
  - intros u. by rewrite Hgrants, bool_decide_true.
Qed.

Lemma split_stays i a : i <> n -> i <> id -> app_registry d !! i = Some a ->
  effective_app_access now d' (a_ID a) user = effective_app_access now d (a_ID a) user.
Proof.
  intros N1 N2 Ha. eapply carried_same; [exact Ha|by rewrite split_other|by apply Hkeyed|done|done|]. intros u. by rewrite Hgrants, bool_decide_false.
Qed.

Lemma split_carried k : (k <> RefClient -> client_on d a0 = true) -> carried k now user d d' /\ carried k now user d' d.
Proof.
  intros Hon. split.
  - intros i a s Ha Hr. destruct (decide (i = id)) as [->|N].
    + rewrite Ha0 in Ha. injection Ha as <-. destruct (decide (k = k0)) as [->|Nk].
      * exists n, (split_copy n k0 a0). split; [exact split_n|]. split; [unfold split_copy; by rewrite ref_set, bool_decide_true|by apply split_moved].
      * eexists id, _. split; [exact split_id|]. split; [by rewrite ref_set, bool_decide_false|by apply (split_left k)].
    + assert (i <> n) as N1 by congruence. exists i, a. split; [by rewrite split_other|]. split; [done|by eapply split_stays].
  - intros i a s Ha Hr. destruct (decide (i = n)) as [->|N1]; [|destruct (decide (i = id)) as [->|N2]].
    + rewrite split_n in Ha. injection Ha as <-. unfold split_copy in Hr. rewrite ref_set in Hr. case_bool_decide as Hk; [|by destruct k]. subst k.
      exists id, a0. split; [done|]. split; [done|]. symmetry. by apply split_moved.
    + rewrite split_id in Ha. injection Ha as <-. rewrite ref_set in Hr. case_bool_decide as Hk; [done|]. rewrite ref_revision in Hr.
      exists id, a0. split; [done|]. split; [done|]. symmetry. by apply (split_left k).
    + rewrite split_other in Ha by done. exists i, a. split; [done|]. split; [done|]. symmetry. by eapply split_stays.
Qed.
End split.

Section join.
Context (d d' : DB) (t s : string) (target source : AppRecord) (now : Z) (user : string).
Hypothesis Hkeyed : forall i a, app_registry d !! i = Some a -> a_ID a = i.
Hypothesis Hne : t <> s.
Hypothesis Ht : app_registry d !! t = Some target.
Hypothesis Hs : app_registry d !! s = Some source.
Hypothesis Hboth : forall k, both k target source = false.
Hypothesis Hjoin : joinable target source d.
Hypothesis Hreg : app_registry d' = <[t := joined target source]> (delete s (app_registry d)).
Hypothesis Husers : users d' = users d.
Hypothesis Hclients : oauth_clients d' = oauth_clients d.
Hypothesis Hgrants : forall app u, app <> s -> grants now d' app u = grants now d app u.

Lemma join_t : app_registry d' !! t = Some (joined target source).
Proof. rewrite Hreg. by rewrite lookup_insert_eq. Qed.
Lemma join_other i : i <> t -> i <> s -> app_registry d' !! i = app_registry d !! i.
Proof. intros. rewrite Hreg. rewrite lookup_insert_ne, lookup_delete_ne; congruence. Qed.
Lemma join_none i a : app_registry d' !! i = Some a -> i <> s.
Proof. intros Hi ->. rewrite Hreg, lookup_insert_ne, lookup_delete_eq in Hi by done. discriminate. Qed.

Lemma unassigned_grants app u : assigned app d = false -> grants now d app u = false.
Proof.
  intros Hf. destruct (unassigned_None _ _ Hf) as [G1 G2]. unfold grants, direct_grant, group_grant. rewrite G1. cbn. apply not_true_iff_false. rewrite existsb_exists.
  intros ([x g] & Hin & Hx). apply list_elem_of_In, elem_of_elements in Hin. apply andb_true_iff in Hx as [Hx _]. apply streqb_true in Hx; cbn in Hx. subst x. by apply (G2 g).
Qed.

(** Either half's connection, seen through the joined record. *)
Lemma join_half k i a x : (i = t /\ a = target) \/ (i = s /\ a = source) -> ref k a = Some x ->
  (k <> RefClient -> client_on d target = true /\ client_on d source = true) ->
  effective_app_access now d' (a_ID (joined target source)) user = effective_app_access now d (a_ID a) user.
Proof.
  intros Hi Hr Hon. destruct Hjoin as (G1 & G2 & G3 & G4). rewrite (Hkeyed _ _ Ht) in G3. rewrite (Hkeyed _ _ Hs) in G4.
  assert (app_registry d !! i = Some a) as Ha by (destruct Hi as [[-> ->]|[-> ->]]; done).
  assert (ref k (joined target source) = Some x) as Hj.
  { rewrite ref_joined. unfold pick. specialize (Hboth k). unfold both in Hboth. destruct Hi as [[-> ->]|[-> ->]]; rewrite Hr in *; [done|]. by destruct (ref k target). }
  eapply effective_eq; [exact Ha|exact join_t|by apply Hkeyed|exact (Hkeyed _ _ Ht)|done|done| | | |].
  - destruct (decide (k = RefClient)) as [->|N].
    + unfold client_on. change (a_ClientID a) with (ref RefClient a). change (a_ClientID (joined target source)) with (ref RefClient (joined target source)). by rewrite Hr, Hj.
    + destruct (Hon N) as [Ot Os]. transitivity true; [|by destruct Hi as [[-> ->]|[-> ->]]]. unfold client_on in Ot, Os |- *.
      change (a_ClientID (joined target source)) with (ref RefClient (joined target source)). rewrite ref_joined. unfold pick. cbn [ref].
      destruct (a_ClientID target); [exact Ot|exact Os].
  - by destruct Hi as [[-> ->]|[-> ->]].
  - by destruct Hi as [[-> ->]|[-> ->]].
  - intros u. rewrite Hgrants, (unassigned_grants t) by done. symmetry. apply unassigned_grants. by destruct Hi as [[-> ->]|[-> ->]].
Qed.

Lemma join_carried k : (k <> RefClient -> client_on d target = true /\ client_on d source = true) -> carried k now user d d' /\ carried k now user d' d.
Proof.
  intros Hon. split.
  - intros i a x Ha Hr. assert ((i = t /\ a = target) \/ (i = s /\ a = source) \/ (i <> t /\ i <> s)) as Hi.
    { destruct (decide (i = t)) as [->|]; [left; split; congruence|]. destruct (decide (i = s)) as [->|]; [right; left; split; congruence|tauto]. }
    assert ((i = t /\ a = target) \/ (i = s /\ a = source) -> ref k (joined target source) = Some x) as Hj.
    { intros Hh. rewrite ref_joined. unfold pick. specialize (Hboth k). unfold both in Hboth. destruct Hh as [[-> ->]|[-> ->]]; rewrite Hr in *; [done|]. by destruct (ref k target). }
    destruct Hi as [Hi|[Hi|[N1 N2]]].
    + exists t, (joined target source). split; [exact join_t|]. split; [tauto|]. eapply join_half; eauto.
    + exists t, (joined target source). split; [exact join_t|]. split; [tauto|]. eapply join_half; eauto.
    + exists i, a. split; [by rewrite join_other|]. split; [done|]. eapply carried_same; [exact Ha|by rewrite join_other|by apply Hkeyed|done|done|]. intros u. by apply Hgrants.
  - intros i a x Ha Hr. pose proof (join_none _ _ Ha) as N2. destruct (decide (i = t)) as [->|N1].
    + rewrite join_t in Ha. injection Ha as <-. rewrite ref_joined in Hr. unfold pick in Hr. destruct (ref k target) as [y|] eqn:Et.
      * exists t, target. split; [done|]. split; [congruence|]. symmetry. eapply join_half; eauto.
      * exists s, source. split; [done|]. split; [done|]. symmetry. eapply join_half; eauto.
    + rewrite join_other in Ha by done. exists i, a. split; [done|]. split; [done|]. symmetry. eapply carried_same; [exact Ha|by rewrite join_other|by apply Hkeyed|done|done|].
      intros u. by apply Hgrants.
Qed.
End join.

(** A completed join or split. *)
Inductive reshaped (d d' : DB) : Prop :=
  | reshaped_link eid t s rt rs audit details now : LinkAppRecords eid t s rt rs audit details now d = (inr tt, d') -> reshaped d d'
  | reshaped_unlink eid n id kind rev audit details now v : assigned n d = false ->
      UnlinkAppRecord eid n id kind rev audit details now d = (inr v, d') -> reshaped d d'.

Lemma delete_app_grants now s d app u : app <> s -> grants now (delete_app s d) app u = grants now d app u.
Proof.
  intros Hn. unfold delete_app. cbv zeta. match goal with |- context [fold_left _ ?l d] => generalize l end. intros l.
  assert (forall l d0, app_user_assignments (fold_left (fun d r => delete_role r d) l d0) = app_user_assignments d0 /\
    app_group_assignments (fold_left (fun d r => delete_role r d) l d0) = app_group_assignments d0 /\
    group_memberships (fold_left (fun d r => delete_role r d) l d0) = group_memberships d0) as Hf.
  { clear. induction l as [|r l IH]; intros d0; cbn [fold_left]; [done|]. destruct (IH (delete_role r d0)) as (G1 & G2 & G3). by rewrite G1, G2, G3. }
  destruct (Hf l d) as (G1 & G2 & G3). set (d1 := fold_left _ l d) in *. clearbody d1. clear Hf. unfold grants. f_equal.
  - unfold direct_grant. match goal with |- context [app_user_assignments ?x !! _] => lazymatch x with d => fail | _ =>
      change (app_user_assignments x) with (filter (fun kv : (string * string) * option Z => kv.1.1 <> s) (app_user_assignments d1)) end end.
    rewrite G1. destruct (app_user_assignments d !! (app, u)) as [e|] eqn:E.
    + rewrite (proj2 (map_lookup_filter_Some _ _ _ _) (conj E Hn)). done.
    + rewrite (proj2 (map_lookup_filter_None _ _ _) (or_introl E)). done.
  - unfold group_grant, live_group_memberships. cbn -[filter elements]. rewrite G2, G3. apply eq_true_iff_eq. rewrite !existsb_exists.
    split; intros ([x g] & Hin & Hx); apply list_elem_of_In, elem_of_elements in Hin; exists (x, g); (split; [|exact Hx]); apply list_elem_of_In, elem_of_elements.
    + by apply elem_of_filter in Hin as [_ Hin].
    + apply elem_of_filter. split; [|done]. apply andb_true_iff in Hx as [Hx _]. apply streqb_true in Hx; cbn in *. by subst x.
Qed.

Definition clients_on (d : DB) : Prop := forall c cl, oauth_clients d !! c = Some cl -> oc_Enabled cl = true.

Lemma registry_client_on d i a : registry_ok d -> clients_on d -> app_registry d !! i = Some a -> client_on d a = true.
Proof.
  intros [_ G _ _ _] Hon Ha. unfold client_on. destruct (a_ClientID a) as [c|] eqn:E; [|done].
  destruct (G i a RefClient c Ha E) as [cl Hcl]. rewrite Hcl. by eapply Hon.
Qed.

Lemma reshaped_carried k now user d d' : registry_ok d -> (k <> RefClient -> clients_on d) -> reshaped d d' ->
  (carried k now user d d' /\ carried k now user d' d) /\ oauth_clients d' = oauth_clients d.
Proof.
  intros Hok Hon [eid t s rt rs audit details t0 Hr|eid n id kind rev audit details t0 v Hfree Hr].
  - apply link_records_inv in Hr as (target & source & m & q & Hne & Ht & Hs & Hb & Hj & d1 & (es & st & ->) & ->).
    destruct (delete_app_frame s d) as [(G1 & G2 & G3 & G4 & G5 & _) G6]. split; [|exact G1].
    eapply (join_carried d _ t s target source); [apply Hok|exact Hne|exact Ht|exact Hs|exact Hb|exact Hj| |exact G5|exact G1| |].
    + rewrite <- G6. reflexivity.
    + intros app u Happ. exact (delete_app_grants now s d app u Happ).
    + intros Hk. split; by eapply registry_client_on; eauto.
  - apply unlink_record_inv in Hr as (k0 & a & m & q & d1 & _ & _ & Ha & _ & _ & _ & Hf & (es & st & ->) & ->). split; [|done].
    apply lookup_insert_None in Hf as [Hf Hne]. eapply (split_carried d _ id n k0 a); [apply Hok|exact Ha|exact Hf|reflexivity|done|done| |].
    + intros app u. exact (copied_grants now id n app u d Hfree).
    + intros Hk. by eapply registry_client_on; eauto.
Qed.

(** Joining two records, or splitting a connection off one, changes no
    one's access: who may use each client is as before, always, and who is
    provisioned through each connector is as before while no client is
    switched off. *)
Theorem reshaping_keeps_access now user d d' : registry_ok d -> reshaped d d' ->
  (forall client, ClientAccessAllowed now d' user client = ClientAccessAllowed now d user client) /\
  (clients_on d -> forall sys, system_access now d' sys user = system_access now d sys user).
Proof.
  intros Hok Hr. split.
  - intros client. destruct (reshaped_carried RefClient now user d d' Hok) as [[G1 G2] Hc]; [done|done|]. unfold ClientAccessAllowed. rewrite Hc. f_equal.
    exact (carried_access RefClient now user d d' client G1 G2).
  - intros Hon sys. destruct (reshaped_carried RefSystem now user d d' Hok) as [[G1 G2] _]; [done|done|].
    exact (carried_access RefSystem now user d d' sys G1 G2).
Qed.

(** *** A client switched off *)

(** Every token the client was issued is revoked; the others are as they were. *)
Definition tokens_off (client : string) (d d' : DB) : Prop :=
  (forall k t, issued_tokens d' !! k = Some t -> it_ClientID t = client -> it_RevokedAt t <> None) /\
  (forall k t, it_ClientID t <> client -> (issued_tokens d' !! k = Some t <-> issued_tokens d !! k = Some t)).

Lemma revoked_off client now d : tokens_off client d
  (on_issued_tokens (update_where (fun t => (it_ClientID t =?s client) && is_null (it_RevokedAt t)) (set_it_RevokedAt (Some now))) d).
Proof.
  split.
  - intros k t Hk Ht. apply lookup_update_where_Some in Hk as (t1 & _ & ->). destruct (it_ClientID t1 =?s client) eqn:E; cbn [andb] in *.
    + destruct (it_RevokedAt t1) eqn:Er; cbn; [by rewrite Er|done].
    + apply streqb_false in E. congruence.
  - intros k t Ht. cbn [issued_tokens on_issued_tokens]. rewrite lookup_update_where_Some. split.
    + intros (t1 & G1 & G2). destruct (_ && _) eqn:E; [|congruence]. apply andb_true_iff in E as [E _]. apply streqb_true in E. subst t. done.
    + intros Hk. exists t. split; [done|]. by rewrite (proj2 (streqb_false _ _) Ht).
Qed.

Lemma tokens_off_same client d d1 d2 d' : issued_tokens d1 = issued_tokens d -> issued_tokens d' = issued_tokens d2 -> tokens_off client d1 d2 -> tokens_off client d d'.
Proof. intros G1 G2 [T1 T2]. unfold tokens_off. rewrite G2, <- G1. by split. Qed.

(** Nothing is left that the client could use. *)
Definition client_unknown (client : string) (d : DB) : Prop :=
  oauth_clients d !! client = None /\
  (forall k c, authorization_codes d !! k = Some c -> c_ClientID c <> client) /\
  (forall k l, logout_deliveries d !! k = Some l -> ld_ClientID l <> client) /\
  (forall k a, app_registry d !! k = Some a -> a_ClientID a <> Some client).

Lemma delete_client_unknown client d : registry_ok d -> client_unknown client (delete_client client d).
Proof.
  intros Hok. unfold delete_client. cbv zeta. match goal with |- context [registry_delete _ _ ?x] => set (d1 := x) end.
  destruct (registry_delete_frame RefClient client d1) as [(G1 & _) G2].
  assert (forall k s x, authorization_codes (registry_delete k s x) = authorization_codes x /\ logout_deliveries (registry_delete k s x) = logout_deliveries x) as Hc.
  { clear. intros k s x. unfold registry_delete. cbv zeta. match goal with |- context [fold_left _ ?l ?y] => generalize l; intros ids; set (x1 := y) end.
    assert (forall ids x1, authorization_codes (fold_left (fun d id => delete_app id d) ids x1) = authorization_codes x1 /\
      logout_deliveries (fold_left (fun d id => delete_app id d) ids x1) = logout_deliveries x1) as Hf; [|by destruct (Hf ids x1)].
    clear. induction ids as [|i ids IH]; intros x1; cbn [fold_left]; [done|]. destruct (IH (delete_app i x1)) as [-> ->].
    unfold delete_app. cbv zeta. match goal with |- context [fold_left _ ?l x1] => generalize l end. intros l. clear.
    revert x1. induction l as [|r l IHl]; intros x1; cbn [fold_left]; [done|]. exact (IHl (delete_role r x1)). }
  destruct (Hc RefClient client d1) as [C1 C2]. split; [rewrite G1; exact (lookup_delete_eq _ _)|]. split; [|split].
  - rewrite C1. intros k c Hk. apply lookup_delete_where_Some in Hk as [_ Hk]. by apply streqb_false.
  - rewrite C2. intros k l Hk. apply lookup_delete_where_Some in Hk as [_ Hk]. by apply streqb_false.
  - rewrite G2. intros k a Hk Ha.
    assert (records_ok (fun k' s' => live_source d k' s' /\ ~ (k' = RefClient /\ s' = client)) (dropped RefClient client (app_registry d))) as Hd by by apply records_drop.
    destruct (ro_live _ _ Hd k a RefClient client Hk Ha) as [_ Hn]. by apply Hn.
Qed.

(** Switching a client off, or an edit the caller marks as taking authority
    away, revokes every token the client was ever issued and touches no
    other client's; deleting it does too, and leaves no code, no pending
    logout and no record that leads to it. *)
Theorem a_client_off_holds_nothing eid audit now d d' : registry_ok d ->
  (forall c revoke, revoke || negb (oc_Enabled c) = true -> UpdateOAuthClientWithAudit eid c revoke audit now d = (inr tt, d') -> tokens_off (oc_ID c) d d') /\
  (forall client, DeleteOAuthClient eid client audit now d = (inr true, d') -> tokens_off client d d' /\ client_unknown client d').
Proof.
  intros Hok. split.
  - intros c rv Hoff Hr. unfold UpdateOAuthClientWithAudit in Hr. rewrite Hoff in Hr. unfold revokeClientTokensTx in Hr. tx_inv. audit_inv.
    match goal with G1 : reconcileProvisioningTx _ _ _ = _ |- _ => apply reconcile_queued in G1 as (es & st & ->) end.
    match goal with |- tokens_off _ _ (audited _ _ (on_account_sync_events _ (on_sync_resource_state _ (on_issued_tokens _ ?x)))) =>
      exact (tokens_off_same _ d x _ _ eq_refl eq_refl (revoked_off (oc_ID c) now x)) end.
  - intros client Hr. unfold DeleteOAuthClient, revokeClientTokensTx in Hr. tx_inv. destruct (is_null _); tx_inv. audit_inv.
    match goal with G1 : reconcileProvisioningTx _ _ _ = _ |- _ => apply reconcile_queued in G1 as (es & st & ->) end. split; [|exact (delete_client_unknown client d Hok)].
    assert (issued_tokens (delete_client client d) = issued_tokens d) as Ht.
    { unfold delete_client. cbv zeta. match goal with |- context [registry_delete _ _ ?x] => set (d1 := x) end. by destruct (registry_delete_frame RefClient client d1) as [(_ & _ & _ & -> & _) _]. }
    exact (tokens_off_same client d (delete_client client d) _ _ Ht eq_refl (revoked_off client now _)).
Qed.
End facts.

(** *** A new connector *)

Section pairing_facts.
Context `{Codec} `{AEAD} `{Far}.

(** C: pairing
    Pairing is refused with nothing stored, or stores an active connector at an
    admissible URL, of a supported type, under a registry record of its own: its
    stored secret opens to the bearer token given, acceptable for that URL, or to
    the webhook secret shown once; and no one is provisioned through it yet. *)
Theorem a_pairing_is_refused_or_usable url_parse private loopback key dr req audit now d r d' :
  aead_laws -> Forall is_byte (pd_nonce dr) -> length (pd_nonce dr) = gcm_nonce_size -> registry_ok d -> assigned (pd_rid dr) d = false ->
  CreateSystem url_parse private loopback key dr req audit now d = (r, d') ->
  (exists e, r = inl e /\ d' = d) \/
  exists ps shown secret, r = inr (ps, shown) /\ paired_systems d' !! pd_id dr = Some ps /\ ps_ID ps = pd_id dr /\ ps_Status ps = "active" /\
    ValidateURL url_parse private loopback (ps_CallbackURL ps) = None /\ supportedSystemType (ps_SystemType ps) = true /\
    SigningSecret key ps = Some secret /\
    (if ps_SystemType ps =?s "scim" then secret = cs_BearerToken req /\ scim_config_error (ps_CallbackURL ps) secret = None /\ shown = ""
     else cs_BearerToken req = "" /\ shown = secret) /\
    forall now' user, system_access now' d' (pd_id dr) user = false.
Proof.
  intros L Hn Hl Hok Hfree Hr. unfold CreateSystem in Hr.
  set (name := if cs_Name req =?s "" then cs_SystemType req else cs_Name req) in Hr. set (kind := if cs_SystemType req =?s "" then "scim" else cs_SystemType req) in Hr.
  destruct (name =?s ""); [injection Hr as <- <-; left; eauto|]. destruct (ValidateURL _ _ _ _) eqn:Eu; [injection Hr as <- <-; left; eauto|].
  destruct (supportedSystemType kind) eqn:Ek; cbn [negb] in Hr; [|injection Hr as <- <-; left; eauto].
  destruct (pairing_credential _ _ _ _) as [e|token] eqn:Ec; [injection Hr as <- <-; left; eauto|].
  destruct (Open_Seal L key SealConnector (pd_id dr) (bytes_of token) (pd_nonce dr) (bytes_of_bytes token) Hn Hl) as (c & _ & Hs & Ho). rewrite Hs in Hr.
  cbv zeta in Hr. match type of Hr with context [CreatePairedSystem _ ?x _ _ _] => set (ps := x) in Hr end.
  destruct (CreatePairedSystem _ _ _ _ _) as [[e|u] d1] eqn:Ep; [apply commit_inl in Ep as [-> _]; injection Hr as <- <-; left; eauto|].
  injection Hr as <- <-. right. exists ps, (if kind =?s "scim" then "" else token), token. split; [done|].
  apply auditedTx_inr in Ep as (d2 & m & q & Ep & ->). apply tx_bind_inr in Ep as (u1 & d3 & Hg & Ep). apply tx_guard_inr in Hg as [_ ->].
  apply tx_bind_inr in Ep as (u2 & d4 & Hi & Ep). apply insert_row_inv in Hi as [Hnew ->]. apply insert_app_inr in Ep as [Hrid ->].
  split; [exact (lookup_insert_eq _ _ _)|]. split; [done|]. split; [done|]. split; [exact Eu|]. split; [exact Ek|]. split.
  { unfold SigningSecret. change (ps_HMACSecretEncrypted ps) with (String.append sealedPrefix c). change (ps_ID ps) with (pd_id dr). rewrite Ho.
    by rewrite string_bytes. }
  split.
  { change (ps_SystemType ps) with kind. change (ps_CallbackURL ps) with (cs_CallbackURL req). unfold pairing_credential in Ec. destruct (kind =?s "scim").
    - destruct (scim_config_error _ _) as [[]|] eqn:Es; [discriminate|discriminate|]. injection Ec as <-. done.
    - destruct (cs_BearerToken req =?s "") eqn:Et; [|discriminate]. by apply streqb_true in Et. }
  intros now' user. set (d1 := audited _ _ _).
  assert (app_registry d1 = <[pd_rid dr := set_ref RefSystem (Some (pd_id dr)) (new_app_record (pd_rid dr))]> (app_registry d)) as Hreg by reflexivity.
  apply not_true_iff_false. unfold system_access. rewrite exists_where_true. intros (i & a & Ha & Hx).
  apply andb_true_iff in Hx as [Hsys Hx]. apply (refers_true RefSystem) in Hsys.
  rewrite Hreg in Ha. apply lookup_insert_Some in Ha as [[<- <-]|[_ Ha]].
  - unfold effective_app_access in Hx. destruct (app_registry d1 !! _) as [b|] eqn:Eb; [|done]. destruct (users d1 !! user) as [x|]; [|done].
    rewrite Hreg in Eb. cbn [a_ID set_ref set_a_SystemID new_app_record] in Eb. rewrite lookup_insert_eq in Eb. injection Eb as <-.
    pose proof (unassigned_grants d now' (pd_rid dr) (u_ID x) Hfree) as Hgr. unfold app_allows, appAllowedSQL in Hx.
    apply andb_true_iff in Hx as [_ Hx]. change (grants now' d1 (pd_rid dr) (u_ID x) = true) in Hx. change (grants now' d1 (pd_rid dr) (u_ID x)) with (grants now' d (pd_rid dr) (u_ID x)) in Hx. congruence.
  - destruct (ro_live _ _ Hok i a RefSystem (ps_ID ps) Ha Hsys) as [y Hy]. cbn in Hnew, Hy. congruence.
Qed.
End pairing_facts.

(** ** Witnesses *)

#[local] Existing Instances sample_codec toy_aead.
#[local] Instance sample_far : Far := toy_far toy_reads.

Lemma outbox_registry_ok : registry_ok outbox_db.
Proof.
  assert (forall id a, app_registry outbox_db !! id = Some a -> id = "crm" /\ a = sample_app) as Hone.
  { intros id a Ha. change (app_registry outbox_db) with ({[ "crm" := sample_app ]} : gmap string AppRecord) in Ha.
    apply lookup_singleton_Some in Ha as [<- <-]. done. }
  assert (app_registry outbox_db !! "crm" = Some sample_app) as Hcrm by reflexivity.
  split.
  - intros id a Ha. by apply Hone in Ha as [-> ->].
  - intros id a k s Ha Hr. apply Hone in Ha as [-> ->]. destruct k; cbn in Hr; [| discriminate |]; injection Hr as <-; cbn; by eexists.
  - intros id1 id2 a1 a2 k s Ha1 Ha2 _ _. apply Hone in Ha1 as [-> _]. by apply Hone in Ha2 as [-> _].
  - intros id a Ha. by apply Hone in Ha as [-> ->].
  - intros [] s [x Hx]; cbn in Hx.
    + exists "crm", sample_app. split; [done|]. change (({[ "c1" := sample_client ]} : gmap string OAuthClient) !! s = Some x) in Hx.
      by apply lookup_singleton_Some in Hx as [<- _].
    + change ((∅ : gmap string Application) !! s = Some x) in Hx. by rewrite lookup_empty in Hx.
    + exists "crm", sample_app. split; [done|]. change (({[ "sys" := sample_system ]} : gmap string PairedSystem) !! s = Some x) in Hx.
      by apply lookup_singleton_Some in Hx as [<- _].
Qed.

Definition names_event (a b : string) : string := String.append a b.
Definition split_db : DB := (UnlinkAppRecord names_event "crm2" "crm" "system" 1 None (fun _ => JNull) t0 outbox_db).2.

Lemma split_run : UnlinkAppRecord names_event "crm2" "crm" "system" 1 None (fun _ => JNull) t0 outbox_db = (inr "crm2", split_db).
Proof. vm_compute. reflexivity. Qed.

Lemma the_registry_stays_a_directory_witness :
  is_Some (app_registry split_db !! "crm2") /\ registry_ok (CreateOAuthClient "crm3" (MkOAuthClient "c2" "Wiki" "public" "" None None None ""
    "" "" "" "" "" true 0) None t0 split_db).2.
Proof.
  split; [vm_compute; eexists; reflexivity|].
  set (c := MkOAuthClient "c2" _ _ _ _ _ _ _ _ _ _ _ _ _ _). destruct (CreateOAuthClient "crm3" c None t0 split_db) as [r d] eqn:Ec.
  refine (the_registry_stays_a_directory outbox_db d outbox_registry_ok (rtc_l _ _ _ _ _ (rtc_once _ _ _))).
  - exact (step_unlink _ _ _ _ _ _ _ _ _ _ _ split_run).
  - exact (step_create_client _ _ _ _ _ _ _ Ec).
Defined.

Lemma reshaping_keeps_access_witness :
  ClientAccessAllowed t0 split_db "bob" "c1" = true /\ system_access t0 split_db "sys" "bob" = true.
Proof.
  destruct (reshaping_keeps_access t0 "bob" outbox_db split_db outbox_registry_ok) as [G1 G2].
  - refine (reshaped_unlink _ _ _ _ _ _ _ _ _ _ _ _ split_run). vm_compute. reflexivity.
  - split; [rewrite G1; vm_compute; reflexivity|]. rewrite G2; [vm_compute; reflexivity|]. intros c cl Hc.
    change (({[ "c1" := sample_client ]} : gmap string OAuthClient) !! c = Some cl) in Hc. apply lookup_singleton_Some in Hc as [_ <-]. reflexivity.
Defined.

Lemma a_client_off_holds_nothing_witness : exists d', DeleteOAuthClient names_event "c1" None t0 outbox_db = (inr true, d') /\
  forall k t, issued_tokens d' !! k = Some t -> it_ClientID t = "c1" -> it_RevokedAt t <> None.
Proof.
  destruct (DeleteOAuthClient names_event "c1" None t0 outbox_db) as [r d'] eqn:Ed.
  assert (r = inr true) as -> by (replace r with (DeleteOAuthClient names_event "c1" None t0 outbox_db).1 by (rewrite Ed; reflexivity); vm_compute; reflexivity).
  exists d'. split; [reflexivity|]. exact (proj1 (proj1 (proj2 (a_client_off_holds_nothing names_event None t0 outbox_db d' outbox_registry_ok) "c1" Ed))).
Defined.

Definition sample_draws : PairDraws := MkPairDraws "sys2" "files" (repeat 9 12) (repeat 5 32).
Definition sample_pairing : CreateSystemRequest := MkCreateSystemRequest "Files" "suite_webhook" "" "" "https://files.example/hook" "".
Definition sample_parse (raw : string) : option ParsedURL := Some (MkParsedURL "https" "files.example" false "").

Lemma a_pairing_is_refused_or_usable_witness : exists ps shown d', 
  CreateSystem sample_parse false false (repeat 7 32) sample_draws sample_pairing None t0 outbox_db = (inr (ps, shown), d') /\
  SigningSecret (repeat 7 32) ps = Some shown /\ system_access t0 d' "sys2" "alice" = false.
Proof.
  destruct (CreateSystem sample_parse false false (repeat 7 32) sample_draws sample_pairing None t0 outbox_db) as [r d'] eqn:Ec.
  destruct (a_pairing_is_refused_or_usable sample_parse false false (repeat 7 32) sample_draws sample_pairing None t0 outbox_db r d' toy_aead_laws)
    as [(e & -> & _)|(ps & shown & secret & -> & _ & _ & _ & _ & _ & Hs & Hk & Ha)].
  - vm_compute. repeat constructor; discriminate.
  - reflexivity.
  - exact outbox_registry_ok.
  - vm_compute. reflexivity.
  - exact Ec.
  - exfalso. assert (match (CreateSystem sample_parse false false (repeat 7 32) sample_draws sample_pairing None t0 outbox_db).1 with inl _ => False | inr _ => True end)
      as G by (vm_compute; exact I). rewrite Ec in G. exact G.
  - exists ps, shown, d'. split; [reflexivity|]. split; [|apply Ha].
    assert (match (CreateSystem sample_parse false false (repeat 7 32) sample_draws sample_pairing None t0 outbox_db).1 with
      inl _ => False | inr p => (ps_SystemType p.1 =?s "scim") = false end) as G by (vm_compute; reflexivity).
    rewrite Ec in G. cbn in G. rewrite G in Hk. destruct Hk as [_ ->]. exact Hs.
Defined.
