(* ===== verification/Factors.v ===== *)
(** Password hashing and the second-factor engine: [auth/password.go],
    [mfa/mfa.go] and [mfa/appattest.go], with the store reads they use.

    Argon2id, the P-256 arithmetic, X.509, TOTP, the attestation verifiers and
    [url.Parse] are the operations of the class [Primitives]; every decision
    the engine takes on their results is written out.  Draws from the
    operating system's randomness are arguments. *)
From S2P Require Import Prelude Schema Access Sample Sessions Tokens StepUp Mfa Outbox AppAccess Directory Crypto Requests OAuth Net.
From stdpp Require Import sorting pretty.

Open Scope string_scope.
Open Scope Z_scope.

(** ** What the engine calls *)

(** [attest.Result]. *)
Record AttestResult := MkAttestResult { ar_Level : string; ar_Reason : string; ar_BootState : string; ar_Serials : list string }.

Inductive P256Parse := NotPKIX | OtherKey | P256Key (point : list Z).

(** The scheme, host name and port of a parsed URL. *)
Record IssuerURL := MkIssuerURL { iu_Scheme : string; iu_Hostname : string; iu_Port : string }.

Class Primitives := {
  argon2_IDKey : list Z -> list Z -> Z -> Z -> Z -> Z -> list Z; (** password, salt, iterations, memory, threads, length *)
  totp_Validate : string -> string -> Z -> option Z; (** the matched time step *)
  totp_Code_ok : string -> bool; (** [totp.Code] accepts the secret *)
  x509_ParsePKIX : list Z -> P256Parse;
  x509_MarshalPKIX : list Z -> list Z;
  p256_NewPublicKey : list Z -> bool; (** an uncompressed point on the curve *)
  ecdsa_VerifyASN1 : list Z -> list Z -> list Z -> bool; (** point, digest, signature *)
  url_Parse : string -> option ParsedURL;
  issuer_Parse : string -> option IssuerURL
}.

(** ** Password hashing *)

Record Argon2Params := MkArgon2Params { ap_Memory : Z; ap_Iterations : Z; ap_Parallelism : Z; ap_SaltLength : Z; ap_KeyLength : Z }.
Definition DefaultParams : Argon2Params := MkArgon2Params (64 * 1024) 3 4 16 32.
Definition MaxPasswordLength : nat := 1024.
Definition argon2_Version : Z := 19.

(** [HashMalformed] is an error of the scan or of base64. *)
Inductive PasswordError := ErrBusy | PolicyError (s : string) | HashError (s : string) | HashMalformed.

Section password.
Context `{Primitives}.

(** [busy]: every slot stayed taken for [argonWait]. *)
Definition idKey (busy : bool) (password salt : list Z) (iterations memory threads keyLen : Z) : PasswordError + list Z :=
  if busy then inl ErrBusy else inr (argon2_IDKey password salt iterations memory threads keyLen).

Definition encode_hash (salt hash : list Z) : string :=
  String.concat EmptyString ["$argon2id$v="; pretty argon2_Version; "$m="; pretty (ap_Memory DefaultParams); ",t=";
    pretty (ap_Iterations DefaultParams); ",p="; pretty (ap_Parallelism DefaultParams); "$";
    string_of (b64_encode RawStdEncoding salt); "$"; string_of (b64_encode RawStdEncoding hash)].

(** [salt] is the draw of [SaltLength] bytes. *)
Definition HashPassword (busy : bool) (salt : list Z) (password : string) : PasswordError + string :=
  if (String.length password <? 12)%nat then inl (PolicyError "password must be at least 12 characters")
  else if (MaxPasswordLength <? String.length password)%nat
  then inl (PolicyError "password must be at most 1024 characters")
  else match idKey busy (bytes_of password) salt (ap_Iterations DefaultParams) (ap_Memory DefaultParams)
      (ap_Parallelism DefaultParams) (ap_KeyLength DefaultParams) with
    | inl e => inl e
    | inr hash => inr (encode_hash salt hash)
    end.

(** The blanks [fmt.Sscanf] passes over before a verb; a newline ends the scan. *)
Fixpoint skip_space (fuel : nat) (l : list Z) : option (list Z) :=
  match fuel with
  | O => Some l
  | S fuel' =>
    match l with
    | 10 :: _ => None
    | _ => match space_at l with Some n => skip_space fuel' (skipn n l) | None => Some l end
    end
  end.

Fixpoint take_digits (l : list Z) : list Z * list Z :=
  match l with
  | c :: l' => if dec_digit c then let '(ds, r) := take_digits l' in (c :: ds, r) else ([], l)
  | [] => ([], [])
  end.

Definition digits_value (ds : list Z) : Z := fold_left (fun n c => n * 10 + (c - 48)) ds 0.

(** One [%d] into an unsigned field of [bits] bits, or with a sign into an [int]. *)
Definition scan_uint (bits : Z) (l : list Z) : option (Z * list Z) :=
  l ← skip_space (length l) l;
  let '(ds, r) := take_digits l in
  match ds with [] => None | _ => if digits_value ds <? 2 ^ bits then Some (digits_value ds, r) else None end.

Definition scan_int (l : list Z) : option (Z * list Z) :=
  l ← skip_space (length l) l;
  let '(sign, l) := match l with 45 :: l' => (-1, l') | 43 :: l' => (1, l') | _ => (1, l) end in
  let '(ds, r) := take_digits l in
  let n := sign * digits_value ds in
  match ds with [] => None | _ => if (- 2 ^ 63 <=? n) && (n <? 2 ^ 63) then Some (n, r) else None end.

(** Literal text of the format. *)
Fixpoint scan_literal (p l : list Z) : option (list Z) :=
  match p, l with
  | [], _ => Some l
  | x :: p', y :: l' => if x =? y then scan_literal p' l' else None
  | _ :: _, [] => None
  end.

(** [fmt.Sscanf(s, "v=%d", ...)]; text after the verb is ignored. *)
Definition scan_version (s : string) : option Z :=
  l ← scan_literal (bytes_of "v=") (bytes_of s); fst <$> scan_int l.

(** [fmt.Sscanf(s, "m=%d,t=%d,p=%d", ...)] into two [uint32] and a [uint8]. *)
Definition scan_params (s : string) : option (Z * Z * Z) :=
  l ← scan_literal (bytes_of "m=") (bytes_of s); '(m, l) ← scan_uint 32 l;
  l ← scan_literal (bytes_of ",t=") l; '(t, l) ← scan_uint 32 l;
  l ← scan_literal (bytes_of ",p=") l; '(p, _) ← scan_uint 8 l;
  Some (m, t, p).

Definition VerifyPassword (busy : bool) (password encodedHash : string) : PasswordError + bool :=
  match split_on 36 [] (bytes_of encodedHash) with
  | [_; alg; ver; params; saltText; hashText] =>
    if negb (string_of alg =?s "argon2id") then inl (HashError "unsupported algorithm") else
    match scan_version (string_of ver) with
    | None => inl HashMalformed
    | Some version =>
      if negb (version =? argon2_Version) then inl (HashError "incompatible argon2 version") else
      match scan_params (string_of params), b64_decode RawStdEncoding saltText, b64_decode RawStdEncoding hashText with
      | Some (memory, iterations, parallelism), Some salt, Some expectedHash =>
        match idKey busy (bytes_of password) salt iterations memory parallelism (Z.of_nat (length expectedHash) mod 2 ^ 32) with
        | inl e => inl e
        | inr calculatedHash => inr (list_eqb calculatedHash expectedHash)
        end
      | _, _, _ => inl HashMalformed
      end
    end
  | _ => inl (HashError "invalid hash format")
  end.

(** [dummyHash] is the hash built at start-up. *)
Definition DummyVerify (busy : bool) (dummyHash password : string) : option PasswordError :=
  let password := if (MaxPasswordLength <? String.length password)%nat then String.substring 0 MaxPasswordLength password else password in
  match VerifyPassword busy password dummyHash with inl ErrBusy => Some ErrBusy | _ => None end.
End password.

(** ** Store reads *)

Definition newest_device (a b : string * NativeDevice) : Prop := nd_CreatedAt b.2 <= nd_CreatedAt a.2.
#[export] Instance newest_device_dec a b : Decision (newest_device a b) := Z_le_dec _ _.

Definition listNativeDevices (p : NativeDevice -> bool) (d : DB) : list NativeDevice :=
  map snd (merge_sort newest_device (map_to_list (where_ p (native_devices d)))).

Definition ListUserNativeDevices (user : string) (d : DB) : list NativeDevice :=
  listNativeDevices (fun n => nd_UserID n =?s user) d.

Definition ListAttestedDevices (d : DB) : list NativeDevice :=
  listNativeDevices (fun n => nd_AttestedLevel n <>?s "none") d.

Definition GetNativeDevice (id : string) (d : DB) : option NativeDevice := native_devices d !! id.

(** Only the target the push service refused: a token refreshed meanwhile stays. *)
Definition ClearNativeDevicePushToken (stale : NativeDevice) : DB -> DB :=
  on_native_devices (update_where (fun n => (nd_ID n =?s nd_ID stale) && (nd_UserID n =?s nd_UserID stale) &&
    (nd_PushToken n =?s nd_PushToken stale) && (nd_PushP256dh n =?s nd_PushP256dh stale) && (nd_PushAuth n =?s nd_PushAuth stale))
  (fun n => MkNativeDevice (nd_ID n) (nd_UserID n) (nd_DeviceName n) (nd_DeviceIdentifier n) (nd_Platform n) (nd_PublicKey n)
    EmptyString (nd_PushTokenUpdatedAtMS n) (nd_PushTransport n) EmptyString EmptyString (nd_IsMFAApprover n) (nd_CanSignOn n)
    (nd_AttestedLevel n) (nd_AttestedAt n) (nd_BootState n) (nd_AttestationSerials n) (nd_LastSeenAt n) (nd_CreatedAt n))).

Definition ListUserMFAMethods (user : string) (d : DB) : list MFAMethod :=
  map snd (map_to_list (where_ (fun m => mm_UserID m =?s user) (mfa_methods d))).

Definition RecoveryCodeHMACPrefix : string := "hmac:".

Definition HasLegacyRecoveryCodes (user : string) (d : DB) : bool :=
  exists_where (fun c => (rc_UserID c =?s user) && is_null (rc_UsedAt c) &&
    negb (String.prefix RecoveryCodeHMACPrefix (lower (rc_CodeHash c)))) (recovery_codes d).

Definition GetValidRecoveryCodes (user : string) (d : DB) : list RecoveryCode :=
  map snd (map_to_list (where_ (fun c => (rc_UserID c =?s user) && is_null (rc_UsedAt c)) (recovery_codes d))).

Definition older_credential (a b : string * WebAuthnCredential) : Prop := wc_CreatedAt a.2 <= wc_CreatedAt b.2.
#[export] Instance older_credential_dec a b : Decision (older_credential a b) := Z_le_dec _ _.

Definition ListUserWebAuthnCredentials (user : string) (d : DB) : list WebAuthnCredential :=
  map snd (merge_sort older_credential (map_to_list (where_ (fun c => wc_UserID c =?s user) (webauthn_credentials d)))).

Definition GetWebAuthnCredential (user credential : string) (d : DB) : option WebAuthnCredential :=
  snd <$> find_where (fun c => (wc_UserID c =?s user) && (wc_CredentialID c =?s credential)) (webauthn_credentials d).

Definition RecordWebAuthnUse (id : string) (signCount : Z) (backupState : bool) (usedAt : Z) : DB -> DB :=
  on_webauthn_credentials (alter (fun c => MkWebAuthnCredential (wc_ID c) (wc_UserID c) (wc_CredentialID c) (wc_PublicKeySPKI c)
    signCount (wc_Name c) (wc_BackupEligible c) backupState (Some usedAt) (wc_CreatedAt c)) id).

Definition GetUserByUsername (username : string) (now : Z) (d : DB) : option User := scanUser now <$> find_username d username.

(** ** The engine *)

Inductive MFAError := MFAStore (e : StoreError) | InputError (s : string) | MFAText (s : string)
  | ErrPushPending | ErrUnsignedDevice | ErrMFAAttemptsExhausted.

Definition MRun : Type -> Type := Run DB MFAError.

(** One store transaction, and one store operation that keeps what it wrote when it fails. *)
Definition of_store {A} (r : (StoreError + A) * DB) : (MFAError + A) * DB :=
  match r with (inl e, d) => (inl (MFAStore e), d) | (inr a, d) => (inr a, d) end.
Definition store_tx {A} (m : STx A) : MRun A := fun d => of_store (commit m d).
Definition store_op {A} (m : DB -> (StoreError + A) * DB) : MRun A := fun d => of_store (m d).

Record AppAttestEvidence := MkAppAttestEvidence { aa_KeyID : string; aa_Attestation : string }.

Record NativeDeviceRegisterRequest := MkRegisterRequest { rr_PairingToken : string; rr_PINCode : string; rr_UserID : string;
  rr_DeviceName : string; rr_DeviceIdentifier : string; rr_Platform : string; rr_PublicKey : string; rr_PushToken : string;
  rr_PushTransport : string; rr_PushP256dh : string; rr_PushAuth : string; rr_Attestation : list string;
  rr_AppAttest : option AppAttestEvidence }.

(** A verdict of [AppAttestor.Verify]: a classified reason, or any other error. *)
Inductive AppAttestVerdict := AppAttested | AppAttestRefused (reason : string) | AppAttestError.

Record MFAChallengePush := MkPush { pu_ChallengeID : string; pu_Purpose : string; pu_ExpiresAtMS : Z; pu_Username : string }.

Inductive SendResult := Sent | StalePushToken | SendFailed.

(** [Attestor], [AppAttestor] and [PushSender] are interfaces; [None] is nil. *)
Record Engine := MkEngine { encryptionKey : list Z; issuerOrigin : string;
  attestor : option (list (list Z) -> list Z -> option (list Z) -> AttestResult);
  appAttestor : option (string -> list Z -> list Z -> AppAttestVerdict);
  pushSender : option (NativeDevice -> MFAChallengePush -> SendResult);
  unifiedPush : option (NativeDevice -> MFAChallengePush -> SendResult);
  ubuntuPush : option (NativeDevice -> MFAChallengePush -> SendResult) }.

Definition pairing_credential (req : NativeDeviceRegisterRequest) : string :=
  if rr_PairingToken req =?s EmptyString then String.append (rr_UserID req) (String.append "|" (rr_PINCode req))
  else rr_PairingToken req.

Definition ExpectedChallenge (req : NativeDeviceRegisterRequest) : list Z :=
  Sum256 (bytes_of (String.append "kyidentity-attest-v1|" (pairing_credential req))).

Definition AppAttestClientData (req : NativeDeviceRegisterRequest) : list Z :=
  bytes_of (String.concat EmptyString ["kyidentity-appattest-v1|"; pairing_credential req; "|"; rr_PublicKey req]).

Definition senderFor (e : Engine) (dev : NativeDevice) : option (NativeDevice -> MFAChallengePush -> SendResult) :=
  if nd_PushTransport dev =?s "unifiedpush" then unifiedPush e
  else if nd_PushTransport dev =?s "ubuntupush" then ubuntuPush e else pushSender e.

Definition SealTOTP : string := "mfa_totp".

Definition upper_ascii (c : Ascii.ascii) : Ascii.ascii :=
  let n := Ascii.N_of_ascii c in
  if ((97 <=? n) && (n <=? 122))%N then Ascii.ascii_of_N (n - 32) else c.

Fixpoint upper (s : string) : string :=
  match s with EmptyString => EmptyString | String c s' => String (upper_ascii c) (upper s') end.

Definition normalizeRecoveryCode (code : string) : string :=
  upper (string_of (List.filter (fun c => negb (c =? 45)) (bytes_of (TrimSpace code)))).

Definition recoveryCodeHash (e : Engine) (user normalized : string) : string :=
  String.append RecoveryCodeHMACPrefix (SignHMACSHA256 (DeriveKey (encryptionKey e) "kyidentity:recovery-code")
    (bytes_of (String.append user (String.append "|" normalized)))).

Definition normalizeDevicePlatform (platform : string) : option string :=
  let p := lower (TrimSpace platform) in
  if one_of p ["" ; "android"] then Some "android" else if one_of p ["ios"; "macos"; "linux"] then Some p else None.

Definition PlatformAllowsTransport (platform transport : string) : bool :=
  if transport =?s "fcm" then platform <>?s "linux"
  else if transport =?s "ubuntupush" then platform =?s "linux" else true.

(** [draw] is [rand.Int(rand.Reader, 90)]. *)
Definition randomMatchNumber (draw : Z) : Z := draw + 10.

(** The loop of [CreatePushChallenge]; [fuel] is the number of attempts left. *)
Fixpoint decoy_loop (fuel : nat) (draw : nat -> Z) (seen : list Z) (decoys : list string) : option (list string) :=
  if (3 <=? length decoys)%nat then Some decoys else
  match fuel with
  | O => None
  | S fuel' =>
    let n := randomMatchNumber (draw O) in
    if existsb (Z.eqb n) seen then decoy_loop fuel' (fun i => draw (S i)) seen decoys
    else decoy_loop fuel' (fun i => draw (S i)) (n :: seen) (decoys ++ [pretty n])
  end.

(** ** Push targets *)

Definition has_char (c : Z) (s : string) : bool := existsb (Z.eqb c) (bytes_of s).

Definition decodeBase64URL (s : string) : option (list Z) :=
  if has_char 13 s || has_char 10 s then None
  else if List.last (bytes_of s) 0 =? 61 then b64_decode URLEncoding (bytes_of s) else b64_decode RawURLEncoding (bytes_of s).

Definition MaxPushTokenBytes : nat := 4096.

(** The pattern of [ubuntuPushToken]. *)
Definition token_char (c : Z) : bool :=
  ((65 <=? c) && (c <=? 90)) || ((97 <=? c) && (c <=? 122)) || ((48 <=? c) && (c <=? 57)) ||
  existsb (Z.eqb c) (bytes_of "+/=_.:-").
Definition ubuntuPushToken (s : string) : bool :=
  (1 <=? String.length s)%nat && (String.length s <=? 512)%nat && forallb token_char (bytes_of s).

Definition errInvalidPushTarget : MFAError := InputError "invalid push target".

Section engine.
Context `{Primitives}.

Definition push_keys_ok (p256dh auth : string) : bool :=
  match decodeBase64URL p256dh, decodeBase64URL auth with
  | Some pub, Some secret => p256_NewPublicKey pub && (length secret =? 16)%nat
  | _, _ => false
  end.

(** The effective transport; [AllowPrivate] is the policy [netguard] was configured with. *)
Definition ValidatePushTarget (AllowPrivate AllowLoopback : bool) (transport pushToken p256dh auth : string) : option string :=
  if (pushToken =?s EmptyString) || (MaxPushTokenBytes <? String.length pushToken)%nat then None
  else if one_of transport [""; "fcm"] then
    if (p256dh =?s EmptyString) && (auth =?s EmptyString) then Some "fcm"
    else if push_keys_ok p256dh auth then Some "fcm" else None
  else if transport =?s "unifiedpush" then
    if is_null (ValidateDeviceURL url_Parse AllowPrivate AllowLoopback pushToken) && push_keys_ok p256dh auth then Some transport else None
  else if transport =?s "ubuntupush" then
    if ubuntuPushToken pushToken && push_keys_ok p256dh auth then Some transport else None
  else None.

Definition IssuerOrigin (issuerURL : string) : option string :=
  u ← issuer_Parse (TrimSpace issuerURL);
  if (iu_Scheme u =?s EmptyString) || (iu_Hostname u =?s EmptyString) then None else
  let scheme := lower (iu_Scheme u) in
  let host := lower (iu_Hostname u) in
  let port := if ((scheme =?s "https") && (iu_Port u =?s "443")) || ((scheme =?s "http") && (iu_Port u =?s "80"))
    then EmptyString else iu_Port u in
  let bracketed := if has_char 58 host then String.concat EmptyString ["["; host; "]"] else host in
  Some (String.concat EmptyString [scheme; "://"; bracketed; if port =?s EmptyString then EmptyString else String.append ":" port]).

(** ** Device keys *)

(** The point of the key. *)
Definition ParseP256PublicKey (encoded : string) : option (list Z) :=
  raw ← decodeBase64Any encoded;
  match x509_ParsePKIX raw with
  | P256Key point => Some point
  | OtherKey => None
  | NotPKIX => if p256_NewPublicKey raw then Some raw else None
  end.

Definition P256SPKI (encoded : string) : option (list Z) := x509_MarshalPKIX <$> ParseP256PublicKey encoded.

Definition VerifyECDSAP256 (publicKey : string) (message : list Z) (signature : string) : bool :=
  match ParseP256PublicKey publicKey, decodeBase64Any signature with
  | Some pub, Some sig => ecdsa_VerifyASN1 pub (Sum256 message) sig
  | _, _ => false
  end.

(** ** Enrolment *)

(** The stored grade, the boot state and the serials; the last component is the audit row's reason. *)
Definition graded (level boot : string) (serials : list string) (dev : NativeDevice) : NativeDevice :=
  MkNativeDevice (nd_ID dev) (nd_UserID dev) (nd_DeviceName dev) (nd_DeviceIdentifier dev) (nd_Platform dev) (nd_PublicKey dev)
    (nd_PushToken dev) (nd_PushTokenUpdatedAtMS dev) (nd_PushTransport dev) (nd_PushP256dh dev) (nd_PushAuth dev)
    (nd_IsMFAApprover dev) (nd_CanSignOn dev) level (nd_AttestedAt dev) boot serials (nd_LastSeenAt dev) (nd_CreatedAt dev).

Definition gradeAppAttest (e : Engine) (req : NativeDeviceRegisterRequest) (dev : NativeDevice) : NativeDevice * string :=
  match rr_AppAttest req with
  | None => (dev, EmptyString)
  | Some evidence =>
    let none := graded "none" "unknown" (nd_AttestationSerials dev) dev in
    match appAttestor e with
    | None => (none, "app attest not configured")
    | Some verify =>
      match b64_decode StdEncoding (bytes_of (aa_Attestation evidence)) with
      | None => (none, "attestation object malformed")
      | Some obj =>
        match verify (aa_KeyID evidence) obj (Sum256 (AppAttestClientData req)) with
        | AppAttested => (graded "appattest" "unknown" (nd_AttestationSerials dev) dev, EmptyString)
        | AppAttestRefused reason => (none, reason)
        | AppAttestError => (none, "app attest verification failed")
        end
      end
    end
  end.

(** One bad certificate empties the chain. *)
Definition decode_chain (l : list string) : list (list Z) :=
  default [] (mapM (fun b64 => b64_decode StdEncoding (bytes_of b64)) l).

Definition gradeAttestation (e : Engine) (req : NativeDeviceRegisterRequest) (dev : NativeDevice) : NativeDevice * string :=
  if nd_Platform dev =?s "ios" then gradeAppAttest e req dev else
  match attestor e, rr_Attestation req with
  | Some verify, (_ :: _) as certs =>
    if nd_Platform dev =?s "android" then
      let res := verify (decode_chain certs) (ExpectedChallenge req) (P256SPKI (rr_PublicKey req)) in
      (graded (ar_Level res) (ar_BootState res) (ar_Serials res) dev, ar_Reason res)
    else (dev, EmptyString)
  | _, _ => (dev, EmptyString)
  end.

(** The token or PIN the request presents. *)
Definition presented_pairing (req : NativeDeviceRegisterRequest) (now : Z) : MRun (option DevicePairingToken) := fun d =>
  if rr_PairingToken req <>?s EmptyString then (inr (GetValidDevicePairingToken (HashSHA256 (rr_PairingToken req)) now d), d)
  else if (rr_PINCode req <>?s EmptyString) && (rr_UserID req <>?s EmptyString) then
    let '(r, d) := MatchDevicePairingPIN (rr_UserID req) (HashSHA256 (rr_PINCode req)) now d in (inr r, d)
  else if rr_PINCode req <>?s EmptyString then (inl (InputError "a userId is required when pairing with a PIN"), d)
  else (inl (InputError "pairingToken or pinCode is required"), d).

Definition paired_device (deviceID platform transport : string) (req : NativeDeviceRegisterRequest) (t : DevicePairingToken) : NativeDevice :=
  MkNativeDevice deviceID (dp_UserID t) (or_default (rr_DeviceName req) "KyAuth Device") (rr_DeviceIdentifier req) platform
    (rr_PublicKey req) (TrimSpace (rr_PushToken req)) 0 transport (rr_PushP256dh req) (rr_PushAuth req) true (dp_SignOn t)
    EmptyString None EmptyString [] None 0.

Definition RegisterNativeDevice (e : Engine) (AllowPrivate AllowLoopback : bool) (deviceID methodID : string)
    (req : NativeDeviceRegisterRequest) (audit : NativeDevice -> string -> option AuditEvent) (now : Z) : MRun NativeDevice :=
  run_guard (rr_PublicKey req <>?s EmptyString) (InputError "a device public key is required to pair an authenticator") ~;;
  run_guard (TrimSpace (rr_PushToken req) <>?s EmptyString) (InputError "a push token is required to pair an authenticator") ~;;
  match ValidatePushTarget AllowPrivate AllowLoopback (rr_PushTransport req) (TrimSpace (rr_PushToken req)) (rr_PushP256dh req) (rr_PushAuth req) with
  | None => run_fail errInvalidPushTarget
  | Some transport =>
    match normalizeDevicePlatform (rr_Platform req) with
    | None => run_fail (InputError "unsupported device platform")
    | Some platform =>
      run_guard (PlatformAllowsTransport platform transport) errInvalidPushTarget ~;;
      run_guard (negb (is_null (ParseP256PublicKey (rr_PublicKey req)))) (InputError "device public key is not a valid P-256 key") ~;;
      valid <~ presented_pairing req now ;;
      match valid with
      | None => run_fail (InputError "invalid or expired pairing token")
      | Some t =>
        let '(dev, reason) := gradeAttestation e req (paired_device deviceID platform transport req t) in
        enrolled <~ store_tx (RegisterNativeDeviceWithPairingToken (dp_ID t) dev
          (MkMFAMethod methodID (dp_UserID t) "push" EmptyString false 0 0) (fun stored => audit stored reason) now) ;;
        match enrolled with
        | None => run_fail (InputError "pairing token has already been redeemed or expired")
        | Some stored => run_ret stored
        end
      end
    end
  end.

(** A pairing token of 24 random bytes and a six-digit PIN drawn from [src]. *)
Definition GenerateDevicePairingToken (id : string) (raw src : list Z) (user : string) (signOn : bool) (audit : option AuditEvent) (now : Z) :
    MRun (string * string * Z) :=
  match GenerateRandomPIN 6 src with
  | Some (inr pin) =>
    let token := string_of (hex_encode raw) in
    let expiresAt := now + 90 * second in
    store_op (CreateDevicePairingToken (MkDevicePairingToken id user (HashSHA256 token) (HashSHA256 pin) signOn 0 expiresAt None 0) audit now) ~;;
    run_ret (token, pin, expiresAt)
  | _ => run_fail (MFAText "randomness failed")
  end.
End engine.

Section challenges.
Context `{Primitives} `{AEAD}.

(** ** TOTP *)

Definition SaveUserTOTP (e : Engine) (id : string) (nonce : list Z) (user secretBase32 : string) (audit : option AuditEvent) (now : Z) : MRun unit :=
  run_guard (totp_Code_ok secretBase32) (MFAText "invalid TOTP secret") ~;;
  match Seal (encryptionKey e) SealTOTP user (bytes_of secretBase32) nonce with
  | None => run_fail (MFAText "failed to encrypt TOTP secret")
  | Some encrypted => store_tx (SetMFAMethod (MkMFAMethod id user "totp" encrypted true 0 0) audit now)
  end.

(** A correct code is accepted once: the matched step is spent. *)
Definition VerifyUserTOTP (e : Engine) (user code : string) (now : Z) : MRun bool := fun d =>
  match GetMFAMethod user "totp" d with
  | None => (inl (MFAText "TOTP not enrolled for this user"), d)
  | Some method =>
    if mm_EncryptedSecret method =?s EmptyString then (inl (MFAText "TOTP not enrolled for this user"), d) else
    match Open (encryptionKey e) SealTOTP (mm_UserID method) (mm_EncryptedSecret method) with
    | Opened decrypted =>
      match totp_Validate (string_of decrypted) code now with
      | None => (inr false, d)
      | Some counter => let '(ok, d) := ConsumeTOTPCounter user counter d in (inr ok, d)
      end
    | _ => (inl (MFAText "failed to decrypt TOTP secret"), d)
    end
  end.

(** ** Recovery codes *)

(** The code of draw [i]: two halves of four characters. *)
Definition recovery_code (src : nat -> list Z * list Z) (i : nat) : option string :=
  match GenerateRandomAlphanumeric 4 (src i).1, GenerateRandomAlphanumeric 4 (src i).2 with
  | Some (inr lhs), Some (inr rhs) => Some (String.append lhs (String.append "-" rhs))
  | _, _ => None
  end.

Definition recovery_row (e : Engine) (user : string) (id code : string) : RecoveryCode :=
  MkRecoveryCode id user (recoveryCodeHash e user (normalizeRecoveryCode code)) None 0.

Definition GenerateRecoveryCodes (e : Engine) (newid : nat -> string) (src : nat -> list Z * list Z) (user : string)
    (audit : option AuditEvent) (now : Z) : MRun (list string) :=
  match mapM (recovery_code src) (seq 0 8) with
  | None => run_fail (MFAText "random source failed")
  | Some plainCodes =>
    store_tx (ReplaceRecoveryCodes user (imap (fun i code => recovery_row e user (newid i) code) plainCodes) audit now) ~;;
    run_ret plainCodes
  end.

Definition VerifyAndConsumeRecoveryCode (e : Engine) (user code : string) (audit : option AuditEvent) (now : Z) : MRun bool :=
  let normalized := normalizeRecoveryCode code in
  store_op (ConsumeRecoveryCode user (recoveryCodeHash e user normalized) (HashSHA256 normalized) audit now).

(** ** Push challenges *)

Definition unix_milli (t : Z) : Z := t / 1000000.

(** What one device is sent. *)
Definition push_of (ch : MFAChallenge) (now : Z) (d : DB) : MFAChallengePush :=
  MkPush (mc_ID ch) (mc_Purpose ch) (unix_milli (mc_ExpiresAt ch))
    (match get_user now d (mc_UserID ch) with Some u => u_Username u | None => EmptyString end).

(** The devices of the challenge's owner that have a sender, with what they are sent. *)
Definition push_targets (e : Engine) (ch : MFAChallenge) (now : Z) (d : DB) : list (NativeDevice * SendResult) :=
  omap (fun dev =>
    match senderFor e dev with
    | Some send => if nd_IsMFAApprover dev && (nd_PushToken dev <>?s EmptyString) then Some (dev, send dev (push_of ch now d)) else None
    | None => None
    end) (ListUserNativeDevices (mc_UserID ch) d).

(** The sends are concurrent; each one touches its own device's row. *)
Definition dispatchPushChallenge (e : Engine) (ch : MFAChallenge) (now : Z) (d : DB) : DB :=
  fold_left (fun d t => match t.2 with StalePushToken => ClearNativeDevicePushToken t.1 d | _ => d end) (push_targets e ch now d) d.

(** [match_draw] and [decoy_draw] are the draws of [randomMatchNumber]. *)
Definition CreatePushChallenge (e : Engine) (id : string) (match_draw : Z) (decoy_draw : nat -> Z) (user purpose : string) (now : Z) :
    MRun MFAChallenge :=
  run_guard (one_of purpose ["login"; "step_up"]) (MFAText "unknown push purpose") ~;;
  let matchNum := randomMatchNumber match_draw in
  match decoy_loop 201 decoy_draw [matchNum] [] with
  | None => run_fail (MFAText "failed to generate distinct decoy digits")
  | Some decoys =>
    let challenge := MkMFAChallenge None id user "push" (pretty matchNum) decoys "pending" purpose
      ((now + 5 * minute) / second * second) 0 in
    (if purpose =?s "login" then
       created <~ store_tx (CreateLoginPushChallenge challenge now) ;; run_guard created ErrPushPending
     else store_tx (CreateMFAChallenge challenge now)) ~;;
    (fun d => (inr challenge, dispatchPushChallenge e challenge now d))
  end.

Record PushBinding := MkPushBinding { pb_Origin : string; pb_UserID : string; pb_DeviceID : string; pb_ChallengeID : string;
  pb_Purpose : string; pb_ExpiresAtMS : Z }.

Definition push_field_ok (f : string) : bool := (f <>?s EmptyString) && negb (has_char 124 f).

Definition PushResponseMessage (b : PushBinding) (approve : bool) (selectedDigits : string) : option string :=
  if negb (one_of (pb_Purpose b) ["login"; "step_up"]) then None
  else if negb (forallb push_field_ok [pb_Origin b; pb_UserID b; pb_DeviceID b; pb_ChallengeID b]) then None
  else if has_char 124 selectedDigits then None
  else Some (String.concat "|" ["kyidentity-push-v2"; pb_Origin b; pb_UserID b; pb_DeviceID b; pb_ChallengeID b; pb_Purpose b;
    pretty (pb_ExpiresAtMS b); (if approve then "approve" else "deny"); selectedDigits]).

Definition PushTokenRefreshMessage (origin deviceID : string) (issuedAtMS : Z) (transport pushToken p256dh auth : string) : option string :=
  if existsb (String.eqb EmptyString) [origin; deviceID; transport] then None
  else if existsb (has_char 124) [origin; deviceID; transport; p256dh; auth] then None
  else Some (String.concat "|" ["kyidentity-push-token-v2"; origin; deviceID; pretty issuedAtMS; transport; HashSHA256 pushToken; p256dh; auth]).

Definition errNoMatch : MFAError := MFAText "signature does not match any paired device".

Definition push_binding (e : Engine) (ch : MFAChallenge) (dev : NativeDevice) : PushBinding :=
  MkPushBinding (issuerOrigin e) (mc_UserID ch) (nd_ID dev) (mc_ID ch) (mc_Purpose ch) (unix_milli (mc_ExpiresAt ch)).

Definition verifyDeviceSignature (e : Engine) (ch : MFAChallenge) (deviceID : string) (approve : bool) (selectedDigits signature : string)
    (d : DB) : MFAError + NativeDevice :=
  if negb (existsb (fun n => nd_IsMFAApprover n && (nd_PublicKey n <>?s EmptyString)) (ListUserNativeDevices (mc_UserID ch) d))
  then inl ErrUnsignedDevice else
  match GetNativeDevice deviceID d with
  | None => inl errNoMatch
  | Some dev =>
    if negb ((nd_UserID dev =?s mc_UserID ch) && nd_IsMFAApprover dev && (nd_PublicKey dev <>?s EmptyString)) then inl errNoMatch else
    match PushResponseMessage (push_binding e ch dev) approve selectedDigits with
    | Some msg => if VerifyECDSAP256 (nd_PublicKey dev) (bytes_of msg) signature then inr dev else inl errNoMatch
    | None => inl errNoMatch
    end
  end.

Definition errNotPending : MFAError := MFAText "challenge is no longer pending".

Definition RespondPushChallenge (e : Engine) (challengeID namedDeviceID selectedDigits : string) (approve : bool) (signature : string) (now : Z) :
    MRun (bool * string) := fun d =>
  match GetMFAChallenge challengeID d with
  | None => (inl (MFAText "challenge not found"), d)
  | Some ch =>
    if mc_Status ch <>?s "pending" then (inl errNotPending, d)
    else if mc_ExpiresAt ch <? now then
      (inl (MFAText "challenge expired"), (TransitionMFAChallengeStatus (mc_ID ch) "pending" "expired" now d).2)
    else match verifyDeviceSignature e ch namedDeviceID approve selectedDigits signature d with
      | inl err => (inl err, d)
      | inr device =>
        let approved := approve && (selectedDigits =?s mc_MatchDigits ch) in
        match TransitionMFAChallengeStatus (mc_ID ch) "pending" (if approved then "approved" else "denied") now d with
        | (inl err, d) => (inl (MFAStore err), d)
        | (inr false, d) => (inl errNotPending, d)
        | (inr true, d) => (inr (approved, nd_ID device), d)
        end
      end
  end.

(** The status and the owner. *)
Definition CheckPushChallenge (challengeID : string) (now : Z) : MRun (string * string) := fun d =>
  match GetMFAChallenge challengeID d with
  | None => (inl (MFAText "challenge not found"), d)
  | Some ch =>
    if (mc_Status ch =?s "pending") && (mc_ExpiresAt ch <? now) then
      match TransitionMFAChallengeStatus (mc_ID ch) "pending" "expired" now d with
      | (inr true, d) => (inr ("expired", mc_UserID ch), d)
      | (_, d) => (inr (mc_Status ch, mc_UserID ch), d)
      end
    else (inr (mc_Status ch, mc_UserID ch), d)
  end.

(** ** Pending sign-ins *)

Definition MFATokenTTL : Z := 5 * minute.
Definition MaxMFAAttempts : Z := 5.

(** [raw] is the draw of 32 bytes. *)
Definition IssueMFATokenForInteraction (id : string) (raw : list Z) (user : string) (challengeID : string) (primaryAt : Z)
    (interactionHash provenPasswordHash : string) (now : Z) : MRun string :=
  let token := string_of (hex_encode raw) in
  store_tx (CreateMFAToken (MkMFAToken provenPasswordHash interactionHash (Some primaryAt) id user (HashSHA256 token) (Some challengeID) 0
    (now + MFATokenTTL) None 0) now) ~;;
  run_ret token.

Definition IssueMFAToken (id : string) (raw : list Z) (user challengeID : string) (primaryAt now : Z) : MRun string :=
  IssueMFATokenForInteraction id raw user challengeID primaryAt EmptyString EmptyString now.

Definition ReserveMFAAttemptE (tokenID : string) (now : Z) : MRun Z := fun d =>
  let '(n, d) := Mfa.ReserveMFAAttempt tokenID MaxMFAAttempts now d in
  (if n =? 0 then inl ErrMFAAttemptsExhausted else inr n, d).

Definition ValidateMFAToken (rawToken : string) (now : Z) (d : DB) : MFAError + MFAToken :=
  if (rawToken =?s EmptyString) || (256 <? String.length rawToken)%nat then inl (MFAText "invalid mfa token") else
  match GetValidMFAToken (HashSHA256 (TrimSpace rawToken)) MaxMFAAttempts now d with
  | Some token => inr token
  | None => inl (MFAText "invalid or expired mfa token")
  end.

(** ** Attestation sweep

    [revoked] is [status.Revoked]: unknown serials never downgrade. *)
Fixpoint first_revoked (revoked : string -> bool * bool) (serials : list string) : string :=
  match serials with
  | [] => EmptyString
  | s :: rest => if (revoked s).1 && (revoked s).2 then String.concat EmptyString ["certificate "; s; " revoked"] else first_revoked revoked rest
  end.

Definition sweep_reason (revoked : string -> bool * bool) (requireLocked : bool) (dev : NativeDevice) : string :=
  let reason := first_revoked revoked (nd_AttestationSerials dev) in
  if (reason =?s EmptyString) && requireLocked && negb (one_of (nd_BootState dev) ["locked-verified"; "locked-selfsigned"])
  then String.concat EmptyString ["bootloader not locked ("; nd_BootState dev; ")"] else reason.

(** [audit] is the caller's audit write, a transaction of its own. *)
Fixpoint sweep_devices (revoked : string -> bool * bool) (requireLocked : bool) (audit : string -> string -> string -> DB -> DB)
    (devices : list NativeDevice) (downgraded : Z) (now : Z) (d : DB) : (StoreError + Z) * DB :=
  match devices with
  | [] => (inr downgraded, d)
  | dev :: rest =>
    let reason := sweep_reason revoked requireLocked dev in
    if (nd_AttestedLevel dev =?s "appattest") || (reason =?s EmptyString)
    then sweep_devices revoked requireLocked audit rest downgraded now d else
    match SetNativeDeviceAttestation (nd_ID dev) (nd_PublicKey dev) "none" (nd_BootState dev) (nd_AttestationSerials dev) now d with
    | (inl err, d) => (inl err, d)
    | (inr false, d) => sweep_devices revoked requireLocked audit rest downgraded now d
    | (inr true, d) => sweep_devices revoked requireLocked audit rest (downgraded + 1) now (audit (nd_ID dev) (nd_UserID dev) reason d)
    end
  end.

Definition SweepAttestations (revoked : string -> bool * bool) (requireLocked : bool) (audit : string -> string -> string -> DB -> DB)
    (now : Z) (d : DB) : (StoreError + Z) * DB :=
  sweep_devices revoked requireLocked audit (ListAttestedDevices d) 0 now d.
End challenges.

(** ** Facts *)

Lemma has_char_false c s : has_char c s = false <-> ~ In c (bytes_of s).
Proof.
  unfold has_char. rewrite <- not_true_iff_false, existsb_exists. split; intros Hn Hi; apply Hn.
  - exists c. by rewrite Z.eqb_refl.
  - destruct Hi as (x & Hx & E). by apply Z.eqb_eq in E as <-.
Qed.

Lemma concat_bar x y l : String.concat "|" (x :: y :: l) = String.append x (String (Ascii.ascii_of_N 124) (String.concat "|" (y :: l))).
Proof. reflexivity. Qed.

(** Texts joined by bars they do not contain are read back. *)
Lemma bars_inj l : forall l', length l = length l' -> Forall no_bar l -> Forall no_bar l' ->
  String.concat "|" l = String.concat "|" l' -> l = l'.
Proof.
  induction l as [|x l IH]; intros [|x' l'] Hlen Hl Hl' E; [done|done|done|].
  inversion Hl as [|? ? Hx Hl0]; subst. inversion Hl' as [|? ? Hx' Hl0']; subst.
  destruct l as [|y l], l' as [|y' l']; try discriminate; [cbn in E; by subst|].
  rewrite !concat_bar in E. apply (f_equal bytes_of) in E. rewrite !bytes_app in E. cbn [bytes_of] in E.
  apply split_at_bar in E as [E1 E2]; [|done|done]. apply bytes_of_inj in E1, E2. subst x'. f_equal.
  apply IH; auto.
Qed.

Lemma no_bar_app a b : no_bar (String.append a b) <-> no_bar a /\ no_bar b.
Proof. unfold no_bar. rewrite bytes_app, in_app_iff. tauto. Qed.

Lemma pretty_N_no_bar x : forall s, no_bar s -> no_bar (pretty_N_go x s).
Proof.
  induction (N.lt_wf_0 x) as [x _ IH]; intros s Hs.
  destruct (decide (x = 0)%N) as [->|Hx]; [by rewrite pretty_N_go_0|].
  rewrite pretty_N_go_step by lia. apply IH; [apply N.div_lt; lia|].
  unfold no_bar in *. cbn. intros [E|Hi]; [|done]. unfold pretty_N_char in E. by repeat case_match.
Qed.

Lemma pretty_no_bar (z : Z) : no_bar (pretty z).
Proof.
  assert (no_bar EmptyString) as He by (intros []). destruct z as [|p|p].
  - intros [E|[]]. discriminate.
  - by apply pretty_N_no_bar.
  - change (no_bar (String (Ascii.ascii_of_N 45) (pretty_N_go (N.pos p) EmptyString))). intros [E|Hi]; [discriminate|].
    by apply pretty_N_no_bar in Hi.
Qed.

Lemma hex_char b : is_byte b -> In (nth (Z.to_nat (b / 16)) hex_digits 0) hex_digits /\ In (nth (Z.to_nat (b mod 16)) hex_digits 0) hex_digits.
Proof.
  intros Hb. unfold is_byte in Hb. change hex_digits with hex_digits.
  split; apply nth_In; cbn [length hex_digits bytes_of];
    [pose proof (Z.div_lt_upper_bound b 16 16); pose proof (Z.div_pos b 16)|pose proof (Z.mod_pos_bound b 16)];
    change (length hex_digits) with 16%nat; lia.
Qed.

Lemma hex_no_bar m : Forall is_byte m -> no_bar (string_of (hex_encode m)).
Proof.
  intros Hm. unfold no_bar. rewrite bytes_string by (by apply hex_roundtrip). unfold hex_encode.
  rewrite in_concat. intros (q & Hq & Hi). apply in_map_iff in Hq as (b & <- & Hb).
  rewrite List.Forall_forall in Hm. destruct (hex_char b (Hm b Hb)) as [H1 H2].
  assert (In 124 hex_digits) as Hbad by (destruct Hi as [<-|[<-|[]]]; done).
  vm_compute in Hbad. repeat destruct Hbad as [Hbad|Hbad]; done.
Qed.

Lemma HashSHA256_no_bar s : no_bar (HashSHA256 s).
Proof. apply hex_no_bar, Sum256_spec. Qed.

Lemma one_of_no_bar s l : one_of s l = true -> forallb (fun x => negb (has_char 124 x)) l = true -> no_bar s.
Proof.
  intros Hs Hl. apply one_of_true in Hs. rewrite forallb_forall in Hl. specialize (Hl s Hs).
  apply has_char_false. by destruct (has_char 124 s).
Qed.

Lemma push_field_no_bar f : push_field_ok f = true -> no_bar f.
Proof. unfold push_field_ok. intros Hf. bool_hyps. apply has_char_false. by destruct (has_char 124 f). Qed.

Section message_facts.
Context `{Primitives} `{AEAD}.

(** The fields of a message that was built hold no bar. *)
Lemma push_message_fields b approve digits m : PushResponseMessage b approve digits = Some m ->
  let l := ["kyidentity-push-v2"; pb_Origin b; pb_UserID b; pb_DeviceID b; pb_ChallengeID b; pb_Purpose b;
    pretty (pb_ExpiresAtMS b); (if approve then "approve" else "deny"); digits] in
  m = String.concat "|" l /\ Forall no_bar l.
Proof.
  unfold PushResponseMessage. destruct (one_of _ _) eqn:E1; [|done]. destruct (forallb _ _) eqn:E2; [|done].
  destruct (has_char 124 digits) eqn:E3; [done|]. cbn [negb]. intros [= <-]. split; [done|].
  rewrite forallb_forall in E2. apply has_char_false in E3.
  repeat first [apply List.Forall_nil | apply List.Forall_cons];
    try (apply push_field_no_bar, E2; cbn; tauto); try exact E3; try apply pretty_no_bar.
  - apply has_char_false. reflexivity.
  - by apply (one_of_no_bar _ _ E1).
  - apply has_char_false. by destruct approve.
Qed.

(** C: push_message_injective *)
Theorem push_message_injective b b' approve approve' digits digits' m :
  PushResponseMessage b approve digits = Some m -> PushResponseMessage b' approve' digits' = Some m ->
  b = b' /\ approve = approve' /\ digits = digits'.
Proof.
  intros E1 E2. apply push_message_fields in E1 as [-> F1], E2 as [E F2].
  apply bars_inj in E; [|done|done|done].
  injection E as H1 H2 H3 H4 H5 H6 H7 H8. apply (inj pretty) in H6.
  split; [destruct b, b'; cbn in *; congruence|]. split; [by destruct approve, approve'|done].
Qed.

Lemma refresh_message_injective origin id at_ transport token p256dh auth origin' id' at' transport' token' p256dh' auth' m :
  PushTokenRefreshMessage origin id at_ transport token p256dh auth = Some m ->
  PushTokenRefreshMessage origin' id' at' transport' token' p256dh' auth' = Some m ->
  (origin, id, at_, transport, HashSHA256 token, p256dh, auth) = (origin', id', at', transport', HashSHA256 token', p256dh', auth').
Proof.
  assert (forall o i a t k p u m, PushTokenRefreshMessage o i a t k p u = Some m ->
    let l := ["kyidentity-push-token-v2"; o; i; pretty a; t; HashSHA256 k; p; u] in m = String.concat "|" l /\ Forall no_bar l) as Hf.
  { intros o i a t k p u n. unfold PushTokenRefreshMessage. destruct (existsb (String.eqb _) _); [done|].
    destruct (existsb _ _) eqn:E; [done|]. intros [= <-]. split; [done|].
    cbn in E. rewrite !orb_false_iff in E. destruct E as (E1 & E2 & E3 & E4 & E5 & _).
    repeat first [apply List.Forall_nil | apply List.Forall_cons]; try (by apply has_char_false);
      [apply pretty_no_bar|apply HashSHA256_no_bar]. }
  intros E1 E2. apply Hf in E1 as [-> F1], E2 as [E F2]. apply bars_inj in E; [|done|done|done].
  injection E as <- <- H3 <- H5 <- <-. apply (inj pretty) in H3. congruence.
Qed.
End message_facts.

(** ** Approvals *)

Section approval_facts.
Context `{Primitives} `{AEAD}.

Lemma listed_device p d k n : native_devices d !! k = Some n -> p n = true -> In n (listNativeDevices p d).
Proof.
  intros Hk Hp. unfold listNativeDevices. apply in_map_iff. exists (k, n). split; [done|].
  apply list_elem_of_In. rewrite merge_sort_Permutation. apply elem_of_map_to_list, lookup_where. done.
Qed.

(** The device a response may name, and what it must have signed. *)
Definition signed_by (e : Engine) (ch : MFAChallenge) (named : string) (approve : bool) (digits signature : string) (d : DB)
    (dev : NativeDevice) : Prop :=
  native_devices d !! named = Some dev /\ nd_UserID dev = mc_UserID ch /\ nd_IsMFAApprover dev = true /\ nd_PublicKey dev <> EmptyString /\
  exists msg, PushResponseMessage (push_binding e ch dev) approve digits = Some msg /\
    VerifyECDSAP256 (nd_PublicKey dev) (bytes_of msg) signature = true.

Lemma verifyDeviceSignature_iff e ch named approve digits signature d dev :
  verifyDeviceSignature e ch named approve digits signature d = inr dev <-> signed_by e ch named approve digits signature d dev.
Proof.
  unfold verifyDeviceSignature, signed_by, GetNativeDevice. split.
  - destruct (existsb _ _); [|done]. cbn [negb]. destruct (native_devices d !! named) as [n|] eqn:En; [|done].
    destruct (_ && _ && _) eqn:E; [|done]. cbn [negb]. bool_hyps.
    destruct (PushResponseMessage _ _ _) as [msg|] eqn:Em; [|done]. destruct (VerifyECDSAP256 _ _ _) eqn:Ev; [|done].
    intros [= <-]. repeat split; first [done|by apply streqb_false|eauto].
  - intros (Hn & Hu & Ha & Hk & msg & Hm & Hv). apply streqb_false in Hk.
    assert (existsb (fun n => nd_IsMFAApprover n && (nd_PublicKey n <>?s EmptyString)) (ListUserNativeDevices (mc_UserID ch) d) = true) as ->.
    { apply existsb_exists. exists dev. split; [|by rewrite Ha, Hk]. apply (listed_device _ _ named); [done|]. by apply streqb_true. }
    cbn [negb]. rewrite Hn, Ha, Hk, Hm, Hv. apply streqb_true in Hu. by rewrite Hu.
Qed.

(** What a verified response does to a pending challenge. *)
Lemma transition_pending id to now d ch : mfa_challenges d !! id = Some ch -> mc_Status ch = "pending" -> one_of to challenge_statuses = true ->
  TransitionMFAChallengeStatus id "pending" to now d =
    (inr true, on_mfa_challenges <[id := set_mc_VerifiedAt (if to =?s "approved" then Some now else None) (set_mc_Status to ch)]> d).
Proof. intros Hc Hs Ht. unfold TransitionMFAChallengeStatus. by rewrite Hc, Hs, streqb_refl, Ht. Qed.

(** An answered challenge carries the outcome, and its signer is the owner's device. *)
Lemma respond_inr e id named digits approve signature now d ch r d' :
  mfa_challenges d !! id = Some ch -> mc_ID ch = id ->
  RespondPushChallenge e id named digits approve signature now d = (inr r, d') <->
  exists dev, mc_Status ch = "pending" /\ now <= mc_ExpiresAt ch /\ signed_by e ch named approve digits signature d dev /\
    r = (approve && (digits =?s mc_MatchDigits ch), nd_ID dev) /\
    d' = on_mfa_challenges <[id := set_mc_VerifiedAt (if r.1 then Some now else None)
      (set_mc_Status (if r.1 then "approved" else "denied") ch)]> d.
Proof.
  intros Hc Hid. unfold RespondPushChallenge, GetMFAChallenge. rewrite Hc, Hid. split.
  - destruct (mc_Status ch =?s "pending") eqn:Es; [|done]. cbn [negb]. apply streqb_true in Es.
    destruct (Z.ltb_spec (mc_ExpiresAt ch) now); [done|].
    destruct (verifyDeviceSignature _ _ _ _ _ _ _) as [err|dev] eqn:Ev; [done|].
    apply verifyDeviceSignature_iff in Ev. set (ok := approve && _).
    rewrite (transition_pending _ _ _ _ _ Hc Es) by (by destruct ok).
    intros [= <- <-]. exists dev. repeat (split; [done|]). by destruct ok.
  - intros (dev & Hs & He & Hv & -> & ->). rewrite Hs. cbn [fst].
    destruct (Z.ltb_spec (mc_ExpiresAt ch) now); [lia|].
    apply verifyDeviceSignature_iff in Hv. rewrite Hv. set (ok := approve && _).
    rewrite (transition_pending _ _ _ _ _ Hc Hs) by (by destruct ok). by destruct ok.
Qed.

(** What is signed, spelled out, and the fields for which it is signed at all. *)
Lemma push_message_text b approve digits m : PushResponseMessage b approve digits = Some m <->
  (pb_Purpose b = "login" \/ pb_Purpose b = "step_up") /\
  (forall f, In f [pb_Origin b; pb_UserID b; pb_DeviceID b; pb_ChallengeID b] -> f <> "" /\ has_char 124 f = false) /\
  has_char 124 digits = false /\
  m = String.concat "|" ["kyidentity-push-v2"; pb_Origin b; pb_UserID b; pb_DeviceID b; pb_ChallengeID b; pb_Purpose b;
        pretty (pb_ExpiresAtMS b); (if approve then "approve" else "deny"); digits].
Proof.
  unfold PushResponseMessage. set (text := String.concat _ _).
  assert (forallb push_field_ok [pb_Origin b; pb_UserID b; pb_DeviceID b; pb_ChallengeID b] = true <->
    forall f, In f [pb_Origin b; pb_UserID b; pb_DeviceID b; pb_ChallengeID b] -> f <> "" /\ has_char 124 f = false) as Hf.
  { rewrite forallb_forall. unfold push_field_ok. split; intros Hall f Hin; specialize (Hall f Hin).
    - bool_hyps. auto.
    - destruct Hall as [Hn ->]. apply andb_true_iff. split; [|done]. apply negb_true_iff. by apply streqb_false. }
  destruct (one_of (pb_Purpose b) _) eqn:Ep; cbn [negb].
  - apply one_of_true in Ep. destruct (forallb _ _) eqn:Ef; cbn [negb].
    + destruct (has_char 124 digits) eqn:Ed; [split; [done|by intros (_ & _ & ? & _)]|].
      split; [|by intros (_ & _ & _ & ->)]. intros [= <-]. split; [destruct Ep as [<-|[<-|[]]]; auto|]. split; [by apply Hf|done].
    + split; [done|]. intros (_ & Hall & _). apply Hf in Hall. congruence.
  - split; [done|]. intros (Hp & _). assert (In (pb_Purpose b) ["login"; "step_up"]) as Hin by (destruct Hp as [->| ->]; cbn; auto).
    apply one_of_true in Hin. congruence.
Qed.

(** C38. A push challenge is approved exactly by an enrolled approver device of
    the account it was raised for, inside its window, with the matching
    digits and a signature over the text that joins this server, account,
    device, challenge, purpose, expiry, decision and digits, none of which
    holds the separator; approving changes only that challenge, and two
    decisions with the same text agree in every one of those fields. *)
Theorem push_approval_is_the_owners e id named digits approve signature now d ch who d' :
  mfa_challenges d !! id = Some ch -> mc_ID ch = id ->
  (RespondPushChallenge e id named digits approve signature now d = (inr (true, who), d') <->
  (exists dev, mc_Status ch = "pending" /\ now <= mc_ExpiresAt ch /\ approve = true /\ digits = mc_MatchDigits ch /\
    native_devices d !! named = Some dev /\ nd_ID dev = who /\ nd_UserID dev = mc_UserID ch /\ nd_IsMFAApprover dev = true /\
    nd_PublicKey dev <> EmptyString /\
    (mc_Purpose ch = "login" \/ mc_Purpose ch = "step_up") /\
    (forall f, In f [issuerOrigin e; mc_UserID ch; who; id] -> f <> "" /\ has_char 124 f = false) /\ has_char 124 digits = false /\
    VerifyECDSAP256 (nd_PublicKey dev) (bytes_of (String.concat "|" ["kyidentity-push-v2"; issuerOrigin e; mc_UserID ch; who; id;
      mc_Purpose ch; pretty (unix_milli (mc_ExpiresAt ch)); "approve"; digits])) signature = true /\
    d' = on_mfa_challenges <[id := set_mc_VerifiedAt (Some now) (set_mc_Status "approved" ch)]> d)) /\
  (forall b b' verb verb' digits' m, PushResponseMessage b verb digits = Some m -> PushResponseMessage b' verb' digits' = Some m ->
    b = b' /\ verb = verb' /\ digits = digits').
Proof.
  intros Hc Hid. split; [|intros *; apply push_message_injective].
  rewrite (respond_inr _ _ _ _ _ _ _ _ ch) by done. unfold signed_by, push_binding. rewrite Hid. split.
  - intros (dev & Hs & He & (Hn & Hu & Ha & Hk & msg & Hm & Hv) & [= Hok ->] & ->).
    symmetry in Hok. apply andb_true_iff in Hok as [-> Hd]. apply streqb_true in Hd.
    apply push_message_text in Hm as (Hp & Hf & Hg & ->). by exists dev.
  - intros (dev & Hs & He & -> & -> & Hn & <- & Hu & Ha & Hk & Hp & Hf & Hg & Hv & ->).
    exists dev. rewrite streqb_refl. repeat (split; [done|]). split; [|done]. repeat (split; [done|]).
    eexists. split; [by apply push_message_text|done].
Qed.

(** An answered challenge takes no second answer. *)
Lemma answered_once e id named digits approve signature now d ch r d' :
  mfa_challenges d !! id = Some ch -> mc_ID ch = id ->
  RespondPushChallenge e id named digits approve signature now d = (inr r, d') ->
  forall e' named' digits' approve' signature' now',
    RespondPushChallenge e' id named' digits' approve' signature' now' d' = (inl errNotPending, d').
Proof.
  intros Hc Hid Hr. apply (respond_inr _ _ _ _ _ _ _ _ ch) in Hr as (dev & _ & _ & _ & _ & ->); [|done|done].
  intros. unfold RespondPushChallenge, GetMFAChallenge. cbn. rewrite lookup_insert_eq. by destruct r as [[] ?].
Qed.
End approval_facts.

(** ** Decoys *)

(** The numbers of [l] not drawn before, in order. *)
Fixpoint fresh (seen l : list Z) : list Z :=
  match l with
  | [] => []
  | x :: l' => if existsb (Z.eqb x) seen then fresh seen l' else x :: fresh (x :: seen) l'
  end.

Definition drawn (n : nat) (draw : nat -> Z) : list Z := map (fun i => randomMatchNumber (draw i)) (seq 0 n).

Lemma drawn_S n draw : drawn (S n) draw = randomMatchNumber (draw O) :: drawn n (fun i => draw (S i)).
Proof. unfold drawn. cbn [seq map]. f_equal. rewrite <- seq_shift, map_map. done. Qed.

Lemma decoy_loop_fresh fuel : forall draw seen out, (length out <= 3)%nat ->
  decoy_loop fuel draw seen out =
    let l := fresh seen (drawn fuel draw) in
    if (3 <=? length out + length l)%nat then Some (out ++ map pretty (firstn (3 - length out) l))%list else None.
Proof.
  induction fuel as [|fuel IH]; intros draw seen out Hout.
  - unfold drawn. cbn [decoy_loop seq map fresh length]. cbv zeta. cbn [length]. rewrite Nat.add_0_r, firstn_nil, app_nil_r. by destruct (_ <=? _)%nat.
  - rewrite drawn_S. cbn [decoy_loop fresh]. cbv zeta. set (n := randomMatchNumber (draw O)).
    destruct (Nat.leb_spec 3 (length out)) as [H3|H3].
    { assert (3 - length out = 0)%nat as -> by lia. cbn [firstn map]. rewrite app_nil_r.
      destruct (Nat.leb_spec 3 (length out + length (if existsb (Z.eqb n) seen then fresh seen (drawn fuel (fun i => draw (S i)))
        else n :: fresh (n :: seen) (drawn fuel (fun i => draw (S i)))))); [done|lia]. }
    destruct (existsb (Z.eqb n) seen); [by apply IH|].
    rewrite IH by (rewrite length_app; cbn; lia). cbv zeta. rewrite length_app. cbn [length].
    replace (length out + 1 + length (fresh (n :: seen) (drawn fuel (fun i => draw (S i)))))%nat
      with (length out + S (length (fresh (n :: seen) (drawn fuel (fun i => draw (S i))))))%nat by lia.
    destruct (_ <=? _)%nat; [|done]. f_equal. rewrite <- app_assoc. f_equal. cbn [app].
    replace (3 - length out)%nat with (S (3 - (length out + 1))) by lia. cbn [firstn map]. done.
Qed.

Lemma existsb_eqb x l : existsb (Z.eqb x) l = true <-> In x l.
Proof. rewrite existsb_exists. split; [intros (y & Hy & E); by apply Z.eqb_eq in E as ->|intros Hx; exists x; by rewrite Z.eqb_refl]. Qed.

Lemma in_fresh l : forall seen x, In x (fresh seen l) <-> In x l /\ ~ In x seen.
Proof.
  induction l as [|y l IH]; intros seen x; cbn; [tauto|].
  destruct (existsb (Z.eqb y) seen) eqn:E.
  - apply existsb_eqb in E. rewrite IH. split; [tauto|]. intros [[<-|Hx] Hn]; tauto.
  - assert (~ In y seen) as Hy by (intros Hi; apply existsb_eqb in Hi; congruence).
    cbn. rewrite IH. cbn. destruct (decide (x = y)) as [->|Hne]; [tauto|]. split; [intuition congruence|intuition congruence].
Qed.

Lemma nodup_fresh l : forall seen, List.NoDup (fresh seen l).
Proof.
  induction l as [|y l IH]; intros seen; cbn; [constructor|]. destruct (existsb _ _); [done|]. constructor; [|done].
  rewrite in_fresh. cbn. tauto.
Qed.

Lemma fresh_count l seen : length (fresh seen l) = length (nodup Z.eq_dec (List.filter (fun x => negb (existsb (Z.eqb x) seen)) l)).
Proof.
  apply Permutation_length, NoDup_Permutation.
  - apply NoDup_ListNoDup, nodup_fresh.
  - apply NoDup_ListNoDup, NoDup_nodup.
  - intros x. rewrite !list_elem_of_In, in_fresh, nodup_In, filter_In, negb_true_iff.
    rewrite <- (existsb_eqb x seen). destruct (existsb (Z.eqb x) seen); intuition congruence.
Qed.

(** The decoy loop ends within its draws exactly when they hold three fresh
    numbers, and then yields three different two-digit numbers, none of them
    the match. *)
Theorem decoys_are_distinct match_draw draw :
  let m := randomMatchNumber match_draw in
  ((exists l, decoy_loop 201 draw [m] [] = Some l) <->
     (3 <= length (nodup Z.eq_dec (List.filter (fun x => negb (x =? m)%Z) (map (fun i => randomMatchNumber (draw i)) (seq 0 201)))))%nat) /\
  forall l, decoy_loop 201 draw [m] [] = Some l ->
    exists ns, l = map pretty ns /\ length ns = 3%nat /\ List.NoDup (m :: ns) /\
      ((forall i, 0 <= draw i < 90) -> Forall (fun n => 10 <= n <= 99) ns).
Proof.
  intros m. rewrite decoy_loop_fresh by (cbn; lia). cbv zeta. cbn [length app]. rewrite Nat.add_0_l.
  set (fr := fresh [m] (drawn 201 draw)). split.
  - assert (length fr = length (nodup Z.eq_dec (List.filter (fun x => negb (x =? m)%Z) (drawn 201 draw)))) as Hlen.
    { unfold fr. rewrite fresh_count. do 2 f_equal. apply filter_ext. intros x. cbn. by rewrite orb_false_r. }
    unfold drawn in Hlen. rewrite <- Hlen. destruct (Nat.leb_spec 3 (length fr)); split; try done; [eauto|intros [l Hl]; done|lia].
  - intros l. destruct (Nat.leb_spec 3 (length fr)) as [H3|H3]; [|done]. intros [= <-].
    exists (firstn 3 fr). assert (forall x, In x (firstn 3 fr) -> In x fr) as Hin.
    { intros x Hx. rewrite <- (firstn_skipn 3 fr). apply in_or_app. by left. }
    split; [done|]. split; [rewrite length_firstn; lia|]. split.
    + constructor.
      * intros Hm. apply Hin in Hm. unfold fr in Hm. apply in_fresh in Hm as [_ Hm]. apply Hm. by left.
      * pose proof (nodup_fresh (drawn 201 draw) [m]) as Hn. fold fr in Hn. rewrite <- (firstn_skipn 3 fr) in Hn.
        by apply NoDup_app_remove_r in Hn.
    + intros Hd. apply List.Forall_forall. intros x Hx. apply Hin in Hx. unfold fr in Hx. apply in_fresh in Hx as [Hx _].
      unfold drawn in Hx. apply in_map_iff in Hx as (i & <- & _). unfold randomMatchNumber. specialize (Hd i). lia.
Qed.

(** ** Recovery codes *)

(** No unspent recovery code of the user has one of the hashes. *)
Definition hashes_spent (user a b : string) (d : DB) : Prop :=
  forall k c, recovery_codes d !! k = Some c -> rc_UserID c = user -> one_of (rc_CodeHash c) [a; b] = true -> rc_UsedAt c <> None.

Lemma consume_recovery_inr user a b audit now d r d' : ConsumeRecoveryCode user a b audit now d = (r, d') ->
  (d' = d /\ r <> inr true) \/
  (r = inr true /\ exists m q, d' = audited m q (on_recovery_codes (update_where (fun c => (rc_UserID c =?s user) &&
     one_of (rc_CodeHash c) [a; b] && is_null (rc_UsedAt c)) (set_rc_UsedAt (Some now))) d)).
Proof.
  unfold ConsumeRecoveryCode, auditedTx. intros Hr.
  destruct (commit _ d) as [[e|[]] d1] eqn:Ec.
  - apply commit_inl in Ec as [-> _]. left. destruct e; injection Hr as <- <-; done.
  - right. injection Hr as <- <-. split; [done|]. tx_inv. audit_inv. injection Ec as _ <-. eexists _, _. reflexivity.
Qed.

Lemma consume_recovery_spent user a b user' a' b' audit now d : hashes_spent user a b d ->
  hashes_spent user a b (ConsumeRecoveryCode user' a' b' audit now d).2.
Proof.
  intros Hs. destruct (ConsumeRecoveryCode _ _ _ _ _ _) as [r d'] eqn:Hr.
  apply consume_recovery_inr in Hr as [[-> _]|(_ & m & q & ->)]; [done|]. cbn [snd]. intros k c Hk Hu Ha.
  cbn -[update_where] in Hk. apply lookup_update_where_Some in Hk as (c0 & Hk & ->).
  destruct (_ && is_null (rc_UsedAt c0)); [done|]. by eapply Hs.
Qed.

Lemma spent_code_refused user a b audit now d : hashes_spent user a b d -> ConsumeRecoveryCode user a b audit now d = (inr false, d).
Proof.
  intros Hs. unfold ConsumeRecoveryCode, auditedTx, commit, tx_bind, tx_guard. cbn -[count_where update_where].
  assert (count_where (fun c => (rc_UserID c =?s user) && one_of (rc_CodeHash c) [a; b] && is_null (rc_UsedAt c)) (recovery_codes d) = 0) as Hn.
  { apply count_where_0, exists_where_false. intros k c Hk. destruct ((rc_UserID c =?s user) && _ && _) eqn:E; [|done].
    bool_hyps. exfalso. apply (Hs k c Hk); [done|done|by destruct (rc_UsedAt c)]. }
  cbn [one_of] in Hn. unfold one_of in Hn |- *. cbn in Hn |- *. rewrite Hn. done.
Qed.

Section recovery_facts.
Context `{Primitives} `{AEAD}.

(** Redemptions of any user's codes, successful or not. *)
Definition redeeming (e : Engine) (d d' : DB) : Prop :=
  exists user code audit now, d' = (VerifyAndConsumeRecoveryCode e user code audit now d).2.

Lemma verify_code_store e user code audit now d : (VerifyAndConsumeRecoveryCode e user code audit now d).2 =
  (ConsumeRecoveryCode user (recoveryCodeHash e user (normalizeRecoveryCode code)) (HashSHA256 (normalizeRecoveryCode code)) audit now d).2.
Proof. unfold VerifyAndConsumeRecoveryCode, store_op, of_store. by destruct (ConsumeRecoveryCode _ _ _ _ _ _) as [[?|?] ?]. Qed.

(** C: recovery_code_redeems_once *)
Theorem recovery_code_redeems_once e user code code' audit audit' now now' d d1 d2 :
  VerifyAndConsumeRecoveryCode e user code audit now d = (inr true, d1) -> rtc (redeeming e) d1 d2 ->
  normalizeRecoveryCode code' = normalizeRecoveryCode code ->
  VerifyAndConsumeRecoveryCode e user code' audit' now' d2 = (inr false, d2).
Proof.
  intros Hr Hs Hc. unfold VerifyAndConsumeRecoveryCode in *. rewrite Hc. unfold store_op in *.
  set (a := recoveryCodeHash _ _ _) in *. set (b := HashSHA256 _) in *.
  destruct (ConsumeRecoveryCode user a b audit now d) as [r d0] eqn:E.
  assert (r = inr true /\ d0 = d1) as [-> ->] by (destruct r; unfold of_store in Hr; injection Hr; intros; subst; done).
  clearbody a b.
  apply consume_recovery_inr in E as [[_ Hf]|(_ & m & q & ->)]; [done|].
  match type of Hs with rtc _ ?x _ => assert (hashes_spent user a b x) as H1 end.
  { intros k c Hk Hu Ha. cbn -[update_where one_of] in Hk. apply lookup_update_where_Some in Hk as (c0 & Hk & ->).
    destruct (_ && is_null (rc_UsedAt c0)) eqn:E; [done|]. rewrite Hu, streqb_refl, Ha in E. by destruct (rc_UsedAt c0). }
  assert (hashes_spent user a b d2) as H2.
  { clear Hr. revert H1. induction Hs as [|x y z (u0 & c0 & a0 & n0 & ->) _ IH]; [done|]. intros H1. apply IH.
    rewrite verify_code_store. by apply consume_recovery_spent. }
  by rewrite (spent_code_refused _ _ _ _ _ _ H2).
Qed.
End recovery_facts.

(** ** Passwords *)

Lemma split_on_cut c a : forall cur l, ~ In c a -> split_on c cur (a ++ c :: l)%list = ((rev cur ++ a) :: split_on c [] l)%list.
Proof.
  induction a as [|x a IH]; intros cur l Ha; cbn.
  - by rewrite Z.eqb_refl, app_nil_r.
  - destruct (Z.eqb_spec x c) as [->|_]; [destruct Ha; by left|]. rewrite IH by (intros Hi; apply Ha; by right).
    cbn. by rewrite <- app_assoc.
Qed.

Lemma split_on_last c a : forall cur, ~ In c a -> split_on c cur a = [(rev cur ++ a)%list].
Proof.
  induction a as [|x a IH]; intros cur Ha; cbn; [by rewrite app_nil_r|].
  destruct (Z.eqb_spec x c) as [->|_]; [destruct Ha; by left|]. rewrite IH by (intros Hi; apply Ha; by right).
  cbn. by rewrite <- app_assoc.
Qed.

Lemma encode_no_dollar m : Forall is_byte m -> ~ In 36 (b64_encode RawStdEncoding m).
Proof.
  intros Hm. assert (Forall (fun c => c <> 36) (b64_encode RawStdEncoding m)) as Hall.
  { apply encode_chars; [|done|done]. intros i Hi.
    assert (forallb (fun i => negb (b64_char false i =? 36)) (map Z.of_nat (seq 0 64)) = true) as Hok by (vm_compute; reflexivity).
    rewrite forallb_forall in Hok. specialize (Hok i). rewrite negb_true_iff, Z.eqb_neq in Hok. apply Hok.
    apply in_map_iff. exists (Z.to_nat i). rewrite in_seq. lia. }
  rewrite List.Forall_forall in Hall. intros Hi. by apply (Hall 36).
Qed.

Section password_facts.
Context `{Primitives}.

(** Argon2id fills the key it is asked for. *)
Definition argon2_keys : Prop := forall p s t m h n, length (argon2_IDKey p s t m h n) = Z.to_nat n /\ Forall is_byte (argon2_IDKey p s t m h n).

Lemma hash_parts salt hash : Forall is_byte salt -> Forall is_byte hash ->
  split_on 36 [] (bytes_of (encode_hash salt hash)) =
  [[]; bytes_of "argon2id"; bytes_of "v=19"; bytes_of "m=65536,t=3,p=4"; b64_encode RawStdEncoding salt; b64_encode RawStdEncoding hash].
Proof.
  intros Hs Hh. unfold encode_hash. cbn [String.concat]. rewrite !bytes_app, !bytes_string by (by eapply Forall_impl; [apply encode_plain|apply plain_byte]).
  set (x := b64_encode RawStdEncoding salt). set (y := b64_encode RawStdEncoding hash).
  match goal with |- split_on 36 [] ?l = _ => replace l with ([] ++ 36 :: bytes_of "argon2id" ++ 36 :: bytes_of "v=19" ++ 36 ::
    bytes_of "m=65536,t=3,p=4" ++ 36 :: x ++ 36 :: y)%list by reflexivity end.
  rewrite !split_on_cut, split_on_last; try done; try (by apply encode_no_dollar);
    intros Hi; vm_compute in Hi; repeat destruct Hi as [Hi|Hi]; done.
Qed.

(** A password the policy accepts is stored as a hash that verifies it; any
    other password verifies exactly when its Argon2id key is the same, and a
    verification without a free slot answers busy. *)
Theorem stored_password_verifies salt password h : argon2_keys -> Forall is_byte salt ->
  HashPassword false salt password = inr h ->
  (12 <= String.length password <= 1024)%nat /\ VerifyPassword false password h = inr true /\
  (forall other, VerifyPassword false other h =
    inr (list_eqb (argon2_IDKey (bytes_of other) salt 3 65536 4 32) (argon2_IDKey (bytes_of password) salt 3 65536 4 32))) /\
  forall other, VerifyPassword true other h = inl ErrBusy.
Proof.
  intros Hk Hs. unfold HashPassword. destruct (Nat.ltb_spec (String.length password) 12); [done|].
  destruct (Nat.ltb_spec MaxPasswordLength (String.length password)); [done|]. cbn [idKey]. intros [= <-].
  unfold MaxPasswordLength in *. split; [lia|].
  set (key := argon2_IDKey _ _ _ _ _ _). destruct (Hk (bytes_of password) salt 3 65536 4 32) as [Hlen Hb]. 
  assert (forall busy other, VerifyPassword busy other (encode_hash salt key) =
    if busy then inl ErrBusy else inr (list_eqb (argon2_IDKey (bytes_of other) salt 3 65536 4 32) key)) as Hv.
  { intros busy other. unfold VerifyPassword. rewrite hash_parts by done.
    replace (string_of (bytes_of "argon2id") =?s "argon2id") with true by reflexivity. cbn [negb].
    replace (scan_version (string_of (bytes_of "v=19"))) with (Some 19) by reflexivity. cbn [Z.eqb argon2_Version Pos.eqb negb].
    replace (scan_params (string_of (bytes_of "m=65536,t=3,p=4"))) with (Some (65536, 3, 4)) by reflexivity.
    destruct (decode_encode RawStdEncoding RawStdEncoding salt Hs) as [_ Hd1]. rewrite Hd1 by done.
    destruct (decode_encode RawStdEncoding RawStdEncoding key Hb) as [_ Hd2]. rewrite Hd2 by done.
    change key with (argon2_IDKey (bytes_of password) salt 3 65536 4 32). rewrite Hlen. change (Z.of_nat (Z.to_nat 32) mod 2 ^ 32) with 32.
    by destruct busy. }
  rewrite Hv. split; [|by split; intros; rewrite Hv]. f_equal. by apply list_eqb_true.
Qed.
End password_facts.

(** ** Witnesses *)

Definition toy_argon2 (p s : list Z) (t m h n : Z) : list Z := map (fun i => nth i (s ++ p)%list 0 mod 256) (seq 0 (Z.to_nat n)).

Definition toy_primitives : Primitives := {|
  argon2_IDKey := toy_argon2;
  totp_Validate := fun secret code now => if code =?s "123456" then Some (now / (30 * second)) else None;
  totp_Code_ok := fun secret => secret <>?s "";
  x509_ParsePKIX := fun _ => NotPKIX;
  x509_MarshalPKIX := fun point => point;
  p256_NewPublicKey := fun raw => nth 0 raw 0 =? 4;
  ecdsa_VerifyASN1 := fun point digest sig => list_eqb sig (digest ++ point)%list;
  url_Parse := fun _ => None;
  issuer_Parse := fun _ => None |}.

Definition toy_engine : Engine := MkEngine (repeat 7 32) "https://id.example.org" None None None None None.

Definition toy_binding : PushBinding := MkPushBinding "https://id.example.org" "bob" "dev1" "ch1" "login" 1767225900000.

Lemma push_message_injective_witness : exists m, PushResponseMessage toy_binding true "42" = Some m /\
  PushResponseMessage toy_binding false "42" <> Some m.
Proof.
  exists "kyidentity-push-v2|https://id.example.org|bob|dev1|ch1|login|1767225900000|approve|42". split; [vm_compute; reflexivity|].
  intros E. destruct (push_message_injective toy_binding toy_binding true false "42" "42" _ ltac:(vm_compute; reflexivity) E) as (_ & Hf & _).
  discriminate Hf.
Defined.

Definition toy_point : list Z := 4 :: repeat 1 64.
Definition phone : NativeDevice :=
  MkNativeDevice "dev1" "bob" "phone" "hw" "android" (string_of (b64_encode StdEncoding toy_point)) "push" 0 "fcm" "" "" true false "none" None "unknown"
    [] (Some t0) t0.
Definition login_push : MFAChallenge :=
  MkMFAChallenge None "ch1" "bob" "push" "42" ["17"; "58"; "91"] "pending" "login" (t0 + 5 * minute) t0.
Definition push_db : DB :=
  on_native_devices (fun _ => {[ "dev1" := phone ]}) (on_mfa_challenges (fun _ => {[ "ch1" := login_push ]}) sample_db).

Definition approval_text : string := "kyidentity-push-v2|https://id.example.org|bob|dev1|ch1|login|1767225900000|approve|42".
Definition approval_signature : string := string_of (b64_encode StdEncoding (Sum256 (bytes_of approval_text) ++ toy_point)%list).

Lemma push_approval_is_the_owners_witness : exists d',
  RespondPushChallenge (H := toy_primitives) toy_engine "ch1" "dev1" "42" true approval_signature t0 push_db = (inr (true, "dev1"), d') /\
  (exists ch, mfa_challenges d' !! "ch1" = Some ch /\ mc_Status ch = "approved").
Proof.
  eexists. split.
  - apply (push_approval_is_the_owners (H := toy_primitives) toy_engine "ch1" "dev1" "42" true approval_signature t0 push_db login_push "dev1"); [vm_compute; reflexivity|reflexivity|].
    exists phone. do 9 (split; [first [vm_compute; reflexivity|vm_compute; discriminate]|]). split; [by left|].
    split; [intros f [<-|[<-|[<-|[<-|[]]]]]; (split; [discriminate|reflexivity])|].
    do 2 (split; [vm_compute; reflexivity|]). reflexivity.
  - exists (set_mc_VerifiedAt (Some t0) (set_mc_Status "approved" login_push)). split; [apply lookup_insert_eq|reflexivity].
Defined.

Definition toy_recovery : RecoveryCode := set_rc_CreatedAt t0 (recovery_row toy_engine "bob" "rc1" "ABCD-2345").
Definition recovery_db : DB := on_recovery_codes (fun _ => {[ "rc1" := toy_recovery ]}) sample_db.

Lemma recovery_code_redeems_once_witness :
  let d1 := (VerifyAndConsumeRecoveryCode toy_engine "bob" "ABCD-2345" None t0 recovery_db).2 in
  VerifyAndConsumeRecoveryCode toy_engine "bob" "ABCD-2345" None t0 recovery_db = (inr true, d1) /\
  VerifyAndConsumeRecoveryCode toy_engine "bob" " abcd2345" None (t0 + minute) d1 = (inr false, d1).
Proof.
  cbv zeta.
  assert ((VerifyAndConsumeRecoveryCode toy_engine "bob" "ABCD-2345" None t0 recovery_db).1 = inr true) as H1 by (vm_compute; reflexivity).
  destruct (VerifyAndConsumeRecoveryCode toy_engine "bob" "ABCD-2345" None t0 recovery_db) as [r d1] eqn:E. cbn [fst snd] in *. subst r.
  split; [reflexivity|].
  apply (recovery_code_redeems_once toy_engine "bob" "ABCD-2345" " abcd2345" None None t0 (t0 + minute) recovery_db d1 d1 E);
    [apply rtc_refl|vm_compute; reflexivity].
Defined.

Lemma toy_argon2_keys : argon2_keys (H := toy_primitives).
Proof.
  intros p s t m h n. cbn. unfold toy_argon2. split; [by rewrite length_map, length_seq|].
  apply List.Forall_forall. intros x Hx. apply in_map_iff in Hx as (i & <- & _). unfold is_byte. apply Z.mod_pos_bound. lia.
Qed.

Lemma stored_password_verifies_witness : exists h,
  HashPassword (H := toy_primitives) false (repeat 5 16) "correct horse" = inr h /\
  VerifyPassword (H := toy_primitives) false "correct horse" h = inr true /\
  VerifyPassword (H := toy_primitives) false "wrong password" h = inr false.
Proof.
  destruct (HashPassword (H := toy_primitives) false (repeat 5 16) "correct horse") as [?|h] eqn:E; [vm_compute in E; discriminate|].
  exists h. split; [reflexivity|].
  destruct (stored_password_verifies (H := toy_primitives) (repeat 5 16) "correct horse" h toy_argon2_keys) as (_ & H1 & H2 & _);
    [|exact E|split; [exact H1|rewrite H2; vm_compute; reflexivity]].
  repeat (apply Forall_cons_2; [unfold is_byte; lia|]). apply Forall_nil_2.
Defined.
