(* ===== verification/Query.v ===== *)
(** Query strings as [net/url] reads and writes them: [url.ParseQuery] and
    [Values.Encode], with the round trip the stored authorization requests
    stand on. *)
From stdpp Require Import sorting.
From S2P Require Import Prelude Schema Outbox Crypto Requests Net Factors.

Open Scope string_scope.
Open Scope Z_scope.

(** ** Percent encoding *)

(** What [QueryEscape] leaves as it is: letters, digits and [-_.~]. *)
Definition query_plain (c : Z) : bool :=
  ((97 <=? c) && (c <=? 122)) || ((65 <=? c) && (c <=? 90)) || ((48 <=? c) && (c <=? 57)) ||
  (c =? 45) || (c =? 95) || (c =? 46) || (c =? 126).

Definition upper_digits : list Z := bytes_of "0123456789ABCDEF".

Definition escape_byte (c : Z) : list Z :=
  if query_plain c then [c] else if c =? 32 then [43]
  else [37; nth (Z.to_nat (c / 16)) upper_digits 0; nth (Z.to_nat (c mod 16)) upper_digits 0].

Definition QueryEscape (l : list Z) : list Z := concat (map escape_byte l).

Fixpoint QueryUnescape (l : list Z) : option (list Z) :=
  match l with
  | [] => Some []
  | c :: l' =>
    if c =? 37 then
      match l' with
      | a :: b :: l'' =>
        match hex_value a, hex_value b with Some x, Some y => cons (x * 16 + y) <$> QueryUnescape l'' | _, _ => None end
      | _ => None
      end
    else cons (if c =? 43 then 32 else c) <$> QueryUnescape l'
  end.

(** ** Reading and writing *)

Definition add_value (q : Values) (kv : string * string) : Values :=
  <[kv.1 := (default [] (q !! kv.1) ++ [kv.2])%list]> q.

(** One [&]-separated part: nothing, a pair, or an error. *)
Definition read_part (part : list Z) : option (option (string * string)) :=
  if existsb (Z.eqb 59) part then None else
  match part with
  | [] => Some None
  | _ =>
    let (k, v) := cut 61 part in
    match QueryUnescape k, QueryUnescape (default [] v) with
    | Some k, Some v => Some (Some (string_of k, string_of v))
    | _, _ => None
    end
  end.

Definition read_onto (q : option Values) (part : list Z) : option Values :=
  match q, read_part part with
  | Some q, Some (Some kv) => Some (add_value q kv)
  | Some q, Some None => Some q
  | _, _ => None
  end.

(** [None] is any error: the callers refuse them all. *)
Definition ParseQuery (query : string) : option Values :=
  fold_left read_onto (split_on 38 [] (bytes_of query)) (Some ∅).

Definition write_pair (kv : string * string) : list Z :=
  (QueryEscape (bytes_of kv.1) ++ 61 :: QueryEscape (bytes_of kv.2))%list.

Fixpoint join_parts (l : list (list Z)) : list Z :=
  match l with [] => [] | [x] => x | x :: l' => (x ++ 38 :: join_parts l')%list end.

(** The pairs in the order [Encode] writes them: the keys sorted. *)
Definition pairs_of (q : Values) : list (string * string) :=
  concat (map (fun k => map (pair k) (default [] (q !! k))) (sort_strings (map fst (map_to_list q)))).

Definition Encode (q : Values) : string := string_of (join_parts (map write_pair (pairs_of q))).

(** ** Facts *)

Definition special (x : Z) : bool := (x =? 38) || (x =? 61) || (x =? 59).

(** Escaping a byte yields bytes free of the separators, which read back. *)
Definition escape_ok (c : Z) : bool :=
  forallb (fun x => bool_decide (is_byte x) && negb (special x)) (escape_byte c) &&
  bool_decide (QueryUnescape (escape_byte c) = Some [c]) &&
  match escape_byte c with
  | [x] => negb (x =? 37) && ((if x =? 43 then 32 else x) =? c)
  | [p; a; b] => (p =? 37) && match hex_value a, hex_value b with Some x, Some y => x * 16 + y =? c | _, _ => false end
  | _ => false
  end.

Lemma escape_byte_ok c : is_byte c -> escape_ok c = true.
Proof. intros Hc. apply (below_dec 256); [vm_compute; reflexivity|exact Hc]. Qed.

Lemma unescape_byte c l : is_byte c -> QueryUnescape (escape_byte c ++ l) = cons c <$> QueryUnescape l.
Proof.
  intros Hc. apply escape_byte_ok in Hc. unfold escape_ok in Hc. apply andb_true_iff in Hc as [_ Hc].
  destruct (escape_byte c) as [|x [|a [|b [|? ?]]]]; try done; bool_hyps; cbn [app QueryUnescape].
  - replace (x =? 37) with false by lia. by replace (if x =? 43 then 32 else x) with c by lia.
  - match goal with H : _ = 37 |- _ => rewrite H end. cbn [Z.eqb Pos.eqb]. destruct (hex_value a), (hex_value b); try done. do 2 f_equal. lia.
Qed.

Lemma unescape_escape l : Forall is_byte l -> QueryUnescape (QueryEscape l) = Some l.
Proof.
  induction 1 as [|c l Hc _ IH]; [done|]. unfold QueryEscape in *. cbn [map concat]. by rewrite unescape_byte, IH.
Qed.

Lemma escape_clean l x : Forall is_byte l -> In x (QueryEscape l) -> is_byte x /\ special x = false.
Proof.
  intros Hl Hx. unfold QueryEscape in Hx. apply in_concat in Hx as (p & Hp & Hx). apply in_map_iff in Hp as (c & <- & Hc).
  rewrite Forall_forall in Hl. assert (is_byte c) as Hb by (apply Hl; by apply list_elem_of_In). apply escape_byte_ok in Hb. unfold escape_ok in Hb.
  apply andb_true_iff in Hb as [Hb _]. apply andb_true_iff in Hb as [Hb _]. rewrite forallb_forall in Hb. specialize (Hb _ Hx).
  apply andb_true_iff in Hb as [Hy%bool_decide_eq_true Hs]. split; [done|]. by apply negb_true_iff.
Qed.

Lemma escape_no l c : Forall is_byte l -> special c = true -> ~ In c (QueryEscape l).
Proof. intros Hl Hc Hi. destruct (escape_clean l c Hl Hi) as [_ Hs]. congruence. Qed.

Lemma cut_here c a l : ~ In c a -> cut c (a ++ c :: l) = (a, Some l).
Proof.
  induction a as [|x a IH]; intros Ha; cbn; [by rewrite Z.eqb_refl|].
  destruct (Z.eqb_spec x c) as [->|_]; [destruct Ha; by left|]. by rewrite IH by (intros Hi; apply Ha; by right).
Qed.

Lemma read_write kv : read_part (write_pair kv) = Some (Some kv).
Proof.
  unfold read_part, write_pair. destruct kv as [k v]. cbn [fst snd].
  pose proof (bytes_of_bytes k) as Hk. pose proof (bytes_of_bytes v) as Hv.
  replace (existsb (Z.eqb 59) _) with false.
  2: { symmetry. apply not_true_iff_false. rewrite existsb_exists. intros (x & Hx & E%Z.eqb_eq). subst x.
       apply in_app_iff in Hx as [Hx|[Hx|Hx]]; [by eapply escape_no in Hx|done|by eapply escape_no in Hx]. }
  destruct (QueryEscape (bytes_of k) ++ 61 :: QueryEscape (bytes_of v))%list as [|c l] eqn:E; [by destruct (QueryEscape (bytes_of k))|].
  rewrite <- E. rewrite cut_here by (by apply escape_no). unfold default, from_option, id. rewrite !unescape_escape by (cbn; done). cbn [id from_option]. by rewrite !string_bytes.
Qed.

Lemma write_no_amp kv : ~ In 38 (write_pair kv).
Proof.
  unfold write_pair. rewrite in_app_iff. intros [Hx|[Hx|Hx]]; [eapply escape_no in Hx|done|eapply escape_no in Hx]; try done; apply bytes_of_bytes.
Qed.

Lemma write_bytes kv : Forall is_byte (write_pair kv).
Proof.
  unfold write_pair. apply Forall_forall. intros x Hx. apply list_elem_of_In in Hx. apply in_app_iff in Hx as [Hx|[<-|Hx]].
  - by apply (escape_clean (bytes_of kv.1)) in Hx as [? _]; [|apply bytes_of_bytes].
  - done.
  - by apply (escape_clean (bytes_of kv.2)) in Hx as [? _]; [|apply bytes_of_bytes].
Qed.

Lemma split_join l : l <> [] -> Forall (fun p => ~ In 38 p) l -> split_on 38 [] (join_parts l) = l.
Proof.
  intros Hne Hl. induction Hl as [|x l Hx Hl IH]; [done|]. destruct l as [|y l]; [cbn; by rewrite split_on_last by done|].
  change (join_parts (x :: y :: l)) with (x ++ 38 :: join_parts (y :: l))%list. rewrite split_on_cut by done. by rewrite IH.
Qed.

Lemma join_bytes l : Forall (Forall is_byte) l -> Forall is_byte (join_parts l).
Proof.
  induction 1 as [|x l Hx Hl IH]; [constructor|]. destruct l; cbn [join_parts]; [done|]. apply Forall_app. split; [done|]. by apply Forall_cons_2.
Qed.

Lemma read_pairs l : forall q, fold_left read_onto (map write_pair l) (Some q) = Some (fold_left add_value l q).
Proof. induction l as [|kv l IH]; intros q; [done|]. cbn [map fold_left]. rewrite <- IH. cbn [read_onto]. by rewrite read_write. Qed.

Lemma parse_pairs l : ParseQuery (string_of (join_parts (map write_pair l))) = Some (fold_left add_value l ∅).
Proof.
  unfold ParseQuery. rewrite bytes_string. 2: { apply join_bytes, Forall_forall. intros p Hp. apply list_elem_of_In, in_map_iff in Hp as (kv & <- & _). apply write_bytes. }
  destruct l as [|kv l]; [reflexivity|]. rewrite split_join; [apply read_pairs|done|].
  apply Forall_forall. intros p Hp. apply list_elem_of_In, in_map_iff in Hp as (x & <- & _). apply write_no_amp.
Qed.

(** The values a list of pairs gives a key, in order. *)
Definition values_at (k : string) (l : list (string * string)) : list string := map snd (List.filter (fun kv => kv.1 =?s k) l).

Lemma add_values_lookup k l : forall q : Values, (default [] (fold_left add_value l q !! k) = default [] (q !! k) ++ values_at k l)%list /\
  (fold_left add_value l q !! k = None <-> q !! k = None /\ values_at k l = []).
Proof.
  unfold values_at. induction l as [|[k' v] l IH]; intros q; cbn [fold_left].
  { cbn. rewrite app_nil_r. tauto. }
  destruct (IH (add_value q (k', v))) as [E1 E2]. rewrite E1, E2. clear E1 E2. unfold add_value, Values in *. cbn [fst snd List.filter].
  destruct (k' =?s k) eqn:E.
  - apply streqb_true in E as ->. rewrite lookup_insert. destruct (decide (k = k)) as [_|n]; [|done]. cbn [map snd]. split.
    + cbn [default from_option]. unfold id. by rewrite <- app_assoc.
    + split; intros [? ?]; done.
  - apply streqb_false in E. rewrite lookup_insert_ne by done. tauto.
Qed.

Lemma values_at_app k l m : values_at k (l ++ m) = (values_at k l ++ values_at k m)%list.
Proof. unfold values_at. by rewrite List.filter_app, map_app. Qed.

Lemma values_at_key k k' (vs : list string) : values_at k (map (pair k') vs) = if k' =?s k then vs else [].
Proof. unfold values_at. induction vs as [|v vs IH]; cbn; [by destruct (k' =?s k)|]. destruct (k' =?s k); cbn; by rewrite IH. Qed.

Lemma values_at_keys k (q : Values) l : NoDup l ->
  values_at k (concat (map (fun k' => map (pair k') (default [] (q !! k'))) l)) = if bool_decide (k ∈ l) then default [] (q !! k : option (list string)) else [].
Proof.
  induction 1 as [|x l Hx Hl IH]; [done|]. cbn [map concat]. rewrite values_at_app, values_at_key, IH.
  destruct (x =?s k) eqn:E.
  - apply streqb_true in E as ->. rewrite bool_decide_eq_false_2 by done. rewrite bool_decide_eq_true_2 by set_solver. by rewrite app_nil_r.
  - apply streqb_false in E. cbn [app]. destruct (decide (k ∈ l)) as [Hi|Hi].
    + rewrite !bool_decide_eq_true_2; [done|set_solver|done].
    + rewrite !bool_decide_eq_false_2; [done|set_solver|done].
Qed.

(** Every query whose keys have values reads back as it was written. *)
Lemma parse_encode (q : Values) : (forall k, q !! k <> Some []) -> ParseQuery (Encode q) = Some q.
Proof.
  intros Hq. unfold Encode. rewrite parse_pairs. f_equal. unfold Values in *. apply map_eq. intros k.
  destruct (add_values_lookup k (pairs_of q) ∅) as [E1 E2]. unfold Values in *. rewrite lookup_empty in E1, E2. cbn [default from_option app] in E1.
  assert (values_at k (pairs_of q) = default [] (q !! k)) as Hv.
  { unfold pairs_of, sort_strings, Values in *. rewrite values_at_keys.
    - unfold Values in *. destruct (q !! k) as [l|] eqn:E; [|cbn; by destruct (bool_decide _)]. rewrite bool_decide_eq_true_2; [done|].
      rewrite (merge_sort_Permutation str_le). apply list_elem_of_In, in_map_iff. exists (k, l). split; [done|]. by apply list_elem_of_In, elem_of_map_to_list.
    - rewrite (merge_sort_Permutation str_le). apply NoDup_fst_map_to_list. }
  rewrite Hv in *. specialize (Hq k). match goal with |- ?x = _ => change x with (fold_left add_value (pairs_of q) ∅ !! k) end.
  destruct (q !! k) as [l|]; cbn in E1, E2.
  - match type of E1 with default _ ?x = _ => destruct x as [m|] eqn:Em end; [cbn in E1; by subst|]. cbn in E1. congruence.
  - by apply E2.
Qed.

(** What is read has no key without a value. *)
Lemma parsed_valued query q : ParseQuery query = Some q -> forall k, q !! k <> Some [].
Proof.
  unfold ParseQuery. generalize (split_on 38 [] (bytes_of query)) as l. intros l.
  unfold Values in *. assert (forall k, (∅ : gmap string (list string)) !! k <> Some []) as H0 by (intros k; by rewrite lookup_empty).
  revert H0. generalize (∅ : gmap string (list string)) as acc.
  induction l as [|p l IH]; intros acc Hacc; cbn [fold_left]; [by intros [= <-]|]. cbn [read_onto].
  destruct (read_part p) as [[kv|]|].
  - apply IH. intros k. unfold add_value, Values in *. destruct (decide (kv.1 = k)) as [<-|Hne]; [|by rewrite lookup_insert_ne].
    rewrite lookup_insert. destruct (decide _); [|done]. intros [= E]. by apply app_eq_nil in E as [_ ?].
  - by apply IH.
  - intros Hn. exfalso. clear -Hn. induction l; [done|auto].
Qed.

Example query_reads : (fun q => (q !! "redirect_uri", q !! "scope", q !! "x")) <$> ParseQuery "redirect_uri=https%3A%2F%2Fcrm.example.org%2Fcb&scope=openid+email&x=1&&x=" =
  Some (Some ["https://crm.example.org/cb"], Some ["openid email"], Some ["1"; ""]).
Proof. vm_compute. reflexivity. Qed.

Example query_refused : (ParseQuery "a=%4", ParseQuery "a;b=1") = (None, None).
Proof. vm_compute. reflexivity. Qed.
