(* ===== verification/Web.v ===== *)
(** What every HTTP handler stands on: the request and the reply, the audit
    logger, CSRF tokens, the authentication middleware, step-up grants and
    delegated administration - [api/middleware.go], [api/permissions.go],
    [api/stepup.go], [audit/audit.go] and the gates of [api/server.go].

    A handler runs its store transactions one after another and may answer
    early: it is a [Run] whose error is the early reply. *)
From stdpp Require Import pretty sorting.
From S2P Require Import Prelude Schema Access Sample Sessions Tokens StepUp Mfa Outbox AppAccess Directory Crypto Requests OAuth Net Factors.

Open Scope string_scope.
Open Scope Z_scope.

(** ** Requests and replies *)

(** Cookies are [None] when the request carries none of that name. *)
Record Request := MkRequest { r_Method : string; r_Path : string; r_PathID : string; r_Peer : Peer; r_Agent : string;
  r_SessionCookie : option string; r_CSRFCookie : option string; r_BrowserCookie : option string;
  r_CSRFHeader : string; r_CSRFForm : string; r_StepUpHeader : string }.

(** The cookies are those the reply sets. *)
Record Reply := MkReply { rp_Status : Z; rp_Body : Json; rp_SessionCookie : option string; rp_CSRFCookie : option string }.

Definition Handler : Type -> Type := Run DB Reply.

Definition refused_with (status : Z) (code : string) : Reply := MkReply status (JObj [("error", JStr code)]) None None.
Definition refuse {A} (status : Z) (code : string) : Handler A := run_fail (refused_with status code).
Definition stepUpInternalError {A} : Handler A := refuse 500 "internal_error".
Definition writeJSON (l : list (string * Json)) : Handler Reply := run_ret (MkReply 200 (JObj l) None None).
Definition demand (b : bool) (status : Z) (code : string) : Handler unit := run_guard b (refused_with status code).

(** The reply the client gets. *)
Definition serve (m : Handler Reply) (d : DB) : Reply * DB :=
  match m d with (inl r, d) => (r, d) | (inr r, d) => (r, d) end.

(** What the process draws for one request: identifiers, random bytes, whether
    password hashing is saturated, the push allowance and the match digits. *)
Record WebDraws := MkWebDraws { w_id : nat -> string; w_raw : nat -> list Z; w_busy : bool; w_pushAllowed : bool;
  w_match : Z; w_decoy : nat -> Z }.

Record Server := MkServer { sv_mw : Manager; sv_csrfKey : list Z; sv_engine : Engine; sv_limits : option SessionLimits;
  sv_rpID : string; sv_origin : string; sv_dummyHash : string }.

(** ** The audit logger *)

Section gates.
Context (sv : Server) (rq : Request) (dr : WebDraws) (now : Z).

Definition buildEvent (n : nat) (action actorID actorUsername targetID targetType outcome : string) (details : Json) : AuditEvent :=
  MkAuditEvent (w_id dr n) actorID actorUsername action targetID targetType (ClientIP (sv_mw sv) (r_Peer rq)) outcome details now.

(** [Observe]: losing the row does not change the answer. *)
Definition Observe (n : nat) (action actorID actorUsername targetID targetType outcome : string) (details : Json) : Handler unit := fun d =>
  (inr tt, (commit (recordAuditTx (Some (buildEvent n action actorID actorUsername targetID targetType outcome details)) now) d).2).

Definition Prepare (n : nat) (action actorID actorUsername targetID targetType outcome : string) (details : Json) : option AuditEvent :=
  Some (buildEvent n action actorID actorUsername targetID targetType outcome details).

(** ** CSRF *)

(** [raw] is the draw of a token issued before sign-in. *)
Definition IssueCSRFToken (raw : list Z) (sessionToken : string) : string :=
  if sessionToken =?s "" then String.append "u." (string_of (hex_encode raw))
  else String.append "s." (SignHMACSHA256 (sv_csrfKey sv) (bytes_of (HashSHA256 sessionToken))).

Definition csrfTokenMatchesSession (sessionToken csrfToken : string) : bool :=
  let expected := IssueCSRFToken (w_raw dr 0) sessionToken in (expected <>?s "") && (expected =?s csrfToken).

Definition has_suffix (suffix s : string) : bool :=
  strip_prefix (rev (bytes_of suffix)) (rev (bytes_of s)).

(** The machine endpoints that carry their own credential. *)
Definition csrf_exempt (path : string) : bool :=
  String.prefix "/scim/v2/" path ||
  one_of path ["/api/systems/register"; "/api/notifications/native/register"; "/api/mfa/push/respond"; "/oauth/token"; "/oauth/revoke"; "/oauth/logout"] ||
  (String.prefix "/api/notifications/native/devices/" path && has_suffix "/push-token" path).

(** [None] passes the request on. *)
Definition csrf_refusal : option Reply :=
  if one_of (r_Method rq) ["GET"; "HEAD"; "OPTIONS"] || csrf_exempt (r_Path rq) then None else
  match r_CSRFCookie rq with
  | None | Some "" => Some (refused_with 403 "invalid_csrf")
  | Some cookie =>
    let header := if r_CSRFHeader rq =?s "" then r_CSRFForm rq else r_CSRFHeader rq in
    if cookie <>?s header then Some (refused_with 403 "invalid_csrf") else
    match r_SessionCookie rq with
    | None | Some "" => None
    | Some session => if csrfTokenMatchesSession session cookie then None else Some (refused_with 403 "invalid_csrf")
    end
  end.

Definition CSRFValidate (next : Handler Reply) : Handler Reply :=
  match csrf_refusal with Some r => run_fail r | None => next end.

Definition GetCSRFToken : Handler Reply :=
  let token := IssueCSRFToken (w_raw dr 0) (default "" (r_SessionCookie rq)) in
  if token =?s "" then stepUpInternalError else
  run_ret (MkReply 200 (JObj [("csrfToken", JStr token)]) None (Some token)).

(** The digest of the browser this server set the cookie on, or empty. *)
Definition authorizationBrowserHash : string :=
  match r_BrowserCookie rq with
  | None => ""
  | Some value =>
    match cut 46 (bytes_of value) with
    | (raw, Some signature) =>
      if negb (length raw =? 64)%nat then "" else
      if string_of signature =?s SignHMACSHA256 (sv_csrfKey sv) (bytes_of (String.append "authorization-browser:" (string_of raw)))
      then HashSHA256 (string_of raw) else ""
    | (_, None) => ""
    end
  end.

(** ** Authentication *)

Definition route : string := String.append (r_Method rq) (String.append " " (r_Path rq)).

Definition enrollmentRouteAllowed (route : string) : bool :=
  one_of route ["GET /api/auth/me"; "POST /api/auth/logout"; "GET /api/user/devices"; "GET /api/user/passkeys";
    "GET /api/auth/step-up/methods"; "POST /api/auth/step-up"; "POST /api/auth/step-up/finish"; "POST /api/auth/step-up/cancel";
    "POST /api/user/devices/pairing-token"; "POST /api/user/mfa/totp/setup"; "POST /api/user/mfa/totp/enable";
    "POST /api/user/passkeys/register/begin"; "POST /api/user/passkeys/register/finish"].

Definition enrollmentOperationAllowed (operation : string) : bool :=
  one_of operation ["POST /api/user/mfa/totp/enable"; "POST /api/user/passkeys/register/finish"; "POST /api/user/devices/pairing-token"].

Definition passwordChangeRouteAllowed (route : string) : bool := (route =?s "POST /api/user/password") || enrollmentRouteAllowed route.
Definition passwordChangeOperationAllowed (operation : string) : bool :=
  (operation =?s "POST /api/user/password") || enrollmentOperationAllowed operation.

(** The digest of a non-empty session cookie. *)
Definition session_cookie_hash : option string :=
  match r_SessionCookie rq with None | Some "" => None | Some v => Some (HashSHA256 v) end.

Definition identify : Handler (option (User * Session)) := fun d =>
  let '(who, d) := authenticate session_cookie_hash (sv_limits sv) now d in (inr who, d).

Definition restricted (status : bool * list string * Z * bool * bool) : bool := status.2.

(** What [RequireAuth] lets through. *)
Definition auth_gate : Handler (User * Session) :=
  who <~ identify ;;
  match who with
  | None => refuse 401 "unauthorized"
  | Some (user, sess) =>
    d <~ run_get ;;
    match SessionEnrollmentStatus (u_ID user) (s_ID sess) now d with
    | None => stepUpInternalError
    | Some status =>
      demand (negb (u_PasswordChangeRequired user) || passwordChangeRouteAllowed route) 403 "password_change_required" ~;;
      demand (negb (restricted status) || enrollmentRouteAllowed route) 403 "enrollment_required" ~;;
      run_ret (user, sess)
    end
  end.

Definition RequireAuth (next : User -> Session -> Handler Reply) : Handler Reply := who <~ auth_gate ;; next who.1 who.2.

Definition OptionalAuth (next : option (User * Session) -> Handler Reply) : Handler Reply := who <~ identify ;; next who.

(** ** Step-up grants *)

Definition stepUpOperation (operation : string) : string :=
  if operation =?s "POST /api/user/mfa/totp/setup" then "POST /api/user/mfa/totp/enable"
  else if operation =?s "POST /api/user/passkeys/register/begin" then "POST /api/user/passkeys/register/finish" else operation.

Definition StepUpTTL : Z := 5 * minute.

(** A valid grant for this very operation, unspent. *)
Definition requireStepUp (user : User) (sess : Session) : Handler unit := fun d =>
  if (r_StepUpHeader rq <>?s "") &&
     HasValidStepUpToken (HashSHA256 (r_StepUpHeader rq)) (u_ID user) (s_ID sess) (stepUpOperation route) now d
  then (inr tt, d) else (inl (refused_with 403 "step_up_required"), d).

Definition consume_grant (user : User) (sess : Session) (d : DB) : bool * DB :=
  if r_StepUpHeader rq =?s "" then (false, d)
  else ConsumeStepUpToken (HashSHA256 (r_StepUpHeader rq)) (u_ID user) (s_ID sess) (stepUpOperation route) now d.

(** [consumeStepUp] with the handler's answer to a missing grant. *)
Definition consumeStepUp (user : User) (sess : Session) : Handler unit := fun d =>
  let '(spent, d) := consume_grant user sess d in
  (if spent then inr tt else inl (refused_with 403 "step_up_required"), d).

(** [Server.requireStepUp]: the grant is spent before the handler runs. *)
Definition spend_step_up (user : User) (sess : Session) : Handler unit := fun d =>
  let '(spent, d) := consume_grant user sess d in
  if spent then (inr tt, d) else
  (Observe 90 "admin.step_up_required" (u_ID user) (u_Username user) (r_Path rq) "endpoint" "denied"
     (JObj [("method", JStr (r_Method rq))]) ~;; refuse 403 "step_up_required") d.

(** ** Delegated administration *)

Record permission := MkPermission { pm_name : string; pm_auditor : bool; pm_helpdesk : bool; pm_appOwner : bool; pm_anyOwner : bool;
  pm_protectAdmins : bool }.

Definition permAdmin := MkPermission "admin" false false false false false.
Definition permRead := MkPermission "read" true false false false false.
Definition permDirectory := MkPermission "directory" true true false true false.
Definition permUserRead := MkPermission "user_read" true true false false true.
Definition permRecovery := MkPermission "recovery" false true false false true.
Definition permAppRead := MkPermission "app_read" true false true false false.
Definition permAppGrants := MkPermission "app_grants" false false true false false.
Definition permRequests := MkPermission "requests" false false false true false.

Record AccessRights := MkAccessRights { ac_Admin : bool; ac_Helpdesk : bool; ac_Auditor : bool; ac_AppOwner : list string }.

Definition allows (a : AccessRights) (p : permission) (id : string) : bool :=
  ac_Admin a || (pm_auditor p && ac_Auditor a) || (pm_helpdesk p && ac_Helpdesk a) ||
  (pm_appOwner p && one_of id (ac_AppOwner a)) || (pm_anyOwner p && negb (length (ac_AppOwner a) =? 0)%nat).

Definition accessFor (user : User) (d : DB) : AccessRights :=
  if u_Role user =?s "admin" then MkAccessRights true false false []
  else let dl := GetDelegations (u_ID user) d in MkAccessRights false (dl_Helpdesk dl) (dl_Auditor dl) (dl_AppOwner dl).

Definition holds_delegation (dl : Delegations) : bool := dl_Helpdesk dl || dl_Auditor dl || negb (length (dl_AppOwner dl) =? 0)%nat.

(** The account in the path is an administrator or holds a delegation. *)
Definition protected_target (d : DB) : bool :=
  match get_user now d (r_PathID rq) with
  | None => false
  | Some target => (u_Role target =?s "admin") || holds_delegation (GetDelegations (u_ID target) d)
  end.

(** What [require] lets through: the permission is checked before a grant is spent. *)
Definition admin_gate (p : permission) (stepUp : bool) : Handler (User * Session * AccessRights) :=
  who <~ auth_gate ;;
  d <~ run_get ;;
  let a := accessFor who.1 d in
  demand (allows a p (r_PathID rq)) 403 "forbidden" ~;;
  demand (negb (pm_protectAdmins p && negb (ac_Admin a) && protected_target d)) 403 "forbidden" ~;;
  (if stepUp then spend_step_up who.1 who.2 else run_ret tt) ~;;
  run_ret (who, a).

Definition require (p : permission) (stepUp : bool) (next : User -> Session -> AccessRights -> Handler Reply) : Handler Reply :=
  who <~ admin_gate p stepUp ;; next who.1.1 who.1.2 who.2.
End gates.

(** ** Facts *)

Section gate_facts.
Context (sv : Server) (rq : Request) (dr : WebDraws) (now : Z).

Lemma serve_bind {A} (m : Handler A) (k : A -> Handler Reply) d : serve (run_bind m k) d =
  match m d with (inl r, d') => (r, d') | (inr a, d') => serve (k a) d' end.
Proof. unfold serve, run_bind. by destruct (m d) as [[r|a] d']. Qed.

Lemma demand_inr b status code d u d' : demand b status code d = (inr u, d') <-> b = true /\ d' = d.
Proof. apply run_guard_inr. Qed.

(** An early reply is never the answer of success. *)
Definition refuses {A} (m : Handler A) : Prop := forall d r d', m d = (inl r, d') -> rp_Status r <> 200.

Lemma refuses_bind {A B} (m : Handler A) (k : A -> Handler B) : refuses m -> (forall a, refuses (k a)) -> refuses (run_bind m k).
Proof. intros Hm Hk d r d'. unfold run_bind. destruct (m d) as [[e|a] d1] eqn:E; [intros [= -> ->]; by eapply Hm|apply Hk]. Qed.
Lemma refuses_ret {A} (a : A) : refuses (run_ret a : Handler A).
Proof. by intros d r d'. Qed.
Lemma refuses_fail {A} rep : rp_Status rep <> 200 -> refuses (run_fail rep : Handler A).
Proof. by intros Hr d r d' [= <- _]. Qed.
Lemma refuses_demand b status code : status <> 200 -> refuses (demand b status code).
Proof. intros Hs d r d'. unfold demand, run_guard. destruct b; [done|]. by intros [= <- _]. Qed.

Lemma serve_success (m : Handler Reply) d rep d' : refuses m -> serve m d = (rep, d') -> rp_Status rep = 200 -> m d = (inr rep, d').
Proof. unfold serve. intros Hm Hr Hs. destruct (m d) as [[r|r] d1] eqn:E; injection Hr as -> ->; [by apply Hm in E|done]. Qed.

Lemma refuses_identify : refuses (identify sv rq now).
Proof. intros d r d'. unfold identify. by destruct (authenticate _ _ _ _). Qed.
Lemma refuses_get : refuses (run_get : Handler DB).
Proof. by intros d r d'. Qed.
Lemma refuses_auth_gate : refuses (auth_gate sv rq now).
Proof.
  unfold auth_gate. apply refuses_bind; [apply refuses_identify|]. intros [[user sess]|]; [|by apply refuses_fail].
  apply refuses_bind; [apply refuses_get|]. intros d. destruct (SessionEnrollmentStatus _ _ _ _); [|by apply refuses_fail].
  apply refuses_bind; [by apply refuses_demand|]. intros _. apply refuses_bind; [by apply refuses_demand|]. intros _. apply refuses_ret.
Qed.
(** A refused request has been identified and no more. *)
Lemma auth_gate_refused d rep d' : auth_gate sv rq now d = (inl rep, d') -> d' = (authenticate (session_cookie_hash rq) (sv_limits sv) now d).2.
Proof.
  unfold auth_gate, run_bind at 1, identify. destruct (authenticate _ _ _ d) as [[[user sess]|] d0]; [|by intros [= _ <-]].
  unfold run_bind at 1, run_get. destruct (SessionEnrollmentStatus _ _ _ _); [|by intros [= _ <-]].
  unfold run_bind, demand, run_guard. destruct (_ || _); [|by intros [= _ <-]]. destruct (_ || _); [done|by intros [= _ <-]].
Qed.
Lemma refuses_spend_step_up user sess : refuses (spend_step_up sv rq dr now user sess).
Proof. intros d r d'. unfold spend_step_up. destruct (consume_grant _ _ _ _ _) as [[|] ?]; [done|]. by intros [= <- _]. Qed.

Lemma run_get_inr (d d0 : DB) d' : run_get (E := Reply) d = (inr d0, d') <-> d0 = d /\ d' = d.
Proof. cbn. split; [intros [= <- <-]; done|intros [-> ->]; done]. Qed.

Lemma auth_gate_inr d user sess d' : auth_gate sv rq now d = (inr (user, sess), d') <->
  authenticate (session_cookie_hash rq) (sv_limits sv) now d = (Some (user, sess), d') /\
  (u_PasswordChangeRequired user = true -> passwordChangeRouteAllowed (route rq) = true) /\
  exists status, SessionEnrollmentStatus (u_ID user) (s_ID sess) now d' = Some status /\
    (restricted status = true -> enrollmentRouteAllowed (route rq) = true).
Proof.
  unfold auth_gate. rewrite run_bind_inr. unfold identify. split.
  - intros (who & d1 & Hi & Hr). destruct (authenticate _ _ _ _) as [w d0]. injection Hi as <- <-.
    destruct w as [[u s]|]; [|done]. apply run_bind_inr in Hr as (d2 & d3 & Hg & Hr). apply run_get_inr in Hg as [-> ->].
    destruct (SessionEnrollmentStatus _ _ _ _) as [status|] eqn:Es; [|done].
    rewrite run_bind_inr in Hr. destruct Hr as (? & ? & H1 & Hr). apply demand_inr in H1 as [H1 ->].
    rewrite run_bind_inr in Hr. destruct Hr as (? & ? & H2 & Hr). apply demand_inr in H2 as [H2 ->].
    injection Hr as <- <- <-. split; [done|]. split; [intros E; by rewrite E in H1|].
    exists status. split; [done|]. intros E. by rewrite E in H2.
  - intros (Ha & Hp & status & Hs & Hr). rewrite Ha. eexists _, _. split; [done|]. rewrite run_bind_inr.
    exists d', d'. split; [done|]. rewrite Hs, run_bind_inr. exists tt, d'. split.
    { apply demand_inr. split; [|done]. destruct (u_PasswordChangeRequired user); [by apply Hp|done]. }
    rewrite run_bind_inr. exists tt, d'. split; [|done]. apply demand_inr. split; [|done].
    destruct (restricted status); [by apply Hr|done].
Qed.

Lemma spend_step_up_inr user sess d u d' : spend_step_up sv rq dr now user sess d = (inr u, d') <->
  consume_grant rq now user sess d = (true, d').
Proof.
  unfold spend_step_up. destruct (consume_grant _ _ _ _ _) as [[|] d1]; [destruct u; split; intros [= <-]; done|].
  split; [|done]. intros Hr. apply run_bind_inr in Hr as (? & ? & _ & Hr). discriminate Hr.
Qed.

(** *** Who may do what, from the roles and the delegation rows alone *)

Definition permissions : list permission :=
  [permAdmin; permRead; permDirectory; permUserRead; permRecovery; permAppRead; permAppGrants; permRequests].

(** A row of [admin_delegations] names the account and the kind. *)
Definition delegated (d : DB) (user kind : string) : Prop := exists app, (user, kind, app) ∈ admin_delegations d.

(** An administrator may do everything; an auditor reads; a helpdesk reads the
    directory and recovers accounts; an owner has its own applications, the
    directory and the inbox. *)
Definition entitled (d : DB) (user : User) (p : permission) (id : string) : Prop :=
  u_Role user = "admin" \/
  (In p [permRead; permDirectory; permUserRead; permAppRead] /\ delegated d (u_ID user) "auditor") \/
  (In p [permDirectory; permUserRead; permRecovery] /\ delegated d (u_ID user) "helpdesk") \/
  (In p [permAppRead; permAppGrants] /\ (u_ID user, "app_owner", id) ∈ admin_delegations d) \/
  (In p [permDirectory; permRequests] /\ delegated d (u_ID user) "app_owner").

(** An account that only an administrator may look into or recover. *)
Definition privileged (d : DB) (target : User) : Prop :=
  u_Role target = "admin" \/ exists kind, In kind ["auditor"; "helpdesk"; "app_owner"] /\ delegated d (u_ID target) kind.

Definition out_of_reach (now : Z) (d : DB) (user : User) (p : permission) (id : string) : Prop :=
  In p [permUserRead; permRecovery] /\ u_Role user <> "admin" /\ exists target, get_user now d id = Some target /\ privileged d target.

Lemma delegated_exists d user kind :
  existsb (fun k : string * string * string => (k.1.1 =?s user) && (k.1.2 =?s kind)) (elements (admin_delegations d)) = true <-> delegated d user kind.
Proof.
  rewrite existsb_exists. split.
  - intros ([[u k] app] & Hin & Hk). cbn in Hk. bool_hyps. subst. exists app. apply elem_of_elements, list_elem_of_In. exact Hin.
  - intros [app Hin]. exists (user, kind, app). split; [by apply list_elem_of_In, elem_of_elements|]. cbn. by rewrite !streqb_refl.
Qed.

Lemma owned_exists d user app : In app (dl_AppOwner (GetDelegations user d)) <-> (user, "app_owner", app) ∈ admin_delegations d.
Proof.
  cbn [GetDelegations dl_AppOwner]. unfold sort_strings. rewrite <- list_elem_of_In, (merge_sort_Permutation str_le), list_elem_of_omap. split.
  - intros ([[u k] x] & Hin & Hx). cbn in Hx. case_match eqn:E; [|done]. injection Hx as ->. bool_hyps. subst. by apply elem_of_elements.
  - intros Hin. exists (user, "app_owner", app). split; [by apply elem_of_elements|]. cbn. by rewrite !streqb_refl.
Qed.

Lemma owner_exists d user : negb (length (dl_AppOwner (GetDelegations user d)) =? 0)%nat = true <-> delegated d user "app_owner".
Proof.
  split.
  - destruct (dl_AppOwner _) as [|app l] eqn:E; [done|]. intros _. exists app. apply owned_exists. rewrite E. by left.
  - intros [app Ha%owned_exists]. by destruct (dl_AppOwner _).
Qed.

Lemma holds_delegation_spec d user : holds_delegation (GetDelegations user d) = true <->
  exists kind, In kind ["auditor"; "helpdesk"; "app_owner"] /\ delegated d user kind.
Proof.
  unfold holds_delegation. rewrite !orb_true_iff, owner_exists. cbn [GetDelegations dl_Helpdesk dl_Auditor]. rewrite !delegated_exists. split.
  - intros [[Hd|Hd]|Hd]; eexists; (split; [|exact Hd]); cbn; tauto.
  - intros (kind & [<-|[<-|[<-|[]]]] & Hd); tauto.
Qed.

(** The computed rights are those. *)
Lemma allows_entitled d user p id : In p permissions -> allows (accessFor user d) p id = true <-> entitled d user p id.
Proof.
  intros Hp. unfold entitled, accessFor. destruct (u_Role user =?s "admin") eqn:Er.
  { apply streqb_true in Er. split; [by left|done]. }
  apply streqb_false in Er. unfold allows. cbn [ac_Admin ac_Auditor ac_Helpdesk ac_AppOwner orb].
  rewrite !orb_true_iff, !andb_true_iff, owner_exists, one_of_true, owned_exists. cbn [GetDelegations dl_Helpdesk dl_Auditor]. rewrite !delegated_exists.
  repeat (destruct Hp as [<-|Hp]; [cbn; unfold permAdmin, permRead, permDirectory, permUserRead, permRecovery, permAppRead, permAppGrants, permRequests; naive_solver|]). destruct Hp.
Qed.

(** What the gate lets through. *)
Lemma admin_gate_admits p stepUp d user sess a d' :
  admin_gate sv rq dr now p stepUp d = (inr (user, sess, a), d') <->
  exists d0 status,
    authenticate (session_cookie_hash rq) (sv_limits sv) now d = (Some (user, sess), d0) /\
    SessionEnrollmentStatus (u_ID user) (s_ID sess) now d0 = Some status /\
    (u_PasswordChangeRequired user = true -> passwordChangeRouteAllowed (route rq) = true) /\
    (restricted status = true -> enrollmentRouteAllowed (route rq) = true) /\
    a = accessFor user d0 /\ allows a p (r_PathID rq) = true /\
    (pm_protectAdmins p = true -> ac_Admin a = false -> forall target, get_user now d0 (r_PathID rq) = Some target ->
       u_Role target <> "admin" /\ holds_delegation (GetDelegations (u_ID target) d0) = false) /\
    if stepUp then consume_grant rq now user sess d0 = (true, d') else d' = d0.
Proof.
  unfold admin_gate. rewrite run_bind_inr. split.
  - intros ([u s] & d0 & Hg & Hr). apply auth_gate_inr in Hg as (Ha & Hp & status & Hs & He).
    apply run_bind_inr in Hr as (? & ? & Hg & Hr). apply run_get_inr in Hg as [-> ->]. cbn [fst snd] in Hr.
    rewrite run_bind_inr in Hr. destruct Hr as (? & ? & H1 & Hr). apply demand_inr in H1 as [H1 ->].
    rewrite run_bind_inr in Hr. destruct Hr as (? & ? & H2 & Hr). apply demand_inr in H2 as [H2 ->].
    rewrite run_bind_inr in Hr. destruct Hr as (? & d2 & H3 & Hr). injection Hr as <- <- <- <-.
    exists d0, status. repeat (split; [done|]). split.
    + intros Hpp Hna target Ht. rewrite Hpp, Hna in H2. unfold protected_target in H2. rewrite Ht in H2.
      apply negb_true_iff, orb_false_iff in H2 as [H2 H2']. split; [by apply streqb_false|done].
    + destruct stepUp; [by apply spend_step_up_inr in H3|by injection H3 as _ <-].
  - intros (d0 & status & Ha & Hs & Hp & He & -> & Hal & Hpr & Hst). exists (user, sess), d0. split.
    { apply auth_gate_inr. eauto. }
    rewrite run_bind_inr. exists d0, d0. split; [done|]. cbn [fst snd]. rewrite run_bind_inr. exists tt, d0.
    split; [by apply demand_inr|]. rewrite run_bind_inr. exists tt, d0. split.
    { apply demand_inr. split; [|done]. apply negb_true_iff, not_true_iff_false. intros E. bool_hyps.
      unfold protected_target in *. destruct (get_user now d0 (r_PathID rq)) as [target|] eqn:Et; [|done].
      destruct (Hpr ltac:(done) ltac:(done) target eq_refl) as [Hx Hy]. apply streqb_false in Hx. rewrite Hx, Hy in *. done. }
    rewrite run_bind_inr. exists tt, d'. split; [|done].
    destruct stepUp; [by apply spend_step_up_inr|by subst].
Qed.

(** The refusal of privileged targets is that clause. *)
Lemma reach_spec d user p : In p permissions ->
  (pm_protectAdmins p = true -> ac_Admin (accessFor user d) = false -> forall target, get_user now d (r_PathID rq) = Some target ->
     u_Role target <> "admin" /\ holds_delegation (GetDelegations (u_ID target) d) = false) <->
  ~ out_of_reach now d user p (r_PathID rq).
Proof.
  intros Hp. assert (pm_protectAdmins p = true <-> In p [permUserRead; permRecovery]) as Hpp.
  { repeat (destruct Hp as [<-|Hp]; [cbn; unfold permAdmin, permRead, permDirectory, permUserRead, permRecovery, permAppRead, permAppGrants, permRequests; naive_solver|]). destruct Hp. }
  assert (ac_Admin (accessFor user d) = false <-> u_Role user <> "admin") as Hr.
  { unfold accessFor. destruct (u_Role user =?s "admin") eqn:E; [apply streqb_true in E; by rewrite E|apply streqb_false in E; done]. }
  rewrite Hpp, Hr. unfold out_of_reach, privileged. split.
  - intros Hall (H1 & H2 & target & Ht & Hd). destruct (Hall H1 H2 target Ht) as [Hn Hf]. destruct Hd as [Hd|Hd]; [done|].
    apply holds_delegation_spec in Hd. congruence.
  - intros Hn H1 H2 target Ht. split; [intros Ha; apply Hn; eauto 7|]. apply not_true_iff_false. intros Hd%holds_delegation_spec. apply Hn. eauto 7.
Qed.

Lemma consume_grant_spec user sess d d' : consume_grant rq now user sess d = (true, d') <-> r_StepUpHeader rq <> "" /\
  ConsumeStepUpToken (HashSHA256 (r_StepUpHeader rq)) (u_ID user) (s_ID sess) (stepUpOperation (route rq)) now d = (true, d').
Proof.
  unfold consume_grant. destruct (r_StepUpHeader rq =?s "") eqn:E; [apply streqb_true in E; rewrite E|apply streqb_false in E]; naive_solver.
Qed.

(** C8. An administrative handler runs exactly for a live session whose pending
    password change and enrollment allow the route, of an administrator or
    of an account whose delegation rows entitle it to the permission - an
    auditor to the reading ones, a helpdesk to the directory, an account's
    view and recovery, an owner to its own application, the directory and
    the inbox - never for a non-administrator looking into or recovering an
    administrator or a delegate, and, where the route asks for it, with a
    step-up grant of that account, session and operation, which it consumes. *)
Theorem admin_routes_admit_only_the_permitted p stepUp d user sess a d' : In p permissions ->
  admin_gate sv rq dr now p stepUp d = (inr (user, sess, a), d') <->
  exists d0 status,
    authenticate (session_cookie_hash rq) (sv_limits sv) now d = (Some (user, sess), d0) /\
    SessionEnrollmentStatus (u_ID user) (s_ID sess) now d0 = Some status /\
    (u_PasswordChangeRequired user = true -> passwordChangeRouteAllowed (route rq) = true) /\
    (restricted status = true -> enrollmentRouteAllowed (route rq) = true) /\
    a = accessFor user d0 /\ entitled d0 user p (r_PathID rq) /\ ~ out_of_reach now d0 user p (r_PathID rq) /\
    if stepUp then r_StepUpHeader rq <> "" /\
      ConsumeStepUpToken (HashSHA256 (r_StepUpHeader rq)) (u_ID user) (s_ID sess) (stepUpOperation (route rq)) now d0 = (true, d')
    else d' = d0.
Proof.
  intros Hp. rewrite admin_gate_admits. split; intros (d0 & status & H1 & H2 & H3 & H4 & -> & H5 & H6 & H7); exists d0, status;
    apply (allows_entitled d0 user p (r_PathID rq) Hp) in H5; rewrite (reach_spec d0 user p Hp) in H6 || rewrite <- (reach_spec d0 user p Hp) in H6;
    repeat (split; [done|]); (destruct stepUp; [by apply consume_grant_spec|done]).
Qed.

(** A state-changing request with a session cookie passes the CSRF check
    exactly when its CSRF cookie and its header, or its form field without a
    header, both equal the token derived from that session. *)
Theorem csrf_token_is_the_sessions session :
  one_of (r_Method rq) ["GET"; "HEAD"; "OPTIONS"] = false -> csrf_exempt (r_Path rq) = false ->
  r_SessionCookie rq = Some session -> session <> "" ->
  csrf_refusal sv rq dr = None <->
  r_CSRFCookie rq = Some (String.append "s." (SignHMACSHA256 (sv_csrfKey sv) (bytes_of (HashSHA256 session)))) /\
  (if r_CSRFHeader rq =?s "" then r_CSRFForm rq else r_CSRFHeader rq) =
    String.append "s." (SignHMACSHA256 (sv_csrfKey sv) (bytes_of (HashSHA256 session))).
Proof.
  intros Hm Hp Hs Hne. unfold csrf_refusal. rewrite Hm, Hp, Hs. cbn [orb].
  set (token := String.append "s." _).
  assert (forall cookie, csrfTokenMatchesSession sv dr session cookie = (token =?s cookie)) as Hmatch.
  { intros cookie. unfold csrfTokenMatchesSession, IssueCSRFToken. apply streqb_false in Hne. rewrite Hne. reflexivity. }
  destruct (r_CSRFCookie rq) as [[|c cookie]|]; [|set (ck := String c cookie)|].
  - split; [done|]. intros [E _]. discriminate E.
  - set (h := if _ : bool then r_CSRFForm rq else r_CSRFHeader rq).
    assert ((if ck <>?s h then Some (refused_with 403 "invalid_csrf") else match session with
      | "" => None | _ => if csrfTokenMatchesSession sv dr session ck then None else Some (refused_with 403 "invalid_csrf") end) = None
      <-> ck = h /\ ck = token) as Hx.
    { rewrite Hmatch. destruct (ck =?s h) eqn:E1; cbn [negb].
      - apply streqb_true in E1. destruct session; [done|]. destruct (token =?s ck) eqn:E2.
        + apply streqb_true in E2. split; [intros _; split; congruence|done].
        + apply streqb_false in E2. split; [done|]. intros [_ E]. congruence.
      - apply streqb_false in E1. split; [done|]. intros [E _]. congruence. }
    etrans; [exact Hx|]. clearbody ck h token. split; [intros [E1 E2]; split; congruence|intros [E1 E2]; injection E1 as E1; split; congruence].
  - split; [done|]. intros [E _]. discriminate E.
Qed.
End gate_facts.

(** ** Witness *)

Definition toy_server : Server := MkServer (MkManager [] "") (repeat 9 32) toy_engine None "id.example.org" "https://id.example.org" "".
Definition toy_peer : Peer := MkPeer "192.0.2.7:50000" "" true "".
Definition toy_token : string := String.append "s." (SignHMACSHA256 (repeat 9 32) (bytes_of (HashSHA256 "cookie"))).
Definition toy_request (csrf : string) : Request :=
  MkRequest "POST" "/api/user/password" "" toy_peer "agent" (Some "cookie") (Some csrf) None csrf "" "".
Definition toy_web_draws : WebDraws :=
  MkWebDraws (fun n => String.append "id-" (pretty n)) (fun n => repeat (Z.of_nat n) 32) false true 32 (fun n => 5 + Z.of_nat n).

Lemma csrf_token_is_the_sessions_witness :
  csrf_refusal toy_server (toy_request toy_token) toy_web_draws = None /\
  csrf_refusal toy_server (toy_request "forged") toy_web_draws <> None.
Proof.
  split.
  - apply (csrf_token_is_the_sessions toy_server (toy_request toy_token) toy_web_draws "cookie");
      [vm_compute; reflexivity|vm_compute; reflexivity|reflexivity|discriminate|split; vm_compute; reflexivity].
  - intros E. apply (csrf_token_is_the_sessions toy_server (toy_request "forged") toy_web_draws "cookie") in E as [E _];
      [vm_compute in E; discriminate E|vm_compute; reflexivity|vm_compute; reflexivity|reflexivity|discriminate].
Defined.

(** Bob, a helpdesk delegate, at work on the account [id]. *)
Definition desk_request (id : string) : Request :=
  MkRequest "POST" "/api/admin/users/sign-out" id toy_peer "agent" (Some "cookie") (Some toy_token) None toy_token "" "".
Definition desk_db : DB := on_admin_delegations (union {[ ("bob", "helpdesk", "") ]})
  (on_sessions (fun _ => {[ "s1" := sample_session "s1" "bob" (HashSHA256 "cookie") ]}) (on_users <["carol" := sample_user "carol" "user"]> sample_db)).

Lemma admin_routes_admit_only_the_permitted_witness : exists user sess a d' d0,
  admin_gate toy_server (desk_request "carol") toy_web_draws t0 permRecovery false desk_db = (inr (user, sess, a), d') /\
  entitled d0 user permRecovery "carol" /\
  admin_gate toy_server (desk_request "alice") toy_web_draws t0 permRecovery false desk_db <> (inr (user, sess, a), d').
Proof.
  destruct (admin_gate toy_server (desk_request "carol") toy_web_draws t0 permRecovery false desk_db) as [[rep|[[user sess] a]] d'] eqn:E.
  { exfalso. assert (match (admin_gate toy_server (desk_request "carol") toy_web_draws t0 permRecovery false desk_db).1 with inl _ => 0 | inr _ => 1 end = 1) as Hb
      by (vm_compute; reflexivity). rewrite E in Hb. discriminate Hb. }
  assert (In permRecovery permissions) as Hp by (cbn; tauto).
  pose proof (proj1 (admin_routes_admit_only_the_permitted toy_server (desk_request "carol") toy_web_draws t0 permRecovery false desk_db user sess a d' Hp) E)
    as (d0 & status & _ & _ & _ & _ & _ & Hen & _).
  exists user, sess, a, d', d0. split; [reflexivity|]. split; [exact Hen|].
  intros Ea. assert (match (admin_gate toy_server (desk_request "alice") toy_web_draws t0 permRecovery false desk_db).1 with inl _ => 0 | inr _ => 1 end = 0) as Hb
    by (vm_compute; reflexivity). rewrite Ea in Hb. discriminate Hb.
Defined.
