(* ===== verification/Login.v ===== *)
(** Signing in and re-authenticating: the handlers of [api/auth_handlers.go],
    [api/stepup_handlers.go] and [api/webauthn_handlers.go], with the counter
    policy of [webauthn/webauthn.go].

    A request body is the decoded record, [None] when it is not JSON.  The
    WebAuthn library's ceremony checks, [url.ParseQuery] and the JSON reading
    of client data are the operations of the class [Ceremonies]. *)
From stdpp Require Import pretty.
From S2P Require Import Prelude Schema Access Sample Sessions Tokens StepUp Mfa Outbox AppAccess Directory Crypto Requests OAuth Net Factors Web.

Open Scope string_scope.
Open Scope Z_scope.

(** ** The passkey library *)

Record AssertionInput := MkAssertionInput { ai_CredentialID : list Z; ai_UserHandle : list Z; ai_AuthenticatorData : list Z;
  ai_ClientDataJSON : list Z; ai_Signature : list Z; ai_PublicKeySPKI : list Z; ai_Challenge : string; ai_Origin : string; ai_RPID : string;
  ai_StoredSignCount : Z; ai_BackupEligible : bool }.

Record RegistrationInput := MkRegistrationInput { ri_CredentialID : list Z; ri_AttestationObject : list Z; ri_ClientDataJSON : list Z;
  ri_UserHandle : list Z; ri_Challenge : string; ri_Origin : string; ri_RPID : string }.

Record AuthenticatorData := MkAuthenticatorData { ad_Flags : Z; ad_SignCount : Z }.

Class Ceremonies := {
  library_ValidateLogin : AssertionInput -> option (AuthenticatorData * bool); (** with the clone warning *)
  library_CreateCredential : RegistrationInput -> option (AuthenticatorData * list Z); (** with the key in SPKI form *)
  client_data_challenge : list Z -> option string; (** the [challenge] member of the client data *)
  url_ParseQuery : string -> option Values
}.

Definition flag (bit : Z) (a : AuthenticatorData) : bool := negb (Z.land (ad_Flags a) bit =? 0).
Definition UserVerified : AuthenticatorData -> bool := flag 4.
Definition BackupEligible : AuthenticatorData -> bool := flag 8.
Definition BackupState : AuthenticatorData -> bool := flag 16.

Section webauthn.
Context `{Primitives} `{Ceremonies}.

(** The point of a stored P-256 key. *)
Definition parseES256PublicKey (spki : list Z) : option (list Z) :=
  match x509_ParsePKIX spki with P256Key point => Some point | _ => None end.

(** A counter that did not advance is refused unless the credential is synced. *)
Definition VerifyAssertion (input : AssertionInput) : option AuthenticatorData :=
  match parseES256PublicKey (ai_PublicKeySPKI input) with
  | None => None
  | Some _ =>
    match library_ValidateLogin input with
    | Some (ad, cloneWarning) => if cloneWarning && negb (ai_BackupEligible input) then None else Some ad
    | None => None
    end
  end.
End webauthn.

(** ** Signing in with a password *)

Record LoginRequest := MkLoginRequest { lq_Interaction : string; lq_Username : string; lq_Password : string }.

(** The [Handler] steps: a store transaction whose failure is an internal
    error, and one whose failure is read. *)
Definition store_or_500 {A} (m : DB -> (StoreError + A) * DB) : Handler A := fun d =>
  match m d with (inl _, d) => (inl (refused_with 500 "internal_error"), d) | (inr a, d) => (inr a, d) end.
Definition attempt {E A} (m : DB -> (E + A) * DB) : Handler (E + A) := fun d => let '(r, d) := m d in (inr r, d).
Definition silently (f : DB -> DB) : Handler unit := fun d => (inr tt, f d).
Definition ask {A} (f : DB -> A) : Handler A := fun d => (inr (f d), d).

(** [SessionEnrollmentStatus] without a session. *)
Record EnrollmentStatus := MkEnrollmentStatus { es_Required : bool; es_AllowedMethods : list string; es_Deadline : Z; es_Enrolled : bool;
  es_Restricted : bool }.

Definition enrollment_status (user session : string) (now : Z) : Handler EnrollmentStatus := fun d =>
  match SessionEnrollmentStatus user session now d with
  | Some (required, allowed, deadline, enrolled, restricted) => (inr (MkEnrollmentStatus required allowed deadline enrolled restricted), d)
  | None => (inl (refused_with 500 "internal_error"), d)
  end.

Section login.
Context `{Primitives} `{AEAD} `{Ceremonies} (sv : Server) (rq : Request) (dr : WebDraws) (now : Z).

Definition rate_ip : string := rateLimitIP (sv_mw sv) (r_Peer rq).

(** No details are a null column. *)
Definition details_json (details : list (string * Json)) : Json := match details with [] => JNull | _ => JObj details end.

(** [audit.Observe] about the account itself. *)
Definition note (n : nat) (action : string) (user : User) (outcome : string) (details : list (string * Json)) : Handler unit :=
  Observe sv rq dr now n action (u_ID user) (u_Username user) (u_ID user) "user" outcome (details_json details).

Definition prepared (n : nat) (action : string) (user : User) (outcome : string) (details : list (string * Json)) : option AuditEvent :=
  Prepare sv rq dr now n action (u_ID user) (u_Username user) (u_ID user) "user" outcome (details_json details).

(** Why an account may not attempt a password from [source]; empty when it may. *)
Definition loginRefusal (user : option User) (source : string) (d : DB) : string :=
  match user with
  | None => "user_not_found"
  | Some u =>
    if u_Status u <>?s "active" then (if u_Pending u then "user_pending" else "user_disabled")
    else if IsAccountLocked (u_ID u) source now d then "account_locked" else ""
  end.

Definition user_json (user : User) (status : EnrollmentStatus) : Json :=
  JObj [("enrollment", JObj [("required", JBool (es_Required status)); ("allowedMethods", strings (es_AllowedMethods status));
      ("deadline", JNum (es_Deadline status)); ("enrolled", JBool (es_Enrolled status)); ("restricted", JBool (es_Restricted status))]);
    ("passwordChangeRequired", JBool (u_PasswordChangeRequired user)); ("id", JStr (u_ID user)); ("username", JStr (u_Username user));
    ("displayName", JStr (u_DisplayName user)); ("email", JStr (u_Email user)); ("role", JStr (u_Role user)); ("status", JStr (u_Status user))].

(** The session is made for the account as its password was proven; an
    interaction that is gone leaves a login without the authorization. *)
Definition createSessionAndRespond (user : User) (evidence : AuthenticationEvidence) (interactionHash : string) : Handler Reply :=
  let rawToken := string_of (hex_encode (w_raw dr 1)) in
  let expiresAt := now + AbsoluteTTL (current_limits (sv_limits sv)) in
  let sess := MkSession evidence (w_id dr 10) (u_ID user) (HashSHA256 rawToken) (ClientIP (sv_mw sv) (r_Peer rq)) (r_Agent rq) expiresAt 0 0 false
    (u_PasswordHash user) in
  first <~ attempt (commit (CreateSessionForInteraction sess interactionHash (authorizationBrowserHash sv rq) now)) ;;
  r <~ match first with
    | inl ErrAuthorizationInteraction => again <~ attempt (commit (CreateSession sess now)) ;; run_ret (again, true)
    | _ => run_ret (first, false)
    end ;;
  match r with
  | (inl ErrAppAccessDenied, _) =>
    note 11 "auth.login" user "failure" [("reason", JStr "credentials_changed")] ~;; refuse 401 "invalid_credentials"
  | (inl _, _) => stepUpInternalError
  | (inr stored, restart) =>
    silently (ClearFailedLogins (u_ID user) rate_ip) ~;;
    status <~ enrollment_status (u_ID user) (s_ID stored) now ;;
    note 12 "auth.login_success" user "success" [] ~;;
    run_ret (MkReply 200 (JObj ((if restart then [("restartAuthorization", JBool true)] else []) ++
        [("success", JBool true); ("user", user_json user status)])%list)
      (Some rawToken) (Some (IssueCSRFToken sv (w_raw dr 0) rawToken)))
  end.

Definition loginPushesPerHour : Z := 5.
Definition pushFatigueThreshold : Z := 3.

(** [auditPushFatigue]. *)
Definition auditPushFatigue (userID username : string) : Handler unit :=
  n <~ ask (CountUnansweredLoginPushes userID (now - hour) now) ;;
  if n <? pushFatigueThreshold then run_ret tt
  else Observe sv rq dr now 13 "auth.mfa_push_fatigue" userID username userID "user" "denied" (JObj [("count", JNum n)]).

(** [w_pushAllowed] is the answer of the account's hourly bucket. *)
Definition loginPush (user : User) : Handler (option MFAChallenge * string) :=
  pending <~ ask (HasPendingLoginPush (u_ID user) now) ;;
  if (pending : bool) then run_ret (None, "pending")
  else if negb (w_pushAllowed dr) then run_ret (None, "capped") else
  auditPushFatigue (u_ID user) (u_Username user) ~;;
  created <~ attempt (CreatePushChallenge (sv_engine sv) (w_id dr 14) (w_match dr) (w_decoy dr) (u_ID user) "login" now) ;;
  match created with
  | inl ErrPushPending => run_ret (None, "pending")
  | inl _ => run_ret (None, "error")
  | inr challenge => run_ret (Some challenge, "sent")
  end.

(** The factors the account offers at this login. *)
Definition enrolled_methods (user : string) (d : DB) : list string :=
  (map mm_MethodType (ListUserMFAMethods user d) ++ (if (length (ListUserWebAuthnCredentials user d) =? 0)%nat then [] else ["webauthn"]))%list.

Definition permitted_methods (status : EnrollmentStatus) (methods : list string) : list string :=
  if es_Required status && es_Enrolled status then
    match List.filter (fun m => one_of m (es_AllowedMethods status)) methods with [] => methods | l => l end
  else methods.

(** What an application's policy leaves of them: the factors, or a login
    that only enrolls, or a refusal. *)
Inductive PolicyChoice := Proceed (methods : list string) | EnrollOnly | EnrollmentRequired.

Definition policy_choice (factor acr : string) (status : EnrollmentStatus) (methods : list string) (user : string) (d : DB) : PolicyChoice :=
  let passkeys := negb (length (ListUserWebAuthnCredentials user d) =? 0)%nat in
  let methods := if factor =?s "passkey" then (if passkeys then ["webauthn"] else []) else methods in
  match methods with
  | [] =>
    if (factor <>?s "password") || (acr =?s MFAACR) then
      if es_Required status && (length (ListUserMFAMethods user d) =? 0)%nat && negb passkeys && (es_Deadline status <=? unix now)
      then EnrollOnly else EnrollmentRequired
    else Proceed []
  | l => Proceed l
  end.

Definition opt_field (k v : string) : list (string * Json) := if v =?s "" then [] else [(k, JStr v)].

(** The second-factor challenge of a login whose password was right. *)
Definition challenge_login (user : User) (methods : list string) (interactionHash : string) : Handler Reply :=
  pushed <~ (if one_of "push" methods then loginPush user else run_ret (None, "")) ;;
  let challengeID := match pushed.1 with Some c => mc_ID c | None => "" end in
  issued <~ attempt (IssueMFATokenForInteraction (w_id dr 15) (w_raw dr 2) (u_ID user) challengeID now interactionHash (u_PasswordHash user) now) ;;
  match issued with
  | inl (MFAStore ErrNotFound) =>
    note 16 "auth.login" user "failure" [("reason", JStr "credentials_changed")] ~;; refuse 401 "invalid_credentials"
  | inl _ => stepUpInternalError
  | inr token =>
    note 17 "auth.mfa_challenge" user "success" [("methods", strings methods); ("push", JStr pushed.2)] ~;;
    run_ret (MkReply 200 (JObj ([("success", JBool false); ("mfaRequired", JBool true); ("mfaToken", JStr token); ("mfaMethods", strings methods)] ++
      opt_field "challengeId" challengeID ++
      match pushed.1 with
      | Some c => opt_field "matchDigits" (mc_MatchDigits c) ++ [("decoyDigits", strings (mc_DecoyDigits c))]
      | None => []
      end)%list) None None)
  end.
(** The interaction the sign-in belongs to, if it names one that is still
    waiting for this account in this browser. *)
Definition login_interaction (req : LoginRequest) (user : User) : Handler (option AuthorizationInteraction) := fun d =>
  if lq_Interaction req =?s "" then (inr None, d) else
  match GetAuthorizationInteraction (HashSHA256 (lq_Interaction req)) (authorizationBrowserHash sv rq) now d with
  | inr i => if (i_SessionID i =?s "") && ((i_UserID i =?s "") || (i_UserID i =?s u_ID user)) then (inr (Some i), d)
    else (inl (refused_with 400 "invalid_interaction"), d)
  | inl _ => (inl (refused_with 400 "invalid_interaction"), d)
  end.

(** What the interaction's application asks for: its policy's factor and the requested ACR. *)
Definition interaction_policy (i : AuthorizationInteraction) : Handler (string * string) := fun d =>
  match url_ParseQuery (i_Request i) with
  | None => (inl (refused_with 500 "internal_error"), d)
  | Some q =>
    match ParseAuthenticationRequest q, ClientAuthenticationPolicyBinding d (default "" (get_value q "client_id")) with
    | Some requirements, inr (policy, _) => (inr (p_Factor policy, rq_ACR requirements), d)
    | _, _ => (inl (refused_with 500 "internal_error"), d)
    end
  end.

Definition busy_refusal {A} : Handler A := refuse 503 "temporarily_unavailable".

(** The refusal of an account that may not attempt a password: its answer and
    its cost are those of a wrong password. *)
Definition refuse_login (user : option User) (reason username password : string) : Handler Reply :=
  match DummyVerify (w_busy dr) (sv_dummyHash sv) password with
  | Some _ => busy_refusal
  | None =>
    (match user with
     | None => Observe sv rq dr now 1 "auth.login" "" username "" "user" "failure" (JObj [("reason", JStr reason)])
     | Some u => note 1 "auth.login" u "denied" [("reason", JStr reason)]
     end) ~;;
    refuse 401 "invalid_credentials"
  end.

(** After the right password: which second factor, or none. *)
Definition after_password (req : LoginRequest) (user : User) : Handler Reply :=
  interaction <~ login_interaction req user ;;
  let interactionHash := if lq_Interaction req =?s "" then "" else HashSHA256 (lq_Interaction req) in
  let only_password := MkAuthenticationEvidence (Some now) None "" in
  enrolled <~ ask (enrolled_methods (u_ID user)) ;;
  status <~ enrollment_status (u_ID user) "" now ;;
  let methods := permitted_methods status enrolled in
  choice <~ match interaction with
    | None => run_ret (Proceed methods)
    | Some i => p <~ interaction_policy i ;; ask (policy_choice p.1 p.2 status methods (u_ID user))
    end ;;
  match choice with
  | EnrollmentRequired => refuse 403 "factor_enrollment_required"
  | EnrollOnly | Proceed [] => createSessionAndRespond user only_password interactionHash
  | Proceed methods => challenge_login user methods interactionHash
  end.

(** A wrong password counts against the account at this address. *)
Definition wrong_password (user : User) : Handler Reply :=
  attempts <~ attempt (RecordFailedLogin (u_ID user) rate_ip now) ;;
  note 2 "auth.login" user "failure" [("reason", JStr "invalid_password");
    ("consecutiveFailures", JNum (match attempts with inr n => n | inl _ => 0 end))] ~;;
  refuse 401 "invalid_credentials".

Definition Login (body : option LoginRequest) : Handler Reply :=
  match body with
  | None => refuse 400 "invalid_request"
  | Some req =>
    user <~ ask (GetUserByUsername (lq_Username req) now) ;;
    reason <~ ask (loginRefusal user rate_ip) ;;
    match user with
    | Some user as found =>
      if reason <>?s "" then refuse_login found reason (lq_Username req) (lq_Password req) else
      match VerifyPassword (w_busy dr) (lq_Password req) (u_PasswordHash user) with
      | inl ErrBusy => busy_refusal
      | inr true => after_password req user
      | _ => wrong_password user
      end
    | None => refuse_login None reason (lq_Username req) (lq_Password req)
    end
  end.

(** ** Completing a login with a second factor *)

(** The token's record, its account active, and no lockout. *)
Definition resolveMFAToken (raw : string) : Handler (MFAToken * User) := fun d =>
  match ValidateMFAToken raw now d with
  | inl _ => (inl (refused_with 401 "invalid_mfa_token"), d)
  | inr token =>
    match get_user now d (mt_UserID token) with
    | Some user =>
      if u_Status user <>?s "active" then (inl (refused_with 401 "invalid_user"), d)
      else if IsAccountLocked (u_ID user) rate_ip now d then (inl (refused_with 429 "account_locked"), d)
      else (inr (token, user), d)
    | None => (inl (refused_with 401 "invalid_user"), d)
    end
  end.

(** One attempt of the token is spent before its proof is checked. *)
Definition reserveMFAAttempt (token : MFAToken) : Handler Z := fun d =>
  match ReserveMFAAttemptE (mt_ID token) now d with
  | (inr n, d) => (inr n, d)
  | (inl _, d) => (inl (refused_with 401 "invalid_mfa_token"), d)
  end.

(** A wrong second factor counts against the account from every address. *)
Definition mfaFailure {A} (user : User) (action : string) (details : list (string * Json)) (status : Z) (code : string) : Handler A :=
  n <~ attempt (RecordFailedLogin (u_ID user) "" now) ;;
  note 3 action user "failure" (details ++ [("consecutiveFailures", JNum (match n with inr n => n | inl _ => 0 end))])%list ~;;
  refuse status code.

Definition spendMFAToken (token : MFAToken) : Handler unit := fun d =>
  let '(spent, d) := ConsumeMFAToken (mt_ID token) now d in
  (if spent then inr tt else inl (refused_with 401 "invalid_mfa_token"), d).

Definition factor_evidence (token : MFAToken) (at_ : option Z) (method : string) : AuthenticationEvidence :=
  MkAuthenticationEvidence (mt_PrimaryAuthenticatedAt token) at_ method.

Definition finish_login (token : MFAToken) (user : User) (at_ : option Z) (method : string) : Handler Reply :=
  createSessionAndRespond user (factor_evidence token at_ method) (mt_InteractionHash token).

(** The request names a token and a code. *)
Definition VerifyTOTP (mfaToken code : string) : Handler Reply :=
  demand ((mfaToken <>?s "") && (code <>?s "")) 400 "invalid_request" ~;;
  who <~ resolveMFAToken mfaToken ;;
  attempts <~ reserveMFAAttempt who.1 ;;
  valid <~ attempt (VerifyUserTOTP (sv_engine sv) (u_ID who.2) code now) ;;
  match valid with
  | inr true => spendMFAToken who.1 ~;; finish_login who.1 who.2 (Some now) "totp"
  | _ => mfaFailure who.2 "auth.mfa_totp" [("attempts", JNum attempts)] 401 "invalid_totp_code"
  end.

Definition VerifyRecoveryCode (mfaToken code : string) : Handler Reply :=
  demand ((mfaToken <>?s "") && (code <>?s "")) 400 "invalid_request" ~;;
  who <~ resolveMFAToken mfaToken ;;
  attempts <~ reserveMFAAttempt who.1 ;;
  valid <~ attempt (VerifyAndConsumeRecoveryCode (sv_engine sv) (u_ID who.2) code (prepared 4 "auth.mfa_recovery_consumed" who.2 "success" []) now) ;;
  match valid with
  | inl _ => stepUpInternalError
  | inr false => mfaFailure who.2 "auth.mfa_recovery" [("attempts", JNum attempts)] 401 "invalid_recovery_code"
  | inr true => spendMFAToken who.1 ~;; finish_login who.1 who.2 (Some now) "recovery"
  end.

(** The token was issued with this challenge. *)
Definition demand_challenge (token : MFAToken) (challengeID : string) : Handler unit :=
  demand (match mt_ChallengeID token with Some c => (c <>?s "") && (c =?s challengeID) | None => false end) 401 "challenge_mismatch".

Definition PollPushChallenge (mfaToken challengeID : string) : Handler Reply :=
  demand ((challengeID <>?s "") && (mfaToken <>?s "")) 400 "invalid_request" ~;;
  who <~ resolveMFAToken mfaToken ;;
  demand_challenge who.1 challengeID ~;;
  r <~ attempt (CheckPushChallenge challengeID now) ;;
  match r with inl _ => refuse 404 "not_found" | inr (status, _) => writeJSON [("status", JStr status)] end.

Definition FinishPushLogin (mfaToken challengeID : string) : Handler Reply :=
  demand ((mfaToken <>?s "") && (challengeID <>?s "")) 400 "invalid_request" ~;;
  who <~ resolveMFAToken mfaToken ;;
  demand_challenge who.1 challengeID ~;;
  found <~ ask (GetMFAChallenge challengeID) ;;
  match found with
  | None => refuse 401 "mfa_not_approved"
  | Some ch =>
    demand ((mc_Status ch =?s "approved") && negb (is_null (mc_VerifiedAt ch)) && (now <? mc_ExpiresAt ch)) 401 "mfa_not_approved" ~;;
    (if mc_UserID ch =?s u_ID who.2 then run_ret tt else
      note 5 "auth.mfa_push_mismatch" who.2 "denied" [("reason", JStr "challenge_owner_mismatch"); ("challengeId", JStr challengeID)] ~;;
      refuse 401 "mfa_not_approved") ~;;
    spendMFAToken who.1 ~;;
    note 6 "auth.mfa_push_approved" who.2 "success" [] ~;;
    finish_login who.1 who.2 (mc_VerifiedAt ch) "push"
  end.

(** The device's answer; the signature is its only credential.  [ErrText] is
    the text of the engine's error. *)
Definition RespondPush (ErrText : MFAError -> string) (challengeID deviceID selectedDigits : string) (approve : bool) (signature : string) : Handler Reply :=
  demand ((challengeID <>?s "") && (deviceID <>?s "")) 400 "invalid_request" ~;;
  demand (signature <>?s "") 401 "signature_required" ~;;
  let observe outcome details := Observe sv rq dr now 7 "auth.mfa_push_respond" "" "" challengeID "mfa_challenge" outcome (JObj details) in
  r <~ attempt (RespondPushChallenge (sv_engine sv) challengeID deviceID selectedDigits approve signature now) ;;
  match r with
  | inl ErrUnsignedDevice => observe "denied" [("reason", JStr "no_signing_device")] ~;; refuse 401 "device_not_enrolled_for_signing"
  | inl e => observe "failure" [("reason", JStr (ErrText e))] ~;; refuse 400 "challenge_error"
  | inr (approved, device) =>
    observe (if approved : bool then "success" else "denied") [("deviceId", JStr device)] ~;;
    (if approved then run_ret tt else
      ch <~ ask (GetMFAChallenge challengeID) ;;
      match ch with
      | Some ch => if mc_Purpose ch =?s "login" then auditPushFatigue (mc_UserID ch) "" else run_ret tt
      | None => run_ret tt
      end) ~;;
    writeJSON [("success", JBool approved)]
  end.

(** [lid] names the logout deliveries the revocation queues. *)
Definition Logout (lid : string -> string) (who : option (User * Session)) : Handler Reply :=
  (match who with
   | Some (user, sess) =>
     r <~ attempt (RevokeSession lid (u_ID user) (s_ID sess) (prepared 8 "auth.logout" user "success" []) now) ;;
     match r with
     | inr _ | inl ErrNotFound => run_ret tt
     | inl _ => stepUpInternalError
     end
   | None => run_ret tt
   end) ~;;
  run_ret (MkReply 200 (JObj [("success", JBool true)]) (Some "") (Some "")).

(** ** Re-authentication *)

Record stepUpRequest := MkStepUpRequest { sr_Password : string; sr_Code : string; sr_Method : string; sr_Operation : string }.

(** [strings.Cut] at the first blank. *)
Definition validStepUpOperation (operation : string) : bool :=
  match cut 32 (bytes_of operation) with
  | (method, Some path) =>
    (String.length operation <=? 2048)%nat && one_of (string_of method) ["GET"; "POST"; "PUT"; "DELETE"] &&
    String.prefix "/api/" (string_of path) && forallb (fun c => negb ((c =? 0) || (c =? 13) || (c =? 10))) path
  | (_, None) => false
  end.

Definition recoveryOperation (operation : string) : bool :=
  one_of operation ["POST /api/user/mfa/totp/enable"; "POST /api/user/passkeys/register/finish"].

(** A recovery code only authorizes enrolling a replacement factor. *)
Definition stepUpMethods (user operation : string) (d : DB) : list string :=
  let methods := (List.filter (fun m => one_of m ["totp"; "push"]) (map mm_MethodType (ListUserMFAMethods user d)) ++
    (if (length (ListUserWebAuthnCredentials user d) =? 0)%nat then [] else ["webauthn"]))%list in
  match methods with
  | [] => []
  | _ => if recoveryOperation operation then (methods ++ ["recovery"])%list else methods
  end.

Definition StepUpMethods (user : User) (operation : string) : Handler Reply :=
  methods <~ ask (stepUpMethods (u_ID user) (stepUpOperation operation)) ;; writeJSON [("methods", strings methods)].

(** A wrong password counts per address, a wrong second factor from everywhere. *)
Definition stepUpFailure {A} (user : User) (reason : string) : Handler A :=
  silently (fun d => (RecordFailedLogin (u_ID user) (if reason =?s "bad_second_factor" then "" else rate_ip) now d).2) ~;;
  note 20 "auth.step_up" user "denied" [("reason", JStr reason)] ~;;
  refuse 401 "invalid_credentials".

Definition demand_unlocked (user : User) (details : list (string * Json)) : Handler unit :=
  locked <~ ask (IsAccountLocked (u_ID user) rate_ip now) ;;
  if locked : bool then note 21 "auth.step_up" user "denied" (("reason", JStr "account_locked") :: details)%list ~;; refuse 429 "account_locked"
  else run_ret tt.

Definition grant_of (user : User) (sess : Session) (hash operation method : string) (expires : Z) : StepUpToken :=
  MkStepUpToken operation method (w_id dr 22) (u_ID user) (s_ID sess) hash expires None 0.

(** A proof checked now: the grant is written with its audit row. *)
Definition grant_now (user : User) (sess : Session) (operation method : string) (expires : Z) : Handler Reply :=
  let raw := string_of (hex_encode (w_raw dr 3)) in
  store_or_500 (CreateStepUpToken (grant_of user sess (HashSHA256 raw) operation method expires)
    (prepared 23 "auth.step_up" user "success" [("method", JStr method); ("operation", JStr operation); ("recovery", JBool (method =?s "recovery"))]) now) ~;;
  silently (ClearFailedLogins (u_ID user) rate_ip) ~;;
  writeJSON [("kind", JStr "grant"); ("stepUpToken", JStr raw); ("expiresAt", JNum expires)].

(** A proof still owed: the challenge that will carry the grant. *)
Definition challenge_now (user : User) (sess : Session) (operation method : string) (expires : Z) : Handler Reply :=
  let raw := string_of (hex_encode (w_raw dr 3)) in
  proof <~ (if method =?s "push" then
      created <~ attempt (CreatePushChallenge (sv_engine sv) (w_id dr 14) (w_match dr) (w_decoy dr) (u_ID user) "step_up" now) ;;
      match created with
      | inl _ => stepUpInternalError
      | inr ch => run_ret (mc_ID ch, [("matchDigits", JStr (mc_MatchDigits ch))])
      end
    else
      keys <~ ask (ListUserWebAuthnCredentials (u_ID user)) ;;
      let challenge := string_of (hex_encode (w_raw dr 4)) in
      run_ret (challenge, [("passkey", JObj [("challenge", JStr challenge); ("rpId", JStr (sv_rpID sv));
        ("allowCredentials", strings (map wc_CredentialID keys))])])) ;;
  store_or_500 (commit (CreateStepUpChallenge
    (MkStepUpChallenge (HashSHA256 raw) (u_ID user) (s_ID sess) operation method proof.1 now expires 0 None)
    (prepared 24 "auth.step_up_challenge" user "success" [("reason", JStr "challenge_issued"); ("method", JStr method); ("operation", JStr operation)]) now)) ~;;
  writeJSON ([("kind", JStr "challenge"); ("challengeToken", JStr raw); ("method", JStr method); ("expiresAt", JNum expires)] ++ proof.2)%list.

Definition RequestStepUp (user : User) (sess : Session) (body : option stepUpRequest) : Handler Reply :=
  let password := match body with Some req => sr_Password req | None => "" end in
  match body with
  | Some req =>
    if (password =?s "") || negb (validStepUpOperation (sr_Operation req)) then
      match DummyVerify (w_busy dr) (sv_dummyHash sv) password with Some _ => busy_refusal | None => refuse 400 "invalid_request" end
    else
    let operation := stepUpOperation (sr_Operation req) in
    status <~ enrollment_status (u_ID user) (s_ID sess) now ;;
    demand (negb (u_PasswordChangeRequired user) || passwordChangeOperationAllowed operation) 403 "password_change_required" ~;;
    demand (negb (es_Restricted status) || enrollmentOperationAllowed operation) 403 "enrollment_required" ~;;
    demand_unlocked user [("operation", JStr operation)] ~;;
    match VerifyPassword (w_busy dr) password (u_PasswordHash user) with
    | inl ErrBusy => busy_refusal
    | inr true =>
      methods <~ ask (stepUpMethods (u_ID user) operation) ;;
      (if negb (length methods =? 0)%nat && negb (one_of (sr_Method req) methods) then
         note 25 "auth.step_up" user "denied" [("reason", JStr "mfa_required"); ("method", JStr (sr_Method req)); ("operation", JStr operation)] ~;;
         refuse 400 "mfa_required"
       else run_ret tt) ~;;
      demand (negb ((length methods =? 0)%nat && (sr_Method req <>?s ""))) 400 "invalid_method" ~;;
      let expires := Z.min (now + StepUpTTL) (s_ExpiresAt sess) in
      if one_of (sr_Method req) ["push"; "webauthn"] then challenge_now user sess operation (sr_Method req) expires else
      valid <~ (if sr_Method req =?s "totp" then attempt (VerifyUserTOTP (sv_engine sv) (u_ID user) (sr_Code req) now)
        else if sr_Method req =?s "recovery" then attempt (VerifyAndConsumeRecoveryCode (sv_engine sv) (u_ID user) (sr_Code req) None now)
        else run_ret (inr true)) ;;
      match valid with
      | inl _ => stepUpInternalError
      | inr false => stepUpFailure user "bad_second_factor"
      | inr true => grant_now user sess operation (sr_Method req) expires
      end
    | _ => stepUpFailure user "bad_password"
    end
  | None => match DummyVerify (w_busy dr) (sv_dummyHash sv) "" with Some _ => busy_refusal | None => refuse 400 "invalid_request" end
  end.

(** ** Passkeys *)

(** The ceremony fields are base64url without padding. *)
Definition b64url (s : string) : option (list Z) := b64_decode RawURLEncoding (bytes_of s).

Record finishLoginRequest := MkFinishLoginRequest { fl_MFAToken : string; fl_CredentialID : string; fl_AuthenticatorData : string;
  fl_ClientDataJSON : string; fl_Signature : string }.

Definition assertion_input (userID challenge : string) (cred : WebAuthnCredential) (credentialID key authData clientData signature : list Z) : AssertionInput :=
  MkAssertionInput credentialID (bytes_of userID) authData clientData signature key challenge (sv_origin sv) (sv_rpID sv) (wc_SignCount cred)
    (wc_BackupEligible cred).

(** [verifyStepUpAssertion]: [false] is any failure. *)
Definition verifyStepUpAssertion (userID challenge : string) (req : finishLoginRequest) : Handler bool := fun d =>
  match GetWebAuthnCredential userID (fl_CredentialID req) d with
  | None => (inr false, d)
  | Some cred =>
    match b64url (fl_AuthenticatorData req), b64url (fl_ClientDataJSON req), b64url (fl_Signature req),
      b64url (wc_PublicKeySPKI cred), b64url (wc_CredentialID cred) with
    | Some authData, Some clientData, Some signature, Some key, Some credentialID =>
      match VerifyAssertion (assertion_input userID challenge cred credentialID key authData clientData signature) with
      | None => (inr false, d)
      | Some ad => (inr true, RecordWebAuthnUse (wc_ID cred) (ad_SignCount ad) (BackupState ad) now d)
      end
    | _, _, _, _, _ => (inr false, d)
    end
  end.

(** An approved push carries the proof; a pending one keeps waiting. *)
Definition push_proof (user : User) (sess : Session) (c : StepUpChallenge) : Handler (option Reply) := fun d =>
  let denied := (inl (refused_with 400 "push_denied"), CancelStepUp (sc_TokenHash c) (u_ID user) (s_ID sess) now d) in
  match GetMFAChallenge (sc_Proof c) d with
  | Some ch =>
    if (mc_UserID ch =?s u_ID user) && (now <? mc_ExpiresAt ch) then
      if mc_Status ch =?s "pending" then (inr (Some (MkReply 200 (JObj [("kind", JStr "pending")]) None None)), d)
      else if (mc_Status ch =?s "approved") && negb (is_null (mc_VerifiedAt ch)) then (inr None, d) else denied
    else denied
  | None => denied
  end.

Definition complete_step_up (user : User) (sess : Session) (c : StepUpChallenge) (challengeToken : string) : Handler Reply :=
  completed <~ store_or_500 (CompleteStepUpChallenge (sc_TokenHash c) (grant_of user sess (sc_TokenHash c) (sc_Operation c) (sc_Method c) (sc_ExpiresAt c))
    (prepared 26 "auth.step_up" user "success" [("method", JStr (sc_Method c)); ("operation", JStr (sc_Operation c))]) now) ;;
  demand completed 400 "invalid_challenge" ~;;
  silently (ClearFailedLogins (u_ID user) rate_ip) ~;;
  writeJSON [("kind", JStr "grant"); ("stepUpToken", JStr challengeToken); ("expiresAt", JNum (sc_ExpiresAt c))].

Definition FinishStepUp (user : User) (sess : Session) (challengeToken : string) (assertion : finishLoginRequest) : Handler Reply :=
  demand (challengeToken <>?s "") 400 "invalid_request" ~;;
  found <~ ask (GetStepUpChallenge (HashSHA256 challengeToken) (u_ID user) (s_ID sess) now) ;;
  match found with
  | None => refuse 400 "invalid_challenge"
  | Some c =>
    demand_unlocked user [("method", JStr (sc_Method c)); ("operation", JStr (sc_Operation c))] ~;;
    methods <~ ask (stepUpMethods (u_ID user) (sc_Operation c)) ;;
    demand (one_of (sc_Method c) methods) 400 "invalid_method" ~;;
    if sc_Method c =?s "push" then
      waiting <~ push_proof user sess c ;;
      match waiting with Some reply => run_ret reply | None => complete_step_up user sess c challengeToken end
    else if sc_Method c =?s "webauthn" then
      ok <~ verifyStepUpAssertion (u_ID user) (sc_Proof c) assertion ;;
      if ok : bool then complete_step_up user sess c challengeToken
      else silently (FailStepUpChallenge (sc_TokenHash c)) ~;; stepUpFailure user "bad_second_factor"
    else refuse 400 "invalid_method"
  end.

Definition CancelStepUpH (user : User) (sess : Session) (challengeToken : string) : Handler Reply :=
  demand (challengeToken <>?s "") 400 "invalid_request" ~;;
  silently (CancelStepUp (HashSHA256 challengeToken) (u_ID user) (s_ID sess) now) ~;;
  writeJSON [("success", JBool true)].

Definition challengeTTL : Z := 3 * minute.
Definition maxPasskeysPerUser : nat := 10.

Definition issueChallenge (user purpose : string) : Handler string :=
  let challenge := string_of (b64_encode RawURLEncoding (w_raw dr 5)) in
  store_or_500 (commit (CreateWebAuthnChallenge (MkWebAuthnChallenge (w_id dr 30) user challenge purpose (now + challengeTTL) None 0) now)) ~;;
  run_ret challenge.

(** The grant is checked here and spent when the ceremony finishes. *)
Definition BeginRegistration (user : User) (sess : Session) : Handler Reply :=
  requireStepUp rq now user sess ~;;
  existing <~ ask (ListUserWebAuthnCredentials (u_ID user)) ;;
  demand (length existing <? maxPasskeysPerUser)%nat 409 "too_many_passkeys" ~;;
  challenge <~ issueChallenge (u_ID user) "register" ;;
  writeJSON [("challenge", JStr challenge); ("rpId", JStr (sv_rpID sv)); ("rpName", JStr "KyIdentity");
    ("userHandle", JStr (string_of (b64_encode RawURLEncoding (bytes_of (u_ID user))))); ("username", JStr (u_Username user));
    ("excludeCredentials", strings (map wc_CredentialID existing))].

Record finishRegistrationRequest := MkFinishRegistrationRequest { fr_CredentialID : string; fr_AttestationObject : string;
  fr_ClientDataJSON : string; fr_Name : string }.

Definition FinishRegistration (user : User) (sess : Session) (req : finishRegistrationRequest) : Handler Reply :=
  demand ((fr_CredentialID req <>?s "") && (fr_AttestationObject req <>?s "") && (fr_ClientDataJSON req <>?s "")) 400 "invalid_request" ~;;
  consumeStepUp rq now user sess ~;;
  match b64url (fr_AttestationObject req), b64url (fr_ClientDataJSON req), b64url (fr_CredentialID req) with
  | Some attestation, Some clientData, Some credentialID =>
    demand (length credentialID <=? 1023)%nat 400 "invalid_request" ~;;
    match client_data_challenge clientData with
    | None | Some "" => refuse 400 "invalid_request"
    | Some challenge =>
      spent <~ (fun d => let '(b, d) := ConsumeWebAuthnChallenge challenge "register" (u_ID user) now d in (inr b, d)) ;;
      demand spent 400 "invalid_challenge" ~;;
      match library_CreateCredential (MkRegistrationInput credentialID attestation clientData (bytes_of (u_ID user)) challenge (sv_origin sv) (sv_rpID sv)) with
      | None => note 31 "mfa.passkey_enrol" user "failure" [("reason", JStr "verification_failed")] ~;; refuse 400 "invalid_credential"
      | Some (ad, spki) =>
        let name := String.substring 0 64 (or_default (fr_Name req) "Passkey") in
        store_or_500 (commit (CreateWebAuthnCredential (MkWebAuthnCredential (w_id dr 32) (u_ID user)
            (string_of (b64_encode RawURLEncoding credentialID)) (string_of (b64_encode RawURLEncoding spki)) (ad_SignCount ad) name
            (BackupEligible ad) (BackupState ad) None 0)
          (prepared 33 "mfa.passkey_enrol" user "success" [("backupEligible", JBool (BackupEligible ad)); ("userVerified", JBool (UserVerified ad))]) now)) ~;;
        writeJSON [("success", JBool true)]
      end
    end
  | _, _, _ => refuse 400 "invalid_request"
  end.

(** The allow-list is the token owner's. *)
Definition BeginLogin (mfaToken : string) : Handler Reply :=
  demand (mfaToken <>?s "") 400 "invalid_request" ~;;
  who <~ resolveMFAToken mfaToken ;;
  creds <~ ask (ListUserWebAuthnCredentials (mt_UserID who.1)) ;;
  demand (negb (length creds =? 0)%nat) 400 "no_passkey" ~;;
  challenge <~ issueChallenge (mt_UserID who.1) "authenticate" ;;
  writeJSON [("challenge", JStr challenge); ("rpId", JStr (sv_rpID sv)); ("allowCredentials", strings (map wc_CredentialID creds))].

(** The verified assertion of one of the user's passkeys, its challenge spent. *)
Definition checked_assertion (user : User) (attempts : Z) (req : finishLoginRequest) : Handler (WebAuthnCredential * AuthenticatorData) :=
  let failed {A} status code reason : Handler A :=
    mfaFailure user "auth.mfa_passkey" [("reason", JStr reason); ("attempts", JNum attempts)] status code in
  match b64url (fl_AuthenticatorData req), b64url (fl_ClientDataJSON req), b64url (fl_Signature req) with
  | Some authData, Some clientData, Some signature =>
    match client_data_challenge clientData with
    | None | Some "" => failed 400 "invalid_request" "malformed_ceremony"
    | Some challenge =>
      spent <~ (fun d => let '(b, d) := ConsumeWebAuthnChallenge challenge "authenticate" (u_ID user) now d in (inr b, d)) ;;
      if negb spent then failed 401 "invalid_assertion" "challenge_unusable" else
      found <~ ask (GetWebAuthnCredential (u_ID user) (fl_CredentialID req)) ;;
      match found with
      | None => failed 401 "invalid_assertion" "unknown_credential"
      | Some cred =>
        match b64url (wc_PublicKeySPKI cred), b64url (wc_CredentialID cred) with
        | Some key, Some credentialID =>
          match VerifyAssertion (assertion_input (u_ID user) challenge cred credentialID key authData clientData signature) with
          | None => failed 401 "invalid_assertion" "assertion_invalid"
          | Some ad => run_ret (cred, ad)
          end
        | _, _ => stepUpInternalError
        end
      end
    end
  | _, _, _ => failed 400 "invalid_request" "malformed_ceremony"
  end.

Definition FinishLogin (req : finishLoginRequest) : Handler Reply :=
  demand (forallb (fun f => f <>?s "") [fl_MFAToken req; fl_CredentialID req; fl_AuthenticatorData req; fl_ClientDataJSON req; fl_Signature req])
    400 "invalid_request" ~;;
  who <~ resolveMFAToken (fl_MFAToken req) ;;
  attempts <~ reserveMFAAttempt who.1 ;;
  proof <~ checked_assertion who.2 attempts req ;;
  spendMFAToken who.1 ~;;
  silently (RecordWebAuthnUse (wc_ID proof.1) (ad_SignCount proof.2) (BackupState proof.2) now) ~;;
  note 34 "auth.mfa_passkey" who.2 "success" [("userVerified", JBool (UserVerified proof.2))] ~;;
  finish_login who.1 who.2 (Some now) "webauthn".

Definition DeletePasskey (user : User) (sess : Session) : Handler Reply :=
  consumeStepUp rq now user sess ~;;
  r <~ attempt (commit (DeleteWebAuthnCredential (r_PathID rq) (u_ID user)
    (prepared 35 "mfa.passkey_removed" user "success" [("credentialRecordId", JStr (r_PathID rq))]) now)) ;;
  match r with
  | inl ErrLastCompliantFactor => refuse 409 "required_factor"
  | inl _ => stepUpInternalError
  | inr deleted => demand deleted 404 "not_found" ~;; writeJSON [("success", JBool true)]
  end.
End login.
(** ** Facts *)

(** A handler that answers early never sets a session cookie. *)
Definition quiet {A} (m : Handler A) : Prop := forall d r d', m d = (inl r, d') -> rp_SessionCookie r = None.

Lemma quiet_bind {A B} (m : Handler A) (k : A -> Handler B) : quiet m -> (forall a, quiet (k a)) -> quiet (run_bind m k).
Proof. intros Hm Hk d r d' Hr. apply run_bind_inl in Hr as [Hr|(a & d1 & _ & Hr)]; [by eapply Hm|by eapply Hk]. Qed.

Lemma quiet_ret {A} (a : A) : quiet (run_ret a).
Proof. by intros d r d' Hr. Qed.
Lemma quiet_refuse {A} status code : quiet (A := A) (refuse status code).
Proof. by intros d r d' [= <- _]. Qed.
Lemma quiet_demand b status code : quiet (demand b status code).
Proof. intros d r d' Hr. apply run_guard_inl in Hr as (_ & -> & _). done. Qed.
Lemma quiet_ask {A} (f : DB -> A) : quiet (ask f).
Proof. by intros d r d' Hr. Qed.
Lemma quiet_attempt {E A} (m : DB -> (E + A) * DB) : quiet (attempt m).
Proof. intros d r d' Hr. unfold attempt in Hr. by destruct (m d). Qed.
Lemma quiet_silently f : quiet (silently f).
Proof. by intros d r d' Hr. Qed.
Lemma quiet_observe sv rq dr now n a i u t ty o j : quiet (Observe sv rq dr now n a i u t ty o j).
Proof. by intros d r d' Hr. Qed.
Lemma quiet_status user session now : quiet (enrollment_status user session now).
Proof. intros d r d' Hr. unfold enrollment_status in Hr. destruct (SessionEnrollmentStatus _ _ _ _) as [[[[[? ?] ?] ?] ?]|]; [done|]. by injection Hr as <- _. Qed.
Lemma quiet_store {A} (m : DB -> (StoreError + A) * DB) : quiet (store_or_500 m).
Proof. intros d r d' Hr. unfold store_or_500 in Hr. destruct (m d) as [[e|a] d1]; [|done]. by injection Hr as <- _. Qed.

Create HintDb quiet.
#[export] Hint Resolve quiet_ret quiet_refuse quiet_demand quiet_ask quiet_attempt quiet_silently quiet_observe quiet_status quiet_store : quiet.
Ltac quiet := repeat first
  [ apply quiet_bind; [|intros ?]
  | match goal with |- quiet (match ?x with _ => _ end) => destruct x end
  | solve [eauto with quiet] ].

(** A reply that sets a session cookie came from the handler's last step. *)
Lemma signed_in_bind {A} (m : Handler A) (k : A -> Handler Reply) d reply d' raw : quiet m ->
  serve (run_bind m k) d = (reply, d') -> rp_SessionCookie reply = Some raw ->
  exists a d1, m d = (inr a, d1) /\ serve (k a) d1 = (reply, d').
Proof.
  intros Hm Hs Hc. rewrite serve_bind in Hs. destruct (m d) as [[r|a] d1] eqn:E; [|eauto].
  injection Hs as -> ->. apply Hm in E. congruence.
Qed.

Section sign_in_facts.
Context `{Primitives} `{AEAD} `{Ceremonies} (sv : Server) (rq : Request) (dr : WebDraws) (now : Z).

Lemma quiet_note n a u o l : quiet (note sv rq dr now n a u o l).
Proof. unfold note. apply quiet_observe. Qed.
Hint Resolve quiet_note : quiet.

Lemma quiet_fatigue u n : quiet (auditPushFatigue sv rq dr now u n).
Proof. unfold auditPushFatigue. quiet. Qed.
Hint Resolve quiet_fatigue : quiet.

Lemma quiet_push user : quiet (loginPush sv rq dr now user).
Proof. unfold loginPush. quiet. Qed.
Hint Resolve quiet_push : quiet.

Lemma quiet_interaction req user : quiet (login_interaction sv rq now req user).
Proof.
  intros d r d'. unfold login_interaction. destruct (_ =?s _); [done|].
  destruct (GetAuthorizationInteraction _ _ _ _) as [e|i]; [by intros [= <- _]|]. destruct (_ && _); [done|by intros [= <- _]].
Qed.

Lemma quiet_policy i : quiet (interaction_policy i).
Proof.
  intros d r d'. unfold interaction_policy. destruct (url_ParseQuery _); [|by intros [= <- _]].
  destruct (ParseAuthenticationRequest _); [|by intros [= <- _]]. destruct (ClientAuthenticationPolicyBinding _ _) as [|[? ?]]; [by intros [= <- _]|done].
Qed.
Hint Resolve quiet_interaction quiet_policy : quiet.

(** A handler that can set no cookie, early or late. *)
Definition no_cookie (m : Handler Reply) : Prop := forall d, rp_SessionCookie (serve m d).1 = None.

Lemma no_cookie_bind {A} (m : Handler A) (k : A -> Handler Reply) : quiet m -> (forall a, no_cookie (k a)) -> no_cookie (run_bind m k).
Proof. intros Hm Hk d. rewrite serve_bind. destruct (m d) as [[r|a] d1] eqn:E; [by eapply Hm|apply Hk]. Qed.

Lemma no_cookie_refuse status code : no_cookie (refuse status code).
Proof. done. Qed.

Lemma no_cookie_quiet_refusal {A} (m : Handler A) status code : quiet m -> no_cookie (m ~;; refuse status code).
Proof. intros Hm. by apply no_cookie_bind. Qed.

Lemma challenge_sets_no_cookie user methods hash : no_cookie (challenge_login sv rq dr now user methods hash).
Proof.
  unfold challenge_login. apply no_cookie_bind; [destruct (one_of _ _); auto with quiet|]. intros [o pushed].
  apply no_cookie_bind; [auto with quiet|]. intros [e|token].
  - destruct e as [s| | | | |]; try apply no_cookie_refuse. destruct s; first [apply no_cookie_refuse|apply no_cookie_quiet_refusal; auto with quiet].
  - apply no_cookie_bind; [auto with quiet|]. done.
Qed.

Lemma refuse_login_no_cookie user reason username password : no_cookie (refuse_login sv rq dr now user reason username password).
Proof. unfold refuse_login. destruct (DummyVerify _ _ _); [done|]. apply no_cookie_quiet_refusal. destruct user; auto with quiet. Qed.

(** What is left of the enrolled factors after policy is never nothing. *)
Lemma permitted_nonempty status methods : permitted_methods status methods = [] -> methods = [].
Proof. unfold permitted_methods. destruct (_ && _); [|done]. by destruct (List.filter _ _). Qed.

Lemma enrolled_none user d : enrolled_methods user d = [] <-> length (ListUserMFAMethods user d) = 0%nat /\ length (ListUserWebAuthnCredentials user d) = 0%nat.
Proof.
  unfold enrolled_methods. destruct (ListUserMFAMethods user d) as [|m l]; cbn [map app].
  - destruct (ListUserWebAuthnCredentials user d); cbn; (split; [intros E; by split|by intros [E1 E2]]).
  - split; [done|]. intros [? _]; done.
Qed.

Lemma choice_without_factor factor acr status methods user d :
  (methods = [] -> enrolled_methods user d = []) ->
  (policy_choice now factor acr status methods user d = EnrollOnly \/ policy_choice now factor acr status methods user d = Proceed []) ->
  enrolled_methods user d = [].
Proof.
  intros Hm. unfold policy_choice. set (passkeys := negb (length (ListUserWebAuthnCredentials user d) =? 0)%nat). cbv zeta.
  destruct (factor =?s "passkey") eqn:Ef.
  - apply streqb_true in Ef as ->. destruct passkeys eqn:Ep; [by intros []|].
    cbn [negb orb andb]. replace ("passkey" <>?s "password") with true by reflexivity. cbn [orb].
    destruct (_ && _ && _ && _) eqn:E; [|by intros []]. intros _. bool_hyps. apply enrolled_none. unfold passkeys in Ep.
    apply negb_false_iff, Nat.eqb_eq in Ep. split; [by apply Nat.eqb_eq|done].
  - destruct methods as [|m l]; [intros _; by apply Hm|by intros []].
Qed.
End sign_in_facts.
(** What a created session is, and what creating it leaves alone. *)
Lemma session_created sess interaction browser now d stored d' :
  CreateSessionForInteraction sess interaction browser now d = inr (stored, d') ->
  mfa_tokens d' = mfa_tokens d /\
  exists b, sessions d' !! s_ID stored = Some (set_s_EnrollmentOnly b (session_row sess (s_ID stored) now)).
Proof.
  unfold CreateSessionForInteraction. intros Hr. tx_inv.
  set (original := if interaction =?s EmptyString then None else renewed_session sess interaction browser now d) in *.
  set (id := default (s_ID sess) original) in *.
  assert (forall u d1, (if interaction =?s EmptyString then tx_ret tt else bind_interaction sess id interaction browser (negb (is_null original)) now) d = inr (u, d1) ->
    mfa_tokens d1 = mfa_tokens d) as Hb.
  { intros u d1 Hr1. destruct (interaction =?s EmptyString); [by injection Hr1 as _ <-|]. unfold bind_interaction in Hr1.
    destruct (negb (is_null original)); tx_inv; destruct (authorization_interactions _ !! _); tx_inv; done. }
  match goal with H1 : _ d = inr (_, ?x) |- _ => apply Hb in H1; rename x into d1 end.
  destruct original as [o|]; tx_inv.
  - split; [done|]. cbn [s_ID session_row]. eexists. cbn -[update_where session_allowed]. apply lookup_update_where_Some.
    eexists. split; [apply lookup_insert_eq|]. cbn [s_ID session_row]. by rewrite streqb_refl.
  - match goal with Hi : insert_row _ _ _ _ _ = inr _ |- _ => apply insert_row_inv in Hi as [_ ->] end.
    split; [done|]. cbn [s_ID session_row]. eexists. cbn -[update_where session_allowed]. apply lookup_update_where_Some.
    eexists. split; [apply lookup_insert_eq|]. cbn [s_ID session_row]. by rewrite streqb_refl.
Qed.

Section sign_in.
Context `{Primitives} `{AEAD} `{Ceremonies} (sv : Server) (rq : Request) (dr : WebDraws) (now : Z).
#[local] Hint Resolve quiet_note quiet_push quiet_interaction quiet_policy : quiet.

Lemma attempt_inr {E A} (m : DB -> (E + A) * DB) d r d' : attempt m d = (inr r, d') -> m d = (r, d').
Proof. unfold attempt. destruct (m d) as [x y]. by intros [= <- <-]. Qed.

Lemma ask_inr {A} (f : DB -> A) d a d' : ask f d = (inr a, d') -> a = f d /\ d' = d.
Proof. unfold ask. by intros [= <- <-]. Qed.

(** [note] and [silently] keep the tables they do not name. *)
Lemma audit_run audit at_ d : exists m q, (commit (recordAuditTx audit at_) d).2 = audited m q d.
Proof.
  destruct (commit (recordAuditTx audit at_) d) as [[e|[]] d1] eqn:E.
  - apply commit_inl in E as [-> _]. by exists (audit_events d), (alert_queue d); destruct d.
  - apply commit_inr, recordAuditTx_inv in E as (m & q & ->). eauto.
Qed.

Lemma observe_inr n a i u t ty o j d x d' : Observe sv rq dr now n a i u t ty o j d = (inr x, d') -> exists m q, d' = audited m q d.
Proof. unfold Observe. intros Hr. apply (f_equal snd) in Hr. cbn [snd] in Hr. subst d'. apply audit_run. Qed.

Lemma status_inr user session s d d' : enrollment_status user session now d = (inr s, d') -> d' = d.
Proof. unfold enrollment_status. destruct (SessionEnrollmentStatus _ _ _ _) as [[[[[? ?] ?] ?] ?]|]; by intros [= _ <-]. Qed.

(** The session a reply's cookie names. *)
Definition session_of (raw : string) (user : User) (ev : AuthenticationEvidence) (d : DB) : Prop :=
  exists id s, sessions d !! id = Some s /\ s_UserID s = u_ID user /\ s_SessionTokenHash s = HashSHA256 raw /\ s_Evidence s = ev.

Lemma createSession_cookie user ev hash d reply d' raw :
  serve (createSessionAndRespond sv rq dr now user ev hash) d = (reply, d') -> rp_SessionCookie reply = Some raw ->
  session_of raw user ev d' /\ mfa_tokens d' = mfa_tokens d.
Proof.
  unfold createSessionAndRespond. set (token := string_of (hex_encode (w_raw dr 1))). clearbody token.
  set (sess := MkSession _ _ _ _ _ _ _ _ _ _ _). intros Hs Hc.
  eapply signed_in_bind in Hs as (first & d1 & Hf & Hs); [|apply quiet_attempt|exact Hc]. apply attempt_inr in Hf.
  eapply signed_in_bind in Hs as ([r restart] & d2 & Hr & Hs); [|destruct first as [[]|]; quiet|exact Hc].
  destruct r as [e|stored].
  { exfalso. destruct e; injection Hs as <- _; discriminate Hc. }
  assert (exists i b d0, commit (CreateSessionForInteraction sess i b now) d0 = (inr stored, d2) /\ mfa_tokens d0 = mfa_tokens d) as (i & b & d0 & Hcr & Hm).
  { destruct first as [[]|]; try discriminate Hr.
    - eapply run_bind_inr in Hr as (again & d3 & Ha & Hr). apply attempt_inr in Ha. injection Hr as -> _ <-.
      apply commit_inl in Hf as [-> _]. eauto.
    - injection Hr as -> _ <-. eauto. }
  apply commit_inr, session_created in Hcr as [Hm2 [ro Hrow]].
  eapply signed_in_bind in Hs as (? & d3 & Hcl & Hs); [|apply quiet_silently|exact Hc]. injection Hcl as _ <-.
  eapply signed_in_bind in Hs as (st & d4 & He & Hs); [|apply quiet_status|exact Hc]. apply status_inr in He as ->.
  eapply signed_in_bind in Hs as (? & d5 & Hn & Hs); [|apply quiet_note|exact Hc]. apply observe_inr in Hn as (m & q & ->).
  injection Hs as <- <-. cbn in Hc. injection Hc as <-. split; [|cbn; congruence].
  exists (s_ID stored). eexists. split; [cbn; exact Hrow|]. done.
Qed.

Lemma no_cookie_reply (m : Handler Reply) d reply d' raw : no_cookie m -> serve m d = (reply, d') -> rp_SessionCookie reply = Some raw -> False.
Proof. intros Hn Hs Hc. specialize (Hn d). rewrite Hs in Hn. cbn in Hn. congruence. Qed.

Lemma wrong_password_no_cookie user : no_cookie (wrong_password sv rq dr now user).
Proof. unfold wrong_password. apply no_cookie_bind; [apply quiet_attempt|]. intros n. apply no_cookie_quiet_refusal, quiet_note. Qed.

(** C7. A login reply that sets a session cookie presented the right password of
    an active, unlocked account that has no second factor enrolled; the
    session stored under that cookie is the account's, with the password as
    its only evidence. *)
Theorem password_alone_opens_no_factored_account body d reply d' raw :
  serve (Login sv rq dr now body) d = (reply, d') -> rp_SessionCookie reply = Some raw ->
  exists req user, body = Some req /\ GetUserByUsername (lq_Username req) now d = Some user /\ u_Status user = "active" /\
    IsAccountLocked (u_ID user) (rate_ip sv rq) now d = false /\
    VerifyPassword (w_busy dr) (lq_Password req) (u_PasswordHash user) = inr true /\
    enrolled_methods (u_ID user) d = [] /\
    session_of raw user (MkAuthenticationEvidence (Some now) None "") d'.
Proof.
  unfold Login. destruct body as [req|]; [|intros [= <- _]; discriminate]. intros Hs Hc. exists req.
  eapply signed_in_bind in Hs as (user & d1 & Hu & Hs); [|apply quiet_ask|exact Hc]. apply ask_inr in Hu as [-> ->].
  eapply signed_in_bind in Hs as (reason & d1 & Hr & Hs); [|apply quiet_ask|exact Hc]. apply ask_inr in Hr as [-> ->].
  destruct (GetUserByUsername (lq_Username req) now d) as [user|] eqn:Eu;
    [|by destruct (no_cookie_reply _ _ _ _ _ (refuse_login_no_cookie sv rq dr now None _ _ _) Hs Hc)].
  destruct (loginRefusal now (Some user) (rate_ip sv rq) d =?s "") eqn:Er; cbn [negb] in Hs;
    [|by destruct (no_cookie_reply _ _ _ _ _ (refuse_login_no_cookie sv rq dr now (Some user) _ _ _) Hs Hc)].
  exists user. split; [done|]. split; [done|]. apply streqb_true in Er. unfold loginRefusal in Er.
  destruct (u_Status user =?s "active") eqn:Ea; [|destruct (u_Pending user); discriminate Er]. cbn [negb] in Er.
  destruct (IsAccountLocked _ _ _ _); [discriminate Er|]. split; [by apply streqb_true|]. split; [done|].
  assert (VerifyPassword (w_busy dr) (lq_Password req) (u_PasswordHash user) = inr true /\
    serve (after_password sv rq dr now req user) d = (reply, d')) as [Hv Ha].
  { destruct (VerifyPassword _ _ _) as [[]|[]]; try (split; [done|exact Hs]);
      by destruct (no_cookie_reply _ _ _ _ _ (wrong_password_no_cookie user) Hs Hc) || discriminate || (injection Hs as <- _; discriminate Hc). }
  clear Hs. rename Ha into Hs. split; [done|]. unfold after_password in Hs.
  eapply signed_in_bind in Hs as (i & d1 & Hi & Hs); [|auto with quiet|exact Hc].
  assert (d1 = d) as -> by (unfold login_interaction in Hi; repeat case_match; by injection Hi).
  eapply signed_in_bind in Hs as (enrolled & d1 & He & Hs); [|apply quiet_ask|exact Hc]. apply ask_inr in He as [-> ->].
  eapply signed_in_bind in Hs as (status & d1 & He & Hs); [|apply quiet_status|exact Hc]. apply status_inr in He as ->.
  eapply signed_in_bind in Hs as (choice & d1 & Hch & Hs); [|destruct i; quiet|exact Hc].
  assert (d1 = d /\ (choice = EnrollOnly \/ choice = Proceed [] -> enrolled_methods (u_ID user) d = [])) as [-> Hnone].
  { destruct i as [i|].
    - apply run_bind_inr in Hch as (p & d2 & Hp & Hch). apply ask_inr in Hch as [-> ->].
      split; [unfold interaction_policy in Hp; repeat case_match; by injection Hp|].
      assert (d2 = d) as -> by (unfold interaction_policy in Hp; repeat case_match; by injection Hp).
      apply choice_without_factor, permitted_nonempty.
    - injection Hch as <- <-. split; [done|]. intros [Hx|[= Hx]]; [done|]. by apply permitted_nonempty in Hx. }
  assert (choice = EnrollOnly \/ choice = Proceed []) as Hch2.
  { destruct choice as [[|m l]| |]; [by right| |by left|injection Hs as <- _; discriminate Hc].
    by destruct (no_cookie_reply _ _ _ _ _ (challenge_sets_no_cookie sv rq dr now user _ _) Hs Hc). }
  split; [by apply Hnone|].
  apply (createSession_cookie user _ (if lq_Interaction req =?s "" then "" else HashSHA256 (lq_Interaction req)) d reply d'); [|exact Hc].
  by destruct Hch2 as [-> | ->].
Qed.
End sign_in.

(** ** Second factors *)

(** Later rows of [mfa_tokens]: none is new, none is renamed, none is revived. *)
Definition later_tokens (d d1 : DB) : Prop := forall k t1, mfa_tokens d1 !! k = Some t1 ->
  exists t, mfa_tokens d !! k = Some t /\ mt_TokenHash t1 = mt_TokenHash t /\ (is_null (mt_UsedAt t1) = true -> is_null (mt_UsedAt t) = true).

Lemma later_same d d1 : mfa_tokens d1 = mfa_tokens d -> later_tokens d d1.
Proof. intros E k t. rewrite E. eauto. Qed.

Lemma later_trans d d1 d2 : later_tokens d d1 -> later_tokens d1 d2 -> later_tokens d d2.
Proof. intros Ha Hb k t2 H2. apply Hb in H2 as (t1 & H1 & E1 & U1). apply Ha in H1 as (t & H0 & E0 & U0). exists t. split; [done|]. split; [congruence|tauto]. Qed.

Section second_factor.
Context `{Primitives} `{AEAD} `{Ceremonies} (sv : Server).

(** The second factors a pending login is completed with, and their handlers. *)
Inductive SecondFactor :=
| ByTOTP (code : string)
| ByRecovery (code : string)
| ByPush (challengeID : string)
| ByPasskey (req : finishLoginRequest).

Inductive finishing (tok : string) (rq : Request) (dr : WebDraws) (now : Z) : SecondFactor -> Handler Reply -> Prop :=
| finish_totp code : finishing tok rq dr now (ByTOTP code) (VerifyTOTP sv rq dr now tok code)
| finish_recovery code : finishing tok rq dr now (ByRecovery code) (VerifyRecoveryCode sv rq dr now tok code)
| finish_push ch : finishing tok rq dr now (ByPush ch) (FinishPushLogin sv rq dr now tok ch)
| finish_passkey req : fl_MFAToken req = tok -> finishing tok rq dr now (ByPasskey req) (FinishLogin sv rq dr now req).

(** What the store and the request must show for the factor [f] of [user] to
    count, and the method and time a session records for it.  A TOTP code is
    valid for the user's sealed secret at a step later than one used before;
    a recovery code is one of the user's unspent ones; a push is the one the
    pending login was issued with, answered with approval for this user and
    not expired; a passkey assertion answers an open challenge of the user
    with a credential of theirs, checked against this server's origin. *)
Definition factor_shown (now : Z) (user : User) (token : MFAToken) (f : SecondFactor) (at_ : option Z) (method : string) (d : DB) : Prop :=
  match f with
  | ByTOTP code => method = "totp" /\ at_ = Some now /\
    (exists k m secret step, mfa_methods d !! k = Some m /\ mm_UserID m = u_ID user /\ mm_MethodType m = "totp" /\
      Open (encryptionKey (sv_engine sv)) SealTOTP (u_ID user) (mm_EncryptedSecret m) = Opened secret /\
      totp_Validate (string_of secret) code now = Some step /\
      exists k' m', mfa_methods d !! k' = Some m' /\ mm_UserID m' = u_ID user /\ mm_MethodType m' = "totp" /\ mm_LastTOTPCounter m' < step)
  | ByRecovery code => method = "recovery" /\ at_ = Some now /\
    (exists k c, recovery_codes d !! k = Some c /\ rc_UserID c = u_ID user /\ rc_UsedAt c = None /\
      (rc_CodeHash c = recoveryCodeHash (sv_engine sv) (u_ID user) (normalizeRecoveryCode code) \/
       rc_CodeHash c = HashSHA256 (normalizeRecoveryCode code)))
  | ByPush challengeID => method = "push" /\ mt_ChallengeID token = Some challengeID /\
    (exists c, mfa_challenges d !! challengeID = Some c /\ mc_UserID c = u_ID user /\ mc_Status c = "approved" /\
      is_Some (mc_VerifiedAt c) /\ at_ = mc_VerifiedAt c /\ now < mc_ExpiresAt c)
  | ByPasskey req => method = "webauthn" /\ at_ = Some now /\
    (exists k c k' cred credentialID key authData clientData signature ad warning,
      webauthn_challenges d !! k = Some c /\ wh_UserID c = u_ID user /\ wh_Purpose c = "authenticate" /\ wh_UsedAt c = None /\
      now < wh_ExpiresAt c /\ client_data_challenge clientData = Some (wh_Challenge c) /\
      webauthn_credentials d !! k' = Some cred /\ wc_UserID cred = u_ID user /\ wc_CredentialID cred = fl_CredentialID req /\
      b64url (fl_AuthenticatorData req) = Some authData /\ b64url (fl_ClientDataJSON req) = Some clientData /\
      b64url (fl_Signature req) = Some signature /\ b64url (wc_PublicKeySPKI cred) = Some key /\ b64url (wc_CredentialID cred) = Some credentialID /\
      library_ValidateLogin (MkAssertionInput credentialID (bytes_of (u_ID user)) authData clientData signature key (wh_Challenge c)
        (sv_origin sv) (sv_rpID sv) (wc_SignCount cred) (wc_BackupEligible cred)) = Some (ad, warning))
  end.

Section one.
Context (rq : Request) (dr : WebDraws) (now : Z).

Lemma quiet_resolve raw : quiet (resolveMFAToken sv rq now raw).
Proof. intros d r d'. unfold resolveMFAToken. repeat case_match; by intros [= <- _]. Qed.
Lemma quiet_reserve token : quiet (reserveMFAAttempt now token).
Proof. intros d r d'. unfold reserveMFAAttempt. repeat case_match; by intros [= <- _]. Qed.
Lemma quiet_spend token : quiet (spendMFAToken now token).
Proof. intros d r d'. unfold spendMFAToken. repeat case_match; by intros [= <- _]. Qed.
Lemma quiet_failure {A} user action l status code : quiet (A := A) (mfaFailure sv rq dr now user action l status code).
Proof. unfold mfaFailure. apply quiet_bind; [apply quiet_attempt|]. intros n. apply quiet_bind; [apply quiet_note|intros ?; apply quiet_refuse]. Qed.

Lemma resolve_inr raw d token user d' : resolveMFAToken sv rq now raw d = (inr (token, user), d') ->
  d' = d /\ ValidateMFAToken raw now d = inr token /\ get_user now d (mt_UserID token) = Some user /\ u_Status user = "active" /\
  IsAccountLocked (u_ID user) (rate_ip sv rq) now d = false.
Proof.
  unfold resolveMFAToken. destruct (ValidateMFAToken _ _ _) as [|t]; [done|]. destruct (get_user _ _ _) as [u|] eqn:Eu; [|done].
  destruct (u_Status u =?s "active") eqn:Ea; [|done]. cbn [negb]. destruct (IsAccountLocked _ _ _ _) eqn:El; [done|].
  intros [= <- <- <-]. apply streqb_true in Ea. done.
Qed.

Lemma reserve_later token d n d' : reserveMFAAttempt now token d = (inr n, d') -> later_tokens d d'.
Proof.
  unfold reserveMFAAttempt, ReserveMFAAttemptE, ReserveMFAAttempt. intros Hr k t1 Hk.
  destruct (mfa_tokens d !! mt_ID token) as [t|] eqn:Et; [destruct (mfa_open _ _ _)|]; cbn in Hr; repeat case_match; simplify_eq; try (eexists; done).
  cbn in Hk. apply lookup_insert_Some in Hk as [[<- <-]|[_ Hk]]; [|eauto]. exists t. done.
Qed.

Lemma spend_inr token d u d' : spendMFAToken now token d = (inr u, d') ->
  later_tokens d d' /\ exists t, mfa_tokens d' !! mt_ID token = Some t /\ is_null (mt_UsedAt t) = false.
Proof.
  unfold spendMFAToken, ConsumeMFAToken. destruct (mfa_tokens d !! mt_ID token) as [t|] eqn:Et; [|done].
  destruct (is_null (mt_UsedAt t)) eqn:Eu; [|done]. intros [= _ <-]. cbn. split.
  - intros k t1 Hk. cbn in Hk. apply lookup_insert_Some in Hk as [[<- <-]|[_ Hk]]; [|eauto]. exists t. done.
  - eexists. split; [apply lookup_insert_eq|done].
Qed.

Lemma note_later n a u o l d x d' : note sv rq dr now n a u o l d = (inr x, d') -> later_tokens d d'.
Proof. intros Hn. apply observe_inr in Hn as (m & q & ->). by apply later_same. Qed.

Lemma failure_none {A} user action l status code d (a : A) d' : mfaFailure sv rq dr now user action l status code d = (inr a, d') -> False.
Proof. unfold mfaFailure. intros Hr. apply run_bind_inr in Hr as (? & ? & _ & Hr). apply run_bind_inr in Hr as (? & ? & _ & Hr). discriminate Hr. Qed.

Lemma recovery_later e user code audit d r d' : VerifyAndConsumeRecoveryCode e user code audit now d = (r, d') -> later_tokens d d'.
Proof.
  unfold VerifyAndConsumeRecoveryCode, store_op, of_store. destruct (ConsumeRecoveryCode _ _ _ _ _ _) as [r0 d0] eqn:E. intros Hr.
  apply consume_recovery_inr in E as [[-> _]|(_ & m & q & ->)]; apply later_same; destruct r0; injection Hr as _ <-; done.
Qed.

Lemma totp_later e user code d r d' : VerifyUserTOTP e user code now d = (r, d') -> later_tokens d d'.
Proof.
  unfold VerifyUserTOTP. destruct (GetMFAMethod _ _ _) as [m|]; [|by intros [= _ <-]; apply later_same].
  repeat case_match; intros [= _ <-]; apply later_same; simplify_eq; try done.
  match goal with E : ConsumeTOTPCounter _ _ _ = _ |- _ => unfold ConsumeTOTPCounter in E; by injection E as _ <- end.
Qed.

Lemma counted_row {A} `{Countable K} (p : A -> bool) (t : gmap K A) : count_where p t = 1 -> exists k r, t !! k = Some r /\ p r = true.
Proof.
  intros Hc. destruct (exists_where p t) eqn:E; [by apply exists_where_true|]. apply count_where_0 in E. lia.
Qed.

Lemma reserve_same token d n d' : reserveMFAAttempt now token d = (inr n, d') -> exists m, d' = on_mfa_tokens (fun _ => m) d.
Proof.
  unfold reserveMFAAttempt, ReserveMFAAttemptE, ReserveMFAAttempt. intros Hr.
  destruct (mfa_tokens d !! mt_ID token) as [t|]; [destruct (mfa_open _ _ _)|]; cbn in Hr; repeat case_match; simplify_eq;
    by eexists (_ : gmap string MFAToken).
Qed.

Lemma totp_shown user token code d d' : VerifyUserTOTP (sv_engine sv) (u_ID user) code now d = (inr true, d') ->
  factor_shown now user token (ByTOTP code) (Some now) "totp" d.
Proof.
  unfold VerifyUserTOTP, GetMFAMethod. destruct (find_where _ _) as [[k m]|] eqn:Em; cbn [fmap option_fmap option_map snd]; [|done].
  apply find_where_Some in Em as [Hk Hp]. bool_hyps. destruct (mm_EncryptedSecret m =?s ""); [done|].
  destruct (Open _ _ _ _) as [secret| |] eqn:Eo; try done. destruct (totp_Validate _ _ _) as [step|] eqn:Ev; [|done].
  unfold ConsumeTOTPCounter. intros [= Hc _]. apply Z.eqb_eq, counted_row in Hc as (k' & m' & Hk' & Hp'). bool_hyps.
  split; [done|]. split; [done|]. exists k, m, secret, step. repeat (split; [congruence|]). by exists k', m'.
Qed.

Lemma recovery_shown user token code audit d d' : VerifyAndConsumeRecoveryCode (sv_engine sv) (u_ID user) code audit now d = (inr true, d') ->
  factor_shown now user token (ByRecovery code) (Some now) "recovery" d.
Proof.
  unfold VerifyAndConsumeRecoveryCode, store_op, of_store, ConsumeRecoveryCode, auditedTx.
  destruct (commit _ d) as [[e|[]] d0] eqn:Ec; [destruct e; done|]. intros _. tx_inv.
  match goal with Hc : (count_where _ _ =? 1) = true |- _ => apply Z.eqb_eq, counted_row in Hc as (k & c & Hk & Hp) end. bool_hyps.
  split; [done|]. split; [done|]. exists k, c. split; [done|]. split; [done|].
  split; [by destruct (rc_UsedAt c)|].
  match goal with Ho : one_of _ _ = true |- _ => apply one_of_true in Ho; destruct Ho as [<-|[<-|[]]]; auto end.
Qed.
End one.
End second_factor.

Section second_factor_once.
Context `{Primitives} `{AEAD} `{Ceremonies} (sv : Server).
#[local] Hint Resolve quiet_note quiet_resolve quiet_reserve quiet_spend quiet_failure : quiet.

(** The reply's own step of a handler that sets a session cookie. *)
Ltac last_step Hs Hc x d1 H := eapply signed_in_bind in Hs as (x & d1 & H & Hs); [|solve [auto with quiet | quiet]|exact Hc].

Lemma checked_later rq dr now user n req d proof d' : checked_assertion sv rq dr now user n req d = (inr proof, d') -> later_tokens d d'.
Proof.
  unfold checked_assertion. destruct (b64url _); [|intros Hr; by apply failure_none in Hr].
  destruct (b64url _) as [client|]; [|intros Hr; by apply failure_none in Hr]. destruct (b64url _); [|intros Hr; by apply failure_none in Hr].
  destruct (client_data_challenge client) as [[|c ch]|]; [intros Hr; by apply failure_none in Hr| |intros Hr; by apply failure_none in Hr].
  intros Hr. apply run_bind_inr in Hr as (spent & d1 & Hsp & Hr). unfold ConsumeWebAuthnChallenge in Hsp. injection Hsp as <- <-.
  destruct (negb _); [by apply failure_none in Hr|]. apply run_bind_inr in Hr as (found & d2 & Hf & Hr). apply ask_inr in Hf as [-> ->].
  destruct (GetWebAuthnCredential _ _ _); [|by apply failure_none in Hr]. destruct (b64url _); [|discriminate Hr].
  destruct (b64url _); [|discriminate Hr]. destruct (VerifyAssertion _); [|by apply failure_none in Hr].
  injection Hr as _ <-. by apply later_same.
Qed.

Lemma checked_shown rq dr now user token n req d proof d' : checked_assertion sv rq dr now user n req d = (inr proof, d') ->
  factor_shown sv now user token (ByPasskey req) (Some now) "webauthn" d.
Proof.
  unfold checked_assertion. destruct (b64url _) as [authData|] eqn:Ea; [|intros Hr; by apply failure_none in Hr].
  destruct (b64url (fl_ClientDataJSON req)) as [client|] eqn:Ec; [|intros Hr; by apply failure_none in Hr].
  destruct (b64url (fl_Signature req)) as [signature|] eqn:Es; [|intros Hr; by apply failure_none in Hr].
  destruct (client_data_challenge client) as [ch|] eqn:Ech; [|intros Hr; by apply failure_none in Hr].
  destruct ch as [|c0 ch0]; [intros Hr; by apply failure_none in Hr|]. set (ch := String c0 ch0) in *.
  intros Hr. apply run_bind_inr in Hr as (spent & d1 & Hsp & Hr). unfold ConsumeWebAuthnChallenge in Hsp. injection Hsp as Hc <-.
  destruct spent; [|by apply failure_none in Hr]. apply Z.eqb_eq, counted_row in Hc as (k & c & Hk & Hp). bool_hyps.
  apply run_bind_inr in Hr as (found & d2 & Hf & Hr). apply ask_inr in Hf as [-> ->]. unfold GetWebAuthnCredential in Hr.
  destruct (find_where _ _) as [[k' cred]|] eqn:Ef; cbn [fmap option_fmap option_map snd] in Hr; [|by apply failure_none in Hr].
  apply find_where_Some in Ef as [Hk' Hp']. bool_hyps. destruct (b64url (wc_PublicKeySPKI cred)) as [key|] eqn:Ek; [|discriminate Hr].
  destruct (b64url (wc_CredentialID cred)) as [credentialID|] eqn:Ei; [|discriminate Hr].
  destruct (VerifyAssertion _) as [ad|] eqn:Ev; [|by apply failure_none in Hr]. clear Hr. unfold VerifyAssertion, assertion_input in Ev.
  destruct (parseES256PublicKey _); [|done]. destruct (library_ValidateLogin _) as [[ad' warning]|] eqn:El; [|done].
  split; [done|]. split; [done|]. exists k, c, k', cred, credentialID, key, authData, client, signature, ad', warning.
  do 3 (split; [done|]). split; [by destruct (wh_UsedAt c)|]. split; [done|]. split; [congruence|]. split; [exact Hk'|].
  do 7 (split; [congruence|]). by replace (wh_Challenge c) with ch by congruence.
Qed.

Lemma quiet_checked rq dr now user n req : quiet (checked_assertion sv rq dr now user n req).
Proof.
  unfold checked_assertion. destruct (b64url _); [|apply quiet_failure]. destruct (b64url _) as [client|]; [|apply quiet_failure].
  destruct (b64url _); [|apply quiet_failure]. destruct (client_data_challenge client) as [[|c ch]|]; [apply quiet_failure| |apply quiet_failure].
  apply quiet_bind; [intros ? ? ? Hr; unfold ConsumeWebAuthnChallenge in Hr; discriminate Hr|]. intros spent.
  destruct (negb spent); [apply quiet_failure|]. quiet.
Qed.
#[local] Hint Resolve quiet_checked : quiet.

(** A login that was completed: its token resolved, the token spent, the session made. *)
Lemma finishing_steps tok rq dr now f m d reply d' raw : finishing sv tok rq dr now f m -> serve m d = (reply, d') -> rp_SessionCookie reply = Some raw ->
  exists token user at_ method d1 d2 d3,
    resolveMFAToken sv rq now tok d = (inr (token, user), d) /\ later_tokens d d1 /\ spendMFAToken now token d1 = (inr tt, d2) /\
    factor_shown sv now user token f at_ method d /\ mfa_tokens d3 = mfa_tokens d2 /\ serve (finish_login sv rq dr now token user at_ method) d3 = (reply, d').
Proof.
  intros Hf Hs Hc. destruct Hf as [code|code|ch|req <-].
  - unfold VerifyTOTP in Hs. last_step Hs Hc u d1 G1. apply demand_inr in G1 as [_ ->].
    last_step Hs Hc who d1 G1. destruct who as [token user]. pose proof (resolve_inr _ _ _ _ _ _ _ _ G1) as (-> & _).
    last_step Hs Hc n d1 G2. pose proof (reserve_same _ _ _ _ _ G2) as [m0 Hm0]. apply reserve_later in G2.
    last_step Hs Hc v d2 G3. apply attempt_inr in G3. pose proof G3 as G3'. apply totp_later in G3.
    destruct v as [e|[]]; try (eapply signed_in_bind in Hs as (? & ? & ? & Hs); [|solve [quiet]|exact Hc]; eapply signed_in_bind in Hs as (? & ? & ? & Hs); [|solve [auto with quiet]|exact Hc]; injection Hs as <- _; discriminate Hc).
    last_step Hs Hc u2 d3 G4. destruct u2. exists token, user, (Some now), "totp", d2, d3, d3.
    split; [done|]. split; [by eapply later_trans|]. split; [done|]. split; [|done].
    apply (totp_shown _ _ _ token) in G3'. subst d1. exact G3'.
  - unfold VerifyRecoveryCode in Hs. last_step Hs Hc u d1 G1. apply demand_inr in G1 as [_ ->].
    last_step Hs Hc who d1 G1. destruct who as [token user]. pose proof (resolve_inr _ _ _ _ _ _ _ _ G1) as (-> & _).
    last_step Hs Hc n d1 G2. pose proof (reserve_same _ _ _ _ _ G2) as [m0 Hm0]. apply reserve_later in G2.
    last_step Hs Hc v d2 G3. apply attempt_inr in G3. pose proof G3 as G3'. apply recovery_later in G3.
    destruct v as [e|[]]; [injection Hs as <- _; discriminate Hc| |].
    2: { eapply signed_in_bind in Hs as (? & ? & ? & Hs); [|solve [quiet]|exact Hc]; eapply signed_in_bind in Hs as (? & ? & ? & Hs); [|solve [auto with quiet]|exact Hc]; injection Hs as <- _; discriminate Hc. }
    last_step Hs Hc u2 d3 G4. destruct u2. exists token, user, (Some now), "recovery", d2, d3, d3.
    split; [done|]. split; [by eapply later_trans|]. split; [done|]. split; [|done].
    apply (recovery_shown _ _ _ token) in G3'. subst d1. exact G3'.
  - unfold FinishPushLogin in Hs. last_step Hs Hc u d1 G1. apply demand_inr in G1 as [_ ->].
    last_step Hs Hc who d1 G1. destruct who as [token user]. pose proof (resolve_inr _ _ _ _ _ _ _ _ G1) as (-> & _).
    unfold demand_challenge in Hs. last_step Hs Hc u2 d1 G2. apply demand_inr in G2 as [Gc ->].
    last_step Hs Hc found d1 G3. apply ask_inr in G3 as [-> ->]. destruct (GetMFAChallenge ch d) as [c|] eqn:Ech; [|injection Hs as <- _; discriminate Hc].
    last_step Hs Hc u3 d1 G4. apply demand_inr in G4 as [Ga ->].
    last_step Hs Hc u4 d1 G5. assert (mc_UserID c = u_ID user /\ d1 = d) as [Go ->].
    { cbn [snd] in G5. destruct (mc_UserID c =?s _) eqn:Eo; [injection G5 as _ <-; by apply streqb_true in Eo|]. apply run_bind_inr in G5 as (? & ? & _ & G5). discriminate G5. }
    last_step Hs Hc u5 d2 G6. destruct u5. last_step Hs Hc u6 d3 G7. apply observe_inr in G7 as (m & q & ->).
    exists token, user, (mc_VerifiedAt c), "push", d, d2, (audited m q d2). split; [done|]. split; [by apply later_same|]. split; [done|]. split; [|done].
    split; [done|]. cbn [fst] in Gc. destruct (mt_ChallengeID token) as [ch'|]; [|done]. bool_hyps. split; [congruence|].
    exists c. split; [exact Ech|]. split; [done|]. split; [done|]. split; [by destruct (mc_VerifiedAt c)|]. done.
  - unfold FinishLogin in Hs. last_step Hs Hc u d1 G1. apply demand_inr in G1 as [_ ->].
    last_step Hs Hc who d1 G1. destruct who as [token user]. pose proof (resolve_inr _ _ _ _ _ _ _ _ G1) as (-> & _).
    last_step Hs Hc n d1 G2. pose proof (reserve_same _ _ _ _ _ G2) as [m0 Hm0]. apply reserve_later in G2.
    last_step Hs Hc proof d2 G3. pose proof G3 as G3'. apply (checked_shown _ _ _ _ token) in G3'. apply checked_later in G3.
    last_step Hs Hc u2 d3 G4. destruct u2. last_step Hs Hc u3 d4 G5. injection G5 as _ <-.
    last_step Hs Hc u4 d4 G6. apply observe_inr in G6 as (m & q & ->).
    eexists token, user, (Some now), "webauthn", d2, d3, _. split; [done|]. split; [by eapply later_trans|]. split; [done|].
    split; [subst d1; exact G3'|]. split; [|exact Hs]. done.
Qed.

(** The rows of [mfa_tokens] are keyed by their ids and have distinct hashes. *)
Definition tokens_keyed (d : DB) : Prop :=
  (forall k t, mfa_tokens d !! k = Some t -> mt_ID t = k) /\
  forall k k' t t', mfa_tokens d !! k = Some t -> mfa_tokens d !! k' = Some t' -> mt_TokenHash t = mt_TokenHash t' -> k = k'.

(** C23. Completing a second factor sets a session cookie only for the active,
    unlocked account of a live pending login that showed the factor it was
    completed with: a code of its authenticator newer than the last one
    used, one of its unspent recovery codes, the approved push the login was
    issued with, or an assertion of its passkey over an open challenge. The
    session records the password time, that factor's name and when it was
    shown; afterwards no completion of the same pending login sets a cookie
    again, whatever the request. *)
Theorem a_pending_login_opens_one_session tok rq dr now f m d reply d' raw :
  tokens_keyed d -> finishing sv tok rq dr now f m -> serve m d = (reply, d') -> rp_SessionCookie reply = Some raw ->
  (exists token user at_ method, ValidateMFAToken tok now d = inr token /\ get_user now d (mt_UserID token) = Some user /\ u_Status user = "active" /\
     IsAccountLocked (u_ID user) (rate_ip sv rq) now d = false /\
     factor_shown sv now user token f at_ method d /\ session_of raw user (MkAuthenticationEvidence (mt_PrimaryAuthenticatedAt token) at_ method) d') /\
  forall rq2 dr2 now2 f2 m2, finishing sv tok rq2 dr2 now2 f2 m2 -> rp_SessionCookie (serve m2 d').1 = None.
Proof.
  intros [Hkey Huniq] Hf Hs Hc. destruct (finishing_steps _ _ _ _ _ _ _ _ _ _ Hf Hs Hc) as (token & user & at_ & method & d1 & d2 & d3 & Hr & Hl & Hsp & Hshown & Hm & Hend).
  apply resolve_inr in Hr as (_ & Hv & Hu & Ha & Hlk).
  unfold finish_login in Hend. destruct (createSession_cookie sv rq dr now _ _ _ _ _ _ _ Hend Hc) as [Hsess Hmt].
  split; [by exists token, user, at_, method|].
  apply spend_inr in Hsp as [Hl2 (t & Ht & Hused)].
  assert (GetValidMFAToken (HashSHA256 (TrimSpace tok)) MaxMFAAttempts now d = Some token) as Hg.
  { unfold ValidateMFAToken in Hv. destruct (_ || _); [done|]. destruct (GetValidMFAToken _ _ _ _); [by injection Hv as ->|done]. }
  unfold GetValidMFAToken in Hg. destruct (find_where _ _) as [[k0 t0]|] eqn:Ef; [|done]. injection Hg as ->.
  apply find_where_Some in Ef as [Hk0 Hp0]. bool_hyps.
  assert (later_tokens d d') as Hld.
  { eapply later_trans; [exact Hl|]. eapply later_trans; [exact Hl2|]. apply later_same. congruence. }
  assert (mfa_tokens d' !! k0 = Some t) as Hk0'. { rewrite Hmt, Hm. by rewrite <- (Hkey _ _ Hk0). }
  intros rq2 dr2 now2 f2 m2 Hf2. destruct (serve m2 d') as [reply2 d4] eqn:Hs2. cbn [fst].
  destruct (rp_SessionCookie reply2) as [raw2|] eqn:Hc2; [exfalso|done].
  destruct (finishing_steps _ _ _ _ _ _ _ _ _ _ Hf2 Hs2 Hc2) as (token2 & user2 & _ & _ & _ & _ & _ & Hr2 & _).
  apply resolve_inr in Hr2 as (_ & Hv2 & _).
  assert (GetValidMFAToken (HashSHA256 (TrimSpace tok)) MaxMFAAttempts now2 d' = Some token2) as Hg2.
  { unfold ValidateMFAToken in Hv2. destruct (_ || _); [done|]. destruct (GetValidMFAToken _ _ _ _); [by injection Hv2 as ->|done]. }
  unfold GetValidMFAToken in Hg2. destruct (find_where _ (mfa_tokens d')) as [[k2 t2]|] eqn:Ef2; [|done]. injection Hg2 as ->.
  apply find_where_Some in Ef2 as [Hk2 Hp2]. bool_hyps.
  destruct (Hld _ _ Hk2) as (tk & Htk & Hhash & _).
  assert (k2 = k0) as -> by (apply (Huniq _ _ _ _ Htk Hk0); congruence).
  rewrite Hk0' in Hk2. injection Hk2 as ->. unfold mfa_open in *. bool_hyps. congruence.
Qed.
End second_factor_once.

(** ** Refusals *)

Section refusals.
Context `{Primitives} `{AEAD} `{Ceremonies} (sv : Server) (rq : Request) (dr : WebDraws) (now : Z).

(** A hash that costs its Argon2 run. *)
Definition costs_a_run (h : string) : Prop := forall p, VerifyPassword true p h = inl ErrBusy.

Lemma verify_not_busy p h : VerifyPassword false p h <> inl ErrBusy.
Proof. unfold VerifyPassword. repeat case_match; discriminate. Qed.

Lemma dummy_verify h p : costs_a_run h -> DummyVerify (w_busy dr) h p = if w_busy dr then Some ErrBusy else None.
Proof.
  intros Hh. unfold DummyVerify. set (q := if _ : bool then _ else p). destruct (w_busy dr); [by rewrite Hh|].
  pose proof (verify_not_busy q h) as Hn. destruct (VerifyPassword false q h) as [[]|]; congruence.
Qed.

(** A sign-in that fails: the account may not try, or the password is wrong. *)
Definition failing_login (req : LoginRequest) (d : DB) : Prop :=
  match GetUserByUsername (lq_Username req) now d with
  | None => True
  | Some u => loginRefusal now (Some u) (rate_ip sv rq) d <> "" \/
      (costs_a_run (u_PasswordHash u) /\ VerifyPassword false (lq_Password req) (u_PasswordHash u) <> inr true)
  end.

Lemma wrong_password_reply user d : (serve (wrong_password sv rq dr now user) d).1 = refused_with 401 "invalid_credentials".
Proof. unfold wrong_password. rewrite serve_bind. unfold attempt. by destruct (RecordFailedLogin _ _ _ _). Qed.

(** C24. Every refused password login gets one and the same reply, whether the
    account is missing, inactive, locked or the password wrong: invalid
    credentials, or busy when the hashing slots are taken. *)
Theorem a_failed_login_reveals_no_account req d : costs_a_run (sv_dummyHash sv) -> failing_login req d ->
  (serve (Login sv rq dr now (Some req)) d).1 =
    if w_busy dr then refused_with 503 "temporarily_unavailable" else refused_with 401 "invalid_credentials".
Proof.
  intros Hd Hf. unfold failing_login in Hf.
  assert (forall u reason name p, (serve (refuse_login sv rq dr now u reason name p) d).1 =
    if w_busy dr then refused_with 503 "temporarily_unavailable" else refused_with 401 "invalid_credentials") as Hr.
  { intros u reason name p. unfold refuse_login. rewrite (dummy_verify _ _ Hd). destruct (w_busy dr); [done|].
    rewrite serve_bind. destruct u; reflexivity. }
  unfold Login. rewrite serve_bind. cbn [ask]. rewrite serve_bind. cbn [ask].
  destruct (GetUserByUsername (lq_Username req) now d) as [u|] eqn:Eu; [|apply Hr].
  destruct (loginRefusal now (Some u) (rate_ip sv rq) d =?s "") eqn:Er; cbn [negb]; [|apply Hr].
  apply streqb_true in Er. destruct Hf as [Hf|[Hc Hw]]; [congruence|].
  destruct (w_busy dr); [by rewrite Hc|]. pose proof (verify_not_busy (lq_Password req) (u_PasswordHash u)) as Hn.
  destruct (VerifyPassword false _ _) as [[]|[]]; try congruence; apply wrong_password_reply.
Qed.
End refusals.

(** ** Witnesses *)

Definition toy_ceremonies : Ceremonies := {|
  library_ValidateLogin := fun _ => None; library_CreateCredential := fun _ => None;
  client_data_challenge := fun _ => None; url_ParseQuery := fun _ => None |}.

Definition bob_hash : string := Eval vm_compute in encode_hash (repeat 5 16) (toy_argon2 (bytes_of "correct horse") (repeat 5 16) 3 65536 4 32).

(** Bob, with the password above; [second] gives him a pending second factor. *)
Definition login_db : DB := on_users <["bob" := set_u_PasswordHash bob_hash (sample_user "bob" "user")]> sample_db.
Definition toy_login (password : string) : LoginRequest := MkLoginRequest "" "Bob" password.
Definition login_server : Server := MkServer (MkManager [] "") (repeat 9 32) toy_engine None "id.example.org" "https://id.example.org" bob_hash.

Definition pending_token : MFAToken :=
  MkMFAToken "" "" (Some t0) "mt1" "bob" (HashSHA256 "pending") None 0 (t0 + 5 * minute) None t0.
Definition pending_login_db : DB :=
  on_mfa_tokens (fun _ => {[ "mt1" := pending_token ]})
    (on_recovery_codes (fun _ => {[ "rc1" := toy_recovery ]}) login_db).

#[local] Existing Instances toy_primitives toy_aead toy_ceremonies.

Lemma password_alone_opens_no_factored_account_witness : exists reply d' raw,
  serve (Login login_server (toy_request "") toy_web_draws t0 (Some (toy_login "correct horse"))) login_db = (reply, d') /\
  rp_SessionCookie reply = Some raw /\ enrolled_methods "bob" login_db = [].
Proof.
  destruct (serve (Login login_server (toy_request "") toy_web_draws t0 (Some (toy_login "correct horse"))) login_db) as [reply d'] eqn:E.
  assert (exists raw, rp_SessionCookie reply = Some raw) as [raw Hraw].
  { apply (f_equal fst) in E. cbn [fst] in E. subst reply. vm_compute. eauto. }
  exists reply, d', raw. split; [reflexivity|]. split; [exact Hraw|].
  destruct (password_alone_opens_no_factored_account login_server (toy_request "") toy_web_draws t0 _ _ _ _ _ E Hraw)
    as (req & user & Hreq & Hu & _ & _ & _ & Hm & _).
  injection Hreq as <-. vm_compute in Hu. injection Hu as <-. exact Hm.
Defined.

Lemma a_pending_login_opens_one_session_witness : exists reply d' raw,
  serve (VerifyRecoveryCode login_server (toy_request "") toy_web_draws t0 "pending" "abcd-2345") pending_login_db = (reply, d') /\
  rp_SessionCookie reply = Some raw /\
  rp_SessionCookie (serve (VerifyTOTP login_server (toy_request "") toy_web_draws (t0 + second) "pending" "123456") d').1 = None.
Proof.
  destruct (serve (VerifyRecoveryCode login_server (toy_request "") toy_web_draws t0 "pending" "abcd-2345") pending_login_db) as [reply d'] eqn:E.
  assert (exists raw, rp_SessionCookie reply = Some raw) as [raw Hraw].
  { apply (f_equal fst) in E. cbn [fst] in E. subst reply. vm_compute. eauto. }
  exists reply, d', raw. split; [reflexivity|]. split; [exact Hraw|].
  refine (proj2 (a_pending_login_opens_one_session login_server "pending" (toy_request "") toy_web_draws t0 _ _ _ _ _ _ _ _ E Hraw) _ _ _ _ _ _).
  - split.
    + intros k t Hk. change (({[ "mt1" := pending_token ]} : gmap string MFAToken) !! k = Some t) in Hk. apply lookup_singleton_Some in Hk as [<- <-]. reflexivity.
    + intros k k' t t' Hk Hk' _. change (({[ "mt1" := pending_token ]} : gmap string MFAToken) !! k = Some t) in Hk.
      change (({[ "mt1" := pending_token ]} : gmap string MFAToken) !! k' = Some t') in Hk'. apply lookup_singleton_Some in Hk as [<- _], Hk' as [<- _]. reflexivity.
  - constructor.
  - constructor.
Defined.


Lemma a_failed_login_reveals_no_account_witness :
  (serve (Login login_server (toy_request "") toy_web_draws t0 (Some (toy_login "wrong"))) login_db).1 =
  (serve (Login login_server (toy_request "") toy_web_draws t0 (Some (MkLoginRequest "" "nobody" "wrong"))) login_db).1.
Proof.
  assert (costs_a_run bob_hash) as Hc by (intros p; reflexivity).
  refine (eq_trans (a_failed_login_reveals_no_account login_server (toy_request "") toy_web_draws t0 (toy_login "wrong") login_db Hc _)
    (eq_sym (a_failed_login_reveals_no_account login_server (toy_request "") toy_web_draws t0 (MkLoginRequest "" "nobody" "wrong") login_db Hc _))).
  - unfold failing_login. destruct (GetUserByUsername _ t0 login_db) as [u|] eqn:Eu; [|exact I].
    vm_compute in Eu. injection Eu as <-. right. split; [exact Hc|]. vm_compute. discriminate.
  - vm_compute. exact I.
Defined.
