(* ===== verification/Admin.v ===== *)
(** The administrator's handlers: accounts, connectors, OAuth clients, launcher
    cards ([api/admin_handlers.go]) and the icons cards show
    ([api/icon_handlers.go]).

    Each handler runs behind the gate of [Web]; [admin] is the account the gate
    let through.  A request body is the decoded record, [None] when it is not
    JSON; a pointer field is an option.  The texts that explain a refusal are not
    kept, its code is.  The prepared audit event of a request is [w_id dr 1], an
    observed one [w_id dr 2] and a new object [w_id dr 3]. *)
From stdpp Require Import sorting.
From S2P Require Import Prelude Text Schema Access Sample Sessions Tokens Outbox AppAccess Directory Crypto Requests OAuth Reconcile Mfa Alerts Net Dispatch Registry Factors Web Login.

Open Scope string_scope.
Open Scope Z_scope.

(** ** What the handlers read through the standard library *)

(** XML tokens, as far as an SVG is read. *)
Inductive XMLToken := ProcInst | CharData (text : string) | XMLDirective (text : string)
  | StartElement (name : string) (attrs : list (string * string)) | OtherToken.

(** [url.Parse], [time.Parse] at RFC 3339, the JSON of an instant, an error's
    text, and the tokens of a document with whether it ended well formed. *)
Class Formats := {
  url_Parse : string -> option ParsedURL;
  rfc3339 : string -> option Z;
  time_text : Z -> Json;
  error_text : StoreError -> string;
  xml_tokens : list Z -> list XMLToken * bool
}.

(** ** Answers *)

(** A store operation whose error the handler answers with [f]. *)
Definition answering {A} (f : StoreError -> Reply) (m : DB -> (StoreError + A) * DB) : Handler A := fun d =>
  match m d with (inl e, d) => (inl (f e), d) | (inr a, d) => (inr a, d) end.

Definition internal_error : Reply := refused_with 500 "internal_error".
Definition invalid_request : Reply := refused_with 400 "invalid_request".
Definition not_found_page : Reply := MkReply 404 (JStr "404 page not found") None None.

(** [writeInputError] for a store error. *)
Definition writeInputError (code : string) (e : StoreError) : Reply :=
  match e with ErrInput _ => refused_with 400 code | _ => internal_error end.

(** [json:"name,omitempty"] of a string. *)
Definition omitempty (name v : string) : list (string * Json) := if v =?s "" then [] else [(name, JStr v)].

Definition success : Handler Reply := writeJSON [("success", JBool true)].

Section admin.
Context `{Codec} `{Primitives} `{AEAD} `{Far} `{Formats}.
Context (sv : Server) (rq : Request) (dr : WebDraws) (AllowPrivate AllowLoopback : bool) (encryptionKey : list Z).
(** How the store names what it queues: a logout by its session, an event by
    connector and resource. *)
Context (lid : string -> string) (eid again : string -> string -> string) (now : Z) (admin : User).

(** The event of the request under way. *)
Definition event (action target kind outcome : string) (details : Json) : option AuditEvent :=
  Prepare sv rq dr now 1 action (u_ID admin) (u_Username admin) target kind outcome details.

Definition observed (action target kind outcome : string) (details : Json) : Handler unit :=
  Observe sv rq dr now 2 action (u_ID admin) (u_Username admin) target kind outcome details.

Definition time_member (name : string) (t : option Z) : list (string * Json) :=
  match t with Some t => [(name, time_text t)] | None => [] end.
Definition nullable_time (t : option Z) : Json := match t with Some t => time_text t | None => JNull end.

(** ** Accounts *)

Definition account_json (u : User) : Json :=
  JObj ([("id", JStr (u_ID u)); ("username", JStr (u_Username u)); ("displayName", JStr (u_DisplayName u)); ("email", JStr (u_Email u));
    ("role", JStr (u_Role u)); ("status", JStr (u_Status u)); ("pending", JBool (u_Pending u));
    ("passwordChangeRequired", JBool (u_PasswordChangeRequired u))] ++ time_member "emailVerifiedAt" (u_EmailVerifiedAt u) ++
    omitempty "sourceConnectorId" (u_SourceConnectorID u) ++ omitempty "externalId" (u_ExternalID u) ++
    [("sourceActive", JBool (u_SourceActive u)); ("locallyDisabled", JBool (u_LocallyDisabled u))] ++
    time_member "endsAt" (timeFromUnix (u_EndsAt u)) ++ [("createdAt", time_text (u_CreatedAt u)); ("updatedAt", time_text (u_UpdatedAt u))]).

Definition user_le (a b : User) : Prop := String.ltb (lower (u_Username b)) (lower (u_Username a)) = false.
#[local] Instance user_le_dec a b : Decision (user_le a b) := bool_eq_dec _ _.
Definition ListUsers : Handler Reply :=
  users <~ ask (fun d => merge_sort user_le (map (scanUser now) (map snd (map_to_list (users d))))) ;;
  writeJSON [("users", JArr (map account_json users))].

Record CreateUserRequest := MkCreateUserRequest { cu_Username : string; cu_DisplayName : string; cu_Email : string; cu_Password : string;
  cu_Role : string; cu_Status : string }.

(** The stored hash, with the answers to a saturated or refusing hasher. *)
Definition hash_or_refuse (password : string) : Handler string :=
  match HashPassword (w_busy dr) (w_raw dr 20) password with
  | inr hash => run_ret hash
  | inl ErrBusy => busy_refusal
  | inl (PolicyError _) => refuse 400 "password_policy"
  | inl _ => stepUpInternalError
  end.

(** Without a password the account is invited: pending and disabled. *)
Definition drafted_user (req : CreateUserRequest) (passHash : string) : User :=
  let role := if cu_Role req <>?s "admin" then "user" else cu_Role req in
  let status := if cu_Status req <>?s "disabled" then "active" else cu_Status req in
  let invited := cu_Password req =?s "" in
  MkUser (w_id dr 3) (TrimSpace (cu_Username req)) (TrimSpace (cu_DisplayName req)) (TrimSpace (cu_Email req)) passHash role
    (if invited then "disabled" else status) invited (negb invited) None "" "" false false None now now.

Definition CreateUser (body : option CreateUserRequest) : Handler Reply :=
  match body with
  | None => run_fail invalid_request
  | Some req =>
    demand (negb ((TrimSpace (cu_Username req) =?s "") || (TrimSpace (cu_Email req) =?s ""))) 400 "missing_fields" ~;;
    passHash <~ (if cu_Password req =?s "" then run_ret "" else hash_or_refuse (cu_Password req)) ;;
    let user := drafted_user req passHash in
    let created := event "admin.user_created" (u_ID user) "user" "success" (JObj [("username", JStr (u_Username user)); ("role", JStr (u_Role user));
      ("pending", JBool (u_Pending user)); ("passwordChangeRequired", JBool (negb (u_Pending user)))]) in
    answering (fun e => match e with ErrUserConflict => refused_with 409 "user_exists" | _ => internal_error end)
      (commit (CreateUserWithSyncEvents eid user created now)) ~;;
    writeJSON [("success", JBool true); ("user", account_json user)]
  end.

Record UpdateUserRequest := MkUpdateUserRequest { uu_DisplayName : string; uu_Email : string; uu_Role : string; uu_Status : string;
  uu_Password : string; uu_EndsAt : option string }.

(** A future instant, cut to the second; empty clears. *)
Definition parseInstant (raw : string) : StoreError + option Z :=
  if raw =?s "" then inr None else
  match rfc3339 raw with
  | None => inl ErrExpiryInPast
  | Some at_ => let at_ := at_ / second * second in if now <? at_ then inr (Some at_) else inl ErrExpiryInPast
  end.

(** Echoing the stored end date is not a new schedule. *)
Definition sameInstant (raw : string) (current : option Z) : bool :=
  (raw <>?s "") && match current, rfc3339 raw with Some c, Some at_ => at_ =? c | _, _ => false end.

Definition errSourceOwned : StoreError := ErrText "name and email are managed by the account's connector".
Definition errAccountPending : StoreError := ErrText "a pending account cannot be activated directly".

Definition set_u_DisplayName (v : string) (r : User) : User := MkUser (u_ID r) (u_Username r) v (u_Email r) (u_PasswordHash r) (u_Role r) (u_Status r)
  (u_Pending r) (u_PasswordChangeRequired r) (u_EmailVerifiedAt r) (u_SourceConnectorID r) (u_ExternalID r) (u_SourceActive r) (u_LocallyDisabled r)
  (u_EndsAt r) (u_CreatedAt r) (u_UpdatedAt r).
Definition set_u_Email (v : string) (r : User) : User := MkUser (u_ID r) (u_Username r) (u_DisplayName r) v (u_PasswordHash r) (u_Role r) (u_Status r)
  (u_Pending r) (u_PasswordChangeRequired r) (u_EmailVerifiedAt r) (u_SourceConnectorID r) (u_ExternalID r) (u_SourceActive r) (u_LocallyDisabled r)
  (u_EndsAt r) (u_CreatedAt r) (u_UpdatedAt r).
Definition set_u_Role (v : string) (r : User) : User := MkUser (u_ID r) (u_Username r) (u_DisplayName r) (u_Email r) (u_PasswordHash r) v (u_Status r)
  (u_Pending r) (u_PasswordChangeRequired r) (u_EmailVerifiedAt r) (u_SourceConnectorID r) (u_ExternalID r) (u_SourceActive r) (u_LocallyDisabled r)
  (u_EndsAt r) (u_CreatedAt r) (u_UpdatedAt r).
Definition set_u_LocallyDisabled (v : bool) (r : User) : User := MkUser (u_ID r) (u_Username r) (u_DisplayName r) (u_Email r) (u_PasswordHash r)
  (u_Role r) (u_Status r) (u_Pending r) (u_PasswordChangeRequired r) (u_EmailVerifiedAt r) (u_SourceConnectorID r) (u_ExternalID r) (u_SourceActive r)
  v (u_EndsAt r) (u_CreatedAt r) (u_UpdatedAt r).

(** The closure of [UpdateUser], on the row as read under the write lock. *)
Definition edited_profile (req : UpdateUserRequest) (user : User) : User :=
  let name := TrimSpace (uu_DisplayName req) in
  let email := TrimSpace (uu_Email req) in
  let user := if name <>?s "" then set_u_DisplayName name user else user in
  let user := if email <>?s "" then set_u_Email email user else user in
  if one_of (uu_Role req) ["user"; "admin"] then set_u_Role (uu_Role req) user else user.

Definition edited_status (req : UpdateUserRequest) (user : User) : User :=
  if one_of (uu_Status req) ["active"; "disabled"] then
    let user := set_u_Status (uu_Status req) user in
    if u_SourceConnectorID user <>?s "" then ApplySourceState (set_u_LocallyDisabled (uu_Status req =?s "disabled") user) else user
  else user.

Definition edited_password (passHash : string) (user : User) : User :=
  if passHash <>?s "" then
    set_u_PasswordChangeRequired (u_ID user <>?s u_ID admin) (set_u_Pending false (set_u_PasswordHash passHash user))
  else user.

Definition edited_ends (req : UpdateUserRequest) (user : User) : StoreError + option Z :=
  match uu_EndsAt req with
  | Some raw => if sameInstant raw (timeFromUnix (u_EndsAt user)) then inr (timeFromUnix (u_EndsAt user)) else parseInstant raw
  | None => inr (timeFromUnix (u_EndsAt user))
  end.

Definition demoted (before after : User) : bool := (u_Role before =?s "admin") && (u_Role after <>?s "admin").
Definition revokes (passHash : string) (before after : User) : bool :=
  (passHash <>?s "") || ((u_Status before =?s "active") && (u_Status after =?s "disabled")) || demoted before after.

Definition update_edit (req : UpdateUserRequest) (passHash : string) : user_edit := fun _ before =>
  if (u_SourceConnectorID before <>?s "") &&
     (((TrimSpace (uu_DisplayName req) <>?s "") && (TrimSpace (uu_DisplayName req) <>?s u_DisplayName before)) ||
      ((TrimSpace (uu_Email req) <>?s "") && negb (EqualFold (TrimSpace (uu_Email req)) (u_Email before))))
  then inl errSourceOwned else
  match edited_ends req before with
  | inl e => inl e
  | inr ends =>
    let user := edited_password passHash (edited_status req (with_ends (edited_profile req before) ends)) in
    if u_Pending user && (u_Status user =?s "active") then inl errAccountPending
    else inr (user, ends, revokes passHash before user)
  end.

(** The audit details of the edit; they are written where it succeeds. *)
Definition update_details (req : UpdateUserRequest) (passHash id : string) (d : DB) : Json :=
  match users d !! id with
  | None => JNull
  | Some row =>
    let before := scanUser now row in
    match update_edit req passHash d before with
    | inl _ => JNull
    | inr (user, ends, revoke) => JObj [("username", JStr (u_Username user)); ("role", JStr (u_Role user)); ("status", JStr (u_Status user));
        ("endsAt", nullable_time ends); ("endsAtBefore", nullable_time (timeFromUnix (u_EndsAt before))); ("demoted", JBool (demoted before user));
        ("roleChanged", JBool (u_Role user <>?s u_Role before)); ("accessRevoked", JBool revoke); ("passwordSet", JBool (passHash <>?s ""))]
    end
  end.

Definition update_refusal (e : StoreError) : Reply :=
  match e with
  | ErrNoRows => refused_with 404 "user_not_found"
  | ErrText t =>
    if t =?s "name and email are managed by the account's connector" then refused_with 400 "source_owned"
    else if t =?s "a pending account cannot be activated directly" then refused_with 400 "account_pending" else internal_error
  | ErrEnrollmentPolicy => refused_with 400 "invalid_policy"
  | ErrLastActiveAdmin => refused_with 400 "cannot_remove_last_admin"
  | ErrExpiryInPast => refused_with 400 "expiry_in_past"
  | _ => internal_error
  end.

Definition UpdateUser (body : option UpdateUserRequest) : Handler Reply :=
  let userID := r_PathID rq in
  match body with
  | None => run_fail invalid_request
  | Some req =>
    passHash <~ (if uu_Password req =?s "" then run_ret "" else hash_or_refuse (uu_Password req)) ;;
    user <~ answering update_refusal (fun d =>
      commit (updateUser lid eid userID (update_edit req passHash)
        (event "admin.user_updated" userID "user" "success" (update_details req passHash userID d)) now) d) ;;
    (if passHash <>?s "" then silently (ClearFailedLogins (u_ID user) "") else run_ret tt) ~;;
    writeJSON [("success", JBool true); ("user", account_json user)]
  end.

(** An account by the path, or the answer that there is none. *)
Definition path_user : Handler User :=
  user <~ ask (fun d => get_user now d (r_PathID rq)) ;;
  match user with Some u => run_ret u | None => refuse 404 "user_not_found" end.

Definition ResetUserMFA : Handler Reply :=
  user <~ path_user ;;
  result <~ attempt (commit (Directory.ResetUserMFA lid eid (u_ID user)
    (event "admin.user_mfa_reset" (u_ID user) "user" "success" (JObj [("username", JStr (u_Username user))])) now)) ;;
  match result with
  | inr _ => success
  | inl e =>
    observed "admin.user_mfa_reset" (u_ID user) "user" "failure" (JObj [("username", JStr (u_Username user)); ("error", JStr (error_text e))]) ~;;
    run_fail internal_error
  end.

Definition RevokeUserSessions : Handler Reply :=
  let userID := r_PathID rq in
  result <~ attempt (RevokeUserAccess lid userID (event "admin.sessions_revoked" userID "user" "success" JNull) now) ;;
  match result with
  | inr _ => success
  | inl e => observed "admin.sessions_revoked" userID "user" "failure" (JObj [("error", JStr (error_text e))]) ~;; run_fail internal_error
  end.

Definition DeleteUser : Handler Reply :=
  let userID := r_PathID rq in
  user <~ path_user ;;
  answering (fun e => match e with ErrLastActiveAdmin => refused_with 400 "cannot_delete_last_admin" | _ => internal_error end)
    (commit (DeleteUserWithSyncEvents lid eid userID
      (event "admin.user_deleted" userID "user" "success" (JObj [("username", JStr (u_Username user))])) now)) ~;;
  success.

(** ** Connectors *)

Definition system_json (ps : PairedSystem) : Json :=
  JObj ([("id", JStr (ps_ID ps)); ("name", JStr (ps_Name ps)); ("systemType", JStr (ps_SystemType ps))] ++
    omitempty "description" (ps_Description ps) ++ omitempty "iconUrl" (ps_IconURL ps) ++
    [("callbackUrl", JStr (ps_CallbackURL ps)); ("status", JStr (ps_Status ps))] ++ time_member "lastSyncedAt" (ps_LastSyncedAt ps) ++
    [("createdAt", time_text (ps_CreatedAt ps)); ("groupsEnabled", JBool (ps_GroupsEnabled ps)); ("reconcileHours", JNum (ps_ReconcileHours ps));
     ("provisioningHold", JBool (ps_ProvisioningHold ps))]).

Definition CreatePairedSystem (body : option CreateSystemRequest) : Handler Reply :=
  match body with
  | None => run_fail invalid_request
  | Some req =>
    created <~ answering (writeInputError "invalid_request")
      (CreateSystem url_Parse AllowPrivate AllowLoopback encryptionKey (MkPairDraws (w_id dr 3) (w_id dr 4) (w_raw dr 22) (w_raw dr 23)) req
        (Some (fun ps => buildEvent sv rq dr now 1 "admin.system_created" (u_ID admin) (u_Username admin) (ps_ID ps) "system" "success"
          (JObj [("systemName", JStr (ps_Name ps)); ("systemType", JStr (ps_SystemType ps))]))) now) ;;
    writeJSON [("system", system_json created.1); ("bearerToken", JStr created.2)]
  end.

Definition ListPairedSystems : Handler Reply :=
  systems <~ ask ListAllPairedSystems ;; writeJSON [("systems", JArr (map system_json systems))].

Definition ResyncSystem : Handler Reply :=
  answering (fun e => match e with ErrNotFound => refused_with 404 "system_not_found" | _ => refused_with 500 "resync_failed" end)
    (commit (Outbox.ResyncSystem eid again (r_PathID rq) (event "admin.system_resynced" (r_PathID rq) "system" "success" JNull) now)) ~;;
  success.

Definition DeletePairedSystem : Handler Reply :=
  removed <~ answering (fun _ => internal_error)
    (Registry.DeletePairedSystem (r_PathID rq) (event "admin.system_deleted" (r_PathID rq) "system" "success" JNull) now) ;;
  demand removed 404 "system_not_found" ~;;
  success.

(** A connector by the path, or the page that there is none. *)
Definition path_system : Handler PairedSystem :=
  sys <~ ask (GetPairedSystemByID (r_PathID rq)) ;;
  match sys with Some s => run_ret s | None => run_fail not_found_page end.

Record ConfigureRequest := MkConfigureRequest { cf_SystemType : string; cf_BearerToken : string; cf_Groups : option bool; cf_ReconcileHours : option Z }.

Definition ConfigureSystem (body : option ConfigureRequest) : Handler Reply :=
  match body with
  | None => run_fail invalid_request
  | Some req =>
    sys <~ path_system ;;
    let groups := default (ps_GroupsEnabled sys) (cf_Groups req) in
    let hours := default (ps_ReconcileHours sys) (cf_ReconcileHours req) in
    let ev := event "admin.system_configured" (ps_ID sys) "system" "success" (JObj [("systemName", JStr (ps_Name sys));
      ("systemType", JStr (cf_SystemType req)); ("groups", JBool groups); ("reconcileHours", JNum hours);
      ("credentialRotated", JBool (cf_BearerToken req <>?s ""))]) in
    result <~ attempt (ReviewSystem encryptionKey (w_raw dr 22) eid sys (cf_SystemType req) (cf_BearerToken req) groups hours ev now) ;;
    match result with
    | inr _ => success
    | inl e =>
      observed "admin.system_configured" (ps_ID sys) "system" "failure" (JObj [("systemName", JStr (ps_Name sys));
        ("systemType", JStr (if one_of (cf_SystemType req) ["scim"; "suite_webhook"] then cf_SystemType req else "invalid"))]) ~;;
      run_fail (writeInputError "invalid_connection" e)
    end
  end.

(** [sent] is what this process sent to the target before. *)
Definition TestSystem (sent : list Exchange) : Handler Reply :=
  sys <~ path_system ;;
  result <~ (fun d => let '(r, s) := Dispatch.TestSystem encryptionKey now sys (MkLine d sent false) in (inr r, ln_DB s)) ;;
  let failed := match result with inl _ => true | inr _ => false end in
  observed "admin.system_tested" (ps_ID sys) "system" (if failed then "failure" else "success") JNull ~;;
  demand (negb failed) 400 "connection_test_failed" ~;;
  success.

(** ** OAuth clients *)

Definition list_text (l : option (list string)) : Json := match l with Some l => JArr (map JStr l) | None => JNull end.

(** The three JSON columns stand as lists. *)
Definition client_json (c : OAuthClient) : Json :=
  JObj ([("id", JStr (oc_ID c)); ("clientName", JStr (oc_ClientName c)); ("clientType", JStr (oc_ClientType c));
    ("redirectUrisJson", list_text (oc_RedirectURIs c)); ("allowedScopesJson", list_text (oc_AllowedScopes c));
    ("postLogoutRedirectUrisJson", list_text (oc_PostLogoutRedirectURIs c)); ("backchannelLogoutUri", JStr (oc_BackchannelLogoutURI c))] ++
    omitempty "launchUrl" (oc_LaunchURL c) ++ omitempty "description" (oc_Description c) ++ omitempty "iconName" (oc_IconName c) ++
    [("launcherName", JStr (oc_LauncherName c)); ("launcherAudience", JStr (oc_LauncherAudience c)); ("enabled", JBool (oc_Enabled c));
     ("createdAt", time_text (oc_CreatedAt c))]).

Definition ListOAuthClients : Handler Reply :=
  clients <~ ask Registry.ListOAuthClients ;; writeJSON [("clients", JArr (map client_json clients))].

Definition suiteClientIDs : list string := ["kypost"; "kydns"; "kypasswords"; "kynotes"; "kybookmarks"].
Definition requireConfidential (clientID : string) : bool := one_of (lower (TrimSpace clientID)) suiteClientIDs.

(** The raw secret and the digest that is kept. *)
Definition generateClientSecret : string * string :=
  let raw := string_of (hex_encode (w_raw dr 21)) in (raw, HashSHA256 raw).

Definition knownScopes (scopes : list string) : bool := forallb (fun sc => one_of sc ["openid"; "profile"; "email"]) scopes.

(** An absolute HTTPS URL, or HTTP on loopback. *)
Definition validateExternalURL (raw : string) : bool :=
  match url_Parse (TrimSpace raw) with
  | None => false
  | Some u =>
    if (pu_Hostname u =?s "") || pu_User u || (pu_Fragment u <>?s "") then false
    else if pu_Scheme u =?s "https" then true
    else if pu_Scheme u =?s "http" then
      let host := lower (pu_Hostname u) in
      let host := if has_suffix "." host then String.substring 0 (String.length host - 1) host else host in
      (host =?s "localhost") || match ParseIP host with Some ip => IsLoopback ip | None => false end
    else false
  end.

Definition validateRegisteredURLs (redirectURIs : list string) (launchURL : string) : bool :=
  forallb validateExternalURL redirectURIs && ((launchURL =?s "") || validateExternalURL launchURL).

(** The non-blank URIs, trimmed; [None] when one is not admissible. *)
Definition encodePostLogoutURIs (uris : list string) : option (list string) :=
  let cleaned := List.filter (fun u => u <>?s "") (map TrimSpace uris) in
  if forallb validateExternalURL cleaned then Some cleaned else None.

Definition outbound_allowed (raw : string) : bool := is_null (ValidateURL url_Parse AllowPrivate AllowLoopback raw).

Record CreateClientRequest := MkCreateClientRequest { cc_ClientID : string; cc_ClientName : string; cc_ClientType : string;
  cc_RedirectURIs : list string; cc_AllowedScopes : list string; cc_LaunchURL : string; cc_PostLogoutRedirectURIs : list string;
  cc_BackchannelLogoutURI : string }.

Definition refuse_post_logout (l : option (list string)) : Handler (list string) :=
  match l with Some l => run_ret l | None => run_fail invalid_request end.

Definition deny_public_suite (action clientID : string) : Handler unit :=
  observed action clientID "client" "denied" (JObj [("reason", JStr "suite_client_must_be_confidential")]) ~;;
  refuse 400 "invalid_client_type".

Definition CreateOAuthClient (body : option CreateClientRequest) : Handler Reply :=
  match body with
  | None => run_fail invalid_request
  | Some req =>
    demand (cc_ClientName req <>?s "") 400 "invalid_request" ~;;
    let kind := if cc_ClientType req <>?s "public" then "confidential" else cc_ClientType req in
    (if (kind =?s "public") && requireConfidential (cc_ClientID req) then deny_public_suite "admin.oauth_client_created" (cc_ClientID req)
     else run_ret tt) ~;;
    let scopes := match cc_AllowedScopes req with [] => ["openid"; "profile"; "email"] | l => l end in
    demand (knownScopes scopes) 400 "unknown_scope" ~;;
    demand (negb (length (cc_RedirectURIs req) =? 0)%nat) 400 "invalid_request" ~;;
    let '(rawSecret, secretHash) := if kind =?s "confidential" then generateClientSecret else ("", "") in
    demand (validateRegisteredURLs (cc_RedirectURIs req) (cc_LaunchURL req)) 400 "invalid_request" ~;;
    postLogout <~ refuse_post_logout (encodePostLogoutURIs (cc_PostLogoutRedirectURIs req)) ;;
    let backchannel := TrimSpace (cc_BackchannelLogoutURI req) in
    demand ((backchannel =?s "") || outbound_allowed backchannel) 400 "invalid_request" ~;;
    let clientID := if TrimSpace (cc_ClientID req) =?s "" then w_id dr 3 else TrimSpace (cc_ClientID req) in
    let client := MkOAuthClient clientID (cc_ClientName req) kind secretHash (Some (cc_RedirectURIs req)) (Some scopes) (Some postLogout) backchannel
      (TrimSpace (cc_LaunchURL req)) "" "" "" "" true now in
    answering (fun _ => internal_error) (Registry.CreateOAuthClient (w_id dr 4) client
      (event "admin.oauth_client_created" clientID "client" "success" (JObj [("clientName", JStr (oc_ClientName client)); ("clientType", JStr kind)]))
      now) ~;;
    writeJSON [("success", JBool true); ("client", client_json client); ("clientSecret", JStr rawSecret)]
  end.

Record UpdateClientRequest := MkUpdateClientRequest { uc_ClientName : option string; uc_ClientType : option string;
  uc_RedirectURIs : option (list string); uc_AllowedScopes : option (list string); uc_LaunchURL : option string; uc_Enabled : option bool;
  uc_RotateSecret : bool; uc_PostLogoutRedirectURIs : option (list string); uc_BackchannelLogoutURI : option string }.

(** A client by the path, or the answer that there is none. *)
Definition path_client : Handler OAuthClient :=
  client <~ ask (GetOAuthClientByID (r_PathID rq)) ;;
  match client with Some c => run_ret c | None => refuse 404 "client_not_found" end.

Definition with_settings (c : OAuthClient) (name kind secret : string) (redirects scopes postLogout : option (list string)) (backchannel launch : string)
    (enabled : bool) : OAuthClient :=
  MkOAuthClient (oc_ID c) name kind secret redirects scopes postLogout backchannel launch (oc_Description c) (oc_IconName c) (oc_LauncherName c)
    (oc_LauncherAudience c) enabled (oc_CreatedAt c).

(** A present member that must pass a test. *)
Definition checked {A} (o : option A) (p : A -> bool) (code : string) : Handler unit :=
  match o with Some a => demand (p a) 400 code | None => run_ret tt end.

(** The client's type and secret after the edit, and the secret shown: a
    promotion comes with a fresh secret. *)
Definition rotation (req : UpdateClientRequest) (client : OAuthClient) : Handler (string * bool) :=
  match uc_ClientType req with
  | None => run_ret (oc_ClientType client, uc_RotateSecret req)
  | Some "confidential" =>
    run_ret ("confidential", uc_RotateSecret req || (oc_ClientType client <>?s "confidential") || (oc_ClientSecretHash client =?s ""))
  | Some "public" =>
    (if requireConfidential (oc_ID client) then deny_public_suite "admin.oauth_client_updated" (oc_ID client) else run_ret tt) ~;;
    run_ret ("public", false)
  | Some _ => run_fail invalid_request
  end.

Definition UpdateOAuthClient (body : option UpdateClientRequest) : Handler Reply :=
  match body with
  | None => run_fail invalid_request
  | Some req =>
    client <~ path_client ;;
    checked (uc_LaunchURL req) validateExternalURL "invalid_request" ~;;
    checked (uc_RedirectURIs req) (fun l => negb (length l =? 0)%nat && validateRegisteredURLs l "") "invalid_request" ~;;
    checked (uc_BackchannelLogoutURI req) (fun u => (TrimSpace u =?s "") || outbound_allowed (TrimSpace u)) "invalid_request" ~;;
    postLogout <~ match uc_PostLogoutRedirectURIs req with
      | Some l => encoded <~ refuse_post_logout (encodePostLogoutURIs l) ;; run_ret (Some encoded)
      | None => run_ret (oc_PostLogoutRedirectURIs client)
      end ;;
    checked (uc_AllowedScopes req) knownScopes "unknown_scope" ~;;
    typed <~ rotation req client ;;
    let '(kind, rotate) := typed in
    demand (negb rotate || (kind =?s "confidential")) 400 "invalid_request" ~;;
    let '(rawSecret, secretHash) :=
      if rotate then generateClientSecret
      else ("", match uc_ClientType req with Some "public" => "" | _ => oc_ClientSecretHash client end) in
    let name := match uc_ClientName req with Some n => if TrimSpace n <>?s "" then TrimSpace n else oc_ClientName client | None => oc_ClientName client end in
    let next := with_settings client name kind secretHash
      (match uc_RedirectURIs req with Some l => Some l | None => oc_RedirectURIs client end)
      (match uc_AllowedScopes req with Some l => Some l | None => oc_AllowedScopes client end) postLogout
      (match uc_BackchannelLogoutURI req with Some u => TrimSpace u | None => oc_BackchannelLogoutURI client end)
      (match uc_LaunchURL req with Some u => TrimSpace u | None => oc_LaunchURL client end) (default (oc_Enabled client) (uc_Enabled req)) in
    let revokeTokens := rotate || (oc_Enabled client && negb (oc_Enabled next)) ||
      ((oc_ClientType client =?s "confidential") && (kind <>?s "confidential")) in
    answering (fun _ => internal_error) (UpdateOAuthClientWithAudit eid next revokeTokens
      (event "admin.oauth_client_updated" (oc_ID client) "client" "success" (JObj [("clientType", JStr kind); ("secretRotated", JBool rotate);
        ("redirectsSet", JBool (negb (is_null (uc_RedirectURIs req)))); ("scopesSet", JBool (negb (is_null (uc_AllowedScopes req))));
        ("enabledChanged", JBool (negb (is_null (uc_Enabled req)))); ("tokensRevoked", JBool revokeTokens)])) now) ~;;
    writeJSON [("success", JBool true); ("client", client_json next); ("clientSecret", JStr rawSecret)]
  end.

(** ** Icons *)

Definition launcherIcons : list string := ["favicon"; "globe"; "link"; "mail"; "message-square"; "calendar"; "sticky-note"; "file-text"; "book";
  "bookmark"; "folder"; "image"; "camera"; "video"; "film"; "music"; "tv"; "radio"; "gamepad-2"; "house"; "users"; "lock"; "key"; "shield"; "server";
  "database"; "hard-drive"; "cloud"; "container"; "network"; "wifi"; "cpu"; "monitor"; "terminal"; "code"; "git-branch"; "chart-line"; "activity";
  "printer"; "download"; "rss"; "wrench"; "bug"; "clock"; "map"].

Definition suiteIcons : list string := ["kycalendar"; "kydash"; "kydns"; "kydrive"; "kymessages"; "kynotes"; "kypost"; "kypulse"; "kyrecovery"; "kyyard"].

Definition suiteIconAliases (key : string) : string :=
  if one_of key ["kymessage"; "kymessage-chat"] then "kymessages" else if one_of key ["ky-dashboard"; "ky dashboard"] then "kydash" else key.

(** A card on the default icon shows its suite app's own. *)
Definition launcherIconName (stored : string) (keys : list string) : string :=
  if (stored <>?s "") && (stored <>?s "favicon") then stored else
  match List.filter (fun key => one_of key suiteIcons) (map (fun key => suiteIconAliases (lower (TrimSpace key))) keys) with
  | key :: _ => String.append "suite:" key
  | [] => "favicon"
  end.

Definition iconAllowed (name : string) (d : DB) : bool :=
  one_of name launcherIcons ||
  match drop_prefix "suite:" name with
  | Some app => one_of app suiteIcons
  | None => match drop_prefix icon_prefix name with Some id => negb (is_null (GetLauncherIcon id d)) | None => false end
  end.

Definition dropIcon (name : string) : Handler unit :=
  if String.prefix icon_prefix name then silently (DeleteLauncherIconIfUnused name) else run_ret tt.

Definition maxIconBytes : nat := 131072.

(** [http.DetectContentType], as far as an icon is admitted by it. *)
Definition sniffed_bitmap (data : list Z) : option string :=
  if strip_prefix [137; 80; 78; 71; 13; 10; 26; 10] data then Some "image/png"
  else if strip_prefix [255; 216; 255] data then Some "image/jpeg"
  else if strip_prefix (bytes_of "RIFF") data && strip_prefix (bytes_of "WEBPVP") (skipn 8 data) then Some "image/webp"
  else None.

(** The bytes of [s] from the first occurrence of [sep] on, the separator cut. *)
Definition after_index (sep s : string) : option string := snd <$> cut_at sep s.

Fixpoint drop_quotes (l : list Z) : list Z :=
  match l with c :: l' => if (c =? 34) || (c =? 39) then drop_quotes l' else l | [] => [] end.
Definition trim_quotes (s : string) : string := string_of (rev (drop_quotes (rev (drop_quotes (bytes_of s))))).

(** An import, or a [url()] that leaves the document; each round consumes an
    opening, so the length of the text is fuel enough. *)
Fixpoint outside_url (fuel : nat) (rest : string) : bool :=
  match fuel with
  | O => false
  | S fuel' =>
    match after_index "url(" rest with
    | None => false
    | Some rest =>
      match cut_at ")" rest with
      | None => true
      | Some (target, after) => negb (String.prefix "#" (trim_quotes (TrimSpace target))) || outside_url fuel' after
      end
    end
  end.

Definition fetchesOutside (value : string) : bool :=
  let l := lower value in
  negb (is_null (after_index "@import" l)) || outside_url (S (String.length l)) l.

Definition funcIRIAttrs : list string :=
  ["style"; "fill"; "stroke"; "filter"; "mask"; "clip-path"; "marker-start"; "marker-mid"; "marker-end"; "cursor"].
Definition active_elements : list string :=
  ["script"; "foreignobject"; "iframe"; "embed"; "object"; "handler"; "animate"; "animatetransform"; "animatemotion"; "set"; "discard"].

Definition attribute_harmless (a : string * string) : bool :=
  let name := lower a.1 in
  negb (String.prefix "on" name) &&
  negb ((name =?s "href") && negb (String.prefix "#" a.2) && negb (String.prefix "data:image/" a.2)) &&
  negb (one_of name funcIRIAttrs && fetchesOutside a.2).

(** The walk over the tokens; [root] once the root element was seen. *)
Fixpoint checkSVG_tokens (root : bool) (tokens : list XMLToken) : option bool :=
  match tokens with
  | [] => Some root
  | t :: tokens =>
    match t with
    | ProcInst => None
    | CharData text => if fetchesOutside text then None else checkSVG_tokens root tokens
    | XMLDirective text =>
      if String.prefix "DOCTYPE" (TrimSpace text) && negb (is_null (after_index "ENTITY" text)) then None else checkSVG_tokens root tokens
    | StartElement name attrs =>
      let name := lower name in
      if negb root && (name <>?s "svg") then None
      else if one_of name active_elements then None
      else if forallb attribute_harmless attrs then checkSVG_tokens true tokens else None
    | OtherToken => checkSVG_tokens root tokens
    end
  end.

Definition checkSVG (data : list Z) : bool :=
  let '(tokens, well_formed) := xml_tokens data in
  match checkSVG_tokens false tokens with Some root => well_formed && root | None => false end.

Definition iconContentType (data : list Z) (declared : string) : option string :=
  match sniffed_bitmap data with
  | Some t => Some t
  | None => if String.prefix "image/svg+xml" declared && checkSVG data then Some "image/svg+xml" else None
  end.

(** [None]: the body could not be read. *)
Definition UploadIcon (body : option (list Z)) (declared : string) : Handler Reply :=
  match body with
  | None | Some [] => run_fail invalid_request
  | Some data =>
    demand (length data <=? maxIconBytes)%nat 413 "invalid_request" ~;;
    match iconContentType data declared with
    | None => run_fail invalid_request
    | Some contentType =>
      answering (fun _ => internal_error) (CreateLauncherIcon (MkLauncherIcon (w_id dr 3) contentType data 0)
        (event "admin.icon_uploaded" (w_id dr 3) "icon" "success"
          (JObj [("contentType", JStr contentType); ("bytes", JNum (Z.of_nat (length data)))])) now) ~;;
      writeJSON [("iconName", JStr (String.append icon_prefix (w_id dr 3)))]
    end
  end.

(** The image as the body of the reply. *)
Definition ServeIcon : Handler Reply :=
  icon <~ ask (GetLauncherIcon (r_PathID rq)) ;;
  match icon with
  | None => refuse 404 "not_found"
  | Some i => run_ret (MkReply 200 (JObj [("Content-Type", JStr (ic_ContentType i)); ("body", JArr (map JNum (ic_Data i)))]) None None)
  end.

(** ** Deleting a client, and launcher cards *)

Definition DeleteOAuthClient : Handler Reply :=
  let clientID := r_PathID rq in
  client <~ ask (GetOAuthClientByID clientID) ;;
  removed <~ answering (fun _ => internal_error) (Registry.DeleteOAuthClient eid clientID
    (event "admin.oauth_client_deleted" clientID "client" "success" JNull) now) ;;
  demand removed 404 "client_not_found" ~;;
  match client with Some c => dropIcon (oc_IconName c) | None => run_ret tt end ~;;
  success.

Definition maxLauncherDescription : nat := 200.

Definition card_json (a : Application) : Json :=
  JObj ([("id", JStr (ap_ID a)); ("name", JStr (ap_Name a)); ("url", JStr (ap_URL a)); ("iconName", JStr (ap_IconName a))] ++
    omitempty "description" (ap_Description a) ++
    [("sortOrder", JNum (ap_SortOrder a)); ("enabled", JBool (ap_Enabled a)); ("createdAt", time_text (ap_CreatedAt a))]).

Definition set_ap_IconName (v : string) (a : Application) : Application :=
  MkApplication (ap_ID a) (ap_Name a) (ap_URL a) v (ap_Description a) (ap_SortOrder a) (ap_Enabled a) (ap_CreatedAt a).

Definition ListApplications : Handler Reply :=
  apps <~ ask Registry.ListApplications ;;
  writeJSON [("applications", JArr (map (fun a => card_json (set_ap_IconName (launcherIconName (ap_IconName a) [ap_Name a]) a)) apps))].

Record CardRequest := MkCardRequest { cd_Name : string; cd_URL : string; cd_IconName : string; cd_Description : string; cd_SortOrder : Z;
  cd_Enabled : option bool }.

Definition card_icon (req : CardRequest) : string := if cd_IconName req =?s "" then "favicon" else cd_IconName req.

Definition demand_icon (name : string) : Handler unit := allowed <~ ask (iconAllowed name) ;; demand allowed 400 "invalid_request".

Definition CreateApplication (body : option CardRequest) : Handler Reply :=
  match body with
  | None => run_fail invalid_request
  | Some req =>
    demand ((cd_Name req <>?s "") && (cd_URL req <>?s "")) 400 "invalid_request" ~;;
    demand (validateExternalURL (cd_URL req)) 400 "invalid_request" ~;;
    demand_icon (card_icon req) ~;;
    let app := MkApplication (w_id dr 3) (cd_Name req) (cd_URL req) (card_icon req) (cd_Description req) (cd_SortOrder req) true now in
    answering (fun _ => internal_error) (Registry.CreateApplication (w_id dr 4) app
      (event "admin.application_created" (ap_ID app) "application" "success" JNull) now) ~;;
    writeJSON [("success", JBool true); ("application", card_json app)]
  end.

Definition UpdateApplication (body : option CardRequest) : Handler Reply :=
  match body with
  | None => run_fail invalid_request
  | Some req =>
    demand ((TrimSpace (cd_Name req) <>?s "") && (cd_URL req <>?s "")) 400 "invalid_request" ~;;
    demand (validateExternalURL (cd_URL req)) 400 "invalid_request" ~;;
    demand_icon (card_icon req) ~;;
    let description := TrimSpace (cd_Description req) in
    demand (String.length description <=? maxLauncherDescription)%nat 400 "invalid_request" ~;;
    found <~ ask (GetApplicationByID (r_PathID rq)) ;;
    match found with
    | None => refuse 404 "application_not_found"
    | Some app =>
      let next := MkApplication (ap_ID app) (TrimSpace (cd_Name req)) (TrimSpace (cd_URL req)) (card_icon req) description (cd_SortOrder req)
        (default (ap_Enabled app) (cd_Enabled req)) (ap_CreatedAt app) in
      answering (fun _ => internal_error) (Registry.UpdateApplication next
        (event "admin.application_updated" (ap_ID app) "application" "success" JNull) now) ~;;
      dropIcon (ap_IconName app) ~;;
      writeJSON [("success", JBool true); ("application", card_json next)]
    end
  end.

Definition DeleteApplication : Handler Reply :=
  let appID := r_PathID rq in
  app <~ ask (GetApplicationByID appID) ;;
  removed <~ answering (fun _ => internal_error) (Registry.DeleteApplication appID (event "admin.application_deleted" appID "application" "success" JNull) now) ;;
  demand removed 404 "application_not_found" ~;;
  match app with Some a => dropIcon (ap_IconName a) | None => run_ret tt end ~;;
  success.

(** [store/launcher.go]: a card's name and who sees it. *)
Definition ValidLauncherName (name : string) : bool :=
  (String.length name <=? 128)%nat && (name =?s TrimSpace name) && negb (existsb control_rune (runes name)).
Definition ValidLauncherAudience (audience : string) : bool := one_of audience [""; "everyone"; "admins"].

Record LauncherRequest := MkLauncherRequest { lr_Description : option string; lr_IconName : option string; lr_LauncherName : option string;
  lr_LauncherAudience : option string }.

(** Only how a client is presented: it takes no step-up grant. *)
Definition UpdateClientLauncher (body : option LauncherRequest) : Handler Reply :=
  match body with
  | None => run_fail invalid_request
  | Some req =>
    client <~ path_client ;;
    checked (lr_Description req) (fun t => (String.length (TrimSpace t) <=? maxLauncherDescription)%nat) "invalid_request" ~;;
    let icon := match lr_IconName req with
      | Some t => if TrimSpace t =?s "" then "favicon" else TrimSpace t
      | None => oc_IconName client
      end in
    (if is_null (lr_IconName req) then run_ret tt else demand_icon icon) ~;;
    checked (lr_LauncherName req) (fun n => ValidLauncherName (TrimSpace n)) "invalid_request" ~;;
    checked (lr_LauncherAudience req) ValidLauncherAudience "invalid_request" ~;;
    let next := MkOAuthClient (oc_ID client) (oc_ClientName client) (oc_ClientType client) (oc_ClientSecretHash client) (oc_RedirectURIs client)
      (oc_AllowedScopes client) (oc_PostLogoutRedirectURIs client) (oc_BackchannelLogoutURI client) (oc_LaunchURL client)
      (match lr_Description req with Some t => TrimSpace t | None => oc_Description client end) icon
      (match lr_LauncherName req with Some n => TrimSpace n | None => oc_LauncherName client end)
      (default (oc_LauncherAudience client) (lr_LauncherAudience req)) (oc_Enabled client) (oc_CreatedAt client) in
    answering (fun _ => internal_error) (UpdateOAuthClientWithAudit eid next false
      (event "admin.client_launcher_updated" (r_PathID rq) "client" "success"
        (JObj [("launcherName", JStr (oc_LauncherName next)); ("launcherAudience", JStr (oc_LauncherAudience next))])) now) ~;;
    dropIcon (oc_IconName client) ~;;
    writeJSON [("success", JBool true); ("client", client_json next)]
  end.
End admin.

(** ** Facts: what an answer says of the audit trail *)

(** Up to rows of the audit trail the database is what it was. *)
Definition untouched (d d' : DB) : Prop := exists m q, d' = audited m q d.

Lemma untouched_refl d : untouched d d.
Proof. exists (audit_events d), (alert_queue d). by destruct d. Qed.

Lemma untouched_trans d1 d2 d3 : untouched d1 d2 -> untouched d2 d3 -> untouched d1 d3.
Proof. intros (m & q & ->) (m' & q' & ->). by exists m', q'. Qed.

#[export] Hint Resolve untouched_refl : ky.

Section trail.
Context (sv : Server) (rq : Request) (dr : WebDraws) (now : Z) (admin : User) (action : string).

(** An event that reports [action] as done by [admin] on this request. *)
Definition reports (ev : option AuditEvent) : Prop := exists e, ev = Some e /\ ae_ID e = w_id dr 1 /\ ae_ActorID e = u_ID admin /\
  ae_ActorUsername e = u_Username admin /\ ae_Action e = action /\ ae_Outcome e = "success" /\ ae_IPAddress e = ClientIP (sv_mw sv) (r_Peer rq).

(** The audit trail holds it. *)
Definition logged (d : DB) : Prop := exists e, audit_events d !! w_id dr 1 = Some e /\ reports (Some e).

Lemma reports_event target kind details : reports (event sv rq dr now admin action target kind "success" details).
Proof. by eexists. Qed.

Lemma reports_with ev details : reports ev -> reports (appRegistryAudit ev details).
Proof. intros (e & -> & ?). by eexists. Qed.

(** *** Transactions that write the event *)

Definition tx_logs {A} (m : STx A) : Prop := forall d a d', m d = inr (a, d') -> logged d'.

Lemma tx_logs_record ev at_ : reports ev -> tx_logs (recordAuditTx ev at_).
Proof.
  intros (e & -> & He & Hr) d a d' Hd. unfold recordAuditTx in Hd. cbn zeta in Hd. tx_inv. apply insert_row_inv in H as [_ ->].
  destruct (ae_CreatedAt e =? 0).
  - exists (set_ae_CreatedAt at_ e). split; [|by exists (set_ae_CreatedAt at_ e)].
    cbn -[lookup insert]. rewrite He. apply lookup_insert_eq.
  - exists e. split; [|by exists e]. cbn -[lookup insert]. rewrite He. apply lookup_insert_eq.
Qed.

Lemma tx_logs_bind {A B} (m : STx A) (k : A -> STx B) : (forall a, tx_logs (k a)) -> tx_logs (tx_bind m k).
Proof. intros Hk d b d' Hd. apply tx_bind_inr in Hd as (a & d1 & _ & Hd). by eapply Hk. Qed.

Lemma tx_logs_ret {A B} (m : STx A) (b : A -> B) : tx_logs m -> tx_logs (tx_bind m (fun a => tx_ret (b a))).
Proof. intros Hm d b' d' Hd. apply tx_bind_inr in Hd as (a & d1 & H1 & Hd). tx_inv. by eapply Hm. Qed.

Lemma tx_logs_fail {A} e : tx_logs (tx_fail (A := A) e).
Proof. done. Qed.

(** *** Store operations as the handlers see them *)

(** Refused, nothing changed; done, the event is there - where [ok] says that
    something was done at all. *)
Definition op_logs {A} (ok : A -> bool) (m : DB -> (StoreError + A) * DB) : Prop := forall d,
  match m d with (inl _, d') => d' = d | (inr a, d') => if ok a then logged d' else d' = d end.

Definition always {A} (_ : A) : bool := true.

Lemma op_logs_commit {A} (m : STx A) : tx_logs m -> op_logs always (commit m).
Proof. intros Hm d. destruct (commit m d) as [[e|a] d'] eqn:E; [by apply commit_inl in E as [-> _]|]. apply commit_inr in E. by eapply Hm. Qed.

(** The operation may have read the database first. *)
Lemma op_logs_read {A} (m : DB -> STx A) : (forall d, tx_logs (m d)) -> op_logs always (fun d => commit (m d) d).
Proof. intros Hm d. apply (op_logs_commit (m d) (Hm d)). Qed.

Lemma op_logs_auditedTx {A} ev at_ (fn : STx A) : reports ev -> op_logs always (auditedTx ev at_ fn).
Proof. intros Hr. apply op_logs_commit, tx_logs_bind. intros a. by apply (tx_logs_ret _ (fun _ => a)), tx_logs_record. Qed.

(** *** Handlers *)

(** A step before the change: it answers early without having changed anything
    but the audit trail, or goes on with the database as it was. *)
Definition calm {A} (m : Handler A) : Prop := forall d,
  match m d with (inl rep, d') => rp_Status rep <> 200 /\ untouched d d' | (inr _, d') => untouched d d' end.

(** A step after the change: it answers 200 and leaves the event there. *)
Definition closes (m : Handler Reply) : Prop := forall d, logged d ->
  match m d with (inl _, _) => False | (inr rep, d') => rp_Status rep = 200 /\ logged d' end.

(** Answered 200, the event is there; answered otherwise, nothing changed but
    the audit trail. *)
Definition settled (m : Handler Reply) : Prop := forall d,
  match m d with (inl rep, d') => rp_Status rep <> 200 /\ untouched d d' | (inr rep, d') => rp_Status rep = 200 /\ logged d' end.

Lemma calm_ret {A} (a : A) : calm (run_ret a).
Proof. intros d. cbn. apply untouched_refl. Qed.

Lemma calm_fail {A} rep : rp_Status rep <> 200 -> calm (run_fail (A := A) rep).
Proof. intros Hs d. split; [done|apply untouched_refl]. Qed.

Lemma calm_demand b status code : status <> 200 -> calm (demand b status code).
Proof. intros Hs d. unfold demand, run_guard. destruct b; [apply untouched_refl|split; [done|apply untouched_refl]]. Qed.

Lemma calm_ask {A} (f : DB -> A) : calm (ask f).
Proof. intros d. apply untouched_refl. Qed.

Lemma calm_checked {A} (o : option A) p code : calm (checked o p code).
Proof. destruct o; [by apply calm_demand|apply calm_ret]. Qed.

Lemma calm_observed a t k o details : calm (observed sv rq dr now admin a t k o details).
Proof. intros d. unfold observed, Observe. cbn [fst snd]. apply audit_run. Qed.

(** A later entry keeps the event. *)
Lemma logged_observed a t k o details d : logged d -> logged (observed sv rq dr now admin a t k o details d).2.
Proof.
  intros (e & He & Hr). unfold observed, Observe. cbn [snd]. destruct (commit (recordAuditTx _ _) d) as [[x|[]] d1] eqn:E; cbn [snd].
  - apply commit_inl in E as [-> _]. by exists e.
  - apply commit_inr in E. unfold recordAuditTx in E. cbn zeta in E. tx_inv. apply insert_row_inv in H as [Hn ->].
    exists e. split; [|exact Hr]. cbn -[lookup insert]. rewrite lookup_insert_ne; [exact He|]. intros Ek. cbn -[lookup] in Hn. rewrite Ek in Hn.
    congruence.
Qed.

Lemma calm_bind {A B} (m : Handler A) (k : A -> Handler B) : calm m -> (forall a, calm (k a)) -> calm (run_bind m k).
Proof.
  intros Hm Hk d. unfold run_bind. specialize (Hm d). destruct (m d) as [[rep|a] d1]; [done|].
  specialize (Hk a d1). destruct (k a d1) as [[rep|b] d2]; [destruct Hk as [Hs Hk]; split; [done|]|]; by eapply untouched_trans.
Qed.

(** A refusal reads no event. *)
Lemma settled_fail rep : rp_Status rep <> 200 -> settled (run_fail rep).
Proof. intros Hs d. split; [done|apply untouched_refl]. Qed.

Lemma settled_bind {A} (m : Handler A) (k : A -> Handler Reply) : calm m -> (forall a, settled (k a)) -> settled (run_bind m k).
Proof.
  intros Hm Hk d. unfold run_bind. specialize (Hm d). destruct (m d) as [[rep|a] d1]; [done|].
  specialize (Hk a d1). destruct (k a d1) as [[rep|b] d2]; [destruct Hk as [Hs Hk]; split; [done|]; by eapply untouched_trans|done].
Qed.

(** The change itself, whose error is the answer. *)
Lemma settled_change {A} (ok : A -> bool) f (op : DB -> (StoreError + A) * DB) (k : A -> Handler Reply) :
  op_logs ok op -> (forall e, rp_Status (f e) <> 200) -> (forall a, ok a = true -> closes (k a)) -> (forall a, ok a = false -> settled (k a)) ->
  settled (run_bind (answering f op) k).
Proof.
  intros Ho Hf Hc Hs d. unfold run_bind, answering. specialize (Ho d). destruct (op d) as [[e|a] d1].
  - subst d1. split; [apply Hf|apply untouched_refl].
  - destruct (ok a) eqn:Ea.
    + specialize (Hc a Ea d1 Ho). destruct (k a d1) as [[rep|rep] d2]; [done|exact Hc].
    + subst d1. by apply Hs.
Qed.

(** The change, whose outcome the handler goes on with. *)
Lemma settled_attempt {A} (ok : A -> bool) (op : DB -> (StoreError + A) * DB) (k : StoreError + A -> Handler Reply) :
  op_logs ok op -> (forall e, settled (k (inl e))) -> (forall a, ok a = true -> closes (k (inr a))) -> (forall a, ok a = false -> settled (k (inr a))) ->
  settled (run_bind (attempt op) k).
Proof.
  intros Ho He Hc Hs d. unfold run_bind, attempt. specialize (Ho d). destruct (op d) as [[e|a] d1].
  - subst d1. apply He.
  - destruct (ok a) eqn:Ea; [|subst d1; by apply Hs].
    specialize (Hc a Ea d1 Ho). destruct (k (inr a) d1) as [[rep|rep] d2]; [done|exact Hc].
Qed.

Lemma closes_json l : closes (writeJSON l).
Proof. intros d Hd. by split. Qed.

Lemma closes_success : closes success.
Proof. apply closes_json. Qed.

Lemma closes_silently f (k : Handler Reply) : (forall d, audit_events (f d) = audit_events d) -> closes k -> closes (silently f ~;; k).
Proof.
  intros Hf Hk d Hd. unfold run_bind, silently. apply Hk. destruct Hd as (e & He & Hr). exists e. by rewrite Hf.
Qed.

Lemma closes_ret {A} (a : A) (k : A -> Handler Reply) : closes (k a) -> closes (run_bind (run_ret a) k).
Proof. done. Qed.

Lemma closes_demand b status code (k : Handler Reply) : b = true -> closes k -> closes (demand b status code ~;; k).
Proof. by intros ->. Qed.

Lemma settled_demand b status code (k : Handler Reply) : status <> 200 -> b = false -> settled (demand b status code ~;; k).
Proof. intros Hs -> d. split; [done|apply untouched_refl]. Qed.

(** What a settled handler promises once its early answer is sent. *)
Lemma settled_serve m d rep d' : settled m -> serve m d = (rep, d') -> if rp_Status rep =? 200 then logged d' else untouched d d'.
Proof.
  intros Hm. unfold serve. specialize (Hm d). destruct (m d) as [[r|r] d1]; intros [= <- <-]; destruct Hm as [Hs Hr].
  - by replace (rp_Status r =? 200) with false by lia.
  - by replace (rp_Status r =? 200) with true by lia.
Qed.
End trail.

Lemma input_error_status code e : rp_Status (writeInputError code e) <> 200.
Proof. by destruct e. Qed.

Create HintDb trail.
#[export] Hint Resolve input_error_status : trail.
#[export] Hint Resolve calm_ret calm_ask calm_checked calm_observed closes_json closes_success reports_event reports_with : trail.
#[export] Hint Extern 1 (_ <> _) => (cbn; lia) : trail.
#[export] Hint Extern 2 (calm (demand _ _ _)) => (apply calm_demand; lia) : trail.
#[export] Hint Extern 2 (calm (run_fail _)) => (apply calm_fail; cbn; lia) : trail.
#[export] Hint Extern 2 (calm (refuse _ _)) => (apply calm_fail; cbn; lia) : trail.
#[export] Hint Extern 2 (calm (match ?x with _ => _ end)) => destruct x : trail.
#[export] Hint Extern 3 (calm (run_bind _ _)) => (apply calm_bind; [|intros ?]) : trail.

(** Walk a transaction to the event it writes. *)
Ltac tx_logs := repeat (cbn zeta; match goal with
  | |- tx_logs _ _ _ _ _ (tx_bind ?m (fun _ => tx_ret ?b)) => apply (tx_logs_ret _ _ _ _ _ m (fun _ => b))
  | |- tx_logs _ _ _ _ _ (tx_bind _ _) => apply tx_logs_bind; intros ?
  | |- tx_logs _ _ _ _ _ (match ?x with _ => _ end) => destruct x
  | |- tx_logs _ _ _ _ _ (tx_fail _) => apply tx_logs_fail
  | |- tx_logs _ _ _ _ _ (recordAuditTx _ _) => apply tx_logs_record; auto with trail
  end).

(** Walk a handler to its change and from there to its answer. *)
Ltac settle := repeat (cbn zeta; match goal with
  | |- settled _ _ _ _ _ (run_bind (answering _ _) _) =>
      eapply settled_change; [solve [eauto with trail]|intros []; cbn; repeat case_match; cbn; lia|intros ? ?|intros ? ?]; try done
  | |- settled _ _ _ _ _ (run_bind (attempt _) _) => eapply settled_attempt; [solve [eauto with trail]|intros ?|intros ? ?|intros ? ?]; try done
  | Hb : ?b = false |- settled _ _ _ _ _ (run_bind (demand ?b _ _) _) => apply settled_demand; [lia|exact Hb]
  | |- settled _ _ _ _ _ (run_bind _ _) => apply settled_bind; [solve [auto 8 with trail]|intros ?]
  | |- settled _ _ _ _ _ (run_fail _) => apply settled_fail; solve [auto with trail]
  | |- settled _ _ _ _ _ (refuse _ _) => apply settled_fail; cbn; lia
  | |- settled _ _ _ _ _ (match ?x with _ => _ end) => destruct x
  | |- closes _ _ _ _ _ (run_bind (run_ret _) _) => apply closes_ret
  | Hb : ?b = true |- closes _ _ _ _ _ (run_bind (demand ?b _ _) _) => apply closes_demand; [exact Hb|]
  | |- closes _ _ _ _ _ (run_bind (silently _) _) => apply closes_silently; [intros ?; solve [auto with trail]|]
  | |- closes _ _ _ _ _ (run_bind (match ?x with _ => _ end) _) => destruct x
  | |- closes _ _ _ _ _ (match ?x with _ => _ end) => destruct x
  | |- closes _ _ _ _ _ _ => solve [auto with trail]
  end).

(** ** Facts: every operation the handlers call writes the event it is given *)

Section operations.
Context `{Codec} `{AEAD} `{Far}.
Context (sv : Server) (rq : Request) (dr : WebDraws) (admin : User) (action : string).
Notation reports := (reports sv rq dr admin action).
Notation logs := (tx_logs sv rq dr admin action).
Notation op_logs := (op_logs sv rq dr admin action).

Lemma CreateUser_logs eid u ev now : reports ev -> logs (CreateUserWithSyncEvents eid u ev now).
Proof. intros Hr. unfold CreateUserWithSyncEvents. tx_logs. Qed.

Lemma updateUser_logs lid eid id edit ev now : reports ev -> logs (updateUser lid eid id edit ev now).
Proof. intros Hr. unfold updateUser. tx_logs. Qed.

Lemma ResetUserMFA_logs lid eid id ev now : reports ev -> logs (Directory.ResetUserMFA lid eid id ev now).
Proof. intros Hr. unfold Directory.ResetUserMFA. tx_logs. Qed.

Lemma DeleteUser_logs lid eid id ev now : reports ev -> logs (DeleteUserWithSyncEvents lid eid id ev now).
Proof. intros Hr. unfold DeleteUserWithSyncEvents. tx_logs. Qed.

Lemma ResyncSystem_logs eid again sys ev now : reports ev -> logs (Outbox.ResyncSystem eid again sys ev now).
Proof. intros Hr. unfold Outbox.ResyncSystem. tx_logs. Qed.

Lemma ConfigureSystem_logs eid sys k0 k1 enc g h ev now : reports ev -> logs (Outbox.ConfigureSystem eid sys k0 k1 enc g h ev now).
Proof. intros Hr. unfold Outbox.ConfigureSystem. tx_logs. Qed.

(** Where nothing is there to remove, nothing is written. *)
Lemma removes (absent : DB -> bool) (m : STx bool) : logs m -> (forall d a d', m d = inr (a, d') -> a = true) ->
  op_logs id (commit (d <- tx_get ;; if absent d then tx_ret false else m)).
Proof.
  intros Hm Ht d. unfold commit. cbn [tx_bind tx_get]. unfold tx_bind, tx_get. destruct (absent d); [done|].
  destruct (m d) as [e|[a d']] eqn:E; [done|]. rewrite (Ht _ _ _ E). by eapply Hm.
Qed.

Lemma DeletePairedSystem_logs sys ev now : reports ev -> op_logs id (Registry.DeletePairedSystem sys ev now).
Proof. intros Hr. apply (removes (fun d => is_null (paired_systems d !! sys))); [tx_logs|intros; by tx_inv]. Qed.

Lemma DeleteOAuthClient_logs eid client ev now : reports ev -> op_logs id (Registry.DeleteOAuthClient eid client ev now).
Proof. intros Hr. apply (removes (fun d => is_null (oauth_clients d !! client))); [tx_logs|intros; by tx_inv]. Qed.

Lemma DeleteApplication_logs app ev now : reports ev -> op_logs id (Registry.DeleteApplication app ev now).
Proof. intros Hr. apply (removes (fun d => is_null (applications d !! app))); [tx_logs|intros; by tx_inv]. Qed.

Lemma UpdateOAuthClient_logs eid c revoke ev now : reports ev -> op_logs always (UpdateOAuthClientWithAudit eid c revoke ev now).
Proof. intros Hr. apply op_logs_commit. do 5 (apply tx_logs_bind; intros ?). by apply tx_logs_record. Qed.

Lemma ReviewSystem_logs key nonce eid sys kind token groups hours ev now : reports ev ->
  op_logs always (ReviewSystem key nonce eid sys kind token groups hours ev now).
Proof.
  intros Hr d. unfold ReviewSystem. cbn zeta.
  pose proof (fun k enc => op_logs_commit _ _ _ _ _ _ (ConfigureSystem_logs eid (ps_ID sys) k kind enc groups hours ev now Hr) d) as Hc.
  repeat lazymatch goal with |- match (match ?x with _ => _ end) with _ => _ end => destruct x end; first [done|apply Hc].
Qed.

Lemma CreatePairedSystem_logs rid ps ev now : reports ev -> op_logs always (Registry.CreatePairedSystem rid ps ev now).
Proof. apply op_logs_auditedTx. Qed.

Lemma CreateSystem_logs parse priv loop key pd req (ev : PairedSystem -> AuditEvent) now : (forall ps, reports (Some (ev ps))) ->
  op_logs always (CreateSystem parse priv loop key pd req (Some ev) now).
Proof.
  intros Hr d. unfold CreateSystem. cbn zeta.
  destruct (_ =?s ""); [done|]. destruct (ValidateURL _ _ _ _); [done|]. destruct (negb _); [done|].
  destruct (Registry.pairing_credential _ _ _ _); [done|]. destruct (Seal _ _ _ _ _) as [enc|]; [|done]. cbn [fmap option_fmap option_map].
  match goal with |- context [Registry.CreatePairedSystem ?r ?ps _ _ _] => pose proof (CreatePairedSystem_logs r ps (Some (ev ps)) now (Hr ps) d) as Hc end.
  destruct (Registry.CreatePairedSystem _ _ _ _ _) as [[e|u] d1]; exact Hc.
Qed.
End operations.

#[export] Hint Resolve CreateUser_logs updateUser_logs ResetUserMFA_logs DeleteUser_logs ResyncSystem_logs ReviewSystem_logs CreateSystem_logs
  DeletePairedSystem_logs DeleteOAuthClient_logs DeleteApplication_logs UpdateOAuthClient_logs op_logs_commit op_logs_auditedTx : trail.
#[export] Hint Extern 4 (op_logs _ _ _ _ _ _ (fun d => commit _ d)) => (apply op_logs_read; intros ?) : trail.

(** ** Facts: the handlers settle *)

Section handlers.
Context `{Codec} `{Primitives} `{AEAD} `{Far} `{Formats}.
Context (sv : Server) (rq : Request) (dr : WebDraws) (AllowPrivate AllowLoopback : bool) (encryptionKey : list Z).
Context (lid : string -> string) (eid again : string -> string -> string) (now : Z) (admin : User).
Notation settled := (settled sv rq dr admin).

Lemma calm_hash password : calm (hash_or_refuse dr password).
Proof. unfold hash_or_refuse. repeat case_match; try apply calm_ret; by apply calm_fail. Qed.

Lemma calm_path_user : calm (path_user rq now).
Proof. unfold path_user. auto with trail. Qed.

Lemma calm_path_system : calm (path_system rq).
Proof. unfold path_system. auto with trail. Qed.

Lemma calm_path_client : calm (path_client rq).
Proof. unfold path_client. auto with trail. Qed.

Lemma calm_post_logout l : calm (refuse_post_logout l).
Proof. unfold refuse_post_logout. auto with trail. Qed.

Lemma calm_deny action id : calm (deny_public_suite sv rq dr now admin action id).
Proof. unfold deny_public_suite. auto with trail. Qed.

Lemma calm_icon name : calm (demand_icon name).
Proof. unfold demand_icon. auto with trail. Qed.

#[local] Hint Resolve calm_hash calm_path_user calm_path_system calm_path_client calm_post_logout calm_deny calm_icon : trail.

Lemma calm_rotation req client : calm (rotation sv rq dr now admin req client).
Proof. unfold rotation. repeat case_match; auto with trail. Qed.

Lemma icon_trail name d : audit_events (DeleteLauncherIconIfUnused name d) = audit_events d.
Proof. unfold DeleteLauncherIconIfUnused. by destruct (icon_used _ _). Qed.

Lemma failures_trail user source d : audit_events (ClearFailedLogins user source d) = audit_events d.
Proof. done. Qed.
#[local] Hint Resolve calm_rotation icon_trail failures_trail : trail.

Lemma settled_CreateUser body : settled "admin.user_created" (CreateUser sv rq dr eid now admin body).
Proof. unfold CreateUser. settle. Qed.

Lemma settled_UpdateUser body : settled "admin.user_updated" (UpdateUser sv rq dr lid eid now admin body).
Proof. unfold UpdateUser. settle. Qed.

Lemma settled_ResetUserMFA : settled "admin.user_mfa_reset" (ResetUserMFA sv rq dr lid eid now admin).
Proof. unfold ResetUserMFA. settle. Qed.

Lemma settled_RevokeUserSessions : settled "admin.sessions_revoked" (RevokeUserSessions sv rq dr lid now admin).
Proof. unfold RevokeUserSessions, RevokeUserAccess. settle. Qed.

Lemma settled_DeleteUser : settled "admin.user_deleted" (DeleteUser sv rq dr lid eid now admin).
Proof. unfold DeleteUser. settle. Qed.

Lemma settled_CreatePairedSystem body : settled "admin.system_created"
  (CreatePairedSystem sv rq dr AllowPrivate AllowLoopback encryptionKey now admin body).
Proof. unfold CreatePairedSystem. settle. Qed.

Lemma settled_ResyncSystem : settled "admin.system_resynced" (ResyncSystem sv rq dr eid again now admin).
Proof. unfold ResyncSystem. settle. Qed.

Lemma settled_DeletePairedSystem : settled "admin.system_deleted" (DeletePairedSystem sv rq dr now admin).
Proof. unfold DeletePairedSystem. settle. Qed.

Lemma settled_ConfigureSystem body : settled "admin.system_configured" (ConfigureSystem sv rq dr encryptionKey eid now admin body).
Proof. unfold ConfigureSystem. settle. Qed.

Lemma settled_CreateOAuthClient body : settled "admin.oauth_client_created" (CreateOAuthClient sv rq dr AllowPrivate AllowLoopback now admin body).
Proof. unfold CreateOAuthClient, Registry.CreateOAuthClient. settle. Qed.

Lemma settled_UpdateOAuthClient body : settled "admin.oauth_client_updated" (UpdateOAuthClient sv rq dr AllowPrivate AllowLoopback eid now admin body).
Proof. unfold UpdateOAuthClient. settle. Qed.

Lemma settled_DeleteOAuthClient : settled "admin.oauth_client_deleted" (DeleteOAuthClient sv rq dr eid now admin).
Proof. unfold DeleteOAuthClient, dropIcon. settle. Qed.

Lemma settled_UpdateClientLauncher body : settled "admin.client_launcher_updated" (UpdateClientLauncher sv rq dr eid now admin body).
Proof. unfold UpdateClientLauncher, dropIcon. settle. Qed.

Lemma settled_UploadIcon body declared : settled "admin.icon_uploaded" (UploadIcon sv rq dr now admin body declared).
Proof. unfold UploadIcon, CreateLauncherIcon. settle. Qed.

Lemma settled_CreateApplication body : settled "admin.application_created" (CreateApplication sv rq dr now admin body).
Proof. unfold CreateApplication, Registry.CreateApplication. settle. Qed.

Lemma settled_UpdateApplication body : settled "admin.application_updated" (UpdateApplication sv rq dr now admin body).
Proof. unfold UpdateApplication, Registry.UpdateApplication, dropIcon. settle. Qed.

Lemma settled_DeleteApplication : settled "admin.application_deleted" (DeleteApplication sv rq dr now admin).
Proof. unfold DeleteApplication, dropIcon. settle. Qed.
End handlers.
