(* ===== verification/Console.v ===== *)
(** The administrator's console beyond accounts and clients: groups
    ([api/group_handlers.go]), application records, access, roles and
    authentication policies ([api/app_registry_handlers.go],
    [api/app_access_handlers.go], [api/app_roles_handlers.go],
    [api/app_authentication_handlers.go]), delegations
    ([api/delegation_handlers.go]), enrollment policies
    ([api/enrollment_policy_handlers.go]), sessions ([api/session_handlers.go]),
    settings ([api/session_settings_handlers.go],
    [api/attestation_settings_handlers.go], [api/branding_handlers.go]), alerts
    ([api/alert_handlers.go]), provisioning and reconciliation
    ([api/reconcile_handlers.go], [api/sync_delivery_handlers.go]), inbound
    connectors ([api/scim_connector_handlers.go]) and access requests
    ([api/access_request_handlers.go]).

    The conventions are those of [Admin].  The first identifier of a path is
    [r_PathID rq], further ones are arguments. *)
From stdpp Require Import sorting.
From S2P Require Import Prelude Text Schema Access Sample Sessions Tokens Outbox AppAccess Directory Crypto Requests OAuth ScimInbound Reconcile ReconcileJobs Mfa Alerts Net Dispatch Registry Factors Web Login Admin.

Open Scope string_scope.
Open Scope Z_scope.

(** The classes of Go's [unicode] tables a name is checked against, of a rune. *)
Class Unicode := {
  rune_format : string -> bool;        (** Cf *)
  rune_unassigned : string -> bool;    (** Cs and Co *)
  rune_space : string -> bool          (** IsSpace *)
}.

(** Go's PNG and JPEG codecs: the header's size, the pixels with theirs, an
    encoding of pixels. *)
Class Images := {
  Pixels : Type;
  DecodeConfig : string -> list Z -> option (Z * Z);
  DecodeImage : string -> list Z -> option (Pixels * (Z * Z));
  EncodeImage : string -> Pixels -> option (list Z);
  EncodeImage_bytes kind img out : EncodeImage kind img = Some out -> Forall is_byte out
}.

(** [utf8.ValidString]: decoding replaces nothing. *)
Definition ValidString (s : string) : bool := String.concat "" (runes s) =?s s.

(** [strings.Trim(s, " ")]. *)
Fixpoint drop_spaces (l : list Z) : list Z := match l with 32 :: l' => drop_spaces l' | _ => l end.
Definition trim_spaces (s : string) : string := string_of (rev (drop_spaces (rev (drop_spaces (bytes_of s))))).

Section console.
Context `{Codec} `{Primitives} `{AEAD} `{Far} `{Formats} `{Unicode} `{Images}.
Context (sv : Server) (rq : Request) (dr : WebDraws) (encryptionKey : list Z).
Context (lid : string -> string) (eid again : string -> string -> string) (now : Z) (admin : User) (sess : Session).

Notation event := (event sv rq dr now admin).
Notation observed := (observed sv rq dr now admin).
Notation pathID := (r_PathID rq).

(** [audit.Record]: the answer depends on the row. *)
Definition record (action target kind outcome : string) (details : Json) : Handler unit := fun d =>
  match commit (recordAuditTx (Some (buildEvent sv rq dr now 2 action (u_ID admin) (u_Username admin) target kind outcome details)) now) d with
  | (inl _, d) => (inl internal_error, d)
  | (inr _, d) => (inr tt, d)
  end.

(** A decoded body, or the answer to one that is not. *)
Definition body_of {A} (body : option A) : Handler A := match body with Some a => run_ret a | None => run_fail invalid_request end.

(** ** Names *)

(** Visible characters and ordinary spaces. *)
Definition visible_rune (r : string) : bool :=
  negb (control_rune r || rune_format r || rune_unassigned r || (rune_space r && (r <>?s " "))).

(** ** Errors *)

Definition writeAppRegistryError (e : StoreError) : Reply :=
  match e with
  | ErrAppLinkConflict => refused_with 409 "link_conflict"
  | ErrAppRecordMissing => refused_with 404 "not_found"
  | _ => internal_error
  end.

Definition enrollmentError (e : StoreError) : Reply :=
  match e with
  | ErrEmergencyAdministrator => refused_with 409 "compliant_admin_required"
  | ErrEnrollmentPolicy => refused_with 400 "invalid_policy"
  | ErrLastCompliantFactor => refused_with 409 "required_factor"
  | ErrGroupTargetMissing => refused_with 404 "not_found"
  | e => writeAppRegistryError e
  end.

Definition writeGroupError (e : StoreError) : Reply :=
  match e with
  | ErrEnrollmentPolicy | ErrEmergencyAdministrator => enrollmentError e
  | ErrGroupSourceOwned => refused_with 400 "source_owned"
  | ErrGroupNameExists => refused_with 409 "group_name_exists"
  | ErrGroupTargetMissing => refused_with 404 "not_found"
  | _ => internal_error
  end.

(** The role errors are literals: the taken name is a conflict. *)
Definition writeAppRoleError (e : StoreError) : Reply :=
  match e with
  | ErrText t =>
    if t =?s "role name already exists for this app" then refused_with 409 "role_exists"
    else if t =?s "role name must be 1-64 characters of letters, digits, '_', '.', ':' or '-'" then invalid_request
    else writeAppRegistryError e
  | _ => writeAppRegistryError e
  end.

(** ** Groups *)

Record GroupRequest := MkGroupRequest { gr_Name : string; gr_Description : string }.

(** [None]: the name or the description is not admissible. *)
Definition readGroup (body : option GroupRequest) : option (string * string) :=
  match body with
  | None => None
  | Some req =>
    let name := trim_spaces (gr_Name req) in
    let description := TrimSpace (gr_Description req) in
    if (name =?s "") || negb (ValidString name) || negb (ValidString description) || (128 <? RuneCountInString name) ||
       (2048 <? RuneCountInString description) || negb (forallb visible_rune (runes name)) || existsb rune_format (runes description)
    then None else Some (name, description)
  end.

Definition group_json (g : Group) : Json :=
  JObj ([("id", JStr (g_ID g)); ("name", JStr (g_Name g)); ("description", JStr (g_Description g))] ++
    omitempty "sourceConnectorId" (g_SourceConnectorID g) ++ omitempty "externalId" (g_ExternalID g) ++
    [("memberCount", JNum 0); ("member", JBool false); ("createdAt", time_text (g_CreatedAt g)); ("updatedAt", time_text (g_UpdatedAt g))]).

Definition saveGroup (body : option GroupRequest) (create : bool) : Handler Reply :=
  match readGroup body with
  | None => run_fail invalid_request
  | Some (name, description) =>
    let g := MkGroup (if create then w_id dr 3 else pathID) name description "" "" now now in
    let ev := event (if create then "admin.group_created" else "admin.group_updated") (g_ID g) "group" "success"
      (JObj [("name", JStr name); ("description", JStr description)]) in
    answering writeGroupError (commit (if create then Directory.CreateGroup g ev now else Directory.UpdateGroup eid g ev now)) ~;;
    (if create then writeJSON [("group", group_json g)] else success)
  end.

Definition CreateGroup (body : option GroupRequest) : Handler Reply := saveGroup body true.
Definition UpdateGroup (body : option GroupRequest) : Handler Reply := saveGroup body false.

(** A refusal of the policy is itself recorded. *)
Definition DeleteGroup : Handler Reply :=
  result <~ attempt (commit (DeleteGroupForSession lid eid pathID (s_ID sess)
    (fun name => appRegistryAudit (event "admin.group_deleted" pathID "group" "success" JNull) (JObj [("name", JStr name)])) now)) ;;
  match result with
  | inr _ => success
  | inl e =>
    (match e with
     | ErrEmergencyAdministrator => record "admin.group_deleted" pathID "group" "denied" (JObj [("reason", JStr "compliant_admin_required")])
     | _ => run_ret tt
     end) ~;;
    run_fail (writeGroupError e)
  end.

(** An optional instant; [None] is a body that does not decode. *)
Definition readExpiry (body : option string) : Handler (option Z) :=
  raw <~ body_of body ;;
  match parseInstant now raw with inr t => run_ret t | inl _ => refuse 400 "expiry_in_past" end.

Definition expiry_member (t : option Z) : list (string * Json) := time_member "expiresAt" t.

Definition SetGroupMembership (userID : string) (body : option string) : Handler Reply :=
  let member := r_Method rq =?s "PUT" in
  let action := if member then "admin.group_member_added" else "admin.group_member_removed" in
  expiresAt <~ readExpiry body ;;
  let ev := event action pathID "group" "success" (JObj (("userId", JStr userID) :: expiry_member expiresAt)) in
  result <~ attempt (commit (if member then SetGroupMembershipUntil lid eid pathID userID true expiresAt (s_ID sess) ev now
    else SetGroupMembershipUntil lid eid pathID userID false None (s_ID sess) ev now)) ;;
  match result with
  | inr _ => success
  | inl e =>
    (match e with
     | ErrEmergencyAdministrator => record action pathID "group" "denied" (JObj [("reason", JStr "compliant_admin_required"); ("userId", JStr userID)])
     | ErrEnrollmentPolicy => record action pathID "group" "denied" (JObj [("reason", JStr "conflicting_mfa_policies"); ("userId", JStr userID)])
     | _ => run_ret tt
     end) ~;;
    run_fail (writeGroupError e)
  end.

(** ** Application records *)

Definition policy_json (p : AppAuthenticationPolicy) : Json :=
  JObj [("mode", JStr (p_Mode p)); ("primaryMaxAge", JNum (p_PrimaryMaxAge p)); ("factor", JStr (p_Factor p)); ("factorMaxAge", JNum (p_FactorMaxAge p));
    ("refreshIdle", JNum (p_RefreshIdle p)); ("refreshLifetime", JNum (p_RefreshLifetime p))].

(** A record with the names of its connections. *)
Definition record_json (d : DB) (a : AppRecord) : Json :=
  let id o := JStr (default "" o) in
  let name {A} (o : option string) (t : string -> option A) (f : A -> string) := JStr (default "" (f <$> (o ≫= t))) in
  JObj [("authentication", policy_json (a_Authentication a)); ("authenticationRevision", JNum (a_AuthenticationRevision a));
    ("roleRevision", JNum (a_RoleRevision a)); ("legacyRoleClaim", JBool (a_LegacyRoleClaim a)); ("groupsClaim", JBool (a_GroupsClaim a));
    ("accessMode", JStr (a_AccessMode a)); ("enabled", JBool (a_Enabled a)); ("requestable", JBool (a_Requestable a)); ("id", JStr (a_ID a));
    ("revision", JNum (a_Revision a));
    ("clientId", id (a_ClientID a)); ("clientName", name (a_ClientID a) (fun k => oauth_clients d !! k) oc_ClientName);
    ("launcherId", id (a_LauncherID a)); ("launcherName", name (a_LauncherID a) (fun k => applications d !! k) ap_Name);
    ("systemId", id (a_SystemID a)); ("systemName", name (a_SystemID a) (fun k => paired_systems d !! k) ps_Name)].

Record LinkRequest := MkLinkRequest { lk_SourceID : string; lk_TargetRevision : Z; lk_SourceRevision : Z }.

Definition LinkAppRecords (body : option LinkRequest) : Handler Reply :=
  req <~ body_of body ;;
  demand ((lk_SourceID req <>?s "") && (String.length (lk_SourceID req) <=? 200)%nat && (1 <=? lk_TargetRevision req) && (1 <=? lk_SourceRevision req))
    400 "invalid_request" ~;;
  answering writeAppRegistryError (fun d => Registry.LinkAppRecords eid pathID (lk_SourceID req) (lk_TargetRevision req) (lk_SourceRevision req)
    (event "admin.app_linked" pathID "application" "success" JNull)
    (fun target source => JObj [("target", record_json d target); ("source", record_json d source)]) now d) ~;;
  success.

Definition UnlinkAppRecord (body : option (string * Z)) : Handler Reply :=
  req <~ body_of body ;;
  demand ((1 <=? req.2) && one_of req.1 ["client"; "launcher"; "system"]) 400 "invalid_request" ~;;
  id <~ answering writeAppRegistryError (fun d => Registry.UnlinkAppRecord eid (w_id dr 3) pathID req.1 req.2
    (event "admin.app_unlinked" pathID "application" "success" JNull)
    (fun a => JObj [("previous", record_json d a); ("connection", JStr req.1); ("newAppId", JStr (w_id dr 3))]) now d) ;;
  writeJSON [("id", JStr id)].

(** ** Application access *)

Record PolicyRequest := MkPolicyRequest { pr_Mode : string; pr_Enabled : option bool; pr_Revision : Z }.

Definition SetAppPolicy (body : option PolicyRequest) : Handler Reply :=
  req <~ body_of body ;;
  match pr_Enabled req with
  | None => run_fail invalid_request
  | Some enabled =>
    demand ((1 <=? pr_Revision req) && one_of (pr_Mode req) ["assigned_only"; "all_active_users"]) 400 "invalid_request" ~;;
    answering writeAppRegistryError (fun d => commit (AppAccess.SetAppPolicy lid eid pathID (pr_Mode req) enabled (pr_Revision req)
      (event "admin.app_access_changed" pathID "application" "success" JNull)
      (fun before => JObj [("before", record_json d before); ("accessMode", JStr (pr_Mode req)); ("enabled", JBool enabled)]) now) d) ~;;
    success
  end.

Definition assignment_details (d : DB) (kind principal : string) (assigned : bool) (a : option AppRecord) (name : string) : Json :=
  JObj [("app", match a with Some a => record_json d a | None => JNull end); ("kind", JStr kind); ("principalId", JStr principal);
    ("principalName", JStr name); ("assigned", JBool assigned)].

(** Only a direct user assignment carries an instant. *)
Definition SetAppAssignment (kind principal : string) (body : option string) : Handler Reply :=
  demand (one_of kind ["users"; "groups"]) 400 "invalid_request" ~;;
  let assigned := r_Method rq =?s "PUT" in
  expiresAt <~ readExpiry body ;;
  demand (is_null expiresAt || (kind =?s "users")) 400 "invalid_request" ~;;
  let ev := event (if assigned then "admin.app_assignment_added" else "admin.app_assignment_removed") pathID "application" "success"
    (JObj ([("kind", JStr kind); ("principal", JStr principal)] ++ expiry_member expiresAt)) in
  answering writeAppRegistryError (fun d => commit (
    if assigned then SetAppAssignmentUntil lid eid pathID kind principal expiresAt ev (assignment_details d kind principal true) now
    else setAppAssignment lid eid pathID kind principal false None ev (assignment_details d kind principal false) now) d) ~;;
  success.

(** ** Roles and claims *)

Definition CreateAppRole (body : option (string * string)) : Handler Reply :=
  req <~ body_of body ;;
  answering writeAppRoleError (commit (AppAccess.CreateAppRole eid (w_id dr 3) pathID req.1 req.2
    (event "admin.app_role_created" pathID "application" "success" JNull)
    (JObj [("app", JStr pathID); ("roleId", JStr (w_id dr 3)); ("name", JStr (TrimSpace req.1))]) now)) ~;;
  writeJSON [("role", JObj [("id", JStr (w_id dr 3)); ("appId", JStr pathID); ("name", JStr (TrimSpace req.1));
    ("description", JStr (TrimSpace req.2)); ("createdAt", time_text now); ("users", JArr []); ("groups", JArr [])])].

Definition DeleteAppRole (roleID : string) : Handler Reply :=
  answering writeAppRoleError (commit (AppAccess.DeleteAppRole eid pathID roleID (event "admin.app_role_deleted" pathID "application" "success" JNull)
    (fun name holders => JObj [("app", JStr pathID); ("roleId", JStr roleID); ("name", JStr name); ("affectedUsers", JNum holders)]) now)) ~;;
  success.

Definition SetAppRoleAssignment (roleID kind principal : string) : Handler Reply :=
  demand (one_of kind ["users"; "groups"]) 400 "invalid_request" ~;;
  let assigned := r_Method rq =?s "PUT" in
  answering writeAppRoleError (commit (AppAccess.SetAppRoleAssignment eid pathID roleID kind principal assigned
    (event (if assigned then "admin.app_role_mapped" else "admin.app_role_unmapped") pathID "application" "success" JNull)
    (fun role name => JObj [("app", JStr pathID); ("roleId", JStr roleID); ("role", JStr role); ("kind", JStr kind); ("principalId", JStr principal);
      ("principalName", JStr name); ("assigned", JBool assigned)]) now)) ~;;
  success.

Record ClaimsRequest := MkClaimsRequest { cl_LegacyRoleClaim : option bool; cl_GroupsClaim : option bool; cl_Revision : Z }.

Definition SetAppClaimSettings (body : option ClaimsRequest) : Handler Reply :=
  req <~ body_of body ;;
  match cl_LegacyRoleClaim req, cl_GroupsClaim req with
  | Some legacy, Some groups =>
    demand (1 <=? cl_Revision req) 400 "invalid_request" ~;;
    answering writeAppRegistryError (commit (AppAccess.SetAppClaimSettings pathID legacy groups (cl_Revision req)
      (event "admin.app_claims_changed" pathID "application" "success" JNull)
      (JObj [("app", JStr pathID); ("unchanged", JBool true)])
      (JObj [("app", JStr pathID); ("legacyRoleClaim", JBool legacy); ("groupsClaim", JBool groups)]) now)) ~;;
    success
  | _, _ => run_fail invalid_request
  end.

(** [body] is the policy and the revision of a body without unknown members. *)
Definition SetAppAuthenticationPolicy (body : option (option AppAuthenticationPolicy * Z)) : Handler Reply :=
  req <~ body_of body ;;
  match req.1 with
  | None => run_fail invalid_request
  | Some p =>
    demand (policy_Valid p && (1 <=? req.2)) 400 "invalid_request" ~;;
    answering (fun e => match e with ErrRefreshNeedsConfidential | ErrAppAuthentication => invalid_request | e => writeAppRegistryError e end)
      (fun d => commit (Tokens.SetAppAuthenticationPolicy pathID p req.2 (event "admin.app_authentication_changed" pathID "application" "success" JNull)
        (fun a => JObj [("app", record_json d a); ("authentication", policy_json p);
          if policy_eqb (a_Authentication a) p then ("unchanged", JBool true)
          else ("policyRevision", JNum (a_AuthenticationRevision a + 1))]) now) d) ~;;
    success
  end.

Definition SetAppRequestable (body : option (option bool * Z)) : Handler Reply :=
  req <~ body_of body ;;
  match req.1 with
  | None => run_fail invalid_request
  | Some requestable =>
    demand (1 <=? req.2) 400 "invalid_request" ~;;
    answering writeAppRegistryError (commit (AppAccess.SetAppRequestable pathID requestable req.2
      (event "admin.app_requestable_changed" pathID "application" "success" JNull)
      (JObj [("app", JStr pathID); ("requestable", JBool requestable)]) now)) ~;;
    success
  end.

(** ** Delegations *)

Definition delegations_json (dl : Delegations) : Json :=
  JObj [("helpdesk", JBool (dl_Helpdesk dl)); ("auditor", JBool (dl_Auditor dl)); ("appOwner", JArr (map JStr (dl_AppOwner dl)))].

Definition GetDelegations : Handler Reply :=
  user <~ path_user rq now ;;
  dl <~ ask (Directory.GetDelegations (u_ID user)) ;;
  writeJSON [("delegations", delegations_json dl)].

Definition SetDelegations (body : option Delegations) : Handler Reply :=
  dl <~ body_of body ;;
  demand ((length (dl_AppOwner dl) <=? 200)%nat && forallb (fun id => (id <>?s "") && (String.length id <=? 200)%nat) (dl_AppOwner dl))
    400 "invalid_request" ~;;
  answering (fun e => match e with
      | ErrUserMissing => refused_with 404 "user_not_found"
      | ErrAppRecordMissing => refused_with 400 "unknown_app"
      | ErrEnrollmentPolicy => refused_with 409 "enrollment_policy_conflict"
      | _ => internal_error
      end)
    (commit (Directory.SetDelegations pathID dl (event "admin.delegations_updated" pathID "user" "success" JNull)
      (JObj [("user", JStr pathID); ("helpdesk", JBool (dl_Helpdesk dl)); ("auditor", JBool (dl_Auditor dl));
        ("appOwner", match dl_AppOwner dl with [] => JNull | l => JArr (map JStr (sort_strings l)) end)]) now)) ~;;
  saved <~ ask (Directory.GetDelegations pathID) ;;
  writeJSON [("delegations", delegations_json saved)].

(** ** Enrollment policies *)

Record EnrollmentRequest := MkEnrollmentRequest { er_Scope : string; er_Required : option bool; er_AllowedMethods : list string;
  er_GraceSeconds : option Z; er_Revision : Z }.

(** What the caller sees of a refused body is the scope alone. *)
Definition readEnrollmentPolicy (body : option EnrollmentRequest) : string + EnrollmentPolicy :=
  match body with
  | Some (MkEnrollmentRequest scope (Some required) methods (Some grace) revision) =>
    let p := MkEnrollmentPolicy scope required methods grace revision in if EnrollmentPolicy_Valid p then inr p else inl scope
  | _ => inl ""
  end.

Definition enrollment_policy_json (p : EnrollmentPolicy) : Json :=
  JObj [("scope", JStr (pol_Scope p)); ("required", JBool (pol_Required p)); ("allowedMethods", JArr (map JStr (pol_AllowedMethods p)));
    ("graceSeconds", JNum (pol_GraceSeconds p)); ("revision", JNum (pol_Revision p))].
Definition preview_members (p : EnrollmentPreview) : list (string * Json) :=
  [("affected", JNum (ep_Affected p)); ("missingFactor", JNum (ep_MissingFactor p)); ("restrictedSessions", JNum (ep_RestrictedSessions p));
   ("canActivate", JBool (ep_CanActivate p))].

(** An unknown scope is not written into the trail. *)
Definition known_scope (d : DB) (scope : string) : bool :=
  one_of scope ["organization"; "administrators"] ||
  (String.prefix "group:" scope && (String.length scope <=? 512)%nat &&
   match drop_prefix "group:" scope with Some g => negb (is_null (group_policy d g)) | None => false end).

Definition denial_reason (e : StoreError) : string :=
  match e with
  | ErrEnrollmentPolicy => "invalid_policy"
  | ErrEmergencyAdministrator => "compliant_admin_required"
  | ErrAppLinkConflict => "revision_conflict"
  | _ => "storage_error"
  end.

Definition enrollmentDenied {A} (action scope : string) (e : StoreError) : Handler A :=
  known <~ ask (fun d => known_scope d scope) ;;
  record action (if known : bool then scope else "") "enrollment_policy" "denied" (JObj [("reason", JStr (denial_reason e))]) ~;;
  run_fail (enrollmentError e).

Definition PreviewEnrollmentPolicy (body : option EnrollmentRequest) : Handler Reply :=
  let action := "admin.mfa_enrollment_policy_previewed" in
  match readEnrollmentPolicy body with
  | inl scope => enrollmentDenied action scope ErrEnrollmentPolicy
  | inr p =>
    result <~ ask (Directory.PreviewEnrollmentPolicy p (s_ID sess) now) ;;
    match result with
    | inl e => enrollmentDenied action (pol_Scope p) e
    | inr preview =>
      record action (pol_Scope p) "enrollment_policy" "success"
        (JObj [("policy", enrollment_policy_json p); ("impact", JObj (preview_members preview))]) ~;;
      writeJSON (preview_members preview)
    end
  end.

Definition SetEnrollmentPolicy (body : option EnrollmentRequest) : Handler Reply :=
  let action := "admin.mfa_enrollment_policy_changed" in
  match readEnrollmentPolicy body with
  | inl scope => enrollmentDenied action scope ErrEnrollmentPolicy
  | inr p =>
    result <~ attempt (commit (Directory.SetEnrollmentPolicy p (s_ID sess) (event action (pol_Scope p) "enrollment_policy" "success" JNull)
      (fun preview name => JObj ([("policy", enrollment_policy_json p); ("impact", JObj (preview_members preview))] ++
        match name with Some n => [("groupName", JStr n)] | None => [] end)) now)) ;;
    match result with
    | inr _ => success
    | inl e => enrollmentDenied action (pol_Scope p) e
    end
  end.

(** ** Settings *)

(** The limits live in the database and in the server's memory; the handler
    returns the memory it leaves behind. *)
Definition SessionSettings_Get : Handler Reply :=
  run_ret (MkReply 200 (limits_json (current_limits (sv_limits sv))) None None).

Definition SessionSettings_Put (body : option SessionLimits) (d : DB) : Reply * (DB * option SessionLimits) :=
  match body with
  | None => (invalid_request, (d, sv_limits sv))
  | Some l =>
    if negb (limits_Valid l) then (invalid_request, (d, sv_limits sv)) else
    match SetSessionLimits lid (sv_limits sv) l (event "admin.session_limits_configured" "session_limits" "settings" "success" JNull) now d with
    | (inl _, after) => (refused_with 500 "server_error", after)
    | (inr _, after) => (MkReply 200 (limits_json l) None None, after)
    end
  end.

(** [store/attestation_settings.go]: nothing enforced until configured. *)
Definition attestationSettingsKey : string := "attestation".
Definition attestation_json (locked : bool) : Json := JObj [("requireLockedBootloader", JBool locked)].
Definition AttestationSettings (d : DB) : StoreError + bool :=
  match system_settings d !! attestationSettingsKey with
  | None => inr false
  | Some j => match json_get "requireLockedBootloader" j with
    | None | Some JNull => inr false
    | Some (JBool b) => inr b
    | Some _ => inl (ErrText "json")
    end
  end.
Definition SetAttestationSettings (locked : bool) (audit : option AuditEvent) : DB -> (StoreError + unit) * DB :=
  auditedTx audit now (tx_set (on_system_settings <[attestationSettingsKey := attestation_json locked]>)).

Definition server_error : Reply := refused_with 500 "server_error".

Definition attestation_settings : Handler bool :=
  old <~ ask AttestationSettings ;; match old with inl _ => run_fail server_error | inr locked => run_ret locked end.

Definition Attestation_Get : Handler Reply := locked <~ attestation_settings ;; run_ret (MkReply 200 (attestation_json locked) None None).

Definition Attestation_Put (body : option (option bool)) : Handler Reply :=
  req <~ body_of body ;;
  match req with
  | None => run_fail invalid_request
  | Some locked =>
    old <~ attestation_settings ;;
    answering (fun _ => server_error) (SetAttestationSettings locked (event "admin.attestation_configured" "attestation" "settings" "success"
      (JObj [("old", JBool old); ("new", JBool locked)]))) ~;;
    run_ret (MkReply 200 (attestation_json locked) None None)
  end.

(** ** Alerts *)

Definition AcknowledgeAlert : Handler Reply :=
  answering (fun e => match e with
      | ErrAlertMissing => refused_with 404 "alert_not_found"
      | ErrAlertNotOpen => refused_with 409 "alert_not_open"
      | _ => server_error
      end)
    (Alerts.AcknowledgeAlert pathID (u_ID admin) (event "admin.alert_acknowledged" pathID "alert" "success" JNull) now) ~;;
  success.

Definition Alert_GetSettings : Handler Reply :=
  settings <~ ask GetAlertSettings ;;
  match settings with
  | inl _ => run_fail server_error
  | inr a =>
    recipients <~ ask (fun d => omap (fun id => get_user now d id) (as_Recipients a)) ;;
    writeJSON [("loginFailureThreshold", JNum (as_LoginFailureThreshold a)); ("loginFailureWindowSeconds", JNum (as_LoginFailureWindowSeconds a));
      ("recipients", JArr (map (fun u => JObj [("id", JStr (u_ID u)); ("username", JStr (u_Username u))]) recipients))]
  end.

(** Recipients are named on the wire. *)
Definition recipients_named (names : list string) : Handler (list User) :=
  found <~ ask (fun d => mapM (fun name => GetUserByUsername name now d) names) ;;
  match found with Some l => run_ret l | None => refuse 400 "alert_recipient" end.

Definition Alert_PutSettings (body : option AlertSettings) : Handler Reply :=
  req <~ body_of body ;;
  demand (length (as_Recipients req) <=? 50)%nat 400 "invalid_request" ~;;
  recipients <~ recipients_named (as_Recipients req) ;;
  let settings := MkAlertSettings (as_LoginFailureThreshold req) (as_LoginFailureWindowSeconds req) (map u_ID recipients) in
  answering (fun e => match e with
      | ErrAlertRecipient => refused_with 400 "alert_recipient"
      | ErrAlertSettings => refused_with 400 "invalid_settings"
      | _ => server_error
      end)
    (SetAlertSettings settings (event "admin.alerts_configured" "alerts" "settings" "success"
      (JObj [("loginFailureThreshold", JNum (as_LoginFailureThreshold req)); ("loginFailureWindowSeconds", JNum (as_LoginFailureWindowSeconds req));
        ("recipients", JArr (map (fun u => JStr (u_Username u)) recipients))])) now) ~;;
  success.

(** ** Branding *)

Definition maxBrandingNameRunes : Z := 64.
Definition maxLogoBytes : nat := 131072.

Definition validBrandingName (name : string) : bool :=
  ValidString name && (RuneCountInString name <=? maxBrandingNameRunes) && forallb visible_rune (runes name).

Definition branding : Handler Branding :=
  b <~ ask GetBranding ;; match b with Some b => run_ret b | None => run_fail internal_error end.

Definition Branding_Get : Handler Reply :=
  b <~ branding ;;
  let v := LogoVersion b in
  writeJSON [("name", JStr (br_Name b)); ("logoUrl", JStr (if v =?s "" then "" else String.append "/api/branding/logo?v=" v))].

(** The image as the body; [version] is the query's. *)
Definition Branding_Logo (version : string) : Handler Reply :=
  b <~ branding ;;
  match br_Logo b with
  | [] => refuse 404 "not_found"
  | data => run_ret (MkReply 200 (JObj [("Cache-Control", JStr (if version =?s LogoVersion b then "public, max-age=31536000, immutable" else "no-cache"));
      ("Content-Type", JStr (br_LogoType b)); ("body", JArr (map JNum data))]) None None)
  end.

Definition PutName (body : option (option string)) : Handler Reply :=
  req <~ body_of body ;;
  match req with
  | None => run_fail invalid_request
  | Some raw =>
    let name := TrimSpace raw in
    demand (validBrandingName name) 400 "invalid_request" ~;;
    old <~ branding ;;
    answering (fun _ => internal_error) (SetBrandingName name (event "admin.branding_name_changed" "branding" "settings" "success"
      (JObj [("old", JStr (br_Name old)); ("new", JStr name)])) now) ~;;
    Branding_Get
  end.

Definition maxLogoSide : Z := 512.

(** A PNG or JPEG by its bytes, bounded from its header, decoded and encoded
    afresh; the size is the decoded image's. *)
Definition reencodeLogo (data : list Z) : option (string * list Z * (Z * Z)) :=
  match sniffed_bitmap data with
  | Some contentType =>
    if negb (one_of contentType ["image/png"; "image/jpeg"]) then None else
    match DecodeConfig contentType data with
    | None => None
    | Some (width, height) =>
      if (width <? 1) || (height <? 1) || (maxLogoSide <? width) || (maxLogoSide <? height) then None else
      match DecodeImage contentType data with
      | None => None
      | Some (img, bounds) => match EncodeImage contentType img with Some out => Some (contentType, out, bounds) | None => None end
      end
    end
  | None => None
  end.

Definition PutLogo (body : option (list Z)) : Handler Reply :=
  match body with
  | None | Some [] => run_fail invalid_request
  | Some data =>
    demand (length data <=? maxLogoBytes)%nat 413 "invalid_request" ~;;
    match reencodeLogo data with
    | None => run_fail invalid_request
    | Some (contentType, clean, (width, height)) =>
      answering (fun _ => internal_error) (SetBrandingLogo contentType clean (event "admin.branding_logo_uploaded" "branding" "settings" "success"
        (JObj [("contentType", JStr contentType); ("bytes", JNum (Z.of_nat (length clean))); ("width", JNum width); ("height", JNum height)])) now) ~;;
      Branding_Get
    end
  end.

Definition DeleteLogo : Handler Reply :=
  answering (fun _ => internal_error) (SetBrandingLogo "" [] (event "admin.branding_logo_removed" "branding" "settings" "success" JNull) now) ~;;
  Branding_Get.

(** ** Provisioning and reconciliation *)

Definition not_found_on_no_rows (e : StoreError) : Reply := match e with ErrNoRows => not_found_page | _ => internal_error end.

Definition RetryProvisioning (userID : string) : Handler Reply :=
  answering not_found_on_no_rows (commit (Reconcile.RetryProvisioning eid pathID userID
    (event "admin.provisioning_retried" pathID "system" "success" (JObj [("userId", JStr userID)])) now)) ~;;
  success.

Definition ResumeProvisioning : Handler Reply :=
  answering not_found_on_no_rows (ReconcileJobs.ResumeProvisioning pathID
    (event "admin.provisioning_resumed" pathID "system" "success" (JObj [("reason", JStr "resumed without a reconciliation")])) now) ~;;
  success.

Definition job_json (j : ReconcileJob) : Json :=
  JObj ([("id", JStr (j_ID j)); ("systemId", JStr (j_SystemID j)); ("kind", JStr (j_Kind j)); ("status", JStr (j_Status j));
    ("requestedBy", JStr (j_RequestedBy j)); ("attempts", JNum (j_Attempts j)); ("createdAt", time_text (j_CreatedAt j))] ++
    time_member "startedAt" (j_StartedAt j) ++ time_member "finishedAt" (j_FinishedAt j) ++
    match j_Result j with Some r => [("result", r)] | None => [] end ++ omitempty "error" (j_Error j)).

Definition ListReconcileJobs : Handler Reply :=
  sys <~ path_system rq ;;
  jobs <~ ask (fun d => firstn job_history (newest_jobs (ps_ID sys) (sync_reconcile_jobs d))) ;;
  writeJSON [("jobs", JArr (map (fun kv => job_json kv.2) jobs))].

Definition startReconcile (kind : string) : Handler Reply :=
  job <~ answering (fun e => match e with ErrNoRows => not_found_page | ErrReconcileBusy => refused_with 409 "reconcile_busy" | _ => internal_error end)
    (commit (CreateReconcileJob (w_id dr 3) pathID kind (u_Username admin)
      (event "admin.reconcile_requested" pathID "system" "success" (JObj [("kind", JStr kind)])) now)) ;;
  writeJSON [("job", job_json job)].

(** ** Fenced deliveries *)

(** The connector's fences, oldest first, a hundred at most. *)
Definition attempt_le (a b : string * SyncDeliveryAttempt) : Prop := (da_StartedAt a.2 <=? da_StartedAt b.2) = true.
#[local] Instance attempt_le_dec a b : Decision (attempt_le a b) := bool_eq_dec _ _.
Definition ListSyncDeliveryAttempts (sys : string) (d : DB) : list (string * SyncDeliveryAttempt) :=
  firstn 100 (merge_sort attempt_le (map (fun kv : (string * string) * SyncDeliveryAttempt => (kv.1.2, kv.2))
    (List.filter (fun kv : (string * string) * SyncDeliveryAttempt => kv.1.1 =?s sys) (map_to_list (sync_delivery_attempts d))))).

Definition attempt_json (a : string * SyncDeliveryAttempt) : Json :=
  JObj [("token", JStr (da_Token a.2)); ("userId", JStr a.1); ("eventId", JStr (da_EventID a.2)); ("eventType", JStr (da_EventType a.2));
    ("startedAt", time_text (da_StartedAt a.2)); ("recoverAfter", time_text (da_RecoverAfter a.2))].

Definition ListSyncDeliveries : Handler Reply :=
  attempts <~ ask (ListSyncDeliveryAttempts pathID) ;; run_ret (MkReply 200 (JArr (map attempt_json attempts)) None None).

Definition observed_json (o : Observed) : list (string * Json) :=
  match o with
  | Unsupported => [("state", JStr "unsupported")]
  | Absent => [("state", JStr "absent")]
  | Present remote => [("state", JStr "present"); ("remoteId", JStr remote)]
  end.

(** One question to the target; [sent] is what this process sent it before. *)
Definition read_back (sent : list Exchange) (sys : PairedSystem) (a : string * SyncDeliveryAttempt) : Handler (DeliveryError + Observed) := fun d =>
  let '(r, s) := ReadBackSyncResource encryptionKey now sys (da_EventType a.2) a.1 (MkLine d sent false) in (inr r, ln_DB s).

Definition ReadBackSyncDelivery (token : string) (sent : list Exchange) : Handler Reply :=
  sys <~ path_system rq ;;
  attempts <~ ask (ListSyncDeliveryAttempts (ps_ID sys)) ;;
  match List.find (fun a => da_Token a.2 =?s token) attempts with
  | None => run_fail not_found_page
  | Some a =>
    result <~ read_back sent sys a ;;
    record "admin.sync_delivery_read_back" (ps_ID sys) "system" (match result with inl _ => "failure" | inr _ => "success" end)
      (JObj [("systemName", JStr (ps_Name sys)); ("attemptToken", JStr (da_Token a.2)); ("userId", JStr a.1)]) ~;;
    match result with inl _ => refuse 502 "read_back_failed" | inr o => writeJSON (observed_json o) end
  end.

(** A refusal after the grant was spent leaves its own entry, with a fixed reason. *)
Definition reject {A} (action : string) (details : list (string * Json)) (reason : string) (status : Z) : Handler A :=
  observed action pathID "system" "failure" (JObj (details ++ [("reason", JStr reason)])) ~;; refuse status reason.

Record ResumeRequest := MkResumeRequest { re_ConfirmedQuiescent : bool; re_AllowCreateRetry : bool }.

(** The connector and the confirmed request. *)
Definition resume_request (action : string) (details : list (string * Json)) (body : option ResumeRequest) : Handler (PairedSystem * ResumeRequest) :=
  sys <~ ask (GetPairedSystemByID pathID) ;;
  match sys with
  | None => reject action details "system_not_found" 404
  | Some sys =>
    match body with
    | Some req =>
      if re_ConfirmedQuiescent req then run_ret (sys, req)
      else reject action (details ++ [("systemName", JStr (ps_Name sys))]) "confirm_remote_quiescence" 400
    | None => reject action (details ++ [("systemName", JStr (ps_Name sys))]) "confirm_remote_quiescence" 400
    end
  end.

(** The last fence of the token was read back as absent. *)
Definition read_back_absent (token : string) (sent : list Exchange) (sys : PairedSystem) (attempts : list (string * SyncDeliveryAttempt)) : Handler bool :=
  (fix go (l : list (string * SyncDeliveryAttempt)) (absent : bool) : Handler bool :=
     match l with
     | [] => run_ret absent
     | a :: l =>
       if da_Token a.2 =?s token then
         result <~ read_back sent sys a ;; go l (match result with inr Absent => true | _ => false end)
       else go l absent
     end) attempts false.

Definition ResumeSyncDelivery (token : string) (sent : list Exchange) (body : option ResumeRequest) : Handler Reply :=
  let action := "admin.sync_delivery_resumed" in
  let details := [("attemptToken", JStr token)] in
  found <~ resume_request action details body ;;
  let '(sys, req) := found in
  let details := (details ++ [("systemName", JStr (ps_Name sys))])%list in
  (if re_AllowCreateRetry req then
     attempts <~ ask (ListSyncDeliveryAttempts (ps_ID sys)) ;;
     absent <~ read_back_absent token sent sys attempts ;;
     (if absent : bool then run_ret tt else reject action details "create_retry_requires_absent_remote_user" 409)
   else run_ret tt) ~;;
  result <~ attempt (commit (Outbox.ResumeSyncDelivery (ps_ID sys) token (re_AllowCreateRetry req)
    (event action (ps_ID sys) "system" "success" (JObj [("systemName", JStr (ps_Name sys)); ("attemptToken", JStr token);
      ("confirmedQuiescent", JBool true); ("allowCreateRetry", JBool (re_AllowCreateRetry req))])) now)) ;;
  match result with
  | inr _ => success
  | inl _ => reject action details "attempt_changed_or_still_running" 409
  end.

Definition ResumeSyncDeliveries (body : option ResumeRequest) : Handler Reply :=
  let action := "admin.sync_deliveries_resumed" in
  found <~ resume_request action [] body ;;
  let '(sys, req) := found in
  let details := [("systemName", JStr (ps_Name sys))] in
  (if re_AllowCreateRetry req then reject action details "create_retry_requires_single_attempt" 400 else run_ret tt) ~;;
  result <~ attempt (commit (Outbox.ResumeSyncDeliveries (ps_ID sys)
    (buildEvent sv rq dr now 1 action (u_ID admin) (u_Username admin) (ps_ID sys) "system" "success"
      (JObj [("systemName", JStr (ps_Name sys)); ("confirmedQuiescent", JBool true)])) now)) ;;
  match result with
  | inr n => writeJSON [("resumed", JNum n)]
  | inl _ => reject action details "no_expired_attempts" 409
  end.

(** ** Inbound connectors *)

(** Newest first. *)
Definition token_le (a b : SCIMConnectorToken) : Prop :=
  ((ct_CreatedAt b <? ct_CreatedAt a) || ((ct_CreatedAt a =? ct_CreatedAt b) && negb (String.ltb (ct_ID b) (ct_ID a)))) = true.
#[local] Instance token_le_dec a b : Decision (token_le a b) := bool_eq_dec _ _.
Definition ListSCIMConnectorTokens (connector : string) (d : DB) : list SCIMConnectorToken :=
  merge_sort token_le (map snd (map_to_list (where_ (fun t => ct_ConnectorID t =?s connector) (scim_connector_tokens d)))).

Definition connector_le (a b : SCIMConnector) : Prop :=
  (String.ltb (lower (sn_Name a)) (lower (sn_Name b)) || (eq_nocase (sn_Name a) (sn_Name b) && negb (String.ltb (sn_ID b) (sn_ID a)))) = true.
#[local] Instance connector_le_dec a b : Decision (connector_le a b) := bool_eq_dec _ _.
Definition ListSCIMConnectors (d : DB) : list SCIMConnector := merge_sort connector_le (map snd (map_to_list (scim_connectors d))).

Definition scim_token_json (t : SCIMConnectorToken) : Json :=
  JObj ([("id", JStr (ct_ID t)); ("scope", JStr (ct_Scope t)); ("createdAt", time_text (ct_CreatedAt t))] ++
    time_member "lastUsedAt" (ct_LastUsedAt t) ++ time_member "revokedAt" (ct_RevokedAt t)).

(** [view]: the connector with its tokens and what it owns. *)
Definition connector_view (c : SCIMConnector) (d : DB) : list (string * Json) :=
  [("id", JStr (sn_ID c)); ("name", JStr (sn_Name c)); ("status", JStr (sn_Status c)); ("createdAt", time_text (sn_CreatedAt c));
   ("updatedAt", time_text (sn_UpdatedAt c)); ("tokens", JArr (map scim_token_json (ListSCIMConnectorTokens (sn_ID c) d)));
   ("users", JNum (CountSCIMConnectorUsers (sn_ID c) d)); ("groups", JNum (CountSCIMConnectorGroups (sn_ID c) d))].

Definition Scim_AdminList (issuerURL : string) : Handler Reply :=
  views <~ ask (fun d => map (fun c => JObj (connector_view c d)) (ListSCIMConnectors d)) ;;
  writeJSON [("connectors", JArr views); ("endpoint", JStr (String.append issuerURL "/scim/v2"))].

Definition Scim_AdminCreate (body : option string) : Handler Reply :=
  name <~ body_of body ;;
  c <~ answering (writeInputError "invalid_request") (commit (CreateSCIMConnector (w_id dr 3) name
    (event "admin.scim_connector_created" "" "scim_connector" "success" (JObj [("name", JStr name)])) now)) ;;
  view <~ ask (connector_view c) ;;
  writeJSON view.

Definition Scim_AdminUpdate (body : option (string * string)) : Handler Reply :=
  req <~ body_of body ;;
  answering (fun e => match e with ErrNotFound => refused_with 404 "connector_not_found" | e => writeInputError "invalid_request" e end)
    (commit (UpdateSCIMConnector pathID req.1 req.2
      (event "admin.scim_connector_updated" pathID "scim_connector" "success" (JObj [("name", JStr req.1); ("status", JStr req.2)])) now)) ~;;
  view <~ ask (fun d => match scim_connectors d !! pathID with Some c => connector_view c d | None => [] end) ;;
  writeJSON view.

(** The raw token is answered once; a body that does not decode asks for write. *)
Definition Scim_AdminIssueToken (body : option string) : Handler Reply :=
  let scope := default "" body in
  let scope := if scope =?s "" then "write" else scope in
  issued <~ answering (fun e => match e with ErrNotFound => refused_with 404 "connector_not_found" | e => writeInputError "invalid_request" e end)
    (commit (IssueSCIMToken pathID scope (w_id dr 3) (string_of (hex_encode (w_raw dr 24)))
      (event "admin.scim_token_issued" pathID "scim_connector" "success" (JObj [("scope", JStr scope)])) now)) ;;
  writeJSON [("token", JStr issued.1); ("id", JStr (ct_ID issued.2)); ("scope", JStr (ct_Scope issued.2)); ("createdAt", time_text (ct_CreatedAt issued.2))].

Definition Scim_AdminRevokeToken (tokenID : string) : Handler Reply :=
  answering (fun e => match e with ErrNotFound => refused_with 404 "token_not_found" | _ => internal_error end)
    (commit (RevokeSCIMToken pathID tokenID
      (event "admin.scim_token_revoked" pathID "scim_connector" "success" (JObj [("tokenId", JStr tokenID)])) now)) ~;;
  success.

(** The body says what becomes of the accounts the connector owned. *)
Definition Scim_AdminDelete (body : option string) : Handler Reply :=
  let choice := default "" body in
  demand (one_of choice ["keep"; "disable"]) 400 "invalid_request" ~;;
  n <~ answering (fun e => match e with
      | ErrNotFound => refused_with 404 "connector_not_found"
      | ErrLastActiveAdmin => refused_with 400 "cannot_remove_last_admin"
      | _ => internal_error
      end)
    (commit (DeleteSCIMConnector lid eid pathID (choice =?s "disable")
      (event "admin.scim_connector_deleted" pathID "scim_connector" "success" (JObj [("users", JStr choice)])) now)) ;;
  writeJSON [("success", JBool true); ("affectedUsers", JNum n)].

(** ** Access requests *)

Definition writeAccessRequestError (e : StoreError) : Reply :=
  match e with
  | ErrAppNotRequestable => refused_with 404 "app_not_requestable"
  | ErrAlreadyHasAccess => refused_with 409 "already_has_access"
  | ErrDuplicateRequest => refused_with 409 "duplicate_request"
  | ErrTooManyRequests => refused_with 429 "too_many_requests"
  | ErrRequestNotPending => refused_with 409 "request_not_pending"
  | ErrSelfApproval => refused_with 403 "self_approval"
  | ErrCannotDecide => refused_with 403 "forbidden"
  | ErrAppLinkConflict => invalid_request
  | _ => internal_error
  end.

(** The first name a connection gives, else the record's identifier. *)
Definition appDisplayName (d : DB) (app : string) : string :=
  match app_registry d !! app with
  | None => ""
  | Some a =>
    let name {A} (o : option string) (t : string -> option A) (f : A -> string) := match f <$> (o ≫= t) with Some "" | None => None | n => n end in
    match name (a_LauncherID a) (fun k => applications d !! k) ap_Name, name (a_ClientID a) (fun k => oauth_clients d !! k) oc_ClientName,
          name (a_SystemID a) (fun k => paired_systems d !! k) ps_Name with
    | Some n, _, _ => n
    | None, Some n, _ => n
    | None, None, Some n => n
    | None, None, None => app
    end
  end.

Definition request_json (id username : string) (r : AccessRequest) (d : DB) : Json :=
  JObj ([("id", JStr id); ("appId", JStr (ar_AppID r)); ("appName", JStr (appDisplayName d (ar_AppID r))); ("userId", JStr (ar_UserID r));
    ("username", JStr username); ("reason", JStr (Schema.ar_Reason r)); ("durationSeconds", JNum (ar_DurationSeconds r)); ("status", JStr (Schema.ar_Status r));
    ("createdAt", time_text (ar_CreatedAt r)); ("expiresAt", time_text (of_unix (ar_ExpiresAt r)))] ++
    time_member "decidedAt" (ar_DecidedAt r) ++ omitempty "decidedBy" (ar_DecidedBy r) ++ omitempty "decisionNote" (ar_DecisionNote r)).

Record AskRequest := MkAskRequest { ak_AppID : string; ak_Reason : string; ak_DurationSeconds : Z }.

(** [admin] is the user who asks; the duration is a 64-bit product. *)
Definition Request_Create (body : option AskRequest) : Handler Reply :=
  req <~ body_of body ;;
  demand ((ak_AppID req <>?s "") && (String.length (ak_AppID req) <=? 200)%nat && (TrimSpace (ak_Reason req) <>?s "")) 400 "invalid_request" ~;;
  created <~ answering writeAccessRequestError (commit (CreateAccessRequest (w_id dr 3) (u_ID admin) (ak_AppID req) (ak_Reason req)
    (wrap64 (ak_DurationSeconds req * second)) (event "access.request_created" (ak_AppID req) "application" "success" JNull)
    (JObj [("requestId", JStr (w_id dr 3)); ("app", JStr (ak_AppID req));
      ("durationSeconds", JNum (wrap64 (ak_DurationSeconds req * second) / second))]) now)) ;;
  view <~ ask (request_json (w_id dr 3) "" created) ;;
  writeJSON [("request", view)].

Definition Request_Cancel : Handler Reply :=
  answering writeAccessRequestError (commit (CancelAccessRequest pathID (u_ID admin)
    (event "access.request_cancelled" pathID "access_request" "success" JNull) (JObj [("requestId", JStr pathID)]) now)) ~;;
  success.

(** [Some ""] is an absent body; the notice to the requester is sent after. *)
Definition Decide (approve : bool) (body : option string) : Handler Reply :=
  note <~ body_of body ;;
  decided <~ answering writeAccessRequestError (DecideAccessRequest lid eid pathID (u_ID admin) approve note
    (event (if approve then "access.request_approved" else "access.request_denied") pathID "access_request" "success" JNull)
    (fun r => JObj [("requestId", JStr pathID); ("app", JStr (ar_AppID r)); ("userId", JStr (ar_UserID r)); ("status", JStr (Schema.ar_Status r));
      ("durationSeconds", JNum (ar_DurationSeconds r))]) now) ;;
  view <~ ask (fun d => request_json pathID (default "" (u_Username <$> users d !! ar_UserID decided)) decided d) ;;
  writeJSON [("request", view)].

(** ** Sessions *)

(** [revoke] with what follows a success. *)
Definition revoke (action target kind : string) (details : Json) (fn : option AuditEvent -> DB -> (StoreError + unit) * DB) (done : Reply) : Handler Reply :=
  result <~ attempt (fn (event action target kind "success" details)) ;;
  match result with
  | inr _ => run_ret done
  | inl ErrNotFound => refuse 404 "session_not_found"
  | inl e => observed action target kind "failure" (JObj [("error", JStr (error_text e))]) ~;; run_fail internal_error
  end.

Definition ok_reply : Reply := MkReply 200 (JObj [("success", JBool true)]) None None.

Definition AdminRevokeSession (target : string) : Handler Reply :=
  revoke "admin.session_revoked" target "session" (JObj [("userId", JStr pathID)]) (fun ev => RevokeSession lid pathID target ev now) ok_reply.

Definition AdminRevokeApp (clientID : string) : Handler Reply :=
  path_user rq now ~;;
  revoke "admin.app_access_revoked" pathID "user" (JObj [("clientId", JStr clientID)])
    (fun ev => RevokeUserClientAccess lid pathID clientID ev now) ok_reply.

Definition AdminRetryLogout (deliveryID : string) : Handler Reply :=
  found <~ answering (fun _ => internal_error) (commit (RetryLogoutDeliveryNow pathID deliveryID
    (event "admin.logout_retry" pathID "user" "success" (JObj [("deliveryId", JStr deliveryID)])) now)) ;;
  demand found 404 "delivery_not_found" ~;;
  success.

(** A user's own: [admin] is the user.  Ending the session in use clears the cookies. *)
Definition RevokeOwn : Handler Reply :=
  let current := pathID =?s s_ID sess in
  revoke "user.session_revoked" pathID "session" (JObj [("current", JBool current)]) (fun ev => RevokeSession lid (u_ID admin) pathID ev now)
    (MkReply 200 (JObj [("success", JBool true)]) (if current then Some "" else None) (if current then Some "" else None)).

Definition RevokeOthers : Handler Reply :=
  revoke "user.other_sessions_revoked" (u_ID admin) "user" JNull (fun ev => RevokeOtherSessions lid (u_ID admin) (s_ID sess) ev now) ok_reply.
End console.

(** ** Facts: every operation the console calls writes the event it is given *)

Section operations.
Context `{Codec} `{Primitives}.
Context (sv : Server) (rq : Request) (dr : WebDraws) (admin : User) (action : string).
Notation reports := (reports sv rq dr admin action).
Notation logs := (tx_logs sv rq dr admin action).
Notation op_logs := (op_logs sv rq dr admin action).

Lemma CreateGroup_logs g ev now : reports ev -> logs (Directory.CreateGroup g ev now).
Proof. intros Hr. unfold Directory.CreateGroup. tx_logs. Qed.

Lemma UpdateGroup_logs eid g ev now : reports ev -> logs (Directory.UpdateGroup eid g ev now).
Proof. intros Hr. unfold Directory.UpdateGroup. tx_logs. Qed.

Lemma DeleteGroup_logs lid eid group session ev now : (forall name, reports (ev name)) -> logs (DeleteGroupForSession lid eid group session ev now).
Proof. intros Hr. unfold DeleteGroupForSession. tx_logs. Qed.

Lemma SetGroupMembership_logs lid eid g u m e s ev now : reports ev -> logs (SetGroupMembershipUntil lid eid g u m e s ev now).
Proof. intros Hr. unfold SetGroupMembershipUntil. tx_logs. Qed.

Lemma LinkAppRecords_logs eid t s tr sr ev j now : reports ev -> op_logs always (fun d => Registry.LinkAppRecords eid t s tr sr ev (j d) now d).
Proof. intros Hr. apply op_logs_read. intros d0. tx_logs. Qed.

Lemma UnlinkAppRecord_logs eid n id k r ev j now : reports ev -> op_logs always (fun d => Registry.UnlinkAppRecord eid n id k r ev (j d) now d).
Proof. intros Hr. apply op_logs_read. intros d0. tx_logs. Qed.

Lemma SetAppPolicy_logs lid eid id m e r ev j now : reports ev -> logs (AppAccess.SetAppPolicy lid eid id m e r ev j now).
Proof. intros Hr. unfold AppAccess.SetAppPolicy. tx_logs. Qed.

Lemma setAppAssignment_logs lid eid id k p a e ev j now : reports ev -> logs (setAppAssignment lid eid id k p a e ev j now).
Proof. intros Hr. unfold setAppAssignment. tx_logs. Qed.

Lemma SetAppAssignmentUntil_logs lid eid id k p e ev j now : reports ev -> logs (SetAppAssignmentUntil lid eid id k p e ev j now).
Proof. intros Hr. unfold SetAppAssignmentUntil. do 2 (apply tx_logs_bind; intros ?). by apply setAppAssignment_logs. Qed.

Lemma CreateAppRole_logs eid r a n t ev j now : reports ev -> logs (AppAccess.CreateAppRole eid r a n t ev j now).
Proof. intros Hr. unfold AppAccess.CreateAppRole. tx_logs. Qed.

Lemma DeleteAppRole_logs eid a r ev j now : reports ev -> logs (AppAccess.DeleteAppRole eid a r ev j now).
Proof. intros Hr. unfold AppAccess.DeleteAppRole. tx_logs. Qed.

Lemma SetAppRoleAssignment_logs eid a r k p on ev j now : reports ev -> logs (AppAccess.SetAppRoleAssignment eid a r k p on ev j now).
Proof. intros Hr. unfold AppAccess.SetAppRoleAssignment. tx_logs. Qed.

Lemma SetAppClaims_logs a l g r ev j k now : reports ev -> logs (AppAccess.SetAppClaimSettings a l g r ev j k now).
Proof. intros Hr. unfold AppAccess.SetAppClaimSettings. tx_logs. Qed.

Lemma SetAppAuthentication_logs id p r ev j now : reports ev -> logs (Tokens.SetAppAuthenticationPolicy id p r ev j now).
Proof. intros Hr. unfold Tokens.SetAppAuthenticationPolicy. tx_logs. Qed.

Lemma SetAppRequestable_logs id on r ev j now : reports ev -> logs (AppAccess.SetAppRequestable id on r ev j now).
Proof. intros Hr. unfold AppAccess.SetAppRequestable. tx_logs. Qed.

Lemma SetDelegations_logs u dl ev j now : reports ev -> logs (Directory.SetDelegations u dl ev j now).
Proof. intros Hr. unfold Directory.SetDelegations. tx_logs. Qed.

Lemma SetEnrollmentPolicy_logs p s ev j now : reports ev -> logs (Directory.SetEnrollmentPolicy p s ev j now).
Proof. intros Hr. unfold Directory.SetEnrollmentPolicy. tx_logs. Qed.

Lemma SetAlertSettings_logs a ev now : reports ev -> op_logs always (SetAlertSettings a ev now).
Proof. intros Hr d. unfold SetAlertSettings. destruct (_ || _ : bool); [done|]. cbn zeta. by apply (op_logs_auditedTx sv rq dr admin action). Qed.

Lemma RetryProvisioning_logs eid s u ev now : reports ev -> logs (Reconcile.RetryProvisioning eid s u ev now).
Proof. intros Hr. unfold Reconcile.RetryProvisioning. tx_logs. Qed.

Lemma CreateReconcileJob_logs id s k by_ ev now : reports ev -> logs (CreateReconcileJob id s k by_ ev now).
Proof. intros Hr. unfold CreateReconcileJob. tx_logs. Qed.

Lemma ResumeSyncDelivery_logs s t a ev now : reports ev -> logs (Outbox.ResumeSyncDelivery s t a ev now).
Proof. intros Hr. unfold Outbox.ResumeSyncDelivery. tx_logs. Qed.

Lemma ResumeSyncDeliveries_logs s ev now : reports (Some ev) -> logs (Outbox.ResumeSyncDeliveries s ev now).
Proof.
  intros Hr. unfold Outbox.ResumeSyncDeliveries. do 4 (apply tx_logs_bind; intros ?). cbn zeta. intros d n d' Hd.
  apply tx_bind_inr in Hd as (u & d1 & Ha & Hd). tx_inv. revert Ha. apply (tx_logs_record sv rq dr admin action).
  exact (reports_with sv rq dr admin action (Some ev) _ Hr).
Qed.

Lemma CreateSCIMConnector_logs id n ev now : reports ev -> logs (CreateSCIMConnector id n ev now).
Proof. intros Hr. unfold CreateSCIMConnector. tx_logs. Qed.

Lemma UpdateSCIMConnector_logs id n s ev now : reports ev -> logs (UpdateSCIMConnector id n s ev now).
Proof. intros Hr. unfold UpdateSCIMConnector. tx_logs. Qed.

Lemma IssueSCIMToken_logs c s id raw ev now : reports ev -> logs (IssueSCIMToken c s id raw ev now).
Proof. intros Hr. unfold IssueSCIMToken. tx_logs. Qed.

Lemma RevokeSCIMToken_logs c id ev now : reports ev -> logs (RevokeSCIMToken c id ev now).
Proof. intros Hr. unfold RevokeSCIMToken. tx_logs. Qed.

Lemma DeleteSCIMConnector_logs lid eid id on ev now : reports ev -> logs (DeleteSCIMConnector lid eid id on ev now).
Proof. intros Hr. unfold DeleteSCIMConnector. tx_logs. Qed.

Lemma CreateAccessRequest_logs id u a r t ev j now : reports ev -> logs (CreateAccessRequest id u a r t ev j now).
Proof. intros Hr. unfold CreateAccessRequest. tx_logs. Qed.

Lemma CancelAccessRequest_logs id u ev j now : reports ev -> logs (CancelAccessRequest id u ev j now).
Proof. intros Hr. unfold CancelAccessRequest. tx_logs. Qed.

Lemma DecideAccessRequest_logs lid eid id a ok n ev j now : reports ev -> op_logs always (DecideAccessRequest lid eid id a ok n ev j now).
Proof.
  intros Hr d. unfold DecideAccessRequest. cbn zeta. destruct (Nat.ltb _ _); [done|]. apply (op_logs_commit sv rq dr admin action). tx_logs.
Qed.

(** A logout that is not the user's, or already delivered, is left alone. *)
Lemma RetryLogout_logs u id ev now : reports ev -> op_logs Datatypes.id (commit (RetryLogoutDeliveryNow u id ev now)).
Proof.
  intros Hr d. destruct (commit _ d) as [[e|found] d'] eqn:E; [by apply commit_inl in E as [-> _]|]. apply commit_inr in E.
  unfold RetryLogoutDeliveryNow in E. apply tx_bind_inr in E as (d0 & d1 & Hg & E). injection Hg as <- <-.
  destruct (logout_deliveries d !! id) as [ld|]; [|by injection E as <- <-]. destruct (_ && _ : bool); [|by injection E as <- <-].
  assert (found = true) as -> by (by tx_inv). revert E. apply tx_logs_bind. intros ?. by apply (tx_logs_ret _ _ _ _ _ _ (fun _ => true)), tx_logs_record.
Qed.
End operations.

#[export] Hint Resolve CreateGroup_logs UpdateGroup_logs DeleteGroup_logs SetGroupMembership_logs LinkAppRecords_logs UnlinkAppRecord_logs SetAppPolicy_logs
  setAppAssignment_logs SetAppAssignmentUntil_logs CreateAppRole_logs DeleteAppRole_logs SetAppRoleAssignment_logs SetAppClaims_logs
  SetAppAuthentication_logs SetAppRequestable_logs SetDelegations_logs SetEnrollmentPolicy_logs SetAlertSettings_logs RetryProvisioning_logs
  CreateReconcileJob_logs ResumeSyncDelivery_logs ResumeSyncDeliveries_logs CreateSCIMConnector_logs UpdateSCIMConnector_logs IssueSCIMToken_logs
  RevokeSCIMToken_logs DeleteSCIMConnector_logs CreateAccessRequest_logs CancelAccessRequest_logs DecideAccessRequest_logs RetryLogout_logs : trail.

(** ** Facts: the console's handlers settle *)

Lemma registry_error_status e : rp_Status (writeAppRegistryError e) <> 200.
Proof. by destruct e. Qed.

Lemma enrollment_error_status e : rp_Status (enrollmentError e) <> 200.
Proof. by destruct e. Qed.

Lemma group_error_status e : rp_Status (writeGroupError e) <> 200.
Proof. by destruct e. Qed.

Lemma role_error_status e : rp_Status (writeAppRoleError e) <> 200.
Proof. destruct e; cbn; repeat case_match; done. Qed.

Lemma request_error_status e : rp_Status (writeAccessRequestError e) <> 200.
Proof. by destruct e. Qed.
#[export] Hint Resolve registry_error_status enrollment_error_status group_error_status role_error_status request_error_status : trail.

Section handlers.
Context `{Codec} `{Primitives} `{AEAD} `{Far} `{Formats} `{Unicode} `{Images}.
Context (sv : Server) (rq : Request) (dr : WebDraws) (encryptionKey : list Z).
Context (lid : string -> string) (eid again : string -> string -> string) (now : Z) (admin : User) (sess : Session).
Notation settled := (settled sv rq dr admin).

Lemma calm_record a t k o details : calm (record sv rq dr now admin a t k o details).
Proof.
  intros d. unfold record. match goal with |- context [commit (recordAuditTx ?ev ?t) d] => pose proof (audit_run ev t d) as Hu end.
  destruct (commit (recordAuditTx _ _) d) as [[e|[]] d'] eqn:E; cbn [snd] in Hu; [|exact Hu]. split; [done|exact Hu].
Qed.

Lemma calm_body {A} (body : option A) : calm (body_of body).
Proof. destruct body; [apply calm_ret|by apply calm_fail]. Qed.

Lemma calm_expiry body : calm (readExpiry now body).
Proof. unfold readExpiry. apply calm_bind; [apply calm_body|intros raw]. destruct (parseInstant now raw); auto with trail. Qed.
#[local] Hint Resolve calm_record calm_body calm_expiry calm_path_user calm_path_system : trail.

Lemma calm_denied {A} a s e : calm (enrollmentDenied (A := A) sv rq dr now admin a s e).
Proof. unfold enrollmentDenied. do 2 (apply calm_bind; [auto with trail|intros ?]). apply calm_fail, enrollment_error_status. Qed.

Lemma calm_attestation : calm attestation_settings.
Proof. unfold attestation_settings. apply calm_bind; [auto with trail|intros []]; auto with trail. Qed.

Lemma calm_recipients names : calm (recipients_named now names).
Proof. unfold recipients_named. apply calm_bind; [auto with trail|intros []]; auto with trail. Qed.

Lemma calm_reject {A} a l r s : s <> 200 -> calm (reject (A := A) sv rq dr now admin a l r s).
Proof. intros Hs. unfold reject. apply calm_bind; [auto with trail|intros ?]. by apply calm_fail. Qed.

Lemma calm_resume a l body : calm (resume_request sv rq dr now admin a l body).
Proof.
  unfold resume_request. apply calm_bind; [auto with trail|intros [sys|]]; [|by apply calm_reject].
  destruct body as [req|]; [|by apply calm_reject]. destruct (re_ConfirmedQuiescent req); [apply calm_ret|by apply calm_reject].
Qed.

(** Reading back sends to the target and keeps the database. *)
Lemma calm_read_back sent sys a : calm (read_back encryptionKey now sent sys a).
Proof.
  intros d. unfold read_back. assert (only_reads (ReadBackSyncResource encryptionKey now sys (da_EventType a.2) a.1)) as Ho.
  { unfold ReadBackSyncResource. destruct (_ : bool); [apply only_reads_ret|]. destruct (SigningSecret _ _); [|apply only_reads_ret].
    apply only_reads_bind; [apply found_only_reads, find_only_reads|]. intros []; apply only_reads_ret. }
  destruct (Ho (MkLine d sent false)) as (ms & _ & _ & E). destruct (ReadBackSyncResource _ _ _ _ _ _) as [r s]. cbn in *. subst d. apply untouched_refl.
Qed.
#[local] Hint Resolve calm_read_back : trail.

Lemma calm_absent token sent sys attempts : calm (read_back_absent encryptionKey now token sent sys attempts).
Proof.
  unfold read_back_absent. match goal with |- calm (?go attempts false) => enough (forall absent, calm (go attempts absent)) by auto end.
  induction attempts as [|a l IH]; intros absent; [apply calm_ret|].
  destruct (da_Token a.2 =?s token); [|apply IH]. apply calm_bind; [apply calm_read_back|]. intros r. apply IH.
Qed.
#[local] Hint Resolve calm_denied calm_attestation calm_recipients calm_resume calm_absent : trail.
#[local] Hint Resolve calm_reject : trail.

(** *** What only looks *)

Lemma calm_PreviewEnrollmentPolicy body : calm (PreviewEnrollmentPolicy sv rq dr now admin sess body).
Proof.
  unfold PreviewEnrollmentPolicy. destruct (readEnrollmentPolicy body) as [scope|p]; [apply calm_denied|].
  apply calm_bind; [auto with trail|intros [e|preview]]; [apply calm_denied|].
  apply calm_bind; [auto with trail|intros _]. apply calm_ret.
Qed.

Lemma calm_ReadBackSyncDelivery token sent : calm (ReadBackSyncDelivery sv rq dr encryptionKey now admin token sent).
Proof.
  unfold ReadBackSyncDelivery. do 2 (apply calm_bind; [auto with trail|intros ?]). destruct (List.find _ _) as [x|]; [|by apply calm_fail].
  apply calm_bind; [auto with trail|intros r]. apply calm_bind; [auto with trail|intros _]. destruct r; [by apply calm_fail|apply calm_ret].
Qed.

Lemma calm_TestSystem sent : calm (Admin.TestSystem sv rq dr encryptionKey now admin sent).
Proof.
  unfold Admin.TestSystem. apply calm_bind; [auto with trail|intros sys]. apply calm_bind.
  - intros d. assert (only_reads (Dispatch.TestSystem encryptionKey now sys)) as Ho.
    { unfold Dispatch.TestSystem. apply only_reads_bind; [unfold run_guard; destruct (_ : bool); apply only_reads_ret|intros _].
      destruct (SigningSecret _ _); [|apply only_reads_ret]. apply only_reads_bind; [apply found_only_reads, find_only_reads|intros ?; apply only_reads_ret]. }
    destruct (Ho (MkLine d sent false)) as (ms & _ & _ & E). destruct (Dispatch.TestSystem _ _ _ _) as [r s]. cbn in *. subst d. apply untouched_refl.
  - intros r. do 2 (apply calm_bind; [auto with trail|intros _]). apply calm_ret.
Qed.

Lemma settled_denied a s e action : settled action (enrollmentDenied sv rq dr now admin a s e).
Proof. unfold enrollmentDenied. settle. Qed.

Lemma settled_reject a l r s action : s <> 200 -> settled action (reject sv rq dr now admin a l r s).
Proof. intros Hs. unfold reject. apply settled_bind; [auto with trail|intros _]. by apply settled_fail. Qed.

Lemma settled_saveGroup body (create : bool) : settled (if create then "admin.group_created" else "admin.group_updated") (saveGroup sv rq dr eid now admin body create).
Proof. unfold saveGroup. destruct create; settle. Qed.

Lemma settled_DeleteGroup : settled "admin.group_deleted" (DeleteGroup sv rq dr lid eid now admin sess).
Proof. unfold DeleteGroup. settle. Qed.

Lemma settled_SetGroupMembership u body : settled (if r_Method rq =?s "PUT" then "admin.group_member_added" else "admin.group_member_removed")
  (SetGroupMembership sv rq dr lid eid now admin sess u body).
Proof. unfold SetGroupMembership. destruct (r_Method rq =?s "PUT"); settle. Qed.

Lemma settled_LinkAppRecords body : settled "admin.app_linked" (LinkAppRecords sv rq dr eid now admin body).
Proof. unfold LinkAppRecords. settle. Qed.

Lemma settled_UnlinkAppRecord body : settled "admin.app_unlinked" (UnlinkAppRecord sv rq dr eid now admin body).
Proof. unfold UnlinkAppRecord. settle. Qed.

Lemma settled_SetAppPolicy body : settled "admin.app_access_changed" (SetAppPolicy sv rq dr lid eid now admin body).
Proof. unfold SetAppPolicy. settle. Qed.

Lemma settled_SetAppAssignment kind p body : settled (if r_Method rq =?s "PUT" then "admin.app_assignment_added" else "admin.app_assignment_removed")
  (SetAppAssignment sv rq dr lid eid now admin kind p body).
Proof. unfold SetAppAssignment. destruct (r_Method rq =?s "PUT"); settle. Qed.

Lemma settled_CreateAppRole body : settled "admin.app_role_created" (CreateAppRole sv rq dr eid now admin body).
Proof. unfold CreateAppRole. settle. Qed.

Lemma settled_DeleteAppRole role : settled "admin.app_role_deleted" (DeleteAppRole sv rq dr eid now admin role).
Proof. unfold DeleteAppRole. settle. Qed.

Lemma settled_SetAppRoleAssignment r k p : settled (if r_Method rq =?s "PUT" then "admin.app_role_mapped" else "admin.app_role_unmapped")
  (SetAppRoleAssignment sv rq dr eid now admin r k p).
Proof. unfold SetAppRoleAssignment. destruct (r_Method rq =?s "PUT"); settle. Qed.

Lemma settled_SetAppClaimSettings body : settled "admin.app_claims_changed" (SetAppClaimSettings sv rq dr now admin body).
Proof. unfold SetAppClaimSettings. settle. Qed.

Lemma settled_SetAppAuthenticationPolicy body : settled "admin.app_authentication_changed" (SetAppAuthenticationPolicy sv rq dr now admin body).
Proof. unfold SetAppAuthenticationPolicy. settle. Qed.

Lemma settled_SetAppRequestable body : settled "admin.app_requestable_changed" (SetAppRequestable sv rq dr now admin body).
Proof. unfold SetAppRequestable. settle. Qed.

Lemma settled_SetDelegations body : settled "admin.delegations_updated" (SetDelegations sv rq dr now admin body).
Proof. unfold SetDelegations. settle. Qed.

Lemma settled_SetEnrollmentPolicy body : settled "admin.mfa_enrollment_policy_changed" (SetEnrollmentPolicy sv rq dr now admin sess body).
Proof. unfold SetEnrollmentPolicy. settle; apply settled_denied. Qed.

Lemma settled_Attestation_Put body : settled "admin.attestation_configured" (Attestation_Put sv rq dr now admin body).
Proof. unfold Attestation_Put, SetAttestationSettings. settle. Qed.

Lemma settled_AcknowledgeAlert : settled "admin.alert_acknowledged" (AcknowledgeAlert sv rq dr now admin).
Proof. unfold AcknowledgeAlert, Alerts.AcknowledgeAlert. settle. Qed.

Lemma settled_Alert_PutSettings body : settled "admin.alerts_configured" (Alert_PutSettings sv rq dr now admin body).
Proof. unfold Alert_PutSettings. settle. Qed.

Lemma settled_RetryProvisioning u : settled "admin.provisioning_retried" (RetryProvisioning sv rq dr eid now admin u).
Proof. unfold RetryProvisioning. settle. Qed.

Lemma settled_ResumeProvisioning : settled "admin.provisioning_resumed" (ResumeProvisioning sv rq dr now admin).
Proof. unfold ResumeProvisioning, ReconcileJobs.ResumeProvisioning. settle. Qed.

Lemma settled_startReconcile kind : settled "admin.reconcile_requested" (startReconcile sv rq dr now admin kind).
Proof. unfold startReconcile. settle. Qed.

Lemma settled_ResumeSyncDelivery token sent body : settled "admin.sync_delivery_resumed"
  (ResumeSyncDelivery sv rq dr encryptionKey now admin token sent body).
Proof. unfold ResumeSyncDelivery. settle. by apply settled_reject. Qed.

Lemma settled_ResumeSyncDeliveries body : settled "admin.sync_deliveries_resumed" (ResumeSyncDeliveries sv rq dr now admin body).
Proof. unfold ResumeSyncDeliveries. settle. by apply settled_reject. Qed.

Lemma settled_Scim_AdminCreate body : settled "admin.scim_connector_created" (Scim_AdminCreate sv rq dr now admin body).
Proof. unfold Scim_AdminCreate. settle. Qed.

Lemma settled_Scim_AdminUpdate body : settled "admin.scim_connector_updated" (Scim_AdminUpdate sv rq dr now admin body).
Proof. unfold Scim_AdminUpdate. settle. Qed.

Lemma settled_Scim_AdminIssueToken body : settled "admin.scim_token_issued" (Scim_AdminIssueToken sv rq dr now admin body).
Proof. unfold Scim_AdminIssueToken. settle. Qed.

Lemma settled_Scim_AdminRevokeToken t : settled "admin.scim_token_revoked" (Scim_AdminRevokeToken sv rq dr now admin t).
Proof. unfold Scim_AdminRevokeToken. settle. Qed.

Lemma settled_Scim_AdminDelete body : settled "admin.scim_connector_deleted" (Scim_AdminDelete sv rq dr lid eid now admin body).
Proof. unfold Scim_AdminDelete. settle. Qed.

Lemma settled_Request_Create body : settled "access.request_created" (Request_Create sv rq dr now admin body).
Proof. unfold Request_Create. settle. Qed.

Lemma settled_Request_Cancel : settled "access.request_cancelled" (Request_Cancel sv rq dr now admin).
Proof. unfold Request_Cancel. settle. Qed.

Lemma settled_Decide (approve : bool) body : settled (if approve then "access.request_approved" else "access.request_denied")
  (Decide sv rq dr lid eid now admin approve body).
Proof. unfold Decide. destruct approve; settle. Qed.

Lemma settled_revoke action target kind details fn done : rp_Status done = 200 ->
  (forall ev, reports sv rq dr admin action ev -> op_logs sv rq dr admin action always (fn ev)) ->
  settled action (revoke sv rq dr now admin action target kind details fn done).
Proof.
  intros Hd Hf. unfold revoke. apply (settled_attempt _ _ _ _ _ always); [apply Hf, reports_event| | |done].
  - intros e. destruct e; settle.
  - intros a _ d Hl. by split.
Qed.

Lemma settled_AdminRevokeSession t : settled "admin.session_revoked" (AdminRevokeSession sv rq dr lid now admin t).
Proof. apply settled_revoke; [done|]. intros ev Hr. by apply op_logs_auditedTx. Qed.

Lemma settled_AdminRevokeApp c : settled "admin.app_access_revoked" (AdminRevokeApp sv rq dr lid now admin c).
Proof. apply settled_bind; [auto with trail|intros _]. apply settled_revoke; [done|]. intros ev Hr. by apply op_logs_auditedTx. Qed.

Lemma settled_AdminRetryLogout t : settled "admin.logout_retry" (AdminRetryLogout sv rq dr now admin t).
Proof. unfold AdminRetryLogout. settle. Qed.

Lemma settled_RevokeOwn : settled "user.session_revoked" (RevokeOwn sv rq dr lid now admin sess).
Proof. apply settled_revoke; [done|]. intros ev Hr. by apply op_logs_auditedTx. Qed.

Lemma settled_RevokeOthers : settled "user.other_sessions_revoked" (RevokeOthers sv rq dr lid now admin sess).
Proof. apply settled_revoke; [done|]. intros ev Hr. by apply op_logs_auditedTx. Qed.

(** The limits are stored with their event or not at all. *)
Lemma settled_SessionSettings_Put body d reply d' cache : SessionSettings_Put sv rq dr lid now admin body d = (reply, (d', cache)) ->
  if rp_Status reply =? 200 then logged sv rq dr admin "admin.session_limits_configured" d' else untouched d d'.
Proof.
  unfold SessionSettings_Put. destruct body as [l|]; [|intros [= <- <- _]; apply untouched_refl].
  destruct (negb _) eqn:Ev; [intros [= <- <- _]; apply untouched_refl|]. unfold SetSessionLimits. rewrite Ev. cbn zeta.
  destruct (commit _ d) as [[e|n] d1] eqn:Ec; intros [= <- <- _]; cbn [rp_Status].
  - apply commit_inl in Ec as [-> _]. apply untouched_refl.
  - apply commit_inr in Ec. revert Ec. apply (tx_logs_bind sv rq dr admin). intros _. apply (tx_logs_bind sv rq dr admin). intros ended.
    apply (tx_logs_ret sv rq dr admin _ _ (fun _ => ended)), tx_logs_record. auto with trail.
Qed.
End handlers.

(** ** Facts: the branding that is stored is the branding that is served *)

Lemma substring_whole n s : String.substring 0 (n + String.length s) s = s.
Proof.
  revert n. induction s as [|c s IH]; intros n; [by destruct (n + String.length "")%nat|].
  cbn [String.length]. replace (n + S (String.length s))%nat with (S (n + String.length s)) by lia. cbn [String.substring]. by rewrite IH.
Qed.

Lemma substring_append a b : String.substring (String.length a) (String.length (String.append a b) - String.length a) (String.append a b) = b.
Proof.
  induction a as [|c a IH]; cbn [String.append String.length].
  - rewrite Nat.sub_0_r. apply (substring_whole 0 b).
  - cbn [String.substring Nat.sub]. exact IH.
Qed.

Lemma prefix_append a b : String.prefix a (String.append a b) = true.
Proof.
  induction a as [|c a IH]; [by destruct b|].
  change (String.prefix (String c a) (String c (String.append a b)) = true). cbn [String.prefix]. by destruct (Ascii.ascii_dec c c).
Qed.

Lemma cut_at_here sep b : cut_at sep (String.append sep b) = Some ("", b).
Proof. destruct (String.append sep b) eqn:E; cbn [cut_at]; rewrite <- E, prefix_append, substring_append; done. Qed.

Lemma cut_at_later sep c s : String.prefix sep (String c s) = false ->
  cut_at sep (String c s) = match cut_at sep s with Some (a, b) => Some (String c a, b) | None => None end.
Proof. intros Hp. cbn [cut_at]. by rewrite Hp. Qed.

(** The two types a logo is stored under. *)
Definition logo_types : list string := ["image/png"; "image/jpeg"].

Lemma cut_logo kind b : In kind logo_types -> cut_at ";base64," (String.append kind (String.append ";base64," b)) = Some (kind, b).
Proof.
  intros Hk. assert (cut_at ";base64," (String.append ";base64," b) = Some ("", b)) as Hb by apply cut_at_here.
  set (r := String.append ";base64," b) in *. clearbody r.
  destruct Hk as [<-|[<-|[]]]; unfold String.append; repeat (rewrite cut_at_later; [|reflexivity]); by rewrite Hb.
Qed.

Section branding_facts.
Context `{Codec} `{Primitives} `{AEAD} `{Far} `{Formats} `{Unicode} `{Images}.
Context (sv : Server) (rq : Request) (dr : WebDraws) (now : Z) (admin : User).
Notation settled := (settled sv rq dr admin).

Lemma reencoded_kind data kind out size : reencodeLogo data = Some (kind, out, size) -> In kind logo_types /\ Forall is_byte out.
Proof.
  unfold reencodeLogo. destruct (sniffed_bitmap data) as [k|]; [|done]. destruct (one_of k _) eqn:Ek; [|done]. cbn [negb].
  destruct (DecodeConfig k data) as [[w h]|]; [|done]. destruct (_ || _ : bool); [done|]. destruct (DecodeImage k data) as [[img b]|]; [|done].
  destruct (EncodeImage k img) as [o|] eqn:Eo; [|done]. intros [= <- <- <-]. split; [|by eapply EncodeImage_bytes].
  by apply existsb_exists in Ek as (x & Hx & Ex%streqb_true); subst x.
Qed.

Definition setting_kept (key : string) (d d' : DB) : Prop := system_settings d' !! key = system_settings d !! key.

(** What [EditSettings] leaves of one setting. *)
Lemma SetBrandingLogo_stores kind data ev d u d' : SetBrandingLogo kind data ev now d = (inr u, d') ->
  setting_kept BrandingNameSetting d d' /\ (forall b, In kind logo_types -> Forall is_byte data -> data <> [] ->
    GetBranding d' = Some b -> b = MkBranding (setting_text BrandingNameSetting d) kind data) /\
  (In kind logo_types \/ data = [] -> Forall is_byte data -> GetBranding d' <> None).
Proof.
  unfold SetBrandingLogo, EditSettings. intros Hr. apply auditedTx_inr in Hr as (d1 & m & q & Hr & ->).
  assert (setting_text BrandingNameSetting (audited m q d1) = setting_text BrandingNameSetting d /\ setting_kept BrandingNameSetting d (audited m q d1)) as [Hn Hk].
  { unfold setting_text, setting_kept. change (system_settings (audited m q d1)) with (system_settings d1).
    destruct data; unfold deleteSetting, setSetting in Hr; cbn [tx_set] in Hr; injection Hr as _ <-; cbn -[lookup insert delete];
      [rewrite lookup_delete_ne by done|rewrite lookup_insert_ne by done]; done. }
  split; [exact Hk|]. unfold GetBranding. rewrite Hn.
  destruct data as [|z data].
  - split; [done|]. intros _ _. unfold deleteSetting in Hr. cbn [tx_set] in Hr. injection Hr as _ <-.
    unfold setting_text at 1. cbn -[lookup delete cut_at]. by rewrite lookup_delete_eq.
  - set (bytes := z :: data) in *. set (text := String.append kind (String.append ";base64," (string_of (b64_encode StdEncoding bytes)))).
    assert (setting_text BrandingLogoSetting (audited m q d1) = text) as Ht.
    { unfold setting_text. change (system_settings (audited m q d1)) with (system_settings d1). unfold setSetting in Hr. cbn [tx_set] in Hr.
      injection Hr as _ <-. cbn -[lookup insert b64_encode]. by rewrite lookup_insert_eq. }
    rewrite Ht. unfold text. split.
    + intros b Hkind Hb _. rewrite (cut_logo _ _ Hkind), bytes_string by (eapply Forall_impl; [apply encode_plain, Hb|apply plain_byte]).
      rewrite (proj2 (decode_encode StdEncoding StdEncoding bytes Hb) eq_refl). congruence.
    + intros [Hkind|?] Hb; [|done]. rewrite (cut_logo _ _ Hkind), bytes_string by (eapply Forall_impl; [apply encode_plain, Hb|apply plain_byte]).
      by rewrite (proj2 (decode_encode StdEncoding StdEncoding bytes Hb) eq_refl).
Qed.

Lemma SetBrandingName_reads name ev d u d' : SetBrandingName name ev now d = (inr u, d') -> GetBranding d <> None -> GetBranding d' <> None.
Proof.
  unfold SetBrandingName, EditSettings. intros Hr. apply auditedTx_inr in Hr as (d1 & m & q & Hr & ->).
  assert (setting_text BrandingLogoSetting (audited m q d1) = setting_text BrandingLogoSetting d) as Hl.
  { unfold setting_text. change (system_settings (audited m q d1)) with (system_settings d1).
    destruct (name =?s ""); unfold deleteSetting, setSetting in Hr; cbn [tx_set] in Hr; injection Hr as _ <-; cbn -[lookup insert delete];
      [rewrite lookup_delete_ne by done|rewrite lookup_insert_ne by done]; done. }
  unfold GetBranding. rewrite Hl. destruct (cut_at _ _) as [[k e]|]; [|done]. by destruct (b64_decode _ _).
Qed.

(** The answer shows the branding just stored. *)
Lemma Branding_Get_answers d : GetBranding d <> None -> exists rep, Branding_Get d = (inr rep, d) /\ rp_Status rep = 200.
Proof.
  unfold Branding_Get, branding, run_bind, ask. destruct (GetBranding d) as [b|]; [|done]. intros _. by eexists.
Qed.

Lemma settled_branding action (op : DB -> (StoreError + unit) * DB) d : op_logs sv rq dr admin action always op ->
  (forall u d', op d = (inr u, d') -> GetBranding d' <> None) ->
  match (answering (fun _ => internal_error) op ~;; Branding_Get) d with
  | (inl rep, d') => rp_Status rep <> 200 /\ untouched d d'
  | (inr rep, d') => rp_Status rep = 200 /\ logged sv rq dr admin action d'
  end.
Proof.
  intros Ho Hb. unfold run_bind, answering. specialize (Ho d). destruct (op d) as [[e|u] d1].
  - subst d1. split; [done|apply untouched_refl].
  - destruct (Branding_Get_answers d1 (Hb u d1 eq_refl)) as (rep & -> & Hs). by split.
Qed.

Lemma settled_PutName body : settled "admin.branding_name_changed" (PutName sv rq dr now admin body).
Proof.
  unfold PutName. apply settled_bind; [apply calm_body|intros [raw|]]; [|by apply settled_fail]. cbn zeta.
  apply settled_bind; [by apply calm_demand|intros _]. intros d. unfold branding at 1. unfold run_bind at 1 2, ask at 1.
  destruct (GetBranding d) as [old|] eqn:Eb; [|split; [done|apply untouched_refl]].
  apply settled_branding; [apply op_logs_auditedTx, reports_event|].
  intros u d' Hd. eapply SetBrandingName_reads; [exact Hd|by rewrite Eb].
Qed.

Lemma settled_DeleteLogo : settled "admin.branding_logo_removed" (DeleteLogo sv rq dr now admin).
Proof.
  intros d. unfold DeleteLogo. apply settled_branding; [apply op_logs_auditedTx, reports_event|].
  intros u d' Hd. apply SetBrandingLogo_stores in Hd as (_ & _ & Hr). apply Hr; [by right|constructor].
Qed.

Lemma settled_PutLogo body : settled "admin.branding_logo_uploaded" (PutLogo sv rq dr now admin body).
Proof.
  unfold PutLogo. destruct body as [[|z data]|]; [by apply settled_fail| |by apply settled_fail].
  apply settled_bind; [by apply calm_demand|intros _]. destruct (reencodeLogo (z :: data)) as [[[kind clean] [w h]]|] eqn:Er; [|by apply settled_fail].
  intros d. apply settled_branding; [apply op_logs_auditedTx, reports_event|].
  apply reencoded_kind in Er as [Hk Hb]. intros u d' Hd. apply SetBrandingLogo_stores in Hd as (_ & _ & Hr). apply Hr; [by left|exact Hb].
Qed.

(** What an upload must be. *)
Lemma reencodeLogo_Some data kind out size : reencodeLogo data = Some (kind, out, size) ->
  exists width height img, sniffed_bitmap data = Some kind /\ In kind logo_types /\ DecodeConfig kind data = Some (width, height) /\
    1 <= width <= maxLogoSide /\ 1 <= height <= maxLogoSide /\ DecodeImage kind data = Some (img, size) /\ EncodeImage kind img = Some out.
Proof.
  intros Hr. pose proof (reencoded_kind _ _ _ _ Hr) as [Hk _]. revert Hr. unfold reencodeLogo.
  destruct (sniffed_bitmap data) as [k|]; [|done]. destruct (negb _); [done|].
  destruct (DecodeConfig k data) as [[w h]|] eqn:Ec; [|done]. destruct (_ || _ : bool) eqn:Eb; [done|].
  destruct (DecodeImage k data) as [[img b]|] eqn:Ed; [|done]. destruct (EncodeImage k img) as [o|] eqn:Eo; [|done].
  intros [= -> -> ->]. exists w, h, img. repeat (split; [done|]). bool_hyps. split; [lia|]. split; [lia|]. by split.
Qed.

(** C: logo. A logo upload answered with success was a PNG or JPEG of at most
    128 KiB whose header bounds it to 512 by 512 pixels; what is served
    afterwards is its pixels encoded afresh, under the type its bytes have and
    with the organisation's name unchanged - nothing else that rode in the file. *)
Theorem the_logo_served_is_the_one_reencoded body d rep d' :
  serve (PutLogo sv rq dr now admin body) d = (rep, d') -> rp_Status rep = 200 ->
  exists data kind width height img clean size, body = Some data /\ (length data <= maxLogoBytes)%nat /\
    sniffed_bitmap data = Some kind /\ In kind logo_types /\ DecodeConfig kind data = Some (width, height) /\
    1 <= width <= maxLogoSide /\ 1 <= height <= maxLogoSide /\ DecodeImage kind data = Some (img, size) /\ EncodeImage kind img = Some clean /\
    (clean <> [] -> GetBranding d' = Some (MkBranding (setting_text BrandingNameSetting d) kind clean)).
Proof.
  unfold serve, PutLogo. destruct body as [[|z data]|]; [by intros [= <- _]| |by intros [= <- _]].
  unfold run_bind at 1, demand, run_guard. destruct (Nat.leb_spec (length (z :: data)) maxLogoBytes) as [Hl|Hl]; [|by intros [= <- _]].
  destruct (reencodeLogo (z :: data)) as [[[kind clean] size]|] eqn:Er; [|by intros [= <- _]].
  pose proof (reencoded_kind _ _ _ _ Er) as [Hk Hb]. apply reencodeLogo_Some in Er as (w & h & img & Hs & _ & Hc & Hw & Hh & Hd & He).
  destruct size as [w' h']. unfold run_bind, answering.
  destruct (SetBrandingLogo _ _ _ _ d) as [[e|u] d1] eqn:Es; [by intros [= <- _]|].
  apply SetBrandingLogo_stores in Es as (_ & Hg & Hn). specialize (Hn (or_introl Hk) Hb).
  destruct (Branding_Get_answers d1 Hn) as (rep1 & -> & _). intros [= <- <-] _.
  exists (z :: data), kind, w, h, img, clean, (w', h'). repeat (split; [done|]). intros Hne.
  destruct (GetBranding d1) as [b|]; [|done]. by rewrite (Hg b Hk Hb Hne eq_refl).
Qed.
End branding_facts.

(** ** Witnesses *)

#[local] Existing Instances sample_codec toy_primitives toy_aead sample_far.
Definition toy_formats : Formats := {|
  url_Parse := fun _ => None; rfc3339 := fun _ => None; time_text := JNum; error_text := fun _ => "";
  xml_tokens := fun _ => ([], false) |}.
Definition toy_unicode : Unicode := {|
  rune_format := fun _ => false; rune_unassigned := fun _ => false; rune_space := fun s => s =?s " " |}.
#[local, refine] Instance toy_images : Images := {|
  Pixels := unit; DecodeConfig := fun _ _ => Some (64, 64); DecodeImage := fun _ _ => Some (tt, (64, 64));
  EncodeImage := fun _ _ => Some (repeat 7 16) |}.
Proof. intros kind img out [= <-]. vm_compute. repeat constructor; discriminate. Defined.

#[local] Existing Instances toy_formats toy_unicode.

(** The session of [user] under the cookie of [toy_request]. *)
Definition console_db (user : string) : DB :=
  on_sessions (fun _ => {[ "s1" := sample_session "s1" user (HashSHA256 "cookie") ]}) sample_db.
Definition console_request (method path id : string) : Request :=
  MkRequest method path id toy_peer "agent" (Some "cookie") (Some toy_token) None toy_token "" "".

Definition rename_request : Request := console_request "PUT" "/api/admin/branding/name" "".

(** A PNG signature and what follows it. *)
Definition toy_png : list Z := [137; 80; 78; 71; 13; 10; 26; 10; 1; 2; 3].

Lemma the_logo_served_is_the_one_reencoded_witness : exists rep d',
  serve (PutLogo toy_server rename_request toy_web_draws t0 (sample_user "alice" "admin") (Some toy_png)) (console_db "alice") = (rep, d') /\
  rp_Status rep = 200 /\ GetBranding d' = Some (MkBranding (setting_text BrandingNameSetting (console_db "alice")) "image/png" (repeat 7 16)).
Proof.
  destruct (serve (PutLogo toy_server rename_request toy_web_draws t0 (sample_user "alice" "admin") (Some toy_png)) (console_db "alice")) as [rep d'] eqn:E.
  assert (rp_Status rep = 200) as Hs.
  { apply (f_equal (fun x => rp_Status x.1)) in E. cbn [fst] in E. rewrite <- E. vm_compute. reflexivity. }
  exists rep, d'. split; [reflexivity|]. split; [exact Hs|].
  destruct (the_logo_served_is_the_one_reencoded toy_server rename_request toy_web_draws t0 (sample_user "alice" "admin") (Some toy_png) (console_db "alice") rep d' E Hs)
    as (data & kind & w & h & img & clean & size & Hd & _ & Hk & _ & _ & _ & _ & _ & He & Hg).
  injection Hd as <-. vm_compute in Hk. injection Hk as <-. vm_compute in He. injection He as <-. apply Hg. discriminate.
Defined.
