(* ===== verification/Account.v ===== *)
(** Mail, account links and the pages an account keeps for itself: [mail/mail.go],
    [api/onboarding_handlers.go] and the handlers of [api/device_handlers.go] that
    change devices and factors.

    The conventions are those of [Admin].  SMTP is a conversation: the commands
    sent so far and what the relay answers to the next one. *)
From stdpp Require Import pretty.
From S2P Require Import Prelude Schema Access Sample Sessions Tokens StepUp Outbox AppAccess Directory Crypto Requests OAuth Mfa Net Registry Factors Web Login Admin Console.

Open Scope string_scope.
Open Scope Z_scope.

(** ** Mail settings *)

Record MailSettings := MkMailSettings { ms_Host : string; ms_Port : Z; ms_Username : string; ms_Password : string; ms_From : string;
  ms_Security : string }.

(** What the server says to a relay, in the order it says it: [TLSClient] wraps
    the connection, [Extension] and [StartTLS] negotiate it. *)
Inductive SmtpCommand :=
| Dial (address : string) | TLSClient (server : string) | NewClient (host : string) | Extension (name : string) | StartTLS (server : string)
| Auth (username password host : string) | MailFrom (address : string) | Rcpt (address : string) | Data | WriteBody (message : string)
| CloseBody | Quit.

(** [net/mail], [encoding/json] on the settings, and the relay: the error it
    answers a command with after those before, [None] when it accepts. *)
Class Mailing := {
  ParseAddress : string -> string + string;
  mail_Marshal : MailSettings -> list Z;
  mail_Unmarshal : list Z -> option MailSettings;
  smtp_answer : list SmtpCommand -> SmtpCommand -> option string
}.

Definition contains_any (chars s : string) : bool := existsb (fun c => has_char c s) (bytes_of chars).

Definition is_inr {A B} (x : A + B) : bool := match x with inr _ => true | inl _ => false end.

Definition MailSettingKey : string := "mail_settings_enc".
Definition SealMail : string := "mail_settings".

Definition mail_trimmed (s : MailSettings) : MailSettings :=
  MkMailSettings (TrimSpace (ms_Host s)) (ms_Port s) (TrimSpace (ms_Username s)) (ms_Password s) (TrimSpace (ms_From s)) (ms_Security s).
Definition with_password (v : string) (s : MailSettings) : MailSettings :=
  MkMailSettings (ms_Host s) (ms_Port s) (ms_Username s) v (ms_From s) (ms_Security s).

Definition MailView (s : option MailSettings) : list (string * Json) :=
  let view host port user from security has configured :=
    [("host", JStr host); ("port", JNum port); ("username", JStr user); ("from", JStr from); ("security", JStr security);
     ("hasPassword", JBool has); ("configured", JBool configured)] in
  match s with
  | None => view "" 587 "" "" "starttls" false false
  | Some s => view (ms_Host s) (ms_Port s) (ms_Username s) (ms_From s) (ms_Security s) (ms_Password s <>?s "") true
  end.

(** The dialed address; an IPv6 literal is bracketed. *)
Definition JoinHostPort (host port : string) : string :=
  String.concat "" ((if has_char 58 host then ["["; host; "]"] else [host]) ++ [":"; port])%list.

Section mail.
Context `{AEAD} `{Mailing}.

Definition Validate (s : MailSettings) : StoreError + MailSettings :=
  let s := mail_trimmed s in
  if (ms_Host s =?s "") || contains_any " /\" (ms_Host s) then inl (ErrInput "host is required")
  else if (ms_Port s <? 1) || (65535 <? ms_Port s) then inl (ErrInput "port must be between 1 and 65535")
  else if negb (is_inr (ParseAddress (ms_From s))) then inl (ErrInput "from must be a valid email address")
  else if negb (one_of (ms_Security s) ["tls"; "starttls"]) then inl (ErrInput "security must be tls or starttls")
  else inr s.

(** [None]: delivery is not configured. *)
Definition Load (key : list Z) (d : DB) : StoreError + option MailSettings :=
  match system_settings d !! MailSettingKey with
  | None => inr None
  | Some (JStr enc) =>
    match Open key SealMail MailSettingKey enc with
    | Opened raw => match mail_Unmarshal raw with Some s => inr (Some s) | None => inl (ErrText "mail settings do not decode") end
    | _ => inl (ErrText "mail settings do not open")
    end
  | Some _ => inl (ErrText "mail settings do not open")
  end.

Definition same_relay (a b : MailSettings) : bool :=
  (ms_Host a =?s ms_Host b) && (ms_Port a =? ms_Port b) && (ms_Username a =?s ms_Username b) && (ms_Security a =?s ms_Security b).

(** The settings as they are stored: an empty password keeps the current one,
    for the same relay only. *)
Definition kept_password (key : list Z) (s : MailSettings) (d : DB) : StoreError + MailSettings :=
  if ms_Password s <>?s "" then inr s else
  match Load key d with
  | inl e => inl e
  | inr (Some current) =>
    if ms_Password current =?s "" then inr s
    else if same_relay current s then inr (with_password (ms_Password current) s)
    else inl (ErrInput "enter the password again when the relay, port, username or transport changes")
  | inr None => inr s
  end.

(** [nonce] is the draw of the seal. *)
Definition Save (key nonce : list Z) (s : MailSettings) : STx MailSettings :=
  match Validate s with
  | inl e => tx_fail e
  | inr s =>
    d <- tx_get ;;
    match kept_password key s d with
    | inl e => tx_fail e
    | inr s =>
      match Seal key SealMail MailSettingKey (mail_Marshal s) nonce with
      | None => tx_fail (ErrText "mail settings do not seal")
      | Some enc => setSetting MailSettingKey (JStr enc) ;;; tx_ret s
      end
    end
  end.

Definition Clear : STx unit := deleteSetting MailSettingKey.

(** ** Sending *)

Definition Conversation : Type -> Type := Run (list SmtpCommand) string.

Definition say (c : SmtpCommand) : Conversation unit := fun sent =>
  (match smtp_answer sent c with None => inr tt | Some e => inl e end, (sent ++ [c])%list).

(** The connection's wrapper; its handshake happens with the next command. *)
Definition wrap (c : SmtpCommand) : Conversation unit := fun sent => (inr tt, (sent ++ [c])%list).

Definition offered (c : SmtpCommand) : Conversation unit := fun sent =>
  (match smtp_answer sent c with None => inr tt | Some _ => inl "server does not offer STARTTLS" end, (sent ++ [c])%list).

Definition crlf : string := String (char_of 13) (String (char_of 10) "").

Definition mail_message (from to subject date body : string) : string :=
  String.concat "" ["From: "; from; crlf; "To: "; to; crlf; "Subject: "; subject; crlf; "Date: "; date; crlf; "MIME-Version: 1.0"; crlf;
    "Content-Type: text/plain; charset=utf-8"; crlf; crlf; body; crlf].

(** [date] is the instant of the message in RFC 1123. *)
Definition Send (settings : option MailSettings) (to subject body date : string) : Conversation unit :=
  match settings with
  | None => run_fail "mail delivery is not configured"
  | Some s =>
    run_guard (is_inr (ParseAddress to) && negb (contains_any crlf to)) "invalid recipient" ~;;
    run_guard (negb (contains_any crlf subject)) "invalid subject" ~;;
    say (Dial (JoinHostPort (ms_Host s) (pretty (ms_Port s)))) ~;;
    (if ms_Security s =?s "tls" then wrap (TLSClient (ms_Host s)) else run_ret tt) ~;;
    say (NewClient (ms_Host s)) ~;;
    (if ms_Security s =?s "starttls" then offered (Extension "STARTTLS") ~;; say (StartTLS (ms_Host s)) else run_ret tt) ~;;
    (if ms_Username s <>?s "" then say (Auth (ms_Username s) (ms_Password s) (ms_Host s)) else run_ret tt) ~;;
    match ParseAddress (ms_From s) with
    | inl e => run_fail e
    | inr from =>
      say (MailFrom from) ~;; say (Rcpt to) ~;; say Data ~;; say (WriteBody (mail_message (ms_From s) to subject date body)) ~;;
      say CloseBody ~;; say Quit
    end
  end.

(** The error of a message on a fresh connection. *)
Definition send_error (settings : option MailSettings) (to subject body date : string) : option string :=
  match (Send settings to subject body date []).1 with inr _ => None | inl e => Some e end.
End mail.

(** ** Account links *)

Definition ActivationTTL : Z := 24 * hour.
Definition ResetTTL : Z := 30 * minute.

Definition append_all (l : list string) : string := String.concat "" l.

Definition link (issuerURL kind raw : string) : string :=
  append_all [issuerURL; if kind =?s "activation" then "/activate" else "/reset"; "?token="; raw].

Definition link_subject (kind : string) : string := if kind =?s "activation" then "Activate your account" else "Reset your password".

Definition link_body (issuerURL : string) (u : User) (kind raw : string) : string :=
  if kind =?s "activation" then
    append_all ["Hello "; u_DisplayName u; ","; crlf; crlf; "An account named "; u_Username u;
      " was created for you. Open this link within 24 hours to choose a password:"; crlf; crlf; link issuerURL kind raw; crlf; crlf;
      "If you did not expect this, ignore this message."; crlf]
  else
    append_all ["Hello "; u_DisplayName u; ","; crlf; crlf; "A password reset was requested for "; u_Username u;
      ". Open this link within 30 minutes to choose a new password:"; crlf; crlf; link issuerURL kind raw; crlf; crlf;
      "If you did not request this, ignore this message; your password is unchanged."; crlf].

Definition GetUserByEmail (email : string) (now : Z) (d : DB) : option User :=
  scanUser now <$> (snd <$> find_where (fun u => eq_nocase (u_Email u) email) (users d)).

Section account.
Context `{Codec} `{Primitives} `{AEAD} `{Wire} `{Formats} `{Mailing}.
Context (sv : Server) (rq : Request) (dr : WebDraws) (AllowPrivate AllowLoopback : bool) (encryptionKey : list Z) (issuerURL date : string).
Context (lid : string -> string) (eid : string -> string -> string) (now : Z).

(** The token of a link that is being issued. *)
Definition link_token : string := string_of (hex_encode (w_raw dr 22)).

Definition link_issued (actor u : User) (kind delivery : string) : option AuditEvent :=
  event sv rq dr now actor "admin.account_link_issued" (u_ID u) "user" "success" (JObj [("kind", JStr kind); ("delivery", JStr delivery)]).

Definition mail_or_500 : Handler (option MailSettings) := fun d =>
  match Load encryptionKey d with inl _ => (inl internal_error, d) | inr s => (inr s, d) end.

Definition issue_refusal (e : StoreError) : Reply := match e with ErrNotFound => refused_with 409 "link_not_applicable" | _ => internal_error end.

(** [issue] with its caller's answers: mailed when asked and configured, else
    handed to the administrator. *)
Definition issue (actor u : User) (kind : string) (send : bool) : Handler Reply :=
  let ttl := if kind =?s "activation" then ActivationTTL else ResetTTL in
  settings <~ (if send then s <~ mail_or_500 ;; demand (negb (is_null s)) 400 "mail_not_configured" ~;; run_ret s else run_ret None) ;;
  let delivery := match settings with Some _ => "email" | None => "manual" end in
  answering issue_refusal (IssueAccountToken (w_id dr 23) (HashSHA256 link_token) (u_ID u) kind delivery ttl (link_issued actor u kind delivery) now) ~;;
  let out := [("kind", JStr kind); ("delivery", JStr delivery); ("expiresAt", time_text (now + ttl))] in
  match settings with
  | None => writeJSON (out ++ [("link", JStr (link issuerURL kind link_token))])%list
  | Some _ =>
    match send_error settings (u_Email u) (link_subject kind) (link_body issuerURL u kind link_token) date with
    | Some e =>
      observed sv rq dr now actor "admin.account_link_delivery" (u_ID u) "user" "failure" (JObj [("kind", JStr kind); ("error", JStr e)]) ~;;
      refuse 502 "mail_failed"
    | None => writeJSON out
    end
  end.

(** A body that does not decode asks for no mail. *)
Definition AdminIssueLink (kind : string) (admin : User) (body : option bool) : Handler Reply :=
  u <~ path_user rq now ;; issue admin u kind (default false body).

Record RedeemRequest := MkRedeemRequest { rd_Token : string; rd_Password : string }.

Definition Redeem (kind : string) (body : option RedeemRequest) : Handler Reply :=
  match body with
  | None => run_fail invalid_request
  | Some req =>
    demand (negb ((rd_Token req =?s "") || (rd_Password req =?s ""))) 400 "invalid_request" ~;;
    hash <~ hash_or_refuse dr (rd_Password req) ;;
    let action := if kind =?s "activation" then "auth.account_activated" else "auth.password_reset" in
    result <~ attempt (commit (RedeemAccountToken lid eid (HashSHA256 (rd_Token req)) kind hash
      (fun u => Prepare sv rq dr now 1 action (u_ID u) (u_Username u) (u_ID u) "user" "success" (JObj [("kind", JStr kind)])) now)) ;;
    match result with
    | inr u => writeJSON [("success", JBool true); ("username", JStr (u_Username u))]
    | inl ErrNotFound =>
      Observe sv rq dr now 2 action "" "" "" "user" "failure" (JObj [("kind", JStr kind); ("reason", JStr "invalid_link")]) ~;;
      refuse 400 "invalid_link"
    | inl _ => run_fail internal_error
    end
  end.

(** The account a reset is asked for, by name or by address. *)
Definition forgotten (id : string) (d : DB) : option User :=
  match GetUserByUsername id now d with
  | Some u => Some u
  | None => if has_char 64 id then GetUserByEmail id now d else None
  end.

Definition reset_noted (u : User) (outcome reason : string) : Handler unit :=
  observed sv rq dr now u "auth.password_reset_requested" (u_ID u) "user" outcome (JObj [("reason", JStr reason)]).

(** [allowed] is the answer of the account's hourly bucket. The message is sent
    after the answer, by its own routine; only its failure is recorded. *)
Definition Forgot (allowed : bool) (body : option string) : Handler Reply :=
  let id := TrimSpace (default "" body) in
  demand (id <>?s "") 400 "invalid_request" ~;;
  user <~ ask (forgotten id) ;;
  match user with
  | None => success
  | Some u =>
    if (u_Status u <>?s "active") || u_Pending u then success
    else if negb allowed then reset_noted u "denied" "rate_limited" ~;; success
    else if is_null (u_EmailVerifiedAt u) then reset_noted u "denied" "email_unverified" ~;; success
    else
      settings <~ ask (Load encryptionKey) ;;
      match settings with
      | inl _ | inr None => reset_noted u "failure" "mail_not_configured" ~;; success
      | inr (Some s) =>
        issued <~ attempt (IssueAccountToken (w_id dr 23) (HashSHA256 link_token) (u_ID u) "reset" "email" ResetTTL
          (event sv rq dr now u "auth.password_reset_requested" (u_ID u) "user" "success" (JObj [("delivery", JStr "email")])) now) ;;
        match issued with
        | inl _ => success
        | inr _ =>
          (match send_error (Some s) (u_Email u) (link_subject "reset") (link_body issuerURL u "reset" link_token) date with
           | Some e => observed sv rq dr now u "auth.password_reset_delivery" (u_ID u) "user" "failure" (JObj [("error", JStr e)])
           | None => run_ret tt
           end) ~;;
          success
        end
      end
  end.

(** ** Changing the password while signed in *)

Record ChangePasswordRequest := MkChangePasswordRequest { cp_CurrentPassword : string; cp_NewPassword : string }.

(** A current password is checked when it is sent. *)
Definition current_password_right (user : User) (current : string) : Handler unit :=
  if current =?s "" then run_ret tt else
  match VerifyPassword (w_busy dr) current (u_PasswordHash user) with
  | inr true => run_ret tt
  | inl ErrBusy => busy_refusal
  | _ => observed sv rq dr now user "user.password_changed" (u_ID user) "user" "failure" (JObj [("reason", JStr "invalid_password")]) ~;;
         refuse 401 "invalid_credentials"
  end.

(** A change that is required must not keep the password handed out. *)
Definition not_reused (user : User) (new : string) : Handler unit :=
  if u_PasswordChangeRequired user then
    match VerifyPassword (w_busy dr) new (u_PasswordHash user) with
    | inl ErrBusy => busy_refusal
    | inl _ => stepUpInternalError
    | inr reused => demand (negb reused) 400 "password_reused"
    end
  else run_ret tt.

(** [spent]: this request's own step-up grant was spent. *)
Definition ChangePassword (spent : bool) (user : User) (sess : Session) (body : option ChangePasswordRequest) : Handler Reply :=
  match body with
  | None => run_fail invalid_request
  | Some req =>
    demand (negb ((cp_NewPassword req =?s "") || ((cp_CurrentPassword req =?s "") && negb spent))) 400 "invalid_request" ~;;
    current_password_right user (cp_CurrentPassword req) ~;;
    not_reused user (cp_NewPassword req) ~;;
    hash <~ hash_or_refuse dr (cp_NewPassword req) ;;
    answering (fun e => match e with ErrNotFound => refused_with 401 "unauthorized" | _ => internal_error end)
      (Directory.ChangePassword lid (u_ID user) (s_ID sess) hash (event sv rq dr now user "user.password_changed" (u_ID user) "user" "success"
        (JObj [("required", JBool (u_PasswordChangeRequired user))])) now) ~;;
    success
  end.

(** [POST /api/user/password]. *)
Definition password_route (body : option ChangePasswordRequest) : Handler Reply :=
  RequireAuth sv rq now (fun user sess => spend_step_up sv rq dr now user sess ~;; ChangePassword true user sess body).

(** ** Mail settings *)

Definition GetMail : Handler Reply := settings <~ mail_or_500 ;; writeJSON (MailView settings).

Definition mail_event (admin : User) (details : list (string * Json)) : option AuditEvent :=
  event sv rq dr now admin "admin.mail_configured" "mail" "settings" "success" (JObj details).

Definition PutMail (admin : User) (body : option MailSettings) : Handler Reply :=
  match body with
  | None => run_fail invalid_request
  | Some req =>
    if TrimSpace (ms_Host req) =?s "" then
      answering (fun _ => internal_error) (EditSettings (mail_event admin [("configured", JBool false)]) Clear now) ~;;
      writeJSON (MailView None)
    else
      req <~ answering (writeInputError "invalid_request") (fun d => (Validate req, d)) ;;
      saved <~ answering (writeInputError "invalid_request") (auditedTx (mail_event admin
        [("configured", JBool true); ("host", JStr (ms_Host req)); ("port", JNum (ms_Port req)); ("security", JStr (ms_Security req))]) now
        (Save encryptionKey (w_raw dr 21) req)) ;;
      writeJSON (MailView (Some saved))
  end.

Definition TestMail (admin : User) : Handler Reply :=
  settings <~ mail_or_500 ;;
  demand (negb (is_null settings)) 400 "mail_not_configured" ~;;
  let result := send_error settings (u_Email admin) "KySignOn mail test" (append_all ["This message confirms that KySignOn can send mail."; crlf]) date in
  observed sv rq dr now admin "admin.mail_tested" "mail" "settings" (if is_null result then "success" else "failure")
    (JObj (("to", JStr (u_Email admin)) :: match result with Some e => [("error", JStr e)] | None => [] end)) ~;;
  demand (is_null result) 502 "mail_failed" ~;; success.

(** ** Devices and factors *)

(** [signOn]: the optional member of an optional body; [None] is a body that
    does not decode. The QR code carries a JSON text, its members in key order. *)
Definition GenerateDevicePairingToken (body : option (option bool)) (user : User) (sess : Session) : Handler Reply :=
  match body with
  | None => run_fail invalid_request
  | Some signOn =>
    let signOn := default false signOn in
    consumeStepUp rq now user sess ~;;
    generated <~ attempt (Factors.GenerateDevicePairingToken (w_id dr 25) (w_raw dr 25) (w_raw dr 26) (u_ID user) signOn
      (event sv rq dr now user "device.pairing_token_generated" (u_ID user) "user" "success" (JObj [("signOn", JBool signOn)])) now) ;;
    match generated with
    | inl _ => run_fail internal_error
    | inr (token, pin, expiresAt) =>
      writeJSON [("signOn", JBool signOn); ("pairingToken", JStr token); ("pinCode", JStr pin); ("expiresAt", time_text expiresAt);
        ("qrPayload", JStr (json_marshal (JObj [("expiresAt", JNum (unix expiresAt)); ("pairingToken", JStr token); ("pinCode", JStr pin);
          ("serverUrl", JStr issuerURL); ("type", JStr "kyidentity_device_pairing"); ("userId", JStr (u_ID user)); ("username", JStr (u_Username user))])))]
    end
  end.

Definition device_json (n : NativeDevice) : Json :=
  JObj ([("id", JStr (nd_ID n)); ("userId", JStr (nd_UserID n)); ("deviceName", JStr (nd_DeviceName n));
    ("deviceIdentifier", JStr (nd_DeviceIdentifier n)); ("platform", JStr (nd_Platform n))] ++ omitempty "publicKey" (nd_PublicKey n) ++
    omitempty "pushToken" (nd_PushToken n) ++ [("pushTransport", JStr (nd_PushTransport n)); ("isMfaApprover", JBool (nd_IsMFAApprover n));
    ("canSignOn", JBool (nd_CanSignOn n)); ("attestedLevel", JStr (nd_AttestedLevel n))] ++ time_member "attestedAt" (nd_AttestedAt n) ++
    [("bootState", JStr (nd_BootState n))] ++ time_member "lastSeenAt" (nd_LastSeenAt n) ++ [("createdAt", time_text (nd_CreatedAt n))])%list.

(** The pairing token or PIN is the credential. *)
Definition RegisterNativeDevice (body : option NativeDeviceRegisterRequest) : Handler Reply :=
  match body with
  | None => run_fail invalid_request
  | Some req =>
    registered <~ attempt (Factors.RegisterNativeDevice (sv_engine sv) AllowPrivate AllowLoopback (w_id dr 27) (w_id dr 28) req
      (fun dev reason => Prepare sv rq dr now 1 "device.registered" (nd_UserID dev) "" (nd_ID dev) "device" "success"
        (JObj [("deviceName", JStr (nd_DeviceName dev)); ("attestedLevel", JStr (nd_AttestedLevel dev)); ("bootState", JStr (nd_BootState dev));
          ("attestationReason", JStr reason); ("pushTransport", JStr (nd_PushTransport dev))])) now) ;;
    match registered with
    | inr dev => writeJSON [("success", JBool true); ("deviceId", JStr (nd_ID dev)); ("device", device_json dev)]
    | inl (InputError _) | inl (MFAStore (ErrInput _)) => refuse 400 "registration_failed"
    | inl _ => run_fail internal_error
    end
  end.

Definition pushTokenClockSkew : Z := 5 * minute.

Record PushTokenRefresh := MkPushTokenRefresh { pt_PushToken : string; pt_PushTransport : string; pt_PushP256dh : string; pt_PushAuth : string;
  pt_IssuedAt : Z; pt_Signature : string }.

Definition no_content : Reply := MkReply 204 JNull None None.

(** The enrolled key is the credential; the target is only an address. *)
Definition RefreshNativeDevicePushToken (body : option PushTokenRefresh) : Handler Reply :=
  match body with
  | None => run_fail invalid_request
  | Some req =>
    let deviceID := r_PathID rq in
    let token := TrimSpace (pt_PushToken req) in
    match ValidatePushTarget AllowPrivate AllowLoopback (pt_PushTransport req) token (pt_PushP256dh req) (pt_PushAuth req) with
    | None => run_fail invalid_request
    | Some transport =>
      demand (0 <? pt_IssuedAt req) 400 "invalid_request" ~;;
      let issuedAt := pt_IssuedAt req * 1000000 in
      demand ((now - pushTokenClockSkew <=? issuedAt) && (issuedAt <=? now + pushTokenClockSkew)) 400 "stale_request" ~;;
      found <~ ask (GetNativeDevice deviceID) ;;
      match IssuerOrigin issuerURL with
      | None => run_fail internal_error
      | Some origin =>
        match PushTokenRefreshMessage origin deviceID (pt_IssuedAt req) transport token (pt_PushP256dh req) (pt_PushAuth req), found with
        | Some message, Some dev =>
          demand ((nd_PublicKey dev <>?s "") && VerifyECDSAP256 (nd_PublicKey dev) (bytes_of message) (pt_Signature req)) 401 "device_authentication_failed" ~;;
          demand (PlatformAllowsTransport (nd_Platform dev) transport) 400 "invalid_request" ~;;
          updated <~ answering (fun _ => internal_error) (commit (UpdateNativeDevicePushToken (nd_ID dev) transport token (pt_PushP256dh req)
            (pt_PushAuth req) (pt_IssuedAt req) now (Prepare sv rq dr now 1 "device.push_token_refreshed" (nd_UserID dev) "" (nd_ID dev) "device" "success"
              (JObj [("pushTransport", JStr transport)])) now)) ;;
          demand updated 409 "replayed_request" ~;;
          run_ret no_content
        | _, _ => refuse 401 "device_authentication_failed"
        end
      end
    end
  end.

Definition ListUserDevices (user : User) : Handler Reply :=
  devices <~ ask (ListUserNativeDevices (u_ID user)) ;; writeJSON [("devices", JArr (map device_json devices))].

Definition deviceChangeFailed (e : StoreError) : Reply :=
  match e with
  | ErrNoRows => refused_with 404 "not_found"
  | ErrDeviceNotApprover => refused_with 409 "device_not_approver"
  | ErrLastCompliantFactor => enrollmentError e
  | _ => internal_error
  end.

Definition device_event (user : User) (action : string) (details : Json) : option AuditEvent :=
  event sv rq dr now user action (r_PathID rq) "device" "success" details.

Definition DeleteUserDevice (user : User) (sess : Session) : Handler Reply :=
  consumeStepUp rq now user sess ~;;
  answering deviceChangeFailed (commit (DeleteNativeDevice (w_id dr 29) (r_PathID rq) (u_ID user) (device_event user "device.deleted" JNull) now)) ~;;
  success.

Definition SetDeviceMFAApprover (body : option bool) (user : User) (sess : Session) : Handler Reply :=
  match body with
  | None => run_fail invalid_request
  | Some isMFAApprover =>
    consumeStepUp rq now user sess ~;;
    answering deviceChangeFailed (commit (SetNativeDeviceMFAApprover (w_id dr 29) (r_PathID rq) (u_ID user) isMFAApprover
      (device_event user "device.mfa_approver_changed" (JObj [("isMfaApprover", JBool isMFAApprover)])) now)) ~;;
    success
  end.

Definition SetDeviceSignOn (body : option bool) (user : User) (sess : Session) : Handler Reply :=
  match body with
  | None => run_fail invalid_request
  | Some canSignOn =>
    consumeStepUp rq now user sess ~;;
    let details := JObj [("canSignOn", JBool canSignOn)] in
    changed <~ attempt (commit (SetNativeDeviceCanSignOn (r_PathID rq) (u_ID user) canSignOn (device_event user "device.sign_on_changed" details) now)) ;;
    match changed with
    | inr _ => success
    | inl e => observed sv rq dr now user "device.sign_on_changed" (r_PathID rq) "device" "failure" details ~;; run_fail (deviceChangeFailed e)
    end
  end.

(** *** TOTP and recovery codes *)

(** [base32.StdEncoding] without padding, five bytes at a time. *)
Definition b32_digit (n : Z) : Z := nth (Z.to_nat n) (bytes_of "ABCDEFGHIJKLMNOPQRSTUVWXYZ234567") 0.
Fixpoint b32_encode (l : list Z) : list Z :=
  match l with
  | a :: b :: c :: d :: e :: l' =>
    let n := Z.shiftl a 32 + Z.shiftl b 24 + Z.shiftl c 16 + Z.shiftl d 8 + e in
    (map (fun i => b32_digit (Z.land (Z.shiftr n (35 - 5 * Z.of_nat i)) 31)) (seq 0 8) ++ b32_encode l')%list
  | _ => []
  end.

(** [url.PathEscape]. *)
Definition path_plain (c : Z) : bool :=
  ((97 <=? c) && (c <=? 122)) || ((65 <=? c) && (c <=? 90)) || ((48 <=? c) && (c <=? 57)) || existsb (Z.eqb c) (bytes_of "-_.~$&+=:@").
Definition upper_hex (c : Z) : Z := if (97 <=? c) && (c <=? 102) then c - 32 else c.
Definition PathEscape (s : string) : string :=
  string_of (concat (map (fun c => if path_plain c then [c] else 37 :: map upper_hex (hex_encode [c])) (bytes_of s))).

(** [raw] is the draw of 20 bytes; the issuer is always the product's name. *)
Definition GenerateTOTPSecret (raw : list Z) (username : string) : string * string :=
  let secret := string_of (b32_encode raw) in
  (secret, append_all ["otpauth://totp/KyIdentity:"; PathEscape username; "?secret="; secret; "&issuer=KyIdentity&algorithm=SHA1&digits=6&period=30"]).

(** The grant is checked and not spent. *)
Definition SetupTOTP (user : User) (sess : Session) : Handler Reply :=
  requireStepUp rq now user sess ~;;
  let '(secret, uri) := GenerateTOTPSecret (w_raw dr 24) (u_Username user) in
  writeJSON [("secret", JStr secret); ("uri", JStr uri)].

Definition ValidateTOTP (secret code : string) : bool := negb (is_null (totp_Validate secret code now)).

(** The halves of the codes that are drawn. *)
Definition recovery_draws (i : nat) : list Z * list Z := (w_raw dr (60 + 2 * i), w_raw dr (61 + 2 * i)).

Definition regenerate_codes (user : User) (details : Json) : Handler (list string) :=
  codes <~ attempt (Factors.GenerateRecoveryCodes (sv_engine sv) (fun i => w_id dr (40 + i)) recovery_draws (u_ID user)
    (Prepare sv rq dr now 3 "mfa.recovery_codes_generated" (u_ID user) (u_Username user) (u_ID user) "user" "success" details) now) ;;
  match codes with inl _ => run_fail internal_error | inr codes => run_ret codes end.

Record EnableTOTPRequest := MkEnableTOTPRequest { et_Secret : string; et_Code : string }.

(** The code is checked before the grant is spent; the sibling sessions end
    after both commits, and their failure changes no answer. *)
Definition EnableTOTP (body : option EnableTOTPRequest) (user : User) (sess : Session) : Handler Reply :=
  match body with
  | None => run_fail invalid_request
  | Some req =>
    demand (negb ((et_Secret req =?s "") || (et_Code req =?s ""))) 400 "invalid_request" ~;;
    demand (ValidateTOTP (et_Secret req) (et_Code req)) 400 "invalid_code" ~;;
    consumeStepUp rq now user sess ~;;
    saved <~ attempt (SaveUserTOTP (sv_engine sv) (w_id dr 30) (w_raw dr 30) (u_ID user) (et_Secret req)
      (event sv rq dr now user "mfa.totp_enabled" (u_ID user) "user" "success" JNull) now) ;;
    demand (is_inr saved) 500 "internal_error" ~;;
    codes <~ regenerate_codes user (JObj [("reason", JStr "totp_enrollment")]) ;;
    silently (fun d => (RevokeOtherSessions lid (u_ID user) (s_ID sess) None now d).2) ~;;
    writeJSON [("success", JBool true); ("recoveryCodes", strings codes)]
  end.

Definition GenerateRecoveryCodes (user : User) (sess : Session) : Handler Reply :=
  consumeStepUp rq now user sess ~;;
  codes <~ regenerate_codes user JNull ;;
  writeJSON [("recoveryCodes", strings codes)].
End account.

(** ** Facts *)

(** *** What a relay is told *)

Section send_facts.
Context `{Mailing}.

(** Credentials, addresses and text. *)
Definition confidential (c : SmtpCommand) : bool :=
  match c with Auth _ _ _ | MailFrom _ | Rcpt _ | WriteBody _ => true | _ => false end.

(** A TLS client for [host] wraps what follows: from the start, or once the
    relay accepted the upgrade. *)
Definition secured (host : string) (sent : list SmtpCommand) : Prop :=
  In (TLSClient host) sent \/ exists k, sent !! k = Some (StartTLS host) /\ smtp_answer (firstn k sent) (StartTLS host) = None.

Definition discreet (host : string) (sent : list SmtpCommand) : Prop :=
  forall i c, sent !! i = Some c -> confidential c = true -> secured host (firstn i sent).

Lemma secured_app host sent l : secured host sent -> secured host (sent ++ l)%list.
Proof.
  intros [Hi|(k & Hk & Ha)]; [left; rewrite in_app_iff; by left|right]. exists k. split; [by apply lookup_app_l_Some|].
  rewrite take_app_le; [done|]. apply lookup_lt_Some in Hk. lia.
Qed.

Lemma discreet_snoc host sent c : discreet host sent -> (confidential c = true -> secured host sent) -> discreet host (sent ++ [c])%list.
Proof.
  intros Hd Hc i x Hx Hcx. apply lookup_app_Some in Hx as [Hx|[Hl Hx]].
  - rewrite take_app_le by (apply lookup_lt_Some in Hx; lia). by eapply Hd.
  - apply list_lookup_singleton_Some in Hx as [Hi <-]. replace i with (length sent) by lia. rewrite take_app_length. by apply Hc.
Qed.

(** A stretch of a conversation that adds to it, discreetly. *)
Definition careful {A} (host : string) (needs : bool) (m : Conversation A) : Prop := forall sent,
  discreet host sent -> (needs = true -> secured host sent) ->
  discreet host (m sent).2 /\ (secured host sent -> secured host (m sent).2).

Lemma careful_bind {A B} host needs (m : Conversation A) (k : A -> Conversation B) :
  careful host needs m -> (forall a, careful host needs (k a)) -> careful host needs (run_bind m k).
Proof.
  intros Hm Hk sent Hd Hs. unfold run_bind. destruct (Hm sent Hd Hs) as [Hd1 Hs1]. destruct (m sent) as [[e|a] s1]; [done|].
  cbn [snd] in *. destruct (Hk a s1) as [Hd2 Hs2]; [done|by auto|]. split; auto.
Qed.

Lemma careful_ret {A} host needs (a : A) : careful host needs (run_ret a).
Proof. by intros sent. Qed.
Lemma careful_fail {A} host needs e : careful host needs (run_fail e : Conversation A).
Proof. by intros sent. Qed.
Lemma careful_guard host needs b e : careful host needs (run_guard b e).
Proof. by intros sent. Qed.

Lemma careful_say host needs c : (confidential c = true -> needs = true) -> careful host needs (say c).
Proof. intros Hc sent Hd Hs. cbn. split; [apply discreet_snoc; auto|by apply secured_app]. Qed.
Lemma careful_offered host needs c : confidential c = false -> careful host needs (offered c).
Proof. intros Hc sent Hd Hs. cbn. split; [apply discreet_snoc; [done|congruence]|by apply secured_app]. Qed.

Lemma say_starts_tls host sent : discreet host sent ->
  match (say (StartTLS host) sent).1 with inl _ => True | inr _ => secured host (say (StartTLS host) sent).2 end.
Proof.
  intros _. unfold say. cbn [fst snd]. destruct (smtp_answer sent (StartTLS host)) eqn:Ea; [done|]. right. exists (length sent).
  split; [|by rewrite take_app_length]. rewrite lookup_app_r by done. by rewrite Nat.sub_diag.
Qed.

(** After the connection is secured the rest may be said. *)
Lemma careful_then {A B} host (m : Conversation A) (k : A -> Conversation B) :
  careful host false m -> (forall sent a s1, discreet host sent -> m sent = (inr a, s1) -> secured host s1) -> (forall a, careful host true (k a)) ->
  careful host false (run_bind m k).
Proof.
  intros Hm Hs Hk sent Hd _. unfold run_bind. destruct (Hm sent Hd) as [Hd1 Hs1]; [done|]. destruct (m sent) as [[e|a] s1] eqn:Em; [done|].
  cbn [snd] in *. pose proof (Hs _ _ _ Hd Em) as Hsec. destruct (Hk a s1) as [Hd2 Hs2]; auto.
Qed.

(** The credentials said are those of the settings, at their host. *)
Definition speaks_for (s : MailSettings) (sent : list SmtpCommand) : Prop :=
  forall c, In c sent -> match c with
    | Dial a => a = JoinHostPort (ms_Host s) (pretty (ms_Port s))
    | Auth u p h => u = ms_Username s /\ p = ms_Password s /\ h = ms_Host s
    | _ => True
    end.

Lemma speaks_bind {A B} s (m : Conversation A) (k : A -> Conversation B) :
  (forall sent, speaks_for s sent -> speaks_for s (m sent).2) -> (forall a sent, speaks_for s sent -> speaks_for s (k a sent).2) ->
  forall sent, speaks_for s sent -> speaks_for s (run_bind m k sent).2.
Proof. intros Hm Hk sent Hs. unfold run_bind. specialize (Hm sent Hs). destruct (m sent) as [[e|a] s1]; [done|by apply Hk]. Qed.

Lemma speaks_snoc s sent c : speaks_for s [c] -> speaks_for s sent -> speaks_for s (sent ++ [c])%list.
Proof. intros Hc Hs x Hx. apply in_app_iff in Hx as [Hx|Hx]; [by apply Hs|by apply Hc]. Qed.

Lemma Send_speaks s to subject body date sent : speaks_for s sent -> speaks_for s (Send (Some s) to subject body date sent).2.
Proof.
  unfold Send. revert sent. repeat (apply speaks_bind; [try done|intros []]); try (intros sent Hs; apply speaks_snoc; [|done]; intros c [<-|[]]; done).
  - destruct (ms_Security s =?s "tls"); [|done]. intros sent Hs. apply speaks_snoc; [|done]. by intros c [<-|[]].
  - destruct (ms_Security s =?s "starttls"); [|done]. apply speaks_bind; [|intros []]; intros sent Hs; apply speaks_snoc; try done; by intros c [<-|[]].
  - destruct (ms_Username s <>?s ""); [|done]. intros sent Hs. apply speaks_snoc; [|done]. by intros c [<-|[]].
  - destruct (ParseAddress (ms_From s)); [done|].
    repeat (apply speaks_bind; [|intros []]); intros sent Hs; apply speaks_snoc; try done; by intros c [<-|[]].
Qed.

Lemma Send_discreet s to subject body date : one_of (ms_Security s) ["tls"; "starttls"] = true ->
  discreet (ms_Host s) (Send (Some s) to subject body date []).2.
Proof.
  intros Hsec. enough (careful (ms_Host s) false (Send (Some s) to subject body date)) as Hc.
  { apply Hc; [|done]. intros i c Hi. by rewrite lookup_nil in Hi. }
  unfold Send. do 3 (apply careful_bind; [first [apply careful_guard|by apply careful_say]|intros []]).
  assert (forall A (k : unit -> Conversation A), (forall u, careful (ms_Host s) true (k u)) -> ms_Security s = "starttls" ->
    careful (ms_Host s) false (run_bind (offered (Extension "STARTTLS") ~;; say (StartTLS (ms_Host s))) k)) as Hstart.
  { intros A k Hk _. apply careful_then; [| |done].
    - apply careful_bind; [by apply careful_offered|intros []; by apply careful_say].
    - intros sent [] s1 Hd Hr. apply run_bind_inr in Hr as ([] & s2 & H1 & H2). injection H1 as _ <-.
      pose proof (say_starts_tls (ms_Host s) (sent ++ [Extension "STARTTLS"])%list) as Hst. rewrite H2 in Hst. apply Hst.
      by apply discreet_snoc. }
  assert (careful (ms_Host s) true
    ((if ms_Username s <>?s "" then say (Auth (ms_Username s) (ms_Password s) (ms_Host s)) else run_ret tt) ~;;
     match ParseAddress (ms_From s) with
     | inl e => run_fail e
     | inr from => say (MailFrom from) ~;; say (Rcpt to) ~;; say Data ~;; say (WriteBody (mail_message (ms_From s) to subject date body)) ~;;
         say CloseBody ~;; say Quit
     end)) as Hrest.
  { apply careful_bind; [destruct (_ <>?s _); [by apply careful_say|apply careful_ret]|intros []].
    destruct (ParseAddress _); [apply careful_fail|]. repeat (apply careful_bind; [by apply careful_say|intros []]). by apply careful_say. }
  apply one_of_true in Hsec. cbn [In] in Hsec. destruct Hsec as [Es|[Es|[]]]; rewrite <- Es; cbn [String.eqb Ascii.eqb Bool.eqb].
  - apply careful_then; [intros sent Hd _; cbn; split; [by apply discreet_snoc|by apply secured_app]| |].
    + intros sent [] s1 Hd [= <-]. left. rewrite in_app_iff. right. by left.
    + intros []. apply careful_bind; [by apply careful_say|intros []]. by apply careful_bind; [apply careful_ret|intros []].
  - apply careful_bind; [apply careful_ret|intros []]. apply careful_bind; [by apply careful_say|intros []]. by apply Hstart.
Qed.
End send_facts.

(** *** Whose password it is *)

Section mail_facts.
Context `{AEAD} `{Mailing}.

(** Texts that JSON carries unchanged. *)
Definition mail_text (s : MailSettings) : bool := forallb ValidString [ms_Host s; ms_Username s; ms_Password s; ms_From s; ms_Security s].

Record mail_laws : Prop := {
  mail_Marshal_bytes s : Forall is_byte (mail_Marshal s);
  mail_roundtrip s : mail_text s = true -> mail_Unmarshal (mail_Marshal s) = Some s }.

Context (L : aead_laws) (M : mail_laws) (key : list Z).

Lemma Validate_inr s s' : Validate s = inr s' -> s' = mail_trimmed s /\ one_of (ms_Security s') ["tls"; "starttls"] = true.
Proof.
  unfold Validate. repeat (destruct (_ || _); [done|]). destruct (is_inr _); [|done]. cbn [negb].
  destruct (one_of _ _) eqn:E; [|done]. by intros [= <-].
Qed.

Lemma kept_inr s d s' : kept_password key s d = inr s' ->
  (s' = s /\ (ms_Password s = "" -> forall c, Load key d = inr (Some c) -> ms_Password c = "")) \/
  exists c, ms_Password s = "" /\ Load key d = inr (Some c) /\ ms_Password c <> "" /\ same_relay c s = true /\ s' = with_password (ms_Password c) s.
Proof.
  unfold kept_password. destruct (ms_Password s =?s "") eqn:Ep; cbn [negb].
  - apply streqb_true in Ep. destruct (Load key d) as [e|[c|]] eqn:El; [done| |].
    + destruct (ms_Password c =?s "") eqn:Ec.
      * intros [= <-]. left. split; [done|]. intros _ c' [= <-]. by apply streqb_true.
      * destruct (same_relay c s) eqn:Er; [|done]. intros [= <-]. right. exists c. apply streqb_false in Ec. done.
    + intros [= <-]. by left.
  - intros [= <-]. left. apply streqb_false in Ep. by split.
Qed.

Lemma Save_kept nonce s d s' d' : Save key nonce s d = inr (s', d') -> exists v, Validate s = inr v /\ kept_password key v d = inr s'.
Proof.
  unfold Save. destruct (Validate s) as [e|v] eqn:Ev; [done|]. intros Hr. apply tx_bind_inr in Hr as (d0 & d1 & Hg & Hr). injection Hg as <- <-.
  destruct (kept_password key v d) as [e|w] eqn:Ek; [done|]. destruct (Seal _ _ _ _ _); [|done].
  apply tx_bind_inr in Hr as (u & d2 & _ & H2). injection H2 as -> _. by exists v.
Qed.

(** What [Save] stores is what [Load] answers. *)
Lemma Save_loads nonce s d s' d' : Forall is_byte nonce -> length nonce = gcm_nonce_size -> mail_text s' = true ->
  Save key nonce s d = inr (s', d') ->
  exists v, Validate s = inr v /\ kept_password key v d = inr s' /\ Load key d' = inr (Some s').
Proof.
  intros Hb Hl Ht. unfold Save. destruct (Validate s) as [e|v] eqn:Ev; [done|]. intros Hr. apply tx_bind_inr in Hr as (d0 & d1 & Hg & Hr).
  injection Hg as <- <-. destruct (kept_password key v d) as [e|w] eqn:Ek; [done|].
  destruct (Open_Seal L key SealMail MailSettingKey (mail_Marshal w) nonce) as (c & _ & Hs & Ho); [apply M|done|done|].
  rewrite Hs in Hr. apply tx_bind_inr in Hr as (u & d2 & H1 & H2). injection H1 as _ <-. injection H2 as -> <-.
  exists v. split; [done|]. split; [done|]. unfold Load, on_system_settings. cbn [system_settings]. rewrite lookup_insert_eq, Ho.
  by rewrite (mail_roundtrip M).
Qed.
End mail_facts.

(** *** Trimming twice is trimming *)

Lemma first_some_None {A B} (f : A -> option B) l : first_some f l = None <-> forall a, In a l -> f a = None.
Proof.
  induction l as [|a l IH]; cbn; [split; [intros _ ? []|done]|]. destruct (f a) as [b|] eqn:E.
  - split; [done|]. intros Ha. by rewrite Ha in E; [|left].
  - rewrite IH. split; [intros Hl x [<-|Hx]; auto|auto].
Qed.

Lemma first_some_Some {A B} (f : A -> option B) l b : first_some f l = Some b -> exists a, In a l /\ f a = Some b.
Proof. induction l as [|a l IH]; cbn; [done|]. destruct (f a) as [x|] eqn:E; [intros [= <-]; eauto|]. intros (y & Hy & ?)%IH; eauto. Qed.

Lemma white_space_long p : In p white_space -> (1 <= String.length p)%nat.
Proof. cbn. intuition (subst; cbn; lia). Qed.

Lemma trim_with_done drop : (forall p s s', In p white_space -> drop p s = Some s' -> (String.length s' < String.length s)%nat) ->
  forall n s, (String.length s <= n)%nat -> forall p, In p white_space -> drop p (trim_with drop n s) = None.
Proof.
  intros Hd n. induction n as [|n IH]; intros s Hn p Hp; cbn [trim_with].
  - destruct (drop p s) as [s'|] eqn:E; [|done]. apply Hd in E; [lia|done].
  - destruct (first_some _ _) as [s'|] eqn:E; [|by rewrite first_some_None in E; apply E].
    apply first_some_Some in E as (q & Hq & E). apply IH; [|done]. apply Hd in E; [lia|done].
Qed.

Lemma substring_length n s : (n <= String.length s)%nat -> String.length (String.substring 0 n s) = n.
Proof. revert n. induction s as [|a s IH]; intros [|n] Hn; cbn in *; try lia. rewrite IH; lia. Qed.

Lemma prefix_of_substring p n : forall s, String.prefix p (String.substring 0 n s) = true -> String.prefix p s = true.
Proof.
  revert n. induction p as [|a p IH]; intros n [|b s]; cbn; [done|done|by destruct n|]. destruct n as [|n]; [done|]. cbn.
  destruct (Ascii.ascii_dec a b); [|done]. apply IH.
Qed.

Lemma prefix_length p : forall s, String.prefix p s = true -> (String.length p <= String.length s)%nat.
Proof. induction p as [|a p IH]; intros [|b s]; cbn; try lia; try done. destruct (Ascii.ascii_dec a b); [|done]. intros Hp%IH. lia. Qed.

Lemma substring_shorter i n : forall s, (String.length (String.substring i n s) <= n)%nat.
Proof. revert n. induction i as [|i IH]; intros n s; [revert s; induction n as [|n IHn]; intros [|a s]; cbn; try lia; specialize (IHn s); lia|]. destruct s; cbn; [lia|apply IH]. Qed.

Lemma TrimSpace_idempotent s : TrimSpace (TrimSpace s) = TrimSpace s.
Proof.
  unfold TrimSpace at 2 3. set (t := trim_with drop_prefix _ s). set (r := trim_with drop_suffix _ t).
  assert (forall p, In p white_space -> drop_prefix p t = None) as Ht.
  { intros p Hp. apply trim_with_done; [|done|done]. intros q x x' Hq. unfold drop_prefix. destruct (String.prefix q x) eqn:E; [|done]. intros [= <-].
    pose proof (white_space_long q Hq). pose proof (prefix_length q x E). pose proof (substring_shorter (String.length q) (String.length x - String.length q) x). lia. }
  assert (forall p, In p white_space -> drop_suffix p r = None) as Hr.
  { intros p Hp. apply trim_with_done; [|done|done]. intros q x x' Hq. unfold drop_suffix. destruct (Nat.leb_spec (String.length q) (String.length x)); [|done].
    destruct (_ =?s q); [|done]. cbn [andb]. intros [= <-]. pose proof (white_space_long q Hq).
    pose proof (substring_shorter 0 (String.length x - String.length q) x). lia. }
  assert (forall p, String.prefix p r = true -> String.prefix p t = true) as Hp.
  { unfold r. generalize (String.length t). intros n. generalize t. clear. induction n as [|n IH]; intros t p Hp; [done|]. cbn [trim_with] in Hp.
    destruct (first_some _ _) as [s'|] eqn:E; [|done]. apply first_some_Some in E as (q & _ & E). unfold drop_suffix in E.
    destruct (_ && _); [|done]. injection E as <-. apply IH in Hp. by eapply prefix_of_substring. }
  unfold TrimSpace. rewrite (trim_with_none drop_prefix r); [by apply trim_with_none|].
  intros p Hw. specialize (Ht p Hw). unfold drop_prefix in *. destruct (String.prefix p r) eqn:E; [|done]. by rewrite (Hp p E) in Ht.
Qed.

(** The settings through time: a fresh server, the administrators' edits with
    their outcome - each with its nonce, its texts as JSON decodes them - and
    whatever leaves the stored settings alone. *)
Inductive mail_history `{AEAD} `{Mailing} (key : list Z) : list MailSettings -> DB -> Prop :=
| mh_fresh d : system_settings d !! MailSettingKey = None -> mail_history key [] d
| mh_put sv rq dr now admin req l d rep d' : mail_history key l d ->
    Forall is_byte (w_raw dr 21) -> length (w_raw dr 21) = gcm_nonce_size -> mail_text (mail_trimmed req) = true ->
    serve (PutMail sv rq dr key now admin (Some req)) d = (rep, d') -> mail_history key (req :: l) d'
| mh_other l d d' : mail_history key l d -> system_settings d' !! MailSettingKey = system_settings d !! MailSettingKey -> mail_history key l d'.

Section mail_history_facts.
Context `{AEAD} `{Mailing} (L : aead_laws) (M : mail_laws) (key : list Z).

Definition entered_for (l : list MailSettings) (s : MailSettings) : Prop :=
  ms_Password s <> "" -> exists req, In req l /\ ms_Password req = ms_Password s /\ same_relay (mail_trimmed req) s = true.

Definition mail_ok (l : list MailSettings) (d : DB) : Prop := forall s, Load key d = inr (Some s) ->
  mail_text s = true /\ one_of (ms_Security s) ["tls"; "starttls"] = true /\ entered_for l s.

Lemma mail_ok_same l l' d d' : mail_ok l d -> (forall r, In r l -> In r l') ->
  system_settings d' !! MailSettingKey = system_settings d !! MailSettingKey -> mail_ok l' d'.
Proof.
  intros Hok Hl He s Hs. assert (Load key d = inr (Some s)) as Hs'; [by rewrite <- Hs; unfold Load; rewrite He|].
  apply Hok in Hs' as (H1 & H2 & H3). repeat (split; [done|]). intros Hp. destruct (H3 Hp) as (r & Hr & ?). eauto.
Qed.

Lemma same_relay_refl s : same_relay s s = true.
Proof. unfold same_relay. by rewrite !streqb_refl, Z.eqb_refl. Qed.

Lemma same_relay_true a b : same_relay a b = true ->
  ms_Host a = ms_Host b /\ ms_Port a = ms_Port b /\ ms_Username a = ms_Username b /\ ms_Security a = ms_Security b.
Proof. unfold same_relay. intros E. bool_hyps. repeat match goal with H : (_ =?s _) = true |- _ => apply streqb_true in H end. repeat split; [done|lia|done|done]. Qed.

Lemma same_relay_intro a b : ms_Host a = ms_Host b -> ms_Port a = ms_Port b -> ms_Username a = ms_Username b -> ms_Security a = ms_Security b ->
  same_relay a b = true.
Proof. unfold same_relay. intros -> -> -> ->. by rewrite !streqb_refl, Z.eqb_refl. Qed.

End mail_history_facts.

Section mail_history_theorem.
Context `{AEAD} `{Mailing} (L : aead_laws) (M : mail_laws) (key : list Z).

Lemma mail_trimmed_idempotent s : mail_trimmed (mail_trimmed s) = mail_trimmed s.
Proof. unfold mail_trimmed. cbn [ms_Host ms_Port ms_Username ms_Password ms_From ms_Security]. by rewrite !TrimSpace_idempotent. Qed.

Lemma Load_none d : system_settings d !! MailSettingKey = None -> Load key d = inr None.
Proof. unfold Load. by intros ->. Qed.

(** An edit stores the request trimmed, with its own password or, for the same
    relay, the one that was stored. *)
Lemma PutMail_loads sv rq dr now admin req d rep d' : Forall is_byte (w_raw dr 21) -> length (w_raw dr 21) = gcm_nonce_size ->
  serve (PutMail sv rq dr key now admin (Some req)) d = (rep, d') ->
  system_settings d' !! MailSettingKey = system_settings d !! MailSettingKey \/ system_settings d' !! MailSettingKey = None \/
  exists s, one_of (ms_Security s) ["tls"; "starttls"] = true /\ kept_password key (mail_trimmed req) d = inr s /\
    (mail_text s = true -> Load key d' = inr (Some s)).
Proof.
  intros Hb Hl. unfold PutMail. destruct (TrimSpace (ms_Host req) =?s "").
  - rewrite serve_bind. unfold answering, EditSettings. destruct (auditedTx _ _ _ d) as [[e|u] d1] eqn:Er.
    + intros [= _ <-]. apply commit_inl in Er as [-> _]. by left.
    + intros [= _ <-]. apply auditedTx_inr in Er as (d2 & m & q & H1 & ->). right. left.
      unfold Clear, deleteSetting, tx_set in H1. injection H1 as H1. subst d2. exact (lookup_delete_eq (system_settings d) MailSettingKey).
  - rewrite serve_bind. unfold answering at 1. destruct (Validate req) as [e|v] eqn:Ev; [intros [= _ <-]; by left|]. rewrite serve_bind.
    unfold answering. destruct (auditedTx _ _ _ d) as [[e|s] d1] eqn:Er.
    + intros [= _ <-]. apply commit_inl in Er as [-> _]. by left.
    + intros [= _ <-]. right. right. apply auditedTx_inr in Er as (d2 & m & q & H1 & ->).
      apply Validate_inr in Ev as [-> Hv]. exists s. destruct (Save_kept key _ _ _ _ _ H1) as (w & Hw & Hk). apply Validate_inr in Hw as [-> Hw].
      rewrite mail_trimmed_idempotent in Hk. split; [by destruct (kept_inr _ _ _ _ Hk) as [[-> _]|(c & _ & _ & _ & _ & ->)]|]. split; [done|].
      intros Ht. destruct (Save_loads L M key _ _ _ _ _ Hb Hl Ht H1) as (_ & _ & _ & Hld). exact Hld.
Qed.

Lemma mail_history_ok l d : mail_history key l d -> mail_ok key l d.
Proof.
  induction 1 as [d Hd|sv rq dr now admin req l d rep d' _ IH Hb Hl Ht Hr|l d d' _ IH He].
  - intros s Hs. by rewrite (Load_none d Hd) in Hs.
  - destruct (PutMail_loads _ _ _ _ _ _ _ _ _ Hb Hl Hr) as [He|[He|(s & Hsec & Hk & Hld)]].
    + eapply mail_ok_same; [exact IH| |done]. by right.
    + intros s Hs. by rewrite (Load_none _ He) in Hs.
    + destruct (kept_inr _ _ _ _ Hk) as [[-> _]|(c & Hp & Hc & Hpc & Hr1 & ->)].
      * intros s Hs. rewrite Hld in Hs by done. injection Hs as <-. split; [done|]. split; [done|]. intros _. exists req.
        split; [by left|]. split; [done|apply same_relay_refl].
      * destruct (IH c Hc) as (Htc & _ & Hin).
        assert (mail_text (with_password (ms_Password c) (mail_trimmed req)) = true) as Htk.
        { revert Ht Htc. unfold mail_text. cbn [forallb with_password ms_Host ms_Username ms_Password ms_From ms_Security]. intros. bool_hyps.
          repeat (apply andb_true_iff; split); done. }
        intros s Hs. rewrite Hld in Hs by done. injection Hs as <-. split; [done|]. split; [done|].
        intros _. destruct (Hin Hpc) as (r & Hir & Hpr & Hrr). exists r. split; [by right|]. split; [done|].
        apply same_relay_true in Hr1 as (? & ? & ? & ?), Hrr as (? & ? & ? & ?).
        apply same_relay_intro; cbn [with_password ms_Host ms_Port ms_Username ms_Security]; congruence.
  - eapply mail_ok_same; [exact IH|done|done].
Qed.

(** C12. Whatever the history of the mail settings, a relay is told the stored
    password only where an administrator entered it for that very host,
    port, user and transport; and in every conversation with any relay the
    password, the addresses and the message are said only after TLS with the
    configured host began. *)
Theorem mail_secrets_stay_with_their_relay l d s : mail_history key l d -> Load key d = inr (Some s) ->
  entered_for l s /\
  forall to subject body date, let sent := (Send (Some s) to subject body date []).2 in discreet (ms_Host s) sent /\ speaks_for s sent.
Proof.
  intros Hh Hs. destruct (mail_history_ok l d Hh s Hs) as (_ & Hsec & Hin). split; [done|].
  intros to subject body date. split; [by apply Send_discreet|]. apply Send_speaks. intros c [].
Qed.
End mail_history_theorem.

(** *** Forgotten passwords *)

Section forgot_facts.
Context `{Codec} `{Primitives} `{AEAD} `{Wire} `{Formats} `{Mailing}.
Context (sv : Server) (rq : Request) (dr : WebDraws) (encryptionKey : list Z) (issuerURL date : string) (now : Z).
Notation Forgot := (Forgot sv rq dr encryptionKey issuerURL date now).

Definition generic : Reply := MkReply 200 (JObj [("success", JBool true)]) None None.

Lemma observe_frame n action actor name target kind outcome details d : exists m q,
  Observe sv rq dr now n action actor name target kind outcome details d = (inr tt, audited m q d).
Proof.
  unfold Observe. destruct (commit _ d) as [[e|[]] d1] eqn:E.
  - apply commit_inl in E as [-> _]. exists (audit_events d), (alert_queue d). by destruct d.
  - apply commit_inr, recordAuditTx_inv in E as (m & q & ->). by exists m, q.
Qed.

(** The accounts that may be sent a reset link. *)
Definition resettable (allowed : bool) (id : string) (d : DB) : Prop := exists u s, forgotten now id d = Some u /\
  u_Status u = "active" /\ u_Pending u = false /\ is_Some (u_EmailVerifiedAt u) /\ allowed = true /\ Load encryptionKey d = inr (Some s).

(** C: forgot. Asking for a reset is answered the same whoever asks and for
    whatever name or address - whether or not the account exists, is active, has
    proved its address, or mail is configured; a link is written only for an
    active account with a proved address, within its allowance. *)
Theorem a_reset_request_reveals_nothing allowed body d : TrimSpace (default "" body) <> "" ->
  (serve (Forgot allowed body) d).1 = generic /\
  (resettable allowed (TrimSpace (default "" body)) d \/ account_tokens (serve (Forgot allowed body) d).2 = account_tokens d).
Proof.
  intros Hne. apply streqb_false in Hne. unfold Forgot. rewrite serve_bind. unfold demand, run_guard. rewrite Hne. cbn [negb].
  set (id := TrimSpace _). rewrite serve_bind. cbn [ask].
  assert (forall outcome reason u d, exists m q, serve (reset_noted sv rq dr now u outcome reason ~;; success) d = (generic, audited m q d)) as Hn.
  { intros outcome reason u d0. rewrite serve_bind. unfold reset_noted, observed. destruct (observe_frame 2 "auth.password_reset_requested" (u_ID u) (u_Username u) (u_ID u) "user" outcome (JObj [("reason", JStr reason)]) d0) as (m & q & ->). by exists m, q. }
  destruct (forgotten now id d) as [u|] eqn:Eu; [|split; [done|by right]].
  destruct (u_Status u =?s "active") eqn:Es; cbn [negb orb]; [|split; [done|by right]].
  destruct (u_Pending u) eqn:Ep; [split; [done|by right]|].
  destruct allowed; cbn [negb]; [|destruct (Hn "denied" "rate_limited" u d) as (m & q & ->); split; [done|by right]].
  destruct (u_EmailVerifiedAt u) as [at_|] eqn:Ev; cbn [is_null]; [|destruct (Hn "denied" "email_unverified" u d) as (m & q & ->); split; [done|by right]].
  rewrite serve_bind. cbn [ask].
  destruct (Load encryptionKey d) as [e|[s|]] eqn:El;
    [destruct (Hn "failure" "mail_not_configured" u d) as (m & q & ->); split; [done|by right]| |
     destruct (Hn "failure" "mail_not_configured" u d) as (m & q & ->); split; [done|by right]].
  split; [|left; exists u, s; apply streqb_true in Es; rewrite Ev; eauto 7].
  rewrite serve_bind. unfold attempt. destruct (IssueAccountToken _ _ _ _ _ _ _ _ d) as [[e|[]] d1]; [done|].
  rewrite serve_bind. destruct (send_error _ _ _ _ _); [|done]. unfold observed.
  match goal with |- context [Observe ?sv ?rq ?dr ?now ?n ?a ?b ?c ?t ?k ?o ?det d1] => destruct (observe_frame n a b c t k o det d1) as (m & q & ->) end.
  done.
Qed.
End forgot_facts.

(** *** Changing the password *)

Section change_facts.
Context `{Codec} `{Primitives} `{AEAD} `{Wire} `{Formats} `{Mailing}.
Context (sv : Server) (rq : Request) (dr : WebDraws) (lid : string -> string) (now : Z).

(** The account's sessions apart. *)
Definition without_sessions (user : string) (d : DB) : DB := on_sessions (delete_where (fun s => s_UserID s =?s user)) d.

(** Signing in by cookie and spending a grant touch no factor. *)
Lemma same_factors_trans d d1 d2 : same_factors d d1 -> same_factors d1 d2 -> same_factors d d2.
Proof. intros (E1 & E2 & E3 & E4) (F1 & F2 & F3 & F4). repeat split; congruence. Qed.

Lemma authenticate_same_factors h cache d r d' : authenticate h cache now d = (r, d') -> same_factors d d'.
Proof. unfold authenticate. repeat case_match; intros [= _ <-]; by repeat split. Qed.

Lemma consume_same_factors user sess d b d' : consume_grant rq now user sess d = (b, d') -> same_factors d d'.
Proof. unfold consume_grant, ConsumeStepUpToken. case_match; intros [= _ <-]; by repeat split. Qed.

(** What the store writes for a change. *)
Lemma change_leaves user keep hash audit d u d' : Directory.ChangePassword lid user keep hash audit now d = (inr u, d') ->
  exists row, users d !! user = Some row /\ u_Status row = "active" /\ u_Pending row = false /\
    users d' = <[user := set_u_UpdatedAt now (set_u_PasswordChangeRequired false (set_u_PasswordHash hash row))]> (users d) /\
    (forall k s, sessions d' !! k = Some s <-> sessions d !! k = Some s /\ (s_UserID s = user -> s_ID s = keep)) /\
    holds_access now user (without_sessions user d') = false /\ same_factors d d'.
Proof.
  unfold Directory.ChangePassword. intros Hr. apply auditedTx_inr in Hr as (e & m & q & Hr & ->).
  apply tx_bind_inr in Hr as (a1 & d0 & He & Hr). injection He as <- <-. destruct (users d !! user) as [row|] eqn:Eu; [|done].
  apply tx_bind_inr in Hr as (a2 & d0 & He & Hr). apply tx_guard_inr in He as [Hg ->]. bool_hyps.
  apply tx_bind_inr in Hr as (a3 & d0 & He & Hr). injection He as _ <-.
  apply tx_bind_inr in Hr as (a4 & d1 & He & Hr). apply revokeSessionsTx_inv in He as (_ & m1 & _ & ->).
  apply tx_bind_inr in Hr as (a5 & d0 & He & Hr). injection He as _ <-.
  apply tx_bind_inr in Hr as (a6 & d0 & He & Hr). rewrite revokeSessionGrantsTx_eq in He. injection He as _ <-.
  apply tx_bind_inr in Hr as (a7 & d0 & He & Hr). injection He as _ <-. rewrite expireAccountTokens_eq in Hr. injection Hr as _ <-.
  exists row. split; [done|]. do 3 (split; [done|]). split; [|split; [|by repeat split]].
  - intros k s. cbn -[delete_where update_where].
    rewrite lookup_delete_where_Some. split; intros [Hs Hk]; (split; [done|]).
    + intros <-. rewrite streqb_refl in Hk. cbn in Hk. by destruct (s_ID s =?s keep) eqn:E; [apply streqb_true|].
    + apply andb_false_iff. destruct (s_UserID s =?s user) eqn:E; [right|by left]. apply streqb_true in E. by rewrite (Hk E), streqb_refl.
  - unfold holds_access, without_sessions. repeat (apply orb_false_iff; split); cbn -[exists_where delete_where update_where];
      first [apply exists_where_deleted | apply exists_where_updated]; row_hyps.
Qed.

Lemma hash_or_refuse_inr password d hash d' : hash_or_refuse dr password d = (inr hash, d') ->
  HashPassword (w_busy dr) (w_raw dr 20) password = inr hash /\ d' = d.
Proof. unfold hash_or_refuse. destruct (HashPassword _ _ _) as [[]|h]; try done. by intros [= <- <-]. Qed.

Lemma current_right_inr user current d u d' : current_password_right sv rq dr now user current d = (inr u, d') ->
  d' = d /\ (current = "" \/ VerifyPassword (w_busy dr) current (u_PasswordHash user) = inr true).
Proof.
  unfold current_password_right. destruct (current =?s "") eqn:E; [intros [= _ <-]; apply streqb_true in E; auto|].
  destruct (VerifyPassword _ _ _) as [[]|[]]; try done; try (intros Hr; apply run_bind_inr in Hr as (? & ? & _ & Hr); discriminate Hr).
  intros [= _ <-]. auto.
Qed.

Lemma not_reused_inr user new d u d' : not_reused dr user new d = (inr u, d') ->
  d' = d /\ (u_PasswordChangeRequired user = true -> VerifyPassword (w_busy dr) new (u_PasswordHash user) = inr false).
Proof.
  unfold not_reused. destruct (u_PasswordChangeRequired user); [|by intros [= _ <-]].
  destruct (VerifyPassword _ _ _) as [[]|reused]; try done. intros Hr. apply demand_inr in Hr as [Hb ->]. by destruct reused.
Qed.

Lemma refuses_answering {A} f (m : DB -> (StoreError + A) * DB) : (forall e, rp_Status (f e) <> 200) -> refuses (answering f m).
Proof. intros Hf d r d'. unfold answering. destruct (m d) as [[e|a] d1]; [by intros [= <- _]|done]. Qed.
Lemma refuses_observe n action actor name target kind outcome details : refuses (Observe sv rq dr now n action actor name target kind outcome details).
Proof. by intros d r d'. Qed.
Lemma refuses_hash password : refuses (hash_or_refuse dr password).
Proof. unfold hash_or_refuse. destruct (HashPassword _ _ _) as [[]|]; by first [apply refuses_ret|apply refuses_fail]. Qed.

Lemma refuses_current user current : refuses (current_password_right sv rq dr now user current).
Proof.
  unfold current_password_right. destruct (current =?s ""); [apply refuses_ret|].
  destruct (VerifyPassword _ _ _) as [[]|[]]; first [by apply refuses_ret|by apply refuses_fail|by apply refuses_bind; [apply refuses_observe|intros _; apply refuses_fail]].
Qed.

Lemma refuses_not_reused user new : refuses (not_reused dr user new).
Proof.
  unfold not_reused. destruct (u_PasswordChangeRequired user); [|apply refuses_ret].
  destruct (VerifyPassword _ _ _) as [[]|]; first [by apply refuses_fail|by apply refuses_demand].
Qed.

Lemma refuses_change spent user sess body : refuses (ChangePassword sv rq dr lid now spent user sess body).
Proof.
  unfold ChangePassword. destruct body as [req|]; [|by apply refuses_fail].
  apply refuses_bind; [by apply refuses_demand|intros _]. apply refuses_bind; [apply refuses_current|intros _].
  apply refuses_bind; [apply refuses_not_reused|intros _]. apply refuses_bind; [apply refuses_hash|intros hash].
  apply refuses_bind; [apply refuses_answering; by intros []|intros _; apply refuses_ret].
Qed.

(** C14. A signed-in password change that succeeds was asked for in a live
    session that spent a step-up grant; a current password that was sent was
    right and a required change chose another password. It stores the new
    hash, keeps of the account's sessions only the one it was made in,
    leaves the account no code, token, waiting or pending login, step-up
    proof, pairing token or account link, ends no one else's session, and
    keeps the devices, authenticators, recovery codes and passkeys. *)
Theorem a_password_change_keeps_one_session body d rep d' :
  serve (password_route sv rq dr lid now body) d = (rep, d') -> rp_Status rep = 200 ->
  exists req user sess d0 d1 row hash, body = Some req /\
    authenticate (session_cookie_hash rq) (sv_limits sv) now d = (Some (user, sess), d0) /\ consume_grant rq now user sess d0 = (true, d1) /\
    (cp_CurrentPassword req = "" \/ VerifyPassword (w_busy dr) (cp_CurrentPassword req) (u_PasswordHash user) = inr true) /\
    (u_PasswordChangeRequired user = true -> VerifyPassword (w_busy dr) (cp_NewPassword req) (u_PasswordHash user) = inr false) /\
    HashPassword (w_busy dr) (w_raw dr 20) (cp_NewPassword req) = inr hash /\
    users d1 !! u_ID user = Some row /\
    users d' = <[u_ID user := set_u_UpdatedAt now (set_u_PasswordChangeRequired false (set_u_PasswordHash hash row))]> (users d1) /\
    (forall k s, sessions d' !! k = Some s <-> sessions d1 !! k = Some s /\ (s_UserID s = u_ID user -> s_ID s = s_ID sess)) /\
    holds_access now (u_ID user) (without_sessions (u_ID user) d') = false /\ same_factors d d'.
Proof.
  intros Hr Hs. apply serve_success in Hr; [|apply refuses_bind; [apply refuses_auth_gate|intros who; apply refuses_bind; [apply refuses_spend_step_up|intros _; apply refuses_change]]|done].
  unfold password_route, RequireAuth in Hr. apply run_bind_inr in Hr as ([user sess] & d0 & Ha & Hr). apply auth_gate_inr in Ha as (Ha & _ & _).
  apply run_bind_inr in Hr as ([] & d1 & Hst & Hr). apply spend_step_up_inr in Hst. cbn [fst snd] in Hst, Hr.
  unfold ChangePassword in Hr. destruct body as [req|]; [|done].
  apply run_bind_inr in Hr as ([] & d2 & Hx & Hr). apply demand_inr in Hx as [_ ->].
  apply run_bind_inr in Hr as ([] & d2 & Hx & Hr). apply current_right_inr in Hx as [-> Hcur].
  apply run_bind_inr in Hr as ([] & d2 & Hx & Hr). apply not_reused_inr in Hx as [-> Hnew].
  apply run_bind_inr in Hr as (hash & d2 & Hx & Hr). apply hash_or_refuse_inr in Hx as [Hh ->].
  apply run_bind_inr in Hr as ([] & d2 & Hx & Hr). injection Hr as _ <-. unfold answering in Hx.
  destruct (Directory.ChangePassword _ _ _ _ _ _ d1) as [[e|[]] d3] eqn:Ec; [done|]. injection Hx as <-.
  apply change_leaves in Ec as (row & Hrow & _ & _ & Hu & Hse & Hno & Hsf).
  assert (same_factors d d1) as H01.
  { eapply same_factors_trans; [|by eapply consume_same_factors]. by eapply authenticate_same_factors. }
  pose proof (same_factors_trans _ _ _ H01 Hsf).
  exists req, user, sess, d0, d1, row, hash. done.
Qed.
End change_facts.

(** *** The audit trail of the mail settings *)

Section mail_trail.
Context `{AEAD} `{Mailing} (sv : Server) (rq : Request) (dr : WebDraws) (encryptionKey : list Z) (now : Z) (admin : User).

Lemma calm_validate req : calm (answering (writeInputError "invalid_request") (fun d => (Validate req, d))).
Proof.
  intros d. unfold answering. destruct (Validate req) as [e|v] eqn:E; [|apply untouched_refl]. split; [by destruct e|apply untouched_refl].
Qed.

Lemma settled_PutMail body : settled sv rq dr admin "admin.mail_configured" (PutMail sv rq dr encryptionKey now admin body).
Proof.
  unfold PutMail, mail_event, EditSettings. destruct body as [req|]; [|by apply settled_fail]. destruct (_ =?s ""); [settle|].
  apply settled_bind; [apply calm_validate|intros v]. settle.
Qed.
End mail_trail.

(** *** The audit trail of the links *)

Section link_trail.
Context `{Codec} `{Primitives} `{AEAD} `{Wire} `{Formats} `{Mailing}.
Context (sv : Server) (rq : Request) (dr : WebDraws) (encryptionKey : list Z) (issuerURL date : string) (now : Z) (admin : User).
Notation logged := (logged sv rq dr admin "admin.account_link_issued").

(** Answered 200, the link's event is there, and so it is when the message was
    not accepted; answered otherwise, nothing changed but the audit trail. *)
Definition link_settled (m : Handler Reply) : Prop := forall d,
  match m d with
  | (inl rep, d') => rp_Status rep <> 200 /\ (if rp_Status rep =? 502 then logged d' else untouched d d')
  | (inr rep, d') => rp_Status rep = 200 /\ logged d'
  end.

Lemma IssueAccountToken_logs token hash user kind delivery ttl ev at_ : reports sv rq dr admin "admin.account_link_issued" ev ->
  op_logs sv rq dr admin "admin.account_link_issued" always (IssueAccountToken token hash user kind delivery ttl ev at_).
Proof. apply op_logs_auditedTx. Qed.

Lemma link_refusal_status e : rp_Status (issue_refusal e) <> 200 /\ rp_Status (issue_refusal e) <> 502.
Proof. by destruct e. Qed.

(** The row first, then the message. *)
Lemma issue_tail u kind send : link_settled (issue sv rq dr encryptionKey issuerURL date now admin u kind send).
Proof.
  unfold issue. cbn zeta.
  assert (forall settings : option MailSettings, link_settled (let delivery := match settings with Some _ => "email" | None => "manual" end in
    answering issue_refusal (IssueAccountToken (w_id dr 23) (HashSHA256 (link_token dr)) (u_ID u) kind delivery
      (if kind =?s "activation" then ActivationTTL else ResetTTL) (link_issued sv rq dr now admin u kind delivery) now) ~;;
    match settings with
    | None => writeJSON ([("kind", JStr kind); ("delivery", JStr delivery);
        ("expiresAt", time_text (now + (if kind =?s "activation" then ActivationTTL else ResetTTL)))] ++ [("link", JStr (link issuerURL kind (link_token dr)))])%list
    | Some _ =>
      match send_error settings (u_Email u) (link_subject kind) (link_body issuerURL u kind (link_token dr)) date with
      | Some e => observed sv rq dr now admin "admin.account_link_delivery" (u_ID u) "user" "failure" (JObj [("kind", JStr kind); ("error", JStr e)]) ~;;
        refuse 502 "mail_failed"
      | None => writeJSON [("kind", JStr kind); ("delivery", JStr delivery);
          ("expiresAt", time_text (now + (if kind =?s "activation" then ActivationTTL else ResetTTL)))]
      end
    end)) as Hk.
  { intros settings d. cbn zeta. unfold run_bind at 1, answering.
    match goal with |- context [IssueAccountToken ?t ?h ?u ?k ?de ?ttl ?ev ?n d] =>
      pose proof (IssueAccountToken_logs t h u k de ttl ev n (reports_event _ _ _ _ _ _ _ _ _) d) as Ho;
      destruct (IssueAccountToken t h u k de ttl ev n d) as [[e|[]] d1] end.
    - subst d1. destruct (link_refusal_status e) as [Hx Hy]. split; [done|]. replace (_ =? 502) with false by lia. apply untouched_refl.
    - cbn [always] in Ho. destruct settings as [s|]; [|by split].
      destruct (send_error _ _ _ _ _) as [e|]; [|by split]. unfold run_bind.
      match goal with |- context [observed ?a ?b ?c ?d ?e ?f ?g ?h ?i ?j d1] => pose proof (logged_observed a b c d e "admin.account_link_issued" f g h i j d1 Ho) as Hl end.
      destruct (observed _ _ _ _ _ _ _ _ _ _ d1) as [[r|[]] d2] eqn:Eo; cbn [snd] in Hl.
      + unfold observed, Observe in Eo. discriminate Eo.
      + split; [done|exact Hl]. }
  destruct send; [|exact (Hk None)].
  intros d. unfold run_bind at 1 2, mail_or_500. destruct (Load encryptionKey d) as [e|[s|]].
  - split; [done|apply untouched_refl].
  - exact (Hk (Some s) d).
  - split; [done|apply untouched_refl].
Qed.

Lemma settled_AdminIssueLink kind body : link_settled (AdminIssueLink sv rq dr encryptionKey issuerURL date now kind admin body).
Proof.
  intros d. unfold AdminIssueLink, path_user, ask. unfold run_bind at 1 2. destruct (get_user now d (r_PathID rq)) as [u|].
  - apply issue_tail.
  - split; [done|apply untouched_refl].
Qed.

(** A test message leaves its outcome in the audit trail and nothing else. *)
Lemma calm_TestMail : calm (TestMail sv rq dr encryptionKey date now admin).
Proof.
  unfold TestMail. apply calm_bind; [intros d; unfold mail_or_500; destruct (Load encryptionKey d); [by split; [|apply untouched_refl]|apply untouched_refl]|intros settings].
  apply calm_bind; [auto with trail|intros _]. cbn zeta. apply calm_bind; [auto with trail|intros _]. apply calm_bind; [auto with trail|intros _]. apply calm_ret.
Qed.
End link_trail.

(** ** What a change of factors costs *)

(** The changes of an account's own devices and factors, by their routes. *)
Inductive FactorRequest :=
| FPairingToken (signOn : option (option bool))
| FDeleteDevice
| FApprover (body : option bool)
| FSignOn (body : option bool)
| FEnableTOTP (body : option EnableTOTPRequest)
| FRecoveryCodes
| FRegisterPasskey (req : finishRegistrationRequest)
| FDeletePasskey.

Section factors.
Context `{Codec} `{Primitives} `{AEAD} `{Wire} `{Formats} `{Ceremonies}.
Context (sv : Server) (rq : Request) (dr : WebDraws) (issuerURL : string) (lid : string -> string) (now : Z).

Definition factor_handler (q : FactorRequest) (user : User) (sess : Session) : Handler Reply :=
  match q with
  | FPairingToken signOn => GenerateDevicePairingToken sv rq dr issuerURL now signOn user sess
  | FDeleteDevice => DeleteUserDevice sv rq dr now user sess
  | FApprover body => SetDeviceMFAApprover sv rq dr now body user sess
  | FSignOn body => SetDeviceSignOn sv rq dr now body user sess
  | FEnableTOTP body => EnableTOTP sv rq dr lid now body user sess
  | FRecoveryCodes => GenerateRecoveryCodes sv rq dr now user sess
  | FRegisterPasskey req => FinishRegistration sv rq dr now user sess req
  | FDeletePasskey => DeletePasskey sv rq dr now user sess
  end.

(** [authM(...)]. *)
Definition factor_route (q : FactorRequest) : Handler Reply := RequireAuth sv rq now (factor_handler q).

(** What an account signs in with besides its password, and what enrolls more. *)
Definition factors_of (d : DB) := (native_devices d, mfa_methods d, recovery_codes d, webauthn_credentials d, device_pairing_tokens d).

(** A handler that refuses and leaves the factors as they are, or spends the grant. *)
Definition gated (user : User) (sess : Session) (m : Handler Reply) : Prop := forall d rep d', serve m d = (rep, d') ->
  (rp_Status rep <> 200 /\ factors_of d' = factors_of d) \/ exists d1, consume_grant rq now user sess d = (true, d1).

Lemma gated_fail user sess rep : rp_Status rep <> 200 -> gated user sess (run_fail rep).
Proof. intros Hr d r d' [= <- <-]. by left. Qed.

Lemma gated_demand user sess b status code m : status <> 200 -> gated user sess m -> gated user sess (demand b status code ~;; m).
Proof.
  intros Hs Hm d r d'. rewrite serve_bind. unfold demand, run_guard. destruct b; [apply Hm|]. intros [= <- <-]. by left.
Qed.

Lemma gated_consume user sess (k : unit -> Handler Reply) : gated user sess (run_bind (consumeStepUp rq now user sess) k).
Proof.
  intros d r d'. rewrite serve_bind. unfold consumeStepUp. destruct (consume_grant rq now user sess d) as [spent d1] eqn:E.
  destruct spent; [by right; exists d1|]. intros [= <- <-]. left. split; [done|].
  unfold consume_grant, ConsumeStepUpToken in E. destruct (r_StepUpHeader rq =?s ""); [by injection E as <-|]. apply (f_equal snd) in E. cbn [snd] in E. by rewrite <- E.
Qed.

Lemma factor_handlers_gated q user sess : gated user sess (factor_handler q user sess).
Proof.
  destruct q as [[signOn|]| |[b|]|[b|]|[req|]| |req|]; try (by apply gated_fail); try apply gated_consume.
  - unfold factor_handler, EnableTOTP. do 2 (apply gated_demand; [done|]). apply gated_consume.
  - unfold factor_handler, FinishRegistration. apply gated_demand; [done|]. apply gated_consume.
Qed.

Lemma authenticate_factors h cache d : factors_of (authenticate h cache now d).2 = factors_of d.
Proof. unfold authenticate. repeat case_match; try done; simplify_eq; try done. Qed.

(** C13. No account's own route changes its devices, authenticator, recovery
    codes or passkeys without a step-up grant: a change answered with
    success, or that touches any of them, was made in a live session of the
    account with a grant it spent for exactly that request. *)
Theorem no_factor_changes_without_a_grant q d rep d' : serve (factor_route q) d = (rep, d') ->
  rp_Status rep = 200 \/ factors_of d' <> factors_of d ->
  exists user sess d0 d1, authenticate (session_cookie_hash rq) (sv_limits sv) now d = (Some (user, sess), d0) /\
    consume_grant rq now user sess d0 = (true, d1).
Proof.
  unfold factor_route, RequireAuth. rewrite serve_bind. intros Hr Hc.
  pose proof (authenticate_factors (session_cookie_hash rq) (sv_limits sv) d) as Hf.
  destruct (auth_gate sv rq now d) as [[r|[user sess]] d0] eqn:Eg.
  - exfalso. injection Hr as <- <-. destruct Hc as [Hc|Hc]; [by apply refuses_auth_gate in Eg|].
    apply auth_gate_refused in Eg as ->. by apply Hc.
  - apply auth_gate_inr in Eg as (Ha & _). rewrite Ha in Hf. cbn [snd] in Hf. apply factor_handlers_gated in Hr.
    destruct Hr as [[Hs Hk]|(d1 & Hg)]; [destruct Hc; [done|congruence]|]. by exists user, sess, d0, d1.
Qed.
End factors.

(** ** Witnesses *)

#[local] Existing Instances sample_codec toy_primitives toy_aead toy_wire toy_formats toy_ceremonies.

Definition mail_tuple (s : MailSettings) := (ms_Host s, ms_Port s, ms_Username s, ms_Password s, (ms_From s, ms_Security s)).
Definition toy_mail_read (l : list Z) : option MailSettings :=
  match decode (text_pos (string_of l)) with
  | Some (host, port, user, password, (from, security)) => Some (MkMailSettings host port user password from security)
  | None => None
  end.
#[local] Instance toy_mailing : Mailing := {|
  ParseAddress := fun s => if has_char 64 s then inr s else inl "missing @";
  mail_Marshal := fun s => bytes_of (pos_text (encode (mail_tuple s)));
  mail_Unmarshal := toy_mail_read;
  smtp_answer := fun _ _ => None |}.

Lemma toy_mail_laws : mail_laws.
Proof.
  split; [intros s; apply bytes_of_bytes|]. intros [] _. cbn [mail_Unmarshal mail_Marshal toy_mailing]. unfold toy_mail_read.
  rewrite string_bytes, pos_text_pos, countable.decode_encode. reflexivity.
Qed.

Definition mail_draws (prefix : string) : WebDraws := MkWebDraws (fun n => String.append prefix (pretty n)) (fun n => repeat 5 12) false true 32 (fun n => 5).
Definition relay (password from : string) : MailSettings := MkMailSettings " smtp.example.org " 587 "mailer" password from "starttls".
Definition put_mail (prefix : string) (s : MailSettings) (d : DB) : DB :=
  (serve (PutMail toy_server rename_request (mail_draws prefix) (repeat 7 32) t0 (sample_user "alice" "admin") (Some s)) d).2.
Definition mail_db : DB := put_mail "b" (relay "" "new@example.org") (put_mail "a" (relay "secret" "old@example.org") sample_db).

Lemma mail_secrets_stay_with_their_relay_witness : exists s, Load (repeat 7 32) mail_db = inr (Some s) /\ ms_Password s = "secret" /\
  ms_From s = "new@example.org" /\ exists req, In req [relay "" "new@example.org"; relay "secret" "old@example.org"] /\ ms_Password req = "secret".
Proof.
  assert (mail_history (repeat 7 32) [relay "" "new@example.org"; relay "secret" "old@example.org"] mail_db) as Hh.
  { unfold mail_db, put_mail.
    eapply (mh_put _ toy_server rename_request (mail_draws "b") t0 (sample_user "alice" "admin"));
      [|vm_compute; repeat constructor; discriminate|reflexivity|vm_compute; reflexivity|apply surjective_pairing].
    eapply (mh_put _ toy_server rename_request (mail_draws "a") t0 (sample_user "alice" "admin"));
      [|vm_compute; repeat constructor; discriminate|reflexivity|vm_compute; reflexivity|apply surjective_pairing].
    apply mh_fresh. reflexivity. }
  destruct (Load (repeat 7 32) mail_db) as [e|[s|]] eqn:E; [vm_compute in E; discriminate E| |vm_compute in E; discriminate E].
  exists s. assert (ms_Password s = "secret" /\ ms_From s = "new@example.org") as [Hp Hf].
  { vm_compute in E. injection E as <-. split; reflexivity. }
  split; [reflexivity|]. split; [exact Hp|]. split; [exact Hf|].
  destruct (mail_secrets_stay_with_their_relay toy_aead_laws toy_mail_laws (repeat 7 32) _ mail_db s Hh E) as [Hin _].
  destruct Hin as (req & Hi & Hq & _); [rewrite Hp; discriminate|]. exists req. split; [exact Hi|congruence].
Defined.

Lemma a_reset_request_reveals_nothing_witness :
  (serve (Forgot toy_server rename_request (mail_draws "c") (repeat 7 32) "https://id.example.org" "date" t0 true (Some "alice")) mail_db).1 = generic /\
  (serve (Forgot toy_server rename_request (mail_draws "c") (repeat 7 32) "https://id.example.org" "date" t0 true (Some "nobody")) mail_db).1 = generic.
Proof.
  split; apply a_reset_request_reveals_nothing; vm_compute; discriminate.
Defined.

(** Bob, signed in with the password of [login_db], and a grant for [operation]. *)
Definition granted_db (operation : string) : DB :=
  on_step_up_tokens (fun _ => {[ "g1" := MkStepUpToken operation "totp" "g1" "bob" "s1" (HashSHA256 "grant") (t0 + 5 * minute) None t0 ]})
    (on_sessions (fun _ => {[ "s1" := sample_session "s1" "bob" (HashSHA256 "cookie"); "s2" := sample_session "s2" "bob" "h2" ]}) login_db).
Definition granted_request (method path id : string) : Request :=
  MkRequest method path id toy_peer "agent" (Some "cookie") (Some toy_token) None toy_token "" "grant".

Lemma a_password_change_keeps_one_session_witness : exists rep d' user sess,
  serve (password_route toy_server (granted_request "POST" "/api/user/password" "") toy_web_draws (fun s => s) t0
    (Some (MkChangePasswordRequest "" "a longer pass phrase"))) (granted_db "POST /api/user/password") = (rep, d') /\
  sessions d' !! "s1" = Some sess /\ sessions d' !! "s2" = None /\ holds_access t0 (u_ID user) (without_sessions (u_ID user) d') = false.
Proof.
  destruct (serve (password_route toy_server (granted_request "POST" "/api/user/password" "") toy_web_draws (fun s => s) t0
    (Some (MkChangePasswordRequest "" "a longer pass phrase"))) (granted_db "POST /api/user/password")) as [rep d'] eqn:E.
  assert (rp_Status rep = 200) as Hs by (apply (f_equal (fun x => rp_Status x.1)) in E; cbn [fst] in E; rewrite <- E; vm_compute; reflexivity).
  destruct (a_password_change_keeps_one_session _ _ _ _ _ _ _ _ _ E Hs) as (req & user & sess & d0 & d1 & row & hash & _ & Ha & _ & _ & _ & _ & _ & _ & _ & Hno & _).
  exists rep, d', user.
  assert (exists s, sessions d' !! "s1" = Some s) as [s Hs1] by (apply (f_equal snd) in E; cbn [snd] in E; rewrite <- E; vm_compute; eauto).
  exists s. split; [reflexivity|]. split; [exact Hs1|]. split; [|exact Hno].
  apply (f_equal snd) in E. cbn [snd] in E. rewrite <- E. vm_compute. reflexivity.
Defined.

Lemma no_factor_changes_without_a_grant_witness : exists user sess d0 d1,
  authenticate (session_cookie_hash (granted_request "POST" "/api/user/recovery-codes" "")) None t0 (granted_db "POST /api/user/recovery-codes") = (Some (user, sess), d0) /\
  consume_grant (granted_request "POST" "/api/user/recovery-codes" "") t0 user sess d0 = (true, d1).
Proof.
  destruct (serve (factor_route toy_server (granted_request "POST" "/api/user/recovery-codes" "") toy_web_draws "https://id.example.org" (fun s => s) t0
    FRecoveryCodes) (granted_db "POST /api/user/recovery-codes")) as [rep d'] eqn:E.
  assert (rp_Status rep = 200) as Hs by (apply (f_equal (fun x => rp_Status x.1)) in E; cbn [fst] in E; rewrite <- E; vm_compute; reflexivity).
  exact (no_factor_changes_without_a_grant _ _ _ _ _ _ _ _ _ _ E (or_introl Hs)).
Defined.
