(* ===== verification/ScimApi.v ===== *)
(** The inbound SCIM endpoints: [api/scim_inbound_handlers.go] and
    [api/scim_inbound_groups_handlers.go], over the operations of [ScimInbound].

    The conventions are those of [Admin].  A resource travels as the record of the
    SCIM library with the members the code uses; that library writes and reads its
    JSON.  The order of a Go map is a parameter. *)
From stdpp Require Import pretty gmap.
From S2P Require Import Prelude Text Schema Access Sample Sessions Outbox AppAccess Directory Crypto Requests ScimInbound Reconcile Net Web Login Admin.

Open Scope string_scope.
Open Scope Z_scope.

(** ** The library's types *)

Record ScimName := MkScimName { sm_Formatted : string; sm_GivenName : string; sm_FamilyName : string }.
Record MultiValue := MkMultiValue { mv_Value : string; mv_Type : string; mv_Primary : bool }.
Record ScimMeta := MkScimMeta { me_ResourceType : string; me_Created : Z; me_LastModified : Z; me_Location : string; me_Version : string }.
Record ScimUser := MkScimUser { su_ID : string; su_ExternalID : string; su_UserName : string; su_DisplayName : string; su_Active : bool;
  su_Name : option ScimName; su_Emails : list MultiValue; su_Meta : option ScimMeta }.
Record PatchOperation := MkPatchOperation { po_Op : string; po_Path : string; po_Value : Json }.

(** The library's schema names and the JSON of its types, and [strconv.Quote] for
    the texts of refusals. *)
Class ScimText := {
  UserSchema : string;
  ErrorSchema : string;
  scim_user_json : ScimUser -> Json;
  scim_meta_json : ScimMeta -> Json;
  Quote : string -> string
}.

Definition scimListSchema : string := "urn:ietf:params:scim:api:messages:2.0:ListResponse".
Definition scimGroupSchema : string := "urn:ietf:params:scim:schemas:core:2.0:Group".
Definition scimMaxResults : Z := 200.
Definition scimMaxMembers : nat := 1000.

(** What the endpoints read of a request besides [Request]: the headers
    [Authorization] and [If-Match], the query, and the answers of the two rate
    limits. *)
Record ScimInput := MkScimInput { si_Authorization : string; si_IfMatch : string; si_Filter : string; si_StartIndex : string; si_Count : string;
  si_FailureAllowed : bool; si_Allowed : bool }.

(** ** Filters *)

(** [\s] of a regular expression. *)
Definition re_space (c : Z) : bool := (c =? 32) || (c =? 9) || (c =? 10) || (c =? 12) || (c =? 13).
Fixpoint skip_re_space (l : list Z) : list Z := match l with c :: l' => if re_space c then skip_re_space l' else l | [] => [] end.
Definition letter (c : Z) : bool := ((65 <=? c) && (c <=? 90)) || ((97 <=? c) && (c <=? 122)).
Fixpoint span (p : Z -> bool) (l : list Z) : list Z * list Z :=
  match l with c :: l' => if p c then let '(a, b) := span p l' in (c :: a, b) else ([], l) | [] => ([], []) end.

(** The body of a quoted text and what follows its closing quote; a backslash
    takes the next character with it, but not a line break. *)
Fixpoint quoted_body (l : list Z) : option (list Z * list Z) :=
  match l with
  | [] => None
  | c :: l' =>
    if c =? 34 then Some ([], l')
    else if c =? 92 then
      match l' with
      | [] => None
      | e :: l'' => if e =? 10 then None else match quoted_body l'' with Some (a, b) => Some (c :: e :: a, b) | None => None end
      end
    else match quoted_body l' with Some (a, b) => Some (c :: a, b) | None => None end
  end.

(** [\s+eq\s+] and the quoted text after it. *)
Definition eq_quoted (l : list Z) : option (list Z * list Z) :=
  match l with
  | [] => None
  | c :: _ =>
    if negb (re_space c) then None else
    match skip_re_space l with
    | e :: q :: s :: l' =>
      if negb ((e =? 101) && (q =? 113) && re_space s) then None else
      match skip_re_space l' with [] => None | m :: l'' => if m =? 34 then quoted_body l'' else None end
    | _ => None
    end
  end.

(** [filterExpr.FindStringSubmatch]. *)
Definition filter_match (raw : string) : option (string * string) :=
  let '(attribute, rest) := span (fun c => letter c || (c =? 46)) (skip_re_space (bytes_of raw)) in
  match attribute with
  | a :: _ =>
    if negb (letter a) then None else
    match eq_quoted rest with
    | Some (value, rest) => match skip_re_space rest with [] => Some (string_of attribute, string_of value) | _ => None end
    | None => None
    end
  | [] => None
  end.

(** [memberFilter]: the quoted text of [members[value eq "..."]]. *)
Definition member_match (path : string) : option string :=
  match drop_prefix "members[value" path with
  | None => None
  | Some rest => match eq_quoted (bytes_of rest) with Some (value, [93]) => Some (string_of value) | _ => None end
  end.

(** [strconv.Unquote] of a text put between double quotes, rune by rune: a quote
    or a line break ends it early, a backslash starts an escape. *)
Definition rune_code (r : string) : Z := match bytes_of r with [c] => c | _ => 128 end.

Definition simple_escape (c : Z) : option Z :=
  if c =? 97 then Some 7 else if c =? 98 then Some 8 else if c =? 102 then Some 12 else if c =? 110 then Some 10
  else if c =? 114 then Some 13 else if c =? 116 then Some 9 else if c =? 118 then Some 11
  else if (c =? 92) || (c =? 34) then Some c else None.

Definition hex_value (c : Z) : option Z :=
  if (48 <=? c) && (c <=? 57) then Some (c - 48) else if (97 <=? c) && (c <=? 102) then Some (c - 87)
  else if (65 <=? c) && (c <=? 70) then Some (c - 55) else None.
Definition octal_value (c : Z) : option Z := if (48 <=? c) && (c <=? 55) then Some (c - 48) else None.

(** [n] digits to the given base, and the rest. *)
Fixpoint number_run (digit : Z -> option Z) (base : Z) (n : nat) (acc : Z) (l : list string) : option (Z * list string) :=
  match n with
  | O => Some (acc, l)
  | S n =>
    match l with
    | [] => None
    | r :: l => match digit (rune_code r) with Some v => number_run digit base n (acc * base + v) l | None => None end
    end
  end.

Definition ValidRune (v : Z) : bool := (v <? 0xD800) || ((0xE000 <=? v) && (v <=? 0x10FFFF)).
Definition encode_rune (v : Z) : list Z :=
  if v <? 0x80 then [v]
  else if v <? 0x800 then [0xC0 + v / 64; 0x80 + v mod 64]
  else if v <? 0x10000 then [0xE0 + v / 4096; 0x80 + v / 64 mod 64; 0x80 + v mod 64]
  else [0xF0 + v / 262144; 0x80 + v / 4096 mod 64; 0x80 + v / 64 mod 64; 0x80 + v mod 64].

(** What follows a backslash: the bytes it stands for, and the rest. *)
Definition escape (l : list string) : option (list Z * list string) :=
  match l with
  | [] => None
  | r :: l' =>
    let c := rune_code r in
    match simple_escape c with
    | Some b => Some ([b], l')
    | None =>
      if c =? 120 then match number_run hex_value 16 2 0 l' with Some (v, l') => Some ([v], l') | None => None end
      else if (c =? 117) || (c =? 85) then
        match number_run hex_value 16 (if c =? 117 then 4 else 8) 0 l' with
        | Some (v, l') => if ValidRune v then Some (encode_rune v, l') else None
        | None => None
        end
      else match number_run octal_value 8 3 0 l with Some (v, l') => if 255 <? v then None else Some ([v], l') | None => None end
    end
  end.

(** Each round takes at least a rune, so their number is fuel enough. *)
Fixpoint unquote_upto (fuel : nat) (l : list string) : option (list Z) :=
  match fuel with
  | O => match l with [] => Some [] | _ => None end
  | S fuel =>
    match l with
    | [] => Some []
    | r :: l =>
      let c := rune_code r in
      if (c =? 34) || (c =? 10) then None
      else if c =? 92 then
        match escape l with
        | Some (b, l) => match unquote_upto fuel l with Some t => Some (b ++ t)%list | None => None end
        | None => None
        end
      else match unquote_upto fuel l with Some t => Some (bytes_of r ++ t)%list | None => None end
    end
  end.

Definition Unquote (s : string) : option string := let l := runes s in string_of <$> unquote_upto (length l) l.

(** [strconv.Atoi]. *)
Definition Atoi (s : string) : option Z :=
  let number l := match l with [] => None | _ => digits l 0 end in
  let in_range n := if (- 2 ^ 63 <=? n) && (n <? 2 ^ 63) then Some n else None in
  match bytes_of s with
  | 45 :: l => match number l with Some n => in_range (- n) | None => None end
  | 43 :: l => match number l with Some n => in_range n | None => None end
  | l => match number l with Some n => in_range n | None => None end
  end.

Section scim_api.
Context `{Codec} `{ScimText}.
Context (sv : Server) (rq : Request) (dr : WebDraws) (si : ScimInput) (issuerURL : string).
Context (lid : string -> string) (eid : string -> string -> string) (order : list (string * Json) -> list (string * Json))
  (member_order : list string -> list string) (now : Z).

Definition concat_text (l : list string) : string := String.concat "" l.

(** *** Answers *)

Definition scimError (status : Z) (scimType detail : string) : Reply :=
  MkReply status (JObj ([("schemas", JArr [JStr ErrorSchema]); ("status", JStr (pretty status)); ("detail", JStr detail)] ++
    omitempty "scimType" scimType)%list) None None.
Definition scimJSON (status : Z) (body : Json) : Handler Reply := run_ret (MkReply status body None None).
Definition scim_internal : Reply := scimError 500 "" "Internal error".
Definition scim_missing : Reply := scimError 404 "" "Resource not found".

(** A refusal decided inside the store transaction travels as its error. *)
Definition scimProblem (status : Z) (scimType detail : string) : StoreError := ErrScim status scimType detail.
Definition errStaleVersion : StoreError := scimProblem 412 "" "Resource version does not match If-Match".

(** *** Authentication *)

Definition bearer : string := TrimSpace (string_of (skipn 7 (bytes_of (si_Authorization si)))).

Definition Authenticate (write : bool) (next : SCIMConnector -> Handler Reply) : Handler Reply :=
  if negb (String.prefix "Bearer " (si_Authorization si)) then run_fail (scimError 401 "" "Bearer token required") else
  found <~ attempt (AuthenticateSCIMToken bearer now) ;;
  match found with
  | inl ErrNotFound =>
    if si_FailureAllowed si then run_fail (scimError 401 "" "Invalid or revoked token")
    else run_fail (scimError 429 "" "Too many failed authentications")
  | inl _ => run_fail scim_internal
  | inr (c, scope) =>
    if negb (si_Allowed si) then run_fail (scimError 429 "" "Rate limit exceeded")
    else if write && (scope <>?s "write") then run_fail (scimError 403 "" "This token is read-only")
    else next c
  end.

(** The event of the request, by its connector. *)
Definition scim_event (c : SCIMConnector) (action target kind : string) (details : Json) : option AuditEvent :=
  Prepare sv rq dr now 1 action (sn_ID c) (String.append "connector:" (sn_Name c)) target kind "success" details.

(** *** Users *)

Definition quote_mark : string := String (Ascii.ascii_of_N 34) "".
Definition etag (t : Z) : string := concat_text ["W/"; quote_mark; pretty t; quote_mark].
Definition version (u : User) : string := etag (u_UpdatedAt u).

Definition user_resource (u : User) : ScimUser :=
  MkScimUser (u_ID u) (u_ExternalID u) (u_Username u) (u_DisplayName u) (u_SourceActive u && negb (u_LocallyDisabled u))
    (if u_DisplayName u <>?s "" then Some (MkScimName (u_DisplayName u) "" "") else None)
    (if u_Email u <>?s "" then [MkMultiValue (u_Email u) "work" true] else [])
    (Some (MkScimMeta "User" (u_CreatedAt u) (u_UpdatedAt u) (concat_text [issuerURL; "/scim/v2/Users/"; u_ID u]) (version u))).

Definition writeResource (status : Z) (u : User) : Handler Reply := scimJSON status (scim_user_json (user_resource u)).

(** Whether the header names the version, or asks for none. *)
Definition matches_version (v : string) : bool :=
  let want := TrimSpace (si_IfMatch si) in
  (want =?s "") || (want =?s "*") || existsb (fun x => TrimSpace (string_of x) =?s v) (split_on 44 [] (bytes_of want)).
Definition ifMatch (u : User) : bool := matches_version (version u).

Definition filter_problem : string := concat_text ["only `attribute eq "; quote_mark; "value"; quote_mark; "` filters are supported"].

Definition parseFilter (raw : string) : string + (string * string) :=
  if raw =?s "" then inr ("", "") else
  match filter_match raw with
  | None => inl filter_problem
  | Some (attribute, quoted) => match Unquote quoted with Some value => inr (attribute, value) | None => inl "malformed filter value" end
  end.

(** The page asked for: its start and its length. *)
Definition page_input : Handler (Z * Z) :=
  let start := if si_StartIndex si =?s "" then Some 1 else match Atoi (si_StartIndex si) with Some n => if n <? 1 then None else Some n | None => None end in
  let count := if si_Count si =?s "" then Some scimMaxResults else match Atoi (si_Count si) with Some n => if n <? 0 then None else Some n | None => None end in
  match start with
  | None => run_fail (scimError 400 "invalidValue" "startIndex must be a positive integer")
  | Some start =>
    match count with
    | None => run_fail (scimError 400 "invalidValue" "count must be a non-negative integer")
    | Some count => run_ret (start, count)
    end
  end.

Definition list_json (total start : Z) (resources : list Json) : Json :=
  JObj [("schemas", JArr [JStr scimListSchema]); ("totalResults", JNum total); ("startIndex", JNum start);
    ("itemsPerPage", JNum (Z.of_nat (length resources))); ("Resources", JArr resources)].

Definition List (c : SCIMConnector) : Handler Reply :=
  match parseFilter (si_Filter si) with
  | inl detail => run_fail (scimError 400 "invalidFilter" detail)
  | inr (attribute, value) =>
    p <~ page_input ;;
    found <~ ask (ListUpstreamUsers (sn_ID c) attribute value p.1 (Z.min p.2 scimMaxResults) now) ;;
    match found with
    | inl _ => run_fail (scimError 400 "invalidFilter" "filter attribute not supported; use userName, externalId, emails.value or id")
    | inr (users, total) => scimJSON 200 (list_json total p.1 (map (fun u => scim_user_json (user_resource u)) users))
    end
  end.

Definition Get (c : SCIMConnector) : Handler Reply :=
  u <~ ask (GetUpstreamUser (sn_ID c) (r_PathID rq) now) ;;
  match u with None => run_fail scim_missing | Some u => writeResource 200 u end.

(** A body that was read: malformed, or an object with or without [password] and
    [active], and the library's reading of it. *)
Inductive UserBody := TooLarge | NotJSON | UserObject (has_password has_active : bool) (user : option ScimUser).

Definition decodeUser (body : UserBody) : string + (ScimUser * bool) :=
  match body with
  | TooLarge => inl "Body too large"
  | NotJSON => inl "Malformed JSON body"
  | UserObject true _ _ => inl "Password provisioning is not supported; accounts activate through a link"
  | UserObject false _ None => inl "Malformed JSON body"
  | UserObject false hasActive (Some u) =>
    inr (MkScimUser (su_ID u) (TrimSpace (su_ExternalID u)) (TrimSpace (su_UserName u)) (TrimSpace (su_DisplayName u)) (su_Active u) (su_Name u)
      (su_Emails u) (su_Meta u), hasActive)
  end.

Definition primaryEmail (u : ScimUser) : string :=
  match List.find (fun e => mv_Primary e && (mv_Value e <>?s "")) (su_Emails u) with
  | Some e => TrimSpace (mv_Value e)
  | None => match List.find (fun e => mv_Value e <>?s "") (su_Emails u) with Some e => TrimSpace (mv_Value e) | None => "" end
  end.

Definition full_name (given family : string) : string := TrimSpace (concat_text [TrimSpace given; " "; TrimSpace family]).

Definition displayName (u : ScimUser) : string :=
  if su_DisplayName u <>?s "" then su_DisplayName u else
  match su_Name u with
  | Some n => if sm_Formatted n <>?s "" then TrimSpace (sm_Formatted n) else full_name (sm_GivenName n) (sm_FamilyName n)
  | None => su_UserName u
  end.

(** The account of a creation. *)
Definition upstream_draft (c : SCIMConnector) (u : ScimUser) (hasActive : bool) (email : string) : User :=
  MkUser "" (su_UserName u) (displayName u) email "" "" "" false false None (sn_ID c) (su_ExternalID u) (su_Active u || negb hasActive) false None 0 0.

Definition Create (body : UserBody) (c : SCIMConnector) : Handler Reply :=
  match decodeUser body with
  | inl problem => run_fail (scimError 400 "invalidValue" problem)
  | inr (u, hasActive) =>
    if (su_UserName u =?s "") || (su_ExternalID u =?s "") then run_fail (scimError 400 "invalidValue" "userName and externalId are required") else
    let email := primaryEmail u in
    if email =?s "" then run_fail (scimError 400 "invalidValue" "an email is required") else
    let draft := upstream_draft c u hasActive email in
    created <~ attempt (commit (CreateUpstreamUser (w_id dr 50) draft (scim_event c "scim.user_created" "" "user"
      (JObj [("username", JStr (u_Username draft)); ("externalId", JStr (u_ExternalID draft))])) now)) ;;
    match created with
    | inl ErrUserConflict => run_fail (scimError 409 "uniqueness" "userName, email or externalId is already in use")
    | inl _ => run_fail scim_internal
    | inr stored => writeResource 201 stored
    end
  end.

(** The changes of the rows an update edits. *)
Definition set_u_Username (v : string) (r : User) : User := MkUser (u_ID r) v (u_DisplayName r) (u_Email r) (u_PasswordHash r) (u_Role r) (u_Status r)
  (u_Pending r) (u_PasswordChangeRequired r) (u_EmailVerifiedAt r) (u_SourceConnectorID r) (u_ExternalID r) (u_SourceActive r) (u_LocallyDisabled r)
  (u_EndsAt r) (u_CreatedAt r) (u_UpdatedAt r).
Definition set_u_SourceActive (v : bool) (r : User) : User := MkUser (u_ID r) (u_Username r) (u_DisplayName r) (u_Email r) (u_PasswordHash r)
  (u_Role r) (u_Status r) (u_Pending r) (u_PasswordChangeRequired r) (u_EmailVerifiedAt r) (u_SourceConnectorID r) (u_ExternalID r) v
  (u_LocallyDisabled r) (u_EndsAt r) (u_CreatedAt r) (u_UpdatedAt r).

(** The closure [save] hands the store. *)
Definition saved_edit (edit : User -> StoreError + User) (u : User) : StoreError + User :=
  if ifMatch u then edit u else inl errStaleVersion.

(** The audit details the closure leaves; they are written where it succeeds. *)
Definition saved_details (edit : User -> StoreError + User) (id : string) (d : DB) : Json :=
  match users d !! id with
  | None => JNull
  | Some row =>
    match saved_edit edit (scanUser now row) with
    | inl _ => JNull
    | inr u => JObj [("username", JStr (u_Username u)); ("sourceActive", JBool (u_SourceActive u))]
    end
  end.

Definition save_refusal (e : StoreError) : Reply :=
  match e with
  | ErrScim status scimType detail => scimError status scimType detail
  | ErrUserConflict => scimError 409 "uniqueness" "userName or email is already in use"
  | ErrPrivilegedIdentity => scimError 409 "mutability" "userName and email of an administrator or delegated account are managed locally"
  | ErrNotFound => scim_missing
  | _ => scim_internal
  end.

Definition save (c : SCIMConnector) (action : string) (edit : User -> StoreError + User) : Handler User :=
  let id := r_PathID rq in
  stored <~ attempt (fun d => UpdateUpstreamUser lid eid (sn_ID c) id (scim_event c action id "user" (saved_details edit id d)) (saved_edit edit) now d) ;;
  match stored with
  | inr u => run_ret u
  | inl e =>
    match e with
    | ErrPrivilegedIdentity => Observe sv rq dr now 2 action (sn_ID c) (String.append "connector:" (sn_Name c)) id "user" "denied"
        (JObj [("reason", JStr "privileged_identity")])
    | _ => run_ret tt
    end ~;;
    run_fail (save_refusal e)
  end.

Definition replace_edit (u : ScimUser) (hasActive : bool) (row : User) : StoreError + User :=
  if (su_ExternalID u <>?s "") && (su_ExternalID u <>?s u_ExternalID row) then inl (scimProblem 400 "mutability" "externalId is immutable") else
  let row := set_u_DisplayName (displayName u) (set_u_Username (su_UserName u) row) in
  let row := if primaryEmail u <>?s "" then set_u_Email (primaryEmail u) row else row in
  inr (if hasActive then set_u_SourceActive (su_Active u) row else row).

Definition Replace (body : UserBody) (c : SCIMConnector) : Handler Reply :=
  match decodeUser body with
  | inl problem => run_fail (scimError 400 "invalidValue" problem)
  | inr (u, hasActive) =>
    if su_UserName u =?s "" then run_fail (scimError 400 "invalidValue" "userName is required") else
    stored <~ save c "scim.user_updated" (replace_edit u hasActive) ;; writeResource 200 stored
  end.

(** *** PATCH *)

(** [strings.TrimPrefix(path, scim.UserSchema+":")] *)
Definition attribute_path (path : string) : string := TrimPrefix path (String.append UserSchema ":").

Definition json_text (v : option Json) : string := match v with Some (JStr s) => s | _ => "" end.
Definition json_true (v : option Json) : bool := match v with Some (JBool b) => b | _ => false end.
Definition json_members (v : Json) : list (string * Json) := match v with JObj l => l | _ => [] end.

(** The last primary address, else the first. *)
Definition chosen_email (l : list Json) : string :=
  fold_left (fun chosen item =>
    let v := json_text (obj_get "value" (json_members item)) in
    if (v <>?s "") && ((chosen =?s "") || json_true (obj_get "primary" (json_members item))) then TrimSpace v else chosen) l "".

Definition setAttribute (u : User) (path : string) (value : Json) : string + User :=
  let p := attribute_path path in
  if p =?s "active" then
    match value with
    | JBool b => inr (set_u_SourceActive b u)
    | JStr s => inr (set_u_SourceActive (EqualFold s "true") u)
    | _ => inl "active must be a boolean"
    end
  else if p =?s "userName" then
    match value with
    | JStr s => if TrimSpace s =?s "" then inl "userName must be a non-empty string" else inr (set_u_Username (TrimSpace s) u)
    | _ => inl "userName must be a non-empty string"
    end
  else if one_of p ["name.givenName"; "name.familyName"] then inr u
  else if one_of p ["displayName"; "name.formatted"] then
    match value with JStr s => inr (set_u_DisplayName (TrimSpace s) u) | _ => inl (String.append path " must be a string") end
  else if p =?s "name" then
    match value with
    | JObj l =>
      let f := TrimSpace (json_text (obj_get "formatted" l)) in
      if f <>?s "" then inr (set_u_DisplayName f u) else
      let full := full_name (json_text (obj_get "givenName" l)) (json_text (obj_get "familyName" l)) in
      inr (if full <>?s "" then set_u_DisplayName full u else u)
    | _ => inl "name must be an object"
    end
  else if p =?s "emails" then
    match value with
    | JArr l => if chosen_email l =?s "" then inl "emails needs at least one value" else inr (set_u_Email (chosen_email l) u)
    | _ => inl "emails must be a list"
    end
  else if one_of p [concat_text ["emails[type eq "; quote_mark; "work"; quote_mark; "].value"]; "emails[primary eq true].value"; "emails.value"] then
    match value with
    | JStr s => if TrimSpace s =?s "" then inl "email value must be a non-empty string" else inr (set_u_Email (TrimSpace s) u)
    | _ => inl "email value must be a non-empty string"
    end
  else if p =?s "externalId" then inl "externalId is immutable"
  else inl (concat_text ["attribute "; Quote path; " is not supported"]).

(** One after another; the first problem ends it. *)
Fixpoint apply_all {A B} (f : B -> A -> string + B) (l : list A) (u : B) : string + B :=
  match l with [] => inr u | a :: l => match f u a with inl problem => inl problem | inr u => apply_all f l u end end.

Definition applyPatch (u : User) (op : PatchOperation) : string + User :=
  let kind := lower (po_Op op) in
  let path := TrimSpace (po_Path op) in
  if kind =?s "remove" then
    if one_of (attribute_path path) ["userName"; "externalId"; ""] then inl (String.append "remove is not supported for " (Quote path)) else inr u
  else if negb (one_of kind ["add"; "replace"]) then inl "only add, replace and remove operations are supported"
  else if path =?s "" then
    match po_Value op with
    | JObj values => apply_all (fun u (kv : string * Json) => setAttribute u kv.1 kv.2) (order values) u
    | _ => inl "a path-less operation needs an object value"
    end
  else setAttribute u path (po_Value op).

Definition patch_edit (ops : list PatchOperation) (u : User) : StoreError + User :=
  match apply_all applyPatch ops u with inl problem => inl (scimProblem 400 "invalidPath" problem) | inr u => inr u end.

Definition Patch (body : option (list PatchOperation)) (c : SCIMConnector) : Handler Reply :=
  let refusal := scimError 400 "invalidSyntax" "PatchOp body with 1 to 50 Operations required" in
  match body with
  | None => run_fail refusal
  | Some ops =>
    if (length ops =? 0)%nat || (50 <? length ops)%nat then run_fail refusal else
    stored <~ save c "scim.user_updated" (patch_edit ops) ;; writeResource 200 stored
  end.

Definition no_content : Reply := MkReply 204 JNull None None.

Definition Delete (c : SCIMConnector) : Handler Reply :=
  save c "scim.user_deactivated" (fun u => inr (set_u_SourceActive false u)) ~;; run_ret no_content.

(** *** Groups *)

Definition groupResource (g : UpstreamGroup) : Json :=
  let row := ug_Group g in
  JObj ([("schemas", JArr [JStr scimGroupSchema]); ("id", JStr (g_ID row))] ++ omitempty "externalId" (g_ExternalID row) ++
    [("displayName", JStr (g_Name row));
     ("members", JArr (map (fun id => JObj [("value", JStr id); ("$ref", JStr (concat_text [issuerURL; "/scim/v2/Users/"; id])); ("type", JStr "User")]) (ug_Members g)));
     ("meta", scim_meta_json (MkScimMeta "Group" (g_CreatedAt row) (g_UpdatedAt row) (concat_text [issuerURL; "/scim/v2/Groups/"; g_ID row]) (etag (g_UpdatedAt row))))])%list.

Definition groupVersion (g : Group) : string := etag (g_UpdatedAt g).
Definition groupIfMatch (g : Group) : bool := matches_version (groupVersion g).
Definition writeGroup (status : Z) (g : UpstreamGroup) : Handler Reply := scimJSON status (groupResource g).

Record ScimMember := MkScimMember { mb_Value : string; mb_Type : string }.
Record ScimGroup := MkScimGroup { sg_ExternalID : string; sg_DisplayName : string; sg_Members : list ScimMember }.

Fixpoint member_values (l : list ScimMember) : string + list string :=
  match l with
  | [] => inr []
  | m :: l =>
    if EqualFold (mb_Type m) "Group" then inl "nested groups are not supported" else
    if TrimSpace (mb_Value m) =?s "" then inl "each member needs a value" else
    match member_values l with inl problem => inl problem | inr out => inr (TrimSpace (mb_Value m) :: out) end
  end.

Definition memberIDs (members : list ScimMember) : string + list string :=
  if (scimMaxMembers <? length members)%nat then inl "too many members in one request (at most 1000)" else member_values members.

Definition groupError (e : StoreError) : Reply :=
  match e with
  | ErrGroupTargetMissing => scim_missing
  | ErrGroupVersionStale => scimError 412 "" "Resource version does not match If-Match"
  | ErrGroupMemberForeign =>
    scimError 400 "invalidValue" "a member is not an account of this connector, or is a group; provision the user first and reference only Users"
  | ErrGroupNameExists => scimError 409 "uniqueness" "displayName is already in use"
  | ErrGroupExternalExists => scimError 409 "uniqueness" "externalId is already in use"
  | ErrEnrollmentPolicy => scimError 409 "" "a member cannot satisfy this group's MFA policy; the change was not applied"
  | ErrEmergencyAdministrator =>
    scimError 409 "" "this group carries a required MFA policy that only a local administrator may change; the change was not applied"
  | ErrText t => if t =?s "external id is immutable" then scimError 400 "mutability" "externalId is immutable" else scim_internal
  | _ => scim_internal
  end.

Definition ListGroups (c : SCIMConnector) : Handler Reply :=
  match parseFilter (si_Filter si) with
  | inl detail => run_fail (scimError 400 "invalidFilter" detail)
  | inr (attribute, value) =>
    p <~ page_input ;;
    found <~ ask (ListUpstreamGroups (sn_ID c) attribute value p.1 p.2) ;;
    match found with
    | inl _ => run_fail (scimError 400 "invalidFilter" "filter attribute not supported; use displayName, externalId or id")
    | inr (groups, total) => scimJSON 200 (list_json total p.1 (map groupResource groups))
    end
  end.

Definition GetGroup (c : SCIMConnector) : Handler Reply :=
  g <~ ask (GetUpstreamGroup (sn_ID c) (r_PathID rq)) ;;
  match g with None => run_fail scim_missing | Some g => writeGroup 200 g end.

Definition decodeGroup (body : option ScimGroup) : string + ScimGroup :=
  match body with
  | None => inl "Malformed JSON body"
  | Some g =>
    let g := MkScimGroup (TrimSpace (sg_ExternalID g)) (TrimSpace (sg_DisplayName g)) (sg_Members g) in
    if (sg_DisplayName g =?s "") || (128 <? String.length (sg_DisplayName g))%nat then inl "displayName is required (at most 128 characters)" else inr g
  end.

(** The group and the members of a body, each refused the same way. *)
Definition group_input (body : option ScimGroup) : Handler (ScimGroup * list string) :=
  match decodeGroup body with
  | inl problem => run_fail (scimError 400 "invalidValue" problem)
  | inr g => match memberIDs (sg_Members g) with inl problem => run_fail (scimError 400 "invalidValue" problem) | inr members => run_ret (g, members) end
  end.

(** The group as it is after the write. *)
Definition write_stored (c : SCIMConnector) (id : string) (status : Z) : Handler Reply :=
  stored <~ ask (GetUpstreamGroup (sn_ID c) id) ;;
  match stored with None => run_fail scim_internal | Some g => writeGroup status g end.

Definition CreateGroup (body : option ScimGroup) (c : SCIMConnector) : Handler Reply :=
  x <~ group_input body ;;
  let '(input, members) := x in
  let id := w_id dr 50 in
  let g := MkGroup "" (sg_DisplayName input) "" (sn_ID c) (sg_ExternalID input) 0 0 in
  answering groupError (commit (CreateUpstreamGroup lid eid id g members (scim_event c "scim.group_created" "" "group"
    (JObj [("name", JStr (g_Name g)); ("externalId", JStr (g_ExternalID g)); ("members", JNum (Z.of_nat (length members)))])) now)) ~;;
  write_stored c id 201.

Definition loadGroup (c : SCIMConnector) : Handler UpstreamGroup :=
  g <~ ask (GetUpstreamGroup (sn_ID c) (r_PathID rq)) ;;
  match g with
  | None => run_fail scim_missing
  | Some g => if groupIfMatch (ug_Group g) then run_ret g else run_fail (scimError 412 "" "Resource version does not match If-Match")
  end.

Definition expectedVersion (g : Group) : option Z :=
  let want := TrimSpace (si_IfMatch si) in if (want =?s "") || (want =?s "*") then None else Some (g_UpdatedAt g).

Definition saved_group_edit (edit : UpstreamGroup -> StoreError + UpstreamGroup) (g : UpstreamGroup) : StoreError + UpstreamGroup :=
  if groupIfMatch (ug_Group g) then edit g else inl ErrGroupVersionStale.

Definition saved_group_details (c : SCIMConnector) (edit : UpstreamGroup -> StoreError + UpstreamGroup) (d : DB) : Json :=
  match GetUpstreamGroup (sn_ID c) (r_PathID rq) d with
  | None => JNull
  | Some g =>
    match saved_group_edit edit g with
    | inl _ => JNull
    | inr g => JObj [("name", JStr (g_Name (ug_Group g))); ("members", JNum (Z.of_nat (length (ug_Members g))))]
    end
  end.

Definition saveGroup_refusal (e : StoreError) : Reply :=
  match e with ErrScim status scimType detail => scimError status scimType detail | _ => groupError e end.

Definition saveGroup (c : SCIMConnector) (edit : UpstreamGroup -> StoreError + UpstreamGroup) : Handler Reply :=
  let id := r_PathID rq in
  answering saveGroup_refusal (fun d => commit (ReplaceUpstreamGroup lid eid member_order (sn_ID c) id
    (scim_event c "scim.group_updated" id "group" (saved_group_details c edit d)) (saved_group_edit edit) now) d) ~;;
  write_stored c id 200.

Definition set_g_Name (v : string) (g : Group) : Group := MkGroup (g_ID g) v (g_Description g) (g_SourceConnectorID g) (g_ExternalID g) (g_CreatedAt g) (g_UpdatedAt g).
Definition set_g_ExternalID (v : string) (g : Group) : Group := MkGroup (g_ID g) (g_Name g) (g_Description g) (g_SourceConnectorID g) v (g_CreatedAt g) (g_UpdatedAt g).

Definition replace_group_edit (input : ScimGroup) (members : list string) (g : UpstreamGroup) : StoreError + UpstreamGroup :=
  let row := ug_Group g in
  if (sg_ExternalID input <>?s "") && (g_ExternalID row <>?s "") && (sg_ExternalID input <>?s g_ExternalID row)
  then inl (scimProblem 400 "mutability" "externalId is immutable") else
  let row := set_g_Name (sg_DisplayName input) row in
  inr (MkUpstreamGroup (if sg_ExternalID input <>?s "" then set_g_ExternalID (sg_ExternalID input) row else row) members).

Definition ReplaceGroup (body : option ScimGroup) (c : SCIMConnector) : Handler Reply :=
  x <~ group_input body ;; let '(input, members) := x in saveGroup c (replace_group_edit input members).

(** A [json.RawMessage] by the readings the handler tries: whether it is there, as
    a text, a list of members, one member, and an object. *)
Record GroupChange := MkGroupChange { gx_DisplayName : option string; gx_ExternalID : option string; gx_Members : option (list ScimMember) }.
Record RawValue := MkRawValue { rv_present : bool; rv_text : option string; rv_list : option (list ScimMember); rv_one : option ScimMember;
  rv_object : option GroupChange }.
Record GroupOperation := MkGroupOperation { go_Op : string; go_Path : string; go_Value : RawValue }.

Definition decodeMembers (raw : RawValue) : string + list string :=
  if negb (rv_present raw) then inr [] else
  match rv_list raw with
  | Some l => memberIDs l
  | None => match rv_one raw with Some m => memberIDs [m] | None => inl "members must be a list of {value}" end
  end.

(** What the operations have made of the row and of the set of members. *)
Definition patched : Type := (Group * gset string)%type.

Definition with_members (kind : string) (list_ : list string) (members : gset string) : gset string :=
  list_to_set list_ ∪ (if kind =?s "replace" then ∅ else members).

Definition bad {A} (scimType detail : string) : StoreError + A := inl (scimProblem 400 scimType detail).

Definition patch_object (kind : string) (v : GroupChange) (s : patched) : StoreError + patched :=
  let '(g, members) := s in
  if match gx_ExternalID v with Some e => (g_ExternalID g <>?s "") && (e <>?s g_ExternalID g) | None => false end
  then bad "mutability" "externalId is immutable" else
  if match gx_DisplayName v with Some n => TrimSpace n =?s "" | None => false end
  then bad "invalidValue" "displayName must be a non-empty string" else
  let g := match gx_DisplayName v with Some n => set_g_Name (TrimSpace n) g | None => g end in
  match gx_Members v with
  | None => inr (g, members)
  | Some l => match memberIDs l with inl problem => bad "invalidValue" problem | inr l => inr (g, with_members kind l members) end
  end.

Definition patch_group_op (s : patched) (op : GroupOperation) : StoreError + patched :=
  let '(g, members) := s in
  let kind := lower (TrimSpace (go_Op op)) in
  let path := TrimSpace (go_Path op) in
  let writes := one_of kind ["add"; "replace"] in
  match (if kind =?s "remove" then member_match path else None) with
  | Some quoted => match Unquote quoted with Some id => inr (g, members ∖ {[ id ]}) | None => bad "invalidPath" "malformed member filter" end
  | None =>
    if (kind =?s "remove") && (path =?s "members") then
      match decodeMembers (go_Value op) with
      | inl problem => bad "invalidValue" problem
      | inr l => inr (g, match l with [] => ∅ | _ => members ∖ list_to_set l end)
      end
    else if writes && (path =?s "members") then
      match decodeMembers (go_Value op) with inl problem => bad "invalidValue" problem | inr l => inr (g, with_members kind l members) end
    else if writes && (path =?s "displayName") then
      match rv_text (go_Value op) with
      | Some v => if TrimSpace v =?s "" then bad "invalidValue" "displayName must be a non-empty string" else inr (set_g_Name (TrimSpace v) g, members)
      | None => bad "invalidValue" "displayName must be a non-empty string"
      end
    else if writes && (path =?s "") then
      match rv_object (go_Value op) with
      | None => bad "invalidValue" "a path-less operation needs an object value"
      | Some v => patch_object kind v s
      end
    else if path =?s "externalId" then bad "mutability" "externalId is immutable"
    else bad "invalidPath" (concat_text ["unsupported operation "; kind; " on "; Quote path])
  end.

Fixpoint patch_group_ops (l : list GroupOperation) (s : patched) : StoreError + patched :=
  match l with [] => inr s | op :: l => match patch_group_op s op with inl e => inl e | inr s => patch_group_ops l s end end.

(** The members in any order: the store sorts out what to add and to drop. *)
Definition patch_group_edit (ops : list GroupOperation) (g : UpstreamGroup) : StoreError + UpstreamGroup :=
  match patch_group_ops ops (ug_Group g, list_to_set (ug_Members g)) with
  | inl e => inl e
  | inr (row, members) => inr (MkUpstreamGroup row (elements members))
  end.

Definition PatchGroup (body : option (list GroupOperation)) (c : SCIMConnector) : Handler Reply :=
  let refusal := scimError 400 "invalidSyntax" "PatchOp body with 1 to 100 Operations required" in
  match body with
  | None => run_fail refusal
  | Some ops => if (length ops =? 0)%nat || (100 <? length ops)%nat then run_fail refusal else saveGroup c (patch_group_edit ops)
  end.

Definition DeleteGroup (c : SCIMConnector) : Handler Reply :=
  g <~ loadGroup c ;;
  let id := g_ID (ug_Group g) in
  answering groupError (commit (DeleteUpstreamGroup lid eid (sn_ID c) id (expectedVersion (ug_Group g))
    (fun name => scim_event c "scim.group_deleted" id "group" (JObj [("name", JStr name)])) now)) ~;;
  run_ret no_content.

(** *** Discovery *)

Definition meta_json (kind location : string) : Json := JObj [("resourceType", JStr kind); ("location", JStr (String.append issuerURL location))].
Definition supported (b : bool) : Json := JObj [("supported", JBool b)].

Definition ServiceProviderConfig : Handler Reply :=
  scimJSON 200 (JObj
    [("schemas", JArr [JStr "urn:ietf:params:scim:schemas:core:2.0:ServiceProviderConfig"]);
     ("documentationUri", JStr (String.append issuerURL "/"));
     ("patch", supported true);
     ("bulk", JObj [("supported", JBool false); ("maxOperations", JNum 0); ("maxPayloadSize", JNum 0)]);
     ("filter", JObj [("supported", JBool true); ("maxResults", JNum scimMaxResults)]);
     ("changePassword", supported false);
     ("sort", supported false);
     ("etag", supported true);
     ("authenticationSchemes", JArr [JObj [("type", JStr "oauthbearertoken"); ("name", JStr "Bearer token");
       ("description", JStr "Connector token issued by a KySignOn administrator")]]);
     ("meta", meta_json "ServiceProviderConfig" "/scim/v2/ServiceProviderConfig")]).

(** [strings.Contains] *)
Fixpoint contains (sub s : string) : bool :=
  String.prefix sub s || match s with EmptyString => false | String _ s => contains sub s end.

Definition resource_type (name schema : string) : Json :=
  JObj [("schemas", JArr [JStr "urn:ietf:params:scim:schemas:core:2.0:ResourceType"]); ("id", JStr name); ("name", JStr name);
    ("endpoint", JStr (concat_text ["/"; name; "s"])); ("schema", JStr schema);
    ("meta", meta_json "ResourceType" (String.append "/scim/v2/ResourceTypes/" name))].

Definition ResourceTypes : Handler Reply :=
  let user := resource_type "User" UserSchema in
  let group := resource_type "Group" scimGroupSchema in
  if has_suffix "/User" (r_Path rq) then scimJSON 200 user
  else if has_suffix "/Group" (r_Path rq) then scimJSON 200 group
  else if contains "/ResourceTypes/" (r_Path rq) then run_fail (scimError 404 "" "Unknown resource type")
  else scimJSON 200 (list_json 2 1 [user; group]).

(** An attribute; [unique] and [subs] are what some of them set apart. *)
Definition attr (name typ mutability : string) (required : bool) (unique : string) (subs : option (list Json)) : Json :=
  JObj ([("name", JStr name); ("type", JStr typ); ("multiValued", JBool (one_of name ["emails"; "members"])); ("required", JBool required);
    ("caseExact", JBool false); ("mutability", JStr mutability); ("returned", JStr "default"); ("uniqueness", JStr unique)] ++
    match subs with Some l => [("subAttributes", JArr l)] | None => [] end)%list.

Definition schema_json (id name description : string) (attributes : list Json) : Json :=
  JObj [("schemas", JArr [JStr "urn:ietf:params:scim:schemas:core:2.0:Schema"]); ("id", JStr id); ("name", JStr name);
    ("description", JStr description); ("attributes", JArr attributes); ("meta", meta_json "Schema" (String.append "/scim/v2/Schemas/" id))].

Definition user_schema : Json :=
  let emails := attr "emails" "complex" "readWrite" false "none" (Some [attr "value" "string" "readWrite" true "none" None;
    attr "primary" "boolean" "readWrite" false "none" None; attr "type" "string" "readWrite" false "none" None]) in
  let name := attr "name" "complex" "readWrite" false "none" (Some [attr "formatted" "string" "readWrite" false "none" None;
    attr "givenName" "string" "readWrite" false "none" None; attr "familyName" "string" "readWrite" false "none" None]) in
  schema_json UserSchema "User" "KySignOn user. Passwords and roles are never provisioned; a new account is invited and activates through a link."
    [attr "userName" "string" "readWrite" true "server" None; attr "externalId" "string" "immutable" true "server" None;
     attr "displayName" "string" "readWrite" false "none" None; name; emails; attr "active" "boolean" "readWrite" false "none" None].

Definition group_schema : Json :=
  let members := attr "members" "complex" "readWrite" false "none" (Some [attr "value" "string" "immutable" true "none" None;
    attr "type" "string" "immutable" false "none" None]) in
  schema_json scimGroupSchema "Group" "KySignOn directory group. Members are Users of this connector only; nested groups are refused."
    [attr "displayName" "string" "readWrite" true "none" None; attr "externalId" "string" "immutable" false "server" None; members].

Definition Schemas : Handler Reply :=
  if contains "/Schemas/" (r_Path rq) then
    if has_suffix UserSchema (r_Path rq) then scimJSON 200 user_schema
    else if has_suffix scimGroupSchema (r_Path rq) then scimJSON 200 group_schema
    else run_fail (scimError 404 "" "Unknown schema")
  else scimJSON 200 (list_json 2 1 [user_schema; group_schema]).

(** *** The routes *)

Inductive ScimRequest :=
| QServiceProviderConfig | QResourceTypes | QSchemas
| QListUsers | QGetUser | QListGroups | QGetGroup
| QCreateUser (body : UserBody)
| QReplaceUser (body : UserBody)
| QPatchUser (body : option (list PatchOperation))
| QDeleteUser
| QCreateGroup (body : option ScimGroup)
| QReplaceGroup (body : option ScimGroup)
| QPatchGroup (body : option (list GroupOperation))
| QDeleteGroup.

Definition writes (q : ScimRequest) : bool :=
  match q with QServiceProviderConfig | QResourceTypes | QSchemas | QListUsers | QGetUser | QListGroups | QGetGroup => false | _ => true end.

Definition scim_handler (q : ScimRequest) (c : SCIMConnector) : Handler Reply :=
  match q with
  | QServiceProviderConfig => ServiceProviderConfig
  | QResourceTypes => ResourceTypes
  | QSchemas => Schemas
  | QListUsers => List c
  | QGetUser => Get c
  | QListGroups => ListGroups c
  | QGetGroup => GetGroup c
  | QCreateUser body => Create body c
  | QReplaceUser body => Replace body c
  | QPatchUser body => Patch body c
  | QDeleteUser => Delete c
  | QCreateGroup body => CreateGroup body c
  | QReplaceGroup body => ReplaceGroup body c
  | QPatchGroup body => PatchGroup body c
  | QDeleteGroup => DeleteGroup c
  end.

(** [mux.Handle(..., scimH.Authenticate(write, handler))] *)
Definition scim_api (q : ScimRequest) : Handler Reply := Authenticate (writes q) (scim_handler q).
End scim_api.

(** ** Facts: groups *)

Section scim_groups.
Context `{Codec}.

(** The groups and who is in them. *)
Definition same_groups (d d' : DB) : Prop := directory_groups d' = directory_groups d /\ group_memberships d' = group_memberships d.

Lemma same_groups_refl d : same_groups d d.
Proof. done. Qed.

Lemma same_groups_trans d1 d2 d3 : same_groups d1 d2 -> same_groups d2 d3 -> same_groups d1 d3.
Proof. unfold same_groups. intuition congruence. Qed.

Lemma queued_groups d d' : queued d d' -> same_groups d d'.
Proof. by intros (es & st & ->). Qed.

(** Transactions that leave them alone. *)
Definition keeps_groups {A} (m : STx A) : Prop := forall d a d', m d = inr (a, d') -> same_groups d d'.

Lemma keeps_bind {A B} (m : STx A) (k : A -> STx B) : keeps_groups m -> (forall a, keeps_groups (k a)) -> keeps_groups (tx_bind m k).
Proof. intros Hm Hk d b d' Hr. apply tx_bind_inr in Hr as (a & d1 & H1 & H2). eapply same_groups_trans; [by eapply Hm|by eapply Hk]. Qed.

Lemma keeps_get : keeps_groups tx_get.
Proof. intros d a d' [= _ <-]. done. Qed.
Lemma keeps_ret {A} (a : A) : keeps_groups (tx_ret a).
Proof. intros d b d' [= _ <-]. done. Qed.
Lemma keeps_fail {A} e : keeps_groups (tx_fail (A := A) e).
Proof. done. Qed.
Lemma keeps_guard b e : keeps_groups (tx_guard b e).
Proof. intros d a d' Hr. by apply tx_guard_inr in Hr as [_ ->]. Qed.
Lemma keeps_set f : (forall d, same_groups d (f d)) -> keeps_groups (tx_set f).
Proof. intros Hf d a d' [= _ <-]. apply Hf. Qed.
Lemma keeps_queue {A} (m : STx A) : (forall d a d', m d = inr (a, d') -> queued d d') -> keeps_groups m.
Proof. intros Hm d a d' Hr. by eapply queued_groups, Hm. Qed.
Lemma keeps_record ev now : keeps_groups (recordAuditTx ev now).
Proof. intros d a d' Hr. by apply recordAuditTx_inv in Hr as (m & q & ->). Qed.
Lemma keeps_revoke lid user now : keeps_groups (revokeUserAccessTx lid user now).
Proof. intros d a d' Hr. by apply revokeUserAccessTx_inv in Hr as (m & _ & ->). Qed.
Lemma keeps_offboard lid eid u deleted now : keeps_groups (offboardUserTx lid eid u deleted now).
Proof.
  intros d a d' Hr. apply offboard_inv in Hr as (d1 & H1 & Hq). eapply same_groups_trans; [by eapply keeps_revoke|by apply queued_groups].
Qed.
Lemma keeps_user_queue eid u now : keeps_groups (queueUserUpdateTx eid u now).
Proof. apply keeps_queue. apply queueUserUpdate_queued. Qed.
Lemma keeps_reconcile eid now : keeps_groups (reconcileProvisioningTx eid now).
Proof. apply keeps_queue. apply reconcile_queued. Qed.

Ltac keeps := repeat (cbn zeta; match goal with
  | |- keeps_groups (tx_bind _ _) => apply keeps_bind; [|intros ?]
  | |- keeps_groups (match ?x with _ => _ end) => destruct x
  | |- keeps_groups (tx_set _) => apply keeps_set; by intros ?
  | |- keeps_groups (_ <- _ ;; _) => apply keeps_bind; [|intros ?]
  | |- keeps_groups _ => first [apply keeps_get|apply keeps_ret|apply keeps_fail|apply keeps_guard|apply keeps_record|apply keeps_revoke|
      apply keeps_offboard|apply keeps_user_queue|apply keeps_reconcile]
  end).

Lemma keeps_update lid eid id edit ev now : keeps_groups (updateUser lid eid id edit ev now).
Proof. unfold updateUser, requirePermanentAdminTx, role_triggers, expireAccountTokensTx. keeps. Qed.

Lemma keeps_creation id u ev now : keeps_groups (CreateUpstreamUser id u ev now).
Proof. unfold CreateUpstreamUser. keeps. Qed.

(** What a connector's write does to the groups: those of others keep their row
    and their members, a new or changed one is its own, and everyone who joins
    one is an account of its own. *)
Definition groups_confined (c : string) (d d' : DB) : Prop :=
  (forall k g, directory_groups d !! k = Some g -> group_owned_by c g = false ->
     directory_groups d' !! k = Some g /\ forall u, group_memberships d' !! (k, u) = group_memberships d !! (k, u)) /\
  (forall k g, directory_groups d' !! k = Some g -> directory_groups d !! k = Some g \/ group_owned_by c g = true) /\
  (forall k u, is_Some (group_memberships d' !! (k, u)) ->
     is_Some (group_memberships d !! (k, u)) \/ exists r, users d !! u = Some r /\ owned_by c r = true).

Lemma same_groups_confined c d d' : same_groups d d' -> groups_confined c d d'.
Proof. intros [Hg Hm]. unfold groups_confined. rewrite Hg, Hm. split_and!; eauto. Qed.

Lemma delete_group_frame lid eid g session now d r d' : deleteGroupTx lid eid g session now d = inr (r, d') ->
  directory_groups d' = delete g (directory_groups d) /\
  group_memberships d' = filter (fun kv : (string * string) * option Z => kv.1.1 <> g) (group_memberships d).
Proof.
  unfold deleteGroupTx. intros Hr. apply tx_bind_inr in Hr as (a & d0 & He & Hr). injection He as <- <-. cbv zeta in Hr.
  apply tx_bind_inr in Hr as (a1 & d0 & He & Hr). injection He as _ <-. apply tx_bind_inr in Hr as (a2 & d0 & He & Hr). injection He as _ <-.
  apply tx_bind_inr in Hr as (a3 & d0 & He & Hr). injection He as _ <-. apply tx_bind_inr in Hr as (a4 & d0 & He & Hr). apply tx_guard_inr in He as [_ ->].
  apply tx_bind_inr in Hr as (a5 & d0 & He & Hr). apply tx_guard_inr in He as [_ ->]. destruct (directory_groups d !! g) as [row|]; [|done].
  apply tx_bind_inr in Hr as (a6 & d0 & He & Hr). injection He as _ <-. apply tx_bind_inr in Hr as (a7 & d1 & H1 & Hr).
  apply tx_bind_inr in Hr as (a8 & d2 & H2 & Hr). injection Hr as _ <-. apply roleChange_apps_directory in H1 as (_ & H1 & H1').
  apply reconcileAccess_directory in H2 as [(_ & H2 & H2') _]. by rewrite H2, H1, H2', H1'.
Qed.

Lemma delete_confined lid eid c id expect ev now d u d' : DeleteUpstreamGroup lid eid c id expect ev now d = inr (u, d') -> groups_confined c d d'.
Proof.
  unfold DeleteUpstreamGroup. intros Hr. apply tx_bind_inr in Hr as (a & e0 & He & Hr). injection He as <- <-.
  destruct (directory_groups d !! id) as [row|] eqn:Erow; [|done]. apply tx_bind_inr in Hr as (a1 & e0 & He & Hr). apply tx_guard_inr in He as [Ho ->].
  apply tx_bind_inr in Hr as (a2 & e0 & He & Hr). apply tx_guard_inr in He as [_ ->]. apply tx_bind_inr in Hr as (name & d1 & H1 & Hr).
  apply recordAuditTx_inv in Hr as (m & q & ->). apply delete_group_frame in H1 as [Hg Hm]. unfold groups_confined.
  change (directory_groups (audited m q d1)) with (directory_groups d1). change (group_memberships (audited m q d1)) with (group_memberships d1).
  rewrite Hg, Hm. split_and!.
  - intros k g Hk Hf. assert (k <> id) by (intros ->; congruence). rewrite lookup_delete_ne by done. split; [done|]. intros v.
    destruct (group_memberships d !! (k, v)) as [x|] eqn:Ex.
    + apply map_lookup_filter_Some. done.
    + apply map_lookup_filter_None. by left.
  - intros k g Hk. apply lookup_delete_Some in Hk as [_ Hk]. by left.
  - intros k v [x Hx]. apply map_lookup_filter_Some in Hx as [Hx _]. left. by exists x.
Qed.

Lemma replace_confined lid eid order c id ev edit now d d' : (forall l, order l ≡ₚ l) ->
  ReplaceUpstreamGroup lid eid order c id ev edit now d = inr (tt, d') -> groups_confined c d d'.
Proof.
  intros Hord Hr. apply replace_inv in Hr as (current & next & Hcur & _ & Hown & _ & (g' & Hg & Hsrc & _) & Hm & _). cbv zeta in *.
  unfold GetUpstreamGroup in Hcur. destruct (directory_groups d !! id) as [row|] eqn:Erow; [|done].
  destruct (group_owned_by c row) eqn:Eo; [|done]. injection Hcur as <-. set (added := to_add _ _) in *. set (dropped := to_drop _ _) in *.
  assert (group_owned_by c g' = true) as Ho'.
  { unfold group_owned_by in *. apply andb_true_iff in Eo as [-> _]. rewrite Hsrc. apply streqb_refl. }
  split_and!.
  - intros k g Hk Hf. assert (k <> id) as Hne by (intros ->; congruence). rewrite Hg, lookup_insert_ne by done. split; [done|].
    intros v. rewrite Hm. cbn [fst snd]. by rewrite (proj2 (streqb_false k id) Hne).
  - intros k g. rewrite Hg. destruct (decide (k = id)) as [->|Hne]; [|rewrite lookup_insert_ne by done; by left].
    rewrite lookup_insert_eq. intros [= <-]. by right.
  - intros k v Hv. rewrite Hm in Hv. cbn [fst snd] in Hv. destruct (k =?s id); cbn [andb] in Hv; [|by left].
    destruct (one_of v (order added)) eqn:Ea; [|destruct (one_of v dropped); [by destruct Hv|by left]].
    right. apply one_of_true, list_elem_of_In in Ea. rewrite Hord in Ea. apply list_elem_of_In in Ea.
    rewrite forallb_forall in Hown. specialize (Hown v Ea). destruct (users d !! v) as [r|]; [by exists r|done].
Qed.

Lemma create_group_inv lid eid id g members ev now d u d' : CreateUpstreamGroup lid eid id g members ev now d = inr (u, d') ->
  g_SourceConnectorID g <> EmptyString /\ directory_groups d !! id = None /\
  directory_groups d' = <[id := MkGroup id (g_Name g) (g_Description g) (g_SourceConnectorID g) (g_ExternalID g) now now]> (directory_groups d) /\
  (forall v, In v (uniqueStrings members) -> exists r, users d !! v = Some r /\ owned_by (g_SourceConnectorID g) r = true) /\
  forall k, group_memberships d' !! k = if (k.1 =?s id) && one_of k.2 (uniqueStrings members) then Some None else group_memberships d !! k.
Proof.
  unfold CreateUpstreamGroup. intros Hr. apply tx_bind_inr in Hr as (a & d0 & He & Hr). apply tx_guard_inr in He as [Hc ->]. cbv zeta in Hr.
  apply negb_true_iff, streqb_false in Hc. split; [done|].
  apply tx_bind_inr in Hr as (a1 & d0 & He & Hr). unfold externalGroupFreeTx in He.
  apply tx_bind_inr in He as (b & e & Hb & He). injection Hb as <- <-. apply tx_guard_inr in He as [_ ->].
  apply tx_bind_inr in Hr as (a2 & d0 & He & Hr). unfold membersOwnedTx in He.
  apply tx_bind_inr in He as (b & e & Hb & He). injection Hb as <- <-. apply tx_guard_inr in He as [Hown ->].
  apply tx_bind_inr in Hr as (a3 & d0 & He & Hr). injection He as <- <-. apply tx_bind_inr in Hr as (a4 & d0 & He & Hr). apply tx_guard_inr in He as [Hn ->].
  apply andb_true_iff in Hn as [Hn _]. split; [by destruct (directory_groups d !! id)|].
  apply tx_bind_inr in Hr as (a5 & d0 & He & Hr). injection He as _ <-. apply tx_bind_inr in Hr as (a6 & d1 & He & Hr). unfold new_group_policy in He.
  apply insert_row_inv in He as [_ ->]. apply tx_bind_inr in Hr as (a7 & d2 & H2 & Hr). apply memberships_iter in H2 as (_ & Hg & Hm).
  apply tx_bind_inr in Hr as (a8 & d3 & H3 & Hr). apply recordAuditTx_inv in Hr as (m & q & ->).
  assert (same_groups d2 d3) as [Hg3 Hm3].
  { destruct (uniqueStrings members); [by injection H3 as _ <-|]. apply reconcileAccess_directory in H3 as [(_ & ? & ?) _]. by split. }
  change (directory_groups (audited m q d3)) with (directory_groups d3). change (group_memberships (audited m q d3)) with (group_memberships d3).
  rewrite Hg3, Hm3, Hg. split; [done|]. split; [|exact Hm].
  intros v Hv. rewrite forallb_forall in Hown. specialize (Hown v Hv). destruct (users d !! v) as [r|]; [by exists r|done].
Qed.

Lemma creation_confined lid eid id g members ev now d u d' : CreateUpstreamGroup lid eid id g members ev now d = inr (u, d') ->
  groups_confined (g_SourceConnectorID g) d d'.
Proof.
  intros Hr. apply create_group_inv in Hr as (Hc & Hn & Hg & Hown & Hm). split_and!.
  - intros k g' Hk _. assert (k <> id) as Hne by (intros ->; congruence). rewrite Hg, lookup_insert_ne by done. split; [done|].
    intros v. rewrite Hm. cbn [fst snd]. by rewrite (proj2 (streqb_false k id) Hne).
  - intros k g'. rewrite Hg. destruct (decide (k = id)) as [->|Hne]; [|rewrite lookup_insert_ne by done; by left].
    rewrite lookup_insert_eq. intros [= <-]. right. unfold group_owned_by. cbn. by rewrite (proj2 (streqb_false _ _) Hc), streqb_refl.
  - intros k v Hv. rewrite Hm in Hv. cbn [fst snd] in Hv. destruct (_ && _) eqn:Ea; [|by left].
    apply andb_true_iff in Ea as [_ Ea]. apply one_of_true in Ea. right. by apply Hown.
Qed.

(** The group a write leaves is there to be answered. *)
Lemma stored_after_creation lid eid id g members ev now d u d' : CreateUpstreamGroup lid eid id g members ev now d = inr (u, d') ->
  is_Some (GetUpstreamGroup (g_SourceConnectorID g) id d').
Proof.
  intros Hr. apply create_group_inv in Hr as (Hc & _ & Hg & _). unfold GetUpstreamGroup. rewrite Hg, lookup_insert_eq.
  unfold group_owned_by. cbn. rewrite (proj2 (streqb_false _ _) Hc), streqb_refl. cbn. by eexists.
Qed.

Lemma stored_after_replace lid eid order c id ev edit now d d' : ReplaceUpstreamGroup lid eid order c id ev edit now d = inr (tt, d') ->
  is_Some (GetUpstreamGroup c id d').
Proof.
  intros Hr. apply replace_inv in Hr as (current & next & Hcur & _ & _ & _ & (g' & Hg & Hsrc & _) & _).
  unfold GetUpstreamGroup in *. rewrite Hg, lookup_insert_eq. destruct (directory_groups d !! id) as [row|]; [|done].
  destruct (group_owned_by c row) eqn:Eo; [|done]. unfold group_owned_by in *. apply andb_true_iff in Eo as [-> _]. rewrite Hsrc, streqb_refl. by eexists.
Qed.
End scim_groups.

(** ** Facts: refusals *)

(** No store operation raises a [scimProblem] of its own. *)
Definition never_scim {A} (m : STx A) : Prop := forall d s t x, m d <> inl (ErrScim s t x).

Lemma never_bind {A B} (m : STx A) (k : A -> STx B) : never_scim m -> (forall a, never_scim (k a)) -> never_scim (tx_bind m k).
Proof. intros Hm Hk d s t x. unfold tx_bind. destruct (m d) as [e|[a d1]] eqn:E; [intros [= ->]; by eapply Hm|apply Hk]. Qed.
Lemma never_ret {A} (a : A) : never_scim (tx_ret a).
Proof. done. Qed.
Lemma never_get : never_scim tx_get.
Proof. done. Qed.
Lemma never_set f : never_scim (tx_set f).
Proof. done. Qed.
Lemma never_fail {A} e : (forall s t x, e <> ErrScim s t x) -> never_scim (tx_fail (A := A) e).
Proof. intros He d s t x [= ->]. by eapply He. Qed.
Lemma never_guard b e : (forall s t x, e <> ErrScim s t x) -> never_scim (tx_guard b e).
Proof. intros He d s t x. unfold tx_guard. destruct b; [done|]. intros [= ->]. by eapply He. Qed.
Lemma never_iter {A} (f : A -> STx unit) l : (forall a, never_scim (f a)) -> never_scim (tx_iter f l).
Proof. intros Hf. induction l; cbn [tx_iter]; [apply never_ret|by apply never_bind]. Qed.
Ltac head_of t := lazymatch t with ?f _ => head_of f | _ => t end.
Ltac never := repeat (cbn zeta; match goal with
  | |- never_scim (tx_bind _ _) => apply never_bind; [|intros ?]
  | |- never_scim (match ?x with _ => _ end) => destruct x
  | |- never_scim (tx_iter _ _) => apply never_iter; intros ?
  | |- never_scim (tx_guard _ _) => apply never_guard; done
  | |- never_scim (tx_fail _) => apply never_fail; done
  | |- never_scim (tx_ret _) => apply never_ret
  | |- never_scim (tx_set _) => apply never_set
  | |- never_scim tx_get => apply never_get
  | |- never_scim (fun d => inr _) => by intros ? ? ? ?
  | |- never_scim ?t => let h := head_of t in unfold h
  end).

Section scim_refusals.
Context `{Codec}.

(** One of an update or a replace is the closure's. *)
Lemma update_problem lid eid id edit ev now d s t x : updateUser lid eid id edit ev now d = inl (ErrScim s t x) ->
  exists row, users d !! id = Some row /\ edit d (scanUser now row) = inl (ErrScim s t x).
Proof.
  unfold updateUser. unfold tx_bind at 1. cbn [tx_get]. destruct (users d !! id) as [row|]; [|done]. cbn zeta.
  destruct (edit d (scanUser now row)) as [e|[[u ends] rv]] eqn:Ee; [intros [= ->]; by exists row|].
  intros Hr. exfalso. revert Hr. match goal with |- ?m d = _ -> _ => assert (never_scim m) as Hn; [|apply Hn] end. never.
Qed.

Lemma upstream_problem lid eid c id ev edit now d s t x d' : UpdateUpstreamUser lid eid c id ev edit now d = (inl (ErrScim s t x), d') ->
  exists u, edit u = inl (ErrScim s t x).
Proof.
  unfold UpdateUpstreamUser, commit. destruct (updateUser _ _ _ _ _ _ d) as [e|[a d1]] eqn:Eu; [|done].
  intros He. assert (e = ErrScim s t x) as -> by (destruct e; cbn in He; congruence). apply update_problem in Eu as (row & _ & Ee).
  exists (scanUser now row). unfold upstream_edit in Ee. destruct (negb _); [done|]. destruct (edit (scanUser now row)); [by injection Ee as ->|].
  revert Ee. repeat case_match; done.
Qed.

Lemma replace_problem lid eid order c id ev edit now d s t x : ReplaceUpstreamGroup lid eid order c id ev edit now d = inl (ErrScim s t x) ->
  exists g, edit g = inl (ErrScim s t x).
Proof.
  unfold ReplaceUpstreamGroup. unfold tx_bind at 1. cbn [tx_get]. destruct (GetUpstreamGroup c id d) as [g|]; [|done]. cbn zeta.
  destruct (edit g) as [e|g'] eqn:Ee; [intros [= ->]; by exists g|].
  intros Hr. exfalso. revert Hr. match goal with |- ?m d = _ -> _ => assert (never_scim m) as Hn; [|apply Hn] end. never.
Qed.
End scim_refusals.

(** ** Facts: what a request does *)

Lemma upstream_confined_refl c o : ScimInbound.confined c o o.
Proof.
  unfold ScimInbound.confined. destruct o as [r|]; [|done]. destruct (owned_by c r) eqn:E; [|done]. split; [done|]. split; [unfold kept; rewrite !EqualFold_refl; by split_and!|].
  intros _. by left.
Qed.

Section scim_facts.
Context `{Codec} `{ScimText}.
Context (sv : Server) (rq : Request) (dr : WebDraws) (si : ScimInput) (issuerURL : string).
Context (lid : string -> string) (eid : string -> string -> string) (order : list (string * Json) -> list (string * Json))
  (member_order : list string -> list string) (now : Z).
Hypothesis member_order_perm : forall l, member_order l ≡ₚ l.

(** The connector as the audit trail names it. *)
Definition connector_actor (c : SCIMConnector) : User :=
  MkUser (sn_ID c) (String.append "connector:" (sn_Name c)) "" "" "" "" "" false false None "" "" false false None 0 0.
Notation logged c action := (logged sv rq dr (connector_actor c) action).
Notation reports c action := (reports sv rq dr (connector_actor c) action).

Lemma reports_scim c action target kind details : reports c action (scim_event sv rq dr now c action target kind details).
Proof. by eexists. Qed.

(** What a write leaves: the accounts and groups of others as they were, and the
    event of the request. *)
Definition wrote (c : SCIMConnector) (action : string) (d d' : DB) : Prop :=
  (forall k, ScimInbound.confined (sn_ID c) (users d !! k) (users d' !! k)) /\ groups_confined (sn_ID c) d d' /\ logged c action d'.

(** A write, behind the token. *)
Definition writing (c : SCIMConnector) (action : string) (m : Handler Reply) : Prop := forall d, users_keyed d ->
  match m d with (inl rep, d') => 400 <= rp_Status rep /\ untouched d d' | (inr rep, d') => 200 <= rp_Status rep < 300 /\ wrote c action d d' end.
Definition reading (m : Handler Reply) : Prop := forall d,
  match m d with (inl rep, d') => 400 <= rp_Status rep /\ d' = d | (inr rep, d') => rp_Status rep = 200 /\ d' = d end.

Lemma writing_fail c action rep : 400 <= rp_Status rep -> writing c action (run_fail rep).
Proof. intros Hs d _. split; [done|apply untouched_refl]. Qed.

Lemma reading_fail rep : 400 <= rp_Status rep -> reading (run_fail rep).
Proof. by intros Hs d. Qed.
Lemma reading_json body : reading (scimJSON 200 body).
Proof. by intros d. Qed.

(** A step that only looks. *)
Definition looking {A} (m : Handler A) : Prop := forall d,
  match m d with (inl rep, d') => 400 <= rp_Status rep /\ d' = d | (inr _, d') => d' = d end.

Lemma looking_ask {A} (f : DB -> A) : looking (ask f).
Proof. by intros d. Qed.

Lemma reading_bind {A} (m : Handler A) k : looking m -> (forall a, reading (k a)) -> reading (run_bind m k).
Proof. intros Hm Hk d. unfold run_bind. specialize (Hm d). destruct (m d) as [[rep|a] d1]; [done|]. subst d1. apply Hk. Qed.

Lemma writing_bind {A} c action (m : Handler A) k : looking m -> (forall a, writing c action (k a)) -> writing c action (run_bind m k).
Proof.
  intros Hm Hk d Hd. unfold run_bind. specialize (Hm d). destruct (m d) as [[rep|a] d1]; [|subst d1; by apply Hk].
  destruct Hm as [Hs ->]. split; [done|apply untouched_refl].
Qed.

Lemma looking_page : looking (page_input si).
Proof. intros d. unfold page_input. cbn zeta. destruct (if si_StartIndex si =?s "" then _ else _); [|by split]. by destruct (if si_Count si =?s "" then _ else _). Qed.

Lemma looking_group_input body : looking (group_input body).
Proof. intros d. unfold group_input. destruct (decodeGroup body) as [|g]; [by split|]. by destruct (memberIDs _). Qed.

Lemma looking_loadGroup c : looking (loadGroup rq si c).
Proof. intros d. unfold loadGroup, run_bind, ask. destruct (GetUpstreamGroup _ _ _) as [g|]; [|by split]. by destruct (groupIfMatch si _). Qed.

(** *** Accounts *)

Definition well_refused {A} (e : StoreError + A) : Prop := match e with inl (ErrScim s _ _) => 400 <= s | _ => True end.

Lemma save_writes c action edit : (forall u v, edit u = inr v -> u_ID v = u_ID u) -> (forall u, well_refused (edit u)) ->
  forall d, users_keyed d ->
  match save sv rq dr si lid eid now c action edit d with
  | (inl rep, d') => 400 <= rp_Status rep /\ untouched d d'
  | (inr u, d') => wrote c action d d'
  end.
Proof.
  intros Hid Hwell d Hd. unfold save. unfold run_bind at 1. unfold attempt.
  set (ev := scim_event _ _ _ _ _ _ _ _ _). destruct (UpdateUpstreamUser _ _ _ _ ev _ _ d) as [[e|u] d1] eqn:Eu.
  - pose proof (update_upstream_inl _ _ _ _ _ _ _ _ _ _ Eu) as ->.
    assert (400 <= rp_Status (save_refusal e)) as Hs.
    { destruct e; cbn; try lia. apply upstream_problem in Eu as (v & Ev). unfold saved_edit in Ev.
      destruct (ifMatch si v); [|injection Ev as <- _ _; done]. specialize (Hwell v). by rewrite Ev in Hwell. }
    unfold run_bind. destruct e; (split; [exact Hs|]); first [apply untouched_refl|apply audit_run].
  - split; [|split].
    + apply (upstream_step_confined (sn_ID c) d d d1); [|exact Hd|intros k; apply upstream_confined_refl].
      eapply us_update; [|exact Eu]. unfold saved_edit. intros v w. destruct (ifMatch si v); [apply Hid|done].
    + apply update_upstream_inr in Eu. by eapply same_groups_confined, keeps_update.
    + apply update_upstream_inr in Eu. eapply updateUser_logs; [|exact Eu]. apply reports_scim.
Qed.

Lemma save_answers c action edit status f : (forall u v, edit u = inr v -> u_ID v = u_ID u) -> (forall u, well_refused (edit u)) ->
  200 <= status < 300 -> (forall u, rp_Status (f u) = status) ->
  writing c action (run_bind (save sv rq dr si lid eid now c action edit) (fun u => run_ret (f u))).
Proof.
  intros Hid Hw Hs Hf d Hd. pose proof (save_writes c action edit Hid Hw d Hd) as Hx. unfold run_bind.
  destruct (save _ _ _ _ _ _ _ _ _ _ d) as [[rep|u] d1]; [exact Hx|]. cbn. rewrite Hf. by split.
Qed.

Lemma apply_all_id {A} (f : User -> A -> string + User) l : (forall u a v, f u a = inr v -> u_ID v = u_ID u) ->
  forall u v, apply_all f l u = inr v -> u_ID v = u_ID u.
Proof.
  intros Hf. induction l as [|a l IH]; intros u v; cbn; [by intros [= ->]|]. destruct (f u a) as [|w] eqn:E; [done|].
  intros Hv. apply Hf in E. rewrite <- E. by apply IH.
Qed.

Lemma setAttribute_id u path value v : setAttribute u path value = inr v -> u_ID v = u_ID u.
Proof.
  unfold setAttribute. cbn zeta. intros Hv.
  repeat match type of Hv with
  | (if ?b then _ else _) = _ => destruct b
  | match ?x with _ => _ end = _ => destruct x
  | inr (if ?b then _ else _) = _ => destruct b
  | inl _ = inr _ => discriminate Hv
  | inr _ = inr _ => injection Hv as <-
  end; done.
Qed.

Lemma applyPatch_id u op v : applyPatch order u op = inr v -> u_ID v = u_ID u.
Proof.
  unfold applyPatch. cbn zeta. destruct (_ =?s "remove"); [destruct (one_of _ _); [done|by intros [= ->]]|].
  destruct (negb _); [done|]. destruct (_ =?s ""); [|apply setAttribute_id].
  destruct (po_Value op); try done. apply apply_all_id. intros w a x. apply setAttribute_id.
Qed.

Lemma writing_Create body c : writing c "scim.user_created" (Create sv rq dr issuerURL now body c).
Proof.
  unfold Create. destruct (decodeUser body) as [|[u has]]; [by apply writing_fail|]. destruct (_ || _); [by apply writing_fail|].
  cbn zeta. destruct (primaryEmail u =?s ""); [by apply writing_fail|]. intros d Hd. unfold run_bind at 1, attempt.
  set (ev := scim_event _ _ _ _ _ _ _ _ _). set (draft := upstream_draft _ _ _ _).
  destruct (commit (CreateUpstreamUser _ _ ev _) d) as [[e|s] d1] eqn:Ec.
  - apply commit_inl in Ec as [-> _]. destruct e; cbn; (split; [lia|apply untouched_refl]).
  - apply commit_inr in Ec. cbn. split; [lia|]. split; [|split].
    + apply (upstream_step_confined (sn_ID c) d d d1); [|exact Hd|intros k; apply upstream_confined_refl].
      eapply (us_create _ _ draft); [done|exact Ec].
    + by eapply same_groups_confined, keeps_creation.
    + assert (tx_logs sv rq dr (connector_actor c) "scim.user_created" (CreateUpstreamUser (w_id dr 50) draft ev now)) as Hl.
      { unfold CreateUpstreamUser. tx_logs. apply reports_scim. }
      by eapply Hl.
Qed.

Lemma writing_Replace body c : writing c "scim.user_updated" (Replace sv rq dr si issuerURL lid eid now body c).
Proof.
  unfold Replace. destruct (decodeUser body) as [|[u has]]; [by apply writing_fail|]. destruct (_ =?s ""); [by apply writing_fail|].
  apply (save_answers c _ _ 200 (fun u => MkReply 200 (scim_user_json (user_resource issuerURL u)) None None)); [| |lia|done].
  - intros w v. unfold replace_edit. destruct (_ && _); [done|]. intros [= <-]. by destruct has, (primaryEmail u <>?s "").
  - intros w. unfold replace_edit. destruct (_ && _); [cbn; lia|done].
Qed.

Lemma patch_edit_well ops u : well_refused (patch_edit order ops u).
Proof. unfold patch_edit. destruct (apply_all _ _ _); [cbn; lia|done]. Qed.

Lemma writing_Patch body c : writing c "scim.user_updated" (Patch sv rq dr si issuerURL lid eid order now body c).
Proof.
  unfold Patch. cbn zeta. destruct body as [ops|]; [|by apply writing_fail]. destruct (_ || _); [by apply writing_fail|].
  apply (save_answers c _ _ 200 (fun u => MkReply 200 (scim_user_json (user_resource issuerURL u)) None None)); [|apply patch_edit_well|lia|done].
  intros u v. unfold patch_edit. destruct (apply_all _ _ _) eqn:E; [done|]. intros [= <-]. eapply apply_all_id; [|exact E].
  intros x op y. apply applyPatch_id.
Qed.

Lemma writing_Delete c : writing c "scim.user_deactivated" (Delete sv rq dr si lid eid now c).
Proof. apply (save_answers c _ _ 204 (fun _ => no_content)); [by intros u v [= <-]|done|lia|done]. Qed.

(** *** Groups *)

Lemma groupError_status e : 400 <= rp_Status (groupError e).
Proof. destruct e as [| | | | | | | | | | | | | | | | | | | | | | | | | | | | | | | | | | | | | | | | | |s|t|s t x]; cbn; try lia. destruct (t =?s _); cbn; lia. Qed.

Lemma stored_answer c id status d : is_Some (GetUpstreamGroup (sn_ID c) id d) ->
  exists rep, write_stored issuerURL c id status d = (inr rep, d) /\ rp_Status rep = status.
Proof. intros [g Hg]. unfold write_stored, run_bind, ask. rewrite Hg. by eexists. Qed.

Lemma writing_CreateGroup body c : writing c "scim.group_created" (CreateGroup sv rq dr issuerURL lid eid now body c).
Proof.
  unfold CreateGroup. apply writing_bind; [apply looking_group_input|]. intros [input members] d Hd. cbn zeta.
  set (ev := scim_event _ _ _ _ _ _ _ _ _). set (g := MkGroup _ _ _ _ _ _ _). unfold run_bind, answering.
  destruct (commit (CreateUpstreamGroup _ _ _ g _ ev _) d) as [[e|[]] d1] eqn:Ec.
  - apply commit_inl in Ec as [-> _]. split; [apply groupError_status|apply untouched_refl].
  - apply commit_inr in Ec. destruct (stored_answer c (w_id dr 50) 201 d1) as (rep & -> & ->); [by apply stored_after_creation in Ec|].
    split; [lia|]. split; [|split].
    + intros k. rewrite (create_group_users _ _ _ _ _ _ _ _ _ Ec). apply upstream_confined_refl.
    + by apply creation_confined in Ec.
    + assert (tx_logs sv rq dr (connector_actor c) "scim.group_created" (CreateUpstreamGroup lid eid (w_id dr 50) g members ev now)) as Hl.
      { unfold CreateUpstreamGroup. tx_logs. by eexists. }
      by eapply Hl.
Qed.

Lemma saveGroup_writes c edit : (forall g, well_refused (edit g)) ->
  writing c "scim.group_updated" (saveGroup sv rq dr si issuerURL lid eid member_order now c edit).
Proof.
  intros Hwell d Hd. unfold saveGroup. cbn zeta. unfold run_bind, answering. set (ev := scim_event _ _ _ _ _ _ _ _ _).
  destruct (commit (ReplaceUpstreamGroup _ _ _ _ _ ev _ _) d) as [[e|[]] d1] eqn:Ec.
  - apply commit_inl in Ec as [-> Ec]. split; [|apply untouched_refl]. destruct e; try apply groupError_status.
    apply replace_problem in Ec as (g & Eg). unfold saved_group_edit in Eg. destruct (groupIfMatch si _); [|done].
    specialize (Hwell g). by rewrite Eg in Hwell.
  - apply commit_inr in Ec. destruct (stored_answer c (r_PathID rq) 200 d1) as (rep & -> & ->); [by eapply stored_after_replace|].
    split; [lia|]. split; [|split].
    + apply (upstream_step_confined (sn_ID c) d d d1); [|exact Hd|intros k; apply upstream_confined_refl]. by eapply us_replace.
    + by eapply replace_confined.
    + assert (tx_logs sv rq dr (connector_actor c) "scim.group_updated"
        (ReplaceUpstreamGroup lid eid member_order (sn_ID c) (r_PathID rq) ev (saved_group_edit si edit) now)) as Hl.
      { unfold ReplaceUpstreamGroup. tx_logs. apply reports_scim. }
      by eapply Hl.
Qed.

Lemma writing_ReplaceGroup body c : writing c "scim.group_updated" (ReplaceGroup sv rq dr si issuerURL lid eid member_order now body c).
Proof.
  unfold ReplaceGroup. apply writing_bind; [apply looking_group_input|]. intros [input members]. apply saveGroup_writes.
  intros g. unfold replace_group_edit. destruct (_ && _); [cbn; lia|done].
Qed.

Lemma patch_op_well s op : well_refused (patch_group_op s op).
Proof.
  unfold patch_group_op, patch_object, bad. destruct s as [g members]. cbn zeta.
  repeat match goal with |- well_refused (match ?x with _ => _ end) => destruct x end; cbn; lia || done.
Qed.

Lemma writing_PatchGroup body c : writing c "scim.group_updated" (PatchGroup sv rq dr si issuerURL lid eid member_order now body c).
Proof.
  unfold PatchGroup. cbn zeta. destruct body as [ops|]; [|by apply writing_fail]. destruct (_ || _); [by apply writing_fail|].
  apply saveGroup_writes. intros g. unfold patch_group_edit. generalize (ug_Group g, list_to_set (ug_Members g) : gset string) as s.
  induction ops as [|op ops IH]; intros s; cbn; [by destruct s|]. pose proof (patch_op_well s op) as Hw.
  destruct (patch_group_op s op) as [e|s1]; [exact Hw|apply IH].
Qed.

Lemma writing_DeleteGroup c : writing c "scim.group_deleted" (DeleteGroup sv rq dr si lid eid now c).
Proof.
  unfold DeleteGroup. apply writing_bind; [apply looking_loadGroup|]. intros g d Hd. cbn zeta. unfold run_bind, answering.
  match goal with |- context [commit ?m d] => set (op := m) end. destruct (commit op d) as [[e|[]] d1] eqn:Ec.
  - apply commit_inl in Ec as [-> _]. split; [apply groupError_status|apply untouched_refl].
  - apply commit_inr in Ec. cbn. split; [lia|]. split; [|split].
    + apply (upstream_step_confined (sn_ID c) d d d1); [|exact Hd|intros k; apply upstream_confined_refl]. by eapply us_delete_group.
    + by eapply delete_confined.
    + assert (tx_logs sv rq dr (connector_actor c) "scim.group_deleted" op) as Hl.
      { unfold op, DeleteUpstreamGroup. tx_logs. apply reports_scim. }
      by eapply Hl.
Qed.

(** *** The routes *)

(** The action the audit trail names a write by. *)
Definition scim_action (q : ScimRequest) : string :=
  match q with
  | QCreateUser _ => "scim.user_created"
  | QReplaceUser _ | QPatchUser _ => "scim.user_updated"
  | QDeleteUser => "scim.user_deactivated"
  | QCreateGroup _ => "scim.group_created"
  | QReplaceGroup _ | QPatchGroup _ => "scim.group_updated"
  | QDeleteGroup => "scim.group_deleted"
  | _ => ""
  end.

Notation handler := (scim_handler sv rq dr si issuerURL lid eid order member_order now).
Notation api := (scim_api sv rq dr si issuerURL lid eid order member_order now).

Lemma handler_writes q c : writes q = true -> writing c (scim_action q) (handler q c).
Proof.
  intros Hw. destruct q; try discriminate Hw; [apply writing_Create|apply writing_Replace|apply writing_Patch|apply writing_Delete|
    apply writing_CreateGroup|apply writing_ReplaceGroup|apply writing_PatchGroup|apply writing_DeleteGroup].
Qed.

Lemma handler_reads q c : writes q = false -> reading (handler q c).
Proof.
  intros Hw. destruct q; try discriminate Hw; cbn [scim_handler].
  - apply reading_json.
  - unfold ResourceTypes. cbn zeta. repeat case_match; first [apply reading_json|by apply reading_fail].
  - unfold Schemas. repeat case_match; first [apply reading_json|by apply reading_fail].
  - unfold List. destruct (parseFilter _) as [|[a v]]; [by apply reading_fail|]. apply reading_bind; [apply looking_page|]. intros p.
    apply reading_bind; [apply looking_ask|]. intros [|[us n]]; [by apply reading_fail|apply reading_json].
  - unfold Get. apply reading_bind; [apply looking_ask|]. intros [u|]; [apply reading_json|by apply reading_fail].
  - unfold ListGroups. destruct (parseFilter _) as [|[a v]]; [by apply reading_fail|]. apply reading_bind; [apply looking_page|]. intros p.
    apply reading_bind; [apply looking_ask|]. intros [|[gs n]]; [by apply reading_fail|apply reading_json].
  - unfold GetGroup. apply reading_bind; [apply looking_ask|]. intros [g|]; [apply reading_json|by apply reading_fail].
Qed.

(** What the token says, and the only mark checking it leaves. *)
Lemma authenticate_token_inv p d r d1 : AuthenticateSCIMToken p now d = (r, d1) ->
  (exists f, d1 = on_scim_connector_tokens f d) /\
  forall c scope, r = inr (c, scope) -> exists id t, live_token (HashSHA256 (TrimPrefix p "scim_")) d = Some (id, t, c) /\ ct_Scope t = scope.
Proof.
  assert (d = on_scim_connector_tokens (fun x => x) d) as Hd by by destruct d.
  unfold AuthenticateSCIMToken. cbn zeta. destruct (TrimPrefix p "scim_" =?s ""); [intros [= <- <-]; split; [by eexists|done]|].
  destruct (live_token _ d) as [[[id t] c]|]; [|intros [= <- <-]; split; [by eexists|done]].
  intros [= <- <-]. split; [|intros c' scope [= <- <-]; by exists id, t].
  destruct (match ct_LastUsedAt t with Some _ => _ | None => _ end); [by eexists|by eexists].
Qed.

Lemma api_settles q d : users_keyed d ->
  let presented := AuthenticateSCIMToken (bearer si) now d in
  match api q d with
  | (inl rep, d') => 400 <= rp_Status rep /\ (d' = d \/ untouched presented.2 d')
  | (inr rep, d') => 200 <= rp_Status rep < 300 /\ exists c scope, presented.1 = inr (c, scope) /\
      if writes q then scope = "write" /\ wrote c (scim_action q) presented.2 d' else d' = presented.2
  end.
Proof.
  intros Hd. cbn zeta. unfold scim_api, Authenticate. destruct (negb (String.prefix _ _)); [split; [cbn; lia|by left]|].
  unfold run_bind at 1, attempt. destruct (AuthenticateSCIMToken (bearer si) now d) as [r d1] eqn:Ea. cbn [fst snd].
  assert (users_keyed d1) as Hd1 by (apply authenticate_token_inv in Ea as [[f ->] _]; exact Hd).
  destruct r as [e|[c scope]].
  - destruct e; cbn; try (split; [lia|right; apply untouched_refl]). destruct (si_FailureAllowed si); (split; [cbn; lia|right; apply untouched_refl]).
  - destruct (negb (si_Allowed si)); [split; [cbn; lia|right; apply untouched_refl]|].
    destruct (writes q) eqn:Ew; cbn [andb].
    + destruct (scope =?s "write") eqn:Es; cbn [negb]; [|split; [cbn; lia|right; apply untouched_refl]]. apply streqb_true in Es as ->.
      pose proof (handler_writes q c Ew d1 Hd1) as Hw. destruct (handler q c d1) as [[rep|rep] d'].
      * split; [apply Hw|right; apply Hw].
      * split; [apply Hw|]. exists c, "write". split; [done|]. split; [done|apply Hw].
    + pose proof (handler_reads q c Ew d1) as Hw. destruct (handler q c d1) as [[rep|rep] d'].
      * destruct Hw as [Hs ->]. split; [done|right; apply untouched_refl].
      * destruct Hw as [Hs ->]. split; [lia|]. by exists c, scope.
Qed.

(** C18. A request to the inbound SCIM endpoints changes the directory only
    where it is answered with success and carries the live write token of an
    active connector: then accounts and groups of others stay as they are,
    no account gains a role, a password or a sign-in the connector may not
    give, only its own accounts join its groups, and the change is in the
    audit trail; answered otherwise, or reading, it leaves at most the
    token's time of use and rows of the audit trail. *)
Theorem a_scim_request_stays_with_its_connector q d rep d' : users_keyed d -> serve (api q) d = (rep, d') ->
  if writes q && (rp_Status rep <? 300) then
    exists id t c, live_token (HashSHA256 (TrimPrefix (bearer si) "scim_")) d = Some (id, t, c) /\ ct_Scope t = "write" /\
      (forall k, ScimInbound.confined (sn_ID c) (users d !! k) (users d' !! k)) /\ groups_confined (sn_ID c) d d' /\
      logged c (scim_action q) d'
  else d' = d \/ untouched (AuthenticateSCIMToken (bearer si) now d).2 d'.
Proof.
  intros Hd Hs. pose proof (api_settles q d Hd) as Ha. cbn zeta in Ha. unfold serve in Hs.
  destruct (AuthenticateSCIMToken (bearer si) now d) as [r d1] eqn:Et. apply authenticate_token_inv in Et as [[f Ef] Hlive]. cbn [fst snd] in Ha.
  destruct (api q d) as [[x|x] d2]; injection Hs as -> ->.
  - destruct Ha as [Hs Ha]. replace (rp_Status rep <? 300) with false by lia. by rewrite andb_false_r.
  - destruct Ha as (Hs & c & scope & Hr & Ha). replace (rp_Status rep <? 300) with true by lia. rewrite andb_true_r.
    destruct (writes q); [|subst d'; right; apply untouched_refl]. destruct Ha as [-> (Hu & Hg & Hl)].
    destruct (Hlive c "write" Hr) as (id & t & Hl' & Hw). exists id, t, c. rewrite Ef in Hu, Hg. split; [exact Hl'|]. split; [exact Hw|]. split; [exact Hu|]. split; [exact Hg|exact Hl].
Qed.

(** *** Versions *)

(** What a success of [save] says of the row. *)
Lemma save_inv c action edit d u d' : save sv rq dr si lid eid now c action edit d = (inr u, d') ->
  exists row new, users d !! r_PathID rq = Some row /\ ifMatch si row = true /\
    users d' = <[r_PathID rq := new]> (users d) /\ u_UpdatedAt new = now.
Proof.
  unfold save. unfold run_bind at 1, attempt. set (ev := scim_event _ _ _ _ _ _ _ _ _).
  destruct (UpdateUpstreamUser _ _ _ _ ev _ _ d) as [[e|s] d1] eqn:Eu.
  - unfold run_bind. destruct e; cbn; try done. all: by destruct (Observe _ _ _ _ _ _ _ _ _ _ _ _) as [[?|?] ?].
  - intros [= -> ->]. apply update_upstream_inr, updateUser_row in Eu as (row & w & ends & rv & v & Hrow & Hed & Hus).
    exists row. eexists. split; [done|]. split; [|split; [exact Hus|done]].
    unfold upstream_edit in Hed. destruct (negb _); [done|]. destruct (saved_edit si edit (scanUser now row)) as [|x] eqn:Es; [done|].
    unfold saved_edit in Es. destruct (ifMatch si (scanUser now row)) eqn:Ei; [|done]. rewrite <- Ei. unfold ifMatch, version. f_equal. f_equal.
    unfold scanUser. destruct (u_EndsAt row) as [t|]; [|done]. by destruct (of_unix t <=? now).
Qed.

Definition edits_user (q : ScimRequest) : bool := match q with QReplaceUser _ | QPatchUser _ | QDeleteUser => true | _ => false end.

Lemma run_after_save {A} (m : Handler A) f d rep d' : run_bind m (fun u => run_ret (f u)) d = (inr rep : Reply + Reply, d') -> exists u, m d = (inr u, d').
Proof. unfold run_bind. destruct (m d) as [[r|u] d1]; [done|]. intros [= _ <-]. by exists u. Qed.

Lemma edit_inv q d rep d' : edits_user q = true -> api q d = (inr rep, d') ->
  exists row new, users d !! r_PathID rq = Some row /\ ifMatch si row = true /\
    users d' = <[r_PathID rq := new]> (users d) /\ u_UpdatedAt new = now.
Proof.
  intros Hq. unfold scim_api, Authenticate. destruct (negb _); [done|]. unfold run_bind at 1, attempt.
  destruct (AuthenticateSCIMToken _ _ d) as [r d1] eqn:Ea. apply authenticate_token_inv in Ea as [[f ->] _].
  destruct r as [e|[c scope]]; [destruct e; try done; by destruct (si_FailureAllowed si)|].
  destruct (negb (si_Allowed si)); [done|]. destruct (_ && _); [done|].
  destruct q; try discriminate Hq; cbn [scim_handler].
  - unfold Replace. destruct (decodeUser body) as [|[u has]]; [done|]. destruct (_ =?s ""); [done|]. intros Hr.
    apply (run_after_save _ (fun u => MkReply 200 (scim_user_json (user_resource issuerURL u)) None None)) in Hr as [s Hr].
    by apply save_inv in Hr.
  - unfold Patch. cbn zeta. destruct body as [ops|]; [|done]. destruct (_ || _); [done|]. intros Hr.
    apply (run_after_save _ (fun u => MkReply 200 (scim_user_json (user_resource issuerURL u)) None None)) in Hr as [s Hr].
    by apply save_inv in Hr.
  - unfold Delete. intros Hr. apply (run_after_save _ (fun _ => no_content)) in Hr as [s Hr]. by apply save_inv in Hr.
Qed.
End scim_facts.

(** The header names versions. *)
Definition conditional (si : ScimInput) : bool := let want := TrimSpace (si_IfMatch si) in negb ((want =?s "") || (want =?s "*")).
Definition named_versions (si : ScimInput) : list string :=
  map (fun x => TrimSpace (string_of x)) (split_on 44 [] (bytes_of (TrimSpace (si_IfMatch si)))).

Lemma matches_conditional si v : conditional si = true -> matches_version si v = true -> In v (named_versions si).
Proof.
  unfold conditional, matches_version. cbn zeta. intros Hc. apply negb_true_iff in Hc. rewrite Hc. cbn [orb]. intros Hx.
  apply existsb_exists in Hx as (x & Hin & Hx). apply streqb_true in Hx. apply in_map_iff. by exists x.
Qed.

Lemma append_last_inj s1 s2 c : String.append s1 (String c "") = String.append s2 (String c "") -> s1 = s2.
Proof.
  revert s2. induction s1 as [|a s1 IH]; intros [|b s2]; cbn; intros E; [done| | |].
  - injection E as _ E. by destruct s2.
  - injection E as _ E. by destruct s1.
  - injection E as -> E. f_equal. by apply IH.
Qed.

Lemma etag_inj t u : etag t = etag u -> t = u.
Proof.
  unfold etag, concat_text, quote_mark. intros E. cbn in E. injection E as E. apply append_last_inj in E. by apply (inj pretty) in E.
Qed.

(** C19. A conditional replace, patch or deactivation of an account that comes
    after another such write of it is answered with success only where its
    If-Match names the version that write left, and no other instant's
    version passes for it: a writer that read before is refused and no
    update is lost. *)
Theorem a_conditional_write_saw_the_last_one `{Codec} `{ScimText} sv rq rq' dr dr' si si' url lid eid order order' mo now now' q q' d d1 d2 d3 rep rep' :
  edits_user q = true -> scim_api sv rq dr si url lid eid order mo now q d = (inr rep, d1) ->
  users d2 !! r_PathID rq = users d1 !! r_PathID rq -> r_PathID rq' = r_PathID rq ->
  edits_user q' = true -> conditional si' = true ->
  scim_api sv rq' dr' si' url lid eid order' mo now' q' d2 = (inr rep', d3) ->
  exists x, In x (named_versions si') /\ forall t, x = etag t <-> t = now.
Proof.
  intros Hq Hr Hu Hid Hq' Hc Hr'. apply edit_inv in Hr as (row & new & _ & _ & Hn & Ht); [|done]. rewrite Hn, lookup_insert_eq in Hu.
  apply edit_inv in Hr' as (row' & new' & Hrow & Hm & _ & _); [|done]. rewrite Hid, Hu in Hrow. injection Hrow as <-.
  exists (etag now). split.
  - unfold ifMatch, version in Hm. rewrite Ht in Hm. by apply matches_conditional.
  - intros t. split; [intros E; symmetry; by apply etag_inj|by intros ->].
Qed.

(** ** Facts: filters *)

(** A value as a client quotes it. *)
Definition quoted_byte (c : Z) : list Z := if (c =? 34) || (c =? 92) then [92; c] else if c =? 10 then [92; 110] else [c].
Definition quoted_bytes (l : list Z) : list Z := flat_map quoted_byte l.
Definition filter_text (attribute value : string) : string :=
  string_of (bytes_of attribute ++ [32; 101; 113; 32; 34] ++ quoted_bytes (bytes_of value) ++ [34]).

Definition is_ascii (c : Z) : Prop := 0 <= c < 128.

Lemma quoted_ascii l : Forall is_ascii l -> Forall is_ascii (quoted_bytes l).
Proof.
  induction 1 as [|c l Hc _ IH]; cbn; [constructor|]. apply Forall_app. split; [|done]. unfold quoted_byte, is_ascii in *.
  destruct (_ || _); [repeat constructor; lia|]. destruct (c =? 10); repeat constructor; lia.
Qed.

Lemma quoted_body_quoted l rest : quoted_body (quoted_bytes l ++ 34 :: rest) = Some (quoted_bytes l, rest).
Proof.
  induction l as [|c l IH]; [done|]. cbn [quoted_bytes flat_map]. fold (quoted_bytes l). unfold quoted_byte.
  destruct (Z.eqb_spec c 34) as [->|H34]; [cbn; by rewrite IH|]. destruct (Z.eqb_spec c 92) as [->|H92]; [cbn; by rewrite IH|].
  cbn [orb]. destruct (Z.eqb_spec c 10) as [->|H10]; [cbn; by rewrite IH|]. cbn [app quoted_body].
  replace (c =? 34) with false by lia. replace (c =? 92) with false by lia. by rewrite IH.
Qed.

(** The runes of an ASCII text are its bytes. *)
Lemma runes_ascii l : Forall is_ascii l -> runes (string_of l) = map (fun c => string_of [c]) l.
Proof.
  induction 1 as [|c l Hc _ IH]; [done|]. cbn [string_of map]. rewrite runes_cons.
  assert (rune_len (String (char_of c) (string_of l)) = 1%nat) as ->.
  { cbn [rune_len]. unfold byte_in, is_ascii, char_of in *. rewrite Ascii.N_ascii_embedding by lia.
    replace ((0 <=? Z.to_N c)%N && (Z.to_N c <=? 127)%N) with true; [done|]. symmetry. apply andb_true_iff. split; apply N.leb_le; lia. }
  cbn -[runes]. by rewrite IH.
Qed.

Lemma rune_code_ascii c : is_ascii c -> rune_code (string_of [c]) = c /\ bytes_of (string_of [c]) = [c].
Proof. intros Hc. unfold rune_code. rewrite bytes_string; [done|]. repeat constructor; unfold is_ascii in *; lia. Qed.

Lemma unquote_quoted l : Forall is_ascii l -> forall fuel, (length (quoted_bytes l) <= fuel)%nat ->
  unquote_upto fuel (map (fun c => string_of [c]) (quoted_bytes l)) = Some l.
Proof.
  induction 1 as [|c l Hc Hl IH]; intros fuel Hf; [by destruct fuel|]. cbn [quoted_bytes flat_map] in *. fold (quoted_bytes l) in *.
  assert (forall e b, is_ascii e -> simple_escape e = Some b -> forall n, (length (quoted_bytes l) <= n)%nat ->
    unquote_upto (S n) (map (fun c => string_of [c]) ([92; e] ++ quoted_bytes l)) = Some (b :: l)) as Hesc.
  { intros e b He Hb n Hn. cbn [app map unquote_upto]. destruct (rune_code_ascii 92) as [-> _]; [unfold is_ascii; lia|]. cbn [Z.eqb Pos.eqb orb].
    unfold escape. destruct (rune_code_ascii e He) as [-> _]. rewrite Hb. by rewrite IH. }
  destruct fuel as [|n]; [destruct (quoted_byte c) eqn:E; [unfold quoted_byte in E; by repeat case_match|cbn in Hf; lia]|].
  unfold quoted_byte in *. destruct (Z.eqb_spec c 34) as [->|H34]; [apply Hesc; [unfold is_ascii; lia|done|cbn in Hf; lia]|].
  destruct (Z.eqb_spec c 92) as [->|H92]; [apply Hesc; [unfold is_ascii; lia|done|cbn in Hf; lia]|].
  cbn [orb] in *. destruct (Z.eqb_spec c 10) as [->|H10]; [apply Hesc; [unfold is_ascii; lia|done|cbn in Hf; lia]|].
  cbn [app map unquote_upto]. destruct (rune_code_ascii c Hc) as [-> ->]. replace (c =? 34) with false by lia. replace (c =? 10) with false by lia.
  replace (c =? 92) with false by lia. cbn [orb]. rewrite IH; [done|cbn in Hf; lia].
Qed.

Lemma span_all p l rest : forallb p l = true -> (match rest with c :: _ => p c = false | [] => True end) -> span p (l ++ rest) = (l, rest).
Proof.
  intros Hl Hr. induction l as [|c l IH]; cbn in *; [destruct rest as [|c r]; [done|cbn; by rewrite Hr]|].
  apply andb_true_iff in Hl as [-> Hl]. by rewrite (IH Hl).
Qed.

(** The name of an attribute: a letter, then letters and dots. *)
Definition attribute_name (s : string) : bool :=
  match bytes_of s with c :: l => letter c && forallb (fun c => letter c || (c =? 46)) l | [] => false end.

(** A filter on any attribute name and any ASCII value, quoted the way JSON
    quotes it, is read back as exactly that attribute and that value. *)
Theorem a_quoted_filter_reads_back attribute value : attribute_name attribute = true -> Forall is_ascii (bytes_of value) ->
  parseFilter (filter_text attribute value) = inr (attribute, value).
Proof.
  unfold attribute_name. intros Ha Hv. destruct (bytes_of attribute) as [|a l] eqn:Eb; [done|]. apply andb_true_iff in Ha as [Ha Hl].
  assert (re_space a = false) as Hsp by (unfold letter, re_space in *; lia).
  assert (bytes_of (filter_text attribute value) = ((a :: l) ++ [32; 101; 113; 32; 34] ++ quoted_bytes (bytes_of value) ++ [34])%list) as Hbytes.
  { unfold filter_text. rewrite bytes_string, Eb; [done|]. repeat apply Forall_app_2; try (repeat constructor; lia); [apply bytes_of_bytes|].
    eapply Forall_impl; [by apply quoted_ascii|]. intros c Hc. unfold is_ascii, is_byte in *. lia. }
  unfold parseFilter. replace (filter_text attribute value =?s "") with false.
  2:{ symmetry. apply streqb_false. intros E. by rewrite E in Hbytes. }
  unfold filter_match. rewrite Hbytes. cbn [app skip_re_space]. rewrite Hsp.
  rewrite app_comm_cons, (span_all _ (a :: l)); [|cbn; by rewrite Ha|done]. cbn [app]. rewrite Ha. cbn [negb]. unfold eq_quoted. cbn.
  rewrite quoted_body_quoted. cbn. unfold Unquote. rewrite runes_ascii by (by apply quoted_ascii). rewrite length_map, unquote_quoted; [|done|done].
  cbn. change (String (char_of a) (string_of l)) with (string_of (a :: l)). rewrite <- Eb. by rewrite !string_bytes.
Qed.

(** A path-less add of an [externalId] to a group that has none is answered with
    success and leaves the group without one; a PUT of it sets it. *)
Theorem a_patch_drops_the_external_id kind e g members : g_ExternalID g = "" ->
  patch_object kind (MkGroupChange None (Some e) None) (g, members) = inr (g, members) /\
  (e <> "" -> exists g', replace_group_edit (MkScimGroup e (g_Name g) []) [] (MkUpstreamGroup g (elements members)) = inr g' /\
     g_ExternalID (ug_Group g') = e).
Proof.
  intros Hg. unfold patch_object, replace_group_edit. cbn. rewrite Hg. cbn. split; [done|]. intros He. apply streqb_false in He. rewrite He. cbn.
  by eexists.
Qed.

(** ** Witnesses *)

#[local] Existing Instance sample_codec.
Definition toy_scim : ScimText := {|
  UserSchema := "urn:ietf:params:scim:schemas:core:2.0:User"; ErrorSchema := "urn:ietf:params:scim:api:messages:2.0:Error";
  scim_user_json := fun u => JObj [("id", JStr (su_ID u)); ("displayName", JStr (su_DisplayName u)); ("active", JBool (su_Active u))];
  scim_meta_json := fun m => JObj [("version", JStr (me_Version m))];
  Quote := fun s => concat_text [quote_mark; s; quote_mark] |}.
#[local] Existing Instance toy_scim.

(** The code ranges over a Go map: an object with both [displayName] and [name]
    stores one or the other. *)
Definition both_names : PatchOperation :=
  MkPatchOperation "replace" "" (JObj [("displayName", JStr "Carol"); ("name", JObj [("formatted", JStr "Carol Smith")])]).

Theorem a_pathless_patch_follows_the_map_order :
  exists u v, applyPatch (fun l => l) (upstream_user "carol") both_names = inr u /\ applyPatch (@rev _) (upstream_user "carol") both_names = inr v /\
    u_DisplayName u = "Carol Smith" /\ u_DisplayName v = "Carol".
Proof. eexists _, _. split; [vm_compute; reflexivity|]. split; [vm_compute; reflexivity|]. split; reflexivity. Qed.

Lemma a_quoted_filter_reads_back_witness : parseFilter (filter_text "userName" "a\b c") = inr ("userName", "a\b c").
Proof.
  apply (a_quoted_filter_reads_back "userName" "a\b c"); [vm_compute; reflexivity|]. 
  vm_compute. repeat (apply Forall_cons; split; [split; [discriminate|reflexivity]|]). apply Forall_nil. exact I.
Defined.

Lemma a_patch_drops_the_external_id_witness :
  patch_object "add" (MkGroupChange None (Some "x") None) (MkGroup "g1" "Staff" "" "up1" "" t0 t0, ∅) = inr (MkGroup "g1" "Staff" "" "up1" "" t0 t0, ∅).
Proof. apply (a_patch_drops_the_external_id "add" "x" (MkGroup "g1" "Staff" "" "up1" "" t0 t0) ∅). reflexivity. Defined.

(** Connector [up1] with a write token, and its requests about carol. *)
Definition scim_db : DB :=
  on_scim_connector_tokens (fun _ => {[ "t1" := MkSCIMConnectorToken "t1" "up1" (HashSHA256 "abcdef") "write" t0 None None ]}) upstream_db.
Definition scim_input (if_match : string) : ScimInput := MkScimInput "Bearer scim_abcdef" if_match "" "" "" true true.
Definition scim_request : Request := MkRequest "PATCH" "/scim/v2/Users/carol" "carol" toy_peer "hr" None None None "" "" "".
Definition rename_carol (name : string) : ScimRequest := QPatchUser (Some [MkPatchOperation "replace" "displayName" (JStr name)]).
Definition scim_draws (prefix : string) : WebDraws := MkWebDraws (fun n => String.append prefix (pretty n)) (fun n => repeat 5 12) false true 32 (fun n => 5).
Definition run_scim (prefix if_match : string) (now : Z) (q : ScimRequest) : Handler Reply :=
  scim_api toy_server scim_request (scim_draws prefix) (scim_input if_match) "https://id.example.org" (fun s => s) String.append (fun l => l) (fun l => l) now q.

Lemma a_scim_request_stays_with_its_connector_witness : exists rep d',
  serve (run_scim "a-" "" (t0 + minute) (rename_carol "Carol")) scim_db = (rep, d') /\ rp_Status rep = 200 /\
  users d' !! "bob" = users scim_db !! "bob" /\ option_map u_DisplayName (users d' !! "carol") = Some "Carol" /\
  logged toy_server scim_request (scim_draws "a-") (connector_actor (MkSCIMConnector "up1" "HR" "active" t0 t0)) "scim.user_updated" d'.
Proof.
  destruct (serve (run_scim "a-" "" (t0 + minute) (rename_carol "Carol")) scim_db) as [rep d'] eqn:E. exists rep, d'. split; [reflexivity|].
  assert (rp_Status rep = 200 /\ option_map u_DisplayName (users d' !! "carol") = Some "Carol") as [Hs Hn].
  { apply (f_equal (fun x => (rp_Status x.1, option_map u_DisplayName (users x.2 !! "carol")))) in E. cbn [fst snd] in E.
    assert ((rp_Status rep, option_map u_DisplayName (users d' !! "carol")) = (200, Some "Carol")) as Hp by (rewrite <- E; vm_compute; reflexivity).
    injection Hp as Hp1 Hp2. split; assumption. }
  split; [exact Hs|].
  assert (users_keyed scim_db) as Hk by exact upstream_db_keyed.
  pose proof (a_scim_request_stays_with_its_connector toy_server scim_request (scim_draws "a-") (scim_input "") "https://id.example.org" (fun s => s) String.append
    (fun l => l) (fun l => l) (t0 + minute) (fun l => Permutation_refl l) (rename_carol "Carol") scim_db rep d' Hk E) as Ht.
  rewrite Hs in Ht. cbn [writes rename_carol andb] in Ht. change (200 <? 300) with true in Ht. cbv iota in Ht.
  destruct Ht as (id & t & c & Hl & _ & Hc & _ & Hlog).
  assert (c = MkSCIMConnector "up1" "HR" "active" t0 t0) as ->.
  { assert (option_map snd (live_token (HashSHA256 (TrimPrefix (bearer (scim_input "")) "scim_")) scim_db) = Some (MkSCIMConnector "up1" "HR" "active" t0 t0)) as Hx
      by (vm_compute; reflexivity).
    rewrite Hl in Hx. by injection Hx. }
  split; [|split; [exact Hn|exact Hlog]]. specialize (Hc "bob"). unfold ScimInbound.confined in Hc.
  assert (exists r, users scim_db !! "bob" = Some r /\ owned_by "up1" r = false) as (r & Hr & Ho) by (eexists; split; [vm_compute; reflexivity|reflexivity]).
  rewrite Hr in Hc |- *. cbn [sn_ID] in Hc. rewrite Ho in Hc. destruct (users d' !! "bob") as [x|]; [by rewrite Hc|contradiction].
Defined.

Lemma a_conditional_write_saw_the_last_one_witness : exists rep d1 rep' d3,
  run_scim "a-" (etag t0) (t0 + minute) (rename_carol "Carol") scim_db = (inr rep, d1) /\
  run_scim "b-" (etag (t0 + minute)) (t0 + hour) (rename_carol "Caroline") d1 = (inr rep', d3) /\
  (exists x, In x (named_versions (scim_input (etag (t0 + minute)))) /\ forall t, x = etag t <-> t = t0 + minute) /\
  rp_Status (serve (run_scim "b-" (etag t0) (t0 + hour) (rename_carol "Caroline")) d1).1 = 412.
Proof.
  destruct (run_scim "a-" (etag t0) (t0 + minute) (rename_carol "Carol") scim_db) as [[bad1|rep] d1] eqn:E1.
  { exfalso. apply (f_equal (fun x => match x.1 with inl _ => true | inr _ => false end)) in E1. vm_compute in E1. discriminate E1. }
  destruct (run_scim "b-" (etag (t0 + minute)) (t0 + hour) (rename_carol "Caroline") d1) as [[bad2|rep'] d3] eqn:E2.
  { exfalso. assert (d1 = (run_scim "a-" (etag t0) (t0 + minute) (rename_carol "Carol") scim_db).2) as -> by by rewrite E1.
    apply (f_equal (fun x => match x.1 with inl _ => true | inr _ => false end)) in E2. vm_compute in E2. discriminate E2. }
  exists rep, d1, rep', d3. split; [reflexivity|]. split; [exact E2|]. split.
  - eapply (a_conditional_write_saw_the_last_one toy_server scim_request scim_request (scim_draws "a-") (scim_draws "b-") (scim_input (etag t0))
      (scim_input (etag (t0 + minute))) "https://id.example.org" (fun s => s) String.append (fun l => l) (fun l => l) (fun l => l) (t0 + minute) (t0 + hour)
      (rename_carol "Carol") (rename_carol "Caroline") scim_db d1 d1 d3 rep rep'); [reflexivity|exact E1|reflexivity|reflexivity|reflexivity|vm_compute; reflexivity|exact E2].
  - assert (d1 = (run_scim "a-" (etag t0) (t0 + minute) (rename_carol "Carol") scim_db).2) as -> by by rewrite E1. vm_compute. reflexivity.
Defined.
