(* ===== verification/Explain.v ===== *)
(** Why an account may or may not use an application: [store/explain.go] and the
    handlers that answer it, [api/explain_handlers.go].

    The verdict is read from the same rows as the decision ([Access]); the facts
    show that the reason it gives is the one that decided. *)
From stdpp Require Import sorting.
From S2P Require Import Prelude Schema Access Sample Sessions Tokens Outbox AppAccess Directory Crypto Requests OAuth Reconcile Mfa Alerts Net Dispatch Registry Factors Web Login Admin Console.

Open Scope string_scope.
Open Scope Z_scope.

Record AccessGrant := MkAccessGrant { gr_Kind : string; gr_GroupID : string; gr_GroupName : string; gr_SourceConnectorID : string;
  gr_ExpiresAt : option Z; gr_Live : bool }.

Record RoleGrant := MkRoleGrant { rg_Role : string; rg_Via : string; rg_GroupName : string }.

Record AccessExplanation := MkAccessExplanation { ex_AppID : string; ex_AppName : string; ex_UserID : string; ex_Username : string;
  ex_Allowed : bool; ex_Reason : string; ex_AccessMode : string; ex_AppEnabled : bool; ex_ClientEnabled : bool; ex_UserStatus : string;
  ex_UserEndsAt : option Z; ex_Grants : list AccessGrant; ex_Roles : list RoleGrant; ex_AccessEndsAt : option Z;
  ex_Authentication : AppAuthenticationPolicy; ex_Revision : Z; ex_AuthRevision : Z; ex_RoleRevision : Z; ex_Requestable : bool }.

(** [accessReasonSQL] *)
Definition accessReasonSQL (f : Facts) : string :=
  if negb (f_active f) then "user_disabled"
  else if negb (f_enabled f) then "app_disabled"
  else if negb (f_client_enabled f) then "client_disabled"
  else if f_access_mode f =?s "all_active_users" then "all_active_users"
  else if f_direct f then "direct_assignment"
  else if f_group_assigned f then "group_assignment"
  else "not_assigned".

Section explain.
Context (now : Z).

(** [at == nil || at.After(time.Now())] *)
Definition still_ahead (at_ : option Z) : bool := match at_ with Some t => now <? t | None => true end.

Definition direct_rows (d : DB) (app user : string) : list AccessGrant :=
  match app_user_assignments d !! (app, user) with
  | Some e => [MkAccessGrant "direct" "" "" "" (timeFromUnix e) (still_ahead (timeFromUnix e))]
  | None => []
  end.

Definition group_row (d : DB) (app user : string) (ag : string * string) : option AccessGrant :=
  if negb (ag.1 =?s app) then None else
  match directory_groups d !! ag.2, group_memberships d !! (ag.2, user) with
  | Some g, Some e => Some (MkAccessGrant "group" ag.2 (g_Name g) (g_SourceConnectorID g) (timeFromUnix e) (still_ahead (timeFromUnix e)))
  | _, _ => None
  end.

(** [ORDER BY g.name COLLATE NOCASE] *)
Definition grant_le (a b : AccessGrant) : Prop := String.ltb (lower (gr_GroupName b)) (lower (gr_GroupName a)) = false.
#[local] Instance grant_le_dec a b : Decision (grant_le a b) := bool_eq_dec _ _.

Definition group_rows (d : DB) (app user : string) : list AccessGrant :=
  merge_sort grant_le (omap (group_row d app user) (elements (app_group_assignments d))).

(** The roles mapped directly, and through groups assigned to the application. *)
Definition direct_roles (d : DB) (app user : string) : list RoleGrant :=
  omap (fun kv : string * AppRole =>
    if (ro_AppID kv.2 =?s app) && bool_decide ((kv.1, user) ∈ app_role_user_assignments d) then Some (MkRoleGrant (ro_Name kv.2) "direct" "") else None)
    (map_to_list (app_roles d)).

Definition group_role (d : DB) (app user : string) (a : string * string) : option RoleGrant :=
  match app_roles d !! a.1, directory_groups d !! a.2 with
  | Some r, Some g =>
    if (ro_AppID r =?s app) && bool_decide ((app, a.2) ∈ app_group_assignments d) && live_group_memberships now d a.2 user
    then Some (MkRoleGrant (ro_Name r) "group" (g_Name g)) else None
  | _, _ => None
  end.

(** [ORDER BY 1,2,3] *)
Definition role_key (r : RoleGrant) : list string := [rg_Role r; rg_Via r; rg_GroupName r].
Fixpoint key_ltb (a b : list string) : bool :=
  match a, b with x :: a, y :: b => String.ltb x y || ((x =?s y) && key_ltb a b) | [], _ :: _ => true | _, _ => false end.
Definition role_le (a b : RoleGrant) : Prop := key_ltb (role_key b) (role_key a) = false.
#[local] Instance role_le_dec a b : Decision (role_le a b) := bool_eq_dec _ _.

Definition role_rows (d : DB) (app user : string) : list RoleGrant :=
  merge_sort role_le (direct_roles d app user ++ omap (group_role d app user) (elements (app_role_group_assignments d)))%list.

Definition ExplainAccess (user app : string) (d : DB) : StoreError + AccessExplanation :=
  match app_registry d !! app with
  | None => inl ErrAppRecordMissing
  | Some a =>
    match users d !! user with
    | None => inl ErrUserMissing
    | Some row =>
      let u := scanUser now row in
      let f := app_access_facts now d a row in
      let allowed := effective_app_access now d app user in
      let reason := match timeFromUnix (u_EndsAt u) with Some t => if now <? t then accessReasonSQL f else "account_ended" | None => accessReasonSQL f end in
      let grants := (direct_rows d app user ++ group_rows d app user)%list in
      let reason := if negb allowed && (reason =?s "not_assigned") && negb (length grants =? 0)%nat then "grants_expired" else reason in
      let ends := match a_ClientID a with Some c => if allowed && (c <>?s "") then AccessEndsAt now d user c else None | None => None end in
      inr (MkAccessExplanation (a_ID a) (appDisplayName d app) (u_ID u) (u_Username u) allowed reason (a_AccessMode a) (a_Enabled a) (f_client_enabled f)
        (u_Status u) (timeFromUnix (u_EndsAt u)) grants (role_rows d app user) ends (a_Authentication a) (a_Revision a) (a_AuthenticationRevision a)
        (a_RoleRevision a) (a_Requestable a))
    end
  end.

Definition ExplainClientAccess (user client : string) (d : DB) : StoreError + AccessExplanation :=
  match find_where (app_of_client client) (app_registry d) with
  | None => inl ErrAppRecordMissing
  | Some (app, _) => ExplainAccess user app d
  end.

(** ** Handlers *)

Context `{Formats}.

Definition grant_json (g : AccessGrant) : Json :=
  JObj ([("kind", JStr (gr_Kind g))] ++ omitempty "groupId" (gr_GroupID g) ++ omitempty "groupName" (gr_GroupName g) ++
    omitempty "sourceConnectorId" (gr_SourceConnectorID g) ++ time_member "expiresAt" (gr_ExpiresAt g) ++ [("live", JBool (gr_Live g))])%list.
Definition role_json (r : RoleGrant) : Json :=
  JObj ([("role", JStr (rg_Role r)); ("via", JStr (rg_Via r))] ++ omitempty "groupName" (rg_GroupName r))%list.

Definition explanation_json (e : AccessExplanation) : Json :=
  JObj ([("appId", JStr (ex_AppID e)); ("appName", JStr (ex_AppName e)); ("userId", JStr (ex_UserID e)); ("username", JStr (ex_Username e));
    ("allowed", JBool (ex_Allowed e)); ("reason", JStr (ex_Reason e)); ("accessMode", JStr (ex_AccessMode e)); ("appEnabled", JBool (ex_AppEnabled e));
    ("clientEnabled", JBool (ex_ClientEnabled e)); ("userStatus", JStr (ex_UserStatus e))] ++ time_member "userEndsAt" (ex_UserEndsAt e) ++
    [("grants", JArr (map grant_json (ex_Grants e))); ("roles", JArr (map role_json (ex_Roles e)))] ++ time_member "accessEndsAt" (ex_AccessEndsAt e) ++
    [("authentication", policy_json (ex_Authentication e)); ("revision", JNum (ex_Revision e)); ("authenticationRevision", JNum (ex_AuthRevision e));
     ("roleRevision", JNum (ex_RoleRevision e)); ("requestable", JBool (ex_Requestable e))])%list.

(** [r.PathValue("userId")] and [r.PathValue("id")] are [user] and [app]. *)
Definition ExplainAppAccess (user app : string) : Handler Reply :=
  found <~ ask (ExplainAccess user app) ;;
  match found with
  | inr e => writeJSON [("explanation", explanation_json e)]
  | inl _ => refuse 404 "not_found"
  end.

Definition no_access (requestable : bool) (name : option string) : Handler Reply :=
  writeJSON ([("allowed", JBool false); ("reason", JStr "no_access"); ("requestable", JBool requestable)] ++
    match name with Some n => [("appName", JStr n)] | None => [] end)%list.

Definition OwnAccessExplanation (user : User) (clientID : string) : Handler Reply :=
  demand ((clientID <>?s "") && (String.length clientID <=? 200)%nat) 400 "invalid_request" ~;;
  found <~ ask (ExplainClientAccess (u_ID user) clientID) ;;
  match found with
  | inl ErrAppRecordMissing => no_access false None
  | inl _ => run_fail internal_error
  | inr e =>
    if negb (ex_Allowed e) then
      if ex_Requestable e && ex_AppEnabled e && ex_ClientEnabled e && (ex_AccessMode e =?s "assigned_only")
      then no_access true (Some (ex_AppName e)) else no_access false None
    else writeJSON ([("allowed", JBool true); ("reason", JStr (ex_Reason e)); ("requestable", JBool false); ("appName", JStr (ex_AppName e))] ++
      time_member "accessEndsAt" (ex_AccessEndsAt e))%list
  end.
End explain.

(** ** Facts *)

(** [REFERENCES directory_groups(id)] *)
Definition memberships_refer (d : DB) : Prop := forall g u, is_Some (group_memberships d !! (g, u)) -> is_Some (directory_groups d !! g).

Section explain_facts.
Context (now : Z).

Lemma still_ahead_live e : still_ahead now (timeFromUnix e) = unexpired e (unix now).
Proof. destruct e as [t|]; [|done]. cbn. by rewrite unix_lt_of_unix. Qed.

Lemma direct_rows_live d app user : existsb gr_Live (direct_rows now d app user) = direct_grant now d app user.
Proof.
  unfold direct_rows, direct_grant. destruct (app_user_assignments d !! (app, user)) as [e|]; [|done]. cbn [existsb gr_Live].
  by rewrite still_ahead_live, orb_false_r.
Qed.

Lemma In_group_rows d app user g : In g (group_rows now d app user) <-> exists ag, In ag (elements (app_group_assignments d)) /\ group_row now d app user ag = Some g.
Proof. unfold group_rows. rewrite <- list_elem_of_In, (merge_sort_Permutation grant_le), list_elem_of_omap. setoid_rewrite list_elem_of_In. done. Qed.

Lemma group_row_inv d app user ag g : group_row now d app user ag = Some g ->
  ag.1 = app /\ gr_Kind g = "group" /\ gr_Live g = live_group_memberships now d ag.2 user.
Proof.
  unfold group_row, live_group_memberships. destruct (ag.1 =?s app) eqn:Ea; [|done]. apply streqb_true in Ea. cbn [negb].
  destruct (directory_groups d !! ag.2) as [gg|]; [|done]. destruct (group_memberships d !! (ag.2, user)) as [e|]; [|done].
  intros [= <-]. cbn [gr_Live gr_Kind]. by rewrite still_ahead_live.
Qed.

Lemma group_rows_live d app user : memberships_refer d -> existsb gr_Live (group_rows now d app user) = group_grant now d app user.
Proof.
  intros Hfk. apply eq_true_iff_eq. unfold group_grant. rewrite !existsb_exists. split.
  - intros (g & Hin & Hl). apply In_group_rows in Hin as (ag & Hag & Hg). apply group_row_inv in Hg as (Ha & _ & Hlive). exists ag. split; [done|].
    by rewrite Ha, streqb_refl, <- Hlive.
  - intros (ag & Hag & Hb). bool_hyps. unfold live_group_memberships in *. destruct (group_memberships d !! (ag.2, user)) as [e|] eqn:Em; [|done].
    destruct (Hfk ag.2 user) as [g Hg]; [by rewrite Em|].
    exists (MkAccessGrant "group" ag.2 (g_Name g) (g_SourceConnectorID g) (timeFromUnix e) (still_ahead now (timeFromUnix e))).
    split; [|cbn [gr_Live]; by rewrite still_ahead_live]. apply In_group_rows. exists ag. split; [done|]. unfold group_row.
    match goal with H : ag.1 = app |- _ => rewrite H end. by rewrite streqb_refl, Hg, Em.
Qed.

Lemma role_rows_held d app user r : In r (role_rows now d app user) -> In (rg_Role r) (app_roles_of now d user app).
Proof.
  unfold role_rows, direct_roles, app_roles_of, sort_strings. rewrite <- !list_elem_of_In, (merge_sort_Permutation role_le), (merge_sort_Permutation str_le).
  rewrite elem_of_remove_dups, list_elem_of_omap, elem_of_app, !list_elem_of_omap. intros [([k ro] & Hk & Hr)|([k g] & Ha & Hr)].
  - exists (k, ro). split; [done|]. cbn [fst snd] in *. destruct (ro_AppID ro =?s app); [|done]. cbn [andb] in *.
    destruct (bool_decide _); [|done]. by injection Hr as <-.
  - unfold group_role in Hr. cbn [fst snd] in Hr. destruct (app_roles d !! k) as [ro|] eqn:Ek; [|done]. destruct (directory_groups d !! g) as [gg|]; [|done].
    destruct (_ && _) eqn:Eb; [|done]. injection Hr as <-. cbn [rg_Role]. apply andb_true_iff in Eb as [Eb Hl]. apply andb_true_iff in Eb as [Eb _].
    exists (k, ro). split; [by apply elem_of_map_to_list|]. cbn [fst snd]. rewrite Eb. cbn [andb].
    replace (existsb _ _) with true; [by rewrite orb_true_r|]. symmetry. apply existsb_exists. exists (k, g). split; [by apply list_elem_of_In|].
    cbn [fst snd]. by rewrite streqb_refl.
Qed.

(** What the reason says of the rows, given what is live among them. *)
Definition reason_spec (now : Z) (ends : option Z) (allowed : bool) (reason : string) (grants : list AccessGrant) : Prop :=
  allowed = one_of reason ["all_active_users"; "direct_assignment"; "group_assignment"] /\
  (reason = "account_ended" <-> exists t, ends = Some t /\ t <= now) /\
  (reason = "direct_assignment" -> exists g, In g grants /\ gr_Kind g = "direct" /\ gr_Live g = true) /\
  (reason = "group_assignment" -> exists g, In g grants /\ gr_Kind g = "group" /\ gr_Live g = true) /\
  (reason = "grants_expired" -> grants <> [] /\ forall g, In g grants -> gr_Live g = false) /\
  (reason = "not_assigned" -> grants = []).

Lemma reason_right (f : Facts) (ends : option Z) (direct groups : list AccessGrant) :
  (forall g, In g direct -> gr_Kind g = "direct") -> (forall g, In g groups -> gr_Kind g = "group") ->
  f_direct f = existsb gr_Live direct -> f_group_assigned f = existsb gr_Live groups ->
  (forall t, ends = Some t -> t <= now -> f_active f = false) ->
  let allowed := appAllowedSQL (f_access_mode f) (f_enabled f) f in
  let grants := (direct ++ groups)%list in
  let reason := match ends with Some t => if now <? t then accessReasonSQL f else "account_ended" | None => accessReasonSQL f end in
  reason_spec now ends allowed (if negb allowed && (reason =?s "not_assigned") && negb (length grants =? 0)%nat then "grants_expired" else reason) grants.
Proof.
  intros Hkd Hkg Hd Hg Hend. cbn zeta.
  destruct (match ends with Some t => t <=? now | None => false end) eqn:Ee.
  - destruct ends as [t|]; [|done]. apply Z.leb_le in Ee. pose proof (Hend t eq_refl Ee) as Hact. replace (now <? t) with false by lia.
    unfold appAllowedSQL. rewrite Hact. cbn. unfold reason_spec. split_and!; try done. split; [intros _; by exists t|done].
  - assert (match ends with Some t => if now <? t then accessReasonSQL f else "account_ended" | None => accessReasonSQL f end = accessReasonSQL f) as ->.
    { destruct ends as [t|]; [|done]. by replace (now <? t) with true by lia. }
    assert (~ exists t, ends = Some t /\ t <= now) as Hne by (intros (t & -> & Ht); lia).
    assert (forall (l : list AccessGrant) k, (forall g, In g l -> gr_Kind g = k) -> existsb gr_Live l = true -> exists g, In g l /\ gr_Kind g = k /\ gr_Live g = true) as Hlive.
    { intros l k Hk Hl. apply existsb_exists in Hl as (g & Hin & Hl). exists g. split; [done|]. split; [by apply Hk|done]. }
    assert (existsb gr_Live direct = false -> existsb gr_Live groups = false -> forall g, In g (direct ++ groups)%list -> gr_Live g = false) as Hdead.
    { intros H1 H2 g Hin. apply not_true_is_false. intros Ht. assert (existsb gr_Live (direct ++ groups)%list = true) as Hx by (apply existsb_exists; eauto).
      by rewrite existsb_app, H1, H2 in Hx. }
    specialize (Hlive direct "direct" Hkd) as Hld. specialize (Hlive groups "group" Hkg) as Hlg. clear Hlive Hkd Hkg.
    unfold appAllowedSQL, accessReasonSQL. rewrite Hd, Hg.
    destruct (f_active f), (f_enabled f), (f_client_enabled f); cbn [andb negb]; try (unfold reason_spec; split_and!; done).
    destruct (f_access_mode f =?s "all_active_users"); cbn [orb andb negb]; [unfold reason_spec; split_and!; done|].
    destruct (existsb gr_Live direct) eqn:E1; cbn [orb andb negb].
    { unfold reason_spec. split_and!; try done. intros _. destruct (Hld eq_refl) as (g & Hin & ?). exists g. split; [|done]. apply in_app_iff. by left. }
    destruct (existsb gr_Live groups) eqn:E2; cbn [orb andb negb].
    { unfold reason_spec. split_and!; try done. intros _. destruct (Hlg eq_refl) as (g & Hin & ?). exists g. split; [|done]. apply in_app_iff. by right. }
    rewrite streqb_refl. cbn [andb]. destruct (direct ++ groups)%list as [|g l] eqn:El; cbn [length Nat.eqb negb]; unfold reason_spec; split_and!; try done.
    intros _. split; [done|by apply Hdead].
Qed.

(** An explanation's verdict is the decision the application gets, its reason
    names a live grant of that kind, or the end of the account, or that every
    grant listed has lapsed, or that there is none; and the roles it lists are
    held. *)
Theorem an_explanation_is_the_decision user app d e : schema_ok d = true -> memberships_refer d -> ExplainAccess now user app d = inr e ->
  ex_Allowed e = effective_app_access now d app user /\
  reason_spec now (ex_UserEndsAt e) (ex_Allowed e) (ex_Reason e) (ex_Grants e) /\
  (forall r, In r (ex_Roles e) -> In (rg_Role r) (app_roles_of now d user app)).
Proof.
  intros Hok Hfk. unfold ExplainAccess. destruct (app_registry d !! app) as [a|] eqn:Ea; [|done]. destruct (users d !! user) as [row|] eqn:Eu; [|done].
  cbn zeta. intros [= <-]. cbn [ex_Allowed ex_Reason ex_UserEndsAt ex_Grants ex_Roles]. split; [done|]. split; [|apply role_rows_held].
  pose proof (schema_app _ _ _ Hok Ea) as Hid. pose proof (schema_user _ _ _ Hok Eu) as Hui.
  assert (effective_app_access now d app user = app_allows now d a row) as -> by (unfold effective_app_access; by rewrite Ea, Eu).
  assert (u_EndsAt (scanUser now row) = u_EndsAt row) as -> by (by destruct (scanUser_fields now row) as (_ & _ & ? & _)).
  apply (reason_right (app_access_facts now d a row)).
  - intros g. unfold direct_rows. destruct (app_user_assignments d !! (app, user)); [|done]. by intros [<-|[]].
  - intros g Hin. apply In_group_rows in Hin as (ag & _ & Hr). by apply group_row_inv in Hr as (_ & ? & _).
  - cbn. by rewrite Hid, Hui, direct_rows_live.
  - cbn. by rewrite Hid, Hui, group_rows_live.
  - intros t Ht Hle. cbn. destruct (u_EndsAt row) as [x|]; [|done]. injection Ht as <-. cbn. rewrite unix_lt_of_unix.
    replace (now <? of_unix x) with false by lia. by rewrite andb_false_r.
Qed.

(** A refusal reads the same whatever its cause: it depends on nothing but
    whether the account may ask for the application. *)
Lemma a_refused_account_learns_no_cause `{Formats} user client d e : ExplainClientAccess now (u_ID user) client d = inr e -> ex_Allowed e = false ->
  client <> "" -> (String.length client <= 200)%nat ->
  ex_Requestable e && ex_AppEnabled e && ex_ClientEnabled e && (ex_AccessMode e =?s "assigned_only") = false ->
  OwnAccessExplanation now user client d = no_access false None d.
Proof.
  intros He Ha Hc Hl Hr. unfold OwnAccessExplanation, demand, run_guard, run_bind, ask. apply streqb_false in Hc. rewrite Hc.
  replace (String.length client <=? 200)%nat with true by (symmetry; by apply Nat.leb_le). cbn [andb negb]. by rewrite He, Ha, Hr.
Qed.
End explain_facts.

(** ** Witness: bob's grant ran out an hour ago. *)

Lemma an_explanation_is_the_decision_witness : exists e, ExplainAccess (t0 + 3 * hour) "bob" "crm" sample_db = inr e /\
  ex_Reason e = "grants_expired" /\ effective_app_access (t0 + 3 * hour) sample_db "crm" "bob" = false /\ forall g, In g (ex_Grants e) -> gr_Live g = false.
Proof.
  destruct (ExplainAccess (t0 + 3 * hour) "bob" "crm" sample_db) as [bad|e] eqn:E; [vm_compute in E; discriminate E|]. exists e.
  destruct (an_explanation_is_the_decision (t0 + 3 * hour) "bob" "crm" sample_db e sample_db_ok) as (Ha & (_ & _ & _ & _ & Hg & _) & _); [|exact E|].
  { intros g u [x Hx]. change (group_memberships sample_db) with (∅ : gmap (string * string) (option Z)) in Hx. rewrite lookup_empty in Hx. discriminate Hx. }
  assert (ex_Reason e = "grants_expired" /\ ex_Allowed e = false) as [Hr Hf].
  { apply (f_equal (fun r => match r with inr e => (ex_Reason e, ex_Allowed e) | inl _ => ("", true) end)) in E. vm_compute in E. injection E as E1 E2. by split. }
  split; [reflexivity|]. split; [exact Hr|]. split; [congruence|]. by apply Hg.
Defined.

(** The explanation leaves out a role mapped through a group that is not
    assigned to the application, though the application gets it. *)
Definition unassigned_role_db : DB :=
  on_app_roles (fun _ => {[ "r1" := MkAppRole "crm" "editor" ]}) (on_app_role_group_assignments (fun _ => {[ ("r1", "g1") ]})
  (on_directory_groups (fun _ => {[ "g1" := MkGroup "g1" "Staff" "" "" "" t0 t0 ]}) (on_group_memberships (fun _ => {[ ("g1", "bob") := None ]}) sample_db))).

Example a_role_of_an_unassigned_group_is_not_explained :
  app_roles_of t0 unassigned_role_db "bob" "crm" = ["editor"] /\
  match ExplainAccess t0 "bob" "crm" unassigned_role_db with inr e => ex_Roles e = [] | inl _ => False end.
Proof. split; vm_compute; reflexivity. Qed.
