(* ===== verification/OAuthApi.v ===== *)
(** The endpoints of the OpenID provider: authorization, the interactions a
    sign-in belongs to, tokens, user info, revocation and the logout a relying
    party asks for - [api/oauth_handlers.go], [api/authorization_interactions.go]
    and [api/logout_handlers.go].

    An answer may send the browser on: [Location] names where, as the registered
    address with the query parameters the code sets on it.  Of the response
    headers the cookies and the location are kept. *)
From stdpp Require Import pretty.
From S2P Require Import Prelude Schema Access Sample Sessions Tokens StepUp Mfa Outbox AppAccess Directory Crypto Requests OAuth Net Factors Web Login Registry Admin Console Explain Query.

Open Scope string_scope.
Open Scope Z_scope.

(** ** Answers *)

Inductive Location :=
| AtClient (uri : string) (set : list (string * string))
| AtLogin (interaction : string)
| AtLogout (query : list (string * string)).

Record logoutView := MkLogoutView { lv_Title : string; lv_Message : string; lv_Confirm : string; lv_Fields : list (string * string) }.

Record Answer := MkAnswer { an_Reply : Reply; an_Location : option Location; an_BrowserCookie : option string; an_Page : option logoutView }.

Definition only (r : Reply) : Answer := MkAnswer r None None None.
Definition redirect (status : Z) (to : Location) : Answer := MkAnswer (MkReply status JNull None None) (Some to) None None.

Definition Flow : Type -> Type := Run DB Answer.

(** A step of the plain handlers; its early reply is the answer. *)
Definition plain {A} (m : Handler A) : Flow A := fun d =>
  match m d with (inl r, d') => (inl (only r), d') | (inr a, d') => (inr a, d') end.

Definition respond (m : Flow Answer) (d : DB) : Answer * DB := match m d with (inl a, d') => (a, d') | (inr a, d') => (a, d') end.

Definition described (status : Z) (code description : string) : Reply :=
  MkReply status (JObj [("error", JStr code); ("error_description", JStr description)]) None None.
Definition reject {A} (r : Reply) : Flow A := run_fail (only r).

(** Cookies set before the answer is decided. *)
Definition with_browser_cookie (cookie : option string) (m : Flow Answer) : Flow Answer := fun d =>
  let '(a, d') := respond m d in (inr (MkAnswer (an_Reply a) (an_Location a) cookie (an_Page a)), d').

Definition value (q : Values) (k : string) : string := default "" (get_value q k).

Section endpoints.
Context `{Wire} `{Formats} (sv : Server) (issuer : string) (rq : Request) (dr : WebDraws) (now : Z).

(** [redirectError]; every caller's address is one the client registered. *)
Definition redirectError {A} (uri state code description : string) : Flow A :=
  match url_parse uri with
  | None => reject (refused_with 400 "invalid_redirect_uri")
  | Some _ => run_fail (redirect 302 (AtClient uri ([("error", code)] ++
      (if description =?s "" then [] else [("error_description", description)]) ++ (if state =?s "" then [] else [("state", state)]))%list))
  end.

Definition observe (n : nat) (action actor actorName target kind outcome : string) (details : list (string * Json)) : Flow unit :=
  plain (Observe sv rq dr now n action actor actorName target kind outcome (details_json details)).

(** ** Starting a sign-in *)

Definition interaction_refused : Reply :=
  described 400 "invalid_interaction" "Sign-in expired or changed in another tab; restart authorization".

(** [w_raw 31] and [w_raw 32] are the browser's and the interaction's bytes. *)
Definition beginInteraction (who : option (User * Session)) (q : Values) : Flow Answer :=
  let known := authorizationBrowserHash sv rq in
  let raw_browser := string_of (hex_encode (w_raw dr 31)) in
  let cookie := if known =?s ""
    then Some (String.append raw_browser (String.append "." (SignHMACSHA256 (sv_csrfKey sv) (bytes_of (String.append "authorization-browser:" raw_browser)))))
    else None in
  let browser := if known =?s "" then HashSHA256 raw_browser else known in
  let raw := string_of (hex_encode (w_raw dr 32)) in
  let user := match who with Some (_, s) => s_UserID s | None => "" end in
  let session := match who with Some (_, s) => s_ID s | None => "" end in
  with_browser_cookie cookie (
    made <~ plain (attempt (commit (CreateAuthorizationInteraction
      (MkAuthorizationInteraction (HashSHA256 raw) browser user session "" (Encode q) (value q "client_id") now (now + 5 * minute)) now))) ;;
    match made with
    | inl ErrAuthorizationInteraction => redirectError (value q "redirect_uri") (value q "state") "temporarily_unavailable"
        "Too many sign-in requests; wait a few minutes and restart"
    | inl _ => redirectError (value q "redirect_uri") (value q "state") "server_error" "Could not start sign-in"
    | inr _ =>
      observe 50 "oauth.interaction" user "" (value q "client_id") "client" "success" [("reason", JStr "interaction_started")] ~;;
      run_fail (redirect 302 (AtLogin raw))
    end).

Definition CancelInteraction (body : option string) : Handler Reply :=
  match body with
  | None => refuse 400 "invalid_request"
  | Some interaction =>
    demand (String.length interaction =? 64)%nat 400 "invalid_request" ~;;
    silently (CancelAuthorizationInteraction (HashSHA256 interaction) (authorizationBrowserHash sv rq)) ~;;
    writeJSON [("success", JBool true)]
  end.

Definition InteractionDetails (id : string) : Handler Reply :=
  d <~ run_get ;;
  match GetAuthorizationInteraction (HashSHA256 id) (authorizationBrowserHash sv rq) now d with
  | inl _ => run_fail (described 400 "invalid_interaction" "Sign-in expired; restart from the application")
  | inr i =>
    run_guard (i_SessionID i =?s "") (described 400 "invalid_interaction" "Sign-in expired; restart from the application") ~;;
    match ParseQuery (i_Request i) with
    | None => stepUpInternalError
    | Some q =>
      match GetOAuthClientByID (value q "client_id") d with
      | None => refuse 400 "invalid_interaction"
      | Some client =>
        demand (oc_Enabled client) 400 "invalid_interaction" ~;;
        username <~ (if i_UserID i =?s "" then run_ret "" else
          match get_user now d (i_UserID i) with
          | Some u => demand (u_Status u =?s "active") 400 "invalid_interaction" ~;; run_ret (u_Username u)
          | None => refuse 400 "invalid_interaction"
          end) ;;
        match ParseAuthenticationRequest q, ClientAuthenticationPolicyBinding d (oc_ID client) with
        | Some requirements, inr (policy, _) =>
          writeJSON [("appName", JStr (oc_ClientName client)); ("username", JStr username);
            ("requiresMFA", JBool ((rq_ACR requirements =?s MFAACR) || (p_Factor policy <>?s "password")));
            ("requiresPasskey", JBool (p_Factor policy =?s "passkey"))]
        | _, _ => stepUpInternalError
        end
      end
    end
  end.

(** ** Authorization *)

Definition denyAccess (user : User) (client uri state : string) : Flow Answer :=
  e <~ plain (ask (ExplainClientAccess now (u_ID user) client)) ;;
  let details := match e with
    | inr e => [("reason", JStr (ex_Reason e)); ("revision", JNum (ex_Revision e)); ("authenticationRevision", JNum (ex_AuthRevision e)); ("roleRevision", JNum (ex_RoleRevision e))]
    | inl _ => [("reason", JStr "app_access_denied")]
    end in
  let description := match e with
    | inr e => if ex_Requestable e then "You do not have access to this application. You can request it from your KyIdentity dashboard"
        else "You do not have access to this application. Ask an administrator for access"
    | inl _ => "You do not have access to this application. Ask an administrator for access"
    end in
  observe 51 "oauth.authorize" (u_ID user) (u_Username user) client "client" "denied" details ~;;
  redirectError uri state "access_denied" description.

(** The request an interaction kept, for the browser and the session that
    signed in to it; the hash is empty without one. *)
Definition resume (who : option (User * Session)) (q : Values) : Flow (Values * string) :=
  let raw := value q "interaction" in
  if raw =?s "" then run_ret (q, "") else
  plain (demand ((size q =? 1)%nat && (length (default [] (q !! "interaction")) =? 1)%nat && (String.length raw =? 64)%nat) 400 "invalid_request") ~;;
  found <~ plain (ask (GetAuthorizationInteraction (HashSHA256 raw) (authorizationBrowserHash sv rq) now)) ;;
  match found, who with
  | inr i, Some (_, sess) =>
    plain (run_guard (i_SessionID i =?s s_ID sess) interaction_refused) ~;;
    match ParseQuery (i_Request i) with
    | Some q => run_ret (q, HashSHA256 raw)
    | None => plain stepUpInternalError
    end
  | _, _ => reject interaction_refused
  end.

(** A request whose client and address have been checked: errors may now go to
    the address. *)
Record Asked := MkAsked { aq_Client : string; aq_URI : string; aq_Scope : string; aq_State : string; aq_Nonce : string;
  aq_Challenge : string; aq_Method : string }.

Definition asked (q : Values) : Asked :=
  MkAsked (value q "client_id") (value q "redirect_uri") (value q "scope") (value q "state") (value q "nonce")
    (value q "code_challenge") (value q "code_challenge_method").

Definition deliver (user : User) (a : Asked) (granted code : string) : Flow Answer :=
  observe 52 "oauth.authorize" (u_ID user) (u_Username user) (aq_Client a) "client" "success"
    [("scope", JStr granted); ("requestedScope", JStr (aq_Scope a))] ~;;
  match url_parse (aq_URI a) with
  | None => reject (refused_with 400 "invalid_redirect_uri")
  | Some _ => run_ret (redirect 302 (AtClient (aq_URI a) ([("code", code)] ++ (if aq_State a =?s "" then [] else [("state", aq_State a)]))%list))
  end.

(** The signed-in part of [Authorize]; [w_raw 33] are the code's bytes. *)
Definition authorize_user (user : User) (sess : Session) (q : Values) (a : Asked) (requirements : AuthenticationRequest) (granted interaction : string) :
    Flow Answer :=
  d <~ run_get ;;
  match SessionEnrollmentStatus (u_ID user) (s_ID sess) now d with
  | None => redirectError (aq_URI a) (aq_State a) "server_error" "Could not check enrollment"
  | Some status =>
    if restricted status then redirectError (aq_URI a) (aq_State a) "interaction_required"
      "Complete MFA enrollment at your account dashboard and sign in again"
    else if u_PasswordChangeRequired user then redirectError (aq_URI a) (aq_State a) "interaction_required"
      "password_change_required: choose a new password at your account dashboard, then sign in to this app again"
    else if negb (ClientAccessAllowed now d (u_ID user) (aq_Client a)) then denyAccess user (aq_Client a) (aq_URI a) (aq_State a)
    else if negb (Satisfied requirements (s_Evidence sess) now) then
      if rq_Silent requirements || (interaction <>?s "")
      then redirectError (aq_URI a) (aq_State a) "login_required" "Authentication does not meet the requested age or assurance"
      else beginInteraction (Some (user, sess)) q
    else
      made <~ plain (attempt (CreateAuthorizationCodeForInteraction (string_of (hex_encode (w_raw dr 33))) (w_id dr 53) (aq_Client a) (s_ID sess)
        (aq_URI a) granted (aq_Challenge a) (aq_Method a) (aq_Nonce a) requirements interaction now)) ;;
      match made with
      | inr code => deliver user a granted code
      | inl (FromStore ErrAppAuthentication) | inl (FromStore ErrAuthorizationInteraction) =>
        redirectError (aq_URI a) (aq_State a) "login_required" "Application requirements changed; restart sign-in"
      | inl (FromStore ErrAppAccessDenied) => denyAccess user (aq_Client a) (aq_URI a) (aq_State a)
      | inl _ => redirectError (aq_URI a) (aq_State a) "server_error" "Could not issue an authorization code"
      end
  end.

(** From the checked address on; [under_limit] is the answer of the source's bucket. *)
Definition authorize_asked (under_limit : bool) (who : option (User * Session)) (q : Values) (a : Asked) (interaction : string) : Flow Answer :=
  if negb under_limit then redirectError (aq_URI a) (aq_State a) "temporarily_unavailable" "Too many authorization requests; try again shortly"
  else if (aq_Challenge a =?s "") || (aq_Method a <>?s "S256")
  then redirectError (aq_URI a) (aq_State a) "invalid_request" "PKCE with code_challenge_method S256 is required"
  else
  d <~ run_get ;;
  match GrantedScope d (aq_Client a) (aq_Scope a) with
  | inl _ => redirectError (aq_URI a) (aq_State a) "invalid_scope" "No requested scope is permitted for this client"
  | inr granted =>
    match ParseAuthenticationRequest q with
    | None => redirectError (aq_URI a) (aq_State a) "invalid_request" "unsupported or malformed authentication request"
    | Some requirements =>
      match ClientAuthenticationPolicyBinding d (aq_Client a) with
      | inl _ => redirectError (aq_URI a) (aq_State a) "server_error" "Could not check authentication policy"
      | inr (policy, _) =>
        let r := WithAppPolicy requirements policy in
        let r := if interaction =?s "" then r else MkAuthenticationRequest false (rq_Silent r) (rq_MaxAge r) (rq_ACR r) (rq_AppPolicy r) in
        match who with
        | Some (user, sess) => authorize_user user sess q a r granted interaction
        | None =>
          if rq_Silent r then redirectError (aq_URI a) (aq_State a) "login_required" "Sign-in is required"
          else beginInteraction None q
        end
      end
    end
  end.

Definition authorize_query (under_limit : bool) (who : option (User * Session)) (q : Values) (interaction : string) : Flow Answer :=
  plain (demand (forallb (fun k => (length (default [] (q !! k)) =? 1)%nat) ["client_id"; "redirect_uri"; "response_type"]) 400 "invalid_request") ~;;
  let a := asked q in
  plain (run_guard ((aq_Client a <>?s "") && (aq_URI a <>?s "") && (value q "response_type" =?s "code"))
    (described 400 "invalid_request" "Missing client_id, redirect_uri, or response_type=code")) ~;;
  d <~ run_get ;;
  let client := GetOAuthClientByID (aq_Client a) d in
  plain (run_guard (match client with Some c => oc_Enabled c | None => false end)
    (described 401 "unauthorized_client" "Client not found or disabled")) ~;;
  if ValidateRedirectURI client (aq_URI a) then authorize_asked under_limit who q a interaction else
  observe 54 "oauth.authorize" "" "" (aq_Client a) "client" "denied"
    [("reason", JStr "redirect_uri_not_registered"); ("redirectUri", JStr (aq_URI a))] ~;;
  reject (described 400 "invalid_redirect_uri" "Redirect URI does not match a registered URI for this client").

(** [OptionalAuth] and [Authorize], for the raw query of the URL. *)
Definition Authorize (under_limit : bool) (query : string) : Flow Answer :=
  who <~ plain (identify sv rq now) ;;
  plain (demand (Z.of_nat (String.length query) <=? 8192) 400 "invalid_request") ~;;
  match ParseQuery query with
  | None => plain (refuse 400 "invalid_request")
  | Some q =>
    r <~ resume who q ;;
    authorize_query under_limit who r.1 r.2
  end.
End endpoints.

(** ** Tokens *)

(** [RateLimit] in front of an endpoint: [under_limit] is the answer of the bucket. *)
Definition limited (under_limit : bool) : Handler unit :=
  run_guard under_limit (described 429 "rate_limit_exceeded" "Too many requests").

Section tokens.
Context `{Wire} `{Formats} (sv : Server) (issuer : string) (rq : Request) (dr : WebDraws) (now : Z).

(** The form of a token request; [BasicAuth] is the pair of the header when there is one. *)
Record TokenForm := MkTokenForm { tf_grant_type : string; tf_code : string; tf_client_id : string; tf_client_secret : string;
  tf_redirect_uri : string; tf_code_verifier : string; tf_assertion : string; tf_refresh_token : string; tf_scope : string; tf_token : string }.

Definition credentials (basic : option (string * string)) (f : TokenForm) : string * string :=
  default (tf_client_id f, tf_client_secret f) basic.

Definition post_only : Handler unit := run_guard (r_Method rq =?s "POST") (described 405 "invalid_request" "POST required").

(** The text of an engine error, without the prefix it gives a store's error. *)
Definition engine_text (e : OAuthError) : string :=
  match e with
  | FromStore e => error_text e
  | OAuthText s => s
  | InvalidClient => "invalid_client"
  | RefreshReuse => error_text ErrRefreshReuse
  | ClaimsTooLarge => "identity claims exceed the token size limit; reduce the roles or groups mapped for this user"
  | DeviceSignOnDisabled => "device sign-on is disabled"
  | DeviceSignOnNotPermitted => "device sign-on not permitted"
  end.

Definition token_json (t : TokenResponse) : Json :=
  JObj ([("access_token", JStr (tr_AccessToken t)); ("token_type", JStr "Bearer"); ("expires_in", JNum (tr_ExpiresIn t))] ++
    omitempty "id_token" (tr_IDToken t) ++ omitempty "refresh_token" (tr_RefreshToken t) ++ omitempty "scope" (tr_Scope t))%list.

Definition issue (t : TokenResponse) : Handler Reply := run_ret (MkReply 200 (token_json t) None None).

(** [w_id 61..64] and [w_raw 65] are the identifiers and the refresh token drawn. *)
Definition token_draws : Draws :=
  MkDraws (w_id dr 61) (w_id dr 62) (string_of (hex_encode (w_raw dr 65))) (w_id dr 63) (w_id dr 64).
Definition device_draws : DeviceDraws :=
  MkDeviceDraws (w_id dr 66) (HashSHA256 (w_id dr 67)) (w_id dr 61) (w_id dr 63) (w_id dr 64).

Definition about_client (n : nat) (action actor client outcome : string) (details : list (string * Json)) : Handler unit :=
  Observe sv rq dr now n action actor "" client "client" outcome (details_json details).

(** [DeviceSignOnActor]: who the audit names once the device has proved itself,
    the account's name once it is found. *)
Record DeviceSignOnActor := MkDeviceSignOnActor { do_DeviceID : string; do_UserID : string; do_Username : string; do_Origin : string }.
Definition nobody : DeviceSignOnActor := MkDeviceSignOnActor "" "" "" "".

Definition sign_on_actor (compact client : string) (d : DB) : DeviceSignOnActor :=
  match parseDeviceAssertion compact (String.append issuer "/oauth/token") now (assertion_key d) with
  | None => nobody
  | Some (a, dev) =>
    let iat := of_unix (da_IssuedAt a) in let until := of_unix (da_ExpiresAt a) in
    if (da_ClientID a =?s client) && (iat <? until) && (until - iat <=? deviceAssertionMaxWindow) then
      let reached := nd_CanSignOn dev && nd_IsMFAApprover dev && match GetOAuthClientByID client d with
        | Some cl => oc_Enabled cl && registeredOrigin (oc_RedirectURIs cl) (da_Origin a)
        | None => false
        end && (ConsumeDeviceSignOnJTI (da_JTI a) (until + deviceAssertionSkew) now d).1 in
      let name := match get_user now d (da_Subject a) with
        | Some u => if reached && (u_Status u =?s "active") then u_Username u else ""
        | None => ""
        end in
      MkDeviceSignOnActor (nd_ID dev) (nd_UserID dev) name (da_Origin a)
    else nobody
  end.

Definition deviceSignOn (under_limit : bool) (assertion client : string) : Handler Reply :=
  run_guard ((assertion <>?s "") && (client <>?s "")) (described 400 "invalid_request" "assertion and client_id are required") ~;;
  demand under_limit 429 "slow_down" ~;;
  who <~ ask (sign_on_actor assertion client) ;;
  r <~ attempt (ExchangeDeviceAssertion issuer device_draws assertion client (ClientIP (sv_mw sv) (r_Peer rq)) (r_Agent rq) now) ;;
  let told outcome more := Observe sv rq dr now 71 "device.signon" (do_UserID who) (do_Username who) (do_DeviceID who) "device" outcome
    (details_json ([("clientId", JStr client); ("origin", JStr (do_Origin who))] ++ more)%list) in
  match r with
  | inl e =>
    told "failure" [("error", JStr (engine_text e))] ~;;
    run_fail (described 400 "invalid_grant" (match e with
      | DeviceSignOnDisabled => "device_signon_disabled"
      | DeviceSignOnNotPermitted => "signon_not_permitted"
      | _ => "The device assertion is invalid"
      end))
  | inr t => told "success" [] ~;; issue t
  end.

(** The account [ExchangeRefreshToken] names: the family's, once the client has
    authenticated and the token is known. *)
Definition refresh_actor (raw client secret : string) (d : DB) : string :=
  match GetOAuthClientByID client d with
  | None => ""
  | Some cl =>
    if oc_Enabled cl && (oc_ClientType cl =?s "confidential") && is_null (authenticateClient cl secret)
    then match LookupRefreshFamily d (HashSHA256 raw) with inr f => rf_UserID f | inl _ => "" end else ""
  end.

Definition is_reuse (e : OAuthError) : bool := match e with RefreshReuse | FromStore ErrRefreshReuse => true | _ => false end.

Definition refresh (token client secret scope : string) : Handler Reply :=
  run_guard ((token <>?s "") && (client <>?s "")) (described 400 "invalid_request" "refresh_token and client_id are required") ~;;
  user <~ ask (refresh_actor token client secret) ;;
  r <~ attempt (ExchangeRefreshToken (sv_limits sv) issuer token_draws token client secret scope now) ;;
  match r with
  | inl e =>
    about_client 72 (if is_reuse e then "oauth.refresh_reuse" else "oauth.token_refresh") user client "failure" [("error", JStr (engine_text e))] ~;;
    run_fail (described 400 "invalid_grant" "The refresh token or client credentials are invalid")
  | inr t => about_client 73 "oauth.token_refresh" user client "success" [] ~;; issue t
  end.

Definition exchange (code client secret uri verifier : string) : Handler Reply :=
  r <~ attempt (ExchangeAuthorizationCode issuer token_draws code client secret uri verifier now) ;;
  match r with
  | inl e =>
    about_client 74 "oauth.token_exchange" "" client "failure" [("error", JStr (engine_text e))] ~;;
    run_fail (match e with
      | ClaimsTooLarge => described 400 "invalid_request" (engine_text e)
      | _ => described 400 "invalid_grant" "The authorization code, client credentials, redirect URI, or PKCE verifier is invalid"
      end)
  | inr t => about_client 75 "oauth.token_exchange" "" client "success" [] ~;; issue t
  end.

Definition Token (device_limit : bool) (basic : option (string * string)) (f : TokenForm) : Handler Reply :=
  post_only ~;;
  let '(client, secret) := credentials basic f in
  if tf_grant_type f =?s "urn:ietf:params:oauth:grant-type:jwt-bearer" then deviceSignOn device_limit (tf_assertion f) client
  else if tf_grant_type f =?s "refresh_token" then refresh (tf_refresh_token f) client secret (tf_scope f)
  else
    run_guard ((tf_grant_type f =?s "authorization_code") && (tf_code f <>?s "") && (client <>?s ""))
      (described 400 "invalid_request" "grant_type=authorization_code, code, and client_id are required") ~;;
    exchange (tf_code f) client secret (tf_redirect_uri f) (tf_code_verifier f).

(** [authorization] is the header, empty when absent. *)
Definition Userinfo (authorization : string) : Handler Reply :=
  run_guard (String.prefix "Bearer " authorization) (described 401 "invalid_token" "Bearer token required") ~;;
  d <~ run_get ;;
  match GetUserinfo issuer (String.substring 7 (String.length authorization - 7) authorization) now d with
  | inl _ => run_fail (described 401 "invalid_token" "The access token is invalid, expired, or revoked")
  | inr claims => writeJSON claims
  end.

Definition Revoke (basic : option (string * string)) (f : TokenForm) : Handler Reply :=
  post_only ~;;
  let '(client, secret) := credentials basic f in
  run_guard ((tf_token f <>?s "") && (client <>?s "")) (described 400 "invalid_request" "token and client_id are required") ~;;
  r <~ attempt (OAuthRevokeToken issuer (tf_token f) client secret now) ;;
  match r with
  | inl e =>
    about_client 76 "oauth.revoke" "" client "failure" [("error", JStr (engine_text e))] ~;;
    run_fail (described 401 "invalid_client" "Client authentication failed")
  | inr _ => about_client 77 "oauth.revoke" "" client "success" [] ~;; run_ret (MkReply 200 JNull None None)
  end.

(** ** Discovery *)

Definition SupportsRevocation : bool := true.

Definition OIDCConfiguration : Json :=
  let at_ path := JStr (String.append issuer path) in
  JObj ([("issuer", JStr issuer); ("authorization_endpoint", at_ "/oauth/authorize"); ("token_endpoint", at_ "/oauth/token");
    ("userinfo_endpoint", at_ "/oauth/userinfo"); ("jwks_uri", at_ "/.well-known/jwks.json")] ++
    (if SupportsRevocation then [("revocation_endpoint", at_ "/oauth/revoke")] else []) ++
    [("end_session_endpoint", at_ "/oauth/logout"); ("backchannel_logout_supported", JBool true); ("backchannel_logout_session_supported", JBool true);
     ("response_types_supported", strings ["code"]); ("subject_types_supported", strings ["public"]);
     ("id_token_signing_alg_values_supported", strings ["RS256"]); ("scopes_supported", strings ["openid"; "profile"; "email"]);
     ("token_endpoint_auth_methods_supported", strings ["client_secret_post"; "client_secret_basic"; "none"]);
     ("code_challenge_methods_supported", strings ["S256"]);
     ("claims_supported", strings ["sub"; "iss"; "aud"; "exp"; "iat"; "jti"; "nonce"; "auth_time"; "amr"; "acr"; "sid";
       "preferred_username"; "name"; "email"; "email_verified"; "roles"; "groups"; "role"]);
     ("acr_values_supported", strings [PasswordACR; MFAACR]);
     ("grant_types_supported", strings ["authorization_code"; "refresh_token"; "urn:ietf:params:oauth:grant-type:jwt-bearer"])])%list.
End tokens.

(** ** Logout asked for by a relying party *)

Section logout.
Context `{Wire} (sv : Server) (issuer : string) (rq : Request) (dr : WebDraws) (lid : string -> string) (now : Z).

Definition page {A} (status : Z) (v : logoutView) : Flow A := run_fail (MkAnswer (MkReply status JNull None None) None None (Some v)).
Definition rejected {A} (status : Z) (message : string) : Flow A := page status (MkLogoutView "Sign-out request rejected" message "" []).

(** The hint names exactly the session this browser holds. *)
Definition hintNamesSession (hint : option IDTokenHint) (user session : string) (d : DB) : bool :=
  match hint with
  | None => false
  | Some h =>
    if (hint_SID h =?s "") || (hint_Subject h <>?s user) then false else
    match GetClientSession (hint_SID h) d with
    | Some cs => (cs_SessionID cs =?s session) && (cs_UserID cs =?s user) && (cs_ClientID cs =?s hint_ClientID h)
    | None => false
    end
  end.

Definition finishLogout (uri state : string) : Flow Answer :=
  if uri =?s "" then page 200 (MkLogoutView "Signed out" "You are signed out of KySignOn in this browser." "" [])
  else match url_parse uri with
    | None => plain stepUpInternalError
    | Some _ => run_fail (redirect 302 (AtClient uri (if state =?s "" then [] else [("state", state)])))
    end.

(** [clearSessionCookies] before the answer is decided. *)
Definition clearSessionCookies (m : Flow Answer) : Flow Answer := fun d =>
  let '(a, d') := respond m d in
  (inr (MkAnswer (MkReply (rp_Status (an_Reply a)) (rp_Body (an_Reply a)) (Some "") (Some "")) (an_Location a) (an_BrowserCookie a) (an_Page a)), d').

(** A hint must be for the client the request names, if it names one. *)
Definition logout_hint (raw client : string) : Flow (option IDTokenHint) :=
  if raw =?s "" then run_ret None else
  match ParseIDTokenHint issuer raw now with
  | Some h => if (client =?s "") || (client =?s hint_ClientID h) then run_ret (Some h)
    else rejected 400 "The ID token hint is not valid for this issuer and client."
  | None => rejected 400 "The ID token hint is not valid for this issuer and client."
  end.

Definition logout_client (client : string) : Flow (option OAuthClient) :=
  if client =?s "" then run_ret None else
  d <~ run_get ;;
  match GetOAuthClientByID client d with
  | Some c => if oc_Enabled c then run_ret (Some c) else rejected 400 "Unknown or disabled application."
  | None => rejected 400 "Unknown or disabled application."
  end.

(** What happens to a session whose end has been proved or confirmed. *)
Definition end_session (user : User) (sess : Session) (client uri state : string) : Flow Answer :=
  ended <~ plain (attempt (RevokeSession lid (u_ID user) (s_ID sess)
    (Prepare sv rq dr now 81 "auth.logout" (u_ID user) (u_Username user) (u_ID user) "user" "success"
      (JObj [("clientId", JStr client); ("initiator", JStr "rp")])) now)) ;;
  match ended with
  | inr _ | inl ErrNotFound => clearSessionCookies (finishLogout uri state)
  | inl _ => plain stepUpInternalError
  end.

Definition confirm_page (client : option OAuthClient) (clientID uri state : string) : Flow Answer :=
  page 200 (MkLogoutView "Sign out of KySignOn?"
    (String.append (match client with Some c => oc_ClientName c | None => "An application" end) " asked to sign you out of KySignOn in this browser.")
    (IssueCSRFToken sv (w_raw dr 0) (default "" (r_SessionCookie rq)))
    [("client_id", clientID); ("post_logout_redirect_uri", uri); ("state", state)]).

Definition bounce (q : Values) : list (string * string) :=
  omap (fun k => if value q k =?s "" then None else Some (k, value q k)) ["id_token_hint"; "client_id"; "post_logout_redirect_uri"; "state"].

(** The checked request, for whoever the browser is signed in as. *)
Definition end_browser_session (who : option (User * Session)) (q : Values) (hint : option IDTokenHint) (client : option OAuthClient) (clientID : string) :
    Flow Answer :=
  let uri := value q "post_logout_redirect_uri" in let state := value q "state" in
  match who with
  | None => if r_Method rq =?s "POST" then run_fail (redirect 303 (AtLogout (bounce q))) else finishLogout uri state
  | Some (user, sess) =>
    d <~ run_get ;;
    if hintNamesSession hint (u_ID user) (s_ID sess) d then end_session user sess clientID uri state
    else if value q "confirm" =?s "" then confirm_page client clientID uri state
    else if csrfTokenMatchesSession sv dr (default "" (r_SessionCookie rq)) (value q "confirm") then end_session user sess clientID uri state
    else rejected 403 "The confirmation was not issued for this session. Nothing was changed."
  end.

Definition too_long (limit : Z) (s : string) : bool := limit <? Z.of_nat (String.length s).

(** [OptionalAuth], the rate limit and [EndSession]; [form] is the decoded form
    of a POST, [None] when it is malformed or above 16 KiB, or the query. *)
Definition EndSession (under_limit : bool) (form : option Values) : Flow Answer :=
  who <~ plain (identify sv rq now) ;;
  plain (limited under_limit) ~;;
  match form with
  | None => rejected 400 "The request was too large or malformed."
  | Some q =>
    let uri := value q "post_logout_redirect_uri" in
    if too_long 8192 (value q "id_token_hint") || too_long 256 (value q "client_id") || too_long 2048 uri || too_long 512 (value q "state")
    then rejected 400 "A request parameter exceeds its size limit."
    else
    hint <~ logout_hint (value q "id_token_hint") (value q "client_id") ;;
    let clientID := match hint with Some h => hint_ClientID h | None => value q "client_id" end in
    client <~ logout_client clientID ;;
    if (uri <>?s "") && negb (ValidatePostLogoutRedirectURI client uri)
    then rejected 400 "The application asked to send you to an address it has not registered for sign-out. Nothing was changed."
    else end_browser_session who q hint client clientID
  end.
End logout.

(** ** Facts *)

(** *** Codes *)

(** What the policy check leaves of a code: the request it answers. *)
Lemma check_code_asks code now d c d' : checkCodeAppAuthenticationTx code now d = inr (c, d') ->
  (c_RedirectURI c = c_RedirectURI code /\ c_CodeChallenge c = c_CodeChallenge code /\ c_CodeChallengeMethod c = c_CodeChallengeMethod code /\
   c_ExpiresAt c = c_ExpiresAt code /\ c_CodeHash c = c_CodeHash code /\ c_Evidence c = c_Evidence code) /\
  exists a, client_app d (c_ClientID code) = Some a /\ EvidenceReason (a_Authentication a) (c_Evidence code) now = "".
Proof.
  unfold checkCodeAppAuthenticationTx. intros Hr. apply tx_bind_inr in Hr as (? & ? & [= <- <-] & Hr).
  destruct (client_app d _) as [a|] eqn:Ea; [|discriminate]. cbv zeta in Hr.
  apply tx_bind_inr in Hr as (? & d1 & Hg & Hr). apply tx_guard_inr in Hg as [Hg ->]. apply andb_true_iff in Hg as [_ Hg].
  apply tx_bind_inr in Hr as (? & d2 & Hf & Hr). split; [|exists a; split; [done|by apply streqb_true in Hg]].
  apply (f_equal (fun r => match r with inr p => Some p | inl _ => None end)) in Hr. cbn [tx_ret] in Hr.
  injection Hr as Hr <-. destruct (Deadline _ _); [destruct (match _ with None => _ | Some _ => _ end)|]; by subst c.
Qed.

Lemma create_code_asks code now d c d' : CreateAuthorizationCode code now d = inr (c, d') ->
  (c_RedirectURI c = c_RedirectURI code /\ c_CodeChallenge c = c_CodeChallenge code /\ c_CodeChallengeMethod c = c_CodeChallengeMethod code /\
   c_ExpiresAt c = c_ExpiresAt code /\ c_CodeHash c = c_CodeHash code /\ c_Evidence c = c_Evidence code /\ c_ClientID c = c_ClientID code /\
   c_UserID c = c_UserID code /\ c_SessionID c = c_SessionID code) /\
  exists a, client_app d (c_ClientID code) = Some a /\ EvidenceReason (a_Authentication a) (c_Evidence code) now = "".
Proof.
  unfold CreateAuthorizationCode. intros Hr. apply tx_bind_inr in Hr as (c1 & d1 & H1 & Hr).
  pose proof (check_code_asks _ _ _ _ _ H1) as [(E1 & E2 & E3 & E4 & E5 & E6) Ha]. apply check_code_inv in H1 as (-> & _ & Hcl & Hu & Hs).
  split; [|done]. apply tx_bind_inr in Hr as (? & d2 & _ & Hr). cbv zeta in Hr. tx_inv.
  match goal with H : insert_row _ _ _ _ _ = _ |- _ => clear H end. cbn. by rewrite E1, E2, E3, E4, E5, E6, Hcl, Hu, Hs.
Qed.

Section code_facts.
Context `{Wire}.

(** A code the engine makes: for the stored session, in the directory as it was. *)
Definition made_code (raw id client session redirect challenge method : string) (now : Z) (d d' : DB) : Prop :=
  exists row s a m, GetSessionByID session now d = Some s /\ authorization_codes d !! id = None /\
    authorization_codes d' = <[id := row]> (authorization_codes d) /\ d' = on_authorization_codes <[id := row]> (on_authorization_interactions (fun _ => m) d) /\
    c_CodeHash row = HashSHA256 raw /\ c_ClientID row = client /\ c_RedirectURI row = redirect /\ c_CodeChallenge row = challenge /\
    c_CodeChallengeMethod row = method /\ challenge <> "" /\ method = "S256" /\ c_ExpiresAt row = now + AuthorizationCodeTTL /\ c_UsedAt row = None /\
    c_SessionID row = s_ID s /\ c_UserID row = s_UserID s /\ c_Evidence row = s_Evidence s /\
    client_app d client = Some a /\ EvidenceReason (a_Authentication a) (s_Evidence s) now = "".

Lemma engine_code raw id client session redirect scope challenge method nonce requirements interaction now d :
  run_sat (fun r d' => match r with inr code => code = raw /\ made_code raw id client session redirect challenge method now d d' | inl _ => d' = d end)
    (CreateAuthorizationCodeForInteraction raw id client session redirect scope challenge method nonce requirements interaction now) d.
Proof.
  unfold CreateAuthorizationCodeForInteraction. apply run_sat_get, run_sat_guard; [done|]. intros _. apply run_sat_guard; [done|]. intros Ep.
  destruct (GetSessionByID session now d) as [s|] eqn:Es; [|done]. apply run_sat_result; [done|]. intros pb _. cbv zeta.
  apply run_sat_guard; [done|]. intros _. apply run_sat_in_tx; [done|]. intros row d' Ec. cbn. split; [done|].
  pose proof (create_code_asks _ _ _ _ _ Ec) as [(E1 & E2 & E3 & E4 & E5 & E6 & E7 & E8 & E9) (a & Ha & Hreason)].
  apply create_code_inv in Ec as (_ & Hused & Hnone & _ & _ & m & ->). cbn [c_RedirectURI c_CodeChallenge c_CodeChallengeMethod c_ExpiresAt c_CodeHash c_Evidence c_ClientID c_UserID c_SessionID c_ID] in *. apply andb_true_iff in Ep as [Ep1 Ep2].
  exists row, s, a, m. apply negb_true_iff, streqb_false in Ep1. apply streqb_true in Ep2. repeat apply conj; first [assumption | reflexivity].
Qed.
End code_facts.

(** *** Authorization *)

Section authorize_facts.
Context `{Wire} `{Formats} (sv : Server) (rq : Request) (dr : WebDraws) (now : Z).

(** The address is registered, exactly, by an enabled client. *)
Definition registered_for (d : DB) (client uri : string) : Prop :=
  exists cl, oauth_clients d !! client = Some cl /\ oc_Enabled cl = true /\ registeredExactly (oc_RedirectURIs cl) uri = true.

(** What makes a code right: the session and the account of this browser, free
    of a pending enrollment or password change, with access to the client and
    evidence its policy accepts; the client's address and PKCE. *)
Definition rightful (d : DB) (row : AuthorizationCode) : Prop :=
  exists user sess d1 status a,
    authenticate (session_cookie_hash rq) (sv_limits sv) now d = (Some (user, sess), d1) /\
    c_SessionID row = s_ID sess /\ c_UserID row = u_ID user /\ u_PasswordChangeRequired user = false /\
    SessionEnrollmentStatus (u_ID user) (s_ID sess) now d1 = Some status /\ restricted status = false /\
    ClientAccessAllowed now d1 (u_ID user) (c_ClientID row) = true /\
    client_app d (c_ClientID row) = Some a /\ EvidenceReason (a_Authentication a) (s_Evidence sess) now = "" /\
    registered_for d (c_ClientID row) (c_RedirectURI row) /\
    c_CodeChallenge row <> "" /\ c_CodeChallengeMethod row = "S256" /\ c_ExpiresAt row = now + AuthorizationCodeTTL /\ c_UsedAt row = None.

Definition outcome (d : DB) (a : Answer) (d' : DB) : Prop :=
  (forall k row, authorization_codes d' !! k = Some row -> authorization_codes d !! k = Some row \/ rightful d row) /\
  match an_Location a with
  | Some (AtClient uri set) => exists client, registered_for d client uri /\ forall code, In ("code", code) set ->
      exists k row, authorization_codes d' !! k = Some row /\ authorization_codes d !! k = None /\ rightful d row /\
        c_CodeHash row = HashSHA256 code /\ c_ClientID row = client /\ c_RedirectURI row = uri
  | _ => True
  end.

Definition answered (d : DB) (r : Answer + Answer) (d' : DB) : Prop := outcome d (match r with inl a => a | inr a => a end) d'.

(** The tables the decision reads, as they were. *)
Definition same_base (d d1 : DB) : Prop :=
  authorization_codes d1 = authorization_codes d /\ oauth_clients d1 = oauth_clients d /\ app_registry d1 = app_registry d.

Lemma outcome_quiet d a d' : same_base d d' -> (forall uri set, an_Location a <> Some (AtClient uri set)) -> outcome d a d'.
Proof.
  intros (Hc & _) Hl. split; [rewrite Hc; by left|]. destruct (an_Location a) as [[uri set| |]|]; try done. by destruct (Hl uri set).
Qed.

Lemma outcome_only d r d' : same_base d d' -> outcome d (only r) d'.
Proof. intros Hb. by apply outcome_quiet. Qed.

Lemma sat_plain {A B} (Q : Answer + B -> DB -> Prop) (m : Handler A) (k : A -> Flow B) d :
  (forall r d', m d = (inl r, d') -> Q (inl (only r)) d') -> (forall a d', m d = (inr a, d') -> run_sat Q (k a) d') -> run_sat Q (run_bind (plain m) k) d.
Proof. intros H1 H2. apply run_sat_bind; unfold plain; destruct (m d) as [[r|a] d1] eqn:E; intros ? ? [= <- <-]; eauto. Qed.

Lemma sat_guard {B} (Q : Answer + B -> DB -> Prop) b r (k : unit -> Flow B) d :
  Q (inl (only r)) d -> (b = true -> run_sat Q (k tt) d) -> run_sat Q (run_bind (plain (run_guard b r)) k) d.
Proof.
  intros H1 H2. apply sat_plain; unfold run_guard; destruct b; intros ? ? [= <- <-]; eauto.
Qed.

Lemma sat_observe {B} (Q : Answer + B -> DB -> Prop) n a i u t ty o l (k : unit -> Flow B) d :
  (forall m q, run_sat Q (k tt) (audited m q d)) -> run_sat Q (run_bind (observe sv rq dr now n a i u t ty o l) k) d.
Proof.
  intros Hk. unfold observe. apply sat_plain.
  - intros r d' Hr. unfold Observe in Hr. discriminate Hr.
  - intros [] d' Hr. apply observe_inr in Hr as (m & q & ->). apply Hk.
Qed.

Lemma sat_attempt {E A B} (Q : Answer + B -> DB -> Prop) (m : DB -> (E + A) * DB) (k : E + A -> Flow B) d :
  (forall r d', m d = (r, d') -> run_sat Q (k r) d') -> run_sat Q (run_bind (plain (attempt m)) k) d.
Proof. intros Hk. apply sat_plain; unfold attempt; destruct (m d) as [r d1] eqn:Em; intros ? ? [= <- <-]. by apply Hk. Qed.

Lemma sat_cookie d c (m : Flow Answer) d1 : run_sat (answered d) m d1 -> run_sat (answered d) (with_browser_cookie c m) d1.
Proof. unfold run_sat, with_browser_cookie, respond. by destruct (m d1) as [[a|a] d']. Qed.

Lemma base_audited d m q d1 : same_base d d1 -> same_base d (audited m q d1).
Proof. done. Qed.

(** Errors sent to the client's own address. *)
Lemma error_outcome d client uri state code description d' : same_base d d' -> registered_for d client uri -> code <> "" ->
  run_sat (answered d) (redirectError (A := Answer) uri state code description) d'.
Proof.
  intros Hb Hr Hc. unfold redirectError. destruct (url_parse uri); [|by apply outcome_only]. unfold run_sat, answered. cbn [fst snd run_fail].
  split; [destruct Hb as [-> _]; by left|]. cbn [an_Location redirect]. exists client. split; [done|]. intros x Hx. exfalso.
  rewrite !in_app_iff in Hx. destruct Hx as [[Hx|[]]|[Hx|Hx]]; [discriminate Hx| |].
  - destruct (description =?s ""); [done|]. destruct Hx as [Hx|[]]. discriminate Hx.
  - destruct (state =?s ""); [done|]. destruct Hx as [Hx|[]]. discriminate Hx.
Qed.

Lemma interaction_base i d u d' : CreateAuthorizationInteraction i now d = inr (u, d') -> exists m, d' = on_authorization_interactions (fun _ => m) d.
Proof.
  unfold CreateAuthorizationInteraction, repairAuthorizationAccountsSQL, drop_sessionless, adopt_sessions, delete_expired_interactions. intros Hr.
  apply tx_bind_inr in Hr as (? & d1 & H1 & Hr). injection H1 as _ <-. apply tx_bind_inr in Hr as (? & d2 & H2 & Hr). injection H2 as <- <-.
  apply tx_bind_inr in Hr as (? & d3 & H3 & Hr). assert (exists m, d3 = on_authorization_interactions (fun _ => m) d) as [m ->].
  { destruct (10000 <=? _); injection H3 as _ <-; by eexists. }
  apply tx_bind_inr in Hr as (? & d4 & H4 & Hr). injection H4 as _ <-. apply tx_bind_inr in Hr as (? & d5 & H5 & Hr). injection H5 as <- <-. cbv zeta in Hr.
  apply tx_bind_inr in Hr as (? & d6 & H6 & Hr). apply tx_guard_inr in H6 as [_ ->]. apply insert_row_inv in Hr as [_ ->]. by eexists.
Qed.

Lemma begin_outcome d who q d1 : same_base d d1 -> registered_for d (value q "client_id") (value q "redirect_uri") ->
  run_sat (answered d) (beginInteraction sv rq dr now who q) d1.
Proof.
  intros Hb Hr. unfold beginInteraction. cbv zeta. apply sat_cookie, sat_attempt. intros r d2 Hm.
  assert (same_base d d2) as Hb2.
  { unfold commit in Hm. destruct (CreateAuthorizationInteraction _ now d1) as [e|[u d3]] eqn:E; injection Hm as <- <-; [done|].
    by apply interaction_base in E as [m ->]. }
  destruct r as [e|u]; [|apply sat_observe; intros m q'; by apply outcome_quiet].
  assert (forall text, run_sat (answered d) (redirectError (A := Answer) (value q "redirect_uri") (value q "state") "server_error" text) d2) as Hs
    by (intros text; by eapply error_outcome).
  destruct e; try apply Hs. by eapply error_outcome.
Qed.

Lemma deny_outcome d user client uri state d' : same_base d d' -> registered_for d client uri ->
  run_sat (answered d) (denyAccess sv rq dr now user client uri state) d'.
Proof.
  intros Hb Hr. unfold denyAccess. apply sat_plain; [done|]. intros e d1 [-> ->]%ask_inr. cbv zeta. apply sat_observe. intros m q.
  by eapply error_outcome.
Qed.

(** The session [authenticate] found is stored for the account it found. *)
Lemma authenticated d user sess d1 : schema_ok d = true -> authenticate (session_cookie_hash rq) (sv_limits sv) now d = (Some (user, sess), d1) ->
  same_base d d1 /\ forall s, GetSessionByID (s_ID sess) now d1 = Some s -> s_UserID s = u_ID user /\ s_Evidence s = s_Evidence sess /\ s_ID s = s_ID sess.
Proof.
  intros Hok. unfold authenticate. destruct (session_cookie_hash rq) as [h|]; [|done].
  destruct (GetSessionByTokenHash h _ _ now d) as [s0|] eqn:Es; [|done]. destruct (get_user now d (s_UserID s0)) as [u|] eqn:Eu; [|done].
  destruct (u_Status u =?s "active"); [|done]. intros [= <- <- <-]. split; [done|]. intros s.
  unfold GetSessionByTokenHash in Es. destruct (find_where _ (sessions d)) as [[k s1]|] eqn:Ef; [|done]. injection Es as ->.
  apply find_where_Some in Ef as [Hk _]. pose proof (schema_session _ _ _ Hok Hk) as Hid. unfold get_user in Eu.
  destruct (users d !! s_UserID s0) as [row|] eqn:Er; [|done]. pose proof (schema_user _ _ _ Hok Er) as Hui. injection Eu as <-.
  destruct (scanUser_fields now row) as (Hi & _). unfold GetSessionByID, TouchSession. cbn [sessions on_sessions]. rewrite lookup_update_where, Hid, Hk. cbn.
  rewrite Hid, streqb_refl. cbn. destruct (now <? s_ExpiresAt s0); [|done]. intros [= <-]. cbn. by rewrite Hi, Hui.
Qed.

Lemma made_code_rightful d user sess d1 status d2 raw id client uri challenge method :
  schema_ok d = true -> authenticate (session_cookie_hash rq) (sv_limits sv) now d = (Some (user, sess), d1) ->
  SessionEnrollmentStatus (u_ID user) (s_ID sess) now d1 = Some status -> restricted status = false -> u_PasswordChangeRequired user = false ->
  ClientAccessAllowed now d1 (u_ID user) client = true -> registered_for d client uri ->
  made_code raw id client (s_ID sess) uri challenge method now d1 d2 ->
  exists row, authorization_codes d2 = <[id := row]> (authorization_codes d1) /\ authorization_codes d1 !! id = None /\ rightful d row /\
    c_CodeHash row = HashSHA256 raw /\ c_ClientID row = client /\ c_RedirectURI row = uri.
Proof.
  intros Hok Hau Hst Hres Hpw Hacc Hreg (row & s & app & m & Hs & Hid & Hins & _ & Hh & Hcl & Huri & Hch & Hme & Hne & Hs256 & Hexp & Hused & Hsid & Hsu & _ & Happ & Hev).
  destruct (authenticated _ _ _ _ Hok Hau) as [(_ & _ & Hreg1) Hsess]. destruct (Hsess _ Hs) as (Eu & Ee & Ei).
  exists row. repeat apply conj; try assumption. exists user, sess, d1, status, app. rewrite Hcl, Huri, Hch, Hme.
  unfold client_app in *. rewrite Hreg1 in Happ. rewrite Ee in Hev. repeat apply conj; try assumption; congruence.
Qed.

Lemma deliver_outcome d d1 user q granted raw id d2 row : same_base d d1 -> registered_for d (aq_Client (asked q)) (aq_URI (asked q)) ->
  authorization_codes d2 = <[id := row]> (authorization_codes d1) -> authorization_codes d1 !! id = None -> rightful d row ->
  c_CodeHash row = HashSHA256 raw -> c_ClientID row = aq_Client (asked q) -> c_RedirectURI row = aq_URI (asked q) ->
  run_sat (answered d) (deliver sv rq dr now user (asked q) granted raw) d2.
Proof.
  intros (Hc & _) Hreg Hins Hid Hright Hh Hcl Huri. unfold deliver. apply sat_observe. intros m p.
  assert (forall k r, authorization_codes (audited m p d2) !! k = Some r -> authorization_codes d !! k = Some r \/ rightful d r) as Hcodes.
  { intros k r. change (authorization_codes (audited m p d2)) with (authorization_codes d2). rewrite Hins. intros [[<- <-]|[_ Hk]]%lookup_insert_Some; [by right|].
    left. by rewrite <- Hc. }
  destruct (url_parse _); [|by split]. unfold run_sat, answered. cbn [fst snd run_ret]. split; [exact Hcodes|]. cbn [an_Location redirect].
  exists (aq_Client (asked q)). split; [done|]. intros code Hin. exists id, row.
  assert (code = raw) as ->.
  { apply in_app_iff in Hin as [[Hin|[]]|Hin]; [by injection Hin|]. destruct (_ =?s ""); [done|]. destruct Hin as [Hin|[]]. discriminate Hin. }
  change (authorization_codes (audited m p d2)) with (authorization_codes d2). rewrite Hins, lookup_insert, <- Hc. destruct (decide (id = id)); [|done]. by split_and!.
Qed.

Lemma user_outcome d user sess d1 q requirements granted interaction : schema_ok d = true ->
  authenticate (session_cookie_hash rq) (sv_limits sv) now d = (Some (user, sess), d1) -> registered_for d (aq_Client (asked q)) (aq_URI (asked q)) ->
  run_sat (answered d) (authorize_user sv rq dr now user sess q (asked q) requirements granted interaction) d1.
Proof.
  intros Hok Hau Hreg. destruct (authenticated _ _ _ _ Hok Hau) as [Hb _].
  assert (forall c text d', same_base d d' -> c <> "" -> run_sat (answered d) (redirectError (A := Answer) (aq_URI (asked q)) (aq_State (asked q)) c text) d') as Herr
    by (intros; by eapply error_outcome).
  unfold authorize_user. apply run_sat_get. destruct (SessionEnrollmentStatus _ _ _ _) as [status|] eqn:Est; [|by apply Herr].
  destruct (restricted status) eqn:Eres; [by apply Herr|]. destruct (u_PasswordChangeRequired user) eqn:Epw; [by apply Herr|].
  destruct (ClientAccessAllowed _ _ _ _) eqn:Eacc; cbn [negb]; [|by apply deny_outcome].
  destruct (Satisfied _ _ _); cbn [negb]; [|destruct (_ || _); [by apply Herr|by apply begin_outcome]].
  apply sat_attempt. intros r d2 Hm. pose proof (engine_code (string_of (hex_encode (w_raw dr 33))) (w_id dr 53) (aq_Client (asked q)) (s_ID sess)
    (aq_URI (asked q)) granted (aq_Challenge (asked q)) (aq_Method (asked q)) (aq_Nonce (asked q)) requirements interaction now d1) as He.
  unfold run_sat in He. rewrite Hm in He. cbn [fst snd] in He. destruct r as [e|code].
  - subst d2. destruct e as [e| | | | | |]; try by apply Herr. destruct e; first [by apply Herr|by apply deny_outcome].
  - destruct He as [-> He]. destruct (made_code_rightful _ _ _ _ _ _ _ _ _ _ _ _ Hok Hau Est Eres Epw Eacc Hreg He) as (row & Hins & Hid & Hri & Hh & Hcl & Hu).
    by eapply deliver_outcome.
Qed.

Definition who_state (d : DB) (who : option (User * Session)) (d1 : DB) : Prop :=
  authenticate (session_cookie_hash rq) (sv_limits sv) now d = (who, d1).

Lemma who_base d who d1 : schema_ok d = true -> who_state d who d1 -> same_base d d1.
Proof.
  intros Hok. destruct who as [[user sess]|]; unfold who_state; [intros Ha; by apply (authenticated d user sess d1 Hok Ha)|].
  unfold authenticate. destruct (session_cookie_hash rq); [|by intros [= <-]]. destruct (GetSessionByTokenHash _ _ _ _ _); [|by intros [= <-]].
  destruct (get_user _ _ _); [|by intros [= <-]]. destruct (_ =?s "active"); [done|by intros [= <-]].
Qed.

Lemma asked_outcome d who d1 limit q interaction : schema_ok d = true -> who_state d who d1 ->
  registered_for d (aq_Client (asked q)) (aq_URI (asked q)) -> run_sat (answered d) (authorize_asked sv rq dr now limit who q (asked q) interaction) d1.
Proof.
  intros Hok Hw Hreg. pose proof (who_base _ _ _ Hok Hw) as Hb.
  assert (forall c text, c <> "" -> run_sat (answered d) (redirectError (A := Answer) (aq_URI (asked q)) (aq_State (asked q)) c text) d1) as Herr
    by (intros; by eapply error_outcome).
  unfold authorize_asked. destruct (negb limit); [by apply Herr|]. destruct (_ || _); [by apply Herr|]. apply run_sat_get.
  destruct (GrantedScope _ _ _) as [e|granted]; [by apply Herr|]. destruct (ParseAuthenticationRequest q) as [req|]; [|by apply Herr].
  destruct (ClientAuthenticationPolicyBinding _ _) as [e|[policy b]]; [by apply Herr|]. cbv zeta. destruct who as [[user sess]|].
  - by apply user_outcome.
  - destruct (rq_Silent _); [by apply Herr|by apply begin_outcome].
Qed.

Lemma query_outcome d who d1 limit q interaction : schema_ok d = true -> who_state d who d1 ->
  run_sat (answered d) (authorize_query sv rq dr now limit who q interaction) d1.
Proof.
  intros Hok Hw. pose proof (who_base _ _ _ Hok Hw) as Hb. unfold authorize_query. cbv zeta.
  apply sat_guard; [by apply outcome_only|]. intros _. apply sat_guard; [by apply outcome_only|]. intros _. apply run_sat_get.
  apply sat_guard; [by apply outcome_only|]. intros Hen. destruct (ValidateRedirectURI _ _) eqn:Ev.
  - apply asked_outcome; [done|done|]. unfold GetOAuthClientByID in *. destruct Hb as (_ & Hcl & _). rewrite Hcl in Hen, Ev.
    destruct (oauth_clients d !! _) as [cl|] eqn:Ecl; [|done]. by exists cl.
  - apply sat_observe. intros m p. by apply outcome_only.
Qed.

Lemma resume_stays who q d r d' : resume sv rq now who q d = (r, d') -> d' = d /\ match r with inl a => exists rep, a = only rep | inr _ => True end.
Proof.
  unfold resume. cbv zeta. destruct (_ =?s ""); [by intros [= <- <-]|].
  unfold run_bind, plain, demand, run_guard, ask. destruct (_ && _); [|intros [= <- <-]; by eauto].
  destruct (GetAuthorizationInteraction _ _ _ _) as [e|i]; [intros [= <- <-]; by eauto|]. destruct who as [[user sess]|]; [|intros [= <- <-]; by eauto].
  destruct (i_SessionID i =?s s_ID sess); [|intros [= <- <-]; by eauto]. destruct (ParseQuery _); intros [= <- <-]; by eauto.
Qed.

Lemma Authorize_outcome limit query d : schema_ok d = true -> run_sat (answered d) (Authorize sv rq dr now limit query) d.
Proof.
  intros Hok. unfold Authorize. apply sat_plain; unfold identify; destruct (authenticate _ _ _ d) as [who d1] eqn:Ea; [done|].
  intros w d2 [= <- <-]. pose proof (who_base _ _ _ Hok Ea) as Hb. apply sat_guard; [by apply outcome_only|]. intros _.
  destruct (ParseQuery query) as [q|]; [|by apply outcome_only]. apply run_sat_bind.
  - intros a d3 Hr. apply resume_stays in Hr as [-> [rep ->]]. by apply outcome_only.
  - intros r d3 Hr. apply resume_stays in Hr as [-> _]. by apply query_outcome.
Qed.

(** C15. Whatever an authorization request says, every code it adds belongs to
    this browser's live session and account, free of a pending enrollment or
    password change, with access to an enabled client and evidence its
    policy accepts, under S256 and for sixty seconds; and the browser is
    sent to a client only at an address that client registered exactly, with
    a code only where it is that client's new code for that address. *)
Theorem a_code_goes_only_to_its_client limit query d a d' : schema_ok d = true -> respond (Authorize sv rq dr now limit query) d = (a, d') ->
  (forall k row, authorization_codes d' !! k = Some row -> authorization_codes d !! k = Some row \/ rightful d row) /\
  (forall uri set, an_Location a = Some (AtClient uri set) -> exists client, registered_for d client uri /\
    forall code, In ("code", code) set -> exists k row, authorization_codes d' !! k = Some row /\ authorization_codes d !! k = None /\
      rightful d row /\ c_CodeHash row = HashSHA256 code /\ c_ClientID row = client /\ c_RedirectURI row = uri).
Proof.
  intros Hok Hr. pose proof (Authorize_outcome limit query d Hok) as Ho. unfold run_sat, answered, respond in *.
  destruct (Authorize sv rq dr now limit query d) as [[x|x] d1]; injection Hr as -> ->; cbn [fst snd] in Ho; destruct Ho as [Hc Hl];
    (split; [exact Hc|intros uri set E; by rewrite E in Hl]).
Qed.
End authorize_facts.

(** *** Logout *)

Section logout_facts.
Context `{Wire} (sv : Server) (issuer : string) (rq : Request) (dr : WebDraws) (lid : string -> string) (now : Z).

(** The token of this browser's session that confirms a logout. *)
Definition confirmation (cookie : string) : string := String.append "s." (SignHMACSHA256 (sv_csrfKey sv) (bytes_of (HashSHA256 cookie))).

(** What ends a browser's session: an ID token this server gave the named client
    for this very login, or the confirmation only this browser was shown. *)
Definition may_end (d : DB) (q : Values) (user : User) (sess : Session) : Prop :=
  (exists h cs, ParseIDTokenHint issuer (value q "id_token_hint") now = Some h /\ hint_Subject h = u_ID user /\ hint_SID h <> "" /\
     oidc_client_sessions d !! hint_SID h = Some cs /\ cs_SessionID cs = s_ID sess /\ cs_UserID cs = u_ID user /\ cs_ClientID cs = hint_ClientID h) \/
  (exists cookie, r_SessionCookie rq = Some cookie /\ cookie <> "" /\ value q "confirm" = confirmation cookie).

Definition logged_out (d : DB) (form : option Values) (a : Answer) (d' : DB) : Prop :=
  (forall k s, sessions d !! k = Some s -> sessions d' !! k = None -> exists q user sess d1, form = Some q /\
     authenticate (session_cookie_hash rq) (sv_limits sv) now d = (Some (user, sess), d1) /\ k = s_ID sess /\ may_end d q user sess) /\
  (rp_SessionCookie (an_Reply a) = Some "" -> exists user sess d1,
     authenticate (session_cookie_hash rq) (sv_limits sv) now d = (Some (user, sess), d1) /\
     forall s, sessions d' !! s_ID sess = Some s -> s_UserID s <> u_ID user) /\
  match an_Location a with
  | Some (AtClient uri set) => (exists client cl, oauth_clients d !! client = Some cl /\ oc_Enabled cl = true /\
      registeredExactly (oc_PostLogoutRedirectURIs cl) uri = true) /\ forall k v, In (k, v) set -> k = "state"
  | _ => True
  end.

Definition logout_answered (d : DB) (form : option Values) (r : Answer + Answer) (d' : DB) : Prop :=
  logged_out d form (match r with inl a => a | inr a => a end) d'.

Definition same_logins (d d1 : DB) : Prop := (forall k, is_Some (sessions d1 !! k) <-> is_Some (sessions d !! k)) /\
  oauth_clients d1 = oauth_clients d /\ oidc_client_sessions d1 = oidc_client_sessions d.

Lemma logged_out_kept d form a d' : same_logins d d' -> rp_SessionCookie (an_Reply a) = None -> (forall uri set, an_Location a <> Some (AtClient uri set)) ->
  logged_out d form a d'.
Proof.
  intros (Hs & _) Hc Hl. split; [|split; [congruence|]].
  - intros k s Hk Hn. exfalso. destruct (proj2 (Hs k) (ex_intro _ s Hk)) as [x Hx]. congruence.
  - destruct (an_Location a) as [[uri set| |]|]; try done. by destruct (Hl uri set).
Qed.

Lemma identified d who d1 : authenticate (session_cookie_hash rq) (sv_limits sv) now d = (who, d1) -> same_logins d d1.
Proof.
  unfold authenticate. destruct (session_cookie_hash rq) as [h|]; [|by intros [= _ <-]].
  destruct (GetSessionByTokenHash h _ _ now d) as [s0|]; [|by intros [= _ <-]]. destruct (get_user now d (s_UserID s0)) as [u|]; [|by intros [= _ <-]].
  destruct (u_Status u =?s "active"); intros [= _ <-]; [|done]. split; [|done]. intros k. unfold TouchSession. cbn [sessions on_sessions].
  rewrite lookup_update_where. by rewrite fmap_is_Some.
Qed.

(** The last step, from a state in which only sessions may have gone. *)
Lemma finish_outcome client uri state d' (d : DB) : (uri <> "" -> exists cl, oauth_clients d !! client = Some cl /\ oc_Enabled cl = true /\
    registeredExactly (oc_PostLogoutRedirectURIs cl) uri = true) ->
  exists a, respond (finishLogout uri state) d' = (a, d') /\ rp_SessionCookie (an_Reply a) = None /\
    match an_Location a with
    | Some (AtClient uri set) => (exists client cl, oauth_clients d !! client = Some cl /\ oc_Enabled cl = true /\
        registeredExactly (oc_PostLogoutRedirectURIs cl) uri = true) /\ forall k v, In (k, v) set -> k = "state"
    | _ => True
    end.
Proof.
  intros Hr. unfold finishLogout, respond. destruct (uri =?s "") eqn:Eu; [by eexists|]. apply streqb_false in Eu.
  destruct (url_parse uri); [|by eexists]. eexists. split; [reflexivity|]. cbn. split; [done|]. split.
  - destruct (Hr Eu) as (cl & ? & ? & ?). by exists client, cl.
  - intros k v. destruct (state =?s ""); cbn; [done|]. by intros [[= <- _]|[]].
Qed.

(** No step of a revocation but its own count reports [ErrNotFound]. *)
Definition finds {A} (m : STx A) : Prop := forall d, m d <> inl ErrNotFound.

Lemma finds_bind {A B} (m : STx A) (k : A -> STx B) : finds m -> (forall a, finds (k a)) -> finds (tx_bind m k).
Proof. intros Hm Hk d. unfold tx_bind. destruct (m d) as [e|[a d1]] eqn:E; [|apply Hk]. intros [= ->]. by apply (Hm d). Qed.
Lemma finds_insert {K A} `{Countable K} get on (k : K) (r : A) : finds (insert_row get on k r).
Proof. intros d. unfold insert_row, tx_bind, tx_get, tx_guard, tx_set. by destruct (is_null _). Qed.
Lemma finds_revoke p : finds (revokeSessionsTx lid now p).
Proof.
  unfold revokeSessionsTx. apply finds_bind; [done|]. intros d0. apply finds_bind; [|done].
  unfold enqueueLogoutTx. apply finds_bind; [done|]. intros d1. generalize (map_to_list (where_ (fun cs => backchannel_client d1 (cs_ClientID cs) && in_sessions d0 p (cs_SessionID cs)) (oidc_client_sessions d1))).
  intros l. induction l as [|kv l IH]; [done|]. apply finds_bind; [apply finds_insert|]. by intros _.
Qed.
Lemma finds_audit ev : finds (recordAuditTx ev now).
Proof. destruct ev as [e|]; [|done]. unfold recordAuditTx. apply finds_bind; [apply finds_insert|done]. Qed.

Lemma RevokeSession_ends user session ev d r d' : RevokeSession lid user session ev now d = (r, d') ->
  (forall k s, sessions d !! k = Some s -> sessions d' !! k = None -> s_ID s = session) /\
  (r = inr tt \/ r = inl ErrNotFound -> forall k s, sessions d' !! k = Some s -> ~ (s_ID s = session /\ s_UserID s = user)) /\
  forall k s, sessions d' !! k = Some s -> sessions d !! k = Some s.
Proof.
  set (p := fun s => (s_ID s =?s session) && (s_UserID s =?s user)). unfold RevokeSession, auditedTx. fold p. unfold commit.
  destruct (tx_bind _ _ d) as [e|[u d1]] eqn:E; intros [= <- <-].
  - split; [intros k s Hk Hn; congruence|]. split; [|done]. intros [Hr|Hr]; [done|]. injection Hr as ->. intros k s Hk [Hi Hu].
    unfold tx_bind at 1 in E. destruct (tx_bind (revokeSessionsTx lid now p) _ d) as [e|[[] d2]] eqn:E2.
    + injection E as ->. unfold tx_bind at 1 in E2. destruct (revokeSessionsTx lid now p d) as [e|[n d3]] eqn:E3.
      { injection E2 as ->. by apply finds_revoke in E3. }
      apply revokeSessionsTx_inv in E3 as (-> & _). unfold tx_guard in E2. destruct (negb _) eqn:En; [done|]. apply negb_false_iff, Z.eqb_eq, count_where_0 in En.
      rewrite exists_where_false in En. apply En in Hk. unfold p in Hk. by rewrite Hi, Hu, !streqb_refl in Hk.
    + unfold tx_bind in E. destruct (recordAuditTx ev now d2) as [e|[x d3]] eqn:E3; [|done]. injection E as ->. by apply finds_audit in E3.
  - apply tx_bind_inr in E as (x & d2 & E2 & E). apply tx_bind_inr in E as (y & d3 & E3 & E). injection E as <- <-.
    apply recordAuditTx_inv in E3 as (m & q & ->). apply tx_bind_inr in E2 as (n & d4 & E4 & E2). apply tx_guard_inr in E2 as [_ ->].
    apply revokeSessionsTx_inv in E4 as (_ & m2 & _ & ->).
    assert (forall z, sessions (audited m q (delete_sessions p z)) = delete_where p (sessions z)) as Hs by done. rewrite Hs. clear Hs.
    change (sessions (revoke_grants _ now _)) with (sessions d). split; [|split].
    + intros k s Hk Hn. destruct (p s) eqn:Ep; [unfold p in Ep; by bool_hyps|]. rewrite (proj2 (lookup_delete_where_Some p _ k s)) in Hn; done.
    + intros _ k s Hk [Hi Hu]. apply lookup_delete_where_Some in Hk as [_ Hp]. unfold p in Hp. by rewrite Hi, Hu, !streqb_refl in Hp.
    + intros k s Hk. by apply lookup_delete_where_Some in Hk as [? _].
Qed.

Definition may_return (d : DB) (uri : string) (client : string) : Prop := uri <> "" -> exists cl, oauth_clients d !! client = Some cl /\ oc_Enabled cl = true /\
  registeredExactly (oc_PostLogoutRedirectURIs cl) uri = true.

Lemma identified_keys d who d1 : schema_ok d = true -> authenticate (session_cookie_hash rq) (sv_limits sv) now d = (who, d1) ->
  forall k s, sessions d1 !! k = Some s -> s_ID s = k.
Proof.
  intros Hok Ha k s Hk. assert (forall k s, sessions d !! k = Some s -> s_ID s = k) as Hd by (intros ? ?; by apply schema_session).
  unfold authenticate in Ha. destruct (session_cookie_hash rq) as [h|]; [|injection Ha as _ <-; by apply Hd].
  destruct (GetSessionByTokenHash h _ _ now d) as [s0|]; [|injection Ha as _ <-; by apply Hd]. destruct (get_user _ _ _) as [u|]; [|injection Ha as _ <-; by apply Hd].
  destruct (_ =?s "active"); [|injection Ha as _ <-; by apply Hd]. injection Ha as _ <-. unfold TouchSession in Hk. cbn [sessions on_sessions] in Hk.
  apply lookup_update_where_Some in Hk as (s1 & Hk & ->). apply Hd in Hk. by destruct (s_ID s1 =?s s_ID s0).
Qed.

(** Ended sessions, cleared cookies and the address, whatever the answer. *)
Lemma ended_outcome d q user sess d1 d2 a : schema_ok d = true ->
  authenticate (session_cookie_hash rq) (sv_limits sv) now d = (Some (user, sess), d1) -> may_end d q user sess ->
  (forall k s, sessions d1 !! k = Some s -> sessions d2 !! k = None -> s_ID s = s_ID sess) ->
  (rp_SessionCookie (an_Reply a) = Some "" -> forall k s, sessions d2 !! k = Some s -> ~ (s_ID s = s_ID sess /\ s_UserID s = u_ID user)) ->
  (forall k s, sessions d2 !! k = Some s -> sessions d1 !! k = Some s) ->
  match an_Location a with
  | Some (AtClient uri set) => (exists client cl, oauth_clients d !! client = Some cl /\ oc_Enabled cl = true /\
      registeredExactly (oc_PostLogoutRedirectURIs cl) uri = true) /\ forall k v, In (k, v) set -> k = "state"
  | _ => True
  end -> logged_out d (Some q) a d2.
Proof.
  intros Hok Ha Hm Hkeep Hgone Hsub Hl. pose proof (identified _ _ _ Ha) as [Hsame _]. split; [|split; [|exact Hl]].
  - intros k s Hk Hn. destruct (proj2 (Hsame k) (ex_intro _ s Hk)) as [s1 Hs1]. exists q, user, sess, d1. split_and!; try done.
    rewrite <- (Hkeep _ _ Hs1 Hn). symmetry. by apply (identified_keys _ _ _ Hok Ha).
  - intros Hc. exists user, sess, d1. split; [done|]. intros s Hs Hu. apply (Hgone Hc _ _ Hs). split; [|done].
    by apply (identified_keys _ _ _ Hok Ha), Hsub.
Qed.

Lemma end_outcome d user sess d1 q clientID client state : schema_ok d = true ->
  authenticate (session_cookie_hash rq) (sv_limits sv) now d = (Some (user, sess), d1) -> may_end d q user sess ->
  may_return d (value q "post_logout_redirect_uri") client ->
  run_sat (logout_answered d (Some q)) (end_session sv rq dr lid now user sess clientID (value q "post_logout_redirect_uri") state) d1.
Proof.
  intros Hok Ha Hm Hret. unfold end_session. apply sat_attempt. intros r d2 Hr.
  apply RevokeSession_ends in Hr as (Hkeep & Hgone & Hsub).
  destruct (finish_outcome client (value q "post_logout_redirect_uri") state d2 d Hret) as (a & Hf & _ & Hl).
  assert (r = inr tt \/ r = inl ErrNotFound -> run_sat (logout_answered d (Some q)) (clearSessionCookies (finishLogout (value q "post_logout_redirect_uri") state)) d2) as Hdone.
  { intros Hcase. unfold run_sat, clearSessionCookies. rewrite Hf. cbn [fst snd]. apply (ended_outcome d q user sess d1); try done. intros _. by apply Hgone. }
  destruct r as [e|[]]; [|apply Hdone; by left].
  destruct e; try (apply Hdone; by right); by apply (ended_outcome d q user sess d1).
Qed.

Lemma hint_may_end d d1 q user sess hint : same_logins d d1 ->
  (forall h, hint = Some h -> ParseIDTokenHint issuer (value q "id_token_hint") now = Some h) ->
  hintNamesSession hint (u_ID user) (s_ID sess) d1 = true -> may_end d q user sess.
Proof.
  intros (_ & _ & Hcs) Hh. unfold hintNamesSession, GetClientSession. destruct hint as [h|]; [|done]. destruct (_ || _) eqn:E; [done|]. rewrite Hcs.
  destruct (oidc_client_sessions d !! hint_SID h) as [cs|] eqn:Ec; [|done]. intros Hb. apply orb_false_iff in E as [E1 E2].
  apply streqb_false in E1. apply negb_false_iff, streqb_true in E2. bool_hyps. left. exists h, cs. split; [by apply Hh|]. done.
Qed.

Lemma confirm_may_end d d1 q user sess : authenticate (session_cookie_hash rq) (sv_limits sv) now d = (Some (user, sess), d1) ->
  csrfTokenMatchesSession sv dr (default "" (r_SessionCookie rq)) (value q "confirm") = true -> may_end d q user sess.
Proof.
  intros Ha Hc. right. unfold authenticate, session_cookie_hash in Ha. destruct (r_SessionCookie rq) as [[|c s]|] eqn:Ec; [done| |done].
  exists (String c s). split; [done|]. split; [done|]. cbn [default from_option] in Hc. unfold csrfTokenMatchesSession, IssueCSRFToken in Hc.
  apply andb_true_iff in Hc as [_ Hc]. apply streqb_true in Hc. symmetry. exact Hc.
Qed.

Lemma browser_outcome d who d1 q hint client cl clientID : schema_ok d = true -> authenticate (session_cookie_hash rq) (sv_limits sv) now d = (who, d1) ->
  (forall h, hint = Some h -> ParseIDTokenHint issuer (value q "id_token_hint") now = Some h) -> may_return d (value q "post_logout_redirect_uri") cl ->
  run_sat (logout_answered d (Some q)) (end_browser_session sv rq dr lid now who q hint client clientID) d1.
Proof.
  intros Hok Ha Hh Hret. pose proof (identified _ _ _ Ha) as Hsame. unfold end_browser_session. cbv zeta. destruct who as [[user sess]|].
  - apply run_sat_get. destruct (hintNamesSession _ _ _ _) eqn:En; [eapply end_outcome; try done; by eapply hint_may_end|].
    destruct (_ =?s ""); [by apply logged_out_kept|]. destruct (csrfTokenMatchesSession _ _ _ _) eqn:Et; [|by apply logged_out_kept].
    eapply end_outcome; try done. by eapply confirm_may_end.
  - destruct (_ =?s "POST"); [by apply logged_out_kept|].
    destruct (finish_outcome cl (value q "post_logout_redirect_uri") (value q "state") d1 d Hret) as (a & Hf & Hc & Hl).
    assert (logged_out d (Some q) a d1) as Ho.
    { split; [|split; [congruence|exact Hl]]. intros k s Hk Hn. exfalso. destruct (proj2 (proj1 Hsame k) (ex_intro _ s Hk)) as [x Hx]. congruence. }
    unfold run_sat, respond, logout_answered in *. destruct (finishLogout _ _ d1) as [[x|x] d2]; by injection Hf as -> ->.
Qed.

Lemma EndSession_outcome d limit form : schema_ok d = true -> run_sat (logout_answered d form) (EndSession sv issuer rq dr lid now limit form) d.
Proof.
  intros Hok. unfold EndSession. apply sat_plain; unfold identify; destruct (authenticate _ _ _ d) as [who d1] eqn:Ea; [done|].
  intros w d2 [= <- <-]. pose proof (identified _ _ _ Ea) as Hs. apply sat_guard; [by apply logged_out_kept|]. intros _.
  destruct form as [q|]; [|by apply logged_out_kept]. cbv zeta. destruct (_ || _); [by apply logged_out_kept|].
  apply run_sat_bind.
  { intros a d3. unfold logout_hint. destruct (_ =?s ""); [done|]. destruct (ParseIDTokenHint _ _ _); [destruct (_ || _); [done|]|]; intros [= <- <-]; by apply logged_out_kept. }
  intros hint d3 Hh. assert (d3 = d1 /\ forall h, hint = Some h -> ParseIDTokenHint issuer (value q "id_token_hint") now = Some h) as [-> Hhint].
  { unfold logout_hint in Hh. destruct (_ =?s ""); [by injection Hh as <- <-|]. destruct (ParseIDTokenHint _ _ _); [|done]. destruct (_ || _); [|done]. by injection Hh as <- <-. }
  clear Hh. set (clientID := match hint with Some h => _ | None => _ end). apply run_sat_bind.
  { intros a d3. unfold logout_client. destruct (_ =?s ""); [done|]. unfold run_bind, run_get. destruct (GetOAuthClientByID _ _) as [c|]; [destruct (oc_Enabled c); [done|]|];
      intros [= <- <-]; by apply logged_out_kept. }
  intros client d3 Hc. assert (d3 = d1 /\ forall c, client = Some c -> oauth_clients d !! clientID = Some c /\ oc_Enabled c = true) as [-> Hclient].
  { destruct Hs as (_ & Hcl & _). unfold logout_client in Hc. destruct (_ =?s ""); [by injection Hc as <- <-|]. unfold run_bind, run_get, GetOAuthClientByID in Hc. rewrite Hcl in Hc.
    destruct (oauth_clients d !! clientID) as [c|]; [|done]. destruct (oc_Enabled c) eqn:Een; [|done]. injection Hc as <- <-. split; [done|]. by intros ? [= <-]. }
  clear Hc. destruct (_ && _) eqn:Ev; [by apply logged_out_kept|].
  apply (browser_outcome d who d1 q hint client clientID clientID); try done.
  intros Hne. apply streqb_false in Hne. rewrite Hne in Ev. cbn in Ev. apply negb_false_iff in Ev. unfold ValidatePostLogoutRedirectURI in Ev.
  destruct client as [c|]; [|done]. destruct (Hclient c eq_refl). by exists c.
Qed.

(** C16. A logout request ends at most the session this browser is signed in
    with, and only on an ID token the server gave its client for exactly
    that login or on the confirmation bound to that session; cookies are
    cleared only when that session is gone; and the browser is sent on only
    to an address an enabled client registered for it, with nothing added
    but the state. *)
Theorem a_relying_party_ends_only_its_own_login d limit form a d' : schema_ok d = true ->
  respond (EndSession sv issuer rq dr lid now limit form) d = (a, d') ->
  (forall k s, sessions d !! k = Some s -> sessions d' !! k = None -> exists q user sess d1, form = Some q /\
     authenticate (session_cookie_hash rq) (sv_limits sv) now d = (Some (user, sess), d1) /\ k = s_ID sess /\ may_end d q user sess) /\
  (rp_SessionCookie (an_Reply a) = Some "" -> exists user sess d1,
     authenticate (session_cookie_hash rq) (sv_limits sv) now d = (Some (user, sess), d1) /\
     forall s, sessions d' !! s_ID sess = Some s -> s_UserID s <> u_ID user) /\
  (forall uri set, an_Location a = Some (AtClient uri set) -> (exists client cl, oauth_clients d !! client = Some cl /\ oc_Enabled cl = true /\
     registeredExactly (oc_PostLogoutRedirectURIs cl) uri = true) /\ forall k v, In (k, v) set -> k = "state").
Proof.
  intros Hok Hr. pose proof (EndSession_outcome d limit form Hok) as Ho. unfold run_sat, logout_answered, respond in *.
  destruct (EndSession sv issuer rq dr lid now limit form d) as [[x|x] d1]; injection Hr as -> ->; cbn [fst snd] in Ho; destruct Ho as (H1 & H2 & H3);
    (split; [exact H1|split; [exact H2|intros uri set E; by rewrite E in H3]]).
Qed.
End logout_facts.

(** *** Resuming *)

Lemma string_of_length l : String.length (string_of l) = length l.
Proof. induction l as [|c l IH]; [done|]. cbn. by rewrite IH. Qed.

Lemma hex_length l : length (hex_encode l) = (2 * length l)%nat.
Proof. unfold hex_encode. induction l as [|c l IH]; [done|]. cbn [map concat]. rewrite length_app, IH. cbn [length]. lia. Qed.

Section resume_facts.
Context `{Wire} `{Formats} (sv : Server) (rq : Request) (dr : WebDraws) (now : Z).

(** The interaction an answer sends the browser to sign in for. *)
Definition begun (q : Values) (a : Answer) (d' : DB) : Prop := forall raw, an_Location a = Some (AtLogin raw) ->
  raw = string_of (hex_encode (w_raw dr 32)) /\ exists i, authorization_interactions d' !! HashSHA256 raw = Some i /\ i_Request i = Encode q /\
    i_ClientID i = value q "client_id" /\ i_SessionID i = "" /\ i_CreatedAt i = now /\ i_ExpiresAt i = now + 5 * minute /\
    match an_BrowserCookie a with
    | None => i_BrowserHash i = authorizationBrowserHash sv rq
    | Some cookie => exists b, i_BrowserHash i = HashSHA256 b /\
        cookie = String.append b (String.append "." (SignHMACSHA256 (sv_csrfKey sv) (bytes_of (String.append "authorization-browser:" b))))
    end.

Definition begins (q : Values) (r : Answer + Answer) (d' : DB) : Prop := begun q (match r with inl a => a | inr a => a end) d'.

Lemma begins_away q r d' : (forall raw, an_Location (match r with inl a => a | inr a => a end) <> Some (AtLogin raw)) -> begins q r d'.
Proof. intros Hl raw Hr. by destruct (Hl raw). Qed.

Lemma error_begins q uri state code text d : run_sat (begins q) (redirectError (A := Answer) uri state code text) d.
Proof. unfold redirectError. destruct (url_parse uri); by apply begins_away. Qed.

Lemma deny_begins q user client uri state d : run_sat (begins q) (denyAccess sv rq dr now user client uri state) d.
Proof. unfold denyAccess. apply sat_plain; [done|]. intros e d1 _. cbv zeta. apply sat_observe. intros m p. apply error_begins. Qed.

Lemma interaction_stored i d u d' : CreateAuthorizationInteraction i now d = inr (u, d') ->
  authorization_interactions d' !! i_Hash i = Some (set_i_SessionID "" i).
Proof.
  unfold CreateAuthorizationInteraction. intros Hr. do 6 (apply tx_bind_inr in Hr as (? & ? & _ & Hr); cbv zeta in Hr).
  apply insert_row_inv in Hr as [_ ->]. apply lookup_insert_eq.
Qed.

Lemma begin_begins who q d : run_sat (begins q) (beginInteraction sv rq dr now who q) d.
Proof.
  unfold beginInteraction. cbv zeta. set (raw := string_of (hex_encode (w_raw dr 32))). set (b := string_of (hex_encode (w_raw dr 31))).
  set (cookie := if authorizationBrowserHash sv rq =?s "" then Some _ else None). set (i := MkAuthorizationInteraction _ _ _ _ _ _ _ _ _).
  assert (match cookie with
    | None => i_BrowserHash i = authorizationBrowserHash sv rq
    | Some cookie => exists b, i_BrowserHash i = HashSHA256 b /\
        cookie = String.append b (String.append "." (SignHMACSHA256 (sv_csrfKey sv) (bytes_of (String.append "authorization-browser:" b))))
    end) as Hb.
  { unfold cookie, i. cbn [i_BrowserHash]. destruct (_ =?s ""); [by exists b|done]. }
  enough (run_sat (fun r d' => let a := match r with inl a => a | inr a => a end in forall w, an_Location a = Some (AtLogin w) -> w = raw /\
    authorization_interactions d' !! HashSHA256 raw = Some i)
    (made <~ plain (attempt (commit (CreateAuthorizationInteraction i now))) ;;
     match made with
     | inl ErrAuthorizationInteraction => redirectError (value q "redirect_uri") (value q "state") "temporarily_unavailable"
        "Too many sign-in requests; wait a few minutes and restart"
     | inl _ => redirectError (value q "redirect_uri") (value q "state") "server_error" "Could not start sign-in"
     | inr _ => observe sv rq dr now 50 "oauth.interaction" (i_UserID i) "" (value q "client_id") "client" "success" [("reason", JStr "interaction_started")] ~;;
       run_fail (redirect 302 (AtLogin raw))
     end) d) as Hgo.
  { unfold run_sat, with_browser_cookie, respond in *. change (match who with Some (_, s) => s_UserID s | None => "" end) with (i_UserID i).
    destruct (run_bind _ _ d) as [[a|a] d'] eqn:Er; cbn [fst snd] in *; intros w Hw; cbn [an_Location] in Hw; destruct (Hgo w Hw) as [-> Hi];
      (split; [done|]; exists i; split; [exact Hi|]; by split_and!). }
  apply sat_attempt. intros r d2 Hm. assert (forall c s t, run_sat (fun r d' => let a := match r with inl a => a | inr a => a end in forall w, an_Location a = Some (AtLogin w) -> w = raw /\
    authorization_interactions d' !! HashSHA256 raw = Some i) (redirectError (A := Answer) (value q "redirect_uri") s c t) d2) as Herr.
  { intros c s t. unfold redirectError. by destruct (url_parse _). }
  destruct r as [e|u]; [by destruct e; apply Herr|]. apply sat_observe. intros m p. unfold run_sat. cbn [fst snd run_fail an_Location redirect]. intros w [= <-]. split; [done|].
  apply commit_inr in Hm. exact (interaction_stored _ _ _ _ Hm).
Qed.

Lemma user_begins user sess q a req granted i d : run_sat (begins q) (authorize_user sv rq dr now user sess q a req granted i) d.
Proof.
  unfold authorize_user. apply run_sat_get. destruct (SessionEnrollmentStatus _ _ _ _); [|apply error_begins].
  destruct (restricted _); [apply error_begins|]. destruct (u_PasswordChangeRequired _); [apply error_begins|].
  destruct (negb (ClientAccessAllowed _ _ _ _)); [apply deny_begins|]. destruct (negb (Satisfied _ _ _)); [destruct (_ || _); [apply error_begins|apply begin_begins]|].
  apply sat_attempt. intros r d2 _. destruct r as [e|code].
  - destruct e as [e| | | | | |]; try apply error_begins. destruct e; first [apply error_begins|apply deny_begins].
  - unfold deliver. apply sat_observe. intros m e. destruct (url_parse _); by apply begins_away.
Qed.

Lemma query_begins limit who q i d : run_sat (begins q) (authorize_query sv rq dr now limit who q i) d.
Proof.
  unfold authorize_query. cbv zeta. apply sat_guard; [by apply begins_away|]. intros _. apply sat_guard; [by apply begins_away|]. intros _. apply run_sat_get.
  apply sat_guard; [by apply begins_away|]. intros _. destruct (ValidateRedirectURI _ _).
  - unfold authorize_asked. destruct (negb limit); [apply error_begins|]. destruct (_ || _); [apply error_begins|]. apply run_sat_get.
    destruct (GrantedScope _ _ _); [apply error_begins|]. destruct (ParseAuthenticationRequest q); [|apply error_begins].
    destruct (ClientAuthenticationPolicyBinding _ _) as [|[? ?]]; [apply error_begins|]. cbv zeta.
    destruct who as [[user sess]|]; [apply user_begins|]. destruct (rq_Silent _); [apply error_begins|apply begin_begins].
  - apply sat_observe. intros m p. by apply begins_away.
Qed.

(** The query of a browser that comes back from signing in. *)
Definition interaction_query (raw : string) : gmap string (list string) := {["interaction" := [raw]]}.

Lemma interaction_query_get raw : value (interaction_query raw) "interaction" = raw /\
  default [] ((interaction_query raw : Values) !! "interaction") = [raw] /\ size (interaction_query raw : Values) = 1%nat.
Proof. split; [reflexivity|]. split; [reflexivity|]. apply map_size_singleton. Qed.

(** C17. An authorization request that waits for a sign-in is stored for this
    browser, for five minutes and proved by nobody, and the session that
    later signs in to it resumes with exactly the parameters the request
    had: what is written of the query reads back as it was. *)
Theorem a_resumed_request_is_the_one_begun limit query q d a d' raw : length (w_raw dr 32) = 32%nat ->
  ParseQuery query = Some q -> value q "interaction" = "" ->
  respond (Authorize sv rq dr now limit query) d = (a, d') -> an_Location a = Some (AtLogin raw) ->
  exists i, authorization_interactions d' !! HashSHA256 raw = Some i /\ i_ClientID i = value q "client_id" /\ i_SessionID i = "" /\
    i_CreatedAt i = now /\ i_ExpiresAt i = now + 5 * minute /\
    match an_BrowserCookie a with
    | None => i_BrowserHash i = authorizationBrowserHash sv rq
    | Some cookie => exists b, i_BrowserHash i = HashSHA256 b /\
        cookie = String.append b (String.append "." (SignHMACSHA256 (sv_csrfKey sv) (bytes_of (String.append "authorization-browser:" b))))
    end /\
    forall sv' rq' now' d2 user sess j, GetAuthorizationInteraction (HashSHA256 raw) (authorizationBrowserHash sv' rq') now' d2 = inr j ->
      i_Request j = i_Request i -> i_SessionID j = s_ID sess ->
      resume sv' rq' now' (Some (user, sess)) (interaction_query raw) d2 = (inr (q, HashSHA256 raw), d2).
Proof.
  intros Hlen Hq Hni Hr Hloc.
  assert (begun q a d') as Hb.
  { assert (run_sat (begins q) (Authorize sv rq dr now limit query) d) as Hs.
    { unfold Authorize. apply sat_plain; [intros r d1; unfold identify; by destruct (authenticate _ _ _ _)|]. intros who d1 _.
      apply sat_guard; [by apply begins_away|]. intros _. rewrite Hq. unfold resume. rewrite Hni. cbn [String.eqb]. apply run_sat_bind; [done|].
      intros r d2 [= <- _]. apply query_begins. }
    unfold run_sat, begins, respond in *. destruct (Authorize sv rq dr now limit query d) as [[x|x] d1]; injection Hr as -> ->; exact Hs. }
  destruct (Hb raw Hloc) as (Eraw & i & Hi & Hreq & Hcl & Hse & Hcr & Hex & Hbr). exists i. split; [done|]. do 5 (split; [done|]).
  intros sv' rq' now' d2 user sess j Hj Hjr Hjs.
  assert (String.length raw = 64%nat) as Hl by (subst raw; rewrite string_of_length, hex_length, Hlen; reflexivity).
  destruct (interaction_query_get raw) as (E1 & E2 & E3). unfold resume. rewrite E1, E2, E3, Hl. cbv zeta.
  destruct (raw =?s "") eqn:Er; [apply streqb_true in Er; rewrite Er in Hl; discriminate Hl|].
  unfold run_bind, plain, demand, run_guard, ask. cbn [length Nat.eqb andb].
  rewrite Hj, Hjs, streqb_refl, Hjr, Hreq, (parse_encode q (parsed_valued _ _ Hq)). reflexivity.
Qed.
End resume_facts.

(** ** Witnesses: bob's browser and the client whose callback is registered. *)

#[local] Existing Instances toy_wire toy_formats.

Definition site_client : OAuthClient :=
  MkOAuthClient "c1" "CRM" "confidential" (HashSHA256 "s3cret") (Some ["https://crm.example.org/cb"]) (Some ["openid"; "profile"])
    (Some ["https://crm.example.org/bye"]) "https://crm.example.org/logout" "" "" "" "" "" true t0.

Definition site_db : DB :=
  on_oauth_clients <["c1" := site_client]> (on_sessions <["s-bob" := sample_session "s-bob" "bob" (HashSHA256 "cookie")]> sample_db).

Definition browser (method path : string) (cookie : option string) : Request :=
  MkRequest method path "" toy_peer "agent" cookie None None "" "" "".

Definition authorize_text : string :=
  "client_id=c1&redirect_uri=https%3A%2F%2Fcrm.example.org%2Fcb&response_type=code&scope=openid&state=xyz&code_challenge=abc&code_challenge_method=S256".

Definition authorized : Answer * DB :=
  respond (Authorize toy_server (browser "GET" "/oauth/authorize" (Some "cookie")) toy_web_draws t0 true authorize_text) site_db.

Definition code_location (a : Answer) : option (string * list (string * string)) := match an_Location a with Some (AtClient uri set) => Some (uri, set) | _ => None end.

Lemma a_code_goes_only_to_its_client_witness : exists a d' code k row, authorized = (a, d') /\
  code_location a = Some ("https://crm.example.org/cb", [("code", code); ("state", "xyz")]) /\
  authorization_codes d' !! k = Some row /\ c_CodeHash row = HashSHA256 code /\ c_RedirectURI row = "https://crm.example.org/cb".
Proof.
  destruct authorized as [a d'] eqn:E.
  assert (code_location a = Some ("https://crm.example.org/cb", [("code", string_of (hex_encode (repeat 33 32))); ("state", "xyz")])) as Hl.
  { apply (f_equal (fun r => code_location r.1)) in E. cbn [fst] in E. rewrite <- E. vm_compute. reflexivity. }
  unfold authorized in E. apply (a_code_goes_only_to_its_client toy_server (browser "GET" "/oauth/authorize" (Some "cookie")) toy_web_draws t0) in E as [_ E];
    [|vm_compute; reflexivity].
  unfold code_location in Hl. destruct (an_Location a) as [[uri set| |]|] eqn:Ea; [|discriminate Hl..]. injection Hl as Eu Es.
  destruct (E uri set eq_refl) as (client & _ & Hc). destruct (Hc (string_of (hex_encode (repeat 33 32)))) as (k & row & Hk & _ & _ & Hh & _ & Hu); [rewrite Es; left; reflexivity|].
  exists a, d', (string_of (hex_encode (repeat 33 32))), k, row. split; [reflexivity|]. split; [unfold code_location; rewrite Ea, Eu, Es; reflexivity|].
  split; [exact Hk|]. split; [exact Hh|]. rewrite Hu. exact Eu.
Defined.

Definition logout_form (confirm : string) : Values :=
  <["client_id" := ["c1"]]> (<["post_logout_redirect_uri" := ["https://crm.example.org/bye"]]> (<["confirm" := [confirm]]> ∅)).

Definition signed_out (confirm : string) : Answer * DB :=
  respond (EndSession toy_server "https://id.example.org" (browser "POST" "/oauth/logout" (Some "cookie")) toy_web_draws (String.append "ld-") t0 true
    (Some (logout_form confirm))) site_db.

Lemma a_relying_party_ends_only_its_own_login_witness : exists a d', signed_out toy_token = (a, d') /\
  (forall s, sessions d' !! "s-bob" = Some s -> s_UserID s <> "bob") /\ code_location a = Some ("https://crm.example.org/bye", []).
Proof.
  destruct (signed_out toy_token) as [a d'] eqn:E.
  assert (rp_SessionCookie (an_Reply a) = Some "" /\ code_location a = Some ("https://crm.example.org/bye", [])) as [Hc Hl].
  { split; [apply (f_equal (fun r => rp_SessionCookie (an_Reply r.1))) in E|apply (f_equal (fun r => code_location r.1)) in E];
      cbn [fst] in E; rewrite <- E; vm_compute; reflexivity. }
  unfold signed_out in E. apply a_relying_party_ends_only_its_own_login in E as (_ & Hs & _); [|vm_compute; reflexivity].
  exists a, d'. split; [reflexivity|]. split; [|exact Hl]. destruct (Hs Hc) as (user & sess & d1 & Ha & Hgone).
  assert (u_ID user = "bob" /\ s_ID sess = "s-bob") as [Eu Es].
  { split; [apply (f_equal (fun r => match r.1 with Some (u, _) => u_ID u | None => "" end)) in Ha|
      apply (f_equal (fun r => match r.1 with Some (_, s) => s_ID s | None => "" end)) in Ha]; cbn [fst] in Ha; rewrite <- Ha; vm_compute; reflexivity. }
  rewrite Eu, Es in Hgone. exact Hgone.
Defined.

(** Without the confirmation, or with another one, nobody is signed out. *)
Example an_unproved_logout_asks_first :
  lv_Title <$> an_Page (signed_out "").1 = Some "Sign out of KySignOn?" /\ is_Some (sessions (signed_out "").2 !! "s-bob") /\
  rp_Status (an_Reply (signed_out "forged").1) = 403 /\ is_Some (sessions (signed_out "forged").2 !! "s-bob").
Proof. vm_compute. repeat split; eauto. Qed.

Definition login_location (a : Answer) : option string := match an_Location a with Some (AtLogin raw) => Some raw | _ => None end.

Definition asked_to_sign_in : Answer * DB :=
  respond (Authorize toy_server (browser "GET" "/oauth/authorize" None) toy_web_draws t0 true authorize_text) site_db.

Lemma a_resumed_request_is_the_one_begun_witness : exists a d' raw q i, asked_to_sign_in = (a, d') /\ login_location a = Some raw /\
  ParseQuery authorize_text = Some q /\ authorization_interactions d' !! HashSHA256 raw = Some i /\ i_ClientID i = value q "client_id".
Proof.
  destruct asked_to_sign_in as [a d'] eqn:E. destruct (ParseQuery authorize_text) as [q|] eqn:Eq; [|vm_compute in Eq; discriminate Eq].
  assert (login_location a = Some (string_of (hex_encode (repeat 32 32)))) as Hl.
  { apply (f_equal (fun r => login_location r.1)) in E. cbn [fst] in E. rewrite <- E. vm_compute. reflexivity. }
  assert (value q "interaction" = "") as Hn.
  { apply (f_equal (fun r => match r with Some q => value q "interaction" | None => "" end)) in Eq. rewrite <- Eq. vm_compute. reflexivity. }
  unfold asked_to_sign_in in E. unfold login_location in Hl. destruct (an_Location a) as [[|raw|]|] eqn:Ea; [discriminate Hl| |discriminate Hl..].
  destruct (a_resumed_request_is_the_one_begun toy_server (browser "GET" "/oauth/authorize" None) toy_web_draws t0 true authorize_text q site_db a d' raw
    eq_refl Eq Hn E Ea) as (i & Hi & Hcl & _).
  exists a, d', raw, q, i. split; [reflexivity|]. split; [unfold login_location; rewrite Ea; reflexivity|]. split; [reflexivity|]. split; [exact Hi|exact Hcl].
Defined.
