(* ===== verification/Routes.v ===== *)
(** The administrator's routes: the table of [api/server.go], the gate in front of
    every row and the handlers of [Admin], [Console] and [Account] behind it.

    A row is matched by method and pattern, as [http.ServeMux] does; a change, a
    link or a trial is a [ConsoleRequest] with what the router and the decoder
    give its handler. Every row that is no GET has one, but for the backup
    routes and the recovery evidence. *)
From S2P Require Import Prelude Schema Access Sample Sessions Tokens StepUp Outbox AppAccess Directory Crypto Requests OAuth ScimInbound Reconcile ReconcileJobs Mfa Alerts Net Dispatch Registry Factors Web Login Admin Console Account.

Open Scope string_scope.
Open Scope Z_scope.

Record AdminRoute := MkAdminRoute { rt_method : string; rt_path : string; rt_perm : permission; rt_stepUp : bool }.

(** [adminRoutes], row by row. *)
Definition adminRoutes : list AdminRoute :=
  [MkAdminRoute "GET" "/api/admin/enrollment-policies" permRead false;
   MkAdminRoute "POST" "/api/admin/enrollment-policies/preview" permAdmin false;
   MkAdminRoute "PUT" "/api/admin/enrollment-policies" permAdmin true;
   MkAdminRoute "GET" "/api/admin/groups" permDirectory false;
   MkAdminRoute "POST" "/api/admin/groups" permAdmin true;
   MkAdminRoute "PUT" "/api/admin/groups/{id}" permAdmin true;
   MkAdminRoute "DELETE" "/api/admin/groups/{id}" permAdmin true;
   MkAdminRoute "GET" "/api/admin/groups/{id}/members" permDirectory false;
   MkAdminRoute "PUT" "/api/admin/groups/{id}/members/{userId}" permAdmin true;
   MkAdminRoute "DELETE" "/api/admin/groups/{id}/members/{userId}" permAdmin true;
   MkAdminRoute "GET" "/api/admin/users" permDirectory false;
   MkAdminRoute "POST" "/api/admin/users" permAdmin true;
   MkAdminRoute "PUT" "/api/admin/users/{id}" permAdmin true;
   MkAdminRoute "POST" "/api/admin/users/{id}/reset-mfa" permRecovery true;
   MkAdminRoute "POST" "/api/admin/users/{id}/revoke-sessions" permRecovery false;
   MkAdminRoute "GET" "/api/admin/users/{id}/sessions" permUserRead false;
   MkAdminRoute "DELETE" "/api/admin/users/{id}/sessions/{sid}" permRecovery false;
   MkAdminRoute "POST" "/api/admin/users/{id}/apps/{clientId}/revoke" permRecovery false;
   MkAdminRoute "POST" "/api/admin/users/{id}/logouts/{deliveryId}/retry" permRecovery false;
   MkAdminRoute "GET" "/api/admin/users/{id}/offboarding" permUserRead false;
   MkAdminRoute "POST" "/api/admin/users/{id}/activation-link" permRecovery true;
   MkAdminRoute "POST" "/api/admin/users/{id}/reset-link" permRecovery true;
   MkAdminRoute "GET" "/api/admin/app-registry/{id}/roles" permAppRead false;
   MkAdminRoute "POST" "/api/admin/app-registry/{id}/roles" permAppGrants true;
   MkAdminRoute "DELETE" "/api/admin/app-registry/{id}/roles/{roleId}" permAppGrants true;
   MkAdminRoute "PUT" "/api/admin/app-registry/{id}/roles/{roleId}/assignments/{kind}/{principal}" permAppGrants true;
   MkAdminRoute "DELETE" "/api/admin/app-registry/{id}/roles/{roleId}/assignments/{kind}/{principal}" permAppGrants true;
   MkAdminRoute "PUT" "/api/admin/app-registry/{id}/claims" permAdmin true;
   MkAdminRoute "GET" "/api/admin/scim-connectors" permRead false;
   MkAdminRoute "POST" "/api/admin/scim-connectors" permAdmin true;
   MkAdminRoute "PUT" "/api/admin/scim-connectors/{id}" permAdmin true;
   MkAdminRoute "POST" "/api/admin/scim-connectors/{id}/tokens" permAdmin true;
   MkAdminRoute "DELETE" "/api/admin/scim-connectors/{id}/tokens/{tokenId}" permAdmin false;
   MkAdminRoute "DELETE" "/api/admin/scim-connectors/{id}" permAdmin true;
   MkAdminRoute "GET" "/api/admin/mail" permRead false;
   MkAdminRoute "PUT" "/api/admin/mail" permAdmin true;
   MkAdminRoute "POST" "/api/admin/mail/test" permAdmin false;
   MkAdminRoute "DELETE" "/api/admin/users/{id}" permAdmin true;
   MkAdminRoute "GET" "/api/admin/systems/{id}/deliveries" permRead false;
   MkAdminRoute "GET" "/api/admin/systems/{id}/deliveries/failing" permRead false;
   MkAdminRoute "POST" "/api/admin/systems/{id}/deliveries/{token}/read-back" permAdmin false;
   MkAdminRoute "POST" "/api/admin/systems/{id}/deliveries/{token}/resume" permAdmin true;
   MkAdminRoute "POST" "/api/admin/systems/{id}/deliveries/resume" permAdmin true;
   MkAdminRoute "GET" "/api/admin/systems/{id}/provisioning" permRead false;
   MkAdminRoute "POST" "/api/admin/systems/{id}/provisioning/{userId}/retry" permAdmin false;
   MkAdminRoute "GET" "/api/admin/systems/{id}/reconcile" permRead false;
   MkAdminRoute "POST" "/api/admin/systems/{id}/reconcile/preview" permAdmin false;
   MkAdminRoute "POST" "/api/admin/systems/{id}/reconcile/repair" permAdmin true;
   MkAdminRoute "GET" "/api/admin/systems" permRead false;
   MkAdminRoute "PUT" "/api/admin/systems/{id}/connection" permAdmin true;
   MkAdminRoute "POST" "/api/admin/systems/{id}/test" permAdmin false;
   MkAdminRoute "POST" "/api/admin/systems" permAdmin true;
   MkAdminRoute "POST" "/api/admin/systems/{id}/resync" permAdmin false;
   MkAdminRoute "POST" "/api/admin/systems/{id}/recovery-evidence" permAdmin true;
   MkAdminRoute "POST" "/api/admin/systems/{id}/provisioning/resume" permAdmin true;
   MkAdminRoute "DELETE" "/api/admin/systems/{id}" permAdmin true;
   MkAdminRoute "GET" "/api/admin/clients" permRead false;
   MkAdminRoute "POST" "/api/admin/clients" permAdmin true;
   MkAdminRoute "PUT" "/api/admin/clients/{id}" permAdmin true;
   MkAdminRoute "DELETE" "/api/admin/clients/{id}" permAdmin true;
   MkAdminRoute "PUT" "/api/admin/clients/{id}/launcher" permAdmin false;
   MkAdminRoute "GET" "/api/admin/app-registry/{id}/access-users" permAppRead false;
   MkAdminRoute "GET" "/api/admin/app-registry/{id}/access-groups" permAppRead false;
   MkAdminRoute "PUT" "/api/admin/app-registry/{id}/access-policy" permAdmin true;
   MkAdminRoute "PUT" "/api/admin/app-registry/{id}/assignments/{kind}/{principal}" permAppGrants true;
   MkAdminRoute "DELETE" "/api/admin/app-registry/{id}/assignments/{kind}/{principal}" permAppGrants true;
   MkAdminRoute "PUT" "/api/admin/app-registry/{id}/authentication-policy" permAdmin true;
   MkAdminRoute "GET" "/api/admin/app-registry" permDirectory false;
   MkAdminRoute "POST" "/api/admin/app-registry/{id}/link" permAdmin true;
   MkAdminRoute "POST" "/api/admin/app-registry/{id}/unlink" permAdmin true;
   MkAdminRoute "GET" "/api/admin/applications" permRead false;
   MkAdminRoute "POST" "/api/admin/applications" permAdmin false;
   MkAdminRoute "PUT" "/api/admin/applications/{id}" permAdmin false;
   MkAdminRoute "DELETE" "/api/admin/applications/{id}" permAdmin false;
   MkAdminRoute "POST" "/api/admin/icons" permAdmin false;
   MkAdminRoute "GET" "/api/admin/audit-events" permRead false;
   MkAdminRoute "GET" "/api/admin/audit-events/export" permRead false;
   MkAdminRoute "GET" "/api/admin/alerts" permRead false;
   MkAdminRoute "POST" "/api/admin/alerts/{id}/acknowledge" permAdmin false;
   MkAdminRoute "GET" "/api/admin/alerts/settings" permRead false;
   MkAdminRoute "PUT" "/api/admin/alerts/settings" permAdmin true;
   MkAdminRoute "GET" "/api/admin/attestation/settings" permRead false;
   MkAdminRoute "PUT" "/api/admin/attestation/settings" permAdmin true;
   MkAdminRoute "PUT" "/api/admin/branding/name" permAdmin false;
   MkAdminRoute "PUT" "/api/admin/branding/logo" permAdmin false;
   MkAdminRoute "DELETE" "/api/admin/branding/logo" permAdmin false;
   MkAdminRoute "GET" "/api/admin/session-settings" permRead false;
   MkAdminRoute "PUT" "/api/admin/session-settings" permAdmin true;
   MkAdminRoute "POST" "/api/admin/backup/drill" permAdmin false;
   MkAdminRoute "GET" "/api/admin/backup/export-capsule" permAdmin true;
   MkAdminRoute "POST" "/api/admin/backup/pair-remote" permAdmin true;
   MkAdminRoute "POST" "/api/admin/backup/deposit" permAdmin false;
   MkAdminRoute "DELETE" "/api/admin/backup/pairing" permAdmin true;
   MkAdminRoute "POST" "/api/admin/backup/pin-key" permAdmin true;
   MkAdminRoute "PUT" "/api/admin/backup/schedule" permAdmin true;
   MkAdminRoute "GET" "/api/admin/backup/status" permRead false;
   MkAdminRoute "GET" "/api/admin/users/{id}/delegations" permAdmin false;
   MkAdminRoute "PUT" "/api/admin/users/{id}/delegations" permAdmin true;
   MkAdminRoute "PUT" "/api/admin/app-registry/{id}/requestable" permAdmin true;
   MkAdminRoute "GET" "/api/admin/app-registry/{id}/access-users/{userId}/explain" permAppRead false;
   MkAdminRoute "GET" "/api/admin/access-requests" permRequests false;
   MkAdminRoute "POST" "/api/admin/access-requests/{id}/approve" permRequests true;
   MkAdminRoute "POST" "/api/admin/access-requests/{id}/deny" permRequests true].

Definition route_of (method path : string) : option AdminRoute :=
  List.find (fun r => (rt_path r =?s path) && (rt_method r =?s method)) adminRoutes.

(** ** Changes *)

Inductive ConsoleRequest :=
| RCreateUser (body : option CreateUserRequest)
| RUpdateUser (body : option UpdateUserRequest)
| RResetUserMFA
| RRevokeUserSessions
| RDeleteUser
| RRevokeSession (sid : string)
| RRevokeApp (client : string)
| RRetryLogout (delivery : string)
| RSetDelegations (body : option Delegations)
| RCreateGroup (body : option GroupRequest)
| RUpdateGroup (body : option GroupRequest)
| RDeleteGroup
| RSetGroupMembership (userID : string) (body : option string)
| RSetEnrollmentPolicy (body : option EnrollmentRequest)
| RCreateAppRole (body : option (string * string))
| RDeleteAppRole (role : string)
| RSetAppRoleAssignment (role kind principal : string)
| RSetAppClaimSettings (body : option ClaimsRequest)
| RSetAppPolicy (body : option PolicyRequest)
| RSetAppAssignment (kind principal : string) (body : option string)
| RSetAppAuthenticationPolicy (body : option (option AppAuthenticationPolicy * Z))
| RSetAppRequestable (body : option (option bool * Z))
| RLinkAppRecords (body : option LinkRequest)
| RUnlinkAppRecord (body : option (string * Z))
| RDecide (approve : bool) (body : option string)
| RCreateConnector (body : option string)
| RUpdateConnector (body : option (string * string))
| RIssueConnectorToken (body : option string)
| RRevokeConnectorToken (token : string)
| RDeleteConnector (body : option string)
| RResumeSyncDelivery (token : string) (sent : list Exchange) (body : option ResumeRequest)
| RResumeSyncDeliveries (body : option ResumeRequest)
| RRetryProvisioning (userID : string)
| RResumeProvisioning
| RStartReconcile (repair : bool)
| RConfigureSystem (body : option ConfigureRequest)
| RCreateSystem (body : option CreateSystemRequest)
| RResyncSystem
| RDeleteSystem
| RCreateClient (body : option CreateClientRequest)
| RUpdateClient (body : option UpdateClientRequest)
| RDeleteClient
| RUpdateClientLauncher (body : option LauncherRequest)
| RCreateApplication (body : option CardRequest)
| RUpdateApplication (body : option CardRequest)
| RDeleteApplication
| RUploadIcon (body : option (list Z)) (declared : string)
| RAcknowledgeAlert
| RPutAlertSettings (body : option AlertSettings)
| RPutAttestation (body : option (option bool))
| RPutSessionLimits (body : option SessionLimits)
| RPutBrandingName (body : option (option string))
| RPutBrandingLogo (body : option (list Z))
| RDeleteBrandingLogo
| RPutMail (body : option MailSettings)
| RIssueLink (activation : bool) (body : option bool)
| RPreviewPolicy (body : option EnrollmentRequest)
| RTestMail
| RTestSystem (sent : list Exchange)
| RReadBack (token : string) (sent : list Exchange).

Section routes.
Context `{Codec} `{Primitives} `{AEAD} `{Far} `{Formats} `{Unicode} `{Images} `{Mailing}.
Context (sv : Server) (rq : Request) (dr : WebDraws) (AllowPrivate AllowLoopback : bool) (encryptionKey : list Z) (issuerURL date : string).
Context (lid : string -> string) (eid again : string -> string -> string) (now : Z).

(** Its method and pattern; a membership or an assignment is put or deleted. *)
Definition pattern_of (q : ConsoleRequest) : string * string :=
  match q with
  | RCreateUser _ => ("POST", "/api/admin/users")
  | RUpdateUser _ => ("PUT", "/api/admin/users/{id}")
  | RResetUserMFA => ("POST", "/api/admin/users/{id}/reset-mfa")
  | RRevokeUserSessions => ("POST", "/api/admin/users/{id}/revoke-sessions")
  | RDeleteUser => ("DELETE", "/api/admin/users/{id}")
  | RRevokeSession _ => ("DELETE", "/api/admin/users/{id}/sessions/{sid}")
  | RRevokeApp _ => ("POST", "/api/admin/users/{id}/apps/{clientId}/revoke")
  | RRetryLogout _ => ("POST", "/api/admin/users/{id}/logouts/{deliveryId}/retry")
  | RSetDelegations _ => ("PUT", "/api/admin/users/{id}/delegations")
  | RCreateGroup _ => ("POST", "/api/admin/groups")
  | RUpdateGroup _ => ("PUT", "/api/admin/groups/{id}")
  | RDeleteGroup => ("DELETE", "/api/admin/groups/{id}")
  | RSetGroupMembership _ _ => (r_Method rq, "/api/admin/groups/{id}/members/{userId}")
  | RSetEnrollmentPolicy _ => ("PUT", "/api/admin/enrollment-policies")
  | RCreateAppRole _ => ("POST", "/api/admin/app-registry/{id}/roles")
  | RDeleteAppRole _ => ("DELETE", "/api/admin/app-registry/{id}/roles/{roleId}")
  | RSetAppRoleAssignment _ _ _ => (r_Method rq, "/api/admin/app-registry/{id}/roles/{roleId}/assignments/{kind}/{principal}")
  | RSetAppClaimSettings _ => ("PUT", "/api/admin/app-registry/{id}/claims")
  | RSetAppPolicy _ => ("PUT", "/api/admin/app-registry/{id}/access-policy")
  | RSetAppAssignment _ _ _ => (r_Method rq, "/api/admin/app-registry/{id}/assignments/{kind}/{principal}")
  | RSetAppAuthenticationPolicy _ => ("PUT", "/api/admin/app-registry/{id}/authentication-policy")
  | RSetAppRequestable _ => ("PUT", "/api/admin/app-registry/{id}/requestable")
  | RLinkAppRecords _ => ("POST", "/api/admin/app-registry/{id}/link")
  | RUnlinkAppRecord _ => ("POST", "/api/admin/app-registry/{id}/unlink")
  | RDecide approve body => ("POST", (if approve then "/api/admin/access-requests/{id}/approve" else "/api/admin/access-requests/{id}/deny"))
  | RCreateConnector _ => ("POST", "/api/admin/scim-connectors")
  | RUpdateConnector _ => ("PUT", "/api/admin/scim-connectors/{id}")
  | RIssueConnectorToken _ => ("POST", "/api/admin/scim-connectors/{id}/tokens")
  | RRevokeConnectorToken _ => ("DELETE", "/api/admin/scim-connectors/{id}/tokens/{tokenId}")
  | RDeleteConnector _ => ("DELETE", "/api/admin/scim-connectors/{id}")
  | RResumeSyncDelivery _ _ _ => ("POST", "/api/admin/systems/{id}/deliveries/{token}/resume")
  | RResumeSyncDeliveries _ => ("POST", "/api/admin/systems/{id}/deliveries/resume")
  | RRetryProvisioning _ => ("POST", "/api/admin/systems/{id}/provisioning/{userId}/retry")
  | RResumeProvisioning => ("POST", "/api/admin/systems/{id}/provisioning/resume")
  | RStartReconcile repair => ("POST", (if repair then "/api/admin/systems/{id}/reconcile/repair" else "/api/admin/systems/{id}/reconcile/preview"))
  | RConfigureSystem _ => ("PUT", "/api/admin/systems/{id}/connection")
  | RCreateSystem _ => ("POST", "/api/admin/systems")
  | RResyncSystem => ("POST", "/api/admin/systems/{id}/resync")
  | RDeleteSystem => ("DELETE", "/api/admin/systems/{id}")
  | RCreateClient _ => ("POST", "/api/admin/clients")
  | RUpdateClient _ => ("PUT", "/api/admin/clients/{id}")
  | RDeleteClient => ("DELETE", "/api/admin/clients/{id}")
  | RUpdateClientLauncher _ => ("PUT", "/api/admin/clients/{id}/launcher")
  | RCreateApplication _ => ("POST", "/api/admin/applications")
  | RUpdateApplication _ => ("PUT", "/api/admin/applications/{id}")
  | RDeleteApplication => ("DELETE", "/api/admin/applications/{id}")
  | RUploadIcon _ _ => ("POST", "/api/admin/icons")
  | RAcknowledgeAlert => ("POST", "/api/admin/alerts/{id}/acknowledge")
  | RPutAlertSettings _ => ("PUT", "/api/admin/alerts/settings")
  | RPutAttestation _ => ("PUT", "/api/admin/attestation/settings")
  | RPutSessionLimits _ => ("PUT", "/api/admin/session-settings")
  | RPutBrandingName _ => ("PUT", "/api/admin/branding/name")
  | RPutBrandingLogo _ => ("PUT", "/api/admin/branding/logo")
  | RDeleteBrandingLogo => ("DELETE", "/api/admin/branding/logo")
  | RPutMail _ => ("PUT", "/api/admin/mail")
  | RIssueLink activation _ => ("POST", (if activation then "/api/admin/users/{id}/activation-link" else "/api/admin/users/{id}/reset-link"))
  | RPreviewPolicy _ => ("POST", "/api/admin/enrollment-policies/preview")
  | RTestMail => ("POST", "/api/admin/mail/test")
  | RTestSystem _ => ("POST", "/api/admin/systems/{id}/test")
  | RReadBack _ _ => ("POST", "/api/admin/systems/{id}/deliveries/{token}/read-back")
  end.

(** The limits handler also answers what the server's memory holds. *)
Definition answered_settings (m : DB -> Reply * (DB * option SessionLimits)) : Handler Reply := fun d =>
  let '(r, (d, _)) := m d in (if rp_Status r =? 200 then inr r else inl r, d).

Definition handler_of (user : User) (sess : Session) (q : ConsoleRequest) : Handler Reply :=
  match q with
  | RCreateUser body => Admin.CreateUser sv rq dr eid now user body
  | RUpdateUser body => Admin.UpdateUser sv rq dr lid eid now user body
  | RResetUserMFA => Admin.ResetUserMFA sv rq dr lid eid now user
  | RRevokeUserSessions => Admin.RevokeUserSessions sv rq dr lid now user
  | RDeleteUser => Admin.DeleteUser sv rq dr lid eid now user
  | RRevokeSession sid => AdminRevokeSession sv rq dr lid now user sid
  | RRevokeApp client => AdminRevokeApp sv rq dr lid now user client
  | RRetryLogout delivery => AdminRetryLogout sv rq dr now user delivery
  | RSetDelegations body => Console.SetDelegations sv rq dr now user body
  | RCreateGroup body => Console.CreateGroup sv rq dr eid now user body
  | RUpdateGroup body => Console.UpdateGroup sv rq dr eid now user body
  | RDeleteGroup => Console.DeleteGroup sv rq dr lid eid now user sess
  | RSetGroupMembership userID body => Console.SetGroupMembership sv rq dr lid eid now user sess userID body
  | RSetEnrollmentPolicy body => Console.SetEnrollmentPolicy sv rq dr now user sess body
  | RCreateAppRole body => Console.CreateAppRole sv rq dr eid now user body
  | RDeleteAppRole role => Console.DeleteAppRole sv rq dr eid now user role
  | RSetAppRoleAssignment role kind principal => Console.SetAppRoleAssignment sv rq dr eid now user role kind principal
  | RSetAppClaimSettings body => Console.SetAppClaimSettings sv rq dr now user body
  | RSetAppPolicy body => Console.SetAppPolicy sv rq dr lid eid now user body
  | RSetAppAssignment kind principal body => Console.SetAppAssignment sv rq dr lid eid now user kind principal body
  | RSetAppAuthenticationPolicy body => Console.SetAppAuthenticationPolicy sv rq dr now user body
  | RSetAppRequestable body => Console.SetAppRequestable sv rq dr now user body
  | RLinkAppRecords body => Console.LinkAppRecords sv rq dr eid now user body
  | RUnlinkAppRecord body => Console.UnlinkAppRecord sv rq dr eid now user body
  | RDecide approve body => Console.Decide sv rq dr lid eid now user approve body
  | RCreateConnector body => Scim_AdminCreate sv rq dr now user body
  | RUpdateConnector body => Scim_AdminUpdate sv rq dr now user body
  | RIssueConnectorToken body => Scim_AdminIssueToken sv rq dr now user body
  | RRevokeConnectorToken token => Scim_AdminRevokeToken sv rq dr now user token
  | RDeleteConnector body => Scim_AdminDelete sv rq dr lid eid now user body
  | RResumeSyncDelivery token sent body => Console.ResumeSyncDelivery sv rq dr encryptionKey now user token sent body
  | RResumeSyncDeliveries body => Console.ResumeSyncDeliveries sv rq dr now user body
  | RRetryProvisioning userID => Console.RetryProvisioning sv rq dr eid now user userID
  | RResumeProvisioning => Console.ResumeProvisioning sv rq dr now user
  | RStartReconcile repair => startReconcile sv rq dr now user (if repair then "repair" else "preview")
  | RConfigureSystem body => Admin.ConfigureSystem sv rq dr encryptionKey eid now user body
  | RCreateSystem body => Admin.CreatePairedSystem sv rq dr AllowPrivate AllowLoopback encryptionKey now user body
  | RResyncSystem => Admin.ResyncSystem sv rq dr eid again now user
  | RDeleteSystem => Admin.DeletePairedSystem sv rq dr now user
  | RCreateClient body => Admin.CreateOAuthClient sv rq dr AllowPrivate AllowLoopback now user body
  | RUpdateClient body => Admin.UpdateOAuthClient sv rq dr AllowPrivate AllowLoopback eid now user body
  | RDeleteClient => Admin.DeleteOAuthClient sv rq dr eid now user
  | RUpdateClientLauncher body => Admin.UpdateClientLauncher sv rq dr eid now user body
  | RCreateApplication body => Admin.CreateApplication sv rq dr now user body
  | RUpdateApplication body => Admin.UpdateApplication sv rq dr now user body
  | RDeleteApplication => Admin.DeleteApplication sv rq dr now user
  | RUploadIcon body declared => Admin.UploadIcon sv rq dr now user body declared
  | RAcknowledgeAlert => Console.AcknowledgeAlert sv rq dr now user
  | RPutAlertSettings body => Alert_PutSettings sv rq dr now user body
  | RPutAttestation body => Attestation_Put sv rq dr now user body
  | RPutSessionLimits body => answered_settings (SessionSettings_Put sv rq dr lid now user body)
  | RPutBrandingName body => PutName sv rq dr now user body
  | RPutBrandingLogo body => PutLogo sv rq dr now user body
  | RDeleteBrandingLogo => DeleteLogo sv rq dr now user
  | RPutMail body => PutMail sv rq dr encryptionKey now user body
  | RIssueLink activation body => AdminIssueLink sv rq dr encryptionKey issuerURL date now (if activation then "activation" else "reset") user body
  | RPreviewPolicy body => Console.PreviewEnrollmentPolicy sv rq dr now user sess body
  | RTestMail => TestMail sv rq dr encryptionKey date now user
  | RTestSystem sent => Admin.TestSystem sv rq dr encryptionKey now user sent
  | RReadBack token sent => Console.ReadBackSyncDelivery sv rq dr encryptionKey now user token sent
  end.

(** The action the audit trail names it by. *)
Definition action_of (q : ConsoleRequest) : string :=
  match q with
  | RCreateUser _ => "admin.user_created"
  | RUpdateUser _ => "admin.user_updated"
  | RResetUserMFA => "admin.user_mfa_reset"
  | RRevokeUserSessions => "admin.sessions_revoked"
  | RDeleteUser => "admin.user_deleted"
  | RRevokeSession _ => "admin.session_revoked"
  | RRevokeApp _ => "admin.app_access_revoked"
  | RRetryLogout _ => "admin.logout_retry"
  | RSetDelegations _ => "admin.delegations_updated"
  | RCreateGroup _ => "admin.group_created"
  | RUpdateGroup _ => "admin.group_updated"
  | RDeleteGroup => "admin.group_deleted"
  | RSetGroupMembership _ _ => if r_Method rq =?s "PUT" then "admin.group_member_added" else "admin.group_member_removed"
  | RSetEnrollmentPolicy _ => "admin.mfa_enrollment_policy_changed"
  | RCreateAppRole _ => "admin.app_role_created"
  | RDeleteAppRole _ => "admin.app_role_deleted"
  | RSetAppRoleAssignment _ _ _ => if r_Method rq =?s "PUT" then "admin.app_role_mapped" else "admin.app_role_unmapped"
  | RSetAppClaimSettings _ => "admin.app_claims_changed"
  | RSetAppPolicy _ => "admin.app_access_changed"
  | RSetAppAssignment _ _ _ => if r_Method rq =?s "PUT" then "admin.app_assignment_added" else "admin.app_assignment_removed"
  | RSetAppAuthenticationPolicy _ => "admin.app_authentication_changed"
  | RSetAppRequestable _ => "admin.app_requestable_changed"
  | RLinkAppRecords _ => "admin.app_linked"
  | RUnlinkAppRecord _ => "admin.app_unlinked"
  | RDecide approve body => if approve then "access.request_approved" else "access.request_denied"
  | RCreateConnector _ => "admin.scim_connector_created"
  | RUpdateConnector _ => "admin.scim_connector_updated"
  | RIssueConnectorToken _ => "admin.scim_token_issued"
  | RRevokeConnectorToken _ => "admin.scim_token_revoked"
  | RDeleteConnector _ => "admin.scim_connector_deleted"
  | RResumeSyncDelivery _ _ _ => "admin.sync_delivery_resumed"
  | RResumeSyncDeliveries _ => "admin.sync_deliveries_resumed"
  | RRetryProvisioning _ => "admin.provisioning_retried"
  | RResumeProvisioning => "admin.provisioning_resumed"
  | RStartReconcile _ => "admin.reconcile_requested"
  | RConfigureSystem _ => "admin.system_configured"
  | RCreateSystem _ => "admin.system_created"
  | RResyncSystem => "admin.system_resynced"
  | RDeleteSystem => "admin.system_deleted"
  | RCreateClient _ => "admin.oauth_client_created"
  | RUpdateClient _ => "admin.oauth_client_updated"
  | RDeleteClient => "admin.oauth_client_deleted"
  | RUpdateClientLauncher _ => "admin.client_launcher_updated"
  | RCreateApplication _ => "admin.application_created"
  | RUpdateApplication _ => "admin.application_updated"
  | RDeleteApplication => "admin.application_deleted"
  | RUploadIcon _ _ => "admin.icon_uploaded"
  | RAcknowledgeAlert => "admin.alert_acknowledged"
  | RPutAlertSettings _ => "admin.alerts_configured"
  | RPutAttestation _ => "admin.attestation_configured"
  | RPutSessionLimits _ => "admin.session_limits_configured"
  | RPutBrandingName _ => "admin.branding_name_changed"
  | RPutBrandingLogo _ => "admin.branding_logo_uploaded"
  | RDeleteBrandingLogo => "admin.branding_logo_removed"
  | RPutMail _ => "admin.mail_configured"
  | RIssueLink _ _ => "admin.account_link_issued"
  | RPreviewPolicy _ => "admin.mfa_enrollment_policy_previewed"
  | RTestMail => "admin.mail_tested"
  | RTestSystem _ => "admin.system_tested"
  | RReadBack _ _ => "admin.sync_delivery_read_back"
  end.

(** [mux.Handle(..., s.require(rt.perm, rt.stepUp, rt.h))] *)
Definition console (q : ConsoleRequest) : Handler Reply :=
  match route_of (pattern_of q).1 (pattern_of q).2 with
  | None => run_fail not_found_page
  | Some r => require sv rq dr now (rt_perm r) (rt_stepUp r) (fun user sess _ => handler_of user sess q)
  end.
End routes.

(** ** Facts *)

Section gate_answers.
Context (sv : Server) (rq : Request) (dr : WebDraws) (now : Z).

(** The gate's own answers. *)
Definition turns_away {A} (m : Handler A) : Prop := forall d rep d', m d = (inl rep, d') -> In (rp_Status rep) [401; 403; 500].

Lemma away_bind {A B} (m : Handler A) (k : A -> Handler B) : turns_away m -> (forall a, turns_away (k a)) -> turns_away (run_bind m k).
Proof. intros Hm Hk d r d'. unfold run_bind. destruct (m d) as [[e|a] d1] eqn:E; [intros [= -> ->]; by eapply Hm|apply Hk]. Qed.
Lemma away_ret {A} (a : A) : turns_away (run_ret a : Handler A).
Proof. by intros d r d'. Qed.
Lemma away_fail {A} rep : In (rp_Status rep) [401; 403; 500] -> turns_away (run_fail rep : Handler A).
Proof. by intros Hr d r d' [= <- _]. Qed.
Lemma away_demand b status code : In status [401; 403; 500] -> turns_away (demand b status code).
Proof. intros Hs d r d'. unfold demand, run_guard. destruct b; [done|]. by intros [= <- _]. Qed.

Lemma gate_status p stepUp d rep d' : admin_gate sv rq dr now p stepUp d = (inl rep, d') -> In (rp_Status rep) [401; 403; 500].
Proof.
  revert d rep d'. change (turns_away (admin_gate sv rq dr now p stepUp)). unfold admin_gate. apply away_bind.
  - unfold auth_gate. apply away_bind; [intros d r d'; unfold identify; by destruct (authenticate _ _ _ _)|]. intros [[user sess]|]; [|apply away_fail; cbn; tauto].
    apply away_bind; [by intros d r d'|]. intros d. destruct (SessionEnrollmentStatus _ _ _ _); [|apply away_fail; cbn; tauto].
    do 2 (apply away_bind; [apply away_demand; cbn; tauto|intros _]). apply away_ret.
  - intros who. apply away_bind; [by intros d r d'|]. intros d. do 2 (apply away_bind; [apply away_demand; cbn; tauto|intros _]).
    apply away_bind; [|intros _; apply away_ret]. destruct stepUp; [|apply away_ret].
    intros d1 r d'. unfold spend_step_up. destruct (consume_grant _ _ _ _ _) as [[|] ?]; [done|]. intros [= <- _]. cbn. tauto.
Qed.

End gate_answers.

Section route_facts.
Context `{Codec} `{Primitives} `{AEAD} `{Far} `{Formats} `{Unicode} `{Images} `{Mailing}.
Context (sv : Server) (rq : Request) (dr : WebDraws) (AllowPrivate AllowLoopback : bool) (encryptionKey : list Z) (issuerURL date : string).
Context (lid : string -> string) (eid again : string -> string -> string) (now : Z).
Notation console := (console sv rq dr AllowPrivate AllowLoopback encryptionKey issuerURL date lid eid again now).
Notation handler_of := (handler_of sv rq dr AllowPrivate AllowLoopback encryptionKey issuerURL date lid eid again now).
Notation pattern_of := (pattern_of rq).
Notation action_of := (action_of rq).
Notation gate r := (admin_gate sv rq dr now (rt_perm r) (rt_stepUp r)).

Lemma settled_session_limits user body : settled sv rq dr user "admin.session_limits_configured"
  (answered_settings (SessionSettings_Put sv rq dr lid now user body)).
Proof.
  intros d. unfold answered_settings. destruct (SessionSettings_Put sv rq dr lid now user body d) as [r [d' cache]] eqn:E.
  apply settled_SessionSettings_Put in E. destruct (Z.eqb_spec (rp_Status r) 200); by split.
Qed.

(** The requests that look at something, or try it, and change nothing. *)
Definition probes (q : ConsoleRequest) : bool :=
  match q with RPreviewPolicy _ | RTestMail | RTestSystem _ | RReadBack _ _ => true | _ => false end.
Definition issues_link (q : ConsoleRequest) : bool := match q with RIssueLink _ _ => true | _ => false end.

Lemma probes_are_calm user sess q : probes q = true -> calm (handler_of user sess q).
Proof.
  destruct q; try discriminate 1; intros _;
    [apply calm_PreviewEnrollmentPolicy|apply calm_TestMail|apply calm_TestSystem|apply calm_ReadBackSyncDelivery].
Qed.

Lemma links_settle user sess q : issues_link q = true -> link_settled sv rq dr user (handler_of user sess q).
Proof. destruct q; try discriminate 1; intros _. apply settled_AdminIssueLink. Qed.

Lemma handlers_settle user sess q : probes q = false -> issues_link q = false -> settled sv rq dr user (action_of q) (handler_of user sess q).
Proof.
  destruct q; try discriminate 1; intros _; try discriminate 1; intros _;
  [apply settled_CreateUser|apply settled_UpdateUser|apply settled_ResetUserMFA|apply settled_RevokeUserSessions|apply settled_DeleteUser|
  apply settled_AdminRevokeSession|apply settled_AdminRevokeApp|apply settled_AdminRetryLogout|apply settled_SetDelegations|
  apply (settled_saveGroup sv rq dr eid now user body true)|apply (settled_saveGroup sv rq dr eid now user body false)|apply settled_DeleteGroup|
  apply settled_SetGroupMembership|apply settled_SetEnrollmentPolicy|apply settled_CreateAppRole|apply settled_DeleteAppRole|
  apply settled_SetAppRoleAssignment|apply settled_SetAppClaimSettings|apply settled_SetAppPolicy|apply settled_SetAppAssignment|
  apply settled_SetAppAuthenticationPolicy|apply settled_SetAppRequestable|apply settled_LinkAppRecords|apply settled_UnlinkAppRecord|
  apply settled_Decide|apply settled_Scim_AdminCreate|apply settled_Scim_AdminUpdate|apply settled_Scim_AdminIssueToken|
  apply settled_Scim_AdminRevokeToken|apply settled_Scim_AdminDelete|apply settled_ResumeSyncDelivery|apply settled_ResumeSyncDeliveries|
  apply settled_RetryProvisioning|apply settled_ResumeProvisioning|apply settled_startReconcile|apply settled_ConfigureSystem|
  apply settled_CreatePairedSystem|apply settled_ResyncSystem|apply settled_DeletePairedSystem|apply settled_CreateOAuthClient|
  apply settled_UpdateOAuthClient|apply settled_DeleteOAuthClient|apply settled_UpdateClientLauncher|apply settled_CreateApplication|
  apply settled_UpdateApplication|apply settled_DeleteApplication|apply settled_UploadIcon|apply settled_AcknowledgeAlert|
  apply settled_Alert_PutSettings|apply settled_Attestation_Put|apply settled_session_limits|apply settled_PutName|apply settled_PutLogo|
  apply settled_DeleteLogo|apply settled_PutMail].
Qed.

(** Answered with success or, of a link, with a failed delivery. *)
Definition written (q : ConsoleRequest) (status : Z) : bool := negb (probes q) && ((status =? 200) || (issues_link q && (status =? 502))).

Lemma handlers_answer user sess q d rep d' : serve (handler_of user sess q) d = (rep, d') ->
  if written q (rp_Status rep) then logged sv rq dr user (action_of q) d' else untouched d d'.
Proof.
  unfold written, serve. destruct (probes q) eqn:Ep; cbn [negb andb].
  { pose proof (probes_are_calm user sess q Ep d) as Hc. destruct (handler_of user sess q d) as [[r|r] d1]; intros [= <- <-]; [apply Hc|exact Hc]. }
  destruct (issues_link q) eqn:El; cbn [andb]; [|rewrite orb_false_r; intros Hs; exact (settled_serve sv rq dr user (action_of q) _ _ _ _ (handlers_settle user sess q Ep El) Hs)].
  assert (action_of q = "admin.account_link_issued") as -> by (by destruct q).
  pose proof (links_settle user sess q El d) as Hl. destruct (handler_of user sess q d) as [[r|r] d1]; intros [= <- <-]; destruct Hl as [Hs Hl].
  - replace (rp_Status r =? 200) with false by lia. exact Hl.
  - replace (rp_Status r =? 200) with true by lia. exact Hl.
Qed.

(** The rows whose handlers stand elsewhere: backups and the recovery evidence. *)
Definition left_out (path : string) : bool :=
  String.prefix "/api/admin/backup/" path || (path =?s "/api/admin/systems/{id}/recovery-evidence").

Lemma rows_are_covered : Forall (fun r => rt_method r = "GET" \/ left_out (rt_path r) = true \/
  exists rq q, Routes.pattern_of rq q = (rt_method r, rt_path r)) adminRoutes.
Proof.
  set (put := console_request "PUT" "" ""). set (del := console_request "DELETE" "" "").
  repeat (apply Forall_cons; split; [first [left; reflexivity | right; left; reflexivity | right; right; cbn [rt_method rt_path]]|]);
    try apply List.Forall_nil.
  all: first
    [ exists put, (RCreateUser None); reflexivity | exists put, (RUpdateUser None); reflexivity | exists put, RResetUserMFA; reflexivity
    | exists put, RRevokeUserSessions; reflexivity | exists put, RDeleteUser; reflexivity | exists put, (RRevokeSession ""); reflexivity
    | exists put, (RRevokeApp ""); reflexivity | exists put, (RRetryLogout ""); reflexivity | exists put, (RSetDelegations None); reflexivity
    | exists put, (RCreateGroup None); reflexivity | exists put, (RUpdateGroup None); reflexivity | exists put, RDeleteGroup; reflexivity
    | exists put, (RSetGroupMembership "" None); reflexivity | exists del, (RSetGroupMembership "" None); reflexivity
    | exists put, (RSetEnrollmentPolicy None); reflexivity | exists put, (RCreateAppRole None); reflexivity | exists put, (RDeleteAppRole ""); reflexivity
    | exists put, (RSetAppRoleAssignment "" "" ""); reflexivity | exists del, (RSetAppRoleAssignment "" "" ""); reflexivity
    | exists put, (RSetAppClaimSettings None); reflexivity | exists put, (RSetAppPolicy None); reflexivity
    | exists put, (RSetAppAssignment "" "" None); reflexivity | exists del, (RSetAppAssignment "" "" None); reflexivity
    | exists put, (RSetAppAuthenticationPolicy None); reflexivity | exists put, (RSetAppRequestable None); reflexivity
    | exists put, (RLinkAppRecords None); reflexivity | exists put, (RUnlinkAppRecord None); reflexivity
    | exists put, (RDecide true None); reflexivity | exists put, (RDecide false None); reflexivity
    | exists put, (RCreateConnector None); reflexivity | exists put, (RUpdateConnector None); reflexivity | exists put, (RIssueConnectorToken None); reflexivity
    | exists put, (RRevokeConnectorToken ""); reflexivity | exists put, (RDeleteConnector None); reflexivity
    | exists put, (RResumeSyncDelivery "" [] None); reflexivity | exists put, (RResumeSyncDeliveries None); reflexivity
    | exists put, (RRetryProvisioning ""); reflexivity | exists put, RResumeProvisioning; reflexivity
    | exists put, (RStartReconcile true); reflexivity | exists put, (RStartReconcile false); reflexivity
    | exists put, (RConfigureSystem None); reflexivity | exists put, (RCreateSystem None); reflexivity | exists put, RResyncSystem; reflexivity
    | exists put, RDeleteSystem; reflexivity | exists put, (RCreateClient None); reflexivity | exists put, (RUpdateClient None); reflexivity
    | exists put, RDeleteClient; reflexivity | exists put, (RUpdateClientLauncher None); reflexivity | exists put, (RCreateApplication None); reflexivity
    | exists put, (RUpdateApplication None); reflexivity | exists put, RDeleteApplication; reflexivity | exists put, (RUploadIcon None ""); reflexivity
    | exists put, RAcknowledgeAlert; reflexivity | exists put, (RPutAlertSettings None); reflexivity | exists put, (RPutAttestation None); reflexivity
    | exists put, (RPutSessionLimits None); reflexivity | exists put, (RPutBrandingName None); reflexivity | exists put, (RPutBrandingLogo None); reflexivity
    | exists put, RDeleteBrandingLogo; reflexivity | exists put, (RPutMail None); reflexivity | exists put, (RIssueLink true None); reflexivity
    | exists put, (RIssueLink false None); reflexivity | exists put, (RPreviewPolicy None); reflexivity | exists put, RTestMail; reflexivity
    | exists put, (RTestSystem []); reflexivity | exists put, (RReadBack "" []); reflexivity ].
Qed.

(** C9. Every row of the administrators' table that is no GET, the backup routes
    and the recovery evidence apart, is the route of a modelled request.
    Such a change, answered with success, was admitted by its route's gate
    and left an audit event of this request with its action, the acting
    account and its address; an account link also when its message was not
    accepted (502), because the link is already written. Answered otherwise,
    or merely trying a connection, a policy, the mail relay or a read-back,
    nothing but the audit trail differs from what the gate left. *)
Theorem every_console_change_is_audited :
  (forall r, In r adminRoutes -> rt_method r = "GET" \/ left_out (rt_path r) = true \/ exists rq q, Routes.pattern_of rq q = (rt_method r, rt_path r)) /\
  forall q d rep d', serve (console q) d = (rep, d') ->
  if written q (rp_Status rep) then
    exists r user sess a d1, route_of (pattern_of q).1 (pattern_of q).2 = Some r /\ gate r d = (inr (user, sess, a), d1) /\
      logged sv rq dr user (action_of q) d'
  else exists d1, untouched d1 d' /\
    (d1 = d \/ exists r, route_of (pattern_of q).1 (pattern_of q).2 = Some r /\ (gate r d).2 = d1).
Proof.
  split; [intros r Hr; by apply (proj1 (List.Forall_forall _ _) rows_are_covered)|].
  intros q d rep d'. unfold console. destruct (route_of _ _) as [r|].
  2: { intros [= <- <-]. unfold written. cbn [rp_Status not_found_page]. change (404 =? 200) with false. change (404 =? 502) with false.
       rewrite !andb_false_r. exists d. split; [apply untouched_refl|by left]. }
  unfold require. rewrite serve_bind. destruct (gate r d) as [[rep0|[[user sess] a]] d1] eqn:Eg.
  - intros [= <- <-]. apply gate_status in Eg as Hst.
    assert (written q (rp_Status rep0) = false) as -> by (unfold written; destruct Hst as [<-|[<-|[<-|[]]]]; cbn; by rewrite !andb_false_r).
    exists d1. split; [apply untouched_refl|]. right. exists r. by rewrite Eg.
  - intros Hs. cbn [fst snd] in Hs. apply handlers_answer in Hs. destruct (written q (rp_Status rep)).
    + exists r, user, sess, a, d1. repeat (split; [done|]). done.
    + exists d1. split; [done|]. right. exists r. by rewrite Eg.
Qed.

End route_facts.

(** ** What a delegate reaches *)

Section delegates.
Context (sv : Server) (rq : Request) (dr : WebDraws) (now : Z).

(** The changes a helpdesk, an owner of the application and an owner at the
    inbox may make. *)
Definition recovery_routes : list (string * string) :=
  [("POST", "/api/admin/users/{id}/reset-mfa"); ("POST", "/api/admin/users/{id}/activation-link"); ("POST", "/api/admin/users/{id}/reset-link");
   ("POST", "/api/admin/users/{id}/revoke-sessions"); ("DELETE", "/api/admin/users/{id}/sessions/{sid}");
   ("POST", "/api/admin/users/{id}/apps/{clientId}/revoke"); ("POST", "/api/admin/users/{id}/logouts/{deliveryId}/retry")].

Definition owner_routes : list (string * string) :=
  [("POST", "/api/admin/app-registry/{id}/roles"); ("DELETE", "/api/admin/app-registry/{id}/roles/{roleId}");
   ("PUT", "/api/admin/app-registry/{id}/roles/{roleId}/assignments/{kind}/{principal}");
   ("DELETE", "/api/admin/app-registry/{id}/roles/{roleId}/assignments/{kind}/{principal}");
   ("PUT", "/api/admin/app-registry/{id}/assignments/{kind}/{principal}"); ("DELETE", "/api/admin/app-registry/{id}/assignments/{kind}/{principal}")].

Definition decision_routes : list (string * string) :=
  [("POST", "/api/admin/access-requests/{id}/approve"); ("POST", "/api/admin/access-requests/{id}/deny")].

(** Those of them that hand over a factor or access: a fresh proof is spent. *)
Definition proved_routes : list (string * string) := (take 3 recovery_routes ++ owner_routes ++ decision_routes)%list.

Definition route_in (m p : string) (l : list (string * string)) : bool := existsb (fun x => (x.1 =?s m) && (x.2 =?s p)) l.

Lemma route_in_true m p l : route_in m p l = true <-> In (m, p) l.
Proof.
  unfold route_in. rewrite existsb_exists. split; [intros ([m' p'] & Hin & Hx); cbn in Hx; bool_hyps; by subst|].
  intros Hin. exists (m, p). split; [exact Hin|]. cbn. by rewrite !streqb_refl.
Qed.

(** What each row of the table that is no read asks for. *)
Lemma rows_by_permission : Forall (fun r => rt_method r <> "GET" ->
  (rt_perm r = permAdmin \/ rt_perm r = permRecovery /\ route_in (rt_method r) (rt_path r) recovery_routes = true \/
   rt_perm r = permAppGrants /\ route_in (rt_method r) (rt_path r) owner_routes = true \/
   rt_perm r = permRequests /\ route_in (rt_method r) (rt_path r) decision_routes = true) /\
  (route_in (rt_method r) (rt_path r) proved_routes = true -> rt_stepUp r = true)) adminRoutes.
Proof.
  repeat (apply Forall_cons; split; [intros Hm; first [exfalso; apply Hm; reflexivity | clear Hm; cbn [rt_method rt_path rt_perm rt_stepUp];
    split; [tauto || (right; tauto) || idtac|vm_compute; auto]]|]); try apply List.Forall_nil.
  all: first [left; reflexivity | right; left; split; vm_compute; reflexivity | right; right; left; split; vm_compute; reflexivity
    | right; right; right; split; vm_compute; reflexivity].
Qed.

(** C10. Whatever handler stands behind a row of the administrators' table that
    is no GET, a request it answers with success came from a live session of
    an administrator; or, on the seven recovery routes, of a helpdesk
    delegate addressing neither an administrator nor a delegate; or, on the
    six role and assignment routes, of the owner of that very application;
    or, on the two decision routes, of an owner. An auditor passes none of
    them, and resetting factors, issuing links, editing an application's
    roles or assignments and deciding spend a step-up grant. *)
Theorem delegates_change_only_what_is_theirs r (next : User -> Session -> AccessRights -> Handler Reply) d rep d' :
  In r adminRoutes -> rt_method r <> "GET" ->
  serve (require sv rq dr now (rt_perm r) (rt_stepUp r) next) d = (rep, d') -> rp_Status rep = 200 ->
  exists user sess d0, authenticate (session_cookie_hash rq) (sv_limits sv) now d = (Some (user, sess), d0) /\
    (u_Role user = "admin" \/
     (In (rt_method r, rt_path r) recovery_routes /\ delegated d0 (u_ID user) "helpdesk" /\
      forall target, get_user now d0 (r_PathID rq) = Some target ->
        u_Role target <> "admin" /\ forall kind, In kind ["auditor"; "helpdesk"; "app_owner"] -> ~ delegated d0 (u_ID target) kind) \/
     (In (rt_method r, rt_path r) owner_routes /\ (u_ID user, "app_owner", r_PathID rq) ∈ admin_delegations d0) \/
     (In (rt_method r, rt_path r) decision_routes /\ delegated d0 (u_ID user) "app_owner")) /\
    (In (rt_method r, rt_path r) proved_routes -> exists d1,
      ConsumeStepUpToken (HashSHA256 (r_StepUpHeader rq)) (u_ID user) (s_ID sess) (stepUpOperation (route rq)) now d0 = (true, d1)).
Proof.
  intros Hr Hm Hs Hst. pose proof (proj1 (List.Forall_forall _ _) rows_by_permission r Hr Hm) as [Hrow Hsu].
  unfold require in Hs. rewrite serve_bind in Hs. destruct (admin_gate sv rq dr now (rt_perm r) (rt_stepUp r) d) as [[rep0|[[user sess] a]] d1] eqn:Eg.
  { injection Hs as <- <-. apply gate_status in Eg. rewrite Hst in Eg. cbn in Eg. lia. }
  apply admin_gate_admits in Eg as (d0 & status & Ha & _ & _ & _ & -> & Hal & Hpr & Hgr). exists user, sess, d0. split; [exact Ha|]. split.
  - destruct (decide (u_Role user = "admin")) as [|Hna]; [by left|right].
    assert (In (rt_perm r) permissions) as Hp by (destruct Hrow as [->|[[-> _]|[[-> _]|[-> _]]]]; cbn; tauto).
    apply (allows_entitled d0 user (rt_perm r) (r_PathID rq) Hp) in Hal. unfold entitled in Hal.
    rewrite (reach_spec rq now d0 user (rt_perm r) Hp) in Hpr. unfold out_of_reach, privileged in Hpr.
    destruct Hrow as [E|[[E Hin]|[[E Hin]|[E Hin]]]]; rewrite E in Hal, Hpr; try apply route_in_true in Hin.
    + exfalso. destruct Hal as [?|[[Hx _]|[[Hx _]|[[Hx _]|[Hx _]]]]]; [done|..]; cbn in Hx; repeat destruct Hx as [Hx|Hx]; try discriminate Hx; done.
    + left. split; [exact Hin|]. split.
      * destruct Hal as [?|[[Hx _]|[[_ Hx]|[[Hx _]|[Hx _]]]]]; [done| |exact Hx|..]; cbn in Hx; repeat destruct Hx as [Hx|Hx]; try discriminate Hx; done.
      * intros target Ht. split; [intros Hta|intros kind Hk Hd]; apply Hpr; (split; [cbn; tauto|]); (split; [done|]); exists target; split; eauto.
    + right. left. split; [exact Hin|]. destruct Hal as [?|[[Hx _]|[[Hx _]|[[_ Hx]|[Hx _]]]]]; [done|..|exact Hx|]; cbn in Hx; repeat destruct Hx as [Hx|Hx]; try discriminate Hx; done.
    + right. right. split; [exact Hin|]. destruct Hal as [?|[[Hx _]|[[Hx _]|[[Hx _]|[_ Hx]]]]]; [done|..|exact Hx]; cbn in Hx; repeat destruct Hx as [Hx|Hx]; try discriminate Hx; done.
  - intros Hin%route_in_true. rewrite (Hsu Hin) in Hgr. apply consume_grant_spec in Hgr as [_ Hgr]. eauto.
Qed.
End delegates.

(** ** Witnesses *)

#[local] Existing Instances sample_codec toy_primitives toy_aead sample_far toy_formats toy_unicode toy_images toy_mailing.

(** The routes of one request. *)
Notation toy_console rq := (console toy_server rq toy_web_draws false false (repeat 7 32) "https://id.example.org" "date" (fun s => s) String.append String.append t0).

(** Alice renames the organisation. *)
Definition rename : ConsoleRequest := RPutBrandingName (Some (Some "Acme")).

Lemma every_console_change_is_audited_witness : exists rep d',
  serve (toy_console rename_request rename) (console_db "alice") = (rep, d') /\ rp_Status rep = 200 /\
  exists user, logged toy_server rename_request toy_web_draws user "admin.branding_name_changed" d'.
Proof.
  destruct (serve (toy_console rename_request rename) (console_db "alice")) as [rep d'] eqn:E.
  assert (rp_Status rep = 200) as Hs.
  { apply (f_equal (fun x => rp_Status x.1)) in E. cbn [fst] in E. rewrite <- E. vm_compute. reflexivity. }
  exists rep, d'. split; [reflexivity|]. split; [exact Hs|].
  pose proof (proj2 (every_console_change_is_audited toy_server rename_request toy_web_draws false false (repeat 7 32) "https://id.example.org" "date"
    (fun s => s) String.append String.append t0) rename (console_db "alice") rep d' E) as Ht.
  rewrite Hs in Ht. destruct Ht as (r & user & sess & a & d1 & _ & _ & Hl). exists user. exact Hl.
Defined.

(** Bob, a helpdesk delegate, signs carol out everywhere; an auditor may not. *)
Definition helpdesk_db : DB :=
  on_admin_delegations (union {[ ("bob", "helpdesk", "") ]}) (on_users <["carol" := sample_user "carol" "user"]> (console_db "bob")).
Definition auditor_db : DB :=
  on_admin_delegations (union {[ ("bob", "auditor", "") ]}) (on_users <["carol" := sample_user "carol" "user"]> (console_db "bob")).
Definition sign_out_request (id : string) : Request := console_request "POST" "/api/admin/users/revoke-sessions" id.
Definition sign_out_row : AdminRoute := MkAdminRoute "POST" "/api/admin/users/{id}/revoke-sessions" permRecovery false.
Definition sign_out (rq : Request) : Handler Reply :=
  require toy_server rq toy_web_draws t0 (rt_perm sign_out_row) (rt_stepUp sign_out_row)
    (fun user _ _ => Admin.RevokeUserSessions toy_server rq toy_web_draws (fun s => s) t0 user).

Lemma delegates_change_only_what_is_theirs_witness : exists rep d' user sess d0,
  serve (sign_out (sign_out_request "carol")) helpdesk_db = (rep, d') /\ rp_Status rep = 200 /\
  authenticate (session_cookie_hash (sign_out_request "carol")) None t0 helpdesk_db = (Some (user, sess), d0) /\
  u_Role user = "user" /\ delegated d0 (u_ID user) "helpdesk" /\
  rp_Status (serve (sign_out (sign_out_request "alice")) helpdesk_db).1 = 403 /\
  rp_Status (serve (sign_out (sign_out_request "carol")) auditor_db).1 = 403.
Proof.
  destruct (serve (sign_out (sign_out_request "carol")) helpdesk_db) as [rep d'] eqn:E.
  assert (rp_Status rep = 200) as Hs.
  { apply (f_equal (fun x => rp_Status x.1)) in E. cbn [fst] in E. rewrite <- E. vm_compute. reflexivity. }
  assert (In sign_out_row adminRoutes) as Hin by (do 14 right; left; reflexivity).
  destruct (delegates_change_only_what_is_theirs toy_server (sign_out_request "carol") toy_web_draws t0 sign_out_row _ helpdesk_db rep d'
    Hin ltac:(discriminate) E Hs) as (user & sess & d0 & Ha & Hc & _).
  assert (u_Role user = "user") as Hr.
  { assert (option_map (fun y : User * Session => u_Role y.1) (authenticate (session_cookie_hash (sign_out_request "carol")) None t0 helpdesk_db).1 = Some "user") as Ho
      by (vm_compute; reflexivity).
    change (sv_limits toy_server) with (@None SessionLimits) in Ha. rewrite Ha in Ho. by injection Ho. }
  exists rep, d', user, sess, d0. split; [reflexivity|]. split; [exact Hs|]. split; [exact Ha|]. split; [exact Hr|].
  split; [|split; vm_compute; reflexivity].
  destruct Hc as [Hc|[(_ & Hc & _)|[(Hc & _)|(Hc & _)]]]; [congruence|exact Hc|exfalso|exfalso];
    cbn in Hc; repeat destruct Hc as [Hc|Hc]; try discriminate Hc; exact Hc.
Defined.
